(* ===== verification/_CoqProject ===== *)
-Q . S2P
Prelude.v
CString.v
Bitmap.v
Machine.v
DList.v
Mmu.v
PageMem.v
BootMem.v
Sched.v
Sync.v
Heap.v
HeapSpec.v
HeapBoot.v
Stdio.v
Console.v
IoQueue.v
Cpu.v
Keyboard.v
Thread.v
ThreadSpec.v
Ide.v
DiskBytes.v
Screen.v
FsBase.v
Inode.v
Path.v
Dir.v
File.v
Fs.v
Format.v
FileSpec.v
FsAlloc.v
FileWrite.v
DirSpec.v
FormatSpec.v
FsDemo.v
Shell.v
ShellSpec.v
ShellCmd.v
ShellRun.v
Fork.v
ForkSpec.v
ForkDemo.v
Parts.v
PartsSpec.v
PartsDemo.v
Syscall.v
SyscallSpec.v
Exec.v
ExecSpec.v
ExecDemo.v
