(* ===== verification/Prelude.v ===== *)
(** * LOS: a verification development of a small x86 operating system

    ** The program

    LOS boots a 32-bit kernel that manages memory (kernel/losmemory.c), runs
    kernel threads and user processes under a round-robin scheduler
    (thread/thread.c, userprog/), synchronises them with semaphores and locks
    (thread/sync.c), drives a timer, a keyboard, a screen and two IDE disks
    (device/), keeps a file system with inodes and directories on a partition
    (fs/) and starts a command interpreter (shell/).  Everything rests on a
    string library, bitmaps and intrusive doubly linked lists (lib/).

    The parts call each other downwards.  Threads wait on lists that are nodes
    inside their control blocks; locks disable interrupts and block threads; the
    page allocator takes frames from pools by bitmap and maps them through the
    page directory's self reference; the block heap carves pages into blocks;
    the disk driver sleeps until an interrupt; the file system uses the driver
    and the heap; the shell uses the file system's calls.

    ** How code becomes definitions

    A C function is a definition of the same name.  Pure code on buffers is a
    function into [outcome]: normal return, failed assertion, access outside the
    object, endless loop or suspended thread.  Kernel code is in the monad [K]
    over [kstate] (Machine), file-system code in the monad [F] over [fs]
    (FsBase).  A buffer is the list of its bytes, of the length the C declaration
    gives it, and [rd] and [wr] outside it are [Fault].  A pointer into a buffer
    is an [option] of a position; an address of a kernel object is a [Z].
    Unsigned and signed machine integers are [Z] with [u8], [u16], [u32], [i8],
    [i16] and [i32] written where C converts or wraps.  A loop that is not
    structural has fuel; the theorem about it shows that the fuel given is
    enough, and the bound comes from what the loop walks over: the length of the
    buffer ([walk_fuel]), the number of nodes in memory ([list_fuel]), the 32
    bits of a number ([itoa_fuel]), the limit of the loop itself ([busy_wait]),
    or the length of a path name ([cwd_loop]: every level adds a character to a
    buffer of 128).

    ** The files

    - Prelude: [outcome], buffers, machine integers, the tactics and the hint
      database [los].
    - CString (lib/string.c), Bitmap (lib/kernel/bitmap.c), DList
      (lib/kernel/list.c), Stdio (lib/stdio.c, lib/kernel/print2.c): the library.
    - Machine: the kernel's state and the monad [K]; Mmu: the page walk, the
      self-mapped tables and the entries' addresses.
    - PageMem, BootMem, Heap, HeapSpec, HeapBoot (kernel/losmemory.c, the page
      tables of boot/loader.S): pools, page allocation, the block heap and their
      set-up.
    - Sched (thread/thread.c, thread/switch.S, userprog/process.c, device/time.c):
      the scheduler.  Sync (thread/sync.c): semaphores and locks, with the
      transition system [LockSys] of threads that interleave.
    - Console, IoQueue, Keyboard, Ide (device/), Cpu (kernel/interrupt.c,
      userprog/tss.c, device/time.c): devices and descriptor tables.  Screen
      (lib/kernel/print.S): the video memory and the cursor.
    - Parts (the rest of device/ide.c): identification of the drives and the scan
      of the partition tables; PartsSpec, PartsDemo: its theorems.
    - Thread, ThreadSpec (thread/thread.c, userprog/process.c,
      userprog/wait_exit.c): creation, listing and reaping of threads.
    - DiskBytes: sectors as bytes and words.  FsBase: the structures of fs/, the
      state [fs] and the interface [Services].  Inode, Path, Dir, File, Fs, Format
      (fs/): the file system; FileSpec, FsAlloc, FileWrite, DirSpec, FormatSpec:
      its theorems; FsDemo: the theorems at a concrete file system.
    - Shell, ShellCmd (shell/, and [sys_make_user_prog] of
      kernel/syscall-init.c): the shell; ShellSpec, ShellRun: its theorems.
    - Fork (userprog/fork.c, userprog/wait_exit.c): copying and ending a process;
      ForkSpec, ForkDemo: two address spaces, the directory of a new process and
      the copy of the pages.
    - Exec (userprog/exec.c): loading a program, over the kernel's state and the
      file system's together ([xstate]); ExecSpec, ExecDemo: a segment in memory.
    - Syscall (kernel/syscall-init.c, lib/user/loscall.c, the entry of interrupt
      0x80 in kernel/kernel.S): the table, the registers and the wrappers;
      SyscallSpec: a call from the wrapper to the kernel function and back.

    ** Interfaces

    [Services] (FsBase) is what the file system needs of the disk driver and the
    heap: reading and writing sectors, blocks in two pools, and the laws about
    them.  The file system's theorems are proved against it.  [sim_services], a
    disk as a value and addresses handed out in order, is its instance and
    carries the concrete runs.  Its laws are an assumption about the driver and
    the heap: for transfers of one sector from a sound disk and for single calls
    of the heap [Ide.ide_transfer_correct] and the theorems of HeapSpec say the
    same of the models themselves; that a transfer of several sectors moves them
    all is assumed here, since the driver's way of doing it is not what the ATA
    standard describes.  [Drive] (Ide) is what the driver needs of the hardware,
    the protocol of the PIO commands sector by sector, errors and time-outs
    included; [SimDrive] is an instance.  [Handlers] (Syscall) is the set of
    kernel functions behind the system calls, so that the dispatch is proved for
    whatever they do, with the words behind the table and the code at any other
    address, which an unchecked number reaches.  In [xstate] (Exec) the memory of
    the services is their own: a buffer that a file operation takes for the time
    of the call is not a page of [kstate].

    ** The theorems

    - Library: the string functions on every NUL-terminated buffer,
      [bitmap_scan_first_fit], [list_ops_refine] (lists in memory refine
      sequences), [vsprintf_correct].
    - Memory: [mem_init_establishes] and [mem_pool_init_establishes] (the
      invariants hold after start-up), [malloc_page_kernel_correct],
      [malloc_mfree_roundtrip], [sys_malloc_correct], [sys_free_correct] and
      [heap_refines_set] (any sequence of calls with requests of up to 3839
      pages; [sys_malloc_too_large_panics] beyond).
    - Scheduling: [sched_event_simulates] (a queue of threads as the abstract
      machine), [round_robin] (turns counted in timer interrupts); [lock_mutual_exclusion], [lock_no_lost_wakeup] and
      [lock_never_panics] by rule induction over interleavings.
    - Devices: [ioq_refines_fifo], [keyboard_handler_correct],
      [ide_transfer_correct], [show_refines_terminal] (the screen is a terminal),
      [partition_scan_correct].
    - Threads and processes: [thread_start_correct], [sys_wait_correct];
      [create_page_dir_correct] and [copy_body_stack3_correct] (fork);
      [load_segments_correct] (exec); [user_call_correct] (system calls).
    - File system: [partition_format_correct] and [mount_partition_correct];
      [inode_sync_correct] and [inode_open_close]; [search_dir_entry_correct],
      [sync_dir_entry_correct], [dir_add_search] and [dir_read_enumerates];
      [file_write_correct] (contents, inode and both copies of the bitmap) and
      [file_read_correct] over direct and indirect blocks.
    - Shell: [shell_pass_correct] (line editor, words, dispatch) and
      [make_clear_abs_path_correct] (canonical paths).
    - Behaviour the code does not mean to have is stated as theorems too, for
      instance [allocate_pid_race], [inode_sync_truncates],
      [sync_dir_entry_duplicates], [shell_cd_overruns],
      [format_small_loses_root], [ide_write_fault_unnoticed],
      [segment_load_first_page_panics], [segment_load_no_frame_keeps_lock],
      [partition_scan_self_link_never_returns], [syscall_unchecked].

    ** Not modelled

    Assembly other than the switch of stacks, the first page tables, the screen
    and the entry of system calls: mbr.S, the rest of loader.S and the interrupt
    stubs of kernel.S run before or around the modelled code on hardware state
    that no other part reads.  In-line port access shows as the hardware
    interfaces above.  kernel/main.c calls the initialisations in order.  The
    printing inside [PANIC], the tests and the sample programs.  [load] and
    [sys_execv] are modelled as a whole; the theorems are about the segments. *)
From Stdlib Require Export ZArith Lia.
From stdpp Require Export base numbers option gmap list.

Declare Scope los_scope.
Delimit Scope los_scope with los.
Open Scope Z_scope.
Open Scope los_scope.

(** ** Outcomes of kernel code

    [Ok] is a normal return.  [Panic] is a failed [ASSERT] or a [PANIC]
    (lib/user/debug.h: the kernel prints and spins with interrupts off).
    [Fault] is an access outside the object the code works on, or through a
    NULL pointer (the kernel maps the first megabyte, so such an access need not
    trap; the model gives it no meaning).  [Spin] is a loop that outlives its fuel.  [Blocked] is a
    call that would suspend the running thread. *)
Inductive outcome (A : Type) : Type :=
| Ok (a : A)
| Panic
| Fault
| Spin
| Blocked.
Arguments Ok {A} _.
Arguments Panic {A}.
Arguments Fault {A}.
Arguments Spin {A}.
Arguments Blocked {A}.

#[global] Instance outcome_eq_dec `{EqDecision A} : EqDecision (outcome A).
Proof. solve_decision. Defined.

#[global] Instance outcome_ret : MRet outcome := @Ok.
#[global] Instance outcome_bind : MBind outcome := λ A B f o,
  match o with
  | Ok a => f a
  | Panic => Panic
  | Fault => Fault
  | Spin => Spin
  | Blocked => Blocked
  end.

(** [o ⇓ P]: the computation returns normally and its result satisfies [P]. *)
Definition returns {A} (o : outcome A) (P : A → Prop) : Prop :=
  match o with Ok a => P a | _ => False end.
Notation "o ⇓ P" := (returns o P) (at level 70, no associativity) : los_scope.

Lemma returns_ok {A} (a : A) (P : A → Prop) : P a → Ok a ⇓ P.
Proof. done. Qed.

Lemma returns_bind {A B} (o : outcome A) (f : A → outcome B) (P : B → Prop) :
  (o ⇓ λ a, f a ⇓ P) → (o ≫= f) ⇓ P.
Proof. by destruct o. Qed.

Lemma returns_mono {A} (o : outcome A) (P Q : A → Prop) :
  o ⇓ P → (∀ a, P a → Q a) → o ⇓ Q.
Proof. destruct o; simpl; auto. Qed.

Lemma returns_eq {A} (o : outcome A) (a : A) : o = Ok a → o ⇓ (λ x, x = a).
Proof. by intros ->. Qed.

Lemma returns_inv {A} (o : outcome A) (P : A → Prop) :
  o ⇓ P → ∃ a, o = Ok a ∧ P a.
Proof. destruct o; simpl; try done; eauto. Qed.

Lemma bind_ok {A B} (a : A) (f : A → outcome B) : (Ok a ≫= f) = f a.
Proof. reflexivity. Qed.

(** [ASSERT(c)]. *)
Definition ASSERT (c : bool) : outcome unit := if c then Ok () else Panic.

Lemma ASSERT_true (c : bool) : c = true → ASSERT c = Ok ().
Proof. by intros ->. Qed.

(** A value that must be present, e.g. the target of a pointer. *)
Definition deref {A} (o : option A) : outcome A :=
  match o with Some a => Ok a | None => Fault end.

(** ** Machine integers *)
Definition u8 (z : Z) : Z := z mod 2 ^ 8.
Definition u16 (z : Z) : Z := z mod 2 ^ 16.
Definition u32 (z : Z) : Z := z mod 2 ^ 32.
Definition i8 (z : Z) : Z := (z + 2 ^ 7) mod 2 ^ 8 - 2 ^ 7.
Definition i16 (z : Z) : Z := (z + 2 ^ 15) mod 2 ^ 16 - 2 ^ 15.
Definition i32 (z : Z) : Z := (z + 2 ^ 31) mod 2 ^ 32 - 2 ^ 31.

(** kernel/func.h: [DIV_ROUND_UP(X, STEP)] on [uint32_t] operands. *)
Definition DIV_ROUND_UP (X STEP : Z) : Z := u32 (u32 (X + STEP) - 1) / STEP.

Lemma u8_id z : 0 ≤ z < 256 → u8 z = z.
Proof. apply Z.mod_small. Qed.
Lemma u16_id z : 0 ≤ z < 65536 → u16 z = z.
Proof. apply Z.mod_small. Qed.
Lemma u32_id z : 0 ≤ z < 2 ^ 32 → u32 z = z.
Proof. apply Z.mod_small. Qed.
Lemma u8_range z : 0 ≤ u8 z < 256.
Proof. apply Z.mod_pos_bound. lia. Qed.
Lemma u32_range z : 0 ≤ u32 z < 2 ^ 32.
Proof. apply Z.mod_pos_bound. lia. Qed.
Lemma i8_id z : -128 ≤ z < 128 → i8 z = z.
Proof. intros. unfold i8. rewrite Z.mod_small; lia. Qed.
Lemma i32_id z : - 2 ^ 31 ≤ z < 2 ^ 31 → i32 z = z.
Proof. intros. unfold i32. rewrite Z.mod_small; lia. Qed.
Lemma i8_inj a b : 0 ≤ a < 256 → 0 ≤ b < 256 → i8 a = i8 b → a = b.
Proof.
  intros Ha Hb. unfold i8.
  pose proof (Z.div_mod (a + 2 ^ 7) (2 ^ 8) ltac:(lia)).
  pose proof (Z.div_mod (b + 2 ^ 7) (2 ^ 8) ltac:(lia)).
  pose proof (Z.mod_pos_bound (a + 2 ^ 7) (2 ^ 8) ltac:(lia)).
  pose proof (Z.mod_pos_bound (b + 2 ^ 7) (2 ^ 8) ltac:(lia)).
  intros. assert ((a + 2 ^ 7) / 2 ^ 8 = (b + 2 ^ 7) / 2 ^ 8) by nia. lia.
Qed.
Lemma DIV_ROUND_UP_spec X STEP :
  0 ≤ X → 0 < STEP → X + STEP ≤ 2 ^ 32 - 1 →
  DIV_ROUND_UP X STEP = (X + STEP - 1) / STEP.
Proof.
  intros. unfold DIV_ROUND_UP. rewrite (u32_id (X + STEP)) by lia.
  rewrite u32_id by lia. reflexivity.
Qed.

(** ** Arrays indexed by machine integers

    A C array (or the memory a pointer gives access to) is a list; an access
    outside it is a [Fault]. *)
Definition rd {A} (l : list A) (i : Z) : outcome A :=
  if 0 <=? i then deref (l !! Z.to_nat i) else Fault.

Definition wr {A} (l : list A) (i : Z) (v : A) : outcome (list A) :=
  if (0 <=? i) && (i <? Z.of_nat (length l)) then Ok (<[Z.to_nat i := v]> l)
  else Fault.

(** [len l] is the length of an array as an integer; [l @ i] is the value at a
    valid index and [d] elsewhere, for statements only. *)
Definition len {A} (l : list A) : Z := Z.of_nat (length l).
Definition nthz (l : list Z) (i : Z) : Z := if 0 <=? i then nth (Z.to_nat i) l 0 else 0.
Notation "l @@ i" := (nthz l i) (at level 9, i at level 9, format "l @@ i") : los_scope.

Section arrays.
Context {A : Type}.
Implicit Types (l : list A) (i j : Z) (v : A).

Lemma len_nonneg l : 0 ≤ len l.
Proof. unfold len. lia. Qed.

Lemma len_app l1 l2 : len (l1 ++ l2) = len l1 + len l2.
Proof. unfold len. rewrite length_app. lia. Qed.

Lemma len_insert l n v : len (<[n := v]> l) = len l.
Proof. unfold len. by rewrite length_insert. Qed.

Lemma wr_ok l i v : 0 ≤ i < len l → wr l i v = Ok (<[Z.to_nat i := v]> l).
Proof.
  unfold len, wr. intros [? ?].
  destruct (Z.leb_spec 0 i), (Z.ltb_spec i (Z.of_nat (length l))); simpl; lia || done.
Qed.

Lemma wr_inv l i v l' :
  wr l i v = Ok l' → 0 ≤ i < len l ∧ l' = <[Z.to_nat i := v]> l.
Proof.
  unfold wr, len. destruct (Z.leb_spec 0 i), (Z.ltb_spec i (Z.of_nat (length l)));
    simpl; intros; simplify_eq; split; lia || done.
Qed.

Lemma wr_fault l i v : ¬ (0 ≤ i < len l) → wr l i v = Fault.
Proof.
  unfold wr, len. intros H.
  destruct (Z.leb_spec 0 i), (Z.ltb_spec i (Z.of_nat (length l))); simpl; lia || done.
Qed.

Lemma rd_fault l i : ¬ (0 ≤ i < len l) → rd l i = Fault.
Proof.
  unfold rd, len. intros H. destruct (Z.leb_spec 0 i); [|done].
  assert (l !! Z.to_nat i = None) as -> by (apply lookup_ge_None_2; lia). done.
Qed.

Lemma rd_inv l i v : rd l i = Ok v → 0 ≤ i < len l ∧ l !! Z.to_nat i = Some v.
Proof.
  unfold rd, len. destruct (Z.leb_spec 0 i); [|done].
  destruct (l !! Z.to_nat i) eqn:E; simpl; intros; simplify_eq.
  apply lookup_lt_Some in E. split; [lia|done].
Qed.

Lemma len_snoc l v : len (l ++ [v]) = len l + 1.
Proof. by rewrite len_app. Qed.

(** Access at the split point of a buffer [pre ++ v :: post]. *)
Lemma wr_mid l v l' v' i : i = len l → wr (l ++ v :: l') i v' = Ok (l ++ v' :: l').
Proof.
  intros ->. rewrite wr_ok.
  - unfold len. by rewrite Nat2Z.id, insert_app_r_alt, Nat.sub_diag by lia.
  - rewrite len_app. unfold len; simpl. lia.
Qed.

Lemma rd_some l i v : 0 ≤ i → l !! Z.to_nat i = Some v → rd l i = Ok v.
Proof. intros ? H. unfold rd. destruct (Z.leb_spec 0 i); [|lia]. by rewrite H. Qed.

Lemma rd_mid l v l' i : i = len l → rd (l ++ v :: l') i = Ok v.
Proof.
  intros ->. apply rd_some; [apply len_nonneg|]. unfold len. rewrite Nat2Z.id.
  by apply list_lookup_middle.
Qed.
End arrays.

Lemma nthz_lookup (l : list Z) i v :
  0 ≤ i → l !! Z.to_nat i = Some v → l@@i = v.
Proof.
  intros ? H. unfold nthz. destruct (Z.leb_spec 0 i); [|lia]. by apply nth_lookup_Some.
Qed.

Lemma rd_ok (l : list Z) i : 0 ≤ i < len l → rd l i = Ok (l@@i).
Proof.
  unfold len. intros [H1 H2].
  destruct (lookup_lt_is_Some_2 l (Z.to_nat i) ltac:(lia)) as [v Hv].
  rewrite (rd_some _ _ v) by done. by rewrite (nthz_lookup _ _ v).
Qed.

Lemma nthz_insert_eq (l : list Z) i v : 0 ≤ i < len l → (<[Z.to_nat i := v]> l)@@i = v.
Proof.
  unfold len. intros. apply nthz_lookup; [lia|]. apply list_lookup_insert_eq. lia.
Qed.

Lemma nthz_insert_ne (l : list Z) i j v : 0 ≤ i → i ≠ j → (<[Z.to_nat i := v]> l)@@j = l@@j.
Proof.
  intros. unfold nthz. destruct (Z.leb_spec 0 j); [|done].
  rewrite !nth_lookup. rewrite list_lookup_insert_ne by lia. done.
Qed.

Lemma nthz_in (l : list Z) i (P : Z → Prop) : Forall P l → 0 ≤ i < len l → P (l@@i).
Proof.
  unfold len. intros HF [? ?].
  destruct (lookup_lt_is_Some_2 l (Z.to_nat i) ltac:(lia)) as [v Hv].
  rewrite (nthz_lookup _ _ v) by done. by eapply Forall_lookup_1 in HF.
Qed.

(** Two arrays with the same length and the same elements are equal. *)
Lemma nthz_ext (l1 l2 : list Z) :
  len l1 = len l2 → (∀ i, 0 ≤ i < len l1 → l1@@i = l2@@i) → l1 = l2.
Proof.
  unfold len. intros Hl H. apply list_eq_same_length with (length l2); [done|lia|].
  intros i x y Hi Hx Hy. specialize (H (Z.of_nat i) ltac:(lia)).
  erewrite !nthz_lookup in H by (try rewrite Nat2Z.id; lia || done). done.
Qed.

Definition is_byte (b : Z) : Prop := 0 ≤ b < 256.
#[global] Instance is_byte_dec b : Decision (is_byte b).
Proof. unfold is_byte. apply _. Defined.
Definition bytes (l : list Z) : Prop := Forall is_byte l.

Lemma bytes_insert l n v : bytes l → is_byte v → bytes (<[n := v]> l).
Proof. intros. by apply Forall_insert. Qed.

(** ** Automation *)
Create HintDb los.
Create Rewrite HintDb los.
#[export] Hint Resolve len_nonneg bytes_insert u8_range u32_range : los.
#[export] Hint Rewrite @len_app @len_insert : los.

(** Decide the boolean integer tests of the code. *)
Ltac zbool :=
  repeat match goal with
  | |- context [?a <=? ?b] => destruct (Z.leb_spec a b)
  | |- context [?a <? ?b] => destruct (Z.ltb_spec a b)
  | |- context [?a =? ?b] => destruct (Z.eqb_spec a b)
  | H : context [?a <=? ?b] |- _ => destruct (Z.leb_spec a b)
  | H : context [?a <? ?b] |- _ => destruct (Z.ltb_spec a b)
  | H : context [?a =? ?b] |- _ => destruct (Z.eqb_spec a b)
  end; simpl in *; try lia; try done.

(** Run one bind of a computation whose head has a known result. *)
Ltac ok_step := apply returns_bind.
Ltac inv_ok :=
  repeat match goal with
  | H : Ok _ = Ok _ |- _ => injection H as H; subst
  | H : Panic = Ok _ |- _ => discriminate H
  | H : Fault = Ok _ |- _ => discriminate H
  | H : Spin = Ok _ |- _ => discriminate H
  | H : Blocked = Ok _ |- _ => discriminate H
  end.

(** The first step of a computation known to return. *)
Lemma bind_inv {A B} (o : outcome A) (f : A → outcome B) b :
  o ≫= f = Ok b → ∃ a, o = Ok a ∧ f a = Ok b.
Proof. destruct o; simpl; intros; try done; eauto. Qed.

(** ** Filtered lists *)
Lemma filter_ext_in {A} (P Q : A → Prop) `{!∀ x, Decision (P x), !∀ x, Decision (Q x)} (l : list A) :
  (∀ x, x ∈ l → P x ↔ Q x) → base.filter P l = base.filter Q l.
Proof.
  induction l as [|x l IH]; intros Hin; [done|]. rewrite !filter_cons, IH by set_solver.
  pose proof (Hin x ltac:(set_solver)). repeat case_decide; tauto || done.
Qed.
Lemma filter_all {A} (P : A → Prop) `{!∀ x, Decision (P x)} (l : list A) :
  (∀ x, x ∈ l → P x) → base.filter P l = l.
Proof.
  induction l as [|x l IH]; intros Hin; [done|]. rewrite filter_cons_True, IH by set_solver. done.
Qed.
Lemma filter_none {A} (P : A → Prop) `{!∀ x, Decision (P x)} (l : list A) :
  (∀ x, x ∈ l → ¬ P x) → base.filter P l = [].
Proof.
  induction l as [|x l IH]; intros Hin; [done|]. rewrite filter_cons_False, IH by set_solver. done.
Qed.

(** The first match of a boolean search. *)
Lemma find_first {A} (P : A → bool) (l : list A) :
  (List.find P l = None ∧ ∀ x, x ∈ l → P x = false) ∨
  (∃ l1 x l2, List.find P l = Some x ∧ l = l1 ++ x :: l2 ∧ P x = true ∧ ∀ y, y ∈ l1 → P y = false).
Proof.
  induction l as [|x l IH]; cbn [List.find]; [left; set_solver|]. destruct (P x) eqn:E.
  - right. exists [], x, l. set_solver.
  - destruct IH as [[-> Hn]|(l1 & y & l2 & -> & -> & Hy & Hn)].
    + left. split; [done|]. intros y [->|Hy]%elem_of_cons; eauto.
    + right. exists (x :: l1), y, l2. split_and!; [done|done|done|]. intros z [->|Hz]%elem_of_cons; eauto.
Qed.
