(* ===== verification/CString.v ===== *)
(** * lib/string.c: byte blocks and NUL-terminated strings

    A buffer is the list of its bytes (values 0..255); a pointer into it is an
    offset, and NULL is [None].  [char] is signed on this target, so a byte
    read through a [char *] is [i8 b] when it is compared.  Source and
    destination of the copying functions are distinct objects.  Loops recurse
    on the byte count or, for strings, on the size of the buffer they read. *)
From S2P Require Import Prelude.

Definition ptr := option Z.

(** The [ASSERT(p != NULL)] that opens every function of the file. *)
Definition nonnull (p : ptr) : outcome Z :=
  match p with Some o => Ok o | None => Panic end.

(** Reduce the binds of a computation, leaving its calls folded. *)
Ltac obind := cbn [nonnull mbind outcome_bind mret outcome_ret].

Fixpoint memset_loop (buf : list Z) (pd value : Z) (size : nat) : outcome (list Z) :=
  match size with
  | O => Ok buf
  | S size => buf ← wr buf pd value; memset_loop buf (pd + 1) value size
  end.

Definition memset (buf : list Z) (dst : ptr) (value size : Z) : outcome (list Z) :=
  pd ← nonnull dst; memset_loop buf pd (u8 value) (Z.to_nat size).

Fixpoint memcpy_loop (buf : list Z) (pd : Z) (sbuf : list Z) (ps : Z) (size : nat)
    : outcome (list Z) :=
  match size with
  | O => Ok buf
  | S size =>
      b ← rd sbuf ps; buf ← wr buf pd b;
      memcpy_loop buf (pd + 1) sbuf (ps + 1) size
  end.

Definition memcpy (buf : list Z) (dst : ptr) (sbuf : list Z) (src : ptr) (size : Z)
    : outcome (list Z) :=
  pd ← nonnull dst; ps ← nonnull src;
  memcpy_loop buf pd sbuf ps (Z.to_nat size).

Fixpoint memcmp_loop (abuf : list Z) (pa : Z) (bbuf : list Z) (pb : Z) (size : nat)
    : outcome Z :=
  match size with
  | O => Ok 0
  | S size =>
      x ← rd abuf pa; y ← rd bbuf pb;
      if negb (i8 x =? i8 y) then Ok (if i8 y <? i8 x then 1 else -1)
      else memcmp_loop abuf (pa + 1) bbuf (pb + 1) size
  end.

Definition memcmp (abuf : list Z) (a : ptr) (bbuf : list Z) (b : ptr) (size : Z)
    : outcome Z :=
  pa ← nonnull a; pb ← nonnull b; memcmp_loop abuf pa bbuf pb (Z.to_nat size).

(** The copying loop of [strcpy] and [strcat]: stops after copying a NUL. *)
Fixpoint strcpy_loop (fuel : nat) (buf : list Z) (dst : Z) (sbuf : list Z) (src : Z)
    : outcome (list Z) :=
  match fuel with
  | O => Spin
  | S fuel =>
      c ← rd sbuf src; buf ← wr buf dst c;
      if c =? 0 then Ok buf else strcpy_loop fuel buf (dst + 1) sbuf (src + 1)
  end.

(** The fuel of a loop that walks a buffer: one more read than it has bytes. *)
Definition walk_fuel (buf : list Z) : nat := S (length buf).

Definition strcpy (buf : list Z) (dst : ptr) (sbuf : list Z) (src : ptr)
    : outcome (list Z * ptr) :=
  pd ← nonnull dst; ps ← nonnull src;
  buf ← strcpy_loop (walk_fuel sbuf) buf pd sbuf ps;
  mret (buf, dst).

(** The loop of [strlen], returning the final [p], one past the NUL. *)
Fixpoint strlen_loop (fuel : nat) (buf : list Z) (p : Z) : outcome Z :=
  match fuel with
  | O => Spin
  | S fuel =>
      c ← rd buf p;
      if c =? 0 then Ok (p + 1) else strlen_loop fuel buf (p + 1)
  end.

Definition strlen (buf : list Z) (str : ptr) : outcome Z :=
  s ← nonnull str;
  p ← strlen_loop (walk_fuel buf) buf s;
  mret (u32 (p - s - 1)).

Fixpoint strcmp_loop (fuel : nat) (abuf : list Z) (a : Z) (bbuf : list Z) (b : Z)
    : outcome (Z * Z) :=
  match fuel with
  | O => Spin
  | S fuel =>
      x ← rd abuf a;
      if x =? 0 then mret (a, b)
      else y ← rd bbuf b;
           if i8 x =? i8 y then strcmp_loop fuel abuf (a + 1) bbuf (b + 1)
           else mret (a, b)
  end.

Definition strcmp (abuf : list Z) (a : ptr) (bbuf : list Z) (b : ptr) : outcome Z :=
  pa ← nonnull a; pb ← nonnull b;
  '(pa, pb) ← strcmp_loop (walk_fuel abuf) abuf pa bbuf pb;
  x ← rd abuf pa; y ← rd bbuf pb;
  mret (if i8 x <? i8 y then -1 else if i8 y <? i8 x then 1 else 0).

(** [ch] is a [uint8_t]: it is compared with a sign-extended [char]. *)
Fixpoint strchr_loop (fuel : nat) (buf : list Z) (str ch : Z) : outcome ptr :=
  match fuel with
  | O => Spin
  | S fuel =>
      c ← rd buf str;
      if c =? 0 then Ok None
      else if i8 c =? ch then Ok (Some str)
      else strchr_loop fuel buf (str + 1) ch
  end.

Definition strchr (buf : list Z) (str : ptr) (ch : Z) : outcome ptr :=
  s ← nonnull str; strchr_loop (walk_fuel buf) buf s (u8 ch).

Fixpoint strrchr_loop (fuel : nat) (buf : list Z) (str ch : Z) (last : ptr) : outcome ptr :=
  match fuel with
  | O => Spin
  | S fuel =>
      c ← rd buf str;
      if c =? 0 then Ok last
      else strrchr_loop fuel buf (str + 1) ch (if i8 c =? ch then Some str else last)
  end.

Definition strrchr (buf : list Z) (str : ptr) (ch : Z) : outcome ptr :=
  s ← nonnull str; strrchr_loop (walk_fuel buf) buf s (u8 ch) None.

(** The first loop of [strcat]: the position of the NUL of [dst]. *)
Fixpoint strend_loop (fuel : nat) (buf : list Z) (ps : Z) : outcome Z :=
  match fuel with
  | O => Spin
  | S fuel => c ← rd buf ps; if c =? 0 then Ok ps else strend_loop fuel buf (ps + 1)
  end.

Definition strcat (buf : list Z) (dst : ptr) (sbuf : list Z) (src : ptr)
    : outcome (list Z * ptr) :=
  pd ← nonnull dst; ps ← nonnull src;
  e ← strend_loop (walk_fuel buf) buf pd;
  buf ← strcpy_loop (walk_fuel sbuf) buf e sbuf ps;
  mret (buf, dst).

Fixpoint strchrs_loop (fuel : nat) (buf : list Z) (str ch count : Z) : outcome Z :=
  match fuel with
  | O => Spin
  | S fuel =>
      c ← rd buf str;
      if c =? 0 then Ok count
      else strchrs_loop fuel buf (str + 1) ch (if i8 c =? ch then u32 (count + 1) else count)
  end.

Definition strchrs (buf : list Z) (str : ptr) (ch : Z) : outcome Z :=
  s ← nonnull str; strchrs_loop (walk_fuel buf) buf s (u8 ch) 0.

(** ** What the functions compute *)

(** [cstr buf p s]: the NUL-terminated string [s] starts at offset [p]. *)
Definition cstr (buf : list Z) (p : Z) (s : list Z) : Prop :=
  ∃ pre post, buf = pre ++ s ++ 0 :: post ∧ len pre = p ∧ Forall (λ c, 0 < c < 256) s.

(** Move the split point of a buffer one element to the right. *)
Lemma split_snoc {A} (pre : list A) x post : pre ++ x :: post = (pre ++ [x]) ++ post.
Proof. by rewrite <- app_assoc. Qed.

Lemma memset_loop_ok pre mid post v :
  memset_loop (pre ++ mid ++ post) (len pre) v (length mid)
  = Ok (pre ++ replicate (length mid) v ++ post).
Proof.
  revert pre. induction mid as [|x mid IH]; intros pre; simpl; [done|].
  rewrite wr_mid by done. simpl. rewrite <- (len_snoc pre v).
  rewrite (split_snoc pre v).
  rewrite IH. by rewrite <- app_assoc.
Qed.

Lemma memcpy_loop_ok pre mid post spre s spost :
  length mid = length s →
  memcpy_loop (pre ++ mid ++ post) (len pre) (spre ++ s ++ spost) (len spre) (length s)
  = Ok (pre ++ s ++ post).
Proof.
  revert pre mid spre. induction s as [|c s IH]; intros pre mid spre H.
  { by destruct mid. }
  destruct mid as [|x mid]; [done|]. simpl in *.
  rewrite rd_mid by done; simpl. rewrite wr_mid by done; simpl.
  rewrite <- (len_snoc pre c), <- (len_snoc spre c).
  rewrite (split_snoc pre c).
  rewrite (split_snoc spre c).
  rewrite IH by lia. by rewrite <- app_assoc.
Qed.

Lemma strcpy_loop_ok fuel pre mid post spre s spost :
  (length s < fuel)%nat → Forall (λ c, 0 < c < 256) s → length mid = S (length s) →
  strcpy_loop fuel (pre ++ mid ++ post) (len pre) (spre ++ s ++ 0 :: spost) (len spre)
  = Ok (pre ++ s ++ 0 :: post).
Proof.
  revert fuel pre mid spre. induction s as [|c s IH]; intros fuel pre mid spre Hf Hs Hm.
  - destruct fuel; [lia|]. destruct mid as [|x [|]]; try done. simpl.
    rewrite rd_mid by done; simpl. by rewrite wr_mid.
  - destruct fuel; [simpl in Hf; lia|]. destruct mid as [|x mid]; [done|].
    apply Forall_cons_1 in Hs as [Hc Hs]. simpl in *.
    rewrite rd_mid by done; simpl. rewrite wr_mid by done; simpl.
    destruct (Z.eqb_spec c 0); [lia|].
    rewrite <- (len_snoc pre c), <- (len_snoc spre c).
    rewrite (split_snoc pre c).
    rewrite (split_snoc spre c).
    rewrite IH by (done || lia). by rewrite <- app_assoc.
Qed.

(** The reading loops, on the string they walk over. *)
Lemma strlen_loop_ok fuel pre s post :
  (length s < fuel)%nat → Forall (λ c, 0 < c < 256) s →
  strlen_loop fuel (pre ++ s ++ 0 :: post) (len pre) = Ok (len pre + len s + 1).
Proof.
  revert fuel pre. induction s as [|c s IH]; intros fuel pre Hf Hs;
    (destruct fuel; [simpl in Hf; lia|]); simpl in *; rewrite rd_mid by done; simpl.
  - f_equal. unfold len at 3. simpl. lia.
  - apply Forall_cons_1 in Hs as [Hc Hs]. destruct (Z.eqb_spec c 0); [lia|].
    rewrite <- (len_snoc pre c), (split_snoc pre c), IH by (done || lia).
    f_equal. rewrite len_snoc. unfold len. simpl. lia.
Qed.

Lemma strend_loop_ok fuel pre s post :
  (length s < fuel)%nat → Forall (λ c, 0 < c < 256) s →
  strend_loop fuel (pre ++ s ++ 0 :: post) (len pre) = Ok (len (pre ++ s)).
Proof.
  revert fuel pre. induction s as [|c s IH]; intros fuel pre Hf Hs;
    (destruct fuel; [simpl in Hf; lia|]); simpl in *; rewrite rd_mid by done; simpl.
  - by rewrite app_nil_r.
  - apply Forall_cons_1 in Hs as [Hc Hs]. destruct (Z.eqb_spec c 0); [lia|].
    rewrite <- (len_snoc pre c), (split_snoc pre c), IH by (done || lia).
    by rewrite <- app_assoc.
Qed.

(** Reference comparison: the first position where the strings, NUL included,
    differ decides, as signed chars. *)
Definition sgn_cmp (x y : Z) : Z := if i8 x <? i8 y then -1 else if i8 y <? i8 x then 1 else 0.
Fixpoint scmp (a b : list Z) : Z :=
  match a, b with
  | x :: a', y :: b' => if x =? y then scmp a' b' else sgn_cmp x y
  | [], [] => 0
  | x :: _, [] => sgn_cmp x 0
  | [], y :: _ => sgn_cmp 0 y
  end.

Lemma sgn_cmp_0 x y : 0 ≤ x < 256 → 0 ≤ y < 256 → sgn_cmp x y = 0 ↔ x = y.
Proof.
  intros. unfold sgn_cmp. zbool; split; intros; subst; try lia. apply i8_inj; lia.
Qed.

Lemma i8_eqb x y : 0 ≤ x < 256 → 0 ≤ y < 256 → (i8 x =? i8 y) = (x =? y).
Proof.
  intros. destruct (Z.eqb_spec x y) as [->|Hne]; [apply Z.eqb_refl|].
  apply Z.eqb_neq. intros ?%i8_inj; done.
Qed.

Lemma scmp_0 a b :
  Forall (λ c, 0 < c < 256) a → Forall (λ c, 0 < c < 256) b → scmp a b = 0 ↔ a = b.
Proof.
  revert b. induction a as [|x a IH]; intros [|y b] Ha Hb; simpl; try done.
  - apply Forall_cons_1 in Hb as [? ?]. rewrite sgn_cmp_0 by lia. split; [lia|done].
  - apply Forall_cons_1 in Ha as [? ?]. rewrite sgn_cmp_0 by lia. split; [lia|done].
  - apply Forall_cons_1 in Hb as [? ?]. apply Forall_cons_1 in Ha as [? ?].
    destruct (Z.eqb_spec x y) as [->|Hne].
    + rewrite IH by done. split; [by intros ->|by intros [= ->]].
    + rewrite sgn_cmp_0 by lia. split; [done|by intros [= -> ->]].
Qed.

Lemma strcmp_loop_ok fuel apre a apost bpre b bpost :
  (length a < fuel)%nat → Forall (λ c, 0 < c < 256) a → Forall (λ c, 0 < c < 256) b →
  ('(pa, pb) ← strcmp_loop fuel (apre ++ a ++ 0 :: apost) (len apre)
                               (bpre ++ b ++ 0 :: bpost) (len bpre);
   x ← rd (apre ++ a ++ 0 :: apost) pa; y ← rd (bpre ++ b ++ 0 :: bpost) pb;
   mret (if i8 x <? i8 y then -1 else if i8 y <? i8 x then 1 else 0))
  = Ok (scmp a b).
Proof.
  revert fuel apre bpre b. induction a as [|x a IH]; intros fuel apre bpre b Hf Ha Hb;
    (destruct fuel; [simpl in Hf; lia|]); simpl in *.
  - rewrite rd_mid by done; simpl. rewrite rd_mid by done; simpl.
    by destruct b as [|y b]; simpl; rewrite rd_mid.
  - apply Forall_cons_1 in Ha as [Hx Ha]. rewrite rd_mid by done; simpl.
    destruct (Z.eqb_spec x 0); [lia|].
    destruct b as [|y b]; simpl.
    + rewrite rd_mid by done; simpl. rewrite i8_eqb by lia.
      destruct (Z.eqb_spec x 0); [lia|]. simpl. rewrite rd_mid by done; simpl.
      by rewrite rd_mid.
    + apply Forall_cons_1 in Hb as [Hy Hb]. rewrite rd_mid by done; simpl.
      rewrite i8_eqb by lia. destruct (Z.eqb_spec x y) as [->|Hne].
      * rewrite <- (len_snoc apre y), <- (len_snoc bpre y).
        rewrite (split_snoc apre y), (split_snoc bpre y). apply IH; done || lia.
      * simpl. rewrite rd_mid by done; simpl. by rewrite rd_mid.
Qed.

Lemma walk_fuel_enough (pre s post : list Z) : (length s < walk_fuel (pre ++ s ++ 0%Z :: post))%nat.
Proof. unfold walk_fuel. rewrite !length_app. simpl. lia. Qed.
#[export] Hint Resolve walk_fuel_enough : los.

Lemma strlen_ok buf p s :
  cstr buf p s → len s < 2 ^ 32 → strlen buf (Some p) = Ok (len s).
Proof.
  intros (pre & post & -> & <- & Hs) Hl. unfold strlen. obind.
  rewrite strlen_loop_ok by auto with los. obind. f_equal. rewrite u32_id; pose proof (len_nonneg s); lia.
Qed.

Lemma strcmp_ok abuf pa a bbuf pb b :
  cstr abuf pa a → cstr bbuf pb b → strcmp abuf (Some pa) bbuf (Some pb) = Ok (scmp a b).
Proof.
  intros (apre & apost & -> & <- & Ha) (bpre & bpost & -> & <- & Hb).
  unfold strcmp. obind. apply strcmp_loop_ok; auto with los.
Qed.

Lemma strcpy_ok pre mid post sbuf ps s :
  cstr sbuf ps s → length mid = S (length s) →
  strcpy (pre ++ mid ++ post) (Some (len pre)) sbuf (Some ps)
  = Ok (pre ++ s ++ 0 :: post, Some (len pre)).
Proof.
  intros (spre & spost & -> & <- & Hs) Hm. unfold strcpy. obind.
  by rewrite strcpy_loop_ok by auto with los.
Qed.

Lemma strcat_ok pre d mid post sbuf ps s :
  cstr sbuf ps s → Forall (λ c, 0 < c < 256) d → length mid = length s →
  strcat (pre ++ d ++ 0 :: mid ++ post) (Some (len pre)) sbuf (Some ps)
  = Ok (pre ++ (d ++ s) ++ 0 :: post, Some (len pre)).
Proof.
  intros (spre & spost & -> & <- & Hs) Hd Hm. unfold strcat. obind.
  rewrite strend_loop_ok by auto with los. obind.
  replace (pre ++ d ++ 0 :: mid ++ post) with ((pre ++ d) ++ (0 :: mid) ++ post)
    by by rewrite <- app_assoc.
  rewrite strcpy_loop_ok by (auto with los; simpl; lia).
  simpl. by rewrite <- !app_assoc.
Qed.

(** The searching loops, against list searches: [first_pos ch s] and
    [last_pos ch s] are the first and last index of [ch] in [s]. *)
Fixpoint first_pos (ch : Z) (s : list Z) : option Z :=
  match s with
  | [] => None
  | c :: s => if c =? ch then Some 0 else (λ i, i + 1) <$> first_pos ch s
  end.
Fixpoint last_pos (ch : Z) (s : list Z) : option Z :=
  match s with
  | [] => None
  | c :: s => match last_pos ch s with
              | Some i => Some (i + 1)
              | None => if c =? ch then Some 0 else None
              end
  end.
Definition occurrences (ch : Z) (s : list Z) : Z := len (filter (λ c, c = ch) s).

Lemma i8_ascii c ch : 0 < c < 256 → 0 ≤ ch < 128 → (i8 c =? ch) = (c =? ch).
Proof.
  intros. rewrite <- (i8_id ch) at 1 by lia. apply i8_eqb; lia.
Qed.

Lemma i8_high c ch : 0 ≤ c < 256 → 128 ≤ ch < 256 → (i8 c =? ch) = false.
Proof.
  intros. apply Z.eqb_neq. unfold i8.
  pose proof (Z.mod_pos_bound (c + 2 ^ 7) (2 ^ 8) ltac:(lia)). lia.
Qed.

Lemma strchr_loop_ok fuel pre s post ch :
  (length s < fuel)%nat → Forall (λ c, 0 < c < 256) s → 0 ≤ ch < 128 →
  strchr_loop fuel (pre ++ s ++ 0 :: post) (len pre) ch
  = Ok ((λ i, len pre + i) <$> first_pos ch s).
Proof.
  intros Hf Hs Hch. revert fuel pre Hf. induction s as [|c s IH]; intros fuel pre Hf;
    (destruct fuel; [simpl in Hf; lia|]); simpl in *; rewrite rd_mid by done; simpl; [done|].
  apply Forall_cons_1 in Hs as [Hc Hs]. destruct (Z.eqb_spec c 0); [lia|].
  rewrite i8_ascii by done. destruct (Z.eqb_spec c ch).
  { simpl. do 2 f_equal. lia. }
  rewrite <- (len_snoc pre c), (split_snoc pre c), IH by (done || lia).
  rewrite len_snoc. destruct (first_pos ch s); simpl; do 2 f_equal. lia.
Qed.

Lemma strrchr_loop_ok fuel pre s post ch last :
  (length s < fuel)%nat → Forall (λ c, 0 < c < 256) s → 0 ≤ ch < 128 →
  strrchr_loop fuel (pre ++ s ++ 0 :: post) (len pre) ch last
  = Ok (match last_pos ch s with Some i => Some (len pre + i) | None => last end).
Proof.
  intros Hf Hs Hch. revert fuel pre last Hf. induction s as [|c s IH]; intros fuel pre last Hf;
    (destruct fuel; [simpl in Hf; lia|]); simpl in *; rewrite rd_mid by done; simpl; [done|].
  apply Forall_cons_1 in Hs as [Hc Hs]. destruct (Z.eqb_spec c 0); [lia|].
  rewrite i8_ascii by done.
  rewrite <- (len_snoc pre c), (split_snoc pre c), IH by (done || lia).
  rewrite len_snoc. destruct (last_pos ch s); [do 2 f_equal; lia|].
  destruct (c =? ch); do 2 f_equal. lia.
Qed.

Lemma strchrs_loop_ok fuel pre s post ch n :
  (length s < fuel)%nat → Forall (λ c, 0 < c < 256) s → 0 ≤ ch < 128 →
  0 ≤ n → n + len s < 2 ^ 32 →
  strchrs_loop fuel (pre ++ s ++ 0 :: post) (len pre) ch n = Ok (n + occurrences ch s).
Proof.
  intros Hf Hs Hch. revert fuel pre n Hf. induction s as [|c s IH]; intros fuel pre n Hf Hn Hb;
    (destruct fuel; [simpl in Hf; lia|]); simpl in *; rewrite rd_mid by done; simpl.
  { f_equal. unfold occurrences, len. simpl. lia. }
  apply Forall_cons_1 in Hs as [Hc Hs]. destruct (Z.eqb_spec c 0); [lia|].
  rewrite i8_ascii by done. rewrite <- (len_snoc pre c), (split_snoc pre c).
  unfold occurrences. rewrite filter_cons.
  assert (len (c :: s) = len s + 1) by (unfold len; simpl; lia).
  destruct (Z.eqb_spec c ch); case_decide; try done.
  - rewrite u32_id by (pose proof (len_nonneg s); lia). rewrite IH by (done || lia).
    f_equal. unfold occurrences, len. simpl. lia.
  - rewrite IH by (done || lia). done.
Qed.

Lemma memcmp_loop_ok apre a apost bpre b bpost :
  bytes a → bytes b → length a = length b →
  memcmp_loop (apre ++ a ++ apost) (len apre) (bpre ++ b ++ bpost) (len bpre) (length a)
  ⇓ λ r, (r = 0 ↔ a = b) ∧ -1 ≤ r ≤ 1.
Proof.
  revert apre bpre b. induction a as [|x a IH]; intros apre bpre [|y b] Ha Hb Hl; try done.
  apply Forall_cons_1 in Ha as [Hx Ha]. apply Forall_cons_1 in Hb as [Hy Hb]. simpl in *.
  rewrite rd_mid by done; obind. rewrite rd_mid by done; obind.
  rewrite i8_eqb by done. destruct (Z.eqb_spec x y) as [->|Hne]; simpl.
  - rewrite <- (len_snoc apre y), <- (len_snoc bpre y).
    rewrite (split_snoc apre y), (split_snoc bpre y).
    eapply returns_mono; [apply IH; done || lia|].
    intros r [Hr ?]. split; [|done]. rewrite Hr. split; [by intros ->|by intros [= ->]].
  - split; [|destruct (_ <? _); lia]. split; [destruct (_ <? _); lia|by intros [= ->]].
Qed.

Lemma sgn_cmp_sym x y : sgn_cmp y x = - sgn_cmp x y.
Proof. unfold sgn_cmp. zbool. Qed.

Lemma scmp_sym a b : scmp b a = - scmp a b.
Proof.
  revert b. induction a as [|x a IH]; intros [|y b]; simpl; try done; try apply sgn_cmp_sym.
  rewrite (Z.eqb_sym y x). destruct (x =? y); [apply IH|apply sgn_cmp_sym].
Qed.

Lemma scmp_range a b : -1 ≤ scmp a b ≤ 1.
Proof.
  assert (∀ x y, -1 ≤ sgn_cmp x y ≤ 1) by (intros; unfold sgn_cmp; zbool).
  revert b. induction a as [|x a IH]; intros [|y b]; simpl; auto; [lia|].
  destruct (x =? y); auto.
Qed.

(** on two NUL-terminated strings, in distinct buffers and at any offsets,
    [strcmp] returns, its result is -1, 0 or 1, it is 0 exactly when the
    strings are equal, and swapping the arguments negates it. *)
Theorem strcmp_correct abuf pa a bbuf pb b :
  cstr abuf pa a → cstr bbuf pb b →
  ∃ r, strcmp abuf (Some pa) bbuf (Some pb) = Ok r
     ∧ strcmp bbuf (Some pb) abuf (Some pa) = Ok (- r)
     ∧ (r = 0 ↔ a = b) ∧ -1 ≤ r ≤ 1.
Proof.
  intros Ha Hb. exists (scmp a b). rewrite !(strcmp_ok _ _ _ _ _ _ Ha Hb).
  rewrite (strcmp_ok _ _ _ _ _ _ Hb Ha), (scmp_sym a b).
  destruct Ha as (? & ? & _ & _ & Ha), Hb as (? & ? & _ & _ & Hb).
  split; [done|]. split; [done|]. split; [by apply scmp_0|apply scmp_range].
Qed.

(** The strings "a.b" at offset 1 and "a" at offset 0. *)
Lemma strcmp_correct_witness :
  ∃ r, strcmp [7; 97; 46; 98; 0] (Some 1) [97; 0; 9] (Some 0) = Ok r
     ∧ strcmp [97; 0; 9] (Some 0) [7; 97; 46; 98; 0] (Some 1) = Ok (- r)
     ∧ (r = 0 ↔ [97; 46; 98] = [97]) ∧ -1 ≤ r ≤ 1.
Proof.
  apply strcmp_correct.
  - exists [7], []. repeat split; try reflexivity. repeat constructor; lia.
  - exists [], [9]. repeat split; try reflexivity. repeat constructor; lia.
Defined.

(** when the destination has room, [strcat] appends the source string to
    the destination string, keeps every byte before the string and every byte
    after the new terminator, returns the destination, and [strlen] of the
    result is the sum of the two lengths. *)
Theorem strcat_correct pre d mid post sbuf ps s :
  cstr sbuf ps s → Forall (λ c, 0 < c < 256) d → length mid = length s →
  len d + len s < 2 ^ 32 →
  ∃ buf, strcat (pre ++ d ++ 0 :: mid ++ post) (Some (len pre)) sbuf (Some ps)
           = Ok (buf, Some (len pre))
       ∧ buf = pre ++ (d ++ s) ++ 0 :: post
       ∧ strlen buf (Some (len pre)) = Ok (len d + len s).
Proof.
  intros Hs Hd Hm Hl. exists (pre ++ (d ++ s) ++ 0 :: post).
  split; [by apply strcat_ok|]. split; [done|].
  rewrite <- len_app. apply strlen_ok; [|rewrite len_app; lia].
  destruct Hs as (? & ? & _ & _ & Hs). exists pre, post.
  split; [done|]. split; [done|]. by apply Forall_app.
Qed.

Lemma strcat_correct_witness :
  ∃ buf, strcat ([5] ++ [47] ++ 0 :: [1; 2] ++ [3]) (Some (len [5])) [97; 98; 0] (Some 0)
           = Ok (buf, Some (len [5]))
       ∧ buf = [5] ++ ([47] ++ [97; 98]) ++ 0 :: [3]
       ∧ strlen buf (Some (len [5])) = Ok (len [47] + len [97; 98]).
Proof.
  apply strcat_correct; [|repeat constructor; lia|reflexivity|reflexivity].
  exists [], []. repeat split; try reflexivity. repeat constructor; lia.
Defined.

(** [last_pos] is the last index of a character. *)
Lemma last_pos_spec ch s :
  match last_pos ch s with
  | Some i => s !! Z.to_nat i = Some ch ∧ 0 ≤ i < len s ∧ ch ∉ drop (Z.to_nat (i + 1)) s
  | None => ch ∉ s
  end.
Proof.
  induction s as [|c s IH]; simpl; [apply not_elem_of_nil|].
  assert (len (c :: s) = len s + 1) as -> by (unfold len; simpl; lia).
  destruct (last_pos ch s) as [i|].
  - destruct IH as (IH1 & IH2 & IH3).
    replace (Z.to_nat (i + 1)) with (S (Z.to_nat i)) by lia.
    replace (Z.to_nat (i + 1 + 1)) with (S (Z.to_nat (i + 1))) by lia.
    simpl. split; [done|]. split; [lia|done].
  - destruct (Z.eqb_spec c ch) as [->|].
    + simpl. split; [done|]. split; [pose proof (len_nonneg s); lia|]. by rewrite drop_0.
    + by rewrite not_elem_of_cons.
Qed.

(** [strrchr] on a NUL-terminated string and an ASCII character returns
    NULL when the character does not occur, and otherwise a pointer to its
    last occurrence; on a character from 0x80 up it always returns NULL,
    because the sign-extended bytes are compared with an unsigned one. *)
Theorem strrchr_correct buf p s ch :
  cstr buf p s → 0 ≤ ch < 256 →
  ∃ r, strrchr buf (Some p) ch = Ok r ∧
    match r with
    | None => ch ∉ s ∨ 128 ≤ ch
    | Some q => ch < 128 ∧ buf@@q = ch ∧ p ≤ q < p + len s
                ∧ ch ∉ drop (Z.to_nat (q - p + 1)) s
    end.
Proof.
  intros (pre & post & -> & <- & Hs) Hch. unfold strrchr. obind.
  rewrite u8_id by lia. destruct (Z_lt_ge_dec ch 128).
  - rewrite strrchr_loop_ok by (auto with los; lia).
    eexists; split; [done|]. pose proof (last_pos_spec ch s) as H.
    destruct (last_pos ch s) as [i|]; [|auto]. destruct H as (H1 & H2 & H3).
    split; [lia|]. split; [|split; [lia|by replace (len pre + i - len pre + 1) with (i + 1) by lia]].
    apply nthz_lookup; [pose proof (len_nonneg pre); lia|].
    unfold len in *. rewrite lookup_app_r by lia. rewrite lookup_app_l by lia.
    rewrite <- H1. f_equal. lia.
  - exists None. split; [|lia]. generalize (walk_fuel_enough pre s post).
    generalize (walk_fuel (pre ++ s ++ 0 :: post)). revert pre.
    induction s as [|c s IH]; intros pre fuel Hf;
      (destruct fuel; [simpl in Hf; lia|]); simpl in *; rewrite rd_mid by done; simpl; [done|].
    apply Forall_cons_1 in Hs as [Hc Hs]. destruct (Z.eqb_spec c 0); [lia|].
    rewrite i8_high by lia. rewrite <- (len_snoc pre c), (split_snoc pre c).
    apply IH; done || lia.
Qed.

(** The last '/' of "/a/b" is at offset 2. *)
Lemma strrchr_correct_witness :
  ∃ r, strrchr [47; 97; 47; 98; 0] (Some 0) 47 = Ok r ∧
    match r with
    | None => 47 ∉ [47; 97; 47; 98] ∨ 128 ≤ 47
    | Some q => 47 < 128 ∧ [47; 97; 47; 98; 0]@@q = 47 ∧ 0 ≤ q < 0 + len [47; 97; 47; 98]
                ∧ 47 ∉ drop (Z.to_nat (q - 0 + 1)) [47; 97; 47; 98]
    end.
Proof.
  apply strrchr_correct; [|lia]. exists [], []. repeat split; try reflexivity.
  repeat constructor; lia.
Defined.
