(* ===== verification/Bitmap.v ===== *)
(** * lib/kernel/bitmap.c: the bitmap allocator

    [bits] is the memory that starts at the [bits] pointer: its first
    [btmp_bytes_len] bytes are the map, and whatever follows them is the
    neighbouring memory, which [bitmap_scan] can read.  The [m != NULL ||]
    assertions hold because [m] is a value. *)
From S2P Require Import Prelude CString.

Definition BITMAP_MASK : Z := 1.

Record BitMap := mkBitMap { btmp_bytes_len : Z; bits : list Z }.

Definition bitmap_init (m : BitMap) : outcome BitMap :=
  b ← memset (bits m) (Some 0) 0 (btmp_bytes_len m);
  mret (mkBitMap (btmp_bytes_len m) b).

Definition bitmap_scan_test (m : BitMap) (idx : Z) : outcome bool :=
  let byte_idx := idx / 8 in
  let bit_idx := idx mod 8 in
  b ← rd (bits m) byte_idx;
  mret (negb (Z.land b (Z.shiftl BITMAP_MASK bit_idx) =? 0)).

(** The loop over full bytes; the array is read before the bound is tested. *)
Fixpoint scan_bytes (fuel : nat) (m : BitMap) (idx : Z) : outcome Z :=
  match fuel with
  | O => Spin
  | S fuel =>
      b ← rd (bits m) idx;
      if (0xff =? b) && (idx <? btmp_bytes_len m)
      then scan_bytes fuel m (u32 (idx + 1)) else Ok idx
  end.

(** The loop over the bits of one byte. *)
Fixpoint scan_bits (fuel : nat) (m : BitMap) (idx bit_idx : Z) : outcome Z :=
  match fuel with
  | O => Spin
  | S fuel =>
      b ← rd (bits m) idx;
      if negb (Z.land (u8 (Z.shiftl BITMAP_MASK bit_idx)) b =? 0)
      then scan_bits fuel m idx (i32 (bit_idx + 1)) else Ok bit_idx
  end.

(** The loop [while (bit_left-- > 0)], one call per iteration. *)
Fixpoint scan_run (bit_left : nat) (m : BitMap) (cnt next_bit count : Z) : outcome Z :=
  match bit_left with
  | O => Ok (-1)
  | S bit_left =>
      t ← bitmap_scan_test m next_bit;
      let count := if negb t then u32 (count + 1) else 0 in
      if count =? cnt then Ok (i32 (u32 (u32 (next_bit - count) + 1)))
      else scan_run bit_left m cnt (u32 (next_bit + 1)) count
  end.

Definition bitmap_scan (m : BitMap) (cnt : Z) : outcome Z :=
  idx ← scan_bytes (S (Z.to_nat (btmp_bytes_len m))) m 0;
  if idx =? btmp_bytes_len m then Ok (-1)
  else
    bit_idx ← scan_bits 9 m idx 0;
    let start := i32 (u32 (u32 (idx * 8) + bit_idx)) in
    if cnt =? 1 then Ok start
    else
      let bit_left := u32 (u32 (btmp_bytes_len m * 8) - start) in
      let next_bit := u32 (start + 1) in
      scan_run (Z.to_nat bit_left) m cnt next_bit 1.

Definition bitmap_set (m : BitMap) (idx value : Z) : outcome BitMap :=
  _ ← ASSERT ((value =? 0) || (value =? 1));
  let byte_idx := idx / 8 in
  let bit_idx := idx mod 8 in
  b ← rd (bits m) byte_idx;
  b' ← (if negb (value =? 0)
        then wr (bits m) byte_idx (u8 (Z.lor b (Z.shiftl BITMAP_MASK bit_idx)))
        else wr (bits m) byte_idx (u8 (Z.land b (Z.lnot (Z.shiftl BITMAP_MASK bit_idx)))));
  mret (mkBitMap (btmp_bytes_len m) b').

(** ** The abstract view: a set of used indices *)

Definition used (m : BitMap) (i : Z) : bool := Z.testbit (bits m)@@(i / 8) (i mod 8).

(** [nbits m]: the number of bits the map says it has. *)
Definition nbits (m : BitMap) : Z := 8 * btmp_bytes_len m.

Record bm_wf (m : BitMap) : Prop := {
  bm_bytes : bytes (bits m);
  bm_len : 0 ≤ btmp_bytes_len m ≤ len (bits m);
  bm_int : nbits m < 2 ^ 31;
}.

(** A run of [cnt] free bits from [s] on. *)
Definition free_run (m : BitMap) (s cnt : Z) : Prop :=
  ∀ i, s ≤ i < s + cnt → used m i = false.

(** ** Bits of a byte *)

Lemma mask_testbit b k : 0 ≤ k → negb (Z.land b (Z.shiftl 1 k) =? 0) = Z.testbit b k.
Proof.
  intros Hk. rewrite Z.shiftl_1_l. destruct (Z.testbit b k) eqn:E.
  - apply negb_true_iff, Z.eqb_neq. intros H.
    apply (f_equal (λ z, Z.testbit z k)) in H.
    rewrite Z.land_spec, Z.pow2_bits_true, E, Z.bits_0 in H by lia. done.
  - apply negb_false_iff, Z.eqb_eq, Z.bits_inj'. intros n Hn.
    rewrite Z.land_spec, Z.bits_0. destruct (decide (n = k)) as [->|].
    + by rewrite E.
    + by rewrite Z.pow2_bits_false, andb_false_r by lia.
Qed.

(** Facts about every byte, by evaluation of the 256 cases. *)
Lemma byte_cases (P : Z → bool) :
  forallb (λ n, P (Z.of_nat n)) (seq 0 256) = true → ∀ b, is_byte b → P b = true.
Proof.
  intros H b [? ?]. rewrite forallb_forall in H.
  rewrite <- (Z2Nat.id b) by lia. apply H. apply in_seq. lia.
Qed.

(** The index of the first clear bit of a byte, 8 when there is none. *)
Fixpoint first_clear (fuel : nat) (b k : Z) : Z :=
  match fuel with
  | O => k
  | S fuel => if Z.testbit b k then first_clear fuel b (k + 1) else k
  end.

Lemma first_clear_spec fuel b k :
  let r := first_clear fuel b k in
  k ≤ r ≤ k + Z.of_nat fuel ∧ (∀ j, k ≤ j < r → Z.testbit b j = true)
  ∧ (r < k + Z.of_nat fuel → Z.testbit b r = false).
Proof.
  revert k. induction fuel as [|fuel IH]; intros k; cbn [first_clear].
  - split; [lia|]. split; intros; lia.
  - destruct (Z.testbit b k) eqn:E; [|repeat split; intros; lia || done].
    destruct (IH (k + 1)) as (H1 & H2 & H3). split; [lia|]. split; [|intros; apply H3; lia].
    intros j Hj. destruct (decide (j = k)) as [->|]; [done|]. apply H2. lia.
Qed.

Lemma first_clear_full b : is_byte b → first_clear 8 b 0 < 8 ∨ b = 255.
Proof.
  intros Hb. pose proof (byte_cases (λ b, (first_clear 8 b 0 <? 8) || (b =? 255))
    ltac:(vm_compute; reflexivity) b Hb) as H. simpl in H. zbool; auto.
Qed.

(** ** Test and set *)

Lemma div8_range i n : 0 ≤ i < 8 * n → 0 ≤ i / 8 < n ∧ 0 ≤ i mod 8 < 8.
Proof. intros. pose proof (Z.mod_pos_bound i 8). split; [|lia]. split; [apply Z.div_pos|apply Z.div_lt_upper_bound]; lia. Qed.

Lemma scan_test_ok m i :
  0 ≤ i < 8 * len (bits m) → bitmap_scan_test m i = Ok (used m i).
Proof.
  intros Hi. destruct (div8_range _ _ Hi). unfold bitmap_scan_test, used, BITMAP_MASK.
  rewrite rd_ok by done. obind. by rewrite mask_testbit by lia.
Qed.

Lemma byte_mask_cases (f : Z → Z → Z) b k :
  forallb (λ b, forallb (λ k, let r := f (Z.of_nat b) (Z.of_nat k) in (0 <=? r) && (r <? 256))
                        (seq 0 8)) (seq 0 256) = true →
  is_byte b → 0 ≤ k < 8 → is_byte (f b k).
Proof.
  intros Hf Hb Hk.
  pose proof (byte_cases (λ b, forallb (λ k, let r := f b (Z.of_nat k) in
    (0 <=? r) && (r <? 256)) (seq 0 8)) Hf b Hb) as H. cbv beta in H.
  rewrite forallb_forall in H. specialize (H (Z.to_nat k) ltac:(apply in_seq; lia)).
  rewrite Z2Nat.id in H by lia. clear Hf. cbv zeta in H. unfold is_byte. zbool.
Qed.

Lemma set_byte_or b k : is_byte b → 0 ≤ k < 8 →
  is_byte (Z.lor b (Z.shiftl 1 k)) ∧
  ∀ j, 0 ≤ j → Z.testbit (Z.lor b (Z.shiftl 1 k)) j = (j =? k) || Z.testbit b j.
Proof.
  intros Hb Hk. rewrite Z.shiftl_1_l. split.
  - apply byte_mask_cases with (f := λ b k, Z.lor b (2 ^ k)); [vm_compute; reflexivity|done|done].
  - intros j Hj. rewrite Z.lor_spec, Z.pow2_bits_eqb by lia.
    rewrite (Z.eqb_sym k j). apply orb_comm.
Qed.

Lemma set_byte_and b k : is_byte b → 0 ≤ k < 8 →
  is_byte (Z.land b (Z.lnot (Z.shiftl 1 k))) ∧
  ∀ j, 0 ≤ j → Z.testbit (Z.land b (Z.lnot (Z.shiftl 1 k))) j = negb (j =? k) && Z.testbit b j.
Proof.
  intros Hb Hk. split.
  - apply byte_mask_cases with (f := λ b k, Z.land b (Z.lnot (Z.shiftl 1 k))); [vm_compute; reflexivity|done|done].
  - intros j Hj. rewrite Z.land_spec, Z.lnot_spec, Z.shiftl_1_l, Z.pow2_bits_eqb by lia.
    rewrite (Z.eqb_sym k j). apply andb_comm.
Qed.

(** The effect of a successful [bitmap_set]. *)
Definition set_bit (m m' : BitMap) (i : Z) (v : bool) : Prop :=
  btmp_bytes_len m' = btmp_bytes_len m ∧ len (bits m') = len (bits m)
  ∧ bm_wf m' ∧ ∀ j, 0 ≤ j → used m' j = if j =? i then v else used m j.

Lemma used_insert m b i j :
  0 ≤ i < 8 * len (bits m) → 0 ≤ j →
  used (mkBitMap (btmp_bytes_len m) (<[Z.to_nat (i / 8) := b]> (bits m))) j
  = if j / 8 =? i / 8 then Z.testbit b (j mod 8) else used m j.
Proof.
  intros Hi Hj. destruct (div8_range _ _ Hi). unfold used; cbn [bits].
  destruct (Z.eqb_spec (j / 8) (i / 8)) as [->|].
  - by rewrite nthz_insert_eq.
  - by rewrite nthz_insert_ne by lia.
Qed.

Lemma div8_mod8_eqb i j : (j =? i) = (j / 8 =? i / 8) && (j mod 8 =? i mod 8).
Proof.
  pose proof (Z.div_mod i 8). pose proof (Z.div_mod j 8).
  destruct (Z.eqb_spec j i) as [->|]; [by rewrite !Z.eqb_refl|].
  destruct (Z.eqb_spec (j / 8) (i / 8)), (Z.eqb_spec (j mod 8) (i mod 8)); simpl; lia || done.
Qed.

Lemma bitmap_set_ok m i v :
  bm_wf m → 0 ≤ i < 8 * len (bits m) →
  bitmap_set m i (if (v : bool) then 1 else 0) ⇓ λ m', set_bit m m' i v.
Proof.
  intros [Hb Hl Hn] Hi. destruct (div8_range _ _ Hi) as [Hi1 Hi2].
  assert (is_byte (bits m)@@(i / 8)) as Hbyte by (by apply nthz_in).
  unfold bitmap_set, BITMAP_MASK. rewrite ASSERT_true by (by destruct v). obind.
  rewrite rd_ok by done. obind.
  assert (∀ b', is_byte b' →
    (∀ j, 0 ≤ j → Z.testbit b' j = if j =? i mod 8 then v else Z.testbit (bits m)@@(i / 8) j) →
    set_bit m (mkBitMap (btmp_bytes_len m) (<[Z.to_nat (i / 8) := b']> (bits m))) i v) as Hset.
  { intros b' Hb' Ht. repeat split; cbn [bits btmp_bytes_len]; autorewrite with los; try done; try lia.
    { by apply bytes_insert. }
    intros j Hj. rewrite used_insert by done. rewrite (div8_mod8_eqb i j).
    destruct (Z.eqb_spec (j / 8) (i / 8)) as [He|]; cbn [andb]; [|done].
    rewrite Ht by (apply Z.mod_pos_bound; lia). unfold used. by rewrite He. }
  destruct v; cbn [negb Z.eqb].
  - destruct (set_byte_or (bits m)@@(i / 8) (i mod 8)) as [H1 H2]; try done.
    rewrite u8_id by apply H1. rewrite wr_ok by done. obind. apply Hset; [done|].
    intros j Hj. rewrite H2 by done. by destruct (_ =? _).
  - destruct (set_byte_and (bits m)@@(i / 8) (i mod 8)) as [H1 H2]; try done.
    rewrite u8_id by apply H1. rewrite wr_ok by done. obind. apply Hset; [done|].
    intros j Hj. rewrite H2 by done. by destruct (_ =? _).
Qed.

(** ** Scanning *)

Section scan.
Context (m : BitMap) (Hwf : bm_wf m).

Lemma scan_bytes_ok fuel idx :
  btmp_bytes_len m < len (bits m) →
  0 ≤ idx ≤ btmp_bytes_len m → btmp_bytes_len m - idx < Z.of_nat fuel →
  scan_bytes fuel m idx ⇓ λ r, idx ≤ r ≤ btmp_bytes_len m
    ∧ (∀ j, idx ≤ j < r → (bits m)@@j = 255)
    ∧ (r < btmp_bytes_len m → (bits m)@@r ≠ 255).
Proof.
  intros Hs. revert idx. induction fuel as [|fuel IH]; intros idx Hi Hf; [lia|].
  cbn [scan_bytes]. rewrite rd_ok by lia. obind.
  destruct (Z.eqb_spec 255 (bits m)@@idx) as [He|Hne]; cbn [andb].
  2:{ simpl. split; [lia|]. split; [intros; lia|auto]. }
  destruct (Z.ltb_spec idx (btmp_bytes_len m)).
  2:{ simpl. split; [lia|]. split; intros; lia. }
  destruct Hwf as [_ _ Hn]. unfold nbits in Hn. rewrite u32_id by lia.
  eapply returns_mono; [apply IH; lia|]. intros r (H1 & H2 & H3).
  split; [lia|]. split; [|done]. intros j Hj.
  destruct (decide (j = idx)) as [->|]; [done|]. apply H2; lia.
Qed.

Lemma scan_bits_ok fuel idx k :
  0 ≤ idx < len (bits m) → 0 ≤ k ≤ 8 → k + Z.of_nat fuel = 9 →
  scan_bits fuel m idx k ⇓ λ r, k ≤ r ≤ 8
    ∧ (∀ j, k ≤ j < r → Z.testbit (bits m)@@idx j = true)
    ∧ (r < 8 → Z.testbit (bits m)@@idx r = false).
Proof.
  intros Hi. revert k. induction fuel as [|fuel IH]; intros k Hk Hf; [lia|].
  cbn [scan_bits]. rewrite rd_ok by lia. obind. unfold BITMAP_MASK.
  destruct (decide (k = 8)) as [->|Hne].
  { change (u8 (Z.shiftl 1 8)) with 0. rewrite Z.land_0_l. cbn [negb Z.eqb].
    simpl. split; [lia|]. split; intros; lia. }
  rewrite u8_id.
  2:{ rewrite Z.shiftl_1_l. split; [apply Z.pow_nonneg; lia|].
      change 256 with (2 ^ 8). apply Z.pow_lt_mono_r; lia. }
  rewrite Z.land_comm, mask_testbit by lia.
  destruct (Z.testbit (bits m)@@idx k) eqn:E.
  - rewrite i32_id by lia. eapply returns_mono; [apply IH; lia|].
    intros r (H1 & H2 & H3). split; [lia|]. split; [|done]. intros j Hj.
    destruct (decide (j = k)) as [->|]; [done|]. apply H2; lia.
  - simpl. split; [lia|]. split; [intros; lia|done].
Qed.

(** Every bit of a 255 byte is used. *)
Lemma used_full_byte i : 0 ≤ i → (bits m)@@(i / 8) = 255 → used m i = true.
Proof.
  intros Hi He. unfold used. rewrite He.
  pose proof (Z.mod_pos_bound i 8 ltac:(lia)).
  apply (Z.ones_spec_low 8). lia.
Qed.

(** The loop over runs: [count] free bits end just before [next]; it finds
    the first run of [cnt] free bits that starts at [next - count] or later
    and ends before [next + n]. *)
Lemma scan_run_ok n cnt next count :
  0 ≤ count < cnt → count ≤ next → 2 ≤ cnt < 2 ^ 31 →
  next + Z.of_nat n ≤ 8 * len (bits m) → next + Z.of_nat n < 2 ^ 31 →
  free_run m (next - count) count →
  scan_run n m cnt next count ⇓ λ r,
    (r = -1 ∧ ∀ s, next - count ≤ s → s + cnt ≤ next + Z.of_nat n → ¬ free_run m s cnt)
    ∨ (next - count ≤ r ∧ r + cnt ≤ next + Z.of_nat n ∧ free_run m r cnt
       ∧ ∀ s, next - count ≤ s < r → ¬ free_run m s cnt).
Proof.
  revert next count. induction n as [|n IH]; intros next count Hc Hcn Hcnt Hl Hi Hfree.
  { left. split; [done|]. intros; lia. }
  cbn [scan_run]. rewrite scan_test_ok by lia. obind.
  destruct (used m next) eqn:E; cbn [negb].
  - destruct (Z.eqb_spec 0 cnt); [lia|]. rewrite u32_id by lia.
    eapply returns_mono; [apply IH; try lia; intros i ?; lia|].
    assert (∀ s, next - count ≤ s ≤ next → ¬ free_run m s cnt) as Hno.
    { intros s Hs Hr. specialize (Hr next ltac:(lia)). congruence. }
    intros r [[-> Hr]|(H1 & H2 & H3 & H4)].
    + left. split; [done|]. intros s Hs1 Hs2.
      destruct (Z_le_gt_dec s next); [apply Hno; lia|apply Hr; lia].
    + right. split_and!; try done; try lia. intros s Hs.
      destruct (Z_le_gt_dec s next); [apply Hno; lia|apply H4; lia].
  - rewrite (u32_id (count + 1)) by lia.
    assert (free_run m (next - count) (count + 1)) as Hfree'.
    { intros i Hir. destruct (decide (i = next)) as [->|]; [done|]. apply Hfree; lia. }
    destruct (Z.eqb_spec (count + 1) cnt) as [<-|].
    + unfold u32. rewrite Zplus_mod_idemp_l.
      replace (next - (count + 1) + 1) with (next - count) by lia.
      rewrite Z.mod_small, i32_id by lia. simpl. right.
      split_and!; [lia|lia|done|intros; lia].
    + rewrite u32_id by lia. replace (next - count) with (next + 1 - (count + 1)) by lia.
      replace (next + Z.of_nat (S n)) with (next + 1 + Z.of_nat n) by lia.
      apply IH; try lia. replace (next + 1 - (count + 1)) with (next - count) by lia. done.
Qed.

(** The first part of [bitmap_scan]: the first free bit of the map. *)
Lemma first_free_ok idx k :
  0 ≤ idx < btmp_bytes_len m → (∀ j, 0 ≤ j < idx → (bits m)@@j = 255) →
  0 ≤ k ≤ 8 → (∀ j, 0 ≤ j < k → Z.testbit (bits m)@@idx j = true) →
  (k < 8 → Z.testbit (bits m)@@idx k = false) → (bits m)@@idx ≠ 255 →
  0 ≤ idx * 8 + k < nbits m ∧ used m (idx * 8 + k) = false
  ∧ ∀ i, 0 ≤ i < idx * 8 + k → used m i = true.
Proof.
  intros Hi Hfull Hk Hb Hkb Hne. destruct Hwf as [Hby Hl _].
  assert (k < 8) as Hk8.
  { destruct (first_clear_full (bits m)@@idx) as [H|]; [apply nthz_in; [done|lia]| |done].
    destruct (first_clear_spec 8 (bits m)@@idx 0) as (H1 & _ & H3).
    destruct (decide (k = 8)) as [->|]; [|lia].
    rewrite Hb in H3 by lia. specialize (H3 ltac:(lia)). done. }
  unfold nbits. split; [lia|]. split.
  - unfold used. rewrite <- (Z.div_unique (idx * 8 + k) 8 idx k) by lia.
    rewrite <- (Z.mod_unique (idx * 8 + k) 8 idx k) by lia. auto.
  - intros i Hir. destruct (Z_lt_ge_dec (i / 8) idx).
    + apply used_full_byte; [lia|]. apply Hfull. split; [apply Z.div_pos; lia|done].
    + pose proof (Z.div_mod i 8 ltac:(lia)). pose proof (Z.mod_pos_bound i 8 ltac:(lia)).
      assert (i / 8 = idx) as E by lia. unfold used. rewrite E. apply Hb. lia.
Qed.

(** First fit over the map, and over one bit more when [cnt > 1]. *)
Lemma bitmap_scan_ok cnt :
  btmp_bytes_len m < len (bits m) → 1 ≤ cnt < 2 ^ 31 → nbits m + 1 < 2 ^ 31 →
  let bound := nbits m + (if cnt =? 1 then 0 else 1) in
  bitmap_scan m cnt ⇓ λ r,
    (r = -1 ∧ ∀ s, 0 ≤ s → s + cnt ≤ nbits m → ¬ free_run m s cnt)
    ∨ (0 ≤ r < nbits m ∧ r + cnt ≤ bound ∧ free_run m r cnt
       ∧ ∀ s, 0 ≤ s < r → ¬ free_run m s cnt).
Proof.
  intros Hs Hcnt Hint bound. destruct (Hwf) as [Hby Hl Hn]. unfold nbits in *.
  unfold bitmap_scan. ok_step. eapply returns_mono; [apply scan_bytes_ok; lia|].
  intros idx (Hi & Hfull & Hne). destruct (Z.eqb_spec idx (btmp_bytes_len m)) as [->|Hlt].
  { simpl. left. split; [done|]. intros s Hs1 Hs2 Hr. specialize (Hr s ltac:(lia)).
    rewrite used_full_byte in Hr; [done|lia|]. apply Hfull.
    split; [apply Z.div_pos; lia|apply Z.div_lt_upper_bound; lia]. }
  ok_step. eapply returns_mono; [apply scan_bits_ok; lia|]. intros k (Hk & Hb & Hkb).
  destruct (first_free_ok idx k) as (Hr & Hfree & Hbefore); try done; try lia.
  unfold nbits in Hr. rewrite (u32_id (idx * 8)), (u32_id (idx * 8 + k)), i32_id by lia.
  set (start := idx * 8 + k) in *.
  assert (∀ s, 0 ≤ s < start → ¬ free_run m s cnt) as Hno.
  { intros s ? Hf. specialize (Hf s ltac:(lia)). by rewrite Hbefore in Hf. }
  unfold bound. destruct (Z.eqb_spec cnt 1) as [->|Hc1].
  { simpl. right. split_and!; [lia|lia|lia| |done].
    intros i ?. by replace i with start by lia. }
  rewrite (u32_id (btmp_bytes_len m * 8)), (u32_id (start + 1)) by lia. rewrite u32_id by lia.
  eapply returns_mono; [apply scan_run_ok; try lia|].
  { intros i ?. by replace i with start by lia. }
  replace (start + 1 - 1) with start by lia.
  replace (start + 1 + Z.of_nat (Z.to_nat (btmp_bytes_len m * 8 - start)))
    with (btmp_bytes_len m * 8 + 1) by lia.
  intros r [[-> H]|(H1 & H2 & H3 & H4)].
  - left. split; [done|]. intros s H1 H2.
    destruct (Z_lt_ge_dec s start); [apply Hno; lia|apply H; lia].
  - right. split_and!; try lia; [done|]. intros s Hsr.
    destruct (Z_lt_ge_dec s start); [apply Hno; lia|apply H4; lia].
Qed.
End scan.

(** [bitmap_init] frees every bit of the map and nothing after it. *)
Lemma bitmap_init_ok m : bytes (bits m) → 0 ≤ btmp_bytes_len m ≤ len (bits m) → nbits m < 2 ^ 31 →
  bitmap_init m ⇓ λ m', btmp_bytes_len m' = btmp_bytes_len m ∧ len (bits m') = len (bits m)
    ∧ bm_wf m' ∧ (∀ i, 0 ≤ i < nbits m → used m' i = false)
    ∧ ∀ i, nbits m ≤ i → used m' i = used m i.
Proof.
  intros Hb Hl Hn. unfold bitmap_init, memset. simpl. obind. set (n := Z.to_nat (btmp_bytes_len m)).
  rewrite <- (take_drop n (bits m)) at 1.
  assert (length (take n (bits m)) = n) as Hlen by (rewrite length_take; unfold len in *; lia).
  pose proof (memset_loop_ok [] (take n (bits m)) (drop n (bits m)) (u8 0)) as E. simpl in E.
  rewrite Hlen in E. change (len []) with 0 in E. rewrite E. obind. simpl.
  assert (bytes (replicate n 0 ++ drop n (bits m))) as Hby.
  { apply Forall_app. split; [apply Forall_replicate; unfold is_byte; lia|by apply Forall_drop]. }
  assert (len (replicate n (u8 0) ++ drop n (bits m)) = len (bits m)) as El.
  { unfold len. rewrite length_app, length_replicate, length_drop. unfold len in *. lia. }
  split_and!; [done|done| |..].
  - split; simpl; [done| |done]. rewrite El. lia.
  - intros i Hi. unfold used. simpl. destruct (div8_range i (btmp_bytes_len m)) as [Hd Hm8]; [unfold nbits in *; lia|].
    rewrite (nthz_lookup _ (i / 8) 0); [apply Z.bits_0|lia|].
    rewrite lookup_app_l by (rewrite length_replicate; lia). apply lookup_replicate. split; [done|lia].
  - intros i Hi. unfold used. simpl. f_equal. unfold nthz, nbits in *.
    assert (btmp_bytes_len m ≤ i / 8) by (Z.div_mod_to_equations; lia).
    destruct (Z.leb_spec 0 (i / 8)); [|lia]. rewrite !nth_lookup.
    rewrite lookup_app_r by (rewrite length_replicate; lia).
    rewrite lookup_drop, length_replicate. do 2 f_equal. lia.
Qed.

(** C31: [bitmap_scan] is first fit over the map and the one bit behind it.  With
    the byte after the map readable, it always returns: -1 only when the map holds no run of [cnt] free bits, and
    otherwise the lowest start of such a run.  For [cnt = 1] the run is inside
    the map; for [cnt > 1] it may extend exactly one bit past its end, and then
    that bit, which belongs to the neighbouring memory, is clear. *)
Theorem bitmap_scan_first_fit m cnt :
  bm_wf m → btmp_bytes_len m < len (bits m) → 1 ≤ cnt < 2 ^ 31 → nbits m + 1 < 2 ^ 31 →
  ∃ r, bitmap_scan m cnt = Ok r ∧
    ((r = -1 ∧ ∀ s, 0 ≤ s → s + cnt ≤ nbits m → ¬ free_run m s cnt)
     ∨ (0 ≤ r < nbits m ∧ free_run m r cnt ∧ (∀ s, 0 ≤ s < r → ¬ free_run m s cnt)
        ∧ (r + cnt ≤ nbits m
           ∨ (1 < cnt ∧ r + cnt = nbits m + 1 ∧ used m (nbits m) = false)))).
Proof.
  intros Hwf Hs Hcnt Hint.
  destruct (returns_inv _ _ (bitmap_scan_ok m Hwf cnt Hs Hcnt Hint)) as (r & Hr & H).
  exists r. split; [done|]. destruct H as [?|(H1 & H2 & H3 & H4)]; [by left|]. right.
  split_and!; try lia; try done. destruct (Z.eqb_spec cnt 1); [left; lia|].
  destruct (Z_le_gt_dec (r + cnt) (nbits m)); [by left|]. right.
  split_and!; try lia. apply H3. lia.
Qed.

(** A one-byte map, all free, in front of a free byte: a request for nine bits
    is granted from bit 0. *)
Definition overrun_map : BitMap := mkBitMap 1 [0; 0].
Lemma overrun_map_wf : bm_wf overrun_map.
Proof.
  split; [repeat (constructor; [unfold is_byte; lia|]); constructor| |reflexivity].
  vm_compute. split; discriminate.
Qed.

Lemma bitmap_scan_first_fit_witness :
  ∃ r, bitmap_scan overrun_map 9 = Ok r ∧
    ((r = -1 ∧ ∀ s, 0 ≤ s → s + 9 ≤ nbits overrun_map → ¬ free_run overrun_map s 9)
     ∨ (0 ≤ r < nbits overrun_map ∧ free_run overrun_map r 9
        ∧ (∀ s, 0 ≤ s < r → ¬ free_run overrun_map s 9)
        ∧ (r + 9 ≤ nbits overrun_map
           ∨ (1 < 9 ∧ r + 9 = nbits overrun_map + 1
              ∧ used overrun_map (nbits overrun_map) = false)))).
Proof.
  apply bitmap_scan_first_fit; [exact overrun_map_wf|reflexivity|lia|reflexivity].
Defined.

(** the off-by-one of [bitmap_scan] is reachable: on an 8-bit map with all
    bits free, followed by a byte whose first bit is clear, a request for 9
    bits succeeds with start 0. *)
Theorem bitmap_scan_overruns :
  bm_wf overrun_map ∧ nbits overrun_map = 8 ∧ bitmap_scan overrun_map 9 = Ok 0.
Proof. split; [exact overrun_map_wf|]. split; reflexivity. Qed.

(** [bitmap_set] writes exactly one bit: it returns, the addressed bit
    takes the value, every other bit, the length and well-formedness are
    kept, and [bitmap_scan_test] then reads the new value. *)
Theorem bitmap_set_correct m i (v : bool) :
  bm_wf m → 0 ≤ i < 8 * len (bits m) →
  ∃ m', bitmap_set m i (if v then 1 else 0) = Ok m' ∧ bm_wf m'
    ∧ btmp_bytes_len m' = btmp_bytes_len m ∧ bitmap_scan_test m' i = Ok v
    ∧ ∀ j, 0 ≤ j < 8 * len (bits m) → j ≠ i →
        bitmap_scan_test m' j = bitmap_scan_test m j.
Proof.
  intros Hwf Hi. destruct (returns_inv _ _ (bitmap_set_ok m i v Hwf Hi))
    as (m' & Hm' & Hlen & Hl & Hwf' & Hu).
  exists m'. split_and!; try done.
  - rewrite scan_test_ok by lia. rewrite Hu, Z.eqb_refl by lia. done.
  - intros j Hj Hne. rewrite !scan_test_ok by lia. rewrite Hu by lia.
    by destruct (Z.eqb_spec j i).
Qed.

Lemma bitmap_set_correct_witness :
  ∃ m', bitmap_set overrun_map 3 1 = Ok m' ∧ bm_wf m'
    ∧ btmp_bytes_len m' = 1 ∧ bitmap_scan_test m' 3 = Ok true
    ∧ ∀ j, 0 ≤ j < 8 * len (bits overrun_map) → j ≠ 3 →
        bitmap_scan_test m' j = bitmap_scan_test overrun_map j.
Proof.
  apply (bitmap_set_correct overrun_map 3 true); [exact overrun_map_wf|].
  vm_compute. split; [discriminate|reflexivity].
Defined.
