(* ===== verification/Machine.v ===== *)
(** * The kernel's data and its state monad

    The structures of kernel/losmemory.h, thread/thread.h, thread/sync.h and
    lib/kernel/list.h, and [kstate], the kernel's global state.  A pointer is
    its address, NULL is 0.  Structures that the code reaches through pointers
    live in finite maps by address ([links], [tasks], [descs], [arenas],
    [locks], [sema_value]); an embedded member is at its offset in the
    enclosing structure, as [elem2entry] expects.  [phys] is physical memory. *)
From S2P Require Import Prelude CString Bitmap.

Definition NULL : Z := 0.
Definition PG_SIZE : Z := 4096.

Inductive IntrStatus := INTR_OFF | INTR_ON.
#[global] Instance IntrStatus_eq_dec : EqDecision IntrStatus.
Proof. solve_decision. Defined.

Record ListElem := mkElem { prev : Z; next : Z }.

(** struct List { head; tail }: the tail sentinel follows the head. *)
Definition list_head (plist : Z) : Z := plist.
Definition list_tail (plist : Z) : Z := plist + 8.

Record VirtualAddr := mkVirtualAddr { vaddr_map : BitMap; vaddr_start : Z }.

Inductive PoolType := PF_KERNEL | PF_USER.
#[global] Instance PoolType_eq_dec : EqDecision PoolType.
Proof. solve_decision. Defined.

(** [free_list] is the List member at offset 8, in [links]. *)
Record MemBlockDesc := mkDesc { block_size : Z; blocks_per_arena : Z }.
Definition desc_free_list (d : Z) : Z := d + 8.
Definition sizeof_MemBlockDesc : Z := 24.
Definition DESC_CNT : nat := 7.

Record Arena := mkArena { desc : Z; cnt : Z; large : bool }.
Definition sizeof_Arena : Z := 12.

Record Pool := mkPool { pool_map : BitMap; phy_addr_start : Z; size : Z; lock : Z }.

Inductive TaskStatus :=
| TASK_RUNNING | TASK_READY | TASK_BLOCKED | TASK_WAITING | TASK_HANGING | TASK_DIED.
#[global] Instance TaskStatus_eq_dec : EqDecision TaskStatus.
Proof. solve_decision. Defined.

(** [general_tag] and [all_list_tag] are in [links], [u_block_desc] in [descs]. *)
Record TaskStruct := mkTask {
  self_kstack : Z;
  pid : Z;
  status : TaskStatus;
  priority : Z;
  name : list Z;
  ticks : Z;
  elapsed_ticks : Z;
  fd_table : list Z;
  pgdir : Z;
  userprog_vaddr : VirtualAddr;
  cwd_inode_nr : Z;
  parent_pid : Z;
  exit_status : Z;
  stack_magic : Z;
}.
(** Member updates. *)
Definition set_self_kstack (v : Z) (t : TaskStruct) : TaskStruct :=
  mkTask v (pid t) (status t) (priority t) (name t) (ticks t) (elapsed_ticks t) (fd_table t) (pgdir t) (userprog_vaddr t) (cwd_inode_nr t) (parent_pid t) (exit_status t) (stack_magic t).
Definition set_pid (v : Z) (t : TaskStruct) : TaskStruct :=
  mkTask (self_kstack t) v (status t) (priority t) (name t) (ticks t) (elapsed_ticks t) (fd_table t) (pgdir t) (userprog_vaddr t) (cwd_inode_nr t) (parent_pid t) (exit_status t) (stack_magic t).
Definition set_status (v : TaskStatus) (t : TaskStruct) : TaskStruct :=
  mkTask (self_kstack t) (pid t) v (priority t) (name t) (ticks t) (elapsed_ticks t) (fd_table t) (pgdir t) (userprog_vaddr t) (cwd_inode_nr t) (parent_pid t) (exit_status t) (stack_magic t).
Definition set_priority (v : Z) (t : TaskStruct) : TaskStruct :=
  mkTask (self_kstack t) (pid t) (status t) v (name t) (ticks t) (elapsed_ticks t) (fd_table t) (pgdir t) (userprog_vaddr t) (cwd_inode_nr t) (parent_pid t) (exit_status t) (stack_magic t).
Definition set_name (v : list Z) (t : TaskStruct) : TaskStruct :=
  mkTask (self_kstack t) (pid t) (status t) (priority t) v (ticks t) (elapsed_ticks t) (fd_table t) (pgdir t) (userprog_vaddr t) (cwd_inode_nr t) (parent_pid t) (exit_status t) (stack_magic t).
Definition set_ticks (v : Z) (t : TaskStruct) : TaskStruct :=
  mkTask (self_kstack t) (pid t) (status t) (priority t) (name t) v (elapsed_ticks t) (fd_table t) (pgdir t) (userprog_vaddr t) (cwd_inode_nr t) (parent_pid t) (exit_status t) (stack_magic t).
Definition set_elapsed_ticks (v : Z) (t : TaskStruct) : TaskStruct :=
  mkTask (self_kstack t) (pid t) (status t) (priority t) (name t) (ticks t) v (fd_table t) (pgdir t) (userprog_vaddr t) (cwd_inode_nr t) (parent_pid t) (exit_status t) (stack_magic t).
Definition set_fd_table (v : list Z) (t : TaskStruct) : TaskStruct :=
  mkTask (self_kstack t) (pid t) (status t) (priority t) (name t) (ticks t) (elapsed_ticks t) v (pgdir t) (userprog_vaddr t) (cwd_inode_nr t) (parent_pid t) (exit_status t) (stack_magic t).
Definition set_pgdir (v : Z) (t : TaskStruct) : TaskStruct :=
  mkTask (self_kstack t) (pid t) (status t) (priority t) (name t) (ticks t) (elapsed_ticks t) (fd_table t) v (userprog_vaddr t) (cwd_inode_nr t) (parent_pid t) (exit_status t) (stack_magic t).
Definition set_userprog_vaddr (v : VirtualAddr) (t : TaskStruct) : TaskStruct :=
  mkTask (self_kstack t) (pid t) (status t) (priority t) (name t) (ticks t) (elapsed_ticks t) (fd_table t) (pgdir t) v (cwd_inode_nr t) (parent_pid t) (exit_status t) (stack_magic t).
Definition set_cwd_inode_nr (v : Z) (t : TaskStruct) : TaskStruct :=
  mkTask (self_kstack t) (pid t) (status t) (priority t) (name t) (ticks t) (elapsed_ticks t) (fd_table t) (pgdir t) (userprog_vaddr t) v (parent_pid t) (exit_status t) (stack_magic t).
Definition set_parent_pid (v : Z) (t : TaskStruct) : TaskStruct :=
  mkTask (self_kstack t) (pid t) (status t) (priority t) (name t) (ticks t) (elapsed_ticks t) (fd_table t) (pgdir t) (userprog_vaddr t) (cwd_inode_nr t) v (exit_status t) (stack_magic t).
Definition set_exit_status (v : Z) (t : TaskStruct) : TaskStruct :=
  mkTask (self_kstack t) (pid t) (status t) (priority t) (name t) (ticks t) (elapsed_ticks t) (fd_table t) (pgdir t) (userprog_vaddr t) (cwd_inode_nr t) (parent_pid t) v (stack_magic t).
Definition set_stack_magic (v : Z) (t : TaskStruct) : TaskStruct :=
  mkTask (self_kstack t) (pid t) (status t) (priority t) (name t) (ticks t) (elapsed_ticks t) (fd_table t) (pgdir t) (userprog_vaddr t) (cwd_inode_nr t) (parent_pid t) (exit_status t) v.

Definition general_tag (t : Z) : Z := t + 68.
Definition all_list_tag (t : Z) : Z := t + 76.
Definition u_block_desc (t : Z) : Z := t + 100.
Definition sizeof_TaskStruct : Z := 280.
Definition MAX_FILES_OPEN_PER_PROC : Z := 8.
Definition TASK_NAME_LEN : Z := 16.
Definition STACK_MAGIC : Z := 0xcafebabe.

(** struct Semaphore { value; waiters }, struct Lock { holder; semaphore;
    holder_repeat_nr }. *)
Definition waiters (sm : Z) : Z := sm + 4.
Record LockHead := mkLock { holder : Z; holder_repeat_nr : Z }.
Definition lock_semaphore (l : Z) : Z := l + 4.

(** Link-time addresses of the global objects the code names. *)
Record Globals := mkGlobals {
  thread_ready_list : Z;
  thread_all_list : Z;
  k_block_descs : Z;
  pid_lock : Z;
  main_thread : Z;
  idle_thread : Z;
}.

Record kstate := mkK {
  intr : IntrStatus;  (* EFLAGS.IF *)
  esp : Z;  (* the stack pointer *)
  cr3 : Z;  (* physical address of the page directory in use *)
  tss_esp0 : Z;  (* tss.esp0 *)
  links : gmap Z ListElem;  (* every ListElem in memory, by address *)
  tasks : gmap Z TaskStruct;  (* every PCB, by address *)
  sema_value : gmap Z Z;  (* Semaphore.value, by address of the semaphore *)
  locks : gmap Z LockHead;  (* Lock.holder and holder_repeat_nr, by address of the lock *)
  phys : gmap Z Z;  (* physical memory as 32-bit words; absent words are 0 *)
  kernel_pool : Pool;
  user_pool : Pool;
  kernel_vaddr : VirtualAddr;
  descs : gmap Z MemBlockDesc;  (* every MemBlockDesc, by address *)
  arenas : gmap Z Arena;  (* every Arena header, by address *)
  next_pid : Z;  (* the static next_pid of allocate_pid *)
  ticks_total : Z;  (* the global ticks of device/time.c *)
  glob : Globals;  (* addresses of the global objects *)
}.

Definition set_intr (v : IntrStatus) (s : kstate) : kstate :=
  mkK v (esp s) (cr3 s) (tss_esp0 s) (links s) (tasks s) (sema_value s) (locks s) (phys s) (kernel_pool s) (user_pool s) (kernel_vaddr s) (descs s) (arenas s) (next_pid s) (ticks_total s) (glob s).
Definition set_esp (v : Z) (s : kstate) : kstate :=
  mkK (intr s) v (cr3 s) (tss_esp0 s) (links s) (tasks s) (sema_value s) (locks s) (phys s) (kernel_pool s) (user_pool s) (kernel_vaddr s) (descs s) (arenas s) (next_pid s) (ticks_total s) (glob s).
Definition set_cr3 (v : Z) (s : kstate) : kstate :=
  mkK (intr s) (esp s) v (tss_esp0 s) (links s) (tasks s) (sema_value s) (locks s) (phys s) (kernel_pool s) (user_pool s) (kernel_vaddr s) (descs s) (arenas s) (next_pid s) (ticks_total s) (glob s).
Definition set_tss_esp0 (v : Z) (s : kstate) : kstate :=
  mkK (intr s) (esp s) (cr3 s) v (links s) (tasks s) (sema_value s) (locks s) (phys s) (kernel_pool s) (user_pool s) (kernel_vaddr s) (descs s) (arenas s) (next_pid s) (ticks_total s) (glob s).
Definition set_links (v : gmap Z ListElem) (s : kstate) : kstate :=
  mkK (intr s) (esp s) (cr3 s) (tss_esp0 s) v (tasks s) (sema_value s) (locks s) (phys s) (kernel_pool s) (user_pool s) (kernel_vaddr s) (descs s) (arenas s) (next_pid s) (ticks_total s) (glob s).
Definition set_tasks (v : gmap Z TaskStruct) (s : kstate) : kstate :=
  mkK (intr s) (esp s) (cr3 s) (tss_esp0 s) (links s) v (sema_value s) (locks s) (phys s) (kernel_pool s) (user_pool s) (kernel_vaddr s) (descs s) (arenas s) (next_pid s) (ticks_total s) (glob s).
Definition set_sema_value (v : gmap Z Z) (s : kstate) : kstate :=
  mkK (intr s) (esp s) (cr3 s) (tss_esp0 s) (links s) (tasks s) v (locks s) (phys s) (kernel_pool s) (user_pool s) (kernel_vaddr s) (descs s) (arenas s) (next_pid s) (ticks_total s) (glob s).
Definition set_locks (v : gmap Z LockHead) (s : kstate) : kstate :=
  mkK (intr s) (esp s) (cr3 s) (tss_esp0 s) (links s) (tasks s) (sema_value s) v (phys s) (kernel_pool s) (user_pool s) (kernel_vaddr s) (descs s) (arenas s) (next_pid s) (ticks_total s) (glob s).
Definition set_phys (v : gmap Z Z) (s : kstate) : kstate :=
  mkK (intr s) (esp s) (cr3 s) (tss_esp0 s) (links s) (tasks s) (sema_value s) (locks s) v (kernel_pool s) (user_pool s) (kernel_vaddr s) (descs s) (arenas s) (next_pid s) (ticks_total s) (glob s).
Definition set_kernel_pool (v : Pool) (s : kstate) : kstate :=
  mkK (intr s) (esp s) (cr3 s) (tss_esp0 s) (links s) (tasks s) (sema_value s) (locks s) (phys s) v (user_pool s) (kernel_vaddr s) (descs s) (arenas s) (next_pid s) (ticks_total s) (glob s).
Definition set_user_pool (v : Pool) (s : kstate) : kstate :=
  mkK (intr s) (esp s) (cr3 s) (tss_esp0 s) (links s) (tasks s) (sema_value s) (locks s) (phys s) (kernel_pool s) v (kernel_vaddr s) (descs s) (arenas s) (next_pid s) (ticks_total s) (glob s).
Definition set_kernel_vaddr (v : VirtualAddr) (s : kstate) : kstate :=
  mkK (intr s) (esp s) (cr3 s) (tss_esp0 s) (links s) (tasks s) (sema_value s) (locks s) (phys s) (kernel_pool s) (user_pool s) v (descs s) (arenas s) (next_pid s) (ticks_total s) (glob s).
Definition set_descs (v : gmap Z MemBlockDesc) (s : kstate) : kstate :=
  mkK (intr s) (esp s) (cr3 s) (tss_esp0 s) (links s) (tasks s) (sema_value s) (locks s) (phys s) (kernel_pool s) (user_pool s) (kernel_vaddr s) v (arenas s) (next_pid s) (ticks_total s) (glob s).
Definition set_arenas (v : gmap Z Arena) (s : kstate) : kstate :=
  mkK (intr s) (esp s) (cr3 s) (tss_esp0 s) (links s) (tasks s) (sema_value s) (locks s) (phys s) (kernel_pool s) (user_pool s) (kernel_vaddr s) (descs s) v (next_pid s) (ticks_total s) (glob s).
Definition set_next_pid (v : Z) (s : kstate) : kstate :=
  mkK (intr s) (esp s) (cr3 s) (tss_esp0 s) (links s) (tasks s) (sema_value s) (locks s) (phys s) (kernel_pool s) (user_pool s) (kernel_vaddr s) (descs s) (arenas s) v (ticks_total s) (glob s).
Definition set_ticks_total (v : Z) (s : kstate) : kstate :=
  mkK (intr s) (esp s) (cr3 s) (tss_esp0 s) (links s) (tasks s) (sema_value s) (locks s) (phys s) (kernel_pool s) (user_pool s) (kernel_vaddr s) (descs s) (arenas s) (next_pid s) v (glob s).
Definition set_glob (v : Globals) (s : kstate) : kstate :=
  mkK (intr s) (esp s) (cr3 s) (tss_esp0 s) (links s) (tasks s) (sema_value s) (locks s) (phys s) (kernel_pool s) (user_pool s) (kernel_vaddr s) (descs s) (arenas s) (next_pid s) (ticks_total s) v.

Lemma set_links_id s : set_links (links s) s = s.
Proof. by destruct s. Qed.

(** A machine with nothing allocated, for concrete runs. *)
Definition k0 : kstate :=
  mkK INTR_OFF 0 0 0 ∅ ∅ ∅ ∅ ∅ (mkPool (mkBitMap 0 []) 0 0 0) (mkPool (mkBitMap 0 []) 0 0 0)
    (mkVirtualAddr (mkBitMap 0 []) 0) ∅ ∅ 0 0 (mkGlobals 0 0 0 0 0 0).

(** ** The state monad *)
Definition K (A : Type) : Type := kstate → outcome (A * kstate).
#[global] Instance K_ret : MRet K := λ A a s, Ok (a, s).
#[global] Instance K_bind : MBind K := λ A B f m s,
  match m s with
  | Ok (a, s') => f a s'
  | Panic => Panic
  | Fault => Fault
  | Spin => Spin
  | Blocked => Blocked
  end.

Definition gets {A} (f : kstate → A) : K A := λ s, Ok (f s, s).
Definition modify (f : kstate → kstate) : K unit := λ s, Ok ((), f s).
Definition lift {A} (o : outcome A) : K A := λ s,
  match o with
  | Ok a => Ok (a, s)
  | Panic => Panic
  | Fault => Fault
  | Spin => Spin
  | Blocked => Blocked
  end.
Definition kassert (c : bool) : K unit := lift (ASSERT c).
Definition kfail {A} (o : outcome A) : K A := lift o.
Definition when (c : bool) (m : K unit) : K unit := if c then m else mret ().

(** Total correctness: from [s], [m] returns with a value and a state in [Q]. *)
Definition wp {A} (m : K A) (s : kstate) (Q : A → kstate → Prop) : Prop :=
  m s ⇓ λ '(a, s'), Q a s'.

Section wp_rules.
Context {A B : Type}.
Implicit Types (m : K A) (k : A → K B) (s : kstate).

Lemma wp_ret (a : A) s (Q : A → kstate → Prop) : Q a s → wp (mret a) s Q.
Proof. done. Qed.

Lemma wp_bind m k s (Q : B → kstate → Prop) :
  wp m s (λ a s', wp (k a) s' Q) → wp (m ≫= k) s Q.
Proof.
  unfold wp, mbind, K_bind. by destruct (m s) as [[a s']| | | |].
Qed.

Lemma wp_bind_inv m k s (Q : B → kstate → Prop) :
  wp (m ≫= k) s Q → wp m s (λ a s', wp (k a) s' Q).
Proof. unfold wp, mbind, K_bind. by destruct (m s) as [[a s']| | | |]. Qed.

Lemma wp_mono m s (P Q : A → kstate → Prop) :
  wp m s P → (∀ a s', P a s' → Q a s') → wp m s Q.
Proof. unfold wp. destruct (m s) as [[a s']| | | |]; simpl; auto. Qed.

Lemma wp_gets (f : kstate → A) s (Q : A → kstate → Prop) : Q (f s) s → wp (gets f) s Q.
Proof. intros H. exact H. Qed.

Lemma wp_lift (o : outcome A) s (Q : A → kstate → Prop) :
  (o ⇓ λ a, Q a s) → wp (lift o) s Q.
Proof. by destruct o. Qed.

Lemma wp_eq m s a s' (Q : A → kstate → Prop) : m s = Ok (a, s') → Q a s' → wp m s Q.
Proof. unfold wp. by intros ->. Qed.

Lemma wp_inv m s (Q : A → kstate → Prop) : wp m s Q → ∃ a s', m s = Ok (a, s') ∧ Q a s'.
Proof. intros ([a s'] & ? & ?)%returns_inv. eauto. Qed.
End wp_rules.

Lemma wp_modify f s Q : Q () (f s) → wp (modify f) s Q.
Proof. intros H. exact H. Qed.

Lemma wp_kassert c s Q : c = true → Q () s → wp (kassert c) s Q.
Proof. by intros ->. Qed.

(** One step of a monadic computation. *)
Ltac kstep :=
  match goal with
  | |- wp (_ ≫= _) _ _ => apply wp_bind
  | |- wp (mret _) _ _ => apply wp_ret
  | |- wp (gets _) _ _ => apply wp_gets
  | |- wp (modify _) _ _ => apply wp_modify
  | |- wp (λ _, Ok _) _ _ => unfold wp, returns
  end.
Ltac ksteps := repeat kstep.
