(* ===== verification/DList.v ===== *)
(** * lib/kernel/list.c and the interrupt flag (kernel/interrupt.c)

    The intrusive doubly linked lists of the kernel.  All nodes of all lists
    are in [links]; a write to NULL and a read of memory that holds no node is
    a [Fault].  [lrep h L] says that the heap [h] holds the lists of the
    abstract map [L] (list address to element addresses), pairwise disjoint;
    every operation is proved to implement its list operation on [L]. *)
From S2P Require Import Prelude CString Bitmap Machine.

(** ** Interrupt flag *)
Definition intr_get_status : K IntrStatus := gets intr.

Definition intr_enable : K IntrStatus :=
  st ← intr_get_status;
  if decide (INTR_ON = st) then mret INTR_ON
  else _ ← modify (set_intr INTR_ON); mret INTR_OFF.

Definition intr_disable : K IntrStatus :=
  st ← intr_get_status;
  if decide (INTR_ON = st) then _ ← modify (set_intr INTR_OFF); mret INTR_ON
  else mret INTR_OFF.

Definition intr_set_status (status : IntrStatus) : K IntrStatus :=
  if decide (status = INTR_ON) then intr_enable else intr_disable.

(** ** Node access *)
Definition upd_next (h : gmap Z ListElem) (p v : Z) : gmap Z ListElem :=
  <[p := mkElem (default 0 (prev <$> h !! p)) v]> h.
Definition upd_prev (h : gmap Z ListElem) (p v : Z) : gmap Z ListElem :=
  <[p := mkElem v (default 0 (next <$> h !! p))]> h.

Definition ld_elem (p : Z) : K ListElem := h ← gets links; lift (deref (h !! p)).
Definition ld_next (p : Z) : K Z := e ← ld_elem p; mret (next e).
Definition ld_prev (p : Z) : K Z := e ← ld_elem p; mret (prev e).
Definition st_next (p v : Z) : K unit :=
  if p =? NULL then kfail Fault else modify (λ s, set_links (upd_next (links s) p v) s).
Definition st_prev (p v : Z) : K unit :=
  if p =? NULL then kfail Fault else modify (λ s, set_links (upd_prev (links s) p v) s).

(** The structure whose member at offset [off] is at [elem_ptr]. *)
Definition elem2entry (off elem_ptr : Z) : Z := u32 (elem_ptr - off).

(** ** Operations *)
Definition list_init (list : Z) : K unit :=
  st_prev (list_head list) NULL ;;
  st_next (list_head list) (list_tail list) ;;
  st_next (list_tail list) NULL ;;
  st_prev (list_tail list) (list_head list).

Definition list_insert_before (before elem : Z) : K unit :=
  old ← intr_disable;
  bp ← ld_prev before;
  st_next bp elem ;;
  bp ← ld_prev before;
  st_prev elem bp ;;
  st_next elem before ;;
  st_prev before elem ;;
  _ ← intr_set_status old;
  mret ().

Definition list_push (plist elem : Z) : K unit :=
  first ← ld_next (list_head plist); list_insert_before first elem.

Definition list_append (plist elem : Z) : K unit :=
  list_insert_before (list_tail plist) elem.

Definition list_remove (elem : Z) : K unit :=
  old ← intr_disable;
  ep ← ld_prev elem; en ← ld_next elem;
  st_next ep en ;;
  en ← ld_next elem; ep ← ld_prev elem;
  st_prev en ep ;;
  _ ← intr_set_status old;
  mret ().

Definition list_pop (plist : Z) : K Z :=
  elem ← ld_next (list_head plist);
  list_remove elem ;;
  mret elem.

(** Loops over a list follow [next] until the tail; a well-formed list has
    fewer elements than the heap has nodes. *)
Definition list_fuel (s : kstate) : nat := S (base.size (links s)).

Fixpoint find_loop (fuel : nat) (plist elem obj : Z) : K bool :=
  match fuel with
  | O => kfail Spin
  | S fuel =>
      if elem =? list_tail plist then mret false
      else if elem =? obj then mret true
      else n ← ld_next elem; find_loop fuel plist n obj
  end.

Definition list_find (plist obj : Z) : K bool :=
  fuel ← gets list_fuel;
  first ← ld_next (list_head plist);
  find_loop fuel plist first obj.

Definition list_empty (plist : Z) : K bool :=
  first ← ld_next (list_head plist); mret (first =? list_tail plist).

Fixpoint traversal_loop (fuel : nat) (plist elem : Z) (func : Z → Z → K bool) (arg : Z) : K Z :=
  match fuel with
  | O => kfail Spin
  | S fuel =>
      if elem =? list_tail plist then mret NULL
      else found ← func elem arg;
           if (found : bool) then mret elem
           else n ← ld_next elem; traversal_loop fuel plist n func arg
  end.

Definition list_traversal (plist : Z) (func : Z → Z → K bool) (arg : Z) : K Z :=
  e ← list_empty plist;
  if (e : bool) then mret NULL
  else
    fuel ← gets list_fuel;
    first ← ld_next (list_head plist);
    traversal_loop fuel plist first func arg.

Fixpoint len_loop (fuel : nat) (plist elem length : Z) : K Z :=
  match fuel with
  | O => kfail Spin
  | S fuel =>
      if elem =? list_tail plist then mret (u32 length)
      else n ← ld_next elem; len_loop fuel plist n (i32 (length + 1))
  end.

Definition list_len (plist : Z) : K Z :=
  fuel ← gets list_fuel;
  first ← ld_next (list_head plist);
  len_loop fuel plist first 0.

(** ** Chains of nodes *)
Definition nxt (h : gmap Z ListElem) (p : Z) : option Z := next <$> h !! p.
Definition prv (h : gmap Z ListElem) (p : Z) : option Z := prev <$> h !! p.

(** Consecutive nodes of [ns] point at each other. *)
Fixpoint chain (h : gmap Z ListElem) (ns : list Z) : Prop :=
  match ns with
  | a :: (b :: _) as ns' => nxt h a = Some b ∧ prv h b = Some a ∧ chain h ns'
  | _ => True
  end.

Lemma nxt_upd_next h p v q : nxt (upd_next h p v) q = if decide (p = q) then Some v else nxt h q.
Proof. unfold nxt, upd_next. rewrite lookup_insert. by case_decide. Qed.
Lemma prv_upd_next h p v q :
  prv (upd_next h p v) q = if decide (p = q) then Some (default 0 (prv h p)) else prv h q.
Proof. unfold prv, upd_next. rewrite lookup_insert. by case_decide. Qed.
Lemma prv_upd_prev h p v q : prv (upd_prev h p v) q = if decide (p = q) then Some v else prv h q.
Proof. unfold prv, upd_prev. rewrite lookup_insert. by case_decide. Qed.
Lemma nxt_upd_prev h p v q :
  nxt (upd_prev h p v) q = if decide (p = q) then Some (default 0 (nxt h p)) else nxt h q.
Proof. unfold nxt, upd_prev. rewrite lookup_insert. by case_decide. Qed.
#[export] Hint Rewrite nxt_upd_next prv_upd_next prv_upd_prev nxt_upd_prev : los.

(** Evaluate the pointers of an updated heap, deciding address equalities. *)
Ltac heap_simpl :=
  repeat first
    [ progress autorewrite with los in *
    | progress simplify_option_eq
    | rewrite decide_True by (done || lia || congruence)
    | rewrite decide_False by (done || lia || congruence) ]; simpl.

Lemma chain_cons2 h a b ns : chain h (a :: b :: ns) ↔ nxt h a = Some b ∧ prv h b = Some a ∧ chain h (b :: ns).
Proof. done. Qed.

Lemma chain_app h l1 a l2 : chain h (l1 ++ a :: l2) ↔ chain h (l1 ++ [a]) ∧ chain h (a :: l2).
Proof.
  induction l1 as [|x l1 IH]; simpl app; [simpl; tauto|].
  destruct l1 as [|y l1]; simpl app in *; rewrite ?chain_cons2 in *.
  - simpl. tauto.
  - rewrite IH. tauto.
Qed.

Lemma chain_frame_l h h' l a :
  chain h (l ++ [a]) → (∀ n, n ∈ l → nxt h' n = nxt h n) →
  (∀ n, n ∈ l ++ [a] → prv h' n = prv h n) → chain h' (l ++ [a]).
Proof.
  induction l as [|x l IH]; intros Hc Hn Hp; [done|].
  destruct l as [|y l]; simpl app in *; rewrite chain_cons2 in *; destruct Hc as (H1 & H2 & H3).
  - rewrite Hn, Hp by set_solver. done.
  - rewrite Hn, Hp by set_solver. split_and!; [done|done|]. apply IH; [done|set_solver|set_solver].
Qed.

Lemma chain_frame_r h h' b l :
  chain h (b :: l) → (∀ n, n ∈ b :: l → nxt h' n = nxt h n) →
  (∀ n, n ∈ l → prv h' n = prv h n) → chain h' (b :: l).
Proof.
  revert b. induction l as [|x l IH]; intros b Hc Hn Hp; [done|].
  rewrite chain_cons2 in *. destruct Hc as (H1 & H2 & H3).
  rewrite Hn, Hp by set_solver. split_and!; [done|done|]. apply IH; [done|set_solver|set_solver].
Qed.

Lemma chain_frame h h' ns :
  chain h ns → (∀ n, n ∈ ns → nxt h' n = nxt h n ∧ prv h' n = prv h n) → chain h' ns.
Proof.
  intros Hc Hf. destruct ns as [|b l]; [done|].
  eapply chain_frame_r; [done|intros; by apply Hf|intros; apply Hf; set_solver].
Qed.

(** The heap after linking [e] between [a] and [b], and after unlinking the
    node between them. *)
Definition linked (h : gmap Z ListElem) (a e b : Z) : gmap Z ListElem :=
  upd_prev (upd_next (upd_prev (upd_next h a e) e a) e b) b e.
Definition unlinked (h : gmap Z ListElem) (a b : Z) : gmap Z ListElem :=
  upd_prev (upd_next h a b) b a.

Lemma linked_nxt h a e b n : a ≠ e → e ≠ b → a ≠ b → is_Some (h !! b) →
  nxt (linked h a e b) n = if decide (n = a) then Some e else if decide (n = e) then Some b else nxt h n.
Proof.
  intros ??? [eb Hb]. unfold linked. autorewrite with los.
  repeat case_decide; subst; try done; try congruence.
  unfold nxt. by rewrite Hb.
Qed.

Lemma linked_prv h a e b n : a ≠ e → e ≠ b → a ≠ b → is_Some (h !! a) →
  prv (linked h a e b) n = if decide (n = b) then Some e else if decide (n = e) then Some a else prv h n.
Proof.
  intros ??? [ea Ha]. unfold linked. autorewrite with los.
  repeat case_decide; subst; try done; try congruence.
  unfold prv. by rewrite Ha.
Qed.

Lemma unlinked_nxt h a b n : a ≠ b → is_Some (h !! b) →
  nxt (unlinked h a b) n = if decide (n = a) then Some b else nxt h n.
Proof.
  intros ? [eb Hb]. unfold unlinked. autorewrite with los.
  repeat case_decide; subst; try done; try congruence. unfold nxt. by rewrite Hb.
Qed.

Lemma unlinked_prv h a b n : a ≠ b → is_Some (h !! a) →
  prv (unlinked h a b) n = if decide (n = b) then Some a else prv h n.
Proof.
  intros ? [ea Ha]. unfold unlinked. autorewrite with los.
  repeat case_decide; subst; try done; try congruence. unfold prv. by rewrite Ha.
Qed.

(** ** Running the two primitives *)
Lemma ld_next_eq s p v : nxt (links s) p = Some v → ld_next p s = Ok (v, s).
Proof.
  unfold nxt, ld_next, ld_elem, mbind, K_bind, gets. destruct (links s !! p); simpl; intros; by simplify_eq.
Qed.
Lemma ld_prev_eq s p v : prv (links s) p = Some v → ld_prev p s = Ok (v, s).
Proof.
  unfold prv, ld_prev, ld_elem, mbind, K_bind, gets. destruct (links s !! p); simpl; intros; by simplify_eq.
Qed.
Lemma st_next_eq s p v : p ≠ 0 → st_next p v s = Ok ((), set_links (upd_next (links s) p v) s).
Proof. intros. unfold st_next, NULL. by destruct (Z.eqb_spec p 0). Qed.
Lemma st_prev_eq s p v : p ≠ 0 → st_prev p v s = Ok ((), set_links (upd_prev (links s) p v) s).
Proof. intros. unfold st_prev, NULL. by destruct (Z.eqb_spec p 0). Qed.

(** Steps of the list code: loads whose pointer is known, stores to non-NULL. *)
Ltac lstep :=
  match goal with
  | |- wp (_ ≫= _) _ _ => apply wp_bind
  | |- wp (mret _) _ _ => apply wp_ret
  | |- wp (ld_next _) _ _ => eapply wp_eq; [apply ld_next_eq|]
  | |- wp (ld_prev _) _ _ => eapply wp_eq; [apply ld_prev_eq|]
  | |- wp (st_next _ _) _ _ => eapply wp_eq; [apply st_next_eq|]
  | |- wp (st_prev _ _) _ _ => eapply wp_eq; [apply st_prev_eq|]
  end.

Lemma wp_intr_disable s Q : Q (intr s) (set_intr INTR_OFF s) → wp intr_disable s Q.
Proof.
  intros HQ. unfold wp, intr_disable, intr_get_status, mbind, K_bind, gets.
  destruct s as [i]. simpl in *. destruct i; exact HQ.
Qed.
Lemma wp_intr_set_status i s Q : Q (intr s) (set_intr i s) → wp (intr_set_status i) s Q.
Proof.
  intros HQ. unfold wp, intr_set_status, intr_enable, intr_disable, intr_get_status, mbind, K_bind, gets.
  destruct s as [i']. simpl in *. destruct i, i'; exact HQ.
Qed.

Lemma list_insert_before_ok s before elem a Q :
  prv (links s) before = Some a → a ≠ 0 → before ≠ 0 → elem ≠ 0 →
  Q () (set_links (linked (links s) a elem before) s) →
  wp (list_insert_before before elem) s Q.
Proof.
  intros Hp Ha Hb He HQ. unfold list_insert_before.
  apply wp_bind, wp_intr_disable. repeat (lstep; try done); simpl.
  - rewrite prv_upd_next. case_decide; [subst; by rewrite Hp|done].
  - apply wp_intr_set_status. lstep. destruct s; exact HQ.
Qed.

Lemma list_remove_ok s elem a b Q :
  prv (links s) elem = Some a → nxt (links s) elem = Some b → a ≠ 0 → b ≠ 0 → a ≠ elem →
  Q () (set_links (unlinked (links s) a b) s) → wp (list_remove elem) s Q.
Proof.
  intros Hp Hn Ha Hb Hae HQ. unfold list_remove.
  apply wp_bind, wp_intr_disable. repeat (lstep; try done); simpl.
  - rewrite nxt_upd_next. by rewrite decide_False.
  - rewrite prv_upd_next. by rewrite decide_False.
  - apply wp_intr_set_status. lstep. destruct s; exact HQ.
Qed.

(** ** Well-formed lists *)
Definition nodes (p : Z) (xs : list Z) : list Z := list_head p :: xs ++ [list_tail p].

Record dlist (h : gmap Z ListElem) (p : Z) (xs : list Z) : Prop := {
  dl_chain : chain h (nodes p xs);
  dl_nodup : NoDup (nodes p xs);
  dl_nonnull : 0 ∉ nodes p xs;
  dl_end : nxt h (list_tail p) = Some NULL;
}.

(** The heap holds exactly described, pairwise disjoint lists. *)
Record lrep (h : gmap Z ListElem) (L : gmap Z (list Z)) : Prop := {
  lr_dlist p xs : L !! p = Some xs → dlist h p xs;
  lr_disj p q xs ys n :
    L !! p = Some xs → L !! q = Some ys → n ∈ nodes p xs → n ∈ nodes q ys → p = q;
}.

(** [e] is a node of no list. *)
Definition fresh_node (L : gmap Z (list Z)) (e : Z) : Prop :=
  e ≠ 0 ∧ ∀ q ys, L !! q = Some ys → e ∉ nodes q ys.

Lemma chain_nxt h pre a b post : chain h (pre ++ a :: b :: post) → nxt h a = Some b.
Proof. rewrite chain_app, chain_cons2. tauto. Qed.
Lemma chain_prv h pre a b post : chain h (pre ++ a :: b :: post) → prv h b = Some a.
Proof. rewrite chain_app, chain_cons2. tauto. Qed.
Lemma prv_is_Some h n v : prv h n = Some v → is_Some (h !! n).
Proof. unfold prv. destruct (h !! n); [by eauto|done]. Qed.
Lemma nxt_is_Some h n v : nxt h n = Some v → is_Some (h !! n).
Proof. unfold nxt. destruct (h !! n); [by eauto|done]. Qed.

(** Linking a fresh node between two neighbours extends the chain. *)
Lemma chain_link h pre a b post e :
  chain h (pre ++ a :: b :: post) → NoDup (pre ++ a :: b :: post) → e ∉ pre ++ a :: b :: post →
  is_Some (h !! a) → is_Some (h !! b) →
  chain (linked h a e b) (pre ++ a :: e :: b :: post).
Proof.
  intros Hc Hnd He Ha Hb.
  assert (a ≠ e ∧ e ≠ b) as [Hae Heb] by set_solver.
  apply NoDup_app in Hnd as (Hn1 & Hn2 & Hn3).
  apply NoDup_cons in Hn3 as [Hna Hn3]. apply NoDup_cons in Hn3 as [Hnb Hn3].
  assert (a ≠ b) as Hab by set_solver.
  rewrite chain_app in Hc. rewrite chain_cons2 in Hc. destruct Hc as (H1 & H2 & H3 & H4).
  rewrite chain_app, !chain_cons2. split_and!.
  - eapply chain_frame_l; [done|..].
    + intros n Hn. rewrite linked_nxt by done. by rewrite !decide_False by set_solver.
    + intros n Hn. rewrite linked_prv by done. rewrite !decide_False by set_solver. done.
  - rewrite linked_nxt by done. by rewrite decide_True.
  - rewrite linked_prv by done. by rewrite decide_False, decide_True by congruence.
  - rewrite linked_nxt by done. by rewrite decide_False, decide_True by congruence.
  - rewrite linked_prv by done. by rewrite decide_True.
  - eapply chain_frame_r; [done|..].
    + intros n Hn. rewrite linked_nxt by done. by rewrite !decide_False by set_solver.
    + intros n Hn. rewrite linked_prv by done. by rewrite !decide_False by set_solver.
Qed.

Lemma chain_unlink h pre a e b post :
  chain h (pre ++ a :: e :: b :: post) → NoDup (pre ++ a :: e :: b :: post) →
  is_Some (h !! a) → is_Some (h !! b) →
  chain (unlinked h a b) (pre ++ a :: b :: post).
Proof.
  intros Hc Hnd Ha Hb.
  apply NoDup_app in Hnd as (Hn1 & Hn2 & Hn3).
  apply NoDup_cons in Hn3 as [Hna Hn3]. apply NoDup_cons in Hn3 as [Hne Hn3].
  apply NoDup_cons in Hn3 as [Hnb Hn3].
  assert (a ≠ b) as Hab by set_solver.
  rewrite chain_app in Hc. rewrite !chain_cons2 in Hc. destruct Hc as (H1 & H2 & H3 & H4 & H5 & H6).
  rewrite chain_app, !chain_cons2. split_and!.
  - eapply chain_frame_l; [done|..].
    + intros n Hn. rewrite unlinked_nxt by done. by rewrite !decide_False by set_solver.
    + intros n Hn. rewrite unlinked_prv by done. rewrite !decide_False by set_solver. done.
  - rewrite unlinked_nxt by done. by rewrite decide_True.
  - rewrite unlinked_prv by done. by rewrite decide_True.
  - eapply chain_frame_r; [done|..].
    + intros n Hn. rewrite unlinked_nxt by done. by rewrite !decide_False by set_solver.
    + intros n Hn. rewrite unlinked_prv by done. by rewrite !decide_False by set_solver.
Qed.

Lemma dlist_frame h h' p xs :
  dlist h p xs → (∀ n, n ∈ nodes p xs → nxt h' n = nxt h n ∧ prv h' n = prv h n) → dlist h' p xs.
Proof.
  intros [H1 H2 H3 H4] Hf. split; [by eapply chain_frame|done|done|].
  destruct (Hf (list_tail p)) as [-> _]; [set_solver|done].
Qed.

(** Changing one list, on nodes of no other list, keeps all the others. *)
Lemma lrep_update h h' L p xs xs' :
  lrep h L → L !! p = Some xs → dlist h' p xs' →
  (∀ n, n ∈ nodes p xs' → n ∈ nodes p xs ∨ fresh_node L n) →
  (∀ n, n ∉ nodes p xs → n ∉ nodes p xs' → nxt h' n = nxt h n ∧ prv h' n = prv h n) →
  lrep h' (<[p := xs']> L).
Proof.
  intros [HL HD] Hp Hd Hn Hf. split.
  - intros q ys. rewrite lookup_insert_Some. intros [[-> ->]|[Hne Hq]]; [done|].
    eapply dlist_frame; [by apply HL|]. intros n Hin. apply Hf.
    + intros Hin'. apply Hne. by eapply HD.
    + intros Hin'. destruct (Hn n Hin') as [Hin''|[_ Hfr]].
      * apply Hne. by eapply HD.
      * by eapply Hfr.
  - assert (∀ q ys n, L !! q = Some ys → n ∈ nodes p xs' → n ∈ nodes q ys → p = q) as Hx.
    { intros q ys n Hq H1 H2. destruct (Hn n H1) as [H3|[_ Hfr]]; [by eapply HD|].
      exfalso. by eapply Hfr. }
    intros q1 q2 xs1 xs2 n. rewrite !lookup_insert_Some.
    intros [[-> ->]|[? ?]] [[-> ->]|[? ?]] Hi1 Hi2; eauto. symmetry; eauto.
Qed.

Lemma perm_mid2 (pre : list Z) a e l : e :: pre ++ a :: l ≡ₚ pre ++ a :: e :: l.
Proof. rewrite (Permutation_middle pre (a :: l) e). by rewrite (Permutation_swap a e l). Qed.

Lemma lrep_link h L p xs xs' pre a b post e :
  lrep h L → L !! p = Some xs → fresh_node L e →
  nodes p xs = pre ++ a :: b :: post → nodes p xs' = pre ++ a :: e :: b :: post →
  lrep (linked h a e b) (<[p := xs']> L).
Proof.
  intros HL Hp [He0 He] E E'. destruct (lr_dlist _ _ HL _ _ Hp) as [Hc Hnd H0 Ht].
  pose proof (He _ _ Hp) as Hep. rewrite E in Hc, Hnd, H0, Hep.
  pose proof (chain_nxt _ _ _ _ _ Hc) as Hab. pose proof (chain_prv _ _ _ _ _ Hc) as Hba.
  pose proof (nxt_is_Some _ _ _ Hab) as Ha. pose proof (prv_is_Some _ _ _ Hba) as Hb.
  assert (a ≠ b) by (apply NoDup_app in Hnd as (_ & _ & Hn%NoDup_cons); set_solver).
  assert (a ≠ e ∧ e ≠ b) as [Hae Heb] by set_solver.
  assert (list_tail p ≠ a) as Hta by (intros Hx; rewrite Hx, Hab in Ht; unfold NULL in Ht; simplify_eq; set_solver).
  assert (list_tail p ≠ e) as Hte.
  { intros Hx. apply Hep. rewrite <- E, <- Hx. unfold nodes. set_solver. }
  eapply lrep_update; [done|done| |..].
  - split; rewrite ?E'.
    + by apply chain_link.
    + eapply NoDup_Permutation_proper; [symmetry; apply perm_mid2|by apply NoDup_cons].
    + set_solver.
    + rewrite linked_nxt by done. by rewrite !decide_False.
  - intros n. rewrite E, E'. intros Hn. destruct (decide (n = e)) as [->|].
    + right. done.
    + left. set_solver.
  - intros n. rewrite E, E'. intros Hn Hn'.
    rewrite linked_nxt, linked_prv by done. by rewrite !decide_False by set_solver.
Qed.

Lemma lrep_unlink h L p xs xs' pre a b post e :
  lrep h L → L !! p = Some xs →
  nodes p xs = pre ++ a :: e :: b :: post → nodes p xs' = pre ++ a :: b :: post →
  lrep (unlinked h a b) (<[p := xs']> L) ∧ fresh_node (<[p := xs']> L) e.
Proof.
  intros HL Hp E E'. destruct (lr_dlist _ _ HL _ _ Hp) as [Hc Hnd H0 Ht].
  assert (e ∈ nodes p xs) as Hep by (rewrite E; set_solver).
  rewrite E in Hc, Hnd, H0.
  pose proof (nxt_is_Some _ _ _ (chain_nxt _ _ _ _ _ Hc)) as Ha.
  assert (pre ++ a :: e :: b :: post = (pre ++ [a]) ++ e :: b :: post) as Ea by by rewrite <- app_assoc.
  pose proof Hc as Hc'. rewrite Ea in Hc'.
  pose proof (prv_is_Some _ _ _ (chain_prv _ _ _ _ _ Hc')) as Hb.
  pose proof (chain_nxt _ _ _ _ _ Hc) as Hae.
  assert (a ≠ b) by (apply NoDup_app in Hnd as (_ & _ & Hn%NoDup_cons); set_solver).
  assert (list_tail p ≠ a) as Hta by (intros Hx; rewrite Hx, Hae in Ht; unfold NULL in Ht; simplify_eq; set_solver).
  assert (NoDup (e :: pre ++ a :: b :: post)) as Hnd'.
  { eapply NoDup_Permutation_proper, Hnd. apply perm_mid2. }
  apply NoDup_cons in Hnd' as [He Hnd'].
  split.
  - eapply lrep_update; [done|done| |..].
    + split; rewrite ?E'; [by eapply chain_unlink|done|set_solver|].
      rewrite unlinked_nxt by done. by rewrite decide_False.
    + intros n. rewrite E, E'. set_solver.
    + intros n. rewrite E, E'. intros Hn Hn'.
      rewrite unlinked_nxt, unlinked_prv by done. by rewrite !decide_False by set_solver.
  - split; [set_solver|]. intros q ys. rewrite lookup_insert_Some. intros [[<- <-]|[Hne Hq]].
    + rewrite E'. set_solver.
    + intros Hin. apply Hne. by eapply (lr_disj _ _ HL).
Qed.

(** ** What the operations do to the lists of [L] *)

(** From [s] only the links change, and they now hold the lists [L']. *)
Definition now_lists (L' : gmap Z (list Z)) (s s' : kstate) : Prop :=
  ∃ h', s' = set_links h' s ∧ lrep h' L'.

(** The first node after a prefix of a list. *)
Definition after (p : Z) (l2 : list Z) : Z := hd (list_tail p) l2.

Lemma nodes_snoc_split p xs : ∃ pre a,
  list_head p :: xs = pre ++ [a] ∧ ∀ l2, nodes p (xs ++ l2) = pre ++ a :: l2 ++ [list_tail p].
Proof.
  destruct (exists_last (l := list_head p :: xs)) as (pre & a & E); [done|].
  exists pre, a. split; [done|]. intros l2.
  change (nodes p (xs ++ l2)) with (list_head p :: (xs ++ l2) ++ [list_tail p]).
  rewrite <- app_assoc, app_comm_cons, E, <- app_assoc. done.
Qed.

Lemma after_split p l2 : ∃ post, l2 ++ [list_tail p] = after p l2 :: post.
Proof. destruct l2 as [|b l2]; simpl; eauto. Qed.

Section lrep_facts.
Context (h : gmap Z ListElem) (L : gmap Z (list Z)).
Hypothesis HL : lrep h L.

Lemma lrep_nonnull p xs n : L !! p = Some xs → n ∈ nodes p xs → n ≠ 0.
Proof. intros Hp Hn ->. by apply (dl_nonnull _ _ _ (lr_dlist _ _ HL _ _ Hp)). Qed.

Lemma lrep_nxt p l1 e l2 : L !! p = Some (l1 ++ e :: l2) → nxt h e = Some (after p l2).
Proof.
  intros Hp. pose proof (dl_chain _ _ _ (lr_dlist _ _ HL _ _ Hp)) as Hc.
  destruct (nodes_snoc_split p l1) as (pre & a & _ & E). rewrite E in Hc.
  destruct (after_split p l2) as [post E']. simpl in Hc. rewrite E' in Hc.
  apply (chain_nxt h (pre ++ [a]) e (after p l2) post). by rewrite <- app_assoc.
Qed.

Lemma lrep_first p xs : L !! p = Some xs → nxt h (list_head p) = Some (after p xs).
Proof.
  intros Hp. pose proof (dl_chain _ _ _ (lr_dlist _ _ HL _ _ Hp)) as Hc.
  destruct (after_split p xs) as [post E]. unfold nodes in Hc. rewrite E in Hc.
  by apply (chain_nxt h []) in Hc.
Qed.

Lemma lrep_not_tail p xs e : L !! p = Some xs → e ∈ xs → e ≠ list_tail p.
Proof.
  intros Hp He ->. pose proof (dl_nodup _ _ _ (lr_dlist _ _ HL _ _ Hp)) as Hnd.
  apply NoDup_cons in Hnd as [_ Hnd]. apply NoDup_app in Hnd as (_ & Hnd & _). set_solver.
Qed.

Lemma lrep_nodup p xs : L !! p = Some xs → NoDup xs.
Proof.
  intros Hp. pose proof (dl_nodup _ _ _ (lr_dlist _ _ HL _ _ Hp)) as Hnd.
  apply NoDup_cons in Hnd as [_ Hnd]. apply NoDup_app in Hnd. tauto.
Qed.

Lemma lrep_present p xs n : L !! p = Some xs → n ∈ nodes p xs → is_Some (h !! n).
Proof.
  intros Hp Hn. unfold nodes in Hn.
  rewrite elem_of_cons, elem_of_app, list_elem_of_singleton in Hn. destruct Hn as [->|[Hn|Hn]].
  - eapply nxt_is_Some. by apply lrep_first.
  - apply list_elem_of_split in Hn as (l1 & l2 & ->). by eapply nxt_is_Some, lrep_nxt.
  - subst. eapply nxt_is_Some, dl_end. by apply (lr_dlist _ _ HL).
Qed.

Lemma lrep_fuel p xs : L !! p = Some xs → (length xs < base.size h)%nat.
Proof.
  intros Hp. pose proof (dl_nodup _ _ _ (lr_dlist _ _ HL _ _ Hp)) as Hnd.
  assert (length (nodes p xs) ≤ base.size h)%nat.
  { rewrite <- (size_list_to_set (C:=gset Z)) by done. rewrite <- size_dom. apply subseteq_size.
    intros n. rewrite elem_of_list_to_set, elem_of_dom. by apply lrep_present. }
  unfold nodes in *. simpl in *. rewrite length_app in *. simpl in *. lia.
Qed.
End lrep_facts.

(** The heap [list_init] leaves. *)
Definition inited (h : gmap Z ListElem) (p : Z) : gmap Z ListElem :=
  upd_prev (upd_next (upd_next (upd_prev h p NULL) p (p + 8)) (p + 8) NULL) (p + 8) p.

Lemma inited_nxt h p n : nxt (inited h p) n =
  if decide (n = p) then Some (p + 8) else if decide (n = p + 8) then Some NULL else nxt h n.
Proof.
  unfold inited. autorewrite with los. repeat case_decide; subst; try done; lia.
Qed.
Lemma inited_prv h p n : prv (inited h p) n =
  if decide (n = p) then Some NULL else if decide (n = p + 8) then Some p else prv h n.
Proof.
  unfold inited. autorewrite with los. repeat case_decide; subst; try done; lia.
Qed.
Lemma dlist_inited h p : p ≠ 0 → p + 8 ≠ 0 → dlist (inited h p) p [].
Proof.
  intros. split; unfold nodes, list_head, list_tail; simpl.
  - rewrite inited_nxt, inited_prv. rewrite decide_True by done.
    by rewrite decide_False, decide_True by lia.
  - repeat constructor; rewrite ?list_elem_of_singleton; [lia|by apply not_elem_of_nil].
  - set_solver.
  - rewrite inited_nxt. by rewrite decide_False, decide_True by lia.
Qed.

Section list_specs.
Context (s : kstate) (L : gmap Z (list Z)).
Hypothesis HL : lrep (links s) L.
Implicit Types (p e : Z) (xs : list Z).

Lemma list_insert_ok p l1 l2 e :
  L !! p = Some (l1 ++ l2) → fresh_node L e →
  wp (list_insert_before (after p l2) e) s (λ _, now_lists (<[p := l1 ++ e :: l2]> L) s).
Proof.
  intros Hp He. destruct (nodes_snoc_split p l1) as (pre & a & _ & E).
  destruct (after_split p l2) as [post E2].
  pose proof (E l2) as En. rewrite E2 in En.
  pose proof (E (e :: l2)) as En'. simpl in En'. rewrite E2 in En'.
  pose proof (dl_chain _ _ _ (lr_dlist _ _ HL _ _ Hp)) as Hc. rewrite En in Hc.
  eapply list_insert_before_ok.
  - by eapply chain_prv.
  - eapply lrep_nonnull; [done|done|]. rewrite En. set_solver.
  - eapply lrep_nonnull; [done|done|]. rewrite En. set_solver.
  - apply He.
  - eexists. split; [done|]. by eapply lrep_link.
Qed.

Lemma list_append_ok p xs e : L !! p = Some xs → fresh_node L e →
  wp (list_append p e) s (λ _, now_lists (<[p := xs ++ [e]]> L) s).
Proof. intros Hp He. apply (list_insert_ok p xs [] e); [by rewrite app_nil_r|done]. Qed.

Lemma list_push_ok p xs e : L !! p = Some xs → fresh_node L e →
  wp (list_push p e) s (λ _, now_lists (<[p := e :: xs]> L) s).
Proof.
  intros Hp He. unfold list_push. lstep. lstep; [by eapply lrep_first|].
  by apply (list_insert_ok p [] xs e).
Qed.

Lemma list_remove_mid_ok p l1 e l2 : L !! p = Some (l1 ++ e :: l2) →
  wp (list_remove e) s (λ _ s', now_lists (<[p := l1 ++ l2]> L) s s' ∧ fresh_node (<[p := l1 ++ l2]> L) e).
Proof.
  intros Hp. destruct (nodes_snoc_split p l1) as (pre & a & _ & E).
  destruct (after_split p l2) as [post E2].
  pose proof (E l2) as En. rewrite E2 in En.
  pose proof (E (e :: l2)) as En'. simpl in En'. rewrite E2 in En'.
  pose proof (dl_chain _ _ _ (lr_dlist _ _ HL _ _ Hp)) as Hc. rewrite En' in Hc.
  pose proof (dl_nodup _ _ _ (lr_dlist _ _ HL _ _ Hp)) as Hnd. rewrite En' in Hnd.
  eapply list_remove_ok.
  - by eapply chain_prv.
  - by eapply lrep_nxt.
  - eapply lrep_nonnull; [done|done|]. rewrite En'. set_solver.
  - eapply lrep_nonnull; [done|done|]. rewrite En'. set_solver.
  - apply NoDup_app in Hnd as (_ & _ & Hn%NoDup_cons). set_solver.
  - destruct (lrep_unlink _ _ _ _ _ _ _ _ _ _ HL Hp En' En) as [H1 H2].
    split; [|done]. eexists. split; [done|]. done.
Qed.

Lemma list_pop_ok p x xs : L !! p = Some (x :: xs) →
  wp (list_pop p) s (λ r s', r = x ∧ now_lists (<[p := xs]> L) s s' ∧ fresh_node (<[p := xs]> L) x).
Proof.
  intros Hp. unfold list_pop. lstep. lstep; [by eapply lrep_first|]. simpl. apply wp_bind.
  eapply wp_mono; [by apply (list_remove_mid_ok p [])|]. intros u s' H. lstep. done.
Qed.

Lemma list_init_ok p : fresh_node L (list_head p) → fresh_node L (list_tail p) → L !! p = None →
  wp (list_init p) s (λ _, now_lists (<[p := []]> L) s).
Proof.
  unfold list_head, list_tail. intros [Hh Hh'] [Ht Ht'] Hp. unfold list_init, list_head, list_tail.
  repeat (lstep; try done). simpl.
  exists (inited (links s) p). split; [reflexivity|]. split.
  - intros q ys. rewrite lookup_insert_Some. intros [[<- <-]|[Hne Hq]].
    + apply dlist_inited; [done|done].
    + eapply dlist_frame; [by eapply lr_dlist|]. intros n Hn.
      rewrite inited_nxt, inited_prv. rewrite !decide_False; set_solver.
  - intros q1 q2 xs1 xs2 n. rewrite !lookup_insert_Some.
    assert (∀ q ys, L !! q = Some ys → n ∈ nodes p [] → n ∈ nodes q ys → False) as Hx.
    { intros q ys Hq Hn1 Hn2. unfold nodes, list_head, list_tail in Hn1. simpl in Hn1.
      rewrite elem_of_cons, list_elem_of_singleton in Hn1. destruct Hn1 as [->| ->]; set_solver. }
    intros [[<- <-]|[? ?]] [[<- <-]|[? ?]] Hi1 Hi2; [done|exfalso; eauto|exfalso; eauto|].
    by eapply (lr_disj _ _ HL).
Qed.

Lemma list_empty_ok p xs : L !! p = Some xs →
  wp (list_empty p) s (λ b s', b = bool_decide (xs = []) ∧ s' = s).
Proof.
  intros Hp. unfold list_empty. lstep. lstep; [by eapply lrep_first|]. lstep. split; [|done].
  destruct xs as [|x xs]; simpl; [apply Z.eqb_refl|]. apply Z.eqb_neq.
  eapply lrep_not_tail; [done|done|left].
Qed.
End list_specs.

(** ** Searches *)
Section list_queries.
Context (s : kstate) (L : gmap Z (list Z)).
Hypothesis HL : lrep (links s) L.

Lemma find_loop_ok p obj l1 l2 fuel : L !! p = Some (l1 ++ l2) → (length l2 < fuel)%nat →
  find_loop fuel p (after p l2) obj s = Ok (bool_decide (obj ∈ l2), s).
Proof.
  revert l1 fuel. induction l2 as [|e l2 IH]; intros l1 [|fuel] Hp Hf; simpl in Hf; try lia; cbn [find_loop after hd].
  - rewrite Z.eqb_refl. by rewrite bool_decide_false by set_solver.
  - assert (e ≠ list_tail p) by (eapply lrep_not_tail; [done|done|set_solver]).
    destruct (Z.eqb_spec e (list_tail p)); [done|].
    destruct (Z.eqb_spec e obj) as [->|Hne]; [by rewrite bool_decide_true by set_solver|].
    unfold mbind, K_bind. rewrite (ld_next_eq _ _ (after p l2)) by by eapply lrep_nxt.
    rewrite (IH (l1 ++ [e]) fuel) by (rewrite <- ?app_assoc; done || lia).
    do 2 f_equal. apply bool_decide_ext. set_solver.
Qed.

Lemma list_find_ok p xs obj : L !! p = Some xs → list_find p obj s = Ok (bool_decide (obj ∈ xs), s).
Proof.
  intros Hp. unfold list_find, list_fuel, gets, mbind, K_bind.
  rewrite (ld_next_eq _ _ (after p xs)) by by eapply lrep_first.
  apply (find_loop_ok p obj []); [done|]. pose proof (lrep_fuel _ _ HL _ _ Hp). lia.
Qed.

Lemma len_loop_ok p n l1 l2 fuel : L !! p = Some (l1 ++ l2) → (length l2 < fuel)%nat →
  0 ≤ n → n + len l2 < 2 ^ 31 → len_loop fuel p (after p l2) n s = Ok (n + len l2, s).
Proof.
  revert n l1 fuel. unfold len.
  induction l2 as [|e l2 IH]; intros n l1 [|fuel] Hp Hf Hn Hb; simpl in Hf, Hb; try lia; cbn [len_loop after hd].
  - rewrite Z.eqb_refl. rewrite u32_id by lia. unfold mret, K_ret. do 2 f_equal. simpl. lia.
  - assert (e ≠ list_tail p) by (eapply lrep_not_tail; [done|done|set_solver]).
    destruct (Z.eqb_spec e (list_tail p)); [done|].
    unfold mbind, K_bind. rewrite (ld_next_eq _ _ (after p l2)) by by eapply lrep_nxt.
    rewrite i32_id by lia.
    rewrite (IH (n + 1) (l1 ++ [e]) fuel) by (rewrite <- ?app_assoc; done || lia).
    do 2 f_equal. simpl. lia.
Qed.

Lemma list_len_ok p xs : L !! p = Some xs → len xs < 2 ^ 31 → list_len p s = Ok (len xs, s).
Proof.
  intros Hp Hl. unfold list_len, list_fuel, gets, mbind, K_bind.
  rewrite (ld_next_eq _ _ (after p xs)) by by eapply lrep_first.
  rewrite (len_loop_ok p 0 []); [done|done| |lia|lia].
  pose proof (lrep_fuel _ _ HL _ _ Hp). lia.
Qed.

Lemma traversal_loop_ok p func arg P l1 l2 fuel : L !! p = Some (l1 ++ l2) → (length l2 < fuel)%nat →
  (∀ e, e ∈ l2 → func e arg s = Ok (P e, s)) →
  traversal_loop fuel p (after p l2) func arg s = Ok (default NULL (List.find P l2), s).
Proof.
  revert l1 fuel. induction l2 as [|e l2 IH]; intros l1 [|fuel] Hp Hf HP; simpl in Hf; try lia;
    cbn [traversal_loop after hd].
  - by rewrite Z.eqb_refl.
  - assert (e ≠ list_tail p) by (eapply lrep_not_tail; [done|done|set_solver]).
    destruct (Z.eqb_spec e (list_tail p)); [done|].
    unfold mbind, K_bind. rewrite HP by set_solver. simpl. destruct (P e); [done|].
    rewrite (ld_next_eq _ _ (after p l2)) by by eapply lrep_nxt.
    rewrite (IH (l1 ++ [e]) fuel); [done|by rewrite <- ?app_assoc|lia|set_solver].
Qed.

(** A traversal with a test that only reads returns the first match. *)
Lemma list_traversal_ok p xs func arg P : L !! p = Some xs →
  (∀ e, e ∈ xs → func e arg s = Ok (P e, s)) →
  list_traversal p func arg s = Ok (default NULL (List.find P xs), s).
Proof.
  intros Hp HP. unfold list_traversal. unfold mbind, K_bind.
  destruct (wp_inv _ _ _ (list_empty_ok _ _ HL _ _ Hp)) as (b & s' & -> & -> & ->).
  destruct xs as [|x xs]; [done|]. rewrite bool_decide_false by done. unfold list_fuel, gets.
  rewrite (ld_next_eq _ _ (after p (x :: xs))) by by eapply lrep_first.
  apply (traversal_loop_ok p func arg P []); [done| |done].
  pose proof (lrep_fuel _ _ HL _ _ Hp). lia.
Qed.
End list_queries.

(** ** Refinement: any sequence of list operations *)
Inductive list_op := LInit (p : Z) | LPush (p e : Z) | LAppend (p e : Z) | LRemove (e : Z) | LPop (p : Z).

Definition run_op (op : list_op) : K Z :=
  match op with
  | LInit p => list_init p ;; mret 0
  | LPush p e => list_push p e ;; mret 0
  | LAppend p e => list_append p e ;; mret 0
  | LRemove e => list_remove e ;; mret 0
  | LPop p => list_pop p
  end.

Fixpoint run_ops (ops : list list_op) : K (list Z) :=
  match ops with
  | [] => mret []
  | op :: ops => r ← run_op op; rs ← run_ops ops; mret (r :: rs)
  end.

Definition freshb (L : gmap Z (list Z)) (e : Z) : bool :=
  negb (e =? 0) && forallb (λ '(q, ys), negb (bool_decide (e ∈ nodes q ys))) (map_to_list L).

(** The specification: lists of addresses, no pointers.  [None]: the caller
    broke the contract (a node in use, a list that does not exist or is empty). *)
Definition spec_op (op : list_op) (L : gmap Z (list Z)) : option (Z * gmap Z (list Z)) :=
  match op with
  | LInit p =>
      if freshb L (list_head p) && freshb L (list_tail p) && bool_decide (L !! p = None)
      then Some (0, <[p := []]> L) else None
  | LPush p e =>
      xs ← L !! p; if freshb L e then Some (0, <[p := e :: xs]> L) else None
  | LAppend p e =>
      xs ← L !! p; if freshb L e then Some (0, <[p := xs ++ [e]]> L) else None
  | LRemove e =>
      '(p, xs) ← List.find (λ '(_, xs), bool_decide (e ∈ xs)) (map_to_list L);
      Some (0, <[p := base.filter (λ x, x ≠ e) xs]> L)
  | LPop p =>
      xs ← L !! p; match xs with [] => None | x :: xs => Some (x, <[p := xs]> L) end
  end.

Fixpoint spec_ops (ops : list list_op) (L : gmap Z (list Z)) : option (list Z * gmap Z (list Z)) :=
  match ops with
  | [] => Some ([], L)
  | op :: ops => '(r, L) ← spec_op op L; '(rs, L) ← spec_ops ops L; Some (r :: rs, L)
  end.

Lemma freshb_ok L e : freshb L e = true → fresh_node L e.
Proof.
  unfold freshb. rewrite andb_true_iff, negb_true_iff, Z.eqb_neq, forallb_forall. intros [H1 H2].
  split; [done|]. intros q ys Hq. apply elem_of_map_to_list, list_elem_of_In, H2 in Hq.
  by apply negb_true_iff, bool_decide_eq_false in Hq.
Qed.

Lemma filter_ne_id (l : list Z) e : e ∉ l → base.filter (λ x, x ≠ e) l = l.
Proof.
  induction l as [|x l IH]; intros He; [done|].
  rewrite filter_cons_True by set_solver. f_equal. apply IH. set_solver.
Qed.

Lemma filter_mid (l1 l2 : list Z) e : NoDup (l1 ++ e :: l2) → base.filter (λ x, x ≠ e) (l1 ++ e :: l2) = l1 ++ l2.
Proof.
  intros (H1 & H2 & H3)%NoDup_app. apply NoDup_cons in H3 as [H3 _].
  rewrite filter_app, filter_cons_False by tauto. f_equal; apply filter_ne_id; set_solver.
Qed.

Lemma spec_op_ok op s L r L' : lrep (links s) L → spec_op op L = Some (r, L') →
  wp (run_op op) s (λ r' s', r' = r ∧ now_lists L' s s').
Proof.
  intros HL. destruct op as [p|p e|p e|e|p]; simpl; intros H.
  - destruct (freshb L (list_head p)) eqn:E1, (freshb L (list_tail p)) eqn:E2, (decide (L !! p = None)) as [E3|E3];
      rewrite ?bool_decide_true, ?bool_decide_false in H by done; simpl in H; simplify_eq.
    apply wp_bind. eapply wp_mono; [apply list_init_ok; eauto using freshb_ok|]. done.
  - destruct (L !! p) as [xs|] eqn:E, (freshb L e) eqn:E1; simpl in H; simplify_eq.
    apply wp_bind. eapply wp_mono; [apply list_push_ok; eauto using freshb_ok|]. done.
  - destruct (L !! p) as [xs|] eqn:E, (freshb L e) eqn:E1; simpl in H; simplify_eq.
    apply wp_bind. eapply wp_mono; [apply list_append_ok; eauto using freshb_ok|]. done.
  - destruct (List.find _ _) as [[p xs]|] eqn:E; simpl in H; simplify_eq.
    apply find_some in E as [E1%list_elem_of_In%elem_of_map_to_list E2%bool_decide_eq_true].
    pose proof (lrep_nodup _ _ HL _ _ E1) as Hnd. apply list_elem_of_split in E2 as (l1 & l2 & ->).
    rewrite filter_mid by done. apply wp_bind.
    eapply wp_mono; [by apply list_remove_mid_ok|]. intros u s' [? ?]. done.
  - destruct (L !! p) as [[|x xs]|] eqn:E; simpl in H; simplify_eq.
    eapply wp_mono; [by apply list_pop_ok|]. intros u s' (? & ? & ?). done.
Qed.

(** C17: Every sequence of list_init, list_push, list_append, list_remove and
    list_pop calls that respects the contract of the abstract lists runs
    without a fault on the pointer representation, returns the same elements
    and leaves exactly the lists of the specification, with the interrupt flag
    and everything but the links unchanged. *)
Theorem list_ops_refine ops s L rs L' :
  lrep (links s) L → spec_ops ops L = Some (rs, L') →
  ∃ h', run_ops ops s = Ok (rs, set_links h' s) ∧ lrep h' L'.
Proof.
  revert s L rs. induction ops as [|op ops IH]; intros s L rs HL H; simpl in H.
  - simplify_eq. exists (links s). split; [|done]. by destruct s.
  - destruct (spec_op op L) as [[r L1]|] eqn:E; simpl in H; [|done].
    destruct (spec_ops ops L1) as [[rs1 L2]|] eqn:E1; simpl in H; simplify_eq.
    destruct (wp_inv _ _ _ (spec_op_ok _ _ _ _ _ HL E)) as (r' & s' & Hr & -> & h1 & -> & HL1).
    destruct (IH (set_links h1 s) L1 rs1 HL1 E1) as (h' & Hrun & HL').
    exists h'. split; [|done]. simpl. unfold mbind, K_bind. by rewrite Hr, Hrun.
Qed.

(** On a well-formed list list_find decides membership, list_empty
    emptiness, list_len counts, and list_traversal with a test that only reads
    returns the first element that passes it, or NULL; none changes state, and
    none loops longer than the heap has nodes. *)
Theorem list_queries_correct s L p xs obj func arg P :
  lrep (links s) L → L !! p = Some xs → len xs < 2 ^ 31 →
  (∀ e, e ∈ xs → func e arg s = Ok (P e, s)) →
  list_find p obj s = Ok (bool_decide (obj ∈ xs), s) ∧
  list_empty p s = Ok (bool_decide (xs = []), s) ∧
  list_len p s = Ok (len xs, s) ∧
  list_traversal p func arg s = Ok (default NULL (List.find P xs), s).
Proof.
  intros HL Hp Hlen HP. split_and!.
  - by eapply list_find_ok.
  - destruct (wp_inv _ _ _ (list_empty_ok _ _ HL _ _ Hp)) as (b & s' & -> & -> & ->). done.
  - by eapply list_len_ok.
  - by eapply list_traversal_ok.
Qed.

(** ** Checking a concrete heap *)
Fixpoint chainb (h : gmap Z ListElem) (ns : list Z) : bool :=
  match ns with
  | a :: (b :: _) as ns' =>
      bool_decide (nxt h a = Some b) && bool_decide (prv h b = Some a) && chainb h ns'
  | _ => true
  end.

Definition lrep_check (h : gmap Z ListElem) (L : gmap Z (list Z)) : bool :=
  forallb (λ '(p, xs), chainb h (nodes p xs) && bool_decide (0 ∉ nodes p xs)
                       && bool_decide (nxt h (list_tail p) = Some NULL)) (map_to_list L)
  && bool_decide (NoDup (concat ((λ '(p, xs), nodes p xs) <$> map_to_list L))).

Lemma chainb_ok h ns : chainb h ns = true → chain h ns.
Proof.
  induction ns as [|a [|b ns] IH]; [done|done|]. cbn [chainb chain].
  rewrite !andb_true_iff, !bool_decide_eq_true. intros [[H1 H2] H3]. split_and!; [done|done|exact (IH H3)].
Qed.

Lemma NoDup_concat_in {A} (f : A → list Z) (l : list A) a b n :
  NoDup (concat (f <$> l)) → a ∈ l → b ∈ l → n ∈ f a → n ∈ f b → a = b.
Proof.
  intros Hnd Ha Hb Hna Hnb. induction l as [|c l IH]; [by apply not_elem_of_nil in Ha|].
  cbn in Hnd. apply NoDup_app in Hnd as (_ & Hd & Hnd).
  assert (∀ x, x ∈ l → n ∈ f x → n ∈ concat (f <$> l)) as Hin.
  { intros x Hx Hnx. apply list_elem_of_In, in_concat. exists (f x). split; [|by apply list_elem_of_In].
    apply list_elem_of_In, list_elem_of_fmap. eauto. }
  apply elem_of_cons in Ha as [->|Ha], Hb as [->|Hb]; try done.
  - exfalso. eapply Hd; [exact Hna|]. eauto.
  - exfalso. eapply Hd; [exact Hnb|]. eauto.
  - eauto.
Qed.

Lemma lrep_check_ok h L : lrep_check h L = true → lrep h L.
Proof.
  unfold lrep_check. rewrite andb_true_iff, forallb_forall, bool_decide_eq_true. intros [H1 H2].
  assert (∀ p xs, L !! p = Some xs → NoDup (nodes p xs)) as Hnd.
  { intros p xs Hp. apply elem_of_map_to_list in Hp. apply list_elem_of_split in Hp as (l1 & l2 & E).
    rewrite E in H2. rewrite fmap_app, concat_app in H2. cbn in H2.
    apply NoDup_app in H2 as (_ & _ & H2). rewrite app_comm_cons in H2.
    apply NoDup_app in H2 as (H2 & _). exact H2. }
  split.
  - intros p xs Hp. pose proof Hp as Hp'. apply elem_of_map_to_list, list_elem_of_In, H1 in Hp.
    rewrite !andb_true_iff, !bool_decide_eq_true in Hp. destruct Hp as [[Hc H0] He].
    split; [by apply chainb_ok|by apply Hnd|done|done].
  - intros p q xs ys n Hp Hq Hn1 Hn2. apply elem_of_map_to_list in Hp, Hq.
    pose proof (NoDup_concat_in (λ '(p, xs), nodes p xs) _ _ _ n H2 Hp Hq Hn1 Hn2). congruence.
Qed.

(** *** Witnesses *)
Definition demo_ops : list list_op :=
  [LInit 100; LAppend 100 200; LPush 100 300; LInit 400; LAppend 100 500; LRemove 200; LPop 100].

Lemma list_ops_refine_witness : ∃ h',
  run_ops demo_ops k0 = Ok ([0; 0; 0; 0; 0; 0; 300], set_links h' k0) ∧ lrep h' {[100 := [500]; 400 := []]}.
Proof.
  apply (list_ops_refine demo_ops k0 ∅ [0; 0; 0; 0; 0; 0; 300]).
  - split; intros *; rewrite lookup_empty; done.
  - vm_compute. reflexivity.
Defined.

Definition demo_links : gmap Z ListElem :=
  {[100 := mkElem 0 200; 200 := mkElem 100 300; 300 := mkElem 200 108; 108 := mkElem 300 0]}.

Lemma demo_links_ok : lrep demo_links {[100 := [200; 300]]}.
Proof. apply lrep_check_ok. vm_compute. reflexivity. Qed.

Lemma list_queries_correct_witness :
  list_find 100 300 (set_links demo_links k0) = Ok (true, set_links demo_links k0) ∧
  list_empty 100 (set_links demo_links k0) = Ok (false, set_links demo_links k0) ∧
  list_len 100 (set_links demo_links k0) = Ok (2, set_links demo_links k0) ∧
  list_traversal 100 (λ e arg, mret (arg <? e)) 250 (set_links demo_links k0) =
    Ok (300, set_links demo_links k0).
Proof.
  apply (list_queries_correct (set_links demo_links k0) {[100 := [200; 300]]} 100 [200; 300] 300
           (λ e arg, mret (arg <? e)) 250 (λ e, 250 <? e)).
  - apply demo_links_ok.
  - reflexivity.
  - reflexivity.
  - intros e _. reflexivity.
Defined.
