(* ===== verification/Mmu.v ===== *)
(** * Virtual memory: the page walk and the self-mapped page tables

    [translate] is the two-level page walk of the processor over physical
    memory.  kernel/losmemory.c reaches page tables through the last page
    directory entry, which points at the directory itself: [pde_ptr] and
    [pte_ptr] compute the virtual addresses of the entries of an address.
    Virtual loads and stores go through [translate]; an address that is not
    mapped is a page fault ([Fault]). *)
From S2P Require Import Prelude CString Bitmap Machine DList.

Definition word (m : gmap Z Z) (pa : Z) : Z := default 0 (m !! pa).

Definition PDE_IDX (addr : Z) : Z := Z.shiftr (Z.land addr 0xffc00000) 22.
Definition PTE_IDX (addr : Z) : Z := Z.shiftr (Z.land addr 0x003ff000) 12.

Definition PG_P_1 : Z := 1.
Definition PG_RW_W : Z := 2.
Definition PG_US_U : Z := 4.

(** The processor's page walk. *)
Definition translate (m : gmap Z Z) (dir va : Z) : option Z :=
  let pde := word m (dir + PDE_IDX va * 4) in
  if Z.testbit pde 0 then
    let pte := word m (Z.land pde 0xfffff000 + PTE_IDX va * 4) in
    if Z.testbit pte 0 then Some (Z.land pte 0xfffff000 + Z.land va 0xfff) else None
  else None.

Definition vload (va : Z) : K Z := λ s,
  match translate (phys s) (cr3 s) va with
  | Some pa => Ok (word (phys s) pa, s)
  | None => Fault
  end.
Definition vstore (va v : Z) : K unit := λ s,
  match translate (phys s) (cr3 s) va with
  | Some pa => Ok ((), set_phys (<[pa := v]> (phys s)) s)
  | None => Fault
  end.

(** [memset(va, 0, 4 * n)] on word-aligned memory. *)
Fixpoint vclear (n : nat) (va : Z) : K unit :=
  match n with
  | O => mret ()
  | S n => vstore va 0 ;; vclear n (va + 4)
  end.

Definition running_thread : K Z := gets (λ s, Z.land (esp s) 0xfffff000).

(** ** Addresses of the entries *)
Definition pte_ptr (vaddr : Z) : Z :=
  u32 (u32 (0xffc00000 + Z.shiftr (Z.land vaddr 0xffc00000) 10) + PTE_IDX vaddr * 4).

Definition pde_ptr (vaddr : Z) : Z := u32 (0xfffff000 + PDE_IDX vaddr * 4).

Definition addr_v2p (vaddr : Z) : K Z :=
  pte ← vload (pte_ptr vaddr);
  mret (u32 (Z.land pte 0xfffff000 + Z.land vaddr 0x00000fff)).

(** ** Masks as divisions *)
Lemma land_high z k : 0 ≤ z < 2 ^ 32 → 0 ≤ k ≤ 32 →
  Z.land z (2 ^ 32 - 2 ^ k) = 2 ^ k * (z / 2 ^ k).
Proof.
  intros Hz Hk. rewrite Z.mul_comm, <- Z.shiftl_mul_pow2, <- Z.shiftr_div_pow2, <- Z.ldiff_ones_r by lia.
  replace (2 ^ 32 - 2 ^ k) with (Z.shiftl (Z.ones (32 - k)) k).
  2:{ rewrite Z.shiftl_mul_pow2, Z.ones_equiv by lia.
      replace (2 ^ 32) with (2 ^ (32 - k) * 2 ^ k) by (rewrite <- Z.pow_add_r by lia; f_equal; lia). lia. }
  apply Z.bits_inj'. intros n Hn. rewrite Z.land_spec, Z.ldiff_spec, Z.shiftl_spec by lia.
  rewrite !Z.testbit_ones by lia.
  destruct (Z_lt_ge_dec n 32).
  - destruct (Z.leb_spec 0 (n - k)), (Z.ltb_spec (n - k) (32 - k)), (Z.leb_spec 0 n), (Z.ltb_spec n k);
      simpl; try lia; by rewrite ?andb_true_r, ?andb_false_r.
  - rewrite (Z.bits_above_log2 z n); [done|lia|].
    destruct (decide (z = 0)) as [->|]; [simpl; lia|]. apply Z.log2_lt_pow2; [lia|].
    apply Z.lt_le_trans with (2 ^ 32); [lia|]. apply Z.pow_le_mono_r; lia.
Qed.

Definition pg (z : Z) : Z := 4096 * (z / 4096).

Lemma land_pg z : 0 ≤ z < 2 ^ 32 → Z.land z 0xfffff000 = pg z.
Proof. intros. apply (land_high z 12); lia. Qed.

Lemma land_off z : Z.land z 0xfff = z mod 4096.
Proof. apply (Z.land_ones z 12). lia. Qed.

Lemma PDE_IDX_div z : 0 ≤ z < 2 ^ 32 → PDE_IDX z = z / 2 ^ 22.
Proof.
  intros. unfold PDE_IDX. change 0xffc00000 with (2 ^ 32 - 2 ^ 22).
  rewrite (land_high z 22 H ltac:(lia)), Z.shiftr_div_pow2 by lia.
  rewrite Z.mul_comm. apply Z.div_mul. lia.
Qed.

Lemma PTE_IDX_div z : 0 ≤ z < 2 ^ 32 → PTE_IDX z = (z / 4096) mod 1024.
Proof.
  intros. unfold PTE_IDX.
  replace 0x3ff000 with (Z.land 0xfffff000 (Z.ones 22)) by reflexivity.
  rewrite Z.land_assoc. change 0xfffff000 with (2 ^ 32 - 2 ^ 12).
  rewrite (land_high z 12 H ltac:(lia)), Z.land_ones, Z.shiftr_div_pow2 by lia.
  change (2 ^ 12) with 4096. change (2 ^ 22) with (4096 * 1024).
  rewrite Z.mul_mod_distr_l by lia. rewrite Z.mul_comm. apply Z.div_mul. lia.
Qed.

Lemma lor_flags a : a mod 4096 = 0 → Z.lor (Z.lor (Z.lor a PG_US_U) PG_RW_W) PG_P_1 = a + 7.
Proof.
  intros Ha. rewrite <- !Z.lor_assoc. change (Z.lor PG_US_U (Z.lor PG_RW_W PG_P_1)) with 7.
  pose proof (Z.add_lor_land a 7) as H. change 7 with (Z.ones 3) in H at 2.
  rewrite Z.land_ones in H by lia.
  assert (a mod 2 ^ 3 = 0) by (change (2 ^ 3) with 8; Z.div_mod_to_equations; lia). lia.
Qed.

Lemma testbit_flags a : a mod 4096 = 0 → Z.testbit (a + 7) 0 = true.
Proof.
  intros Ha. rewrite Z.bit0_odd, Z.odd_add. change (Z.odd 7) with true.
  assert (Z.odd a = false) as ->; [|done].
  rewrite <- Z.negb_even. apply negb_false_iff, Z.even_spec. exists (a / 2). Z.div_mod_to_equations. lia.
Qed.

Section ptr_shape.
Context (va : Z) (Hva : 0 ≤ va < 2 ^ 32).
Local Abbreviation i := (va / 2 ^ 22).
Local Abbreviation j := ((va / 4096) mod 1024).

Lemma pte_ptr_eq : pte_ptr va = 0xffc00000 + i * 4096 + j * 4 ∧ 0 ≤ i < 1024 ∧ 0 ≤ j < 1024.
Proof.
  assert (0 ≤ i < 1024 ∧ 0 ≤ j < 1024) as [Hi Hj] by (Z.div_mod_to_equations; lia).
  split; [|done]. unfold pte_ptr. change 0xffc00000 with (2 ^ 32 - 2 ^ 22) at 2. rewrite (land_high va 22 Hva ltac:(lia)), PTE_IDX_div by done.
  rewrite Z.shiftr_div_pow2 by lia.
  replace (2 ^ 22 * (va / 2 ^ 22) / 2 ^ 10) with (va / 2 ^ 22 * 4096) by (Z.div_mod_to_equations; lia).
  rewrite (u32_id (0xffc00000 + _)) by lia. rewrite u32_id; lia.
Qed.

Lemma pde_ptr_eq : pde_ptr va = 0xfffff000 + i * 4 ∧ 0 ≤ i < 1024.
Proof.
  assert (0 ≤ i < 1024) as Hi by (Z.div_mod_to_equations; lia). split; [|done].
  unfold pde_ptr. rewrite PDE_IDX_div by done. rewrite u32_id; lia.
Qed.
End ptr_shape.

(** ** The self map *)
Record dir_ok (m : gmap Z Z) (dir : Z) : Prop := {
  do_range : 0 ≤ dir < 2 ^ 32;
  do_aligned : dir mod 4096 = 0;
  do_self : word m (dir + 4092) = dir + 7;
  do_words : ∀ a, 0 ≤ word m a < 2 ^ 32;
}.

Definition pde_of (m : gmap Z Z) (dir va : Z) : Z := word m (dir + va / 2 ^ 22 * 4).
Definition tbl_of (m : gmap Z Z) (dir va : Z) : Z := pg (pde_of m dir va).
Definition pte_addr (m : gmap Z Z) (dir va : Z) : Z := tbl_of m dir va + (va / 4096) mod 1024 * 4.

Section selfmap.
Context (m : gmap Z Z) (dir : Z) (Hd : dir_ok m dir).

Lemma translate_unfold va : 0 ≤ va < 2 ^ 32 → translate m dir va =
  if Z.testbit (pde_of m dir va) 0 then
    if Z.testbit (word m (pte_addr m dir va)) 0
    then Some (pg (word m (pte_addr m dir va)) + va mod 4096) else None
  else None.
Proof.
  intros. destruct Hd as [_ _ _ Hw]. unfold translate. rewrite PDE_IDX_div, PTE_IDX_div by done.
  fold (pde_of m dir va). rewrite (land_pg (pde_of m dir va)) by apply Hw.
  fold (tbl_of m dir va). fold (pte_addr m dir va).
  by rewrite land_pg, land_off by apply Hw.
Qed.

Lemma translate_parts i j o : 0 ≤ i < 1024 → 0 ≤ j < 1024 → 0 ≤ o < 4096 →
  let va := i * 2 ^ 22 + j * 4096 + o in
  0 ≤ va < 2 ^ 32 ∧ va / 2 ^ 22 = i ∧ (va / 4096) mod 1024 = j ∧ va mod 4096 = o.
Proof. simpl. intros. Z.div_mod_to_equations. lia. Qed.

Lemma self_tbl va : va / 2 ^ 22 = 1023 → tbl_of m dir va = dir ∧ Z.testbit (pde_of m dir va) 0 = true.
Proof.
  destruct Hd as [Hr Ha Hs _]. intros Hi. unfold tbl_of, pde_of. rewrite Hi.
  replace (dir + 1023 * 4) with (dir + 4092) by lia. rewrite Hs. split; [|by apply testbit_flags].
  unfold pg. Z.div_mod_to_equations. lia.
Qed.

Lemma translate_pde_ptr va : 0 ≤ va < 2 ^ 32 →
  translate m dir (pde_ptr va) = Some (dir + va / 2 ^ 22 * 4).
Proof.
  intros Hva. destruct (pde_ptr_eq va Hva) as [-> Hi]. destruct (Hd) as [Hr Ha Hs Hw].
  destruct (translate_parts 1023 1023 (va / 2 ^ 22 * 4)) as (H1 & H2 & H3 & H4); try lia.
  replace (4294963200 + va / 2 ^ 22 * 4) with (1023 * 2 ^ 22 + 1023 * 4096 + va / 2 ^ 22 * 4) by lia.
  rewrite translate_unfold by done. destruct (self_tbl _ H2) as [Ht ->].
  unfold pte_addr. rewrite Ht, H3, H4. replace (dir + 1023 * 4) with (dir + 4092) by lia.
  rewrite Hs, testbit_flags by done. f_equal. unfold pg. Z.div_mod_to_equations. lia.
Qed.

Lemma translate_pte_ptr va : 0 ≤ va < 2 ^ 32 →
  translate m dir (pte_ptr va) =
    if Z.testbit (pde_of m dir va) 0 then Some (pte_addr m dir va) else None.
Proof.
  intros Hva. destruct (pte_ptr_eq va Hva) as (-> & Hi & Hj). destruct (Hd) as [Hr Ha Hs Hw].
  destruct (translate_parts 1023 (va / 2 ^ 22) ((va / 4096) mod 1024 * 4)) as (H1 & H2 & H3 & H4); try lia.
  replace (4290772992 + va / 2 ^ 22 * 4096 + (va / 4096) mod 1024 * 4)
    with (1023 * 2 ^ 22 + va / 2 ^ 22 * 4096 + (va / 4096) mod 1024 * 4) by lia.
  rewrite translate_unfold by done. destruct (self_tbl _ H2) as [Ht ->].
  unfold pte_addr at 1 2. rewrite Ht, H3, H4. fold (pde_of m dir va). by fold (tbl_of m dir va).
Qed.
End selfmap.

Lemma pg_range z : 0 ≤ z < 2 ^ 32 → 0 ≤ pg z ≤ 2 ^ 32 - 4096.
Proof. intros. unfold pg. Z.div_mod_to_equations. lia. Qed.
Lemma pg_aligned z : pg z mod 4096 = 0.
Proof. unfold pg. rewrite Z.mul_comm. apply Z.mod_mul. lia. Qed.
Lemma pg_id z : z mod 4096 = 0 → pg z = z.
Proof. unfold pg. Z.div_mod_to_equations. lia. Qed.
Lemma pg_add7 z : z mod 4096 = 0 → pg (z + 7) = z.
Proof. unfold pg. Z.div_mod_to_equations. lia. Qed.
Lemma word_insert m a v b : word (<[a := v]> m) b = if decide (a = b) then v else word m b.
Proof. unfold word. rewrite lookup_insert. by case_decide. Qed.

(** ** Address spaces

    Entry [i] of the directory names a page table that is not the directory
    itself, and no two entries share a table.  Entry 0 is left out: the loader
    maps the first 4 MiB through the table of entry 0x300 as well. *)
Definition pde_i (m : gmap Z Z) (dir i : Z) : Z := word m (dir + i * 4).
Definition present (m : gmap Z Z) (dir i : Z) : Prop := Z.testbit (pde_i m dir i) 0 = true.

Record vm_ok (m : gmap Z Z) (dir : Z) : Prop := {
  vm_dir : dir_ok m dir;
  vm_tbl i : 0 ≤ i < 1023 → present m dir i → pg (pde_i m dir i) ≠ dir;
  vm_inj i j : 1 ≤ i < 1023 → 1 ≤ j < 1023 → present m dir i → present m dir j →
    pg (pde_i m dir i) = pg (pde_i m dir j) → i = j;
}.

(** Addresses whose mapping the kernel manages: above the first 4 MiB and
    below the window of the page tables. *)
Definition in_space (va : Z) : Prop := 0x400000 ≤ va < 0xffc00000.
Lemma in_space_idx va : in_space va → 0 ≤ va < 2 ^ 32 ∧ 1 ≤ va / 2 ^ 22 < 1023.
Proof. unfold in_space. intros. Z.div_mod_to_equations. lia. Qed.

(** Two memories with the same directory. *)
Lemma vm_ok_frame m m' dir :
  vm_ok m dir → (∀ a, 0 ≤ word m' a < 2 ^ 32) →
  (∀ i, 0 ≤ i < 1024 → pde_i m' dir i = pde_i m dir i) → vm_ok m' dir.
Proof.
  intros [[H1 H2 H3 H4] Ht Hi] Hw Hd. split; [split|..]; try done.
  - specialize (Hd 1023 ltac:(lia)). unfold pde_i in Hd.
    by replace (dir + 1023 * 4) with (dir + 4092) in Hd by lia; rewrite Hd.
  - intros i Hr. unfold present. rewrite Hd by lia. by apply Ht.
  - intros i j Hr1 Hr2. unfold present. rewrite !Hd by lia. by apply Hi.
Qed.

Lemma pages_apart a b x y : a mod 4096 = 0 → b mod 4096 = 0 → a ≠ b →
  0 ≤ x < 4096 → 0 ≤ y < 4096 → a + x ≠ b + y.
Proof. intros. Z.div_mod_to_equations. lia. Qed.

Section set_pte.
Context (m : gmap Z Z) (dir va v : Z).
Hypothesis (Hvm : vm_ok m dir) (Hva : in_space va) (Hp : present m dir (va / 2 ^ 22)) (Hv : 0 ≤ v < 2 ^ 32).
Let m' := <[pte_addr m dir va := v]> m.

Lemma set_pte_dir i : 0 ≤ i < 1024 → pde_i m' dir i = pde_i m dir i.
Proof.
  intros Hi. unfold pde_i, m'. rewrite word_insert, decide_False; [done|].
  destruct (in_space_idx _ Hva) as [? ?]. unfold pte_addr, tbl_of, pde_of.
  apply pages_apart; [apply pg_aligned|by apply Hvm| |Z.div_mod_to_equations; lia|lia].
  apply (vm_tbl _ _ Hvm); [lia|done].
Qed.

Lemma set_pte_vm : vm_ok m' dir.
Proof.
  apply (vm_ok_frame m); [done| |apply set_pte_dir].
  intros a. unfold m'. rewrite word_insert. case_decide; [done|apply Hvm].
Qed.

(** Writing the page table entry of [va] changes the mapping of its page and
    of no other page. *)
Lemma set_pte_translate va' : in_space va' → translate m' dir va' =
  if decide (va' / 4096 = va / 4096)
  then if Z.testbit v 0 then Some (pg v + va' mod 4096) else None
  else translate m dir va'.
Proof.
  intros Hva'. destruct (in_space_idx _ Hva') as [Hr' Hi']. destruct (in_space_idx _ Hva) as [Hr Hi].
  rewrite (translate_unfold _ _ (vm_dir _ _ set_pte_vm)), (translate_unfold _ _ (vm_dir _ _ Hvm)) by done.
  pose proof (set_pte_dir (va' / 2 ^ 22) ltac:(lia)) as Hd.
  assert (pte_addr m' dir va' = pte_addr m dir va') as ->.
  { unfold pte_addr, tbl_of, pde_of. unfold pde_i in Hd. by rewrite Hd. }
  unfold pde_i in Hd. unfold pde_of. rewrite Hd. fold (pde_i m dir (va' / 2 ^ 22)).
  destruct (Z.testbit (pde_i m dir (va' / 2 ^ 22)) 0) eqn:Ep.
  2:{ rewrite decide_False; [done|]. intros E.
      assert (va' / 2 ^ 22 = va / 2 ^ 22) as E2 by (Z.div_mod_to_equations; lia).
      rewrite E2 in Ep. unfold present in Hp. congruence. }
  unfold m'. rewrite word_insert. case_decide as Ea; case_decide as Eb; try done.
  - exfalso. apply Eb. unfold pte_addr, tbl_of, pde_of in Ea.
    fold (pde_i m dir (va / 2 ^ 22)) (pde_i m dir (va' / 2 ^ 22)) in Ea.
    pose proof (pg_aligned (pde_i m dir (va / 2 ^ 22))). pose proof (pg_aligned (pde_i m dir (va' / 2 ^ 22))).
    assert (pg (pde_i m dir (va / 2 ^ 22)) = pg (pde_i m dir (va' / 2 ^ 22))) as Eq
      by (Z.div_mod_to_equations; lia).
    apply (vm_inj _ _ Hvm) in Eq; [|done..]. Z.div_mod_to_equations; lia.
  - exfalso. apply Ea. unfold pte_addr, tbl_of, pde_of.
    assert (va' / 2 ^ 22 = va / 2 ^ 22) as -> by (Z.div_mod_to_equations; lia).
    by rewrite Eb.
Qed.
End set_pte.

(** ** Clearing a page through its virtual address *)

(** [m'] is [m] with the [n] words from [pa] on set to 0. *)
Definition cleared (m m' : gmap Z Z) (pa n : Z) : Prop :=
  ∀ a, word m' a = if decide (pa ≤ a < pa + 4 * n ∧ (a - pa) mod 4 = 0) then 0 else word m a.

Lemma vstore_eq s va v pa : translate (phys s) (cr3 s) va = Some pa →
  vstore va v s = Ok ((), set_phys (<[pa := v]> (phys s)) s).
Proof. intros H. unfold vstore. by rewrite H. Qed.
Lemma vload_eq s va pa : translate (phys s) (cr3 s) va = Some pa →
  vload va s = Ok (word (phys s) pa, s).
Proof. intros H. unfold vload. by rewrite H. Qed.

(** The words of the range are mapped to consecutive words at [pa], and stay
    mapped there whatever is stored in them. *)
Definition stable_range (m : gmap Z Z) (dir va pa n : Z) : Prop :=
  ∀ m' k, (∀ a, ¬ (pa ≤ a < pa + 4 * n) → word m' a = word m a) → (∀ a, 0 ≤ word m' a < 2 ^ 32) →
    0 ≤ k < n → translate m' dir (va + 4 * k) = Some (pa + 4 * k).

Lemma vclear_ok n s va pa :
  (∀ a, 0 ≤ word (phys s) a < 2 ^ 32) →
  stable_range (phys s) (cr3 s) va pa (Z.of_nat n) →
  wp (vclear n va) s (λ _ s', ∃ m', s' = set_phys m' s ∧ cleared (phys s) m' pa (Z.of_nat n)).
Proof.
  revert s va pa. induction n as [|n IH]; intros s va pa Hw Hst.
  - simpl. kstep. exists (phys s). split; [by destruct s|]. intros a. rewrite decide_False; [done|lia].
  - cbn [vclear]. apply wp_bind. eapply wp_eq.
    { apply vstore_eq. pose proof (Hst (phys s) 0 ltac:(done) Hw ltac:(lia)) as H.
      by replace (va + 4 * 0) with va in H by lia; rewrite H. }
    replace (pa + 4 * 0) with pa by lia.
    eapply wp_mono.
    { apply (IH (set_phys (<[pa := 0]> (phys s)) s) (va + 4) (pa + 4)); simpl.
      - intros a. rewrite word_insert. case_decide; [lia|apply Hw].
      - intros m' k Hm' Hw' Hk.
        replace (va + 4 + 4 * k) with (va + 4 * (k + 1)) by lia.
        replace (pa + 4 + 4 * k) with (pa + 4 * (k + 1)) by lia.
        apply Hst; [|done|lia]. intros a Ha. rewrite Hm' by lia. rewrite word_insert.
        rewrite decide_False; [done|lia]. }
    intros u s' (m' & -> & Hc). exists m'. split; [done|]. intros a. rewrite Hc. simpl.
    rewrite word_insert. repeat case_decide; try done; Z.div_mod_to_equations; lia.
Qed.

(** ** Adding a page table *)
Section new_table.
Context (m : gmap Z Z) (dir i f : Z).
Hypothesis (Hvm : vm_ok m dir) (Hi : 1 ≤ i < 1023) (Hnp : ¬ present m dir i).
Hypothesis (Hf : 0 ≤ f < 2 ^ 32 - 4096) (Hfa : f mod 4096 = 0) (Hfd : f ≠ dir).
Hypothesis (Hft : ∀ j, 0 ≤ j < 1023 → present m dir j → pg (pde_i m dir j) ≠ f).
Let m1 := <[dir + i * 4 := f + 7]> m.

Lemma new_table_dir j : 0 ≤ j < 1024 → pde_i m1 dir j = if decide (j = i) then f + 7 else pde_i m dir j.
Proof.
  intros. unfold pde_i, m1. rewrite word_insert. repeat case_decide; try done; lia.
Qed.

Lemma new_table_vm : vm_ok m1 dir.
Proof.
  destruct (Hvm) as [[H1 H2 H3 H4] Ht Hj]. split; [split|..]; try done.
  - pose proof (new_table_dir 1023 ltac:(lia)) as E. rewrite decide_False in E by lia.
    unfold pde_i in E. by replace (dir + 1023 * 4) with (dir + 4092) in E by lia; rewrite E.
  - intros a. unfold m1. rewrite word_insert. case_decide; [lia|apply H4].
  - intros j Hr. unfold present. rewrite new_table_dir by lia. case_decide; [|by apply Ht].
    intros _. by rewrite pg_add7.
  - intros j k Hr1 Hr2. unfold present. rewrite !new_table_dir by lia.
    repeat case_decide; subst; try done.
    + rewrite pg_add7 by done. intros _ Hp E. exfalso. apply (Hft k); [lia|exact Hp|congruence].
    + rewrite pg_add7 by done. intros Hp _ E. exfalso. apply (Hft j); [lia|exact Hp|congruence].
    + by apply Hj.
Qed.

(** The window of the page tables shows the new table. *)
Lemma new_table_stable : stable_range m1 dir (0xffc00000 + i * 4096) f 1024.
Proof.
  intros m' k Hm' Hw Hk. pose proof new_table_vm as Hvm1.
  assert (∀ j, 0 ≤ j < 1024 → pde_i m' dir j = pde_i m1 dir j) as Hdir.
  { intros j Hj. unfold pde_i. apply Hm'. destruct (vm_dir _ _ Hvm) as [? Ha _ _].
    Z.div_mod_to_equations. lia. }
  pose proof (vm_ok_frame _ _ _ Hvm1 Hw Hdir) as Hvm'.
  destruct (translate_parts 1023 i (4 * k)) as (H1 & H2 & H3 & H4); try lia.
  replace (4290772992 + i * 4096 + 4 * k) with (1023 * 2 ^ 22 + i * 4096 + 4 * k) by lia.
  rewrite (translate_unfold _ _ (vm_dir _ _ Hvm')) by done.
  destruct (self_tbl _ _ (vm_dir _ _ Hvm') _ H2) as [Ht ->].
  unfold pte_addr. rewrite Ht, H3, H4. fold (pde_i m' dir i).
  rewrite Hdir, new_table_dir, decide_True by (lia || done).
  by rewrite testbit_flags, pg_add7 by done.
Qed.

(** A cleared new table keeps every mapping, and maps nothing. *)
Lemma new_table_cleared m2 : cleared m1 m2 f 1024 →
  vm_ok m2 dir ∧ (∀ j, 0 ≤ j < 1024 → pde_i m2 dir j = pde_i m1 dir j) ∧
  ∀ va, in_space va → translate m2 dir va = translate m dir va.
Proof.
  intros Hc. assert (∀ j, 0 ≤ j < 1024 → pde_i m2 dir j = pde_i m1 dir j) as Hdir.
  { intros j Hj. unfold pde_i. rewrite Hc, decide_False; [done|]. destruct (vm_dir _ _ Hvm) as [? Ha _ _].
    Z.div_mod_to_equations. lia. }
  assert (vm_ok m2 dir) as Hvm2.
  { apply (vm_ok_frame m1); [apply new_table_vm| |done].
    intros a. rewrite Hc. case_decide; [lia|apply new_table_vm]. }
  split; [done|]. split; [done|]. intros va Hva. destruct (in_space_idx _ Hva) as [Hr Hx].
  rewrite (translate_unfold _ _ (vm_dir _ _ Hvm2)), (translate_unfold _ _ (vm_dir _ _ Hvm)) by done.
  unfold pte_addr, tbl_of, pde_of. fold (pde_i m2 dir (va / 2 ^ 22)) (pde_i m dir (va / 2 ^ 22)).
  rewrite Hdir, new_table_dir by lia. case_decide as Ei.
  - rewrite testbit_flags, pg_add7 by done. rewrite Hc, decide_True by (Z.div_mod_to_equations; lia).
    change (Z.testbit 0 0) with false. unfold present in Hnp. rewrite Ei.
    destruct (Z.testbit (pde_i m dir i) 0) eqn:Ep; [congruence|done].
  - destruct (Z.testbit (pde_i m dir (va / 2 ^ 22)) 0) eqn:Ep; [|done].
    assert (pg (pde_i m dir (va / 2 ^ 22)) ≠ f) as Hne by (apply Hft; [lia|done]).
    assert (pg (pde_i m dir (va / 2 ^ 22)) ≠ dir) as Hnd by (apply (vm_tbl _ _ Hvm); [lia|done]).
    pose proof (pg_aligned (pde_i m dir (va / 2 ^ 22))) as Hal.
    destruct (vm_dir _ _ Hvm) as [? Ha _ _].
    rewrite Hc, decide_False by (Z.div_mod_to_equations; lia).
    unfold m1. rewrite word_insert, decide_False by (Z.div_mod_to_equations; lia). done.
Qed.
End new_table.

(** The self map.  When the last entry of a page directory points at the
    directory itself, the address [pde_ptr] computes is mapped to the directory
    entry of [va], and the address [pte_ptr] computes to its page table entry
    exactly when the table is present, for every 32-bit address. *)
Theorem selfmap_correct m dir va :
  dir_ok m dir → 0 ≤ va < 2 ^ 32 →
  translate m dir (pde_ptr va) = Some (dir + PDE_IDX va * 4) ∧
  translate m dir (pte_ptr va) =
    (if Z.testbit (word m (dir + PDE_IDX va * 4)) 0
     then Some (Z.land (word m (dir + PDE_IDX va * 4)) 0xfffff000 + PTE_IDX va * 4) else None).
Proof.
  intros Hd Hva. rewrite PDE_IDX_div, PTE_IDX_div by done.
  rewrite (land_pg (word _ _)) by apply Hd.
  split; [by apply translate_pde_ptr|]. by rewrite translate_pte_ptr.
Qed.

Lemma addr_v2p_ok s va pa :
  dir_ok (phys s) (cr3 s) → 0 ≤ va < 2 ^ 32 → translate (phys s) (cr3 s) va = Some pa →
  addr_v2p va s = Ok (pa, s).
Proof.
  intros Hd Hva. rewrite (translate_unfold _ _ Hd) by done.
  destruct (Z.testbit (pde_of _ _ va) 0) eqn:Ep; [|done].
  destruct (Z.testbit (word _ _) 0) eqn:Eq; [|done]. intros [= <-].
  unfold addr_v2p, mbind, K_bind. erewrite vload_eq.
  2:{ rewrite (translate_pte_ptr _ _ Hd) by done. by rewrite Ep. }
  rewrite land_pg, land_off by apply Hd. unfold mret, K_ret. do 2 f_equal.
  pose proof (pg_range (word (phys s) (pte_addr (phys s) (cr3 s) va)) ltac:(apply Hd)).
  apply u32_id. Z.div_mod_to_equations. lia.
Qed.

(** [addr_v2p] agrees with the processor: on a mapped address it returns
    the physical address the page walk gives, changing nothing. *)
Theorem addr_v2p_correct s va pa :
  dir_ok (phys s) (cr3 s) → 0 ≤ va < 2 ^ 32 → translate (phys s) (cr3 s) va = Some pa →
  addr_v2p va s = Ok (pa, s).
Proof. apply addr_v2p_ok. Qed.

(** *** Witnesses: a directory at 1 MiB, one table at 0x101000 for entry 0x301 *)
Definition demo_mem : gmap Z Z :=
  {[0x100000 + 4092 := 0x100007; 0x100000 + 0x301 * 4 := 0x101007; 0x101000 + 5 * 4 := 0x234007]}.

Lemma demo_dir_ok : dir_ok demo_mem 0x100000.
Proof.
  split; [lia|reflexivity|reflexivity|]. intros a. unfold demo_mem.
  rewrite !word_insert. unfold word. repeat case_decide; try lia.
  rewrite lookup_singleton. case_decide; simpl; lia.
Qed.

Lemma selfmap_correct_witness :
  translate demo_mem 0x100000 (pde_ptr 0xc0405abc) = Some (0x100000 + 0x301 * 4) ∧
  translate demo_mem 0x100000 (pte_ptr 0xc0405abc) = Some (0x101000 + 5 * 4).
Proof. apply (selfmap_correct demo_mem 0x100000 0xc0405abc demo_dir_ok). lia. Defined.

Lemma addr_v2p_correct_witness :
  addr_v2p 0xc0405abc (set_cr3 0x100000 (set_phys demo_mem k0)) =
    Ok (0x234abc, set_cr3 0x100000 (set_phys demo_mem k0)).
Proof.
  apply (addr_v2p_correct (set_cr3 0x100000 (set_phys demo_mem k0)) 0xc0405abc 0x234abc);
    [exact demo_dir_ok|lia|reflexivity].
Defined.
