(* ===== verification/PageMem.v ===== *)
(** * kernel/losmemory.c: page frames, virtual addresses and mappings

    The physical pools, the virtual address bitmaps and the page allocator
    built on them.  [mem_ok] ties them together: no frame that a pool calls
    free is a page table, the directory or the target of a mapping, and no
    virtual page that a bitmap calls free is mapped. *)
From S2P Require Import Prelude CString Bitmap Machine DList Mmu.

Definition MEM_BITMAP_BASE : Z := 0xc009a000.
Definition K_HEAP_START : Z := 0xc0100000.

Definition pool_of (t : PoolType) (s : kstate) : Pool :=
  match t with PF_KERNEL => kernel_pool s | PF_USER => user_pool s end.
Definition set_pool (t : PoolType) (p : Pool) (s : kstate) : kstate :=
  match t with PF_KERNEL => set_kernel_pool p s | PF_USER => set_user_pool p s end.
Definition set_pool_map (p : Pool) (m : BitMap) : Pool := mkPool m (phy_addr_start p) (size p) (lock p).

(** ** PCB access *)
Definition ld_task (p : Z) : K TaskStruct := ts ← gets tasks; lift (deref (ts !! p)).
Definition upd_task (p : Z) (f : TaskStruct → TaskStruct) : K unit :=
  t ← ld_task p; modify (λ s, set_tasks (<[p := f t]> (tasks s)) s).
(** ** Pool initialisation

    [ram] is what memory holds before [bitmap_init] clears the maps.  The maps
    lie one after the other in the four pages below the main thread's PCB; each
    map's [bits] reaches to the end of that region. *)
Fixpoint ram_bytes (ram : Z → Z) (addr : Z) (n : nat) : list Z :=
  match n with
  | O => []
  | S n => u8 (ram addr) :: ram_bytes ram (addr + 1) n
  end.
Definition bitmap_region (ram : Z → Z) (bits_addr : Z) : list Z :=
  ram_bytes ram bits_addr (Z.to_nat (MEM_BITMAP_BASE + 0x4000 - bits_addr)).

Definition mem_pool_init (ram : Z → Z) (all_mem : Z) : K unit :=
  let page_table_size := PG_SIZE * 256 in
  let used_mem := page_table_size + 0x100000 in
  let free_mem := u32 (all_mem - used_mem) in
  let all_free_pages := u16 (free_mem / PG_SIZE) in
  let kernel_free_pages := u16 (all_free_pages / 2) in
  let user_free_pages := u16 (all_free_pages - kernel_free_pages) in
  let kbm_length := kernel_free_pages / 8 in
  let ubm_length := user_free_pages / 8 in
  let kp_start := used_mem in
  let up_start := u32 (kp_start + kernel_free_pages * PG_SIZE) in
  klock ← gets (λ s, lock (kernel_pool s));
  ulock ← gets (λ s, lock (user_pool s));
  let kmap := mkBitMap kbm_length (bitmap_region ram MEM_BITMAP_BASE) in
  let umap := mkBitMap ubm_length (bitmap_region ram (MEM_BITMAP_BASE + kbm_length)) in
  kmap ← lift (bitmap_init kmap);
  umap ← lift (bitmap_init umap);
  let vmap := mkBitMap kbm_length (bitmap_region ram (MEM_BITMAP_BASE + kbm_length + ubm_length)) in
  vmap ← lift (bitmap_init vmap);
  modify (set_kernel_pool (mkPool kmap kp_start (kernel_free_pages * PG_SIZE) klock)) ;;
  modify (set_user_pool (mkPool umap up_start (user_free_pages * PG_SIZE) ulock)) ;;
  modify (set_kernel_vaddr (mkVirtualAddr vmap K_HEAP_START)).

(** ** Virtual addresses *)

(** The loop that writes [n] bits from [start + cnt] on. *)
Fixpoint set_run (n : nat) (m : BitMap) (start cnt value : Z) : outcome BitMap :=
  match n with
  | O => Ok m
  | S n => m ← bitmap_set m (u32 (start + cnt)) value; set_run n m start (u32 (cnt + 1)) value
  end.

Definition vaddr_get (t : PoolType) (pages : Z) : K Z :=
  match t with
  | PF_KERNEL =>
      kv ← gets kernel_vaddr;
      bit_idx_start ← lift (bitmap_scan (vaddr_map kv) pages);
      if bit_idx_start =? -1 then mret NULL
      else
        m ← lift (set_run (Z.to_nat pages) (vaddr_map kv) bit_idx_start 0 1);
        modify (set_kernel_vaddr (mkVirtualAddr m (vaddr_start kv))) ;;
        mret (u32 (vaddr_start kv + bit_idx_start * PG_SIZE))
  | PF_USER =>
      cur ← running_thread;
      ct ← ld_task cur;
      let uv := userprog_vaddr ct in
      bit_idx_start ← lift (bitmap_scan (vaddr_map uv) pages);
      if bit_idx_start =? -1 then mret NULL
      else
        m ← lift (set_run (Z.to_nat pages) (vaddr_map uv) bit_idx_start 0 1);
        upd_task cur (set_userprog_vaddr (mkVirtualAddr m (vaddr_start uv))) ;;
        let vaddr_start := u32 (vaddr_start uv + bit_idx_start * PG_SIZE) in
        kassert (vaddr_start <? 0xC0000000 - PG_SIZE) ;;
        mret vaddr_start
  end.

(** ** Physical frames *)
Definition palloc (t : PoolType) : K Z :=
  pool ← gets (pool_of t);
  bit_idx ← lift (bitmap_scan (pool_map pool) 1);
  if bit_idx =? -1 then mret NULL
  else
    m ← lift (bitmap_set (pool_map pool) bit_idx 1);
    modify (set_pool t (set_pool_map pool m)) ;;
    mret (u32 (bit_idx * PG_SIZE + phy_addr_start pool)).

Definition pfree (pg_phy_addr : Z) : K unit :=
  up ← gets user_pool; kp ← gets kernel_pool;
  let t := if phy_addr_start up <=? pg_phy_addr then PF_USER else PF_KERNEL in
  let mem_pool := match t with PF_USER => up | PF_KERNEL => kp end in
  let bit_idx := u32 (pg_phy_addr - phy_addr_start mem_pool) / PG_SIZE in
  m ← lift (bitmap_set (pool_map mem_pool) bit_idx 0);
  modify (set_pool t (set_pool_map mem_pool m)).

(** [free_a_phy_page] has the body of [pfree]. *)
Definition free_a_phy_page (pg_phy_addr : Z) : K unit := pfree pg_phy_addr.

(** ** Mappings *)
Definition page_table_add (vaddr page_phyaddr : Z) : K unit :=
  let pde := pde_ptr vaddr in
  let pte := pte_ptr vaddr in
  e ← vload pde;
  if negb (Z.land e 0x00000001 =? 0) then
    t ← vload pte;
    kassert (Z.land t 0x00000001 =? 0) ;;
    vstore pte (Z.lor (Z.lor (Z.lor page_phyaddr PG_US_U) PG_RW_W) PG_P_1)
  else
    pde_phyaddr ← palloc PF_KERNEL;
    vstore pde (Z.lor (Z.lor (Z.lor pde_phyaddr PG_US_U) PG_RW_W) PG_P_1) ;;
    vclear 1024 (Z.land pte 0xfffff000) ;;
    t ← vload pte;
    kassert (Z.land t 0x00000001 =? 0) ;;
    vstore pte (Z.lor (Z.lor (Z.lor page_phyaddr PG_US_U) PG_RW_W) PG_P_1).

Definition page_table_pte_remove (vaddr : Z) : K unit :=
  let pte := pte_ptr vaddr in
  t ← vload pte;
  vstore pte (u32 (Z.land t (Z.lnot PG_P_1))).

Definition vaddr_remove (pf : PoolType) (vaddr pg_cnt : Z) : K unit :=
  match pf with
  | PF_KERNEL =>
      kv ← gets kernel_vaddr;
      let bit_idx_start := u32 (vaddr - vaddr_start kv) / PG_SIZE in
      m ← lift (set_run (Z.to_nat pg_cnt) (vaddr_map kv) bit_idx_start 0 0);
      modify (set_kernel_vaddr (mkVirtualAddr m (vaddr_start kv)))
  | PF_USER =>
      cur ← running_thread;
      ct ← ld_task cur;
      let uv := userprog_vaddr ct in
      let bit_idx_start := u32 (vaddr - vaddr_start uv) / PG_SIZE in
      m ← lift (set_run (Z.to_nat pg_cnt) (vaddr_map uv) bit_idx_start 0 0);
      upd_task cur (set_userprog_vaddr (mkVirtualAddr m (vaddr_start uv)))
  end.

(** The loop of [malloc_page]: [false] when a frame could not be had. *)
Fixpoint map_pages (cnt : nat) (t : PoolType) (vaddr : Z) : K bool :=
  match cnt with
  | O => mret true
  | S cnt =>
      page_phyaddr ← palloc t;
      if page_phyaddr =? NULL then mret false
      else page_table_add vaddr page_phyaddr ;; map_pages cnt t (u32 (vaddr + PG_SIZE))
  end.

Definition malloc_page (t : PoolType) (pages : Z) : K Z :=
  kassert ((0 <? pages) && (pages <? 3840)) ;;
  vaddr_start ← vaddr_get t pages;
  if vaddr_start =? NULL then mret NULL
  else
    ok ← map_pages (Z.to_nat pages) t vaddr_start;
    if (ok : bool) then mret vaddr_start else mret NULL.

(** The loop of [mfree_page] in the user pool and in the kernel pool. *)
Fixpoint free_pages (n : nat) (vaddr : Z) (inpool : Z → kstate → bool) : K unit :=
  match n with
  | O => mret ()
  | S n =>
      pg_phy_addr ← addr_v2p vaddr;
      ok ← gets (inpool pg_phy_addr);
      kassert ((pg_phy_addr mod PG_SIZE =? 0) && ok) ;;
      pfree pg_phy_addr ;;
      page_table_pte_remove vaddr ;;
      free_pages n (u32 (vaddr + PG_SIZE)) inpool
  end.

Definition in_user_pool (a : Z) (s : kstate) : bool := phy_addr_start (user_pool s) <=? a.
Definition in_kernel_pool (a : Z) (s : kstate) : bool :=
  (phy_addr_start (kernel_pool s) <=? a) && (a <? phy_addr_start (user_pool s)).

Definition mfree_page (pf : PoolType) (vaddr pg_cnt : Z) : K unit :=
  kassert ((1 <=? pg_cnt) && (vaddr mod PG_SIZE =? 0)) ;;
  pg_phy_addr ← addr_v2p vaddr;
  kassert ((pg_phy_addr mod PG_SIZE =? 0) && (0x102000 <=? pg_phy_addr)) ;;
  ustart ← gets (λ s, phy_addr_start (user_pool s));
  (if ustart <=? pg_phy_addr
   then free_pages (Z.to_nat pg_cnt) vaddr in_user_pool
   else free_pages (Z.to_nat pg_cnt) vaddr in_kernel_pool) ;;
  vaddr_remove pf vaddr pg_cnt.

Definition get_kernel_pages (pages : Z) : K Z :=
  vaddr ← malloc_page PF_KERNEL pages;
  if negb (vaddr =? NULL) then vclear (Z.to_nat (pages * 1024)) vaddr ;; mret vaddr
  else mret vaddr.

(** ** Pools as sets of free frames *)
Record pool_wf (p : Pool) : Prop := {
  pw_bm : bm_wf (pool_map p);
  pw_pad : btmp_bytes_len (pool_map p) < len (bits (pool_map p));
  pw_int : nbits (pool_map p) + 1 < 2 ^ 31;
  pw_aligned : phy_addr_start p mod 4096 = 0;
  pw_range : 0 < phy_addr_start p ∧ phy_addr_start p + nbits (pool_map p) * 4096 ≤ 2 ^ 32 - 4096;
}.

Definition free_frame (p : Pool) (f : Z) : Prop :=
  ∃ i, 0 ≤ i < nbits (pool_map p) ∧ used (pool_map p) i = false ∧ f = phy_addr_start p + i * 4096.

Lemma free_frame_range p f : pool_wf p → free_frame p f → 0 < f < 2 ^ 32 - 4096 ∧ f mod 4096 = 0.
Proof. intros [_ _ _ Ha Hr] (i & Hi & _ & ->). split; [lia|]. Z.div_mod_to_equations. lia. Qed.

(** [p'] is [p] with the bit of frame number [i] set to [v]. *)
Definition pool_bit (p p' : Pool) (i : Z) (v : bool) : Prop :=
  phy_addr_start p' = phy_addr_start p ∧ set_bit (pool_map p) (pool_map p') i v
  ∧ size p' = size p ∧ lock p' = lock p.

Lemma set_bit_nbits m m' i v : set_bit m m' i v → nbits m' = nbits m.
Proof. intros (H & _). unfold nbits. by rewrite H. Qed.

Lemma pool_bit_wf p p' i v : pool_wf p → pool_bit p p' i v → pool_wf p'.
Proof.
  intros [H1 H2 H3 H4 H5] (Hs & Hb & _). pose proof (set_bit_nbits _ _ _ _ Hb) as En.
  destruct Hb as (E1 & E2 & Hw & _). split; rewrite ?Hs, ?En, ?E1, ?E2; done || lia.
Qed.

Lemma pool_bit_free p p' i v f : pool_bit p p' i v → 0 ≤ i < nbits (pool_map p) →
  free_frame p' f ↔ if v then free_frame p f ∧ f ≠ phy_addr_start p + i * 4096
                    else free_frame p f ∨ f = phy_addr_start p + i * 4096.
Proof.
  intros (Hs & Hb & _) Hi. pose proof (set_bit_nbits _ _ _ _ Hb) as En. destruct Hb as (_ & _ & _ & Hu).
  unfold free_frame. rewrite Hs, En. split.
  - intros (j & Hj & Hf & ->). rewrite Hu in Hf by lia. destruct (Z.eqb_spec j i) as [->|].
    + subst v. by right.
    + destruct v; [split; [eauto|lia]|eauto].
  - destruct v.
    + intros [(j & Hj & Hf & ->) Hne]. exists j. split_and!; [lia|lia| |done].
      rewrite Hu by lia. destruct (Z.eqb_spec j i); [subst; done|done].
    + intros [(j & Hj & Hf & ->)| ->].
      * exists j. split_and!; [lia|lia| |done]. rewrite Hu by lia. by destruct (j =? i).
      * exists i. split_and!; [lia|lia| |done]. rewrite Hu by lia. by rewrite Z.eqb_refl.
Qed.

Lemma palloc_ok t s : pool_wf (pool_of t s) →
  wp (palloc t) s (λ r s',
    (r = NULL ∧ s' = s ∧ ∀ f, ¬ free_frame (pool_of t s) f)
    ∨ (∃ p' i, r = phy_addr_start (pool_of t s) + i * 4096 ∧ 0 ≤ i < nbits (pool_map (pool_of t s))
        ∧ free_frame (pool_of t s) r ∧ s' = set_pool t p' s ∧ pool_bit (pool_of t s) p' i true)).
Proof.
  intros Hp. unfold palloc. set (p := pool_of t s) in *. destruct (Hp) as [H1 H2 H3 H4 H5].
  kstep. kstep. kstep. apply wp_lift.
  eapply returns_mono; [apply (bitmap_scan_ok (pool_map p) H1 1); lia|]. simpl.
  intros r [[-> Hno]|(Hr & Hb & Hf & _)].
  - simpl. kstep. left. split_and!; [done|done|]. intros f (i & Hi & Hu & _).
    apply (Hno i); [lia|lia|]. intros j ?. by replace j with i by lia.
  - destruct (Z.eqb_spec r (-1)); [lia|]. kstep. apply wp_lift.
    eapply returns_mono; [apply (bitmap_set_ok (pool_map p) r true H1)|].
    { unfold nbits in *. lia. }
    intros m' Hm'. kstep. kstep. kstep. right. exists (set_pool_map p m'), r. fold p.
    assert (free_frame p (phy_addr_start p + r * 4096)).
    { exists r. split_and!; [lia|lia| |done]. apply Hf. lia. }
    assert (u32 (r * PG_SIZE + phy_addr_start p) = phy_addr_start p + r * 4096) as ->.
    { unfold PG_SIZE. rewrite u32_id; lia. }
    split_and!; [done|lia|lia|done|done|]. by split.
Qed.

Lemma pfree_ok t s i :
  pool_wf (pool_of t s) → 0 ≤ i < nbits (pool_map (pool_of t s)) →
  phy_addr_start (kernel_pool s) + nbits (pool_map (kernel_pool s)) * 4096 ≤ phy_addr_start (user_pool s) →
  wp (pfree (phy_addr_start (pool_of t s) + i * 4096)) s (λ _ s',
    ∃ p', s' = set_pool t p' s ∧ pool_bit (pool_of t s) p' i false).
Proof.
  intros Hp Hi Ho. set (p := pool_of t s) in *. destruct (Hp) as [H1 H2 H3 H4 H5].
  unfold pfree. do 4 kstep. set (f := phy_addr_start p + i * 4096).
  assert ((if phy_addr_start (user_pool s) <=? f then PF_USER else PF_KERNEL) = t) as ->.
  { unfold f, p in *. destruct t; simpl in *; zbool. }
  assert ((match t with PF_KERNEL => kernel_pool s | PF_USER => user_pool s end) = p) as -> by by destruct t.
  replace (u32 (f - phy_addr_start p) / PG_SIZE) with i.
  2:{ unfold f. rewrite u32_id by lia. unfold PG_SIZE. Z.div_mod_to_equations. lia. }
  kstep. apply wp_lift. eapply returns_mono; [apply (bitmap_set_ok (pool_map p) i false H1)|].
  { unfold nbits in *. lia. }
  intros m' Hm'. kstep. exists (set_pool_map p m'). split; [done|]. by split.
Qed.

(** ** Runs of virtual pages *)
Definition set_bits (m m' : BitMap) (a b : Z) (v : bool) : Prop :=
  btmp_bytes_len m' = btmp_bytes_len m ∧ len (bits m') = len (bits m) ∧ bm_wf m'
  ∧ ∀ j, 0 ≤ j → used m' j = if decide (a ≤ j < b) then v else used m j.

Lemma set_run_ok n m start cnt v :
  bm_wf m → 0 ≤ start → 0 ≤ cnt → start + cnt + Z.of_nat n ≤ 8 * len (bits m) →
  start + cnt + Z.of_nat n < 2 ^ 32 →
  set_run n m start cnt (if (v : bool) then 1 else 0) ⇓ λ m',
    set_bits m m' (start + cnt) (start + cnt + Z.of_nat n) v.
Proof.
  revert m cnt. induction n as [|n IH]; intros m cnt Hm Hs Hc Hl Hb.
  - simpl. split_and!; [done|done|done|]. intros j Hj. rewrite decide_False; [done|lia].
  - cbn [set_run]. ok_step. rewrite (u32_id (start + cnt)) by lia.
    eapply returns_mono; [apply bitmap_set_ok; [done|lia]|].
    intros m1 (E1 & E2 & Hw & Hu). rewrite u32_id by lia.
    eapply returns_mono; [apply IH; rewrite ?E2; try done; lia|].
    intros m2 (F1 & F2 & Fw & Fu). split_and!; [congruence|congruence|done|].
    intros j Hj. rewrite Fu, Hu by lia. destruct (Z.eqb_spec j (start + cnt)); repeat case_decide; try done; lia.
Qed.

(** ** The memory invariant *)
Definition is_free (s : kstate) (f : Z) : Prop := ∃ t, free_frame (pool_of t s) f.
Definition maps (s : kstate) (va pa : Z) : Prop :=
  in_space va ∧ translate (phys s) (cr3 s) va = Some pa.

(** The frames the page walk reads: the directory and the tables. *)
Definition walk_frame (s : kstate) (f : Z) : Prop :=
  f = cr3 s ∨ ∃ i, 0 ≤ i < 1023 ∧ present (phys s) (cr3 s) i ∧ pg (pde_i (phys s) (cr3 s) i) = f.
Definition table_frame (s : kstate) (f : Z) : Prop :=
  ∃ i, 0 ≤ i < 1023 ∧ present (phys s) (cr3 s) i ∧ pg (pde_i (phys s) (cr3 s) i) = f.

Record pools_ok (s : kstate) : Prop := {
  po_wf t : pool_wf (pool_of t s);
  po_order : phy_addr_start (kernel_pool s) + nbits (pool_map (kernel_pool s)) * 4096
             ≤ phy_addr_start (user_pool s);
}.

Record kva_ok (v : VirtualAddr) : Prop := {
  kv_bm : bm_wf (vaddr_map v);
  kv_pad : btmp_bytes_len (vaddr_map v) < len (bits (vaddr_map v));
  kv_int : nbits (vaddr_map v) + 1 < 2 ^ 31;
  kv_aligned : vaddr_start v mod 4096 = 0;
  kv_range : 0xc0000000 ≤ vaddr_start v ∧ vaddr_start v + (nbits (vaddr_map v) + 1) * 4096 ≤ 0xffc00000;
}.

Record mem_ok (s : kstate) : Prop := {
  mo_pools : pools_ok s;
  mo_vm : vm_ok (phys s) (cr3 s);
  mo_kva : kva_ok (kernel_vaddr s);
  (* the kernel's tables exist from boot on *)
  mo_kpde i : 768 ≤ i < 1023 → present (phys s) (cr3 s) i;
  (* what the walk reads and what is mapped is not free *)
  mo_walk f : walk_frame s f → ¬ is_free s f;
  mo_mapped va pa : maps s va pa → ¬ is_free s (pg pa);
  (* no frame is mapped twice, no table is mapped as data *)
  mo_inj va va' pa pa' : maps s va pa → maps s va' pa' → pg pa = pg pa' → va / 4096 = va' / 4096;
  mo_table va pa : maps s va pa → ¬ table_frame s (pg pa);
  (* free kernel pages are not mapped *)
  mo_kfree i : 0 ≤ i ≤ nbits (vaddr_map (kernel_vaddr s)) → used (vaddr_map (kernel_vaddr s)) i = false →
    ∀ pa, ¬ maps s (vaddr_start (kernel_vaddr s) + i * 4096) pa;
}.

(** A page is mapped as a whole. *)
Lemma maps_pg s va pa : vm_ok (phys s) (cr3 s) → maps s va pa → maps s (pg va) (pg pa).
Proof.
  intros Hvm [Hin H]. assert (in_space (pg va)) as Hin' by (unfold in_space, pg in *; Z.div_mod_to_equations; lia).
  split; [done|]. destruct (in_space_idx _ Hin) as [Hr _]. destruct (in_space_idx _ Hin') as [Hr' _].
  rewrite (translate_unfold _ _ (vm_dir _ _ Hvm)) in H |- * by done.
  assert (pg va / 2 ^ 22 = va / 2 ^ 22 ∧ pg va / 4096 = va / 4096 ∧ pg va mod 4096 = 0) as (E1 & E2 & E3)
    by (unfold pg; Z.div_mod_to_equations; lia).
  unfold pte_addr, tbl_of, pde_of in *. rewrite E1, E2, E3.
  repeat case_match; simplify_eq. f_equal. unfold pg. Z.div_mod_to_equations; lia.
Qed.

(** A frame that was taken from a pool and is not in use yet. *)
Record fresh_frame (s : kstate) (f : Z) : Prop := {
  ff_range : 0 < f < 2 ^ 32 - 4096;
  ff_aligned : f mod 4096 = 0;
  ff_taken : ¬ is_free s f;
  ff_walk : ¬ walk_frame s f;
  ff_unmapped va pa : maps s va pa → pg pa ≠ f;
}.

(** Same memory and address space, fewer free frames. *)
Lemma mem_ok_pools s s' :
  mem_ok s → pools_ok s' → phys s' = phys s → cr3 s' = cr3 s → kernel_vaddr s' = kernel_vaddr s →
  (∀ f, is_free s' f → is_free s f) → mem_ok s'.
Proof.
  intros [] Hp E1 E2 E3 Hf. split; unfold walk_frame, table_frame, maps in *; rewrite ?E1, ?E2, ?E3; eauto.
  - intros f Hw Hfr. by eapply mo_walk0, Hf.
  - intros va pa Hm Hfr. by eapply mo_mapped0, Hf.
Qed.

Lemma pool_of_set t t' p s : pool_of t (set_pool t' p s) = if decide (t = t') then p else pool_of t s.
Proof. by destruct t, t'. Qed.

Lemma pools_ok_set t p' i v s : pools_ok s → pool_bit (pool_of t s) p' i v → pools_ok (set_pool t p' s).
Proof.
  intros [Hw Ho] Hb. split.
  - intros t'. rewrite pool_of_set. case_decide; [|done]. by eapply pool_bit_wf.
  - destruct Hb as (Hs & Hn%set_bit_nbits & _). destruct t; simpl in *; rewrite ?Hs, ?Hn; done.
Qed.

Lemma pools_apart s f : pools_ok s → free_frame (kernel_pool s) f → ¬ free_frame (user_pool s) f.
Proof. intros [Hw Ho] (i & Hi & _ & ->) (j & Hj & _ & E). lia. Qed.

Lemma is_free_taken t p' i s : pools_ok s → pool_bit (pool_of t s) p' i true →
  0 ≤ i < nbits (pool_map (pool_of t s)) →
  ∀ f, is_free (set_pool t p' s) f ↔ is_free s f ∧ ¬ (free_frame (pool_of t s) f ∧ f = phy_addr_start (pool_of t s) + i * 4096).
Proof.
  intros Hp Hb Hi f. unfold is_free. pose proof (pool_bit_free _ _ _ _ f Hb Hi) as Hf. simpl in Hf. split.
  - intros [t' H]. rewrite pool_of_set in H. case_decide as E.
    + subst. apply Hf in H as [H1 H2]. split; [eauto|tauto].
    + split; [eauto|]. intros [H1 _].
      destruct t, t'; try done; eapply pools_apart; eauto.
  - intros [[t' H] Hne]. exists t'. rewrite pool_of_set. case_decide as E; [|done]. subst.
    apply Hf. split; [done|]. intros ->. by apply Hne.
Qed.

(** The same frames, whatever their state. *)
Definition same_pool (p p' : Pool) : Prop :=
  phy_addr_start p' = phy_addr_start p ∧ nbits (pool_map p') = nbits (pool_map p)
  ∧ size p' = size p ∧ lock p' = lock p.
Definition in_pool (p : Pool) (f : Z) : Prop :=
  ∃ i, 0 ≤ i < nbits (pool_map p) ∧ f = phy_addr_start p + i * 4096.

Lemma in_pool_same p p' f : same_pool p p' → in_pool p f → in_pool p' f.
Proof. intros (E1 & E2 & _) (i & Hi & ->). exists i. rewrite E1, E2. split; lia. Qed.
Lemma free_in_pool p f : free_frame p f → in_pool p f.
Proof. intros (i & Hi & _ & ->). by exists i. Qed.
Lemma same_pool_trans p p' p'' : same_pool p p' → same_pool p' p'' → same_pool p p''.
Proof. intros (? & ? & ? & ?) (? & ? & ? & ?). split_and!; congruence. Qed.
Lemma pool_bit_same p p' i v : pool_bit p p' i v → same_pool p p'.
Proof. intros (E & Hb%set_bit_nbits & ? & ?). by split_and!. Qed.

Lemma palloc_mem_ok t s : mem_ok s →
  wp (palloc t) s (λ r s',
    (r = NULL ∧ s' = s ∧ ∀ f, ¬ free_frame (pool_of t s) f)
    ∨ (r ≠ NULL ∧ mem_ok s' ∧ fresh_frame s' r ∧ free_frame (pool_of t s) r
       ∧ (∀ t' f, free_frame (pool_of t' s') f → free_frame (pool_of t' s) f)
       ∧ (∀ f, is_free s f → is_free s' f ∨ f = r)
       ∧ ∃ p', s' = set_pool t p' s ∧ same_pool (pool_of t s) p')).
Proof.
  intros Hm. destruct (mo_pools _ Hm) as [Hw Ho].
  eapply wp_mono; [apply palloc_ok; apply Hw|].
  intros r s' [?|(p' & i & -> & Hi & Hfree & -> & Hb)]; [by left|right].
  destruct (free_frame_range _ _ (Hw t) Hfree) as [Hr Ha].
  pose proof (is_free_taken _ _ _ _ (mo_pools _ Hm) Hb Hi) as Hf.
  assert (mem_ok (set_pool t p' s)) as Hm'.
  { eapply mem_ok_pools; [done|by eapply pools_ok_set, Hb; apply Hm|by destruct t|by destruct t|by destruct t|].
    intros f H%Hf. tauto. }
  assert (walk_frame (set_pool t p' s) = walk_frame s ∧ maps (set_pool t p' s) = maps s) as [Ew Em] by by destruct t.
  assert (∀ t' f, free_frame (pool_of t' (set_pool t p' s)) f → free_frame (pool_of t' s) f) as Hsub.
  { intros t' f. rewrite pool_of_set. case_decide; [|done]. subst.
    intros H%(pool_bit_free _ _ _ _ f Hb Hi). tauto. }
  split_and!; [unfold NULL; lia|done| |done|done| |by eauto using pool_bit_same].
  2:{ intros f H. destruct (decide (f = phy_addr_start (pool_of t s) + i * 4096)); [by right|left]. apply Hf. tauto. }
  split; [done|done| | |].
  - intros [_ H]%Hf. by apply H.
  - rewrite Ew. intros H%(mo_walk _ Hm). apply H. by exists t.
  - rewrite Em. intros va pa H E. apply (mo_mapped _ Hm) in H. apply H. rewrite E. by exists t.
Qed.

(** ** Installing and removing a mapping *)
Lemma land1 e : negb (Z.land e 1 =? 0) = Z.testbit e 0.
Proof. apply (mask_testbit e 0). lia. Qed.
Lemma land1' e : (Z.land e 1 =? 0) = negb (Z.testbit e 0).
Proof. rewrite <- land1. by rewrite negb_involutive. Qed.

Lemma walk_frame_dir s m' f :
  (∀ i, 0 ≤ i < 1024 → pde_i m' (cr3 s) i = pde_i (phys s) (cr3 s) i) →
  (walk_frame (set_phys m' s) f ↔ walk_frame s f) ∧ (table_frame (set_phys m' s) f ↔ table_frame s f).
Proof.
  intros Hd. unfold walk_frame, table_frame, present. simpl. split; [f_equiv|];
    f_equiv; intros i; split; intros (Hi & H1 & H2); rewrite ?Hd in * by lia; eauto.
Qed.

Section install.
Context (s : kstate) (va f : Z).
Hypothesis (Hm : mem_ok s) (Hff : fresh_frame s f) (Hva : in_space va).
Hypothesis (Hp : present (phys s) (cr3 s) (va / 2 ^ 22)).
Hypothesis Hused : ∀ i, 0 ≤ i ≤ nbits (vaddr_map (kernel_vaddr s)) →
  vaddr_start (kernel_vaddr s) + i * 4096 = 4096 * (va / 4096) → used (vaddr_map (kernel_vaddr s)) i = true.
Let s' := set_phys (<[pte_addr (phys s) (cr3 s) va := f + 7]> (phys s)) s.

Lemma install_maps va' pa : maps s' va' pa ↔
  if decide (va' / 4096 = va / 4096) then in_space va' ∧ pa = f + va' mod 4096 else maps s va' pa.
Proof.
  destruct Hff as [Hr Ha _ _ _].
  assert (0 ≤ f + 7 < 2 ^ 32) as Hv by lia.
  unfold maps, s'. simpl. split.
  - intros [Hin H]. rewrite (set_pte_translate _ _ _ _ (mo_vm _ Hm) Hva Hp Hv) in H by done.
    case_decide; [|done]. rewrite testbit_flags, pg_add7 in H by done. by simplify_eq.
  - case_decide as E.
    + intros [Hin ->]. split; [done|]. rewrite (set_pte_translate _ _ _ _ (mo_vm _ Hm) Hva Hp Hv) by done.
      rewrite decide_True by done. by rewrite testbit_flags, pg_add7.
    + intros [Hin H]. split; [done|]. rewrite (set_pte_translate _ _ _ _ (mo_vm _ Hm) Hva Hp Hv) by done.
      by rewrite decide_False.
Qed.

Lemma install_pg o : 0 ≤ o < 4096 → pg (f + o) = f.
Proof. intros. destruct Hff as [_ Ha _ _ _]. unfold pg. Z.div_mod_to_equations. lia. Qed.

Lemma install_mem_ok : mem_ok s'.
Proof.
  destruct (Hm) as [H1 H2 H3 H4 H5 H6 H7 H8 H9]. pose proof install_maps as Hmap.
  assert (0 ≤ f + 7 < 2 ^ 32) as Hv by (destruct Hff; lia).
  assert (∀ i, 0 ≤ i < 1024 → pde_i (phys s') (cr3 s) i = pde_i (phys s) (cr3 s) i) as Hd
    by (intros; by apply set_pte_dir).
  assert (∀ g, (walk_frame s' g ↔ walk_frame s g) ∧ (table_frame s' g ↔ table_frame s g)) as Hwf
    by (intros; by apply walk_frame_dir).
  assert (∀ va', 0 ≤ va' mod 4096 < 4096) as Hoff by (intros; apply Z.mod_pos_bound; lia).
  split; try done.
  - by destruct H1.
  - by apply set_pte_vm.
  - intros i Hi. unfold present. simpl. rewrite Hd by lia. by apply H4.
  - intros g. destruct (Hwf g) as [-> _]. apply H5.
  - intros va' pa Hmp. apply Hmap in Hmp. case_decide; [|by eapply H6].
    destruct Hmp as [_ ->]. rewrite install_pg by done. apply Hff.
  - intros va1 va2 pa1 pa2 Hm1%Hmap Hm2%Hmap.
    destruct (decide (va1 / 4096 = va / 4096)), (decide (va2 / 4096 = va / 4096)); [lia|..].
    + destruct Hm1 as [_ ->]. rewrite install_pg by done. intros E. by destruct (ff_unmapped _ _ Hff _ _ Hm2).
    + destruct Hm2 as [_ ->]. rewrite install_pg by done. intros E. by destruct (ff_unmapped _ _ Hff _ _ Hm1).
    + eauto.
  - intros va' pa Hmp. apply Hmap in Hmp. destruct (Hwf (pg pa)) as [_ ->]. case_decide; [|by eapply H8].
    destruct Hmp as [_ ->]. rewrite install_pg by done. intros Ht. apply (ff_walk _ _ Hff). by right.
  - intros i Hi Hu pa Hmp. simpl in *. apply Hmap in Hmp. case_decide as E; [|by eapply H9].
    rewrite Hused in Hu; [done|done|]. destruct H3. Z.div_mod_to_equations. lia.
Qed.
End install.

(** The end of both branches of [page_table_add]. *)
Lemma install_tail s va f :
  mem_ok s → f mod 4096 = 0 → in_space va → present (phys s) (cr3 s) (va / 2 ^ 22) →
  (∀ pa, ¬ maps s va pa) →
  (t ← vload (pte_ptr va);
   kassert (Z.land t 1 =? 0) ;;
   vstore (pte_ptr va) (Z.lor (Z.lor (Z.lor f PG_US_U) PG_RW_W) PG_P_1)) s
  = Ok ((), set_phys (<[pte_addr (phys s) (cr3 s) va := f + 7]> (phys s)) s).
Proof.
  intros Hm Hf Hva Hp Hun. destruct (in_space_idx _ Hva) as [Hr Hi].
  pose proof (vm_dir _ _ (mo_vm _ Hm)) as Hd. unfold mbind, K_bind. unfold present in Hp.
  assert (translate (phys s) (cr3 s) (pte_ptr va) = Some (pte_addr (phys s) (cr3 s) va)) as Ht.
  { rewrite translate_pte_ptr by done. unfold pde_of. fold (pde_i (phys s) (cr3 s) (va / 2 ^ 22)). by rewrite Hp. }
  rewrite (vload_eq _ _ _ Ht). rewrite land1'.
  destruct (Z.testbit (word (phys s) (pte_addr (phys s) (cr3 s) va)) 0) eqn:Ep.
  { exfalso. eapply Hun. split; [done|]. rewrite translate_unfold by done.
    unfold pde_of. fold (pde_i (phys s) (cr3 s) (va / 2 ^ 22)). by rewrite Hp, Ep. }
  simpl. rewrite (vstore_eq _ _ _ _ Ht). rewrite lor_flags by done. done.
Qed.

(** The test of the directory entry. *)
Lemma load_pde s va : mem_ok s → in_space va →
  vload (pde_ptr va) s = Ok (pde_i (phys s) (cr3 s) (va / 2 ^ 22), s).
Proof.
  intros Hm Hva. destruct (in_space_idx _ Hva) as [Hr Hi]. apply vload_eq, translate_pde_ptr; [|done].
  apply (vm_dir _ _ (mo_vm _ Hm)).
Qed.

Section add_table.
Context (s : kstate) (i g : Z) (m2 : gmap Z Z).
Hypothesis (Hm : mem_ok s) (Hg : fresh_frame s g) (Hi : 1 ≤ i < 1023).
Hypothesis (Hnp : ¬ present (phys s) (cr3 s) i).
Hypothesis Hc : cleared (<[cr3 s + i * 4 := g + 7]> (phys s)) m2 g 1024.
Let s' := set_phys m2 s.

Lemma add_table_facts : vm_ok m2 (cr3 s)
  ∧ (∀ j, 0 ≤ j < 1024 → pde_i m2 (cr3 s) j = if decide (j = i) then g + 7 else pde_i (phys s) (cr3 s) j)
  ∧ ∀ va, in_space va → translate m2 (cr3 s) va = translate (phys s) (cr3 s) va.
Proof.
  destruct Hg as [Hr Ha _ Hw _].
  destruct (new_table_cleared (phys s) (cr3 s) i g (mo_vm _ Hm) Hi Hnp) with (m2 := m2) as (H1 & H2 & H3);
    try done; try lia.
  - intros ->. apply Hw. by left.
  - intros j Hj Hp E. apply Hw. right. eauto.
  - split_and!; [done| |done]. intros j Hj. rewrite H2 by done. by apply new_table_dir.
Qed.

Lemma add_table_maps va pa : maps s' va pa ↔ maps s va pa.
Proof.
  destruct add_table_facts as (_ & _ & Ht). unfold maps, s'. simpl.
  split; intros [H1 H2]; (split; [done|]); rewrite ?Ht in * by done; done.
Qed.

Lemma add_table_frames f : table_frame s' f ↔ table_frame s f ∨ f = g.
Proof.
  destruct add_table_facts as (_ & Hd & _). destruct Hg as [Hr Ha _ _ _].
  unfold table_frame, present, s'. simpl. split.
  - intros (j & Hj & H1 & H2). rewrite Hd in H1, H2 by lia. case_decide; [|eauto].
    right. by rewrite pg_add7 in H2.
  - intros [(j & Hj & H1 & H2)| ->].
    + exists j. rewrite !Hd by lia. rewrite !decide_False by (intros ->; by apply Hnp). done.
    + exists i. pose proof (Hd i ltac:(lia)) as E. rewrite decide_True in E by done. rewrite E.
      split_and!; [lia|lia|by apply testbit_flags|by apply pg_add7].
Qed.

Lemma add_table_present j : 0 ≤ j < 1023 → present (phys s) (cr3 s) j ∨ j = i → present (phys s') (cr3 s') j.
Proof.
  destruct add_table_facts as (_ & Hd & _). destruct Hg as [Hr Ha _ _ _].
  unfold present, s'. simpl. intros Hj. rewrite Hd by lia. case_decide; [|tauto].
  intros _. by apply testbit_flags.
Qed.

Lemma add_table_mem_ok : mem_ok s'.
Proof.
  destruct (Hm) as [H1 H2 H3 H4 H5 H6 H7 H8 H9]. destruct add_table_facts as (Hvm & Hd & Ht).
  pose proof add_table_maps as Hmap. pose proof add_table_frames as Hfr. split; try done.
  - by destruct H1.
  - intros j Hj. apply add_table_present; [lia|]. left. by apply H4.
  - intros f [->|Hf]; [by apply H5; left|]. apply Hfr in Hf as [Hf| ->]; [by apply H5; right|apply Hg].
  - intros va pa Hmp%Hmap. by eapply H6.
  - intros va1 va2 pa1 pa2 Hm1%Hmap Hm2%Hmap. eauto.
  - intros va pa Hmp%Hmap. rewrite Hfr. intros [Hf|E]; [by eapply H8|by eapply (ff_unmapped _ _ Hg)].
  - intros k Hk Hu pa Hmp%Hmap. by eapply H9.
Qed.

Lemma add_table_fresh f : fresh_frame s f → f ≠ g → fresh_frame s' f.
Proof.
  intros [F1 F2 F3 F4 F5] Hne. split; try done.
  - intros [->|Hf]; [apply F4; by left|]. apply add_table_frames in Hf as [Hf| ->]; [|done]. apply F4. by right.
  - intros va pa Hmp%add_table_maps. by eapply F5.
Qed.
End add_table.

(** Every mapped word keeps its value. *)
Definition data_kept (s s' : kstate) : Prop :=
  ∀ va pa, maps s va pa → word (phys s') pa = word (phys s) pa.

(** No table is mapped as data, so changing an entry changes no data. *)
Lemma pte_write_data s va v : mem_ok s → in_space va → present (phys s) (cr3 s) (va / 2 ^ 22) →
  data_kept s (set_phys (<[pte_addr (phys s) (cr3 s) va := v]> (phys s)) s).
Proof.
  intros Hm Hva Hp va' pa Hmp. simpl. unfold word. rewrite lookup_insert_ne; [done|]. intros E.
  eapply (mo_table _ Hm); [exact Hmp|]. rewrite <- E. destruct (in_space_idx _ Hva) as [Hr Hi].
  exists (va / 2 ^ 22). split_and!; [lia|lia|done|].
  unfold pte_addr, tbl_of, pde_of, pde_i, pg. pose proof (Z.mod_pos_bound (va / 4096) 1024 ltac:(lia)).
  Z.div_mod_to_equations. lia.
Qed.

(** What [page_table_add] promises: [va] is mapped to [f], every other
    page keeps its mapping, and only the kernel pool and memory change. *)
Record mapped_to (s s' : kstate) (va f : Z) : Prop := {
  mt_ok : mem_ok s';
  mt_maps va' pa : maps s' va' pa ↔
    if decide (va' / 4096 = va / 4096) then in_space va' ∧ pa = f + va' mod 4096 else maps s va' pa;
  mt_free g : is_free s' g → is_free s g;
  mt_walk g : walk_frame s' g → walk_frame s g ∨ is_free s g;
  mt_present j : 0 ≤ j < 1023 → present (phys s) (cr3 s) j → present (phys s') (cr3 s') j;
  mt_frame : ∃ m' p', s' = set_phys m' (set_kernel_pool p' s);
  mt_taken : ∃ g0, ∀ g, is_free s g → is_free s' g ∨ g = g0;
  (* the words written: the directory's entry, the table's entry, a new table *)
  mt_words a : word (phys s') a ≠ word (phys s) a →
    (¬ present (phys s) (cr3 s) (va / 2 ^ 22) ∧ a = cr3 s + va / 2 ^ 22 * 4) ∨ is_free s (pg a)
    ∨ present (phys s) (cr3 s) (va / 2 ^ 22) ∧ a = pte_addr (phys s) (cr3 s) va;
  mt_new : ¬ present (phys s) (cr3 s) (va / 2 ^ 22) → is_free s (pg (pde_i (phys s') (cr3 s') (va / 2 ^ 22)));
}.

Section page_table_add_spec.
Context (s : kstate) (va f : Z).
Hypothesis (Hm : mem_ok s) (Hff : fresh_frame s f) (Hva : in_space va).
Hypothesis Hused : ∀ i, 0 ≤ i ≤ nbits (vaddr_map (kernel_vaddr s)) →
  vaddr_start (kernel_vaddr s) + i * 4096 = 4096 * (va / 4096) → used (vaddr_map (kernel_vaddr s)) i = true.

Lemma mapped_present : present (phys s) (cr3 s) (va / 2 ^ 22) →
  mapped_to s (set_phys (<[pte_addr (phys s) (cr3 s) va := f + 7]> (phys s)) s) va f.
Proof.
  intros Hp. destruct (in_space_idx _ Hva) as [Hr Hi].
  assert (0 ≤ f + 7 < 2 ^ 32) as Hv by (destruct Hff; lia).
  assert (∀ i, 0 ≤ i < 1024 → pde_i (<[pte_addr (phys s) (cr3 s) va := f + 7]> (phys s)) (cr3 s) i
            = pde_i (phys s) (cr3 s) i) as Hd by (intros; by apply set_pte_dir; [apply Hm|..]).
  split.
  - by apply install_mem_ok.
  - by apply install_maps.
  - done.
  - intros g H. left. by apply (walk_frame_dir _ _ g Hd) in H.
  - intros j Hj. unfold present. simpl. rewrite Hd by lia. done.
  - eexists _, (kernel_pool s). by destruct s.
  - exists 0. by left.
  - intros a. cbn. unfold word. destruct (decide (a = pte_addr (phys s) (cr3 s) va)) as [->|Hne]; [tauto|]. by rewrite lookup_insert_ne.
  - done.
Qed.
End page_table_add_spec.

Section table_run.
Context (s : kstate) (va : Z) (Hm : mem_ok s) (Hva : in_space va).

Lemma pte_page_base : Z.land (pte_ptr va) 0xfffff000 = 0xffc00000 + va / 2 ^ 22 * 4096.
Proof.
  destruct (in_space_idx _ Hva) as [Hr Hi]. destruct (pte_ptr_eq va Hr) as (-> & ? & ?).
  rewrite land_pg by lia. unfold pg. Z.div_mod_to_equations. lia.
Qed.

(** The rest of the branch once the table frame [g] is allocated. *)
Lemma add_table_run g : ¬ present (phys s) (cr3 s) (va / 2 ^ 22) → fresh_frame s g →
  wp (vstore (pde_ptr va) (g + 7) ;; vclear 1024 (Z.land (pte_ptr va) 0xfffff000)) s
     (λ _ s', ∃ m2, s' = set_phys m2 s ∧
        cleared (<[cr3 s + va / 2 ^ 22 * 4 := g + 7]> (phys s)) m2 g 1024).
Proof.
  intros Hnp Hg. destruct (in_space_idx _ Hva) as [Hr Hi]. destruct (Hg) as [Gr Ga _ Gw _].
  pose proof (vm_dir _ _ (mo_vm _ Hm)) as Hd.
  assert (g ≠ cr3 s) as Hgd by (intros ->; apply Gw; by left).
  assert (∀ j, 0 ≤ j < 1023 → present (phys s) (cr3 s) j → pg (pde_i (phys s) (cr3 s) j) ≠ g) as Hgt.
  { intros j Hj Hp E. apply Gw. right. eauto. }
  apply wp_bind. eapply wp_eq; [apply vstore_eq; by apply translate_pde_ptr|].
  rewrite pte_page_base. eapply wp_mono.
  - apply (vclear_ok 1024 _ _ g).
    + apply do_words with (cr3 s), vm_dir. apply new_table_vm; try done; try lia. apply Hm.
    + apply new_table_stable; try done; try lia. apply Hm.
  - intros u s' (m2 & -> & Hc). exists m2. split; [done|]. exact Hc.
Qed.

End table_run.

Section page_table_add_run.
Context (s : kstate) (va f : Z).
Hypothesis (Hm : mem_ok s) (Hff : fresh_frame s f) (Hva : in_space va) (Hun : ∀ pa, ¬ maps s va pa).
Hypothesis Hused : ∀ i, 0 ≤ i ≤ nbits (vaddr_map (kernel_vaddr s)) →
  vaddr_start (kernel_vaddr s) + i * 4096 = 4096 * (va / 4096) → used (vaddr_map (kernel_vaddr s)) i = true.

Lemma page_table_add_present_ok : present (phys s) (cr3 s) (va / 2 ^ 22) →
  wp (page_table_add va f) s (λ _ s', mapped_to s s' va f ∧ data_kept s s' ∧ ∃ m', s' = set_phys m' s).
Proof.
  intros Hp. unfold page_table_add. apply wp_bind. eapply wp_eq; [by apply load_pde|].
  rewrite land1. pose proof Hp as Hp'. unfold present in Hp'. rewrite Hp'.
  eapply wp_eq; [apply install_tail; try done; apply Hff|].
  split_and!; [by apply mapped_present|by apply pte_write_data|eauto].
Qed.

Lemma page_table_add_absent_ok : ¬ present (phys s) (cr3 s) (va / 2 ^ 22) →
  (∃ g, free_frame (kernel_pool s) g) →
  wp (page_table_add va f) s (λ _ s', mapped_to s s' va f).
Proof.
  intros Hnp [g0 Hg0]. destruct (in_space_idx _ Hva) as [Hr Hi].
  unfold page_table_add. apply wp_bind. eapply wp_eq; [by apply load_pde|].
  rewrite land1. unfold present in Hnp. destruct (Z.testbit _ 0) eqn:Ep; [done|].
  apply wp_bind. eapply wp_mono; [by apply (palloc_mem_ok PF_KERNEL)|].
  intros g s1 [(_ & _ & Hno)|(_ & Hm1 & Hg & Hgf & Hsub' & Htk & p' & -> & _)]; [by edestruct Hno|].
  assert (∀ f, is_free (set_pool PF_KERNEL p' s) f → is_free s f) as Hsub by (intros h [t Ht]; exists t; by apply Hsub').
  rewrite (lor_flags g) by apply Hg. cbn [pool_of set_pool] in *. set (s1 := set_kernel_pool p' s) in *.
  assert (fresh_frame s1 f) as Hff1 by (destruct Hff as [F1 F2 F3 F4 F5]; split; eauto).
  assert (f ≠ g) as Hfg by (intros ->; apply (ff_taken _ _ Hff); by exists PF_KERNEL).
  assert (¬ present (phys s1) (cr3 s1) (va / 2 ^ 22)) as Hnp1 by (unfold present; change (phys s1) with (phys s); change (cr3 s1) with (cr3 s); by rewrite Ep).
  apply wp_bind. pose proof (wp_bind_inv _ _ _ _ (add_table_run s1 va Hm1 Hva g Hnp1 Hg)) as Hrun.
  eapply wp_mono; [exact Hrun|].
  intros u s2 H2. apply wp_bind. eapply wp_mono; [exact H2|]. clear s2 H2.
  intros u' s2 (m2 & -> & Hc). set (s2 := set_phys m2 s1).
  assert (mem_ok s2) as Hm2 by by apply (add_table_mem_ok s1 (va / 2 ^ 22) g m2 Hm1).
  assert (∀ va pa, maps s2 va pa ↔ maps s va pa) as Hmap.
  { intros. by apply (add_table_maps s1 (va / 2 ^ 22) g m2 Hm1). }
  assert (fresh_frame s2 f) as Hff2 by by apply (add_table_fresh s1 (va / 2 ^ 22) g m2 Hm1).
  assert (present (phys s2) (cr3 s2) (va / 2 ^ 22)) as Hp2.
  { apply (add_table_present s1 (va / 2 ^ 22) g m2); try done; [lia|by right]. }
  assert (∀ pa, ¬ maps s2 va pa) as Hun2 by (intros pa; by rewrite Hmap).
  eapply wp_eq; [apply install_tail; try done; apply Hff|].
  destruct (mapped_present s2 va f Hm2 Hff2 Hva Hused Hp2) as [M1 M2 M3 M4 M5 (m' & p2 & M6) _ M7 _].
  assert (pde_i m2 (cr3 s) (va / 2 ^ 22) = g + 7) as Hnew.
  { destruct (add_table_facts s1 (va / 2 ^ 22) g m2 Hm1) as (_ & Hd & _); [done..|]. specialize (Hd (va / 2 ^ 22) ltac:(lia)). by rewrite decide_True in Hd. }
  split; [done| |by eauto| | | | | |].
  - intros va' pa. rewrite M2. case_decide; [done|]. apply Hmap.
  - intros h [Hh|Hh]%M4; [|right; by apply Hsub]. destruct Hh as [->|Hh]; [left; by left|].
    apply (add_table_frames s1 (va / 2 ^ 22) g m2) in Hh as [Hh| ->]; try done; [left; by right|right; by exists PF_KERNEL].
  - intros j Hj Hpj. apply M5; [done|]. apply (add_table_present s1 (va / 2 ^ 22) g m2); try done. by left.
  - eexists _, p'. done.
  - exists g. intros h [Hh| ->]%Htk; [left|by right]. exact Hh.
  - intros a Ha. destruct (decide (word m2 a = word (phys s) a)) as [E|Hne].
    + rewrite <- E in Ha. destruct (M7 a Ha) as [[]|[?|[_ ->]]]; [done|right; left; by apply Hsub|]. right. left. exists PF_KERNEL.
      unfold pte_addr, tbl_of, pde_of. change (word (phys s2) (cr3 s2 + va / 2 ^ 22 * 4)) with (pde_i m2 (cr3 s) (va / 2 ^ 22)). rewrite Hnew, pg_add7 by apply Hg.
      pose proof (Z.mod_pos_bound (va / 4096) 1024 ltac:(lia)). replace (pg (g + (va / 4096) mod 1024 * 4)) with g; [done|].
      destruct Hg as [_ Ga _ _ _]. unfold pg. Z.div_mod_to_equations. lia.
    + rewrite Hc in Hne. case_decide as Hin.
      * right. left. exists PF_KERNEL. replace (pg a) with g; [done|]. destruct Hg as [_ Ga _ _ _]. unfold pg. Z.div_mod_to_equations. lia.
      * left. destruct (decide (a = cr3 s + va / 2 ^ 22 * 4)) as [->|Hn2]; [split; [unfold present; by rewrite Ep|done]|]. exfalso. apply Hne. unfold word. by rewrite lookup_insert_ne.
  - intros _. exists PF_KERNEL. cbn [phys set_phys cr3]. rewrite set_pte_dir; [|by apply Hm2|done|done|destruct Hff; lia|lia].
    change (pde_i (phys s2) (cr3 s2) (va / 2 ^ 22)) with (pde_i m2 (cr3 s) (va / 2 ^ 22)). rewrite Hnew, pg_add7 by apply Hg. exact Hgf.
Qed.
End page_table_add_run.

(** ** Kernel pages *)
Record mapped_run (s s' : kstate) (va n : Z) (ok : bool) : Prop := {
  mr_ok : mem_ok s';
  mr_out va' pa : ¬ (va ≤ va' < va + n * 4096) → maps s' va' pa ↔ maps s va' pa;
  mr_in k : ok = true → 0 ≤ k < n → ∃ f, free_frame (kernel_pool s) f ∧ f mod 4096 = 0 ∧ 0 < f
    ∧ ∀ o, 0 ≤ o < 4096 → maps s' (va + k * 4096 + o) (f + o);
  mr_free t g : free_frame (pool_of t s') g → free_frame (pool_of t s) g;
  mr_taken g : is_free s g → is_free s' g ∨ ∃ k, 0 ≤ k < n ∧ maps s' (va + k * 4096) g;
  mr_frame : ∃ m' p', s' = set_phys m' (set_kernel_pool p' s) ∧ same_pool (kernel_pool s) p';
  mr_data : data_kept s s';
}.

Lemma mapped_run_nil s va n : mem_ok s → mapped_run s s va n false.
Proof.
  intros Hm. split; [done|done|done|done|by left| |done].
  exists (phys s), (kernel_pool s). split; [by destruct s|done].
Qed.

Definition pages_used (v : VirtualAddr) (a b : Z) : Prop :=
  ∀ i, 0 ≤ i ≤ nbits (vaddr_map v) → a ≤ vaddr_start v + i * 4096 < b → used (vaddr_map v) i = true.

Lemma map_pages_ok n s va :
  mem_ok s → va mod 4096 = 0 → 0xc0000000 ≤ va → va + Z.of_nat n * 4096 ≤ 0xffc00000 →
  (∀ k pa, 0 ≤ k < Z.of_nat n → ¬ maps s (va + k * 4096) pa) →
  pages_used (kernel_vaddr s) va (va + Z.of_nat n * 4096) →
  wp (map_pages n PF_KERNEL va) s (λ ok s', mapped_run s s' va (Z.of_nat n) ok).
Proof.
  revert s va. induction n as [|n IH]; intros s va Hm Ha Hlo Hhi Hun Hu.
  - simpl. kstep. destruct (mapped_run_nil s va 0 Hm). split; try done. lia.
  - cbn [map_pages]. apply wp_bind. eapply wp_mono; [by apply (palloc_mem_ok PF_KERNEL)|].
    intros f s1 [(-> & -> & _)|(Hf0 & Hm1 & Hff & Hfree & Hsub & Htk & p1 & -> & Hsame)].
    { rewrite Z.eqb_refl. kstep. by apply mapped_run_nil. }
    destruct (Z.eqb_spec f NULL); [done|]. cbn [set_pool pool_of] in *. set (s1 := set_kernel_pool p1 s) in *.
    assert (in_space va) as Hva by (unfold in_space; lia).
    assert (∀ va' pa, maps s1 va' pa ↔ maps s va' pa) as Hmap1 by done.
    apply wp_bind. eapply wp_mono.
    { apply page_table_add_present_ok; [done|done|done| | |].
      - intros pa. rewrite Hmap1. specialize (Hun 0 pa ltac:(lia)).
        by replace (va + 0 * 4096) with va in Hun by lia.
      - intros i Hi E. apply Hu; [done|]. change (kernel_vaddr s1) with (kernel_vaddr s) in E.
        Z.div_mod_to_equations; lia.
      - apply (mo_kpde _ Hm1). Z.div_mod_to_equations; lia. }
    intros u s2 [[M1 M2 _ _ _ _] [Hdat (m2 & E2)]]. unfold PG_SIZE. rewrite u32_id by lia.
    assert (kernel_vaddr s2 = kernel_vaddr s ∧ kernel_pool s2 = p1) as [Ekv Ekp] by by rewrite E2.
    assert (∀ t, pool_of t s2 = pool_of t s1) as Epo by by rewrite E2; intros [].
    eapply wp_mono.
    { apply (IH s2 (va + 4096)); [done|Z.div_mod_to_equations; lia|lia|lia| |].
      - intros k pa Hk. rewrite M2, decide_False by (Z.div_mod_to_equations; lia). rewrite Hmap1.
        replace (va + 4096 + k * 4096) with (va + (k + 1) * 4096) by lia. apply Hun. lia.
      - rewrite Ekv. intros i Hi Hr. apply Hu; [done|lia]. }
    intros ok s3 [R1 R2 R3 R4 R5 (m3 & p3 & R6 & R7) R8].
    assert (∀ o, 0 ≤ o < 4096 → maps s3 (va + 0 * 4096 + o) (f + o)) as Hfirst.
    { intros o Ho. replace (va + 0 * 4096 + o) with (va + o) by lia.
      apply R2; [lia|]. apply M2. rewrite decide_True by (Z.div_mod_to_equations; lia).
      split; [unfold in_space; lia|]. Z.div_mod_to_equations; lia. }
    split; [done| | | | | |].
    + intros va' pa Hout. rewrite R2 by lia. rewrite M2, decide_False by (Z.div_mod_to_equations; lia). done.
    + intros k Hok Hk. destruct (decide (k = 0)) as [->|Hk0].
      * exists f. destruct Hff as [Fr Fa _ _ _]. split_and!; [done|done|lia|done].
      * destruct (R3 (k - 1) Hok ltac:(lia)) as (g & G1 & G2 & G3 & G4).
        exists g. rewrite Ekp in G1. split_and!; [by apply (Hsub PF_KERNEL)|done|done|].
        intros o Ho. replace (va + k * 4096 + o) with (va + 4096 + (k - 1) * 4096 + o) by lia. by apply G4.
    + intros t g Hg%R4. rewrite Epo in Hg. by apply Hsub.
    + intros g Hg. destruct (Htk g Hg) as [[t Hg1]| ->].
      * destruct (R5 g) as [?|(k & Hk & Hmp)]; [exists t; by rewrite Epo|by left|right].
        exists (k + 1). split; [lia|]. by replace (va + (k + 1) * 4096) with (va + 4096 + k * 4096) by lia.
      * right. exists 0. split; [lia|]. specialize (Hfirst 0 ltac:(lia)).
        by rewrite !Z.add_0_r in Hfirst; rewrite Z.add_0_r.
    + rewrite R6, E2. eexists _, _. split; [reflexivity|]. by rewrite Ekp in R7; eapply same_pool_trans.
    + intros va' pa Hmp. transitivity (word (phys s2) pa); [|by apply (Hdat va' pa)]. apply (R8 va' pa). apply M2. rewrite decide_False; [done|].
      intros E. apply (Hun 0 (pg pa) ltac:(lia)).
      replace (va + 0 * 4096) with (pg va') by (unfold pg; Z.div_mod_to_equations; lia).
      by apply maps_pg; [apply Hm|].
Qed.

Lemma vaddr_get_kernel_ok s n : kva_ok (kernel_vaddr s) → 1 ≤ n < 3840 →
  wp (vaddr_get PF_KERNEL n) s (λ r s', (r = NULL ∧ s' = s) ∨
    ∃ i m', r = vaddr_start (kernel_vaddr s) + i * 4096 ∧ 0 ≤ i ∧ i + n ≤ nbits (vaddr_map (kernel_vaddr s)) + 1
      ∧ free_run (vaddr_map (kernel_vaddr s)) i n
      ∧ s' = set_kernel_vaddr (mkVirtualAddr m' (vaddr_start (kernel_vaddr s))) s
      ∧ set_bits (vaddr_map (kernel_vaddr s)) m' i (i + n) true).
Proof.
  intros [V1 V2 V3 V4 V5] Hn. cbn [vaddr_get]. set (v := kernel_vaddr s) in *. do 3 kstep. fold v. apply wp_lift.
  eapply returns_mono; [apply (bitmap_scan_ok (vaddr_map v) V1 n); lia|]. simpl.
  intros i [[-> _]|(Hi & Hb & Hf & _)]; [simpl; by left|].
  destruct (Z.eqb_spec i (-1)); [lia|].
  assert (i + n ≤ nbits (vaddr_map v) + 1) by (destruct (n =? 1); lia).
  kstep. apply wp_lift.
  eapply returns_mono; [apply (set_run_ok (Z.to_nat n) (vaddr_map v) i 0 true V1); unfold nbits in *; lia|].
  intros m' Hm'. do 3 kstep. right. exists i, m'. fold v.
  replace (i + 0 + Z.of_nat (Z.to_nat n)) with (i + n) in Hm' by lia.
  replace (i + 0) with i in Hm' by lia.
  split_and!; try done; try lia. unfold PG_SIZE. apply u32_id. lia.
Qed.

Lemma mem_ok_take_pages s i n m' : mem_ok s → 0 ≤ i → 0 ≤ n →
  set_bits (vaddr_map (kernel_vaddr s)) m' i (i + n) true →
  mem_ok (set_kernel_vaddr (mkVirtualAddr m' (vaddr_start (kernel_vaddr s))) s).
Proof.
  intros [H1 H2 [V1 V2 V3 V4 V5] H4 H5 H6 H7 H8 H9] Hi Hn (E1 & E2 & Hw & Hu).
  assert (nbits m' = nbits (vaddr_map (kernel_vaddr s))) as En by (unfold nbits; by rewrite E1).
  split; try done.
  - by destruct H1.
  - split; simpl; rewrite ?En, ?E1, ?E2; done.
  - simpl. rewrite En. intros j Hj. rewrite Hu by lia. case_decide; [done|]. by apply H9.
Qed.

(** The same virtual range, whatever the pages' state. *)
Definition same_kva (v v' : VirtualAddr) : Prop :=
  vaddr_start v' = vaddr_start v ∧ nbits (vaddr_map v') = nbits (vaddr_map v).

Lemma set_bits_kva v m' a b x : set_bits (vaddr_map v) m' a b x → same_kva v (mkVirtualAddr m' (vaddr_start v)).
Proof. intros (E & _). split; [done|]. unfold nbits. simpl. by rewrite E. Qed.

(** What [malloc_page(PF_KERNEL, n)] promises. *)
Record kpages (s s' : kstate) (r n : Z) : Prop := {
  kp_ok : mem_ok s';
  kp_keep va pa : maps s va pa → maps s' va pa;
  kp_fail : r = NULL ∨ r ≠ NULL ∧ r mod 4096 = 0
    ∧ vaddr_start (kernel_vaddr s) ≤ r ∧ r + n * 4096 ≤ 0xffc00000
    ∧ (∀ k, 0 ≤ k < n → ∀ pa, ¬ maps s (r + k * 4096) pa)
    ∧ (∀ va pa, ¬ (r ≤ va < r + n * 4096) → maps s' va pa ↔ maps s va pa)
    ∧ (∀ k, 0 ≤ k < n → ∃ f, free_frame (kernel_pool s) f ∧ f mod 4096 = 0
         ∧ ∀ o, 0 ≤ o < 4096 → maps s' (r + k * 4096 + o) (f + o))
    ∧ (∀ g, is_free s g → is_free s' g ∨ ∃ k, 0 ≤ k < n ∧ maps s' (r + k * 4096) g)
    ∧ ∃ i, r = vaddr_start (kernel_vaddr s) + i * 4096 ∧ 0 ≤ i ∧ i + n ≤ nbits (vaddr_map (kernel_vaddr s)) + 1
        ∧ vaddr_start (kernel_vaddr s') = vaddr_start (kernel_vaddr s)
        ∧ free_run (vaddr_map (kernel_vaddr s)) i n
        ∧ set_bits (vaddr_map (kernel_vaddr s)) (vaddr_map (kernel_vaddr s')) i (i + n) true;
  kp_free t g : free_frame (pool_of t s') g → free_frame (pool_of t s) g;
  kp_frame : ∃ v' m' p', s' = set_phys m' (set_kernel_pool p' (set_kernel_vaddr v' s))
    ∧ same_pool (kernel_pool s) p' ∧ same_kva (kernel_vaddr s) v';
  kp_data : data_kept s s';
}.

Lemma malloc_page_kernel_ok s n : mem_ok s → 0 < n < 3840 →
  wp (malloc_page PF_KERNEL n) s (λ r s', kpages s s' r n).
Proof.
  intros Hm Hn. unfold malloc_page. apply wp_bind, wp_kassert; [zbool|].
  apply wp_bind. eapply wp_mono; [apply vaddr_get_kernel_ok; [apply Hm|lia]|].
  intros r s1 [[-> ->]|(i & m' & -> & Hi & Hb & Hf & -> & Hs)].
  { simpl. kstep. split; [done|done|by left|done| |done].
    exists (kernel_vaddr s), (phys s), (kernel_pool s). split_and!; [by destruct s|done|done]. }
  destruct (kv_range _ (mo_kva _ Hm)) as [K1 K2]. pose proof (kv_aligned _ (mo_kva _ Hm)) as K3.
  set (v := kernel_vaddr s) in *. destruct (Z.eqb_spec (vaddr_start v + i * 4096) NULL); [unfold NULL in *; lia|].
  pose proof (mem_ok_take_pages s i n m' Hm Hi ltac:(lia) Hs) as Hm1.
  set (s1 := set_kernel_vaddr _ s) in *.
  assert (∀ k pa, 0 ≤ k < n → ¬ maps s (vaddr_start v + i * 4096 + k * 4096) pa) as Hun.
  { intros k pa Hk. replace (vaddr_start v + i * 4096 + k * 4096) with (vaddr_start v + (i + k) * 4096) by lia.
    apply (mo_kfree _ Hm); fold v; [lia|apply Hf; lia]. }
  apply wp_bind. eapply wp_mono.
  { apply (map_pages_ok (Z.to_nat n) s1 (vaddr_start v + i * 4096)); [done|Z.div_mod_to_equations; lia|lia|lia| |].
    - intros k pa Hk. apply Hun. lia.
    - intros j Hj Hr. change (vaddr_start (kernel_vaddr s1)) with (vaddr_start v) in Hr.
      destruct Hs as (_ & _ & _ & Hu). change (vaddr_map (kernel_vaddr s1)) with m'.
      rewrite Hu by lia. rewrite decide_True; [done|]. lia. }
  replace (Z.of_nat (Z.to_nat n)) with n by lia.
  intros ok s2 [R1 R2 R3 R4 R5 (m2 & p2 & R6 & R7) R8].
  assert (∀ va pa, maps s va pa → maps s2 va pa) as Hkeep.
  { intros va pa Hmp. destruct (decide (vaddr_start v + i * 4096 ≤ va < vaddr_start v + i * 4096 + n * 4096)) as [Hin|Hout].
    - exfalso. set (k := (va - (vaddr_start v + i * 4096)) / 4096).
      apply (Hun k (pg pa)); [unfold k; Z.div_mod_to_equations; lia|].
      assert (vaddr_start v + i * 4096 + k * 4096 = pg va) as -> by (unfold k, pg; Z.div_mod_to_equations; lia).
      apply maps_pg; [apply Hm|done].
    - by apply R2. }
  assert (∃ v' m'' p', s2 = set_phys m'' (set_kernel_pool p' (set_kernel_vaddr v' s))
            ∧ same_pool (kernel_pool s) p' ∧ same_kva (kernel_vaddr s) v') as Hframe.
  { rewrite R6. eexists _, _, _. split_and!; [reflexivity|done|by eapply set_bits_kva]. }
  assert (kernel_vaddr s2 = mkVirtualAddr m' (vaddr_start v)) as Ekv by by rewrite R6.
  assert (∀ t g, free_frame (pool_of t s2) g → free_frame (pool_of t s) g) as Hfree.
  { intros t g Hg%R4. by destruct t. }
  destruct ok; kstep; (split; [done|done| |done|done|exact R8]); [right|by left].
  fold v. split_and!; [done|Z.div_mod_to_equations; lia|lia|lia|by eauto|done| |exact R5|].
  - intros k Hk. destruct (R3 k eq_refl Hk) as (f & F1 & F2 & _ & F3). eauto.
  - exists i. rewrite Ekv. simpl. split_and!; done || lia.
Qed.

(** ** Releasing pages *)
Section unmap.
Context (s : kstate) (va v : Z).
Hypothesis (Hm : mem_ok s) (Hva : in_space va) (Hp : present (phys s) (cr3 s) (va / 2 ^ 22)).
Hypothesis (Hv : 0 ≤ v < 2 ^ 32) (Hv0 : Z.testbit v 0 = false).
Let s' := set_phys (<[pte_addr (phys s) (cr3 s) va := v]> (phys s)) s.

Lemma unmap_maps va' pa : maps s' va' pa ↔ maps s va' pa ∧ va' / 4096 ≠ va / 4096.
Proof.
  unfold maps, s'. simpl. split.
  - intros [Hin H]. rewrite (set_pte_translate _ _ _ _ (mo_vm _ Hm) Hva Hp Hv) in H by done.
    case_decide; [by rewrite Hv0 in H|done].
  - intros [[Hin H] Hne]. split; [done|]. rewrite (set_pte_translate _ _ _ _ (mo_vm _ Hm) Hva Hp Hv) by done.
    by rewrite decide_False.
Qed.

Lemma unmap_walk f : (walk_frame s' f ↔ walk_frame s f) ∧ (table_frame s' f ↔ table_frame s f).
Proof. apply walk_frame_dir. intros. by apply set_pte_dir; [apply Hm|..]. Qed.

Lemma unmap_mem_ok : mem_ok s'.
Proof.
  destruct (Hm) as [H1 H2 H3 H4 H5 H6 H7 H8 H9]. pose proof unmap_maps as Hmap. pose proof unmap_walk as Hwf.
  split; try done.
  - by destruct H1.
  - by apply set_pte_vm.
  - intros i Hi. unfold present. simpl. rewrite set_pte_dir by (done || lia). by apply H4.
  - intros g. destruct (Hwf g) as [-> _]. apply H5.
  - intros va' pa [Hmp _]%Hmap. by eapply H6.
  - intros va1 va2 pa1 pa2 [Hm1 _]%Hmap [Hm2 _]%Hmap. eauto.
  - intros va' pa [Hmp _]%Hmap. destruct (Hwf (pg pa)) as [_ ->]. by eapply H8.
  - intros i Hi Hu pa [Hmp _]%Hmap. by eapply H9.
Qed.
End unmap.

(** Giving back a frame that nothing uses. *)
Lemma give_back_mem_ok s t i p' :
  mem_ok s → 0 ≤ i < nbits (pool_map (pool_of t s)) → pool_bit (pool_of t s) p' i false →
  ¬ walk_frame s (phy_addr_start (pool_of t s) + i * 4096) →
  (∀ va pa, maps s va pa → pg pa ≠ phy_addr_start (pool_of t s) + i * 4096) →
  mem_ok (set_pool t p' s)
  ∧ ∀ f, is_free (set_pool t p' s) f ↔ is_free s f ∨ f = phy_addr_start (pool_of t s) + i * 4096.
Proof.
  intros Hm Hi Hb Hw Hmp.
  assert (∀ f, is_free (set_pool t p' s) f ↔ is_free s f ∨ f = phy_addr_start (pool_of t s) + i * 4096) as Hf.
  { intros f. unfold is_free. pose proof (pool_bit_free _ _ _ _ f Hb Hi) as Hf. simpl in Hf. split.
    - intros [t' H]. rewrite pool_of_set in H. case_decide; [|eauto]. subst. apply Hf in H as [H|H]; eauto.
    - intros [[t' H]|H].
      + exists t'. rewrite pool_of_set. case_decide; [|done]. subst. apply Hf. by left.
      + exists t. rewrite pool_of_set, decide_True by done. apply Hf. by right. }
  split; [|done]. destruct (Hm) as [H1 H2 H3 H4 H5 H6 H7 H8 H9].
  assert (walk_frame (set_pool t p' s) = walk_frame s ∧ table_frame (set_pool t p' s) = table_frame s
          ∧ maps (set_pool t p' s) = maps s ∧ phys (set_pool t p' s) = phys s ∧ cr3 (set_pool t p' s) = cr3 s
          ∧ kernel_vaddr (set_pool t p' s) = kernel_vaddr s) as (E1 & E2 & E3 & E4 & E5 & E6) by by destruct t.
  split; rewrite ?E1, ?E2, ?E3, ?E4, ?E5, ?E6; try done.
  - by eapply pools_ok_set.
  - intros f Hwf. rewrite Hf. intros [?| ->]; [by eapply H5|done].
  - intros va pa Hm'. rewrite Hf. intros [?|E]; [by eapply H6|by eapply Hmp].
Qed.

Lemma clear_p_bit t : 0 ≤ t < 2 ^ 32 →
  0 ≤ u32 (Z.land t (Z.lnot PG_P_1)) < 2 ^ 32 ∧ Z.testbit (u32 (Z.land t (Z.lnot PG_P_1))) 0 = false.
Proof.
  intros Ht. split; [apply u32_range|]. unfold u32. rewrite Z.mod_pow2_bits_low by lia.
  rewrite Z.land_spec. change (Z.testbit (Z.lnot PG_P_1) 0) with false. apply andb_false_r.
Qed.

Lemma maps_present s va pa : vm_ok (phys s) (cr3 s) → maps s va pa → present (phys s) (cr3 s) (va / 2 ^ 22).
Proof.
  intros Hvm [Hin H]. destruct (in_space_idx _ Hin) as [Hr _].
  rewrite (translate_unfold _ _ (vm_dir _ _ Hvm)) in H by done. unfold pde_of in H.
  unfold present, pde_i. by destruct (Z.testbit (word (phys s) (cr3 s + va / 2 ^ 22 * 4)) 0).
Qed.

Lemma pte_remove_ok s va pa : vm_ok (phys s) (cr3 s) → maps s va pa →
  page_table_pte_remove va s =
    Ok ((), set_phys (<[pte_addr (phys s) (cr3 s) va :=
       u32 (Z.land (word (phys s) (pte_addr (phys s) (cr3 s) va)) (Z.lnot PG_P_1))]> (phys s)) s).
Proof.
  intros Hm Hmp. pose proof (maps_present _ _ _ Hm Hmp) as Hp. unfold present in Hp.
  destruct Hmp as [Hin _]. destruct (in_space_idx _ Hin) as [Hr _].
  assert (translate (phys s) (cr3 s) (pte_ptr va) = Some (pte_addr (phys s) (cr3 s) va)) as Ht.
  { rewrite translate_pte_ptr; [|apply Hm|done]. unfold pde_of.
    fold (pde_i (phys s) (cr3 s) (va / 2 ^ 22)). by rewrite Hp. }
  unfold page_table_pte_remove, mbind, K_bind. rewrite (vload_eq _ _ _ Ht). by rewrite (vstore_eq _ _ _ _ Ht).
Qed.

(** What releasing the pages of a run does. *)
Record released (s s' : kstate) (va n : Z) : Prop := {
  rl_ok : mem_ok s';
  rl_maps va' pa : maps s' va' pa ↔ maps s va' pa ∧ ¬ (va ≤ va' < va + n * 4096);
  rl_free f : is_free s' f ↔ is_free s f ∨ ∃ k, 0 ≤ k < n ∧ maps s (va + k * 4096) f;
  rl_frame : ∃ m' kp' up', s' = set_phys m' (set_user_pool up' (set_kernel_pool kp' s))
    ∧ same_pool (kernel_pool s) kp' ∧ same_pool (user_pool s) up';
  rl_data va' pa : maps s' va' pa → word (phys s') pa = word (phys s) pa;
}.

Lemma release_one t s va f :
  mem_ok s → va mod 4096 = 0 → maps s va f → in_pool (pool_of t s) f → f ≠ cr3 s →
  wp (pfree f ;; page_table_pte_remove va) s (λ _ s', released s s' va 1).
Proof.
  intros Hm Ha Hmp (i & Hi & Ef) Hc. destruct (mo_pools _ Hm) as [Hw Ho].
  pose proof (maps_present _ _ _ (mo_vm _ Hm) Hmp) as Hp.
  assert (pg f = f) as Epf. { apply pg_id. pose proof (pw_aligned _ (Hw t)). Z.div_mod_to_equations. lia. }
  apply wp_bind. rewrite Ef. eapply wp_mono; [by apply pfree_ok|].
  intros u s1 (p' & -> & Hb).
  assert (phys (set_pool t p' s) = phys s ∧ cr3 (set_pool t p' s) = cr3 s ∧ maps (set_pool t p' s) = maps s)
    as (E1 & E2 & E3) by by destruct t.
  eapply wp_eq; [eapply pte_remove_ok; [rewrite E1, E2; apply Hm|rewrite E3; exact Hmp]|]. rewrite E1, E2.
  set (v := u32 _).
  destruct (clear_p_bit (word (phys s) (pte_addr (phys s) (cr3 s) va)) ltac:(apply Hm)) as [Hv Hv0].
  fold v in Hv, Hv0. set (m' := <[_ := v]> (phys s)).
  replace (set_phys m' (set_pool t p' s)) with (set_pool t p' (set_phys m' s)) by by destruct t.
  pose proof (unmap_maps s va v Hm (proj1 Hmp) Hp Hv Hv0) as Hmap. fold m' in Hmap.
  pose proof (unmap_mem_ok s va v Hm (proj1 Hmp) Hp Hv Hv0) as Hm0. fold m' in Hm0.
  assert (pool_of t (set_phys m' s) = pool_of t s) as Epo by by destruct t.
  destruct (give_back_mem_ok (set_phys m' s) t i p' Hm0) as [Hm2 Hf2]; rewrite ?Epo; try done.
  - rewrite <- Ef. intros Hwk%(unmap_walk s va v Hm (proj1 Hmp) Hp Hv). destruct Hwk as [E|Ht]; [done|].
    eapply (mo_table _ Hm); [exact Hmp|]. by rewrite Epf.
  - rewrite <- Ef. intros va' pa [Hm' Hne]%Hmap E. apply Hne. eapply (mo_inj _ Hm); [done|done|]. by rewrite Epf.
  - split; [done| | | |].
    + intros va' pa. assert (maps (set_pool t p' (set_phys m' s)) = maps (set_phys m' s)) as -> by by destruct t.
      rewrite Hmap. split; intros [H1 H2]; (split; [done|]); Z.div_mod_to_equations; lia.
    + intros g. rewrite Hf2, Epo, <- Ef. split.
      * intros [?| ->]; [by left|]. right. exists 0. split; [lia|]. by replace (va + 0 * 4096) with va by lia.
      * intros [?|(k & Hk & Hmk)]; [by left|right]. replace (va + k * 4096) with va in Hmk by lia.
        destruct Hmp, Hmk. congruence.
    + pose proof (pool_bit_same _ _ _ _ Hb) as Hs. destruct t; simpl in *.
      * exists m', p', (user_pool s). split; [by destruct s|done].
      * exists m', (kernel_pool s), p'. split; [by destruct s|done].
    + intros va' pa Hm'. assert (maps (set_phys m' s) va' pa) as [Hs _]%Hmap by by destruct t.
      pose proof (pte_write_data s va v Hm (proj1 Hmp) Hp va' pa Hs) as Hd. by destruct t.
Qed.

Definition inpool_test (t : PoolType) : Z → kstate → bool :=
  match t with PF_USER => in_user_pool | PF_KERNEL => in_kernel_pool end.

Lemma inpool_test_ok t s f : pools_ok s → in_pool (pool_of t s) f → inpool_test t f s = true ∧ f mod 4096 = 0.
Proof.
  intros [Hw Ho] (i & Hi & ->). pose proof (pw_aligned _ (Hw t)). split; [|Z.div_mod_to_equations; lia].
  destruct t; simpl in *; unfold in_kernel_pool, in_user_pool; zbool.
Qed.

Lemma released_trans s s1 s2 va n : va mod 4096 = 0 →
  released s s1 va 1 → released s1 s2 (va + 4096) n → 0 ≤ n → released s s2 va (n + 1).
Proof.
  intros Ha [A1 A2 A3 (m1 & k1 & u1 & A4 & A5 & A6) A7] [B1 B2 B3 (m2 & k2 & u2 & B4 & B5 & B6) B7] Hn. split; [done| | | |].
  - intros va' pa. rewrite B2, A2. split; [intros [[H1 H2] H3]|intros [H1 H2]]; split_and!; try done; lia.
  - intros f. rewrite B3, A3. split.
    + intros [[?|(k & Hk & Hm)]|(k & Hk & Hm)]; [by left|right; exists k; split; [lia|done]|].
      apply A2 in Hm as [Hm _]. right. exists (k + 1). split; [lia|].
      by replace (va + (k + 1) * 4096) with (va + 4096 + k * 4096) by lia.
    + intros [?|(k & Hk & Hm)]; [by left; left|]. destruct (decide (k = 0)) as [->|].
      * left. right. exists 0. split; [lia|done].
      * right. exists (k - 1). split; [lia|]. apply A2. split; [|lia].
        by replace (va + 4096 + (k - 1) * 4096) with (va + k * 4096) by lia.
  - rewrite B4, A4. eexists _, _, _. split; [reflexivity|].
    rewrite A4 in B5, B6. split; eapply same_pool_trans; eauto.
  - intros va' pa Hmp. rewrite (B7 va' pa Hmp). apply (A7 va' pa). by apply B2 in Hmp as [].
Qed.

Lemma free_pages_ok t n s va :
  mem_ok s → va mod 4096 = 0 → 0x400000 ≤ va → va + Z.of_nat n * 4096 ≤ 0xffc00000 →
  (∀ k, 0 ≤ k < Z.of_nat n → ∃ f, maps s (va + k * 4096) f ∧ in_pool (pool_of t s) f ∧ f ≠ cr3 s) →
  wp (free_pages n va (inpool_test t)) s (λ _ s', released s s' va (Z.of_nat n)).
Proof.
  revert s va. induction n as [|n IH]; intros s va Hm Ha Hlo Hhi Hrun.
  - simpl. kstep. split; [done|..].
    + intros va' pa. split; [intros; split; [done|lia]|tauto].
    + intros f. split; [by left|]. intros [?|(k & Hk & _)]; [done|lia].
    + exists (phys s), (kernel_pool s), (user_pool s). split; [by destruct s|done].
    + done.
  - cbn [free_pages]. destruct (Hrun 0 ltac:(lia)) as (f & Hmp & Hin & Hc).
    replace (va + 0 * 4096) with va in Hmp by lia.
    destruct (inpool_test_ok t s f (mo_pools _ Hm) Hin) as [Hip Hfa].
    apply wp_bind. eapply wp_eq; [apply addr_v2p_ok; [apply Hm|lia|apply Hmp]|].
    kstep. kstep. rewrite Hip. apply wp_bind, wp_kassert; [unfold PG_SIZE; by rewrite Hfa|].
    pose proof (wp_bind_inv _ _ _ _ (release_one t s va f Hm Ha Hmp Hin Hc)) as Hone.
    apply wp_bind. eapply wp_mono; [exact Hone|]. intros u s1 H1. apply wp_bind.
    eapply wp_mono; [exact H1|]. clear u s1 Hone H1. intros u s1 Hr1.
    unfold PG_SIZE. rewrite u32_id by lia. destruct (Hr1) as [A1 A2 A3 (m1 & k1 & u1 & A4 & A5 & A6) _].
    eapply wp_mono.
    + apply (IH s1 (va + 4096)); [done|Z.div_mod_to_equations; lia|lia|lia|].
      intros k Hk. destruct (Hrun (k + 1) ltac:(lia)) as (g & Hg1 & Hg2 & Hg3). exists g.
      replace (va + (k + 1) * 4096) with (va + 4096 + k * 4096) in Hg1 by lia. split_and!.
      * apply A2. split; [done|lia].
      * eapply in_pool_same, Hg2. rewrite A4. by destruct t.
      * by rewrite A4.
    + intros u' s2 Hr2. replace (Z.of_nat (S n)) with (Z.of_nat n + 1) by lia.
      apply (released_trans s s1 s2 va (Z.of_nat n) Ha Hr1 Hr2). lia.
Qed.

Lemma mem_ok_free_pages s i n m' : mem_ok s → 0 ≤ i →
  set_bits (vaddr_map (kernel_vaddr s)) m' i (i + n) false →
  (∀ k pa, i ≤ k < i + n → ¬ maps s (vaddr_start (kernel_vaddr s) + k * 4096) pa) →
  mem_ok (set_kernel_vaddr (mkVirtualAddr m' (vaddr_start (kernel_vaddr s))) s).
Proof.
  intros [H1 H2 [V1 V2 V3 V4 V5] H4 H5 H6 H7 H8 H9] Hi (E1 & E2 & Hw & Hu) Hun.
  assert (nbits m' = nbits (vaddr_map (kernel_vaddr s))) as En by (unfold nbits; by rewrite E1).
  split; try done.
  - by destruct H1.
  - split; simpl; rewrite ?En, ?E1, ?E2; done.
  - simpl. rewrite En. intros j Hj. rewrite Hu by lia. case_decide; [intros _ pa; by apply Hun|]. by apply H9.
Qed.

Section mfree_kernel.
Context (s : kstate) (i n : Z).
Hypothesis (Hm : mem_ok s) (Hi : 0 ≤ i) (Hn : 1 ≤ n).
Hypothesis (Hb : i + n ≤ nbits (vaddr_map (kernel_vaddr s)) + 1) (Hlow : 0x102000 ≤ phy_addr_start (kernel_pool s)).
Let r := vaddr_start (kernel_vaddr s) + i * 4096.
Hypothesis Hrun : ∀ k, 0 ≤ k < n → ∃ f, maps s (r + k * 4096) f ∧ in_pool (kernel_pool s) f ∧ f ≠ cr3 s.

Lemma mfree_page_kernel_ok :
  wp (mfree_page PF_KERNEL r n) s (λ _ s', ∃ s1 m', released s s1 r n
    ∧ s' = set_kernel_vaddr (mkVirtualAddr m' (vaddr_start (kernel_vaddr s))) s1
    ∧ set_bits (vaddr_map (kernel_vaddr s)) m' i (i + n) false ∧ mem_ok s').
Proof.
  destruct (mo_kva _ Hm) as [V1 V2 V3 V4 V5].
  assert (r mod 4096 = 0) as Hra by (unfold r; Z.div_mod_to_equations; lia).
  assert (0xc0000000 ≤ r ∧ r + n * 4096 ≤ 0xffc00000) as [Hr1 Hr2] by (unfold r; lia).
  destruct (Hrun 0 ltac:(lia)) as (f & Hmp & Hin & Hc). replace (r + 0 * 4096) with r in Hmp by lia.
  destruct (inpool_test_ok PF_KERNEL s f (mo_pools _ Hm) Hin) as [Hip Hfa].
  assert (phy_addr_start (kernel_pool s) ≤ f < phy_addr_start (user_pool s)) as [Hf1 Hf2].
  { destruct Hin as (j & Hj & ->). pose proof (po_order _ (mo_pools _ Hm)). lia. }
  unfold mfree_page. apply wp_bind, wp_kassert.
  { unfold PG_SIZE. rewrite Hra. by destruct (Z.leb_spec 1 n); [|lia]. }
  apply wp_bind. eapply wp_eq; [apply addr_v2p_ok; [apply Hm|lia|apply Hmp]|].
  apply wp_bind, wp_kassert.
  { unfold PG_SIZE. rewrite Hfa. by destruct (Z.leb_spec 0x102000 f); [|lia]. }
  kstep. kstep. apply wp_bind. destruct (Z.leb_spec (phy_addr_start (user_pool s)) f); [lia|].
  eapply wp_mono; [apply (free_pages_ok PF_KERNEL (Z.to_nat n) s r); try done; try lia|].
  { intros k Hk. apply Hrun. lia. }
  replace (Z.of_nat (Z.to_nat n)) with n by lia. intros u s1 Hrel.
  destruct (Hrel) as [A1 A2 A3 (m1 & k1 & u1 & A4 & _) _].
  assert (kernel_vaddr s1 = kernel_vaddr s) as Ekv by by rewrite A4.
  cbn [vaddr_remove]. do 3 kstep. rewrite Ekv.
  replace (u32 (r - vaddr_start (kernel_vaddr s)) / PG_SIZE) with i.
  2:{ unfold r, PG_SIZE. rewrite u32_id by lia. Z.div_mod_to_equations; lia. }
  apply wp_lift.
  eapply returns_mono; [apply (set_run_ok (Z.to_nat n) (vaddr_map (kernel_vaddr s)) i 0 false V1); unfold nbits in *; lia|].
  intros m' Hm'. replace (i + 0 + Z.of_nat (Z.to_nat n)) with (i + n) in Hm' by lia.
  replace (i + 0) with i in Hm' by lia. kstep. exists s1, m'. split_and!; [done|done|done|].
  rewrite <- Ekv. apply (mem_ok_free_pages s1 i n m'); [done|done|by rewrite Ekv|].
  intros k pa Hk. rewrite Ekv, A2. unfold r. intros [_ Hx]. apply Hx. lia.
Qed.
End mfree_kernel.

(** C14: Kernel page allocation is sound.  From a consistent memory,
    [malloc_page(PF_KERNEL, n)] always returns, keeps the memory consistent (no
    frame is both free and in use, none is mapped twice, free virtual pages are
    unmapped) and keeps every existing mapping.  If it does not return NULL,
    the [n] pages from the returned page-aligned heap address were unmapped and
    now map to frames that were free in the kernel pool, byte for byte, and no
    other page changed. *)
Theorem malloc_page_kernel_correct s n : mem_ok s → 0 < n < 3840 →
  ∃ r s', malloc_page PF_KERNEL n s = Ok (r, s') ∧ mem_ok s'
    ∧ (∀ va pa, maps s va pa → maps s' va pa)
    ∧ (r = NULL ∨
       r mod 4096 = 0 ∧ vaddr_start (kernel_vaddr s) ≤ r ∧ r + n * 4096 ≤ 0xffc00000
       ∧ (∀ k, 0 ≤ k < n → ∀ pa, ¬ maps s (r + k * 4096) pa)
       ∧ (∀ va pa, ¬ (r ≤ va < r + n * 4096) → maps s' va pa ↔ maps s va pa)
       ∧ ∀ k, 0 ≤ k < n → ∃ f, free_frame (kernel_pool s) f
           ∧ ∀ o, 0 ≤ o < 4096 → maps s' (r + k * 4096 + o) (f + o)).
Proof.
  intros Hm Hn.
  destruct (wp_inv _ _ _ (malloc_page_kernel_ok s n Hm Hn)) as (r & s' & Hrun & [K1 K2 K3 _ _ _]).
  exists r, s'. split_and!; [done|done|done|]. destruct K3 as [?|(K3 & K4 & K5 & K6 & K7 & K8 & K9 & _)]; [by left|right].
  split_and!; [done|done|done|done|done|]. intros k Hk. destruct (K9 k Hk) as (f & F1 & _ & F3). eauto.
Qed.

(** C15: Freeing undoes allocating.  If [malloc_page(PF_KERNEL, n)] returned
    [r], then [mfree_page(PF_KERNEL, r, n)] passes all its assertions and
    restores exactly the mappings, the free frames and the free virtual pages
    there were before. *)
Theorem malloc_mfree_roundtrip s n r s1 :
  mem_ok s → 0 < n < 3840 → 0x102000 ≤ phy_addr_start (kernel_pool s) →
  malloc_page PF_KERNEL n s = Ok (r, s1) → r ≠ NULL →
  ∃ s2, mfree_page PF_KERNEL r n s1 = Ok ((), s2) ∧ mem_ok s2
    ∧ (∀ va pa, maps s2 va pa ↔ maps s va pa)
    ∧ (∀ f, is_free s2 f ↔ is_free s f)
    ∧ ∀ j, 0 ≤ j → used (vaddr_map (kernel_vaddr s2)) j = used (vaddr_map (kernel_vaddr s)) j.
Proof.
  intros Hm Hn Hlow Hrun Hr.
  destruct (wp_inv _ _ _ (malloc_page_kernel_ok s n Hm Hn)) as (r' & s' & Hrun' & [K1 K2 K3 K10 (v' & m' & p' & K11 & K12 & _) _]).
  rewrite Hrun in Hrun'. simplify_eq.
  destruct K3 as [?|(_ & K3 & K4 & K5 & K6 & K7 & K8 & K9 & i & -> & I1 & I2 & I3 & I4 & I5)]; [done|].
  simpl in I3, I5. set (s1 := set_phys _ _) in *.
  assert (nbits (vaddr_map v') = nbits (vaddr_map (kernel_vaddr s))) as En.
  { destruct I5 as (E & _). unfold nbits. by rewrite E. }
  edestruct (λ H1 H2 H3, wp_inv _ _ _ (mfree_page_kernel_ok s1 i n K1 I1 ltac:(lia) H1 H2 H3)) as (u & s2 & Hfree & s3 & m2 & [A1 A2 A3 _ _] & -> & B & C).
  - change (kernel_vaddr s1) with v'. lia.
  - change (kernel_pool s1) with p'. destruct K12 as [-> _]. lia.
  - change (kernel_vaddr s1) with v'. rewrite I3. intros k Hk. destruct (K8 k Hk) as (f & F1 & F2 & F3).
    exists f. specialize (F3 0 ltac:(lia)). rewrite !Z.add_0_r in F3. split_and!; [done| |].
    + by eapply in_pool_same, free_in_pool.
    + intros ->. apply (mo_walk _ Hm (cr3 s1)); [by left|by exists PF_KERNEL].
  - change (kernel_vaddr s1) with v' in *. rewrite I3 in *. destruct u. eexists. split; [done|]. split_and!; [done| | |].
    + intros va pa. change (maps (set_kernel_vaddr _ s3)) with (maps s3). rewrite A2. split.
      * intros [Hmp Hout]. by apply K7.
      * intros Hmp. split; [by apply K2|]. intros Hin.
        set (k := (va - (vaddr_start (kernel_vaddr s) + i * 4096)) / 4096).
        apply (K6 k ltac:(unfold k; Z.div_mod_to_equations; lia) (pg pa)).
        assert (vaddr_start (kernel_vaddr s) + i * 4096 + k * 4096 = pg va) as ->
          by (unfold k, pg; Z.div_mod_to_equations; lia).
        apply maps_pg; [apply Hm|done].
    + intros f. change (is_free (set_kernel_vaddr _ s3)) with (is_free s3). rewrite A3. split.
      * intros [[t Ht]|(k & Hk & Hmp)]; [exists t; by apply K10|].
        destruct (K8 k Hk) as (g & G1 & _ & G3). specialize (G3 0 ltac:(lia)). rewrite !Z.add_0_r in G3.
        destruct Hmp as [_ H1], G3 as [_ H2]. rewrite H1 in H2. simplify_eq. by exists PF_KERNEL.
      * intros Hf%K9. tauto.
    + simpl. intros j Hj. destruct B as (_ & _ & _ & B), I5 as (_ & _ & _ & I5). rewrite B by done.
      case_decide; [symmetry; apply I4; lia|]. rewrite I5 by done. by rewrite decide_False.
Qed.

(** ** Writing data

    Stores outside the frames that the page walk reads change no mapping. *)
Section untouched.
Context (s : kstate) (m' : gmap Z Z).
Hypothesis (Hm : mem_ok s) (Hr : ∀ a, 0 ≤ word m' a < 2 ^ 32).
Hypothesis Hout : ∀ a, walk_frame s (pg a) → word m' a = word (phys s) a.

Lemma untouched_dir i : 0 ≤ i < 1024 → pde_i m' (cr3 s) i = pde_i (phys s) (cr3 s) i.
Proof.
  intros Hi. unfold pde_i. apply Hout. left. pose proof (do_aligned _ _ (vm_dir _ _ (mo_vm _ Hm))).
  unfold pg. Z.div_mod_to_equations. lia.
Qed.

Lemma untouched_vm : vm_ok m' (cr3 s).
Proof. apply (vm_ok_frame (phys s)); [apply Hm|done|apply untouched_dir]. Qed.

Lemma untouched_translate va : in_space va → translate m' (cr3 s) va = translate (phys s) (cr3 s) va.
Proof.
  intros Hin. destruct (in_space_idx _ Hin) as [Hva Hi].
  rewrite (translate_unfold _ _ (vm_dir _ _ untouched_vm)), (translate_unfold _ _ (vm_dir _ _ (mo_vm _ Hm))) by done.
  pose proof (untouched_dir (va / 2 ^ 22) ltac:(lia)) as Hd.
  unfold pte_addr, tbl_of, pde_of. fold (pde_i m' (cr3 s) (va / 2 ^ 22)) (pde_i (phys s) (cr3 s) (va / 2 ^ 22)).
  rewrite Hd. destruct (Z.testbit (pde_i (phys s) (cr3 s) (va / 2 ^ 22)) 0) eqn:Ep; [|done].
  rewrite Hout; [done|]. right. exists (va / 2 ^ 22). split_and!; [lia|lia|done|].
  pose proof (Z.mod_pos_bound (va / 4096) 1024 ltac:(lia)). unfold pg. Z.div_mod_to_equations. lia.
Qed.

Lemma untouched_maps va pa : maps (set_phys m' s) va pa ↔ maps s va pa.
Proof. unfold maps. simpl. split; intros [Hin H]; (split; [done|]); rewrite untouched_translate in * by done; done. Qed.

Lemma untouched_mem_ok : mem_ok (set_phys m' s).
Proof.
  destruct (Hm) as [H1 H2 H3 H4 H5 H6 H7 H8 H9]. pose proof untouched_maps as Hmap.
  pose proof (λ g, walk_frame_dir s m' g untouched_dir) as Hwf. split; try done.
  - by destruct H1.
  - apply untouched_vm.
  - intros i Hi. unfold present. simpl. rewrite untouched_dir by lia. by apply H4.
  - intros g. destruct (Hwf g) as [-> _]. apply H5.
  - intros va' pa Hmp%Hmap. by eapply H6.
  - intros va1 va2 pa1 pa2 Hm1%Hmap Hm2%Hmap. eauto.
  - intros va' pa Hmp%Hmap. destruct (Hwf (pg pa)) as [_ ->]. by eapply H8.
  - intros i Hi Hu pa Hmp%Hmap. by eapply H9.
Qed.
End untouched.

(** The stores of one frame. *)
Section data_write.
Context (s : kstate) (f : Z) (m' : gmap Z Z).
Hypothesis (Hm : mem_ok s) (Hw : ¬ walk_frame s f) (Hfa : f mod 4096 = 0).
Hypothesis (Hr : ∀ a, 0 ≤ word m' a < 2 ^ 32).
Hypothesis Hout : ∀ a, ¬ (f ≤ a < f + 4096) → word m' a = word (phys s) a.

Lemma data_write_out a : walk_frame s (pg a) → word m' a = word (phys s) a.
Proof.
  intros Ha. apply Hout. intros Hin. apply Hw. replace f with (pg a); [done|]. unfold pg. Z.div_mod_to_equations. lia.
Qed.
Lemma data_write_dir i : 0 ≤ i < 1024 → pde_i m' (cr3 s) i = pde_i (phys s) (cr3 s) i.
Proof. by apply untouched_dir, data_write_out. Qed.
Lemma data_write_vm : vm_ok m' (cr3 s).
Proof. by apply untouched_vm, data_write_out. Qed.
Lemma data_write_translate va : in_space va → translate m' (cr3 s) va = translate (phys s) (cr3 s) va.
Proof. apply (untouched_translate s m' Hm Hr data_write_out). Qed.
Lemma data_write_mem_ok : mem_ok (set_phys m' s) ∧ ∀ va pa, maps (set_phys m' s) va pa ↔ maps s va pa.
Proof. split; [by apply untouched_mem_ok, data_write_out|intros; by apply untouched_maps, data_write_out]. Qed.
End data_write.

Lemma vclear_app a b va s Q :
  wp (vclear a va) s (λ _ s', wp (vclear b (va + 4 * Z.of_nat a)) s' Q) → wp (vclear (a + b) va) s Q.
Proof.
  revert va s. induction a as [|a IH]; intros va s H; cbn [vclear Nat.add] in *.
  - replace (va + 4 * Z.of_nat 0) with va in H by lia. exact H.
  - apply wp_bind. apply wp_bind_inv in H. eapply wp_mono; [exact H|]. intros u s' H'. apply IH.
    replace (va + 4 + 4 * Z.of_nat a) with (va + 4 * Z.of_nat (S a)) by lia. exact H'.
Qed.

(** Clearing one mapped data page. *)
Lemma clear_page_ok s va f :
  mem_ok s → va mod 4096 = 0 → f mod 4096 = 0 → ¬ walk_frame s f →
  (∀ o, 0 ≤ o < 4096 → maps s (va + o) (f + o)) →
  wp (vclear 1024 va) s (λ _ s', ∃ m', s' = set_phys m' s ∧ cleared (phys s) m' f 1024
    ∧ mem_ok s' ∧ ∀ va pa, maps s' va pa ↔ maps s va pa).
Proof.
  intros Hm Hva Hfa Hw Hmp. eapply wp_mono; [apply (vclear_ok 1024 s va f)|].
  - apply Hm.
  - intros m' k Ho Hr Hk. destruct (Hmp (4 * k)) as [Hin <-]; [lia|].
    by apply (data_write_translate s f m').
  - intros u s' (m' & -> & Hc). exists m'. split; [done|]. split; [done|].
    apply (data_write_mem_ok s f m'); try done.
    + intros a. rewrite Hc. case_decide; [lia|apply Hm].
    + intros a Ha. rewrite Hc, decide_False by lia. done.
Qed.

Lemma clear_pages_ok n s va :
  mem_ok s → va mod 4096 = 0 →
  (∀ k, 0 ≤ k < Z.of_nat n → ∃ f, f mod 4096 = 0 ∧ ¬ walk_frame s f
     ∧ ∀ o, 0 ≤ o < 4096 → maps s (va + k * 4096 + o) (f + o)) →
  wp (vclear (n * 1024) va) s (λ _ s', mem_ok s' ∧ (∀ va pa, maps s' va pa ↔ maps s va pa)
    ∧ (∃ m', s' = set_phys m' s)
    ∧ (∀ f, ¬ walk_frame s f → ¬ walk_frame s' f)
    ∧ (∀ a, word (phys s) a = 0 → word (phys s') a = 0)
    ∧ ∀ k j f, 0 ≤ k < Z.of_nat n → 0 ≤ j < 1024 → maps s (va + k * 4096 + 4 * j) f → word (phys s') f = 0).
Proof.
  revert s va. induction n as [|n IH]; intros s va Hm Hva Hrun.
  - simpl. kstep. split_and!; [done|done|exists (phys s); by destruct s|done|done|lia].
  - cbn [Nat.mul]. apply vclear_app. destruct (Hrun 0 ltac:(lia)) as (f & Hfa & Hfw & Hfm).
    replace (va + 0 * 4096) with va in Hfm by lia.
    eapply wp_mono; [by apply (clear_page_ok s va f)|]. intros u s1 (m1 & -> & Hc & Hm1 & Hmap).
    assert (∀ g, ¬ walk_frame s g → ¬ walk_frame (set_phys m1 s) g) as Hwk.
    { intros g Hg Hg'. apply Hg. apply (walk_frame_dir s m1 g); [|done]. apply (data_write_dir s f m1); try done.
      intros a Ha. rewrite Hc, decide_False by lia. done. }
    eapply wp_mono.
    { apply (IH (set_phys m1 s) (va + 4 * Z.of_nat 1024)); [done|Z.div_mod_to_equations; lia|].
      intros k Hk. destruct (Hrun (k + 1) ltac:(lia)) as (g & G1 & G2 & G3). exists g.
      split_and!; [done|by apply Hwk|]. intros o Ho. apply Hmap.
      replace (va + 4 * Z.of_nat 1024 + k * 4096 + o) with (va + (k + 1) * 4096 + o) by lia. by apply G3. }
    intros u' s2 (R1 & R2 & (m2 & R3) & R4 & R5 & R6). split_and!; [done| |by exists m2; rewrite R3|by eauto| |].
    + intros va' pa. by rewrite R2, Hmap.
    + intros a Ha. apply R5. simpl. rewrite Hc. by case_decide.
    + intros k j g Hk Hj Hg. destruct (decide (k = 0)) as [->|].
      * apply R5. simpl. replace (va + 0 * 4096 + 4 * j) with (va + 4 * j) in Hg by lia.
        destruct (Hfm (4 * j) ltac:(lia)) as [_ E]. destruct Hg as [_ Eg]. rewrite E in Eg. simplify_eq.
        rewrite Hc, decide_True; [done|]. split; [lia|]. replace (f + 4 * j - f) with (j * 4) by lia. by apply Z.mod_mul.
      * apply (R6 (k - 1) j g); [lia|done|]. apply Hmap.
        by replace (va + 4 * Z.of_nat 1024 + (k - 1) * 4096 + 4 * j) with (va + k * 4096 + 4 * j) by lia.
Qed.

(** [get_kernel_pages(n)] always returns from a consistent memory, keeps it
    consistent and every existing mapping in place; when it does not return
    NULL the [n] new pages are mapped, were unmapped before, and read as zero. *)
Theorem get_kernel_pages_correct s n : mem_ok s → 0 < n < 3840 →
  ∃ r s', get_kernel_pages n s = Ok (r, s') ∧ mem_ok s'
    ∧ (∀ va pa, maps s va pa → maps s' va pa)
    ∧ (r = NULL ∨ r mod 4096 = 0
       ∧ (∀ k, 0 ≤ k < n → ∀ pa, ¬ maps s (r + k * 4096) pa)
       ∧ ∀ k j, 0 ≤ k < n → 0 ≤ j < 1024 → vload (r + k * 4096 + 4 * j) s' = Ok (0, s')).
Proof.
  intros Hm Hn.
  assert (wp (get_kernel_pages n) s (λ r s', mem_ok s' ∧ (∀ va pa, maps s va pa → maps s' va pa)
    ∧ (r = NULL ∨ r mod 4096 = 0
       ∧ (∀ k, 0 ≤ k < n → ∀ pa, ¬ maps s (r + k * 4096) pa)
       ∧ ∀ k j, 0 ≤ k < n → 0 ≤ j < 1024 → vload (r + k * 4096 + 4 * j) s' = Ok (0, s')))) as Hwp.
  { unfold get_kernel_pages. apply wp_bind. eapply wp_mono; [by apply malloc_page_kernel_ok|].
    intros r s1 [K1 K2 K3 _ (v' & m' & p' & K11 & _) _]. destruct (Z.eqb_spec r NULL) as [->|Hr]; cbn [negb].
    { kstep. split_and!; [done|done|by left]. }
    destruct K3 as [?|(_ & K3 & K4 & K5 & K6 & K7 & K8 & _)]; [done|].
    replace (Z.to_nat (n * 1024)) with (Z.to_nat n * 1024)%nat by lia.
    apply wp_bind. eapply wp_mono.
    { apply clear_pages_ok; [done|done|]. intros k Hk. destruct (K8 k ltac:(lia)) as (f & F1 & F2 & F3).
      exists f. split_and!; [done| |done]. intros [->|Ht].
      - apply (mo_walk _ Hm (cr3 s1)); [rewrite K11; by left|by exists PF_KERNEL].
      - eapply (mo_table _ K1); [apply (F3 0); lia|]. by rewrite Z.add_0_r, pg_id. }
    intros u s2 (R1 & R2 & R3 & R4 & R5 & R6). kstep. split_and!; [done|intros va pa H; by apply R2, K2|].
    right. split_and!; [done|done|]. intros k j Hk Hj. destruct (K8 k Hk) as (f & F1 & F2 & F3).
    specialize (F3 (4 * j) ltac:(lia)).
    erewrite vload_eq by (apply R2; exact F3). by rewrite (R6 k j) by (done || lia). }
  destruct (wp_inv _ _ _ Hwp) as (r & s' & Hrun & H). exists r, s'. done.
Qed.

(** [page_table_add] installs one mapping.  For an unmapped address and a
    frame taken from a pool it returns, also when the page table does not exist
    yet and the kernel pool has a frame for it: the page then maps to the frame,
    every other page keeps its mapping and memory stays consistent. *)
Theorem page_table_add_correct s va f :
  mem_ok s → fresh_frame s f → in_space va → (∀ pa, ¬ maps s va pa) →
  pages_used (kernel_vaddr s) (pg va) (pg va + 4096) →
  present (phys s) (cr3 s) (va / 2 ^ 22) ∨ (∃ g, free_frame (kernel_pool s) g) →
  ∃ s', page_table_add va f s = Ok ((), s') ∧ mem_ok s'
    ∧ ∀ va' pa, maps s' va' pa ↔
        if decide (va' / 4096 = va / 4096) then in_space va' ∧ pa = f + va' mod 4096 else maps s va' pa.
Proof.
  intros Hm Hff Hva Hun Hu Hor.
  assert (∀ i, 0 ≤ i ≤ nbits (vaddr_map (kernel_vaddr s)) →
    vaddr_start (kernel_vaddr s) + i * 4096 = 4096 * (va / 4096) → used (vaddr_map (kernel_vaddr s)) i = true) as Hused.
  { intros i Hi E. apply Hu; [done|]. unfold pg. lia. }
  assert (wp (page_table_add va f) s (λ _ s', mapped_to s s' va f)) as Hwp.
  { destruct (decide (Z.testbit (pde_i (phys s) (cr3 s) (va / 2 ^ 22)) 0 = true)) as [Hp|Hnp].
    - eapply wp_mono; [by apply page_table_add_present_ok|]. by intros u s' [H _].
    - apply page_table_add_absent_ok; try done. by destruct Hor. }
  destruct (wp_inv _ _ _ Hwp) as ([] & s' & Hrun & [M1 M2 _ _ _ _ _ _ _]). exists s'. done.
Qed.
