(* ===== verification/BootMem.v ===== *)
(** * Memory at boot

    boot/loader.S builds the first page directory ([setup_page]); mem_init of
    kernel/losmemory.c builds the pools on top of it.  The theorems show that
    the two together establish [mem_ok], whatever the memory size, and run the
    page allocator on that state. *)
From S2P Require Import Prelude CString Bitmap Machine DList Mmu PageMem.

Definition PAGE_DIR_TABLE_POS : Z := 0x100000.

Definition stores (l : list (Z * Z)) (m : gmap Z Z) : gmap Z Z :=
  foldl (λ m '(a, v), <[a := v]> m) m l.

(** The writes of setup_page, in order: clear the directory, entries 0, 0x300
    and 0x3ff, the 256 entries that map the first MiB, and the entries of the
    254 further kernel tables. *)
Definition setup_page (m : gmap Z Z) : gmap Z Z :=
  let dir := PAGE_DIR_TABLE_POS in
  let eax := Z.lor (dir + 0x1000) (Z.lor PG_US_U (Z.lor PG_RW_W PG_P_1)) in
  let m := stores ((λ i, (dir + 4 * i, 0)) <$> seqZ 0 1024) m in
  let m := stores [(dir + 4 * 0x000, eax); (dir + 4 * 0x300, eax); (dir + 4 * 0x3ff, eax - 0x1000)] m in
  let m := stores ((λ i, (dir + 0x1000 + i * 4,
                          Z.lor PG_US_U (Z.lor PG_RW_W PG_P_1) + i * 0x1000)) <$> seqZ 0 0x100) m in
  stores ((λ i, (dir + (0x301 + i) * 4,
                 Z.lor (dir + 0x2000) (Z.lor PG_US_U (Z.lor PG_RW_W PG_P_1)) + i * 0x1000))
          <$> seqZ 0 (0x100 - 2)) m.

(** Memory after the loader, on zeroed RAM. *)
Definition boot_phys : gmap Z Z := setup_page ∅.

(** mem_init: the size of memory is the word the loader left at 0xb00, reached
    through the identity mapping; the locks are initialised by the caller's
    [lock_init]. *)
Definition mem_init_pools (ram : Z → Z) : K unit :=
  mem_bytes_total ← vload 0xb00; mem_pool_init ram mem_bytes_total.

(** ** The contents of the boot tables, by evaluation *)
Definition boot_pde (j : Z) : Z :=
  if j =? 0 then 0x101007
  else if j =? 1023 then 0x100007
  else if 768 <=? j then 0x101007 + (j - 768) * 0x1000 else 0.

Lemma seqZ_forallb (P : Z → bool) a n : forallb P (seqZ a n) = true → ∀ j, a ≤ j < a + n → P j = true.
Proof. rewrite forallb_forall. intros H j Hj. apply H, list_elem_of_In, elem_of_seqZ. lia. Qed.

Lemma boot_pde_ok j : 0 ≤ j < 1024 → word boot_phys (0x100000 + j * 4) = boot_pde j.
Proof.
  intros Hj. apply Z.eqb_eq.
  apply (seqZ_forallb (λ j, word boot_phys (0x100000 + j * 4) =? boot_pde j) 0 1024); [|lia].
  vm_compute. reflexivity.
Qed.

Lemma boot_pte_ok j : 0 ≤ j < 1024 →
  word boot_phys (0x101000 + j * 4) = if j <? 256 then j * 0x1000 + 7 else 0.
Proof.
  intros Hj. apply Z.eqb_eq.
  apply (seqZ_forallb (λ j, word boot_phys (0x101000 + j * 4) =? if j <? 256 then j * 0x1000 + 7 else 0) 0 1024); [|lia].
  vm_compute. reflexivity.
Qed.

Definition boot_check (kv : Z * Z) : bool :=
  (kv.1 <? 0x102000) && (0 <=? kv.2) && (kv.2 <? 2 ^ 32).

Lemma boot_words a : 0 ≤ word boot_phys a < 2 ^ 32 ∧ (0x102000 ≤ a → word boot_phys a = 0).
Proof.
  unfold word. destruct (boot_phys !! a) as [v|] eqn:E; simpl; [|lia].
  apply elem_of_map_to_list, list_elem_of_In in E.
  assert (forallb boot_check (map_to_list boot_phys) = true) as H by (vm_compute; reflexivity).
  rewrite forallb_forall in H. apply H in E. clear H. unfold boot_check, fst, snd in E.
  rewrite !andb_true_iff, Z.leb_le, !Z.ltb_lt in E. lia.
Qed.

#[local] Opaque boot_phys.

Lemma boot_pde_present j : 0 ≤ j < 1023 →
  Z.testbit (boot_pde j) 0 = bool_decide (j = 0 ∨ 768 ≤ j)
  ∧ (j = 0 ∨ 768 ≤ j → pg (boot_pde j) = 0x101000 + (if j =? 0 then 0 else j - 768) * 0x1000).
Proof.
  intros Hj. unfold boot_pde. destruct (Z.eqb_spec j 0) as [->|].
  { split; [|reflexivity]. by rewrite bool_decide_true by lia. }
  destruct (Z.eqb_spec j 1023); [lia|]. destruct (Z.leb_spec 768 j).
  - replace (1052679 + (j - 768) * 4096) with ((0x101000 + (j - 768) * 4096) + 7) by lia.
    assert ((0x101000 + (j - 768) * 4096) mod 4096 = 0) by (Z.div_mod_to_equations; lia).
    rewrite testbit_flags, pg_add7 by done. by rewrite bool_decide_true by lia.
  - rewrite bool_decide_false by lia. split; [reflexivity|lia].
Qed.

Lemma boot_vm : vm_ok boot_phys 0x100000.
Proof.
  split; [split|..].
  - lia.
  - reflexivity.
  - apply (boot_pde_ok 1023). lia.
  - intros a. apply boot_words.
  - intros i Hi. unfold present, pde_i. rewrite boot_pde_ok by lia.
    destruct (boot_pde_present i) as [-> H2]; [lia|]. intros Hp%bool_decide_eq_true. rewrite H2 by done.
    destruct (Z.eqb_spec i 0); lia.
  - intros i j Hi Hj. unfold present, pde_i. rewrite (boot_pde_ok i), (boot_pde_ok j) by lia.
    destruct (boot_pde_present i) as [-> H2]; [lia|]. destruct (boot_pde_present j) as [-> H3]; [lia|].
    intros Hp%bool_decide_eq_true Hq%bool_decide_eq_true. rewrite H2, H3 by done.
    destruct (Z.eqb_spec i 0), (Z.eqb_spec j 0); lia.
Qed.

(** In the managed space exactly the first MiB is mapped, at 0xc0000000. *)
Lemma boot_translate va pa : in_space va → translate boot_phys 0x100000 va = Some pa →
  0xc0000000 ≤ va < 0xc0100000 ∧ pa = va - 0xc0000000.
Proof.
  intros Hin. destruct (in_space_idx _ Hin) as [Hr Hi].
  rewrite (translate_unfold _ _ (vm_dir _ _ boot_vm)) by done.
  unfold pte_addr, tbl_of, pde_of. rewrite boot_pde_ok by lia.
  destruct (boot_pde_present (va / 2 ^ 22)) as [-> Hpg]; [lia|].
  case_bool_decide as Hp; [|done]. rewrite Hpg by done.
  destruct (Z.eqb_spec (va / 2 ^ 22) 0); [lia|].
  destruct (decide (va / 2 ^ 22 = 768)) as [E|Hne].
  - rewrite E. replace (1052672 + (768 - 768) * 4096 + (va / 4096) mod 1024 * 4)
      with (0x101000 + (va / 4096) mod 1024 * 4) by lia.
    rewrite boot_pte_ok by (Z.div_mod_to_equations; lia).
    destruct (Z.ltb_spec ((va / 4096) mod 1024) 256); [|done].
    assert (((va / 4096) mod 1024 * 4096) mod 4096 = 0) by (Z.div_mod_to_equations; lia).
    rewrite testbit_flags, pg_add7 by done. intros. simplify_eq.
    Z.div_mod_to_equations. lia.
  - destruct (boot_words (1052672 + (va / 2 ^ 22 - 768) * 4096 + (va / 4096) mod 1024 * 4)) as [_ Hz].
    pose proof (Z.mod_pos_bound (va / 4096) 1024 ltac:(lia)). rewrite Hz by lia. done.
Qed.

Lemma boot_maps va : 0xc0000000 ≤ va < 0xc0100000 → translate boot_phys 0x100000 va = Some (va - 0xc0000000).
Proof.
  intros Hva. assert (in_space va) as Hin by (unfold in_space; lia). destruct (in_space_idx _ Hin) as [Hr Hi].
  rewrite (translate_unfold _ _ (vm_dir _ _ boot_vm)) by done.
  assert (va / 2 ^ 22 = 768) as E by (Z.div_mod_to_equations; lia).
  unfold pte_addr, tbl_of, pde_of. rewrite E, boot_pde_ok by lia. destruct (boot_pde_present 768) as [-> Hpg]; [lia|].
  rewrite bool_decide_true by lia. rewrite Hpg by lia. cbn [Z.eqb].
  replace (1052672 + (768 - 768) * 4096 + (va / 4096) mod 1024 * 4)
      with (0x101000 + (va / 4096) mod 1024 * 4) by lia.
  assert (0 ≤ (va / 4096) mod 1024 < 256) as Hx by (Z.div_mod_to_equations; lia).
  rewrite boot_pte_ok by lia. destruct (Z.ltb_spec ((va / 4096) mod 1024) 256); [|lia].
  assert (((va / 4096) mod 1024 * 4096) mod 4096 = 0) by (Z.div_mod_to_equations; lia).
  rewrite testbit_flags, pg_add7 by done. f_equal. Z.div_mod_to_equations. lia.
Qed.

(** ** The pools *)
Lemma ram_bytes_ok ram a n : bytes (ram_bytes ram a n) ∧ length (ram_bytes ram a n) = n.
Proof.
  revert a. induction n as [|n IH]; intros a; simpl; [split; [constructor|done]|].
  destruct (IH (a + 1)) as [H1 H2]. split; [constructor; [apply u8_range|done]|by rewrite H2].
Qed.

Lemma bitmap_region_ok ram a : MEM_BITMAP_BASE ≤ a ≤ MEM_BITMAP_BASE + 0x4000 →
  bytes (bitmap_region ram a) ∧ len (bitmap_region ram a) = MEM_BITMAP_BASE + 0x4000 - a.
Proof.
  intros Ha. unfold bitmap_region, len.
  destruct (ram_bytes_ok ram a (Z.to_nat (MEM_BITMAP_BASE + 0x4000 - a))) as [H1 H2]. rewrite H2. split; [done|lia].
Qed.

(** A cleared map that ends before its region does. *)
Definition fresh_map (m : BitMap) (n : Z) : Prop :=
  btmp_bytes_len m = n ∧ bm_wf m ∧ n < len (bits m) ∧ ∀ i, 0 ≤ i < nbits m → used m i = false.

Lemma region_init ram a n : MEM_BITMAP_BASE ≤ a → 0 ≤ n ≤ 4096 → a + n < MEM_BITMAP_BASE + 0x4000 →
  bitmap_init (mkBitMap n (bitmap_region ram a)) ⇓ λ m, fresh_map m n.
Proof.
  intros Ha Hn Hb. destruct (bitmap_region_ok ram a) as [H1 H2]; [lia|].
  eapply returns_mono; [apply bitmap_init_ok; simpl; rewrite ?H2; unfold nbits; simpl; done || lia|].
  intros m (E1 & E2 & Hw & Hf & _). simpl in *. split_and!; [done|done|lia|].
  intros i Hi. apply Hf. unfold nbits in *. rewrite E1 in Hi. done.
Qed.

(** The sizes of the two halves of free memory. *)
Definition pages_of (all_mem : Z) : Z := u16 (u32 (all_mem - 0x200000) / 4096).
Definition kpages_of (all_mem : Z) : Z := pages_of all_mem / 2.
Definition upages_of (all_mem : Z) : Z := pages_of all_mem - kpages_of all_mem.

Lemma pages_of_range all_mem : 0 ≤ pages_of all_mem < 65536.
Proof. unfold pages_of, u16. apply Z.mod_pos_bound. lia. Qed.

Lemma pages_of_fit all_mem : 0x200000 ≤ all_mem < 2 ^ 32 → 0x200000 + pages_of all_mem * 4096 ≤ all_mem.
Proof. intros. unfold pages_of. rewrite u32_id by lia. unfold u16. Z.div_mod_to_equations. lia. Qed.

(** The state [mem_pool_init] leaves. *)
Record pools_built (s s' : kstate) (all_mem : Z) : Prop := {
  pb_k : fresh_map (pool_map (kernel_pool s')) (kpages_of all_mem / 8)
    ∧ phy_addr_start (kernel_pool s') = 0x200000 ∧ size (kernel_pool s') = kpages_of all_mem * 4096;
  pb_u : fresh_map (pool_map (user_pool s')) (upages_of all_mem / 8)
    ∧ phy_addr_start (user_pool s') = 0x200000 + kpages_of all_mem * 4096
    ∧ size (user_pool s') = upages_of all_mem * 4096;
  pb_v : fresh_map (vaddr_map (kernel_vaddr s')) (kpages_of all_mem / 8)
    ∧ vaddr_start (kernel_vaddr s') = K_HEAP_START;
  pb_mem : phys s' = phys s ∧ cr3 s' = cr3 s;
  pb_frame : ∃ kp up v, s' = set_kernel_vaddr v (set_user_pool up (set_kernel_pool kp s))
    ∧ lock kp = lock (kernel_pool s) ∧ lock up = lock (user_pool s);
}.

Lemma mem_pool_init_ok ram all_mem s :
  wp (mem_pool_init ram all_mem) s (λ _ s', pools_built s s' all_mem).
Proof.
  pose proof (pages_of_range all_mem) as Hr. unfold mem_pool_init, PG_SIZE.
  change (4096 * 256 + 0x100000) with 0x200000. fold (pages_of all_mem).
  assert (0 ≤ kpages_of all_mem < 32768 ∧ 0 ≤ upages_of all_mem ≤ 32768) as [Hk Hu]
    by (unfold upages_of, kpages_of; Z.div_mod_to_equations; lia).
  rewrite (u16_id (pages_of all_mem / 2)) by (fold (kpages_of all_mem); lia). fold (kpages_of all_mem).
  rewrite (u16_id (pages_of all_mem - kpages_of all_mem)) by (fold (upages_of all_mem); lia). fold (upages_of all_mem).
  rewrite (u32_id (0x200000 + _)) by lia.
  assert (0 ≤ kpages_of all_mem / 8 ≤ 4095 ∧ 0 ≤ upages_of all_mem / 8 ≤ 4096) as [Hk8 Hu8]
    by (Z.div_mod_to_equations; lia).
  do 4 kstep. apply wp_bind, wp_lift. eapply returns_mono; [apply region_init; lia|]. intros km Hkm.
  apply wp_bind, wp_lift. eapply returns_mono; [apply region_init; lia|]. intros um Hum.
  apply wp_bind, wp_lift. eapply returns_mono; [apply region_init; lia|]. intros vm Hvm.
  ksteps. split; simpl; [done|done|done|done|]. by eexists _, _, _.
Qed.

Lemma fresh_map_pool m n a : fresh_map m n → 0 ≤ n ≤ 4096 → a mod 4096 = 0 → 0 < a →
  a + n * 8 * 4096 ≤ 2 ^ 32 - 4096 → ∀ sz l, pool_wf (mkPool m a sz l).
Proof.
  intros (E & Hw & Hl & _) Hn Ha Hp Hb sz l. split; simpl; unfold nbits; rewrite ?E; done || lia.
Qed.

Lemma pools_built_mem_ok s s' all_mem : phys s = boot_phys → cr3 s = 0x100000 →
  pools_built s s' all_mem → mem_ok s'.
Proof.
  intros Ep Ec [(K1 & K2 & _) (U1 & U2 & _) (V1 & V2) [M1 M2] _]. rewrite Ep in M1. rewrite Ec in M2.
  pose proof (pages_of_range all_mem) as Hr.
  assert (0 ≤ kpages_of all_mem < 32768 ∧ 0 ≤ upages_of all_mem ≤ 32768) as [Hk Hu]
    by (unfold upages_of, kpages_of; Z.div_mod_to_equations; lia).
  assert (0 ≤ kpages_of all_mem / 8 ≤ 4095 ∧ 0 ≤ upages_of all_mem / 8 ≤ 4096) as [Hk8 Hu8]
    by (Z.div_mod_to_equations; lia).
  assert (∀ f, is_free s' f → 0x200000 ≤ f) as Hfree.
  { intros f [[] (i & Hi & _ & ->)]; simpl in *; rewrite ?K2, ?U2; lia. }
  assert (∀ va pa, maps s' va pa → 0xc0000000 ≤ va < 0xc0100000 ∧ pa = va - 0xc0000000) as Hmap.
  { intros va pa [Hin H]. rewrite M1, M2 in H. by apply boot_translate in H. }
  assert (∀ f, table_frame s' f → 0x101000 ≤ f < 0x200000) as Htab.
  { intros f (i & Hi & Hp & <-). unfold present, pde_i in *. rewrite M1, M2 in *.
    rewrite (boot_pde_ok i) in Hp by lia. rewrite (boot_pde_ok i) by lia.
    destruct (boot_pde_present i) as [H1 H2]; [lia|]. rewrite H1 in Hp. apply bool_decide_eq_true in Hp.
    rewrite H2 by done. destruct (Z.eqb_spec i 0); lia. }
  split.
  - split.
    + intros []; simpl; [destruct (kernel_pool s')|destruct (user_pool s')]; simpl in *; subst;
        (eapply fresh_map_pool; [done|lia|Z.div_mod_to_equations; lia|lia|lia]).
    + destruct K1 as [E _]. unfold nbits. rewrite K2, U2, E. Z.div_mod_to_equations; lia.
  - rewrite M1, M2. apply boot_vm.
  - destruct V1 as (E & Hw & Hl & _). unfold K_HEAP_START in V2.
    split; unfold nbits; rewrite ?E, ?V2; [exact Hw|lia|lia|reflexivity|lia].
  - intros i Hi. unfold present, pde_i. rewrite M1, M2, boot_pde_ok by lia.
    destruct (boot_pde_present i) as [-> _]; [lia|]. by rewrite bool_decide_true by lia.
  - intros f [->|Hf] Hfr%Hfree; [lia|]. apply Htab in Hf. lia.
  - intros va pa [H1 H2]%Hmap Hfr%Hfree. unfold pg in *. Z.div_mod_to_equations; lia.
  - intros va va' pa pa' [H1 ->]%Hmap [H2 ->]%Hmap. unfold pg. Z.div_mod_to_equations; lia.
  - intros va pa [H1 H2]%Hmap Ht%Htab. unfold pg in *. Z.div_mod_to_equations; lia.
  - intros i Hi _ pa [H1 _]%Hmap. rewrite V2 in H1. unfold K_HEAP_START in H1. lia.
Qed.

(** Boot establishes the memory invariant.  On the page tables of the
    loader, [mem_pool_init] returns for every 32-bit memory size, leaves
    memory consistent with every frame and every kernel page free, and, when
    memory has at least 2 MiB, both pools lie between 2 MiB and the end of
    memory: the 16-bit page counts lose memory above 258 MiB, they never
    invent any. *)
Theorem mem_pool_init_establishes ram all_mem s :
  0 ≤ all_mem < 2 ^ 32 → phys s = boot_phys → cr3 s = PAGE_DIR_TABLE_POS →
  ∃ s', mem_pool_init ram all_mem s = Ok ((), s') ∧ mem_ok s'
    ∧ (∀ t f, in_pool (pool_of t s') f → free_frame (pool_of t s') f)
    ∧ (∀ i, 0 ≤ i < nbits (vaddr_map (kernel_vaddr s')) → used (vaddr_map (kernel_vaddr s')) i = false)
    ∧ (0x200000 ≤ all_mem → ∀ t f, in_pool (pool_of t s') f → 0x200000 ≤ f ∧ f + 4096 ≤ all_mem).
Proof.
  intros Ha Ep Ec.
  destruct (wp_inv _ _ _ (mem_pool_init_ok ram all_mem s)) as ([] & s' & Hrun & Hb).
  exists s'. split; [done|]. split; [by eapply pools_built_mem_ok|].
  destruct Hb as [(K1 & K2 & _) (U1 & U2 & _) (V1 & V2) _].
  split_and!.
  - intros [] f (i & Hi & ->); exists i; (split_and!; [lia|lia| |done]); [by apply K1|by apply U1].
  - apply V1.
  - intros Hlo t f (i & Hi & ->). pose proof (pages_of_fit all_mem ltac:(lia)).
    destruct K1 as [EK _], U1 as [EU _]. unfold nbits in Hi. pose proof (pages_of_range all_mem).
    unfold upages_of, kpages_of in *.
    destruct t; simpl in *; rewrite ?EK, ?EU, ?K2, ?U2 in *; Z.div_mod_to_equations; lia.
Qed.

(** *** Witnesses, on a machine with 2.5 MiB *)
Definition boot_state : kstate := set_cr3 PAGE_DIR_TABLE_POS (set_phys boot_phys k0).

Lemma mem_pool_init_establishes_witness :
  ∃ s', mem_pool_init (λ _, 0xaa) 0x280000 boot_state = Ok ((), s') ∧ mem_ok s'
    ∧ (∀ t f, in_pool (pool_of t s') f → free_frame (pool_of t s') f)
    ∧ (∀ i, 0 ≤ i < nbits (vaddr_map (kernel_vaddr s')) → used (vaddr_map (kernel_vaddr s')) i = false)
    ∧ (0x200000 ≤ 0x280000 → ∀ t f, in_pool (pool_of t s') f → 0x200000 ≤ f ∧ f + 4096 ≤ 0x280000).
Proof.
  apply (mem_pool_init_establishes (λ _, 0xaa) 0x280000 boot_state); [lia|reflexivity|reflexivity].
Defined.

Definition run_state {A} (o : outcome (A * kstate)) : kstate :=
  match o with Ok (_, s) => s | _ => k0 end.

Definition run_val {A} (o : outcome (A * kstate)) : option A :=
  match o with Ok (a, _) => Some a | _ => None end.

Lemma run_val_state {A} (o : outcome (A * kstate)) a : run_val o = Some a → o = Ok (a, run_state o).
Proof. destruct o as [[? ?]| | | |]; simpl; intros; by simplify_eq. Qed.

Definition booted : kstate := run_state (mem_pool_init (λ _, 0xaa) 0x280000 boot_state).

Lemma booted_ok : mem_ok booted ∧ phys booted = boot_phys ∧ cr3 booted = 0x100000.
Proof.
  unfold booted. destruct (wp_inv _ _ _ (mem_pool_init_ok (λ _, 0xaa) 0x280000 boot_state)) as (u & s' & Hrun & Hb).
  rewrite Hrun. cbn [run_state]. split; [by eapply pools_built_mem_ok, Hb|]. apply (pb_mem _ _ _ Hb).
Qed.
#[local] Opaque booted.

Lemma malloc_page_kernel_correct_witness :
  ∃ r s', malloc_page PF_KERNEL 3 booted = Ok (r, s') ∧ mem_ok s'
    ∧ (∀ va pa, maps booted va pa → maps s' va pa)
    ∧ (r = NULL ∨
       r mod 4096 = 0 ∧ vaddr_start (kernel_vaddr booted) ≤ r ∧ r + 3 * 4096 ≤ 0xffc00000
       ∧ (∀ k, 0 ≤ k < 3 → ∀ pa, ¬ maps booted (r + k * 4096) pa)
       ∧ (∀ va pa, ¬ (r ≤ va < r + 3 * 4096) → maps s' va pa ↔ maps booted va pa)
       ∧ ∀ k, 0 ≤ k < 3 → ∃ f, free_frame (kernel_pool booted) f
           ∧ ∀ o, 0 ≤ o < 4096 → maps s' (r + k * 4096 + o) (f + o)).
Proof. apply (malloc_page_kernel_correct booted 3 (proj1 booted_ok)). lia. Defined.

Lemma malloc_mfree_roundtrip_witness :
  malloc_page PF_KERNEL 3 booted = Ok (0xc0100000, run_state (malloc_page PF_KERNEL 3 booted)) ∧
  ∃ s2, mfree_page PF_KERNEL 0xc0100000 3 (run_state (malloc_page PF_KERNEL 3 booted)) = Ok ((), s2) ∧ mem_ok s2
    ∧ (∀ va pa, maps s2 va pa ↔ maps booted va pa)
    ∧ (∀ f, is_free s2 f ↔ is_free booted f)
    ∧ ∀ j, 0 ≤ j → used (vaddr_map (kernel_vaddr s2)) j = used (vaddr_map (kernel_vaddr booted)) j.
Proof.
  assert (malloc_page PF_KERNEL 3 booted = Ok (0xc0100000, run_state (malloc_page PF_KERNEL 3 booted))) as H.
  { apply run_val_state. vm_compute. reflexivity. }
  split; [exact H|].
  apply (malloc_mfree_roundtrip booted 3 0xc0100000 (run_state (malloc_page PF_KERNEL 3 booted)) (proj1 booted_ok));
    [lia|vm_compute; discriminate|exact H|discriminate].
Defined.

Lemma get_kernel_pages_correct_witness :
  ∃ r s', get_kernel_pages 2 booted = Ok (r, s') ∧ mem_ok s'
    ∧ (∀ va pa, maps booted va pa → maps s' va pa)
    ∧ (r = NULL ∨ r mod 4096 = 0
       ∧ (∀ k, 0 ≤ k < 2 → ∀ pa, ¬ maps booted (r + k * 4096) pa)
       ∧ ∀ k j, 0 ≤ k < 2 → 0 ≤ j < 1024 → vload (r + k * 4096 + 4 * j) s' = Ok (0, s')).
Proof. apply (get_kernel_pages_correct booted 2 (proj1 booted_ok)). lia. Defined.

(** A user address whose table does not exist yet: 0x8048000, on the frame
    the user pool hands out first. *)
Definition booted_frame : kstate := run_state (palloc PF_USER booted).

Lemma palloc_user_frame s m c : mem_ok s ∧ phys s = m ∧ cr3 s = c → run_val (palloc PF_USER s) ≠ Some NULL →
  ∃ f, let s' := run_state (palloc PF_USER s) in mem_ok s' ∧ fresh_frame s' f ∧ phys s' = m ∧ cr3 s' = c
    ∧ kernel_vaddr s' = kernel_vaddr s ∧ kernel_pool s' = kernel_pool s.
Proof.
  intros (Hm & Hp & Hc) Hx.
  destruct (wp_inv _ _ _ (palloc_mem_ok PF_USER s Hm)) as (f & s' & Hrun & H).
  exists f. rewrite Hrun in *. cbn [run_state run_val] in *.
  destruct H as [(-> & _)|(_ & H1 & H2 & _ & _ & _ & p' & -> & _)]; [done|].
  split_and!; done.
Qed.

Lemma booted_frame_ok : ∃ f, mem_ok booted_frame
  ∧ fresh_frame booted_frame f ∧ phys booted_frame = boot_phys ∧ cr3 booted_frame = 0x100000
  ∧ kernel_vaddr booted_frame = kernel_vaddr booted ∧ kernel_pool booted_frame = kernel_pool booted.
Proof.
  apply (palloc_user_frame booted boot_phys 0x100000 booted_ok).
  intros H. assert (run_val (palloc PF_USER booted) = Some 0x240000) as H' by (vm_compute; reflexivity).
  rewrite H' in H. discriminate H.
Qed.

Lemma booted_free_frame : free_frame (kernel_pool booted) 0x200000.
Proof. exists 0. vm_compute. split_and!; done. Qed.

Lemma booted_kva : vaddr_start (kernel_vaddr booted) = 0xc0100000.
Proof. vm_compute. reflexivity. Qed.

Lemma page_table_add_correct_witness : ∃ f,
  ∃ s', page_table_add 0x8048000 f booted_frame = Ok ((), s') ∧ mem_ok s'
    ∧ ∀ va' pa, maps s' va' pa ↔
        if decide (va' / 4096 = 0x8048000 / 4096) then in_space va' ∧ pa = f + va' mod 4096
        else maps booted_frame va' pa.
Proof.
  destruct booted_frame_ok as (f & Hm & Hff & Ep & Ec & Ev & Ek). exists f.
  apply (page_table_add_correct booted_frame 0x8048000 f Hm Hff).
  - unfold in_space. lia.
  - intros pa [Hin H]. rewrite Ep, Ec in H. apply (boot_translate _ _ Hin) in H. lia.
  - intros i Hi. rewrite Ev, booted_kva. intros Hr. exfalso. unfold pg in Hr.
    change (0x8048000 / 4096) with 32840 in Hr. lia.
  - right. exists 0x200000. rewrite Ek. exact booted_free_frame.
Defined.

(** A failed allocation is not undone.  On a machine with eight kernel
    frames, all free, a request for nine pages returns NULL and leaves no
    kernel frame free: [malloc_page] gives back neither the frames nor the
    virtual pages it had already taken. *)
Theorem malloc_page_leaks :
  let s := run_state (mem_pool_init (λ _, 0) 0x210000 boot_state) in
  mem_ok s ∧ (∀ i, 0 ≤ i < 8 → free_frame (kernel_pool s) (0x200000 + i * 4096)) ∧
  ∃ s', malloc_page PF_KERNEL 9 s = Ok (NULL, s') ∧ ∀ f, ¬ free_frame (kernel_pool s') f.
Proof.
  intros s. split; [|split].
  - unfold s. destruct (wp_inv _ _ _ (mem_pool_init_ok (λ _, 0) 0x210000 boot_state)) as (u & s' & Hrun & Hb).
    rewrite Hrun. cbn [run_state]. by eapply pools_built_mem_ok, Hb.
  - intros i Hi. exists i. split_and!; [lia| | |].
    + replace (nbits (pool_map (kernel_pool s))) with 8 by (vm_compute; reflexivity). lia.
    + assert (forallb (λ i, negb (used (pool_map (kernel_pool s)) i)) (seqZ 0 8) = true) as H by (vm_compute; reflexivity).
      apply negb_true_iff. by apply (seqZ_forallb _ 0 8 H).
    + replace (phy_addr_start (kernel_pool s)) with 0x200000 by (vm_compute; reflexivity). lia.
  - exists (run_state (malloc_page PF_KERNEL 9 s)).
    set (s' := run_state (malloc_page PF_KERNEL 9 s)).
    assert (run_val (malloc_page PF_KERNEL 9 s) = Some NULL) as H1 by (vm_compute; reflexivity).
    split; [exact (run_val_state _ _ H1)|]. intros f (i & Hi & Hu & _).
    replace (nbits (pool_map (kernel_pool s'))) with 8 in Hi by (vm_compute; reflexivity).
    assert (forallb (used (pool_map (kernel_pool s'))) (seqZ 0 8) = true) as H by (vm_compute; reflexivity).
    rewrite (seqZ_forallb _ 0 8 H) in Hu by lia. discriminate Hu.
Qed.
