(* ===== verification/Sched.v ===== *)
(** * thread/thread.c, userprog/process.c, device/time.c: the scheduler

    The state changes of [schedule] and of everything that calls it, down to
    the switch of stacks, page directory and TSS.  After [switch_to] the
    processor runs the next thread: the code after a call of [schedule]
    (restoring the interrupt flag) is run by the same thread when it is
    scheduled again, so [thread_block] and [thread_yield] return the saved flag
    and stop at the switch.  The static [thread_tag] of thread.c holds the
    popped element and is never read elsewhere. *)
From S2P Require Import Prelude CString Bitmap Machine DList Mmu PageMem.

Definition KERNEL_PAGE_DIR : Z := 0x100000.

(** ** Address spaces and stacks *)
Definition update_tss_esp (pthread : Z) : K unit :=
  modify (set_tss_esp0 (u32 (pthread + PG_SIZE))).

Definition page_dir_activate (p_thread : Z) : K unit :=
  t ← ld_task p_thread;
  pagedir_phy_addr ← (if negb (pgdir t =? NULL) then addr_v2p (pgdir t) else mret KERNEL_PAGE_DIR);
  modify (set_cr3 pagedir_phy_addr).

Definition process_active (p_thread : Z) : K unit :=
  kassert (negb (p_thread =? NULL)) ;;
  page_dir_activate p_thread ;;
  t ← ld_task p_thread;
  if negb (pgdir t =? NULL) then update_tss_esp p_thread else mret ().

(** thread/switch.S: the call pushes the return address and switch_to pushes
    four registers; the stack pointer is saved and the other one restored. *)
Definition switch_frame : Z := 20.
Definition switch_to (cur next : Z) : K unit :=
  sp ← gets esp;
  upd_task cur (set_self_kstack (sp - switch_frame)) ;;
  t ← ld_task next;
  modify (set_esp (self_kstack t + switch_frame)).

(** ** thread.c *)
Definition is_waiting (st : TaskStatus) : bool :=
  bool_decide (st = TASK_BLOCKED) || bool_decide (st = TASK_WAITING) || bool_decide (st = TASK_HANGING).

Definition thread_unblock (pthread : Z) : K unit :=
  old_status ← intr_disable;
  t ← ld_task pthread;
  let stat := status t in
  kassert (is_waiting stat) ;;
  (if decide (stat ≠ TASK_READY) then
     rl ← gets (λ s, thread_ready_list (glob s));
     found ← list_find rl (general_tag pthread);
     kassert (negb found) ;;
     list_push rl (general_tag pthread) ;;
     upd_task pthread (set_status TASK_READY)
   else mret ()) ;;
  _ ← intr_set_status old_status;
  mret ().

Definition schedule : K unit :=
  st ← intr_get_status;
  kassert (bool_decide (st = INTR_OFF)) ;;
  cur ← running_thread;
  rl ← gets (λ s, thread_ready_list (glob s));
  t ← ld_task cur;
  (if decide (status t = TASK_RUNNING) then
     found ← list_find rl (general_tag cur);
     kassert (negb found) ;;
     list_append rl (general_tag cur) ;;
     upd_task cur (λ t, set_ticks (priority t) t) ;;
     upd_task cur (set_status TASK_READY)
   else mret ()) ;;
  empty ← list_empty rl;
  (if (empty : bool) then idle ← gets (λ s, idle_thread (glob s)); thread_unblock idle else mret ()) ;;
  thread_tag ← list_pop rl;
  let next := elem2entry 68 thread_tag in
  upd_task next (set_status TASK_RUNNING) ;;
  process_active next ;;
  switch_to cur next.

Definition thread_block (stat : TaskStatus) : K IntrStatus :=
  kassert (is_waiting stat) ;;
  old_status ← intr_disable;
  cur_thread ← running_thread;
  upd_task cur_thread (set_status stat) ;;
  schedule ;;
  mret old_status.

Definition thread_yield : K IntrStatus :=
  cur ← running_thread;
  oldStatus ← intr_disable;
  rl ← gets (λ s, thread_ready_list (glob s));
  found ← list_find rl (general_tag cur);
  kassert (negb found) ;;
  list_append rl (general_tag cur) ;;
  upd_task cur (set_status TASK_READY) ;;
  schedule ;;
  mret oldStatus.

(** device/time.c: the handler of the timer interrupt. *)
Definition intr_timer_handler : K unit :=
  cur_thread ← running_thread;
  t ← ld_task cur_thread;
  kassert (stack_magic t =? STACK_MAGIC) ;;
  upd_task cur_thread (λ t, set_elapsed_ticks (u32 (elapsed_ticks t + 1)) t) ;;
  modify (λ s, set_ticks_total (u32 (ticks_total s + 1)) s) ;;
  t ← ld_task cur_thread;
  if ticks t =? 0 then schedule
  else upd_task cur_thread (λ t, set_ticks (u8 (ticks t - 1)) t).

(** ** The invariant of the scheduler *)
Definition cur (s : kstate) : Z := Z.land (esp s) 0xfffff000.
Definition ready (s : kstate) : Z := thread_ready_list (glob s).
Definition idle (s : kstate) : Z := idle_thread (glob s).

(** A PCB fills the start of its page, its kernel stack the end; [off] is the
    saved stack pointer's distance from the page start. *)
Record pcb_ok (p : Z) (t : TaskStruct) : Prop := {
  pk_page : p mod 4096 = 0;
  pk_range : 0 < p < 2 ^ 32 - 4096;
  pk_stack : p < self_kstack t ∧ self_kstack t + switch_frame < p + 4096;
  pk_magic : stack_magic t = STACK_MAGIC;
}.

(** The page directories of the kernel and of all tasks are self mapped, and
    through each of them every task's directory is found at the same frame. *)
Definition dirs_ok (m : gmap Z Z) (ts : gmap Z TaskStruct) (pd : Z → Z) : Prop :=
  let is_dir d := d = KERNEL_PAGE_DIR ∨ ∃ p t, ts !! p = Some t ∧ pgdir t ≠ NULL ∧ d = pd (pgdir t) in
  ∀ d, is_dir d → dir_ok m d ∧
    ∀ p t, ts !! p = Some t → pgdir t ≠ NULL → 0 ≤ pgdir t < 2 ^ 32 ∧ translate m d (pgdir t) = Some (pd (pgdir t)).

(** The directory a task runs on. *)
Definition dir_of (pd : Z → Z) (t : TaskStruct) : Z :=
  if pgdir t =? NULL then KERNEL_PAGE_DIR else pd (pgdir t).

Record sched_ok (pd : Z → Z) (L : gmap Z (list Z)) (rq : list Z) (s : kstate) : Prop := {
  so_lists : lrep (links s) L;
  so_ready : L !! ready s = Some (general_tag <$> rq);
  so_rq p : p ∈ rq ↔ ∃ t, tasks s !! p = Some t ∧ status t = TASK_READY;
  so_pcb p t : tasks s !! p = Some t → pcb_ok p t;
  so_esp : 0 ≤ esp s < 2 ^ 32 ∧ cur s + switch_frame < esp s;
  so_cur : ∃ t, tasks s !! cur s = Some t ∧ cr3 s = dir_of pd t;
  so_run p t : tasks s !! p = Some t → status t = TASK_RUNNING → p = cur s;
  so_cur_tag t : tasks s !! cur s = Some t → status t = TASK_RUNNING → fresh_node L (general_tag (cur s));
  so_idle : ∃ t, tasks s !! idle s = Some t ∧ status t ≠ TASK_DIED
              ∧ (is_waiting (status t) = true → fresh_node L (general_tag (idle s)));
  so_dirs : dirs_ok (phys s) (tasks s) pd;
}.

(** ** Updates of one PCB *)
Lemma ld_task_eq s p t : tasks s !! p = Some t → ld_task p s = Ok (t, s).
Proof. intros H. unfold ld_task, mbind, K_bind, gets. by rewrite H. Qed.

Lemma upd_task_eq s p t f : tasks s !! p = Some t →
  upd_task p f s = Ok ((), set_tasks (<[p := f t]> (tasks s)) s).
Proof. intros H. unfold upd_task, mbind, K_bind. rewrite (ld_task_eq _ _ _ H). done. Qed.

Lemma general_tag_inj p q : general_tag p = general_tag q → p = q.
Proof. unfold general_tag. lia. Qed.

Lemma dirs_ok_insert m ts pd p t t' : ts !! p = Some t → pgdir t' = pgdir t →
  dirs_ok m ts pd → dirs_ok m (<[p := t']> ts) pd.
Proof.
  intros Hp E Hd d Hdir.
  assert (∀ q u, <[p := t']> ts !! q = Some u → ∃ u0, ts !! q = Some u0 ∧ pgdir u0 = pgdir u) as Hex.
  { intros q u. rewrite lookup_insert_Some. intros [[<- <-]|[? ?]]; eauto. }
  destruct (Hd d) as [H1 H2].
  { destruct Hdir as [->|(q & u & Hq & Hne & ->)]; [by left|right].
    destruct (Hex _ _ Hq) as (u0 & Hu0 & Eu). exists q, u0. by rewrite Eu. }
  split; [done|]. intros q u Hq Hne. destruct (Hex _ _ Hq) as (u0 & Hu0 & Eu). rewrite <- Eu in *. eauto.
Qed.

Lemma fresh_node_update L p xs ys e : L !! p = Some xs → fresh_node L e → e ∉ ys →
  fresh_node (<[p := ys]> L) e.
Proof.
  intros Hp [H0 Hf] Hy. split; [done|]. intros q zs. rewrite lookup_insert_Some. intros [[<- <-]|[_ Hq]]; [|eauto].
  specialize (Hf _ _ Hp). unfold nodes in *. set_solver.
Qed.

(** One PCB and the ready list change; what the invariant asks of the change. *)
Lemma sched_ok_upd pd L rq s p t t' h' L' rq' :
  sched_ok pd L rq s → tasks s !! p = Some t → pgdir t' = pgdir t → pcb_ok p t' →
  lrep h' L' → L' !! ready s = Some (general_tag <$> rq') →
  (∀ q, q ∈ rq' ↔ if decide (q = p) then status t' = TASK_READY else q ∈ rq) →
  (status t' = TASK_RUNNING → p = cur s ∧ fresh_node L' (general_tag p)) →
  (∀ e, e ≠ general_tag p → fresh_node L e → fresh_node L' e) →
  (p = idle s → status t' ≠ TASK_DIED ∧ (is_waiting (status t') = true → fresh_node L' (general_tag p))) →
  sched_ok pd L' rq' (set_tasks (<[p := t']> (tasks s)) (set_links h' s)).
Proof.
  intros [S1 S2 S3 S4 Se S5 S6 S7 S8 S9] Hp Epg Hpk Hl Hr Hrq Hrun Hfr Hid.
  split; unfold cur, ready, idle in *; cbn [links tasks glob esp cr3 phys set_tasks set_links]; try done.
  - intros q. rewrite Hrq. case_decide as E.
    + subst. rewrite lookup_insert_eq. split; [eauto|]. intros (u & [= <-] & ?). done.
    + rewrite lookup_insert_ne by done. apply S3.
  - intros q u. rewrite lookup_insert_Some. intros [[<- <-]|[_ Hq]]; eauto.
  - destruct S5 as (u & Hu & Ec). destruct (decide (p = Z.land (esp s) 0xfffff000)) as [->|].
    + exists t'. rewrite lookup_insert_eq. split; [done|]. unfold dir_of. rewrite Epg.
      rewrite Hp in Hu. by simplify_eq.
    + exists u. by rewrite lookup_insert_ne.
  - intros q u. rewrite lookup_insert_Some. intros [[<- <-]|[_ Hq]]; [|by eauto]. intros Hs. by apply Hrun.
  - intros u. rewrite lookup_insert_Some. intros [[<- <-]|[Hne Hq]] Hs; [by apply Hrun|].
    apply Hfr; [|by eapply S7]. intros E%general_tag_inj. done.
  - destruct S8 as (u & Hu & Hd & Hw). destruct (decide (p = idle_thread (glob s))) as [->|Hne].
    + exists t'. rewrite lookup_insert_eq. split; [done|]. by apply Hid.
    + exists u. rewrite lookup_insert_ne by done. split_and!; [done|done|]. intros Hw'. apply Hfr; [|by apply Hw].
      intros E%general_tag_inj. done.
  - by eapply dirs_ok_insert.
Qed.

(** A change of a PCB that no list sees. *)
Lemma sched_ok_same pd L rq s p t t' :
  sched_ok pd L rq s → tasks s !! p = Some t → pgdir t' = pgdir t → self_kstack t' = self_kstack t →
  status t' = status t → stack_magic t' = stack_magic t → sched_ok pd L rq (set_tasks (<[p := t']> (tasks s)) s).
Proof.
  intros HS Hp Epg Ek Es Em. replace s with (set_links (links s) s) at 2 by by destruct s.
  destruct (so_pcb _ _ _ _ HS _ _ Hp) as [P1 P2 P3 P4].
  apply (sched_ok_upd pd L rq s p t t' (links s) L rq); [done|done|done| |apply HS|apply HS| | |done|].
  - split; [done|done|by rewrite Ek|by rewrite Em].
  - intros q. case_decide as E; [|done]. subst. rewrite Es. split.
    + intros (u & Hu & ?)%(so_rq _ _ _ _ HS). congruence.
    + intros. apply (so_rq _ _ _ _ HS). eauto.
  - rewrite Es. intros Hr. pose proof (so_run _ _ _ _ HS _ _ Hp Hr) as ->. split; [done|].
    by eapply (so_cur_tag _ _ _ _ HS).
  - intros ->. destruct (so_idle _ _ _ _ HS) as (u & Hu & Hd & Hw). rewrite Hu in Hp. simplify_eq.
    rewrite Es. split; done.
Qed.

(** ** The operations on the ready list *)
Lemma fresh_not_in L p xs e : L !! p = Some xs → fresh_node L e → bool_decide (e ∈ xs) = false.
Proof. intros Hp [_ Hf]. apply bool_decide_false. specialize (Hf _ _ Hp). unfold nodes in Hf. set_solver. Qed.

(** The check-then-insert sequence of thread.c, from a heap that holds [L]. *)
Lemma wp_ready_insert {A} s L xs e (front : bool) (k : K A) Q :
  lrep (links s) L → L !! ready s = Some xs → fresh_node L e →
  (∀ h', lrep h' (<[ready s := if front then e :: xs else xs ++ [e]]> L) → wp k (set_links h' s) Q) →
  wp (found ← list_find (ready s) e;
      kassert (negb found) ;;
      (if front then list_push (ready s) e else list_append (ready s) e) ;; k) s Q.
Proof.
  intros HL Hr Hf HQ. apply wp_bind. eapply wp_eq; [by eapply list_find_ok|].
  apply wp_bind, wp_kassert; [by erewrite fresh_not_in|]. apply wp_bind.
  destruct front.
  - eapply wp_mono; [by eapply list_push_ok|]. intros u s' (h' & -> & Hl). by apply HQ.
  - eapply wp_mono; [by eapply list_append_ok|]. intros u s' (h' & -> & Hl). by apply HQ.
Qed.

Section unblock.
Context (pd : Z → Z) (L : gmap Z (list Z)) (rq : list Z) (s : kstate) (p : Z) (t : TaskStruct).
Hypothesis (HS : sched_ok pd L rq s) (Hp : tasks s !! p = Some t).
Hypothesis (Hw : is_waiting (status t) = true) (Hf : fresh_node L (general_tag p)).
Let L' := <[ready s := general_tag <$> p :: rq]> L.

Lemma unblock_inv h' : lrep h' L' →
  sched_ok pd L' (p :: rq) (set_tasks (<[p := set_status TASK_READY t]> (tasks s)) (set_links h' s)).
Proof.
  intros Hl. destruct (so_pcb _ _ _ _ HS _ _ Hp) as [P1 P2 P3 P4].
  eapply sched_ok_upd; [done|done|done|by split|done|by apply lookup_insert_eq| |done| |done].
  - intros q. rewrite elem_of_cons. case_decide; [tauto|]. naive_solver.
  - intros e Hne He. eapply fresh_node_update; [apply HS|done|].
    pose proof (proj2 He _ _ (so_ready _ _ _ _ HS)). unfold nodes in *. set_solver.
Qed.

Lemma thread_unblock_ok : wp (thread_unblock p) s (λ _ s', sched_ok pd L' (p :: rq) s'
  ∧ ∃ h', s' = set_tasks (<[p := set_status TASK_READY t]> (tasks s)) (set_links h' s)).
Proof.
  unfold thread_unblock. apply wp_bind, wp_intr_disable. apply wp_bind. eapply wp_eq; [by apply ld_task_eq|].
  apply wp_bind, wp_kassert; [done|]. apply wp_bind.
  rewrite decide_True by (intros E; by rewrite E in Hw).
  kstep. kstep.
  apply (wp_ready_insert (set_intr INTR_OFF s) L (general_tag <$> rq) (general_tag p) true); [apply HS|apply HS|done|].
  intros h' Hl. eapply wp_eq; [by apply upd_task_eq|]. apply wp_bind, wp_intr_set_status. kstep.
  replace (set_intr _ _) with (set_tasks (<[p := set_status TASK_READY t]> (tasks s)) (set_links h' s))
    by by destruct s.
  split; [by apply unblock_inv|eauto].
Qed.
End unblock.

(** The running thread goes to the back of the queue. *)
Section requeue.
Context (pd : Z → Z) (L : gmap Z (list Z)) (rq : list Z) (s : kstate) (t t' : TaskStruct).
Hypothesis (HS : sched_ok pd L rq s) (Hc : tasks s !! cur s = Some t) (Hr : status t = TASK_RUNNING).
Hypothesis (Ht' : status t' = TASK_READY) (Epg : pgdir t' = pgdir t) (Ek : self_kstack t' = self_kstack t).
Hypothesis Em : stack_magic t' = stack_magic t.
Let L' := <[ready s := general_tag <$> rq ++ [cur s]]> L.

Lemma requeue_inv h' : lrep h' L' →
  sched_ok pd L' (rq ++ [cur s]) (set_tasks (<[cur s := t']> (tasks s)) (set_links h' s)).
Proof.
  intros Hl. destruct (so_pcb _ _ _ _ HS _ _ Hc) as [P1 P2 P3 P4].
  eapply sched_ok_upd; [done|done|done|split; [done|done|by rewrite Ek|by rewrite Em]|done|by apply lookup_insert_eq| | | |].
  - intros q. rewrite elem_of_app, list_elem_of_singleton. case_decide; [subst; tauto|]. naive_solver.
  - intros E. congruence.
  - intros e Hne He. eapply fresh_node_update; [apply HS|done|].
    pose proof (proj2 He _ _ (so_ready _ _ _ _ HS)). unfold nodes in *.
    rewrite fmap_app. simpl. set_solver.
  - rewrite Ht'. intros _. split; [done|]. intros [=].
Qed.
End requeue.

(** ** Switching to the thread at the head of the queue *)
Lemma cur_page s p t : pcb_ok p t → esp s = self_kstack t + switch_frame → cur s = p ∧ 0 ≤ esp s < 2 ^ 32 ∧ cur s + switch_frame < esp s.
Proof.
  intros [P1 P2 P3 P4] E. unfold cur. unfold switch_frame in *. rewrite E, land_pg by lia. unfold pg.
  assert (4096 * ((self_kstack t + 20) / 4096) = p) as -> by (Z.div_mod_to_equations; lia). lia.
Qed.

Section switch.
Context (pd : Z → Z) (L : gmap Z (list Z)) (rq : list Z) (s : kstate) (n : Z) (tc tn : TaskStruct) (x : Z).
Hypothesis (HS : sched_ok pd L rq s) (Hc : tasks s !! cur s = Some tc).
Hypothesis Hnr : ∀ p t, tasks s !! p = Some t → status t ≠ TASK_RUNNING.
Let ts1 := <[cur s := set_self_kstack (esp s - switch_frame) tc]> (tasks s).
Hypothesis Hn : ts1 !! n = Some tn.
Let s' := set_esp (self_kstack tn + switch_frame) (set_tss_esp0 x (set_cr3 (dir_of pd tn) (set_tasks ts1 s))).

Lemma switch_pcb p t : ts1 !! p = Some t → pcb_ok p t ∧ ∃ t0, tasks s !! p = Some t0
  ∧ status t = status t0 ∧ pgdir t = pgdir t0.
Proof.
  unfold ts1. rewrite lookup_insert_Some. intros [[<- <-]|[_ Hp]].
  - split; [|by eauto]. destruct (so_pcb _ _ _ _ HS _ _ Hc) as [P1 P2 P3 P4].
    destruct (so_esp _ _ _ _ HS) as [E1 E2]. split; [done|done| |done]. simpl. unfold switch_frame in *.
    unfold cur in *. rewrite land_pg in * by done. unfold pg in *. Z.div_mod_to_equations. lia.
  - split; [by eapply (so_pcb _ _ _ _ HS)|eauto].
Qed.

Lemma switch_cur : cur s' = n ∧ 0 ≤ esp s' < 2 ^ 32 ∧ cur s' + switch_frame < esp s'.
Proof. apply (cur_page s' n tn); [by apply switch_pcb|done]. Qed.

Lemma switch_inv : sched_ok pd L rq s'.
Proof.
  destruct (HS) as [S1 S2 S3 S4 Se S5 S6 S7 S8 S9]. destruct switch_cur as (Ecur & E1 & E2).
  split; try done.
  - intros p. rewrite S3. change (tasks s') with ts1. split.
    + intros (t & Hp & Hs). unfold ts1. destruct (decide (p = cur s)) as [->|].
      * rewrite lookup_insert_eq. rewrite Hc in Hp. simplify_eq. eauto.
      * rewrite lookup_insert_ne by done. eauto.
    + intros (t & (_ & t0 & H1 & H2 & _)%switch_pcb & Hs). exists t0. by rewrite <- H2.
  - intros p t (Hpk & _)%switch_pcb. done.
  - rewrite Ecur. exists tn. split; [exact Hn|done].
  - intros p t (_ & t0 & H1 & H2 & _)%switch_pcb Hs. exfalso. eapply Hnr; [exact H1|congruence].
  - intros t (_ & t0 & H1 & H2 & _)%switch_pcb Hs. exfalso. eapply Hnr; [exact H1|congruence].
  - destruct S8 as (t & Ht & Hd & Hw). unfold idle in *. change (tasks s') with ts1. change (glob s') with (glob s).
    unfold ts1. destruct (decide (cur s = idle_thread (glob s))) as [E|].
    + rewrite <- E, lookup_insert_eq in *. rewrite Hc in Ht. simplify_eq. eexists. done.
    + rewrite lookup_insert_ne by done. eauto.
  - by eapply dirs_ok_insert.
Qed.
End switch.

(** Loading the page directory and TSS of [n]. *)
Lemma process_active_ok pd L rq s ts h n t :
  sched_ok pd L rq s → n ≠ NULL → ts !! n = Some t →
  (∀ p u, ts !! p = Some u → ∃ u0, tasks s !! p = Some u0 ∧ pgdir u0 = pgdir u) →
  process_active n (set_tasks ts (set_links h s)) =
    Ok ((), set_tss_esp0 (if pgdir t =? NULL then tss_esp0 s else u32 (n + PG_SIZE))
              (set_cr3 (dir_of pd t) (set_tasks ts (set_links h s)))).
Proof.
  intros HS Hn Ht Hsub. unfold process_active, kassert, page_dir_activate. destruct (Z.eqb_spec n NULL); [done|].
  unfold mbind, K_bind. cbn [lift negb ASSERT]. rewrite (ld_task_eq (set_tasks ts (set_links h s)) n t Ht).
  unfold dir_of. destruct (Z.eqb_spec (pgdir t) NULL) as [E|Hne]; cbn [negb].
  - unfold mret, K_ret, modify. rewrite (ld_task_eq (set_cr3 _ (set_tasks ts (set_links h s))) n t Ht).
    rewrite E. cbn [Z.eqb negb]. by destruct s.
  - destruct (so_cur _ _ _ _ HS) as (tc & Hc & Ecr). destruct (Hsub _ _ Ht) as (t0 & Ht0 & E0).
    destruct (so_dirs _ _ _ _ HS (cr3 s)) as [Hd Htr].
    { unfold dir_of in Ecr. destruct (Z.eqb_spec (pgdir tc) NULL); [by left|]. right. by exists (cur s), tc. }
    destruct (Htr n t0 Ht0) as [Hr Hx]; [congruence|]. rewrite E0 in *.
    rewrite (addr_v2p_ok (set_tasks ts (set_links h s)) (pgdir t) (pd (pgdir t)) Hd Hr Hx). unfold modify.
    rewrite (ld_task_eq (set_cr3 _ (set_tasks ts (set_links h s))) n t Ht).
    destruct (Z.eqb_spec (pgdir t) NULL); [done|]. done.
Qed.

(** What a dispatch of thread [n] leaves. *)
Record dispatched (s s' : kstate) (n : Z) : Prop := {
  di_cur : cur s' = n;
  di_run t : tasks s' !! n = Some t → status t = TASK_RUNNING;
  di_tss t : tasks s' !! n = Some t → pgdir t ≠ NULL → tss_esp0 s' = n + 4096;
  di_next t : tasks s !! n = Some t → n ≠ cur s → tasks s' !! n = Some (set_status TASK_RUNNING t)
    ∧ esp s' = self_kstack t + switch_frame;
  di_prev t : tasks s !! cur s = Some t → cur s ≠ n →
    tasks s' !! cur s = Some (set_self_kstack (esp s - switch_frame) t);
  di_others p : p ≠ n → p ≠ cur s → tasks s' !! p = tasks s !! p;
  di_frame : ∃ h ts c x e, s' = set_esp e (set_tss_esp0 x (set_cr3 c (set_tasks ts (set_links h s))));
}.

Lemma elem2entry_tag p : 0 < p < 2 ^ 32 - 4096 → elem2entry 68 (general_tag p) = p.
Proof. intros. unfold elem2entry, general_tag. rewrite u32_id; lia. Qed.

Section dispatch.
Context (pd : Z → Z) (L : gmap Z (list Z)) (n : Z) (r : list Z) (s : kstate) (tc : TaskStruct).
Hypothesis (HS : sched_ok pd L (n :: r) s) (Hc : tasks s !! cur s = Some tc).
Hypothesis Hnr : ∀ p t, tasks s !! p = Some t → status t ≠ TASK_RUNNING.
Let L' := <[ready s := general_tag <$> r]> L.
Let ts1 := <[cur s := set_self_kstack (esp s - switch_frame) tc]> (tasks s).

Lemma dispatch_inv tn h' x : ts1 !! n = Some tn → lrep h' L' → fresh_node L' (general_tag n) →
  let s' := set_esp (self_kstack tn + switch_frame) (set_tss_esp0 x (set_cr3 (dir_of pd tn)
              (set_tasks (<[n := set_status TASK_RUNNING tn]> ts1) (set_links h' s)))) in
  sched_ok pd L' r s'.
Proof.
  intros Hn Hl Hf s'. pose proof (switch_inv pd L (n :: r) s n tc tn x HS Hc Hnr Hn) as HA.
  pose proof (switch_cur pd L (n :: r) s n tc tn x HS Hc Hn) as (Ecur & _).
  destruct (so_pcb _ _ _ _ HA n tn Hn) as [P1 P2 P3 P4].
  apply (sched_ok_upd _ _ _ _ n tn (set_status TASK_RUNNING tn) h' L' r HA Hn).
  - done.
  - by split.
  - done.
  - apply lookup_insert_eq.
  - assert (NoDup (n :: r)) as [Hnr' _]%NoDup_cons.
    { pose proof (lrep_nodup _ _ (so_lists _ _ _ _ HS) _ _ (so_ready _ _ _ _ HS)) as Hnd.
      by apply NoDup_fmap_1 in Hnd. }
    intros q. case_decide as E; [subst; split; [done|intros [=]]|]. rewrite elem_of_cons. naive_solver.
  - intros _. by rewrite Ecur.
  - intros e Hne He. eapply fresh_node_update; [apply HS|done|].
    pose proof (proj2 He _ _ (so_ready _ _ _ _ HS)). unfold nodes in *. set_solver.
  - intros _. split; [done|]. intros [=].
Qed.

Lemma dispatch_ok :
  wp (thread_tag ← list_pop (ready s);
      let next := elem2entry 68 thread_tag in
      upd_task next (set_status TASK_RUNNING) ;;
      process_active next ;; switch_to (cur s) next) s
     (λ _ s', sched_ok pd L' r s' ∧ dispatched s s' n).
Proof.
  destruct (proj1 (so_rq _ _ _ _ HS n) ltac:(left)) as (t & Ht & Hst).
  destruct (so_pcb _ _ _ _ HS _ _ Ht) as [P1 P2 P3 P4].
  apply wp_bind. eapply wp_mono; [eapply list_pop_ok; [apply HS|apply HS]|].
  intros e s1 (-> & (h' & -> & Hl) & Hf). cbn zeta. rewrite elem2entry_tag by done.
  apply wp_bind. eapply wp_eq; [by apply upd_task_eq|]. cbn [tasks set_links].
  set (ts := <[n := set_status TASK_RUNNING t]> (tasks s)).
  apply wp_bind. eapply wp_eq.
  { apply (process_active_ok pd L (n :: r) s ts h' n (set_status TASK_RUNNING t) HS); [unfold NULL; lia|apply lookup_insert_eq|].
    intros p u. unfold ts. rewrite lookup_insert_Some. intros [[<- <-]|[_ Hu]]; eauto. }
  unfold switch_to. kstep. kstep. apply wp_bind.
  set (tc' := if decide (n = cur s) then set_status TASK_RUNNING t else tc).
  eapply wp_eq.
  { apply (upd_task_eq _ _ tc'). cbn [tasks set_tss_esp0 set_cr3 set_tasks set_links]. unfold ts, tc'. case_decide as E.
    - by rewrite E, lookup_insert_eq.
    - by rewrite lookup_insert_ne. }
  cbn [tasks set_tss_esp0 set_cr3 set_tasks set_links esp].
  set (tn := if decide (n = cur s) then set_self_kstack (esp s - switch_frame) t else t).
  assert (ts1 !! n = Some tn) as Hn.
  { unfold ts1, tn. case_decide as E; [|by rewrite lookup_insert_ne].
    rewrite <- E, lookup_insert_eq in *. rewrite Ht in Hc. by simplify_eq. }
  assert (<[cur s := set_self_kstack (esp s - switch_frame) tc']> ts = <[n := set_status TASK_RUNNING tn]> ts1) as ->.
  { unfold ts, ts1, tc', tn. case_decide as E.
    - rewrite <- E, !insert_insert_eq. done.
    - by rewrite insert_insert_ne. }
  apply wp_bind. eapply wp_eq; [apply (ld_task_eq _ n (set_status TASK_RUNNING tn)); apply lookup_insert_eq|].
  kstep. assert (dir_of pd (set_status TASK_RUNNING t) = dir_of pd tn) as -> by (unfold tn; by case_decide).
  split; [exact (dispatch_inv tn h' _ Hn Hl Hf)|].
  pose proof (switch_cur pd L (n :: r) s n tc tn 0 HS Hc Hn) as (Ecur & _).
  split; cbn [tasks tss_esp0 esp set_esp set_tss_esp0 set_cr3 set_tasks set_links].
  - exact Ecur.
  - intros u. rewrite lookup_insert_eq. by intros [= <-].
  - intros u. rewrite lookup_insert_eq. intros [= <-] Hne.
    assert (pgdir (set_status TASK_RUNNING tn) = pgdir t) as E by (unfold tn; by case_decide). rewrite E in Hne.
    change (pgdir (set_status TASK_RUNNING t)) with (pgdir t).
    destruct (Z.eqb_spec (pgdir t) NULL); [done|]. unfold PG_SIZE. apply u32_id. lia.
  - intros u Hu Hne. rewrite lookup_insert_eq. unfold tn. rewrite decide_False by done.
    rewrite Ht in Hu. by simplify_eq.
  - intros u Hu Hne. rewrite lookup_insert_ne by done. unfold ts1. rewrite lookup_insert_eq.
    rewrite Hc in Hu. by simplify_eq.
  - intros p Hp1 Hp2. unfold ts1. by rewrite !lookup_insert_ne.
  - exists h', (<[n := set_status TASK_RUNNING tn]> ts1). eexists _, _, _. reflexivity.
Qed.
End dispatch.

(** ** schedule *)
Definition pick (rq : list Z) (idl : Z) : Z * list Z :=
  match rq with [] => (idl, []) | n :: r => (n, r) end.

(** The effect of a whole [schedule] that selects [n]; [f] is what happened to
    the PCB of the thread that called it. *)
Record switched (f : TaskStruct → TaskStruct) (s s' : kstate) (n : Z) : Prop := {
  sw_cur : cur s' = n;
  sw_run t : tasks s' !! n = Some t → status t = TASK_RUNNING;
  sw_tss t : tasks s' !! n = Some t → pgdir t ≠ NULL → tss_esp0 s' = n + 4096;
  sw_next t : tasks s !! n = Some t → n ≠ cur s → tasks s' !! n = Some (set_status TASK_RUNNING t)
    ∧ esp s' = self_kstack t + switch_frame;
  sw_prev t : tasks s !! cur s = Some t → cur s ≠ n →
    tasks s' !! cur s = Some (set_self_kstack (esp s - switch_frame) (f t));
  sw_others p : p ≠ n → p ≠ cur s → tasks s' !! p = tasks s !! p;
  sw_frame : ∃ h ts c x e, s' = set_esp e (set_tss_esp0 x (set_cr3 c (set_tasks ts (set_links h s))));
}.

Section finish.
Context (pd : Z → Z) (L : gmap Z (list Z)) (rq : list Z) (s : kstate) (tc : TaskStruct).
Hypothesis (HS : sched_ok pd L rq s) (Hc : tasks s !! cur s = Some tc).
Hypothesis Hnr : ∀ p t, tasks s !! p = Some t → status t ≠ TASK_RUNNING.

(** With an empty queue the idle thread is blocked and can be woken. *)
Lemma idle_waits : rq = [] → ∃ t, tasks s !! idle s = Some t ∧ is_waiting (status t) = true
  ∧ fresh_node L (general_tag (idle s)).
Proof.
  intros ->. destruct (so_idle _ _ _ _ HS) as (t & Ht & Hd & Hf).
  assert (is_waiting (status t) = true) as Hw.
  { pose proof (Hnr _ _ Ht). assert (status t ≠ TASK_READY) as Hr.
    { intros E. apply (not_elem_of_nil (idle s)). apply (so_rq _ _ _ _ HS). eauto. }
    by destruct (status t). }
  exists t. split_and!; [done|done|by apply Hf].
Qed.

Lemma finish_ok :
  wp (empty ← list_empty (ready s);
      (if (empty : bool) then idle ← gets (λ s, idle_thread (glob s)); thread_unblock idle else mret ()) ;;
      thread_tag ← list_pop (ready s);
      let next := elem2entry 68 thread_tag in
      upd_task next (set_status TASK_RUNNING) ;;
      process_active next ;; switch_to (cur s) next) s
     (λ _ s', let '(n, r) := pick rq (idle s) in
        sched_ok pd (<[ready s := general_tag <$> r]> L) r s' ∧ switched (λ t, t) s s' n).
Proof.
  apply wp_bind. eapply wp_mono; [eapply list_empty_ok; [apply HS|apply HS]|].
  intros b s0 [-> ->]. pose proof idle_waits as Hiw. destruct rq as [|n r]; cbn [pick].
  - rewrite bool_decide_true by done. destruct (Hiw eq_refl) as (t & Ht & Hw & Hf).
    apply wp_bind. kstep. kstep. fold (idle s). eapply wp_mono; [by eapply thread_unblock_ok|].
    intros u s1 [HS1 (h' & ->)]. set (s1 := set_tasks _ _) in *.
    set (tc1 := if decide (idle s = cur s) then set_status TASK_READY t else tc).
    assert (tasks s1 !! cur s1 = Some tc1) as Hc1.
    { unfold s1, tc1. change (cur (set_tasks _ _)) with (cur s). cbn [tasks set_tasks]. case_decide as E.
      - by rewrite E, lookup_insert_eq.
      - by rewrite lookup_insert_ne. }
    eapply wp_mono; [eapply (dispatch_ok pd _ (idle s) [] s1 tc1 HS1 Hc1)|].
    { intros p u'. unfold s1. cbn [tasks set_tasks]. rewrite lookup_insert_Some. intros [[<- <-]|[_ Hu]]; [done|eauto]. }
    intros u' s2 [HS2 [D1 D2 D3 D4 D5 D6 D7]]. change (ready s1) with (ready s) in *. change (cur s1) with (cur s) in *.
    change (esp s1) with (esp s) in *.
    rewrite insert_insert_eq in HS2. split; [done|]. split; [done|done|done| | | |].
    + intros u2 Hu2 Hne. rewrite Ht in Hu2. simplify_eq.
      destruct (D4 (set_status TASK_READY u2)) as [E1 E2]; [unfold s1; apply lookup_insert_eq|done|]. done.
    + intros u2 Hu2 Hne. apply D5; [|done]. unfold s1. cbn [tasks set_tasks]. by rewrite lookup_insert_ne by done.
    + intros p Hp1 Hp2. rewrite D6 by done. unfold s1. cbn [tasks set_tasks]. by rewrite lookup_insert_ne by done.
    + destruct D7 as (h2 & ts2 & c2 & x2 & e2 & ->). exists h2, ts2. eexists _, _, _. reflexivity.
  - rewrite bool_decide_false by done. apply wp_bind. kstep.
    eapply wp_mono; [by eapply (dispatch_ok pd L n r s tc)|].
    intros u s2 [HS2 [D1 D2 D3 D4 D5 D6 D7]]. split; [done|by split].
Qed.
End finish.

(** What [schedule] does to the PCB of its caller. *)
Definition requeued (t : TaskStruct) : TaskStruct :=
  if decide (status t = TASK_RUNNING) then set_status TASK_READY (set_ticks (priority t) t) else t.
Definition requeue (c : Z) (t : TaskStruct) (rq : list Z) : list Z :=
  if decide (status t = TASK_RUNNING) then rq ++ [c] else rq.

Lemma schedule_ok pd L rq s t :
  sched_ok pd L rq s → intr s = INTR_OFF → tasks s !! cur s = Some t →
  wp schedule s (λ _ s', let '(n, r) := pick (requeue (cur s) t rq) (idle s) in
    sched_ok pd (<[ready s := general_tag <$> r]> L) r s' ∧ switched requeued s s' n).
Proof.
  intros HS Hi Hc. unfold schedule. apply wp_bind. unfold intr_get_status. kstep. rewrite Hi.
  apply wp_bind, wp_kassert; [done|]. kstep. unfold running_thread. kstep. fold (cur s). kstep. kstep. fold (ready s).
  apply wp_bind. eapply wp_eq; [by apply ld_task_eq|]. apply wp_bind. unfold requeue, requeued.
  destruct (decide (status t = TASK_RUNNING)) as [Hr|Hr].
  - eapply (wp_ready_insert s L (general_tag <$> rq) _ false); [apply HS|apply HS|by eapply so_cur_tag|].
    intros h' Hl. apply wp_bind. eapply wp_eq; [by apply upd_task_eq|].
    eapply wp_eq; [apply upd_task_eq; apply lookup_insert_eq|]. cbn [tasks set_tasks set_links].
    rewrite insert_insert_eq. set (t' := set_status TASK_READY (set_ticks (priority t) t)).
    replace (set_tasks _ (set_tasks _ _)) with (set_tasks (<[cur s := t']> (tasks s)) (set_links h' s)) by done.
    set (s1 := set_tasks _ _). change (cur s) with (cur s1) at 2.
    change (ready s) with (ready s1).
    assert (sched_ok pd (<[ready s := general_tag <$> rq ++ [cur s]]> L) (rq ++ [cur s]) s1) as HS1.
    { apply (requeue_inv pd L rq s t t'); try done. by rewrite fmap_app. }
    eapply wp_mono; [eapply (finish_ok pd _ _ s1 t' HS1); [apply lookup_insert_eq|]|].
    { intros p u Hu Hs. pose proof (so_run _ _ _ _ HS1 _ _ Hu Hs) as ->.
      change (cur s1) with (cur s) in Hu. unfold s1 in Hu. cbn [tasks set_tasks] in Hu.
      rewrite lookup_insert_eq in Hu. by simplify_eq. }
    intros u s2. change (idle s1) with (idle s). change (ready s1) with (ready s).
    destruct (pick _ _) as [n r]. rewrite insert_insert_eq. intros [HS2 [D1 D2 D3 D4 D5 D6 D7]]. split; [done|].
    change (cur s1) with (cur s) in *. change (esp s1) with (esp s) in *.
    split; [done|done|done| | | |].
    + intros u2 Hu2 Hne. apply D4; [|done]. unfold s1. cbn [tasks set_tasks]. by rewrite lookup_insert_ne by done.
    + intros u2 Hu2 Hne. rewrite Hc in Hu2. simplify_eq. rewrite decide_True by done.
      apply D5; [|done]. apply lookup_insert_eq.
    + intros p Hp1 Hp2. rewrite D6 by done. unfold s1. cbn [tasks set_tasks]. by rewrite lookup_insert_ne by done.
    + destruct D7 as (h2 & ts2 & c2 & x2 & e2 & ->). exists h2, ts2. eexists _, _, _. reflexivity.
  - kstep. eapply wp_mono; [eapply (finish_ok pd L rq s t HS Hc)|].
    { intros p u Hu Hs. pose proof (so_run _ _ _ _ HS _ _ Hu Hs) as ->. congruence. }
    intros u s2. destruct (pick _ _) as [n r]. intros [HS2 [D1 D2 D3 D4 D5 D6 D7]]. split; [done|]. split; try done.
    intros u2 Hu2 Hne. rewrite Hc in Hu2. simplify_eq. rewrite decide_False by done. by apply D5.
Qed.

(** ** The callers of schedule *)
Lemma running_not_ready pd L rq s t : sched_ok pd L rq s → tasks s !! cur s = Some t →
  status t ≠ TASK_READY → cur s ∉ rq.
Proof. intros HS Hc Hs (u & Hu & E)%(so_rq _ _ _ _ HS). congruence. Qed.

(** The running thread takes a waiting status; its tag may already be in
    another list [L']. *)
Lemma wait_inv pd L L' rq s t st h' :
  sched_ok pd L rq s → tasks s !! cur s = Some t → status t = TASK_RUNNING → is_waiting st = true →
  lrep h' L' → L' !! ready s = L !! ready s →
  (∀ e, e ≠ general_tag (cur s) → fresh_node L e → fresh_node L' e) →
  (cur s = idle s → fresh_node L' (general_tag (cur s))) →
  sched_ok pd L' rq (set_tasks (<[cur s := set_status st t]> (tasks s)) (set_links h' s)).
Proof.
  intros HS Hc Hr Hw Hl Er Hfr Hid. destruct (so_pcb _ _ _ _ HS _ _ Hc) as [P1 P2 P3 P4].
  pose proof (running_not_ready _ _ _ _ _ HS Hc ltac:(congruence)) as Hnin.
  eapply (sched_ok_upd pd L rq s (cur s) t); [done|done|done|by split|done| | | |done|].
  - rewrite Er. apply HS.
  - intros q. case_decide as E; [|done]. subst. simpl. split; [done|]. intros ->. done.
  - simpl. intros ->. done.
  - intros E. simpl. split; [by intros ->|]. intros _. by apply Hid.
Qed.

Section block.
Context (pd : Z → Z) (L : gmap Z (list Z)) (rq : list Z) (s : kstate) (t : TaskStruct).
Hypothesis (HS : sched_ok pd L rq s) (Hc : tasks s !! cur s = Some t) (Hr : status t = TASK_RUNNING).

(** [thread_block] on a heap that already has the new lists. *)
Lemma thread_block_ok st L' h' : is_waiting st = true →
  lrep h' L' → L' !! ready s = L !! ready s →
  (∀ e, e ≠ general_tag (cur s) → fresh_node L e → fresh_node L' e) →
  (cur s = idle s → fresh_node L' (general_tag (cur s))) →
  wp (thread_block st) (set_links h' s) (λ old s', old = intr s ∧ let '(n, r) := pick rq (idle s) in
    sched_ok pd (<[ready s := general_tag <$> r]> L') r s'
    ∧ switched (set_status st) s (set_intr (intr s) s') n ∧ intr s' = INTR_OFF).
Proof.
  intros Hw Hl Er Hfr Hid. unfold thread_block. apply wp_bind, wp_kassert; [done|].
  apply wp_bind, wp_intr_disable. kstep. unfold running_thread. kstep.
  change (Z.land (esp (set_intr INTR_OFF (set_links h' s))) 4294963200) with (cur s).
  apply wp_bind. eapply wp_eq; [by apply upd_task_eq|]. cbn [tasks set_intr set_links].
  set (t' := set_status st t). set (s1 := set_tasks _ _).
  assert (sched_ok pd L' rq s1) as HS1.
  { destruct (wait_inv pd L L' rq s t st h' HS Hc Hr Hw Hl Er Hfr Hid). by split. }
  apply wp_bind. eapply wp_mono; [eapply (schedule_ok pd L' rq s1 t' HS1); [done|apply lookup_insert_eq]|].
  unfold requeue, requeued. rewrite decide_False by (simpl; by destruct st). change (idle s1) with (idle s).
  intros u s2. destruct (pick rq (idle s)) as [n r]. intros [HS2 [D1 D2 D3 D4 D5 D6 D7]]. kstep.
  change (ready s1) with (ready s) in *. change (cur s1) with (cur s) in *. change (esp s1) with (esp s) in *.
  split; [done|]. split_and!; [done| |].
  2:{ destruct D7 as (h2 & ts2 & c2 & x2 & e2 & ->). done. }
  split; try done.
  - intros u2 Hu2 Hne. apply D4; [|done]. unfold s1. cbn [tasks set_tasks]. by rewrite lookup_insert_ne by done.
  - intros u2 Hu2 Hne. rewrite Hc in Hu2. simplify_eq. cbn [tasks set_intr]. rewrite (D5 t'); [|apply lookup_insert_eq|done].
    unfold t'. simpl. rewrite decide_False by (by destruct st). done.
  - intros p Hp1 Hp2. cbn [tasks set_intr]. rewrite D6 by done. unfold s1. cbn [tasks set_tasks]. by rewrite lookup_insert_ne by done.
  - destruct D7 as (h2 & ts2 & c2 & x2 & e2 & ->). exists h2, ts2, c2, x2, e2. by destruct s.
Qed.

Lemma thread_yield_ok :
  wp thread_yield s (λ old s', old = intr s ∧ let '(n, r) := pick (rq ++ [cur s]) (idle s) in
    sched_ok pd (<[ready s := general_tag <$> r]> L) r s'
    ∧ switched (set_status TASK_READY) s (set_intr (intr s) s') n ∧ intr s' = INTR_OFF).
Proof.
  unfold thread_yield. kstep. unfold running_thread. kstep. fold (cur s).
  apply wp_bind, wp_intr_disable. kstep. kstep. fold (ready (set_intr INTR_OFF s)).
  eapply (wp_ready_insert (set_intr INTR_OFF s) L (general_tag <$> rq) _ false);
    [apply HS|apply HS|by eapply so_cur_tag|].
  intros h' Hl. apply wp_bind. eapply wp_eq; [by apply upd_task_eq|]. cbn [tasks set_intr set_links].
  set (t' := set_status TASK_READY t). set (s1 := set_tasks _ _).
  assert (sched_ok pd (<[ready s := general_tag <$> rq ++ [cur s]]> L) (rq ++ [cur s]) s1) as HS1.
  { destruct (requeue_inv pd L rq s t t' HS Hc Hr eq_refl eq_refl eq_refl eq_refl h'); [by rewrite fmap_app|]. by split. }
  apply wp_bind. eapply wp_mono; [eapply (schedule_ok pd _ _ s1 t' HS1); [done|apply lookup_insert_eq]|].
  unfold requeue, requeued. rewrite decide_False by done. change (idle s1) with (idle s).
  intros u s2. destruct (pick _ (idle s)) as [n r]. intros [HS2 [D1 D2 D3 D4 D5 D6 D7]]. kstep.
  change (ready s1) with (ready s) in *. change (cur s1) with (cur s) in *. change (esp s1) with (esp s) in *.
  rewrite insert_insert_eq in HS2. split; [done|]. split_and!; [done| |].
  2:{ destruct D7 as (h2 & ts2 & c2 & x2 & e2 & ->). done. }
  split; try done.
  - intros u2 Hu2 Hne. apply D4; [|done]. unfold s1. cbn [tasks set_tasks]. by rewrite lookup_insert_ne by done.
  - intros u2 Hu2 Hne. rewrite Hc in Hu2. simplify_eq. cbn [tasks set_intr]. rewrite (D5 t'); [done|apply lookup_insert_eq|done].
  - intros p Hp1 Hp2. cbn [tasks set_intr]. rewrite D6 by done. unfold s1. cbn [tasks set_tasks]. by rewrite lookup_insert_ne by done.
  - destruct D7 as (h2 & ts2 & c2 & x2 & e2 & ->). exists h2, ts2, c2, x2, e2. by destruct s.
Qed.
End block.

(** ** Events and the abstract scheduler

    Between events one thread runs.  An event is a timer interrupt (the gate
    clears the interrupt flag; on return it is what the resumed thread saved),
    a yield, a block of the running thread, or an unblock of another. *)
Inductive event :=
| Tick (i : IntrStatus)
| Yield (i : IntrStatus)
| Block (st : TaskStatus) (i : IntrStatus)
| Unblock (p : Z).

Definition run_event (e : event) : K unit :=
  match e with
  | Tick i => modify (set_intr INTR_OFF) ;; intr_timer_handler ;; modify (set_intr i)
  | Yield i => _ ← thread_yield; modify (set_intr i)
  | Block st i => _ ← thread_block st; modify (set_intr i)
  | Unblock p => thread_unblock p
  end.

Definition enabled (L : gmap Z (list Z)) (s : kstate) (e : event) : Prop :=
  match e with
  | Block st _ => is_waiting st = true
  | Unblock p => ∃ t, tasks s !! p = Some t ∧ is_waiting (status t) = true ∧ fresh_node L (general_tag p)
  | _ => True
  end.

(** The specification: the running thread and a queue.  A tick with time left
    changes neither; a yield or an expired tick puts the running thread at the
    back; an unblocked thread goes to the front; with an empty queue the idle
    thread runs. *)
Definition spec_event (e : event) (ticks_left idl c : Z) (rq : list Z) : Z * list Z :=
  match e with
  | Tick _ => if ticks_left =? 0 then pick (rq ++ [c]) idl else (c, rq)
  | Yield _ => pick (rq ++ [c]) idl
  | Block _ _ => pick rq idl
  | Unblock p => (c, p :: rq)
  end.

(** A thread is running on a consistent scheduler. *)
Record running (pd : Z → Z) (L : gmap Z (list Z)) (rq : list Z) (s : kstate) (t : TaskStruct) : Prop := {
  ru_ok : sched_ok pd L rq s;
  ru_cur : tasks s !! cur s = Some t;
  ru_run : status t = TASK_RUNNING;
}.

Lemma sched_ok_intr pd L rq s i : sched_ok pd L rq s → sched_ok pd L rq (set_intr i s).
Proof. intros []. by split. Qed.

Lemma switched_running pd L rq f s s' n i : sched_ok pd L rq s' → switched f s s' n →
  ∃ t, running pd L rq (set_intr i s') t.
Proof.
  intros HS [D1 D2 _ _ _ _ _]. destruct (so_cur _ _ _ _ HS) as (t & Ht & _). exists t.
  split; [by apply sched_ok_intr|done|]. apply D2. by rewrite <- D1.
Qed.

Section tick.
Context (pd : Z → Z) (L : gmap Z (list Z)) (rq : list Z) (s : kstate) (t : TaskStruct).
Hypothesis (HR : running pd L rq s t) (Hi : intr s = INTR_OFF).

Lemma timer_ok : wp intr_timer_handler s (λ _ s',
  let '(n, r) := spec_event (Tick INTR_OFF) (ticks t) (idle s) (cur s) rq in
  ticks_total s' = u32 (ticks_total s + 1) ∧ cur s' = n ∧
  (∀ i, ∃ t', running pd (if ticks t =? 0 then <[ready s := general_tag <$> r]> L else L) r (set_intr i s') t')).
Proof.
  destruct HR as [HS Hc Hr]. unfold intr_timer_handler. kstep. unfold running_thread. kstep. fold (cur s).
  apply wp_bind. eapply wp_eq; [by apply ld_task_eq|].
  apply wp_bind, wp_kassert. { rewrite (pk_magic _ _ (so_pcb _ _ _ _ HS _ _ Hc)). apply Z.eqb_refl. }
  set (t1 := set_elapsed_ticks (u32 (elapsed_ticks t + 1)) t).
  apply wp_bind. eapply wp_eq; [by apply upd_task_eq|]. fold t1. kstep. kstep.
  set (s1 := set_ticks_total _ _).
  assert (sched_ok pd L rq s1) as HS1.
  { destruct (sched_ok_same pd L rq s (cur s) t t1); done. }
  assert (tasks s1 !! cur s = Some t1) as Hc1 by apply lookup_insert_eq.
  apply wp_bind. eapply wp_eq; [by apply ld_task_eq|]. change (ticks t1) with (ticks t). cbn [spec_event].
  destruct (Z.eqb_spec (ticks t) 0) as [E|E].
  - eapply wp_mono; [eapply (schedule_ok pd L rq s1 t1 HS1); done|]. intros u s2.
    unfold requeue. rewrite decide_True by done. change (idle s1) with (idle s). change (cur s1) with (cur s).
    destruct (pick _ _) as [n r]. change (ready s1) with (ready s). intros [HS2 D]. split_and!; [|apply D|].
    + destruct D as [_ _ _ _ _ _ (h2 & ts2 & c2 & x2 & e2 & ->)]. done.
    + intros i. by eapply switched_running.
  - eapply wp_eq; [by apply upd_task_eq|]. split_and!; [done|done|]. intros i. eexists. split.
    + apply sched_ok_intr. by eapply sched_ok_same.
    + apply lookup_insert_eq.
    + done.
Qed.
End tick.

Lemma run_event_ok pd L rq s t e : running pd L rq s t → enabled L s e →
  wp (run_event e) s (λ _ s', ∃ L' t',
    running pd L' (spec_event e (ticks t) (idle s) (cur s) rq).2 s' t'
    ∧ cur s' = (spec_event e (ticks t) (idle s) (cur s) rq).1
    ∧ ∀ q, q ≠ ready s → L' !! q = L !! q).
Proof.
  intros HR He. pose proof (HR) as [HS Hc Hr]. destruct e as [i|i|st i|p]; cbn [run_event].
  - apply wp_bind. kstep. apply wp_bind. eapply wp_mono.
    { apply (timer_ok pd L rq (set_intr INTR_OFF s) t); [|done]. split; [by apply sched_ok_intr|done|done]. }
    intros u s1. change (idle (set_intr INTR_OFF s)) with (idle s). change (cur (set_intr INTR_OFF s)) with (cur s).
    change (spec_event (Tick i)) with (spec_event (Tick INTR_OFF)).
    destruct (spec_event _ _ _ _ _) as [n r]. intros (_ & Ecur & Hru). destruct (Hru i) as (t' & Hrun').
    kstep. eexists _, t'. split_and!; [exact Hrun'|exact Ecur|]. intros q Hq. simpl. destruct (_ =? _); [|done].
    by rewrite lookup_insert_ne by done.
  - apply wp_bind. eapply wp_mono; [by apply (thread_yield_ok pd L rq s t)|]. intros old s1. cbn [spec_event].
    destruct (pick _ _) as [n r]. intros (_ & HS1 & Hsw & _).
    destruct (switched_running pd _ r _ s (set_intr (intr s) s1) n i (sched_ok_intr _ _ _ _ _ HS1) Hsw) as (t' & Hrun').
    kstep. eexists _, t'. split_and!; [exact Hrun'|apply (sw_cur _ _ _ _ Hsw)|].
    intros q Hq. by rewrite lookup_insert_ne by done.
  - pose proof (thread_block_ok pd L rq s t HS Hc Hr st L (links s) He) as Hb. rewrite set_links_id in Hb.
    apply wp_bind. eapply wp_mono.
    { apply Hb; [apply HS|done|done|]. intros _. by eapply so_cur_tag. }
    intros old s1. cbn [spec_event]. destruct (pick _ _) as [n r]. intros (_ & HS1 & Hsw & _).
    destruct (switched_running pd _ r _ s (set_intr (intr s) s1) n i (sched_ok_intr _ _ _ _ _ HS1) Hsw) as (t' & Hrun').
    kstep. eexists _, t'. split_and!; [exact Hrun'|apply (sw_cur _ _ _ _ Hsw)|].
    intros q Hq. by rewrite lookup_insert_ne by done.
  - destruct He as (tp & Hp & Hw & Hf). eapply wp_mono; [by apply (thread_unblock_ok pd L rq s p tp)|].
    intros u s1 [HS1 (h' & ->)]. assert (p ≠ cur s) by (intros ->; rewrite Hc in Hp; simplify_eq; by rewrite Hr in Hw).
    eexists _, t. split_and!; [split|done|].
    + exact HS1.
    + cbn [tasks set_tasks]. by rewrite lookup_insert_ne by done.
    + done.
    + intros q Hq. by rewrite lookup_insert_ne by done.
Qed.

Fixpoint times (n : nat) (m : K unit) : K unit :=
  match n with O => mret () | S n => m ;; times n m end.

Lemma times_app (a b : nat) (m : K unit) s s1 : times a m s = Ok ((), s1) → times (a + b) m s = times b m s1.
Proof.
  revert s. induction a as [|a IH]; intros s; cbn [times Nat.add].
  - by intros [= ->].
  - unfold mbind, K_bind. destruct (m s) as [[[] s2]| | | |]; [apply IH|done..].
Qed.

(** The time slice of a thread: the ticks it has left and its priority. *)
Definition slice_of (s : kstate) (p : Z) : option (Z * Z) := (λ t, (ticks t, priority t)) <$> tasks s !! p.
(** The timer interrupts that thread [p] takes until it is preempted. *)
Definition turn (s : kstate) (p : Z) : nat := if slice_of s p is Some (k, _) then S (Z.to_nat k) else 0%nat.

Lemma slice_of_upd s p t t' q h : tasks s !! p = Some t → ticks t' = ticks t → priority t' = priority t →
  slice_of (set_tasks (<[p := t']> (tasks s)) h) q = slice_of s q.
Proof.
  intros Hp E1 E2. unfold slice_of. cbn [tasks set_tasks]. destruct (decide (p = q)) as [<-|Hne].
  - by rewrite lookup_insert_eq, Hp; cbn; rewrite E1, E2.
  - by rewrite lookup_insert_ne.
Qed.

(** What a timer interrupt does to the time slices. *)
Definition slice_tick (c k pr : Z) (σ : Z → option (Z * Z)) (p : Z) : option (Z * Z) :=
  if decide (p = c) then Some (if k =? 0 then (pr, pr) else (k - 1, pr)) else σ p.

Section tick_slices.
Context (pd : Z → Z) (L : gmap Z (list Z)) (rq : list Z) (s : kstate) (t : TaskStruct).
Hypothesis (HR : running pd L rq s t) (Hi : intr s = INTR_OFF) (Hk : 0 <= ticks t < 256).
Hypothesis (Hrq : rq ≠ []).

Lemma switched_slices s1 s2 n t1 : tasks s1 !! cur s1 = Some t1 → status t1 = TASK_RUNNING → n ≠ cur s1 →
  is_Some (tasks s1 !! n) → switched requeued s1 s2 n →
  ∀ p, slice_of s2 p = if decide (p = cur s1) then Some (priority t1, priority t1) else slice_of s1 p.
Proof.
  intros Hc Hs Hne [tn Hn] D p. unfold slice_of. case_decide as E; [|destruct (decide (p = n)) as [->|En]].
  - subst p. rewrite (sw_prev _ _ _ _ D t1) by done. unfold requeued. by rewrite decide_True.
  - destruct (sw_next _ _ _ _ D tn Hn Hne) as [-> _]. by rewrite Hn.
  - by rewrite (sw_others _ _ _ _ D p).
Qed.

Lemma timer_slices : wp intr_timer_handler s (λ _ s', ∀ p,
  slice_of s' p = slice_tick (cur s) (ticks t) (priority t) (slice_of s) p).
Proof.
  destruct HR as [HS Hc Hr]. unfold intr_timer_handler. kstep. unfold running_thread. kstep. fold (cur s).
  apply wp_bind. eapply wp_eq; [by apply ld_task_eq|].
  apply wp_bind, wp_kassert. { rewrite (pk_magic _ _ (so_pcb _ _ _ _ HS _ _ Hc)). apply Z.eqb_refl. }
  set (t1 := set_elapsed_ticks (u32 (elapsed_ticks t + 1)) t).
  apply wp_bind. eapply wp_eq; [by apply upd_task_eq|]. fold t1. kstep. kstep.
  set (s1 := set_ticks_total _ _).
  assert (sched_ok pd L rq s1) as HS1.
  { destruct (sched_ok_same pd L rq s (cur s) t t1); done. }
  assert (tasks s1 !! cur s = Some t1) as Hc1 by apply lookup_insert_eq.
  assert (∀ p, slice_of s1 p = slice_of s p) as Hs1 by (intros p; by apply (slice_of_upd s (cur s) t t1 p s)).
  apply wp_bind. eapply wp_eq; [by apply ld_task_eq|]. change (ticks t1) with (ticks t). unfold slice_tick.
  destruct (Z.eqb_spec (ticks t) 0) as [E|E].
  - eapply wp_mono; [eapply (schedule_ok pd L rq s1 t1 HS1); done|]. intros u s2.
    unfold requeue. rewrite decide_True by done. destruct rq as [|n r]; [done|]. cbn [app pick]. intros [_ D] p.
    assert (n ∈ n :: r) as Hn by left.
    assert (n ≠ cur s1) as Hne.
    { intros ->. eapply (running_not_ready pd L _ s1 t1 HS1); [exact Hc1| |exact Hn]. change (status t ≠ TASK_READY). by rewrite Hr. }
    rewrite <- Hs1. apply (switched_slices s1 s2 n t1); try done.
    apply (so_rq _ _ _ _ HS1) in Hn as (u2 & Hu2 & _). eauto.
  - eapply wp_eq; [by apply upd_task_eq|]. intros p. unfold slice_of. cbn [tasks set_tasks]. case_decide as Ep.
    + subst p. rewrite lookup_insert_eq. cbn. do 2 f_equal. unfold u8. apply Z.mod_small. lia.
    + rewrite lookup_insert_ne by done. apply Hs1.
Qed.
End tick_slices.

(** One timer interrupt, as the running thread, the queue and the slices see it. *)
Lemma tick_ok pd L rq s t i : running pd L rq s t → 0 <= ticks t < 256 → rq ≠ [] →
  ∃ s' L' t', run_event (Tick i) s = Ok ((), s')
    ∧ running pd L' (if ticks t =? 0 then tail rq ++ [cur s] else rq) s' t'
    ∧ cur s' = (if ticks t =? 0 then hd 0 rq else cur s)
    ∧ ∀ p, slice_of s' p = slice_tick (cur s) (ticks t) (priority t) (slice_of s) p.
Proof.
  intros HR Hk Hrq. destruct (wp_inv _ _ _ (run_event_ok _ _ _ _ _ (Tick i) HR I)) as ([] & s' & Hrun & L' & t' & H1 & H2 & _).
  exists s', L', t'. split_and!; [done| | |].
  - destruct rq as [|n r]; [done|]. cbn in H1 |- *. by destruct (_ =? _).
  - destruct rq as [|n r]; [done|]. cbn in H2 |- *. by destruct (_ =? _).
  - assert (running pd L rq (set_intr INTR_OFF s) t) as HR0.
    { destruct HR. split; [by apply sched_ok_intr|done|done]. }
    destruct (wp_inv _ _ _ (timer_slices pd L rq _ t HR0 eq_refl Hk Hrq)) as ([] & s1 & Hs1 & H).
    cbn [run_event] in Hrun. unfold modify, mbind, K_bind in Hrun. cbn in Hrun. rewrite Hs1 in Hrun.
    simplify_eq. exact H.
Qed.

(** Every thread of [ps] exists, and its [ticks] and [priority] are bytes
    (thread.h: both are [uint8_t]). *)
Definition slices_ok (s : kstate) (ps : list Z) : Prop :=
  Forall (λ p, ∃ k pr, slice_of s p = Some (k, pr) ∧ 0 <= k < 256 ∧ 0 <= pr < 256) ps.

(** A thread that runs with [k] ticks left runs through [k] more interrupts and
    is preempted by the next one. *)
Lemma turn_ok i (k : nat) : ∀ pd L n r s t, running pd L (n :: r) s t → ticks t = Z.of_nat k → (k < 256)%nat →
  (∀ m, (m <= k)%nat → ∃ s', times m (run_event (Tick i)) s = Ok ((), s') ∧ cur s' = cur s)
  ∧ ∃ s' L' t', times (S k) (run_event (Tick i)) s = Ok ((), s') ∧ cur s' = n ∧ running pd L' (r ++ [cur s]) s' t'
    ∧ ∀ p, slice_of s' p = if decide (p = cur s) then Some (priority t, priority t) else slice_of s p.
Proof.
  induction k as [|k IH]; intros pd L n r s t HR Hk Hlt;
    destruct (tick_ok pd L (n :: r) s t i HR ltac:(lia) ltac:(done)) as (s1 & L1 & t1 & H1 & HR1 & Hc1 & Hsl).
  - rewrite Hk in HR1, Hc1, Hsl. split.
    + intros [|m] Hm; [|lia]. by exists s.
    + exists s1, L1, t1. cbn [times]. unfold mbind, K_bind. rewrite H1. split_and!; [done|done|exact HR1|exact Hsl].
  - assert ((ticks t =? 0) = false) as Ez by lia. rewrite Ez in HR1, Hc1. unfold slice_tick in Hsl. rewrite Ez in Hsl.
    pose proof (Hsl (cur s)) as Hme. rewrite decide_True in Hme by done. rewrite <- Hc1 in Hme at 1.
    unfold slice_of in Hme. rewrite (ru_cur _ _ _ _ _ HR1) in Hme. cbn in Hme. injection Hme as Ht1 Hp1.
    destruct (IH pd L1 n r s1 t1 HR1 ltac:(lia) ltac:(lia)) as (Hruns & s2 & L2 & t2 & H2 & Hc2 & HR2 & Hsl2).
    rewrite Hc1, Hp1 in *. split.
    + intros [|m] Hm; [by exists s|]. destruct (Hruns m ltac:(lia)) as (s3 & H3 & Hc3). exists s3. split; [|done].
      cbn [times]. unfold mbind, K_bind. by rewrite H1.
    + exists s2, L2, t2. split_and!; [|done|done|].
      * cbn [times] in H2 |- *. unfold mbind, K_bind at 1. by rewrite H1.
      * intros p. rewrite Hsl2. case_decide as E; [done|]. rewrite Hsl. by rewrite decide_False.
Qed.

Lemma running_nodup pd L rq s t : running pd L rq s t → NoDup (cur s :: rq).
Proof.
  intros [HS Hc Hr]. constructor.
  - eapply running_not_ready; [done|done|congruence].
  - pose proof (lrep_nodup _ _ (so_lists _ _ _ _ HS) _ _ (so_ready _ _ _ _ HS)) as Hnd. by apply NoDup_fmap_1 in Hnd.
Qed.

Lemma turn_running pd L rq s t : running pd L rq s t → turn s (cur s) = S (Z.to_nat (ticks t)).
Proof. intros [_ Hc _]. unfold turn, slice_of. by rewrite Hc. Qed.

Lemma turns_ext s s' ps : (∀ p, p ∈ ps → slice_of s' p = slice_of s p) →
  sum_list_with (turn s') ps = sum_list_with (turn s) ps.
Proof.
  induction ps as [|p ps IH]; intros H; cbn; [done|]. unfold turn at 1 3. rewrite H by left. f_equal. apply IH.
  intros q Hq. apply H. by right.
Qed.

Section rounds.
Context (i : IntrStatus) (pd : Z → Z).
Abbreviation ticking m := (times m (run_event (Tick i))).
Abbreviation turns s ps := (sum_list_with (turn s) ps).

(** The first turn: the running thread's. *)
Lemma first_turn L n r s t : running pd L (n :: r) s t → slices_ok s (cur s :: n :: r) →
  (∀ m, (m < turn s (cur s))%nat → ∃ s', ticking m s = Ok ((), s') ∧ cur s' = cur s)
  ∧ ∃ s' L' t' pr, 0 <= pr < 256 ∧ ticking (turn s (cur s)) s = Ok ((), s') ∧ cur s' = n ∧ running pd L' (r ++ [cur s]) s' t'
    ∧ (∀ p, slice_of s' p = if decide (p = cur s) then Some (pr, pr) else slice_of s p).
Proof.
  intros HR (Hk & _)%Forall_cons. destruct Hk as (k & pr & Hk & Hb & Hpr). rewrite (turn_running _ _ _ _ _ HR).
  unfold slice_of in Hk. rewrite (ru_cur _ _ _ _ _ HR) in Hk. cbn in Hk. injection Hk as <- <-.
  destruct (turn_ok i (Z.to_nat (ticks t)) pd L n r s t HR ltac:(lia) ltac:(lia)) as (H1 & s' & L' & t' & H2).
  split; [intros m Hm; apply H1; lia|]. by exists s', L', t', (priority t).
Qed.

Lemma rounds_ok k : ∀ L rq s t p, running pd L rq s t → slices_ok s (cur s :: rq) → rq !! k = Some p →
  (∀ j q m, take (S k) (cur s :: rq) !! j = Some q →
     (turns s (take j (take (S k) (cur s :: rq))) ≤ m < turns s (take (S j) (take (S k) (cur s :: rq))))%nat →
     ∃ s', ticking m s = Ok ((), s') ∧ cur s' = q)
  ∧ ∃ s' L' t', ticking (turns s (take (S k) (cur s :: rq))) s = Ok ((), s') ∧ cur s' = p
    ∧ running pd L' (drop (S k) rq ++ take (S k) (cur s :: rq)) s' t'
    ∧ (∀ q, q ∈ take (S k) (cur s :: rq) → ∃ pr, slice_of s' q = Some (pr, pr))
    ∧ (∀ q, q ∉ take (S k) (cur s :: rq) → slice_of s' q = slice_of s q).
Proof.
  induction k as [|k IH]; intros L rq s t p HR Hsl Hp; (destruct rq as [|n r]; [done|]);
    pose proof (running_nodup _ _ _ _ _ HR) as Hnd;
    destruct (first_turn L n r s t HR Hsl) as (Hin & s1 & L1 & t1 & pr & Hpr & H1 & Hc1 & HR1 & Hsl1).
  - simpl in Hp. simplify_eq. cbn [take drop sum_list_with]. rewrite Nat.add_0_r. split.
    + intros [|[|j]] q m; cbn; intros ?; simplify_eq. intros Hm. apply Hin. lia.
    + exists s1, L1, t1. split_and!; [done|done|done| |].
      * intros q ->%list_elem_of_singleton. exists pr. rewrite Hsl1. by rewrite decide_True.
      * intros q Hq. rewrite Hsl1, decide_False; [done|]. intros ->. apply Hq. left.
  - cbn in Hp. pose proof (lookup_lt_Some _ _ _ Hp) as Hlen.
    assert (take (S k) (cur s1 :: r ++ [cur s]) = n :: take k r) as Eb.
    { cbn. rewrite Hc1, take_app_le by lia. done. }
    destruct (IH L1 (r ++ [cur s]) s1 t1 p HR1) as (Hin2 & s2 & L2 & t2 & H2 & Hc2 & HR2 & Hq2 & Hr2).
    { rewrite Hc1. unfold slices_ok. apply Forall_forall. intros q Hq. rewrite Hsl1. case_decide as E.
      - by exists pr, pr.
      - apply Forall_forall with (x := q) in Hsl; [done|]. set_solver. }
    { by rewrite lookup_app_l. }
    rewrite Eb in *. rewrite drop_app_le in HR2 by lia.
    assert (∀ ps, cur s ∉ ps → turns s1 ps = turns s ps) as Htu.
    { intros ps Hps. apply turns_ext. intros q Hq. rewrite Hsl1, decide_False; [done|]. by intros ->. }
    assert (cur s ∉ n :: take k r) as Hcn.
    { apply NoDup_cons in Hnd as [Hnd _]. intros Hx. apply Hnd. rewrite elem_of_cons in *. destruct Hx as [?|Hx]; [by left|].
      right. by apply elem_of_take in Hx as (? & ?%list_elem_of_lookup_2 & _). }
    change (take (S (S k)) (cur s :: n :: r)) with (cur s :: n :: take k r).
    change (drop (S (S k)) (n :: r)) with (drop (S k) r). split.
    + intros [|j] q m; intros Hj Hm.
      * cbn in Hj, Hm. simplify_eq. apply Hin. lia.
      * cbn [lookup list_lookup take sum_list_with] in Hj, Hm.
        destruct (Hin2 j q (m - turn s (cur s))%nat Hj) as (s3 & H3 & Hc3).
        { rewrite !Htu; [cbn [take sum_list_with] in *; lia|..]; intros Hx; apply Hcn; by apply elem_of_take in Hx as (? & ?%list_elem_of_lookup_2 & _). }
        exists s3. split; [|done]. rewrite <- H3, <- (times_app _ _ _ _ _ H1). f_equal. lia.
    + exists s2, L2, t2. split_and!; [|done| | |].
      * rewrite <- H2, <- (times_app _ _ _ _ _ H1), Htu by done. done.
      * by rewrite <- app_assoc in HR2.
      * intros q [->|Hq]%elem_of_cons; [|by apply Hq2]. exists pr. rewrite Hr2, Hsl1 by done. by rewrite decide_True.
      * intros q [Hq1 Hq3]%not_elem_of_cons. rewrite Hr2, Hsl1 by done. by rewrite decide_False.
Qed.
End rounds.

(** [schedule] refines a queue.  With interrupts off and a consistent
    scheduler it returns (no assertion fails, no pointer faults); the thread
    that runs next is the head of the ready queue, after the caller, if still
    running, was put at its back with a fresh time slice, or the idle thread if
    the queue is empty.  The caller's stack pointer is saved in its PCB, the
    next thread's is loaded, the page directory and, for a process, the TSS are
    those of the next thread, no other PCB and no other list changes, and the
    invariant holds again. *)
Theorem schedule_correct pd L rq s t :
  sched_ok pd L rq s → intr s = INTR_OFF → tasks s !! cur s = Some t →
  ∃ s' L' n r, schedule s = Ok ((), s') ∧ (n, r) = pick (requeue (cur s) t rq) (idle s)
    ∧ sched_ok pd L' r s' ∧ cur s' = n
    ∧ (∃ tn, tasks s' !! n = Some tn ∧ status tn = TASK_RUNNING ∧ cr3 s' = dir_of pd tn
         ∧ (pgdir tn ≠ NULL → tss_esp0 s' = n + 4096))
    ∧ (∀ u, tasks s !! n = Some u → n ≠ cur s → esp s' = self_kstack u + switch_frame)
    ∧ (cur s ≠ n → tasks s' !! cur s = Some (set_self_kstack (esp s - switch_frame) (requeued t)))
    ∧ (∀ p, p ≠ n → p ≠ cur s → tasks s' !! p = tasks s !! p)
    ∧ (∀ q, q ≠ ready s → L' !! q = L !! q).
Proof.
  intros HS Hi Hc. destruct (wp_inv _ _ _ (schedule_ok _ _ _ _ _ HS Hi Hc)) as ([] & s' & Hrun & H).
  destruct (pick _ _) as [n r]. destruct H as [HS' [D1 D2 D3 D4 D5 D6 D7]]. eexists s', _, n, r.
  split_and!; [done|done|exact HS'|done| | | |done|].
  - destruct (so_cur _ _ _ _ HS') as (tn & Htn & Ecr). rewrite D1 in Htn. exists tn. split_and!; eauto.
  - intros u Hu Hne. by apply (D4 u).
  - intros Hne. by apply D5.
  - intros q Hq. by rewrite lookup_insert_ne by done.
Qed.

(** C6: Every scheduler event is simulated by the abstract queue.  While a
    thread runs, a timer interrupt, a yield, a block and an unblock of a
    waiting thread all return without a failed assertion, and leave the running
    thread and the ready queue that the specification gives, with the invariant
    restored and exactly one thread running. *)
Theorem sched_event_simulates pd L rq s t e :
  running pd L rq s t → enabled L s e →
  ∃ s' L' t', run_event e s = Ok ((), s')
    ∧ running pd L' (spec_event e (ticks t) (idle s) (cur s) rq).2 s' t'
    ∧ cur s' = (spec_event e (ticks t) (idle s) (cur s) rq).1
    ∧ ∀ q, q ≠ ready s → L' !! q = L !! q.
Proof.
  intros HR He. destruct (wp_inv _ _ _ (run_event_ok _ _ _ _ _ _ HR He)) as ([] & s' & Hrun & L' & t' & H).
  exists s', L', t'. done.
Qed.

(** C18: Round robin, by timer interrupts.  A thread has [ticks] interrupts left
    and one more takes it off the processor, so its turn is [ticks + 1]
    interrupts long.  If nothing but the timer interrupts happens, the running
    thread and then the threads of the ready queue in order run, each for
    exactly its own turn: the one at position [k] of the queue runs after
    exactly the turns of the running thread and of the [k] threads before it.
    The threads that had their turn are by then at the back of the queue, in
    order, each with a new slice of as many ticks as its priority; the other
    threads keep theirs.  So no ready thread starves. *)
Theorem round_robin i k pd L rq s t p :
  running pd L rq s t → slices_ok s (cur s :: rq) → rq !! k = Some p →
  let before := take (S k) (cur s :: rq) in
  (∀ j q m, before !! j = Some q →
     (sum_list_with (turn s) (take j before) ≤ m < sum_list_with (turn s) (take (S j) before))%nat →
     ∃ s', times m (run_event (Tick i)) s = Ok ((), s') ∧ cur s' = q)
  ∧ ∃ s' L' t', times (sum_list_with (turn s) before) (run_event (Tick i)) s = Ok ((), s') ∧ cur s' = p
    ∧ running pd L' (drop (S k) rq ++ before) s' t'
    ∧ (∀ q, q ∈ before → ∃ u, tasks s' !! q = Some u ∧ ticks u = priority u)
    ∧ (∀ q, q ∉ before → slice_of s' q = slice_of s q).
Proof.
  intros HR Hsl Hk before. destruct (rounds_ok i pd k L rq s t p HR Hsl Hk) as (H1 & s' & L' & t' & H2 & Hc & HR' & Hq & Hr).
  split; [exact H1|]. exists s', L', t'. split_and!; [done|done|done| |done].
  intros q (pr & E)%Hq. unfold slice_of in E. apply fmap_Some in E as (u & Hu & E). exists u. split; [done|]. congruence.
Qed.

(** *** Witnesses: three kernel threads, one running, one ready, idle blocked *)
Definition demo_task (p : Z) (st : TaskStatus) : TaskStruct :=
  mkTask (p + 3000) 1 st 31 [] 0 0 [] 0 (mkVirtualAddr (mkBitMap 0 []) 0) 0 0 0 STACK_MAGIC.
Definition demo_tasks : gmap Z TaskStruct :=
  {[0x9e000 := demo_task 0x9e000 TASK_RUNNING; 0x200000 := demo_task 0x200000 TASK_READY;
    0x300000 := demo_task 0x300000 TASK_BLOCKED]}.
Definition demo_ready_links : gmap Z ListElem :=
  {[0x5000 := mkElem 0 (0x200000 + 68); 0x200000 + 68 := mkElem 0x5000 0x5008; 0x5008 := mkElem (0x200000 + 68) 0]}.
Definition demo_sched : kstate :=
  set_glob (mkGlobals 0x5000 0x6000 0 0 0x9e000 0x300000)
    (set_esp 0x9ef00 (set_cr3 0x100000 (set_phys demo_mem (set_links demo_ready_links (set_tasks demo_tasks k0))))).

Lemma demo_tasks_inv p t : demo_tasks !! p = Some t → t = demo_task p (status t) ∧
  (p = 0x9e000 ∧ status t = TASK_RUNNING ∨ p = 0x200000 ∧ status t = TASK_READY ∨ p = 0x300000 ∧ status t = TASK_BLOCKED).
Proof.
  unfold demo_tasks. rewrite !lookup_insert_Some, lookup_singleton_Some.
  intros [[<- <-]|[_ [[<- <-]|[_ [<- <-]]]]]; simpl; tauto.
Qed.

Lemma demo_running : running (λ _, 0) {[0x5000 := [0x200000 + 68]]} [0x200000] demo_sched (demo_task 0x9e000 TASK_RUNNING).
Proof.
  split; [|reflexivity|reflexivity]. split.
  - split.
    + intros p xs [<- <-]%lookup_singleton_Some. split; vm_compute; try done.
      * repeat constructor; set_solver by lia.
      * set_solver by lia.
    + intros p q xs ys e [<- _]%lookup_singleton_Some [<- _]%lookup_singleton_Some. done.
  - reflexivity.
  - intros p. rewrite list_elem_of_singleton. split.
    + intros ->. exists (demo_task 0x200000 TASK_READY). split; reflexivity.
    + intros (t & [_ H]%demo_tasks_inv & Hs). destruct H as [[-> H]|[[-> H]|[-> H]]]; congruence.
  - intros p t [Ht H]%demo_tasks_inv. rewrite Ht. unfold demo_task.
    destruct H as [[-> H]|[[-> H]|[-> H]]]; split; try reflexivity; simpl; unfold switch_frame; lia.
  - vm_compute. split; [split; discriminate || reflexivity|reflexivity].
  - exists (demo_task 0x9e000 TASK_RUNNING). split; reflexivity.
  - intros p t [_ H]%demo_tasks_inv Hs. destruct H as [[-> H]|[[-> H]|[-> H]]]; [reflexivity|congruence|congruence].
  - intros t _ _. split; [vm_compute; discriminate|]. intros q ys [<- <-]%lookup_singleton_Some. vm_compute. set_solver by lia.
  - exists (demo_task 0x300000 TASK_BLOCKED). split; [reflexivity|]. split; [discriminate|]. intros _.
    split; [vm_compute; discriminate|]. intros q ys [<- <-]%lookup_singleton_Some. vm_compute. set_solver by lia.
  - intros d Hd. destruct Hd as [->|(p & t & [Ht _]%demo_tasks_inv & Hne & _)].
    + split; [exact demo_dir_ok|]. intros p t [Ht _]%demo_tasks_inv Hne. by rewrite Ht in Hne.
    + by rewrite Ht in Hne.
Qed.

Lemma schedule_correct_witness :
  ∃ s' L' n r, schedule demo_sched = Ok ((), s') ∧ (n, r) = (0x200000, [0x9e000])
    ∧ sched_ok (λ _, 0) L' r s' ∧ cur s' = n
    ∧ (∃ tn, tasks s' !! n = Some tn ∧ status tn = TASK_RUNNING ∧ cr3 s' = dir_of (λ _, 0) tn
         ∧ (pgdir tn ≠ NULL → tss_esp0 s' = n + 4096))
    ∧ (∀ u, tasks demo_sched !! n = Some u → n ≠ cur demo_sched → esp s' = self_kstack u + switch_frame)
    ∧ (cur demo_sched ≠ n → tasks s' !! cur demo_sched =
         Some (set_self_kstack (esp demo_sched - switch_frame) (requeued (demo_task 0x9e000 TASK_RUNNING))))
    ∧ (∀ p, p ≠ n → p ≠ cur demo_sched → tasks s' !! p = tasks demo_sched !! p)
    ∧ (∀ q, q ≠ ready demo_sched → L' !! q = ({[0x5000 := [0x200000 + 68]]} : gmap Z (list Z)) !! q).
Proof.
  apply (schedule_correct (λ _, 0) {[0x5000 := [0x200000 + 68]]} [0x200000] demo_sched (demo_task 0x9e000 TASK_RUNNING));
    [apply demo_running|reflexivity|reflexivity].
Defined.

Lemma sched_event_simulates_witness :
  ∃ s' L' t', run_event (Block TASK_BLOCKED INTR_ON) demo_sched = Ok ((), s')
    ∧ running (λ _, 0) L' [] s' t' ∧ cur s' = 0x200000
    ∧ ∀ q, q ≠ ready demo_sched → L' !! q = ({[0x5000 := [0x200000 + 68]]} : gmap Z (list Z)) !! q.
Proof.
  apply (sched_event_simulates (λ _, 0) {[0x5000 := [0x200000 + 68]]} [0x200000] demo_sched
           (demo_task 0x9e000 TASK_RUNNING) (Block TASK_BLOCKED INTR_ON)); [apply demo_running|reflexivity].
Defined.

Lemma round_robin_witness :
  (∀ j q m, [0x9e000] !! j = Some q →
     (sum_list_with (turn demo_sched) (take j [0x9e000%Z]) ≤ m < sum_list_with (turn demo_sched) (take (S j) [0x9e000%Z]))%nat →
     ∃ s', times m (run_event (Tick INTR_ON)) demo_sched = Ok ((), s') ∧ cur s' = q)
  ∧ ∃ s' L' t', times (sum_list_with (turn demo_sched) [0x9e000]) (run_event (Tick INTR_ON)) demo_sched = Ok ((), s')
    ∧ cur s' = 0x200000 ∧ running (λ _, 0) L' [0x9e000] s' t'
    ∧ (∀ q, q ∈ [0x9e000] → ∃ u, tasks s' !! q = Some u ∧ ticks u = priority u)
    ∧ (∀ q, q ∉ [0x9e000] → slice_of s' q = slice_of demo_sched q).
Proof.
  apply (round_robin INTR_ON 0 (λ _, 0) {[0x5000 := [0x200000 + 68]]} [0x200000] demo_sched
           (demo_task 0x9e000 TASK_RUNNING)); [apply demo_running| |reflexivity].
  repeat constructor; exists 0, 31; (split; [reflexivity|lia]).
Defined.
