(* ===== verification/Sync.v ===== *)
(** * thread/sync.c: semaphores and locks

    First the code as operations on the kernel state.  A semaphore operation
    runs with interrupts off, so it is atomic up to the switch inside
    [thread_block]; [sema_down_body] is one pass of its loop, [false] when the
    thread was queued and another one runs now.  A client that calls
    [lock_acquire] in a sequential computation gets [Blocked] in that case.

    Then the lock as a transition system: threads that may be preempted
    between any two steps of [lock_acquire] and [lock_release]. *)
From S2P Require Import Prelude CString Bitmap Machine DList Mmu PageMem Sched.

Definition ld_sema (sm : Z) : K Z := m ← gets sema_value; lift (deref (m !! sm)).
Definition st_sema (sm v : Z) : K unit :=
  if sm =? NULL then kfail Fault else modify (λ s, set_sema_value (<[sm := v]> (sema_value s)) s).
Definition ld_lock (l : Z) : K LockHead := m ← gets locks; lift (deref (m !! l)).
Definition st_lock (l : Z) (v : LockHead) : K unit :=
  if l =? NULL then kfail Fault else modify (λ s, set_locks (<[l := v]> (locks s)) s).

Definition sema_init (sm value : Z) : K unit :=
  st_sema sm (u8 value) ;; list_init (waiters sm).

Definition lock_init (l : Z) : K unit :=
  st_lock l (mkLock NULL 0) ;; sema_init (lock_semaphore l) 1.

Definition sema_down_body (sm : Z) : K bool :=
  v ← ld_sema sm;
  if v =? 0 then
    cur ← running_thread;
    found ← list_find (waiters sm) (general_tag cur);
    kassert (negb found) ;;
    list_append (waiters sm) (general_tag cur) ;;
    _ ← thread_block TASK_BLOCKED;
    mret false
  else
    st_sema sm (u8 (v - 1)) ;;
    v ← ld_sema sm;
    kassert (v =? 0) ;;
    mret true.

Definition sema_down (sm : Z) : K unit :=
  old_status ← intr_disable;
  got ← sema_down_body sm;
  if (got : bool) then _ ← intr_set_status old_status; mret ()
  else kfail Blocked.

Definition sema_up (sm : Z) : K unit :=
  old_status ← intr_disable;
  v ← ld_sema sm;
  kassert (v =? 0) ;;
  empty ← list_empty (waiters sm);
  (if negb empty then
     tag ← list_pop (waiters sm);
     thread_unblock (elem2entry 68 tag)
   else mret ()) ;;
  v ← ld_sema sm;
  st_sema sm (u8 (v + 1)) ;;
  v ← ld_sema sm;
  kassert (v =? 1) ;;
  _ ← intr_set_status old_status;
  mret ().

Definition lock_acquire (l : Z) : K unit :=
  h ← ld_lock l; cur ← running_thread;
  if negb (holder h =? cur) then
    sema_down (lock_semaphore l) ;;
    h ← ld_lock l; cur ← running_thread;
    st_lock l (mkLock cur (holder_repeat_nr h)) ;;
    h ← ld_lock l;
    kassert (holder_repeat_nr h =? 0) ;;
    st_lock l (mkLock (holder h) 1)
  else st_lock l (mkLock (holder h) (u32 (holder_repeat_nr h + 1))).

Definition lock_release (l : Z) : K unit :=
  h ← ld_lock l; cur ← running_thread;
  kassert (holder h =? cur) ;;
  if 1 <? holder_repeat_nr h then
    st_lock l (mkLock (holder h) (u32 (holder_repeat_nr h - 1)))
  else
    kassert (holder_repeat_nr h =? 1) ;;
    st_lock l (mkLock NULL (holder_repeat_nr h)) ;;
    st_lock l (mkLock NULL 0) ;;
    sema_up (lock_semaphore l).

(** ** Semaphores on the kernel state *)
Lemma ld_sema_eq s sm v : sema_value s !! sm = Some v → ld_sema sm s = Ok (v, s).
Proof. intros H. unfold ld_sema, mbind, K_bind, gets. by rewrite H. Qed.
Lemma st_sema_eq s sm v : sm ≠ 0 → st_sema sm v s = Ok ((), set_sema_value (<[sm := v]> (sema_value s)) s).
Proof. intros. unfold st_sema, NULL. by destruct (Z.eqb_spec sm 0). Qed.
Lemma ld_lock_eq s l v : locks s !! l = Some v → ld_lock l s = Ok (v, s).
Proof. intros H. unfold ld_lock, mbind, K_bind, gets. by rewrite H. Qed.
Lemma st_lock_eq s l v : l ≠ 0 → st_lock l v s = Ok ((), set_locks (<[l := v]> (locks s)) s).
Proof. intros. unfold st_lock, NULL. by destruct (Z.eqb_spec l 0). Qed.

Lemma sched_ok_sema pd L rq s m : sched_ok pd L rq s → sched_ok pd L rq (set_sema_value m s).
Proof. intros []. by split. Qed.

(** The semaphore is free: it is taken and nothing else changes. *)
Lemma sema_down_free s sm : sm ≠ 0 → sema_value s !! sm = Some 1 →
  sema_down sm s = Ok ((), set_sema_value (<[sm := 0]> (sema_value s)) s).
Proof.
  intros Hsm Hv. assert (wp (sema_down sm) s (λ _ s', s' = set_sema_value (<[sm := 0]> (sema_value s)) s)) as H.
  { unfold sema_down. apply wp_bind, wp_intr_disable. apply wp_bind. unfold sema_down_body.
    apply wp_bind. eapply wp_eq; [by apply ld_sema_eq|]. cbn [Z.eqb]. apply wp_bind.
    eapply wp_eq; [by apply st_sema_eq|]. apply wp_bind. eapply wp_eq; [apply ld_sema_eq; apply lookup_insert_eq|].
    apply wp_bind, wp_kassert; [done|]. kstep. apply wp_bind, wp_intr_set_status. kstep. by destruct s. }
  destruct (wp_inv _ _ _ H) as ([] & s' & Hrun & ->). done.
Qed.

(** Release with no waiter. *)
Lemma sema_up_free s L sm : lrep (links s) L → L !! waiters sm = Some [] → sm ≠ 0 → sema_value s !! sm = Some 0 →
  sema_up sm s = Ok ((), set_sema_value (<[sm := 1]> (sema_value s)) s).
Proof.
  intros HL Hws Hsm Hv.
  assert (wp (sema_up sm) s (λ _ s', s' = set_sema_value (<[sm := 1]> (sema_value s)) s)) as H.
  { unfold sema_up. apply wp_bind, wp_intr_disable. apply wp_bind. eapply wp_eq; [by apply ld_sema_eq|].
    apply wp_bind, wp_kassert; [done|]. apply wp_bind. eapply wp_mono; [by eapply list_empty_ok|].
    intros b s1 [-> ->]. rewrite bool_decide_true by done. cbn [negb]. apply wp_bind. kstep.
    apply wp_bind. eapply wp_eq; [by apply ld_sema_eq|]. apply wp_bind. eapply wp_eq; [by apply st_sema_eq|].
    apply wp_bind. eapply wp_eq; [apply ld_sema_eq; apply lookup_insert_eq|].
    apply wp_bind, wp_kassert; [done|]. apply wp_bind, wp_intr_set_status. kstep. by destruct s. }
  destruct (wp_inv _ _ _ H) as ([] & s' & Hrun & ->). done.
Qed.

Section sema.
Context (pd : Z → Z) (L : gmap Z (list Z)) (rq : list Z) (s : kstate) (t : TaskStruct) (sm : Z) (ws : list Z).
Hypothesis (HR : running pd L rq s t) (Hsm : sm ≠ 0).
Hypothesis (Hws : L !! waiters sm = Some (general_tag <$> ws)) (Hwr : waiters sm ≠ ready s).

(** The semaphore is taken: the running thread joins the back of the waiters,
    is blocked, and the scheduler picks the next thread. *)
Lemma sema_down_wait : sema_value s !! sm = Some 0 → cur s ≠ idle s →
  wp (sema_down_body sm) (set_intr INTR_OFF s) (λ got s', got = false ∧
    let '(n, r) := pick rq (idle s) in
    sched_ok pd (<[ready s := general_tag <$> r]> (<[waiters sm := general_tag <$> ws ++ [cur s]]> L)) r s'
    ∧ switched (set_status TASK_BLOCKED) s (set_intr (intr s) s') n ∧ sema_value s' = sema_value s).
Proof.
  intros Hv Hid. destruct (HR) as [HS Hc Hr]. pose proof (so_cur_tag _ _ _ _ HS _ Hc Hr) as Hf.
  unfold sema_down_body. apply wp_bind. eapply wp_eq; [by apply ld_sema_eq|]. cbn [Z.eqb].
  kstep. unfold running_thread. kstep. change (Z.land (esp (set_intr INTR_OFF s)) 4294963200) with (cur s).
  apply wp_bind. eapply wp_eq; [eapply list_find_ok; [apply HS|done]|].
  apply wp_bind, wp_kassert; [by erewrite fresh_not_in|]. apply wp_bind.
  eapply wp_mono; [eapply list_append_ok; [apply HS|done|done]|]. intros u s1 (h' & -> & Hl).
  assert (sched_ok pd L rq (set_intr INTR_OFF s)) as HS0 by by apply sched_ok_intr.
  apply wp_bind. eapply wp_mono.
  { apply (thread_block_ok pd L rq (set_intr INTR_OFF s) t HS0 Hc Hr TASK_BLOCKED _ h' eq_refl Hl).
    - by rewrite lookup_insert_ne by done.
    - intros e Hne He. eapply fresh_node_update; [done|done|].
      pose proof (proj2 He _ _ Hws). unfold nodes in *. set_solver.
    - intros E. by destruct Hid. }
  intros old s2 (_ & H). change (idle (set_intr INTR_OFF s)) with (idle s) in H.
  change (ready (set_intr INTR_OFF s)) with (ready s) in H. kstep. split; [done|].
  destruct (pick rq (idle s)) as [n r]. destruct H as (H1 & H2 & H3). rewrite fmap_app. split_and!; [done| |].
  - destruct H2 as [D1 D2 D3 D4 D5 D6 D7]. split; try done.
    destruct D7 as (h2 & ts2 & c2 & x2 & e2 & E). exists h2, ts2, c2, x2, e2.
    destruct s, s2; simpl in *; injection E; intros; by subst.
  - destruct H2 as [_ _ _ _ _ _ (h2 & ts2 & c2 & x2 & e2 & E)].
    destruct s2; simpl in *; injection E; intros; by subst.
Qed.

(** Release with waiters: the first one becomes ready, ahead of all others. *)
Lemma sema_up_wake w ws' tw : sema_value s !! sm = Some 0 → ws = w :: ws' →
  tasks s !! w = Some tw → is_waiting (status tw) = true →
  wp (sema_up sm) s (λ _ s', ∃ h',
    s' = set_sema_value (<[sm := 1]> (sema_value s))
           (set_tasks (<[w := set_status TASK_READY tw]> (tasks s)) (set_links h' s))
    ∧ sched_ok pd (<[ready s := general_tag <$> w :: rq]> (<[waiters sm := general_tag <$> ws']> L)) (w :: rq) s').
Proof.
  intros Hv Hw Ht Hst. destruct (HR) as [HS Hc Hr].
  destruct (so_pcb _ _ _ _ HS _ _ Ht) as [P1 P2 P3 P4].
  unfold sema_up. apply wp_bind, wp_intr_disable. apply wp_bind. eapply wp_eq; [by apply ld_sema_eq|].
  apply wp_bind, wp_kassert; [done|]. apply wp_bind. eapply wp_mono; [eapply list_empty_ok; [apply HS|done]|].
  intros b s1 [-> ->]. rewrite Hw in *. rewrite bool_decide_false by done. cbn [negb]. apply wp_bind.
  apply wp_bind. eapply wp_mono; [eapply list_pop_ok; [apply HS|exact Hws]|].
  intros e s1 (-> & (h1 & -> & Hl1) & Hf1). rewrite elem2entry_tag by done.
  change (_ ws') with (general_tag <$> ws') in Hl1, Hf1.
  set (L1 := <[waiters sm := general_tag <$> ws']> L) in *.
  assert (sched_ok pd L1 rq (set_links h1 (set_intr INTR_OFF s))) as HS1.
  { destruct HS as [S1 S2 S3 S4 Se S5 S6 S7 S8 S9]. split; try done.
    - unfold L1. change (ready (set_links h1 (set_intr INTR_OFF s))) with (ready s). by rewrite lookup_insert_ne by done.
    - intros u Hu Hsu. eapply fresh_node_update; [exact Hws|by eapply S7|].
      pose proof (proj2 (S7 u Hu Hsu) _ _ Hws). unfold nodes in *. set_solver.
    - destruct S8 as (ti & Hti & Hd & Hfi). exists ti. split_and!; [done|done|]. intros Hwi.
      eapply fresh_node_update; [exact Hws|by apply Hfi|].
      pose proof (proj2 (Hfi Hwi) _ _ Hws). unfold nodes in *. set_solver. }
  eapply wp_mono; [by apply (thread_unblock_ok pd L1 rq _ w tw HS1)|].
  intros u s2 [HS2 (h2 & ->)]. change (ready (set_links h1 (set_intr INTR_OFF s))) with (ready s) in *.
  apply wp_bind. eapply wp_eq; [by apply ld_sema_eq|]. apply wp_bind. eapply wp_eq; [by apply st_sema_eq|].
  apply wp_bind. eapply wp_eq; [apply ld_sema_eq; apply lookup_insert_eq|].
  apply wp_bind, wp_kassert; [done|]. apply wp_bind, wp_intr_set_status. kstep.
  exists h2. split; [by destruct s|]. destruct HS2. by split.
Qed.
End sema.

(** ** Locks without contention *)
Record lock_free (s : kstate) (L : gmap Z (list Z)) (l : Z) : Prop := {
  lf_lists : lrep (links s) L;
  lf_wait : L !! waiters (lock_semaphore l) = Some [];
  lf_addr : l ≠ 0 ∧ lock_semaphore l ≠ 0;
  lf_head : locks s !! l = Some (mkLock NULL 0);
  lf_value : sema_value s !! lock_semaphore l = Some 1;
}.

(** The state with the lock held [n] times by [c]. *)
Definition held (s : kstate) (l c n : Z) : kstate :=
  set_locks (<[l := mkLock c n]> (locks s)) (set_sema_value (<[lock_semaphore l := 0]> (sema_value s)) s).

Section lock_seq.
Context (s : kstate) (L : gmap Z (list Z)) (l : Z).
Hypothesis (HF : lock_free s L l) (Hcur : cur s ≠ 0).

Lemma lock_acquire_free : lock_acquire l s = Ok ((), held s l (cur s) 1).
Proof.
  destruct HF as [_ _ [Hl Hsm] Hh Hv]. unfold lock_acquire, mbind, K_bind.
  rewrite (ld_lock_eq _ _ _ Hh). unfold running_thread, gets. fold (cur s). cbn [holder holder_repeat_nr].
  destruct (Z.eqb_spec NULL (cur s)) as [E|_]; [by rewrite <- E in Hcur|]. cbn [negb].
  rewrite sema_down_free by done. rewrite (ld_lock_eq _ l (mkLock NULL 0)) by done.
  rewrite st_lock_eq by done. rewrite (ld_lock_eq _ l (mkLock (cur s) 0)) by apply lookup_insert_eq.
  cbn [holder_repeat_nr Z.eqb]. unfold kassert, lift, ASSERT. rewrite st_lock_eq by done.
  unfold held. cbn [locks set_locks set_sema_value holder]. by rewrite insert_insert_eq.
Qed.

Lemma lock_acquire_again n : 1 ≤ n < 2 ^ 32 - 1 →
  lock_acquire l (held s l (cur s) n) = Ok ((), held s l (cur s) (n + 1)).
Proof.
  intros Hn. destruct HF as [_ _ [Hl Hsm] Hh Hv]. unfold lock_acquire, mbind, K_bind.
  rewrite (ld_lock_eq _ l (mkLock (cur s) n)) by apply lookup_insert_eq.
  unfold running_thread, gets. change (Z.land (esp (held s l (cur s) n)) 4294963200) with (cur s).
  cbn [holder holder_repeat_nr]. rewrite Z.eqb_refl. cbn [negb]. rewrite st_lock_eq, u32_id by (done || lia).
  unfold held. cbn [locks set_locks set_sema_value]. by rewrite insert_insert_eq.
Qed.

Lemma lock_release_again n : 1 < n < 2 ^ 32 →
  lock_release l (held s l (cur s) n) = Ok ((), held s l (cur s) (n - 1)).
Proof.
  intros Hn. destruct HF as [_ _ [Hl Hsm] Hh Hv]. unfold lock_release, mbind, K_bind.
  rewrite (ld_lock_eq _ l (mkLock (cur s) n)) by apply lookup_insert_eq.
  unfold running_thread, gets. change (Z.land (esp (held s l (cur s) n)) 4294963200) with (cur s).
  cbn [holder holder_repeat_nr]. rewrite Z.eqb_refl. cbn [kassert lift ASSERT].
  destruct (Z.ltb_spec 1 n); [|lia]. rewrite st_lock_eq, u32_id by (done || lia).
  unfold held. cbn [locks set_locks set_sema_value]. by rewrite insert_insert_eq.
Qed.

Lemma lock_release_last : lock_release l (held s l (cur s) 1) = Ok ((), s).
Proof.
  destruct HF as [HL Hw [Hl Hsm] Hh Hv]. unfold lock_release, mbind, K_bind.
  rewrite (ld_lock_eq _ l (mkLock (cur s) 1)) by apply lookup_insert_eq.
  unfold running_thread, gets. change (Z.land (esp (held s l (cur s) 1)) 4294963200) with (cur s).
  cbn [holder holder_repeat_nr]. rewrite Z.eqb_refl. cbn [kassert lift ASSERT Z.ltb Z.compare Pos.compare Pos.compare_cont Z.eqb Pos.eqb].
  rewrite !st_lock_eq by done. rewrite (sema_up_free _ L) by (done || by apply lookup_insert_eq).
  do 2 f_equal. unfold held. cbn [locks set_locks set_sema_value sema_value].
  rewrite !insert_insert_eq, (insert_id _ _ _ Hh), (insert_id _ _ _ Hv). by destruct s.
Qed.
End lock_seq.

(** Locks nest.  A thread that acquires a free lock any number [n] of
    times and releases it as often passes every assertion, never blocks and
    leaves the kernel state exactly as it was. *)
Theorem lock_nesting_roundtrip n s L l :
  lock_free s L l → cur s ≠ 0 → Z.of_nat n < 2 ^ 32 - 1 →
  (times n (lock_acquire l) ;; times n (lock_release l)) s = Ok ((), s).
Proof.
  intros HF Hc Hn.
  assert (∀ k m, (1 ≤ k)%nat → Z.of_nat k + Z.of_nat m < 2 ^ 32 - 1 →
    times m (lock_acquire l) (held s l (cur s) (Z.of_nat k)) = Ok ((), held s l (cur s) (Z.of_nat (k + m)))) as Hacq.
  { intros k m. revert k. induction m as [|m IH]; intros k Hk Hb; cbn [times]; [by rewrite Nat.add_0_r|].
    unfold mbind, K_bind. rewrite (lock_acquire_again s L l HF) by lia.
    replace (Z.of_nat k + 1) with (Z.of_nat (S k)) by lia. rewrite IH by lia. do 4 f_equal. lia. }
  assert (∀ m, (1 ≤ m)%nat → Z.of_nat m < 2 ^ 32 - 1 →
    times m (lock_release l) (held s l (cur s) (Z.of_nat m)) = Ok ((), s)) as Hrel.
  { induction m as [|[|m] IH]; intros Hm Hb; [lia| |].
    - cbn [times]. unfold mbind, K_bind. change (Z.of_nat 1) with 1. by rewrite (lock_release_last s L l HF).
    - cbn [times] in *. unfold mbind, K_bind at 1. rewrite (lock_release_again s L l HF) by lia.
      replace (Z.of_nat (S (S m)) - 1) with (Z.of_nat (S m)) by lia. apply IH; lia. }
  destruct n as [|n]; [done|]. unfold mbind, K_bind. cbn [times]. unfold mbind, K_bind.
  rewrite (lock_acquire_free s L l HF Hc). change 1 with (Z.of_nat 1). rewrite Hacq by lia.
  change (1 + n)%nat with (S n). apply (Hrel (S n)); lia.
Qed.

(** [sema_down].  On a free semaphore it takes it, changing nothing else.
    On a taken one the running thread goes to the back of the waiters, is
    blocked and the scheduler's choice runs, with the scheduler consistent and
    the semaphore unchanged. *)
Theorem sema_down_correct pd L rq s t sm ws :
  running pd L rq s t → sm ≠ 0 → L !! waiters sm = Some (general_tag <$> ws) → waiters sm ≠ ready s →
  cur s ≠ idle s →
  (sema_value s !! sm = Some 1 → sema_down sm s = Ok ((), set_sema_value (<[sm := 0]> (sema_value s)) s)) ∧
  (sema_value s !! sm = Some 0 → ∃ s' n r,
     sema_down_body sm (set_intr INTR_OFF s) = Ok (false, s') ∧ (n, r) = pick rq (idle s) ∧ cur s' = n
     ∧ sched_ok pd (<[ready s := general_tag <$> r]> (<[waiters sm := general_tag <$> ws ++ [cur s]]> L)) r s'
     ∧ sema_value s' = sema_value s).
Proof.
  intros HR Hsm Hws Hwr Hid. split; [by apply sema_down_free|]. intros Hv.
  destruct (wp_inv _ _ _ (sema_down_wait pd L rq s t sm ws HR Hsm Hws Hwr Hv Hid)) as (b & s' & Hrun & -> & H).
  destruct (pick rq (idle s)) as [n r]. destruct H as (H1 & H2 & H3). exists s', n, r.
  split_and!; [done|done|apply (sw_cur _ _ _ _ H2)|done|done].
Qed.

(** [sema_up] releases the semaphore and wakes exactly the thread that has
    waited longest: it leaves the waiters and becomes the next to be scheduled. *)
Theorem sema_up_correct pd L rq s t sm w ws tw :
  running pd L rq s t → sm ≠ 0 → L !! waiters sm = Some (general_tag <$> w :: ws) → waiters sm ≠ ready s →
  sema_value s !! sm = Some 0 → tasks s !! w = Some tw → is_waiting (status tw) = true →
  ∃ s', sema_up sm s = Ok ((), s') ∧ sema_value s' = <[sm := 1]> (sema_value s)
    ∧ tasks s' = <[w := set_status TASK_READY tw]> (tasks s) ∧ cur s' = cur s ∧ intr s' = intr s
    ∧ sched_ok pd (<[ready s := general_tag <$> w :: rq]> (<[waiters sm := general_tag <$> ws]> L)) (w :: rq) s'.
Proof.
  intros HR Hsm Hws Hwr Hv Ht Hst.
  destruct (wp_inv _ _ _ (sema_up_wake pd L rq s t sm (w :: ws) HR Hsm Hws Hwr w ws tw Hv eq_refl Ht Hst))
    as ([] & s' & Hrun & h' & -> & HS). eexists. done.
Qed.

(** ** The lock under preemption *)
Module LockSys.

(** Where a thread is: outside, before or in the loop of [sema_down], queued,
    past [sema_down], past [holder = running_thread()], holding the lock, past
    the assertions of [lock_release], past [holder = NULL], before [sema_up]. *)
Inductive pc := Out | Try | Wait | Got | Own | In | Drop1 | Drop2 | Up.
#[global] Instance pc_eq_dec : EqDecision pc.
Proof. solve_decision. Defined.

Record sys := mkSys { hold : Z; rep : Z; val : Z; ws : list Z; pcs : gmap Z pc }.

Inductive act := Acquire | Release | Run.

Definition at_pc (s : sys) (i : Z) (p : pc) : sys := mkSys (hold s) (rep s) (val s) (ws s) (<[i := p]> (pcs s)).

(** One step of thread [i]; [None]: it has none.  [Panic]: an assertion of
    sync.c or of thread_unblock fails. *)
Definition step (a : act) (i : Z) (s : sys) : option (outcome sys) :=
  match pcs s !! i, a with
  | Some Out, Acquire | Some In, Acquire =>
      if negb (hold s =? i) then Some (Ok (at_pc s i Try))
      else Some (Ok (mkSys (hold s) (u32 (rep s + 1)) (val s) (ws s) (<[i := In]> (pcs s))))
  | Some Try, Run =>
      if val s =? 0 then
        if bool_decide (i ∈ ws s) then Some Panic
        else Some (Ok (mkSys (hold s) (rep s) (val s) (ws s ++ [i]) (<[i := Wait]> (pcs s))))
      else
        let v := u8 (val s - 1) in
        if v =? 0 then Some (Ok (mkSys (hold s) (rep s) v (ws s) (<[i := Got]> (pcs s)))) else Some Panic
  | Some Got, Run => Some (Ok (mkSys i (rep s) (val s) (ws s) (<[i := Own]> (pcs s))))
  | Some Own, Run =>
      if rep s =? 0 then Some (Ok (mkSys (hold s) 1 (val s) (ws s) (<[i := In]> (pcs s)))) else Some Panic
  | Some In, Release =>
      if negb (hold s =? i) then Some Panic
      else if 1 <? rep s then Some (Ok (mkSys (hold s) (u32 (rep s - 1)) (val s) (ws s) (pcs s)))
      else if rep s =? 1 then Some (Ok (at_pc s i Drop1)) else Some Panic
  | Some Drop1, Run => Some (Ok (mkSys NULL (rep s) (val s) (ws s) (<[i := Drop2]> (pcs s))))
  | Some Drop2, Run => Some (Ok (mkSys (hold s) 0 (val s) (ws s) (<[i := Up]> (pcs s))))
  | Some Up, Run =>
      if negb (val s =? 0) then Some Panic
      else
        let v := u8 (val s + 1) in
        if negb (v =? 1) then Some Panic
        else match ws s with
        | [] => Some (Ok (mkSys (hold s) (rep s) v [] (<[i := Out]> (pcs s))))
        | w :: ws' =>
            if decide (pcs s !! w = Some Wait)
            then Some (Ok (mkSys (hold s) (rep s) v ws' (<[i := Out]> (<[w := Try]> (pcs s)))))
            else Some Panic
        end
  | _, _ => None
  end.

(** All interleavings of a set of threads, none of which is NULL; recursion
    stays below the width of the counter. *)
Inductive reach (ths : gset Z) : sys → Prop :=
| reach_init : 0 ∉ ths → reach ths (mkSys NULL 0 1 [] (gset_to_gmap Out ths))
| reach_step a i s s' : reach ths s → rep s < 2 ^ 32 - 1 → step a i s = Some (Ok s') → reach ths s'.

Definition owns (p : pc) : bool :=
  match p with Got | Own | In | Drop1 | Drop2 | Up => true | _ => false end.

(** What the lock's fields are while [i] owns it at [p]. *)
Definition owner_state (s : sys) (i : Z) (p : pc) : Prop :=
  match p with
  | Got | Up => hold s = NULL ∧ rep s = 0
  | Own => hold s = i ∧ rep s = 0
  | In => hold s = i ∧ 1 ≤ rep s < 2 ^ 32
  | Drop1 => hold s = i ∧ rep s = 1
  | Drop2 => hold s = NULL ∧ rep s = 1
  | _ => True
  end.

Record inv (s : sys) : Prop := {
  iv_null : pcs s !! 0 = None;
  iv_owner i p : pcs s !! i = Some p → owns p = true → val s = 0 ∧ owner_state s i p;
  iv_one i j p q : pcs s !! i = Some p → pcs s !! j = Some q → owns p = true → owns q = true → i = j;
  iv_val : (val s = 0 ∧ ∃ i p, pcs s !! i = Some p ∧ owns p = true)
         ∨ (val s = 1 ∧ hold s = NULL ∧ rep s = 0);
  iv_ws i : i ∈ ws s ↔ pcs s !! i = Some Wait;
  iv_nodup : NoDup (ws s);
  iv_wake : ws s ≠ [] → ∃ i p, pcs s !! i = Some p ∧ (owns p = true ∨ p = Try);
}.

Lemma inv_init ths : 0 ∉ ths → inv (mkSys NULL 0 1 [] (gset_to_gmap Out ths)).
Proof.
  intros H0. assert (∀ i p, gset_to_gmap Out ths !! i = Some p → p = Out) as Hall.
  { intros i p. rewrite lookup_gset_to_gmap_Some. by intros [_ <-]. }
  split; simpl.
  - by rewrite lookup_gset_to_gmap_None.
  - by intros i p ->%Hall.
  - by intros i j p q ->%Hall.
  - by right.
  - intros i. split; [by intros ?%not_elem_of_nil|by intros ?%Hall].
  - constructor.
  - done.
Qed.

(** A thread moves without taking or giving the lock or queueing. *)
Lemma inv_move s i p p' h r :
  inv s → pcs s !! i = Some p → p ≠ Wait → p' ≠ Wait →
  (owns p = true ∧ owns p' = true ∧ owner_state (mkSys h r (val s) (ws s) (<[i := p']> (pcs s))) i p'
   ∨ owns p = false ∧ owns p' = false ∧ h = hold s ∧ r = rep s ∧ (p = Try → p' = Try)) →
  inv (mkSys h r (val s) (ws s) (<[i := p']> (pcs s))).
Proof.
  intros [I1 I2 I3 I4 I5 I6 I7] Hi Hp Hp' Hc.
  assert (i ≠ 0) as Hi0 by (intros ->; congruence).
  assert (owns p' = owns p) as Eo by (destruct Hc as [(-> & -> & _)|(-> & -> & _)]; done).
  split; cbn [pcs hold rep val ws].
  - by rewrite lookup_insert_ne.
  - intros j q. rewrite lookup_insert_Some. intros [[<- <-]|[Hne Hj]] Ho.
    + destruct Hc as [(H1 & H2 & H3)|(H1 & H2 & _)]; [|congruence]. split; [by apply (I2 i p)|done].
    + destruct Hc as [(H1 & H2 & H3)|(H1 & H2 & -> & -> & _)].
      * by destruct (Hne (I3 _ _ _ _ Hi Hj H1 Ho)).
      * destruct (I2 j q Hj Ho) as [? Hos]. split; [done|]. by destruct q.
  - intros j k q q'. rewrite !lookup_insert_Some. rewrite <- ?Eo.
    intros [[<- <-]|[Hne Hj]] [[<- <-]|[Hne' Hk]] Ho Ho'; [done| | |by eapply I3].
    + rewrite Eo in Ho. by eapply (I3 i k).
    + rewrite Eo in Ho'. by eapply (I3 j i).
  - destruct I4 as [(Hv & j & q & Hj & Hq)|(Hv & Hh & Hr)].
    + left. split; [done|]. destruct (decide (j = i)) as [->|].
      * exists i, p'. rewrite lookup_insert_eq. split; [done|]. rewrite Eo. rewrite Hi in Hj. by simplify_eq.
      * exists j, q. by rewrite lookup_insert_ne.
    + right. destruct Hc as [(H1 & _)|(H1 & H2 & -> & -> & _)]; [|done].
      destruct (I2 i p Hi H1). lia.
  - intros j. rewrite I5. destruct (decide (j = i)) as [->|].
    + rewrite lookup_insert_eq. split; congruence.
    + by rewrite lookup_insert_ne.
  - done.
  - intros Hw. destruct (I7 Hw) as (j & q & Hj & Hq). destruct (decide (j = i)) as [->|].
    + exists i, p'. rewrite lookup_insert_eq. split; [done|]. rewrite Hi in Hj. simplify_eq. rewrite Eo.
      destruct Hq as [?| ->]; [by left|]. right. destruct Hc as [(H1 & _)|(_ & _ & _ & _ & H)]; [done|by apply H].
    + exists j, q. by rewrite lookup_insert_ne.
Qed.

(** [sema_down] succeeds. *)
Lemma inv_take s i : inv s → pcs s !! i = Some Try → val s = 1 →
  inv (mkSys (hold s) (rep s) 0 (ws s) (<[i := Got]> (pcs s))).
Proof.
  intros [I1 I2 I3 I4 I5 I6 I7] Hi Hv. destruct I4 as [[? _]|(_ & Hh & Hr)]; [lia|].
  assert (∀ j q, pcs s !! j = Some q → owns q = false) as Hno.
  { intros j q Hj. destruct (owns q) eqn:E; [|done]. destruct (I2 _ _ Hj E). lia. }
  split; cbn [pcs hold rep val ws].
  - rewrite lookup_insert_ne; [done|]. intros ->. congruence.
  - intros j q. rewrite lookup_insert_Some. intros [[<- <-]|[Hne Hj]] Ho; [done|]. by rewrite (Hno _ _ Hj) in Ho.
  - intros j k q q'. rewrite !lookup_insert_Some.
    intros [[<- <-]|[Hne Hj]] [[<- <-]|[Hne' Hk]] Ho Ho'; try done; by rewrite (Hno _ _ ltac:(eassumption)) in *.
  - left. split; [done|]. exists i, Got. by rewrite lookup_insert_eq.
  - intros j. rewrite I5. destruct (decide (j = i)) as [->|].
    + rewrite lookup_insert_eq. split; congruence.
    + by rewrite lookup_insert_ne.
  - done.
  - intros _. exists i, Got. rewrite lookup_insert_eq. split; [done|by left].
Qed.

(** [sema_down] queues the thread. *)
Lemma inv_wait s i : inv s → pcs s !! i = Some Try → val s = 0 → i ∉ ws s →
  inv (mkSys (hold s) (rep s) (val s) (ws s ++ [i]) (<[i := Wait]> (pcs s))).
Proof.
  intros [I1 I2 I3 I4 I5 I6 I7] Hi Hv Hn. destruct I4 as [(_ & o & q & Ho & Hq)|(? & _)]; [|lia].
  assert (o ≠ i) as Hoi by (intros ->; rewrite Hi in Ho; by simplify_eq).
  split; cbn [pcs hold rep val ws].
  - rewrite lookup_insert_ne; [done|]. intros ->. congruence.
  - intros j p. rewrite lookup_insert_Some. intros [[<- <-]|[Hne Hj]] Hp; [done|].
    destruct (I2 j p Hj Hp) as [? Hos]. split; [done|]. by destruct p.
  - intros j k p p'. rewrite !lookup_insert_Some.
    intros [[<- <-]|[Hne Hj]] [[<- <-]|[Hne' Hk]] Hp Hp'; try done. by eapply I3.
  - left. split; [done|]. exists o, q. by rewrite lookup_insert_ne.
  - intros j. rewrite elem_of_app, list_elem_of_singleton, I5. destruct (decide (j = i)) as [->|].
    + rewrite lookup_insert_eq. tauto.
    + rewrite lookup_insert_ne by done. tauto.
  - apply NoDup_app. split_and!; [done|set_solver|apply NoDup_singleton].
  - intros _. exists o, q. rewrite lookup_insert_ne by done. split; [done|by left].
Qed.

(** [sema_up] with and without a waiter. *)
Lemma inv_up s i ws' pcs' :
  inv s → pcs s !! i = Some Up →
  (ws s = [] ∧ ws' = [] ∧ pcs' = pcs s ∨ ∃ w, ws s = w :: ws' ∧ pcs' = <[w := Try]> (pcs s)) →
  inv (mkSys (hold s) (rep s) 1 ws' (<[i := Out]> pcs')).
Proof.
  intros [I1 I2 I3 I4 I5 I6 I7] Hi Hc. destruct (I2 i Up Hi eq_refl) as [Hv [Hh Hr]].
  assert (∀ j q, pcs s !! j = Some q → j ≠ i → owns q = false) as Hno.
  { intros j q Hj Hne. destruct (owns q) eqn:E; [|done]. by destruct (Hne (I3 _ _ _ _ Hj Hi E eq_refl)). }
  assert (∀ j q, pcs' !! j = Some q → j ≠ i → pcs s !! j = Some q ∨ q = Try ∧ pcs s !! j = Some Wait ∧ ws s ≠ []) as Hpc.
  { intros j q Hj Hne. destruct Hc as [(_ & _ & ->)|(w & Ew & ->)]; [by left|].
    rewrite lookup_insert_Some in Hj. destruct Hj as [[<- <-]|[_ Hj]]; [right|by left].
    split_and!; [done|apply I5; rewrite Ew; left|by rewrite Ew]. }
  assert (pcs' !! 0 = None) as H0.
  { destruct Hc as [(_ & _ & ->)|(w & Ew & ->)]; [done|]. rewrite lookup_insert_ne; [done|].
    intros ->. assert (pcs s !! 0 = Some Wait) by (apply I5; rewrite Ew; left). congruence. }
  assert (∀ j q, <[i := Out]> pcs' !! j = Some q → owns q = false) as Hno'.
  { intros j q. rewrite lookup_insert_Some. intros [[<- <-]|[Hne Hj]]; [done|].
    destruct (Hpc j q Hj ltac:(done)) as [H|(-> & _)]; [by eapply Hno|done]. }
  split; cbn [pcs hold rep val ws].
  - rewrite lookup_insert_ne; [done|]. intros ->. congruence.
  - intros j q Hj Ho. by rewrite (Hno' _ _ Hj) in Ho.
  - intros j k q q' Hj _ Ho. by rewrite (Hno' _ _ Hj) in Ho.
  - by right.
  - intros j. assert (i ∉ ws s) as Hin by (rewrite I5; congruence). destruct (decide (j = i)) as [->|Hne].
    + rewrite lookup_insert_eq. split; [|done]. destruct Hc as [(_ & -> & _)|(w & Ew & _)]; [by intros ?%not_elem_of_nil|].
      rewrite Ew in Hin. set_solver.
    + rewrite lookup_insert_ne by done. destruct Hc as [(Ew & -> & ->)|(w & Ew & ->)].
      * rewrite <- I5, Ew. done.
      * rewrite Ew in I6. apply NoDup_cons in I6 as [Hwn _]. destruct (decide (w = j)) as [->|].
        -- rewrite lookup_insert_eq. split; [done|]. intros [=].
        -- rewrite lookup_insert_ne by done. rewrite <- I5, Ew, elem_of_cons. naive_solver.
  - destruct Hc as [(_ & -> & _)|(w & Ew & _)]; [constructor|]. rewrite Ew in I6. by apply NoDup_cons in I6 as [_ ?].
  - intros Hw. destruct Hc as [(_ & -> & _)|(w & Ew & ->)]; [done|].
    assert (w ≠ i) by (intros ->; assert (pcs s !! i = Some Wait) by (apply I5; rewrite Ew; left); congruence).
    exists w, Try. rewrite lookup_insert_ne, lookup_insert_eq by done. split; [done|by right].
Qed.

Lemma hold_owns s i p : inv s → pcs s !! i = Some p → hold s = i → owns p = true.
Proof.
  intros [I1 I2 I3 I4 I5 I6 I7] Hi Hh. assert (i ≠ 0) by (intros ->; congruence).
  destruct I4 as [(_ & j & q & Hj & Hq)|(_ & Hn & _)]; [|unfold NULL in *; congruence].
  destruct (I2 j q Hj Hq) as [_ Hos]. destruct (decide (j = i)) as [->|]; [congruence|].
  exfalso. destruct q; simpl in *; unfold NULL in *; destruct Hos; congruence.
Qed.

(** Every step is safe and keeps the invariant. *)
Lemma step_inv a i s r : inv s → rep s < 2 ^ 32 - 1 → step a i s = Some r → ∃ s', r = Ok s' ∧ inv s'.
Proof.
  intros HI Hb. unfold step. destruct (pcs s !! i) as [p|] eqn:Hi; [|done].
  destruct p, a; try done; intros H.
  - (* Out, Acquire *) destruct (Z.eqb_spec (hold s) i) as [E|]; cbn [negb] in H.
    + by pose proof (hold_owns _ _ _ HI Hi E).
    + simplify_eq. eexists. split; [done|]. eapply inv_move; [done|done|done|done|]. by right.
  - (* Try *) destruct (Z.eqb_spec (val s) 0) as [E|E].
    + assert (i ∉ ws s) as Hn by (rewrite (iv_ws _ HI); congruence).
      rewrite bool_decide_false in H by done. simplify_eq. eexists. split; [done|]. by apply inv_wait.
    + destruct (iv_val _ HI) as [[? _]|[E1 _]]; [done|]. rewrite E1 in H. simplify_eq/=.
      eexists. split; [done|]. by apply inv_take.
  - (* Got *) simplify_eq. eexists. split; [done|].
    destruct (iv_owner _ HI _ _ Hi eq_refl) as [_ [_ Hr]]. eapply inv_move; [done|done|done|done|]. by left.
  - (* Own *) destruct (iv_owner _ HI _ _ Hi eq_refl) as [_ [Hh Hr]]. rewrite Hr in H. simplify_eq/=.
    eexists. split; [done|]. eapply inv_move; [done|done|done|done|]. left. simpl. split_and!; done || lia.
  - (* In, Acquire *) destruct (iv_owner _ HI _ _ Hi eq_refl) as [_ [Hh Hr]].
    rewrite Hh, Z.eqb_refl in H. cbn [negb] in H. simplify_eq. eexists. split; [done|].
    eapply inv_move; [done|done|done|done|]. left. simpl. rewrite u32_id by lia. split_and!; done || lia.
  - (* In, Release *) destruct (iv_owner _ HI _ _ Hi eq_refl) as [_ [Hh Hr]].
    rewrite Hh, Z.eqb_refl in H. cbn [negb] in H. destruct (Z.ltb_spec 1 (rep s)).
    + simplify_eq. eexists. split; [done|]. rewrite <- (insert_id _ _ _ Hi) at 1.
      eapply inv_move; [done|done|done|done|]. left. simpl. rewrite u32_id by lia. split_and!; done || lia.
    + destruct (Z.eqb_spec (rep s) 1); [|lia]. simplify_eq. eexists. split; [done|].
      eapply inv_move; [done|done|done|done|]. by left.
  - (* Drop1 *) simplify_eq. destruct (iv_owner _ HI _ _ Hi eq_refl) as [_ [Hh Hr]]. eexists. split; [done|].
    eapply inv_move; [done|done|done|done|]. by left.
  - (* Drop2 *) simplify_eq. destruct (iv_owner _ HI _ _ Hi eq_refl) as [_ [Hh Hr]]. eexists. split; [done|].
    eapply inv_move; [done|done|done|done|]. by left.
  - (* Up *) destruct (iv_owner _ HI _ _ Hi eq_refl) as [Hv [Hh Hr]]. rewrite Hv in H. cbn [negb Z.eqb] in H.
    change (u8 (0 + 1) =? 1) with true in H. cbn [negb] in H. change (u8 (0 + 1)) with 1 in H.
    destruct (ws s) as [|w ws'] eqn:Ew.
    + simplify_eq. eexists. split; [done|]. eapply inv_up; [done|done|]. by left.
    + assert (pcs s !! w = Some Wait) as Hw by (apply (iv_ws _ HI); rewrite Ew; left).
      rewrite decide_True in H by done. simplify_eq. eexists. split; [done|]. eapply inv_up; [done|done|].
      right. by exists w.
Qed.

Lemma reach_inv ths s : reach ths s → inv s.
Proof.
  induction 1 as [|a i s s' _ IH Hb Hs]; [by apply inv_init|].
  destruct (step_inv _ _ _ _ IH Hb Hs) as (s'' & [= ->] & ?). done.
Qed.

(** A thread that has a next step. *)
Definition can_step (s : sys) (i : Z) : Prop := ∃ a r, step a i s = Some r.

Lemma can_step_ok s i p : pcs s !! i = Some p → p ≠ Wait → can_step s i.
Proof.
  intros Hi Hp. destruct p; [exists Acquire|exists Run|done|exists Run|exists Run|exists Release|exists Run|exists Run|exists Run];
    unfold step; rewrite Hi; repeat case_match; eauto.
Qed.

(** C7: Mutual exclusion.  In every interleaving of any set of threads that
    acquire and release one lock, preempted between any two steps of sync.c, at
    most one thread is between taking the semaphore in [lock_acquire] and
    giving it back in [lock_release]; the semaphore is 0 while there is one. *)
Theorem lock_mutual_exclusion ths s i j p q :
  reach ths s → pcs s !! i = Some p → pcs s !! j = Some q → owns p = true → owns q = true →
  i = j ∧ val s = 0.
Proof.
  intros HI%reach_inv Hi Hj Hp Hq. split; [by eapply iv_one|]. by eapply iv_owner.
Qed.

(** No assertion of sync.c fails.  In every reachable state every step of
    every thread succeeds: the assertions on the semaphore value, the holder,
    the nesting count, the waiters and the status of the woken thread hold. *)
Theorem lock_never_panics ths s a i :
  reach ths s → rep s < 2 ^ 32 - 1 → step a i s ≠ Some Panic.
Proof.
  intros HI%reach_inv Hb Hs. destruct (step_inv _ _ _ _ HI Hb Hs) as (s' & [=] & _).
Qed.

(** C19: No lost wake-up.  Whenever a thread waits for the lock, some other
    thread holds it or has been woken and will retry, and it can take a step:
    waiting threads never block each other for ever. *)
Theorem lock_no_lost_wakeup ths s i :
  reach ths s → pcs s !! i = Some Wait →
  ∃ j p, j ≠ i ∧ pcs s !! j = Some p ∧ (owns p = true ∨ p = Try) ∧ can_step s j.
Proof.
  intros HI%reach_inv Hi. assert (ws s ≠ []) as Hw.
  { intros E. assert (i ∈ ws s) as H by by apply (iv_ws _ HI). rewrite E in H. by apply not_elem_of_nil in H. }
  destruct (iv_wake _ HI Hw) as (j & p & Hj & Hp). exists j, p. split_and!; [|done|done|].
  - intros ->. rewrite Hi in Hj. simplify_eq. by destruct Hp.
  - eapply can_step_ok; [done|]. intros ->. by destruct Hp.
Qed.

(** *** Witnesses: thread 10 holds the lock, thread 20 waits for it *)
Fixpoint run_steps (tr : list (act * Z)) (s : sys) : option sys :=
  match tr with
  | [] => Some s
  | (a, i) :: tr => match step a i s with
                    | Some (Ok s') => if rep s <? 2 ^ 32 - 1 then run_steps tr s' else None
                    | _ => None
                    end
  end.

Lemma run_steps_reach ths tr s s' : reach ths s → run_steps tr s = Some s' → reach ths s'.
Proof.
  revert s. induction tr as [|[a i] tr IH]; intros s Hr H; simpl in H; [by simplify_eq|].
  destruct (step a i s) as [[s1| | | |]|] eqn:E; try done.
  destruct (Z.ltb_spec (rep s) (2 ^ 32 - 1)); [|done]. eapply IH; [|done]. by eapply reach_step.
Qed.

Definition demo_init : sys := mkSys NULL 0 1 [] (gset_to_gmap Out {[10; 20]}).
Definition demo_trace : list (act * Z) :=
  [(Acquire, 10); (Acquire, 20); (Run, 10); (Run, 20); (Run, 10); (Run, 10); (Acquire, 10)].
Definition demo_contended : sys := default demo_init (run_steps demo_trace demo_init).

Lemma demo_contended_reach : reach {[10; 20]} demo_contended.
Proof.
  eapply (run_steps_reach _ demo_trace demo_init); [apply reach_init; set_solver by lia|vm_compute; reflexivity].
Qed.

Lemma lock_mutual_exclusion_witness : 10 = 10 ∧ val demo_contended = 0.
Proof.
  apply (lock_mutual_exclusion {[10; 20]} demo_contended 10 10 In In demo_contended_reach); reflexivity.
Defined.

Lemma lock_never_panics_witness : step Release 10 demo_contended ≠ Some Panic.
Proof. apply (lock_never_panics {[10; 20]} demo_contended Release 10 demo_contended_reach). vm_compute. reflexivity. Defined.

Lemma lock_no_lost_wakeup_witness :
  ∃ j p, j ≠ 20 ∧ pcs demo_contended !! j = Some p ∧ (owns p = true ∨ p = Try) ∧ can_step demo_contended j.
Proof. apply (lock_no_lost_wakeup {[10; 20]} demo_contended 20 demo_contended_reach). vm_compute. reflexivity. Defined.
End LockSys.

(** *** Witnesses: the threads of [demo_sched] and one that waits for the
    semaphore at 0x7000; the lock at 0x8000 is free *)
Definition demo_sync_lists : gmap Z (list Z) :=
  {[0x5000 := [0x200000 + 68]; 0x7004 := [0x400000 + 68]; 0x8008 := []]}.
Definition demo_sync : kstate :=
  let links := match run_ops [LInit 0x5000; LAppend 0x5000 (0x200000 + 68); LInit 0x7004;
                              LAppend 0x7004 (0x400000 + 68); LInit 0x8008] k0 with
               | Ok (_, s) => links s | _ => ∅ end in
  set_locks {[0x8000 := mkLock NULL 0]} (set_sema_value {[0x7000 := 0; 0x8004 := 1]}
    (set_links links (set_tasks (<[0x400000 := demo_task 0x400000 TASK_BLOCKED]> demo_tasks) demo_sched))).

Lemma demo_sync_tasks_inv p t : tasks demo_sync !! p = Some t → t = demo_task p (status t) ∧
  (p = 0x9e000 ∧ status t = TASK_RUNNING ∨ p = 0x200000 ∧ status t = TASK_READY
   ∨ p = 0x300000 ∧ status t = TASK_BLOCKED ∨ p = 0x400000 ∧ status t = TASK_BLOCKED).
Proof.
  unfold demo_sync. cbn [tasks set_locks set_sema_value set_links set_tasks]. rewrite lookup_insert_Some.
  intros [[<- <-]|[_ H]]; [simpl; tauto|]. apply demo_tasks_inv in H. tauto.
Qed.

Lemma demo_sync_lrep : lrep (links demo_sync) demo_sync_lists.
Proof. apply lrep_check_ok. vm_compute. reflexivity. Qed.

Lemma demo_sync_running : running (λ _, 0) demo_sync_lists [0x200000] demo_sync (demo_task 0x9e000 TASK_RUNNING).
Proof.
  split; [|reflexivity|reflexivity]. split.
  - exact demo_sync_lrep.
  - reflexivity.
  - intros p. rewrite list_elem_of_singleton. split.
    + intros ->. exists (demo_task 0x200000 TASK_READY). split; reflexivity.
    + intros (t & [_ H]%demo_sync_tasks_inv & Hs). destruct H as [[-> H]|[[-> H]|[[-> H]|[-> H]]]]; congruence.
  - intros p t [Ht H]%demo_sync_tasks_inv. rewrite Ht. unfold demo_task.
    destruct H as [[-> H]|[[-> H]|[[-> H]|[-> H]]]]; split; try reflexivity; simpl; unfold switch_frame; lia.
  - vm_compute. split; [split; discriminate || reflexivity|reflexivity].
  - exists (demo_task 0x9e000 TASK_RUNNING). split; reflexivity.
  - intros p t [_ H]%demo_sync_tasks_inv Hs.
    destruct H as [[-> H]|[[-> H]|[[-> H]|[-> H]]]]; [reflexivity|congruence|congruence|congruence].
  - intros t _ _. apply freshb_ok. vm_compute. reflexivity.
  - exists (demo_task 0x300000 TASK_BLOCKED). split; [reflexivity|]. split; [discriminate|]. intros _.
    apply freshb_ok. vm_compute. reflexivity.
  - intros d Hd. destruct Hd as [->|(p & t & [Ht _]%demo_sync_tasks_inv & Hne & _)].
    + split; [exact demo_dir_ok|]. intros p t [Ht _]%demo_sync_tasks_inv Hne. by rewrite Ht in Hne.
    + by rewrite Ht in Hne.
Qed.

Lemma sema_down_correct_witness :
  sema_value demo_sync !! 0x7000 = Some 0 ∧ ∃ s' n r,
     sema_down_body 0x7000 (set_intr INTR_OFF demo_sync) = Ok (false, s') ∧ (n, r) = (0x200000, []) ∧ cur s' = n
     ∧ sched_ok (λ _, 0) (<[ready demo_sync := general_tag <$> r]>
          (<[waiters 0x7000 := general_tag <$> [0x400000; 0x9e000]]> demo_sync_lists)) r s'
     ∧ sema_value s' = sema_value demo_sync.
Proof.
  split; [reflexivity|].
  apply (sema_down_correct (λ _, 0) demo_sync_lists [0x200000] demo_sync (demo_task 0x9e000 TASK_RUNNING)
           0x7000 [0x400000] demo_sync_running); [discriminate|reflexivity|discriminate|discriminate|reflexivity].
Defined.

Lemma sema_up_correct_witness :
  ∃ s', sema_up 0x7000 demo_sync = Ok ((), s') ∧ sema_value s' = <[0x7000 := 1]> (sema_value demo_sync)
    ∧ tasks s' = <[0x400000 := set_status TASK_READY (demo_task 0x400000 TASK_BLOCKED)]> (tasks demo_sync)
    ∧ cur s' = cur demo_sync ∧ intr s' = intr demo_sync
    ∧ sched_ok (λ _, 0) (<[ready demo_sync := general_tag <$> [0x400000; 0x200000]]>
         (<[waiters 0x7000 := general_tag <$> []]> demo_sync_lists)) [0x400000; 0x200000] s'.
Proof.
  apply (sema_up_correct (λ _, 0) demo_sync_lists [0x200000] demo_sync (demo_task 0x9e000 TASK_RUNNING)
           0x7000 0x400000 [] (demo_task 0x400000 TASK_BLOCKED) demo_sync_running);
    [discriminate|reflexivity|discriminate|reflexivity|reflexivity|reflexivity].
Defined.

Lemma lock_nesting_roundtrip_witness :
  (times 3 (lock_acquire 0x8000) ;; times 3 (lock_release 0x8000)) demo_sync = Ok ((), demo_sync).
Proof.
  apply (lock_nesting_roundtrip 3 demo_sync demo_sync_lists 0x8000); [|vm_compute; discriminate|reflexivity].
  split; [exact demo_sync_lrep|reflexivity|split; discriminate|reflexivity|reflexivity].
Defined.
