(* ===== verification/Heap.v ===== *)
(** * kernel/losmemory.c: locked page allocation and the block heap

    [sys_malloc] serves requests up to 1024 bytes from blocks of seven sizes,
    carved out of one-page arenas, and larger ones from whole pages behind an
    arena header.  Arena headers and the list node at the start of a free
    block are the [arenas] and [links] of the kernel state; block contents are
    words of [phys].  [heap_ok] says that the free lists hold exactly the free
    blocks of the arenas, counted right, and that all of it lies in mapped
    pages. *)
From S2P Require Import Prelude CString Bitmap Machine DList Mmu PageMem Sched Sync.

Definition pool_lock (t : PoolType) (s : kstate) : Z := lock (pool_of t s).

Definition get_user_pages (pages : Z) : K Z :=
  l ← gets (pool_lock PF_USER);
  lock_acquire l ;;
  vaddr ← malloc_page PF_USER pages;
  kassert (negb (vaddr =? NULL)) ;;
  vclear (Z.to_nat (u32 (pages * PG_SIZE) / 4)) vaddr ;;
  lock_release l ;;
  mret vaddr.

Definition get_a_page (type : PoolType) (vaddr : Z) : K Z :=
  l ← gets (pool_lock type);
  lock_acquire l ;;
  cur ← running_thread;
  t ← ld_task cur;
  (if negb (pgdir t =? NULL) && bool_decide (type = PF_USER) then
     let uv := userprog_vaddr t in
     let bit_idx := i32 (u32 (vaddr - vaddr_start uv) / PG_SIZE) in
     kassert (0 <? bit_idx) ;;
     m ← lift (bitmap_set (vaddr_map uv) (u32 bit_idx) 1);
     upd_task cur (set_userprog_vaddr (mkVirtualAddr m (vaddr_start uv)))
   else if (pgdir t =? NULL) && bool_decide (type = PF_KERNEL) then
     kv ← gets kernel_vaddr;
     let bit_idx := i32 (u32 (vaddr - vaddr_start kv) / PG_SIZE) in
     kassert (0 <? bit_idx) ;;
     m ← lift (bitmap_set (vaddr_map kv) (u32 bit_idx) 1);
     modify (set_kernel_vaddr (mkVirtualAddr m (vaddr_start kv)))
   else kfail Panic) ;;
  page_phyaddr ← palloc type;
  if page_phyaddr =? NULL then mret NULL
  else page_table_add vaddr page_phyaddr ;; lock_release l ;; mret vaddr.

Definition get_a_page_without_opvaddrbitmap (pf : PoolType) (vaddr : Z) : K Z :=
  l ← gets (pool_lock pf);
  lock_acquire l ;;
  page_phyaddr ← palloc pf;
  if page_phyaddr =? NULL then lock_release l ;; mret NULL
  else page_table_add vaddr page_phyaddr ;; lock_release l ;; mret vaddr.

(** ** Arenas *)
Definition ld_desc (d : Z) : K MemBlockDesc := m ← gets descs; lift (deref (m !! d)).
Definition ld_arena (a : Z) : K Arena := m ← gets arenas; lift (deref (m !! a)).
Definition st_arena (a : Z) (v : Arena) : K unit :=
  modify (λ s, set_arenas (<[a := v]> (arenas s)) s).

(** The loop of [block_desc_init], from descriptor [desc_idx] on. *)
Fixpoint desc_init_loop (n : nat) (desc_array desc_idx block_size : Z) : K unit :=
  match n with
  | O => mret ()
  | S n =>
      let d := desc_array + desc_idx * sizeof_MemBlockDesc in
      modify (λ s, set_descs (<[d := mkDesc block_size ((PG_SIZE - sizeof_Arena) / block_size)]> (descs s)) s) ;;
      list_init (desc_free_list d) ;;
      desc_init_loop n desc_array (u16 (desc_idx + 1)) (u16 (block_size * 2))
  end.
Definition block_desc_init (desc_array : Z) : K unit := desc_init_loop DESC_CNT desc_array 0 16.

Definition arena2block (a idx : Z) : K Z :=
  ar ← ld_arena a; d ← ld_desc (desc ar);
  mret (u32 (a + sizeof_Arena + u32 (idx * block_size d))).

Definition block2arena (b : Z) : Z := Z.land b 0xfffff000.

(** The descriptor search of [sys_malloc]; [DESC_CNT] when none fits. *)
Fixpoint find_desc (n : nat) (ds size desc_idx : Z) : K Z :=
  match n with
  | O => mret desc_idx
  | S n =>
      d ← ld_desc (ds + desc_idx * sizeof_MemBlockDesc);
      if size <=? block_size d then mret desc_idx else find_desc n ds size (u8 (desc_idx + 1))
  end.

(** The loop that puts the blocks of a new arena on the free list. *)
Fixpoint split_arena (n : nat) (a block_idx : Z) : K unit :=
  match n with
  | O => mret ()
  | S n =>
      b ← arena2block a block_idx;
      ar ← ld_arena a;
      found ← list_find (desc_free_list (desc ar)) b;
      kassert (negb found) ;;
      list_append (desc_free_list (desc ar)) b ;;
      split_arena n a (u32 (block_idx + 1))
  end.

(** The loop of [sys_free] that takes the blocks of an arena off the list. *)
Fixpoint join_arena (n : nat) (a block_idx : Z) : K unit :=
  match n with
  | O => mret ()
  | S n =>
      b ← arena2block a block_idx;
      ar ← ld_arena a;
      found ← list_find (desc_free_list (desc ar)) b;
      kassert found ;;
      list_remove b ;;
      join_arena n a (u32 (block_idx + 1))
  end.

(** [memset(b, 0, block_size)]: the words of the block, its list node included. *)
Definition clear_block (b size : Z) : K unit :=
  vclear (Z.to_nat (size / 4)) b ;;
  modify (λ s, set_links (<[b := mkElem NULL NULL]> (links s)) s).

(** The branch of [sys_malloc] that makes an arena for the empty free list of
    descriptor [d]; [false] when there is no page for it. *)
Definition new_arena (PF : PoolType) (d : Z) : K bool :=
  a ← malloc_page PF 1;
  if a =? NULL then mret false
  else
    vclear 1024 a ;;
    dd ← ld_desc d;
    st_arena a (mkArena d (blocks_per_arena dd) false) ;;
    old_status ← intr_disable;
    split_arena (Z.to_nat (blocks_per_arena dd)) a 0 ;;
    _ ← intr_set_status old_status;
    mret true.

(** The end of [sys_malloc]: the first free block of descriptor [d]. *)
Definition take_block (d : Z) : K Z :=
  b ← list_pop (desc_free_list d);
  dd ← ld_desc d;
  clear_block b (block_size dd) ;;
  let a := block2arena b in
  ar ← ld_arena a;
  st_arena a (mkArena (desc ar) (u32 (cnt ar - 1)) (large ar)) ;;
  mret b.

(** The two branches of [sys_malloc] under the lock [l] of the pool. *)
Definition malloc_large (PF : PoolType) (l size : Z) : K Z :=
  let page_cnt := DIV_ROUND_UP (u32 (size + sizeof_Arena)) PG_SIZE in
  a ← malloc_page PF page_cnt;
  if negb (a =? NULL) then
    vclear (Z.to_nat (u32 (page_cnt * PG_SIZE) / 4)) a ;;
    st_arena a (mkArena NULL page_cnt true) ;;
    lock_release l ;;
    mret (u32 (a + sizeof_Arena))
  else lock_release l ;; mret NULL.

Definition malloc_small (PF : PoolType) (l ds size : Z) : K Z :=
  desc_idx ← find_desc DESC_CNT ds size 0;
  let d := ds + desc_idx * sizeof_MemBlockDesc in
  empty ← list_empty (desc_free_list d);
  ok ← (if (empty : bool) then new_arena PF d else mret true);
  if negb (ok : bool) then lock_release l ;; mret NULL
  else
    b ← take_block d;
    lock_release l ;;
    mret b.

Definition sys_malloc (size : Z) : K Z :=
  cur_thread ← running_thread;
  ct ← ld_task cur_thread;
  let PF := if pgdir ct =? NULL then PF_KERNEL else PF_USER in
  pool_size ← gets (λ s, Machine.size (pool_of PF s));
  kd ← gets (λ s, k_block_descs (glob s));
  let ds := if pgdir ct =? NULL then kd else u_block_desc cur_thread in
  if negb ((0 <? size) && (size <? pool_size)) then mret NULL
  else
    l ← gets (pool_lock PF);
    lock_acquire l ;;
    if 1024 <? size then malloc_large PF l size else malloc_small PF l ds size.

(** The body of [sys_free] under the lock of the pool. *)
Definition free_locked (PF : PoolType) (b : Z) : K unit :=
  let a := block2arena b in
  ar ← ld_arena a;
  if (desc ar =? NULL) && large ar then mfree_page PF a (cnt ar)
  else
    list_append (desc_free_list (desc ar)) b ;;
    let cnt' := u32 (cnt ar + 1) in
    st_arena a (mkArena (desc ar) cnt' (large ar)) ;;
    dd ← ld_desc (desc ar);
    if cnt' =? blocks_per_arena dd then
      join_arena (Z.to_nat (blocks_per_arena dd)) a 0 ;;
      mfree_page PF a 1
    else mret ().

Definition sys_free (ptr : Z) : K unit :=
  kassert (negb (ptr =? NULL)) ;;
  cur ← running_thread;
  ct ← ld_task cur;
  (if pgdir ct =? NULL then kassert (K_HEAP_START <=? ptr) else mret ()) ;;
  let PF := if pgdir ct =? NULL then PF_KERNEL else PF_USER in
  l ← gets (pool_lock PF);
  lock_acquire l ;;
  free_locked PF ptr ;;
  lock_release l.

(** ** Block classes *)
Definition cls (i : Z) : Z := 16 * 2 ^ i.
Definition bpa (i : Z) : Z := 4084 / cls i.
Definition is_class (i : Z) : Prop := 0 ≤ i < 7.
Definition dsc (s : kstate) (i : Z) : Z := k_block_descs (glob s) + i * 24.
Definition fl (s : kstate) (i : Z) : Z := desc_free_list (dsc s i).

Lemma class_cases (P : Z → Prop) : P 0 → P 1 → P 2 → P 3 → P 4 → P 5 → P 6 → ∀ i, is_class i → P i.
Proof.
  unfold is_class. intros H0 H1 H2 H3 H4 H5 H6 i Hi.
  assert (i = 0 ∨ i = 1 ∨ i = 2 ∨ i = 3 ∨ i = 4 ∨ i = 5 ∨ i = 6) as H by lia.
  by destruct H as [->|[->|[->|[->|[->|[->| ->]]]]]].
Qed.

Lemma cls_facts i : is_class i → 16 ≤ cls i ≤ 1024 ∧ cls i mod 4 = 0 ∧ 3 ≤ bpa i ≤ 255
  ∧ 12 + bpa i * cls i ≤ 4096.
Proof. revert i. apply class_cases; vm_compute; repeat split; discriminate. Qed.

(** Block [k] of class [i] in the arena at page [a]. *)
Definition block (a i k : Z) : Z := a + 12 + k * cls i.
Lemma block_in_page a i k : is_class i → a mod 4096 = 0 → 0 ≤ k < bpa i →
  pg (block a i k) = a ∧ a + 12 ≤ block a i k ∧ block a i k + cls i ≤ a + 4096 ∧ (block a i k - a) mod 4 = 0.
Proof.
  intros Hi Ha Hk. destruct (cls_facts i Hi) as (H1 & H2 & H3 & H4). unfold block.
  assert (k * cls i + cls i ≤ bpa i * cls i) by nia. assert (0 ≤ k * cls i) by nia.
  split_and!; [|lia|lia|].
  - unfold pg. Z.div_mod_to_equations. lia.
  - replace (a + 12 + k * cls i - a) with (12 + k * cls i) by lia.
    destruct (Z.mod_divide (cls i) 4 ltac:(lia)) as [Hd _]. destruct (Hd H2) as [c Hc]. rewrite Hc.
    replace (12 + k * (c * 4)) with ((3 + k * c) * 4) by lia. apply Z.mod_mul. lia.
Qed.

Lemma block_inj a i k k' : is_class i → block a i k = block a i k' → k = k'.
Proof. intros Hi. destruct (cls_facts i Hi) as (H1 & _). unfold block. nia. Qed.

(** *** The ghost heap

    The lists of the kernel, the small arenas with their block class, and the
    large arenas with their page count. *)
Record gheap := mkH { hL : gmap Z (list Z); hA : gmap Z Z; hB : gmap Z Z }.

Definition is_block (H : gheap) (i b : Z) : Prop :=
  hA H !! pg b = Some i ∧ ∃ k, 0 ≤ k < bpa i ∧ b = block (pg b) i k.

(** A page of the kernel heap, with a frame of the kernel pool. *)
Definition kpage (s : kstate) (a : Z) : Prop :=
  ∃ f, maps s a f ∧ in_pool (kernel_pool s) f ∧ f ≠ cr3 s.
Definition in_kva (s : kstate) (a n : Z) : Prop :=
  ∃ j, a = vaddr_start (kernel_vaddr s) + j * 4096 ∧ 0 ≤ j ∧ j + n ≤ nbits (vaddr_map (kernel_vaddr s)) + 1.
(** No list node lies in page [a]. *)
Definition no_node (L : gmap Z (list Z)) (a : Z) : Prop :=
  ∀ q ys x, L !! q = Some ys → x ∈ nodes q ys → pg x ≠ a.
(** Page [a] belongs to no large arena. *)
Definition no_large (B : gmap Z Z) (a : Z) : Prop :=
  ∀ b n, B !! b = Some n → ¬ (b ≤ a < b + n * 4096).

Record heap_ok (H : gheap) (s : kstate) : Prop := {
  ho_mem : mem_ok s;
  ho_low : 0x102000 ≤ phy_addr_start (kernel_pool s);
  ho_lists : lrep (links s) (hL H);
  ho_descs i : is_class i → descs s !! dsc s i = Some (mkDesc (cls i) (bpa i));
  ho_flist i : is_class i → is_Some (hL H !! fl s i);
  (* free lists hold blocks of the arenas of their class *)
  ho_blocks i F b : is_class i → hL H !! fl s i = Some F → b ∈ F → is_block H i b;
  (* a small arena is a mapped kernel heap page and counts its free blocks *)
  ho_arena a i : hA H !! a = Some i → is_class i ∧ in_kva s a 1 ∧ kpage s a ∧ no_large (hB H) a
    ∧ ∃ F, hL H !! fl s i = Some F
        ∧ arenas s !! a = Some (mkArena (dsc s i) (len (base.filter (λ b, pg b = a) F)) false);
  (* list nodes are in mapped pages; those in arenas are free blocks *)
  ho_nodes q ys x : hL H !! q = Some ys → x ∈ nodes q ys →
    (∃ pa, maps s (pg x) pa) ∧ ∀ i, hA H !! pg x = Some i → q = fl s i ∧ x ∈ ys;
  (* the pages of a large arena are its own *)
  ho_large a n : hB H !! a = Some n → 0 < n ∧ in_kva s a n ∧ arenas s !! a = Some (mkArena NULL n true)
    ∧ (∀ k, 0 ≤ k < n → kpage s (a + k * 4096) ∧ no_node (hL H) (a + k * 4096))
    ∧ ∀ a' n', hB H !! a' = Some n' → a' ≠ a → a' + n' * 4096 ≤ a ∨ a + n * 4096 ≤ a';
}.

(** A live block and its size: a block handed out from a small arena, or the
    body of a large one. *)
Definition live (H : gheap) (s : kstate) (b n : Z) : Prop :=
  (∃ i F, is_block H i b ∧ hL H !! fl s i = Some F ∧ n = cls i ∧ b ∉ F)
  ∨ (∃ c, hB H !! (b - 12) = Some c ∧ n = c * 4096 - 12).

Lemma fl_inj s i j : fl s i = fl s j → i = j.
Proof. unfold fl, desc_free_list, dsc. lia. Qed.

Lemma in_kva_facts s a n : mem_ok s → in_kva s a n → 0 ≤ n →
  a mod 4096 = 0 ∧ 0xc0000000 ≤ a ∧ a + n * 4096 ≤ 0xffc00000.
Proof.
  intros Hm (j & -> & H1 & H2) Hn. destruct (mo_kva _ Hm) as [_ _ _ Ha Hr].
  split_and!; [Z.div_mod_to_equations; lia|lia|lia].
Qed.

(** ** Clearing words inside one page *)
Lemma clear_range_ok s va f o n :
  mem_ok s → f mod 4096 = 0 → ¬ walk_frame s f → 0 ≤ o → o + 4 * Z.of_nat n ≤ 4096 →
  (∀ x, 0 ≤ x < 4096 → maps s (va + x) (f + x)) →
  wp (vclear n (va + o)) s (λ _ s', ∃ m', s' = set_phys m' s ∧ cleared (phys s) m' (f + o) (Z.of_nat n)
    ∧ mem_ok s' ∧ ∀ va pa, maps s' va pa ↔ maps s va pa).
Proof.
  intros Hm Hfa Hw Ho Hn Hmp. eapply wp_mono; [apply (vclear_ok n s (va + o) (f + o))|].
  - apply Hm.
  - intros m' k Hout Hr Hk. destruct (Hmp (o + 4 * k)) as [Hin Ht]; [lia|].
    replace (va + o + 4 * k) with (va + (o + 4 * k)) by lia. replace (f + o + 4 * k) with (f + (o + 4 * k)) by lia.
    rewrite <- Ht. apply (data_write_translate s f m'); try done. intros a Ha. apply Hout. lia.
  - intros u s' (m' & -> & Hc). exists m'. split; [done|]. split; [done|].
    apply (data_write_mem_ok s f m'); try done.
    + intros a. rewrite Hc. case_decide; [lia|apply Hm].
    + intros a Ha. rewrite Hc, decide_False by lia. done.
Qed.

(** An aligned mapped page is mapped byte for byte. *)
Lemma maps_page s a f : vm_ok (phys s) (cr3 s) → a mod 4096 = 0 → f mod 4096 = 0 → maps s a f →
  ∀ x, 0 ≤ x < 4096 → maps s (a + x) (f + x).
Proof.
  intros Hvm Ha Hf [Hin H] x Hx.
  assert (in_space (a + x)) as Hin' by (unfold in_space in *; Z.div_mod_to_equations; lia).
  split; [done|]. destruct (in_space_idx _ Hin) as [Hr _]. destruct (in_space_idx _ Hin') as [Hr' _].
  rewrite (translate_unfold _ _ (vm_dir _ _ Hvm)) in H |- * by done.
  assert ((a + x) / 2 ^ 22 = a / 2 ^ 22 ∧ (a + x) / 4096 = a / 4096 ∧ (a + x) mod 4096 = x ∧ a mod 4096 = 0) as (E1 & E2 & E3 & E4)
    by (Z.div_mod_to_equations; lia).
  unfold pte_addr, tbl_of, pde_of in *. rewrite E1, E2, E3. rewrite E4 in H.
  repeat case_match; simplify_eq. f_equal. lia.
Qed.

(** The frame behind a heap page holds data, not page tables. *)
Lemma kpage_frame s a : mem_ok s → a mod 4096 = 0 → kpage s a →
  ∃ f, f mod 4096 = 0 ∧ ¬ walk_frame s f ∧ ∀ x, 0 ≤ x < 4096 → maps s (a + x) (f + x).
Proof.
  intros Hm Ha (f & Hf & Hp & Hc). destruct (inpool_test_ok PF_KERNEL s f (mo_pools _ Hm) Hp) as [_ Hfa].
  exists f. split_and!; [done| |by apply maps_page; [apply Hm|..]].
  intros [?|Ht]; [done|]. eapply (mo_table _ Hm); [exact Hf|]. by rewrite pg_id.
Qed.

Lemma maps_same_page s a b pa pa' : mem_ok s → maps s a pa → maps s b pa' → pg pa = pg pa' → pg a = pg b.
Proof. intros Hm H1 H2 E. unfold pg. f_equal. by eapply (mo_inj _ Hm). Qed.

(** ** Changes the heap does not see *)
Record heap_same (s s' : kstate) : Prop := {
  hs_links : links s' = links s;
  hs_descs : descs s' = descs s;
  hs_arenas : arenas s' = arenas s;
  hs_glob : glob s' = glob s;
  hs_cr3 : cr3 s' = cr3 s;
  hs_pool : same_pool (kernel_pool s) (kernel_pool s');
  hs_kva : same_kva (kernel_vaddr s) (kernel_vaddr s');
  hs_maps va pa : maps s va pa → maps s' va pa;
}.

Lemma kpage_same s s' a : cr3 s' = cr3 s → same_pool (kernel_pool s) (kernel_pool s') →
  (∀ pa, maps s a pa → maps s' a pa) → kpage s a → kpage s' a.
Proof.
  intros E1 E2 Hmp (f & H1 & H2 & H3). exists f. rewrite E1. split_and!; [by apply Hmp|by eapply in_pool_same|done].
Qed.
Lemma in_kva_same s s' a n : same_kva (kernel_vaddr s) (kernel_vaddr s') → in_kva s a n → in_kva s' a n.
Proof. intros [E1 E2] (j & Hj). exists j. by rewrite E1, E2. Qed.
Lemma same_glob s s' : glob s' = glob s → (∀ i, dsc s' i = dsc s i) ∧ ∀ i, fl s' i = fl s i.
Proof. intros E. unfold fl, dsc. by rewrite E. Qed.

Lemma heap_same_ok H s s' : heap_ok H s → heap_same s s' → mem_ok s' → heap_ok H s'.
Proof.
  intros [H1 H2 H3 H4 H5 H6 H7 H8 H9] [E1 E2 E3 E4 E5 E6 E7 E8] Hm.
  destruct (same_glob s s' E4) as [Ed Ef]. split; try done.
  - destruct E6 as [-> _]. done.
  - by rewrite E1.
  - intros i Hi. rewrite E2, Ed. by apply H4.
  - intros i Hi. rewrite Ef. by apply H5.
  - intros i F b Hi. rewrite Ef. by apply H6.
  - intros a i Ha. destruct (H7 a i Ha) as (? & ? & ? & ? & F & HF & Har). rewrite Ed, E3.
    split_and!; [done|by eapply in_kva_same|by eapply kpage_same; eauto|done|exists F; by rewrite Ef].
  - intros q ys x Hq Hx. destruct (H8 q ys x Hq Hx) as [(pa & Hpa) Hxx]. split; [exists pa; by apply E8|].
    intros i Hi. rewrite Ef. by apply Hxx.
  - intros a n Ha. destruct (H9 a n Ha) as (? & ? & ? & Hk & ?). rewrite E3.
    split_and!; [done|by eapply in_kva_same|done| |done].
    intros k Hkn. destruct (Hk k Hkn). split; [by eapply kpage_same; eauto|done].
Qed.

Lemma live_glob H s s' b n : glob s' = glob s → live H s' b n ↔ live H s b n.
Proof. intros E. unfold live. destruct (same_glob s s' E) as [_ Ef]. by setoid_rewrite Ef. Qed.

(** Only the parts the allocators write change. *)
Definition hframe (s s' : kstate) : Prop :=
  s' = set_links (links s') (set_phys (phys s') (set_kernel_pool (kernel_pool s') (set_user_pool (user_pool s')
         (set_kernel_vaddr (kernel_vaddr s') (set_arenas (arenas s') s)))))
  ∧ same_pool (kernel_pool s) (kernel_pool s') ∧ same_kva (kernel_vaddr s) (kernel_vaddr s').

Lemma hframe_refl s : hframe s s.
Proof. by destruct s. Qed.
Lemma hframe_trans s s1 s2 : hframe s s1 → hframe s1 s2 → hframe s s2.
Proof.
  intros (E1 & P1 & V1) (E2 & P2 & V2). split_and!; [|by eapply same_pool_trans|destruct V1, V2; split; congruence].
  clear P1 V1 P2 V2. destruct s, s1, s2. simpl in *. revert E1 E2. intros [=] [=]. by subst.
Qed.
Lemma hframe_fields s s' : hframe s s' → glob s' = glob s ∧ cr3 s' = cr3 s ∧ descs s' = descs s
  ∧ tasks s' = tasks s ∧ cur s' = cur s ∧ locks s' = locks s ∧ sema_value s' = sema_value s ∧ intr s' = intr s.
Proof. intros [E _]. unfold cur. destruct s, s'. simpl in *. revert E. intros [=]. by subst. Qed.
#[local] Hint Resolve hframe_refl : los.

(** ** New pages *)
Definition new_pages (H : gheap) (s : kstate) (a n : Z) : Prop :=
  a ≠ 0 ∧ in_kva s a n ∧ ∀ k, 0 ≤ k < n → kpage s (a + k * 4096) ∧ no_node (hL H) (a + k * 4096)
    ∧ hA H !! (a + k * 4096) = None ∧ no_large (hB H) (a + k * 4096).

Lemma kpage_pg s a : kpage s a → ∃ pa, maps s a pa.
Proof. intros (f & H & _). eauto. Qed.

(** A page that was not mapped belongs to nothing. *)
Lemma unmapped_new H s a : heap_ok H s → a mod 4096 = 0 → (∀ pa, ¬ maps s a pa) →
  no_node (hL H) a ∧ hA H !! a = None ∧ no_large (hB H) a.
Proof.
  intros Hh Ha Hun. split_and!.
  - intros q ys x Hq Hx <-. destruct (ho_nodes _ _ Hh q ys x Hq Hx) as [(pa & Hpa) _]. by eapply Hun.
  - destruct (hA H !! a) as [i|] eqn:E; [|done]. destruct (ho_arena _ _ Hh a i E) as (_ & _ & (pa & Hpa)%kpage_pg & _).
    by destruct (Hun pa).
  - intros b n Hb Hin. destruct (ho_large _ _ Hh b n Hb) as (Hn & Hk & _ & Hp & _).
    destruct (in_kva_facts _ _ _ (ho_mem _ _ Hh) Hk ltac:(lia)) as (Hal & _).
    destruct (Hp ((a - b) / 4096)) as [(pa & Hpa)%kpage_pg _]; [Z.div_mod_to_equations; lia|].
    apply (Hun pa). replace (b + (a - b) / 4096 * 4096) with a in Hpa; [done|Z.div_mod_to_equations; lia].
Qed.

Lemma heap_new_pages H s n : heap_ok H s → 0 < n < 3840 →
  wp (malloc_page PF_KERNEL n) s (λ a s', heap_ok H s' ∧ heap_same s s' ∧ data_kept s s' ∧ hframe s s'
    ∧ (a = NULL ∨ new_pages H s' a n ∧ ∀ k pa, 0 ≤ k < n → ¬ maps s (a + k * 4096) pa)).
Proof.
  intros Hh Hn. pose proof (ho_mem _ _ Hh) as Hm.
  eapply wp_mono; [by apply malloc_page_kernel_ok|].
  intros a s' [K1 K2 K3 K10 (v' & m' & p' & K11 & K12 & K13) Kd].
  assert (heap_same s s') as Hs by (split; try (by rewrite K11); exact K2).
  assert (hframe s s') as Hfr by (rewrite K11; destruct s; by split_and!).
  split_and!; [by eapply heap_same_ok|done|done|done|].
  destruct K3 as [?|(Ha & Hal & _ & _ & K5 & _ & K7 & _ & j & Hj & Hj0 & Hjn & _)]; [by left|right].
  split; [|by intros; apply K5]. split_and!; [done|rewrite K11; eapply in_kva_same; [exact K13|by exists j]|].
  intros k Hk. destruct (unmapped_new H s (a + k * 4096) Hh) as (N1 & N2 & N3);
    [Z.div_mod_to_equations; lia|by apply K5|]. split_and!; [|done|done|done].
  destruct (K7 k Hk) as (f & F1 & F2 & F3). exists f. specialize (F3 0 ltac:(lia)). rewrite !Z.add_0_r in F3.
  split_and!; [done|rewrite K11; eapply in_pool_same, free_in_pool; [exact K12|done]|].
  rewrite (hs_cr3 _ _ Hs). intros ->. apply (mo_walk _ Hm (cr3 s)); [by left|by exists PF_KERNEL].
Qed.

(** ** Building and dissolving an arena *)
Definition blocks_from (a i k n : Z) : list Z := block a i <$> seqZ k n.

Lemma elem_of_blocks a i k n b : b ∈ blocks_from a i k n ↔ ∃ j, k ≤ j < k + n ∧ b = block a i j.
Proof.
  unfold blocks_from. rewrite list_elem_of_fmap. setoid_rewrite elem_of_seqZ. firstorder.
Qed.

Lemma ld_desc_eq s d v : descs s !! d = Some v → ld_desc d s = Ok (v, s).
Proof. intros E. unfold ld_desc, mbind, K_bind, gets. by rewrite E. Qed.
Lemma ld_arena_eq s a v : arenas s !! a = Some v → ld_arena a s = Ok (v, s).
Proof. intros E. unfold ld_arena, mbind, K_bind, gets. by rewrite E. Qed.

Lemma arena2block_ok s a i c l k : arenas s !! a = Some (mkArena (dsc s i) c l) →
  descs s !! dsc s i = Some (mkDesc (cls i) (bpa i)) → is_class i → 0 ≤ a → a + 4096 < 2 ^ 32 → 0 ≤ k < bpa i →
  arena2block a k s = Ok (block a i k, s).
Proof.
  intros Ha Hd Hi Ha0 Ha1 Hk. destruct (cls_facts i Hi) as (H1 & H2 & H3 & H4).
  assert (k * cls i + cls i ≤ bpa i * cls i) by nia. assert (0 ≤ k * cls i) by nia.
  unfold arena2block, mbind, K_bind, ld_arena, ld_desc, gets, lift, mbind, K_bind. rewrite Ha. simpl. rewrite Hd. simpl.
  unfold sizeof_Arena, block, mret, K_ret. rewrite !u32_id by (rewrite ?u32_id by lia; lia). done.
Qed.

Lemma split_arena_ok n s L F a i c l k :
  lrep (links s) L → L !! fl s i = Some F → arenas s !! a = Some (mkArena (dsc s i) c l) →
  descs s !! dsc s i = Some (mkDesc (cls i) (bpa i)) → is_class i → 0 ≤ a → a + 4096 < 2 ^ 32 →
  0 ≤ k → k + Z.of_nat n ≤ bpa i → (∀ j, k ≤ j < bpa i → fresh_node L (block a i j)) →
  wp (split_arena n a k) s (λ _, now_lists (<[fl s i := F ++ blocks_from a i k (Z.of_nat n)]> L) s).
Proof.
  revert s L F k. induction n as [|n IH]; intros s L F k HL HF Ha Hd Hi Ha0 Ha1 Hk Hn Hfr.
  - cbn [split_arena]. kstep. exists (links s). split; [by destruct s|].
    change (blocks_from a i k (Z.of_nat 0)) with (@nil Z). by rewrite app_nil_r, insert_id.
  - cbn [split_arena]. destruct (cls_facts i Hi) as (H1 & H2 & H3 & H4).
    apply wp_bind. eapply wp_eq; [eapply arena2block_ok; try done; lia|].
    apply wp_bind. eapply wp_eq; [by apply ld_arena_eq|]. cbn [desc].
    pose proof (Hfr k ltac:(lia)) as Hf. fold (fl s i).
    apply wp_bind. eapply wp_eq; [by eapply list_find_ok|]. rewrite bool_decide_false.
    2:{ intros Hin. apply (proj2 Hf _ _ HF). unfold nodes. set_solver. }
    apply wp_bind, wp_kassert; [done|]. apply wp_bind.
    eapply wp_mono; [by eapply list_append_ok|]. intros u s1 (h' & -> & Hl').
    change (desc_free_list _) with (fl s i) in Hl'. rewrite u32_id by lia. eapply wp_mono.
    + apply (IH (set_links h' s) (<[fl s i := F ++ [block a i k]]> L) (F ++ [block a i k]) (k + 1)); try done; try lia; [apply lookup_insert_eq|].
      intros j Hj. eapply fresh_node_update; [exact HF|by apply Hfr; lia|].
      pose proof (proj2 (Hfr j ltac:(lia)) _ _ HF). unfold nodes in *.
      assert (block a i j ≠ block a i k) by (intros E%block_inj; [lia|done]). set_solver.
    + intros u' s2 (h2 & -> & Hl2). exists h2. split; [done|].
      change (fl (set_links h' s) i) with (fl s i) in Hl2. rewrite insert_insert_eq, <- app_assoc in Hl2.
      replace (blocks_from a i k (Z.of_nat (S n))) with ([block a i k] ++ blocks_from a i (k + 1) (Z.of_nat n)); [done|].
      unfold blocks_from. rewrite (seqZ_cons k (Z.of_nat (S n))) by lia. cbn [fmap list_fmap]. simpl.
      do 3 f_equal; lia.
Qed.

Lemma filter_remove (l1 l2 : list Z) b : NoDup (l1 ++ b :: l2) → l1 ++ l2 = base.filter (λ x, x ≠ b) (l1 ++ b :: l2).
Proof.
  intros Hnd. apply NoDup_app in Hnd as (_ & Hd & [Hb _]%NoDup_cons). rewrite filter_app, filter_cons_False by auto.
  f_equal; symmetry; apply filter_all; intros x Hx ->; set_solver.
Qed.

Lemma join_arena_ok n s L F a i c l k :
  lrep (links s) L → L !! fl s i = Some F → arenas s !! a = Some (mkArena (dsc s i) c l) →
  descs s !! dsc s i = Some (mkDesc (cls i) (bpa i)) → is_class i → 0 ≤ a → a + 4096 < 2 ^ 32 →
  0 ≤ k → k + Z.of_nat n ≤ bpa i → (∀ j, k ≤ j < k + Z.of_nat n → block a i j ∈ F) →
  wp (join_arena n a k) s
    (λ _, now_lists (<[fl s i := base.filter (λ x, x ∉ blocks_from a i k (Z.of_nat n)) F]> L) s).
Proof.
  revert s L F k. induction n as [|n IH]; intros s L F k HL HF Ha Hd Hi Ha0 Ha1 Hk Hn Hin.
  - cbn [join_arena]. kstep. exists (links s). split; [by destruct s|].
    change (blocks_from a i k (Z.of_nat 0)) with (@nil Z). rewrite filter_all, insert_id; [done|done|set_solver].
  - cbn [join_arena]. destruct (cls_facts i Hi) as (H1 & H2 & H3 & H4).
    apply wp_bind. eapply wp_eq; [eapply arena2block_ok; try done; lia|].
    apply wp_bind. eapply wp_eq; [by apply ld_arena_eq|]. cbn [desc].
    pose proof (Hin k ltac:(lia)) as Hb. fold (fl s i).
    apply wp_bind. eapply wp_eq; [by eapply list_find_ok|]. rewrite bool_decide_true by done.
    apply wp_bind, wp_kassert; [done|]. apply wp_bind.
    apply list_elem_of_split in Hb as (l1 & l2 & EF).
    pose proof (lrep_nodup _ _ HL _ _ HF) as Hnd. rewrite EF in HF, Hnd.
    eapply wp_mono; [by eapply list_remove_mid_ok|]. intros u s1 [(h' & -> & Hl') _].
    rewrite (filter_remove _ _ _ Hnd), <- EF in Hl'. rewrite u32_id by lia. set (F' := base.filter _ F) in *.
    eapply wp_mono.
    + apply (IH (set_links h' s) (<[fl s i := F']> L) F' (k + 1)); try done; try lia; [apply lookup_insert_eq|].
      intros j Hj. apply list_elem_of_filter. split; [intros E%block_inj; [lia|done]|apply Hin; lia].
    + intros u' s2 (h2 & -> & Hl2). exists h2. split; [done|].
      change (fl (set_links h' s) i) with (fl s i) in Hl2. rewrite insert_insert_eq in Hl2. unfold F' in Hl2.
      rewrite list_filter_filter in Hl2. erewrite list_filter_iff; [exact Hl2|].
      intros x. simpl. rewrite !elem_of_blocks. split.
      * intros Hx. split; [intros (j & Hj & ->); apply Hx; exists j; split; [lia|done]|].
        intros ->. apply Hx. exists k. split; [lia|done].
      * intros [Hx1 Hx2] (j & Hj & ->). destruct (decide (j = k)) as [->|]; [done|].
        apply Hx1. exists j. split; [lia|done].
Qed.

(** ** One free list and one arena header change *)
Lemma lrep_ends h L p xs x : lrep h L → L !! p = Some xs → x ∈ nodes p xs → x ∈ xs ∨
  (x = list_head p ∨ x = list_tail p) ∧ x ∉ xs.
Proof.
  intros HL Hp. pose proof (dl_nodup _ _ _ (lr_dlist _ _ HL _ _ Hp)) as Hnd. unfold nodes in *.
  apply NoDup_cons in Hnd as [Hh Hnd]. apply NoDup_app in Hnd as (_ & Ht & _). set_solver.
Qed.

Lemma mem_ok_heap s h' ar' : mem_ok s → mem_ok (set_links h' (set_arenas ar' s)).
Proof. intros [[H1 H2] ? ? ? ? ? ? ? ?]. split; try assumption. split; [exact H1|exact H2]. Qed.

Section relist.
Context (H : gheap) (s : kstate) (i a : Z) (F F' : list Z) (A' : gmap Z Z) (h' : gmap Z ListElem).
Hypothesis (Hh : heap_ok H s) (Hi : is_class i) (HF : hL H !! fl s i = Some F).
Hypothesis (Hl : lrep h' (<[fl s i := F']> (hL H))).
Hypothesis (HA : ∀ a', a' ≠ a → A' !! a' = hA H !! a') (HAa : A' !! a = Some i).
Hypothesis (Hkva : in_kva s a 1) (Hkp : kpage s a) (Hnl : no_large (hB H) a).
Hypothesis Hown : ∀ q ys x, hL H !! q = Some ys → x ∈ nodes q ys → pg x = a → q = fl s i ∧ x ∈ F.
Hypothesis Hblk : ∀ x, x ∈ F' → A' !! pg x = Some i ∧ ∃ k, 0 ≤ k < bpa i ∧ x = block (pg x) i k.
Hypothesis Hcnt : ∀ a', a' ≠ a → base.filter (λ x, pg x = a') F' = base.filter (λ x, pg x = a') F.

Let H' := mkH (<[fl s i := F']> (hL H)) A' (hB H).
Let s' := set_links h' (set_arenas
  (<[a := mkArena (dsc s i) (len (base.filter (λ x, pg x = a) F')) false]> (arenas s)) s).

Lemma relist_page x : x ∈ F' → kpage s (pg x) ∧ no_large (hB H) (pg x).
Proof.
  intros Hx. destruct (Hblk x Hx) as [HAx _]. destruct (decide (pg x = a)) as [->|Hne]; [done|].
  rewrite HA in HAx by done. destruct (ho_arena _ _ Hh _ _ HAx) as (_ & _ & ? & ? & _). done.
Qed.

Lemma relist_nodes q ys x : hL H' !! q = Some ys → x ∈ nodes q ys →
  (∃ pa, maps s' (pg x) pa) ∧ ∀ j, A' !! pg x = Some j → q = fl s' j ∧ x ∈ ys.
Proof.
  simpl. rewrite lookup_insert_Some. intros [[<- <-]|[Hne Hq]] Hx.
  - destruct (lrep_ends _ _ _ _ x Hl ltac:(apply lookup_insert_eq) Hx) as [HxF|[Hend HxF]].
    + destruct (relist_page x HxF) as [(pa & Hpa)%kpage_pg _]. split; [by exists pa|].
      intros j Hj. destruct (Hblk x HxF) as [E _]. rewrite Hj in E. by simplify_eq.
    + assert (x ∈ nodes (fl s i) F) as Hxo by (unfold nodes; set_solver).
      assert (x ∉ F) as HxF0.
      { destruct (lrep_ends _ _ _ _ x (ho_lists _ _ Hh) HF Hxo) as [HxF0|[_ ?]]; [|done]. intros _.
        pose proof (dl_nodup _ _ _ (lr_dlist _ _ (ho_lists _ _ Hh) _ _ HF)) as Hnd. unfold nodes in Hnd.
        apply NoDup_cons in Hnd as [Hd1 Hd2]. apply NoDup_app in Hd2 as (_ & Hd3 & _).
        destruct Hend as [->| ->]; set_solver. }
      destruct (ho_nodes _ _ Hh _ _ x HF Hxo) as [Hpa Hj]. split; [exact Hpa|]. intros j Hj'.
      destruct (decide (pg x = a)) as [Ea|Ea].
      * by destruct (Hown _ _ x HF Hxo Ea).
      * rewrite HA in Hj' by done. by destruct (Hj j Hj').
  - destruct (ho_nodes _ _ Hh _ _ x Hq Hx) as [Hpa Hj]. split; [exact Hpa|]. intros j Hj'.
    destruct (decide (pg x = a)) as [Ea|Ea].
    + by destruct (Hown _ _ x Hq Hx Ea).
    + rewrite HA in Hj' by done. apply (Hj j Hj').
Qed.

Lemma relist_arena a' j : A' !! a' = Some j → is_class j ∧ in_kva s' a' 1 ∧ kpage s' a' ∧ no_large (hB H) a'
    ∧ ∃ G, hL H' !! fl s' j = Some G
        ∧ arenas s' !! a' = Some (mkArena (dsc s' j) (len (base.filter (λ b, pg b = a') G)) false).
Proof.
  intros Ha'. destruct (decide (a' = a)) as [->|Hne].
  - rewrite HAa in Ha'. simplify_eq. split_and!; try done. exists F'. simpl. split; apply lookup_insert_eq.
  - rewrite HA in Ha' by done. destruct (ho_arena _ _ Hh _ _ Ha') as (? & ? & ? & ? & G & HG & Har).
    split_and!; try done. simpl. rewrite (lookup_insert_ne (arenas s)) by done.
    destruct (decide (j = i)) as [->|Hji].
    + exists F'. rewrite HF in HG. simplify_eq. split; [apply lookup_insert_eq|]. by rewrite Hcnt.
    + exists G. split; [|done]. rewrite lookup_insert_ne; [done|]. exact (λ E, Hji (eq_sym (fl_inj s _ _ E))).
Qed.

Lemma relist_large b n : hB H !! b = Some n → 0 < n ∧ in_kva s' b n ∧ arenas s' !! b = Some (mkArena NULL n true)
    ∧ (∀ k, 0 ≤ k < n → kpage s' (b + k * 4096) ∧ no_node (hL H') (b + k * 4096))
    ∧ ∀ a' n', hB H !! a' = Some n' → a' ≠ b → a' + n' * 4096 ≤ b ∨ b + n * 4096 ≤ a'.
Proof.
  intros Hb. destruct (ho_large _ _ Hh b n Hb) as (Hn & ? & Har & Hp & ?). split_and!; try done.
  - simpl. rewrite lookup_insert_ne; [done|]. intros <-. apply (Hnl _ _ Hb). lia.
  - intros k Hk. destruct (Hp k Hk) as [Hp1 Hp2]. split; [done|]. intros q ys x. simpl. rewrite lookup_insert_Some.
    intros [[<- <-]|[_ Hq]] Hx; [|by eapply Hp2].
    destruct (lrep_ends _ _ _ _ x Hl ltac:(apply lookup_insert_eq) Hx) as [HxF|[Hend _]].
    + destruct (relist_page x HxF) as [_ Hx2]. intros E. apply (Hx2 _ _ Hb). lia.
    + apply (Hp2 (fl s i) F); [done|]. unfold nodes. set_solver.
Qed.

Lemma relist_ok : heap_ok H' s'.
Proof.
  destruct (Hh) as [H1 H2 H3 H4 H5 H6 H7 H8 H9]. split; try done.
  - by apply mem_ok_heap.
  - intros j Hj. simpl. destruct (decide (j = i)) as [->|Hji]; [by rewrite lookup_insert_eq|].
    rewrite lookup_insert_ne; [by apply H5|]. exact (λ E, Hji (eq_sym (fl_inj s _ _ E))).
  - intros j G b Hj HG Hb. simpl in HG. change (fl s' j) with (fl s j) in HG.
    destruct (decide (j = i)) as [->|Hji].
    + rewrite lookup_insert_eq in HG. simplify_eq. by apply Hblk.
    + rewrite lookup_insert_ne in HG by (by intros E%fl_inj). destruct (H6 _ _ _ Hj HG Hb) as [E Hk].
      split; [|done]. simpl. destruct (decide (pg b = a)) as [Ea|Ea]; [|by rewrite HA].
      destruct (Hown _ _ b HG) as [E2 _]; [unfold nodes; set_solver|done|]. by apply fl_inj in E2.
  - exact relist_arena.
  - exact relist_nodes.
  - exact relist_large.
Qed.
End relist.

Lemma block_pg H s i b : heap_ok H s → is_block H i b →
  is_class i ∧ pg b mod 4096 = 0 ∧ 0xc0000000 ≤ pg b ∧ pg b + 4096 ≤ 0xffc00000
  ∧ pg b + 12 ≤ b ∧ b + cls i ≤ pg b + 4096 ∧ (b - pg b) mod 4 = 0.
Proof.
  intros Hh (HA & k & Hk & E). destruct (ho_arena _ _ Hh _ _ HA) as (Hi & Hv & _).
  destruct (in_kva_facts _ _ _ (ho_mem _ _ Hh) Hv ltac:(lia)) as (Ha & Hlo & Hhi).
  destruct (block_in_page (pg b) i k Hi Ha Hk) as (_ & H1 & H2 & H3). rewrite <- E in *. by split_and!.
Qed.

Lemma arena_own H s a i F : heap_ok H s → hA H !! a = Some i → hL H !! fl s i = Some F →
  ∀ q ys x, hL H !! q = Some ys → x ∈ nodes q ys → pg x = a → q = fl s i ∧ x ∈ F.
Proof.
  intros Hh HA HF q ys x Hq Hx <-. destruct (ho_nodes _ _ Hh q ys x Hq Hx) as [_ Hj].
  destruct (Hj i HA) as [-> Hxy]. rewrite HF in Hq. by simplify_eq.
Qed.

(** A new arena: its blocks join the free list of its class. *)
Lemma heap_add_arena H s a i F h' :
  heap_ok H s → new_pages H s a 1 → is_class i → hL H !! fl s i = Some F →
  lrep h' (<[fl s i := F ++ blocks_from a i 0 (bpa i)]> (hL H)) →
  heap_ok (mkH (<[fl s i := F ++ blocks_from a i 0 (bpa i)]> (hL H)) (<[a := i]> (hA H)) (hB H))
    (set_links h' (set_arenas (<[a := mkArena (dsc s i) (bpa i) false]> (arenas s)) s)).
Proof.
  intros Hh (Ha0 & Hv & Hnew) Hi HF Hl. destruct (Hnew 0 ltac:(lia)) as (N1 & N2 & N3 & N4).
  replace (a + 0 * 4096) with a in * by lia.
  destruct (in_kva_facts _ _ _ (ho_mem _ _ Hh) Hv ltac:(lia)) as (Hal & Hlo & Hhi).
  destruct (cls_facts i Hi) as (_ & _ & Hbpa & _).
  assert (∀ x, x ∈ F → pg x ≠ a) as HFa.
  { intros x Hx. apply (N2 _ _ _ HF). unfold nodes. set_solver. }
  assert (∀ x, x ∈ blocks_from a i 0 (bpa i) → pg x = a) as HBa.
  { intros x (k & Hk & ->)%elem_of_blocks. by apply block_in_page; [| |lia]. }
  assert (len (base.filter (λ x, pg x = a) (F ++ blocks_from a i 0 (bpa i))) = bpa i) as Ecnt.
  { rewrite filter_app, (filter_all _ (blocks_from _ _ _ _)) by done.
    rewrite filter_none, app_nil_l by done. unfold len, blocks_from. rewrite length_fmap, length_seqZ. simpl. lia. }
  rewrite <- Ecnt at 2. apply (relist_ok H s i a F); try done.
  - intros a' Hne. by rewrite lookup_insert_ne.
  - apply lookup_insert_eq.
  - intros q ys x Hq Hx E. by destruct (N2 _ _ _ Hq Hx).
  - intros x [Hx|Hx]%elem_of_app.
    + destruct (ho_blocks _ _ Hh i F x Hi HF Hx) as [E Hk]. split; [|done].
      rewrite lookup_insert_ne; [done|]. by apply not_eq_sym, HFa.
    + rewrite (HBa x Hx). split; [apply lookup_insert_eq|]. apply elem_of_blocks in Hx as (k & Hk & ->).
      exists k. split; [lia|done].
  - intros a' Hne. rewrite filter_app, (filter_none _ (blocks_from _ _ _ _)), app_nil_r; [done|].
    intros x Hx. rewrite (HBa x Hx). by apply not_eq_sym.
Qed.

Lemma blocks_fresh H s a i : heap_ok H s → new_pages H s a 1 → is_class i →
  ∀ j, 0 ≤ j < bpa i → fresh_node (hL H) (block a i j).
Proof.
  intros Hh (Ha0 & Hv & Hnew) Hi j Hj. destruct (Hnew 0 ltac:(lia)) as (_ & N2 & _).
  replace (a + 0 * 4096) with a in * by lia.
  destruct (in_kva_facts _ _ _ (ho_mem _ _ Hh) Hv ltac:(lia)) as (Hal & Hlo & Hhi).
  destruct (block_in_page a i j Hi Hal Hj) as (Hp & ? & _). split; [lia|].
  intros q ys Hq Hx. by apply (N2 _ _ _ Hq Hx).
Qed.

(** An arena has [bpa] blocks. *)
Lemma arena_list a i G : is_class i → NoDup G → (∀ x, x ∈ G → ∃ k, 0 ≤ k < bpa i ∧ x = block a i k) →
  len G ≤ bpa i ∧ (len G = bpa i → ∀ k, 0 ≤ k < bpa i → block a i k ∈ G).
Proof.
  intros Hi Hnd Hin. destruct (cls_facts i Hi) as (_ & _ & Hb & _).
  assert (len (blocks_from a i 0 (bpa i)) = bpa i) as El.
  { unfold len, blocks_from. rewrite length_fmap, length_seqZ. lia. }
  assert (G ⊆+ blocks_from a i 0 (bpa i)) as Hsub.
  { apply NoDup_submseteq; [done|]. intros x Hx. apply elem_of_blocks. destruct (Hin x Hx) as (k & ? & ->). eauto. }
  split; [apply submseteq_length in Hsub; unfold len in *; lia|]. intros E k Hk.
  assert (G ≡ₚ blocks_from a i 0 (bpa i)) as ->.
  { apply submseteq_length_Permutation; [done|]. unfold len in *. lia. }
  apply elem_of_blocks. exists k. split; [lia|done].
Qed.

(** The first free block leaves its list. *)
Lemma heap_take H s i b F h' :
  heap_ok H s → is_class i → hL H !! fl s i = Some (b :: F) → lrep h' (<[fl s i := F]> (hL H)) →
  ∃ c, arenas s !! pg b = Some (mkArena (dsc s i) c false) ∧ 1 ≤ c ≤ bpa i
    ∧ heap_ok (mkH (<[fl s i := F]> (hL H)) (hA H) (hB H))
        (set_links h' (set_arenas (<[pg b := mkArena (dsc s i) (c - 1) false]> (arenas s)) s)).
Proof.
  intros Hh Hi HF Hl. destruct (ho_blocks _ _ Hh i _ b Hi HF ltac:(set_solver)) as [HA Hk].
  destruct (ho_arena _ _ Hh _ _ HA) as (_ & Hv & Hp & Hn & F0 & HF0 & Har). rewrite HF in HF0. simplify_eq.
  destruct (arena_list (pg b) i (base.filter (λ x, pg x = pg b) (b :: F)) Hi) as [Hmax _].
  { by apply NoDup_filter, (lrep_nodup _ _ (ho_lists _ _ Hh) (fl s i)). }
  { intros x [<- Hx]%list_elem_of_filter. by apply (ho_blocks _ _ Hh i (b :: F) x Hi HF). }
  rewrite filter_cons_True in Har, Hmax by done. eexists. split; [exact Har|].
  split; [unfold len in *; simpl in *; lia|]. unfold len at 1. simpl.
  replace (Z.of_nat (S (length (base.filter (λ x, pg x = pg b) F))) - 1) with (len (base.filter (λ x, pg x = pg b) F)) by (unfold len; lia).
  apply (relist_ok H s i (pg b) (b :: F)); try done.
  - by apply (arena_own H s _ i).
  - intros x Hx. apply (ho_blocks _ _ Hh i (b :: F)); [done|done|set_solver].
  - intros a' Hne. by rewrite filter_cons_False.
Qed.

(** A block returns to the end of its list. *)
Lemma block_fresh H s i b F : heap_ok H s → is_block H i b → hL H !! fl s i = Some F → b ∉ F → fresh_node (hL H) b.
Proof.
  intros Hh Hb HF Hn. destruct (block_pg H s i b Hh Hb) as (_ & _ & ? & _ & ? & _). split; [lia|].
  intros q ys Hq Hx. by destruct (arena_own H s (pg b) i F Hh (proj1 Hb) HF q ys b Hq Hx eq_refl).
Qed.

Lemma heap_give H s i b F h' :
  heap_ok H s → is_block H i b → hL H !! fl s i = Some F → b ∉ F → lrep h' (<[fl s i := F ++ [b]]> (hL H)) →
  ∃ c, arenas s !! pg b = Some (mkArena (dsc s i) c false) ∧ 0 ≤ c < bpa i
    ∧ heap_ok (mkH (<[fl s i := F ++ [b]]> (hL H)) (hA H) (hB H))
        (set_links h' (set_arenas (<[pg b := mkArena (dsc s i) (c + 1) false]> (arenas s)) s))
    ∧ (c + 1 = bpa i → ∀ k, 0 ≤ k < bpa i → block (pg b) i k ∈ F ++ [b]).
Proof.
  intros Hh Hb HF Hnb Hl. destruct (Hb) as [HA Hk].
  destruct (ho_arena _ _ Hh _ _ HA) as (Hi & Hv & Hp & Hn & F0 & HF0 & Har).
  assert (F0 = F) as -> by congruence. clear HF0.
  set (G := base.filter (λ x, pg x = pg b) (F ++ [b])).
  assert (len G = len (base.filter (λ x, pg x = pg b) F) + 1) as EG.
  { unfold G. rewrite filter_app, filter_cons_True, filter_nil by done. apply len_app. }
  destruct (arena_list (pg b) i G Hi) as [Hmax Hall].
  { apply NoDup_filter, (lrep_nodup _ _ Hl (fl s i)), lookup_insert_eq. }
  { intros x [<- [Hx| ->%list_elem_of_singleton]%elem_of_app]%list_elem_of_filter; [|done].
    by apply (ho_blocks _ _ Hh i F x Hi HF). }
  eexists. split; [exact Har|]. split; [unfold len in *; lia|]. split.
  - rewrite <- EG. apply (relist_ok H s i (pg b) F); try done.
    + by apply (arena_own H s _ i).
    + intros x [Hx| ->%list_elem_of_singleton]%elem_of_app; [by apply (ho_blocks _ _ Hh i F)|done].
    + intros a' Hne. rewrite filter_app, filter_cons_False, filter_nil, app_nil_r by (by apply not_eq_sym). done.
  - intros E k Hk'. rewrite <- EG in E. pose proof (Hall E k Hk') as Hin. unfold G in Hin.
    by apply list_elem_of_filter in Hin as [_ Hin].
Qed.

(** ** Pages leave the heap *)
Record heap_unmap (s s' : kstate) (P : Z → Prop) : Prop := {
  hu_mem : mem_ok s';
  hu_descs : descs s' = descs s;
  hu_arenas : arenas s' = arenas s;
  hu_glob : glob s' = glob s;
  hu_cr3 : cr3 s' = cr3 s;
  hu_pool : same_pool (kernel_pool s) (kernel_pool s');
  hu_kva : same_kva (kernel_vaddr s) (kernel_vaddr s');
  hu_maps va pa : maps s va pa → ¬ P (pg va) → maps s' va pa;
}.

Lemma pg_pg x : pg (pg x) = pg x.
Proof. unfold pg. Z.div_mod_to_equations. lia. Qed.

Lemma heap_drop H s s' a i F :
  heap_ok H s → hA H !! a = Some i → hL H !! fl s i = Some F →
  lrep (links s') (<[fl s i := base.filter (λ x, pg x ≠ a) F]> (hL H)) → heap_unmap s s' (λ p, p = a) →
  heap_ok (mkH (<[fl s i := base.filter (λ x, pg x ≠ a) F]> (hL H)) (delete a (hA H)) (hB H)) s'.
Proof.
  intros Hh HA HF Hl [Hm E2 E3 E4 E5 E6 E7 E8]. destruct (same_glob s s' E4) as [Ed Ef].
  destruct (ho_arena _ _ Hh _ _ HA) as (Hi & Hav & _ & Hnl & _).
  pose proof (arena_own H s a i F Hh HA HF) as Hown.
  assert (∀ a', a' mod 4096 = 0 → a' ≠ a → kpage s a' → kpage s' a') as Hkp.
  { intros a' Ha' Hne. apply kpage_same; [done|done|]. intros pa Hpa. apply E8; [done|]. by rewrite pg_id. }
  destruct (Hh) as [H1 H2 H3 H4 H5 H6 H7 H8 H9]. split; simpl; try done.
  - destruct E6 as [-> _]. done.
  - intros j Hj. rewrite E2, Ed. by apply H4.
  - intros j Hj. rewrite Ef. destruct (decide (j = i)) as [->|Hji]; [by rewrite lookup_insert_eq|].
    rewrite lookup_insert_ne; [by apply H5|]. by intros E%fl_inj.
  - intros j G b Hj. rewrite Ef. rewrite lookup_insert_Some. intros [[->%fl_inj <-]|[Hne HG]] Hb.
    + apply list_elem_of_filter in Hb as [Hb1 Hb2]. destruct (H6 _ _ _ Hj HF Hb2) as [E Hk].
      split; [|done]. simpl. by rewrite lookup_delete_ne.
    + destruct (H6 _ _ _ Hj HG Hb) as [E Hk]. split; [|done]. simpl. rewrite lookup_delete_ne; [done|]. intros Eq.
      destruct (Hown _ _ b HG) as [Ex _]; [unfold nodes; set_solver|done|done].
  - intros a' j Ha'. apply lookup_delete_Some in Ha' as [Hne Ha'].
    destruct (H7 a' j Ha') as (? & Hv & ? & ? & G & HG & Har). rewrite Ed, E3, Ef.
    destruct (in_kva_facts _ _ _ H1 Hv ltac:(lia)) as (Hal & _).
    split_and!; [done|by eapply in_kva_same|by apply Hkp|done|].
    destruct (decide (j = i)) as [->|Hji].
    + rewrite HF in HG. simplify_eq. eexists. split; [apply lookup_insert_eq|]. rewrite Har, list_filter_filter.
      do 3 f_equal. apply list_filter_iff. intros x. split; [intros <-; by split|tauto].
    + exists G. split; [|done]. rewrite lookup_insert_ne; [done|]. by intros E%fl_inj.
  - intros q ys x Hq Hx. assert (∃ zs, hL H !! q = Some zs ∧ x ∈ nodes q zs ∧ (x ∈ zs → pg x ≠ a → x ∈ ys) ∧ (pg x = a → False))
      as (zs & Hzs & Hx' & Hxy & Hxa).
    { rewrite lookup_insert_Some in Hq. destruct Hq as [[<- <-]|[Hne Hq]].
      - exists F. split; [done|]. assert (x ∈ nodes (fl s i) F) as HxF.
        { unfold nodes in *. set_unfold. destruct Hx as [?|[Hx|?]]; [tauto| |tauto].
          apply list_elem_of_filter in Hx. tauto. }
        split_and!; [done|intros; by apply list_elem_of_filter|]. intros Ea.
        destruct (Hown _ _ x HF HxF Ea) as [_ HxF'].
        destruct (lrep_ends _ _ _ _ x Hl ltac:(apply lookup_insert_eq) Hx) as [[? ?]%list_elem_of_filter|[Hend _]]; [done|].
        pose proof (dl_nodup _ _ _ (lr_dlist _ _ H3 _ _ HF)) as Hnd. unfold nodes in Hnd.
        apply NoDup_cons in Hnd as [Hd1 Hd2]. apply NoDup_app in Hd2 as (_ & Hd3 & _).
        destruct Hend as [->| ->]; set_solver.
      - exists ys. split_and!; [done|done|done|]. intros Ea. by destruct (Hown _ _ x Hq Hx Ea). }
    destruct (H8 q zs x Hzs Hx') as [(pa & Hpa) Hj]. split.
    + exists pa. apply E8; [done|]. rewrite pg_pg. done.
    + intros j Hj'. rewrite Ef. apply lookup_delete_Some in Hj' as [_ Hj']. destruct (Hj j Hj') as [-> Hz].
      split; [done|]. by apply Hxy.
  - intros b n Hb. destruct (H9 b n Hb) as (? & Hv & ? & Hp & ?). rewrite E3.
    destruct (in_kva_facts _ _ _ H1 Hv ltac:(lia)) as (Hal & _).
    split_and!; [done|by eapply in_kva_same|done| |done].
    intros k Hk. destruct (Hp k Hk) as [Hp1 Hp2]. split.
    + apply Hkp; [Z.div_mod_to_equations; lia| |done]. intros Ea. apply (Hnl _ _ Hb). lia.
    + intros q ys x. rewrite lookup_insert_Some. intros [[<- <-]|[_ Hq]] Hx; [|by eapply Hp2].
      apply (Hp2 (fl s i) F); [done|]. unfold nodes in *. set_unfold. destruct Hx as [?|[Hx|?]]; [tauto| |tauto].
      apply list_elem_of_filter in Hx. tauto.
Qed.

(** Large arenas come and go. *)
Lemma heap_add_large H s a n : heap_ok H s → new_pages H s a n → 0 < n →
  heap_ok (mkH (hL H) (hA H) (<[a := n]> (hB H))) (set_arenas (<[a := mkArena NULL n true]> (arenas s)) s).
Proof.
  intros Hh (Ha0 & Hv & Hnew) Hn.
  destruct (in_kva_facts _ _ _ (ho_mem _ _ Hh) Hv ltac:(lia)) as (Hal & Hlo & Hhi).
  assert (∀ x, x mod 4096 = 0 → a ≤ x < a + n * 4096 → ∃ k, 0 ≤ k < n ∧ x = a + k * 4096) as Hpage.
  { intros x Hx Hr. exists ((x - a) / 4096). Z.div_mod_to_equations. lia. }
  assert (∀ b m, hB H !! b = Some m → 0 < m ∧ b mod 4096 = 0 ∧ (b + m * 4096 ≤ a ∨ a + n * 4096 ≤ b)) as Hsep.
  { intros b m Hb. destruct (ho_large _ _ Hh b m Hb) as (Hm & Hvb & _).
    destruct (in_kva_facts _ _ _ (ho_mem _ _ Hh) Hvb ltac:(lia)) as (Hbl & _). split_and!; [done|done|].
    destruct (decide (b + m * 4096 ≤ a ∨ a + n * 4096 ≤ b)) as [?|Hno]; [done|]. exfalso.
    destruct (Hpage (Z.max a b)) as (k & Hk & Ek); [destruct (Z.max_spec a b) as [[_ ->]|[_ ->]]; done|lia|].
    destruct (Hnew k Hk) as (_ & _ & _ & N). apply (N b m Hb). lia. }
  destruct (Hh) as [H1 H2 H3 H4 H5 H6 H7 H8 H9]. split; simpl; try done.
  - destruct (mem_ok_heap s (links s) (<[a := mkArena NULL n true]> (arenas s)) H1). by split.
  - intros a' j Ha'. destruct (H7 a' j Ha') as (? & Hv' & ? & Hnl & F & HF & Har).
    destruct (in_kva_facts _ _ _ H1 Hv' ltac:(lia)) as (Hal' & _).
    assert (¬ (a ≤ a' < a + n * 4096)) as Hout.
    { intros Hr. destruct (Hpage a' Hal' Hr) as (k & Hk & ->). destruct (Hnew k Hk) as (_ & _ & N & _). congruence. }
    split_and!; try done; [|exists F; split; [done|rewrite lookup_insert_ne; [done|intros <-; lia]]].
    intros b m. rewrite lookup_insert_Some. intros [[<- <-]|[_ Hb]]; [done|by apply Hnl].
  - intros b m. rewrite lookup_insert_Some. intros [[<- <-]|[Hne Hb]].
    + split_and!; [done|done|apply lookup_insert_eq| |].
      * intros k Hk. destruct (Hnew k Hk) as (N1 & N2 & _). done.
      * intros a' n'. rewrite lookup_insert_Some. intros [[? _]|[_ Ha']] Hne; [done|].
        destruct (Hsep a' n' Ha'). tauto.
    + destruct (H9 b m Hb) as (? & ? & ? & ? & Hd). split_and!; try done; [by rewrite lookup_insert_ne|].
      intros a' n'. rewrite lookup_insert_Some. intros [[<- <-]|[_ Ha']] Hne'; [|by apply Hd].
      destruct (Hsep b m Hb). tauto.
Qed.

Lemma heap_drop_large H s s' b n : heap_ok H s → hB H !! b = Some n →
  links s' = links s → heap_unmap s s' (λ p, b ≤ p < b + n * 4096) →
  heap_ok (mkH (hL H) (hA H) (delete b (hB H))) s'.
Proof.
  intros Hh Hb El [Hm E2 E3 E4 E5 E6 E7 E8]. destruct (same_glob s s' E4) as [Ed Ef].
  destruct (ho_large _ _ Hh b n Hb) as (Hn & Hvb & Harb & Hpb & Hdb).
  destruct (in_kva_facts _ _ _ (ho_mem _ _ Hh) Hvb ltac:(lia)) as (Hbl & _).
  assert (∀ a', a' mod 4096 = 0 → ¬ (b ≤ a' < b + n * 4096) → kpage s a' → kpage s' a') as Hkp.
  { intros a' Ha' Hne. apply kpage_same; [done|done|]. intros pa Hpa. apply E8; [done|]. by rewrite pg_id. }
  destruct (Hh) as [H1 H2 H3 H4 H5 H6 H7 H8 H9]. split; simpl; try done.
  - destruct E6 as [-> _]. done.
  - by rewrite El.
  - intros j Hj. rewrite E2, Ed. by apply H4.
  - intros j Hj. rewrite Ef. by apply H5.
  - intros j F x Hj. rewrite Ef. by apply H6.
  - intros a' j Ha'. destruct (H7 a' j Ha') as (? & Hv' & ? & Hnl & F & HF & Har).
    destruct (in_kva_facts _ _ _ H1 Hv' ltac:(lia)) as (Hal' & _). rewrite Ed, E3.
    split_and!; [done|by eapply in_kva_same|by apply Hkp; [|apply Hnl|]| |exists F; by rewrite Ef].
    intros c m [_ Hc]%lookup_delete_Some. by apply Hnl.
  - intros q ys x Hq Hx. destruct (H8 q ys x Hq Hx) as [(pa & Hpa) Hj]. split; [|intros j; rewrite Ef; apply Hj].
    exists pa. apply E8; [done|]. rewrite pg_pg. intros Hr.
    destruct (Hpb ((pg x - b) / 4096)) as [_ Hno]; [Z.div_mod_to_equations; lia|].
    apply (Hno q ys x Hq Hx). pose proof (pg_aligned x). Z.div_mod_to_equations. lia.
  - intros c m [Hne Hc]%lookup_delete_Some. destruct (H9 c m Hc) as (? & Hvc & ? & Hp & Hd). rewrite E3.
    destruct (in_kva_facts _ _ _ H1 Hvc ltac:(lia)) as (Hcl & _).
    split_and!; [done|by eapply in_kva_same|done| |].
    + intros k Hk. destruct (Hp k Hk) as [Hp1 Hp2]. split; [|done].
      apply Hkp; [Z.div_mod_to_equations; lia| |done]. destruct (Hd b n Hb Hne); lia.
    + intros a' n' [_ Ha']%lookup_delete_Some. by apply Hd.
Qed.

(** ** Contents of memory *)
Definition vword (s : kstate) (va : Z) : option Z := word (phys s) <$> translate (phys s) (cr3 s) va.

(** [va] keeps its frame and its contents. *)
Definition kept (s s' : kstate) (va : Z) : Prop :=
  ∀ pa, maps s va pa → maps s' va pa ∧ word (phys s') pa = word (phys s) pa.

Lemma kept_trans s s1 s2 va : kept s s1 va → kept s1 s2 va → kept s s2 va.
Proof. intros H1 H2 pa Hpa. destruct (H1 pa Hpa) as [Hpa1 E1]. destruct (H2 pa Hpa1) as [? E2]. split; [done|congruence]. Qed.

Lemma kept_vword s s' va pa : kept s s' va → maps s va pa → ∃ v, vword s va = Some v ∧ vword s' va = Some v.
Proof.
  intros Hk Hpa. destruct (Hk pa Hpa) as [[_ H2] E]. destruct Hpa as [_ H1]. exists (word (phys s) pa).
  unfold vword. rewrite H1, H2. simpl. by rewrite E.
Qed.

Lemma cleared_kept s a f o n m' : mem_ok s → a mod 4096 = 0 → f mod 4096 = 0 → maps s a f →
  0 ≤ o → o + 4 * n ≤ 4096 → cleared (phys s) m' (f + o) n →
  (∀ va pa, maps (set_phys m' s) va pa ↔ maps s va pa) →
  ∀ va, ¬ (a + o ≤ va < a + o + 4 * n) → kept s (set_phys m' s) va.
Proof.
  intros Hm Ha Hf Haf Ho Hn Hc Hmap va Hout pa Hpa. split; [by apply Hmap|]. simpl. rewrite Hc.
  case_decide as Hr; [exfalso|done]. destruct Hr as [Hr _].
  assert (pg pa = f) as Epg by (unfold pg; Z.div_mod_to_equations; lia).
  pose proof (maps_same_page s va a pa f Hm Hpa Haf) as Ep. rewrite (pg_id f) in Ep by done.
  specialize (Ep Epg). rewrite (pg_id a) in Ep by done.
  assert (0 ≤ va - a < 4096) as Hva by (rewrite <- Ep; unfold pg; Z.div_mod_to_equations; lia).
  destruct (maps_page s a f (mo_vm _ Hm) Ha Hf Haf (va - a) Hva) as [_ E1].
  replace (a + (va - a)) with va in E1 by lia. destruct Hpa as [_ E2]. rewrite E1 in E2. simplify_eq. lia.
Qed.

Lemma cleared_vword s a f o n m' : f mod 4096 = 0 → 
  (∀ x, 0 ≤ x < 4096 → maps s (a + x) (f + x)) → 0 ≤ o → o + 4 * n ≤ 4096 → cleared (phys s) m' (f + o) n →
  (∀ va pa, maps (set_phys m' s) va pa ↔ maps s va pa) →
  ∀ x, 0 ≤ x < 4 * n → x mod 4 = 0 → vword (set_phys m' s) (a + o + x) = Some 0.
Proof.
  intros Hf Hmp Ho Hn Hc Hmap x Hx Hx4. specialize (Hmp (o + x) ltac:(lia)).
  apply Hmap in Hmp as [_ E]. unfold vword. replace (a + o + x) with (a + (o + x)) by lia. rewrite E. simpl.
  rewrite Hc, decide_True; [done|]. split; [lia|]. by replace (f + (o + x) - (f + o)) with x by lia.
Qed.

Lemma same_kept s s' va : phys s' = phys s → cr3 s' = cr3 s → kept s s' va.
Proof. intros E1 E2 pa. unfold maps. by rewrite E1, E2. Qed.

Lemma find_desc_ok s size : (∀ i, is_class i → descs s !! dsc s i = Some (mkDesc (cls i) (bpa i))) →
  0 < size ≤ 1024 → ∃ i, is_class i ∧ size ≤ cls i ∧ (∀ j, is_class j → size ≤ cls j → i ≤ j)
    ∧ find_desc DESC_CNT (k_block_descs (glob s)) size 0 s = Ok (i, s).
Proof.
  intros Hd Hs.
  assert (∀ n i, 0 ≤ i → i + Z.of_nat n = 7 → (∀ j, 0 ≤ j < i → cls j < size) →
    ∃ i', is_class i' ∧ size ≤ cls i' ∧ (∀ j, is_class j → size ≤ cls j → i' ≤ j)
      ∧ find_desc n (k_block_descs (glob s)) size i s = Ok (i', s)) as Hgen.
  { induction n as [|n IH]; intros i Hi Hn Hlt.
    - pose proof (Hlt 6 ltac:(lia)) as Hx. unfold cls in Hx. lia.
    - cbn [find_desc]. unfold ld_desc, mbind, K_bind, gets, lift. fold (dsc s i).
      unfold sizeof_MemBlockDesc. fold (dsc s i).
      rewrite Hd by (unfold is_class; lia). cbn [deref block_size]. destruct (Z.leb_spec size (cls i)) as [Hle|Hgt].
      + exists i. split_and!; [unfold is_class; lia|done| |done]. intros j Hj Hsj.
        destruct (decide (i ≤ j)); [done|]. specialize (Hlt j). unfold is_class in Hj. lia.
      + unfold u8. rewrite Z.mod_small by lia. apply IH; [lia|lia|]. intros j Hj.
        destruct (decide (j = i)) as [->|]; [done|]. apply Hlt. lia. }
  apply (Hgen 7%nat 0); [lia|done|lia].
Qed.

Lemma kpages_phys s m' a : (∀ va pa, maps (set_phys m' s) va pa ↔ maps s va pa) → kpage s a → kpage (set_phys m' s) a.
Proof. intros Hmap. apply kpage_same; [done|done|]. intros pa. apply Hmap. Qed.

(** [memset] over heap pages clears them and nothing else. *)
Lemma clear_kpages_ok n s a : mem_ok s → a mod 4096 = 0 →
  (∀ k, 0 ≤ k < Z.of_nat n → kpage s (a + k * 4096)) →
  wp (vclear (n * 1024) a) s (λ _ s', ∃ m', s' = set_phys m' s ∧ mem_ok s'
    ∧ (∀ va pa, maps s' va pa ↔ maps s va pa)
    ∧ (∀ va, ¬ (a ≤ va < a + Z.of_nat n * 4096) → kept s s' va)
    ∧ ∀ x, 0 ≤ x < Z.of_nat n * 4096 → x mod 4 = 0 → vword s' (a + x) = Some 0).
Proof.
  revert s a. induction n as [|n IH]; intros s a Hm Ha Hp.
  - simpl. kstep. exists (phys s). split_and!; [by destruct s|done|done|intros; by apply same_kept|lia].
  - cbn [Nat.mul]. apply vclear_app.
    specialize (Hp 0 ltac:(lia)) as Hp0. replace (a + 0 * 4096) with a in Hp0 by lia.
    destruct (kpage_frame s a Hm Ha Hp0) as (f & Hfa & Hfw & Hfm).
    assert (maps s a f) as Haf by (specialize (Hfm 0 ltac:(lia)); by rewrite !Z.add_0_r in Hfm).
    eapply wp_mono; [by apply (clear_page_ok s a f)|]. intros u s1 (m1 & -> & Hc & Hm1 & Hmap).
    replace f with (f + 0) in Hc by lia.
    replace (a + 4 * Z.of_nat 1024) with (a + 4096) by lia. eapply wp_mono.
    + apply (IH (set_phys m1 s) (a + 4096)); [done|Z.div_mod_to_equations; lia|].
      intros k Hk. apply kpages_phys; [done|]. specialize (Hp (k + 1) ltac:(lia)).
      by replace (a + (k + 1) * 4096) with (a + 4096 + k * 4096) in Hp by lia.
    + intros u' s2 (m2 & -> & R1 & R2 & R3 & R4). exists m2. split_and!; [done|done| | |].
      * intros va pa. by rewrite R2, Hmap.
      * intros va Hva. eapply kept_trans; [|apply R3; lia].
        apply (cleared_kept s a f 0 1024 m1); try done; lia.
      * intros x Hx Hx4. destruct (decide (x < 4096)) as [Hlt|Hge].
        -- pose proof (cleared_vword s a f 0 1024 m1 Hfa Hfm ltac:(lia) ltac:(lia) Hc Hmap x ltac:(lia) Hx4) as Hw.
           replace (a + 0 + x) with (a + x) in Hw by lia.
           assert (maps (set_phys m1 s) (a + x) (f + x)) as Hpa by (apply Hmap, Hfm; lia).
           destruct (kept_vword _ _ _ _ (R3 (a + x) ltac:(lia)) Hpa) as (v & E1 & E2). congruence.
        -- specialize (R4 (x - 4096) ltac:(lia) ltac:(Z.div_mod_to_equations; lia)).
           by replace (a + 4096 + (x - 4096)) with (a + x) in R4 by lia.
Qed.

(** Pages that were not mapped have no contents to lose. *)
Lemma kept_fresh s s1 s2 a n : mem_ok s → a mod 4096 = 0 → (∀ k pa, 0 ≤ k < n → ¬ maps s (a + k * 4096) pa) →
  (∀ va, kept s s1 va) → (∀ va, ¬ (a ≤ va < a + n * 4096) → kept s1 s2 va) → ∀ va, kept s s2 va.
Proof.
  intros Hm Ha Hun H1 H2 va. destruct (decide (a ≤ va < a + n * 4096)) as [Hin|Hout].
  - intros pa Hpa%maps_pg; [|apply Hm]. exfalso. apply (Hun ((va - a) / 4096) (pg pa)); [Z.div_mod_to_equations; lia|].
    replace (a + (va - a) / 4096 * 4096) with (pg va); [done|]. unfold pg. Z.div_mod_to_equations; lia.
  - eapply kept_trans; [apply H1|by apply H2].
Qed.

(** ** Refilling an empty free list *)
Definition same_live (H H' : gheap) (s : kstate) : Prop := ∀ b n, live H' s b n ↔ live H s b n.

Lemma heap_add_live H s a i : heap_ok H s → new_pages H s a 1 → is_class i → hL H !! fl s i = Some [] →
  same_live H (mkH (<[fl s i := blocks_from a i 0 (bpa i)]> (hL H)) (<[a := i]> (hA H)) (hB H)) s.
Proof.
  intros Hh (Ha0 & Hv & Hnew) Hi HF b n. destruct (Hnew 0 ltac:(lia)) as (_ & _ & N3 & _).
  replace (a + 0 * 4096) with a in N3 by lia.
  destruct (in_kva_facts _ _ _ (ho_mem _ _ Hh) Hv ltac:(lia)) as (Hal & _).
  unfold live. apply or_iff_compat_r. split.
  - intros (j & F & [HA (k & Hk & E)] & HF' & -> & Hb). simpl in *. rewrite lookup_insert_Some in HA.
    destruct HA as [[Ea ->]|[Hne HA]].
    + rewrite lookup_insert_eq in HF'. simplify_eq. destruct Hb. apply elem_of_blocks. exists k. split; [lia|done].
    + exists j. rewrite lookup_insert_Some in HF'. destruct HF' as [[->%fl_inj <-]|[_ HF']].
      * exists []. split_and!; [by split; eauto|done|done|set_solver].
      * exists F. split_and!; [by split; eauto|done|done|done].
  - intros (j & F & [HA Hk] & HF' & -> & Hb). exists j.
    assert (pg b ≠ a) as Hne by congruence. destruct (decide (j = i)) as [->|Hji].
    + eexists. split_and!; [split; [simpl; by rewrite lookup_insert_ne|done]|apply lookup_insert_eq|done|].
      intros (k & Hk' & ->)%elem_of_blocks. destruct (block_in_page a i k Hi Hal ltac:(lia)) as [? _]. done.
    + exists F. split_and!; [split; [simpl; by rewrite lookup_insert_ne|done]| |done|done].
      simpl. rewrite lookup_insert_ne; [done|]. by intros E%fl_inj.
Qed.

(** The free list of class [i] has a block. *)
Definition refilled (H : gheap) (s s' : kstate) (i : Z) : Prop :=
  ∃ H' b F, heap_ok H' s' ∧ hL H' !! fl s i = Some (b :: F)
    ∧ (∀ q, q ≠ fl s i → hL H' !! q = hL H !! q) ∧ same_live H H' s.

Lemma new_arena_ok H s i : heap_ok H s → is_class i → hL H !! fl s i = Some [] →
  wp (new_arena PF_KERNEL (dsc s i)) s (λ ok s', hframe s s' ∧ (∀ va, kept s s' va) ∧
    if (ok : bool) then refilled H s s' i else heap_ok H s').
Proof.
  intros Hh Hi HF. unfold new_arena. apply wp_bind. eapply wp_mono; [apply (heap_new_pages H s 1 Hh); lia|].
  intros a s1 (Hh1 & Hs1 & Hd1 & Hf1 & Hcase). destruct (hframe_fields _ _ Hf1) as (Eg & _).
  destruct (same_glob s s1 Eg) as [Ed Ef]. assert (∀ va, kept s s1 va) as Hk1.
  { intros va pa Hpa. split; [by apply (hs_maps _ _ Hs1)|by eapply Hd1]. }
  destruct (Z.eqb_spec a NULL) as [->|Hne]; [by kstep|]. destruct Hcase as [?|[Hnew Hun]]; [done|].
  destruct (Hnew) as (_ & Hv & Hp).
  destruct (in_kva_facts _ _ _ (ho_mem _ _ Hh1) Hv ltac:(lia)) as (Hal & Hlo & Hhi).
  apply wp_bind. change 1024%nat with (1 * 1024)%nat.
  eapply wp_mono; [apply (clear_kpages_ok 1 s1 a (ho_mem _ _ Hh1) Hal); intros k Hk; by apply Hp|].
  intros u s2 (m2 & -> & Hm2 & Hmap & Hk2 & _). set (s2 := set_phys m2 s1) in *.
  assert (heap_ok H s2) as Hh2.
  { apply (heap_same_ok H s1); [done| |done]. by split; try done; apply Hmap. }
  assert (new_pages H s2 a 1) as Hnew2.
  { split_and!; [done|done|]. intros k Hk. destruct (Hp k Hk) as (P1 & P2). split; [|done]. by apply kpages_phys. }
  assert (∀ va, kept s s2 va) as Hk by by apply (kept_fresh s s1 s2 a 1 (ho_mem _ _ Hh)).
  assert (dsc s i = dsc s2 i) as Ed2 by (symmetry; apply Ed). assert (fl s i = fl s2 i) as Ef2 by (symmetry; apply Ef).
  rewrite Ed2. apply wp_bind. eapply wp_eq; [by apply ld_desc_eq, (ho_descs _ _ Hh2)|]. cbn [blocks_per_arena].
  apply wp_bind, wp_modify. apply wp_bind, wp_intr_disable. apply wp_bind.
  destruct (cls_facts i Hi) as (_ & _ & Hbpa & _). rewrite Ef2 in HF.
  eapply wp_mono.
  { eapply (split_arena_ok _ _ (hL H) [] a i (bpa i) false 0);
      [apply (ho_lists _ _ Hh2)|exact HF|apply lookup_insert_eq|by apply (ho_descs _ _ Hh2)|done|lia|lia|lia|lia|].
    by apply (blocks_fresh H s2). }
  intros u' s3 (h' & -> & Hl). cbn [app] in Hl. rewrite Z2Nat.id in Hl by lia.
  apply wp_bind, wp_intr_set_status. kstep.
  change (fl (set_intr INTR_OFF _) i) with (fl s2 i) in Hl.
  match goal with |- hframe s ?x ∧ _ => assert (x = set_links h' (set_arenas (<[a := mkArena (dsc s2 i) (bpa i) false]> (arenas s2)) s2)) as ->
    by by destruct s1 end.
  split_and!; [eapply hframe_trans; [exact Hf1|done]|intros va; apply (Hk va)|].
  destruct (seqZ_cons 0 (bpa i) ltac:(lia)) as [].
  eexists _, (block a i 0), (blocks_from a i 1 (bpa i - 1)).
  split; [exact (heap_add_arena H s2 a i [] h' Hh2 Hnew2 Hi HF Hl)|]. cbn [hL app]. rewrite Ef2. split_and!.
  - rewrite lookup_insert_eq. unfold blocks_from. by rewrite (seqZ_cons 0) by lia.
  - intros q Hq. by rewrite lookup_insert_ne.
  - intros b n. rewrite <- (live_glob _ s s2) by done. rewrite <- (live_glob H s s2) by done.
    by apply (heap_add_live H s2 a i Hh2 Hnew2 Hi HF).
Qed.

(** ** Taking a block *)
Lemma lrep_other_node h L e v : lrep h L → fresh_node L e → lrep (<[e := v]> h) L.
Proof.
  intros HL [_ Hf]. split; [|apply HL]. intros p xs Hp. eapply dlist_frame; [by eapply lr_dlist|].
  intros n Hn. unfold nxt, prv. rewrite lookup_insert_ne; [done|]. intros ->. by apply (Hf p xs).
Qed.

Lemma block2arena_ok b : 0 ≤ b < 2 ^ 32 → block2arena b = pg b.
Proof. apply land_pg. Qed.

Lemma take_block_ok H s i b F : heap_ok H s → is_class i → hL H !! fl s i = Some (b :: F) →
  wp (take_block (dsc s i)) s (λ r s', r = b ∧ hframe s s' ∧ heap_ok (mkH (<[fl s i := F]> (hL H)) (hA H) (hB H)) s'
    ∧ (∀ va, ¬ (b ≤ va < b + cls i) → kept s s' va)
    ∧ ∀ x, 0 ≤ x < cls i → x mod 4 = 0 → vword s' (b + x) = Some 0).
Proof.
  intros Hh Hi HF. pose proof (ho_blocks _ _ Hh i _ b Hi HF ltac:(set_solver)) as Hb.
  destruct (block_pg H s i b Hh Hb) as (_ & Hal & Hlo & Hhi & Hb1 & Hb2 & Hb3).
  destruct (cls_facts i Hi) as (Hc1 & Hc4 & _).
  destruct (ho_arena _ _ Hh _ _ (proj1 Hb)) as (_ & _ & Hkp & _).
  destruct (kpage_frame s (pg b) (ho_mem _ _ Hh) Hal Hkp) as (f & Hfa & Hfw & Hfm).
  unfold take_block. apply wp_bind. eapply wp_mono; [eapply list_pop_ok; [apply (ho_lists _ _ Hh)|exact HF]|].
  intros r s1 (-> & (h1 & -> & Hl1) & Hf1). set (s1 := set_links h1 s).
  apply wp_bind. eapply wp_eq; [by apply (ld_desc_eq s1), (ho_descs _ _ Hh)|]. cbn [block_size].
  assert (mem_ok s1) as Hm1.
  { pose proof (mem_ok_heap s h1 (arenas s) (ho_mem _ _ Hh)) as Hm. by destruct s. }
  apply wp_bind. unfold clear_block. apply wp_bind. replace b with (pg b + (b - pg b)) at 1 by lia. eapply wp_mono.
  { apply (clear_range_ok s1 (pg b) f (b - pg b) (Z.to_nat (cls i / 4)) Hm1 Hfa Hfw); [lia| |exact Hfm].
    Z.div_mod_to_equations. lia. }
  intros u s2 (m2 & -> & Hc & Hm2 & Hmap).
  replace (Z.of_nat (Z.to_nat (cls i / 4))) with (cls i / 4) in Hc by (Z.div_mod_to_equations; lia).
  assert (4 * (cls i / 4) = cls i) as E4 by (Z.div_mod_to_equations; lia).
  apply wp_modify. destruct (heap_take H s i b F (<[b := mkElem NULL NULL]> h1) Hh Hi HF) as (c & Har & Hcb & Hh').
  { by apply lrep_other_node. }
  rewrite block2arena_ok by lia. apply wp_bind. eapply wp_eq; [apply ld_arena_eq; exact Har|].
  cbn [desc cnt large]. destruct (cls_facts i Hi) as (_ & _ & Hbpa & _). rewrite u32_id by lia.
  apply wp_bind, wp_modify. kstep. split; [done|]. split; [done|].
  assert (maps s (pg b) f) as Hpf by (specialize (Hfm 0 ltac:(lia)); by rewrite !Z.add_0_r in Hfm).
  split_and!.
  - eapply heap_same_ok; [exact Hh'| |].
    + split; try done. intros va pa Hpa. by apply (Hmap va pa).
    + pose proof (mem_ok_heap _ (<[b := mkElem NULL NULL]> h1) (<[pg b := mkArena (dsc s i) (c - 1) false]> (arenas s)) Hm2) as Hm.
      exact Hm.
  - intros va Hva pa. apply (cleared_kept s1 (pg b) f (b - pg b) (cls i / 4) m2 Hm1 Hal Hfa Hpf); [lia|lia|done|done|lia].
  - intros x Hx Hx4. pose proof (cleared_vword s1 (pg b) f (b - pg b) (cls i / 4) m2 Hfa Hfm ltac:(lia) ltac:(lia) Hc Hmap x ltac:(lia) Hx4) as Hw.
    replace (pg b + (b - pg b) + x) with (b + x) in Hw by lia. exact Hw.
Qed.

Lemma heap_take_live H s i b F : heap_ok H s → is_class i → hL H !! fl s i = Some (b :: F) →
  (∀ n, ¬ live H s b n) ∧
  ∀ x n, live (mkH (<[fl s i := F]> (hL H)) (hA H) (hB H)) s x n ↔ live H s x n ∨ x = b ∧ n = cls i.
Proof.
  intros Hh Hi HF. pose proof (ho_blocks _ _ Hh i _ b Hi HF ltac:(set_solver)) as Hb.
  pose proof (lrep_nodup _ _ (ho_lists _ _ Hh) _ _ HF) as [HbF _]%NoDup_cons.
  assert (∀ n, ¬ live H s b n) as Hno.
  { intros n [(j & G & [HA _] & HG & _ & HbG)|(c & Hc & _)].
    - destruct Hb as [HA' _]. rewrite HA in HA'. simplify_eq. set_solver.
    - destruct (block_pg H s i b Hh Hb) as (_ & Hal & _ & _ & Hb1 & Hb2 & _). destruct (cls_facts i Hi) as (? & _).
      destruct (ho_large _ _ Hh _ _ Hc) as (? & Hv & _).
      destruct (ho_arena _ _ Hh _ _ (proj1 Hb)) as (_ & _ & _ & Hnl & _).
      destruct (in_kva_facts _ _ _ (ho_mem _ _ Hh) Hv ltac:(lia)) as (Hbl & _).
      apply (Hnl _ _ Hc). Z.div_mod_to_equations. lia. }
  split; [done|]. intros x n. unfold live at 1. simpl. split.
  - intros [(j & G & Hx & HG & -> & HxG)|?]; [|by left; right].
    rewrite lookup_insert_Some in HG. destruct HG as [[->%fl_inj <-]|[_ HG]].
    + destruct (decide (x = b)) as [->|Hne]; [by right|]. left. left. exists j, (b :: F). split_and!; [done|done|done|set_solver].
    + left. left. exists j, G. done.
  - intros [[(j & G & Hx & HG & -> & HxG)|?]|[-> ->]]; [|by right|].
    + left. destruct (decide (j = i)) as [->|Hji].
      * rewrite HF in HG. simplify_eq. exists i, F. rewrite lookup_insert_eq. split_and!; [done|done|done|set_solver].
      * exists j, G. rewrite lookup_insert_ne; [done|]. by intros E%fl_inj.
    + left. exists i, F. by rewrite lookup_insert_eq.
Qed.
