(* ===== verification/HeapSpec.v ===== *)
(** * kernel/losmemory.c: what sys_malloc and sys_free promise

    The theorems about the block heap of a kernel thread: the set of live
    blocks is what a client expects, live blocks keep their contents and never
    overlap.  The witnesses run on the memory of BootMem. *)
From S2P Require Import Prelude CString Bitmap Machine DList Mmu PageMem BootMem Sched Sync Heap.

(** A kernel thread runs and the lock of the kernel pool is free. *)
Record kheap (H : gheap) (s : kstate) : Prop := {
  kh_ok : heap_ok H s;
  kh_start : K_HEAP_START ≤ vaddr_start (kernel_vaddr s);
  kh_thread : ∃ t, tasks s !! cur s = Some t ∧ pgdir t = NULL;
  kh_cur : cur s ≠ 0;
  kh_lock : lock_free s (hL H) (lock (kernel_pool s));
  kh_wait i : is_class i → waiters (lock_semaphore (lock (kernel_pool s))) ≠ fl s i;
}.

(** [s1] with the locks and semaphores of [s]. *)
Definition unheld (s s1 : kstate) : kstate := set_locks (locks s) (set_sema_value (sema_value s) s1).

Lemma release_ok s s1 l L L' : lock_free s L l → cur s ≠ 0 → hframe (held s l (cur s) 1) s1 →
  lrep (links s1) L' → L' !! waiters (lock_semaphore l) = Some [] →
  lock_release l s1 = Ok ((), unheld s s1).
Proof.
  intros [_ _ Ha Hh Hv] Hc Hf HL Hw.
  destruct (hframe_fields _ _ Hf) as (_ & _ & _ & _ & Ec & El & Es & _).
  assert (s1 = held (unheld s s1) l (cur (unheld s s1)) 1) as E.
  { unfold held, unheld. simpl. change (cur (set_locks _ _)) with (cur s1). rewrite Ec.
    change (cur (held s l (cur s) 1)) with (cur s). simpl in El, Es. rewrite <- El, <- Es. by destruct s1. }
  rewrite E at 1. apply (lock_release_last (unheld s s1) L').
  - by split.
  - change (cur (unheld s s1)) with (cur s1). by rewrite Ec.
Qed.

Lemma heap_ok_locks H s lk sv : heap_ok H s → heap_ok H (set_locks lk (set_sema_value sv s)).
Proof.
  intros Hh. eapply heap_same_ok; [exact Hh|by split; try done; apply same_pool_refl|].
  destruct (ho_mem _ _ Hh) as [[H1 H2] ? ? ? ? ? ? ? ?]. split; try assumption. split; [exact H1|exact H2].
Qed.

Section calls.
Context (H : gheap) (s : kstate) (Hk : kheap H s).
Let l := lock (kernel_pool s).
Let s0 := held s l (cur s) 1.

Lemma kheap_back H' s1 : hframe s0 s1 → heap_ok H' s1 →
  hL H' !! waiters (lock_semaphore l) = Some [] →
  lock_release l s1 = Ok ((), unheld s s1) ∧ kheap H' (unheld s s1) ∧ glob (unheld s s1) = glob s.
Proof.
  intros Hf Hh Hw. destruct (Hf) as (_ & (E1 & E2 & E3 & E4) & [V1 V2]). destruct Hk as [K1 K2 K3 K4 K5 K6].
  destruct (hframe_fields _ _ Hf) as (F1 & F2 & F3 & F4 & F5 & F6 & F7 & F8).
  split_and!; [eapply release_ok; [exact K5|exact K4|exact Hf|apply (ho_lists _ _ Hh)|exact Hw]| |exact F1].
  split.
  - by apply heap_ok_locks.
  - simpl in *. by rewrite V1.
  - change (cur (unheld s s1)) with (cur s1). rewrite F5. simpl. rewrite F4. exact K3.
  - change (cur (unheld s s1)) with (cur s1). by rewrite F5.
  - simpl in *. rewrite E4. destruct K5 as [_ _ L3 L4 L5]. split; [apply (ho_lists _ _ Hh)|exact Hw|done|done|done].
  - intros i Hi. simpl in *. rewrite E4. change (fl (unheld s s1) i) with (fl s1 i).
    destruct (same_glob s0 s1 F1) as [_ ->]. by apply K6.
Qed.

(** The state in which the body of the call runs. *)
Lemma kheap_held : heap_ok H s0 ∧ (∀ va, kept s s0 va) ∧ same_live H H s0
  ∧ hL H !! waiters (lock_semaphore l) = Some [].
Proof.
  destruct Hk as [K1 _ _ _ K5 _]. split_and!; [by apply heap_ok_locks|by intros va; apply same_kept|done|apply K5].
Qed.
End calls.

(** The bytes a request of [size] is given: the smallest block size that fits,
    or whole pages less the arena header. *)
Definition grant (size : Z) : Z :=
  if 1024 <? size then DIV_ROUND_UP (size + 12) 4096 * 4096 - 12
  else default 1024 (List.find (λ c, size <=? c) [16; 32; 64; 128; 256; 512; 1024]).

Lemma grant_small size i : is_class i → 0 < size → size ≤ cls i → (∀ j, is_class j → size ≤ cls j → i ≤ j) →
  size ≤ 1024 → cls i = grant size.
Proof.
  intros Hi Hs Hle Hmin H1024. unfold grant. destruct (Z.ltb_spec 1024 size); [lia|].
  assert (∀ j c, is_class j → cls j = c → size ≤ c → i ≤ j) as Hm by (intros j c Hj <-; by apply Hmin).
  pose proof (Hm 0 16 ltac:(by split) eq_refl). pose proof (Hm 1 32 ltac:(by split) eq_refl).
  pose proof (Hm 2 64 ltac:(by split) eq_refl). pose proof (Hm 3 128 ltac:(by split) eq_refl).
  pose proof (Hm 4 256 ltac:(by split) eq_refl). pose proof (Hm 5 512 ltac:(by split) eq_refl). clear Hm Hmin.
  assert (i = 0 ∨ i = 1 ∨ i = 2 ∨ i = 3 ∨ i = 4 ∨ i = 5 ∨ i = 6) as Hc by (unfold is_class in Hi; lia).
  cbn [List.find]. destruct Hc as [->|[->|[->|[->|[->|[->| ->]]]]]];
    (match goal with |- cls ?j = _ => let c := eval vm_compute in (cls j) in change (cls j) with c in * end); zbool.
Qed.

(** What a call of [sys_malloc] may do: nothing visible, or hand out [grant size]
    zeroed bytes at [r] that were not live. *)
Definition alloc_result (H H' : gheap) (s s' : kstate) (size r : Z) : Prop :=
  (∀ b n x, live H s b n → 0 ≤ x < n → ∃ pa, maps s (b + x) pa ∧ maps s' (b + x) pa
     ∧ word (phys s') pa = word (phys s) pa)
  ∧ (r = NULL ∧ (∀ b n, live H' s' b n ↔ live H s b n)
     ∨ r ≠ NULL ∧ (∀ m, ¬ live H s r m)
        ∧ (∀ b m, live H' s' b m ↔ live H s b m ∨ b = r ∧ m = grant size)
        ∧ ∀ x, 0 ≤ x < grant size → x mod 4 = 0 → vword s' (r + x) = Some 0).

(** Live blocks are mapped, and their bytes are disjoint from the other ones
    and from the free blocks. *)
Lemma live_mapped H s b n x : heap_ok H s → live H s b n → 0 ≤ x < n → ∃ pa, maps s (b + x) pa.
Proof.
  intros Hh Hl Hx.
  assert (∃ a, a mod 4096 = 0 ∧ kpage s a ∧ 0 ≤ b + x - a < 4096) as (a & Ha & Hp & Hr).
  { destruct Hl as [(i & F & Hb & HF & -> & _)|(c & Hc & ->)].
    - destruct (block_pg H s i b Hh Hb) as (Hi & Hal & _ & _ & ? & ? & _).
      destruct (ho_arena _ _ Hh _ _ (proj1 Hb)) as (_ & _ & Hp & _). exists (pg b). split_and!; try done; lia.
    - destruct (ho_large _ _ Hh _ _ Hc) as (Hc0 & Hv & _ & Hp & _).
      destruct (in_kva_facts _ _ _ (ho_mem _ _ Hh) Hv ltac:(lia)) as (Hal & _).
      exists (b - 12 + (x + 12) / 4096 * 4096).
      split; [Z.div_mod_to_equations; lia|]. split; [apply Hp|]; Z.div_mod_to_equations; lia. }
  destruct (kpage_frame s a (ho_mem _ _ Hh) Ha Hp) as (f & _ & _ & Hm). exists (f + (b + x - a)).
  specialize (Hm (b + x - a) Hr). by replace (a + (b + x - a)) with (b + x) in Hm by lia.
Qed.

Lemma live_kept H s s' b n x : heap_ok H s → live H s b n → 0 ≤ x < n → kept s s' (b + x) →
  ∃ pa, maps s (b + x) pa ∧ maps s' (b + x) pa ∧ word (phys s') pa = word (phys s) pa.
Proof. intros Hh Hl Hx Hkp. destruct (live_mapped H s b n x Hh Hl Hx) as (pa & Hpa). exists pa. by destruct (Hkp pa Hpa). Qed.

Lemma small_large_disjoint H s i b c k : heap_ok H s → is_block H i b → hB H !! (c - 12) = Some k →
  b + cls i ≤ c ∨ c + (k * 4096 - 12) ≤ b.
Proof.
  intros Hh Hb Hc. destruct (block_pg H s i b Hh Hb) as (Hi & Hal & _ & _ & ? & ? & _).
  destruct (ho_arena _ _ Hh _ _ (proj1 Hb)) as (_ & _ & _ & Hnl & _).
  destruct (ho_large _ _ Hh _ _ Hc) as (? & Hv & _).
  destruct (in_kva_facts _ _ _ (ho_mem _ _ Hh) Hv ltac:(lia)) as (Hbl & _).
  specialize (Hnl _ _ Hc). Z.div_mod_to_equations. lia.
Qed.

Lemma live_disjoint H s b n b' n' : heap_ok H s → live H s b n → live H s b' n' → b ≠ b' →
  b + n ≤ b' ∨ b' + n' ≤ b.
Proof.
  intros Hh [(i & F & Hb & _ & -> & _)|(c & Hc & ->)] [(j & G & Hb' & _ & -> & _)|(c' & Hc' & ->)] Hne.
  - destruct (block_pg H s i b Hh Hb) as (Hi & Hal & _ & _ & ? & ? & _).
    destruct (block_pg H s j b' Hh Hb') as (Hj & Hal' & _ & _ & ? & ? & _).
    destruct (decide (pg b = pg b')) as [E|E]; [|Z.div_mod_to_equations; lia].
    destruct Hb as [HA (k & Hk & Eb)], Hb' as [HA' (k' & Hk' & Eb')]. rewrite E, HA' in HA. simplify_eq.
    rewrite Eb, Eb', E. unfold block. destruct (cls_facts i Hi) as (? & _).
    assert (k ≠ k') by (intros ->; congruence). assert (k < k' ∨ k' < k) as [|] by lia; nia.
  - by apply (small_large_disjoint H s i b b' c').
  - destruct (small_large_disjoint H s j b' b c Hh Hb' Hc); tauto.
  - destruct (ho_large _ _ Hh _ _ Hc) as (? & Hv & _ & _ & Hd).
    destruct (Hd _ _ Hc' ltac:(lia)); lia.
Qed.

(** ** sys_malloc *)
Section malloc.
Context (H : gheap) (s : kstate) (Hk : kheap H s) (sz : Z).
Let l := lock (kernel_pool s).
Let s0 := held s l (cur s) 1.

(** The body once a block is there to take. *)
Lemma take_call i s1 : 0 < sz ≤ 1024 → is_class i → cls i = grant sz →
  hframe s0 s1 → (∀ va, kept s0 s1 va) → refilled H s0 s1 i →
  wp (b ← take_block (dsc s0 i); lock_release l ;; mret b) s1
    (λ r s', ∃ H', kheap H' s' ∧ alloc_result H H' s s' sz r).
Proof.
  intros Hsz Hi Hg Hf1 Hk1 (H1 & b & F & Hh1 & HF & Hq & Hlive).
  destruct (hframe_fields _ _ Hf1) as (Eg & _). destruct (same_glob s0 s1 Eg) as [Ed Ef].
  apply wp_bind. rewrite <- Ed. rewrite <- Ef in HF. eapply wp_mono; [by apply (take_block_ok H1 s1 i b F)|].
  intros r s2 (-> & Hf2 & Hh2 & Hk2 & Hz). set (H2 := mkH _ _ _) in *.
  destruct (heap_take_live H1 s1 i b F Hh1 Hi HF) as [Hnot Hl2]. fold H2 in Hl2.
  destruct (kheap_held H s Hk) as (Hh0 & Hk0 & _ & Hw0).
  pose proof (hframe_trans _ _ _ Hf1 Hf2) as Hf. destruct (hframe_fields _ _ Hf2) as (Eg2 & _).
  destruct (kheap_back H s Hk H2 s2 Hf Hh2) as (Hrel & Hkh & Eg').
  { unfold H2. simpl. rewrite lookup_insert_ne; [rewrite Hq; [done|]|]; rewrite ?Ef; [by apply (kh_wait _ _ Hk)|].
    by apply not_eq_sym, (kh_wait _ _ Hk). }
  apply wp_bind. eapply wp_eq; [exact Hrel|]. kstep. exists H2. split; [done|].
  assert (∀ x n, live H s x n ↔ live H s0 x n) as Eh by (intros; symmetry; by apply live_glob).
  assert (∀ x n, live H2 (unheld s s2) x n ↔ live H s x n ∨ x = b ∧ n = cls i) as Hlive2.
  { intros x n. rewrite (live_glob H2 s1) by (simpl; congruence). rewrite Hl2, (live_glob H1 s0 s1) by done.
    by rewrite (Hlive x n), Eh. }
  assert (∀ m, ¬ live H s b m) as Hnot'.
  { intros m Hm. apply (Hnot m). rewrite (live_glob H1 s0 s1) by done. apply Hlive. by apply Eh. }
  split; [|right; rewrite <- Hg; split_and!; [|exact Hnot'|exact Hlive2|exact Hz]].
  - intros x n y Hx Hy. apply (live_kept H s _ x n y (kh_ok _ _ Hk) Hx Hy).
    assert (x ≠ b) as Hxb by (intros ->; by apply (Hnot' n)).
    assert (x + n ≤ b ∨ b + cls i ≤ x) as Hd.
    { apply (live_disjoint H2 (unheld s s2) x n b (cls i) (kh_ok _ _ Hkh)); [| |done]; apply Hlive2; [by left|by right]. }
    eapply kept_trans; [apply Hk0|]. eapply kept_trans; [apply Hk1|]. intros pa. apply (Hk2 (x + y)). lia.
  - pose proof (ho_blocks _ _ Hh1 i _ b Hi HF ltac:(set_solver)) as Hb.
    destruct (block_pg H1 s1 i b Hh1 Hb) as (_ & _ & ? & _ & ? & _). unfold NULL. lia.
Qed.

Lemma sys_malloc_enter Q : 0 < sz → sz < Machine.size (kernel_pool s) →
  wp (if 1024 <? sz then malloc_large PF_KERNEL l sz else malloc_small PF_KERNEL l (k_block_descs (glob s)) sz) s0 Q →
  wp (sys_malloc sz) s Q.
Proof.
  intros Hsz Hpool HQ. destruct (kh_thread _ _ Hk) as (t & Ht & Hpd).
  unfold sys_malloc. apply wp_bind. apply wp_gets. apply wp_bind. eapply wp_eq; [by apply ld_task_eq|].
  rewrite Hpd. cbn [Z.eqb NULL]. apply wp_bind, wp_gets. apply wp_bind, wp_gets. cbn [pool_of].
  destruct (Z.ltb_spec 0 sz); [|lia]. destruct (Z.ltb_spec sz (Machine.size (kernel_pool s))); [|lia]. cbn [negb andb].
  apply wp_bind, wp_gets. change (pool_lock PF_KERNEL s) with l. apply wp_bind.
  eapply wp_eq; [by apply (lock_acquire_free s (hL H) l (kh_lock _ _ Hk) (kh_cur _ _ Hk))|]. exact HQ.
Qed.

(** No memory: the lock is released and nothing else happened. *)
Lemma malloc_null s1 : hframe s0 s1 → (∀ va, kept s0 s1 va) → heap_ok H s1 →
  wp (lock_release l ;; mret NULL) s1 (λ r s', ∃ H', kheap H' s' ∧ alloc_result H H' s s' sz r).
Proof.
  intros Hf1 Hk1 Hh1. destruct (kheap_held H s Hk) as (_ & Hk0 & _ & Hw0).
  destruct (kheap_back H s Hk H s1 Hf1 Hh1 Hw0) as (Hrel & Hkh & Eg').
  apply wp_bind. eapply wp_eq; [exact Hrel|]. kstep. exists H. split; [done|]. split.
  - intros x n y Hx Hy. apply (live_kept H s _ x n y (kh_ok _ _ Hk) Hx Hy).
    eapply kept_trans; [apply Hk0|]. intros pa. apply (Hk1 (x + y)).
  - left. split; [done|]. intros x n. by apply live_glob.
Qed.

Lemma malloc_small_ok : 0 < sz ≤ 1024 →
  wp (malloc_small PF_KERNEL l (k_block_descs (glob s)) sz) s0 (λ r s', ∃ H', kheap H' s' ∧ alloc_result H H' s s' sz r).
Proof.
  intros Hsz. destruct (kheap_held H s Hk) as (Hh0 & _). fold l s0 in Hh0. unfold malloc_small.
  destruct (find_desc_ok s0 sz (ho_descs _ _ Hh0) Hsz) as (i & Hi & Hle & Hmin & Hfd).
  pose proof (grant_small sz i Hi ltac:(lia) Hle Hmin ltac:(lia)) as Hg.
  apply wp_bind. eapply wp_eq; [exact Hfd|]. unfold sizeof_MemBlockDesc.
  change (k_block_descs (glob s) + i * 24) with (dsc s0 i).
  destruct (ho_flist _ _ Hh0 i Hi) as [F HF]. apply wp_bind.
  eapply wp_mono; [eapply list_empty_ok; [apply (ho_lists _ _ Hh0)|exact HF]|]. intros e s1 [-> ->].
  apply wp_bind. destruct F as [|b F].
  - rewrite bool_decide_true by done. eapply wp_mono; [by apply (new_arena_ok H s0 i)|].
    intros [] s1 (Hf1 & Hk1 & Hr); cbn [negb]; [by apply (take_call i)|by apply malloc_null].
  - rewrite bool_decide_false by done. kstep. cbn [negb]. apply (take_call i); try done.
    exists H, b, F. by split_and!.
Qed.

Lemma grant_large : 1024 < sz → sz + 12 ≤ 3839 * 4096 → ∃ n,
  DIV_ROUND_UP (u32 (sz + sizeof_Arena)) PG_SIZE = n ∧ 0 < n < 3840 ∧ n * 4096 = grant sz + 12 ∧ sz ≤ grant sz.
Proof.
  intros H1 H2. unfold grant, sizeof_Arena, PG_SIZE. destruct (Z.ltb_spec 1024 sz); [|lia].
  rewrite (u32_id (sz + 12)) by lia. rewrite DIV_ROUND_UP_spec by lia. eexists. split; [reflexivity|].
  Z.div_mod_to_equations. lia.
Qed.

(** A large arena adds one live block. *)
Lemma heap_large_live s1 a n : heap_ok H s1 → new_pages H s1 a n → 0 < n →
  (∀ m, ¬ live H s1 (a + 12) m)
  ∧ ∀ b m, live (mkH (hL H) (hA H) (<[a := n]> (hB H))) s1 b m ↔ live H s1 b m ∨ b = a + 12 ∧ m = n * 4096 - 12.
Proof.
  intros Hh1 (Ha0 & Hv & Hnew) Hn.
  destruct (in_kva_facts _ _ _ (ho_mem _ _ Hh1) Hv ltac:(lia)) as (Hal & Hlo & Hhi).
  destruct (Hnew 0 ltac:(lia)) as (_ & _ & N3 & N4). replace (a + 0 * 4096) with a in * by lia.
  assert (hB H !! a = None) as HBa.
  { destruct (hB H !! a) as [k|] eqn:E; [|done]. destruct (ho_large _ _ Hh1 _ _ E) as (? & _).
    destruct (N4 _ _ E). lia. }
  split.
  - intros m [(i & F & [HA _] & _)|(c & Hc & _)].
    + replace (pg (a + 12)) with a in HA; [congruence|]. unfold pg. Z.div_mod_to_equations. lia.
    + replace (a + 12 - 12) with a in Hc by lia. congruence.
  - intros b m. unfold live. simpl. split.
    + intros [?|(c & Hc & ->)]; [by left; left|]. rewrite lookup_insert_Some in Hc.
      destruct Hc as [[E <-]|[_ Hc]]; [right; lia|left; right; by exists c].
    + intros [[?|(c & Hc & ->)]|[-> ->]]; [by left|right; exists c; split; [|done]|right; exists n; split; [|done]].
      * rewrite lookup_insert_ne; [done|]. intros E. rewrite <- E in Hc. congruence.
      * replace (a + 12 - 12) with a by lia. apply lookup_insert_eq.
Qed.

Lemma malloc_large_ok : 1024 < sz → sz + 12 ≤ 3839 * 4096 →
  wp (malloc_large PF_KERNEL l sz) s0 (λ r s', ∃ H', kheap H' s' ∧ alloc_result H H' s s' sz r).
Proof.
  intros Hsz Hmax. destruct (kheap_held H s Hk) as (Hh0 & Hk0 & _ & Hw0). fold l s0 in Hh0, Hk0.
  unfold malloc_large. destruct (grant_large Hsz Hmax) as (n & -> & Hn & Hn' & Hgs).
  apply wp_bind. eapply wp_mono; [by apply (heap_new_pages H s0 n Hh0)|].
  intros a s1 (Hh1 & Hs1 & Hd1 & Hf1 & Hcase). destruct (hframe_fields _ _ Hf1) as (Eg & _).
  assert (∀ va, kept s0 s1 va) as Hk1.
  { intros va pa Hpa. split; [by apply (hs_maps _ _ Hs1)|by eapply Hd1]. }
  destruct (Z.eqb_spec a NULL) as [->|Hne]; cbn [negb]; [by apply malloc_null|].
  destruct Hcase as [?|[Hnew Hun]]; [done|]. destruct (Hnew) as (_ & Hv & Hp).
  destruct (in_kva_facts _ _ _ (ho_mem _ _ Hh1) Hv ltac:(lia)) as (Hal & Hlo & Hhi).
  unfold PG_SIZE, sizeof_Arena. rewrite !u32_id by lia.
  replace (Z.to_nat (n * 4096 / 4)) with (Z.to_nat n * 1024)%nat by (Z.div_mod_to_equations; lia).
  apply wp_bind. eapply wp_mono.
  { apply (clear_kpages_ok (Z.to_nat n) s1 a (ho_mem _ _ Hh1) Hal). intros k Hkn. apply Hp. lia. }
  rewrite Z2Nat.id by lia. intros u s2 (m2 & -> & Hm2 & Hmap & Hk2 & Hz). set (s2 := set_phys m2 s1) in *.
  assert (heap_ok H s2) as Hh2.
  { apply (heap_same_ok H s1); [done| |done]. by split; try done; apply Hmap. }
  assert (new_pages H s2 a n) as Hnew2.
  { split_and!; [done|done|]. intros k Hkn. destruct (Hp k Hkn) as (P1 & P2). split; [|done]. by apply kpages_phys. }
  pose proof (kept_fresh s0 s1 s2 a n (ho_mem _ _ Hh0) Hal Hun Hk1 Hk2) as Hkept.
  pose proof (heap_add_large H s2 a n Hh2 Hnew2 ltac:(lia)) as Hh3.
  destruct (heap_large_live s2 a n Hh2 Hnew2 ltac:(lia)) as [Hno Hlive].
  apply wp_bind, wp_modify. set (s3 := set_arenas _ s2) in *. set (H' := mkH _ _ _) in *.
  destruct (kheap_back H s Hk H' s3) as (Hrel & Hkh & Eg'); [|done|exact Hw0|].
  { eapply hframe_trans; [exact Hf1|]. by split_and!. }
  apply wp_bind. eapply wp_eq; [exact Hrel|]. kstep. exists H'. split; [done|]. split; [|right].
  - intros x m y Hx Hy. apply (live_kept H s _ x m y (kh_ok _ _ Hk) Hx Hy).
    eapply kept_trans; [apply Hk0|]. intros pa. apply (Hkept (x + y)).
  - assert (∀ b m, live H s b m ↔ live H s2 b m) as Eh by (intros; symmetry; by apply live_glob).
    split_and!; [unfold NULL; lia|intros m Hm%Eh; by apply (Hno m)| |].
    + intros b m. rewrite (live_glob H' s2) by done. rewrite Hlive, Eh. replace (n * 4096 - 12) with (grant sz) by lia. done.
    + intros x Hx Hx4. specialize (Hz (12 + x) ltac:(lia) ltac:(Z.div_mod_to_equations; lia)).
      replace (a + (12 + x)) with (a + 12 + x) in Hz by lia. exact Hz.
Qed.

Lemma sys_malloc_ok : 0 ≤ sz → sz + 12 ≤ 3839 * 4096 →
  wp (sys_malloc sz) s (λ r s', ∃ H', kheap H' s' ∧ alloc_result H H' s s' sz r).
Proof.
  intros H0 Hmax. destruct (decide (0 < sz ∧ sz < Machine.size (kernel_pool s))) as [[Hs1 Hs2]|Hno].
  - apply sys_malloc_enter; [done|done|]. destruct (Z.ltb_spec 1024 sz); [by apply malloc_large_ok|by apply malloc_small_ok].
  - destruct (kh_thread _ _ Hk) as (t & Ht & Hpd).
    unfold sys_malloc. apply wp_bind. apply wp_gets. apply wp_bind. eapply wp_eq; [by apply ld_task_eq|].
    rewrite Hpd. cbn [Z.eqb NULL]. apply wp_bind, wp_gets. apply wp_bind, wp_gets. cbn [pool_of].
    replace ((0 <? sz) && (sz <? Machine.size (kernel_pool s))) with false by zbool. cbn [negb]. kstep.
    exists H. split; [done|]. split; [|by left].
    intros x m y Hx Hy. apply (live_kept H s _ x m y (kh_ok _ _ Hk) Hx Hy). by apply same_kept.
Qed.
End malloc.

(** ** sys_free *)
Lemma heap_mfree s a n : mem_ok s → 0x102000 ≤ phy_addr_start (kernel_pool s) → in_kva s a n → 1 ≤ n →
  (∀ k, 0 ≤ k < n → kpage s (a + k * 4096)) →
  wp (mfree_page PF_KERNEL a n) s (λ _ s', heap_unmap s s' (λ p, a ≤ p < a + n * 4096) ∧ hframe s s'
    ∧ links s' = links s ∧ ∀ va, ¬ (a ≤ va < a + n * 4096) → kept s s' va).
Proof.
  intros Hm Hlow Hkv Hn Hp. destruct (in_kva_facts _ _ _ Hm Hkv ltac:(lia)) as (Hal & _).
  destruct Hkv as (i & -> & Hi & Hin).
  eapply wp_mono; [by apply (mfree_page_kernel_ok s i n Hm Hi Hn Hin Hlow)|].
  intros u s' (s1 & m' & [A1 A2 A3 (m1 & k1 & u1 & -> & A5 & A6) A7] & -> & Hb & Hm').
  set (a := vaddr_start (kernel_vaddr s) + i * 4096) in *. set (s1 := set_phys _ _) in *.
  split_and!; [|split_and!; [by destruct s|done|by eapply set_bits_kva]|done|].
  - split; try done; [by eapply set_bits_kva|]. intros va pa Hpa Hout. apply A2. split; [done|].
    intros Hr. apply Hout. unfold pg. Z.div_mod_to_equations. lia.
  - intros va Hout pa Hpa. assert (maps s1 va pa) as Hpa1 by (by apply A2). split; [done|]. by apply (A7 va pa).
Qed.

(** What freeing the block [b] does. *)
Record freed (H H' : gheap) (s s' : kstate) (b : Z) : Prop := {
  fr_ok : heap_ok H' s';
  fr_frame : hframe s s';
  fr_lists q : (∀ i, is_class i → q ≠ fl s i) → hL H' !! q = hL H !! q;
  fr_live x m : live H' s x m ↔ live H s x m ∧ x ≠ b;
  fr_kept x m y : live H s x m → x ≠ b → 0 ≤ y < m → kept s s' (x + y);
}.

Lemma free_large_ok H s b c : heap_ok H s → hB H !! (b - 12) = Some c →
  wp (free_locked PF_KERNEL b) s (λ _ s', ∃ H', freed H H' s s' b).
Proof.
  intros Hh Hc. destruct (ho_large _ _ Hh _ _ Hc) as (Hc0 & Hv & Har & Hp & Hsep).
  destruct (in_kva_facts _ _ _ (ho_mem _ _ Hh) Hv ltac:(lia)) as (Hal & Hlo & Hhi).
  unfold free_locked. rewrite block2arena_ok by lia.
  replace (pg b) with (b - 12) by (unfold pg; Z.div_mod_to_equations; lia).
  apply wp_bind. eapply wp_eq; [by apply ld_arena_eq|]. cbn [desc large cnt NULL Z.eqb andb].
  eapply wp_mono.
  { apply heap_mfree; [apply Hh|apply Hh|done|lia|]. intros k Hk. by apply Hp. }
  intros u s' (Hu & Hf & El & Hk). eexists. split.
  - by apply (heap_drop_large H s s' (b - 12) c).
  - done.
  - done.
  - intros x m. unfold live. simpl. split.
    + intros [(i & F & Hx & HF & -> & HxF)|(k & [Hne Hk']%lookup_delete_Some & ->)].
      * split; [left; by exists i, F|]. intros ->.
        destruct (small_large_disjoint H s i b b c Hh Hx Hc); destruct (block_pg H s i b Hh Hx) as (Hi & _);
          destruct (cls_facts i Hi) as (? & _); lia.
      * split; [right; by exists k|lia].
    + intros [[?|(k & Hk' & ->)] Hne]; [by left|right]. exists k. split; [|done]. rewrite lookup_delete_ne; [done|lia].
  - intros x m y Hx Hne Hy. apply Hk.
    assert (x + m ≤ b ∨ b + (c * 4096 - 12) ≤ x) as Hd.
    { apply (live_disjoint H s x m b (c * 4096 - 12) Hh Hx); [right; by exists c|done]. }
    destruct Hx as [(i & F & Hx & _ & -> & _)|(k & Hk' & ->)].
    + destruct (ho_arena _ _ Hh _ _ (proj1 Hx)) as (_ & _ & _ & Hnl & _). specialize (Hnl _ _ Hc).
      destruct (block_pg H s i x Hh Hx) as (_ & Hxal & _ & _ & ? & ? & _). Z.div_mod_to_equations. lia.
    + destruct (Hsep _ _ Hk' ltac:(lia)); lia.
Qed.

(** The state after the block is back on its list. *)
Lemma give_live H s i b F : heap_ok H s → is_block H i b → hL H !! fl s i = Some F → b ∉ F →
  ∀ x m, live (mkH (<[fl s i := F ++ [b]]> (hL H)) (hA H) (hB H)) s x m ↔ live H s x m ∧ x ≠ b.
Proof.
  intros Hh Hb HF HbF x m. unfold live. simpl. split.
  - intros [(j & G & Hx & HG & -> & HxG)|(k & Hk & ->)].
    + rewrite lookup_insert_Some in HG. destruct HG as [[->%fl_inj <-]|[Hne HG]].
      * split; [left; exists j, F; split_and!; try done; set_solver|set_solver].
      * split; [left; by exists j, G|]. intros ->. destruct Hx as [HA _], Hb as [HA' _]. simpl in HA. rewrite HA in HA'. by simplify_eq.
    + split; [right; by exists k|]. intros ->.
      destruct (small_large_disjoint H s i b b k Hh Hb Hk); destruct (block_pg H s i b Hh Hb) as (Hi & _);
        destruct (cls_facts i Hi) as (? & _); destruct (ho_large _ _ Hh _ _ Hk) as (? & _); lia.
  - intros [[(j & G & Hx & HG & -> & HxG)|?] Hne]; [left|by right]. destruct (decide (j = i)) as [->|Hji].
    + rewrite HF in HG. simplify_eq. eexists _, _. rewrite lookup_insert_eq. split_and!; [done|done|done|set_solver].
    + exists j, G. rewrite lookup_insert_ne; [done|]. by intros E%fl_inj.
Qed.

(** The arena of [b] is complete: it leaves the heap, its blocks their list. *)
Lemma drop_live H s a i F : heap_ok H s → hA H !! a = Some i → hL H !! fl s i = Some F →
  (∀ k, 0 ≤ k < bpa i → block a i k ∈ F) →
  ∀ x m, live (mkH (<[fl s i := base.filter (λ x, pg x ≠ a) F]> (hL H)) (delete a (hA H)) (hB H)) s x m ↔ live H s x m.
Proof.
  intros Hh HA HF Hall x m. unfold live. simpl. split.
  - intros [(j & G & [HAx Hx] & HG & -> & HxG)|?]; [left|by right]. simpl in HAx. apply lookup_delete_Some in HAx as [Hne HAx].
    rewrite lookup_insert_Some in HG. destruct HG as [[->%fl_inj <-]|[_ HG]].
    + exists j, F. split_and!; try done. intros HxF. apply HxG, list_elem_of_filter. split; [by apply not_eq_sym|done].
    + exists j, G. done.
  - intros [(j & G & [HAx Hx] & HG & -> & HxG)|?]; [left|by right].
    assert (pg x ≠ a) as Hne.
    { intros Ea. rewrite Ea, HA in HAx. simplify_eq. destruct Hx as (k & Hk & E).
      apply HxG. rewrite E. by apply Hall. }
    exists j. destruct (decide (j = i)) as [->|Hji].
    + simplify_eq. eexists. rewrite lookup_insert_eq. split_and!; [split; [simpl; by rewrite lookup_delete_ne|done]|done|done|].
      intros [_ ?]%list_elem_of_filter. done.
    + exists G. split_and!; [split; [simpl; by rewrite lookup_delete_ne|done]| |done|done].
      rewrite lookup_insert_ne; [done|]. by intros E%fl_inj.
Qed.

(** A complete arena holds no byte of a live block. *)
Lemma full_no_live H s a i F : heap_ok H s → hA H !! a = Some i → hL H !! fl s i = Some F →
  (∀ k, 0 ≤ k < bpa i → block a i k ∈ F) → ∀ x m y, live H s x m → 0 ≤ y < m → pg (x + y) ≠ a.
Proof.
  intros Hh HA HF Hall x m y [(j & G & Hx & HG & -> & HxG)|(c & Hc & ->)] Hy Ea.
  - destruct (block_pg H s j x Hh Hx) as (Hj & Hal & _ & _ & ? & ? & _).
    assert (pg x = a) as E by (rewrite <- Ea; unfold pg in *; Z.div_mod_to_equations; lia).
    destruct Hx as [HAx (k & Hk & Ex)]. rewrite E, HA in HAx. simplify_eq. apply HxG. rewrite Ex, E. by apply Hall.
  - destruct (ho_arena _ _ Hh _ _ HA) as (_ & _ & _ & Hnl & _). specialize (Hnl _ _ Hc).
    destruct (ho_large _ _ Hh _ _ Hc) as (? & Hv & _).
    destruct (in_kva_facts _ _ _ (ho_mem _ _ Hh) Hv ltac:(lia)) as (Hal & _).
    rewrite <- Ea in Hnl. unfold pg in Hnl. Z.div_mod_to_equations. lia.
Qed.

Section free_small.
Context (H : gheap) (s : kstate) (i b : Z) (F : list Z).
Hypothesis (Hh : heap_ok H s) (Hb : is_block H i b) (HF : hL H !! fl s i = Some F) (HbF : b ∉ F).

(** The arena is dissolved and its page given back. *)
Lemma release_arena_ok H1 s1 c F1 : heap_ok H1 s1 → hframe s s1 → hA H1 = hA H → hL H1 !! fl s i = Some F1 →
  arenas s1 !! pg b = Some (mkArena (dsc s i) c false) → (∀ k, 0 ≤ k < bpa i → block (pg b) i k ∈ F1) →
  wp (join_arena (Z.to_nat (bpa i)) (pg b) 0 ;; mfree_page PF_KERNEL (pg b) 1) s1 (λ _ s', hframe s1 s'
    ∧ heap_ok (mkH (<[fl s i := base.filter (λ x, pg x ≠ pg b) F1]> (hL H1)) (delete (pg b) (hA H1)) (hB H1)) s'
    ∧ ∀ va, pg va ≠ pg b → kept s1 s' va).
Proof.
  intros Hh1 Hf1 EA HF1 Har Hall. destruct (hframe_fields _ _ Hf1) as (Eg & _). destruct (same_glob s s1 Eg) as [Ed Ef].
  destruct (block_pg H s i b Hh Hb) as (Hi & Hal & Hlo & Hhi & _). destruct (cls_facts i Hi) as (_ & _ & Hbpa & _).
  destruct Hb as [HA _]. rewrite <- EA in HA. destruct (ho_arena _ _ Hh1 _ _ HA) as (_ & Hv & Hp & _).
  rewrite <- Ef in HF1. apply wp_bind. eapply wp_mono.
  { apply (join_arena_ok (Z.to_nat (bpa i)) s1 (hL H1) F1 (pg b) i c false 0 (ho_lists _ _ Hh1) HF1);
      [by rewrite Ed|by apply (ho_descs _ _ Hh1)|done|lia|lia|lia|lia|]. intros j Hj. apply Hall. lia. }
  intros u s2 (h2 & -> & Hl2). rewrite Z2Nat.id in Hl2 by lia.
  rewrite (filter_ext_in _ (λ x, pg x ≠ pg b)) in Hl2.
  2:{ intros x Hx. rewrite elem_of_blocks. destruct (ho_blocks _ _ Hh1 i F1 x Hi HF1 Hx) as [_ (k & Hk & E)].
      split; [|intros Hne (j & Hj & ->); apply Hne, (block_in_page (pg b) i j Hi Hal); lia].
      intros Hno Ep. apply Hno. exists k. split; [lia|]. by rewrite <- Ep. }
  set (s2 := set_links h2 s1).
  assert (mem_ok s2) as Hm2.
  { pose proof (mem_ok_heap s1 h2 (arenas s1) (ho_mem _ _ Hh1)) as Hm. by destruct s1. }
  eapply wp_mono.
  { apply (heap_mfree s2 (pg b) 1 Hm2); [apply (ho_low _ _ Hh1)|done|lia|].
    intros k Hk. replace (pg b + k * 4096) with (pg b) by lia. exact Hp. }
  intros u' s3 ([U1 U2 U3 U4 U5 U6 U7 U8] & Hf3 & El & Hk3). split_and!.
  - eapply hframe_trans; [|exact Hf3]. destruct s1. by split_and!.
  - rewrite <- Ef. apply (heap_drop H1 s1 s3 (pg b) i F1 Hh1 HA HF1); [by rewrite El|].
    split; try done. intros va pa Hpa Hne. apply U8; [done|]. pose proof (pg_aligned va). Z.div_mod_to_equations. lia.
  - intros va Hne pa. apply (Hk3 va). unfold pg in *. Z.div_mod_to_equations. lia.
Qed.

Lemma free_small_ok : wp (free_locked PF_KERNEL b) s (λ _ s', ∃ H', freed H H' s s' b).
Proof.
  destruct (block_pg H s i b Hh Hb) as (Hi & Hal & Hlo & Hhi & Hb1 & Hb2 & _).
  destruct (cls_facts i Hi) as (Hcl & _ & Hbpa & _).
  destruct (ho_arena _ _ Hh _ _ (proj1 Hb)) as (_ & _ & _ & _ & F0 & HF0 & Har).
  unfold free_locked. rewrite block2arena_ok by lia. apply wp_bind. eapply wp_eq; [by apply ld_arena_eq|].
  cbn [desc large cnt]. rewrite andb_false_r. fold (fl s i). apply wp_bind.
  eapply wp_mono; [eapply list_append_ok; [apply Hh|exact HF|exact (block_fresh H s i b F Hh Hb HF HbF)]|].
  intros u s1 (h1 & -> & Hl1). destruct (heap_give H s i b F h1 Hh Hb HF HbF Hl1) as (c & Har' & Hc & Hh1 & Hall).
  rewrite Har in Har'. injection Har' as Ec. rewrite Ec in *. clear Ec Har.
  rewrite u32_id by lia. apply wp_bind, wp_modify. apply wp_bind.
  set (H1 := mkH _ _ _) in *. set (s1 := set_links h1 (set_arenas _ s)) in *.
  eapply wp_eq; [apply ld_desc_eq, (ho_descs _ _ Hh i Hi)|]. cbn [blocks_per_arena].
  match goal with |- wp _ ?x _ => change x with s1 end.
  assert (hframe s s1) as Hf1 by (destruct s; by split_and!).
  assert (∀ va, kept s s1 va) as Hk1 by (intros; by apply same_kept).
  pose proof (give_live H s i b F Hh Hb HF HbF) as Hlive. fold H1 in Hlive.
  destruct (Z.eqb_spec (c + 1) (bpa i)) as [Efull|Hnf].
  - eapply wp_mono.
    { apply (release_arena_ok H1 s1 (c + 1) (F ++ [b]) Hh1 Hf1 eq_refl); [apply lookup_insert_eq|apply lookup_insert_eq|by apply Hall]. }
    intros u' s2 (Hf2 & Hh2 & Hk2). eexists. split; [exact Hh2|by eapply hframe_trans| | |].
    + intros q Hq. simpl. by rewrite !lookup_insert_ne by (by apply not_eq_sym, Hq).
    + intros x m. rewrite <- Hlive.
      apply (drop_live H1 s1 (pg b) i (F ++ [b]) Hh1 (proj1 Hb)); [apply lookup_insert_eq|by apply Hall].
    + intros x m y Hx Hne Hy. eapply kept_trans; [apply Hk1|]. apply Hk2. intros Ep.
      assert (live H1 s1 x m) as Hx1 by (apply Hlive; by split).
      apply (full_no_live H1 s1 (pg b) i (F ++ [b]) Hh1 (proj1 Hb) ltac:(apply lookup_insert_eq) (Hall Efull) x m y Hx1 Hy Ep).
  - kstep. exists H1. split; [done|done| |done|by intros].
    intros q Hq. simpl. by rewrite lookup_insert_ne by (by apply not_eq_sym, Hq).
Qed.
End free_small.

Lemma sys_free_ok H s b n : kheap H s → live H s b n →
  wp (sys_free b) s (λ _ s', ∃ H', kheap H' s' ∧ (∀ x m, live H' s' x m ↔ live H s x m ∧ x ≠ b)
    ∧ ∀ x m y, live H s x m → x ≠ b → 0 ≤ y < m →
        ∃ pa, maps s (x + y) pa ∧ maps s' (x + y) pa ∧ word (phys s') pa = word (phys s) pa).
Proof.
  intros Hk Hl. destruct (kh_thread _ _ Hk) as (t & Ht & Hpd). destruct (kheap_held H s Hk) as (Hh0 & Hk0 & _ & Hw0).
  set (l := lock (kernel_pool s)) in *. set (s0 := held s l (cur s) 1) in *.
  assert (K_HEAP_START ≤ b) as Hstart.
  { pose proof (kh_start _ _ Hk) as Hs. destruct Hl as [(i & F & Hb & _)|(c & Hc & _)].
    - destruct (block_pg H s i b (kh_ok _ _ Hk) Hb) as (_ & _ & _ & _ & ? & _).
      destruct (ho_arena _ _ (kh_ok _ _ Hk) _ _ (proj1 Hb)) as (_ & (j & Ej & ? & _) & _). lia.
    - destruct (ho_large _ _ (kh_ok _ _ Hk) _ _ Hc) as (_ & (j & Ej & ? & _) & _). lia. }
  unfold sys_free. apply wp_bind, wp_kassert; [unfold NULL, K_HEAP_START in *; zbool|].
  apply wp_bind, wp_gets. apply wp_bind. eapply wp_eq; [by apply ld_task_eq|]. rewrite Hpd. cbn [Z.eqb NULL].
  apply wp_bind, wp_kassert; [unfold K_HEAP_START in *; zbool|]. apply wp_bind, wp_gets.
  change (pool_lock PF_KERNEL s) with l. apply wp_bind.
  eapply wp_eq; [by apply (lock_acquire_free s (hL H) l (kh_lock _ _ Hk) (kh_cur _ _ Hk))|]. fold s0.
  assert (live H s0 b n) as Hl0 by by apply (live_glob H s s0).
  apply wp_bind. eapply (wp_mono _ _ (λ _ s1, ∃ H', freed H H' s0 s1 b)).
  { destruct Hl0 as [(i & F & Hb & HF & _ & HbF)|(c & Hc & _)]; [by apply (free_small_ok H s0 i b F)|by eapply free_large_ok]. }
  intros u s1 (H' & [F1 F2 F3 F4 F5]). destruct (hframe_fields _ _ F2) as (Eg & _).
  destruct (kheap_back H s Hk H' s1 F2 F1) as (Hrel & Hkh & Eg').
  { rewrite F3; [done|]. apply (kh_wait _ _ Hk). }
  eapply wp_eq; [exact Hrel|]. exists H'. split_and!; [done| |].
  - intros x m. rewrite (live_glob H' s0) by done. rewrite F4. by rewrite (live_glob H s s0).
  - intros x m y Hx Hne Hy. apply (live_kept H s _ x m y (kh_ok _ _ Hk) Hx Hy). eapply kept_trans; [apply Hk0|].
    intros pa. apply (F5 x m y); [by apply (live_glob H s s0)|done|done].
Qed.

(** C8: [sys_malloc] of a kernel thread.  From a consistent heap with the pool
    lock free, every request up to 3839 pages returns without a failed
    assertion, fault or block, and leaves the heap consistent and the lock
    free.  Either NULL comes back and the live blocks are the same, or a new
    block: it was not live, it is as large as the smallest fitting block size
    (whole pages less the header above 1024 bytes), it is zeroed, and it is the
    only change of the live blocks.  Every byte of the blocks that were live
    keeps its frame and its contents. *)
Theorem sys_malloc_correct H s sz : kheap H s → 0 ≤ sz → sz + 12 ≤ 3839 * 4096 →
  ∃ r s' H', sys_malloc sz s = Ok (r, s') ∧ kheap H' s' ∧ alloc_result H H' s s' sz r.
Proof. intros Hk H0 Hm. destruct (wp_inv _ _ _ (sys_malloc_ok H s Hk sz H0 Hm)) as (r & s' & Hrun & H' & ?). eauto. Qed.

(** C9: [sys_free] of a kernel thread.  Freeing a live block, small or large,
    passes all assertions, removes exactly that block from the live ones, gives
    the page of an arena back once all its blocks are free, and keeps frame and
    contents of every byte of the other live blocks. *)
Theorem sys_free_correct H s b n : kheap H s → live H s b n →
  ∃ s' H', sys_free b s = Ok ((), s') ∧ kheap H' s' ∧ (∀ x m, live H' s' x m ↔ live H s x m ∧ x ≠ b)
    ∧ ∀ x m y, live H s x m → x ≠ b → 0 ≤ y < m →
        ∃ pa, maps s (x + y) pa ∧ maps s' (x + y) pa ∧ word (phys s') pa = word (phys s) pa.
Proof. intros Hk Hl. destruct (wp_inv _ _ _ (sys_free_ok H s b n Hk Hl)) as ([] & s' & Hrun & H' & ?). eauto. Qed.

(** Beyond 3839 pages.  A request below the size of the pool passes the test of
    [sys_malloc], and then the assertion of [malloc_page] on the number of pages
    fails, with the lock of the pool held. *)
Theorem sys_malloc_too_large_panics H s sz : kheap H s → 3839 * 4096 < sz + 12 → sz + 12 < 2 ^ 32 - 4096 →
  sz < Machine.size (kernel_pool s) → sys_malloc sz s = Panic.
Proof.
  intros Hk Hlo Hhi Hsz. destruct (kh_thread _ _ Hk) as (t & Ht & Hpd).
  unfold sys_malloc, mbind, K_bind, running_thread, gets. fold (cur s). rewrite (ld_task_eq _ _ _ Ht), Hpd. cbn [Z.eqb NULL pool_of].
  destruct (Z.ltb_spec 0 sz), (Z.ltb_spec sz (Machine.size (kernel_pool s))); try lia. cbn [andb negb]. change (pool_lock PF_KERNEL s) with (lock (kernel_pool s)).
  rewrite (lock_acquire_free s _ _ (kh_lock _ _ Hk) (kh_cur _ _ Hk)). destruct (Z.ltb_spec 1024 sz); [|lia].
  unfold malloc_large, malloc_page, mbind, K_bind, kassert, lift, ASSERT, DIV_ROUND_UP, PG_SIZE, sizeof_Arena.
  rewrite (u32_id (sz + 12)), (u32_id (sz + 12 + 4096)), (u32_id (sz + 12 + 4096 - 1)) by lia.
  destruct (Z.ltb_spec ((sz + 12 + 4096 - 1) / 4096) 3840) as [Hx|_]; [exfalso; clear -Hlo Hx; Z.div_mod_to_equations; lia|]. by rewrite andb_false_r.
Qed.

(** ** Any client *)
Inductive heap_op := Malloc (size : Z) | Free (k : nat).

(** A client that keeps the pointers it got, with the sizes it asked for, and
    frees the one at position [k]. *)
Fixpoint run_heap (ops : list heap_op) (ptrs : list (Z * Z)) : K (list (Z * Z)) :=
  match ops with
  | [] => mret ptrs
  | Malloc size :: ops => r ← sys_malloc size; run_heap ops (if r =? NULL then ptrs else (r, size) :: ptrs)
  | Free k :: ops =>
      match ptrs !! k with
      | Some (p, _) => sys_free p ;; run_heap ops (delete k ptrs)
      | None => run_heap ops ptrs
      end
  end.

(** The live blocks are those of the client. *)
Definition owns_heap (H : gheap) (s : kstate) (ptrs : list (Z * Z)) : Prop :=
  NoDup ptrs.*1 ∧ (∀ x n, (x, n) ∈ ptrs → n ≤ grant n) ∧ ∀ x m, live H s x m ↔ ∃ n, (x, n) ∈ ptrs ∧ m = grant n.

Lemma grant_ge n : n + 12 ≤ 3839 * 4096 → n ≤ grant n.
Proof.
  intros Hn. unfold grant. destruct (Z.ltb_spec 1024 n).
  - rewrite DIV_ROUND_UP_spec by lia. Z.div_mod_to_equations. lia.
  - cbn [List.find]. zbool.
Qed.

Lemma owns_delete H s ptrs k p n : owns_heap H s ptrs → ptrs !! k = Some (p, n) →
  live H s p (grant n) ∧ ∀ H' s', (∀ x m, live H' s' x m ↔ live H s x m ∧ x ≠ p) → owns_heap H' s' (delete k ptrs).
Proof.
  intros (Hnd & Hge & Hl) Hk. split; [apply Hl; exists n; split; [by eapply list_elem_of_lookup_2|done]|].
  intros H' s' Hl'. apply take_drop_middle in Hk as Ek.
  assert (ptrs.*1 = (take k ptrs).*1 ++ p :: (drop (S k) ptrs).*1) as E1 by (rewrite <- Ek at 1; by rewrite fmap_app).
  rewrite E1 in Hnd. rewrite delete_take_drop. apply NoDup_app in Hnd as (N1 & N2 & [N3 N4]%NoDup_cons). split_and!.
  - rewrite fmap_app. apply NoDup_app. split_and!; [done|set_solver|done].
  - intros x m Hx. apply (Hge x). rewrite <- Ek. set_solver.
  - intros x m. rewrite Hl', Hl. split.
    + intros [(n' & Hx & ->) Hne]. exists n'. split; [|done]. rewrite <- Ek in Hx. set_solver.
    + intros (n' & Hx & ->). split; [exists n'; split; [rewrite <- Ek; set_solver|done]|]. intros ->.
      assert (p ∈ (take k ptrs ++ drop (S k) ptrs).*1) as Hp by (apply list_elem_of_fmap; exists (p, n'); done).
      rewrite fmap_app in Hp. set_solver.
Qed.

Lemma run_heap_ok ops : ∀ H s ptrs, kheap H s → owns_heap H s ptrs →
  Forall (λ op, match op with Malloc n => 0 ≤ n ∧ n + 12 ≤ 3839 * 4096 | Free _ => True end) ops →
  wp (run_heap ops ptrs) s (λ ptrs' s', ∃ H', kheap H' s' ∧ owns_heap H' s' ptrs').
Proof.
  induction ops as [|[n|k] ops IH]; intros H s ptrs Hk Ho Hops.
  - cbn [run_heap]. kstep. by exists H.
  - apply Forall_cons in Hops as [[Hn1 Hn2] Hops]. cbn [run_heap]. apply wp_bind.
    eapply wp_mono; [by apply (sys_malloc_ok H s Hk n)|]. intros r s' (H' & Hk' & _ & Hres).
    apply (IH H'); [done| |done]. destruct Ho as (Hnd & Hge & Hl). destruct Hres as [[-> Hl']|(Hr & Hno & Hl' & _)].
    + rewrite Z.eqb_refl. split_and!; [done|done|]. intros x m. by rewrite Hl'.
    + destruct (Z.eqb_spec r NULL); [done|]. split_and!.
      * cbn. apply NoDup_cons. split; [|done]. intros ((x & n') & -> & Hx)%list_elem_of_fmap.
        apply (Hno (grant n')). apply Hl. by exists n'.
      * intros x m [[=]|?]%elem_of_cons; [subst; by apply grant_ge|by eapply Hge].
      * intros x m. rewrite Hl', Hl. setoid_rewrite elem_of_cons. split.
        -- intros [(n' & Hx & ->)|[-> ->]]; [exists n'; tauto|exists n; tauto].
        -- intros (n' & [[=]|Hx] & ->); [subst; tauto|left; by exists n'].
  - apply Forall_cons in Hops as [_ Hops]. cbn [run_heap]. destruct (ptrs !! k) as [[p n]|] eqn:Ek; [|by apply (IH H)].
    destruct (owns_delete H s ptrs k p n Ho Ek) as [Hlp Hdel]. apply wp_bind.
    eapply wp_mono; [by eapply sys_free_ok|]. intros u s' (H' & Hk' & Hl' & _). apply (IH H'); [done|by apply Hdel|done].
Qed.

(** C1: The kernel heap refines a set of disjoint blocks.  Any sequence of
    [sys_malloc] and [sys_free] calls by a kernel thread that asks for at most
    3839 pages at a time, the block's header included, and frees only what it
    was given runs to the end without a failed assertion, fault or block.  (A
    larger request that the pool could hold fails an assertion:
    [sys_malloc_too_large_panics].)
    Afterwards the live blocks are exactly the pointers the client holds, each
    with at least the bytes it asked for, and no two of them overlap. *)
Theorem heap_refines_set ops H s :
  kheap H s → (∀ x m, ¬ live H s x m) →
  Forall (λ op, match op with Malloc n => 0 ≤ n ∧ n + 12 ≤ 3839 * 4096 | Free _ => True end) ops →
  ∃ ptrs s' H', run_heap ops [] s = Ok (ptrs, s') ∧ kheap H' s' ∧ owns_heap H' s' ptrs
    ∧ ∀ i j p n q m, ptrs !! i = Some (p, n) → ptrs !! j = Some (q, m) → i ≠ j →
        p + grant n ≤ q ∨ q + grant m ≤ p.
Proof.
  intros Hk Hno Hops. assert (owns_heap H s []) as Ho.
  { split_and!; [constructor|by intros ? ? ?%not_elem_of_nil|]. intros x m. split; [by intros ?%Hno|]. intros (n & Hn & _). by apply not_elem_of_nil in Hn. }
  destruct (wp_inv _ _ _ (run_heap_ok ops H s [] Hk Ho Hops)) as (ptrs & s' & Hrun & H' & Hk' & (Hnd & Hge & Hl)).
  exists ptrs, s', H'. split_and!; try done. intros i j p n q m Hi Hj Hij.
  apply (live_disjoint H' s'); [apply Hk'|apply Hl; exists n|apply Hl; exists m|].
  - split; [by eapply list_elem_of_lookup_2|done].
  - split; [by eapply list_elem_of_lookup_2|done].
  - intros ->. apply Hij. eapply (NoDup_lookup ptrs.*1); [done| |]; rewrite list_lookup_fmap, ?Hi, ?Hj; done.
Qed.
