(* ===== verification/HeapBoot.v ===== *)
(** * mem_init: the kernel heap at boot

    [mem_init] of kernel/losmemory.c, from the page tables of the loader to an
    empty heap with free locks, and the witnesses of the heap theorems on it. *)
From S2P Require Import Prelude CString Bitmap Machine DList Mmu PageMem BootMem Sched Sync Heap HeapSpec.
#[local] Opaque boot_phys.

Definition mem_init (ram : Z → Z) : K unit :=
  mem_init_pools ram ;;
  kl ← gets (pool_lock PF_KERNEL); lock_init kl ;;
  ul ← gets (pool_lock PF_USER); lock_init ul ;;
  kd ← gets (λ s, k_block_descs (glob s)); block_desc_init kd.

(** Both ends of a list at [p] are nodes of no list of [L]. *)
Definition fresh_ends (L : gmap Z (list Z)) (p : Z) : Prop := fresh_node L (list_head p) ∧ fresh_node L (list_tail p).

Lemma fresh_ends_None L p : fresh_ends L p → L !! p = None.
Proof.
  intros [[_ Hh] _]. destruct (L !! p) as [ys|] eqn:E; [|done]. exfalso. apply (Hh _ _ E). unfold nodes, list_head. set_solver.
Qed.

Lemma fresh_ends_insert L p q : fresh_ends L q → p + 16 ≤ q ∨ q + 16 ≤ p → fresh_ends (<[p := []]> L) q.
Proof.
  unfold fresh_ends, fresh_node, list_head, list_tail. intros [[H1 H2] [H3 H4]] Hd.
  split; (split; [done|]); intros r ys; rewrite lookup_insert_Some;
    (intros [[<- <-]|[_ Hr]]; [unfold nodes, list_head, list_tail; set_unfold; lia|eauto]).
Qed.

Lemma list_init_ends s L p : lrep (links s) L → fresh_ends L p → wp (list_init p) s (λ _, now_lists (<[p := []]> L) s).
Proof. intros HL Hf. apply list_init_ok; [done|apply Hf|apply Hf|by apply fresh_ends_None]. Qed.

Lemma lock_init_ok s L l : lrep (links s) L → 0 < l → fresh_ends L (l + 8) →
  wp (lock_init l) s (λ _ s', ∃ h', lrep h' (<[l + 8 := []]> L) ∧
    s' = set_links h' (set_sema_value (<[l + 4 := 1]> (sema_value s)) (set_locks (<[l := mkLock NULL 0]> (locks s)) s))).
Proof.
  intros HL Hl Hf. unfold lock_init. apply wp_bind. eapply wp_eq; [apply st_lock_eq; lia|].
  unfold sema_init, lock_semaphore. apply wp_bind. eapply wp_eq; [apply st_sema_eq; lia|].
  unfold waiters. replace (l + 4 + 4) with (l + 8) by lia.
  eapply wp_mono; [by apply list_init_ends|]. intros u s' (h' & -> & Hl'). by exists h'.
Qed.

(** [block_desc_init] fills the descriptors and makes their lists empty. *)
Lemma desc_init_loop_ok n : ∀ s L i, 0 ≤ i → i + Z.of_nat n = 7 → lrep (links s) L →
  (∀ j, i ≤ j < 7 → fresh_ends L (fl s j)) →
  wp (desc_init_loop n (k_block_descs (glob s)) i (cls i)) s (λ _ s', ∃ h' ds' L',
    s' = set_links h' (set_descs ds' s) ∧ lrep h' L'
    ∧ (∀ j, i ≤ j < 7 → L' !! fl s j = Some [] ∧ ds' !! dsc s j = Some (mkDesc (cls j) (bpa j)))
    ∧ (∀ q, (∀ j, i ≤ j < 7 → q ≠ fl s j) → L' !! q = L !! q)
    ∧ ∀ d, (∀ j, i ≤ j < 7 → d ≠ dsc s j) → ds' !! d = descs s !! d).
Proof.
  induction n as [|n IH]; intros s L i Hi Hn HL Hf.
  - cbn [desc_init_loop]. kstep. exists (links s), (descs s), L. split_and!; [by destruct s|done|lia|done|done].
  - cbn [desc_init_loop]. unfold sizeof_MemBlockDesc. change (k_block_descs (glob s) + i * 24) with (dsc s i).
    apply wp_bind, wp_modify. apply wp_bind. fold (fl s i).
    eapply wp_mono; [apply (list_init_ends _ L); [done|apply Hf; lia]|]. intros u s1 (h1 & -> & Hl1).
    destruct (cls_facts i) as (Hc & _); [unfold is_class; lia|].
    replace (u16 (i + 1)) with (i + 1) by (unfold u16; rewrite Z.mod_small; lia).
    replace (u16 (cls i * 2)) with (cls (i + 1)).
    2:{ unfold u16. rewrite Z.mod_small by lia. unfold cls. rewrite Z.pow_add_r, Z.pow_1_r by lia. lia. }
    set (s1 := set_links h1 _). change (k_block_descs (glob s)) with (k_block_descs (glob s1)). eapply wp_mono.
    { apply (IH s1 (<[fl s i := []]> L) (i + 1)); [lia|lia|done|]. intros j Hj.
      change (fl s1 j) with (fl s j). apply fresh_ends_insert; [apply Hf; lia|]. unfold fl, desc_free_list, dsc. lia. }
    intros u' s2 (h2 & ds2 & L2 & -> & Hl2 & H1 & H2 & H3). exists h2, ds2, L2. split_and!; [done|done| | |].
    + intros j Hj. destruct (decide (j = i)) as [->|Hne]; [|apply (H1 j); lia].
      rewrite H2, H3 by (intros j Hj'; change (fl s1 j) with (fl s j); change (dsc s1 j) with (dsc s j);
        unfold fl, desc_free_list, dsc; lia).
      split; apply lookup_insert_eq.
    + intros q Hq. rewrite H2 by (intros j Hj; apply (Hq j); lia). rewrite lookup_insert_ne; [done|]. apply not_eq_sym, Hq. lia.
    + intros d Hd. rewrite H3 by (intros j Hj; apply (Hd j); lia). simpl. rewrite lookup_insert_ne; [done|]. apply not_eq_sym, Hd. lia.
Qed.

(** ** The empty heap *)

(** Where the linker puts the objects mem_init initialises: in the kernel's
    first MiB, apart from each other and from the nodes of the lists that
    exist already. *)
Record boot_layout (s : kstate) (L : gmap Z (list Z)) : Prop := {
  bl_kl : 0xc0000000 ≤ pool_lock PF_KERNEL s ∧ pool_lock PF_KERNEL s + 24 ≤ 0xc0100000;
  bl_ul : 0xc0000000 ≤ pool_lock PF_USER s ∧ pool_lock PF_USER s + 24 ≤ 0xc0100000;
  bl_kd : 0xc0000000 ≤ k_block_descs (glob s) ∧ k_block_descs (glob s) + 168 ≤ 0xc0100000;
  bl_apart : (pool_lock PF_KERNEL s + 24 ≤ pool_lock PF_USER s ∨ pool_lock PF_USER s + 24 ≤ pool_lock PF_KERNEL s)
    ∧ (∀ t, pool_lock t s + 24 ≤ k_block_descs (glob s) ∨ k_block_descs (glob s) + 168 ≤ pool_lock t s);
  bl_lists : lrep (links s) L;
  bl_low q ys x : L !! q = Some ys → x ∈ nodes q ys → 0xc0000000 ≤ x < 0xc0100000;
  bl_fresh : (∀ t, fresh_ends L (pool_lock t s + 8)) ∧ ∀ i, is_class i → fresh_ends L (fl s i);
}.

Lemma heap_empty_ok s L : mem_ok s → 0x102000 ≤ phy_addr_start (kernel_pool s) → lrep (links s) L →
  (∀ i, is_class i → descs s !! dsc s i = Some (mkDesc (cls i) (bpa i)) ∧ L !! fl s i = Some []) →
  (∀ q ys x, L !! q = Some ys → x ∈ nodes q ys → ∃ pa, maps s (pg x) pa) →
  heap_ok (mkH L ∅ ∅) s ∧ ∀ x m, ¬ live (mkH L ∅ ∅) s x m.
Proof.
  intros Hm Hlow HL Hd Hn. split.
  - split; simpl; try done.
    + intros i Hi. by apply Hd.
    + intros i Hi. destruct (Hd i Hi) as [_ ->]. done.
    + intros i F b Hi HF Hb. destruct (Hd i Hi) as [_ E]. rewrite E in HF. simplify_eq. by apply not_elem_of_nil in Hb.
    + intros q ys x Hq Hx. split; [by eapply Hn|done].
  - intros x m [(i & F & [HA _] & _)|(c & Hc & _)]; done.
Qed.

(** A word of the first physical page is not seen by the page walk. *)
Lemma low_write_mem_ok s n : mem_ok s → phys s = boot_phys → cr3 s = 0x100000 → 0 ≤ n < 2 ^ 32 →
  mem_ok (set_phys (<[0xb00 := n]> boot_phys) s)
  ∧ ∀ va pa, maps (set_phys (<[0xb00 := n]> boot_phys) s) va pa ↔ maps s va pa.
Proof.
  intros Hm Hp Hc Hn. apply (data_write_mem_ok s 0); [exact Hm| |reflexivity| |].
  - intros [E|(i & Hi & Hpr & E)]; [by rewrite Hc in E|]. unfold present, pde_i in *. rewrite Hp, Hc in *.
    rewrite (boot_pde_ok i) in Hpr, E by lia. destruct (boot_pde_present i) as [H1 H2]; [lia|].
    rewrite H1 in Hpr. apply bool_decide_eq_true in Hpr. rewrite H2 in E by done. destruct (Z.eqb_spec i 0); lia.
  - intros a. rewrite word_insert. destruct (decide (0xb00 = a)); [exact Hn|apply (proj1 (boot_words a))].
  - intros a Ha. rewrite word_insert, Hp, decide_False by lia. reflexivity.
Qed.

(** The loader's tables, with the size of memory in the word at 0xb00. *)
Definition boot_ram (n : Z) (s : kstate) : Prop :=
  phys s = <[0xb00 := n]> boot_phys ∧ cr3 s = 0x100000 ∧ 0 ≤ n < 2 ^ 32.

Lemma mem_size_word n s : boot_ram n s → vload 0xb00 s = Ok (n, s).
Proof.
  intros (Hp & Hc & _). assert (translate (phys s) (cr3 s) 0xb00 = Some 0xb00) as Ht.
  { assert (word (phys s) 0x100000 = 0x101007) as E1.
    { rewrite Hp, word_insert, decide_False by discriminate. exact (boot_pde_ok 0 ltac:(lia)). }
    assert (word (phys s) 0x101000 = 7) as E2.
    { rewrite Hp, word_insert, decide_False by discriminate. exact (boot_pte_ok 0 ltac:(lia)). }
    unfold translate. rewrite Hc. change (1048576 + PDE_IDX 2816 * 4) with 1048576. rewrite E1.
    change (Z.land 1052679 4294963200 + PTE_IDX 2816 * 4) with 1052672. rewrite E2. reflexivity. }
  rewrite (vload_eq _ _ _ Ht), Hp, word_insert, decide_True by reflexivity. reflexivity.
Qed.

Lemma boot_pools_ok n s s' : boot_ram n s → pools_built s s' n →
  mem_ok s' ∧ ∀ x, 0xc0000000 ≤ x < 0xc0100000 → ∃ pa, maps s' (pg x) pa.
Proof.
  intros (Hp & Hc & Hn) Hb. destruct (Hb) as [P1 P2 P3 [P4 P5] (kp & up & v & E1 & Elk & Elu)].
  assert (mem_ok (set_phys boot_phys s')) as Hm.
  { apply (pools_built_mem_ok (set_phys boot_phys s) (set_phys boot_phys s') n); [reflexivity|exact Hc|].
    split; [exact P1|exact P2|exact P3|split; [reflexivity|exact P5]|].
    exists kp, up, v. split; [rewrite E1; reflexivity|split; [exact Elk|exact Elu]]. }
  destruct (low_write_mem_ok (set_phys boot_phys s') n Hm eq_refl (eq_trans P5 Hc) Hn) as [Hm' Hmap].
  assert (set_phys (<[0xb00 := n]> boot_phys) (set_phys boot_phys s') = s') as Es.
  { rewrite <- Hp, <- P4. destruct s'. reflexivity. }
  rewrite Es in Hm', Hmap. split; [exact Hm'|]. intros x Hx. exists (pg x - 0xc0000000). apply Hmap.
  assert (0xc0000000 ≤ pg x < 0xc0100000) as Hpx by (unfold pg; Z.div_mod_to_equations; lia).
  split; [unfold in_space; lia|]. cbn [phys cr3 set_phys]. rewrite P5, Hc. exact (boot_maps _ Hpx).
Qed.

(** What [mem_init] leaves. *)
Record heap_built (s s' : kstate) (L L' : gmap Z (list Z)) : Prop := {
  hb_heap : heap_ok (mkH L' ∅ ∅) s';
  hb_empty x m : ¬ live (mkH L' ∅ ∅) s' x m;
  hb_locks t : lock_free s' L' (pool_lock t s');
  hb_wait t i : is_class i → waiters (lock_semaphore (pool_lock t s')) ≠ fl s' i;
  hb_start : vaddr_start (kernel_vaddr s') = K_HEAP_START;
  hb_keep q ys : L !! q = Some ys → L' !! q = Some ys;
  hb_frame : tasks s' = tasks s ∧ esp s' = esp s ∧ glob s' = glob s;
}.

Lemma mem_init_ok ram s L n : boot_ram n s → boot_layout s L →
  wp (mem_init ram) s (λ _ s', ∃ L', heap_built s s' L L').
Proof.
  intros Hr [B1 B2 B3 [B4 B5] B6 B7 [B8 B9]]. unfold pool_lock in *. cbn [pool_of] in *.
  pose proof (B5 PF_KERNEL) as B5k. pose proof (B5 PF_USER) as B5u.
  pose proof (B8 PF_KERNEL) as B8k. pose proof (B8 PF_USER) as B8u. cbn [pool_of] in B5k, B5u, B8k, B8u. clear B5 B8.
  set (kl := lock (kernel_pool s)) in *. set (ul := lock (user_pool s)) in *.
  unfold mem_init. apply wp_bind. unfold mem_init_pools. apply wp_bind. eapply wp_eq; [by apply mem_size_word|].
  eapply wp_mono; [apply mem_pool_init_ok|]. intros u s1 Hb.
  destruct (boot_pools_ok n s s1 Hr Hb) as [Hm1 Hmap1]. clear Hr.
  destruct (Hb) as [(_ & Ks & _) _ (_ & Kv) _ (kp & up & v & -> & Elk & Elu)]. clear Hb.
  apply wp_bind, wp_gets. match goal with |- context [pool_lock PF_KERNEL ?x] => change (pool_lock PF_KERNEL x) with (lock kp) end.
  rewrite Elk. fold kl.
  apply wp_bind. eapply wp_mono; [apply (lock_init_ok _ L); [done|lia|done]|]. intros u2 s2 (h2 & Hl2 & ->).
  apply wp_bind, wp_gets. match goal with |- context [pool_lock PF_USER ?x] => change (pool_lock PF_USER x) with (lock up) end.
  rewrite Elu. fold ul.
  apply wp_bind. eapply wp_mono; [apply (lock_init_ok _ (<[kl + 8 := []]> L)); [done|lia|apply fresh_ends_insert; [done|lia]]|].
  intros u3 s3 (h3 & Hl3 & ->). apply wp_bind, wp_gets. unfold block_desc_init. change 16 with (cls 0).
  match goal with |- wp _ ?x _ => set (s3 := x) in * end.
  assert (∀ j, fl s3 j = fl s j) as Ef by done. assert (∀ j, dsc s3 j = dsc s j) as Ed by done.
  change (k_block_descs (glob s)) with (k_block_descs (glob s3)).
  eapply wp_mono.
  { apply (desc_init_loop_ok 7 s3 (<[ul + 8 := []]> (<[kl + 8 := []]> L)) 0); [lia|done|exact Hl3|]. intros j Hj. rewrite Ef.
    unfold fl, desc_free_list, dsc in *.
    apply fresh_ends_insert; [apply fresh_ends_insert; [by apply B9; unfold is_class|lia]|lia]. }
  intros u4 s4 (h4 & ds & L' & -> & Hl4 & D1 & D2 & D3). exists L'.
  match goal with |- heap_built _ ?x _ _ => set (s4 := x) in * end.
  assert (mem_ok s4) as Hm4.
  { destruct Hm1 as [[H1 H2] ? ? ? ? ? ? ? ?]. split; try assumption. split; [exact H1|exact H2]. }
  assert (∀ q ys, L !! q = Some ys → L' !! q = Some ys ∧ q ≠ kl + 8 ∧ q ≠ ul + 8) as Hkeep.
  { intros q ys Hq. assert (∀ p, fresh_ends L p → q ≠ p) as Hne.
    { intros p [[_ Hp] _] ->. apply (Hp _ _ Hq). unfold nodes, list_head. set_solver. }
    rewrite D2; [|intros j Hj; rewrite Ef; by apply Hne, B9; unfold is_class].
    pose proof (Hne _ B8k). pose proof (Hne _ B8u). by rewrite !lookup_insert_ne by done. }
  assert (L' !! (kl + 8) = Some [] ∧ L' !! (ul + 8) = Some []) as [Hwk Hwu].
  { rewrite !D2 by (intros j Hj; rewrite Ef; unfold fl, desc_free_list, dsc; lia).
    split; [rewrite lookup_insert_ne by lia|]; apply lookup_insert_eq. }
  assert (∀ q ys x, L' !! q = Some ys → x ∈ nodes q ys → 0xc0000000 ≤ x < 0xc0100000) as Hlow.
  { intros q ys x Hq Hx. destruct (decide (q ∈ fl s3 <$> seqZ 0 7)) as [Hin|Hno].
    - apply list_elem_of_fmap in Hin as (j & -> & Hj%elem_of_seqZ).
      destruct (D1 j Hj) as [E _]. rewrite E in Hq. injection Hq as <-. unfold nodes, list_head, list_tail in Hx.
      rewrite Ef in Hx. unfold fl, desc_free_list, dsc in Hx. set_unfold. lia.
    - rewrite D2 in Hq.
      2:{ intros j Hj ->. apply Hno, list_elem_of_fmap. exists j. split; [done|]. apply elem_of_seqZ. lia. }
      rewrite !lookup_insert_Some in Hq. destruct Hq as [[<- <-]|[_ [[<- <-]|[_ Hq]]]]; [| |by eapply B7];
        unfold nodes, list_head, list_tail in Hx; set_unfold; lia. }
  destruct (heap_empty_ok s4 L' Hm4) as [Hh Hno].
  - cbn in Ks |- *. rewrite Ks. lia.
  - exact Hl4.
  - intros i Hi. by split; apply (D1 i Hi).
  - intros q ys x Hq Hx. apply (Hmap1 x), (Hlow q ys x Hq Hx).
  - split; [exact Hh|exact Hno| | |exact Kv|intros q ys Hq; by apply Hkeep|done].
    + intros []; [assert (pool_lock PF_KERNEL s4 = kl) as -> by exact Elk|assert (pool_lock PF_USER s4 = ul) as -> by exact Elu];
        split; unfold lock_semaphore, waiters; rewrite <- ?Z.add_assoc; try done; try (split; lia).
      * cbn. rewrite lookup_insert_ne by lia. apply lookup_insert_eq.
      * cbn. rewrite lookup_insert_ne by lia. apply lookup_insert_eq.
      * cbn. apply lookup_insert_eq.
      * cbn. apply lookup_insert_eq.
    + intros t i Hi. change (fl s4 i) with (fl s i). unfold waiters, lock_semaphore, fl, desc_free_list, dsc.
      destruct t; [assert (pool_lock PF_KERNEL s4 = kl) as -> by exact Elk|assert (pool_lock PF_USER s4 = ul) as -> by exact Elu].
      all: unfold is_class in Hi; lia.
Qed.

(** C16: [mem_init] builds an empty heap.  On the loader's page tables, for any
    32-bit memory size in the word at 0xb00, it passes every assertion, leaves
    memory and heap consistent with no live block, both pool locks free, the
    seven descriptors filled in with empty free lists, and every list there was
    before as it was. *)
Theorem mem_init_establishes ram s L n : boot_ram n s → boot_layout s L →
  ∃ s' L', mem_init ram s = Ok ((), s') ∧ heap_built s s' L L'.
Proof.
  intros Hr Hl. destruct (wp_inv _ _ _ (mem_init_ok ram s L n Hr Hl)) as ([] & s' & Hrun & L' & Hb). by exists s', L'.
Qed.

(** *** Witnesses: 2.5 MiB, the objects of mem_init at 0xc0008000, a kernel
    thread whose PCB is at 0xc009e000 *)
Definition demo_boot : kstate :=
  set_glob (mkGlobals 0 0 0xc0008000 0 0 0)
    (set_kernel_pool (mkPool (mkBitMap 0 []) 0 0 0xc0009000) (set_user_pool (mkPool (mkBitMap 0 []) 0 0 0xc0009100)
      (set_tasks {[0xc009e000 := demo_task 0xc009e000 TASK_RUNNING]} (set_esp 0xc009e800
        (set_phys (<[0xb00 := 0x280000]> boot_phys) (set_cr3 0x100000 k0)))))).

Lemma demo_boot_ram : boot_ram 0x280000 demo_boot.
Proof. split; [reflexivity|]. split; [reflexivity|lia]. Qed.

Lemma fresh_empty p : 0 < p → fresh_ends ∅ p.
Proof. intros Hp. split; (split; [unfold list_head, list_tail; lia|intros q ys E; by rewrite lookup_empty in E]). Qed.

Lemma demo_boot_layout : boot_layout demo_boot ∅.
Proof.
  split.
  - cbn. lia.
  - cbn. lia.
  - cbn. lia.
  - split; [cbn; lia|]. intros []; cbn; lia.
  - split; [intros p xs E|intros p q xs ys n E]; by rewrite lookup_empty in E.
  - intros q ys x E. by rewrite lookup_empty in E.
  - split; [intros []; apply fresh_empty; cbn; lia|]. intros i Hi. apply fresh_empty.
    unfold fl, desc_free_list, dsc, is_class in *. cbn. lia.
Qed.

Lemma mem_init_establishes_witness :
  ∃ s' L', mem_init (λ _, 0xaa) demo_boot = Ok ((), s') ∧ heap_built demo_boot s' ∅ L'.
Proof. exact (mem_init_establishes (λ _, 0xaa) demo_boot ∅ 0x280000 demo_boot_ram demo_boot_layout). Defined.

Lemma heap_built_kheap s s' L L' t : heap_built s s' L L' → tasks s !! cur s = Some t → pgdir t = NULL → cur s ≠ 0 →
  kheap (mkH L' ∅ ∅) s'.
Proof.
  intros [H1 H2 H3 H4 H5 H6 (E1 & E2 & E3)] Ht Hpd Hc. assert (cur s' = cur s) as Ec by (unfold cur; by rewrite E2).
  split; [done|by rewrite H5|exists t; by rewrite Ec, E1|by rewrite Ec|exact (H3 PF_KERNEL)|intros i Hi; exact (H4 PF_KERNEL i Hi)].
Qed.

Definition demo_heap : kstate := run_state (mem_init (λ _, 0xaa) demo_boot).

Lemma demo_heap_ok : ∃ L, kheap (mkH L ∅ ∅) demo_heap ∧ ∀ x m, ¬ live (mkH L ∅ ∅) demo_heap x m.
Proof.
  destruct (wp_inv _ _ _ (mem_init_ok (λ _, 0xaa) demo_boot ∅ 0x280000 demo_boot_ram demo_boot_layout)) as (u & s' & Hrun & L' & Hb).
  unfold demo_heap. rewrite Hrun. cbn [run_state]. exists L'. split; [|apply Hb].
  eapply heap_built_kheap; [exact Hb|reflexivity|reflexivity|discriminate].
Qed.
#[local] Opaque demo_heap.

Lemma sys_malloc_correct_witness : ∃ H, kheap H demo_heap ∧
  ∃ r s' H', sys_malloc 100 demo_heap = Ok (r, s') ∧ kheap H' s' ∧ alloc_result H H' demo_heap s' 100 r.
Proof.
  destruct demo_heap_ok as (L & Hk & _). exists (mkH L ∅ ∅). split; [exact Hk|].
  apply (sys_malloc_correct (mkH L ∅ ∅) demo_heap 100 Hk); lia.
Defined.

Definition demo_alloc : kstate := run_state (sys_malloc 5000 demo_heap).

Lemma demo_alloc_ok : ∃ H, kheap H demo_alloc ∧ live H demo_alloc 0xc010000c (grant 5000).
Proof.
  destruct demo_heap_ok as (L & Hk & _).
  destruct (wp_inv _ _ _ (sys_malloc_ok (mkH L ∅ ∅) demo_heap Hk 5000 ltac:(lia) ltac:(lia))) as (r & s' & Hrun & H' & Hk' & _ & Hr).
  assert (run_val (sys_malloc 5000 demo_heap) = Some 0xc010000c) as Hv by (vm_compute; reflexivity).
  unfold demo_alloc. rewrite Hrun in Hv |- *. cbn [run_val run_state] in *. injection Hv as ->.
  exists H'. split; [done|]. destruct Hr as [[E _]|(_ & _ & Hl & _)]; [discriminate E|]. apply Hl. right. split; reflexivity.
Qed.
#[local] Opaque demo_alloc.

Lemma sys_free_correct_witness : ∃ H, live H demo_alloc 0xc010000c (grant 5000) ∧
  ∃ s' H', sys_free 0xc010000c demo_alloc = Ok ((), s') ∧ kheap H' s'
    ∧ (∀ x m, live H' s' x m ↔ live H demo_alloc x m ∧ x ≠ 0xc010000c)
    ∧ ∀ x m y, live H demo_alloc x m → x ≠ 0xc010000c → 0 ≤ y < m →
        ∃ pa, maps demo_alloc (x + y) pa ∧ maps s' (x + y) pa ∧ word (phys s') pa = word (phys demo_alloc) pa.
Proof.
  destruct demo_alloc_ok as (H & Hk & Hl). exists H. split; [exact Hl|].
  exact (sys_free_correct H demo_alloc 0xc010000c (grant 5000) Hk Hl).
Defined.

Lemma heap_refines_set_witness :
  ∃ ptrs s' H', run_heap [Malloc 100; Malloc 5000; Malloc 24; Free 1; Malloc 20; Free 0; Free 0] [] demo_heap = Ok (ptrs, s')
    ∧ kheap H' s' ∧ owns_heap H' s' ptrs
    ∧ ∀ i j p n q m, ptrs !! i = Some (p, n) → ptrs !! j = Some (q, m) → i ≠ j →
        p + grant n ≤ q ∨ q + grant m ≤ p.
Proof.
  destruct demo_heap_ok as (L & Hk & Hno). apply (heap_refines_set _ (mkH L ∅ ∅) demo_heap Hk Hno).
  repeat constructor; lia.
Defined.
