(* ===== verification/Stdio.v ===== *)
(** * lib/stdio.c and lib/kernel/print2.c: formatted output

    Buffers are byte lists as in CString.  The variable arguments are the list
    of the 32-bit words on the stack; an argument that is used as a string is
    the buffer it points into.  What [put_char] shows is the list of characters
    printed. *)
From S2P Require Import Prelude CString.

(** [itoa]: the cursor [*buf_ptr_addr] is passed and returned.  Base 0 divides
    by zero; base 1 never ends.  A 32-bit value has at most 32 digits. *)
Definition itoa_fuel : nat := 33.
Fixpoint itoa_rec (fuel : nat) (buf : list Z) (buf_ptr value base : Z) : outcome (list Z * Z) :=
  match fuel with
  | O => Spin
  | S fuel =>
      if base =? 0 then Fault
      else
        let m := value mod base in
        let i := value / base in
        '(buf, buf_ptr) ← (if negb (i =? 0) then itoa_rec fuel buf buf_ptr i base else mret (buf, buf_ptr));
        buf ← wr buf buf_ptr (if m <? 10 then m + 48 else m - 10 + 65);
        mret (buf, buf_ptr + 1)
  end.
Definition itoa (buf : list Z) (buf_ptr value base : Z) : outcome (list Z * Z) :=
  itoa_rec itoa_fuel buf buf_ptr (u32 value) (u8 base).

(** One word of the variable arguments. *)
Inductive varg := VWord (w : Z) | VStr (sbuf : list Z) (p : Z).

Definition va_word (ap : list varg) : outcome (Z * list varg) :=
  match ap with VWord w :: ap => Ok (w, ap) | _ => Fault end.
Definition va_str (ap : list varg) : outcome ((list Z * Z) * list varg) :=
  match ap with VStr sbuf p :: ap => Ok ((sbuf, p), ap) | _ => Fault end.

(** The loop of [vsprintf]; [index_ptr] is where [index_char] was read. *)
Fixpoint vsprintf_loop (fuel : nat) (buf : list Z) (buf_ptr : Z) (fbuf : list Z) (index_ptr : Z) (ap : list varg)
    : outcome (list Z) :=
  match fuel with
  | O => Spin
  | S fuel =>
      index_char ← rd fbuf index_ptr;
      if index_char =? 0 then mret buf
      else if negb (index_char =? 37) then
        buf ← wr buf buf_ptr index_char;
        vsprintf_loop fuel buf (buf_ptr + 1) fbuf (index_ptr + 1) ap
      else
        index_char ← rd fbuf (index_ptr + 1);
        if index_char =? 115 then
          '((sbuf, p), ap) ← va_str ap;
          '(buf, _) ← strcpy buf (Some buf_ptr) sbuf (Some p);
          n ← strlen sbuf (Some p);
          vsprintf_loop fuel buf (buf_ptr + n) fbuf (index_ptr + 2) ap
        else if index_char =? 99 then
          '(w, ap) ← va_word ap;
          buf ← wr buf buf_ptr (u8 w);
          vsprintf_loop fuel buf (buf_ptr + 1) fbuf (index_ptr + 2) ap
        else if index_char =? 100 then
          '(w, ap) ← va_word ap;
          let arg_int := i32 w in
          '(buf, buf_ptr, arg_int) ←
            (if arg_int <? 0 then buf ← wr buf buf_ptr 45; mret (buf, buf_ptr + 1, i32 (0 - arg_int))
             else mret (buf, buf_ptr, arg_int));
          '(buf, buf_ptr) ← itoa buf buf_ptr arg_int 10;
          vsprintf_loop fuel buf buf_ptr fbuf (index_ptr + 2) ap
        else if index_char =? 120 then
          '(w, ap) ← va_word ap;
          '(buf, buf_ptr) ← itoa buf buf_ptr (i32 w) 16;
          vsprintf_loop fuel buf buf_ptr fbuf (index_ptr + 2) ap
        else vsprintf_loop fuel buf buf_ptr fbuf (index_ptr + 1) ap
  end.

(** [vsprintf] and [sprintf]: every round moves [index_ptr], so the size of the
    format bounds the rounds. *)
Definition vsprintf (buf : list Z) (str : Z) (fbuf : list Z) (format : Z) (ap : list varg) : outcome (list Z * Z) :=
  buf ← vsprintf_loop (walk_fuel fbuf) buf str fbuf format ap;
  n ← strlen buf (Some str);
  mret (buf, n).
Definition sprintf := vsprintf.

(** [put_str]: the characters up to the NUL. *)
Fixpoint put_str_loop (fuel : nat) (buf : list Z) (str : Z) : outcome (list Z) :=
  match fuel with
  | O => Spin
  | S fuel => c ← rd buf str; if c =? 0 then mret [] else out ← put_str_loop fuel buf (str + 1); mret (c :: out)
  end.
Definition put_str (buf : list Z) (str : Z) : outcome (list Z) := put_str_loop (walk_fuel buf) buf str.

(** [print_number]: the digit loop from [idx] down, and the search for the
    first digit that is not '0', which ends one past it. *)
Fixpoint number_loop (fuel : nat) (buf : list Z) (idx num : Z) : outcome (list Z) :=
  match fuel with
  | O => mret buf
  | S fuel =>
      let v := num mod 16 in
      buf ← wr buf idx (if v <? 10 then 48 + v else 97 + (v - 10));
      number_loop fuel buf (idx - 1) (num / 16)
  end.
Fixpoint skip_zeros (fuel : nat) (buf : list Z) (idx : Z) : outcome Z :=
  match fuel with
  | O => Spin
  | S fuel => c ← rd buf idx; if c =? 48 then skip_zeros fuel buf (idx + 1) else mret (idx + 1)
  end.
Definition print_number (stack : list Z) (num : Z) : outcome (list Z) :=
  if num =? 0 then mret [48; 120; 48]
  else
    buf ← number_loop 18 stack 17 num;
    idx ← skip_zeros 19 buf 2;
    let idx := idx - 3 in
    buf ← wr buf idx 48;
    buf ← wr buf (idx + 1) 120;
    buf ← wr buf 18 0;
    put_str buf idx.

(** ** Digits *)
Definition digit_char (d : Z) : Z := if d <? 10 then d + 48 else d - 10 + 65.
Definition digit_val (c : Z) : Z := if c <? 65 then c - 48 else if c <? 97 then c - 55 else c - 87.
(** The number a digit string stands for, and the digit string of a number. *)
Definition undigits (base : Z) (ds : list Z) : Z := fold_left (λ acc c, acc * base + digit_val c) ds 0.
Fixpoint digits_rec (fuel : nat) (base v : Z) : list Z :=
  match fuel with
  | O => []
  | S fuel => (if v / base =? 0 then [] else digits_rec fuel base (v / base)) ++ [digit_char (v mod base)]
  end.
Definition digits : Z → Z → list Z := digits_rec itoa_fuel.

Lemma undigits_snoc base ds c : undigits base (ds ++ [c]) = undigits base ds * base + digit_val c.
Proof. unfold undigits. by rewrite fold_left_app. Qed.

Lemma digit_char_val d : 0 ≤ d < 16 → digit_val (digit_char d) = d ∧ 48 ≤ digit_char d < 71 ∧ (digit_char d = 48 → d = 0).
Proof. intros Hd. unfold digit_val, digit_char. zbool; split_and!; lia. Qed.

Section digits.
Context (base : Z) (Hb : 2 ≤ base ≤ 16).

Lemma digits_rec_ok fuel v : 0 ≤ v → v < base ^ Z.of_nat fuel → (0 < fuel)%nat →
  undigits base (digits_rec fuel base v) = v ∧ digits_rec fuel base v ≠ [] ∧ Forall (λ c, 48 ≤ c < 71) (digits_rec fuel base v)
  ∧ (0 < v → head (digits_rec fuel base v) ≠ Some 48) ∧ (length (digits_rec fuel base v) ≤ fuel)%nat.
Proof.
  revert v. induction fuel as [|fuel IH]; intros v Hv Hm Hf; [lia|]. cbn [digits_rec].
  destruct (digit_char_val (v mod base)) as (D1 & D2 & D3); [Z.div_mod_to_equations; nia|].
  destruct (Z.eqb_spec (v / base) 0) as [E|E].
  - cbn [app]. rewrite <- (app_nil_l [digit_char (v mod base)]), undigits_snoc, D1.
    assert (v mod base = v) as Em by (rewrite Z.mod_small_iff; [left|lia]; apply Z.div_small_iff in E; lia).
    rewrite Em in *. split_and!; [unfold undigits; simpl; lia|done|apply Forall_singleton; lia| |simpl; lia].
    simpl. intros Hv0 [=]. lia.
  - assert (0 ≤ v / base) by (apply Z.div_pos; lia).
    destruct fuel as [|fuel].
    { exfalso. apply E. apply Z.div_small. change (Z.of_nat 1) with 1 in Hm. rewrite Z.pow_1_r in Hm. lia. }
    destruct (IH (v / base)) as (I1 & I2 & I3 & I4 & I5); [done| |lia|].
    { apply Z.div_lt_upper_bound; [lia|]. rewrite <- Z.pow_succ_r by lia. by rewrite <- Nat2Z.inj_succ. }
    rewrite undigits_snoc, I1, D1. split_and!.
    + pose proof (Z.div_mod v base ltac:(lia)). lia.
    + by intros [? _]%app_eq_nil.
    + apply Forall_app. split; [done|apply Forall_singleton; lia].
    + intros _. destruct (digits_rec (S fuel) base (v / base)) as [|d ds] eqn:Ed; [done|]. simpl in *. apply I4. lia.
    + rewrite length_app. simpl in *. lia.
Qed.

Lemma digits_ok v : 0 ≤ v < 2 ^ 32 →
  undigits base (digits base v) = v ∧ digits base v ≠ [] ∧ Forall (λ c, 48 ≤ c < 71) (digits base v)
  ∧ (0 < v → head (digits base v) ≠ Some 48).
Proof.
  intros Hv. destruct (digits_rec_ok itoa_fuel v) as (? & ? & ? & ? & _); [lia| |unfold itoa_fuel; lia|done].
  assert (2 ^ 33 ≤ base ^ 33) by (apply Z.pow_le_mono_l; lia). change (Z.of_nat itoa_fuel) with 33. lia.
Qed.

(** [itoa] writes the digits at the cursor. *)
Lemma itoa_rec_ok fuel pre mid post v : 0 ≤ v → v < base ^ Z.of_nat fuel → (0 < fuel)%nat →
  length mid = length (digits_rec fuel base v) →
  itoa_rec fuel (pre ++ mid ++ post) (len pre) v base
  = Ok (pre ++ digits_rec fuel base v ++ post, len pre + len (digits_rec fuel base v)).
Proof.
  revert pre mid post v. induction fuel as [|fuel IH]; intros pre mid post v Hv Hm Hf Hl; [lia|].
  cbn [digits_rec itoa_rec] in *. destruct (Z.eqb_spec base 0); [lia|].
  fold (digit_char (v mod base)). destruct (Z.eqb_spec (v / base) 0) as [E|E]; cbn [negb].
  - destruct mid as [|x [|]]; try done. obind. cbn [app] in *. rewrite wr_mid by done. obind. done.
  - assert (0 ≤ v / base) by (apply Z.div_pos; lia).
    destruct fuel as [|fuel].
    { exfalso. apply E. apply Z.div_small. change (Z.of_nat 1) with 1 in Hm. rewrite Z.pow_1_r in Hm. lia. }
    set (ds := digits_rec (S fuel) base (v / base)) in *. rewrite length_app in Hl. simpl in Hl.
    destruct (exists_last (l := mid)) as (mid' & x & ->); [by destruct mid; [simpl in Hl; lia|]|].
    rewrite length_app in Hl. simpl in Hl. rewrite <- (app_assoc mid').
    rewrite IH; [|done| |lia|fold ds; lia].
    2:{ apply Z.div_lt_upper_bound; [lia|]. rewrite <- Z.pow_succ_r by lia. by rewrite <- Nat2Z.inj_succ. }
    fold ds. obind. change ([x] ++ post) with (x :: post). rewrite (app_assoc pre ds).
    rewrite wr_mid by (by rewrite len_app). obind. f_equal. f_equal.
    + by rewrite <- !app_assoc.
    + rewrite len_app. change (len [digit_char (v mod base)]) with 1. lia.
Qed.

Lemma itoa_ok pre mid post v : length mid = length (digits base (u32 v)) →
  itoa (pre ++ mid ++ post) (len pre) v base = Ok (pre ++ digits base (u32 v) ++ post, len pre + len (digits base (u32 v))).
Proof.
  intros Hl. unfold itoa, digits in *. rewrite (u8_id base) by lia. pose proof (u32_range v).
  apply itoa_rec_ok; [lia| |unfold itoa_fuel; lia|done].
  assert (2 ^ 33 ≤ base ^ 33) by (apply Z.pow_le_mono_l; lia). change (Z.of_nat itoa_fuel) with 33. lia.
Qed.
End digits.

(** ** What a format means *)
Inductive sarg := SWord (w : Z) | SStr (s : list Z).
Definition arg_rep (a : varg) (sa : sarg) : Prop :=
  match a, sa with
  | VWord w, SWord w' => w = w'
  | VStr sbuf p, SStr s => cstr sbuf p s ∧ len s < 2 ^ 32
  | _, _ => False
  end.

Definition decimal (z : Z) : list Z := (if z <? 0 then [45] else []) ++ digits 10 (Z.abs z).

(** The characters a format and its arguments produce; a percent sign before
    any other character is dropped. *)
Fixpoint format_spec (f : list Z) (args : list sarg) : option (list Z) :=
  match f with
  | [] => Some []
  | c :: f =>
      if negb (c =? 37) then (c ::.) <$> format_spec f args
      else match f with
           | [] => Some []
           | d :: f' =>
               if d =? 115 then match args with SStr s :: args => (s ++.) <$> format_spec f' args | _ => None end
               else if d =? 99 then match args with SWord w :: args => (u8 w ::.) <$> format_spec f' args | _ => None end
               else if d =? 100 then match args with SWord w :: args => (decimal (i32 w) ++.) <$> format_spec f' args | _ => None end
               else if d =? 120 then match args with SWord w :: args => (digits 16 (u32 w) ++.) <$> format_spec f' args | _ => None end
               else format_spec f args
           end
  end.

Lemma u32_i32 w : u32 (i32 w) = u32 w.
Proof. unfold u32, i32. Z.div_mod_to_equations. lia. Qed.
Lemma i32_range w : - 2 ^ 31 ≤ i32 w < 2 ^ 31.
Proof. unfold i32. pose proof (Z.mod_pos_bound (w + 2 ^ 31) (2 ^ 32) ltac:(lia)). lia. Qed.
Lemma u32_neg z : - 2 ^ 31 ≤ z < 0 → u32 (i32 (0 - z)) = Z.abs z.
Proof. intros Hz. rewrite u32_i32, u32_id by lia. lia. Qed.

(** A prefix of a run of zeros is overwritten. *)
Lemma zeros_split (pre post : list Z) k (s : list Z) : (length s ≤ k)%nat →
  pre ++ replicate k 0 ++ post = pre ++ replicate (length s) 0 ++ replicate (k - length s) 0 ++ post.
Proof. intros Hs. rewrite (app_assoc (replicate (length s) 0)), <- replicate_add. do 3 f_equal. lia. Qed.

Lemma itoa_zeros base pre k post v ds : 2 ≤ base ≤ 16 → ds = digits base (u32 v) → (length ds ≤ k)%nat →
  itoa (pre ++ replicate k 0 ++ post) (len pre) v base
  = Ok ((pre ++ ds) ++ replicate (k - length ds) 0 ++ post, len (pre ++ ds)).
Proof.
  intros Hb -> Hk. rewrite (zeros_split pre post k (digits base (u32 v))) by done.
  rewrite itoa_ok; [by rewrite len_app, <- app_assoc|done|by rewrite length_replicate].
Qed.

Lemma wr_zeros (pre post : list Z) k c : (0 < k)%nat →
  wr (pre ++ replicate k 0 ++ post) (len pre) c = Ok ((pre ++ [c]) ++ replicate (k - 1) 0 ++ post).
Proof.
  intros Hk. destruct k as [|k]; [lia|]. cbn [replicate app]. rewrite wr_mid by done.
  rewrite <- app_assoc. do 4 f_equal. by rewrite Nat.sub_1_r.
Qed.

Lemma strcpy_zeros pre k post sbuf p s : cstr sbuf p s → (length s < k)%nat →
  strcpy (pre ++ replicate k 0 ++ post) (Some (len pre)) sbuf (Some p)
  = Ok ((pre ++ s) ++ replicate (k - length s) 0 ++ post, Some (len pre)).
Proof.
  intros Hs Hk. assert (replicate k 0 = replicate (S (length s)) 0 ++ replicate (k - S (length s)) 0) as ->.
  { rewrite <- replicate_add. f_equal. lia. }
  rewrite <- (app_assoc (replicate (S (length s)) 0)). rewrite (strcpy_ok pre _ _ sbuf p s Hs) by apply length_replicate.
  replace (k - length s)%nat with (S (k - S (length s))) by lia. by rewrite <- app_assoc.
Qed.

(** Step the invariant over an output fragment. *)
Lemma zeros_step (pre o res : list Z) k post : length (o ++ res) = (length o + length res)%nat →
  (pre ++ o) ++ res ++ replicate (k - length o - length res) 0 ++ post
  = pre ++ (o ++ res) ++ replicate (k - length (o ++ res)) 0 ++ post.
Proof. intros E. rewrite E, <- !app_assoc, Nat.sub_add_distr. done. Qed.

Section format.
Context (post : list Z).

Lemma vsprintf_loop_ok fuel : ∀ pre k fpre f fpost args sargs res,
  Forall (λ c, 0 < c < 256) f → (length f < fuel)%nat → Forall2 arg_rep args sargs →
  format_spec f sargs = Some res → (length res < k)%nat →
  vsprintf_loop fuel (pre ++ replicate k 0 ++ post) (len pre) (fpre ++ f ++ 0 :: fpost) (len fpre) args
  = Ok (pre ++ res ++ replicate (k - length res) 0 ++ post).
Proof.
  induction fuel as [|fuel IH]; intros pre k fpre f fpost args sargs res Hf Hl Ha Hs Hk; [lia|]. cbn [vsprintf_loop].
  (* the rest of the format after [o] was written and [g] read *)
  assert (∀ g f' o r args' sargs', Forall (λ c, 0 < c < 256) f' → (length f' < fuel)%nat → Forall2 arg_rep args' sargs' →
    format_spec f' sargs' = Some r → res = o ++ r → f = g ++ f' →
    vsprintf_loop fuel ((pre ++ o) ++ replicate (k - length o) 0 ++ post) (len (pre ++ o)) (fpre ++ f ++ 0 :: fpost)
      (len (fpre ++ g)) args' = Ok (pre ++ res ++ replicate (k - length res) 0 ++ post)) as Hrec.
  { intros g f' o r args' sargs' Hf' Hl' Ha' Hs' -> ->. rewrite length_app in Hk.
    replace (fpre ++ (g ++ f') ++ 0 :: fpost) with ((fpre ++ g) ++ f' ++ 0 :: fpost) by by rewrite <- !app_assoc.
    rewrite (IH (pre ++ o) (k - length o)%nat (fpre ++ g) f' fpost args' sargs' r) by (done || lia).
    f_equal. by apply zeros_step, length_app. }
  destruct f as [|c f].
  { cbn [app]. rewrite (rd_mid fpre _ _ (len fpre)) by done. obind. simpl in Hs. simplify_eq. simpl. by rewrite Nat.sub_0_r. }
  apply Forall_cons in Hf as [Hc Hf]. cbn [app]. rewrite (rd_mid fpre _ _ (len fpre)) by done. obind. simpl in Hl.
  destruct (Z.eqb_spec c 0); [lia|]. cbn [format_spec] in Hs. destruct (Z.eqb_spec c 37) as [->|Hc37]; cbn [negb] in *.
  2:{ apply fmap_Some in Hs as (r & Hr & ->). rewrite wr_zeros by lia. obind.
      pose proof (Hrec [c] f [c] r args sargs Hf ltac:(lia) Ha Hr eq_refl eq_refl) as Hx.
      rewrite !len_app in Hx. exact Hx. }
  destruct f as [|d f].
  { assert (rd (fpre ++ 37 :: [] ++ 0 :: fpost) (len fpre + 1) = Ok 0) as ->.
    { change (fpre ++ 37 :: [] ++ 0 :: fpost) with (fpre ++ [37] ++ 0 :: fpost). rewrite (app_assoc fpre).
      apply rd_mid. by rewrite len_app. }
    obind. cbn [Z.eqb Pos.eqb].
    pose proof (Hrec [37] [] [] [] args sargs ltac:(done) ltac:(simpl in *; lia) Ha eq_refl ltac:(by simplify_eq) eq_refl) as Hx.
    rewrite app_nil_r, Nat.sub_0_r, (len_app fpre) in Hx. exact Hx. }
  apply Forall_cons in Hf as [Hd Hf].
  assert (rd (fpre ++ 37 :: (d :: f) ++ 0 :: fpost) (len fpre + 1) = Ok d) as ->.
  { change (fpre ++ 37 :: (d :: f) ++ 0 :: fpost) with (fpre ++ [37] ++ d :: f ++ 0 :: fpost). rewrite (app_assoc fpre).
    apply rd_mid. by rewrite len_app. }
  obind. simpl in Hl.
  assert (∀ o r args' sargs', Forall2 arg_rep args' sargs' → format_spec f sargs' = Some r → res = o ++ r →
    vsprintf_loop fuel ((pre ++ o) ++ replicate (k - length o) 0 ++ post) (len (pre ++ o)) (fpre ++ 37 :: (d :: f) ++ 0 :: fpost)
      (len fpre + 2) args' = Ok (pre ++ res ++ replicate (k - length res) 0 ++ post)) as Hrec2.
  { intros o r args' sargs' Ha' Hr ->. rewrite <- (Hrec [37; d] f o r args' sargs' Hf ltac:(lia) Ha' Hr eq_refl eq_refl).
    by rewrite (len_app fpre). }
  destruct (d =? 115).
  { destruct Ha as [|[w|sbuf p] [w'|s] args' sargs' Hrep Ha]; try done.
    apply fmap_Some in Hs as (r & Hr & ->). rewrite length_app in Hk. destruct Hrep as [Hcs Hls]. cbn [va_str]. obind.
    rewrite (strcpy_zeros _ _ _ _ _ s) by (done || lia). obind. rewrite (strlen_ok _ _ s) by done. obind.
    rewrite <- (len_app pre s). by apply (Hrec2 s r args' sargs'). }
  destruct (d =? 99).
  { destruct Ha as [|[w|sbuf p] [w'|s] args' sargs' Hrep Ha]; try done. simpl in Hrep. subst w'.
    apply fmap_Some in Hs as (r & Hr & ->). cbn [va_word]. obind. rewrite wr_zeros by (simpl in Hk; lia). obind.
    pose proof (Hrec2 [u8 w] r args' sargs' Ha Hr eq_refl) as Hx. by rewrite (len_app pre) in Hx. }
  destruct (d =? 100).
  { destruct Ha as [|[w|sbuf p] [w'|s] args' sargs' Hrep Ha]; try done. simpl in Hrep. subst w'.
    apply fmap_Some in Hs as (r & Hr & ->). cbn [va_word]. obind. pose proof (i32_range w) as Hw.
    assert (length (decimal (i32 w)) < k)%nat as Hk' by (rewrite length_app in Hk; lia).
    pose proof (Hrec2 (decimal (i32 w)) r args' sargs' Ha Hr eq_refl) as Hx. unfold decimal in *.
    destruct (Z.ltb_spec (i32 w) 0); cbn [app length] in *.
    - rewrite wr_zeros by lia. obind. rewrite <- (len_snoc pre 45).
      rewrite (itoa_zeros 10 _ _ _ _ (digits 10 (Z.abs (i32 w)))) by (rewrite ?u32_neg; done || lia). obind.
      rewrite <- !(app_assoc pre). cbn [app]. rewrite <- (app_assoc pre) in Hx. cbn [app] in Hx. replace (k - 1 - length (digits 10 (Z.abs (i32 w))))%nat with (k - S (length (digits 10 (Z.abs (i32 w)))))%nat by lia. exact Hx.
    - obind. rewrite (itoa_zeros 10 _ _ _ _ (digits 10 (Z.abs (i32 w)))); [by obind|lia| |lia].
      rewrite u32_id by lia. f_equal. lia. }
  destruct (d =? 120).
  { destruct Ha as [|[w|sbuf p] [w'|s] args' sargs' Hrep Ha]; try done. simpl in Hrep. subst w'.
    apply fmap_Some in Hs as (r & Hr & ->). rewrite length_app in Hk. cbn [va_word]. obind.
    rewrite (itoa_zeros 16 _ _ _ _ (digits 16 (u32 w))) by (rewrite ?u32_i32; done || lia). obind.
    by apply (Hrec2 _ r args' sargs'). }
  pose proof (Hrec [37] (d :: f) [] res args sargs ltac:(by constructor) ltac:(simpl; lia) Ha Hs eq_refl eq_refl) as Hx.
  rewrite app_nil_r, Nat.sub_0_r, (len_app fpre) in Hx. exact Hx.
Qed.
End format.

Lemma vsprintf_ok pre k post fbuf p f args sargs res :
  cstr fbuf p f → Forall2 arg_rep args sargs → format_spec f sargs = Some res →
  Forall (λ c, 0 < c < 256) res → (length res < k)%nat → len res < 2 ^ 32 →
  vsprintf (pre ++ replicate k 0 ++ post) (len pre) fbuf p args
  = Ok (pre ++ res ++ replicate (k - length res) 0 ++ post, len res).
Proof.
  intros (fpre & fpost & -> & <- & Hf) Ha Hs Hr Hk Hl. unfold vsprintf.
  rewrite (vsprintf_loop_ok post _ pre k fpre f fpost args sargs res) by (done || auto with los).
  obind. rewrite (strlen_ok _ _ res); [done| |done].
  exists pre, (replicate (k - length res - 1) 0 ++ post). split_and!; [|done|done].
  destruct (k - length res)%nat as [|n] eqn:E; [lia|]. cbn [replicate app]. by rewrite Nat.sub_1_r.
Qed.

(** C33: [vsprintf] means its format.  Into a zeroed buffer with room for one
    more byte than the result, for a format whose conversions match the
    arguments, it writes exactly the characters the format stands for (strings,
    characters, signed decimals including the smallest integer, and
    hexadecimals), leaves every other byte alone and returns their number. *)
Theorem vsprintf_correct pre k post fbuf p f args sargs res :
  cstr fbuf p f → Forall2 arg_rep args sargs → format_spec f sargs = Some res →
  Forall (λ c, 0 < c < 256) res → (length res < k)%nat → len res < 2 ^ 32 →
  vsprintf (pre ++ replicate k 0 ++ post) (len pre) fbuf p args
  = Ok (pre ++ res ++ replicate (k - length res) 0 ++ post, len res).
Proof. apply vsprintf_ok. Qed.

(** "%s=%d %x%c" with "pid", -5, 255 and '!' *)
Lemma vsprintf_correct_witness :
  vsprintf ([7] ++ replicate 20 0 ++ [9]) 1 [37; 115; 61; 37; 100; 32; 37; 120; 37; 99; 0] 0
    [VStr [112; 105; 100; 0] 0; VWord (2 ^ 32 - 5); VWord 255; VWord 33]
  = Ok ([7] ++ [112; 105; 100; 61; 45; 53; 32; 70; 70; 33] ++ replicate 10 0 ++ [9], 10).
Proof.
  apply (vsprintf_correct [7] 20 [9] _ 0 [37; 115; 61; 37; 100; 32; 37; 120; 37; 99] _
           [SStr [112; 105; 100]; SWord (2 ^ 32 - 5); SWord 255; SWord 33]).
  - exists [], []. split_and!; [reflexivity|reflexivity|repeat constructor; lia].
  - repeat constructor. exists [], []. split_and!; [reflexivity|reflexivity|repeat constructor; lia].
  - reflexivity.
  - repeat constructor; lia.
  - simpl; lia.
  - reflexivity.
Defined.

(** [itoa] round trip.  For every base from 2 to 16 and every 32-bit value
    it terminates, writes digit characters only, which read back as the value,
    with no leading zero, and moves the cursor past them. *)
Theorem itoa_roundtrip base pre k post v : 2 ≤ base ≤ 16 → 0 ≤ v < 2 ^ 32 → (33 ≤ k)%nat →
  ∃ ds, itoa (pre ++ replicate k 0 ++ post) (len pre) v base
        = Ok (pre ++ ds ++ replicate (k - length ds) 0 ++ post, len pre + len ds)
     ∧ undigits base ds = v ∧ ds ≠ [] ∧ (0 < v → head ds ≠ Some 48).
Proof.
  intros Hb Hv Hk. destruct (digits_ok base Hb v Hv) as (D1 & D2 & D3 & D4). exists (digits base v). split_and!; try done.
  rewrite (itoa_zeros base _ _ _ _ (digits base v) Hb); [by rewrite len_app, <- app_assoc|by rewrite u32_id|].
  destruct (digits_rec_ok base Hb itoa_fuel v) as (_ & _ & _ & _ & Hlen); [lia| |unfold itoa_fuel; lia|].
  - assert (2 ^ 33 ≤ base ^ 33) by (apply Z.pow_le_mono_l; lia). change (Z.of_nat itoa_fuel) with 33. lia.
  - unfold digits. unfold itoa_fuel in *. lia.
Qed.

Lemma itoa_roundtrip_witness :
  ∃ ds, itoa ([65] ++ replicate 40 0 ++ []) 1 (2 ^ 32 - 1) 10 = Ok ([65] ++ ds ++ replicate (40 - length ds) 0 ++ [], 1 + len ds)
     ∧ undigits 10 ds = 2 ^ 32 - 1 ∧ ds ≠ [] ∧ (0 < 2 ^ 32 - 1 → head ds ≠ Some 48).
Proof. apply (itoa_roundtrip 10 [65] 40 [] (2 ^ 32 - 1)); lia. Defined.

(** ** [print_number]: fixed-width digits, then the leading zeros dropped *)
Definition lower_char (d : Z) : Z := if d <? 10 then 48 + d else 97 + (d - 10).
Fixpoint fixdigits (n : nat) (v : Z) : list Z :=
  match n with O => [] | S n => fixdigits n (v / 16) ++ [lower_char (v mod 16)] end.
Definition hex_digit (c : Z) : Prop := 48 ≤ c < 58 ∨ 97 ≤ c < 103.

Lemma length_fixdigits n v : length (fixdigits n v) = n.
Proof. revert v. induction n as [|n IH]; intros v; [done|]. simpl. rewrite length_app, IH. simpl. lia. Qed.

Lemma lower_char_ok d : 0 ≤ d < 16 → digit_val (lower_char d) = d ∧ hex_digit (lower_char d).
Proof. intros Hd. unfold digit_val, lower_char, hex_digit. zbool; split; lia. Qed.

Lemma fixdigits_ok n v : 0 ≤ v < 16 ^ Z.of_nat n → undigits 16 (fixdigits n v) = v ∧ Forall hex_digit (fixdigits n v).
Proof.
  revert v. induction n as [|n IH]; intros v Hv.
  { change (16 ^ Z.of_nat 0) with 1 in Hv. split; [unfold undigits; simpl; lia|constructor]. }
  rewrite Nat2Z.inj_succ, Z.pow_succ_r in Hv by lia. cbn [fixdigits]. rewrite undigits_snoc.
  destruct (IH (v / 16)) as [I1 I2]; [split; [apply Z.div_pos|apply Z.div_lt_upper_bound]; lia|].
  destruct (lower_char_ok (v mod 16)) as [L1 L2]; [apply Z.mod_pos_bound; lia|]. rewrite I1, L1.
  split; [Z.div_mod_to_equations; lia|apply Forall_app; split; [done|by apply Forall_singleton]].
Qed.

Lemma fixdigits_pad m n v : 0 ≤ v < 16 ^ Z.of_nat n → fixdigits (m + n) v = replicate m 48 ++ fixdigits n v.
Proof.
  revert v. induction n as [|n IH]; intros v Hv.
  - change (16 ^ Z.of_nat 0) with 1 in Hv. assert (v = 0) as -> by lia. rewrite Nat.add_0_r, app_nil_r.
    clear Hv. induction m as [|m IHm]; [done|]. cbn [fixdigits]. change (0 / 16) with 0. rewrite IHm. change [lower_char (0 mod 16)] with (replicate 1 48).
    rewrite <- replicate_add. f_equal. lia.
  - rewrite Nat2Z.inj_succ, Z.pow_succ_r in Hv by lia. rewrite Nat.add_succ_r. cbn [fixdigits].
    rewrite IH, app_assoc; [done|]. split; [apply Z.div_pos|apply Z.div_lt_upper_bound]; lia.
Qed.

Lemma number_loop_ok n : ∀ pre post v, length pre = n →
  number_loop n (pre ++ post) (Z.of_nat n - 1) v = Ok (fixdigits n v ++ post).
Proof.
  induction n as [|n IH]; intros pre post v Hn; [by destruct pre|]. cbn [number_loop fixdigits].
  destruct (exists_last (l := pre)) as (pre' & x & ->); [by destruct pre|].
  rewrite length_app in Hn. simpl in Hn. rewrite <- !app_assoc. cbn [app].
  rewrite wr_mid by (unfold len; lia). obind. replace (Z.of_nat (S n) - 1 - 1) with (Z.of_nat n - 1) by lia.
  rewrite IH by lia. reflexivity.
Qed.

Lemma skip_zeros_ok pre z d post fuel : (z < fuel)%nat → d ≠ 48 →
  skip_zeros fuel (pre ++ replicate z 48 ++ d :: post) (len pre) = Ok (len pre + Z.of_nat z + 1).
Proof.
  revert pre fuel. induction z as [|z IH]; intros pre [|fuel] Hf Hd; try lia; cbn [skip_zeros replicate app].
  - rewrite rd_mid by done. obind. destruct (Z.eqb_spec d 48); [done|]. unfold mret, outcome_ret. f_equal. lia.
  - rewrite rd_mid by done. obind. cbn [Z.eqb Pos.eqb]. rewrite <- (len_snoc pre 48).
    replace (pre ++ 48 :: replicate z 48 ++ d :: post) with ((pre ++ [48]) ++ replicate z 48 ++ d :: post) by by rewrite <- app_assoc.
    rewrite IH by (done || lia). rewrite len_snoc. f_equal. lia.
Qed.

Lemma undigits_zeros z ds : undigits 16 (replicate z 48 ++ ds) = undigits 16 ds.
Proof. unfold undigits. rewrite fold_left_app. f_equal. induction z as [|z IH]; [done|]. simpl. exact IH. Qed.

(** A digit string that does not stand for zero has a first non-zero digit. *)
Lemma leading_zeros ds : undigits 16 ds ≠ 0 → ∃ z d ds', ds = replicate z 48 ++ d :: ds' ∧ d ≠ 48.
Proof.
  induction ds as [|c ds IH]; intros Hd; [done|]. destruct (decide (c = 48)) as [->|]; [|by exists 0%nat, c, ds].
  destruct IH as (z & d & ds' & -> & ?); [exact Hd|]. by exists (S z), d, ds'.
Qed.

Lemma put_str_loop_ok pre s post fuel : Forall (λ c, 0 < c < 256) s → (length s < fuel)%nat →
  put_str_loop fuel (pre ++ s ++ 0 :: post) (len pre) = Ok s.
Proof.
  revert pre fuel. induction s as [|c s IH]; intros pre [|fuel] Hs Hf; simpl in Hf; try lia; cbn [put_str_loop app].
  - by rewrite rd_mid.
  - apply Forall_cons in Hs as [Hc Hs]. rewrite rd_mid by done. obind. destruct (Z.eqb_spec c 0); [lia|].
    rewrite <- (len_snoc pre c).
    replace (pre ++ c :: s ++ 0 :: post) with ((pre ++ [c]) ++ s ++ 0 :: post) by by rewrite <- app_assoc.
    rewrite IH by (done || lia). done.
Qed.

Lemma put_str_ok buf p s : cstr buf p s → put_str buf p = Ok s.
Proof. intros (pre & post & -> & <- & Hs). apply put_str_loop_ok; [done|]. unfold walk_fuel. rewrite !length_app. simpl. lia. Qed.

(** [print_number] prints "0x" and the number in lower-case hexadecimal,
    without leading zeros, for every 64-bit value, whatever its uninitialised
    buffer holds and without a write outside it. *)
Theorem print_number_correct stack num : length stack = 19%nat → 0 ≤ num < 2 ^ 64 →
  ∃ ds, print_number stack num = Ok ([48; 120] ++ ds) ∧ undigits 16 ds = num ∧ Forall hex_digit ds
     ∧ (head ds = Some 48 → ds = [48]) ∧ ds ≠ [].
Proof.
  intros Hst Hn. unfold print_number. destruct (Z.eqb_spec num 0) as [->|Hnz].
  { exists [48]. split_and!; try done. repeat constructor; lia. }
  destruct (fixdigits_ok 16 num) as [F1 F2]; [done|].
  destruct (leading_zeros (fixdigits 16 num)) as (z & d & ds & Eds & Hd); [congruence|].
  pose proof (length_fixdigits 16 num) as Hlen. rewrite Eds, length_app, length_replicate in Hlen. simpl in Hlen.
  destruct (exists_last (l := stack)) as (st & x & ->); [by destruct stack|]. rewrite length_app in Hst. simpl in Hst.
  rewrite (number_loop_ok 18) by lia. obind.
  change 18%nat with (2 + 16)%nat. rewrite (fixdigits_pad 2 16 num) by done. change (replicate 2 48) with [48; 48].
  rewrite Eds in F1, F2 |- *. rewrite undigits_zeros in F1. apply Forall_app in F2 as [_ F2].
  rewrite <- app_assoc. replace (([48; 48] ++ (replicate z 48 ++ d :: ds) ++ [x])) with
    ([48; 48] ++ replicate z 48 ++ d :: ds ++ [x]) by by rewrite <- app_assoc.
  exists (d :: ds). split_and!; [|done|done|simpl; congruence|done].
  rewrite (skip_zeros_ok [48; 48]) by (done || lia). obind.
  assert ([48; 48] ++ replicate z 48 ++ d :: ds ++ [x] = replicate z 48 ++ 48 :: 48 :: d :: ds ++ [x]) as ->.
  { rewrite (app_assoc [48; 48]). change [48; 48] with (replicate 2 48). rewrite <- replicate_add, Nat.add_comm, replicate_add.
    by rewrite <- app_assoc. }
  assert (len (replicate z 48) = Z.of_nat z) as Hz by (unfold len; by rewrite length_replicate).
  rewrite wr_mid by (change (len [48; 48]) with 2; lia). obind.
  replace (replicate z 48 ++ 48 :: 48 :: d :: ds ++ [x]) with ((replicate z 48 ++ [48]) ++ 48 :: d :: ds ++ [x]) by by rewrite <- app_assoc.
  rewrite wr_mid by (rewrite len_snoc; change (len [48; 48]) with 2; lia). obind.
  replace ((replicate z 48 ++ [48]) ++ 120 :: d :: ds ++ [x]) with ((replicate z 48 ++ [48; 120] ++ d :: ds) ++ x :: [])
    by (rewrite <- !app_assoc; done).
  rewrite wr_mid by (rewrite !len_app; unfold len in *; simpl in *; lia). obind.
  apply put_str_ok. exists (replicate z 48), []. split_and!; [by rewrite <- app_assoc|change (len [48; 48]) with 2; lia|].
  apply Forall_app. split; [repeat constructor; lia|]. eapply Forall_impl; [exact F2|]. unfold hex_digit. simpl. lia.
Qed.

Lemma print_number_correct_witness :
  ∃ ds, print_number (replicate 19 170) 48879 = Ok ([48; 120] ++ ds) ∧ undigits 16 ds = 48879 ∧ Forall hex_digit ds
     ∧ (head ds = Some 48 → ds = [48]) ∧ ds ≠ [].
Proof. apply (print_number_correct (replicate 19 170) 48879); [reflexivity|lia]. Defined.
