(* ===== verification/Console.v ===== *)
(** * device/console.c and [printk]: output under the console lock

    Each operation returns the characters it sends to [put_char]; the lock is
    at the address [console_lock]. *)
From S2P Require Import Prelude CString Bitmap Machine DList Mmu PageMem Sched Sync Stdio.

Section console.
Context (console_lock : Z).

Definition console_init : K unit := lock_init console_lock.
Definition console_acquire : K unit := lock_acquire console_lock.
Definition console_release : K unit := lock_release console_lock.

Definition console_put_str (buf : list Z) (str : Z) : K (list Z) :=
  console_acquire ;; out ← lift (put_str buf str); console_release ;; mret out.
Definition console_put_char (c : Z) : K (list Z) :=
  console_acquire ;; let out := [u8 c] in console_release ;; mret out.
Definition console_put_int (stack : list Z) (n : Z) : K (list Z) :=
  console_acquire ;; out ← lift (print_number stack (u32 n)); console_release ;; mret out.

(** lib/kernel/print2.c: a zeroed buffer of 1024 bytes on the stack. *)
Definition printk (fbuf : list Z) (format : Z) (ap : list varg) : K (list Z) :=
  '(buf, _) ← lift (vsprintf (replicate 1024 0) 0 fbuf format ap); console_put_str buf 0.

(** Output that needs no lock runs between acquire and release. *)
Lemma locked_output s L (o : outcome (list Z)) out : lock_free s L console_lock → cur s ≠ 0 → o = Ok out →
  (console_acquire ;; out ← lift o; console_release ;; mret out : K (list Z)) s = Ok (out, s).
Proof.
  intros HF Hc ->. unfold console_acquire, console_release, mbind, K_bind. rewrite (lock_acquire_free s L _ HF Hc).
  cbn [lift]. by rewrite (lock_release_last s L _ HF).
Qed.

(** [printk] prints exactly what its format and arguments stand for, up to
    1023 characters, when the console lock is free, and leaves the kernel state
    as it was. *)
Theorem printk_correct s L fbuf p f args sargs res :
  lock_free s L console_lock → cur s ≠ 0 →
  cstr fbuf p f → Forall2 arg_rep args sargs → format_spec f sargs = Some res →
  Forall (λ c, 0 < c < 256) res → (length res < 1024)%nat →
  printk fbuf p args s = Ok (res, s).
Proof.
  intros HF Hc Hf Ha Hs Hr Hl. unfold printk.
  pose proof (vsprintf_ok [] 1024 [] fbuf p f args sargs res Hf Ha Hs Hr Hl ltac:(unfold len; lia)) as E.
  rewrite app_nil_l, app_nil_r in E. change (len []) with 0 in E. unfold mbind, K_bind at 1. rewrite E. cbn [lift].
  apply (locked_output s L); [done|done|]. apply put_str_ok.
  exists [], (replicate (1024 - length res - 1) 0). split_and!; [|done|done].
  rewrite !app_nil_l. f_equal. rewrite app_nil_r. by destruct (1024 - length res)%nat eqn:En; [lia|simpl; rewrite Nat.sub_0_r].
Qed.
End console.

(** "pid %d" with 7, under the free lock of [demo_sync] *)
Lemma printk_correct_witness :
  printk 0x8000 [112; 105; 100; 32; 37; 100; 0] 0 [VWord 7] demo_sync = Ok ([112; 105; 100; 32; 55], demo_sync).
Proof.
  apply (printk_correct 0x8000 demo_sync demo_sync_lists _ 0 [112; 105; 100; 32; 37; 100] _ [SWord 7]).
  - split; [exact demo_sync_lrep|reflexivity|split; discriminate|reflexivity|reflexivity].
  - vm_compute. discriminate.
  - exists [], []. split_and!; [reflexivity|reflexivity|repeat constructor; lia].
  - repeat constructor.
  - reflexivity.
  - repeat constructor; lia.
  - simpl. lia.
Defined.
