(* ===== verification/IoQueue.v ===== *)
(** * device/ioqueue.c: the blocking ring buffer

    The members of an [IoQueue] are a record that the operations take and
    return; its lock is at the address [ioq_lock] of the kernel state.  The
    callers run with interrupts off, so an operation is atomic up to the switch
    inside [thread_block]; [ioq_getchar_pass] and [ioq_putchar_pass] are one
    pass of their loops, with no result when the thread went to sleep and
    another one runs.  When it is woken it runs [ioq_resume] and passes again. *)
From S2P Require Import Prelude CString Bitmap Machine DList Mmu PageMem Sched Sync.

Definition BUF_SIZE : Z := 64.

Record IoQueue := mkIoq {
  ioq_lock : Z;
  producer : Z;
  consumer : Z;
  ioq_buf : list Z;
  ioq_head : Z;
  ioq_tail : Z;
}.
Definition set_producer (v : Z) (q : IoQueue) : IoQueue :=
  mkIoq (ioq_lock q) v (consumer q) (ioq_buf q) (ioq_head q) (ioq_tail q).
Definition set_consumer (v : Z) (q : IoQueue) : IoQueue :=
  mkIoq (ioq_lock q) (producer q) v (ioq_buf q) (ioq_head q) (ioq_tail q).
Definition set_buf (v : list Z) (q : IoQueue) : IoQueue :=
  mkIoq (ioq_lock q) (producer q) (consumer q) v (ioq_head q) (ioq_tail q).
Definition set_head (v : Z) (q : IoQueue) : IoQueue :=
  mkIoq (ioq_lock q) (producer q) (consumer q) (ioq_buf q) v (ioq_tail q).
Definition set_tail (v : Z) (q : IoQueue) : IoQueue :=
  mkIoq (ioq_lock q) (producer q) (consumer q) (ioq_buf q) (ioq_head q) v.

Definition ioqueue_init (q : IoQueue) : K IoQueue :=
  lock_init (ioq_lock q) ;;
  mret (set_tail 0 (set_head 0 (set_consumer NULL (set_producer NULL q)))).

Definition next_pos (pos : Z) : Z := Z.rem (i32 (pos + 1)) BUF_SIZE.

Definition assert_intr_off : K unit :=
  st ← intr_get_status; kassert (bool_decide (st = INTR_OFF)).

Definition ioq_full (q : IoQueue) : K bool :=
  assert_intr_off ;; mret (next_pos (ioq_head q) =? ioq_tail q).

Definition ioq_empty (q : IoQueue) : K bool :=
  assert_intr_off ;; mret (ioq_head q =? ioq_tail q).

(** [ioq_wait] and [wakeup] take the value of [*waiter] and return the new one. *)
Definition ioq_wait (waiter : Z) : K Z :=
  kassert (waiter =? NULL) ;;
  cur ← running_thread;
  _ ← thread_block TASK_BLOCKED;
  mret cur.

Definition wakeup (waiter : Z) : K Z :=
  kassert (negb (waiter =? NULL)) ;;
  thread_unblock waiter ;;
  mret NULL.

Definition ioq_getchar_pass (q : IoQueue) : K (option Z * IoQueue) :=
  empty ← ioq_empty q;
  if (empty : bool) then
    lock_acquire (ioq_lock q) ;;
    w ← ioq_wait (consumer q);
    mret (None, set_consumer w q)
  else
    byte ← lift (rd (ioq_buf q) (ioq_tail q));
    let q := set_tail (next_pos (ioq_tail q)) q in
    q ← (if negb (producer q =? NULL) then w ← wakeup (producer q); mret (set_producer w q) else mret q);
    mret (Some byte, q).

Definition ioq_putchar_pass (q : IoQueue) (byte : Z) : K (option unit * IoQueue) :=
  full ← ioq_full q;
  if (full : bool) then
    lock_acquire (ioq_lock q) ;;
    w ← ioq_wait (producer q);
    mret (None, set_producer w q)
  else
    buf ← lift (wr (ioq_buf q) (ioq_head q) byte);
    let q := set_head (next_pos (ioq_head q)) (set_buf buf q) in
    q ← (if negb (consumer q =? NULL) then w ← wakeup (consumer q); mret (set_consumer w q) else mret q);
    mret (Some tt, q).

(** What a woken thread runs before the next pass. *)
Definition ioq_resume (q : IoQueue) : K unit := lock_release (ioq_lock q).

Definition ioq_getchar (q : IoQueue) : K (Z * IoQueue) :=
  assert_intr_off ;;
  r ← ioq_getchar_pass q;
  match r with (Some byte, q) => mret (byte, q) | (None, _) => kfail Blocked end.

Definition ioq_putchar (q : IoQueue) (byte : Z) : K IoQueue :=
  assert_intr_off ;;
  r ← ioq_putchar_pass q byte;
  match r with (Some _, q) => mret q | (None, _) => kfail Blocked end.

(** ** The ring as a queue *)
Record ioq_wf (q : IoQueue) : Prop := {
  iw_buf : len (ioq_buf q) = BUF_SIZE;
  iw_head : 0 ≤ ioq_head q < BUF_SIZE;
  iw_tail : 0 ≤ ioq_tail q < BUF_SIZE;
}.

Definition ioq_size (q : IoQueue) : nat := Z.to_nat ((ioq_head q - ioq_tail q) mod BUF_SIZE).
(** The characters in the ring, oldest first. *)
Definition contents (q : IoQueue) : list Z :=
  map (λ k, (ioq_buf q)@@((ioq_tail q + Z.of_nat k) mod BUF_SIZE)) (seq 0 (ioq_size q)).

Lemma next_pos_ok pos : 0 ≤ pos < BUF_SIZE → next_pos pos = (pos + 1) mod BUF_SIZE.
Proof. unfold BUF_SIZE. intros Hp. unfold next_pos, BUF_SIZE. rewrite i32_id, Z.rem_mod_nonneg by lia. done. Qed.
Lemma next_pos_range pos : 0 ≤ pos < BUF_SIZE → 0 ≤ next_pos pos < BUF_SIZE.
Proof. intros Hp. rewrite next_pos_ok by done. apply Z.mod_pos_bound. done. Qed.

Lemma length_contents q : length (contents q) = ioq_size q.
Proof. unfold contents. by rewrite length_map, length_seq. Qed.

Lemma ioq_empty_iff q : ioq_wf q → (ioq_head q =? ioq_tail q) = true ↔ contents q = [].
Proof.
  intros [_ Hh Ht]. rewrite Z.eqb_eq, <- length_zero_iff_nil, length_contents. unfold ioq_size, BUF_SIZE in *.
  Z.div_mod_to_equations. lia.
Qed.
Lemma ioq_full_iff q : ioq_wf q → (next_pos (ioq_head q) =? ioq_tail q) = true ↔ length (contents q) = 63%nat.
Proof.
  intros [_ Hh Ht]. rewrite Z.eqb_eq, length_contents, next_pos_ok by done. unfold ioq_size, BUF_SIZE in *.
  Z.div_mod_to_equations. lia.
Qed.

Lemma contents_put q c : ioq_wf q → (length (contents q) < 63)%nat →
  let q' := set_head (next_pos (ioq_head q)) (set_buf (<[Z.to_nat (ioq_head q) := c]> (ioq_buf q)) q) in
  ioq_wf q' ∧ contents q' = contents q ++ [c].
Proof.
  intros [Hb Hh Ht] Hl q'. rewrite length_contents in Hl. split.
  { split; simpl; [by rewrite len_insert|by apply next_pos_range|done]. }
  assert (ioq_size q' = S (ioq_size q)) as Es.
  { unfold ioq_size in *. simpl. rewrite next_pos_ok by done. unfold BUF_SIZE in *. Z.div_mod_to_equations. lia. }
  unfold contents. rewrite Es, seq_S, map_app. simpl. f_equal.
  - apply map_ext_in. intros k Hk%in_seq. apply nthz_insert_ne; [lia|].
    unfold ioq_size in *. unfold BUF_SIZE in *. Z.div_mod_to_equations. lia.
  - f_equal. assert ((ioq_tail q + Z.of_nat (ioq_size q)) mod BUF_SIZE = ioq_head q) as ->.
    { unfold ioq_size, BUF_SIZE in *. Z.div_mod_to_equations. lia. }
    apply nthz_insert_eq. lia.
Qed.

Lemma contents_get q c l : ioq_wf q → contents q = c :: l →
  (ioq_buf q)@@(ioq_tail q) = c ∧ ioq_wf (set_tail (next_pos (ioq_tail q)) q)
  ∧ contents (set_tail (next_pos (ioq_tail q)) q) = l.
Proof.
  intros [Hb Hh Ht] Hc. pose proof (length_contents q) as Hl. rewrite Hc in Hl. simpl in Hl.
  set (q' := set_tail (next_pos (ioq_tail q)) q).
  assert (ioq_size q = S (ioq_size q')) as Es.
  { unfold ioq_size in *. simpl. rewrite next_pos_ok by done. unfold BUF_SIZE in *. Z.div_mod_to_equations. lia. }
  unfold contents in Hc. rewrite Es in Hc. cbn [seq map] in Hc. injection Hc as Hc1 Hc2.
  split_and!.
  - rewrite <- Hc1. f_equal. rewrite Z.add_0_r, Z.mod_small by done. done.
  - split; simpl; [done|done|by apply next_pos_range].
  - rewrite <- Hc2. unfold contents. rewrite <- seq_shift, map_map. apply map_ext_in. intros k _.
    change (ioq_buf q') with (ioq_buf q). f_equal. unfold q'. cbn [ioq_tail set_tail]. rewrite next_pos_ok by done.
    rewrite Z.add_mod_idemp_l by done. f_equal. lia.
Qed.

(** ** Single operations *)
Lemma assert_intr_off_ok s : intr s = INTR_OFF → assert_intr_off s = Ok ((), s).
Proof. intros Hi. unfold assert_intr_off, mbind, K_bind, intr_get_status, gets. by rewrite Hi. Qed.

Lemma ioq_empty_ok q s : intr s = INTR_OFF → ioq_empty q s = Ok (ioq_head q =? ioq_tail q, s).
Proof. intros Hi. unfold ioq_empty, mbind, K_bind. by rewrite assert_intr_off_ok. Qed.
Lemma ioq_full_ok q s : intr s = INTR_OFF → ioq_full q s = Ok (next_pos (ioq_head q) =? ioq_tail q, s).
Proof. intros Hi. unfold ioq_full, mbind, K_bind. by rewrite assert_intr_off_ok. Qed.

(** The ring changes as a queue does; [m] wakes whoever waits. *)
Lemma ioq_putchar_run q c s : intr s = INTR_OFF → ioq_wf q → (length (contents q) < 63)%nat →
  ∃ q', ioq_wf q' ∧ contents q' = contents q ++ [c] ∧ consumer q' = consumer q ∧ producer q' = producer q ∧ ioq_lock q' = ioq_lock q
   ∧ ioq_putchar q c s = (if negb (consumer q =? NULL) then w ← wakeup (consumer q); mret (set_consumer w q') else mret q') s.
Proof.
  intros Hi Hw Hl. destruct (contents_put q c Hw Hl) as [H1 H2].
  eexists. split; [exact H1|]. split; [exact H2|]. split_and!; [done|done|done|].
  unfold ioq_putchar, ioq_putchar_pass, mbind, K_bind. rewrite assert_intr_off_ok, ioq_full_ok by done.
  destruct (next_pos (ioq_head q) =? ioq_tail q) eqn:E; [apply ioq_full_iff in E; [lia|done]|].
  rewrite wr_ok by (destruct Hw as [-> ? ?]; done). cbn [lift]. cbn [consumer set_head set_buf].
  destruct (negb (consumer q =? NULL)); [|done]. by destruct (wakeup (consumer q) s) as [[]| | | |].
Qed.

Lemma ioq_getchar_run q c l s : intr s = INTR_OFF → ioq_wf q → contents q = c :: l →
  ∃ q', ioq_wf q' ∧ contents q' = l ∧ consumer q' = consumer q ∧ producer q' = producer q ∧ ioq_lock q' = ioq_lock q
   ∧ ioq_getchar q s = (q' ← (if negb (producer q =? NULL) then w ← wakeup (producer q); mret (set_producer w q') else mret q');
                        mret (c, q')) s.
Proof.
  intros Hi Hw Hc. destruct (contents_get q c l Hw Hc) as (H0 & H1 & H2).
  eexists. split; [exact H1|]. split; [exact H2|]. split_and!; [done|done|done|].
  unfold ioq_getchar, ioq_getchar_pass, mbind, K_bind. rewrite assert_intr_off_ok, ioq_empty_ok by done.
  destruct (ioq_head q =? ioq_tail q) eqn:E; [apply ioq_empty_iff in E; [congruence|done]|].
  rewrite rd_ok, H0 by (destruct Hw as [-> ? ?]; done). cbn [lift]. cbn [producer set_tail].
  destruct (negb (producer q =? NULL)); [|done]. by destruct (wakeup (producer q) s) as [[]| | | |].
Qed.

(** ** Sequences of operations with nobody waiting *)
Inductive qop := Put (c : Z) | Get.

Fixpoint run_q (ops : list qop) (q : IoQueue) : K (list Z * IoQueue) :=
  match ops with
  | [] => mret ([], q)
  | Put c :: ops => q ← ioq_putchar q c; run_q ops q
  | Get :: ops => '(c, q) ← ioq_getchar q; '(out, q) ← run_q ops q; mret (c :: out, q)
  end.

(** A queue of at most 63 characters: what comes out, and what stays. *)
Fixpoint fifo (ops : list qop) (l : list Z) : option (list Z * list Z) :=
  match ops with
  | [] => Some ([], l)
  | Put c :: ops => if decide (length l < 63)%nat then fifo ops (l ++ [c]) else None
  | Get :: ops =>
      match l with
      | [] => None
      | c :: l => '(out, l) ← fifo ops l; Some (c :: out, l)
      end
  end.

(** C25: The ring buffer refines a FIFO queue of capacity 63.  For every sequence
    of insertions and removals that such a queue allows, [ioq_putchar] and
    [ioq_getchar] return, never block, deliver the same characters in the same
    order, leave the ring with the queue's contents and touch nothing else of
    the kernel.  [ioq_empty] and [ioq_full] answer for that queue. *)
Theorem ioq_refines_fifo ops q s out l :
  intr s = INTR_OFF → ioq_wf q → producer q = NULL → consumer q = NULL →
  fifo ops (contents q) = Some (out, l) →
  ∃ q', run_q ops q s = Ok ((out, q'), s) ∧ ioq_wf q' ∧ contents q' = l
    ∧ ioq_empty q' s = Ok (bool_decide (l = []), s) ∧ ioq_full q' s = Ok (bool_decide (length l = 63%nat), s).
Proof.
  intros Hi. revert q out. induction ops as [|[c|] ops IH]; intros q out Hw Hp Hcs Hf; cbn [fifo run_q] in *.
  - simplify_eq. exists q. split_and!; [done|done|done| |].
    + rewrite ioq_empty_ok by done. do 2 f_equal. apply eq_bool_prop_intro.  rewrite bool_decide_spec. rewrite <- ioq_empty_iff by done. by rewrite Is_true_true.
    + rewrite ioq_full_ok by done. do 2 f_equal. apply eq_bool_prop_intro.
      rewrite bool_decide_spec. rewrite <- ioq_full_iff by done. by rewrite Is_true_true.
  - case_decide as Hl; [|done]. destruct (ioq_putchar_run q c s Hi Hw Hl) as (q1 & W1 & C1 & N1 & N2 & _ & Hrun).
    rewrite Hcs in Hrun. cbn in Hrun. unfold mbind, K_bind. rewrite Hrun. apply IH; congruence.
  - destruct (contents q) as [|c l0] eqn:E; [done|].
    destruct (ioq_getchar_run q c l0 s Hi Hw E) as (q1 & W1 & C1 & N1 & N2 & _ & Hrun).
    rewrite Hp in Hrun. cbn in Hrun. unfold mbind, K_bind at 1. rewrite Hrun.
    destruct (fifo ops l0) as [[out' l']|] eqn:E2; simplify_eq/=.
    destruct (IH q1 out' W1) as (q2 & R2 & H2); [congruence|congruence|congruence|].
    exists q2. split; [|exact H2]. unfold mbind, K_bind. by rewrite R2.
Qed.

(** ** Waiting and waking *)
Lemma sched_ok_held pd L rq s l c n : sched_ok pd L rq s → sched_ok pd L rq (held s l c n).
Proof. intros []. by split. Qed.

(** [w] is no thread, or a thread that sleeps and is in no list. *)
Definition sleeper (L : gmap Z (list Z)) (s : kstate) (w : Z) : Prop :=
  w ≠ NULL → ∃ tw, tasks s !! w = Some tw ∧ is_waiting (status tw) = true ∧ fresh_node L (general_tag w).

(** [w] was woken: it is ready, ahead of all others, and only its PCB and the
    links of the ready queue changed. *)
Definition woken (pd : Z → Z) (L : gmap Z (list Z)) (rq : list Z) (s s' : kstate) (w : Z) : Prop :=
  ∃ tw h, tasks s !! w = Some tw ∧ s' = set_tasks (<[w := set_status TASK_READY tw]> (tasks s)) (set_links h s)
    ∧ sched_ok pd (<[ready s := general_tag <$> w :: rq]> L) (w :: rq) s'.

(** A character for a ring with room: it is appended, and a sleeping consumer
    is woken. *)
Lemma ioq_putchar_wakes pd L rq s q c :
  sched_ok pd L rq s → intr s = INTR_OFF → ioq_wf q → (length (contents q) < 63)%nat → sleeper L s (consumer q) →
  ∃ q' s', ioq_putchar q c s = Ok (q', s') ∧ ioq_wf q' ∧ contents q' = contents q ++ [c] ∧ consumer q' = NULL
    ∧ if consumer q =? NULL then s' = s else woken pd L rq s s' (consumer q).
Proof.
  intros HS Hi Hw Hl Hsl. destruct (ioq_putchar_run q c s Hi Hw Hl) as (q1 & W1 & C1 & N1 & _ & _ & Hrun).
  destruct (Z.eqb_spec (consumer q) NULL) as [E|Hne].
  - exists q1, s. split_and!; [done|done|done|congruence|done].
  - destruct (Hsl Hne) as (tw & Htw & Hst & Hf).
    destruct (wp_inv _ _ _ (thread_unblock_ok pd L rq s _ tw HS Htw Hst Hf)) as ([] & s2 & Hub & HS2 & h' & E2).
    exists (set_consumer NULL q1), s2. unfold wakeup, mbind, K_bind, kassert, lift in Hrun.
    destruct (Z.eqb_spec (consumer q) NULL); [done|]. cbn [negb ASSERT] in Hrun. rewrite Hub in Hrun.
    split_and!; [done| |exact C1|done|by exists tw, h']. destruct W1. by split.
Qed.

(** A reader of an empty ring sleeps and the next writer wakes it.  A thread
    that reads an empty ring takes the ring's lock, becomes its consumer and is
    blocked, and the scheduler's choice runs; the ring is unchanged.  A
    character written while a blocked thread is the consumer is appended, makes
    exactly that thread ready, ahead of all others, and clears the consumer. *)
Theorem ioq_blocking_handoff pd L rq s t q :
  running pd L rq s t → intr s = INTR_OFF → ioq_wf q →
  (contents q = [] → consumer q = NULL → lock_free s L (ioq_lock q) → cur s ≠ 0 →
     ∃ s' n r, ioq_getchar_pass q s = Ok ((None, set_consumer (cur s) q), s') ∧ (n, r) = pick rq (idle s) ∧ cur s' = n
       ∧ sched_ok pd (<[ready s := general_tag <$> r]> L) r s'
       ∧ locks s' !! ioq_lock q = Some (mkLock (cur s) 1)) ∧
  (∀ c w tw, (length (contents q) < 63)%nat → consumer q = w → w ≠ NULL →
     tasks s !! w = Some tw → is_waiting (status tw) = true → fresh_node L (general_tag w) →
     ∃ q' s', ioq_putchar q c s = Ok (q', s') ∧ ioq_wf q' ∧ contents q' = contents q ++ [c] ∧ consumer q' = NULL
       ∧ tasks s' = <[w := set_status TASK_READY tw]> (tasks s)
       ∧ sched_ok pd (<[ready s := general_tag <$> w :: rq]> L) (w :: rq) s').
Proof.
  intros HR Hi Hw. destruct (HR) as [HS Hc Hr]. split.
  - intros Hemp Hcs HF Hcur. unfold ioq_getchar_pass, mbind, K_bind. rewrite ioq_empty_ok by done.
    apply ioq_empty_iff in Hemp as ->; [|done]. rewrite (lock_acquire_free s L _ HF Hcur).
    set (s1 := held s (ioq_lock q) (cur s) 1). pose proof (so_cur_tag _ _ _ _ HS _ Hc Hr) as Hf.
    assert (wp (thread_block TASK_BLOCKED) (set_links (links s) s1) (λ old s', old = intr s1 ∧ let '(n, r) := pick rq (idle s1) in
      sched_ok pd (<[ready s1 := general_tag <$> r]> L) r s'
      ∧ switched (set_status TASK_BLOCKED) s1 (set_intr (intr s1) s') n ∧ intr s' = INTR_OFF)) as H.
    { apply (thread_block_ok pd L rq s1 t); try done; [by apply sched_ok_held|apply HS]. }
    destruct (wp_inv _ _ _ H) as (old & s2 & Hrun & _ & H2). change (idle s1) with (idle s) in H2.
    change (set_links (links s) s1) with s1 in Hrun.
    destruct (pick rq (idle s)) as [n r] eqn:Ep. destruct H2 as (H2 & H3 & _).
    exists s2, n, r. unfold ioq_wait, mbind, K_bind, kassert, lift. rewrite Hcs. cbn [ASSERT Z.eqb NULL].
    unfold running_thread, gets. fold (cur s1). rewrite Hrun. split_and!; [done|done| |exact H2|].
    + exact (sw_cur _ _ _ _ H3).
    + destruct H3 as [_ _ _ _ _ _ (h2 & ts2 & c2 & x2 & e2 & E)]. apply (f_equal locks) in E. simpl in E. rewrite E.
      apply lookup_insert_eq.
  - intros c w tw Hl <- Hne Htw Hst Hf. assert (sleeper L s (consumer q)) as Hsl by (intros _; eauto).
    destruct (ioq_putchar_wakes pd L rq s q c HS Hi Hw Hl Hsl) as (q' & s' & H1 & H2 & H3 & H4 & H5).
    exists q', s'. destruct (Z.eqb_spec (consumer q) NULL); [done|]. destruct H5 as (tw' & h' & Htw' & -> & H5).
    simplify_eq. by split_and!.
Qed.

(** *** Witnesses *)
Definition demo_ioq (w : Z) : IoQueue := mkIoq 0x8000 NULL w (replicate 64 0) 62 62.

Lemma demo_ioq_wf w : ioq_wf (demo_ioq w).
Proof. split; [reflexivity| |]; unfold BUF_SIZE; simpl; lia. Qed.

Lemma ioq_refines_fifo_witness :
  ∃ q', run_q [Put 97; Put 98; Put 99; Get; Get; Put 100] (demo_ioq NULL) k0 = Ok (([97; 98], q'), k0) ∧ ioq_wf q'
    ∧ contents q' = [99; 100] ∧ ioq_empty q' k0 = Ok (bool_decide ([99; 100] = []), k0)
    ∧ ioq_full q' k0 = Ok (bool_decide (length [99; 100] = 63%nat), k0).
Proof.
  apply (ioq_refines_fifo _ (demo_ioq NULL) k0 [97; 98] [99; 100]); [reflexivity|apply demo_ioq_wf|reflexivity|reflexivity|reflexivity].
Defined.

(** The reader 0x9e000 sleeps; the writer wakes 0x300000. *)
Lemma ioq_blocking_handoff_witness :
  (∃ s' n r, ioq_getchar_pass (demo_ioq NULL) demo_sync = Ok ((None, set_consumer 0x9e000 (demo_ioq NULL)), s')
     ∧ (n, r) = (0x200000, []) ∧ cur s' = n
     ∧ sched_ok (λ _, 0) (<[ready demo_sync := general_tag <$> r]> demo_sync_lists) r s'
     ∧ locks s' !! 0x8000 = Some (mkLock 0x9e000 1)) ∧
  (∃ q' s', ioq_putchar (demo_ioq 0x300000) 97 demo_sync = Ok (q', s') ∧ ioq_wf q'
     ∧ contents q' = contents (demo_ioq 0x300000) ++ [97] ∧ consumer q' = NULL
     ∧ tasks s' = <[0x300000 := set_status TASK_READY (demo_task 0x300000 TASK_BLOCKED)]> (tasks demo_sync)
     ∧ sched_ok (λ _, 0) (<[ready demo_sync := general_tag <$> [0x300000; 0x200000]]> demo_sync_lists) [0x300000; 0x200000] s').
Proof.
  split.
  - apply (ioq_blocking_handoff (λ _, 0) demo_sync_lists [0x200000] demo_sync (demo_task 0x9e000 TASK_RUNNING) (demo_ioq NULL)
      demo_sync_running); [reflexivity|exact (demo_ioq_wf NULL)|reflexivity|reflexivity| |discriminate].
    split; [exact demo_sync_lrep|reflexivity|split; discriminate|reflexivity|reflexivity].
  - apply (ioq_blocking_handoff (λ _, 0) demo_sync_lists [0x200000] demo_sync (demo_task 0x9e000 TASK_RUNNING) (demo_ioq 0x300000)
      demo_sync_running); [reflexivity|exact (demo_ioq_wf 0x300000)|vm_compute; lia|reflexivity|discriminate|reflexivity|reflexivity|].
    apply freshb_ok. vm_compute. reflexivity.
Defined.
