(* ===== verification/Cpu.v ===== *)
(** * kernel/interrupt.c, userprog/tss.c, device/time.c: descriptor tables and timers

    [dev] is what start-up code programs: the interrupt gates, the table of C
    handlers, the GDT and TSS, the registers loaded by lidt, lgdt and ltr, the
    log of bytes sent to I/O ports, and the text printed.  A function pointer
    is its address.  [intr_entry_table] of kernel.S is the list of the words
    from its label to the end of the data section. *)
From Stdlib Require Import String Ascii.
From S2P Require Import Prelude CString Bitmap Machine DList Stdio.

Definition text (s : String.string) : list Z := map (λ c, Z.of_N (N_of_ascii c)) (list_ascii_of_string s).

Record GateDesc := mkGate {
  func_offset_low_word : Z;
  selector : Z;
  dcount : Z;
  attribute : Z;
  func_offset_high_word : Z;
}.

Record GdtDesc := mkGdt {
  limit_low_word : Z;
  base_low_word : Z;
  base_mid_byte : Z;
  attr_low_byte : Z;
  limit_high_attr_high : Z;
  base_high_byte : Z;
}.

(** ** kernel/global.h *)
Definition DESC_G_4K : Z := 1.
Definition DESC_D_32 : Z := 1.
Definition DESC_L : Z := 0.
Definition DESC_AVL : Z := 0.
Definition DESC_P : Z := 1.
Definition DESC_DPL_0 : Z := 0.
Definition DESC_DPL_3 : Z := 3.
Definition DESC_S_CODE : Z := 1.
Definition DESC_S_DATA : Z := DESC_S_CODE.
Definition DESC_S_SYS : Z := 0.
Definition DESC_TYPE_CODE : Z := 8.
Definition DESC_TYPE_DATA : Z := 2.
Definition DESC_TYPE_TSS : Z := 9.
Definition RPL0 : Z := 0.
Definition RPL3 : Z := 3.
Definition TI_GDT : Z := 0.
Definition SELECTOR_K_CODE : Z := Z.shiftl 1 3 + Z.shiftl TI_GDT 2 + RPL0.
Definition SELECTOR_K_DATA : Z := Z.shiftl 2 3 + Z.shiftl TI_GDT 2 + RPL0.
Definition SELECTOR_K_STACK : Z := SELECTOR_K_DATA.
Definition SELECTOR_U_CODE : Z := Z.shiftl 5 3 + Z.shiftl TI_GDT 2 + RPL3.
Definition SELECTOR_U_DATA : Z := Z.shiftl 6 3 + Z.shiftl TI_GDT 2 + RPL3.
Definition SELECTOR_U_STACK : Z := SELECTOR_U_DATA.
Definition GDT_ATTR_HIGH : Z := Z.shiftl DESC_G_4K 7 + Z.shiftl DESC_D_32 6 + Z.shiftl DESC_L 5 + Z.shiftl DESC_AVL 4.
Definition GDT_CODE_ATTR_LOW_DPL3 : Z := Z.shiftl DESC_P 7 + Z.shiftl DESC_DPL_3 5 + Z.shiftl DESC_S_CODE 4 + DESC_TYPE_CODE.
Definition GDT_DATA_ATTR_LOW_DPL3 : Z := Z.shiftl DESC_P 7 + Z.shiftl DESC_DPL_3 5 + Z.shiftl DESC_S_DATA 4 + DESC_TYPE_DATA.
Definition TSS_DESC_D : Z := 0.
Definition TSS_ATTR_HIGH : Z := Z.shiftl DESC_G_4K 7 + Z.shiftl TSS_DESC_D 6 + Z.shiftl DESC_L 5 + Z.shiftl DESC_AVL 4 + 0.
Definition TSS_ATTR_LOW : Z := Z.shiftl DESC_P 7 + Z.shiftl DESC_DPL_0 5 + Z.shiftl DESC_S_SYS 4 + DESC_TYPE_TSS.
Definition SELECTOR_TSS : Z := Z.shiftl 4 3 + Z.shiftl TI_GDT 2 + RPL0.
Definition IDT_DESC_ATTR_DPL0 : Z := Z.shiftl 1 7 + Z.shiftl 0 5 + 0xE.
Definition IDT_DESC_ATTR_DPL3 : Z := Z.shiftl 1 7 + Z.shiftl 3 5 + 0xE.
Definition EFLAG_MBS : Z := Z.shiftl 1 1.
Definition EFLAGS_IF_1 : Z := Z.shiftl 1 9.
Definition EFLAG_IOPL_0 : Z := Z.shiftl 0 12.

Record dev := mkDev {
  idt : list GateDesc;
  idt_table : list Z;
  intr_name : list (list Z);
  gdt : gmap Z GdtDesc;  (* by linear address *)
  tss : list Z;          (* the words of struct tss *)
  idtr : Z;
  gdtr : Z;
  tr : Z;
  ports : list (Z * Z);  (* (port, byte) in the order sent *)
  screen : list Z;
}.
Definition set_idt v d := mkDev v (idt_table d) (intr_name d) (gdt d) (tss d) (idtr d) (gdtr d) (tr d) (ports d) (screen d).
Definition set_idt_table v d := mkDev (idt d) v (intr_name d) (gdt d) (tss d) (idtr d) (gdtr d) (tr d) (ports d) (screen d).
Definition set_intr_name v d := mkDev (idt d) (idt_table d) v (gdt d) (tss d) (idtr d) (gdtr d) (tr d) (ports d) (screen d).
Definition set_gdt v d := mkDev (idt d) (idt_table d) (intr_name d) v (tss d) (idtr d) (gdtr d) (tr d) (ports d) (screen d).
Definition set_tss v d := mkDev (idt d) (idt_table d) (intr_name d) (gdt d) v (idtr d) (gdtr d) (tr d) (ports d) (screen d).
Definition set_idtr v d := mkDev (idt d) (idt_table d) (intr_name d) (gdt d) (tss d) v (gdtr d) (tr d) (ports d) (screen d).
Definition set_gdtr v d := mkDev (idt d) (idt_table d) (intr_name d) (gdt d) (tss d) (idtr d) v (tr d) (ports d) (screen d).
Definition set_tr v d := mkDev (idt d) (idt_table d) (intr_name d) (gdt d) (tss d) (idtr d) (gdtr d) v (ports d) (screen d).
Definition set_ports v d := mkDev (idt d) (idt_table d) (intr_name d) (gdt d) (tss d) (idtr d) (gdtr d) (tr d) v (screen d).
Definition set_screen v d := mkDev (idt d) (idt_table d) (intr_name d) (gdt d) (tss d) (idtr d) (gdtr d) (tr d) (ports d) v.

Definition outb (port data : Z) (d : dev) : dev := set_ports (ports d ++ [(u16 port, u8 data)]) d.
Definition put (s : list Z) (d : dev) : dev := set_screen (screen d ++ s) d.

(** ** interrupt.c *)
Definition IDT_DESC_CNT : Z := 0x81.
Definition PIC_M_CTRL : Z := 0x20.
Definition PIC_M_DATA : Z := 0x21.
Definition PIC_S_CTRL : Z := 0xa0.
Definition PIC_S_DATA : Z := 0xa1.

Definition make_idt_desc (attr function : Z) : GateDesc :=
  mkGate (Z.land function 0x0000ffff) SELECTOR_K_CODE 0 (u8 attr) (Z.shiftr (Z.land function 0xffff0000) 16).

Fixpoint idt_fill (n : nat) (i : Z) (entries : list Z) (t : list GateDesc) : outcome (list GateDesc) :=
  match n with
  | O => mret t
  | S n =>
      f ← rd entries i;
      t ← wr t i (make_idt_desc IDT_DESC_ATTR_DPL0 f);
      idt_fill n (i + 1) entries t
  end.
Definition idt_desc_init (intr_entry_table : list Z) (syscall_handler : Z) (d : dev) : outcome dev :=
  t ← idt_fill (Z.to_nat IDT_DESC_CNT) 0 intr_entry_table (idt d);
  t ← wr t 0x80 (make_idt_desc IDT_DESC_ATTR_DPL3 syscall_handler);
  mret (put (text ".") (set_idt t d)).

(** [general_intr_handler]: what it prints, and whether it returns. *)
Definition PRINTLINE (s n : list Z) : list Z := s ++ n ++ [10].
Definition general_intr_handler (names : list (list Z)) (stack : list Z) (vec_nr cr2 : Z) : outcome (list Z * bool) :=
  if (vec_nr =? 0x27) || (vec_nr =? 0x2f) then mret ([], true)
  else
    num ← print_number stack vec_nr;
    nm ← rd names vec_nr;
    let out := text "int vector: " ++ num ++ text " " ++ nm ++ [10] in
    if vec_nr =? 14 then
      let page_fault_vaddr := i32 cr2 in
      addr ← print_number stack (page_fault_vaddr mod 2 ^ 64);
      mret (out ++ PRINTLINE (text "Page Fault Addr is ") addr, false)
    else mret (out, false).

Fixpoint exception_fill (n : nat) (i general : Z) (d : dev) : outcome dev :=
  match n with
  | O => mret d
  | S n =>
      t ← wr (idt_table d) i general;
      nm ← wr (intr_name d) i (text "unknown");
      exception_fill n (i + 1) general (set_intr_name nm (set_idt_table t d))
  end.
Definition exception_names : list (Z * list Z) :=
  [(0, text "#DE Divide Error"); (1, text "#DB Debug Exception"); (2, text "NMI Interrupt");
   (3, text "#BP Breakpoint Exception"); (4, text "#OF Overflow Exception");
   (5, text "#BR BOUND Range Exceeded Exception"); (6, text "#UD Invalid Opcode Exception");
   (7, text "#NM Device Not Available Exception"); (8, text "#DF Double Fault Exception");
   (9, text "Coprocessor Segment Overrun"); (10, text "#TS Invalid TSS Exception");
   (11, text "#NP Segment Not Present"); (12, text "#SS Stack Fault Exception");
   (13, text "#GP General Protection Exception"); (14, text "#PF Page-Fault Exception");
   (16, text "#MF x87 FPU F'loating-Point Error"); (17, text "#AC Alignment Check Exception");
   (18, text "#MC Machine-Check Exception"); (19, text "#XF SIMD Floating-Point Exception")].
Fixpoint set_names (l : list (Z * list Z)) (names : list (list Z)) : outcome (list (list Z)) :=
  match l with [] => mret names | (i, s) :: l => names ← wr names i s; set_names l names end.
Definition exception_init (general_intr_handler : Z) (d : dev) : outcome dev :=
  d ← exception_fill (Z.to_nat IDT_DESC_CNT) 0 general_intr_handler d;
  nm ← set_names exception_names (intr_name d);
  mret (set_intr_name nm d).

Definition register_handler (vector_no function : Z) (d : dev) : outcome dev :=
  t ← wr (idt_table d) (u8 vector_no) function; mret (set_idt_table t d).

Definition pic_init (d : dev) : dev :=
  let d := outb PIC_M_CTRL 0x11 d in
  let d := outb PIC_M_DATA 0x20 d in
  let d := outb PIC_M_DATA 0x04 d in
  let d := outb PIC_M_DATA 0x01 d in
  let d := outb PIC_S_CTRL 0x11 d in
  let d := outb PIC_S_DATA 0x28 d in
  let d := outb PIC_S_DATA 0x02 d in
  let d := outb PIC_S_DATA 0x01 d in
  let d := outb PIC_M_DATA 0xf8 d in
  let d := outb PIC_S_DATA 0xbf d in
  put (text ".") d.

(** [idt_addr] is the address of the array [idt]; a gate has 8 bytes. *)
Definition idt_init (intr_entry_table : list Z) (syscall_handler general_intr_handler idt_addr : Z) (d : dev) : outcome dev :=
  let d := put (text "idt_init . ") d in
  d ← idt_desc_init intr_entry_table syscall_handler d;
  d ← exception_init general_intr_handler d;
  let d := pic_init d in
  let idt_operand := Z.lor (8 * IDT_DESC_CNT - 1) (Z.shiftl (u32 idt_addr) 16) in
  mret (put (text " done" ++ [10]) (set_idtr idt_operand d)).

(** ** tss.c *)
Definition make_gdt_desc (desc_addr limit attr_low attr_high : Z) : GdtDesc :=
  let desc_base := u32 desc_addr in
  mkGdt (u16 (Z.land limit 0x0000ffff)) (u16 (Z.land desc_base 0x0000ffff))
    (u8 (Z.shiftr (Z.land desc_base 0x00ff0000) 16)) (u8 attr_low)
    (u8 (Z.shiftr (Z.land limit 0x000f0000) 16 + u8 attr_high)) (u8 (Z.shiftr desc_base 24)).

(** struct tss: 27 words; [ss0] is the third and [io_base] the last. *)
Definition tss_words : nat := 27.
Definition tss_ss0 : nat := 2.
Definition tss_io_base : nat := 26.
Definition tss_init (tss_addr : Z) (d : dev) : dev :=
  let d := put (text "tss_init ...") d in
  let tss_size := 4 * Z.of_nat tss_words in
  let d := set_tss (replicate tss_words 0) d in
  let d := set_tss (<[tss_ss0 := SELECTOR_K_STACK]> (tss d)) d in
  let d := set_tss (<[tss_io_base := tss_size]> (tss d)) d in
  let d := set_gdt (<[0xc0000920 := make_gdt_desc tss_addr (tss_size - 1) TSS_ATTR_LOW TSS_ATTR_HIGH]> (gdt d)) d in
  let d := set_gdt (<[0xc0000928 := make_gdt_desc 0 0xfffff GDT_CODE_ATTR_LOW_DPL3 GDT_ATTR_HIGH]> (gdt d)) d in
  let d := set_gdt (<[0xc0000930 := make_gdt_desc 0 0xfffff GDT_DATA_ATTR_LOW_DPL3 GDT_ATTR_HIGH]> (gdt d)) d in
  let gdt_operand := Z.lor (8 * 7 - 1) (Z.shiftl (u32 0xc0000900) 16) in
  let d := set_tr SELECTOR_TSS (set_gdtr gdt_operand d) in
  put (text "done" ++ [10]) d.

(** ** time.c *)
Definition IRQ0_FREQUENCY : Z := 100.
Definition INPUT_FREQUENCY : Z := 1193180.
Definition COUNTER0_VALUE : Z := INPUT_FREQUENCY / IRQ0_FREQUENCY.
Definition COUNTER0_PORT : Z := 0x40.
Definition COUNTER0_NO : Z := 0.
Definition COUNTER_MODE : Z := 2.
Definition READ_WRITE_LATCH : Z := 3.
Definition PIT_CONTROL_PORT : Z := 0x43.
Definition MS_PER_INTR : Z := 1000 / IRQ0_FREQUENCY.

Definition frequency_set (counter_port counter_no rwl counter_mode counter_value : Z) (d : dev) : dev :=
  let d := outb PIT_CONTROL_PORT (u8 (Z.lor (Z.lor (Z.shiftl counter_no 6) (Z.shiftl rwl 4)) (Z.shiftl counter_mode 1))) d in
  let d := outb counter_port (u8 counter_value) d in
  outb counter_port (Z.shiftr (u8 counter_value) 8) d.

Definition time_init (intr_timer_handler : Z) (d : dev) : outcome dev :=
  let d := put (text "timer_init ... ") d in
  let d := frequency_set COUNTER0_PORT COUNTER0_NO READ_WRITE_LATCH COUNTER_MODE (u16 COUNTER0_VALUE) d in
  d ← register_handler 0x20 intr_timer_handler d;
  mret (put (text "done" ++ [10]) d).

(** [ticks_to_sleep]: the loop yields while [sleeping] holds of the tick
    counter; [ticks_seen] are its values at the successive tests. *)
Definition sleeping (start_tick sleep_ticks ticks : Z) : bool := u32 (ticks - start_tick) <? sleep_ticks.
Fixpoint ticks_to_sleep (start_tick sleep_ticks : Z) (ticks_seen : list Z) : option nat :=
  match ticks_seen with
  | [] => None
  | t :: l => if sleeping start_tick sleep_ticks t then S <$> ticks_to_sleep start_tick sleep_ticks l else Some O
  end.
Definition mtime_sleep (start_tick m_seconds : Z) (ticks_seen : list Z) : outcome (option nat) :=
  let sleep_ticks := DIV_ROUND_UP m_seconds MS_PER_INTR in
  _ ← ASSERT (0 <? sleep_ticks);
  mret (ticks_to_sleep start_tick sleep_ticks ticks_seen).

(** ** Descriptors as the processor reads them *)
Definition desc_word (g : GdtDesc) : Z :=
  limit_low_word g + base_low_word g * 2 ^ 16 + base_mid_byte g * 2 ^ 32 + attr_low_byte g * 2 ^ 40
  + limit_high_attr_high g * 2 ^ 48 + base_high_byte g * 2 ^ 56.
(** Bits [lo .. lo + n - 1] of a word. *)
Definition bits (w lo n : Z) : Z := Z.shiftr w lo mod 2 ^ n.
Definition seg_base (w : Z) : Z := bits w 16 24 + bits w 56 8 * 2 ^ 24.
Definition seg_limit (w : Z) : Z := bits w 0 16 + bits w 48 4 * 2 ^ 16.
Definition seg_access (w : Z) : Z := bits w 40 8.
Definition seg_flags (w : Z) : Z := bits w 52 4.
Definition seg_dpl (w : Z) : Z := bits w 45 2.
Definition seg_type (w : Z) : Z := bits w 40 5.
Definition seg_present (w : Z) : bool := Z.testbit w 47.
(** The last byte of a segment. *)
Definition seg_end (w : Z) : Z := if Z.testbit w 55 then seg_base w + (seg_limit w + 1) * 4096 - 1 else seg_base w + seg_limit w.

Definition gate_offset (g : GateDesc) : Z := func_offset_low_word g + func_offset_high_word g * 2 ^ 16.
Definition gate_dpl (g : GateDesc) : Z := bits (attribute g) 5 2.
Definition gate_present (g : GateDesc) : bool := Z.testbit (attribute g) 7.
Definition gate_type (g : GateDesc) : Z := bits (attribute g) 0 5.

Lemma land_low x : Z.land x 0x0000ffff = x mod 2 ^ 16.
Proof. change 0xffff with (Z.ones 16). by rewrite Z.land_ones. Qed.
(** A masked field that ends at a shift. *)
Lemma land_field x lo n : 0 ≤ lo → 0 ≤ n → Z.shiftr (Z.land x (Z.shiftl (Z.ones n) lo)) lo = x / 2 ^ lo mod 2 ^ n.
Proof.
  intros. rewrite Z.shiftr_land, Z.shiftr_shiftl_l by lia. rewrite Z.sub_diag, Z.shiftl_0_r, Z.land_ones by lia.
  by rewrite Z.shiftr_div_pow2.
Qed.

Lemma make_gdt_desc_fields base limit al ah : 0 ≤ base < 2 ^ 32 → 0 ≤ limit < 2 ^ 20 → is_byte al → is_byte ah → ah mod 16 = 0 →
  make_gdt_desc base limit al ah
  = mkGdt (limit mod 2 ^ 16) (base mod 2 ^ 16) (base / 2 ^ 16 mod 2 ^ 8) al (limit / 2 ^ 16 + ah) (base / 2 ^ 24).
Proof.
  unfold is_byte. intros Hb Hl Hal Hah Hah0. unfold make_gdt_desc. rewrite (u32_id base) by done.
  rewrite !land_low. change 0xff0000 with (Z.shiftl (Z.ones 8) 16). change 0xf0000 with (Z.shiftl (Z.ones 4) 16).
  rewrite !land_field by lia. rewrite Z.shiftr_div_pow2 by lia. unfold u8, u16.
  rewrite !(Z.mod_mod _ (2 ^ 16)), (Z.mod_mod _ (2 ^ 8)), (Z.mod_small al), (Z.mod_small ah) by lia.
  f_equal; apply Z.mod_small || rewrite Z.mod_small; Z.div_mod_to_equations; lia.
Qed.

(** The four parts of a sum of shifted fields. *)
Lemma desc_word_fields base limit al ah : 0 ≤ base < 2 ^ 32 → 0 ≤ limit < 2 ^ 20 → is_byte al → is_byte ah → ah mod 16 = 0 →
  let w := desc_word (make_gdt_desc base limit al ah) in
  seg_base w = base ∧ seg_limit w = limit ∧ seg_access w = al ∧ seg_flags w = ah / 16.
Proof.
  intros Hb Hl Hal Hah Hah0. unfold desc_word. rewrite make_gdt_desc_fields by done. unfold is_byte in *.
  unfold seg_base, seg_limit, seg_access, seg_flags, bits. rewrite !Z.shiftr_div_pow2 by lia.
  cbn [limit_low_word base_low_word base_mid_byte attr_low_byte limit_high_attr_high base_high_byte].
  split_and!; Z.div_mod_to_equations; lia.
Qed.

(** Segment descriptors.  For every 32-bit base, 20-bit limit and attribute
    bytes, the descriptor that [make_gdt_desc] builds reads back, in the
    processor's layout, as that base, limit and attributes. *)
Theorem gdt_desc_roundtrip base limit al ah :
  0 ≤ base < 2 ^ 32 → 0 ≤ limit < 2 ^ 20 → is_byte al → is_byte ah → ah mod 16 = 0 →
  let w := desc_word (make_gdt_desc base limit al ah) in
  seg_base w = base ∧ seg_limit w = limit ∧ seg_access w = al ∧ seg_flags w = ah / 16.
Proof. apply desc_word_fields. Qed.

Lemma gdt_desc_roundtrip_witness :
  let w := desc_word (make_gdt_desc 0xc0012345 107 TSS_ATTR_LOW TSS_ATTR_HIGH) in
  seg_base w = 0xc0012345 ∧ seg_limit w = 107 ∧ seg_access w = TSS_ATTR_LOW ∧ seg_flags w = TSS_ATTR_HIGH / 16.
Proof.
  apply (gdt_desc_roundtrip 0xc0012345 107 TSS_ATTR_LOW TSS_ATTR_HIGH); try (split; [discriminate|reflexivity]). reflexivity.
Defined.

(** The descriptor a selector names in the table at [0xc0000900]. *)
Definition selected (d : dev) (sel : Z) : option GdtDesc := gdt d !! (0xc0000900 + 8 * (sel / 8)).

(** [tss_init] installs what the selectors name.  The user code and data
    selectors have privilege 3 and find present descriptors of privilege 3 that
    span all 4 GB, of the code and the data type; the task register names a
    present TSS descriptor of privilege 0 at the address of [tss], whose stack
    segment is the kernel's; the table register covers all of them and every
    other descriptor is kept. *)
Theorem tss_init_correct tss_addr d : 0 ≤ tss_addr < 2 ^ 32 →
  let d' := tss_init tss_addr d in
  (∀ sel ty, (sel, ty) ∈ [(SELECTOR_U_CODE, 0x18); (SELECTOR_U_DATA, 0x12)] → ∃ g, selected d' sel = Some g ∧
     let w := desc_word g in
     sel mod 4 = 3 ∧ seg_dpl w = 3 ∧ seg_present w = true ∧ seg_type w = ty ∧ seg_base w = 0 ∧ seg_end w = 2 ^ 32 - 1) ∧
  (∃ g, selected d' (tr d') = Some g ∧ let w := desc_word g in
     seg_dpl w = 0 ∧ seg_present w = true ∧ seg_type w = DESC_TYPE_TSS ∧ seg_base w = tss_addr
     ∧ seg_limit w = 4 * len (tss d') - 1 ∧ (tss d')@@2 = SELECTOR_K_STACK ∧ (tss d')@@26 = 4 * len (tss d')) ∧
  (∀ sel, sel ∈ [SELECTOR_U_CODE; SELECTOR_U_DATA; tr d'] → 8 * (sel / 8) + 7 ≤ bits (gdtr d') 0 16) ∧
  bits (gdtr d') 16 32 = 0xc0000900 ∧
  (∀ a, a ≠ 0xc0000920 → a ≠ 0xc0000928 → a ≠ 0xc0000930 → gdt d' !! a = gdt d !! a).
Proof.
  intros Ha d'. assert (∀ a, gdt d' !! a = <[0xc0000930 := make_gdt_desc 0 0xfffff GDT_DATA_ATTR_LOW_DPL3 GDT_ATTR_HIGH]>
    (<[0xc0000928 := make_gdt_desc 0 0xfffff GDT_CODE_ATTR_LOW_DPL3 GDT_ATTR_HIGH]>
    (<[0xc0000920 := make_gdt_desc tss_addr 107 TSS_ATTR_LOW TSS_ATTR_HIGH]> (gdt d))) !! a) as Hg by done.
  split_and!.
  - intros sel ty Hin. unfold selected. rewrite Hg. rewrite elem_of_cons, list_elem_of_singleton in Hin.
    destruct Hin as [[= -> ->]|[= -> ->]].
    + rewrite lookup_insert_ne, lookup_insert_eq by (vm_compute; discriminate). eexists. split; [reflexivity|]. by vm_compute.
    + rewrite lookup_insert_eq by (vm_compute; discriminate). eexists. split; [reflexivity|]. by vm_compute.
  - exists (make_gdt_desc tss_addr 107 TSS_ATTR_LOW TSS_ATTR_HIGH). split.
    + unfold selected. rewrite Hg, !lookup_insert_ne by (vm_compute; discriminate). apply lookup_insert_eq.
    + destruct (desc_word_fields tss_addr 107 TSS_ATTR_LOW TSS_ATTR_HIGH) as (B & L & A & F);
        [done|lia|split; [discriminate|reflexivity]|split; [discriminate|reflexivity]|done|].
      set (w := desc_word _) in *. unfold seg_access, bits in A.
      assert (∀ k n, 40 ≤ k → 0 ≤ n → k + n ≤ 48 → Z.shiftr w k mod 2 ^ n = Z.shiftr (Z.shiftr w 40 mod 2 ^ 8) (k - 40) mod 2 ^ n) as Hsub.
      { intros k n Hk Hn Hkn. rewrite <- !Z.land_ones by lia. apply Z.bits_inj'. intros i Hi.
        rewrite !Z.land_spec, !Z.shiftr_spec by lia. rewrite Z.land_spec, Z.shiftr_spec by lia.
        rewrite !Z.testbit_ones_nonneg by lia. destruct (Z.ltb_spec i n); [|by rewrite !andb_false_r].
        destruct (Z.ltb_spec (i + (k - 40)) 8); [|lia]. rewrite !andb_true_r. f_equal. lia. }
      split_and!; [| | |done|done|done|done].
      * unfold seg_dpl, bits. rewrite Hsub, A by lia. done.
      * unfold seg_present. assert (Z.testbit w 47 = Z.testbit (Z.shiftr w 40 mod 2 ^ 8) 7) as ->; [|by rewrite A].
        rewrite Z.mod_pow2_bits_low, Z.shiftr_spec by lia. done.
      * unfold seg_type, bits. rewrite Hsub, A by lia. done.
  - intros sel. rewrite !elem_of_cons, elem_of_nil. intros [->|[->|[->|[]]]]; by vm_compute.
  - by vm_compute.
  - intros a H1 H2 H3. by rewrite Hg, !lookup_insert_ne by done.
Qed.

(** Before start-up: empty tables of the right sizes. *)
Definition dev0 : dev :=
  mkDev (replicate 129 (mkGate 0 0 0 0 0)) (replicate 129 0) (replicate 129 []) ∅ [] 0 0 0 [] [].

Lemma tss_init_correct_witness :
  0xc0009000 < 2 ^ 32 ∧ (∀ sel ty, (sel, ty) ∈ [(SELECTOR_U_CODE, 0x18); (SELECTOR_U_DATA, 0x12)] → ∃ g, selected (tss_init 0xc0009000 dev0) sel = Some g ∧
     let w := desc_word g in
     sel mod 4 = 3 ∧ seg_dpl w = 3 ∧ seg_present w = true ∧ seg_type w = ty ∧ seg_base w = 0 ∧ seg_end w = 2 ^ 32 - 1).
Proof. split; [reflexivity|]. apply (tss_init_correct 0xc0009000 dev0). split; [discriminate|reflexivity]. Defined.

(** ** The interrupt table *)
Lemma make_idt_desc_ok attr f : 0 ≤ f < 2 ^ 32 → is_byte attr →
  gate_offset (make_idt_desc attr f) = f ∧ attribute (make_idt_desc attr f) = attr.
Proof.
  unfold is_byte. intros Hf Ha. unfold gate_offset, make_idt_desc. simpl. split; [|by apply u8_id].
  rewrite land_low. change 0xffff0000 with (Z.shiftl (Z.ones 16) 16). rewrite land_field by lia.
  rewrite (Z.mod_small (f / 2 ^ 16)) by (Z.div_mod_to_equations; lia). Z.div_mod_to_equations. lia.
Qed.

Lemma idt_fill_ok n i entries t : 0 ≤ i → i + Z.of_nat n ≤ len entries → i + Z.of_nat n ≤ len t →
  idt_fill n i entries t ⇓ λ t', len t' = len t ∧ ∀ k, 0 ≤ k →
    t' !! Z.to_nat k = if decide (i ≤ k < i + Z.of_nat n) then Some (make_idt_desc IDT_DESC_ATTR_DPL0 entries@@k) else t !! Z.to_nat k.
Proof.
  revert i t. induction n as [|n IH]; intros i t Hi He Ht; cbn [idt_fill].
  - split; [done|]. intros k Hk. by rewrite decide_False by lia.
  - rewrite rd_ok by lia. obind. rewrite wr_ok by lia. obind.
    eapply returns_mono; [apply IH; rewrite ?len_insert; lia|]. intros t' [Hl Hk]. rewrite len_insert in Hl. split; [done|].
    intros k Hk0. rewrite Hk by done. destruct (decide (k = i)) as [->|].
    + rewrite decide_False, decide_True, list_lookup_insert_eq by (unfold len in *; lia). done.
    + rewrite list_lookup_insert_ne by lia. repeat case_decide; lia || done.
Qed.

Lemma exception_fill_ok n i g d : 0 ≤ i → i + Z.of_nat n ≤ len (idt_table d) → i + Z.of_nat n ≤ len (intr_name d) →
  exception_fill n i g d ⇓ λ d', ∃ t nm, d' = set_intr_name nm (set_idt_table t d) ∧ len t = len (idt_table d) ∧ len nm = len (intr_name d)
    ∧ ∀ k, 0 ≤ k → t !! Z.to_nat k = if decide (i ≤ k < i + Z.of_nat n) then Some g else idt_table d !! Z.to_nat k.
Proof.
  revert i d. induction n as [|n IH]; intros i d Hi Ht Hn; cbn [exception_fill].
  - exists (idt_table d), (intr_name d). split_and!; [by destruct d|done|done|]. intros k Hk. by rewrite decide_False by lia.
  - rewrite wr_ok by lia. obind. rewrite wr_ok by lia. obind.
    eapply returns_mono; [apply IH; simpl; rewrite ?len_insert; lia|]. intros d' (t & nm & -> & Hl1 & Hl2 & Hk).
    cbn [idt_table intr_name set_intr_name set_idt_table] in Hl1, Hl2, Hk. rewrite len_insert in Hl1. rewrite len_insert in Hl2. exists t, nm. split_and!; [by destruct d|done|done|].
    intros k Hk0. rewrite Hk by done. destruct (decide (k = i)) as [->|].
    + rewrite decide_False, decide_True, list_lookup_insert_eq by (unfold len in *; lia). done.
    + rewrite list_lookup_insert_ne by lia. repeat case_decide; lia || done.
Qed.

Lemma set_names_ok l names : Forall (λ p, 0 ≤ p.1 < len names) l → ∃ names', set_names l names = Ok names' ∧ len names' = len names.
Proof.
  revert names. induction l as [|[i s] l IH]; intros names Hl; cbn [set_names]; [eauto|].
  apply Forall_cons in Hl as [Hi Hl]. simpl in Hi. rewrite wr_ok by done. obind.
  destruct (IH (<[Z.to_nat i := s]> names)) as (n' & H1 & H2); [by rewrite len_insert|].
  rewrite len_insert in H2. eauto.
Qed.

Lemma lor_shiftl a c n : 0 ≤ n → 0 ≤ c < 2 ^ n → Z.lor c (Z.shiftl a n) = a * 2 ^ n + c.
Proof.
  intros Hn Hc. pose proof (Z.add_lor_land c (Z.shiftl a n)) as E.
  assert (Z.land c (Z.shiftl a n) = 0) as H0.
  { rewrite <- (Z.mod_small c (2 ^ n)), <- Z.land_ones, <- Z.land_assoc, (Z.land_comm (Z.ones n)), Z.land_ones by lia.
    rewrite Z.shiftl_mul_pow2, Z.mod_mul by lia. apply Z.land_0_r. }
  rewrite Z.shiftl_mul_pow2 in * by lia. lia.
Qed.

(** The operand of lidt: 16 bits of limit below the address. *)
Lemma idt_operand_ok a : let w := Z.lor (8 * IDT_DESC_CNT - 1) (Z.shiftl a 16) in bits w 0 16 = 8 * 129 - 1 ∧ Z.shiftr w 16 = a.
Proof.
  intros w. unfold w. rewrite lor_shiftl by (unfold IDT_DESC_CNT; lia).
  unfold bits, IDT_DESC_CNT. rewrite !Z.shiftr_div_pow2 by lia. split; Z.div_mod_to_equations; lia.
Qed.

(** The bytes [pic_init] sends: master at vector 0x20, slave at 0x28, with the
    timer, the keyboard, the cascade and the disk unmasked. *)
Definition pic_log : list (Z * Z) :=
  [(0x20, 0x11); (0x21, 0x20); (0x21, 0x04); (0x21, 0x01); (0xa0, 0x11); (0xa1, 0x28); (0xa1, 0x02); (0xa1, 0x01);
   (0x21, 0xf8); (0xa1, 0xbf)].

(** [idt_init] on a complete entry table.  Every vector gets a present
    32-bit interrupt gate of the kernel code segment that leads to its entry,
    callable from the kernel only, except that vector 0x80 leads to the system
    call handler and is callable from user mode; every vector is handled by the
    general handler; the table register covers exactly the 129 gates; and the
    interrupt controller gets its initialisation sequence. *)
Theorem idt_init_correct entries sysc gen addr d :
  len (idt d) = 129 → len (idt_table d) = 129 → len (intr_name d) = 129 → 129 ≤ len entries →
  Forall (λ f, 0 ≤ f < 2 ^ 32) entries → 0 ≤ sysc < 2 ^ 32 → 0 ≤ addr < 2 ^ 32 →
  ∃ d', idt_init entries sysc gen addr d = Ok d' ∧
    (∀ i, 0 ≤ i < 129 → ∃ g, idt d' !! Z.to_nat i = Some g ∧ gate_present g = true ∧ gate_type g = 0xE
       ∧ selector g = SELECTOR_K_CODE ∧ idt_table d' !! Z.to_nat i = Some gen
       ∧ if i =? 0x80 then gate_offset g = sysc ∧ gate_dpl g = 3 else gate_offset g = entries@@i ∧ gate_dpl g = 0) ∧
    bits (idtr d') 0 16 = 8 * len (idt d') - 1 ∧ Z.shiftr (idtr d') 16 = addr ∧ ports d' = ports d ++ pic_log.
Proof.
  intros Hi Ht Hn He Hf Hs Ha. unfold idt_init, idt_desc_init. cbn [idt put set_screen].
  destruct (returns_inv _ _ (idt_fill_ok (Z.to_nat IDT_DESC_CNT) 0 entries (idt d) ltac:(lia)
    ltac:(unfold IDT_DESC_CNT; lia) ltac:(unfold IDT_DESC_CNT; lia))) as (t & -> & Hl & Hk). obind.
  rewrite wr_ok by lia. obind. unfold exception_init. cbn [idt idt_table intr_name set_idt put set_screen].
  match goal with |- context [exception_fill ?n 0 gen ?d1] =>
    destruct (returns_inv _ _ (exception_fill_ok n 0 gen d1 ltac:(lia)
      ltac:(unfold IDT_DESC_CNT; simpl; lia) ltac:(unfold IDT_DESC_CNT; simpl; lia))) as (d2 & -> & t2 & nm & -> & Hl2 & Hl3 & Hk2)
  end.
  obind. cbn [idt_table intr_name set_idt put set_screen set_intr_name set_idt_table] in *.
  destruct (set_names_ok exception_names nm) as (nm' & -> & Hl4).
  { rewrite Hl3, Hn. unfold exception_names. repeat constructor; simpl; lia. }
  obind. eexists. split; [reflexivity|].
  unfold pic_init. cbn -[Z.lor Z.shiftl Z.shiftr insert text u16 u8 len Z.mul Z.sub]. split_and!.
  - intros i Hi'. specialize (Hk2 i ltac:(lia)). rewrite decide_True in Hk2 by (unfold IDT_DESC_CNT; lia).
    destruct (Z.eqb_spec i 0x80) as [->|Hne].
    + exists (make_idt_desc IDT_DESC_ATTR_DPL3 sysc). rewrite list_lookup_insert_eq by (unfold len in *; lia).
      destruct (make_idt_desc_ok IDT_DESC_ATTR_DPL3 sysc) as [E1 E2]; [done|split; [discriminate|reflexivity]|].
      unfold gate_present, gate_type, gate_dpl. by rewrite E1, E2.
    + exists (make_idt_desc IDT_DESC_ATTR_DPL0 entries@@i). rewrite list_lookup_insert_ne, Hk by lia.
      rewrite decide_True by (unfold IDT_DESC_CNT; lia).
      destruct (make_idt_desc_ok IDT_DESC_ATTR_DPL0 entries@@i) as [E1 E2];
        [apply (nthz_in _ _ (λ f, 0 ≤ f < 2 ^ 32)); [done|lia]|split; [discriminate|reflexivity]|].
      unfold gate_present, gate_type, gate_dpl. by rewrite E1, E2.
  - rewrite len_insert, Hl, Hi. apply idt_operand_ok.
  - rewrite u32_id by done. apply (idt_operand_ok addr).
  - by rewrite <- !app_assoc.
Qed.

Lemma idt_init_correct_witness :
  ∃ d', idt_init (replicate 129 0xc0001500) 0xc0001900 0xc0001a00 0xc0007000 dev0 = Ok d' ∧
    (∀ i, 0 ≤ i < 129 → ∃ g, idt d' !! Z.to_nat i = Some g ∧ gate_present g = true ∧ gate_type g = 0xE
       ∧ selector g = SELECTOR_K_CODE ∧ idt_table d' !! Z.to_nat i = Some 0xc0001a00
       ∧ if i =? 0x80 then gate_offset g = 0xc0001900 ∧ gate_dpl g = 3
         else gate_offset g = (replicate 129 0xc0001500)@@i ∧ gate_dpl g = 0) ∧
    bits (idtr d') 0 16 = 8 * len (idt d') - 1 ∧ Z.shiftr (idtr d') 16 = 0xc0007000 ∧ ports d' = ports dev0 ++ pic_log.
Proof.
  apply (idt_init_correct (replicate 129 0xc0001500) 0xc0001900 0xc0001a00 0xc0007000 dev0);
    [reflexivity|reflexivity|reflexivity|discriminate|apply Forall_replicate; lia|lia|lia].
Defined.

(** kernel.S: [intr_entry_table] has one word for each VECTOR line. *)
Definition entry_table_vectors : Z := 0x30.

Lemma idt_fill_fault n i entries t : 0 ≤ i ≤ len entries → len entries < i + Z.of_nat n → i + Z.of_nat n ≤ len t →
  idt_fill n i entries t = Fault.
Proof.
  revert i t. induction n as [|n IH]; intros i t Hi He Ht; [lia|]. cbn [idt_fill].
  destruct (decide (i = len entries)) as [E|].
  - rewrite rd_fault by lia. done.
  - rewrite rd_ok by lia. obind. rewrite wr_ok by lia. obind. apply IH; rewrite ?len_insert; lia.
Qed.

(** The loop of [idt_desc_init] runs over all 129 vectors while the table
    of kernel.S has entries for the first 48 only, so it reads past the end of
    that table. *)
Theorem idt_init_overreads entries sysc gen addr d :
  len entries = entry_table_vectors → len (idt d) = 129 → idt_init entries sysc gen addr d = Fault.
Proof.
  unfold entry_table_vectors. intros He Hi. unfold idt_init, idt_desc_init. cbn [idt put set_screen].
  rewrite idt_fill_fault by (unfold IDT_DESC_CNT; lia). done.
Qed.

Lemma idt_init_overreads_witness : idt_init (replicate 48 0xc0001500) 0xc0001900 0xc0001a00 0xc0007000 dev0 = Fault.
Proof. apply (idt_init_overreads (replicate 48 0xc0001500) 0xc0001900 0xc0001a00 0xc0007000 dev0); reflexivity. Defined.

(** The timer is not programmed to [IRQ0_FREQUENCY].  The reload value is
    sent as a low and a high byte, but the cast binds tighter than the shift, so
    the high byte is always 0: the counter gets 155 instead of 11931 and the
    timer runs at more than 7600 interrupts per second instead of 100. *)
Theorem time_init_truncates handler d : len (idt_table d) = 129 →
  ∃ d', time_init handler d = Ok d' ∧ idt_table d' = <[0x20%nat := handler]> (idt_table d) ∧
    ports d' = ports d ++ [(PIT_CONTROL_PORT, 0x34); (COUNTER0_PORT, COUNTER0_VALUE mod 2 ^ 8); (COUNTER0_PORT, 0)] ∧
    COUNTER0_VALUE = 11931 ∧ COUNTER0_VALUE mod 2 ^ 8 = 155 ∧ 7600 < INPUT_FREQUENCY / 155.
Proof.
  intros Hl. unfold time_init, register_handler. 
  match goal with |- context [wr (idt_table ?x) _ _] => change (idt_table x) with (idt_table d) end.
  change (u8 0x20) with 0x20. rewrite wr_ok by lia. obind. eexists. split; [reflexivity|].
  cbn -[text Z.mul insert app]. rewrite <- !app_assoc. done.
Qed.

Lemma time_init_truncates_witness :
  ∃ d', time_init 0xc0002000 dev0 = Ok d' ∧ idt_table d' = <[0x20%nat := 0xc0002000]> (idt_table dev0) ∧
    ports d' = ports dev0 ++ [(PIT_CONTROL_PORT, 0x34); (COUNTER0_PORT, COUNTER0_VALUE mod 2 ^ 8); (COUNTER0_PORT, 0)] ∧
    COUNTER0_VALUE = 11931 ∧ COUNTER0_VALUE mod 2 ^ 8 = 155 ∧ 7600 < INPUT_FREQUENCY / 155.
Proof. apply (time_init_truncates 0xc0002000 dev0). reflexivity. Defined.
