(* ===== verification/Keyboard.v ===== *)
(** * device/keyboard.c: the keyboard driver

    The static flags and the buffer of typed characters are a record that the
    handler takes and returns, with the text it prints; the byte read from the
    keyboard port is an argument. *)
From Stdlib Require Import String Ascii.
From S2P Require Import Prelude CString Bitmap Machine DList Mmu PageMem Sched Sync IoQueue Stdio Cpu.

Definition ctrl_l_make : Z := 0x1d.
Definition ctrl_r_make : Z := 0xe01d.
Definition shift_l_make : Z := 0x2a.
Definition shift_r_make : Z := 0x36.
Definition alt_l_make : Z := 0x38.
Definition alt_r_make : Z := 0xe038.
Definition caps_lock_make : Z := 0x3a.

(** By make code: the character without and with shift. *)
Definition keymap : list (Z * Z) :=
  [(0, 0); (27, 27); (49, 33); (50, 64); (51, 35); (52, 36); (53, 37); (54, 94);
   (55, 38); (56, 42); (57, 40); (48, 41); (45, 95); (61, 43); (8, 8); (9, 9);
   (113, 81); (119, 87); (101, 69); (114, 82); (116, 84); (121, 89); (117, 85); (105, 73);
   (111, 79); (112, 80); (91, 123); (93, 125); (13, 13); (0, 0); (97, 65); (115, 83);
   (100, 68); (102, 70); (103, 71); (104, 72); (106, 74); (107, 75); (108, 76); (59, 58);
   (39, 34); (96, 126); (0, 0); (92, 124); (122, 90); (120, 88); (99, 67); (118, 86);
   (98, 66); (110, 78); (109, 77); (44, 60); (46, 62); (47, 63); (0, 0); (42, 42);
   (0, 0); (32, 32); (0, 0)].

Record kbd := mkKbd {
  ctrl_status : bool;
  shift_status : bool;
  alt_status : bool;
  caps_lock_status : bool;
  ext_scancode : bool;
  KeybdBuf : IoQueue;
}.
Definition set_ctrl v k := mkKbd v (shift_status k) (alt_status k) (caps_lock_status k) (ext_scancode k) (KeybdBuf k).
Definition set_shift v k := mkKbd (ctrl_status k) v (alt_status k) (caps_lock_status k) (ext_scancode k) (KeybdBuf k).
Definition set_alt v k := mkKbd (ctrl_status k) (shift_status k) v (caps_lock_status k) (ext_scancode k) (KeybdBuf k).
Definition set_caps v k := mkKbd (ctrl_status k) (shift_status k) (alt_status k) v (ext_scancode k) (KeybdBuf k).
Definition set_ext v k := mkKbd (ctrl_status k) (shift_status k) (alt_status k) (caps_lock_status k) v (KeybdBuf k).
Definition set_kbuf v k := mkKbd (ctrl_status k) (shift_status k) (alt_status k) (caps_lock_status k) (ext_scancode k) v.

(** The keys of two symbols. *)
Definition two_symbols (scancode : Z) : bool :=
  (scancode <? 0x0e) || (scancode =? 0x29) || (scancode =? 0x1a) || (scancode =? 0x1b) || (scancode =? 0x2b)
  || (scancode =? 0x27) || (scancode =? 0x28) || (scancode =? 0x33) || (scancode =? 0x34) || (scancode =? 0x35).
Definition use_shift (scancode : Z) (shift_down_last caps_lock_last : bool) : bool :=
  if two_symbols scancode then if shift_down_last then true else false
  else if shift_down_last && caps_lock_last then false
  else if shift_down_last || caps_lock_last then true
  else false.

Definition intr_keyboard_handler (port : Z) (k : kbd) : K (kbd * list Z) :=
  let ctrl_down_last := ctrl_status k in
  let shift_down_last := shift_status k in
  let caps_lock_last := caps_lock_status k in
  let scancode := u8 port in
  if scancode =? 0xe0 then mret (set_ext true k, [])
  else
    let '(scancode, k) := if ext_scancode k then (Z.lor 0xe000 scancode, set_ext false k) else (scancode, k) in
    if negb (Z.land scancode 0x0080 =? 0) then
      let make_code := Z.land scancode 0xff7f in
      mret (if (make_code =? ctrl_l_make) || (make_code =? ctrl_r_make) then set_ctrl false k
            else if (make_code =? shift_l_make) || (make_code =? shift_r_make) then set_shift false k
            else if (make_code =? alt_l_make) || (make_code =? alt_r_make) then set_alt false k
            else k, [])
    else if ((0 <? scancode) && (scancode <? 0x3b)) || (scancode =? alt_r_make) || (scancode =? ctrl_r_make) then
      let shift := use_shift scancode shift_down_last caps_lock_last in
      let scancode := Z.land scancode 0x00ff in
      row ← lift (rd keymap scancode);
      let cur_char := if (shift : bool) then row.2 else row.1 in
      if negb (cur_char =? 0) then
        let cur_char := if (ctrl_down_last && (cur_char =? 108)) || (ctrl_down_last && (cur_char =? 117)) then cur_char - 97 else cur_char in
        full ← ioq_full (KeybdBuf k);
        if negb full then q ← ioq_putchar (KeybdBuf k) cur_char; mret (set_kbuf q k, [])
        else mret (k, [])
      else
        mret (if (scancode =? ctrl_l_make) || (scancode =? ctrl_r_make) then set_ctrl true k
              else if (scancode =? shift_l_make) || (scancode =? shift_r_make) then set_shift true k
              else if (scancode =? alt_l_make) || (scancode =? alt_r_make) then set_alt true k
              else if scancode =? caps_lock_make then set_caps (negb (caps_lock_status k)) k
              else k, [])
    else mret (k, text "unknown key" ++ [10]).

Definition keyboard_init (handler : Z) (k : kbd) (d : dev) : K (kbd * dev) :=
  let d := put (text "keyboard init ... ") d in
  q ← ioqueue_init (KeybdBuf k);
  d ← lift (register_handler 0x21 handler d);
  mret (set_kbuf q k, put (text "done" ++ [10]) d).

(** ** What a key means

    The keyboard sends a byte 0xe0 before the code of an extended key; bit 7
    tells a release from a press. *)
Record mods := mkMods { m_ctrl : bool; m_shift : bool; m_alt : bool; m_caps : bool; m_ext : bool }.
Definition mods_of (k : kbd) : mods :=
  mkMods (ctrl_status k) (shift_status k) (alt_status k) (caps_lock_status k) (ext_scancode k).

Inductive key := KCtrl | KShift | KAlt | KCaps | KChar (lower upper : Z) | KOther.
Definition key_of (ext : bool) (code : Z) : key :=
  if ext then (if code =? 0x1d then KCtrl else if code =? 0x38 then KAlt else KOther)
  else match keymap !! Z.to_nat code with
       | Some (0, 0) => if code =? 0x1d then KCtrl else if (code =? 0x2a) || (code =? 0x36) then KShift
                        else if code =? 0x38 then KAlt else if code =? 0x3a then KCaps else KOther
       | Some (lower, upper) => KChar lower upper
       | None => KOther
       end.
Definition is_letter (c : Z) : bool := (97 <=? c) && (c <=? 122).

(** Caps lock acts on letters only, shift on all keys; control with l or u
    gives a control code. *)
Definition typed (m : mods) (lower upper : Z) : Z :=
  let c := if is_letter lower then (if xorb (m_shift m) (m_caps m) then upper else lower)
           else if m_shift m then upper else lower in
  if m_ctrl m && ((c =? 108) || (c =? 117)) then c - 97 else c.

Definition spec_key (port : Z) (m : mods) : mods * option Z * bool :=
  let mx := mkMods (m_ctrl m) (m_shift m) (m_alt m) (m_caps m) false in
  if port =? 0xe0 then (mkMods (m_ctrl m) (m_shift m) (m_alt m) (m_caps m) true, None, false)
  else
    let down := port <? 128 in
    match key_of (m_ext m) (port mod 128) with
    | KCtrl => (mkMods down (m_shift m) (m_alt m) (m_caps m) false, None, false)
    | KShift => (mkMods (m_ctrl m) down (m_alt m) (m_caps m) false, None, false)
    | KAlt => (mkMods (m_ctrl m) (m_shift m) down (m_caps m) false, None, false)
    | KCaps => (mkMods (m_ctrl m) (m_shift m) (m_alt m) (if down then negb (m_caps m) else m_caps m) false, None, false)
    | KChar lower upper => (mx, if down then Some (typed m lower upper) else None, false)
    | KOther => (mx, None, down)
    end.

(** The effect of a decoded key on the driver's state. *)
Definition interp (q : IoQueue) (r : mods * option Z * bool) : K (kbd * list Z) :=
  let '(m, oc, unknown) := r in
  let k := mkKbd (m_ctrl m) (m_shift m) (m_alt m) (m_caps m) (m_ext m) q in
  match oc with
  | Some c => full ← ioq_full q; if negb full then q ← ioq_putchar q c; mret (set_kbuf q k, []) else mret (k, [])
  | None => mret (k, if (unknown : bool) then text "unknown key" ++ [10] else [])
  end.

(** The handler decodes as the specification does: all bytes, all flags. *)
Lemma handler_decodes port k : is_byte port → intr_keyboard_handler port k = interp (KeybdBuf k) (spec_key port (mods_of k)).
Proof.
  intros Hp. destruct k as [a b c d e q]. unfold mods_of. cbn [ctrl_status shift_status alt_status caps_lock_status ext_scancode KeybdBuf].
  assert (Forall (λ port, intr_keyboard_handler port (mkKbd a b c d e q) = interp q (spec_key port (mkMods a b c d e))) (seqZ 0 256)) as H.
  { let l := eval vm_compute in (seqZ 0 256) in change (seqZ 0 256) with l.
    destruct a, b, d, e; repeat (apply List.Forall_cons; [reflexivity|]); constructor. }
  rewrite Forall_forall in H. apply H. apply elem_of_seqZ. unfold is_byte in Hp. lia.
Qed.

(** The buffer takes a character. *)
Definition takes (q : IoQueue) (oc : option Z) : bool :=
  if oc is Some _ then bool_decide (length (contents q) < 63)%nat else false.

Lemma spec_key_char port m m' c u : spec_key port m = (m', Some c, u) → u = false.
Proof.
  unfold spec_key. destruct (port =? 224); [by intros [= <- <- <-]|].
  destruct (key_of _ _); try (intros [= <- <- <-]; done). all: by intros [=].
Qed.

(** C32: The keyboard handler, for every byte from the keyboard, whether a thread
    waits for a key or not.  It keeps track of control, shift, alt, caps lock
    (toggled by a press) and of the extended prefix as the specification says; a
    pressed character key appends to the buffer exactly the character that
    shift, caps lock (letters only) and control select, unless 63 characters are
    waiting, when it is dropped; nothing else enters the buffer; only unknown
    presses are reported.  A thread that sleeps as the buffer's consumer is made
    ready, ahead of all others, exactly when a character was appended, and is
    then no longer the consumer; otherwise the kernel state is unchanged.  The
    interrupted thread goes on running. *)
Theorem keyboard_handler_correct port k pd L rq s t :
  is_byte port → running pd L rq s t → intr s = INTR_OFF → ioq_wf (KeybdBuf k) → sleeper L s (consumer (KeybdBuf k)) →
  ∃ k' s' m' oc unknown, spec_key port (mods_of k) = (m', oc, unknown) ∧
    intr_keyboard_handler port k s = Ok ((k', if (unknown : bool) then text "unknown key" ++ [10] else []), s') ∧
    mods_of k' = m' ∧ ioq_wf (KeybdBuf k') ∧
    contents (KeybdBuf k') = match oc with
      | Some c => if decide (length (contents (KeybdBuf k)) < 63)%nat then contents (KeybdBuf k) ++ [c] else contents (KeybdBuf k)
      | None => contents (KeybdBuf k) end ∧
    if takes (KeybdBuf k) oc && negb (consumer (KeybdBuf k) =? NULL) then
      consumer (KeybdBuf k') = NULL ∧ woken pd L rq s s' (consumer (KeybdBuf k))
      ∧ ∃ L' t', running pd L' (consumer (KeybdBuf k) :: rq) s' t' ∧ cur s' = cur s
    else consumer (KeybdBuf k') = consumer (KeybdBuf k) ∧ s' = s.
Proof.
  intros Hp [HS Hc Hr] Hi Hw Hsl. rewrite handler_decodes by done.
  destruct (spec_key port (mods_of k)) as [[m' oc] unknown] eqn:E. destruct oc as [c|]; cbn [interp takes].
  - pose proof (spec_key_char _ _ _ _ _ E) as ->. unfold mbind, K_bind. rewrite ioq_full_ok by done. case_decide as Hl.
    + destruct (next_pos _ =? _) eqn:Ef; [apply ioq_full_iff in Ef; [lia|done]|]. cbn [negb].
      destruct (ioq_putchar_wakes pd L rq s _ c HS Hi Hw Hl Hsl) as (q1 & s1 & -> & W1 & C1 & N1 & H1).
      eexists _, s1, m', (Some c), false. split; [done|]. split; [reflexivity|]. split_and!; [by destruct m'|done|done|].
      cbn [takes]. rewrite bool_decide_true by done. cbn [andb].
      destruct (Z.eqb_spec (consumer (KeybdBuf k)) NULL) as [En|En]; cbn [negb]; [split; [cbn; congruence|done]|].
      split_and!; [done|done|]. destruct (Hsl En) as (tw & Htw & Hst & _). destruct H1 as (tw' & h' & Htw' & -> & HS1).
      assert (consumer (KeybdBuf k) ≠ cur s).
      { intros Ec. rewrite Ec in Htw. rewrite Hc in Htw. simplify_eq. by rewrite Hr in Hst. }
      eexists _, t. split; [|done]. split; [exact HS1| |done]. cbn [tasks set_tasks]. by rewrite lookup_insert_ne by done.
    + assert ((next_pos (ioq_head (KeybdBuf k)) =? ioq_tail (KeybdBuf k)) = true) as ->.
      { apply ioq_full_iff; [done|]. rewrite length_contents in *. destruct Hw as [_ ? ?]. clear -Hl. unfold ioq_size, BUF_SIZE in *.
        Z.div_mod_to_equations. lia. }
      eexists _, s, m', (Some c), false. split; [done|]. split; [reflexivity|]. split_and!; [by destruct m'|done|done|].
      cbn [takes]. by rewrite bool_decide_false.
  - eexists _, s, m', None, unknown. split; [done|]. split; [reflexivity|]. split_and!; [by destruct m'|done|done|done].
Qed.

Definition demo_kbd : kbd := mkKbd false true false false false (demo_ioq 0x300000).

(** Shift held, the key 'a', and the thread 0x300000 waiting for a key: 'A' is
    buffered and the thread is woken. *)
Lemma keyboard_handler_correct_witness :
  ∃ demo_kbd' s' m' oc unknown, spec_key 0x1e (mods_of demo_kbd) = (m', oc, unknown) ∧
    intr_keyboard_handler 0x1e demo_kbd demo_sync = Ok ((demo_kbd', if (unknown : bool) then text "unknown key" ++ [10] else []), s') ∧
    mods_of demo_kbd' = m' ∧ ioq_wf (KeybdBuf demo_kbd') ∧
    contents (KeybdBuf demo_kbd') = match oc with
      | Some c => if decide (length (contents (KeybdBuf demo_kbd)) < 63)%nat then contents (KeybdBuf demo_kbd) ++ [c] else contents (KeybdBuf demo_kbd)
      | None => contents (KeybdBuf demo_kbd) end ∧
    if takes (KeybdBuf demo_kbd) oc && negb (consumer (KeybdBuf demo_kbd) =? NULL) then
      consumer (KeybdBuf demo_kbd') = NULL ∧ woken (λ _, 0) demo_sync_lists [0x200000] demo_sync s' (consumer (KeybdBuf demo_kbd))
      ∧ ∃ L' t', running (λ _, 0) L' (consumer (KeybdBuf demo_kbd) :: [0x200000]) s' t' ∧ cur s' = cur demo_sync
    else consumer (KeybdBuf demo_kbd') = consumer (KeybdBuf demo_kbd) ∧ s' = demo_sync.
Proof.
  apply (keyboard_handler_correct 0x1e demo_kbd (λ _, 0) demo_sync_lists [0x200000]
           demo_sync (demo_task 0x9e000 TASK_RUNNING));
    [split; [discriminate|reflexivity]|exact demo_sync_running|reflexivity|apply demo_ioq_wf|].
  intros _. exists (demo_task 0x300000 TASK_BLOCKED). split; [reflexivity|]. split; [reflexivity|].
  apply freshb_ok. vm_compute. reflexivity.
Defined.
