(* ===== verification/Thread.v ===== *)
(** * thread/thread.c, userprog/process.c, userprog/wait_exit.c: life of a thread

    Creation, lookup, reaping and listing of threads, on the kernel state of
    Machine.  A PCB occupies the start of a page; clearing it clears its
    members in [tasks], its two list tags in [links] and its block descriptors
    in [descs].  The kernel stack at the end of the page is memory.  Addresses
    of functions are arguments. *)
From Stdlib Require Import String Ascii.
From S2P Require Import Prelude CString Bitmap Machine DList Mmu PageMem Sched Sync Heap HeapBoot Stdio Console Cpu.

Definition sizeof_IntrStack : Z := 76.
Definition sizeof_ThreadStack : Z := 32.

(** Byte offsets of the members of a ThreadStack. *)
Definition ts_ebp : Z := 0.
Definition ts_ebx : Z := 4.
Definition ts_edi : Z := 8.
Definition ts_esi : Z := 12.
Definition ts_eip : Z := 16.
Definition ts_function : Z := 24.
Definition ts_func_arg : Z := 28.

Definition kernel_thread (func : Z → K unit) (args : Z) : K unit :=
  _ ← intr_enable; func args.

(** [self_kstack] points to 32-bit words, so the sizes are subtracted as counts
    of words. *)
Definition thread_create (kernel_thread pthread func args : Z) : K unit :=
  upd_task pthread (λ t, set_self_kstack (self_kstack t - 4 * sizeof_IntrStack) t) ;;
  upd_task pthread (λ t, set_self_kstack (self_kstack t - 4 * sizeof_ThreadStack) t) ;;
  t ← ld_task pthread;
  let ts := self_kstack t in
  vstore (ts + ts_eip) kernel_thread ;;
  vstore (ts + ts_function) func ;;
  vstore (ts + ts_func_arg) args ;;
  vstore (ts + ts_edi) 0 ;;
  vstore (ts + ts_esi) 0 ;;
  vstore (ts + ts_ebx) 0 ;;
  vstore (ts + ts_ebp) 0.

Definition allocate_pid : K Z :=
  l ← gets (λ s, pid_lock (glob s));
  lock_acquire l ;;
  modify (λ s, set_next_pid (i16 (next_pid s + 1)) s) ;;
  lock_release l ;;
  gets next_pid.
Definition fork_pid : K Z := allocate_pid.

(** [memset] of a PCB. *)
Definition zero_task : TaskStruct :=
  mkTask 0 0 TASK_RUNNING 0 (replicate 16 0) 0 0 (replicate 8 0) 0 (mkVirtualAddr (mkBitMap 0 []) 0) 0 0 0 0.
Definition zero_links (p : Z) (h : gmap Z ListElem) : gmap Z ListElem :=
  <[general_tag p := mkElem 0 0]> (<[all_list_tag p := mkElem 0 0]> h).
Fixpoint zero_descs (n : nat) (d : Z) (m : gmap Z MemBlockDesc) : gmap Z MemBlockDesc :=
  match n with O => m | S n => zero_descs n (d + sizeof_MemBlockDesc) (<[d := mkDesc 0 0]> m) end.
Definition clear_pcb (p : Z) : K unit :=
  kassert (negb (p =? NULL)) ;;
  modify (λ s, set_tasks (<[p := zero_task]> (tasks s)) s) ;;
  modify (λ s, set_links (zero_links p (links s)) s) ;;
  modify (λ s, set_descs (zero_descs DESC_CNT (u_block_desc p) (descs s)) s).

Fixpoint close_fds (n : nat) (fd_idx : Z) (t : list Z) : outcome (list Z) :=
  match n with O => mret t | S n => t ← wr t fd_idx (-1); close_fds n (fd_idx + 1) t end.
Definition init_fds (t : list Z) : outcome (list Z) :=
  t ← wr t 0 0; t ← wr t 1 1; t ← wr t 2 2; close_fds (Z.to_nat (MAX_FILES_OPEN_PER_PROC - 3)) 3 t.

Definition init_thread (pthread : Z) (nbuf : list Z) (np : Z) (prio : Z) : K unit :=
  clear_pcb pthread ;;
  t ← ld_task pthread;
  '(nm, _) ← lift (strcpy (name t) (Some 0) nbuf (Some np));
  upd_task pthread (set_name nm) ;;
  new_pid ← allocate_pid;
  upd_task pthread (set_pid new_pid) ;;
  main ← gets (λ s, main_thread (glob s));
  upd_task pthread (set_status (if pthread =? main then TASK_RUNNING else TASK_READY)) ;;
  upd_task pthread (set_priority (u8 prio)) ;;
  upd_task pthread (set_ticks (u8 prio)) ;;
  upd_task pthread (set_elapsed_ticks 0) ;;
  upd_task pthread (set_self_kstack (u32 (pthread + PG_SIZE))) ;;
  upd_task pthread (set_pgdir NULL) ;;
  t ← ld_task pthread;
  fds ← lift (init_fds (fd_table t));
  upd_task pthread (set_fd_table fds) ;;
  upd_task pthread (set_cwd_inode_nr 0) ;;
  upd_task pthread (set_parent_pid (-1)) ;;
  upd_task pthread (set_stack_magic STACK_MAGIC).

(** The end of [thread_start] and of [process_execute]. *)
Definition enqueue_thread (thread : Z) : K unit :=
  rl ← gets (λ s, thread_ready_list (glob s));
  found ← list_find rl (general_tag thread);
  kassert (negb found) ;;
  list_append rl (general_tag thread) ;;
  al ← gets (λ s, thread_all_list (glob s));
  found ← list_find al (all_list_tag thread);
  kassert (negb found) ;;
  list_append al (all_list_tag thread).

(** [thread_start] after its page is allocated. *)
Definition thread_start_at (kernel_thread thread : Z) (nbuf : list Z) (np prio func args : Z) : K Z :=
  init_thread thread nbuf np prio ;;
  thread_create kernel_thread thread func args ;;
  enqueue_thread thread ;;
  mret thread.
Definition thread_start (kernel_thread : Z) (nbuf : list Z) (np prio func args : Z) : K Z :=
  thread ← get_kernel_pages 1;
  thread_start_at kernel_thread thread nbuf np prio func args.

Definition make_main_thread : K unit :=
  main ← running_thread;
  modify (λ s, set_glob (mkGlobals (thread_ready_list (glob s)) (thread_all_list (glob s)) (k_block_descs (glob s))
                           (pid_lock (glob s)) main (idle_thread (glob s))) s) ;;
  init_thread main (text "main" ++ [0]) 0 31 ;;
  al ← gets (λ s, thread_all_list (glob s));
  found ← list_find al (all_list_tag main);
  kassert (negb found) ;;
  list_append al (all_list_tag main).

(** ** Listing *)
Fixpoint pad_loop (fuel : nat) (buf : list Z) (out_pad_0idx buf_len : Z) : outcome (list Z) :=
  match fuel with
  | O => Spin
  | S fuel =>
      if out_pad_0idx <? buf_len then
        buf ← wr buf out_pad_0idx 32; pad_loop fuel buf (u8 (out_pad_0idx + 1)) buf_len
      else mret buf
  end.
(** The bytes given to [sys_write]; ['d'] reads a 16-bit integer. *)
Definition pad_print (buf : list Z) (buf_len : Z) (ptr : varg) (format : Z) : outcome (list Z * list Z) :=
  buf ← memset buf (Some 0) 0 buf_len;
  '(buf, n) ←
    (if format =? 115 then sprintf buf 0 [37; 115; 0] 0 [ptr]
     else if format =? 100 then '(w, _) ← va_word [ptr]; sprintf buf 0 [37; 100; 0] 0 [VWord (u32 (i16 w))]
     else if format =? 120 then '(w, _) ← va_word [ptr]; sprintf buf 0 [37; 120; 0] 0 [VWord (u32 w)]
     else mret (buf, 0));
  buf ← pad_loop 256 buf (u8 n) buf_len;
  mret (buf, take (Z.to_nat (buf_len - 1)) buf).

Definition status_name (st : TaskStatus) : list Z :=
  match st with
  | TASK_RUNNING => text "RUNNING"
  | TASK_READY => text "READY"
  | TASK_BLOCKED => text "BLOCKED"
  | TASK_WAITING => text "WAITING"
  | TASK_HANGING => text "HANGING"
  | TASK_DIED => text "DIED"
  end.
(** What [elem2thread_info] writes for one thread. *)
Definition thread_info (t : TaskStruct) : outcome (list Z) :=
  let out_pad := replicate 16 0 in
  '(out_pad, w1) ← pad_print out_pad 16 (VWord (pid t)) 100;
  '(out_pad, w2) ← (if parent_pid t =? -1 then pad_print out_pad 16 (VStr (text "NULL" ++ [0]) 0) 115
                    else pad_print out_pad 16 (VWord (parent_pid t)) 100);
  '(out_pad, w3) ← pad_print out_pad 16 (VStr (status_name (status t) ++ [0]) 0) 115;
  '(out_pad, w4) ← pad_print out_pad 16 (VWord (elapsed_ticks t)) 120;
  out_pad ← memset out_pad (Some 0) 0 16;
  n ← strlen (name t) (Some 0);
  _ ← ASSERT (n <? 17);
  n ← strlen (name t) (Some 0);
  out_pad ← memcpy out_pad (Some 0) (name t) (Some 0) n;
  '(out_pad, _) ← strcat out_pad (Some 0) [10; 0] (Some 0);
  n ← strlen out_pad (Some 0);
  mret (w1 ++ w2 ++ w3 ++ w4 ++ take (Z.to_nat n) out_pad).
(** [list_traversal] calls it on every element, since it returns false. *)
Fixpoint ps_loop (fuel : nat) (elem tail : Z) : K (list Z) :=
  match fuel with
  | O => kfail Spin
  | S fuel =>
      if elem =? tail then mret []
      else t ← ld_task (elem2entry 76 elem);
           out ← lift (thread_info t);
           n ← ld_next elem;
           rest ← ps_loop fuel n tail;
           mret (out ++ rest)
  end.
Definition ps_title : list Z := text "PID            PPID           STAT           TICKS          COMMAND" ++ [10].
Definition sys_ps : K (list Z) :=
  al ← gets (λ s, thread_all_list (glob s));
  e ← list_empty al;
  if (e : bool) then mret ps_title
  else fuel ← gets list_fuel; first ← ld_next (list_head al); out ← ps_loop fuel first (list_tail al); mret (ps_title ++ out).

(** ** Exit and lookup *)
Definition thread_exit (thread_over : Z) (need_schedule : bool) : K unit :=
  _ ← intr_disable;
  upd_task thread_over (set_status TASK_DIED) ;;
  rl ← gets (λ s, thread_ready_list (glob s));
  found ← list_find rl (general_tag thread_over);
  when found (list_remove (general_tag thread_over)) ;;
  t ← ld_task thread_over;
  when (negb (pgdir t =? NULL)) (mfree_page PF_KERNEL (pgdir t) 1) ;;
  list_remove (all_list_tag thread_over) ;;
  main ← gets (λ s, main_thread (glob s));
  when (negb (thread_over =? main)) (mfree_page PF_KERNEL thread_over 1) ;;
  if need_schedule then schedule ;; kfail Panic else mret ().

Definition pid_check (pelem pid_ : Z) : K bool :=
  t ← ld_task (elem2entry 76 pelem); mret (pid t =? pid_).
Definition pid2thread (pid_ : Z) : K Z :=
  al ← gets (λ s, thread_all_list (glob s));
  pelem ← list_traversal al pid_check pid_;
  if pelem =? NULL then mret NULL else mret (elem2entry 76 pelem).

(** ** wait_exit.c *)
Definition find_child (pelem ppid : Z) : K bool :=
  t ← ld_task (elem2entry 76 pelem); mret (parent_pid t =? ppid).
Definition find_hanging_child (pelem ppid : Z) : K bool :=
  t ← ld_task (elem2entry 76 pelem);
  mret ((parent_pid t =? ppid) && bool_decide (status t = TASK_HANGING)).
Definition init_adopt_a_child (pelem pid_ : Z) : K bool :=
  t ← ld_task (elem2entry 76 pelem);
  (if parent_pid t =? pid_ then upd_task (elem2entry 76 pelem) (set_parent_pid 1) else mret ()) ;;
  mret false.

(** One pass of the loop of [sys_wait]: the value stored at [status] and the
    result, or nothing when the caller was suspended. *)
Definition sys_wait_pass : K (option (option Z * Z)) :=
  parent_thread ← running_thread;
  al ← gets (λ s, thread_all_list (glob s));
  t ← ld_task parent_thread;
  child_elem ← list_traversal al find_hanging_child (pid t);
  if negb (child_elem =? NULL) then
    let child_thread := elem2entry 76 child_elem in
    c ← ld_task child_thread;
    let child_pid := u16 (pid c) in
    thread_exit child_thread false ;;
    mret (Some (Some (exit_status c), i16 child_pid))
  else
    child_elem ← list_traversal al find_child (pid t);
    if child_elem =? NULL then mret (Some (None, -1))
    else _ ← thread_block TASK_WAITING; mret None.

(** ** process.c *)
Definition USER_VADDR_START : Z := 0x8048000.
Definition USER_STACK3_VADDR : Z := 0xc0000000 - 0x1000.
Definition DEFAULT_PRIO : Z := 31.

(** Byte offsets of the members of an IntrStack. *)
Definition is_edi : Z := 4.
Definition is_esi : Z := 8.
Definition is_ebp : Z := 12.
Definition is_esp_dummy : Z := 16.
Definition is_ebx : Z := 20.
Definition is_edx : Z := 24.
Definition is_ecx : Z := 28.
Definition is_eax : Z := 32.
Definition is_gs : Z := 36.
Definition is_fs : Z := 40.
Definition is_es : Z := 44.
Definition is_ds : Z := 48.
Definition is_eip : Z := 56.
Definition is_cs : Z := 60.
Definition is_eflags : Z := 64.
Definition is_esp : Z := 68.
Definition is_ss : Z := 72.

(** The stores of [a = b = ... = v], the last member first. *)
Fixpoint store_all (base : Z) (offs : list Z) (v : Z) : K unit :=
  match offs with [] => mret () | o :: offs => vstore (base + o) v ;; store_all base offs v end.

(** Ends in [jmp intr_exit] with the stack pointer at the frame. *)
Definition start_process (filename_ : Z) : K unit :=
  let function := filename_ in
  cur ← running_thread;
  upd_task cur (λ t, set_self_kstack (self_kstack t + 4 * sizeof_ThreadStack) t) ;;
  t ← ld_task cur;
  let frame := self_kstack t in
  store_all frame [is_esp_dummy; is_ebp; is_esi; is_edi] 0 ;;
  store_all frame [is_eax; is_ecx; is_edx; is_ebx] 0 ;;
  vstore (frame + is_gs) 0 ;;
  store_all frame [is_fs; is_es; is_ds] SELECTOR_U_DATA ;;
  vstore (frame + is_eip) function ;;
  vstore (frame + is_cs) SELECTOR_U_CODE ;;
  vstore (frame + is_eflags) (Z.lor (Z.lor EFLAG_IOPL_0 EFLAG_MBS) EFLAGS_IF_1) ;;
  page ← get_a_page PF_USER USER_STACK3_VADDR;
  vstore (frame + is_esp) (u32 (page + PG_SIZE)) ;;
  vstore (frame + is_ss) SELECTOR_U_DATA ;;
  modify (set_esp frame).

(** [memcpy] between word-aligned addresses. *)
Fixpoint vcopy (n : nat) (dst src : Z) : K unit :=
  match n with O => mret () | S n => v ← vload src; vstore dst v ;; vcopy n (dst + 4) (src + 4) end.

Definition create_page_dir (console_lock : Z) : K Z :=
  page_dir_vaddr ← get_kernel_pages 1;
  if page_dir_vaddr =? NULL then
    _ ← console_put_str console_lock (text "create_page_dir: get_kernel_gate failed!" ++ [0]) 0;
    mret NULL
  else
    vcopy 256 (u32 (page_dir_vaddr + 0x300 * 4)) (0xfffff000 + 0x300 * 4) ;;
    new_page_dir_phy_addr ← addr_v2p page_dir_vaddr;
    vstore (page_dir_vaddr + 1023 * 4) (Z.lor (Z.lor (Z.lor new_page_dir_phy_addr PG_US_U) PG_RW_W) PG_P_1) ;;
    mret page_dir_vaddr.

(** The bitmap's bytes are those of the pages just allocated, which are zero. *)
Definition create_user_vaddr_bitmap (user_prog : Z) : K unit :=
  upd_task user_prog (λ t, set_userprog_vaddr (mkVirtualAddr (vaddr_map (userprog_vaddr t)) USER_VADDR_START) t) ;;
  let user_map_len := (0xc0000000 - USER_VADDR_START) / PG_SIZE / 8 in
  let bitmap_pg_cnt := DIV_ROUND_UP user_map_len PG_SIZE in
  bits ← get_kernel_pages bitmap_pg_cnt;
  kassert (negb (bits =? NULL)) ;;
  m ← lift (bitmap_init (mkBitMap user_map_len (replicate (Z.to_nat (bitmap_pg_cnt * PG_SIZE)) 0)));
  upd_task user_prog (λ t, set_userprog_vaddr (mkVirtualAddr m (vaddr_start (userprog_vaddr t))) t).

Definition process_execute (console_lock kernel_thread start_process filename : Z) (nbuf : list Z) (np : Z) : K unit :=
  thread ← get_kernel_pages 1;
  init_thread thread nbuf np DEFAULT_PRIO ;;
  create_user_vaddr_bitmap thread ;;
  thread_create kernel_thread thread start_process filename ;;
  dir ← create_page_dir console_lock;
  upd_task thread (set_pgdir dir) ;;
  block_desc_init (u_block_desc thread) ;;
  old_status ← intr_disable;
  enqueue_thread thread ;;
  _ ← intr_set_status old_status;
  mret ().

(** One round of the idle thread: what it does when it runs again. *)
Definition idle_round : K unit :=
  _ ← thread_block TASK_BLOCKED; modify (set_intr INTR_ON).

Definition thread_init (console_lock kernel_thread start_process init idle : Z) : K unit :=
  al ← gets (λ s, thread_all_list (glob s));
  list_init al ;;
  rl ← gets (λ s, thread_ready_list (glob s));
  list_init rl ;;
  l ← gets (λ s, pid_lock (glob s));
  lock_init l ;;
  process_execute console_lock kernel_thread start_process init (text "init" ++ [0]) 0 ;;
  make_main_thread ;;
  t ← thread_start kernel_thread (text "idle" ++ [0]) 0 10 idle NULL;
  modify (λ s, set_glob (mkGlobals (thread_ready_list (glob s)) (thread_all_list (glob s)) (k_block_descs (glob s))
                           (pid_lock (glob s)) (main_thread (glob s)) t) s).
