(* ===== verification/ThreadSpec.v ===== *)
(** * Threads: creation, lookup, pids, reaping and listing *)
From Stdlib Require Import String Ascii.
From S2P Require Import Prelude CString Bitmap Machine DList Mmu PageMem Sched Sync Heap BootMem HeapBoot Stdio Console Cpu Thread.

(** ** Creation *)
Definition all (s : kstate) : Z := thread_all_list (glob s).

(** Clearing nodes that are in no list keeps the lists. *)
Lemma lrep_fresh_change h h' L : lrep h L →
  (∀ n, (nxt h' n = nxt h n ∧ prv h' n = prv h n) ∨ fresh_node L n) → lrep h' L.
Proof.
  intros [H1 H2] Hc. split; [|done]. intros p xs Hp. eapply dlist_frame; [by apply H1|].
  intros n Hn. destruct (Hc n) as [?|[_ Hf]]; [done|]. exfalso. by apply (Hf _ _ Hp).
Qed.

Lemma zero_links_lrep p h L : lrep h L → fresh_node L (general_tag p) → fresh_node L (all_list_tag p) → lrep (zero_links p h) L.
Proof.
  intros HL H1 H2. eapply lrep_fresh_change; [done|]. intros n. unfold zero_links, nxt, prv.
  destruct (decide (n = general_tag p)) as [->|]; [by right|]. destruct (decide (n = all_list_tag p)) as [->|]; [by right|].
  left. by rewrite !lookup_insert_ne by done.
Qed.

(** What [init_thread] leaves in the PCB. *)
Definition new_task (p : Z) (nm : list Z) (new_pid prio : Z) (st : TaskStatus) : TaskStruct :=
  mkTask (p + 4096) new_pid st prio (nm ++ replicate (16 - length nm) 0) prio 0 [0; 1; 2; -1; -1; -1; -1; -1] NULL
    (mkVirtualAddr (mkBitMap 0 []) 0) 0 (-1) 0 STACK_MAGIC.

Section create.
Context (L : gmap Z (list Z)) (s : kstate) (p : Z) (nbuf : list Z) (np : Z) (nm : list Z) (prio : Z).
Hypothesis (HL : lrep (links s) L) (Hp0 : p ≠ 0) (Hpr : 0 < p < 2 ^ 32 - 4096).
Hypothesis (Hg : fresh_node L (general_tag p)) (Ha : fresh_node L (all_list_tag p)).
Hypothesis (Hlk : lock_free s L (pid_lock (glob s))) (Hcur : cur s ≠ 0).
Hypothesis (Hnm : cstr nbuf np nm) (Hnl : (length nm < 16)%nat) (Hprio : 0 ≤ prio < 256).

(** The PCB of [p] is [t] and the rest of the cleared members are zero. *)
Definition with_pcb (t : TaskStruct) (n : Z) (s : kstate) : kstate :=
  set_next_pid n (set_descs (zero_descs DESC_CNT (u_block_desc p) (descs s))
    (set_links (zero_links p (links s)) (set_tasks (<[p := t]> (tasks s)) s))).

Lemma with_pcb_upd t n f : upd_task p f (with_pcb t n s) = Ok ((), with_pcb (f t) n s).
Proof.
  rewrite (upd_task_eq _ _ t) by apply lookup_insert_eq. unfold with_pcb.
  cbn [tasks set_next_pid set_descs set_links set_tasks]. by rewrite insert_insert_eq.
Qed.
Lemma with_pcb_ld t n : ld_task p (with_pcb t n s) = Ok (t, with_pcb t n s).
Proof. apply ld_task_eq, lookup_insert_eq. Qed.

Lemma with_pcb_lock t n : lock_free (with_pcb t n s) L (pid_lock (glob s)).
Proof. destruct Hlk. split; try done. by apply zero_links_lrep. Qed.

Lemma clear_pcb_eq : clear_pcb p s = Ok ((), with_pcb zero_task (next_pid s) s).
Proof.
  unfold clear_pcb, kassert, mbind, K_bind, lift, ASSERT, NULL. destruct (Z.eqb_spec p 0); [done|]. by destruct s.
Qed.

Lemma allocate_pid_eq s0 : lock_free s0 L (pid_lock (glob s0)) → cur s0 ≠ 0 →
  allocate_pid s0 = Ok (i16 (next_pid s0 + 1), set_next_pid (i16 (next_pid s0 + 1)) s0).
Proof.
  intros HF Hc. unfold allocate_pid, mbind, K_bind, gets, modify. rewrite (lock_acquire_free s0 L _ HF Hc).
  set (s1 := set_next_pid (i16 (next_pid s0 + 1)) s0).
  replace (set_next_pid _ (held s0 _ _ 1)) with (held s1 (pid_lock (glob s0)) (cur s1) 1) by (by destruct s0).
  assert (lock_free s1 L (pid_lock (glob s0))) as HF1 by by destruct HF. by rewrite (lock_release_last s1 L _ HF1).
Qed.

Lemma init_fds_eq : init_fds (replicate 8 0) = Ok [0; 1; 2; -1; -1; -1; -1; -1].
Proof. reflexivity. Qed.

Lemma init_thread_eq : init_thread p nbuf np prio s = Ok ((),
  let n := i16 (next_pid s + 1) in
  with_pcb (new_task p nm n prio (if p =? main_thread (glob s) then TASK_RUNNING else TASK_READY)) n s).
Proof.
  unfold init_thread, mbind, K_bind, gets. rewrite clear_pcb_eq, with_pcb_ld. cbn [name zero_task].
  rewrite (strcpy_zeros [] 16 [] nbuf np nm Hnm Hnl : strcpy (replicate 16 0) (Some 0) nbuf (Some np) = _). cbn [lift app].
  rewrite with_pcb_upd. rewrite (allocate_pid_eq (with_pcb _ _ s)) by (done || apply with_pcb_lock).
  change (set_next_pid ?n (with_pcb ?t ?m s)) with (with_pcb t n s).
  change (next_pid (with_pcb ?t ?m s)) with m.
  rewrite !with_pcb_upd. change (glob (with_pcb ?t ?m s)) with (glob s).
  rewrite with_pcb_ld. change (fd_table _) with (replicate 8 0). rewrite init_fds_eq. cbn [lift].
  rewrite !with_pcb_upd. unfold new_task. rewrite u8_id, u32_id, app_nil_r by (unfold PG_SIZE; lia). reflexivity.
Qed.
End create.

(** Stores into the page at frame [f] that leave the rest of memory alone. *)
Definition on_page (m : gmap Z Z) (f : Z) (m' : gmap Z Z) : Prop :=
  (∀ a, ¬ (f ≤ a < f + 4096) → word m' a = word m a) ∧ ∀ a, 0 ≤ word m' a < 2 ^ 32.

Lemma on_page_insert m f m' k v : on_page m f m' → 0 ≤ k < 1024 → 0 ≤ v < 2 ^ 32 → on_page m f (<[f + 4 * k := v]> m').
Proof.
  intros [H1 H2] Hk Hv. split; intros a; rewrite word_insert; case_decide; [lia|apply H1|done|apply H2].
Qed.

(** The frame [switch_to] returns into: four zero registers, the return
    address, and the two arguments of [kernel_thread]. *)
Record new_frame (m : gmap Z Z) (sp kt func args : Z) : Prop := {
  nf_regs o : o ∈ [ts_ebp; ts_ebx; ts_edi; ts_esi] → word m (sp + o) = 0;
  nf_eip : word m (sp + ts_eip) = kt;
  nf_function : word m (sp + ts_function) = func;
  nf_arg : word m (sp + ts_func_arg) = args;
}.

Section stack.
Context (s : kstate) (p f : Z).
Hypothesis (Hst : stable_range (phys s) (cr3 s) p f 1024).

Lemma stack_store s0 k v : on_page (phys s) f (phys s0) → cr3 s0 = cr3 s → 0 ≤ k < 1024 →
  vstore (p + 4 * k) v s0 = Ok ((), set_phys (<[f + 4 * k := v]> (phys s0)) s0).
Proof. intros [H1 H2] Hc Hk. apply vstore_eq. rewrite Hc. by apply Hst. Qed.

Lemma thread_create_eq s0 t kt func args :
  on_page (phys s) f (phys s0) → cr3 s0 = cr3 s → tasks s0 !! p = Some t → self_kstack t = p + 4096 →
  0 ≤ kt < 2 ^ 32 → 0 ≤ func < 2 ^ 32 → 0 ≤ args < 2 ^ 32 →
  ∃ m', thread_create kt p func args s0
        = Ok ((), set_phys m' (set_tasks (<[p := set_self_kstack (p + 3664) t]> (tasks s0)) s0))
     ∧ on_page (phys s) f m' ∧ new_frame m' (f + 3664) kt func args.
Proof.
  intros Hm Hc Ht Hk Hkt Hf Ha. unfold thread_create, mbind, K_bind. rewrite (upd_task_eq _ _ t) by done.
  erewrite upd_task_eq by apply lookup_insert_eq. erewrite ld_task_eq by apply lookup_insert_eq.
  cbn [tasks set_tasks]. rewrite insert_insert_eq. cbn [self_kstack set_self_kstack]. rewrite Hk.
  replace (p + 4096 - 4 * sizeof_IntrStack - 4 * sizeof_ThreadStack) with (p + 3664) by (unfold sizeof_IntrStack, sizeof_ThreadStack; lia).
  replace (set_self_kstack _ (set_self_kstack _ t)) with (set_self_kstack (p + 3664) t) by done.
  set (s1 := set_tasks _ s0). unfold ts_eip, ts_function, ts_func_arg, ts_edi, ts_esi, ts_ebx, ts_ebp.
  replace (p + 3664 + 16) with (p + 4 * 920) by lia. replace (p + 3664 + 24) with (p + 4 * 922) by lia.
  replace (p + 3664 + 28) with (p + 4 * 923) by lia. replace (p + 3664 + 8) with (p + 4 * 918) by lia.
  replace (p + 3664 + 12) with (p + 4 * 919) by lia. replace (p + 3664 + 4) with (p + 4 * 917) by lia.
  replace (p + 3664 + 0) with (p + 4 * 916) by lia.
  assert (on_page (phys s) f (phys s1)) as H0 by done.
  pose proof (on_page_insert _ _ _ 920 kt H0 ltac:(lia) Hkt) as H1. pose proof (on_page_insert _ _ _ 922 func H1 ltac:(lia) Hf) as H2.
  pose proof (on_page_insert _ _ _ 923 args H2 ltac:(lia) Ha) as H3. pose proof (on_page_insert _ _ _ 918 0 H3 ltac:(lia) ltac:(lia)) as H4.
  pose proof (on_page_insert _ _ _ 919 0 H4 ltac:(lia) ltac:(lia)) as H5. pose proof (on_page_insert _ _ _ 917 0 H5 ltac:(lia) ltac:(lia)) as H6.
  pose proof (on_page_insert _ _ _ 916 0 H6 ltac:(lia) ltac:(lia)) as H7.
  do 7 (rewrite stack_store by (done || lia)). eexists. split; [reflexivity|]. split; [exact H7|].
  cbn [phys set_phys]. split.
  - intros o. rewrite !elem_of_cons, elem_of_nil. unfold ts_edi, ts_esi, ts_ebx, ts_ebp.
    intros [->|[->|[->|[->|[]]]]]; rewrite !word_insert; repeat (case_decide; [lia || done|]); lia.
  - unfold ts_eip. rewrite !word_insert. repeat (case_decide; [lia || done|]); lia.
  - unfold ts_function. rewrite !word_insert. repeat (case_decide; [lia || done|]); lia.
  - unfold ts_func_arg. rewrite !word_insert. repeat (case_decide; [lia || done|]); lia.
Qed.
End stack.

(** Check-then-append to a list. *)
Lemma wp_checked_append {A} s L l xs e (k : K A) Q :
  lrep (links s) L → L !! l = Some xs → fresh_node L e →
  (∀ h', lrep h' (<[l := xs ++ [e]]> L) → wp k (set_links h' s) Q) →
  wp (found ← list_find l e; kassert (negb found) ;; list_append l e ;; k) s Q.
Proof.
  intros HL Hr Hf HQ. apply wp_bind. eapply wp_eq; [by eapply list_find_ok|].
  apply wp_bind, wp_kassert; [by erewrite fresh_not_in|]. apply wp_bind.
  eapply wp_mono; [by eapply list_append_ok|]. intros u s' (h' & -> & Hl). by apply HQ.
Qed.

Lemma enqueue_thread_ok s L rq al p :
  lrep (links s) L → L !! ready s = Some (general_tag <$> rq) → L !! all s = Some (all_list_tag <$> al) →
  all s ≠ ready s → fresh_node L (general_tag p) → fresh_node L (all_list_tag p) →
  wp (enqueue_thread p) s (λ _ s', ∃ h', s' = set_links h' s
    ∧ lrep h' (<[all s := all_list_tag <$> al ++ [p]]> (<[ready s := general_tag <$> rq ++ [p]]> L))).
Proof.
  intros HL Hr Hal Hne Hg Ha. unfold enqueue_thread. kstep. kstep. fold (ready s).
  eapply wp_checked_append; [done|done|done|]. intros h1 Hl1. kstep. kstep. change (thread_all_list _) with (all s).
  apply wp_bind. eapply wp_eq; [eapply (list_find_ok (set_links h1 s)); [exact Hl1|by rewrite lookup_insert_ne]|].
  assert (fresh_node (<[ready s := (general_tag <$> rq) ++ [general_tag p]]> L) (all_list_tag p)) as Ha'.
  { eapply fresh_node_update; [done|done|]. pose proof (proj2 Ha _ _ Hr). unfold nodes in *.
    rewrite elem_of_app, list_elem_of_singleton. unfold general_tag, all_list_tag in *. intros [?|?]; [set_solver|lia]. }
  apply wp_bind, wp_kassert; [by erewrite fresh_not_in; [|by rewrite lookup_insert_ne|exact Ha']|].
  eapply wp_mono; [eapply (list_append_ok (set_links h1 s)); [exact Hl1|by rewrite lookup_insert_ne|done]|].
  intros u s' (h2 & -> & Hl2). exists h2. split; [by destruct s|]. by rewrite !fmap_app.
Qed.

Lemma dirs_ok_new m ts pd p t : ts !! p = None → pgdir t = NULL → dirs_ok m ts pd → dirs_ok m (<[p := t]> ts) pd.
Proof.
  intros Hp Ht Hd d Hdir.
  assert (∀ q u, <[p := t]> ts !! q = Some u → pgdir u ≠ NULL → ts !! q = Some u) as Hex.
  { intros q u. rewrite lookup_insert_Some. intros [[<- <-]|[? ?]]; [by rewrite Ht|done]. }
  destruct (Hd d) as [H1 H2].
  { destruct Hdir as [->|(q & u & Hq & Hne & ->)]; [by left|right]. exists q, u. eauto. }
  split; [done|]. intros q u Hq Hne. eauto.
Qed.

(** A page for a new thread: unused, mapped to frame [f], and apart from every
    page table. *)
Record new_page (pd : Z → Z) (L : gmap Z (list Z)) (s : kstate) (p f : Z) : Prop := {
  np_none : tasks s !! p = None;
  np_page : p mod 4096 = 0;
  np_range : 0 < p < 2 ^ 32 - 4096;
  np_gtag : fresh_node L (general_tag p);
  np_atag : fresh_node L (all_list_tag p);
  np_words a : 0 ≤ word (phys s) a < 2 ^ 32;
  np_stack : stable_range (phys s) (cr3 s) p f 1024;
  np_dirs m' : on_page (phys s) f m' → dirs_ok m' (tasks s) pd;
}.

Section started.
Context (pd : Z → Z) (L : gmap Z (list Z)) (rq al : list Z) (s : kstate) (p f : Z) (t : TaskStruct) (n : Z) (h : gmap Z ListElem) (m' : gmap Z Z).
Hypothesis (HS : sched_ok pd L rq s) (HN : new_page pd L s p f) (Hal : L !! all s = Some (all_list_tag <$> al)) (Hne : all s ≠ ready s).
Hypothesis (Htp : pcb_ok p t) (Hts : status t = TASK_READY) (Htd : pgdir t = NULL) (Hm : on_page (phys s) f m').
Let L' := <[all s := all_list_tag <$> al ++ [p]]> (<[ready s := general_tag <$> rq ++ [p]]> L).
Hypothesis Hh : lrep h L'.

Lemma started_fresh q : fresh_node L (general_tag q) → q mod 4096 = 0 → q ≠ p → fresh_node L' (general_tag q).
Proof.
  intros Hf Hq Hqp. destruct HN. pose proof (proj2 Hf _ _ (so_ready _ _ _ _ HS)) as H1. pose proof (proj2 Hf _ _ Hal) as H2.
  unfold nodes in *. unfold L'. rewrite !fmap_app. eapply fresh_node_update.
  - by rewrite lookup_insert_ne.
  - eapply fresh_node_update; [apply HS|done|]. rewrite elem_of_app. intros [?|E]; [set_solver|].
    apply list_elem_of_singleton in E. unfold general_tag in *. simpl in E. lia.
  - rewrite elem_of_app. intros [?|E]; [set_solver|]. apply list_elem_of_singleton in E.
    unfold general_tag, all_list_tag in *. Z.div_mod_to_equations. lia.
Qed.

Lemma started_sched_ok s' : s' = set_links h (set_phys m' (set_tasks (<[p := t]> (tasks s))
    (set_next_pid n (set_descs (zero_descs DESC_CNT (u_block_desc p) (descs s)) s)))) → sched_ok pd L' (rq ++ [p]) s'.
Proof.
  intros ->. pose proof (HS) as [S1 S2 S3 S4 Se S5 S6 S7 S8 S9]. destruct (HN) as [N1 N2 N3 N4 N5 N6 N7 N8].
  assert (∀ q u, tasks s !! q = Some u → q ≠ p ∧ q mod 4096 = 0) as Hold.
  { intros q u Hq. split; [intros ->; congruence|]. by destruct (S4 _ _ Hq). }
  split; unfold cur, ready, idle in *; cbn [links tasks glob esp cr3 phys set_tasks set_links set_phys set_next_pid set_descs]; try done.
  - unfold L'. rewrite lookup_insert_ne by done. apply lookup_insert_eq.
  - intros q. rewrite elem_of_app, list_elem_of_singleton, S3. destruct (decide (q = p)) as [->|Hqp].
    + rewrite lookup_insert_eq. naive_solver.
    + rewrite lookup_insert_ne by done. naive_solver.
  - intros q u. rewrite lookup_insert_Some. intros [[<- <-]|[_ Hq]]; eauto.
  - destruct S5 as (u & Hu & Ec). exists u. rewrite lookup_insert_ne; [done|]. destruct (Hold _ _ Hu). done.
  - intros q u. rewrite lookup_insert_Some. intros [[<- <-]|[_ Hq]]; [congruence|eauto].
  - intros u. rewrite lookup_insert_Some. intros [[E <-]|[_ Hq]] Hr; [congruence|]. destruct (Hold _ _ Hq).
    by apply started_fresh; [eapply S7| |].
  - destruct S8 as (u & Hu & Hd & Hw). destruct (Hold _ _ Hu). exists u. rewrite lookup_insert_ne by done. split_and!; [done|done|].
    intros Hwt. by apply started_fresh; [apply Hw| |].
  - apply dirs_ok_new; [done|done|by apply N8].
Qed.
End started.

(** C29: [thread_start] on its page.  On an unused mapped page, with the pid lock
    free, it initialises the PCB completely (fresh pid, name, priority, standard
    files, no parent, no page directory), builds the stack frame through which
    the first switch enters [kernel_thread] with the function and its argument,
    appends the thread to the ready and the all list, and keeps the scheduler
    consistent; no other thread changes. *)
Theorem thread_start_correct pd L rq al s p f nbuf np nm prio kt func args :
  sched_ok pd L rq s → new_page pd L s p f → L !! all s = Some (all_list_tag <$> al) → all s ≠ ready s →
  lock_free s L (pid_lock (glob s)) → cur s ≠ 0 → p ≠ main_thread (glob s) →
  cstr nbuf np nm → (length nm < 16)%nat → 0 ≤ prio < 256 →
  0 ≤ kt < 2 ^ 32 → 0 ≤ func < 2 ^ 32 → 0 ≤ args < 2 ^ 32 →
  ∃ s', thread_start_at kt p nbuf np prio func args s = Ok (p, s')
    ∧ sched_ok pd (<[all s := all_list_tag <$> al ++ [p]]> (<[ready s := general_tag <$> rq ++ [p]]> L)) (rq ++ [p]) s'
    ∧ tasks s' = <[p := set_self_kstack (p + 3664) (new_task p nm (i16 (next_pid s + 1)) prio TASK_READY)]> (tasks s)
    ∧ next_pid s' = i16 (next_pid s + 1) ∧ new_frame (phys s') (f + 3664) kt func args ∧ on_page (phys s) f (phys s') ∧ cur s' = cur s.
Proof.
  intros HS HN Hal Hne Hlk Hcur Hmain Hnm Hnl Hprio Hkt Hf Ha. destruct (HN) as [N1 N2 N3 N4 N5 N6 N7 N8].
  unfold thread_start_at, mbind, K_bind.
  rewrite (init_thread_eq L s p nbuf np nm prio) by (done || lia || apply HS). cbn zeta.
  destruct (Z.eqb_spec p (main_thread (glob s))) as [|_]; [done|].
  set (n := i16 (next_pid s + 1)). set (t := new_task p nm n prio TASK_READY).
  destruct (thread_create_eq s p f N7 (with_pcb p t n s) t kt func args) as (m' & -> & M1 & M2);
    [done|done|apply lookup_insert_eq|done|done|done|done|].
  set (t' := set_self_kstack (p + 3664) t). set (s1 := set_phys m' _).
  assert (lrep (links s1) L) as HL1 by (by apply zero_links_lrep; [apply HS| |]).
  destruct (wp_inv _ _ _ (enqueue_thread_ok s1 L rq al p HL1 (so_ready _ _ _ _ HS) Hal Hne N4 N5)) as ([] & s2 & -> & h2 & -> & Hl2).
  eexists. split; [reflexivity|].
  assert (tasks (set_links h2 s1) = <[p := t']> (tasks s)) as Et.
  { unfold s1, with_pcb. cbn [tasks set_links set_phys set_tasks set_next_pid set_descs]. by rewrite insert_insert_eq. }
  split_and!; [|done|done|done|done|done].
  eapply (started_sched_ok pd L rq al s p f t' n h2 m' HS HN); [done|done| |done|done|done|exact Hl2|].
  - split; [done|done|unfold t'; simpl; unfold switch_frame; lia|done].
  - unfold s1, with_pcb. destruct s; cbn. by rewrite insert_insert_eq.
Qed.

(** ** Lookup *)
Lemma elem2entry_all p : 0 ≤ p < 2 ^ 32 - 4096 → elem2entry 76 (all_list_tag p) = p.
Proof. unfold elem2entry, all_list_tag. intros. replace (p + 76 - 76) with p by lia. apply u32_id. lia. Qed.

(** The threads of the all list, with their PCBs. *)
Record all_ok (L : gmap Z (list Z)) (s : kstate) (al : list Z) : Prop := {
  ao_lists : lrep (links s) L;
  ao_all : L !! all s = Some (all_list_tag <$> al);
  ao_pcb p : p ∈ al → (∃ t, tasks s !! p = Some t) ∧ 0 < p < 2 ^ 32 - 4096;
}.

(** A traversal of the all list with a test on PCBs finds the first match. *)
Lemma all_find L s al func arg P : all_ok L s al →
  (∀ p t, tasks s !! p = Some t → 0 < p < 2 ^ 32 - 4096 → func (all_list_tag p) arg s = Ok (P t, s)) →
  list_traversal (all s) func arg s
  = Ok (match List.find (λ p, match tasks s !! p with Some t => P t | None => false end) al with Some p => all_list_tag p | None => NULL end, s).
Proof.
  intros [A1 A2 A3] HP.
  rewrite (list_traversal_ok s L A1 _ _ func arg
    (λ e, match tasks s !! elem2entry 76 e with Some t => P t | None => false end) A2).
  - do 2 f_equal. clear A2. induction al as [|p al IH]; [done|]. cbn [fmap list_fmap List.find].
    destruct (A3 p ltac:(left)) as [[t Ht] Hp]. rewrite elem2entry_all by lia. rewrite Ht. destruct (P t); [done|].
    apply IH. intros q Hq. apply A3. by right.
  - intros e (p & -> & Hp)%list_elem_of_fmap. destruct (A3 p Hp) as [[t Ht] Hr]. rewrite elem2entry_all by lia.
    rewrite Ht. by apply HP.
Qed.

Lemma all_tag_nonnull L s al p : all_ok L s al → p ∈ al → (all_list_tag p =? NULL) = false.
Proof. intros HA Hp. destruct (ao_pcb _ _ _ HA p Hp) as [_ ?]. apply Z.eqb_neq. unfold all_list_tag, NULL. lia. Qed.

(** [pid2thread] returns the first thread of the all list with the given
    pid and NULL exactly when there is none; it changes nothing. *)
Theorem pid2thread_correct L s al n : all_ok L s al →
  ∃ r, pid2thread n s = Ok (r, s) ∧
    ((r = NULL ∧ ∀ p t, p ∈ al → tasks s !! p = Some t → pid t ≠ n) ∨
     (∃ l1 l2 t, al = l1 ++ r :: l2 ∧ tasks s !! r = Some t ∧ pid t = n ∧ ∀ p u, p ∈ l1 → tasks s !! p = Some u → pid u ≠ n)).
Proof.
  intros HA. unfold pid2thread, mbind, K_bind, gets. fold (all s).
  rewrite (all_find L s al pid_check n (λ t, pid t =? n)); [|done|].
  2:{ intros p t Ht Hp. unfold pid_check, mbind, K_bind. by rewrite elem2entry_all, (ld_task_eq _ _ _ Ht) by lia. }
  destruct (find_first (λ p, match tasks s !! p with Some t => pid t =? n | None => false end) al)
    as [[-> Hn]|(l1 & r & l2 & -> & -> & Hr & Hn)].
  - exists NULL. split; [done|left]. split; [done|]. intros p t Hp Ht E. specialize (Hn p Hp). rewrite Ht in Hn. by apply Z.eqb_neq in Hn.
  - rewrite (all_tag_nonnull L s _ r HA) by set_solver. destruct (ao_pcb _ _ _ HA r ltac:(set_solver)) as [[t Ht] Hr'].
    rewrite elem2entry_all by lia. exists r. split; [done|right]. rewrite Ht in Hr. apply Z.eqb_eq in Hr.
    exists l1, l2, t. split_and!; [done|done|done|]. intros p u Hp Hu. specialize (Hn p Hp). rewrite Hu in Hn. by apply Z.eqb_neq in Hn.
Qed.

(** ** Reaping *)

(** A page of the kernel heap. *)
Definition kheap_page (s : kstate) (va : Z) : Prop :=
  ∃ i f, 0 ≤ i ≤ nbits (vaddr_map (kernel_vaddr s)) ∧ va = vaddr_start (kernel_vaddr s) + i * 4096
    ∧ maps s va f ∧ in_pool (kernel_pool s) f ∧ f ≠ cr3 s.

(** [s'] is [s] with other memory. *)
Definition mem_changed (s s' : kstate) : Prop :=
  ∃ m kp up kv, s' = set_kernel_vaddr kv (set_phys m (set_user_pool up (set_kernel_pool kp s)))
    ∧ same_pool (kernel_pool s) kp ∧ same_kva (kernel_vaddr s) kv.

Lemma mfree_one_ok s va : mem_ok s → 0x102000 ≤ phy_addr_start (kernel_pool s) → kheap_page s va →
  wp (mfree_page PF_KERNEL va 1) s (λ _ s', mem_ok s' ∧ mem_changed s s'
    ∧ (∀ va' pa, maps s' va' pa ↔ maps s va' pa ∧ va' / 4096 ≠ va / 4096)).
Proof.
  intros Hm Hlow (i & f & Hi & -> & Hmp & Hin & Hc). destruct (mo_kva _ Hm) as [V1 V2 V3 V4 V5].
  eapply wp_mono; [apply (mfree_page_kernel_ok s i 1 Hm); [lia|lia|lia|done|]|].
  { intros k Hk. assert (k = 0) as -> by lia. exists f. by rewrite Z.mul_0_l, Z.add_0_r. }
  intros u s' (s1 & m' & [R1 R2 R3 (m1 & kp & up & -> & Hs1 & Hs2) R5] & -> & Hb & Hok).
  split; [done|]. split.
  - exists m1, kp, up, (mkVirtualAddr m' (vaddr_start (kernel_vaddr s))). split_and!; [done|done|by eapply set_bits_kva].
  - intros va' pa. split.
    + intros [H1 H2]%R2. split; [done|]. Z.div_mod_to_equations. lia.
    + intros [H1 H2]. apply R2. split; [done|]. Z.div_mod_to_equations. lia.
Qed.

Lemma kheap_page_kept s s' va va' : kheap_page s va' → va' / 4096 ≠ va / 4096 → mem_changed s s' →
  (∀ a pa, maps s' a pa ↔ maps s a pa ∧ a / 4096 ≠ va / 4096) → kheap_page s' va'.
Proof.
  intros (i & f & Hi & -> & Hmp & Hin & Hc) Hne (m & kp & up & kv & -> & Hp & Hv) Hmaps.
  destruct Hv as (E1 & E2). exists i, f. cbn [kernel_vaddr kernel_pool cr3 set_kernel_vaddr set_phys set_user_pool set_kernel_pool].
  split_and!; [unfold nbits in *; lia|lia|lia| |by eapply in_pool_same|done]. by apply Hmaps.
Qed.

Section reap.
Context (pd : Z → Z) (L : gmap Z (list Z)) (rq l1 l2 : list Z) (s : kstate) (c : Z) (tc : TaskStruct).
Hypothesis (HS : sched_ok pd L rq s) (HA : all_ok L s (l1 ++ c :: l2)) (Hne : all s ≠ ready s).
Hypothesis (Hc : tasks s !! c = Some tc) (Hh : status tc = TASK_HANGING) (Hm : mem_ok s).
Hypothesis (Hlow : 0x102000 ≤ phy_addr_start (kernel_pool s)) (Hcm : c ≠ main_thread (glob s)).
Hypothesis (Hcp : kheap_page s c) (Hdp : pgdir tc ≠ NULL → kheap_page s (pgdir tc) ∧ pgdir tc / 4096 ≠ c / 4096).

(** What is left of a reaped thread. *)
Record reaped (s' : kstate) : Prop := {
  re_tasks : tasks s' = <[c := set_status TASK_DIED tc]> (tasks s);
  re_lists : lrep (links s') (<[all s := all_list_tag <$> l1 ++ l2]> L);
  re_mem : mem_ok s';
  re_maps va pa : maps s' va pa ↔ maps s va pa ∧ va / 4096 ≠ c / 4096 ∧ (pgdir tc ≠ NULL → va / 4096 ≠ pgdir tc / 4096);
  re_cur : cur s' = cur s ∧ glob s' = glob s ∧ cr3 s' = cr3 s;
}.

Lemma mem_ok_links h s0 : mem_ok s0 → mem_ok (set_links h s0).
Proof. intros [[] ? ? ? ? ? ? ? ?]. split; try done. Qed.

Lemma thread_exit_ok : wp (thread_exit c false) s (λ _ s', reaped s').
Proof.
  unfold thread_exit. apply wp_bind, wp_intr_disable. apply wp_bind. eapply wp_eq; [by apply (upd_task_eq _ _ tc)|].
  set (td := set_status TASK_DIED tc). set (s1 := set_tasks _ _). kstep. kstep. change (thread_ready_list _) with (ready s).
  assert (mem_ok s1) as Hm1 by (destruct Hm as [[] ? ? ? ? ? ? ? ?]; by split).
  apply wp_bind. eapply wp_eq; [apply (list_find_ok s1 L (so_lists _ _ _ _ HS)); apply HS|].
  rewrite bool_decide_false.
  2:{ intros (q & E & Hq)%list_elem_of_fmap. apply general_tag_inj in E as <-.
      apply (so_rq _ _ _ _ HS) in Hq as (u & Hu & ?). congruence. }
  cbn [when]. kstep. kstep. apply wp_bind. eapply wp_eq; [apply ld_task_eq, lookup_insert_eq|].
  change (pgdir td) with (pgdir tc). apply wp_bind.
  (* the page directory *)
  eapply (wp_mono _ _ (λ _ s2, mem_ok s2 ∧ mem_changed s1 s2 ∧ kheap_page s2 c ∧
    ∀ va pa, maps s2 va pa ↔ maps s va pa ∧ (pgdir tc ≠ NULL → va / 4096 ≠ pgdir tc / 4096))).
  { destruct (Z.eqb_spec (pgdir tc) NULL) as [E|E]; cbn [negb when].
    - kstep. split_and!; [done| |done|].
      + exists (phys s1), (kernel_pool s1), (user_pool s1), (kernel_vaddr s1). split_and!; [by destruct s|done|done].
      + intros va pa. split; [intros H; split; [exact H|done]|by intros [H _]].
    - destruct (Hdp E) as [Hd1 Hd2]. eapply wp_mono; [apply (mfree_one_ok s1 (pgdir tc) Hm1 Hlow Hd1)|].
      intros u s2 (M1 & M2 & M3). split_and!; [done|done| |].
      + eapply (kheap_page_kept s1); [exact Hcp| |done|exact M3]. congruence.
      + intros va pa. rewrite M3. split; intros [H1 H2]; split; [exact H1|done|exact H1|by apply H2]. }
  intros u s2 (M1 & (m & kp & up & kv & -> & Hkp & Hkv) & M3 & M4). set (s2 := set_kernel_vaddr _ _) in *.
  (* the all list *)
  apply wp_bind. eapply wp_mono.
  { eapply (list_remove_mid_ok s2 L (so_lists _ _ _ _ HS) (all s) (all_list_tag <$> l1) (all_list_tag c) (all_list_tag <$> l2)).
    rewrite (ao_all _ _ _ HA). by rewrite fmap_app. }
  intros u' s3 [(h & -> & Hl3) _]. kstep. kstep. change (main_thread _) with (main_thread (glob s)).
  destruct (Z.eqb_spec c (main_thread (glob s))); [done|]. cbn [negb when]. apply wp_bind.
  (* the PCB *)
  assert (mem_ok (set_links h s2)) as Hm3 by by apply mem_ok_links.
  eapply wp_mono; [apply (mfree_one_ok (set_links h s2) c Hm3); [|exact M3]|].
  { change (kernel_pool (set_links h s2)) with kp. destruct Hkp as [-> _]. done. }
  intros u'' s4 (R1 & (m4 & kp4 & up4 & kv4 & -> & _) & R3). kstep. split.
  - done.
  - rewrite fmap_app. exact Hl3.
  - done.
  - intros va pa. rewrite R3. change (maps (set_links h s2)) with (maps s2). rewrite M4. naive_solver.
  - done.
Qed.
End reap.

Definition is_child (s : kstate) (n p : Z) (t : TaskStruct) : Prop := tasks s !! p = Some t ∧ parent_pid t = n.

Lemma sys_wait_reaps pd L rq l1 l2 s t c tc :
  running pd L rq s t → all_ok L s (l1 ++ c :: l2) → all s ≠ ready s →
  is_child s (pid t) c tc → status tc = TASK_HANGING → - 2 ^ 15 ≤ pid tc < 2 ^ 15 →
  (∀ p u, p ∈ l1 → is_child s (pid t) p u → status u ≠ TASK_HANGING) →
  mem_ok s → 0x102000 ≤ phy_addr_start (kernel_pool s) → c ≠ main_thread (glob s) → kheap_page s c →
  (pgdir tc ≠ NULL → kheap_page s (pgdir tc) ∧ pgdir tc / 4096 ≠ c / 4096) →
  ∃ s', sys_wait_pass s = Ok (Some (Some (exit_status tc), pid tc), s') ∧ reaped L l1 l2 s c tc s'.
Proof.
  intros [HS Hcur Hrun] HA Hne [Hc Hpp] Hh Hpid Hfirst Hm Hlow Hcm Hcp Hdp.
  destruct (wp_inv _ _ _ (thread_exit_ok pd L rq l1 l2 s c tc HS HA Hne Hc Hh Hm Hlow Hcm Hcp Hdp)) as ([] & s' & Hex & Hre).
  exists s'. split; [|done]. unfold sys_wait_pass, mbind, K_bind, running_thread, gets. fold (cur s). fold (all s).
  rewrite (ld_task_eq _ _ _ Hcur).
  rewrite (all_find L s _ find_hanging_child (pid t) (λ u, (parent_pid u =? pid t) && bool_decide (status u = TASK_HANGING)) HA).
  2:{ intros p u Hu Hp. unfold find_hanging_child, mbind, K_bind. by rewrite elem2entry_all, (ld_task_eq _ _ _ Hu) by lia. }
  assert (List.find (λ p, match tasks s !! p with Some u => (parent_pid u =? pid t) && bool_decide (status u = TASK_HANGING) | None => false end)
    (l1 ++ c :: l2) = Some c) as ->.
  { clear HA Hre. induction l1 as [|p l1 IH]; cbn [app List.find].
    - rewrite Hc, Hh, bool_decide_true by done. rewrite (proj2 (Z.eqb_eq _ _) Hpp). done.
    - destruct (tasks s !! p) as [u|] eqn:Hu; [|apply IH; set_solver].
      destruct (Z.eqb_spec (parent_pid u) (pid t)); cbn [andb]; [|apply IH; set_solver].
      rewrite bool_decide_false; [apply IH; set_solver|]. apply (Hfirst p u); [set_solver|by split]. }
  rewrite (all_tag_nonnull L s _ c HA) by set_solver. cbn [negb].
  destruct (ao_pcb _ _ _ HA c ltac:(set_solver)) as [_ Hcr]. rewrite elem2entry_all by lia.
  rewrite (ld_task_eq _ _ _ Hc), Hex. unfold mret, K_ret. do 4 f_equal. unfold i16, u16. Z.div_mod_to_equations. lia.
Qed.

Lemma hanging_test L s al n : all_ok L s al →
  list_traversal (all s) find_hanging_child n s
  = Ok (match List.find (λ p, match tasks s !! p with Some u => (parent_pid u =? n) && bool_decide (status u = TASK_HANGING) | None => false end) al
        with Some p => all_list_tag p | None => NULL end, s).
Proof.
  intros HA. apply (all_find L); [done|]. intros p u Hu Hp. unfold find_hanging_child, mbind, K_bind.
  by rewrite elem2entry_all, (ld_task_eq _ _ _ Hu) by lia.
Qed.
Lemma child_test L s al n : all_ok L s al →
  list_traversal (all s) find_child n s
  = Ok (match List.find (λ p, match tasks s !! p with Some u => parent_pid u =? n | None => false end) al
        with Some p => all_list_tag p | None => NULL end, s).
Proof.
  intros HA. apply (all_find L); [done|]. intros p u Hu Hp. unfold find_child, mbind, K_bind.
  by rewrite elem2entry_all, (ld_task_eq _ _ _ Hu) by lia.
Qed.

(** With no hanging child, [sys_wait] looks for any child. *)
Lemma sys_wait_nohang pd L rq al s t : running pd L rq s t → all_ok L s al →
  (∀ p u, p ∈ al → is_child s (pid t) p u → status u ≠ TASK_HANGING) →
  sys_wait_pass s = (if match List.find (λ p, match tasks s !! p with Some u => parent_pid u =? pid t | None => false end) al
        with Some p => all_list_tag p | None => NULL end =? NULL
      then mret (Some (None, -1)) else _ ← thread_block TASK_WAITING; mret None) s.
Proof.
  intros [HS Hcur Hrun] HA Hno. unfold sys_wait_pass, mbind, K_bind, running_thread, gets. fold (cur s). fold (all s).
  rewrite (ld_task_eq _ _ _ Hcur), (hanging_test L s al _ HA).
  match goal with |- context [List.find ?P al] => destruct (find_first P al) as [[-> _]|(l1 & c & l2 & -> & -> & Hc & _)] end.
  - cbn [Z.eqb NULL negb]. rewrite (child_test L s al _ HA). unfold NULL.
    by match goal with |- context [if ?b then _ else _] => destruct b end.
  - exfalso. destruct (tasks s !! c) as [u|] eqn:Hu; [|done]. apply andb_true_iff in Hc as [H1%Z.eqb_eq H2%bool_decide_eq_true].
    apply (Hno c u); [set_solver|by split|done].
Qed.

(** C30: [sys_wait].  A caller without children gets -1 and nothing changes.  A
    caller whose children all still run is suspended as waiting and the
    scheduler's choice runs.  Otherwise the first exited child in the all list
    is reaped: its status and pid are returned, it leaves the all list, its
    page directory and its PCB page are unmapped and given back, and no other
    thread, list or mapping changes. *)
Theorem sys_wait_correct pd L rq al s t :
  running pd L rq s t → all_ok L s al → all s ≠ ready s →
  ((∀ p u, p ∈ al → ¬ is_child s (pid t) p u) → sys_wait_pass s = Ok (Some (None, -1), s)) ∧
  ((∃ p u, p ∈ al ∧ is_child s (pid t) p u) → (∀ p u, p ∈ al → is_child s (pid t) p u → status u ≠ TASK_HANGING) →
     ∃ s' n r, sys_wait_pass s = Ok (None, s') ∧ (n, r) = pick rq (idle s) ∧ cur s' = n
       ∧ sched_ok pd (<[ready s := general_tag <$> r]> L) r s') ∧
  (∀ l1 l2 c tc, al = l1 ++ c :: l2 → is_child s (pid t) c tc → status tc = TASK_HANGING → - 2 ^ 15 ≤ pid tc < 2 ^ 15 →
     (∀ p u, p ∈ l1 → is_child s (pid t) p u → status u ≠ TASK_HANGING) →
     mem_ok s → 0x102000 ≤ phy_addr_start (kernel_pool s) → c ≠ main_thread (glob s) → kheap_page s c →
     (pgdir tc ≠ NULL → kheap_page s (pgdir tc) ∧ pgdir tc / 4096 ≠ c / 4096) →
     ∃ s', sys_wait_pass s = Ok (Some (Some (exit_status tc), pid tc), s') ∧ reaped L l1 l2 s c tc s').
Proof.
  intros HR HA Hne. split_and!.
  - intros Hno. rewrite (sys_wait_nohang pd L rq al s t HR HA) by (intros p u Hp Hc; by destruct (Hno p u Hp)).
    match goal with |- context [List.find ?P al] => destruct (find_first P al) as [[-> _]|(l1 & c & l2 & -> & -> & Hc & _)] end; [done|]. exfalso.
    destruct (tasks s !! c) as [u|] eqn:Hu; [|done]. apply Z.eqb_eq in Hc. apply (Hno c u); [set_solver|by split].
  - intros (p & u & Hp & Hc & Epp) Hno. rewrite (sys_wait_nohang pd L rq al s t HR HA Hno). destruct (HR) as [HS Hcur Hrun].
    match goal with |- context [List.find ?P al] => destruct (find_first P al) as [[_ Hf]|(l1 & c & l2 & -> & -> & _)] end.
    { specialize (Hf p Hp). simpl in Hf. rewrite Hc in Hf. apply Z.eqb_neq in Hf. done. }
    rewrite (all_tag_nonnull L s _ c HA) by set_solver. pose proof (so_cur_tag _ _ _ _ HS _ Hcur Hrun) as Hft.
    pose proof (thread_block_ok pd L rq s t HS Hcur Hrun TASK_WAITING L (links s) eq_refl (so_lists _ _ _ _ HS) eq_refl
      (λ e _ H, H) (λ _, Hft)) as H.
    rewrite set_links_id in H. destruct (wp_inv _ _ _ H) as (old & s2 & Hb & _ & H2).
    destruct (pick rq (idle s)) as [n r]. destruct H2 as (H2 & H3 & _). exists s2, n, r.
    unfold mbind, K_bind. rewrite Hb. split_and!; [done|done|exact (sw_cur _ _ _ _ H3)|exact H2].
  - intros l1 l2 c tc ->. by apply (sys_wait_reaps pd L rq).
Qed.

(** A heap page that no thread uses is a page for a new kernel thread. *)
Lemma kheap_new_page pd L s p : mem_ok s → cr3 s = KERNEL_PAGE_DIR → (∀ q u, tasks s !! q = Some u → pgdir u = NULL) →
  kheap_page s p → tasks s !! p = None → fresh_node L (general_tag p) → fresh_node L (all_list_tag p) →
  ∃ f, new_page pd L s p f.
Proof.
  intros Hm Hcr Hk (i & f & Hi & Ep & Hmp & Hin & Hc) Hno Hg Ha. destruct (mo_kva _ Hm) as [V1 V2 V3 V4 V5].
  assert (p mod 4096 = 0) as Hpa by (rewrite Ep; Z.div_mod_to_equations; lia).
  assert (0xc0000000 ≤ p ∧ p + 4096 ≤ 0xffc00000) as [Hp1 Hp2] by lia.
  destruct (inpool_test_ok PF_KERNEL s f (mo_pools _ Hm) Hin) as [_ Hfa].
  assert (¬ walk_frame s f) as Hw.
  { intros [->|Ht]; [done|]. apply (mo_table _ Hm _ _ Hmp). by rewrite (pg_id f). }
  exists f. split; try done; [lia|apply (do_words _ _ (vm_dir _ _ (mo_vm _ Hm)))| |].
  - intros m' k Ho Hr Hk'. rewrite (data_write_translate s f m' Hm Hw Hfa Hr) by (unfold in_space; lia || (intros a Ha'; apply Ho; lia)).
    destruct Hmp as [Hs Ht]. destruct (in_space_idx _ Hs) as [Hr' _].
    rewrite (translate_unfold _ _ (vm_dir _ _ (mo_vm _ Hm))) in Ht by done.
    rewrite (translate_unfold _ _ (vm_dir _ _ (mo_vm _ Hm))) by lia.
    assert ((p + 4 * k) / 2 ^ 22 = p / 2 ^ 22 ∧ (p + 4 * k) / 4096 = p / 4096 ∧ (p + 4 * k) mod 4096 = p mod 4096 + 4 * k) as (E1 & E2 & E3).
    { split_and!; Z.div_mod_to_equations; lia. }
    unfold pte_addr, tbl_of, pde_of in *. rewrite E1, E2, E3. 
    destruct (Z.testbit _ 0); [|done]. destruct (Z.testbit _ 0); [|done]. injection Ht as Ht. f_equal. lia.
  - intros m' [Ho Hr] d Hd. assert (d = KERNEL_PAGE_DIR) as ->.
    { destruct Hd as [->|(q & u & Hq & Hu & _)]; [done|]. by rewrite (Hk _ _ Hq) in Hu. }
    split; [|intros q u Hq Hu; by rewrite (Hk _ _ Hq) in Hu]. rewrite <- Hcr.
    apply (data_write_vm s f m' Hm Hw Hfa Hr Ho).
Qed.

(** ** The pid counter under preemption

    [allocate_pid] step by step: it reads the counter for its result after it
    has released the lock. *)
Module PidRace.
Inductive pc := Start | Locked | Counted | Unlocked | Done (pid : Z).
Record sys := mkSys { counter : Z; owner : option Z; pcs : gmap Z pc }.

Definition pid_step (i : Z) (s : sys) : option sys :=
  match pcs s !! i with
  | Some Start => match owner s with None => Some (mkSys (counter s) (Some i) (<[i := Locked]> (pcs s))) | Some _ => None end
  | Some Locked => Some (mkSys (i16 (counter s + 1)) (owner s) (<[i := Counted]> (pcs s)))
  | Some Counted => Some (mkSys (counter s) None (<[i := Unlocked]> (pcs s)))
  | Some Unlocked => Some (mkSys (counter s) (owner s) (<[i := Done (counter s)]> (pcs s)))
  | _ => None
  end.
Fixpoint run (tr : list Z) (s : sys) : option sys :=
  match tr with [] => Some s | i :: tr => s ← pid_step i s; run tr s end.

(** Two threads can get the same pid.  Run one after the other, two calls of
    [allocate_pid] return consecutive numbers; but when the first caller is
    preempted between releasing the lock and reading the static counter, both
    return the second number. *)
Theorem allocate_pid_race n : let s0 := mkSys n None {[1 := Start; 2 := Start]} in
  (∃ s, run [1; 1; 1; 1; 2; 2; 2; 2] s0 = Some s ∧ pcs s !! 1 = Some (Done (i16 (n + 1))) ∧ pcs s !! 2 = Some (Done (i16 (i16 (n + 1) + 1)))) ∧
  (∃ s, run [1; 1; 1; 2; 2; 2; 1; 2] s0 = Some s
     ∧ pcs s !! 1 = Some (Done (i16 (i16 (n + 1) + 1))) ∧ pcs s !! 2 = Some (Done (i16 (i16 (n + 1) + 1)))).
Proof. intros s0. split; (eexists; split; [reflexivity|split; reflexivity]). Qed.
End PidRace.

(** Allocated kernel pages are heap pages. *)
Lemma kpages_heap s s' r n : mem_ok s → kpages s s' r n → r ≠ NULL →
  cr3 s' = cr3 s ∧ phy_addr_start (kernel_pool s') = phy_addr_start (kernel_pool s) ∧ ∀ k, 0 ≤ k < n → kheap_page s' (r + k * 4096).
Proof.
  intros Hm [K1 K2 K3 K10 (v' & m' & p' & -> & K12 & K13) _] Hr.
  destruct K3 as [?|(_ & _ & _ & _ & _ & _ & K8 & _ & i & Ei & I1 & I2 & I3 & _ & I5)]; [done|].
  split; [done|]. split; [by destruct K12 as [? _]|].
  intros k Hk. destruct (K8 k Hk) as (f & F1 & F2 & F3). specialize (F3 0 ltac:(lia)). rewrite !Z.add_0_r in F3.
  destruct K13 as (E1 & E2). exists (i + k), f. cbn in E1, E2 |- *.
  split_and!; [unfold nbits in *; lia|unfold nbits in *; lia|lia|done|by eapply in_pool_same, free_in_pool|].
  intros ->. apply (mo_walk _ Hm (cr3 s)); [by left|by exists PF_KERNEL].
Qed.

(** *** Witnesses: three heap pages of the booted memory; the parent at
    0xc009e000 with pid 5, its exited child at 0xc0100000, the idle thread at
    0xc0101000, and a free page at 0xc0102000 *)
#[local] Opaque booted.
Definition demo_pages : kstate := run_state (malloc_page PF_KERNEL 3 booted).

Lemma demo_pages_ok : mem_ok demo_pages ∧ cr3 demo_pages = 0x100000 ∧ 0x102000 ≤ phy_addr_start (kernel_pool demo_pages)
  ∧ ∀ k, 0 ≤ k < 3 → kheap_page demo_pages (0xc0100000 + k * 4096).
Proof.
  destruct booted_ok as (Hm & _ & Hc).
  destruct (wp_inv _ _ _ (malloc_page_kernel_ok booted 3 Hm ltac:(lia))) as (r & s' & Hrun & HK).
  assert (run_val (malloc_page PF_KERNEL 3 booted) = Some 0xc0100000) as Hv by (vm_compute; reflexivity).
  assert (0x102000 ≤ phy_addr_start (kernel_pool booted)) as Hlow by (vm_compute; discriminate).
  unfold demo_pages. rewrite Hrun in Hv |- *. cbn [run_val run_state] in *. injection Hv as ->.
  destruct (kpages_heap booted s' 0xc0100000 3 Hm HK) as (E1 & E2 & E3); [discriminate|].
  rewrite E1, E2. split; [exact (kp_ok _ _ _ _ HK)|]. split; [exact Hc|]. split; [exact Hlow|exact E3].
Qed.
#[local] Opaque demo_pages.

Definition demo_thr (p n : Z) (st : TaskStatus) (ppid code : Z) : TaskStruct :=
  mkTask (p + 3000) n st 31 [] 0 0 [] 0 (mkVirtualAddr (mkBitMap 0 []) 0) 0 ppid code STACK_MAGIC.
Definition demo_parent : TaskStruct := demo_thr 0xc009e000 5 TASK_RUNNING (-1) 0.
Definition demo_child : TaskStruct := demo_thr 0xc0100000 6 TASK_HANGING 5 42.
Definition demo_idle : TaskStruct := demo_thr 0xc0101000 2 TASK_BLOCKED (-1) 0.
Definition demo_thr_lists : gmap Z (list Z) :=
  {[0x5000 := []; 0x6000 := all_list_tag <$> [0xc009e000; 0xc0100000; 0xc0101000]; 0x7008 := []]}.
Definition demo_thr_links : gmap Z ListElem :=
  match run_ops [LInit 0x5000; LInit 0x6000; LAppend 0x6000 0xc009e04c; LAppend 0x6000 0xc010004c; LAppend 0x6000 0xc010104c; LInit 0x7008] k0 with
  | Ok (_, s) => links s | _ => ∅ end.
Definition demo_thr_tasks : gmap Z TaskStruct :=
  {[0xc009e000 := demo_parent; 0xc0100000 := demo_child; 0xc0101000 := demo_idle]}.
Definition demo_threads (M : kstate) : kstate :=
  set_glob (mkGlobals 0x5000 0x6000 0 0x7000 0xc009e000 0xc0101000) (set_esp 0xc009ef00
    (set_locks {[0x7000 := mkLock NULL 0]} (set_sema_value {[0x7004 := 1]} (set_links demo_thr_links (set_tasks demo_thr_tasks M))))).

Lemma demo_thr_tasks_inv p t : demo_thr_tasks !! p = Some t →
  (p = 0xc009e000 ∧ t = demo_parent) ∨ (p = 0xc0100000 ∧ t = demo_child) ∨ (p = 0xc0101000 ∧ t = demo_idle).
Proof. unfold demo_thr_tasks. rewrite !lookup_insert_Some, lookup_singleton_Some. naive_solver. Qed.

Lemma demo_thr_lrep : lrep demo_thr_links demo_thr_lists.
Proof. apply lrep_check_ok. vm_compute. reflexivity. Qed.

Section demo.
Context (M : kstate) (Hm : mem_ok M) (Hc : cr3 M = 0x100000).

Lemma demo_threads_mem : mem_ok (demo_threads M).
Proof. destruct Hm as [[] ? ? ? ? ? ? ? ?]. by split. Qed.

Lemma demo_threads_running : running (λ _, 0) demo_thr_lists [] (demo_threads M) demo_parent.
Proof.
  split; [|reflexivity|reflexivity]. split.
  - exact demo_thr_lrep.
  - reflexivity.
  - intros p. rewrite elem_of_nil. split; [done|]. intros (t & Ht%demo_thr_tasks_inv & Hs). naive_solver.
  - intros p t Ht%demo_thr_tasks_inv. destruct Ht as [[-> ->]|[[-> ->]|[-> ->]]]; split; try reflexivity; simpl; unfold switch_frame; lia.
  - vm_compute. split; [split; discriminate || reflexivity|reflexivity].
  - exists demo_parent. split; [reflexivity|exact Hc].
  - intros p t Ht%demo_thr_tasks_inv Hs. destruct Ht as [[-> ->]|[[-> ->]|[-> ->]]]; [reflexivity|done|done].
  - intros t _ _. apply freshb_ok. vm_compute. reflexivity.
  - exists demo_idle. split; [reflexivity|]. split; [discriminate|]. intros _. apply freshb_ok. vm_compute. reflexivity.
  - assert (∀ p t, demo_thr_tasks !! p = Some t → pgdir t = NULL) as Hk.
    { intros p t Ht%demo_thr_tasks_inv. by destruct Ht as [[-> ->]|[[-> ->]|[-> ->]]]. }
    intros d Hd. destruct Hd as [->|(p & t & Ht & Hne & _)]; [|by rewrite (Hk _ _ Ht) in Hne].
    split; [|intros p t Ht Hne; by rewrite (Hk _ _ Ht) in Hne].
    change (phys (demo_threads M)) with (phys M). unfold KERNEL_PAGE_DIR. rewrite <- Hc. apply (vm_dir _ _ (mo_vm _ Hm)).
Qed.

Lemma demo_threads_all : all_ok demo_thr_lists (demo_threads M) [0xc009e000; 0xc0100000; 0xc0101000].
Proof.
  split; [exact demo_thr_lrep|reflexivity|]. intros p. rewrite !elem_of_cons, elem_of_nil.
  intros [->|[->|[->|[]]]]; (split; [eexists; reflexivity|lia]).
Qed.

Lemma demo_threads_low : 0x102000 ≤ phy_addr_start (kernel_pool M) → 0x102000 ≤ phy_addr_start (kernel_pool (demo_threads M)).
Proof. done. Qed.
Lemma demo_threads_heap va : kheap_page M va → kheap_page (demo_threads M) va.
Proof. done. Qed.

Lemma demo_threads_page : kheap_page M 0xc0102000 → ∃ f, new_page (λ _, 0) demo_thr_lists (demo_threads M) 0xc0102000 f.
Proof.
  intros Hp. apply kheap_new_page; [exact demo_threads_mem|exact Hc| |exact Hp|reflexivity| |].
  - intros p t Ht%demo_thr_tasks_inv. by destruct Ht as [[-> ->]|[[-> ->]|[-> ->]]].
  - apply freshb_ok. vm_compute. reflexivity.
  - apply freshb_ok. vm_compute. reflexivity.
Qed.
End demo.

Definition demo_state : kstate := demo_threads demo_pages.

(** "shell" at priority 20 on the free page *)
Lemma thread_start_correct_witness :
  ∃ f s', thread_start_at 0xc0001500 0xc0102000 [115; 104; 101; 108; 108; 0] 0 20 0xc0002000 7 demo_state = Ok (0xc0102000, s')
    ∧ sched_ok (λ _, 0) (<[all demo_state := all_list_tag <$> [0xc009e000; 0xc0100000; 0xc0101000] ++ [0xc0102000]]>
         (<[ready demo_state := general_tag <$> [] ++ [0xc0102000]]> demo_thr_lists)) [0xc0102000] s'
    ∧ tasks s' = <[0xc0102000 := set_self_kstack (0xc0102000 + 3664) (new_task 0xc0102000 [115; 104; 101; 108; 108] (i16 (next_pid demo_state + 1)) 20 TASK_READY)]> (tasks demo_state)
    ∧ next_pid s' = i16 (next_pid demo_state + 1) ∧ new_frame (phys s') (f + 3664) 0xc0001500 0xc0002000 7
    ∧ on_page (phys demo_state) f (phys s') ∧ cur s' = cur demo_state.
Proof.
  destruct demo_pages_ok as (Hm & Hc & _ & Hk).
  destruct (demo_threads_page demo_pages Hm Hc (Hk 2 ltac:(lia))) as [f HN]. exists f.
  apply (thread_start_correct (λ _, 0) demo_thr_lists [] [0xc009e000; 0xc0100000; 0xc0101000] demo_state 0xc0102000 f _ 0 [115; 104; 101; 108; 108] 20
    0xc0001500 0xc0002000 7 (ru_ok _ _ _ _ _ (demo_threads_running demo_pages Hm Hc)) HN);
    [reflexivity|discriminate| |discriminate|discriminate| |simpl; lia|lia|lia|lia|lia].
  - split; [exact demo_thr_lrep|reflexivity|split; discriminate|reflexivity|reflexivity].
  - exists [], []. split; [reflexivity|]. split; [reflexivity|repeat constructor; lia].
Defined.

Lemma pid2thread_correct_witness :
  ∃ r, pid2thread 6 demo_state = Ok (r, demo_state) ∧
    ((r = NULL ∧ ∀ p t, p ∈ [0xc009e000; 0xc0100000; 0xc0101000] → tasks demo_state !! p = Some t → pid t ≠ 6) ∨
     (∃ l1 l2 t, [0xc009e000; 0xc0100000; 0xc0101000] = l1 ++ r :: l2 ∧ tasks demo_state !! r = Some t ∧ pid t = 6
        ∧ ∀ p u, p ∈ l1 → tasks demo_state !! p = Some u → pid u ≠ 6)).
Proof.
  apply (pid2thread_correct demo_thr_lists demo_state [0xc009e000; 0xc0100000; 0xc0101000] 6 (demo_threads_all demo_pages)).
Defined.

(** The parent reaps its child: status 42, pid 6. *)
Lemma sys_wait_correct_witness :
  ∃ s', sys_wait_pass demo_state = Ok (Some (Some 42, 6), s') ∧ reaped demo_thr_lists [0xc009e000] [0xc0101000] demo_state 0xc0100000 demo_child s'.
Proof.
  destruct demo_pages_ok as (Hm & Hc & Hlow & Hk).
  destruct (sys_wait_correct (λ _, 0) demo_thr_lists [] [0xc009e000; 0xc0100000; 0xc0101000] demo_state demo_parent
    (demo_threads_running demo_pages Hm Hc) (demo_threads_all demo_pages) ltac:(discriminate)) as (_ & _ & H).
  apply (H [0xc009e000] [0xc0101000] 0xc0100000 demo_child); [reflexivity|split; reflexivity|reflexivity|split; [discriminate|reflexivity]| | | | | |].
  - intros p u Hp [Hu _]. apply list_elem_of_singleton in Hp as ->. change (Some demo_parent = Some u) in Hu. injection Hu as <-. discriminate.
  - exact (demo_threads_mem demo_pages Hm).
  - exact (demo_threads_low demo_pages Hlow).
  - discriminate.
  - exact (demo_threads_heap demo_pages _ (Hk 0 ltac:(lia))).
  - intros E. destruct (E eq_refl).
Defined.

(** ** Listing *)
Definition demo_named (n : nat) : TaskStruct := set_name (replicate n 97 ++ replicate (16 - n) 0) demo_child.

(** A row of [ps]: four columns of 15 characters, the name and a newline. *)
Example thread_info_row : thread_info (demo_named 3) = Ok
  (text "6              5              HANGING        0              aaa" ++ [10]).
Proof. vm_compute. reflexivity. Qed.

(** A name of 15 characters is allowed by the PCB and by the assertion of
    [elem2thread_info], but with the newline and the NUL it needs 17 bytes of
    the 16 byte buffer. *)
Example thread_info_overflows : thread_info (demo_named 15) = Fault.
Proof. vm_compute. reflexivity. Qed.
