(* ===== verification/Ide.v ===== *)
(** * device/ide.c: the disk driver

    The drive itself is hardware.  [Drive] is what the driver needs of it: the
    operations on its ports and, as laws, the protocol of the PIO commands READ
    SECTORS and WRITE SECTORS of the ATA standard: the address and count are
    decoded from the command block registers; a read signals with an interrupt
    and DRQ before each sector, a write asks with DRQ for each sector and
    interrupts after it, and 256 words move at a time.  A sector may be
    unreadable or unwritable: then the drive reports an error, or does not answer,
    with or without an interrupt.  The driver's theorems are proved against
    these laws, for transfers of one sector: for more, the driver waits once and
    moves all the words at once, which the standard does not provide for.
    [SimDrive] is an instance, with defects.  A channel's members are a record,
    its lock and semaphore are in the kernel state.  An interrupt that the drive
    raises is taken before the driver waits for it; when it arrives later,
    [sema_down] suspends the thread and it resumes at the same point. *)
From S2P Require Import Prelude CString Bitmap Machine DList Mmu PageMem Sched Sync Cpu.

Definition BIT_STAT_BSY : Z := 0x80.
Definition BIT_STAT_DRQ : Z := 0x8.
Definition BIT_DEV_MBS : Z := 0xa0.
Definition BIT_DEV_LBA : Z := 0x40.
Definition BIT_DEV_DEV : Z := 0x10.
Definition CMD_READ_SECTOR : Z := 0x20.
Definition CMD_WRITE_SECTOR : Z := 0x30.
Definition max_lba : Z := 80 * 1024 * 1024 / 512 - 1.

(** Register offsets from [port_base]. *)
Definition reg_data : Z := 0.
Definition reg_sect_cnt : Z := 2.
Definition reg_lba_l : Z := 3.
Definition reg_lba_m : Z := 4.
Definition reg_lba_h : Z := 5.
Definition reg_dev : Z := 6.
Definition reg_status : Z := 7.
Definition reg_cmd : Z := 7.

(** A disk's contents: 512 bytes for each sector of each of two devices. *)
Definition disks : Type := Z → Z → list Z.
Definition read_secs (c : disks) (dev lba : Z) (n : nat) : list Z := concat (map (λ i, c dev (lba + Z.of_nat i)) (seq 0 n)).
Definition write_secs (c : disks) (dev lba : Z) (n : nat) (b : list Z) : disks := λ dev' l,
  if decide (dev' = dev ∧ lba ≤ l < lba + Z.of_nat n) then take 512 (drop (Z.to_nat (512 * (l - lba))) b) else c dev' l.
Definition disks_wf (c : disks) : Prop := ∀ dev l, length (c dev l) = 512%nat.

(** The device register for a transfer: bits 24 to 27 of the address. *)
Definition dev_byte (dev lba : Z) : Z := Z.lor (Z.lor (Z.lor BIT_DEV_MBS BIT_DEV_LBA) (if dev =? 1 then BIT_DEV_DEV else 0)) (Z.shiftr lba 24).

(** What is on the devices of a channel, and the sectors they can transfer. *)
Record medium := mkMedium { secs : disks; readable : Z → Z → bool; writable : Z → Z → bool }.

(** The command block registers, and what they mean to the drive. *)
Record regfile := mkRf { rf_cnt : Z; rf_low : Z; rf_mid : Z; rf_high : Z; rf_dev : Z }.
Definition rf_write (off v : Z) (f : regfile) : regfile :=
  if off =? 2 then mkRf v (rf_low f) (rf_mid f) (rf_high f) (rf_dev f)
  else if off =? 3 then mkRf (rf_cnt f) v (rf_mid f) (rf_high f) (rf_dev f)
  else if off =? 4 then mkRf (rf_cnt f) (rf_low f) v (rf_high f) (rf_dev f)
  else if off =? 5 then mkRf (rf_cnt f) (rf_low f) (rf_mid f) v (rf_dev f)
  else mkRf (rf_cnt f) (rf_low f) (rf_mid f) (rf_high f) v.
Definition rf_is_lba (f : regfile) : bool := Z.testbit (rf_dev f) 6.
Definition rf_unit (f : regfile) : Z := if Z.testbit (rf_dev f) 4 then 1 else 0.
Definition rf_lba (f : regfile) : Z := rf_low f + rf_mid f * 2 ^ 8 + rf_high f * 2 ^ 16 + rf_dev f mod 16 * 2 ^ 24.
Definition rf_count (f : regfile) : nat := if rf_cnt f =? 0 then 256%nat else Z.to_nat (rf_cnt f).

Section polls.
Context {D : Type} (in_status : D → Z * D) (elapse : D → D) (d : D).
(** The drive at poll [k], if it was busy until then. *)
Definition polled (k : nat) : D := Nat.iter k (λ d, elapse (in_status d).2) d.
Definition busy_at (k : nat) : Prop := Z.land (in_status (polled k)).1 BIT_STAT_BSY ≠ 0.

(** After fewer than 29999 polls that see the drive busy, two polls see it not
    busy and asking for data, in a state that satisfies [P]. *)
Definition polls_ready (P : D → Prop) : Prop :=
  ∃ k : nat, Z.of_nat k < 29999 ∧ (∀ i, (i < k)%nat → busy_at i) ∧ ¬ busy_at k
    ∧ Z.land (in_status (in_status (polled k)).2).1 BIT_STAT_DRQ ≠ 0 ∧ P (in_status (in_status (polled k)).2).2.
(** The drive stays busy, or it ends the command without asking for data. *)
Definition polls_failed : Prop :=
  (∀ i, Z.of_nat i < 29999 → busy_at i)
  ∨ ∃ k : nat, Z.of_nat k < 29999 ∧ (∀ i, (i < k)%nat → busy_at i) ∧ ¬ busy_at k
      ∧ Z.land (in_status (in_status (polled k)).2).1 BIT_STAT_DRQ = 0.
End polls.

Class Drive (D : Type) := {
  d_out : Z → Z → D → D;             (* a byte to the register at an offset *)
  d_in_status : D → Z * D;           (* the status register; reading it acknowledges the interrupt *)
  d_insw : nat → D → list Z * D;     (* words from the data register *)
  d_outsw : list Z → D → D;          (* words to the data register *)
  d_elapse : D → D;                  (* time passes *)
  d_intrq : D → bool;                (* the drive raises its interrupt *)
  (* no command: the medium and the registers *)
  d_idle : medium → regfile → D → Prop;
  (* a read of sectors from a device, so many to come: the drive gets the next
     one, has signalled it, has it in its buffer *)
  d_fetching : medium → Z → Z → nat → D → Prop;
  d_reading : medium → Z → Z → nat → D → Prop;
  d_drq_in : medium → Z → Z → nat → D → Prop;
  (* a write: the drive prepares for the next sector, waits for its words *)
  d_accepting : medium → Z → Z → nat → D → Prop;
  d_drq_out : medium → Z → Z → nat → D → Prop;

  d_reg m f d off v : d_idle m f d → 2 ≤ off ≤ 6 → is_byte v → d_idle m (rf_write off v f) (d_out off v d);
  d_read_cmd m f d : d_idle m f d → rf_is_lba f = true → rf_lba f + Z.of_nat (rf_count f) ≤ 2 ^ 28 →
    d_fetching m (rf_unit f) (rf_lba f) (rf_count f) (d_out reg_cmd CMD_READ_SECTOR d);
  d_fetched m dev lba n d : d_fetching m dev lba n d → readable m dev lba = true → d_intrq d = true;
  d_read_ack m dev lba n d : d_fetching m dev lba n d → d_intrq d = true → d_reading m dev lba n (d_in_status d).2;
  d_read_poll m dev lba n d : d_reading m dev lba n d →
    if readable m dev lba then polls_ready d_in_status d_elapse d (d_drq_in m dev lba n) else polls_failed d_in_status d_elapse d;
  d_read_data m dev lba n d : d_drq_in m dev lba (S n) d →
    (d_insw 256 d).1 = secs m dev lba
    ∧ match n with
      | O => ∃ m' f', d_idle m' f' (d_insw 256 d).2 ∧ ∀ u l, secs m' u l = secs m u l
      | _ => d_fetching m dev (lba + 1) n (d_insw 256 d).2
      end;
  d_write_cmd m f d : d_idle m f d → rf_is_lba f = true → rf_lba f + Z.of_nat (rf_count f) ≤ 2 ^ 28 →
    d_accepting m (rf_unit f) (rf_lba f) (rf_count f) (d_out reg_cmd CMD_WRITE_SECTOR d);
  d_write_poll m dev lba n d : d_accepting m dev lba n d →
    polls_ready d_in_status d_elapse d (d_drq_out m dev lba n)
    ∨ writable m dev lba = false ∧ polls_failed d_in_status d_elapse d;
  (* the words are taken and the drive interrupts; a write fault may cost the
     sector and the interrupt *)
  d_write_data m dev lba n b d : d_drq_out m dev lba (S n) d → length b = 512%nat →
    (writable m dev lba = true → d_intrq (d_outsw b d) = true)
    ∧ (d_intrq (d_outsw b d) = true → ∃ m',
        (∀ u l, (u = dev ∧ l = lba → writable m dev lba = true) → secs m' u l = write_secs (secs m) dev lba 1 b u l)
        ∧ match n with
          | O => ∃ f', d_idle m' f' (d_in_status (d_outsw b d)).2
          | _ => writable m dev lba = true → d_accepting m' dev (lba + 1) n (d_in_status (d_outsw b d)).2
          end);
}.

Section driver.
Context {D : Type} `{!Drive D}.

Record IdeChannel := mkChan {
  irq_no : Z;
  ch_lock : Z;
  disk_done : Z;  (* the addresses of the lock and of the semaphore *)
  expecting_intr : bool;
  drv : D;
}.
Definition set_expecting (v : bool) (ch : IdeChannel) : IdeChannel := mkChan (irq_no ch) (ch_lock ch) (disk_done ch) v (drv ch).
Definition set_drv (v : D) (ch : IdeChannel) : IdeChannel := mkChan (irq_no ch) (ch_lock ch) (disk_done ch) (expecting_intr ch) v.
Definition ch_outb (off v : Z) (ch : IdeChannel) : IdeChannel := set_drv (d_out off (u8 v) (drv ch)) ch.

Definition select_disk (dev_no : Z) (ch : IdeChannel) : IdeChannel :=
  let reg_device := Z.lor BIT_DEV_MBS BIT_DEV_LBA in
  let reg_device := if dev_no =? 1 then Z.lor reg_device BIT_DEV_DEV else reg_device in
  ch_outb reg_dev reg_device ch.

Definition select_sector (dev_no lba sec_cnt : Z) (ch : IdeChannel) : outcome IdeChannel :=
  _ ← ASSERT (lba <=? max_lba);
  let ch := ch_outb reg_sect_cnt (u8 sec_cnt) ch in
  let ch := ch_outb reg_lba_l lba ch in
  let ch := ch_outb reg_lba_m (Z.shiftr lba 8) ch in
  let ch := ch_outb reg_lba_h (Z.shiftr lba 16) ch in
  mret (ch_outb reg_dev (dev_byte dev_no lba) ch).

Definition cmd_out (cmd : Z) (ch : IdeChannel) : IdeChannel := ch_outb reg_cmd cmd (set_expecting true ch).

Definition read_from_sector (sec_cnt : Z) (ch : IdeChannel) : list Z * IdeChannel :=
  let size_in_byte := if sec_cnt =? 0 then 256 * 512 else sec_cnt * 512 in
  let '(b, d) := d_insw (Z.to_nat (size_in_byte / 2)) (drv ch) in (b, set_drv d ch).

(** The bytes of [buf] that are sent. *)
Definition write2sector (buf : list Z) (sec_cnt : Z) (ch : IdeChannel) : IdeChannel :=
  let size_in_byte := if sec_cnt =? 0 then 256 * 512 else sec_cnt * 512 in
  set_drv (d_outsw (take (Z.to_nat (size_in_byte / 2 * 2)) buf) (drv ch)) ch.

(** [time_limit -= 10 >= 0] subtracts the truth value 1. *)
Fixpoint busy_loop (fuel : nat) (time_limit : Z) (ch : IdeChannel) : outcome (bool * IdeChannel) :=
  match fuel with
  | O => Spin
  | S fuel =>
      let time_limit := u16 (time_limit - Z.b2z (0 <=? 10)) in
      if time_limit =? 0 then mret (false, ch)
      else
        let '(st, d) := d_in_status (drv ch) in
        if Z.land st BIT_STAT_BSY =? 0 then
          let '(st, d) := d_in_status d in mret (negb (Z.land st BIT_STAT_DRQ =? 0), set_drv d ch)
        else busy_loop fuel time_limit (set_drv (d_elapse d) ch)
  end.
Definition busy_wait (ch : IdeChannel) : outcome (bool * IdeChannel) := busy_loop (Z.to_nat 30001) (30 * 1000) ch.

Definition intr_hd_handler (irq : Z) (ch : IdeChannel) : K IdeChannel :=
  kassert ((irq =? 0x2e) || (irq =? 0x2f)) ;;
  kassert (irq_no ch =? irq) ;;
  if expecting_intr ch then
    let ch := set_expecting false ch in
    sema_up (disk_done ch) ;;
    mret (set_drv (d_in_status (drv ch)).2 ch)
  else mret ch.

(** The interrupt of the drive, if it raises one, and the wait for it. *)
Definition await (ch : IdeChannel) : K IdeChannel :=
  ch ← (if d_intrq (drv ch) then intr_hd_handler (irq_no ch) ch else mret ch);
  sema_down (disk_done ch) ;;
  mret ch.

Fixpoint read_loop (fuel : nat) (dev_no lba secs_done sec_cnt : Z) (ch : IdeChannel) : K (list Z * IdeChannel) :=
  match fuel with
  | O => kfail Spin
  | S fuel =>
      if secs_done <? sec_cnt then
        let secs_op := if u32 (secs_done + 256) <=? sec_cnt then 256 else sec_cnt - secs_done in
        ch ← lift (select_sector dev_no (u32 (lba + secs_done)) (u8 secs_op) ch);
        let ch := cmd_out CMD_READ_SECTOR ch in
        ch ← await ch;
        '(ok, ch) ← lift (busy_wait ch);
        if negb ok then kfail Panic
        else
          let '(b, ch) := read_from_sector (u8 secs_op) ch in
          '(rest, ch) ← read_loop fuel dev_no lba (secs_done + secs_op) sec_cnt ch;
          mret (b ++ rest, ch)
      else mret ([], ch)
  end.
(** What [ide_read] stores at [buf]. *)
Definition ide_read (dev_no lba sec_cnt : Z) (ch : IdeChannel) : K (list Z * IdeChannel) :=
  kassert (lba <=? max_lba) ;;
  kassert (0 <? sec_cnt) ;;
  lock_acquire (ch_lock ch) ;;
  let ch := select_disk dev_no ch in
  '(b, ch) ← read_loop (S (Z.to_nat sec_cnt)) dev_no lba 0 sec_cnt ch;
  lock_release (ch_lock ch) ;;
  mret (b, ch).

Fixpoint write_loop (fuel : nat) (dev_no lba : Z) (buf : list Z) (secs_done sec_cnt : Z) (ch : IdeChannel) : K IdeChannel :=
  match fuel with
  | O => kfail Spin
  | S fuel =>
      if secs_done <? sec_cnt then
        let secs_op := if u32 (secs_done + 256) <=? sec_cnt then 256 else sec_cnt - secs_done in
        ch ← lift (select_sector dev_no (u32 (lba + secs_done)) (u8 secs_op) ch);
        let ch := cmd_out CMD_WRITE_SECTOR ch in
        '(ok, ch) ← lift (busy_wait ch);
        if negb ok then kfail Panic
        else
          let ch := write2sector (drop (Z.to_nat (secs_done * 512)) buf) (u8 secs_op) ch in
          ch ← await ch;
          write_loop fuel dev_no lba buf (secs_done + secs_op) sec_cnt ch
      else mret ch
  end.
Definition ide_write (dev_no lba : Z) (buf : list Z) (sec_cnt : Z) (ch : IdeChannel) : K IdeChannel :=
  kassert (lba <=? max_lba) ;;
  kassert (0 <? sec_cnt) ;;
  lock_acquire (ch_lock ch) ;;
  let ch := select_disk dev_no ch in
  ch ← write_loop (S (Z.to_nat sec_cnt)) dev_no lba buf 0 sec_cnt ch;
  lock_release (ch_lock ch) ;;
  mret ch.

(** ** Waiting *)
Lemma busy_loop_stops (fuel k : nat) t ch : Z.of_nat fuel = t + 1 → 0 < t ≤ 30000 → Z.of_nat k < t - 1 →
  (∀ i, (i < k)%nat → busy_at d_in_status d_elapse (drv ch) i) → ¬ busy_at d_in_status d_elapse (drv ch) k →
  let r := d_in_status (d_in_status (polled d_in_status d_elapse (drv ch) k)).2 in
  busy_loop fuel t ch = Ok (negb (Z.land r.1 BIT_STAT_DRQ =? 0), set_drv r.2 ch).
Proof.
  revert k t ch. induction fuel as [|fuel IH]; intros k t ch Hf Ht Hk Hb Hr; [lia|].
  cbn [busy_loop]. change (Z.b2z (0 <=? 10)) with 1. rewrite u16_id by lia. destruct (Z.eqb_spec (t - 1) 0); [lia|].
  destruct k as [|k].
  - unfold busy_at, polled in *. cbn in *. destruct (d_in_status (drv ch)) as [st d]. cbn in *.
    destruct (Z.eqb_spec (Z.land st BIT_STAT_BSY) 0); [|by destruct Hr]. by destruct (d_in_status d).
  - pose proof (Hb 0%nat ltac:(lia)) as Hb0. unfold busy_at, polled in Hb0. cbn in Hb0.
    destruct (d_in_status (drv ch)) as [st d] eqn:E. cbn in Hb0.
    destruct (Z.eqb_spec (Z.land st BIT_STAT_BSY) 0); [done|].
    assert (∀ i, polled d_in_status d_elapse (drv ch) (S i) = polled d_in_status d_elapse (d_elapse d) i) as Hi.
    { intros i. unfold polled. by rewrite Nat.iter_succ_r, E. }
    unfold busy_at in *. rewrite Hi in *.
    apply (IH k (t - 1) (set_drv (d_elapse d) ch)); [lia|lia|lia| |done].
    intros i Hi'. cbn [drv set_drv]. rewrite <- Hi. apply Hb. lia.
Qed.

Lemma busy_loop_expires (fuel : nat) t ch : Z.of_nat fuel = t + 1 → 0 < t ≤ 30000 →
  (∀ i, Z.of_nat i < t - 1 → busy_at d_in_status d_elapse (drv ch) i) → ∃ ch', busy_loop fuel t ch = Ok (false, ch').
Proof.
  revert t ch. induction fuel as [|fuel IH]; intros t ch Hf Ht Hb; [lia|].
  cbn [busy_loop]. change (Z.b2z (0 <=? 10)) with 1. rewrite u16_id by lia. destruct (Z.eqb_spec (t - 1) 0); [by eexists|].
  pose proof (Hb 0%nat ltac:(lia)) as Hb0. unfold busy_at, polled in Hb0. cbn in Hb0.
  destruct (d_in_status (drv ch)) as [st d] eqn:E. cbn in Hb0. destruct (Z.eqb_spec (Z.land st BIT_STAT_BSY) 0); [done|].
  apply IH; [lia|lia|]. intros i Hi. pose proof (Hb (S i) ltac:(lia)) as H. unfold busy_at, polled in *.
  rewrite Nat.iter_succ_r, E in H. exact H.
Qed.

Lemma busy_wait_ok P ch : polls_ready d_in_status d_elapse (drv ch) P → ∃ d', busy_wait ch = Ok (true, set_drv d' ch) ∧ P d'.
Proof.
  intros (k & Hk & Hb & Hr & Hq & HP). unfold busy_wait. rewrite (busy_loop_stops _ k); [|lia|lia|lia|exact Hb|exact Hr].
  apply Z.eqb_neq in Hq. rewrite Hq. eauto.
Qed.
Lemma busy_wait_failed ch : polls_failed d_in_status d_elapse (drv ch) → ∃ ch', busy_wait ch = Ok (false, ch').
Proof.
  intros [H|(k & Hk & Hb & Hr & Hq)]; unfold busy_wait.
  - apply busy_loop_expires; [lia|lia|exact H].
  - rewrite (busy_loop_stops _ k); [|lia|lia|lia|exact Hb|exact Hr]. rewrite Hq. eauto.
Qed.

(** The kernel side of a transfer: nobody waits for the channel. *)
Record chan_free (s : kstate) (L : gmap Z (list Z)) (ch : IdeChannel) : Prop := {
  cf_lists : lrep (links s) L;
  cf_wait : L !! waiters (disk_done ch) = Some [];
  cf_addr : disk_done ch ≠ 0;
  cf_value : sema_value s !! disk_done ch = Some 0;
  cf_irq : irq_no ch = 0x2e ∨ irq_no ch = 0x2f;
}.

Lemma await_ok s L ch : chan_free s L ch → expecting_intr ch = true → d_intrq (drv ch) = true →
  await ch s = Ok (set_drv (d_in_status (drv ch)).2 (set_expecting false ch), s).
Proof.
  intros [C1 C2 C3 C4 C5] He Hq. unfold await, intr_hd_handler, mbind, K_bind, kassert, lift, ASSERT. rewrite Hq.
  assert ((irq_no ch =? 0x2e) || (irq_no ch =? 0x2f) = true) as -> by (destruct C5 as [->| ->]; done).
  rewrite Z.eqb_refl, He. cbn [disk_done set_expecting]. rewrite (sema_up_free s L) by done.
  unfold mret, K_ret. cbn [disk_done set_drv set_expecting]. rewrite sema_down_free by (done || apply lookup_insert_eq).
  do 2 f_equal. cbn [sema_value set_sema_value]. rewrite insert_insert_eq, (insert_id _ _ _ C4). by destruct s.
Qed.

Lemma intr_disable_eq s : intr_disable s = Ok (intr s, set_intr INTR_OFF s).
Proof. destruct s as [[] ?]; reflexivity. Qed.

(** Without an interrupt the thread sleeps for ever. *)
Lemma await_blocked pd L rq s t ch : running pd L rq s t → cur s ≠ idle s → waiters (disk_done ch) ≠ ready s →
  chan_free s L ch → d_intrq (drv ch) = false → await ch s = Blocked.
Proof.
  intros HR Hid Hwr [C1 C2 C3 C4 C5] Hq. unfold await. rewrite Hq. unfold mbind, K_bind at 1, mret, K_ret at 1.
  unfold sema_down, mbind, K_bind. rewrite intr_disable_eq.
  destruct (wp_inv _ _ _ (sema_down_wait pd L rq s t (disk_done ch) [] HR C3 C2 Hwr C4 Hid)) as (got & s' & Hrun & -> & _).
  by rewrite Hrun.
Qed.

(** ** Transfers *)
Lemma length_read_secs c dev lba n : disks_wf c → length (read_secs c dev lba n) = (512 * n)%nat.
Proof.
  intros Hw. unfold read_secs. assert (∀ k, length (concat (map (λ i, c dev (lba + Z.of_nat i)) (seq k n))) = (512 * n)%nat) as H; [|apply H].
  induction n as [|n IH]; intros k; [done|]. cbn [seq map concat]. rewrite length_app, IH, Hw. lia.
Qed.
Lemma read_secs_app c dev lba a b : read_secs c dev lba (a + b) = read_secs c dev lba a ++ read_secs c dev (lba + Z.of_nat a) b.
Proof.
  unfold read_secs. rewrite seq_app, map_app, concat_app. do 2 f_equal. rewrite Nat.add_0_l.
  rewrite <- (Nat.add_0_r a) at 1. change (map ?f ?l) with (f <$> l). rewrite <- fmap_add_seq, <- list_fmap_compose.
  apply list_fmap_ext. intros i x _. unfold compose. f_equal. lia.
Qed.

Lemma read_secs_ext c c' dev lba n : (∀ u l, c u l = c' u l) → read_secs c dev lba n = read_secs c' dev lba n.
Proof. intros H. unfold read_secs. f_equal. apply map_ext. intros i. apply H. Qed.

Lemma max_lba_eq : max_lba = 163839.
Proof. reflexivity. Qed.
Lemma u8_idem z : u8 (u8 z) = u8 z.
Proof. unfold u8. by rewrite Z.mod_mod. Qed.
Lemma u8_byte z : is_byte (u8 z).
Proof. unfold is_byte, u8. apply Z.mod_pos_bound. lia. Qed.

(** The device register that the driver writes, as the drive reads it. *)
Lemma dev_byte_fields dev lba : 0 ≤ lba ≤ max_lba → (dev = 0 ∨ dev = 1) →
  let v := u8 (dev_byte dev lba) in v mod 16 = lba / 2 ^ 24 ∧ Z.testbit v 4 = (dev =? 1) ∧ Z.testbit v 6 = true.
Proof.
  intros Hl Hd. rewrite max_lba_eq in Hl. assert (lba / 2 ^ 24 = 0) as E by (apply Z.div_small; lia).
  unfold dev_byte. rewrite Z.shiftr_div_pow2, E by lia. destruct Hd as [->| ->]; done.
Qed.
Lemma lba_fields lba : 0 ≤ lba < 2 ^ 28 →
  u8 lba + u8 (Z.shiftr lba 8) * 2 ^ 8 + u8 (Z.shiftr lba 16) * 2 ^ 16 + lba / 2 ^ 24 * 2 ^ 24 = lba.
Proof. intros Hl. rewrite !Z.shiftr_div_pow2 by lia. unfold u8. Z.div_mod_to_equations. lia. Qed.

(** Channels with the same identity. *)
Definition same_chan (ch ch' : IdeChannel) : Prop :=
  irq_no ch' = irq_no ch ∧ ch_lock ch' = ch_lock ch ∧ disk_done ch' = disk_done ch.
Lemma chan_free_same s L ch ch' : same_chan ch ch' → chan_free s L ch → chan_free s L ch'.
Proof. intros (E1 & E2 & E3) []. split; congruence. Qed.

(** After [select_sector] the registers hold the address and the count. *)
Lemma select_sector_ok m f dev lba n ch : 0 ≤ lba ≤ max_lba → (dev = 0 ∨ dev = 1) → d_idle m f (drv ch) →
  ∃ d' f', select_sector dev lba n ch = Ok (set_drv d' ch) ∧ d_idle m f' d' ∧ rf_is_lba f' = true
    ∧ rf_unit f' = dev ∧ rf_lba f' = lba ∧ rf_count f' = if u8 n =? 0 then 256%nat else Z.to_nat (u8 n).
Proof.
  intros Hl Hd Hid. destruct (dev_byte_fields dev lba Hl Hd) as (F1 & F2 & F3).
  pose proof (d_reg _ _ _ reg_sect_cnt (u8 n) Hid ltac:(done) (u8_byte _)) as H1.
  pose proof (d_reg _ _ _ reg_lba_l (u8 lba) H1 ltac:(done) (u8_byte _)) as H2.
  pose proof (d_reg _ _ _ reg_lba_m (u8 (Z.shiftr lba 8)) H2 ltac:(done) (u8_byte _)) as H3.
  pose proof (d_reg _ _ _ reg_lba_h (u8 (Z.shiftr lba 16)) H3 ltac:(done) (u8_byte _)) as H4.
  pose proof (d_reg _ _ _ reg_dev (u8 (dev_byte dev lba)) H4 ltac:(done) (u8_byte _)) as H5.
  eexists _, _. split; [|split; [exact H5|]].
  - unfold select_sector, ASSERT. destruct (Z.leb_spec lba max_lba); [|lia]. cbn [mbind outcome_bind mret outcome_ret].
    unfold ch_outb, set_drv. cbn [drv irq_no ch_lock disk_done expecting_intr]. by rewrite u8_idem.
  - unfold rf_is_lba, rf_unit, rf_lba, rf_count.
    cbn -[dev_byte Z.shiftr u8 Z.add Z.mul Z.pow Z.modulo Z.testbit Z.to_nat]. rewrite F1, F2, F3. split_and!; [done| | |done].
    + by destruct Hd as [->| ->].
    + apply lba_fields. rewrite max_lba_eq in Hl. lia.
Qed.

Section transfers.
Context (pd : Z → Z) (L : gmap Z (list Z)) (rq : list Z) (s : kstate) (t : TaskStruct) (m : medium) (f : regfile) (dev lba : Z).
Context (ch : IdeChannel).
Hypothesis (HR : running pd L rq s t) (Hidle : cur s ≠ idle s) (Hwr : waiters (disk_done ch) ≠ ready s).
Hypothesis (HF : chan_free s L ch) (Hid : d_idle m f (drv ch)).
Hypothesis (Hdev : dev = 0 ∨ dev = 1) (Hlba : 0 ≤ lba ≤ max_lba).

(** The channel when the command is out. *)
Lemma command_ok cmd : ∃ ch1 d' f', select_sector dev (u32 (lba + 0)) (u8 1) ch = Ok ch1
  ∧ cmd_out cmd ch1 = set_drv (d_out reg_cmd (u8 cmd) d') (set_expecting true ch)
  ∧ d_idle m f' d' ∧ rf_is_lba f' = true ∧ rf_unit f' = dev ∧ rf_lba f' = lba ∧ rf_count f' = 1%nat.
Proof.
  rewrite Z.add_0_r, u32_id by (rewrite max_lba_eq in Hlba; lia).
  destruct (select_sector_ok m f dev lba (u8 1) ch Hlba Hdev Hid) as (d' & f' & -> & H). by exists (set_drv d' ch), d', f'.
Qed.

Lemma read_loop_one fuel :
  if readable m dev lba then ∃ ch' m' f', read_loop (S (S fuel)) dev lba 0 1 ch s = Ok ((secs m dev lba, ch'), s) ∧ same_chan ch ch'
    ∧ d_idle m' f' (drv ch') ∧ ∀ u l, secs m' u l = secs m u l
  else read_loop (S (S fuel)) dev lba 0 1 ch s = Panic ∨ read_loop (S (S fuel)) dev lba 0 1 ch s = Blocked.
Proof.
  destruct (command_ok CMD_READ_SECTOR) as (ch1 & d1 & f1 & Hsel & Hcmd & Hid1 & G1 & G2 & G3 & G4).
  remember (S fuel) as fuel1. cbn [read_loop]. change (0 <? 1) with true. change (u32 (0 + 256) <=? 1) with false. cbn iota.
  change (1 - 0) with 1. unfold mbind, K_bind.
  rewrite Hsel. cbn [lift]. rewrite Hcmd. change (u8 CMD_READ_SECTOR) with CMD_READ_SECTOR.
  set (ch2 := set_drv _ _). assert (chan_free s L ch2) as HF2 by by apply (chan_free_same s L ch).
  assert (d_fetching m dev lba 1 (drv ch2)) as Hr.
  { rewrite <- G2, <- G3, <- G4. apply d_read_cmd; [done|done|]. rewrite G3, G4, max_lba_eq in *. lia. }
  pose proof (d_fetched _ _ _ _ _ Hr) as Hq. destruct (d_intrq (drv ch2)) eqn:Eq.
  2:{ rewrite (await_blocked pd L rq s t) by done. destruct (readable m dev lba); [by specialize (Hq eq_refl)|by right]. }
  rewrite (await_ok s L ch2) by done. set (ch3 := set_drv _ _).
  pose proof (d_read_poll _ _ _ _ _ (d_read_ack _ _ _ _ _ Hr Eq)) as Hp. destruct (readable m dev lba).
  2:{ destruct (busy_wait_failed ch3 Hp) as (ch4 & ->). by left. }
  destruct (busy_wait_ok _ ch3 Hp) as (d4 & -> & Hd4). cbn [lift negb]. unfold read_from_sector.
  change (Z.to_nat (_ / 2)) with 256%nat. cbn [drv set_drv].
  destruct (d_read_data _ _ _ _ _ Hd4) as (E5 & m' & f' & Hid' & Hsm). destruct (d_insw 256 d4) as [b d5]. cbn in E5, Hid'. subst b.
  rewrite Heqfuel1. cbn [read_loop]. change (0 + 1 <? 1) with false. cbn iota. unfold mret, K_ret. rewrite app_nil_r.
  eexists _, m', f'. split; [reflexivity|]. done.
Qed.

Lemma write_loop_one fuel buf : length buf = 512%nat →
  (∃ ch' m' f', write_loop (S (S fuel)) dev lba buf 0 1 ch s = Ok (ch', s) ∧ same_chan ch ch' ∧ d_idle m' f' (drv ch')
     ∧ ∀ u l, (u = dev ∧ l = lba → writable m dev lba = true) → secs m' u l = write_secs (secs m) dev lba 1 buf u l)
  ∨ writable m dev lba = false
    ∧ (write_loop (S (S fuel)) dev lba buf 0 1 ch s = Panic ∨ write_loop (S (S fuel)) dev lba buf 0 1 ch s = Blocked).
Proof.
  intros Hlen. destruct (command_ok CMD_WRITE_SECTOR) as (ch1 & d1 & f1 & Hsel & Hcmd & Hid1 & G1 & G2 & G3 & G4).
  remember (S fuel) as fuel1. cbn [write_loop]. change (0 <? 1) with true. change (u32 (0 + 256) <=? 1) with false. cbn iota.
  change (1 - 0) with 1. unfold mbind, K_bind.
  rewrite Hsel. cbn [lift]. rewrite Hcmd. change (u8 CMD_WRITE_SECTOR) with CMD_WRITE_SECTOR.
  set (ch2 := set_drv _ _).
  assert (d_accepting m dev lba 1 (drv ch2)) as Hr.
  { rewrite <- G2, <- G3, <- G4. apply d_write_cmd; [done|done|]. rewrite G3, G4, max_lba_eq in *. lia. }
  destruct (d_write_poll _ _ _ _ _ Hr) as [Hp|[Hw Hp]].
  2:{ destruct (busy_wait_failed ch2 Hp) as (ch4 & ->). right. split; [done|]. by left. }
  destruct (busy_wait_ok _ ch2 Hp) as (d3 & -> & Hd3). cbn [lift negb]. unfold write2sector.
  change (Z.to_nat (_ / 2 * 2)) with 512%nat. change (Z.to_nat (0 * 512)) with 0%nat. rewrite drop_0, take_ge by lia. cbn [drv set_drv].
  destruct (d_write_data _ _ _ _ buf d3 Hd3 Hlen) as (Hq & Hend). set (ch4 := set_drv _ _).
  assert (chan_free s L ch4) as HF4 by by apply (chan_free_same s L ch).
  change (d_outsw buf d3) with (drv ch4) in Hq, Hend. destruct (d_intrq (drv ch4)) eqn:Eq.
  2:{ right. rewrite (await_blocked pd L rq s t) by done. destruct (writable m dev lba); [by specialize (Hq eq_refl)|by auto]. }
  left. rewrite (await_ok s L ch4) by done. destruct (Hend eq_refl) as (m' & Hs & f' & Hid').
  rewrite Heqfuel1. cbn [write_loop]. change (0 + 1 <? 1) with false. cbn iota. unfold mret, K_ret.
  eexists _, m', f'. split; [reflexivity|]. split_and!; [done|exact Hid'|done].
Qed.
End transfers.

(** Nobody else uses the channel. *)
Record chan_idle (s : kstate) (L : gmap Z (list Z)) (ch : IdeChannel) : Prop := {
  ci_free : chan_free s L ch;
  ci_lock : lock_free s L (ch_lock ch);
  ci_apart : disk_done ch ≠ lock_semaphore (ch_lock ch);
}.

Lemma chan_free_held s L ch c n : chan_idle s L ch → chan_free (held s (ch_lock ch) c n) L ch.
Proof. intros [[C1 C2 C3 C4 C5] _ Ha]. split; try done. cbn. by rewrite lookup_insert_ne by done. Qed.
Lemma running_held pd L rq s t l c n : running pd L rq s t → running pd L rq (held s l c n) t.
Proof. intros [[] Hc Hr]. by split. Qed.

Definition read_ok (s : kstate) (m : medium) (dev lba : Z) (ch : IdeChannel) : Prop :=
  ∃ ch' m' f', ide_read dev lba 1 ch s = Ok ((secs m dev lba, ch'), s) ∧ same_chan ch ch' ∧ d_idle m' f' (drv ch')
    ∧ ∀ u l, secs m' u l = secs m u l.
Definition write_ok (s : kstate) (m : medium) (dev lba : Z) (buf : list Z) (ch : IdeChannel) : Prop :=
  ∃ ch' m' f', ide_write dev lba buf 1 ch s = Ok (ch', s) ∧ same_chan ch ch' ∧ d_idle m' f' (drv ch')
    ∧ ∀ u l, secs m' u l = if decide (u = dev ∧ l = lba) then buf else secs m u l.
(** The write of a bad sector ends as if nothing had happened. *)
Definition write_lost (s : kstate) (m : medium) (dev lba : Z) (buf : list Z) (ch : IdeChannel) : Prop :=
  ∃ ch' m' f', ide_write dev lba buf 1 ch s = Ok (ch', s) ∧ same_chan ch ch' ∧ d_idle m' f' (drv ch')
    ∧ ∀ u l, ¬ (u = dev ∧ l = lba) → secs m' u l = secs m u l.

Lemma write_secs_one c dev lba buf u l : length buf = 512%nat →
  write_secs c dev lba 1 buf u l = if decide (u = dev ∧ l = lba) then buf else c u l.
Proof.
  intros Hl. unfold write_secs. destruct (decide (u = dev ∧ l = lba)) as [[-> ->]|H].
  - rewrite decide_True by (split; [done|lia]). replace (Z.to_nat (512 * (lba - lba))) with 0%nat by lia. rewrite drop_0. apply take_ge. lia.
  - rewrite decide_False; [done|]. intros [-> ?]. apply H. split; [done|lia].
Qed.

(** C24: The disk driver, for transfers of one sector.  On an idle drive and
    channel, for any sector of either device within the supported 80 MB,
    [ide_read] returns exactly the bytes of that sector and [ide_write] replaces
    exactly that sector by the buffer; both leave the kernel state, the lock and
    the semaphore as they were.  A read of a sector that the drive cannot read
    panics, or the thread sleeps for ever if the drive raises no interrupt; it
    never returns data.  A write of a sector that the drive cannot write may
    panic or sleep too, but it may also return as if it had succeeded, with that
    sector lost; no other sector changes. *)
Theorem ide_transfer_correct pd L rq s t m f dev lba buf ch :
  running pd L rq s t → cur s ≠ idle s → cur s ≠ 0 → chan_idle s L ch → waiters (disk_done ch) ≠ ready s →
  d_idle m f (drv ch) → (dev = 0 ∨ dev = 1) → 0 ≤ lba ≤ max_lba → length buf = 512%nat →
  (if readable m dev lba then read_ok s m dev lba ch
   else ide_read dev lba 1 ch s = Panic ∨ ide_read dev lba 1 ch s = Blocked)
  ∧ (if writable m dev lba then write_ok s m dev lba buf ch
     else write_lost s m dev lba buf ch ∨ ide_write dev lba buf 1 ch s = Panic ∨ ide_write dev lba buf 1 ch s = Blocked).
Proof.
  intros HR Hidle Hcur HI Hwr Hid Hdev Hl Hlen. pose proof (HI) as [HF HL Ha].
  set (s1 := held s (ch_lock ch) (cur s) 1). set (ch1 := select_disk dev ch).
  assert (chan_free s1 L ch1) as HF1 by (destruct (chan_free_held s L ch (cur s) 1 HI); by split).
  assert (running pd L rq s1 t) as HR1 by by apply running_held.
  assert (∃ f1, d_idle m f1 (drv ch1)) as (f1 & Hid1).
  { eexists. apply (d_reg m f); [done|done|apply u8_byte]. }
  split.
  - pose proof (read_loop_one pd L rq s1 t m f1 dev lba ch1 HR1 Hidle Hwr HF1 Hid1 Hdev Hl 0) as H.
    unfold read_ok, ide_read, mbind, K_bind, kassert, lift, ASSERT.
    destruct (Z.leb_spec lba max_lba); [|lia]. change (0 <? 1) with true. cbn iota.
    rewrite (lock_acquire_free s L _ HL Hcur). fold s1 ch1. change (S (Z.to_nat 1)) with 2%nat.
    destruct (readable m dev lba).
    + destruct H as (ch' & m' & f' & -> & (S1 & S2 & S3) & Hid' & Hs). exists ch', m', f'.
      rewrite S2. change (ch_lock ch1) with (ch_lock ch). unfold s1. by rewrite (lock_release_last s L _ HL).
    + destruct H as [-> | ->]; [by left|by right].
  - pose proof (write_loop_one pd L rq s1 t m f1 dev lba ch1 HR1 Hidle Hwr HF1 Hid1 Hdev Hl 0 buf Hlen) as H.
    unfold write_ok, write_lost, ide_write, mbind, K_bind, kassert, lift, ASSERT.
    destruct (Z.leb_spec lba max_lba); [|lia]. change (0 <? 1) with true. cbn iota.
    rewrite (lock_acquire_free s L _ HL Hcur). fold s1 ch1. change (S (Z.to_nat 1)) with 2%nat.
    destruct H as [(ch' & m' & f' & -> & (S1 & S2 & S3) & Hid' & Hs)|[-> H]].
    + rewrite S2. change (ch_lock ch1) with (ch_lock ch). unfold s1. rewrite (lock_release_last s L _ HL) by done.
      destruct (writable m dev lba).
      * exists ch', m', f'. split_and!; try done. intros u l. rewrite Hs by done. by apply write_secs_one.
      * left. exists ch', m', f'. split_and!; try done. intros u l Hul. rewrite Hs by done.
        rewrite write_secs_one by done. by rewrite decide_False.
    + right. destruct H as [-> | ->]; [by left|by right].
Qed.
End driver.
Arguments IdeChannel D : clear implicits.

(** ** A drive

    Busy for one poll after each command and sector; a bad sector ends a read
    with an error, and a write after the data were taken. *)
Inductive sim_mode := SIdle | SRead (dev lba : Z) (n : nat) | SWrite (dev lba : Z) (n : nat).
Record sim := mkSim { sm_m : medium; sm_f : regfile; sm_mode : sim_mode; sm_busy : nat; sm_irq : bool }.

Definition sim_out (off v : Z) (d : sim) : sim :=
  if off <? 7 then mkSim (sm_m d) (rf_write off v (sm_f d)) (sm_mode d) (sm_busy d) (sm_irq d)
  else
    let f := sm_f d in
    if v =? CMD_READ_SECTOR then mkSim (sm_m d) f (SRead (rf_unit f) (rf_lba f) (rf_count f)) 1 true
    else mkSim (sm_m d) f (SWrite (rf_unit f) (rf_lba f) (rf_count f)) 1 false.
Definition sim_status (d : sim) : Z * sim :=
  (if (sm_busy d =? 0)%nat then
     match sm_mode d with
     | SIdle => 0x40
     | SRead dev lba _ => if readable (sm_m d) dev lba then 0x48 else 0x41
     | SWrite _ _ _ => 0x48
     end
   else 0x80,
   mkSim (sm_m d) (sm_f d) (sm_mode d) (sm_busy d) false).
Definition sim_elapse (d : sim) : sim := mkSim (sm_m d) (sm_f d) (sm_mode d) (pred (sm_busy d)) (sm_irq d).
Definition sim_insw (w : nat) (d : sim) : list Z * sim :=
  match sm_mode d with
  | SRead dev lba (S n) =>
      (secs (sm_m d) dev lba,
       match n with
       | O => mkSim (sm_m d) (sm_f d) SIdle 0 false
       | _ => mkSim (sm_m d) (sm_f d) (SRead dev (lba + 1) n) 1 true
       end)
  | _ => ([], d)
  end.
Definition sim_outsw (b : list Z) (d : sim) : sim :=
  match sm_mode d with
  | SWrite dev lba (S n) =>
      let m := sm_m d in
      let m := if writable m dev lba then mkMedium (write_secs (secs m) dev lba 1 b) (readable m) (writable m) else m in
      match n with
      | O => mkSim m (sm_f d) SIdle 0 true
      | _ => mkSim m (sm_f d) (SWrite dev (lba + 1) n) 1 true
      end
  | _ => d
  end.

Definition sim_in (mode : sim_mode) (m : medium) (d : sim) : Prop := sm_m d = m ∧ sm_mode d = mode ∧ (sm_busy d ≤ 1)%nat.

Lemma sim_polled d k : let d' := polled sim_status sim_elapse d k in
  sm_m d' = sm_m d ∧ sm_mode d' = sm_mode d ∧ sm_busy d' = (sm_busy d - k)%nat.
Proof.
  induction k as [|k (H1 & H2 & H3)]; cbv zeta in *; [split_and!; [done|done|unfold polled; cbn; lia]|].
  change (polled sim_status sim_elapse d (S k)) with (sim_elapse (sim_status (polled sim_status sim_elapse d k)).2).
  set (e := polled sim_status sim_elapse d k) in *. unfold sim_elapse, sim_status. cbn [sm_m sm_mode sm_busy snd]. rewrite H1, H2, H3. split_and!; [done|done|lia].
Qed.
Lemma sim_busy_at d k : (sm_busy d ≤ 1)%nat → busy_at sim_status sim_elapse d k ↔ (k < sm_busy d)%nat.
Proof.
  intros Hb. destruct (sim_polled d k) as (_ & _ & E).
  unfold busy_at. set (e := polled sim_status sim_elapse d k) in *. unfold sim_status. cbn [fst]. rewrite E. destruct (Nat.eqb_spec (sm_busy d - k) 0).
  - split; [|lia]. intros H. exfalso. apply H. destruct (sm_mode _); [done|by destruct (readable _ _ _)|done].
  - split; [lia|done].
Qed.

(** The end of the polls: the status of the drive when it is no longer busy. *)
Lemma sim_polls d : (sm_busy d ≤ 1)%nat → let d' := polled sim_status sim_elapse d (sm_busy d) in
  Z.of_nat (sm_busy d) < 29999 ∧ (∀ i, (i < sm_busy d)%nat → busy_at sim_status sim_elapse d i)
  ∧ ¬ busy_at sim_status sim_elapse d (sm_busy d).
Proof. intros Hb. split_and!; [lia|intros i Hi; by apply sim_busy_at|rewrite sim_busy_at by done; lia]. Qed.

#[global] Program Instance SimDrive : Drive sim := {
  d_out := sim_out; d_in_status := sim_status; d_insw := sim_insw; d_outsw := sim_outsw; d_elapse := sim_elapse; d_intrq := sm_irq;
  d_idle m f d := sim_in SIdle m d ∧ sm_f d = f;
  d_fetching m dev lba n d := sim_in (SRead dev lba n) m d ∧ sm_irq d = true;
  d_reading m dev lba n d := sim_in (SRead dev lba n) m d;
  d_drq_in m dev lba n d := sim_in (SRead dev lba n) m d;
  d_accepting m dev lba n d := sim_in (SWrite dev lba n) m d;
  d_drq_out m dev lba n d := sim_in (SWrite dev lba n) m d;
}.
Next Obligation.
  intros m f d off v [(H1 & H2 & H3) H4] Ho Hv. unfold sim_out. destruct (Z.ltb_spec off 7); [|lia].
  split; [done|]. cbn. by rewrite H4.
Qed.
Next Obligation. intros m f d [(H1 & H2 & H3) <-] _ _. split; [|done]. split_and!; [done|done|cbn; lia]. Qed.
Next Obligation. by intros m dev lba n d [_ H]. Qed.
Next Obligation. intros m dev lba n d [H _] _. exact H. Qed.
Next Obligation.
  intros m dev lba n d (<- & H2 & H3). destruct (sim_polls d H3) as (P1 & P2 & P3). destruct (sim_polled d (sm_busy d)) as (Q1 & Q2 & Q3). rewrite Nat.sub_diag in Q3.
  destruct (readable (sm_m d) dev lba) eqn:Er.
  - exists (sm_busy d). split_and!; [done|done|done| |].
    + cbn. rewrite Q1, Q2, Q3, H2, Er. done.
    + cbn. split_and!; [done|cbn; congruence|cbn; rewrite Q3; lia].
  - right. exists (sm_busy d). split_and!; [done|done|done|]. cbn. rewrite Q1, Q2, Q3, H2, Er. done.
Qed.
Next Obligation.
  intros m dev lba n d (<- & H2 & H3). cbn. unfold sim_insw. rewrite H2. destruct n as [|n]; cbn.
  - split; [done|]. eexists _, _. split; [split; [|reflexivity]; split_and!; [reflexivity|done|cbn; lia]|done].
  - split; [done|]. split; [|done]. split_and!; [done|done|cbn; lia].
Qed.
Next Obligation. intros m f d [(H1 & H2 & H3) <-] _ _. split_and!; [done|done|cbn; lia]. Qed.
Next Obligation.
  intros m dev lba n d (<- & H2 & H3). destruct (sim_polls d H3) as (P1 & P2 & P3). destruct (sim_polled d (sm_busy d)) as (Q1 & Q2 & Q3). rewrite Nat.sub_diag in Q3.
  left. exists (sm_busy d). split_and!; [done|done|done| |].
  - cbn. rewrite Q2, Q3, H2. done.
  - cbn. split_and!; [done|cbn; congruence|cbn; rewrite Q3; lia].
Qed.
Next Obligation.
  intros m dev lba n b d (<- & H2 & H3) Hl. cbn. unfold sim_outsw. rewrite H2. split; [by intros _; destruct n|]. intros _.
  exists (if writable (sm_m d) dev lba then mkMedium (write_secs (secs (sm_m d)) dev lba 1 b) (readable (sm_m d)) (writable (sm_m d)) else sm_m d).
  split.
  - intros u l Hw. destruct (writable (sm_m d) dev lba) eqn:E; [done|]. unfold write_secs. rewrite decide_False; [done|].
    intros [-> ?]. assert (l = lba) as -> by lia. by discriminate Hw.
  - destruct n as [|n]; cbn; [|intros _; split_and!; [done|done|cbn; lia]].
    eexists. split; [split_and!; [reflexivity|done|cbn; lia]|reflexivity].
Qed.

(** *** Witness: sectors filled with their number, sector 5001 of device 1 bad *)
Definition demo_medium : medium :=
  mkMedium (λ dev l, replicate 512 (l mod 256)) (λ dev l, negb ((dev =? 1) && (l =? 5001))) (λ dev l, negb ((dev =? 1) && (l =? 5001))).
Definition demo_chan : IdeChannel sim := mkChan 0x2e 0x8000 0x7000 false (mkSim demo_medium (mkRf 0 0 0 0 0) SIdle 0 false).
Definition demo_ide_lists : gmap Z (list Z) := {[0x5000 := [0x200000 + 68]; 0x7004 := []; 0x8008 := []]}.
Definition demo_ide : kstate :=
  let links := match run_ops [LInit 0x5000; LAppend 0x5000 (0x200000 + 68); LInit 0x7004; LInit 0x8008] k0 with Ok (_, s) => links s | _ => ∅ end in
  set_locks {[0x8000 := mkLock NULL 0]} (set_sema_value {[0x7000 := 0; 0x8004 := 1]} (set_links links demo_sched)).

Lemma demo_ide_lrep : lrep (links demo_ide) demo_ide_lists.
Proof. apply lrep_check_ok. vm_compute. reflexivity. Qed.
Lemma running_relinked pd L L' rq s t h sv lk : running pd L rq s t → lrep h L' → L' !! ready s = L !! ready s →
  fresh_node L' (general_tag (cur s)) → fresh_node L' (general_tag (idle s)) →
  running pd L' rq (set_locks lk (set_sema_value sv (set_links h s))) t.
Proof.
  intros [[S1 S2 S3 S4 S5 S6 S7 S8 S9 S10] Hc Hr] Hl Er Hf1 Hf2. split; [split|exact Hc|exact Hr]; try done.
  - cbn. unfold ready in *. cbn. by rewrite Er.
  - destruct S9 as (u & Hu & Hd & _). by exists u.
Qed.
Lemma demo_ide_running : running (λ _, 0) demo_ide_lists [0x200000] demo_ide (demo_task 0x9e000 TASK_RUNNING).
Proof.
  apply (running_relinked _ _ _ _ _ _ _ _ _ demo_running demo_ide_lrep); [reflexivity|apply freshb_ok; vm_compute; reflexivity..].
Qed.
Lemma demo_chan_idle : chan_idle demo_ide demo_ide_lists demo_chan.
Proof.
  pose proof demo_ide_lrep as HL.
  split; [split|split|discriminate]; try exact HL; try reflexivity; try discriminate; try (split; discriminate). left. reflexivity.
Qed.

Lemma ide_transfer_correct_witness :
  (read_ok demo_ide demo_medium 1 5000 demo_chan ∧ write_ok demo_ide demo_medium 1 5000 (replicate 512 7) demo_chan)
  ∧ (ide_read 1 5001 1 demo_chan demo_ide = Panic ∨ ide_read 1 5001 1 demo_chan demo_ide = Blocked)
  ∧ (write_lost demo_ide demo_medium 1 5001 (replicate 512 7) demo_chan
     ∨ ide_write 1 5001 (replicate 512 7) 1 demo_chan demo_ide = Panic ∨ ide_write 1 5001 (replicate 512 7) 1 demo_chan demo_ide = Blocked).
Proof.
  assert (d_idle demo_medium (mkRf 0 0 0 0 0) (drv demo_chan)) as Hid.
  { split; [split_and!; [reflexivity|reflexivity|cbn; lia]|reflexivity]. }
  assert (cur demo_ide = 0x9e000) as Hcur by (vm_compute; reflexivity).
  assert (idle demo_ide = 0x300000) as Hidle by (vm_compute; reflexivity).
  assert (ready demo_ide = 0x5000) as Hready by (vm_compute; reflexivity).
  split.
  - apply (ide_transfer_correct (λ _, 0) demo_ide_lists [0x200000] demo_ide (demo_task 0x9e000 TASK_RUNNING) demo_medium (mkRf 0 0 0 0 0)
      1 5000 (replicate 512 7) demo_chan demo_ide_running);
      [rewrite Hcur, Hidle; discriminate|rewrite Hcur; discriminate|exact demo_chan_idle|rewrite Hready; discriminate|exact Hid
      |right; reflexivity|rewrite max_lba_eq; lia|apply length_replicate].
  - apply (ide_transfer_correct (λ _, 0) demo_ide_lists [0x200000] demo_ide (demo_task 0x9e000 TASK_RUNNING) demo_medium (mkRf 0 0 0 0 0)
      1 5001 (replicate 512 7) demo_chan demo_ide_running);
      [rewrite Hcur, Hidle; discriminate|rewrite Hcur; discriminate|exact demo_chan_idle|rewrite Hready; discriminate|exact Hid
      |right; reflexivity|rewrite max_lba_eq; lia|apply length_replicate].
Defined.

(** The status is not read after the data were sent: on this drive the write of
    the bad sector returns, and the sector is as it was. *)
Lemma ide_write_fault_unnoticed :
  match ide_write 1 5001 (replicate 512 7) 1 demo_chan demo_ide with
  | Ok (ch', _) => bool_decide (secs (sm_m (drv ch')) 1 5001 = replicate 512 (5001 mod 256))
  | _ => false
  end = true.
Proof. vm_compute. reflexivity. Qed.
