(* ===== verification/DiskBytes.v ===== *)
(** * The bytes of a disk

    A disk as one array of bytes, sector transfers as reads and updates of it,
    and the little-endian words the on-disk structures are made of. *)
From S2P Require Import Prelude CString Machine Ide.

(** ** Bytes by address *)
Definition dbyte (c : disks) (dev a : Z) : Z := (c dev (a / 512))@@(a mod 512).
Definition dbytes (c : disks) (dev a : Z) (k : nat) : list Z := map (λ i, dbyte c dev (a + Z.of_nat i)) (seq 0 k).

(** [c'] is [c] with the bytes [l] at address [a] of [dev]. *)
Definition patched (c : disks) (dev a : Z) (l : list Z) (c' : disks) : Prop :=
  disks_wf c' ∧ ∀ dev' x, dbyte c' dev' x = if decide (dev' = dev ∧ a ≤ x < a + len l) then l@@(x - a) else dbyte c dev' x.

Lemma nthz_app_l (l1 l2 : list Z) i : i < len l1 → (l1 ++ l2)@@i = l1@@i.
Proof. intros H. unfold nthz. destruct (Z.leb_spec 0 i); [|done]. apply app_nth1. unfold len in H. lia. Qed.
Lemma nthz_app_r (l1 l2 : list Z) i : len l1 ≤ i → (l1 ++ l2)@@i = l2@@(i - len l1).
Proof.
  intros H. pose proof (len_nonneg l1). unfold nthz. destruct (Z.leb_spec 0 i), (Z.leb_spec 0 (i - len l1)); try lia.
  unfold len in *. rewrite app_nth2 by lia. f_equal. lia.
Qed.
Lemma nthz_take (l : list Z) (k : nat) i : i < Z.of_nat k → (take k l)@@i = l@@i.
Proof.
  intros H. unfold nthz. destruct (Z.leb_spec 0 i); [|done]. rewrite !nth_lookup. by rewrite lookup_take_lt by lia.
Qed.
Lemma nthz_drop (l : list Z) (k : nat) i : 0 ≤ i → (drop k l)@@i = l@@(Z.of_nat k + i).
Proof.
  intros H. unfold nthz. destruct (Z.leb_spec 0 i), (Z.leb_spec 0 (Z.of_nat k + i)); try lia.
  rewrite !nth_lookup, lookup_drop. do 2 f_equal. lia.
Qed.
Lemma len_take (l : list Z) (k : nat) : Z.of_nat k ≤ len l → len (take k l) = Z.of_nat k.
Proof. unfold len. rewrite length_take. lia. Qed.
Lemma len_drop (l : list Z) (k : nat) : Z.of_nat k ≤ len l → len (drop k l) = len l - Z.of_nat k.
Proof. unfold len. rewrite length_drop. lia. Qed.

Lemma len_dbytes c dev a k : len (dbytes c dev a k) = Z.of_nat k.
Proof. unfold len, dbytes. by rewrite length_map, length_seq. Qed.
Lemma nthz_dbytes c dev a k i : 0 ≤ i < Z.of_nat k → (dbytes c dev a k)@@i = dbyte c dev (a + i).
Proof.
  intros H. unfold nthz, dbytes. destruct (Z.leb_spec 0 i); [|lia].
  rewrite (nth_indep _ 0 (dbyte c dev (a + Z.of_nat 0))) by (rewrite length_map, length_seq; lia).
  rewrite map_nth with (f := λ i, dbyte c dev (a + Z.of_nat i)) (d := 0%nat), seq_nth by lia. f_equal. lia.
Qed.
Lemma dbytes_eq c dev a k l : len l = Z.of_nat k → (∀ i, 0 ≤ i < Z.of_nat k → dbyte c dev (a + i) = l@@i) → dbytes c dev a k = l.
Proof.
  intros Hl H. apply nthz_ext; [rewrite len_dbytes; lia|]. rewrite len_dbytes. intros i Hi. by rewrite nthz_dbytes, H by lia.
Qed.

(** ** Transfers *)
Lemma nthz_read_secs c dev lba n i : disks_wf c → 0 ≤ i < 512 * Z.of_nat n →
  (read_secs c dev lba n)@@i = dbyte c dev (512 * lba + i).
Proof.
  intros Hw. revert lba i. induction n as [|n IH]; intros lba i Hi; [lia|].
  change (S n) with (1 + n)%nat. rewrite read_secs_app.
  assert (read_secs c dev lba 1 = c dev lba) as -> by (unfold read_secs; simpl; rewrite app_nil_r; f_equal; lia).
  assert (len (c dev lba) = 512) as Hl by (unfold len; rewrite Hw; done).
  destruct (Z.ltb_spec i 512).
  - rewrite nthz_app_l by lia. unfold dbyte. f_equal; [f_equal|]; Z.div_mod_to_equations; lia.
  - rewrite nthz_app_r by lia. rewrite IH by lia. f_equal. lia.
Qed.
Lemma len_read_secs c dev lba n : disks_wf c → len (read_secs c dev lba n) = 512 * Z.of_nat n.
Proof. intros Hw. unfold len. rewrite length_read_secs by done. lia. Qed.

Lemma slice_read c dev lba (n off k : nat) : disks_wf c → (off + k ≤ 512 * n)%nat →
  take k (drop off (read_secs c dev lba n)) = dbytes c dev (512 * lba + Z.of_nat off) k.
Proof.
  intros Hw H. pose proof (len_read_secs c dev lba n Hw) as Hl. symmetry. apply dbytes_eq.
  - rewrite len_take; [done|]. rewrite len_drop; lia.
  - intros i Hi. rewrite nthz_take, nthz_drop, nthz_read_secs by (done || lia). f_equal. lia.
Qed.
Lemma read_secs_bytes c dev lba (n : nat) : disks_wf c → read_secs c dev lba n = dbytes c dev (512 * lba) (512 * n).
Proof.
  intros Hw. pose proof (slice_read c dev lba n 0 (512 * n) Hw ltac:(lia)) as H.
  rewrite drop_0, Z.add_0_r in H. rewrite <- H. symmetry. apply take_ge. rewrite length_read_secs by done. lia.
Qed.

Lemma write_secs_wf c dev lba n b : disks_wf c → len b = 512 * Z.of_nat n → disks_wf (write_secs c dev lba n b).
Proof.
  intros Hw Hb d l. unfold write_secs. case_decide as E; [|apply Hw]. unfold len in Hb. rewrite length_take, length_drop. lia.
Qed.
Lemma write_secs_patched c dev lba n b : disks_wf c → len b = 512 * Z.of_nat n →
  patched c dev (512 * lba) b (write_secs c dev lba n b).
Proof.
  intros Hw Hb. split; [by apply write_secs_wf|]. intros d x. unfold dbyte, write_secs.
  destruct (decide (d = dev ∧ 512 * lba ≤ x < 512 * lba + len b)) as [[-> Hx]|Hx].
  - rewrite decide_True by (split; [done|]; Z.div_mod_to_equations; lia).
    rewrite nthz_take by (Z.div_mod_to_equations; lia). rewrite nthz_drop by (Z.div_mod_to_equations; lia).
    f_equal. rewrite Z2Nat.id by (Z.div_mod_to_equations; lia). Z.div_mod_to_equations; lia.
  - rewrite decide_False; [done|]. intros [-> ?]. apply Hx. split; [done|]. Z.div_mod_to_equations; lia.
Qed.

(** Bytes [l] put at offset [off] of the sectors just read. *)
Lemma splice_patched c dev lba n off (l : list Z) : disks_wf c → 0 ≤ off → off + len l ≤ 512 * Z.of_nat n →
  let b := read_secs c dev lba n in
  patched c dev (512 * lba + off) l
    (write_secs c dev lba n (take (Z.to_nat off) b ++ l ++ drop (Z.to_nat (off + len l)) b)).
Proof.
  intros Hw H0 H1 b. pose proof (len_nonneg l). pose proof (len_read_secs c dev lba n Hw) as Hl. fold b in Hl.
  destruct (write_secs_patched c dev lba n (take (Z.to_nat off) b ++ l ++ drop (Z.to_nat (off + len l)) b) Hw) as [Hw' Hp].
  { rewrite !len_app, len_take, len_drop by lia. lia. }
  split; [done|]. intros d x. rewrite Hp, !len_app, len_take, len_drop by lia.
  destruct (decide (d = dev ∧ 512 * lba + off ≤ x < 512 * lba + off + len l)) as [[-> Hx]|Hx].
  - rewrite decide_True by lia. rewrite nthz_app_r, nthz_app_l by (rewrite len_take by lia; lia).
    rewrite len_take by lia. f_equal. lia.
  - case_decide as E; [|done]. destruct E as [-> E]. destruct (Z.ltb_spec (x - 512 * lba) off).
    + rewrite nthz_app_l by (rewrite len_take by lia; lia). rewrite nthz_take by lia. unfold b.
      rewrite nthz_read_secs by (done || lia). f_equal. lia.
    + rewrite !nthz_app_r by (rewrite ?len_take by lia; lia). rewrite len_take by lia. rewrite nthz_drop by lia. unfold b.
      rewrite nthz_read_secs by (done || lia). f_equal. lia.
Qed.

Lemma patched_in c dev a l c' k : patched c dev a l c' → len l = Z.of_nat k → dbytes c' dev a k = l.
Proof. intros [_ H] Hl. apply dbytes_eq; [done|]. intros i Hi. rewrite H, decide_True by lia. f_equal. lia. Qed.
Lemma patched_out c dev a l c' dev' x k : patched c dev a l c' →
  dev' ≠ dev ∨ x + Z.of_nat k ≤ a ∨ a + len l ≤ x → dbytes c' dev' x k = dbytes c dev' x k.
Proof.
  intros [_ H] Hd. apply dbytes_eq; [by rewrite len_dbytes|]. intros i Hi. rewrite H, decide_False by lia. by rewrite nthz_dbytes.
Qed.
Lemma disks_ext c c' : disks_wf c → disks_wf c' → (∀ dev a, dbyte c dev a = dbyte c' dev a) → ∀ dev l, c dev l = c' dev l.
Proof.
  intros Hw Hw' H dev l. apply nthz_ext; [by unfold len; rewrite Hw, Hw'|]. unfold len. rewrite Hw. intros i Hi.
  specialize (H dev (512 * l + i)). unfold dbyte in H.
  replace ((512 * l + i) / 512) with l in H by (Z.div_mod_to_equations; lia).
  by replace ((512 * l + i) mod 512) with i in H by (Z.div_mod_to_equations; lia).
Qed.

(** ** Copying and clearing inside a buffer *)
Lemma split_at (l : list Z) off n : 0 ≤ off → 0 ≤ n →
  l = take (Z.to_nat off) l ++ take (Z.to_nat n) (drop (Z.to_nat off) l) ++ drop (Z.to_nat (off + n)) l.
Proof. intros H0 H1. by rewrite app_assoc, take_take_drop, <- Z2Nat.inj_add, take_drop by lia. Qed.
Lemma length_slice (l : list Z) off n : 0 ≤ off → 0 ≤ n → off + n ≤ len l →
  length (take (Z.to_nat n) (drop (Z.to_nat off) l)) = Z.to_nat n.
Proof. intros. rewrite length_take, length_drop. unfold len in *. lia. Qed.

Lemma memcpy_ok buf off src soff n : 0 ≤ off → 0 ≤ soff → 0 ≤ n → off + n ≤ len buf → soff + n ≤ len src →
  memcpy buf (Some off) src (Some soff) n
  = Ok (take (Z.to_nat off) buf ++ take (Z.to_nat n) (drop (Z.to_nat soff) src) ++ drop (Z.to_nat (off + n)) buf).
Proof.
  intros H0 H1 H2 H3 H4. unfold memcpy. obind.
  pose proof (memcpy_loop_ok (take (Z.to_nat off) buf) (take (Z.to_nat n) (drop (Z.to_nat off) buf)) (drop (Z.to_nat (off + n)) buf)
    (take (Z.to_nat soff) src) (take (Z.to_nat n) (drop (Z.to_nat soff) src)) (drop (Z.to_nat (soff + n)) src)) as HM.
  rewrite <- !split_at, !length_slice, !len_take in HM by lia. rewrite !Z2Nat.id in HM by lia. by apply HM.
Qed.
Lemma memcpy_splice buf off src : 0 ≤ off → off + len src ≤ len buf →
  memcpy buf (Some off) src (Some 0) (len src) = Ok (take (Z.to_nat off) buf ++ src ++ drop (Z.to_nat (off + len src)) buf).
Proof.
  intros H0 H1. pose proof (len_nonneg src). rewrite memcpy_ok by lia. do 3 f_equal. apply take_ge. unfold len. simpl. lia.
Qed.

Lemma memset_splice buf off v n : 0 ≤ off → 0 ≤ n → off + n ≤ len buf →
  memset buf (Some off) v n = Ok (take (Z.to_nat off) buf ++ replicate (Z.to_nat n) (u8 v) ++ drop (Z.to_nat (off + n)) buf).
Proof.
  intros H0 Hn H1. unfold memset. obind.
  pose proof (memset_loop_ok (take (Z.to_nat off) buf) (take (Z.to_nat n) (drop (Z.to_nat off) buf))
    (drop (Z.to_nat (off + n)) buf) (u8 v)) as HM.
  rewrite <- split_at, length_slice, len_take in HM by lia. by rewrite Z2Nat.id in HM by lia.
Qed.

Lemma memcpy_slice src off n : 0 ≤ off → 0 ≤ n → off + n ≤ len src →
  memcpy (replicate (Z.to_nat n) 0) (Some 0) src (Some off) n = Ok (take (Z.to_nat n) (drop (Z.to_nat off) src)).
Proof.
  intros H0 Hn H1. assert (len (replicate (Z.to_nat n) 0) = n) by (unfold len; rewrite length_replicate; lia).
  rewrite memcpy_ok by lia. rewrite (drop_ge (replicate _ _)) by (rewrite length_replicate; lia). by rewrite app_nil_r.
Qed.

(** ** Words *)
Definition le32 (v : Z) : list Z := [v mod 2 ^ 8; v / 2 ^ 8 mod 2 ^ 8; v / 2 ^ 16 mod 2 ^ 8; v / 2 ^ 24 mod 2 ^ 8].
Definition un_le32 (b : list Z) : Z := b@@0 + b@@1 * 2 ^ 8 + b@@2 * 2 ^ 16 + b@@3 * 2 ^ 24.
(** The four bytes from offset [o] on. *)
Definition dword (b : list Z) (o : Z) : Z := un_le32 (take 4 (drop (Z.to_nat o) b)).
Definition word_at (b : list Z) (i : nat) : Z := un_le32 (take 4 (drop (4 * i) b)).
(** An array of 32-bit words as bytes, and [n] words of a byte buffer. *)
Definition words_bytes (ws : list Z) : list Z := concat (map le32 ws).
Definition bytes_words (n : nat) (b : list Z) : list Z := map (word_at b) (seq 0 n).
Definition is_u32 (v : Z) : Prop := 0 ≤ v < 2 ^ 32.

Lemma un_le32_le32 v : is_u32 v → un_le32 (le32 v) = v.
Proof. intros H. unfold un_le32, le32, nthz, is_u32 in *. simpl. Z.div_mod_to_equations. lia. Qed.
Lemma length_words_bytes ws : length (words_bytes ws) = (4 * length ws)%nat.
Proof. unfold words_bytes. induction ws as [|w ws IH]; [done|]. cbn [map concat]. rewrite length_app, IH. simpl. lia. Qed.
Lemma drop_words_bytes ws i : drop (4 * i) (words_bytes ws) = words_bytes (drop i ws).
Proof.
  revert ws. induction i as [|i IH]; intros ws; [done|]. destruct ws as [|w ws]; [by rewrite drop_nil|].
  replace (4 * S i)%nat with (4 + 4 * i)%nat by lia. simpl. apply IH.
Qed.
Lemma word_at_words ws i v : ws !! i = Some v → is_u32 v → word_at (words_bytes ws) i = v.
Proof.
  intros Hi Hv. unfold word_at. rewrite drop_words_bytes, (drop_S _ _ _ Hi). rewrite <- (un_le32_le32 v Hv) at 2. done.
Qed.
Lemma bytes_words_bytes ws : Forall is_u32 ws → bytes_words (length ws) (words_bytes ws) = ws.
Proof.
  intros H. unfold bytes_words. apply list_eq. intros i. rewrite list_lookup_fmap. destruct (ws !! i) as [v|] eqn:E.
  - pose proof (lookup_lt_Some _ _ _ E). rewrite lookup_seq_lt by done. simpl. f_equal. apply word_at_words; [done|].
    by eapply Forall_lookup_1.
  - apply lookup_ge_None in E. by rewrite lookup_seq_ge.
Qed.
