(* ===== verification/Screen.v ===== *)
(** * lib/kernel/print.S: the screen

    The video segment is an array of bytes, two for each of the 80 * 25 cells;
    the position of the cursor is in two registers of the display controller.
    [put_char] is shown to implement a terminal: a text of 2000 characters and a
    position. *)
From S2P Require Import Prelude CString DiskBytes.

(** The segment that [gs] selects has 32 KiB (loader.S). *)
Definition VIDEO_SIZE : Z := 0x8000.
Definition VIDEO_BASE : Z := 0xc00b8000.
Record screen := mkScreen { vram : list Z; cursor_high : Z; cursor_low : Z }.

Definition read_cursor (s : screen) : Z := cursor_high s * 2 ^ 8 + cursor_low s.
(** [.set_cursor], with bx. *)
Definition set_cursor (v : list Z) (bx : Z) : screen := mkScreen v (bx / 2 ^ 8) (bx mod 2 ^ 8).

(** The character [ch] and the attribute 7 at cell [bx]: bx is doubled,
    advanced to the attribute and halved. *)
Definition put_cell (v : list Z) (bx ch : Z) : outcome (list Z * Z) :=
  let b := u16 (bx * 2) in
  v ← wr v b ch;
  let b := u16 (b + 1) in
  v ← wr v b 7;
  Ok (v, b / 2).

(** [rep movsd], ecx times, with offsets into the segment. *)
Fixpoint rep_movsd (ecx : nat) (v : list Z) (esi edi : Z) : outcome (list Z) :=
  match ecx with
  | O => Ok v
  | S ecx =>
      b0 ← rd v esi; b1 ← rd v (esi + 1); b2 ← rd v (esi + 2); b3 ← rd v (esi + 3);
      v ← wr v edi b0; v ← wr v (edi + 1) b1; v ← wr v (edi + 2) b2; v ← wr v (edi + 3) b3;
      rep_movsd ecx v (esi + 4) (edi + 4)
  end.
(** [.cls]: ecx blanks from ebx on. *)
Fixpoint cls_loop (ecx : nat) (v : list Z) (ebx : Z) : outcome (list Z) :=
  match ecx with
  | O => Ok v
  | S ecx => v ← wr v ebx 0x20; v ← wr v (ebx + 1) 0x07; cls_loop ecx v (ebx + 2)
  end.
Definition roll_screen (v : list Z) : outcome screen :=
  v ← rep_movsd 960 v (0xc00b80a0 - VIDEO_BASE) (0xc00b8000 - VIDEO_BASE);
  v ← cls_loop 80 v 3840;
  Ok (set_cursor v 1920).

(** [.is_line_feed], where a carriage return goes too. *)
Definition is_line_feed (v : list Z) (bx : Z) : outcome screen :=
  let bx := u16 (u16 (bx - bx mod 80) + 80) in
  if i16 bx <? 2000 then Ok (set_cursor v bx) else roll_screen v.

(** [cl] is the low byte of the argument. *)
Definition put_char (c : Z) (s : screen) : outcome screen :=
  let bx := read_cursor s in
  let cl := u8 c in
  if (cl =? 0xd) || (cl =? 0xa) then is_line_feed (vram s) bx
  else if cl =? 0x8 then
    '(v, bx) ← put_cell (vram s) (u16 (bx - 1)) 0x20;
    Ok (set_cursor v bx)
  else
    '(v, bx) ← put_cell (vram s) bx cl;
    let bx := u16 (bx + 1) in
    if i16 bx <? 2000 then Ok (set_cursor v bx) else is_line_feed v bx.

Definition cls_screen (s : screen) : outcome screen :=
  v ← cls_loop 2000 (vram s) 0;
  Ok (set_cursor v 0).

(** The characters that the output functions send. *)
Fixpoint show (l : list Z) (s : screen) : outcome screen :=
  match l with [] => Ok s | c :: l => s ← put_char c s; show l s end.

(** ** The terminal *)
Definition text (v : list Z) : list Z := map (λ i, v@@(2 * Z.of_nat i)) (seq 0 2000).
Definition term : Type := list Z * Z.
Definition term_newline (t : term) : term :=
  let p := t.2 - t.2 mod 80 + 80 in
  if p <? 2000 then (t.1, p) else (drop 80 t.1 ++ replicate 80 0x20, 1920).
Definition term_put (c : Z) (t : term) : term :=
  if (c =? 0xd) || (c =? 0xa) then term_newline t
  else if c =? 0x8 then (<[Z.to_nat (t.2 - 1) := 0x20]> t.1, t.2 - 1)
  else
    let t := (<[Z.to_nat t.2 := c]> t.1, t.2 + 1) in
    if t.2 <? 2000 then t else term_newline t.
Fixpoint term_show (l : list Z) (t : term) : term := match l with [] => t | c :: l => term_show l (term_put c t) end.
(** No character goes back from the first cell. *)
Fixpoint showable (l : list Z) (t : term) : Prop :=
  match l with [] => True | c :: l => (c = 0x8 → 0 < t.2) ∧ showable l (term_put c t) end.

Record screen_ok (s : screen) : Prop := {
  so_vram : len (vram s) = VIDEO_SIZE;
  so_high : 0 ≤ cursor_high s;
  so_low : 0 ≤ cursor_low s < 2 ^ 8;
  so_cursor : read_cursor s < 2000;
}.
Definition term_of (s : screen) : term := (text (vram s), read_cursor s).

Lemma read_set_cursor v bx : read_cursor (set_cursor v bx) = bx.
Proof. unfold read_cursor, set_cursor. cbn [cursor_high cursor_low]. Z.div_mod_to_equations; lia. Qed.
Lemma set_cursor_ok v bx : len v = VIDEO_SIZE → 0 ≤ bx < 2000 → screen_ok (set_cursor v bx).
Proof. intros Hv Hb. split; [done|cbn; Z.div_mod_to_equations; lia|cbn; Z.div_mod_to_equations; lia|]. rewrite read_set_cursor. lia. Qed.
Lemma term_of_set v bx : term_of (set_cursor v bx) = (text v, bx).
Proof. unfold term_of. by rewrite read_set_cursor. Qed.
Lemma cursor_range s : screen_ok s → 0 ≤ read_cursor s < 2000.
Proof. intros [_ H1 H2 H3]. unfold read_cursor in *. lia. Qed.

Lemma length_text v : length (text v) = 2000%nat.
Proof. unfold text. by rewrite length_map, length_seq. Qed.
Lemma text_lookup v i : (i < 2000)%nat → text v !! i = Some v@@(2 * Z.of_nat i).
Proof. intros H. unfold text. rewrite list_lookup_fmap, lookup_seq_lt by done. done. Qed.
Lemma text_ext v l : length l = 2000%nat → (∀ i, (i < 2000)%nat → l !! i = Some v@@(2 * Z.of_nat i)) → text v = l.
Proof.
  intros Hl H. apply list_eq. intros i. destruct (decide (i < 2000)%nat) as [Hi|Hi].
  - by rewrite text_lookup, H.
  - rewrite !lookup_ge_None_2; [done|lia|rewrite length_text; lia].
Qed.

(** ** What the loops do *)
Lemma insert_text v p c : len v = VIDEO_SIZE → 0 ≤ p < 2000 →
  text (<[Z.to_nat (2 * p + 1) := 7]> (<[Z.to_nat (2 * p) := c]> v)) = <[Z.to_nat p := c]> (text v).
Proof.
  intros Hv Hp. unfold VIDEO_SIZE in *. apply text_ext; [by rewrite length_insert, length_text|]. intros i Hi. rewrite nthz_insert_ne by lia.
  destruct (decide (i = Z.to_nat p)) as [->|Hne].
  - rewrite Z2Nat.id by lia. rewrite nthz_insert_eq by lia. apply list_lookup_insert_eq. rewrite length_text. lia.
  - rewrite nthz_insert_ne by lia. rewrite list_lookup_insert_ne by done. by apply text_lookup.
Qed.

Lemma put_cell_ok v p c : len v = VIDEO_SIZE → 0 ≤ p < 2000 →
  ∃ v', put_cell v p c = Ok (v', p) ∧ len v' = VIDEO_SIZE ∧ text v' = <[Z.to_nat p := c]> (text v).
Proof.
  intros Hv Hp. pose proof Hv as Hv'. unfold VIDEO_SIZE in Hv'. unfold put_cell. rewrite (u16_id (p * 2)) by lia. rewrite (u16_id (p * 2 + 1)) by lia.
  rewrite wr_ok by lia. obind. rewrite wr_ok by (rewrite len_insert; lia). obind.
  eexists. split; [do 2 f_equal; Z.div_mod_to_equations; lia|]. split; [by rewrite !len_insert|].
  rewrite (Z.mul_comm p 2). by apply insert_text.
Qed.

Lemma movsd_ok n : ∀ v dst, 0 ≤ dst → dst + 160 + 4 * Z.of_nat n ≤ len v →
  ∃ v', rep_movsd n v (dst + 160) dst = Ok v' ∧ len v' = len v
    ∧ ∀ i, 0 ≤ i → v'@@i = if decide (dst ≤ i < dst + 4 * Z.of_nat n) then v@@(i + 160) else v@@i.
Proof.
  induction n as [|n IH]; intros v dst Hd Hl.
  - exists v. split_and!; [done|done|]. intros i Hi. by rewrite decide_False by lia.
  - cbn [rep_movsd]. rewrite !rd_ok by lia. obind. repeat (rewrite wr_ok by (rewrite ?len_insert; lia); obind).
    replace (dst + 160 + 4) with (dst + 4 + 160) by lia. set (v1 := <[Z.to_nat (dst + 3) := _]> _).
    assert (len v1 = len v) as Hl1 by (unfold v1; by rewrite !len_insert).
    assert (∀ i, 0 ≤ i → v1@@i = if decide (dst ≤ i < dst + 4) then v@@(i + 160) else v@@i) as H1.
    { intros i Hi. unfold v1. case_decide as Hc.
      - assert (i = dst ∨ i = dst + 1 ∨ i = dst + 2 ∨ i = dst + 3) as [->|[->|[->| ->]]] by lia;
          repeat first [rewrite nthz_insert_eq by (rewrite ?len_insert; lia) | rewrite nthz_insert_ne by lia]; f_equal; lia.
      - by rewrite !nthz_insert_ne by lia. }
    destruct (IH v1 (dst + 4)) as (v' & E & Hl' & H'); [lia|lia|]. exists v'. split_and!; [exact E|lia|].
    intros i Hi. rewrite H', !H1 by lia. repeat case_decide; lia || done.
Qed.

Lemma cls_loop_ok n : ∀ v b, 0 ≤ b → b + 2 * Z.of_nat n ≤ len v →
  ∃ v', cls_loop n v b = Ok v' ∧ len v' = len v
    ∧ (∀ k, 0 ≤ k < Z.of_nat n → v'@@(b + 2 * k) = 0x20) ∧ ∀ i, 0 ≤ i → ¬ (b ≤ i < b + 2 * Z.of_nat n) → v'@@i = v@@i.
Proof.
  induction n as [|n IH]; intros v b Hb Hl; [exists v; split_and!; [done|done|lia|done]|].
  cbn [cls_loop]. rewrite wr_ok by lia. obind. rewrite wr_ok by (rewrite len_insert; lia). obind.
  destruct (IH (<[Z.to_nat (b + 1) := 7]> (<[Z.to_nat b := 32]> v)) (b + 2)) as (v' & E & Hl' & H1 & H2); [lia|rewrite !len_insert; lia|].
  exists v'. split_and!; [exact E|by rewrite Hl', !len_insert| |].
  - intros k Hk. destruct (decide (k = 0)) as [->|Hk0].
    + rewrite H2 by lia. rewrite nthz_insert_ne by lia. replace (b + 2 * 0) with b by lia. by rewrite nthz_insert_eq by lia.
    + replace (b + 2 * k) with (b + 2 + 2 * (k - 1)) by lia. apply H1. lia.
  - intros i Hi Ho. rewrite H2 by lia. by rewrite !nthz_insert_ne by lia.
Qed.

Lemma roll_ok v : len v = VIDEO_SIZE → ∃ s, roll_screen v = Ok s ∧ screen_ok s ∧ term_of s = (drop 80 (text v) ++ replicate 80 0x20, 1920).
Proof.
  intros Hv. pose proof Hv as Hv'. unfold VIDEO_SIZE in Hv'. unfold roll_screen, VIDEO_BASE.
  replace (0xc00b80a0 - 0xc00b8000) with (0 + 160) by lia. replace (0xc00b8000 - 0xc00b8000) with 0 by lia.
  destruct (movsd_ok 960 v 0 ltac:(lia) ltac:(lia)) as (v1 & -> & L1 & H1). obind.
  destruct (cls_loop_ok 80 v1 3840 ltac:(lia) ltac:(lia)) as (v2 & -> & L2 & H2 & H3). obind.
  exists (set_cursor v2 1920). split; [done|]. split; [apply set_cursor_ok; lia|]. rewrite term_of_set. f_equal.
  apply text_ext; [by rewrite length_app, length_drop, length_text, length_replicate|]. intros i Hi.
  destruct (decide (i < 1920)%nat) as [Hlt|Hge].
  - rewrite lookup_app_l by (rewrite length_drop, length_text; lia). rewrite lookup_drop, text_lookup by lia.
    rewrite H3, H1, decide_True by lia. do 2 f_equal. lia.
  - rewrite lookup_app_r by (rewrite length_drop, length_text; lia). rewrite length_drop, length_text.
    rewrite lookup_replicate_2 by lia. replace (2 * Z.of_nat i) with (3840 + 2 * (Z.of_nat i - 1920)) by lia. by rewrite H2 by lia.
Qed.

Lemma line_feed_ok v p : len v = VIDEO_SIZE → 0 ≤ p ≤ 2000 → ∃ s, is_line_feed v p = Ok s ∧ screen_ok s ∧ term_of s = term_newline (text v, p).
Proof.
  intros Hv Hp. pose proof (Z.mod_pos_bound p 80 ltac:(lia)). unfold is_line_feed, term_newline. cbn [fst snd].
  assert (p mod 80 ≤ p) by (apply Z.mod_le; lia). rewrite (u16_id (p - p mod 80)), (u16_id (_ + 80)) by lia.
  assert (i16 (p - p mod 80 + 80) = p - p mod 80 + 80) as -> by (unfold i16; Z.div_mod_to_equations; lia).
  destruct (Z.ltb_spec (p - p mod 80 + 80) 2000) as [Hlt|Hge].
  - exists (set_cursor v (p - p mod 80 + 80)). split; [done|]. split; [apply set_cursor_ok; lia|]. apply term_of_set.
  - by apply roll_ok.
Qed.

Lemma put_char_ok c s : screen_ok s → 0 ≤ c < 256 → (c = 0x8 → 0 < read_cursor s) →
  ∃ s', put_char c s = Ok s' ∧ screen_ok s' ∧ term_of s' = term_put c (term_of s).
Proof.
  intros Hs Hc Hb. pose proof (cursor_range _ Hs) as Hp. pose proof (so_vram _ Hs) as Hv. unfold put_char, term_put.
  assert (term_of s = (text (vram s), read_cursor s)) as -> by done. cbn [fst snd].
  assert (u8 c = c) as -> by (unfold u8; apply Z.mod_small; lia). set (p := read_cursor s) in *.
  destruct ((c =? 13) || (c =? 10)); [apply line_feed_ok; [done|lia]|]. destruct (Z.eqb_spec c 8) as [Ec|_].
  - specialize (Hb Ec). rewrite (u16_id (p - 1)) by lia. destruct (put_cell_ok (vram s) (p - 1) 0x20 Hv ltac:(lia)) as (v & -> & Hl & Ht). obind.
    exists (set_cursor v (p - 1)). split; [done|]. split; [apply set_cursor_ok; [done|lia]|]. by rewrite term_of_set, Ht.
  - destruct (put_cell_ok (vram s) p c Hv ltac:(lia)) as (v & -> & Hl & Ht). obind. rewrite (u16_id (p + 1)) by lia.
    assert (i16 (p + 1) = p + 1) as -> by (unfold i16; Z.div_mod_to_equations; lia). rewrite <- Ht.
    destruct (Z.ltb_spec (p + 1) 2000).
    + exists (set_cursor v (p + 1)). split; [done|]. split; [apply set_cursor_ok; [done|lia]|]. apply term_of_set.
    + apply line_feed_ok; [done|lia].
Qed.

(** C26: The screen implements the terminal: whatever is printed, unless it goes back
    from the first cell, every character is shown or moves the cursor as the
    terminal says, a full screen scrolls by a row, no byte outside the visible
    page is touched by an access that fails, and the cursor stays on the screen. *)
Theorem show_refines_terminal l s : screen_ok s → bytes l → showable l (term_of s) →
  ∃ s', show l s = Ok s' ∧ screen_ok s' ∧ term_of s' = term_show l (term_of s).
Proof.
  revert s. induction l as [|c l IH]; intros s Hs Hl Hsh; [by exists s|]. apply Forall_cons in Hl as [Hc Hl]. destruct Hsh as [Hb Hsh].
  destruct (put_char_ok c s Hs Hc Hb) as (s1 & E & Hs1 & Ht). cbn [show]. rewrite E. obind. cbn [term_show]. rewrite <- Ht in Hsh |- *. by apply IH.
Qed.

(** [cls_screen] blanks the text and moves the cursor to the first cell. *)
Theorem cls_screen_correct s : screen_ok s → ∃ s', cls_screen s = Ok s' ∧ screen_ok s' ∧ term_of s' = (replicate 2000 0x20, 0).
Proof.
  intros Hs. pose proof (so_vram _ Hs) as Hv. unfold VIDEO_SIZE in Hv. unfold cls_screen.
  destruct (cls_loop_ok 2000 (vram s) 0 ltac:(lia) ltac:(lia)) as (v & -> & Hl & H1 & _). obind.
  exists (set_cursor v 0). split; [done|]. split; [apply set_cursor_ok; unfold VIDEO_SIZE; lia|]. rewrite term_of_set. f_equal.
  apply text_ext; [by rewrite length_replicate|]. intros i Hi. rewrite lookup_replicate_2 by done. by rewrite <- (H1 (Z.of_nat i)) by lia.
Qed.

(** A backspace in the first cell wraps bx around to 0xffff: the store is beyond
    the limit of the video segment. *)
Theorem put_char_backspace_faults s : len (vram s) = VIDEO_SIZE → read_cursor s = 0 → put_char 0x8 s = Fault.
Proof.
  intros Hv Hc. unfold put_char. rewrite Hc. unfold VIDEO_SIZE in *. change (u8 8) with 8. cbn [Z.eqb Pos.eqb orb]. unfold put_cell.
  rewrite wr_fault; [done|]. rewrite Hv. change (u16 (u16 (0 - 1) * 2)) with 65534. lia.
Qed.

Definition blank_screen : screen := set_cursor (concat (replicate (Z.to_nat 0x4000) [0x20; 7])) 1998.
Lemma blank_screen_ok : screen_ok blank_screen.
Proof. apply set_cursor_ok; [vm_compute; reflexivity|lia]. Qed.
(** Three characters from the last cell but one: the third is on the new row. *)
Lemma show_refines_terminal_witness : ∃ s', show [65; 66; 67] blank_screen = Ok s' ∧ read_cursor s' = 1921 ∧ (text (vram s')) !! 1918%nat = Some 65 ∧ (text (vram s')) !! 1920%nat = Some 67.
Proof.
  destruct (show_refines_terminal [65; 66; 67] blank_screen blank_screen_ok) as (s' & E & _ & Ht).
  - repeat constructor; discriminate.
  - cbn [showable]. split_and!; [discriminate..|exact I].
  - exists s'. split; [exact E|]. change (read_cursor s') with (term_of s').2. change (text (vram s')) with (term_of s').1.
    rewrite Ht. clear E Ht. split; [|split]; vm_compute; reflexivity.
Defined.
