(* ===== verification/FsBase.v ===== *)
(** * The file system's data, state and the services it is built on

    The structures of fs/superblock.h, fs/inode.h, fs/dir.h, fs/file.h and the
    Partition of device/ide.h, and [fs], the state the file system works on.
    The disk driver and the heap are used through the interface [Services];
    Ide and HeapSpec show what the driver and the kernel's heap do.  Inodes and
    directories that the code reaches through pointers are in finite maps by
    address, the elements of [open_inodes] are the addresses of the inodes (the
    list itself is the subject of DList).  The mounted partition is [cur_part];
    every call in the sources passes it.  What is printed is collected in
    [console]. *)
From Stdlib Require Import String.
From S2P Require Import Prelude CString Bitmap Machine Ide DiskBytes.

(** ** Data *)
Record SuperBlock := mkSb {
  magic : Z;
  sb_sec_cnt : Z;
  inode_cnt : Z;
  part_lba_base : Z;
  block_bitmap_lba : Z;
  block_bitmap_sects : Z;
  inode_bitmap_lba : Z;
  inode_bitmap_sects : Z;
  inode_table_lba : Z;
  inode_table_sects : Z;
  data_start_lba : Z;
  root_inode_no : Z;
  dir_entry_size : Z;
}.

(** The in-memory list tag of an inode is its place in [open_inodes]. *)
Record INode := mkINode {
  i_no : Z;
  i_size : Z;
  i_open_cnts : Z;
  write_deny : bool;
  i_sectors : list Z;
}.
Definition set_i_size (v : Z) (n : INode) : INode := mkINode (i_no n) v (i_open_cnts n) (write_deny n) (i_sectors n).
Definition set_open_cnts (v : Z) (n : INode) : INode := mkINode (i_no n) (i_size n) v (write_deny n) (i_sectors n).
Definition set_write_deny (v : bool) (n : INode) : INode := mkINode (i_no n) (i_size n) (i_open_cnts n) v (i_sectors n).
Definition set_i_sectors (v : list Z) (n : INode) : INode := mkINode (i_no n) (i_size n) (i_open_cnts n) (write_deny n) v.

(** The name and the list tag of a partition play no part once it is mounted. *)
Record Partition := mkPart {
  start_lba : Z;
  part_sec_cnt : Z;
  my_dev : Z;
  sb : SuperBlock;
  block_bitmap : BitMap;
  inode_bitmap : BitMap;
  open_inodes : list Z;
}.
Definition set_block_bitmap (v : BitMap) (p : Partition) : Partition :=
  mkPart (start_lba p) (part_sec_cnt p) (my_dev p) (sb p) v (inode_bitmap p) (open_inodes p).
Definition set_inode_bitmap (v : BitMap) (p : Partition) : Partition :=
  mkPart (start_lba p) (part_sec_cnt p) (my_dev p) (sb p) (block_bitmap p) v (open_inodes p).
Definition set_open_inodes (v : list Z) (p : Partition) : Partition :=
  mkPart (start_lba p) (part_sec_cnt p) (my_dev p) (sb p) (block_bitmap p) (inode_bitmap p) v.

Record Dir := mkDir { dir_inode : Z; dir_pos : Z; dir_buf : list Z }.
Record File := mkFile { fd_pos : Z; fd_flag : Z; fd_inode : Z }.

Definition MAX_FILES_PER_PART : Z := 4096.
Definition BITS_PER_SECTOR : Z := 4096.
Definition SECTOR_SIZE : Z := 512.
Definition BLOCK_SIZE : Z := SECTOR_SIZE.
Definition MAX_PATH_LEN : Z := 128.
Definition MAX_FILE_NAME_LEN : Z := 16.
Definition MAX_FILE_OPEN : Z := 32.
Definition FT_UNKNOWN : Z := 0.
Definition FT_REGULAR : Z := 1.
Definition FT_DIRECTORY : Z := 2.
Definition O_RDONLY : Z := 0.
Definition O_WRONLY : Z := 1.
Definition O_RDWR : Z := 3.
Definition O_CREAT : Z := 4.

(** ** Services

    [sv_read] and [sv_write] are [ide_read] and [ide_write] of a device,
    [sv_malloc] and [sv_free] are [sys_malloc] and [sys_free] in a pool.
    [sv_at c L n x]: in state [x] the disks hold [c], the blocks of [L], each
    with its pool, are allocated, and at least [n] pages are free, so that as
    many requests of up to 1024 bytes succeed. *)
Class Services (S : Type) := {
  sv_read : Z → Z → Z → S → outcome (list Z * S);
  sv_write : Z → Z → list Z → Z → S → outcome (unit * S);
  sv_malloc : PoolType → Z → S → outcome (Z * S);
  sv_free : PoolType → Z → S → outcome (unit * S);
  sv_at : disks → gmap Z PoolType → nat → S → Prop;
  sv_wf c L n x : sv_at c L n x → disks_wf c;
  sv_ext c c' L n x : (∀ dev l, c dev l = c' dev l) → sv_at c L n x → sv_at c' L n x;
  sv_less c L n m x : sv_at c L n x → (m ≤ n)%nat → sv_at c L m x;
  sv_null c L n x : sv_at c L n x → L !! NULL = None;
  sv_read_ok c L n x dev lba k : sv_at c L n x → (dev = 0 ∨ dev = 1) → 0 ≤ lba → 0 < k → lba + k ≤ max_lba + 1 →
    ∃ x', sv_read dev lba k x = Ok (read_secs c dev lba (Z.to_nat k), x') ∧ sv_at c L n x';
  sv_write_ok c L n x dev lba b k : sv_at c L n x → (dev = 0 ∨ dev = 1) → 0 ≤ lba → 0 < k → lba + k ≤ max_lba + 1 → len b = 512 * k →
    ∃ x', sv_write dev lba b k x = Ok ((), x') ∧ sv_at (write_secs c dev lba (Z.to_nat k) b) L n x';
  sv_malloc_ok c L n x pf size : sv_at c L n x → 0 < size → size + 12 ≤ 3839 * 4096 →
    ∃ r x', sv_malloc pf size x = Ok (r, x')
      ∧ (r = NULL ∧ (n = O ∨ 1024 < size) ∧ sv_at c L n x'
         ∨ L !! r = None ∧ sv_at c (<[r := pf]> L) (if 1024 <? size then O else pred n) x');
  sv_free_ok c L n x pf b : sv_at c L n x → L !! b = Some pf →
    ∃ x', sv_free pf b x = Ok ((), x') ∧ sv_at c (delete b L) n x';
}.

(** ** State *)
Inductive arg := AStr (s : list Z) | AInt (v : Z).

Record fs (S : Type) := mkFs {
  sv : S;
  console : list (string * list arg);
  me : TaskStruct;  (* the PCB of the running thread *)
  cur_part : Partition;
  inodes : gmap Z INode;  (* the inodes in memory, by address *)
  dirs : gmap Z Dir;  (* the Dir objects, by address *)
  root_dir : Z;  (* the address of the global root_dir *)
  file_table : list File;
}.
Arguments mkFs {S}.
Arguments sv {S}.
Arguments console {S}.
Arguments me {S}.
Arguments cur_part {S}.
Arguments inodes {S}.
Arguments dirs {S}.
Arguments root_dir {S}.
Arguments file_table {S}.

Section updates.
Context {S : Type}.
Implicit Types s : fs S.
Definition set_sv (v : S) s : fs S := mkFs v (console s) (me s) (cur_part s) (inodes s) (dirs s) (root_dir s) (file_table s).
Definition set_console (v : list (string * list arg)) s : fs S := mkFs (sv s) v (me s) (cur_part s) (inodes s) (dirs s) (root_dir s) (file_table s).
Definition set_me (v : TaskStruct) s : fs S := mkFs (sv s) (console s) v (cur_part s) (inodes s) (dirs s) (root_dir s) (file_table s).
Definition set_cur_part (v : Partition) s : fs S := mkFs (sv s) (console s) (me s) v (inodes s) (dirs s) (root_dir s) (file_table s).
Definition set_inodes (v : gmap Z INode) s : fs S := mkFs (sv s) (console s) (me s) (cur_part s) v (dirs s) (root_dir s) (file_table s).
Definition set_dirs (v : gmap Z Dir) s : fs S := mkFs (sv s) (console s) (me s) (cur_part s) (inodes s) v (root_dir s) (file_table s).
Definition set_file_table (v : list File) s : fs S := mkFs (sv s) (console s) (me s) (cur_part s) (inodes s) (dirs s) (root_dir s) v.
End updates.

(** ** The monad *)
Definition F (S A : Type) : Type := fs S → outcome (A * fs S).
#[global] Instance F_ret {S} : MRet (F S) := λ A a s, Ok (a, s).
#[global] Instance F_bind {S} : MBind (F S) := λ A B f m s,
  match m s with
  | Ok (a, s') => f a s'
  | Panic => Panic
  | Fault => Fault
  | Spin => Spin
  | Blocked => Blocked
  end.

Section ops.
Context {S : Type} `{!Services S}.

Definition fget {A} (f : fs S → A) : F S A := λ s, Ok (f s, s).
Definition fmod (f : fs S → fs S) : F S unit := λ s, Ok ((), f s).
Definition flift {A} (o : outcome A) : F S A := λ s, a ← o; Ok (a, s).
Definition fassert (c : bool) : F S unit := flift (ASSERT c).
(** An access through pointer [p]; through NULL it has no meaning in the model. *)
Definition touch (p : Z) : F S unit := if p =? NULL then flift Fault else mret ().

Definition say (fmt : string) (args : list arg) : F S unit := fmod (λ s, set_console (console s ++ [(fmt, args)]) s).

Definition service {A} (f : S → outcome (A * S)) : F S A := λ s, '(a, x) ← f (sv s); Ok (a, set_sv x s).
Definition disk_read (lba n : Z) : F S (list Z) := p ← fget cur_part; service (sv_read (my_dev p) lba n).
Definition disk_write (lba : Z) (b : list Z) (n : Z) : F S unit := p ← fget cur_part; service (sv_write (my_dev p) lba b n).

(** The pool of the running thread. *)
Definition my_pool : F S PoolType := t ← fget me; mret (if pgdir t =? NULL then PF_KERNEL else PF_USER).
Definition fs_malloc (size : Z) : F S Z := pf ← my_pool; service (sv_malloc pf size).
Definition fs_free (p : Z) : F S unit := pf ← my_pool; service (sv_free pf p).

Definition ld_inode (a : Z) : F S INode := m ← fget inodes; flift (deref (m !! a)).
Definition st_inode (a : Z) (n : INode) : F S unit :=
  _ ← ld_inode a; fmod (λ s, set_inodes (<[a := n]> (inodes s)) s).
Definition ld_dir (a : Z) : F S Dir := m ← fget dirs; flift (deref (m !! a)).
Definition st_dir (a : Z) (d : Dir) : F S unit :=
  _ ← ld_dir a; fmod (λ s, set_dirs (<[a := d]> (dirs s)) s).
Definition ld_file (i : Z) : F S File := t ← fget file_table; flift (rd t i).
Definition st_file (i : Z) (f : File) : F S unit :=
  t ← fget file_table; t ← flift (wr t i f); fmod (set_file_table t).
Definition set_part (p : Partition) : F S unit := fmod (set_cur_part p).
End ops.

(** ** Reasoning *)

(** Total correctness: from [s], [m] returns with a value and a state in [Q]. *)
Definition fwp {S A} (m : F S A) (s : fs S) (Q : A → fs S → Prop) : Prop := m s ⇓ λ '(a, s'), Q a s'.

Section fwp_rules.
Context {S A B : Type}.
Implicit Types (m : F S A) (k : A → F S B) (s : fs S).

Lemma fwp_ret (a : A) s (Q : A → fs S → Prop) : Q a s → fwp (mret a) s Q.
Proof. done. Qed.
Lemma fwp_bind m k s (Q : B → fs S → Prop) : fwp m s (λ a s', fwp (k a) s' Q) → fwp (m ≫= k) s Q.
Proof. unfold fwp, mbind, F_bind. by destruct (m s) as [[a s']| | | |]. Qed.
Lemma fwp_mono m s (P Q : A → fs S → Prop) : fwp m s P → (∀ a s', P a s' → Q a s') → fwp m s Q.
Proof. unfold fwp. destruct (m s) as [[a s']| | | |]; simpl; auto. Qed.
Lemma fwp_get (f : fs S → A) s (Q : A → fs S → Prop) : Q (f s) s → fwp (fget f) s Q.
Proof. intros H. exact H. Qed.
Lemma fwp_lift (o : outcome A) s (Q : A → fs S → Prop) : (o ⇓ λ a, Q a s) → fwp (flift o) s Q.
Proof. by destruct o. Qed.
Lemma fwp_eq m s a s' (Q : A → fs S → Prop) : m s = Ok (a, s') → Q a s' → fwp m s Q.
Proof. unfold fwp. by intros ->. Qed.
(** A call returns and what follows fails. *)
Lemma bind_panics m k s : fwp m s (λ a s', k a s' = Panic) → (m ≫= k) s = Panic.
Proof. unfold fwp, mbind, F_bind. destruct (m s) as [[a s']| | | |]; simpl; done. Qed.
Lemma bind_faults m k s : fwp m s (λ a s', k a s' = Fault) → (m ≫= k) s = Fault.
Proof. unfold fwp, mbind, F_bind. destruct (m s) as [[a s']| | | |]; simpl; done. Qed.
Lemma bind_fault_l m k s : m s = Fault → (m ≫= k) s = Fault.
Proof. unfold mbind, F_bind. by intros ->. Qed.
Lemma fwp_inv m s (Q : A → fs S → Prop) : fwp m s Q → ∃ a s', m s = Ok (a, s') ∧ Q a s'.
Proof. intros ([a s'] & ? & ?)%returns_inv. eauto. Qed.
End fwp_rules.

Lemma fwp_mod {S} f (s : fs S) Q : Q () (f s) → fwp (fmod f) s Q.
Proof. intros H. exact H. Qed.
Lemma fwp_assert {S} c (s : fs S) Q : c = true → Q () s → fwp (fassert c) s Q.
Proof. by intros ->. Qed.

Ltac fstep :=
  match goal with
  | |- fwp (_ ≫= _) _ _ => apply fwp_bind
  | |- fwp (mret _) _ _ => apply fwp_ret
  | |- fwp (fget _) _ _ => apply fwp_get
  | |- fwp (fmod _) _ _ => apply fwp_mod
  | |- fwp (set_part _) _ _ => apply fwp_mod
  | |- fwp (fassert _) _ _ => apply fwp_assert; [|]
  end.

Section calls.
Context {S : Type} `{!Services S}.
Implicit Types (s : fs S) (n : nat).

(** [s] with disks [c], allocated blocks [L] and [n] free pages; the device of
    the partition is one of the two. *)
Definition fs_at (c : disks) (L : gmap Z PoolType) n s : Prop :=
  sv_at c L n (sv s) ∧ (my_dev (cur_part s) = 0 ∨ my_dev (cur_part s) = 1).

(** Only the services' state changes. *)
Definition served (c : disks) (L : gmap Z PoolType) n s s' : Prop := ∃ x, s' = set_sv x s ∧ fs_at c L n s'.
Definition pool_me s : PoolType := if pgdir (me s) =? NULL then PF_KERNEL else PF_USER.

Lemma fs_at_wf c L n s : fs_at c L n s → disks_wf c.
Proof. intros [H _]. by eapply sv_wf. Qed.

Lemma fwp_read c L n s lba k Q : fs_at c L n s → 0 ≤ lba → 0 < k → lba + k ≤ max_lba + 1 →
  (∀ s', served c L n s s' → Q (read_secs c (my_dev (cur_part s)) lba (Z.to_nat k)) s') → fwp (disk_read lba k) s Q.
Proof.
  intros [Hat Hd] H1 H2 H3 HQ. unfold disk_read. repeat fstep. unfold fwp, service.
  destruct (sv_read_ok _ _ _ _ _ _ _ Hat Hd H1 H2 H3) as (x & -> & Hx). cbn. apply HQ. by exists x.
Qed.

Lemma fwp_write c L n s lba b k Q : fs_at c L n s → 0 ≤ lba → 0 < k → lba + k ≤ max_lba + 1 → len b = 512 * k →
  (∀ s', served (write_secs c (my_dev (cur_part s)) lba (Z.to_nat k) b) L n s s' → Q () s') → fwp (disk_write lba b k) s Q.
Proof.
  intros [Hat Hd] H1 H2 H3 H4 HQ. unfold disk_write. repeat fstep. unfold fwp, service.
  destruct (sv_write_ok _ _ _ _ _ _ _ _ Hat Hd H1 H2 H3 H4) as (x & -> & Hx). cbn. apply HQ. by exists x.
Qed.

(** With a free page. *)
Lemma fwp_malloc c L n s size Q : fs_at c L (Datatypes.S n) s → 0 < size ≤ 1024 →
  (∀ r s', r ≠ NULL → L !! r = None → served c (<[r := pool_me s]> L) n s s' → Q r s') → fwp (fs_malloc size) s Q.
Proof.
  intros [Hat Hd] H1 HQ. unfold fs_malloc, my_pool. repeat fstep. unfold fwp, service. fold (pool_me s).
  destruct (sv_malloc_ok _ _ _ _ (pool_me s) size Hat ltac:(lia) ltac:(lia)) as (r & x & -> & [[-> [[?|?] _]]|[Hr Hx]]); [lia|lia|].
  cbn in *. destruct (Z.ltb_spec 1024 size); [lia|].
  apply HQ; [|done|by exists x]. intros ->. pose proof (sv_null _ _ _ _ Hx) as Hn. by rewrite lookup_insert_eq in Hn.
Qed.

Lemma fwp_free c L n s b Q : fs_at c L n s → L !! b = Some (pool_me s) →
  (∀ s', served c (delete b L) n s s' → Q () s') → fwp (fs_free b) s Q.
Proof.
  intros [Hat Hd] Hb HQ. unfold fs_free, my_pool. repeat fstep. unfold fwp, service. fold (pool_me s).
  destruct (sv_free_ok _ _ _ _ (pool_me s) _ Hat Hb) as (x & -> & Hx). cbn. apply HQ. by exists x.
Qed.
End calls.

(** ** An instance: disks as a value, addresses handed out in order *)
Record sim_sv := mkSimSv { ss_disk : disks; ss_live : gmap Z PoolType; ss_next : Z; ss_room : nat }.
Definition sim_read (dev lba k : Z) (x : sim_sv) : outcome (list Z * sim_sv) :=
  _ ← ASSERT (lba <=? max_lba); _ ← ASSERT (0 <? k); Ok (read_secs (ss_disk x) dev lba (Z.to_nat k), x).
Definition sim_write (dev lba : Z) (b : list Z) (k : Z) (x : sim_sv) : outcome (unit * sim_sv) :=
  _ ← ASSERT (lba <=? max_lba); _ ← ASSERT (0 <? k);
  Ok ((), mkSimSv (write_secs (ss_disk x) dev lba (Z.to_nat k) b) (ss_live x) (ss_next x) (ss_room x)).
Definition sim_malloc (pf : PoolType) (size : Z) (x : sim_sv) : outcome (Z * sim_sv) :=
  match ss_room x with
  | O => Ok (NULL, x)
  | Datatypes.S n => Ok (ss_next x, mkSimSv (ss_disk x) (<[ss_next x := pf]> (ss_live x)) (ss_next x + size) n)
  end.
Definition sim_free (pf : PoolType) (b : Z) (x : sim_sv) : outcome (unit * sim_sv) :=
  if decide (ss_live x !! b = Some pf) then Ok ((), mkSimSv (ss_disk x) (delete b (ss_live x)) (ss_next x) (ss_room x)) else Fault.
Definition sim_at (c : disks) (L : gmap Z PoolType) (n : nat) (x : sim_sv) : Prop :=
  disks_wf c ∧ (∀ dev l, ss_disk x dev l = c dev l) ∧ ss_live x = L ∧ (∀ b pf, L !! b = Some pf → 0 < b < ss_next x)
  ∧ 0 < ss_next x ∧ (n ≤ ss_room x)%nat.

Lemma write_secs_ext c c' dev lba n b : (∀ d l, c d l = c' d l) → ∀ d l, write_secs c dev lba n b d l = write_secs c' dev lba n b d l.
Proof. intros H d l. unfold write_secs. by case_decide. Qed.

#[refine] Instance sim_services : Services sim_sv :=
  {| sv_read := sim_read; sv_write := sim_write; sv_malloc := sim_malloc; sv_free := sim_free; sv_at := sim_at |}.
Proof.
  - by intros c L n x (? & _).
  - intros c c' L n x He (Hw & Hd & ?). split_and!; try naive_solver; [intros dev l; rewrite <- He; apply Hw|intros dev l; by rewrite Hd].
  - intros c L n m x (? & ? & ? & ? & ? & ?) Hm. split_and!; try done. lia.
  - intros c L n x (_ & _ & _ & H & _). destruct (L !! NULL) eqn:E; [|done]. apply H in E. unfold NULL in E. lia.
  - intros c L n x dev lba k Hat Hd H0 H1 H2. exists x. split; [|done]. unfold sim_read, ASSERT.
    destruct (Z.leb_spec lba max_lba); [|lia]. destruct (Z.ltb_spec 0 k); [|lia]. cbn. do 2 f_equal.
    apply read_secs_ext. apply Hat.
  - intros c L n x dev lba b k (Hw & He & Hl & Hb & Hn & Hr) Hd H0 H1 H2 H3. eexists. split; [unfold sim_write, ASSERT;
      destruct (Z.leb_spec lba max_lba); [|lia]; destruct (Z.ltb_spec 0 k); [|lia]; done|].
    split_and!; try done; [apply write_secs_wf; [done|lia]|by apply write_secs_ext].
  - intros c L n x pf size (Hw & He & Hl & Hb & Hn & Hr) H0 H1. unfold sim_malloc. destruct (ss_room x) as [|k] eqn:E.
    + eexists _, x. split; [done|]. left. split_and!; [done|left; lia|]. split_and!; try done. by rewrite E.
    + eexists _, _. split; [done|]. right. split.
      * destruct (L !! ss_next x) eqn:En; [|done]. apply Hb in En. lia.
      * split_and!; cbn; try done; [by rewrite Hl| |lia|destruct (1024 <? size); lia].
        intros b p. rewrite lookup_insert_Some. intros [[<- _]|[_ ?%Hb]]; lia.
  - intros c L n x pf b (Hw & He & Hl & Hb & Hn & Hr) Hp. eexists. split; [unfold sim_free; rewrite decide_True by (by rewrite Hl); done|].
    split_and!; cbn; try done; [by rewrite Hl|]. intros b' p. rewrite lookup_delete_Some. intros [_ ?%Hb]. done.
Defined.
