(* ===== verification/Inode.v ===== *)
(** * fs/inode.c and the bitmap operations of fs/file.c

    The 76 bytes of an inode lie at a fixed place of the inode table and may
    cross a sector boundary; inodes in use are shared in memory through
    [open_inodes].  [io_buf] is the contents of the caller's buffer. *)
From Stdlib Require Import String.
From S2P Require Import Prelude CString Bitmap Machine Ide DiskBytes FsBase.

(** ** fs/file.c: the bitmaps of the partition *)
Inductive FdBitMapType := INODE_BITMAP | BLOCK_BITMAP.

(** [n] bytes of memory from offset [off] of a block on. *)
Definition slice (l : list Z) (off n : Z) : outcome (list Z) :=
  if (0 <=? off) && (off + n <=? len l) then Ok (take (Z.to_nat n) (drop (Z.to_nat off) l)) else Fault.

Section code.
Context {S : Type} `{!Services S}.

(** [ide_read] into the buffer [io_buf] of the caller. *)
Definition read_into (io_buf : list Z) (lba n : Z) : F S (list Z) :=
  b ← disk_read lba n; if len b <=? len io_buf then mret (b ++ drop (length b) io_buf) else flift Fault.

Definition bitmap_of (p : Partition) (btmp : FdBitMapType) : BitMap :=
  match btmp with INODE_BITMAP => inode_bitmap p | BLOCK_BITMAP => block_bitmap p end.
Definition with_bitmap (p : Partition) (btmp : FdBitMapType) (m : BitMap) : Partition :=
  match btmp with INODE_BITMAP => set_inode_bitmap m p | BLOCK_BITMAP => set_block_bitmap m p end.

(** [bitmap_set] on a bitmap of the partition. *)
Definition part_bitmap_set (btmp : FdBitMapType) (idx value : Z) : F S unit :=
  part ← fget cur_part; m ← flift (bitmap_set (bitmap_of part btmp) idx value); set_part (with_bitmap part btmp m).

Definition inode_bitmap_alloc : F S Z :=
  part ← fget cur_part;
  bit_idx ← flift (bitmap_scan (inode_bitmap part) 1);
  if bit_idx =? -1 then mret (-1)
  else part_bitmap_set INODE_BITMAP bit_idx 1 ;; mret bit_idx.

Definition block_bitmap_alloc : F S Z :=
  part ← fget cur_part;
  bit_idx ← flift (bitmap_scan (block_bitmap part) 1);
  if bit_idx =? -1 then mret (-1)
  else part_bitmap_set BLOCK_BITMAP bit_idx 1 ;; mret (i32 (data_start_lba (sb part) + bit_idx)).

Definition bitmap_lba (sb : SuperBlock) (btmp : FdBitMapType) : Z :=
  match btmp with INODE_BITMAP => inode_bitmap_lba sb | BLOCK_BITMAP => block_bitmap_lba sb end.
Definition bitmap_sync (bit_idx : Z) (btmp : FdBitMapType) : F S unit :=
  part ← fget cur_part;
  let off_sec := bit_idx / 4096 in
  let off_size := u32 (off_sec * BLOCK_SIZE) in
  let sec_lba := u32 (bitmap_lba (sb part) btmp + off_sec) in
  bitmap_off ← flift (slice (bits (bitmap_of part btmp)) off_size 512);
  disk_write sec_lba bitmap_off 1.

(** ** fs/inode.c *)
Definition sizeof_INode : Z := 76.

(** The structure as bytes: little-endian words; [write_deny] is a byte and
    three of padding, the list tag two words. *)
Definition inode_words (n : INode) : list Z :=
  [i_no n; i_size n; i_open_cnts n; Z.b2z (write_deny n)] ++ i_sectors n ++ [NULL; NULL].
Definition enc_inode (n : INode) : list Z := words_bytes (inode_words n).
Definition dec_inode (b : list Z) : INode :=
  mkINode (word_at b 0) (word_at b 1) (word_at b 2) (negb (b@@12 =? 0)) (map (word_at b) (seq 4 13)).

Record INodePosition := mkPos { two_sec : bool; sec_lba : Z; off_size : Z }.

Definition inode_locate (inode_no : Z) : F S INodePosition :=
  part ← fget cur_part;
  fassert (inode_no <? 4096) ;;
  let inode_table_lba := inode_table_lba (sb part) in
  let inode_size := sizeof_INode in
  let off_size := u32 (inode_no * inode_size) in
  let off_sec := off_size / 512 in
  let off_size_in_sec := off_size mod 512 in
  let left_in_sec := u32 (512 - off_size_in_sec) in
  mret (mkPos (left_in_sec <? inode_size) (u32 (inode_table_lba + off_sec)) off_size_in_sec).
Definition pos_secs (p : INodePosition) : Z := if two_sec p then 2 else 1.

(** The inode as it goes to the disk. *)
Definition pure_inode (n : INode) : INode := set_write_deny false (set_open_cnts 0 n).

Definition inode_sync (inode : INode) (io_buf : list Z) : F S unit :=
  let inode_no := u8 (i_no inode) in
  inode_pos ← inode_locate inode_no;
  part ← fget cur_part;
  fassert (sec_lba inode_pos <=? u32 (start_lba part + part_sec_cnt part)) ;;
  let n := pos_secs inode_pos in
  inode_buf ← read_into io_buf (sec_lba inode_pos) n;
  inode_buf ← flift (memcpy inode_buf (Some (off_size inode_pos)) (enc_inode (pure_inode inode)) (Some 0) sizeof_INode);
  disk_write (sec_lba inode_pos) (take (Z.to_nat (512 * n)) inode_buf) n.

Definition malloc_kernal_inode : F S Z :=
  cur ← fget me;
  let cur_pagedir_bak := pgdir cur in
  fmod (λ s, set_me (set_pgdir NULL (me s)) s) ;;
  node ← fs_malloc sizeof_INode;
  fmod (λ s, set_me (set_pgdir cur_pagedir_bak (me s)) s) ;;
  mret node.

(** The walk over the inodes that are open. *)
Fixpoint find_open (inode_no : Z) (elems : list Z) : F S (option Z) :=
  match elems with
  | [] => mret None
  | elem :: elems =>
      inode_found ← ld_inode elem;
      if i_no inode_found =? inode_no then mret (Some elem) else find_open inode_no elems
  end.

Definition inode_open (inode_no : Z) : F S Z :=
  part ← fget cur_part;
  found ← find_open inode_no (open_inodes part);
  match found with
  | Some inode_found =>
      n ← ld_inode inode_found;
      st_inode inode_found (set_open_cnts (u32 (i_open_cnts n + 1)) n) ;; mret inode_found
  | None =>
      inode_pos ← inode_locate inode_no;
      inode_found ← malloc_kernal_inode;
      let n := pos_secs inode_pos in
      inode_buf ← fs_malloc (512 * n);
      b ← disk_read (sec_lba inode_pos) n;
      touch inode_buf ;;
      node ← flift (memcpy (replicate (Z.to_nat sizeof_INode) 0) (if inode_found =? NULL then None else Some 0) b (Some (off_size inode_pos)) sizeof_INode);
      part ← fget cur_part;
      set_part (set_open_inodes (inode_found :: open_inodes part) part) ;;
      fmod (λ s, set_inodes (<[inode_found := set_open_cnts 1 (dec_inode node)]> (inodes s)) s) ;;
      fs_free inode_buf ;;
      mret inode_found
  end.

(** [list_remove]: the element is in the list. *)
Definition unlink_inode (inode : Z) : F S unit :=
  part ← fget cur_part;
  if bool_decide (inode ∈ open_inodes part) then set_part (set_open_inodes (filter (.≠ inode) (open_inodes part)) part) else flift Fault.

Definition inode_close (inode : Z) : F S unit :=
  n ← ld_inode inode;
  let cnts := u32 (i_open_cnts n - 1) in
  st_inode inode (set_open_cnts cnts n) ;;
  if cnts =? 0 then
    unlink_inode inode ;;
    cur ← fget me;
    let cur_pagedir_bak := pgdir cur in
    fmod (λ s, set_me (set_pgdir NULL (me s)) s) ;;
    fs_free inode ;;
    fmod (λ s, set_inodes (delete inode (inodes s)) s) ;;
    fmod (λ s, set_me (set_pgdir cur_pagedir_bak (me s)) s)
  else mret ().

Fixpoint clear_sectors (n : nat) (sec_idx : Z) (l : list Z) : outcome (list Z) :=
  match n with O => mret l | Datatypes.S n => l ← wr l sec_idx 0; clear_sectors n (sec_idx + 1) l end.
Definition inode_init (inode_no : Z) (new_inode : INode) : outcome INode :=
  secs ← clear_sectors 13 0 (i_sectors new_inode);
  mret (mkINode inode_no 0 0 false secs).

Definition inode_delete (inode_no : Z) (io_buf : list Z) : F S unit :=
  fassert (inode_no <? 4096) ;;
  inode_pos ← inode_locate inode_no;
  part ← fget cur_part;
  fassert (sec_lba inode_pos <=? u32 (start_lba part + part_sec_cnt part)) ;;
  let n := pos_secs inode_pos in
  inode_buf ← read_into io_buf (sec_lba inode_pos) n;
  inode_buf ← flift (memset inode_buf (Some (off_size inode_pos)) 0 sizeof_INode);
  disk_write (sec_lba inode_pos) (take (Z.to_nat (512 * n)) inode_buf) n.

(** The addresses of all blocks of an inode, as every walk over a file or a
    directory collects them: 12 direct ones, and 128 from the indirect table. *)
Definition collect_blocks (n : INode) : F S (list Z) :=
  i12 ← flift (rd (i_sectors n) 12);
  if negb (i12 =? 0) then
    b ← disk_read i12 1; mret (take 12 (i_sectors n) ++ bytes_words 128 b)
  else mret (take 12 (i_sectors n) ++ replicate 128 0).

(** One block given back. *)
Definition release_block (lba : Z) : F S unit :=
  part ← fget cur_part;
  let block_bitmap_idx := u32 (lba - data_start_lba (sb part)) in
  fassert (0 <? block_bitmap_idx) ;;
  part_bitmap_set BLOCK_BITMAP block_bitmap_idx 0 ;;
  bitmap_sync block_bitmap_idx BLOCK_BITMAP.
Fixpoint release_blocks (all_blocks : list Z) : F S unit :=
  match all_blocks with
  | [] => mret ()
  | b :: all_blocks => (if negb (b =? 0) then release_block b else mret ()) ;; release_blocks all_blocks
  end.

Definition inode_release (inode_no : Z) : F S unit :=
  inode_to_del ← inode_open inode_no;
  n ← ld_inode inode_to_del;
  fassert (i_no n =? inode_no) ;;
  all_blocks ← collect_blocks n;
  i12 ← flift (rd (i_sectors n) 12);
  (if negb (i12 =? 0) then release_block i12 else mret ()) ;;
  release_blocks all_blocks ;;
  part_bitmap_set INODE_BITMAP inode_no 0 ;;
  bitmap_sync inode_no INODE_BITMAP ;;
  io_buf ← fs_malloc 1024;
  touch io_buf ;;
  inode_delete inode_no (replicate 1024 0) ;;
  fs_free io_buf ;;
  inode_close inode_to_del.
End code.

(** ** The inode table *)
Definition inode_addr (p : Partition) (no : Z) : Z := 512 * inode_table_lba (sb p) + 76 * no.
Definition disk_inode (c : disks) (p : Partition) (no : Z) : INode := dec_inode (dbytes c (my_dev p) (inode_addr p no) 76).

(** The table of 4096 inodes, 608 sectors, is inside the partition and inside
    the range of the driver. *)
Definition table_ok (p : Partition) : Prop :=
  0 ≤ inode_table_lba (sb p) ∧ inode_table_lba (sb p) + 608 ≤ start_lba p + part_sec_cnt p
  ∧ inode_table_lba (sb p) + 608 ≤ max_lba + 1 ∧ start_lba p + part_sec_cnt p < 2 ^ 32.

Record inode_wf (n : INode) : Prop := {
  iw_no : is_u32 (i_no n);
  iw_size : is_u32 (i_size n);
  iw_secs : Forall is_u32 (i_sectors n);
  iw_len : length (i_sectors n) = 13%nat;
}.

Lemma enc_inode_len n : length (i_sectors n) = 13%nat → len (enc_inode n) = 76.
Proof. intros H. unfold len, enc_inode. rewrite length_words_bytes. unfold inode_words. rewrite !length_app, H. done. Qed.

Lemma dec_enc_inode n : inode_wf n → is_u32 (i_open_cnts n) → dec_inode (enc_inode n) = n.
Proof.
  intros [H1 H2 H3 H4] Hc. unfold dec_inode, enc_inode.
  assert (∀ i v, inode_words n !! i = Some v → is_u32 v → word_at (words_bytes (inode_words n)) i = v) as Hw
    by exact (word_at_words (inode_words n)).
  rewrite (Hw 0%nat (i_no n)), (Hw 1%nat (i_size n)), (Hw 2%nat (i_open_cnts n)) by done.
  assert ((words_bytes (inode_words n))@@12 = Z.b2z (write_deny n)) as ->.
  { unfold inode_words. simpl. by destruct (write_deny n). }
  assert (map (word_at (words_bytes (inode_words n))) (seq 4 13) = i_sectors n) as ->.
  { apply list_eq. intros i. rewrite list_lookup_fmap. destruct (i_sectors n !! i) as [v|] eqn:E.
    - pose proof (lookup_lt_Some _ _ _ E). rewrite lookup_seq_lt by lia. simpl. f_equal. apply Hw.
      + unfold inode_words. simpl. by rewrite lookup_app_l by lia.
      + by eapply Forall_lookup_1.
    - apply lookup_ge_None in E. by rewrite lookup_seq_ge by lia. }
  destruct n as [? ? ? [] ?]; done.
Qed.

Lemma pure_inode_wf n : inode_wf n → inode_wf (pure_inode n).
Proof. intros [? ? ? ?]. by split. Qed.
Lemma dec_enc_pure n : inode_wf n → dec_inode (enc_inode (pure_inode n)) = pure_inode n.
Proof. intros H. apply dec_enc_inode; [by apply pure_inode_wf|]. simpl. unfold is_u32. lia. Qed.

Section table.
Context {S : Type} `{!Services S}.
Implicit Types s : fs S.

(** Where an inode lies. *)
Definition pos_ok (p : Partition) (no : Z) (pos : INodePosition) : Prop :=
  512 * sec_lba pos + off_size pos = inode_addr p no ∧ 0 ≤ off_size pos ∧ off_size pos + 76 ≤ 512 * pos_secs pos
  ∧ inode_table_lba (sb p) ≤ sec_lba pos ∧ sec_lba pos + pos_secs pos ≤ inode_table_lba (sb p) + 608 ∧ 1 ≤ pos_secs pos ≤ 2.

(** The sectors an inode lies in. *)
Definition inode_secs (no : Z) : Z := if 512 - no * 76 mod 512 <? 76 then 2 else 1.
Lemma inode_secs_le no : 1 ≤ inode_secs no ≤ 2.
Proof. unfold inode_secs. destruct (_ <? _); lia. Qed.

Lemma inode_locate_ok s no : table_ok (cur_part s) → 0 ≤ no < 4096 →
  fwp (inode_locate no) s (λ pos s', s' = s ∧ pos_ok (cur_part s) no pos ∧ pos_secs pos = inode_secs no).
Proof.
  intros (T1 & T2 & T3 & T4) Hn. unfold inode_locate. repeat fstep; [lia|]. split; [done|].
  unfold pos_ok, inode_addr, pos_secs, inode_secs, sizeof_INode in *. cbn [two_sec sec_lba off_size]. rewrite max_lba_eq in T3.
  rewrite (u32_id (no * 76)) by lia. rewrite (u32_id (512 - _)) by (Z.div_mod_to_equations; lia).
  rewrite u32_id by (Z.div_mod_to_equations; lia). split; [|done].
  destruct (Z.ltb_spec (512 - no * 76 mod 512) 76); Z.div_mod_to_equations; lia.
Qed.

Lemma inode_addr_disjoint p no no' : 0 ≤ no → 0 ≤ no' → no ≠ no' →
  inode_addr p no' + 76 ≤ inode_addr p no ∨ inode_addr p no + 76 ≤ inode_addr p no'.
Proof. unfold inode_addr. lia. Qed.

(** Read the sectors of an inode, change its bytes, write them back. *)
Lemma rmw_ok c L m s no (pos : INodePosition) io_buf (l : list Z) (f : list Z → outcome (list Z)) :
  fs_at c L m s → table_ok (cur_part s) → pos_ok (cur_part s) no pos → len l = 76 → 512 * pos_secs pos ≤ len io_buf →
  (∀ b, 512 * pos_secs pos ≤ len b →
     f b = Ok (take (Z.to_nat (off_size pos)) b ++ l ++ drop (Z.to_nat (off_size pos + 76)) b)) →
  fwp (b ← read_into io_buf (sec_lba pos) (pos_secs pos);
       buf ← flift (f b);
       disk_write (sec_lba pos) (take (Z.to_nat (512 * pos_secs pos)) buf) (pos_secs pos)) s
    (λ _ s', ∃ c', served c' L m s s' ∧ patched c (my_dev (cur_part s)) (inode_addr (cur_part s) no) l c').
Proof.
  intros Hat (T1 & T2 & T3 & T4) (P1 & P2 & P3 & P4 & P5 & P6) Hl Hio Hf. pose proof (fs_at_wf _ _ _ _ Hat) as Hw.
  fstep. unfold read_into. fstep. eapply fwp_read; [done|lia|lia|lia|]. intros s1 (x & -> & Hat1).
  set (dev := my_dev (cur_part s)). set (b := read_secs c dev (sec_lba pos) (Z.to_nat (pos_secs pos))).
  assert (len b = 512 * pos_secs pos) as Hb by (unfold b; rewrite len_read_secs by done; lia).
  destruct (Z.leb_spec (len b) (len io_buf)); [|lia]. do 2 fstep.
  rewrite Hf by (rewrite len_app; pose proof (len_nonneg (drop (length b) io_buf)); lia). apply fwp_lift. cbn [returns].
  assert (length b = Z.to_nat (512 * pos_secs pos)) as Hb' by (unfold len in Hb; lia).
  assert (take (Z.to_nat (512 * pos_secs pos)) (take (Z.to_nat (off_size pos)) (b ++ drop (length b) io_buf) ++ l
      ++ drop (Z.to_nat (off_size pos + 76)) (b ++ drop (length b) io_buf))
    = take (Z.to_nat (off_size pos)) b ++ l ++ drop (Z.to_nat (off_size pos + len l)) b) as ->.
  { rewrite Hl, (take_app_le b), (drop_app_le b) by lia. rewrite !app_assoc. rewrite take_app_length'; [done|].
    rewrite !length_app, length_take, length_drop. unfold len in Hl. lia. }
  eapply fwp_write; [done|lia|lia|lia| |].
  { rewrite !len_app, len_take, len_drop by lia. lia. }
  intros s2 (x2 & -> & Hat2). eexists. split; [by exists x2|]. cbn. fold dev. rewrite <- P1.
  apply splice_patched; [done|lia|]. rewrite Z2Nat.id by lia. lia.
Qed.

(** The caller's buffer has to hold the sectors of the inode. *)
Lemma inode_sync_buf_ok c L m s n io_buf : fs_at c L m s → table_ok (cur_part s) → inode_wf n → 512 * inode_secs (u8 (i_no n)) ≤ len io_buf →
  fwp (inode_sync n io_buf) s (λ _ s', ∃ c', served c' L m s s'
    ∧ patched c (my_dev (cur_part s)) (inode_addr (cur_part s) (u8 (i_no n))) (enc_inode (pure_inode n)) c').
Proof.
  intros Hat Ht Hn Hio. unfold inode_sync. fstep. pose proof (u8_range (i_no n)).
  eapply fwp_mono; [apply inode_locate_ok; [done|lia]|]. intros pos s' (-> & Hpos & Hsecs). do 4 fstep.
  { destruct Hpos as (_ & _ & _ & ? & ? & ?), Ht as (? & ? & ? & ?). apply Z.leb_le. rewrite u32_id; lia. }
  eapply (rmw_ok _ _ _ _ _ pos io_buf _ (λ b, memcpy b _ _ _ _)); try done; [by apply enc_inode_len, pure_inode_wf|lia|]. intros b Hb.
  destruct Hpos as (_ & ? & ? & _). replace sizeof_INode with (len (enc_inode (pure_inode n))) by by apply enc_inode_len, pure_inode_wf.
  rewrite memcpy_splice by (rewrite ?enc_inode_len by (by apply pure_inode_wf); lia).
  by rewrite enc_inode_len by by apply pure_inode_wf.
Qed.
Lemma inode_sync_ok c L m s n io_buf : fs_at c L m s → table_ok (cur_part s) → inode_wf n → 1024 ≤ len io_buf →
  fwp (inode_sync n io_buf) s (λ _ s', ∃ c', served c' L m s s'
    ∧ patched c (my_dev (cur_part s)) (inode_addr (cur_part s) (u8 (i_no n))) (enc_inode (pure_inode n)) c').
Proof. intros. apply inode_sync_buf_ok; try done. pose proof (inode_secs_le (u8 (i_no n))). lia. Qed.

Lemma inode_delete_ok c L m s no io_buf : fs_at c L m s → table_ok (cur_part s) → 0 ≤ no < 4096 → 1024 ≤ len io_buf →
  fwp (inode_delete no io_buf) s (λ _ s', ∃ c', served c' L m s s'
    ∧ patched c (my_dev (cur_part s)) (inode_addr (cur_part s) no) (replicate 76 0) c').
Proof.
  intros Hat Ht Hn Hio. unfold inode_delete. fstep. fstep; [lia|]. fstep.
  eapply fwp_mono; [by apply inode_locate_ok|]. intros pos s' (-> & Hpos & Hsecs). do 4 fstep.
  { destruct Hpos as (_ & _ & _ & ? & ? & ?), Ht as (? & ? & ? & ?). apply Z.leb_le. rewrite u32_id; lia. }
  pose proof (inode_secs_le no). eapply (rmw_ok _ _ _ _ _ pos io_buf _ (λ b, memset b _ _ _)); try done; [lia|]. intros b Hb. destruct Hpos as (_ & ? & ? & _). by rewrite memset_splice by (unfold sizeof_INode; lia).
Qed.

(** A patched inode, and the others. *)
Lemma patched_inode c c' p no l : patched c (my_dev p) (inode_addr p no) l c' → len l = 76 → 0 ≤ no →
  disk_inode c' p no = dec_inode l ∧ ∀ no', 0 ≤ no' → no' ≠ no → disk_inode c' p no' = disk_inode c p no'.
Proof.
  intros Hp Hl Hn. split; [unfold disk_inode; by rewrite (patched_in _ _ _ _ _ _ Hp)|]. intros no' Hn' Hne.
  unfold disk_inode. rewrite (patched_out _ _ _ _ _ _ _ _ Hp); [done|]. right. rewrite Hl.
  change (Z.of_nat 76) with 76. pose proof (inode_addr_disjoint p no no'). lia.
Qed.

(** C21: [inode_sync] for inode numbers below 256 (for others see
    [inode_sync_truncates]) and a buffer of at least 1024 bytes.  It writes the inode, with the
    members that only live in memory cleared, to its slot of the inode table,
    also when the slot crosses a sector boundary; every other inode and every
    byte outside the slot stay as they were. *)
Theorem inode_sync_correct c L m s n io_buf :
  fs_at c L m s → table_ok (cur_part s) → inode_wf n → 1024 ≤ len io_buf → i_no n < 256 →
  ∃ s' c', inode_sync n io_buf s = Ok ((), s') ∧ served c' L m s s'
    ∧ disk_inode c' (cur_part s) (i_no n) = pure_inode n
    ∧ (∀ no, 0 ≤ no → no ≠ i_no n → disk_inode c' (cur_part s) no = disk_inode c (cur_part s) no)
    ∧ ∀ dev x, (dev = my_dev (cur_part s) → x < inode_addr (cur_part s) (i_no n) ∨ inode_addr (cur_part s) (i_no n) + 76 ≤ x) →
        dbyte c' dev x = dbyte c dev x.
Proof.
  intros Hat Ht Hn Hio Hno. destruct (fwp_inv _ _ _ (inode_sync_ok c L m s n io_buf Hat Ht Hn Hio)) as ([] & s' & Hrun & c' & Hs & Hp).
  pose proof (iw_no _ Hn) as [H0 _]. pose proof (iw_len _ (pure_inode_wf _ Hn)) as Hl. rewrite u8_id in Hp by lia.
  destruct (patched_inode _ _ _ _ _ Hp (enc_inode_len _ Hl) H0) as [Hi Ho]. exists s', c'. split_and!; try done.
  - by rewrite Hi, dec_enc_pure.
  - intros dev x Hx. rewrite (proj2 Hp), enc_inode_len by done. rewrite decide_False; [done|]. intros [-> ?]. specialize (Hx eq_refl). lia.
Qed.

(** [inode_sync] keeps only the low byte of the inode number.  For a number
    from 256 on, which the inode bitmap of 4096 bits does hand out, the inode
    overwrites the slot of the number modulo 256 and its own slot keeps its old
    contents. *)
Theorem inode_sync_truncates c L m s n io_buf :
  fs_at c L m s → table_ok (cur_part s) → inode_wf n → 1024 ≤ len io_buf → 256 ≤ i_no n < 4096 →
  ∃ s' c', inode_sync n io_buf s = Ok ((), s') ∧ served c' L m s s'
    ∧ disk_inode c' (cur_part s) (i_no n mod 256) = pure_inode n
    ∧ disk_inode c' (cur_part s) (i_no n) = disk_inode c (cur_part s) (i_no n).
Proof.
  intros Hat Ht Hn Hio Hno. destruct (fwp_inv _ _ _ (inode_sync_ok c L m s n io_buf Hat Ht Hn Hio)) as ([] & s' & Hrun & c' & Hs & Hp).
  pose proof (u8_range (i_no n)). change (i_no n mod 256) with (u8 (i_no n)).
  destruct (patched_inode _ _ _ _ _ Hp (enc_inode_len _ (iw_len _ (pure_inode_wf _ Hn))) ltac:(lia)) as [Hi Ho].
  exists s', c'. split_and!; try done; [by rewrite Hi, dec_enc_pure|apply Ho; lia].
Qed.
End table.

(** ** Open inodes *)
Section opened.
Context {S : Type} `{!Services S}.
Implicit Types s : fs S.

(** The inodes in use: in memory, allocated in the kernel's pool, once each. *)
Record open_ok (L : gmap Z PoolType) s : Prop := {
  oo_nodup : NoDup (open_inodes (cur_part s));
  oo_inode a : a ∈ open_inodes (cur_part s) →
    ∃ n, inodes s !! a = Some n ∧ inode_wf n ∧ 1 ≤ i_open_cnts n < 2 ^ 32 ∧ L !! a = Some PF_KERNEL;
  oo_distinct a b n m : a ∈ open_inodes (cur_part s) → b ∈ open_inodes (cur_part s) →
    inodes s !! a = Some n → inodes s !! b = Some m → i_no n = i_no m → a = b;
}.

(** The open inode with number [no], if any. *)
Definition is_open s (no a : Z) (n : INode) : Prop := a ∈ open_inodes (cur_part s) ∧ inodes s !! a = Some n ∧ i_no n = no.
Definition not_open s (no : Z) : Prop := ∀ a n, ¬ is_open s no a n.

Lemma find_open_ok s no l : (∀ a, a ∈ l → is_Some (inodes s !! a)) →
  fwp (find_open no l) s (λ r s', s' = s ∧ match r with
    | Some a => a ∈ l ∧ ∃ n, inodes s !! a = Some n ∧ i_no n = no
    | None => ∀ a n, a ∈ l → inodes s !! a = Some n → i_no n ≠ no end).
Proof.
  induction l as [|e l IH]; intros Hl; cbn [find_open]; [apply fwp_ret; split; [done|]; by intros ? ? ?%not_elem_of_nil|].
  destruct (Hl e) as [n Hn]; [by left|]. fstep. unfold ld_inode. repeat fstep. rewrite Hn. apply fwp_lift. cbn.
  destruct (Z.eqb_spec (i_no n) no) as [E|E].
  - apply fwp_ret. split; [done|]. split; [by left|eauto].
  - eapply fwp_mono; [apply IH; intros; apply Hl; by right|]. intros r s' [-> Hr]. split; [done|]. destruct r as [a|].
    + destruct Hr as [? ?]. split; [by right|done].
    + intros a m [->|Ha]%elem_of_cons Hm; [congruence|by eapply Hr].
Qed.

(** The changes of the inode layer: services, open inodes, inodes in memory. *)
Definition inode_change s s' : Prop :=
  ∃ x o i, s' = set_sv x (set_inodes i (set_cur_part (set_open_inodes o (cur_part s)) s)).

Lemma ld_inode_ok s a n Q : inodes s !! a = Some n → Q n s → fwp (ld_inode a) s Q.
Proof. intros H HQ. unfold ld_inode. repeat fstep. by rewrite H. Qed.
Lemma st_inode_ok s a n m Q : inodes s !! a = Some n → Q () (set_inodes (<[a := m]> (inodes s)) s) → fwp (st_inode a m) s Q.
Proof. intros H HQ. unfold st_inode. fstep. eapply ld_inode_ok; [done|]. by fstep. Qed.

(** The services do not see the rest of the state. *)
Lemma fs_at_same c L m s s' : fs_at c L m s → sv s' = sv s → my_dev (cur_part s') = my_dev (cur_part s) → fs_at c L m s'.
Proof. unfold fs_at. by intros ? -> ->. Qed.

Lemma malloc_kernal_inode_ok c L k s Q : fs_at c L (Datatypes.S k) s →
  (∀ r s', r ≠ NULL → L !! r = None → served c (<[r := PF_KERNEL]> L) k s s' → Q r s') → fwp malloc_kernal_inode s Q.
Proof.
  intros Hat HQ. unfold malloc_kernal_inode. do 5 fstep.
  eapply (fwp_malloc c L k); [by eapply fs_at_same|unfold sizeof_INode; lia|].
  intros r s' Hr HL (x & -> & Hx). repeat fstep. apply HQ; [done|done|]. exists x. cbn.
  assert (set_pgdir (pgdir (me s)) (set_pgdir NULL (me s)) = me s) as E by by destruct (me s).
  split; [by unfold set_me, set_sv; cbn; rewrite E|]. by eapply fs_at_same.
Qed.

(** What [inode_open] returns: the inode at [a] is the one in use, with one more
    user, or the one on the disk, with one. *)
Definition open_result (c : disks) (L L' : gmap Z PoolType) s s' (no a : Z) : Prop :=
  (∃ n, is_open s no a n ∧ L' = L ∧ open_inodes (cur_part s') = open_inodes (cur_part s)
      ∧ inodes s' = <[a := set_open_cnts (i_open_cnts n + 1) n]> (inodes s))
  ∨ not_open s no ∧ L !! a = None ∧ L' = <[a := PF_KERNEL]> L ∧ open_inodes (cur_part s') = a :: open_inodes (cur_part s)
      ∧ inodes s' = <[a := set_open_cnts 1 (disk_inode c (cur_part s) no)]> (inodes s).

Lemma open_ok_count L s a n k : open_ok L s → inodes s !! a = Some n → 1 ≤ k < 2 ^ 32 →
  open_ok L (set_inodes (<[a := set_open_cnts k n]> (inodes s)) s).
Proof.
  intros [H1 H2 H3] Ha Hk. split; cbn; [done| |].
  - intros b Hb. destruct (H2 b Hb) as (m & Hm & Hw & ? & ?). destruct (decide (a = b)) as [<-|Hne].
    + rewrite Ha in Hm. simplify_eq. eexists. rewrite lookup_insert_eq. split; [done|]. split; [destruct Hw; by split|]. by cbn.
    + rewrite lookup_insert_ne by done. eauto.
  - intros b b' m m' Hb Hb'. rewrite !lookup_insert_Some. intros [[<- <-]|[? ?]] [[<- <-]|[? ?]]; cbn; eauto.
Qed.

Lemma open_ok_new L s a n : open_ok L s → L !! a = None → inode_wf n → 1 ≤ i_open_cnts n < 2 ^ 32 →
  not_open s (i_no n) → (a ∉ open_inodes (cur_part s)) ∧
  open_ok (<[a := PF_KERNEL]> L)
    (set_inodes (<[a := n]> (inodes s)) (set_cur_part (set_open_inodes (a :: open_inodes (cur_part s)) (cur_part s)) s)).
Proof.
  intros [H1 H2 H3] Ha Hw Hk Hno.
  assert (a ∉ open_inodes (cur_part s)) as Hna by (intros Hin; destruct (H2 a Hin) as (? & _ & _ & _ & ?); congruence).
  split; [done|]. split; cbn.
  - by apply NoDup_cons.
  - intros b [->|Hb]%elem_of_cons; [rewrite !lookup_insert_eq; eauto|]. rewrite !lookup_insert_ne by set_solver. eauto.
  - assert (∀ b m, b ∈ open_inodes (cur_part s) → inodes s !! b = Some m → i_no m ≠ i_no n) as Hne
      by (intros b m Hb Hm E; by eapply (Hno b m)).
    intros b b' m m' Hb Hb'. rewrite !lookup_insert_Some. intros [[<- <-]|[? ?]] [[<- <-]|[? ?]]; try done.
    + intros E. destruct (Hne b' m'); [set_solver|done|done].
    + intros E. destruct (Hne b m); [set_solver|done|done].
    + apply H3; set_solver.
Qed.

Lemma inode_open_ok c L k s no : fs_at c L (2 + k) s → table_ok (cur_part s) → open_ok L s → 0 ≤ no < 4096 →
  (∀ a n, is_open s no a n → i_open_cnts n + 1 < 2 ^ 32) →
  (not_open s no → i_no (disk_inode c (cur_part s) no) = no ∧ inode_wf (disk_inode c (cur_part s) no)) →
  fwp (inode_open no) s (λ a s', ∃ L', inode_change s s' ∧ fs_at c L' k s' ∧ open_ok L' s' ∧ open_result c L L' s s' no a).
Proof.
  intros Hat Ht Ho Hno Hcnt Hdisk. pose proof (fs_at_wf _ _ _ _ Hat) as Hw. unfold inode_open. do 3 fstep.
  eapply fwp_mono; [apply find_open_ok; intros a Ha; destruct (oo_inode _ _ Ho a Ha) as (? & ? & _); eauto|].
  intros [a|] s0 [-> Hr].
  - destruct Hr as (Ha & n & Hn & Hi). fstep. eapply ld_inode_ok; [done|]. fstep. eapply st_inode_ok; [done|]. fstep.
    destruct (oo_inode _ _ Ho a Ha) as (n' & Hn' & _ & Hk & _). rewrite Hn in Hn'. simplify_eq.
    pose proof (Hcnt a n' ltac:(done)) as Hc. rewrite u32_id by lia. exists L. split_and!.
    + eexists (sv s), (open_inodes (cur_part s)), _. unfold set_inodes, set_sv, set_cur_part. cbn. f_equal. by destruct (cur_part s).
    + eapply fs_at_same; [|done|done]. destruct Hat as [Hat ?]. split; [eapply sv_less; [exact Hat|lia]|done].
    + apply open_ok_count; [done|done|lia].
    + left. exists n'. by split_and!.
  - assert (not_open s no) as Hnot by (intros a n (? & ? & ?); by eapply Hr). specialize (Hdisk Hnot) as [Hi Hwf].
    fstep. eapply fwp_mono; [by apply inode_locate_ok|]. intros pos s1 (-> & (P1 & P2 & P3 & P4 & P5 & P6) & _). fstep.
    eapply (malloc_kernal_inode_ok c L (1 + k)); [done|]. intros r s1 Hr0 HrL (x1 & -> & Hat1). fstep.
    eapply (fwp_malloc c _ k); [done|lia|]. intros buf s2 Hb0 HbL (x2 & -> & Hat2). fstep.
    destruct Ht as (T1 & T2 & T3 & T4).
    eapply fwp_read; [done|lia|lia|lia|]. intros s3 (x3 & -> & Hat3). cbn [cur_part set_sv].
    fstep. unfold touch. destruct (Z.eqb_spec buf NULL) as [|_]; [done|]. fstep. fstep.
    destruct (Z.eqb_spec r NULL) as [|_]; [done|].
    rewrite memcpy_slice by (unfold sizeof_INode; rewrite ?len_read_secs by done; lia). apply fwp_lift. cbn [returns].
    rewrite slice_read by (done || (unfold sizeof_INode; lia)). rewrite Z2Nat.id, P1 by lia.
    change (dec_inode _) with (disk_inode c (cur_part s) no). do 7 fstep.
    set (n := set_open_cnts 1 (disk_inode c (cur_part s) no)).
    assert (buf ≠ r) as Hbr by (intros ->; by rewrite lookup_insert_eq in HbL).
    eapply (fwp_free c (<[buf := pool_me s]> (<[r := PF_KERNEL]> L)) k); [by eapply fs_at_same|apply lookup_insert_eq|].
    intros s4 (x4 & -> & Hat4). fstep. rewrite delete_insert_eq in Hat4.
    rewrite delete_id in Hat4 by done.
    exists (<[r := PF_KERNEL]> L). split_and!.
    + by eexists x4, _, _.
    + done.
    + destruct (open_ok_new L s r n Ho HrL) as [_ [Hn1 Hn2 Hn3]]; [destruct Hwf; by split|done|change (not_open s (i_no (disk_inode c (cur_part s) no))); by rewrite Hi|].
      split; done.
    + right. by split_and!.
Qed.

(** What [inode_close] leaves: one user less, or the inode gone. *)
Definition close_result (L L' : gmap Z PoolType) s s' (a : Z) (n : INode) : Prop :=
  (1 < i_open_cnts n ∧ L' = L ∧ open_inodes (cur_part s') = open_inodes (cur_part s)
     ∧ inodes s' = <[a := set_open_cnts (i_open_cnts n - 1) n]> (inodes s))
  ∨ i_open_cnts n = 1 ∧ L' = delete a L ∧ open_inodes (cur_part s') = filter (.≠ a) (open_inodes (cur_part s))
     ∧ inodes s' = delete a (inodes s).

Lemma open_ok_drop L s a : open_ok L s →
  open_ok (delete a L)
    (set_inodes (delete a (inodes s)) (set_cur_part (set_open_inodes (filter (.≠ a) (open_inodes (cur_part s))) (cur_part s)) s)).
Proof.
  intros [H1 H2 H3]. split; cbn.
  - by apply NoDup_filter.
  - intros b [Hne Hb]%list_elem_of_filter. rewrite !lookup_delete_ne by done. by apply H2.
  - intros b b' m m' [? Hb]%list_elem_of_filter [? Hb']%list_elem_of_filter. rewrite !lookup_delete_ne by done. by apply H3.
Qed.

Lemma inode_close_ok c L k s a n : fs_at c L k s → open_ok L s → a ∈ open_inodes (cur_part s) → inodes s !! a = Some n →
  fwp (inode_close a) s (λ _ s', ∃ L', inode_change s s' ∧ fs_at c L' k s' ∧ open_ok L' s' ∧ close_result L L' s s' a n).
Proof.
  intros Hat Ho Ha Hn. destruct (oo_inode _ _ Ho a Ha) as (n' & Hn' & Hw & Hc & HL). rewrite Hn in Hn'. simplify_eq.
  unfold inode_close. fstep. eapply ld_inode_ok; [done|]. fstep. eapply st_inode_ok; [done|]. rewrite u32_id by lia.
  destruct (Z.eqb_spec (i_open_cnts n' - 1) 0) as [E|E].
  - fstep. unfold unlink_inode. do 2 fstep. cbn [cur_part set_inodes]. rewrite bool_decide_true by done. do 6 fstep.
    eapply (fwp_free c L k); [by eapply fs_at_same|done|]. intros s1 (x & -> & Hx). do 3 fstep.
    exists (delete a L). cbn. rewrite delete_insert_eq.
    assert (set_pgdir (pgdir (me s)) (set_pgdir NULL (me s)) = me s) as Em by by destruct (me s).
    split_and!.
    + unfold set_me, set_sv, set_inodes, set_cur_part. cbn. rewrite Em. by eexists x, _, _.
    + by eapply fs_at_same.
    + destruct (open_ok_drop L s a Ho). by split.
    + right. split_and!; [lia|done..].
  - fstep. exists L. split_and!.
    + eexists (sv s), (open_inodes (cur_part s)), _. unfold set_inodes, set_sv, set_cur_part. cbn. f_equal. by destruct (cur_part s).
    + by eapply fs_at_same.
    + apply open_ok_count; [done|done|lia].
    + left. split_and!; [lia|done..].
Qed.

(** C20: Inodes are shared.  [inode_open] returns the inode already in memory
    with one more user, at the same address, or reads it from its slot on the
    disk into new kernel memory and enters it with one user.  [inode_close]
    takes the user away again and leaves the table of open inodes, the inodes
    in memory and the allocated blocks as they were before; the buffers of the
    call are given back in the pool of the caller. *)
Theorem inode_open_close c L k s no :
  fs_at c L (2 + k) s → table_ok (cur_part s) → open_ok L s → 0 ≤ no < 4096 →
  (∀ a n, is_open s no a n → i_open_cnts n + 1 < 2 ^ 32) →
  (not_open s no → i_no (disk_inode c (cur_part s) no) = no ∧ inode_wf (disk_inode c (cur_part s) no)) →
  ∃ a s1 L1 s2 L2, inode_open no s = Ok (a, s1) ∧ fs_at c L1 k s1 ∧ open_ok L1 s1 ∧ open_result c L L1 s s1 no a
    ∧ inode_close a s1 = Ok ((), s2) ∧ fs_at c L2 k s2 ∧ inode_change s s2 ∧ L2 = L
    ∧ open_inodes (cur_part s2) = open_inodes (cur_part s)
    ∧ ∀ b, b ∈ open_inodes (cur_part s) → inodes s2 !! b = inodes s !! b.
Proof.
  intros Hat Ht Ho Hno Hc Hd.
  destruct (fwp_inv _ _ _ (inode_open_ok c L k s no Hat Ht Ho Hno Hc Hd)) as (a & s1 & E1 & L1 & Hch & Hat1 & Ho1 & Hr).
  assert (∃ n1, a ∈ open_inodes (cur_part s1) ∧ inodes s1 !! a = Some n1) as (n1 & Ha1 & Hn1).
  { destruct Hr as [(n & (? & ? & ?) & _ & Eo & Ei)|(_ & _ & _ & Eo & Ei)]; rewrite Eo, Ei, lookup_insert_eq; eexists; (split; [|done]).
    - done.
    - by left. }
  destruct (fwp_inv _ _ _ (inode_close_ok c L1 k s1 a n1 Hat1 Ho1 Ha1 Hn1)) as ([] & s2 & E2 & L2 & Hch2 & Hat2 & _ & Hr2).
  exists a, s1, L1, s2, L2. do 4 (split; [done|]). do 2 (split; [done|]).
  split; [destruct Hch as (? & ? & ? & ->), Hch2 as (? & ? & ? & ->); by eexists _, _, _|].
  destruct Hr as [(n & (Ha & Hn & Hi) & -> & Eo & Ei)|(Hnot & HLa & -> & Eo & Ei)]; rewrite Ei, lookup_insert_eq in Hn1; simplify_eq.
  - destruct (oo_inode _ _ Ho a Ha) as (m & Hm & _ & Hk & _). rewrite Hn in Hm. simplify_eq.
    destruct Hr2 as [(_ & -> & Eo2 & Ei2)|(Hx & _)]; [|cbn in Hx; lia]. split_and!; [done|by rewrite Eo2|].
    intros b _. rewrite Ei2, Ei, insert_insert_eq. cbn. replace (set_open_cnts _ _) with m.
    + destruct (decide (a = b)) as [<-|]; [by rewrite lookup_insert_eq|by rewrite lookup_insert_ne].
    + destruct m. unfold set_open_cnts. cbn. f_equal. lia.
  - destruct Hr2 as [(Hx & _)|(_ & -> & Eo2 & Ei2)]; [cbn in Hx; lia|].
    assert (a ∉ open_inodes (cur_part s)) as Hna by (intros Hin; destruct (oo_inode _ _ Ho a Hin) as (? & _ & _ & _ & ?); congruence).
    split_and!; [by rewrite delete_insert_id|rewrite Eo2, Eo, filter_cons_False by (by intros ?); apply filter_all; set_solver|].
    intros b Hb. by rewrite Ei2, Ei, lookup_delete_ne, lookup_insert_ne by set_solver.
Qed.
End opened.
