(* ===== verification/Path.v ===== *)
(** * fs/fs.c: taking paths apart

    [path_parse] copies the first component of a path to a name buffer and
    returns the rest; [path_depth_cnt] counts components with it.  The
    reference is [components], the non-empty parts between slashes. *)
From S2P Require Import Prelude CString DiskBytes FsBase.

Definition slash : Z := 47.

(** The loop that skips repeated slashes. *)
Fixpoint skip_slashes (fuel : nat) (buf : list Z) (pathname : Z) : outcome Z :=
  match fuel with
  | O => Spin
  | S fuel => c ← rd buf (pathname + 1); if c =? slash then skip_slashes fuel buf (pathname + 1) else Ok (pathname + 1)
  end.

Fixpoint copy_name (fuel : nat) (buf : list Z) (pathname : Z) (name : list Z) (name_store : Z) : outcome (Z * list Z) :=
  match fuel with
  | O => Spin
  | S fuel =>
      c ← rd buf pathname;
      if negb (c =? slash) && negb (c =? 0) then
        name ← wr name name_store c; copy_name fuel buf (pathname + 1) name (name_store + 1)
      else Ok (pathname, name)
  end.

(** [None] is the NULL that ends a path. *)
Definition path_parse (buf : list Z) (pathname : Z) (name : list Z) : outcome (ptr * list Z) :=
  c ← rd buf pathname;
  pathname ← (if c =? slash then skip_slashes (walk_fuel buf) buf pathname else Ok pathname);
  '(pathname, name) ← copy_name (walk_fuel buf) buf pathname name 0;
  c ← rd buf pathname;
  mret (if c =? 0 then None else Some pathname, name).

Fixpoint depth_loop (fuel : nat) (buf : list Z) (p : ptr) (name : list Z) (depth : Z) : outcome Z :=
  match fuel with
  | O => Spin
  | S fuel =>
      n0 ← rd name 0;
      if negb (n0 =? 0) then
        let depth := u32 (depth + 1) in
        name ← memset name (Some 0) 0 MAX_FILE_NAME_LEN;
        match p with
        | Some p => '(p, name) ← path_parse buf p name; depth_loop fuel buf p name depth
        | None => depth_loop fuel buf None name depth
        end
      else Ok depth
  end.
(** [name] is not initialised: [junk] is what the stack holds there. *)
Definition path_depth_cnt (junk buf : list Z) (pathname : ptr) : outcome Z :=
  p ← nonnull pathname;
  '(p, name) ← path_parse buf p junk;
  depth ← depth_loop (S (walk_fuel buf)) buf p name 0;
  mret (i32 depth).

(** ** The reference *)
Fixpoint span_name (s : list Z) : list Z * list Z :=
  match s with
  | [] => ([], [])
  | c :: s' => if c =? slash then ([], s) else let '(n, r) := span_name s' in (c :: n, r)
  end.
Fixpoint drop_slashes (s : list Z) : list Z :=
  match s with c :: s' => if c =? slash then drop_slashes s' else s | [] => [] end.
Fixpoint components_aux (fuel : nat) (s : list Z) : list (list Z) :=
  match fuel with
  | O => []
  | S fuel =>
      match drop_slashes s with
      | [] => []
      | s => let '(n, r) := span_name s in n :: components_aux fuel r
      end
  end.
(** The non-empty names between the slashes of a path. *)
Definition components (s : list Z) : list (list Z) := components_aux (length s) s.


Lemma span_name_app s n r : span_name s = (n, r) → s = n ++ r ∧ Forall (.≠ slash) n ∧ (r = [] ∨ ∃ r', r = slash :: r').
Proof.
  revert n r. induction s as [|c s IH]; intros n r; simpl; [intros [= <- <-]; eauto|].
  destruct (Z.eqb_spec c slash) as [->|Hc]; [intros [= <- <-]; eauto|].
  destruct (span_name s) as [n' r']. intros [= <- <-]. destruct (IH n' r' eq_refl) as (-> & ? & ?). eauto.
Qed.
Lemma drop_slashes_spec s : ∃ k, s = replicate k slash ++ drop_slashes s ∧ (∀ c s', drop_slashes s = c :: s' → c ≠ slash).
Proof.
  induction s as [|c s (k & E & Hh)]; [by exists O|]. simpl. destruct (Z.eqb_spec c slash) as [->|Hc].
  - exists (S k). split; [simpl; by rewrite <- E|done].
  - exists O. split; [done|]. by intros ? ? [= <- <-].
Qed.
(** One name from a path. *)
Definition next_name (s : list Z) : list Z * list Z := span_name (drop_slashes s).

Lemma next_name_rest s n r : next_name s = (n, r) → (length r ≤ length s)%nat ∧ (n ≠ [] → length r < length s)%nat
  ∧ (n = [] → drop_slashes s = [] ∧ r = []).
Proof.
  unfold next_name. intros H. destruct (drop_slashes_spec s) as (k & E & Hh).
  destruct (span_name_app _ _ _ H) as (E' & Hn & Hr). rewrite E'  in E. apply (f_equal length) in E.
  rewrite !length_app, length_replicate in E. split_and!; [lia|destruct n; simpl in *; [done|lia]|].
  intros ->. simpl in E'. rewrite E' in Hh. destruct Hr as [->|[r' ->]]; [done|]. by destruct (Hh slash r').
Qed.

Lemma components_aux_fuel f g s : (length s ≤ f)%nat → (length s ≤ g)%nat → components_aux f s = components_aux g s.
Proof.
  revert g s. induction f as [|f IH]; intros g s Hf Hg; [destruct s; [by destruct g|simpl in Hf; lia]|].
  destruct g as [|g]; [by destruct s; [|simpl in Hg; lia]|]. cbn [components_aux].
  destruct (next_name s) as [n r] eqn:E. pose proof (next_name_rest s n r E) as (H1 & H2 & H3). unfold next_name in E.
  destruct (drop_slashes s) as [|c t]; [done|]. rewrite E. destruct n as [|x n]; [by destruct (H3 eq_refl)|].
  f_equal. apply IH; specialize (H2 ltac:(done)); lia.
Qed.
Lemma components_next s n r : next_name s = (n, r) → components s = if decide (n = []) then [] else n :: components r.
Proof.
  intros E. pose proof (next_name_rest s n r E) as (H1 & H2 & H3). unfold components. case_decide as Hn.
  - destruct (H3 Hn) as [E' _]. destruct s as [|c s]; [done|]. cbn [length components_aux]. by rewrite E'.
  - specialize (H2 Hn). unfold next_name in E. destruct s as [|c s]; [simpl in H2; lia|]. cbn [length components_aux].
    destruct (drop_slashes (c :: s)) as [|x t]; [simpl in E; congruence|]. rewrite E. f_equal.
    apply components_aux_fuel; simpl in *; lia.
Qed.

(** ** The loops *)
Lemma cstr_rd buf p s : cstr buf p s → rd buf p = Ok (default 0 (head s)).
Proof. intros (pre & post & -> & <- & _). destruct s as [|c s]; by apply rd_mid. Qed.
Lemma cstr_tail buf p c s : cstr buf p (c :: s) → cstr buf (p + 1) s ∧ 0 < c < 256.
Proof.
  intros (pre & post & -> & <- & H). apply Forall_cons in H as [Hc H]. split; [|done].
  exists (pre ++ [c]), post. split_and!; [by rewrite <- !app_assoc|apply len_snoc|done].
Qed.
Lemma cstr_len buf p s : cstr buf p s → (length s < length buf)%nat ∧ 0 ≤ p.
Proof. intros (pre & post & -> & <- & _). rewrite !length_app. simpl. pose proof (len_nonneg pre). lia. Qed.

Lemma skip_slashes_ok fuel buf p s : cstr buf (p + 1) s → (length s < fuel)%nat →
  ∃ q, skip_slashes fuel buf p = Ok q ∧ cstr buf q (drop_slashes s).
Proof.
  revert p s. induction fuel as [|fuel IH]; intros p s Hs Hf; [lia|]. simpl. rewrite (cstr_rd _ _ _ Hs). simpl.
  destruct s as [|c s]; simpl; [by eauto|]. destruct (Z.eqb_spec c slash); [|by eauto].
  apply IH; [by apply (cstr_tail _ _ c)|simpl in Hf; lia].
Qed.

Lemma copy_name_ok fuel buf p s n r name k : cstr buf p s → span_name s = (n, r) → (length s < fuel)%nat →
  k = len (take (Z.to_nat k) name) → k + len n ≤ len name →
  ∃ q, copy_name fuel buf p name k = Ok (q, take (Z.to_nat k) name ++ n ++ drop (Z.to_nat (k + len n)) name) ∧ cstr buf q r.
Proof.
  revert p s n r name k. induction fuel as [|fuel IH]; intros p s n r name k Hs E Hf Hk Hle; [lia|].
  pose proof (len_nonneg (take (Z.to_nat k) name)) as Hk0. simpl. rewrite (cstr_rd _ _ _ Hs). simpl. destruct s as [|c s]; simpl in E.
  { simplify_eq. simpl. exists p. split; [|done]. do 2 f_equal. rewrite Z.add_0_r. by rewrite take_drop. }
  simpl. destruct (cstr_tail _ _ _ _ Hs) as [Hs' Hc].
  destruct (Z.eqb_spec c slash) as [->|Hne].
  { simplify_eq. simpl. exists p. split; [|done]. do 2 f_equal. rewrite Z.add_0_r. by rewrite take_drop. }
  destruct (Z.eqb_spec c 0); [lia|]. simpl. destruct (span_name s) as [n' r'] eqn:E'. simplify_eq.
  assert (len (c :: n') = len n' + 1) as Hl by (unfold len; simpl; lia). pose proof (len_nonneg n').
  rewrite wr_ok by lia. simpl. edestruct (IH (p + 1) s n' r (<[Z.to_nat k:=c]> name) (k + 1)) as (q & Eq & Hq); [done|done|simpl in Hf; lia| | |].
  - unfold len in *. rewrite length_take, length_insert. lia.
  - rewrite len_insert. lia.
  - exists q. split; [|done]. rewrite Eq. do 2 f_equal. replace (Z.to_nat (k + 1)) with (S (Z.to_nat k)) by lia.
    assert (<[Z.to_nat k:=c]> name !! Z.to_nat k = Some c) as Hlk by (apply list_lookup_insert_eq; unfold len in *; lia).
    rewrite (take_S_r _ _ _ Hlk), take_insert_ge, drop_insert_lt by lia. rewrite <- app_assoc. do 4 f_equal. lia.
Qed.

(** The result of [path_parse] on a string whose next name fits the buffer. *)
Lemma path_parse_ok buf p s n r name : cstr buf p s → next_name s = (n, r) → len n ≤ len name →
  ∃ q, path_parse buf p name = Ok (if decide (r = []) then None else Some q, n ++ drop (length n) name) ∧ cstr buf q r.
Proof.
  intros Hs E Hn. unfold path_parse. rewrite (cstr_rd _ _ _ Hs). cbn [mbind outcome_bind]. destruct (cstr_len _ _ _ Hs) as [Hl _].
  assert (∃ p', (if default 0 (head s) =? slash then skip_slashes (walk_fuel buf) buf p else Ok p) = Ok p' ∧ cstr buf p' (drop_slashes s))
    as (p' & -> & Hp').
  { destruct s as [|c s]; [by eauto|]. change (default 0 (head (c :: s))) with c. cbn [drop_slashes].
    destruct (Z.eqb_spec c slash); [|by eauto]. apply skip_slashes_ok; [by apply (cstr_tail _ _ c)|unfold walk_fuel; simpl in Hl; lia]. }
  cbn [mbind outcome_bind]. destruct (cstr_len _ _ _ Hp') as [Hl' _].
  destruct (copy_name_ok (walk_fuel buf) buf p' _ n r name 0 Hp' E) as (q & -> & Hq); [unfold walk_fuel; lia|done|lia|].
  cbn [mbind outcome_bind]. rewrite (cstr_rd _ _ _ Hq). cbn. exists q. split; [|done]. do 2 f_equal.
  - destruct Hq as (? & ? & _ & _ & HF). destruct r as [|c r]; [done|]. apply Forall_cons in HF as [? _]. cbn.
    destruct (Z.eqb_spec c 0); [lia|done].
  - assert (Z.to_nat (0 + len n) = length n) as El by (unfold len; lia). by rewrite <- El.
Qed.

Lemma next_name_pos buf p s n r : cstr buf p s → next_name s = (n, r) → Forall (λ c, 0 < c) n.
Proof.
  intros (? & ? & _ & _ & HF) E. unfold next_name in E. apply span_name_app in E as (E & _ & _).
  destruct (drop_slashes_spec s) as (k & Ek & _). rewrite E in Ek. rewrite Ek, !Forall_app in HF. destruct HF as (_ & HF & _).
  eapply Forall_impl; [exact HF|]. simpl. lia.
Qed.
Lemma components_length s : (length (components s) ≤ length s)%nat.
Proof.
  induction s as [s IH] using (induction_ltof1 _ length). destruct (next_name s) as [n r] eqn:E.
  rewrite (components_next _ _ _ E). case_decide; [simpl; lia|]. pose proof (next_name_rest _ _ _ E) as (_ & L2 & _).
  specialize (L2 ltac:(done)). specialize (IH r L2). simpl. lia.
Qed.

Lemma depth_loop_ok fuel buf p r n name depth : (length r + 2 ≤ fuel)%nat → len name = 16 → cstr buf p r →
  Forall (λ c, len c ≤ 16) (n :: components r) → take (length n) name = n → (n = [] → name@@0 = 0 ∧ r = []) → Forall (λ c, 0 < c) n →
  0 ≤ depth → depth + (if decide (n = []) then 0 else 1) + len (components r) < 2 ^ 32 →
  depth_loop fuel buf (if decide (r = []) then None else Some p) name depth
  = Ok (depth + (if decide (n = []) then 0 else 1) + len (components r)).
Proof.
  revert p r n name depth. induction fuel as [|fuel IH]; intros p r n name depth Hf Hlen Hr Hall Hn Hemp Hpos Hd Hb; [lia|].
  cbn [depth_loop]. rewrite rd_ok by lia. cbn [mbind outcome_bind].
  destruct n as [|x n].
  - destruct (Hemp eq_refl) as [-> ->]. cbn [Z.eqb negb]. rewrite decide_True by done. change (components []) with (@nil (list Z)).
    f_equal. unfold len. simpl. lia.
  - assert (name@@0 = x) as ->. { destruct name as [|y name]; [done|]. injection Hn as -> _. done. }
    apply Forall_cons in Hpos as [Hx _]. apply Forall_cons in Hall as [_ Hall].
    destruct (Z.eqb_spec x 0); [lia|]. cbn [negb]. rewrite (decide_False (P := x :: n = [])) in Hb |- * by done.
    assert (0 ≤ len (components r)) by (unfold len; lia). rewrite u32_id by lia.
    rewrite memset_splice by (unfold MAX_FILE_NAME_LEN; lia). cbn [mbind outcome_bind].
    assert (take (Z.to_nat 0) name ++ replicate (Z.to_nat MAX_FILE_NAME_LEN) (u8 0) ++ drop (Z.to_nat (0 + MAX_FILE_NAME_LEN)) name
      = replicate 16 0) as -> by (rewrite drop_ge by (unfold MAX_FILE_NAME_LEN, len in *; lia); done).
    destruct (decide (r = [])) as [->|Hne].
    + change (components []) with (@nil (list Z)). destruct fuel; [simpl in Hf; lia|]. cbn [depth_loop].
      rewrite rd_ok by done. cbn. by rewrite Z.add_0_r.
    + destruct (next_name r) as [n' r'] eqn:E. pose proof (next_name_rest _ _ _ E) as (L1 & L2 & L3).
      rewrite (components_next _ _ _ E) in Hall, Hb |- *.
      destruct (path_parse_ok buf p r n' r' (replicate 16 0) Hr E) as (q & -> & Hq).
      { destruct (decide (n' = [])) as [->|]; [done|]. by apply Forall_cons in Hall as [? _]. }
      assert (len n' ≤ 16 ∧ Forall (λ c, len c ≤ 16) (n' :: components r')) as [Hn16 Hall'].
      { destruct (decide (n' = [])) as [->|]; [destruct (L3 eq_refl) as [_ ->]; split; [done|by constructor]|].
        split; [by apply Forall_cons in Hall as [? _]|done]. }
      pose proof (next_name_pos _ _ _ _ _ Hr E).
      cbn [mbind outcome_bind]. rewrite (IH q r' n'); [| |by rewrite len_app, len_drop; unfold len in *; rewrite length_replicate in *; lia|done|done| | |done|lia|].
      * f_equal. destruct (decide (n' = [])) as [->|]; [destruct (L3 eq_refl) as [_ ->]; change (components []) with (@nil (list Z))|];
          unfold len; simpl; lia.
      * destruct (decide (n' = [])) as [->|]; [destruct (L3 eq_refl) as [_ ->]; destruct r; [done|simpl in *; lia]|]. specialize (L2 ltac:(done)). lia.
      * by rewrite take_app_length.
      * intros ->. by destruct (L3 eq_refl).
      * destruct (decide (n' = [])) as [->|]; [destruct (L3 eq_refl) as [_ ->]; change (components []) with (@nil (list Z))|];
          unfold len in *; simpl in *; lia.
Qed.

(** [path_depth_cnt] counts the non-empty names of a path, for every path in
    a buffer, with repeated and trailing slashes, whose names fit the buffer of
    16 bytes, when the path has a name or the stack happens to hold a NUL
    there; it always returns. *)
Theorem path_depth_cnt_correct junk buf p s :
  cstr buf p s → len junk = 16 → Forall (λ c, len c ≤ 16) (components s) → len s < 2 ^ 31 - 1 →
  (components s = [] → junk@@0 = 0) →
  path_depth_cnt junk buf (Some p) = Ok (len (components s)).
Proof.
  intros Hs Hj Hall Hlen Hemp. unfold path_depth_cnt. obind. destruct (next_name s) as [n r] eqn:E.
  pose proof (next_name_rest _ _ _ E) as (L1 & L2 & L3). pose proof (components_next _ _ _ E) as Hc.
  assert (len n ≤ 16 ∧ Forall (λ c, len c ≤ 16) (n :: components r)) as [Hn16 Hall'].
  { destruct (decide (n = [])) as [->|]; [destruct (L3 eq_refl) as [_ ->]; split; [done|by constructor]|].
    rewrite Hc in Hall. split; [by apply Forall_cons in Hall as [? _]|done]. }
  destruct (path_parse_ok buf p s n r junk Hs E ltac:(lia)) as (q & -> & Hq). obind.
  assert ((if decide (n = []) then 0 else 1) + len (components r) = len (components s)) as Hv.
  { rewrite Hc. destruct (decide (n = [])) as [->|]; [by destruct (L3 eq_refl) as [_ ->]|]. unfold len. simpl. lia. }
  pose proof (components_length s) as Hcl. rewrite (depth_loop_ok _ buf q r n).
  - obind. rewrite Z.add_0_l, Hv, i32_id; [done|]. unfold len in *. lia.
  - destruct (cstr_len _ _ _ Hq). unfold walk_fuel. lia.
  - rewrite len_app, len_drop; unfold len in *; lia.
  - done.
  - done.
  - apply take_app_length.
  - intros ->. destruct (L3 eq_refl) as [_ ->]. split; [|done]. simpl. apply Hemp. by rewrite Hc.
  - by apply (next_name_pos buf p s n r).
  - done.
  - rewrite Z.add_0_l, Hv. unfold len in *. lia.
Qed.

(** ["/usr//bin/ls/"] *)
Definition demo_path : list Z := [47; 117; 115; 114; 47; 47; 98; 105; 110; 47; 108; 115; 47].
Lemma path_depth_cnt_correct_witness :
  components demo_path = [[117; 115; 114]; [98; 105; 110]; [108; 115]] ∧ path_depth_cnt (replicate 16 170) (demo_path ++ [0; 9]) (Some 0) = Ok 3.
Proof.
  split; [reflexivity|]. apply (path_depth_cnt_correct _ _ _ demo_path); [|reflexivity| |reflexivity|discriminate].
  - exists [], [9]. split_and!; [done|done|]. repeat constructor.
  - repeat constructor; discriminate.
Defined.
