(* ===== verification/Dir.v ===== *)
(** * fs/dir.c: directories

    A directory's blocks hold entries of 24 bytes: 16 of name, the inode number
    and the type.  Entries are read where they lie in a sector buffer, so a
    name of 16 characters runs into the inode number as it does in the code.
    [io_buf] is the contents of a buffer of the caller. *)
From Stdlib Require Import String.
From S2P Require Import Prelude CString Bitmap Machine Ide DiskBytes FsBase Inode.

Definition sizeof_DirEntry : Z := 24.
Definition sizeof_Dir : Z := 520.

(** Members of the entry at index [idx] of a buffer of entries. *)
Definition word_off (b : list Z) (off : Z) : Z := un_le32 (take 4 (drop (Z.to_nat off) b)).
Definition de_i_no (b : list Z) (idx : Z) : Z := word_off b (24 * idx + 16).
Definition de_f_type (b : list Z) (idx : Z) : Z := word_off b (24 * idx + 20).
Definition de_filename (idx : Z) : ptr := Some (24 * idx).

(** String literals of the code. *)
Definition str_dot : list Z := [46; 0].
Definition str_dotdot : list Z := [46; 46; 0].

Section code.
Context {S : Type} `{!Services S}.

Definition open_root_dir : F S unit :=
  part ← fget cur_part; rd ← fget root_dir; d ← ld_dir rd;
  a ← inode_open (root_inode_no (sb part));
  st_dir rd (mkDir a 0 (dir_buf d)).

Definition dir_open (inode_no : Z) : F S Z :=
  pdir ← fs_malloc sizeof_Dir;
  a ← inode_open inode_no;
  touch pdir ;;
  fmod (λ s, set_dirs (<[pdir := mkDir a 0 (replicate 512 0)]> (dirs s)) s) ;;
  mret pdir.

(** The entries of one sector: the index of the first one with the name. *)
Fixpoint search_sector (n : nat) (dir_entry_idx : Z) (buf name : list Z) : outcome (option Z) :=
  match n with
  | O => mret None
  | Datatypes.S n =>
      r ← strcmp buf (de_filename dir_entry_idx) name (Some 0);
      if r =? 0 then mret (Some dir_entry_idx) else search_sector n (dir_entry_idx + 1) buf name
  end.
(** The loop over the blocks; [None] when no block has the name. *)
Fixpoint search_blocks (all_blocks : list Z) (dir_entry_size : Z) (name : list Z) : F S (option (list Z)) :=
  match all_blocks with
  | [] => mret None
  | b :: all_blocks =>
      if b =? 0 then search_blocks all_blocks dir_entry_size name
      else
        buf ← disk_read b 1;
        r ← flift (search_sector (Z.to_nat (SECTOR_SIZE / dir_entry_size)) 0 buf name);
        match r with
        | Some i =>
            dir_e ← flift (memcpy (replicate (Z.to_nat dir_entry_size) 0) (Some 0) buf (de_filename i) dir_entry_size);
            mret (Some dir_e)
        | None => search_blocks all_blocks dir_entry_size name
        end
  end.
(** The entry with the name, [None] for [false]. *)
Definition search_dir_entry (pdir : Z) (name : list Z) : F S (option (list Z)) :=
  part ← fget cur_part;
  all_blocks ← fs_malloc (48 + 512);
  if all_blocks =? NULL then say "search_dir_entry: sys_malloc for all_blocks failed" [] ;; mret None
  else
    d ← ld_dir pdir; n ← ld_inode (dir_inode d);
    blocks ← collect_blocks n;
    buf ← fs_malloc SECTOR_SIZE;
    touch buf ;;
    r ← search_blocks blocks (dir_entry_size (sb part)) name;
    fs_free buf ;;
    fs_free all_blocks ;;
    mret r.

Definition dir_close (dir : Z) : F S unit :=
  r ← fget root_dir;
  if dir =? r then mret ()
  else
    d ← ld_dir dir;
    inode_close (dir_inode d) ;;
    fs_free dir ;;
    fmod (λ s, set_dirs (delete dir (dirs s)) s).

(** [p_de] is the entry's bytes, which the callers clear first. *)
Definition create_dir_entry (filename : list Z) (fn : Z) (inode_no file_type : Z) (p_de : list Z) : outcome (list Z) :=
  l ← strlen filename (Some fn);
  _ ← ASSERT (l <=? MAX_FILE_NAME_LEN);
  p_de ← memcpy p_de (Some 0) filename (Some fn) l;
  mret (take 16 p_de ++ le32 inode_no ++ le32 file_type).

(** ** sync_dir_entry *)

(** The search for an unused entry in a sector. *)
Fixpoint find_unused (n : nat) (dir_entry_idx : Z) (io_buf : list Z) : option Z :=
  match n with
  | O => None
  | Datatypes.S n => if de_f_type io_buf dir_entry_idx =? FT_UNKNOWN then Some dir_entry_idx else find_unused n (dir_entry_idx + 1) io_buf
  end.

(** A new block for position [block_idx]; [None] when the disk is full.
    [all_blocks] has 140 words. *)
Definition add_block (inode : Z) (block_idx : Z) (all_blocks : list Z) : F S (option (list Z)) :=
  part ← fget cur_part;
  block_lba ← block_bitmap_alloc;
  if block_lba =? -1 then say "alloc block bitmap for sync_dir_entry failed" [] ;; mret None
  else
    let block_bitmap_idx := i32 (block_lba - data_start_lba (sb part)) in
    fassert (negb (block_bitmap_idx =? -1)) ;;
    bitmap_sync (u32 block_bitmap_idx) BLOCK_BITMAP ;;
    n ← ld_inode inode;
    if block_idx <? 12 then
      all_blocks ← flift (wr all_blocks block_idx (u32 block_lba));
      secs ← flift (wr (i_sectors n) block_idx (u32 block_lba));
      st_inode inode (set_i_sectors secs n) ;;
      mret (Some all_blocks)
    else if block_idx =? 12 then
      secs ← flift (wr (i_sectors n) 12 (u32 block_lba));
      st_inode inode (set_i_sectors secs n) ;;
      let table := u32 block_lba in
      block_lba ← block_bitmap_alloc;
      if block_lba =? -1 then
        part_bitmap_set BLOCK_BITMAP (u32 (table - data_start_lba (sb part))) 0 ;;
        secs ← flift (wr secs 12 0);
        st_inode inode (set_i_sectors secs n) ;;
        say "alloc block bitmap for sync_dir_entry failed" [] ;; mret None
      else
        let block_bitmap_idx := i32 (block_lba - data_start_lba (sb part)) in
        fassert (negb (block_bitmap_idx =? -1)) ;;
        bitmap_sync (u32 block_bitmap_idx) BLOCK_BITMAP ;;
        all_blocks ← flift (wr all_blocks 12 (u32 block_lba));
        disk_write table (words_bytes (drop 12 all_blocks)) 1 ;;
        mret (Some all_blocks)
    else
      all_blocks ← flift (wr all_blocks block_idx (u32 block_lba));
      i12 ← flift (rd (i_sectors n) 12);
      disk_write i12 (words_bytes (drop 12 all_blocks)) 1 ;;
      mret (Some all_blocks).

Definition grow_dir (inode : Z) (by_ : Z) : F S unit :=
  n ← ld_inode inode; st_inode inode (set_i_size (u32 (i_size n + by_)) n).

(** The loop over the 140 blocks. *)
Fixpoint sync_loop (fuel : nat) (inode block_idx : Z) (all_blocks : list Z) (p_de : list Z) (dir_entry_size : Z) (io_buf : list Z) : F S bool :=
  match fuel with
  | O => say "directory is full!" [] ;; mret false
  | Datatypes.S fuel =>
      b ← flift (rd all_blocks block_idx);
      r ← (if b =? 0 then
             r ← add_block inode block_idx all_blocks;
             match r with
             | None => mret None
             | Some all_blocks =>
                 io_buf ← flift (memset io_buf (Some 0) 0 512);
                 io_buf ← flift (memcpy io_buf (Some 0) p_de (Some 0) dir_entry_size);
                 b ← flift (rd all_blocks block_idx);
                 disk_write b (take 512 io_buf) 1 ;;
                 grow_dir inode dir_entry_size ;;
                 mret (Some (all_blocks, io_buf))
             end
           else mret (Some (all_blocks, io_buf)));
      match r with
      | None => mret false
      | Some (all_blocks, io_buf) =>
          b ← flift (rd all_blocks block_idx);
          io_buf ← read_into io_buf b 1;
          match find_unused (Z.to_nat (512 / dir_entry_size)) 0 io_buf with
          | Some i =>
              io_buf ← flift (memcpy io_buf (de_filename i) p_de (Some 0) dir_entry_size);
              disk_write b (take 512 io_buf) 1 ;;
              grow_dir inode dir_entry_size ;;
              mret true
          | None => sync_loop fuel inode (block_idx + 1) all_blocks p_de dir_entry_size io_buf
          end
      end
  end.
Definition sync_dir_entry (parent_dir : Z) (p_de io_buf : list Z) : F S bool :=
  d ← ld_dir parent_dir; n ← ld_inode (dir_inode d);
  part ← fget cur_part;
  let dir_entry_size := dir_entry_size (sb part) in
  fassert (i_size n mod dir_entry_size =? 0) ;;
  sync_loop 140 (dir_inode d) 0 (take 12 (i_sectors n) ++ replicate 128 0) p_de dir_entry_size io_buf.

(** ** delete_dir_entry *)

(** The scan of a sector: is it the first block, how many entries beside [.]
    and [..], and where is the one with [inode_no]. *)
Fixpoint scan_entries (n : nat) (idx : Z) (io_buf : list Z) (inode_no : Z) (first : bool) (cnt : Z) (found : option Z) : outcome (bool * Z * option Z) :=
  match n with
  | O => mret (first, cnt, found)
  | Datatypes.S n =>
      if negb (de_f_type io_buf idx =? FT_UNKNOWN) then
        r1 ← strcmp io_buf (de_filename idx) str_dot (Some 0);
        if r1 =? 0 then scan_entries n (idx + 1) io_buf inode_no true cnt found
        else
          r2 ← strcmp io_buf (de_filename idx) str_dotdot (Some 0);
          if negb (r2 =? 0) then
            if de_i_no io_buf idx =? inode_no then
              _ ← ASSERT (bool_decide (found = None));
              scan_entries n (idx + 1) io_buf inode_no first (u8 (cnt + 1)) (Some idx)
            else scan_entries n (idx + 1) io_buf inode_no first (u8 (cnt + 1)) found
          else scan_entries n (idx + 1) io_buf inode_no first cnt found
      else scan_entries n (idx + 1) io_buf inode_no first cnt found
  end.

(** The loop that counts the indirect blocks never advances its index. *)
Definition count_indirect : F S Z := flift Spin.

Fixpoint delete_loop (blocks : list Z) (block_idx : Z) (inode inode_no : Z) (dir_entry_size : Z) (io_buf : list Z) : F S bool :=
  match blocks with
  | [] => mret false
  | b :: blocks =>
      if b =? 0 then delete_loop blocks (block_idx + 1) inode inode_no dir_entry_size io_buf
      else
        io_buf ← read_into io_buf b 1;
        '(is_dir_first_block, dir_entry_cnt, found) ← flift (scan_entries (Z.to_nat (SECTOR_SIZE / dir_entry_size)) 0 io_buf inode_no false 0 None);
        match found with
        | None => delete_loop blocks (block_idx + 1) inode inode_no dir_entry_size io_buf
        | Some i =>
            fassert (1 <=? dir_entry_cnt) ;;
            (if (dir_entry_cnt =? 1) && negb is_dir_first_block then
               part ← fget cur_part;
               let block_bitmap_idx := u32 (b - data_start_lba (sb part)) in
               part_bitmap_set BLOCK_BITMAP block_bitmap_idx 0 ;;
               bitmap_sync block_bitmap_idx BLOCK_BITMAP ;;
               if block_idx <? 12 then
                 n ← ld_inode inode;
                 secs ← flift (wr (i_sectors n) block_idx 0);
                 st_inode inode (set_i_sectors secs n)
               else _ ← count_indirect; mret ()
             else
               io_buf ← flift (memset io_buf (de_filename i) 0 dir_entry_size);
               disk_write b (take 512 io_buf) 1) ;;
            n ← ld_inode inode;
            fassert (dir_entry_size <=? i_size n) ;;
            let n := set_i_size (u32 (i_size n - dir_entry_size)) n in
            st_inode inode n ;;
            inode_sync n (replicate 1024 0) ;;
            mret true
        end
  end.
Definition delete_dir_entry (pdir inode_no : Z) (io_buf : list Z) : F S bool :=
  d ← ld_dir pdir; n ← ld_inode (dir_inode d);
  blocks ← collect_blocks n;
  part ← fget cur_part;
  delete_loop blocks 0 (dir_inode d) inode_no (dir_entry_size (sb part)) io_buf.

(** ** dir_read *)

(** The scan of a sector from entry [idx] on: the position reached so far, and
    the entry to return. *)
Fixpoint read_entries (n : nat) (idx cur_dir_entry_pos dir_pos dir_entry_size : Z) (dir_e : list Z) : outcome (Z * option Z) :=
  match n with
  | O => mret (cur_dir_entry_pos, None)
  | Datatypes.S n =>
      if negb (de_f_type dir_e idx =? 0) then
        if cur_dir_entry_pos <? dir_pos then
          read_entries n (idx + 1) (u32 (cur_dir_entry_pos + dir_entry_size)) dir_pos dir_entry_size dir_e
        else
          _ ← ASSERT (cur_dir_entry_pos =? dir_pos);
          mret (cur_dir_entry_pos, Some idx)
      else read_entries n (idx + 1) cur_dir_entry_pos dir_pos dir_entry_size dir_e
  end.
Fixpoint dir_read_loop (blocks : list Z) (dir pos dir_entry_size : Z) : F S (option Z) :=
  match blocks with
  | [] => mret None
  | b :: blocks =>
      d ← ld_dir dir; n ← ld_inode (dir_inode d);
      if i_size n <=? dir_pos d then mret None
      else if b =? 0 then dir_read_loop blocks dir pos dir_entry_size
      else
        dir_e ← disk_read b 1;
        st_dir dir (mkDir (dir_inode d) (dir_pos d) dir_e) ;;
        '(pos, r) ← flift (read_entries (Z.to_nat (SECTOR_SIZE / dir_entry_size)) 0 pos (dir_pos d) dir_entry_size dir_e);
        match r with
        | Some i => st_dir dir (mkDir (dir_inode d) (u32 (dir_pos d + dir_entry_size)) dir_e) ;; mret (Some i)
        | None => dir_read_loop blocks dir pos dir_entry_size
        end
  end.
(** The index in [dir_buf] of the entry returned; [None] for NULL. *)
Definition dir_read (dir : Z) : F S (option Z) :=
  d ← ld_dir dir; n ← ld_inode (dir_inode d);
  blocks ← collect_blocks n;
  i12 ← flift (rd (i_sectors n) 12);
  let block_cnt := if negb (i12 =? 0) then 140%nat else 12%nat in
  part ← fget cur_part;
  dir_read_loop (take block_cnt blocks) dir 0 (dir_entry_size (sb part)).

Definition dir_is_empty (dir : Z) : F S bool :=
  d ← ld_dir dir; n ← ld_inode (dir_inode d); part ← fget cur_part;
  mret (i_size n =? u32 (dir_entry_size (sb part) * 2)).

Definition dir_remove (parent_dir child_dir : Z) : F S Z :=
  d ← ld_dir child_dir; n ← ld_inode (dir_inode d);
  fassert (forallb (Z.eqb 0) (take 12 (drop 1 (i_sectors n)))) ;;
  io_buf ← fs_malloc (SECTOR_SIZE * 2);
  if io_buf =? NULL then say "dir_remove: malloc for io_buf failed" [] ;; mret (-1)
  else
    _ ← delete_dir_entry parent_dir (i_no n) (replicate 1024 0);
    inode_release (i_no n) ;;
    fs_free io_buf ;;
    mret 0.
End code.
