(* ===== verification/File.v ===== *)
(** * fs/file.c: files

    The global table of open files, and reading and writing through it.  A
    file pointer is an index into [file_table].  [all_blocks] is an array of
    140 words, from [sys_malloc] and therefore cleared. *)
From Stdlib Require Import String.
From S2P Require Import Prelude CString Bitmap Machine Ide DiskBytes FsBase Inode Dir.

Section code.
Context {S : Type} `{!Services S}.

(** The loops that look for a free slot. *)
Fixpoint free_slot (n : nat) (fd_idx : Z) (t : list File) : outcome Z :=
  match n with
  | O => mret fd_idx
  | Datatypes.S n => f ← rd t fd_idx; if fd_inode f =? NULL then mret fd_idx else free_slot n (fd_idx + 1) t
  end.
Definition get_free_slot_in_global : F S Z :=
  t ← fget file_table;
  fd_idx ← flift (free_slot (Z.to_nat (MAX_FILE_OPEN - 3)) 3 t);
  if fd_idx =? MAX_FILE_OPEN then say "exceed max open files" [] ;; mret (-1) else mret fd_idx.

Fixpoint free_local (n : nat) (local_fd_idx : Z) (t : list Z) : outcome Z :=
  match n with
  | O => mret local_fd_idx
  | Datatypes.S n => v ← rd t local_fd_idx; if v =? -1 then mret local_fd_idx else free_local n (local_fd_idx + 1) t
  end.
Definition pcb_fd_install (globa_fd_idx : Z) : F S Z :=
  cur ← fget me;
  local_fd_idx ← flift (free_local (Z.to_nat (MAX_FILES_OPEN_PER_PROC - 3)) 3 (fd_table cur));
  if local_fd_idx =? MAX_FILES_OPEN_PER_PROC then say "exceed max open files_per_proc" [] ;; mret (-1)
  else
    t ← flift (wr (fd_table cur) local_fd_idx globa_fd_idx);
    fmod (λ s, set_me (set_fd_table t (me s)) s) ;;
    mret local_fd_idx.

(** ** file_create *)

(** The end of a failed [file_create], from step [rollback_step] on. *)
Definition create_rollback (rollback_step : Z) (fd_idx new_file_inode inode_no io_buf : Z) : F S Z :=
  (if rollback_step =? 3 then st_file fd_idx (mkFile 0 0 NULL) else mret ()) ;;
  (if 2 <=? rollback_step then fs_free new_file_inode ;; fmod (λ s, set_inodes (delete new_file_inode (inodes s)) s) else mret ()) ;;
  part_bitmap_set INODE_BITMAP inode_no 0 ;;
  fs_free io_buf ;;
  mret (-1).

Definition file_create (parent_dir : Z) (filename : list Z) (fn flag : Z) : F S Z :=
  io_buf ← fs_malloc 1024;
  if io_buf =? NULL then say "in file_creat: sys_malloc for io_buf failed" [] ;; mret (-1)
  else
    inode_no ← inode_bitmap_alloc;
    if inode_no =? -1 then say "in file_creat: allocate inode failed" [] ;; mret (-1)
    else
      new_file_inode ← malloc_kernal_inode;
      if new_file_inode =? NULL then
        say "file_create: sys_malloc for inode failed" [] ;; create_rollback 1 (-1) NULL inode_no io_buf
      else
        n ← flift (inode_init inode_no (mkINode 0 0 0 false (replicate 13 0)));
        fmod (λ s, set_inodes (<[new_file_inode := n]> (inodes s)) s) ;;
        fd_idx ← get_free_slot_in_global;
        if fd_idx =? -1 then
          say "exceed max open files" [] ;; create_rollback 2 (-1) new_file_inode inode_no io_buf
        else
          st_file fd_idx (mkFile 0 flag new_file_inode) ;;
          new_dir_entry ← flift (create_dir_entry filename fn inode_no FT_REGULAR (replicate 24 0));
          ok ← sync_dir_entry parent_dir new_dir_entry (replicate 1024 0);
          if negb ok then
            say "sync dir_entry to disk failed" [] ;; create_rollback 3 fd_idx new_file_inode inode_no io_buf
          else
            d ← ld_dir parent_dir; pn ← ld_inode (dir_inode d);
            inode_sync pn (replicate 1024 0) ;;
            n ← ld_inode new_file_inode;
            inode_sync n (replicate 1024 0) ;;
            bitmap_sync inode_no INODE_BITMAP ;;
            part ← fget cur_part;
            set_part (set_open_inodes (new_file_inode :: open_inodes part) part) ;;
            st_inode new_file_inode (set_open_cnts 1 n) ;;
            fs_free io_buf ;;
            pcb_fd_install fd_idx.

(** ** file_open, file_close *)
Definition file_open (inode_no flag : Z) : F S Z :=
  fd_idx ← get_free_slot_in_global;
  if fd_idx =? -1 then say "exceed max open files" [] ;; mret (-1)
  else
    a ← inode_open inode_no;
    st_file fd_idx (mkFile 0 flag a) ;;
    if negb (Z.land flag O_WRONLY =? 0) || negb (Z.land flag O_RDWR =? 0) then
      n ← ld_inode a;
      if negb (write_deny n) then
        st_inode a (set_write_deny true n) ;; pcb_fd_install fd_idx
      else say "file can`t be write now, try again later" [] ;; mret (-1)
    else pcb_fd_install fd_idx.

Definition file_close (file : Z) : F S Z :=
  f ← ld_file file;
  n ← ld_inode (fd_inode f);
  st_inode (fd_inode f) (set_write_deny false n) ;;
  inode_close (fd_inode f) ;;
  st_file file (mkFile (fd_pos f) (fd_flag f) NULL) ;;
  mret 0.

(** ** file_write *)

(** A new block and its bit on the disk; [None] when the disk is full. *)
Definition alloc_block (msg : string) : F S (option Z) :=
  part ← fget cur_part;
  block_lba ← block_bitmap_alloc;
  if block_lba =? -1 then say msg [] ;; mret None
  else mret (Some block_lba).
Definition sync_block (block_lba : Z) : F S unit :=
  part ← fget cur_part; bitmap_sync (u32 (block_lba - data_start_lba (sb part))) BLOCK_BITMAP.

(** The first block of a file that has none. *)
Definition first_block (inode : Z) : F S bool :=
  n ← ld_inode inode;
  s0 ← flift (rd (i_sectors n) 0);
  if s0 =? 0 then
    r ← alloc_block "file_write: block_bitmap_alloc failed";
    match r with
    | None => mret false
    | Some block_lba =>
        secs ← flift (wr (i_sectors n) 0 (u32 block_lba));
        st_inode inode (set_i_sectors secs n) ;;
        part ← fget cur_part;
        fassert (negb (u32 (block_lba - data_start_lba (sb part)) =? 0)) ;;
        sync_block block_lba ;;
        mret true
    end
  else mret true.

(** The loops that allocate blocks [block_idx] up to [file_will_use_blocks]:
    direct ones also go into the inode.  [situation] tells the three loops
    apart: only the first two write to the inode. *)
Fixpoint alloc_loop (n : nat) (inode block_idx : Z) (all_blocks : list Z) (msg : string) : F S (option (list Z)) :=
  match n with
  | O => mret (Some all_blocks)
  | Datatypes.S n =>
      r ← alloc_block msg;
      match r with
      | None => mret None
      | Some block_lba =>
          (if block_idx <? 12 then
             nd ← ld_inode inode;
             si ← flift (rd (i_sectors nd) block_idx);
             fassert (si =? 0) ;;
             secs ← flift (wr (i_sectors nd) block_idx (u32 block_lba));
             st_inode inode (set_i_sectors secs nd)
           else mret ()) ;;
          all_blocks ← flift (wr all_blocks block_idx (u32 block_lba));
          sync_block block_lba ;;
          alloc_loop n inode (block_idx + 1) all_blocks msg
      end
  end.

(** The block addresses [file_write] needs; [None] when the disk is full. *)
Definition write_blocks (inode file_has_used_blocks file_will_use_blocks : Z) (all_blocks : list Z) : F S (option (list Z)) :=
  n ← ld_inode inode;
  let add_blocks := u32 (file_will_use_blocks - file_has_used_blocks) in
  let cnt := Z.to_nat (file_will_use_blocks - file_has_used_blocks) in
  let block_idx := file_has_used_blocks - 1 in
  if add_blocks =? 0 then
    if file_has_used_blocks <=? 12 then
      si ← flift (rd (i_sectors n) block_idx);
      all_blocks ← flift (wr all_blocks block_idx si);
      mret (Some all_blocks)
    else
      i12 ← flift (rd (i_sectors n) 12);
      fassert (negb (i12 =? 0)) ;;
      b ← disk_read i12 1;
      mret (Some (take 12 all_blocks ++ bytes_words 128 b))
  else if file_will_use_blocks <=? 12 then
    si ← flift (rd (i_sectors n) block_idx);
    fassert (negb (si =? 0)) ;;
    all_blocks ← flift (wr all_blocks block_idx si);
    alloc_loop cnt inode file_has_used_blocks all_blocks "file_write: block_bitmap_alloc for situation 1 failed"
  else if file_has_used_blocks <=? 12 then
    si ← flift (rd (i_sectors n) block_idx);
    all_blocks ← flift (wr all_blocks block_idx si);
    r ← alloc_block "file_write: block_bitmap_alloc for situation 2 failed";
    match r with
    | None => mret None
    | Some block_lba =>
        i12 ← flift (rd (i_sectors n) 12);
        fassert (i12 =? 0) ;;
        secs ← flift (wr (i_sectors n) 12 (u32 block_lba));
        st_inode inode (set_i_sectors secs n) ;;
        r ← alloc_loop cnt inode file_has_used_blocks all_blocks "file_write: block_bitmap_alloc for situation 2 failed";
        match r with
        | None => mret None
        | Some all_blocks => disk_write (u32 block_lba) (words_bytes (drop 12 all_blocks)) 1 ;; mret (Some all_blocks)
        end
    end
  else
    i12 ← flift (rd (i_sectors n) 12);
    fassert (negb (i12 =? 0)) ;;
    b ← disk_read i12 1;
    r ← alloc_loop cnt inode file_has_used_blocks (take 12 all_blocks ++ bytes_words 128 b) "file_write: block_bitmap_alloc for situation 3 failed";
    match r with
    | None => mret None
    | Some all_blocks => disk_write i12 (words_bytes (drop 12 all_blocks)) 1 ;; mret (Some all_blocks)
    end.

(** The loop over the sectors to write; every pass writes at least a byte. *)
Fixpoint write_data (fuel : nat) (file : Z) (all_blocks buf : list Z) (bytes_written count : Z) (first_write_block : bool) : F S Z :=
  match fuel with
  | O => flift Spin
  | Datatypes.S fuel =>
      if bytes_written <? count then
        f ← ld_file file; n ← ld_inode (fd_inode f);
        let sec_idx := i_size n / BLOCK_SIZE in
        sec_lba ← flift (rd all_blocks sec_idx);
        let sec_off_bytes := i_size n mod BLOCK_SIZE in
        let sec_left_bytes := BLOCK_SIZE - sec_off_bytes in
        let size_left := count - bytes_written in
        let chunk_size := if size_left <? sec_left_bytes then size_left else sec_left_bytes in
        io_buf ← (if first_write_block then disk_read sec_lba 1 else mret (replicate 512 0));
        io_buf ← flift (memcpy io_buf (Some sec_off_bytes) buf (Some bytes_written) chunk_size);
        disk_write sec_lba io_buf 1 ;;
        say "file write at lba 0x%x" [AInt sec_lba] ;;
        st_inode (fd_inode f) (set_i_size (u32 (i_size n + chunk_size)) n) ;;
        st_file file (mkFile (u32 (fd_pos f + chunk_size)) (fd_flag f) (fd_inode f)) ;;
        write_data fuel file all_blocks buf (bytes_written + chunk_size) count false
      else mret bytes_written
  end.

Definition file_write (file : Z) (buf : list Z) (count : Z) : F S Z :=
  f ← ld_file file; n ← ld_inode (fd_inode f);
  if BLOCK_SIZE * 140 <? u32 (i_size n + count) then say "exceed max file_size 71680 bytes, write file failed" [] ;; mret (-1)
  else
    io_buf ← fs_malloc BLOCK_SIZE;
    if io_buf =? NULL then say "file_write: sys_malloc for io_buf failed" [] ;; mret (-1)
    else
      all_blocks ← fs_malloc (BLOCK_SIZE + 48);
      if all_blocks =? NULL then say "file_write: sys_malloc for all_blocks failed" [] ;; mret (-1)
      else
        ok ← first_block (fd_inode f);
        if negb ok then mret (-1)
        else
          let file_has_used_blocks := i_size n / BLOCK_SIZE + 1 in
          let file_will_use_blocks := u32 (i_size n + count) / BLOCK_SIZE + 1 in
          fassert (file_will_use_blocks <=? 140) ;;
          r ← write_blocks (fd_inode f) file_has_used_blocks file_will_use_blocks (replicate 140 0);
          match r with
          | None => mret (-1)
          | Some blocks =>
              st_file file (mkFile (u32 (i_size n - 1)) (fd_flag f) (fd_inode f)) ;;
              bytes_written ← write_data (Datatypes.S (Z.to_nat count)) file blocks buf 0 count true;
              n ← ld_inode (fd_inode f);
              inode_sync n (replicate 512 0) ;;
              fs_free all_blocks ;;
              fs_free io_buf ;;
              mret (i32 bytes_written)
          end.

(** ** file_read *)

(** The block addresses [file_read] needs. *)
Definition read_blocks (n : INode) (block_read_start_idx block_read_end_idx : Z) : F S (list Z) :=
  let read_blocks := u32 (block_read_start_idx - block_read_end_idx) in
  i12 ← flift (rd (i_sectors n) 12);
  let direct from to := replicate (Z.to_nat from) 0 ++ take (Z.to_nat (to - from)) (drop (Z.to_nat from) (i_sectors n)) ++ replicate (Z.to_nat (12 - to)) 0 in
  if read_blocks =? 0 then
    fassert (block_read_end_idx =? block_read_start_idx) ;;
    if block_read_end_idx <? 12 then mret (direct block_read_end_idx (block_read_end_idx + 1) ++ replicate 128 0)
    else b ← disk_read i12 1; mret (replicate 12 0 ++ bytes_words 128 b)
  else if block_read_end_idx <? 12 then mret (direct block_read_start_idx (block_read_end_idx + 1) ++ replicate 128 0)
  else if block_read_start_idx <? 12 then
    fassert (negb (i12 =? 0)) ;;
    b ← disk_read i12 1;
    mret (direct block_read_start_idx 12 ++ bytes_words 128 b)
  else
    fassert (negb (i12 =? 0)) ;;
    b ← disk_read i12 1;
    mret (replicate 12 0 ++ bytes_words 128 b).

(** The loop over the sectors to read: what it stores at [buf_dst]. *)
Fixpoint read_data (fuel : nat) (file : Z) (all_blocks : list Z) (bytes_read size : Z) : F S (list Z * Z) :=
  match fuel with
  | O => flift Spin
  | Datatypes.S fuel =>
      if bytes_read <? size then
        f ← ld_file file;
        let sec_idx := fd_pos f / BLOCK_SIZE in
        sec_lba ← flift (rd all_blocks sec_idx);
        let sec_off_bytes := fd_pos f mod BLOCK_SIZE in
        let sec_left_bytes := BLOCK_SIZE - sec_off_bytes in
        let size_left := size - bytes_read in
        let chunk_size := if size_left <? sec_left_bytes then size_left else sec_left_bytes in
        io_buf ← disk_read sec_lba 1;
        chunk ← flift (slice io_buf sec_off_bytes chunk_size);
        st_file file (mkFile (u32 (fd_pos f + chunk_size)) (fd_flag f) (fd_inode f)) ;;
        '(rest, r) ← read_data fuel file all_blocks (bytes_read + chunk_size) size;
        mret (chunk ++ rest, r)
      else mret ([], bytes_read)
  end.

(** The bytes stored at [buf], and the result. *)
Definition file_read (file count : Z) : F S (list Z * Z) :=
  f ← ld_file file; n ← ld_inode (fd_inode f);
  let too_much := i_size n <? u32 (fd_pos f + count) in
  let size := if too_much then u32 (i_size n - fd_pos f) else count in
  if too_much && (size =? 0) then mret ([], -1)
  else
    io_buf ← fs_malloc BLOCK_SIZE;
    (if io_buf =? NULL then say "file_read: sys_malloc for io_buf failed" [] else mret ()) ;;
    all_blocks ← fs_malloc (BLOCK_SIZE + 48);
    if all_blocks =? NULL then say "file_read: sys_malloc for all_blocks failed" [] ;; mret ([], -1)
    else
      let block_read_start_idx := fd_pos f / BLOCK_SIZE in
      let block_read_end_idx := u32 (fd_pos f + size) / BLOCK_SIZE in
      fassert ((block_read_start_idx <? 139) && (block_read_end_idx <? 139)) ;;
      blocks ← read_blocks n block_read_start_idx block_read_end_idx;
      fassert (negb (io_buf =? NULL) || (size =? 0)) ;;
      '(b, bytes_read) ← read_data (Datatypes.S (Z.to_nat size)) file blocks 0 size;
      fs_free all_blocks ;;
      fs_free io_buf ;;
      mret (b, i32 bytes_read).
End code.
