(* ===== verification/Fs.v ===== *)
(** * fs/fs.c: the system calls of the file system

    [searched_path] is the 128-byte buffer of the search record; a path is a
    buffer and the string starts at its beginning.  [junk] is what the stack
    holds where [path_depth_cnt] keeps a name. *)
From Stdlib Require Import String.
From S2P Require Import Prelude CString Bitmap Machine Ide DiskBytes FsBase Inode Dir File Path.

Definition str_root : list Z := [47; 0].
Definition str_root_dot : list Z := [47; 46; 0].
Definition str_root_dotdot : list Z := [47; 46; 46; 0].

Record PathSearchRecord := mkRec { searched_path : list Z; parent_dir : Z; file_type : Z }.
Definition empty_record : PathSearchRecord := mkRec (replicate 128 0) NULL FT_UNKNOWN.
Record Stat := mkStat { st_ino : Z; st_size : Z; st_filetype : Z }.

(** The three names of the root directory. *)
Definition is_root (pathname : list Z) : outcome bool :=
  a ← strcmp pathname (Some 0) str_root (Some 0);
  if a =? 0 then mret true
  else
    b ← strcmp pathname (Some 0) str_root_dot (Some 0);
    if b =? 0 then mret true
    else c ← strcmp pathname (Some 0) str_root_dotdot (Some 0); mret (c =? 0).

(** A path as an argument of a message. *)
Definition shown (buf : list Z) : list Z := match strlen buf (Some 0) with Ok n => take (Z.to_nat n) buf | _ => [] end.

Section code.
Context {S : Type} `{!Services S}.

(** ** search_file *)

(** The loop over the names of the path.  [rec_] is the search record, [dir_e]
    the entry found last. *)
Fixpoint search_loop (fuel : nat) (pathname : list Z) (sub_path : ptr) (name : list Z) (rec_ : PathSearchRecord) (parent_inode_no : Z) (dir_e : list Z)
    : F S (Z * PathSearchRecord) :=
  match fuel with
  | O => flift Spin
  | Datatypes.S fuel =>
      n0 ← flift (rd name 0);
      if negb (n0 =? 0) then
        l ← flift (strlen (searched_path rec_) (Some 0));
        fassert (l <? 512) ;;
        '(sp, _) ← flift (strcat (searched_path rec_) (Some 0) str_root (Some 0));
        '(sp, _) ← flift (strcat sp (Some 0) name (Some 0));
        let rec_ := mkRec sp (parent_dir rec_) (file_type rec_) in
        r ← search_dir_entry (parent_dir rec_) name;
        match r with
        | Some dir_e =>
            name ← flift (memset name (Some 0) 0 MAX_FILE_NAME_LEN);
            '(sub_path, name) ← match sub_path with
              | Some p => flift (path_parse pathname p name)
              | None => mret (None, name)
              end;
            if de_f_type dir_e 0 =? FT_DIRECTORY then
              d ← ld_dir (parent_dir rec_); pn ← ld_inode (dir_inode d);
              dir_close (parent_dir rec_) ;;
              parent ← dir_open (de_i_no dir_e 0);
              search_loop fuel pathname sub_path name (mkRec sp parent (file_type rec_)) (i_no pn) dir_e
            else if de_f_type dir_e 0 =? FT_REGULAR then
              mret (i32 (de_i_no dir_e 0), mkRec sp (parent_dir rec_) FT_REGULAR)
            else search_loop fuel pathname sub_path name rec_ parent_inode_no dir_e
        | None => mret (-1, rec_)
        end
      else
        dir_close (parent_dir rec_) ;;
        parent ← dir_open parent_inode_no;
        mret (i32 (de_i_no dir_e 0), mkRec (searched_path rec_) parent FT_DIRECTORY)
  end.

(** [rec_] is cleared by the callers. *)
Definition search_file (pathname : list Z) (rec_ : PathSearchRecord) : F S (Z * PathSearchRecord) :=
  root ← fget root_dir;
  isr ← flift (is_root pathname);
  if (isr : bool) then
    sp ← flift (wr (searched_path rec_) 0 0);
    mret (0, mkRec sp root FT_DIRECTORY)
  else
    path_len ← flift (strlen pathname (Some 0));
    c0 ← flift (rd pathname 0);
    fassert ((c0 =? slash) && (1 <? path_len) && (path_len <? MAX_PATH_LEN)) ;;
    '(sub_path, name) ← flift (path_parse pathname 0 (replicate 16 0));
    search_loop (walk_fuel pathname) pathname sub_path name (mkRec (searched_path rec_) root FT_UNKNOWN) 0 (replicate 24 0).

(** ** Files *)
Definition sys_open (junk : list Z) (pathname : list Z) (flags : Z) : F S Z :=
  l ← flift (strlen pathname (Some 0));
  c ← flift (rd pathname (l - 1));
  if c =? slash then say "can`t open a directory %s" [AStr (shown pathname)] ;; mret (-1)
  else
    fassert (flags <=? 7) ;;
    pathname_depth ← flift (path_depth_cnt junk pathname (Some 0));
    '(inode_no, searched_record) ← search_file pathname empty_record;
    let found := negb (inode_no =? -1) in
    if file_type searched_record =? FT_DIRECTORY then
      say "can`t open a directory with open(), use opendir() to instead" [] ;;
      dir_close (parent_dir searched_record) ;; mret (-1)
    else
      path_searched_depth ← flift (path_depth_cnt junk (searched_path searched_record) (Some 0));
      if negb (pathname_depth =? path_searched_depth) then
        say "cannot access %s: Not a directory, subpath %s is`t exist" [AStr (shown pathname); AStr (shown (searched_path searched_record))] ;;
        dir_close (parent_dir searched_record) ;; mret (-1)
      else if negb found && (Z.land flags O_CREAT =? 0) then
        p ← flift (strrchr (searched_path searched_record) (Some 0) slash);
        say "in path %s, file %s is`t exist" [AStr (shown (searched_path searched_record)); AInt (default 0 p + 1)] ;;
        dir_close (parent_dir searched_record) ;; mret (-1)
      else if found && negb (Z.land flags O_CREAT =? 0) then
        say "%s has already exist!" [AStr (shown pathname)] ;;
        dir_close (parent_dir searched_record) ;; mret (-1)
      else if Z.land flags O_CREAT =? O_CREAT then
        say "creating file" [] ;;
        p ← flift (strrchr pathname (Some 0) slash);
        p ← flift (deref p);
        fd ← file_create (parent_dir searched_record) pathname (p + 1) flags;
        dir_close (parent_dir searched_record) ;;
        mret fd
      else file_open (u32 inode_no) flags.

Definition fd_local2global (local_fd : Z) : F S Z :=
  cur ← fget me;
  global_fd ← flift (rd (fd_table cur) local_fd);
  fassert ((0 <=? global_fd) && (global_fd <? MAX_FILE_OPEN)) ;;
  mret global_fd.

Definition sys_close (fd : Z) : F S Z :=
  if 2 <? fd then
    _fd ← fd_local2global fd;
    ret ← file_close _fd;
    cur ← fget me;
    t ← flift (wr (fd_table cur) fd (-1));
    fmod (λ s, set_me (set_fd_table t (me s)) s) ;;
    mret ret
  else mret (-1).

(** Writing to the console is a message; the copy is into 1024 bytes. *)
Definition sys_write (fd : Z) (buf : list Z) (count : Z) : F S Z :=
  if fd <? 0 then say "sys_write: fd error" [] ;; mret (-1)
  else if fd =? 1 then
    tmp_buf ← flift (memcpy (replicate 1024 0) (Some 0) buf (Some 0) count);
    n ← flift (strlen tmp_buf (Some 0));
    say "%s" [AStr (take (Z.to_nat n) tmp_buf)] ;;
    mret (i32 count)
  else
    _fd ← fd_local2global fd;
    wr_file ← ld_file _fd;
    if negb (Z.land (fd_flag wr_file) O_WRONLY =? 0) || negb (Z.land (fd_flag wr_file) O_RDWR =? 0) then file_write _fd buf count
    else say "sys_write: not allowed to write file without flag O_RDWR or O_WRONLY" [] ;; mret (-1).

(** Standard input is the keyboard, of which [keys] are the next characters. *)
Definition sys_read (keys : list Z) (fd count : Z) : F S (list Z * Z) :=
  if (fd <? 0) || (fd =? 1) || (fd =? 2) then say "sys_read: fd error" [] ;; mret ([], -1)
  else if fd =? 0 then
    if len keys <? count then flift Blocked
    else mret (take (Z.to_nat count) keys, if count =? 0 then -1 else i32 count)
  else
    _fd ← fd_local2global fd;
    file_read _fd count.

Definition sys_lseek (fd offset whence : Z) : F S Z :=
  if fd <? 0 then say "sys_lseek: fd error" [] ;; mret (-1)
  else
    fassert ((0 <? whence) && (whence <? 4)) ;;
    _fd ← fd_local2global fd;
    pf ← ld_file _fd;
    n ← ld_inode (fd_inode pf);
    let file_size := i32 (i_size n) in
    let new_pos := if whence =? 1 then offset else if whence =? 2 then i32 (i32 (fd_pos pf) + offset) else i32 (file_size + offset) in
    if (new_pos <? 0) || (i32 (file_size - 1) <? new_pos) then mret (-1)
    else
      st_file _fd (mkFile (u32 new_pos) (fd_flag pf) (fd_inode pf)) ;;
      mret (i32 (u32 new_pos)).

(** The search for an open file with the inode. *)
Fixpoint file_in_use (t : list File) (inode_no : Z) : F S bool :=
  match t with
  | [] => mret false
  | f :: t =>
      if negb (fd_inode f =? NULL) then
        n ← ld_inode (fd_inode f);
        if u32 inode_no =? i_no n then mret true else file_in_use t inode_no
      else file_in_use t inode_no
  end.
Definition sys_unlink (pathname : list Z) : F S Z :=
  l ← flift (strlen pathname (Some 0));
  fassert (l <? MAX_PATH_LEN) ;;
  '(inode_no, searched_record) ← search_file pathname empty_record;
  fassert (negb (inode_no =? 0)) ;;
  if inode_no =? -1 then
    say "file %s not found!" [AStr (shown pathname)] ;; dir_close (parent_dir searched_record) ;; mret (-1)
  else if file_type searched_record =? FT_DIRECTORY then
    say "can`t delete a directory with unlink(), use rmdir() to instead" [] ;; dir_close (parent_dir searched_record) ;; mret (-1)
  else
    t ← fget file_table;
    used ← file_in_use t inode_no;
    if (used : bool) then
      dir_close (parent_dir searched_record) ;;
      say "file %s is in use, not allow to delete!" [AStr (shown pathname)] ;; mret (-1)
    else
      io_buf ← fs_malloc (SECTOR_SIZE + SECTOR_SIZE);
      if io_buf =? NULL then
        dir_close (parent_dir searched_record) ;; say "sys_unlink: malloc for io_buf failed" [] ;; mret (-1)
      else
        _ ← delete_dir_entry (parent_dir searched_record) (u32 inode_no) (replicate 1024 0);
        inode_release (u32 inode_no) ;;
        fs_free io_buf ;;
        dir_close (parent_dir searched_record) ;;
        mret 0.

(** ** Directories *)
Definition mkdir_rollback (rollback_step inode_no : Z) (rec_ : PathSearchRecord) (io_buf : Z) : F S Z :=
  (if rollback_step =? 2 then part_bitmap_set INODE_BITMAP inode_no 0 else mret ()) ;;
  dir_close (parent_dir rec_) ;;
  fs_free io_buf ;;
  mret (-1).

(** The entries [.] and [..] of a new directory, in a cleared buffer. *)
Definition dot_entries (self parent : Z) : list Z :=
  [46] ++ replicate 15 0 ++ le32 self ++ le32 FT_DIRECTORY ++ [46; 46] ++ replicate 14 0 ++ le32 parent ++ le32 FT_DIRECTORY.

Definition sys_mkdir (junk : list Z) (pathname : list Z) : F S Z :=
  say "In sys_mkdir" [] ;;
  io_buf ← fs_malloc (SECTOR_SIZE * 2);
  if io_buf =? NULL then say "sys_mkdir: sys_malloc for io_buf failed" [] ;; mret (-1)
  else
    '(inode_no, rec_) ← search_file pathname empty_record;
    if negb (inode_no =? -1) then
      say "sys_mkdir: file or directory %s exist!" [AStr (shown pathname)] ;; mkdir_rollback 1 inode_no rec_ io_buf
    else
      pathname_depth ← flift (path_depth_cnt junk pathname (Some 0));
      path_searched_depth ← flift (path_depth_cnt junk (searched_path rec_) (Some 0));
      if negb (pathname_depth =? path_searched_depth) then
        say "sys_mkdir: can`t access %s, subpath %s is not exist" [AStr (shown pathname); AStr (shown (searched_path rec_))] ;;
        mkdir_rollback 1 inode_no rec_ io_buf
      else
        p ← flift (strrchr (searched_path rec_) (Some 0) slash);
        p ← flift (deref p);
        inode_no ← inode_bitmap_alloc;
        if inode_no =? -1 then say "sys_mkdir: allocate inode failed" [] ;; mkdir_rollback 1 inode_no rec_ io_buf
        else
          new_dir_inode ← flift (inode_init inode_no (mkINode 0 0 0 false (replicate 13 0)));
          block_lba ← block_bitmap_alloc;
          if block_lba =? -1 then
            say "sys_mkdir: block_bitmap_alloc for create directory failed" [] ;; mkdir_rollback 2 inode_no rec_ io_buf
          else
            secs ← flift (wr (i_sectors new_dir_inode) 0 (u32 block_lba));
            part ← fget cur_part;
            let block_bitmap_idx := u32 (block_lba - data_start_lba (sb part)) in
            fassert (negb (block_bitmap_idx =? 0)) ;;
            bitmap_sync block_bitmap_idx BLOCK_BITMAP ;;
            d ← ld_dir (parent_dir rec_); pn ← ld_inode (dir_inode d);
            disk_write (u32 block_lba) (dot_entries inode_no (i_no pn) ++ replicate (512 - 48) 0) 1 ;;
            let new_dir_inode := mkINode inode_no (u32 (2 * dir_entry_size (sb part))) 0 false secs in
            new_dir_entry ← flift (create_dir_entry (searched_path rec_) (p + 1) inode_no FT_DIRECTORY (replicate 24 0));
            ok ← sync_dir_entry (parent_dir rec_) new_dir_entry (replicate 1024 0);
            if negb ok then
              say "sys_mkdir: sync_dir_entry to disk failed" [] ;; mkdir_rollback 2 inode_no rec_ io_buf
            else
              pn ← ld_inode (dir_inode d);
              inode_sync pn (replicate 1024 0) ;;
              inode_sync new_dir_inode (replicate 1024 0) ;;
              bitmap_sync inode_no INODE_BITMAP ;;
              fs_free io_buf ;;
              dir_close (parent_dir rec_) ;;
              mret 0.

(** The test [name[0] == '.'] of the code never holds after [name[0] == '/']. *)
Definition sys_opendir (name : list Z) : F S Z :=
  l ← flift (strlen name (Some 0));
  fassert (l <? MAX_PATH_LEN) ;;
  root ← fget root_dir;
  c0 ← flift (rd name 0);
  isr ← (if c0 =? slash then c1 ← flift (rd name 1); mret ((c1 =? 0) || (c0 =? 46)) else mret false);
  if (isr : bool) then mret root
  else
    '(inode_no, rec_) ← search_file name empty_record;
    ret ← (if inode_no =? -1 then
             say "In %s, sub path %s not exist" [AStr (shown name); AStr (shown (searched_path rec_))] ;; mret NULL
           else if file_type rec_ =? FT_REGULAR then say "%s is regular file!" [AStr (shown name)] ;; mret NULL
           else if file_type rec_ =? FT_DIRECTORY then dir_open (u32 inode_no)
           else mret NULL);
    dir_close (parent_dir rec_) ;;
    mret ret.
Definition sys_closedir (dir : Z) : F S Z := if negb (dir =? NULL) then dir_close dir ;; mret 0 else mret (-1).
Definition sys_readdir (dir : Z) : F S (option Z) := fassert (negb (dir =? NULL)) ;; dir_read dir.
Definition sys_rewinddir (dir : Z) : F S unit := d ← ld_dir dir; st_dir dir (mkDir (dir_inode d) 0 (dir_buf d)).

Definition sys_rmdir (pathname : list Z) : F S Z :=
  '(inode_no, rec_) ← search_file pathname empty_record;
  fassert (negb (inode_no =? 0)) ;;
  retval ← (if inode_no =? -1 then
              say "In %s, sub path %s not exist" [AStr (shown pathname); AStr (shown (searched_path rec_))] ;; mret (-1)
            else if file_type rec_ =? FT_REGULAR then say "%s is regular file!" [AStr (shown pathname)] ;; mret (-1)
            else
              dir ← dir_open (u32 inode_no);
              empty ← dir_is_empty dir;
              retval ← (if negb empty then
                          say "dir %s is not empty, it is not allowed to delete a nonempty directory!" [AStr (shown pathname)] ;; mret (-1)
                        else r ← dir_remove (parent_dir rec_) dir; mret (if r =? 0 then 0 else -1));
              dir_close dir ;;
              mret retval);
  dir_close (parent_dir rec_) ;;
  mret retval.

(** ** The working directory *)
Definition get_parent_dir_inode_nr (child_inode_nr : Z) : F S Z :=
  child_dir_inode ← inode_open child_inode_nr;
  n ← ld_inode child_dir_inode;
  block_lba ← flift (rd (i_sectors n) 0);
  part ← fget cur_part;
  fassert (data_start_lba (sb part) <=? block_lba) ;;
  inode_close child_dir_inode ;;
  io_buf ← disk_read block_lba 1;
  fassert ((de_i_no io_buf 1 <? 4096) && (de_f_type io_buf 1 =? FT_DIRECTORY)) ;;
  mret (de_i_no io_buf 1).

Fixpoint find_child_entry (n : nat) (dir_e_idx : Z) (io_buf : list Z) (c_inode_nr : Z) : option Z :=
  match n with
  | O => None
  | Datatypes.S n => if de_i_no io_buf dir_e_idx =? c_inode_nr then Some dir_e_idx else find_child_entry n (dir_e_idx + 1) io_buf c_inode_nr
  end.
(** [None]: -1; else the path with the name added. *)
Fixpoint child_loop (blocks : list Z) (dir_entry_size c_inode_nr : Z) (path : list Z) : F S (option (list Z)) :=
  match blocks with
  | [] => mret None
  | b :: blocks =>
      if negb (b =? 0) then
        io_buf ← disk_read b 1;
        match find_child_entry (Z.to_nat (512 / dir_entry_size)) 0 io_buf c_inode_nr with
        | Some i =>
            '(path, _) ← flift (strcat path (Some 0) str_root (Some 0));
            '(path, _) ← flift (strcat path (Some 0) io_buf (de_filename i));
            mret (Some path)
        | None => child_loop blocks dir_entry_size c_inode_nr path
        end
      else child_loop blocks dir_entry_size c_inode_nr path
  end.
Definition get_child_dir_name (p_inode_nr c_inode_nr : Z) (path : list Z) : F S (option (list Z)) :=
  parent_dir_inode ← inode_open p_inode_nr;
  n ← ld_inode parent_dir_inode;
  blocks ← collect_blocks n;
  inode_close parent_dir_inode ;;
  part ← fget cur_part;
  child_loop blocks (dir_entry_size (sb part)) c_inode_nr path.

(** The way up to the root; [fuel] bounds the depth. *)
Fixpoint cwd_loop (fuel : nat) (child_inode_nr : Z) (full_path_reverse : list Z) : F S (option (list Z)) :=
  match fuel with
  | O => flift Spin
  | Datatypes.S fuel =>
      if child_inode_nr =? 0 then mret (Some full_path_reverse)
      else
        parent_inode_nr ← get_parent_dir_inode_nr child_inode_nr;
        r ← get_child_dir_name parent_inode_nr child_inode_nr full_path_reverse;
        match r with None => mret None | Some p => cwd_loop fuel parent_inode_nr p end
  end.
(** The names are taken from the end of the reversed path. *)
Fixpoint reverse_loop (fuel : nat) (full_path_reverse buf : list Z) : outcome (list Z) :=
  match fuel with
  | O => Spin
  | Datatypes.S fuel =>
      last_slash ← strrchr full_path_reverse (Some 0) slash;
      match last_slash with
      | None => mret buf
      | Some p =>
          l ← strlen buf (Some 0);
          '(buf, _) ← strcpy buf (Some (u16 l)) full_path_reverse (Some p);
          full_path_reverse ← wr full_path_reverse p 0;
          reverse_loop fuel full_path_reverse buf
      end
  end.
(** The contents of [buf], and whether it is returned ([false]: NULL is). *)
Definition sys_getcwd (buf : list Z) (size : Z) : F S (list Z * bool) :=
  io_buf ← fs_malloc SECTOR_SIZE;
  if io_buf =? NULL then mret (buf, false)
  else
    cur_thread ← fget me;
    let child_inode_nr := i32 (cwd_inode_nr cur_thread) in
    fassert ((0 <=? child_inode_nr) && (child_inode_nr <? 4096)) ;;
    if child_inode_nr =? 0 then
      b ← flift (wr buf 0 slash); b ← flift (wr b 1 0); mret (b, true)
    else
      buf ← flift (memset buf (Some 0) 0 size);
      r ← cwd_loop 130 child_inode_nr (replicate 128 0);
      match r with
      | None => fs_free io_buf ;; mret (buf, false)
      | Some full_path_reverse =>
          l ← flift (strlen full_path_reverse (Some 0));
          fassert (l <=? size) ;;
          buf ← flift (reverse_loop 129 full_path_reverse buf);
          fs_free io_buf ;;
          mret (buf, true)
      end.

Definition sys_chdir (path : list Z) : F S Z :=
  '(inode_no, rec_) ← search_file path empty_record;
  ret ← (if negb (inode_no =? -1) then
           if file_type rec_ =? FT_DIRECTORY then
             fmod (λ s, set_me (set_cwd_inode_nr (u32 inode_no) (me s)) s) ;; mret 0
           else say "sys_chdir: %s is regular file or other!" [AStr (shown path)] ;; mret (-1)
         else mret (-1));
  dir_close (parent_dir rec_) ;;
  mret ret.

Definition sys_stat (path : list Z) : F S (option Stat * Z) :=
  isr ← flift (is_root path);
  if (isr : bool) then
    root ← fget root_dir; d ← ld_dir root; n ← ld_inode (dir_inode d);
    mret (Some (mkStat 0 (i_size n) FT_DIRECTORY), 0)
  else
    '(inode_no, rec_) ← search_file path empty_record;
    r ← (if negb (inode_no =? -1) then
           obj_inode ← inode_open (u32 inode_no);
           n ← ld_inode obj_inode;
           inode_close obj_inode ;;
           mret (Some (mkStat (u32 inode_no) (i_size n) (file_type rec_)), 0)
         else say "sys_stat: %s not found" [AStr (shown path)] ;; mret (None, -1));
    dir_close (parent_dir rec_) ;;
    mret r.
End code.
