(* ===== verification/Format.v ===== *)
(** * fs/fs.c: making and mounting a file system

    [partition_format] lays out a partition, [mount_partition] reads it back,
    [filesys_init] does both at start-up.  What memory holds where the code
    does not initialise it is an argument: [pad], the padding of the super
    block on the stack, and [after], what follows a bitmap in the heap. *)
From Stdlib Require Import String.
From S2P Require Import Prelude CString Bitmap Machine Ide DiskBytes FsBase Inode Dir File Path Fs.

(** A partition as the scan of the disks leaves it. *)
Record PartDesc := mkPD { pd_hd_name : list Z; pd_name : list Z; pd_start_lba : Z; pd_sec_cnt : Z; pd_dev : Z }.

Definition sb_words (x : SuperBlock) : list Z :=
  [magic x; sb_sec_cnt x; inode_cnt x; part_lba_base x; block_bitmap_lba x; block_bitmap_sects x; inode_bitmap_lba x;
   inode_bitmap_sects x; inode_table_lba x; inode_table_sects x; data_start_lba x; root_inode_no x; dir_entry_size x].
(** The structure as a sector. *)
Definition enc_sb (x : SuperBlock) (pad : list Z) : list Z := words_bytes (sb_words x) ++ pad.
Definition dec_sb (b : list Z) : SuperBlock :=
  mkSb (word_at b 0) (word_at b 1) (word_at b 2) (word_at b 3) (word_at b 4) (word_at b 5) (word_at b 6)
    (word_at b 7) (word_at b 8) (word_at b 9) (word_at b 10) (word_at b 11) (word_at b 12).

Definition FS_MAGIC : Z := 0x19590318.

(** The layout: the super block, and the number of blocks the bitmap is for. *)
Definition format_layout (start_lba sec_cnt : Z) : SuperBlock * Z :=
  let boot_sector_sects := 1 in
  let super_block_sects := 1 in
  let inode_bitmap_sects := DIV_ROUND_UP MAX_FILES_PER_PART BITS_PER_SECTOR in
  let inode_table_sects := DIV_ROUND_UP (sizeof_INode * MAX_FILES_PER_PART) SECTOR_SIZE in
  let used_sects := boot_sector_sects + super_block_sects + inode_bitmap_sects + inode_table_sects in
  let free_sects := u32 (sec_cnt - used_sects) in
  let block_bitmap_sects := DIV_ROUND_UP free_sects BITS_PER_SECTOR in
  let block_bitmap_bit_len := u32 (free_sects - block_bitmap_sects) in
  let block_bitmap_sects := DIV_ROUND_UP block_bitmap_bit_len BITS_PER_SECTOR in
  let block_bitmap_lba := u32 (start_lba + 2) in
  let inode_bitmap_lba := u32 (block_bitmap_lba + block_bitmap_sects) in
  let inode_table_lba := u32 (inode_bitmap_lba + inode_bitmap_sects) in
  let data_start_lba := u32 (inode_table_lba + inode_table_sects) in
  (mkSb FS_MAGIC sec_cnt MAX_FILES_PER_PART start_lba block_bitmap_lba block_bitmap_sects inode_bitmap_lba inode_bitmap_sects
     inode_table_lba inode_table_sects data_start_lba 0 sizeof_DirEntry, block_bitmap_bit_len).

(** The loop that clears the bits of the last byte. *)
Fixpoint clear_bits (n : nat) (bit_idx b : Z) : Z :=
  match n with O => b | Datatypes.S n => clear_bits n (bit_idx + 1) (u8 (Z.land b (Z.lnot (Z.shiftl 1 bit_idx)))) end.
(** The block bitmap in a cleared buffer. *)
Definition format_bitmap (buf : list Z) (block_bitmap_bit_len : Z) : outcome (list Z) :=
  b0 ← rd buf 0;
  buf ← wr buf 0 (u8 (Z.lor b0 1));
  let block_bitmap_last_byte := block_bitmap_bit_len / 8 in
  let block_bitmap_last_bit := block_bitmap_bit_len mod 8 in
  let last_size := SECTOR_SIZE - block_bitmap_last_byte mod SECTOR_SIZE in
  buf ← memset buf (Some block_bitmap_last_byte) 0xff last_size;
  b ← rd buf block_bitmap_last_byte;
  wr buf block_bitmap_last_byte (clear_bits (Datatypes.S (Z.to_nat block_bitmap_last_bit)) 0 b).

Section code.
Context {S : Type} `{!Services S}.

Definition dev_read (dev lba n : Z) : F S (list Z) := service (sv_read dev lba n).
Definition dev_write (dev lba : Z) (b : list Z) (n : Z) : F S unit := service (sv_write dev lba b n).
(** [n] sectors of a buffer. *)
Definition dev_write_buf (dev lba : Z) (buf : list Z) (n : Z) : F S unit :=
  b ← flift (slice buf 0 (512 * n)); dev_write dev lba b n.

Definition partition_format (part : PartDesc) (pad : list Z) : F S unit :=
  let '(sb, block_bitmap_bit_len) := format_layout (pd_start_lba part) (pd_sec_cnt part) in
  say "%s info:" [AStr (pd_name part)] ;;
  say "   magic:0x%x" [AInt (magic sb)] ;;
  say "   part_lba_base:0x%x" [AInt (part_lba_base sb)] ;;
  say "   all_sectors:0x%x" [AInt (sb_sec_cnt sb)] ;;
  say "   inode_cnt:0x%x" [AInt (inode_cnt sb)] ;;
  say "   block_bitmap_lba:0x%x" [AInt (block_bitmap_lba sb)] ;;
  say "   block_bitmap_sectors:0x%x" [AInt (block_bitmap_sects sb)] ;;
  say "   inode_bitmap_lba:0x%x" [AInt (inode_bitmap_lba sb)] ;;
  say "   inode_bitmap_sectors:0x%x" [AInt (inode_bitmap_sects sb)] ;;
  say "   inode_table_lba:0x%x" [AInt (inode_table_lba sb)] ;;
  say "   inode_table_sectors:0x%x" [AInt (inode_table_sects sb)] ;;
  say "   data_start_lba:0x%x" [AInt (data_start_lba sb)] ;;
  let hd := pd_dev part in
  dev_write hd (u32 (pd_start_lba part + 1)) (enc_sb sb pad) 1 ;;
  say "    super_block_lba:0x%x" [AInt (u32 (pd_start_lba part + 1))] ;;
  let buf_size := Z.max (Z.max (block_bitmap_sects sb) (inode_bitmap_sects sb)) (inode_table_sects sb) * SECTOR_SIZE in
  p ← fs_malloc buf_size;
  touch p ;;
  let zeroed := replicate (Z.to_nat buf_size) 0 in
  buf ← flift (format_bitmap zeroed block_bitmap_bit_len);
  dev_write_buf hd (block_bitmap_lba sb) buf (block_bitmap_sects sb) ;;
  buf ← flift (wr zeroed 0 1);
  dev_write_buf hd (inode_bitmap_lba sb) buf (inode_bitmap_sects sb) ;;
  let root := mkINode 0 (u32 (dir_entry_size sb * 2)) 0 false (data_start_lba sb :: replicate 12 0) in
  buf ← flift (memcpy zeroed (Some 0) (enc_inode root) (Some 0) sizeof_INode);
  dev_write_buf hd (inode_table_lba sb) buf (inode_table_sects sb) ;;
  buf ← flift (memcpy zeroed (Some 0) (dot_entries 0 0) (Some 0) 48);
  dev_write_buf hd (data_start_lba sb) buf 1 ;;
  say "    root_dir_lba:0x%x" [AInt (data_start_lba sb)] ;;
  say "%s format done" [AStr (pd_name part)] ;;
  fs_free p.

(** A failed allocation is a [PANIC]. *)
Definition must (p : Z) : F S unit := if p =? NULL then flift Panic else mret ().

(** The callback on one partition: [true] stops the walk. *)
Definition mount_partition (part : PartDesc) (part_name : list Z) (after1 after2 : list Z) : F S bool :=
  r ← flift (strcmp (pd_name part) (Some 0) part_name (Some 0));
  if r =? 0 then
    let hd := pd_dev part in
    sb_buf ← fs_malloc SECTOR_SIZE;
    sbp ← fs_malloc 512;
    must sbp ;;
    must sb_buf ;;
    b ← dev_read hd (u32 (pd_start_lba part + 1)) 1;
    let sb := dec_sb b in
    p1 ← fs_malloc (u32 (block_bitmap_sects sb * SECTOR_SIZE));
    must p1 ;;
    bits1 ← dev_read hd (block_bitmap_lba sb) (block_bitmap_sects sb);
    p2 ← fs_malloc (u32 (inode_bitmap_sects sb * SECTOR_SIZE));
    must p2 ;;
    bits2 ← dev_read hd (inode_bitmap_lba sb) (inode_bitmap_sects sb);
    set_part (mkPart (pd_start_lba part) (pd_sec_cnt part) hd sb
      (mkBitMap (u32 (block_bitmap_sects sb * SECTOR_SIZE)) (bits1 ++ after1))
      (mkBitMap (u32 (inode_bitmap_sects sb * SECTOR_SIZE)) (bits2 ++ after2)) []) ;;
    mret true
  else mret false.

Fixpoint mount_loop (parts : list PartDesc) (part_name after1 after2 : list Z) : F S unit :=
  match parts with
  | [] => mret ()
  | part :: parts =>
      stop ← mount_partition part part_name after1 after2;
      if (stop : bool) then mret () else mount_loop parts part_name after1 after2
  end.

(** The partitions of a disk, four primary and eight logical ones. *)
Fixpoint format_loop (parts : list PartDesc) (pad : list Z) : F S unit :=
  match parts with
  | [] => mret ()
  | part :: parts =>
      (if negb (pd_sec_cnt part =? 0) then
         b ← dev_read (pd_dev part) (u32 (pd_start_lba part + 1)) 1;
         if magic (dec_sb b) =? FS_MAGIC then mret ()
         else say "formatting %s's partition %s......" [AStr (pd_hd_name part); AStr (pd_name part)] ;; partition_format part pad
       else mret ()) ;;
      format_loop parts pad
  end.

Definition default_part : list Z := [115; 100; 98; 49; 0; 0; 0; 0].

(** [disks_parts] are the partitions of the second disk of each channel, 12
    each.  [part_idx] is not reset between disks, so only the first is walked. *)
Definition filesys_init (disks_parts : list (list PartDesc)) (partition_list : list PartDesc) (pad after1 after2 : list Z) : F S unit :=
  sb_buf ← fs_malloc SECTOR_SIZE;
  must sb_buf ;;
  format_loop (default [] (head disks_parts)) pad ;;
  fs_free sb_buf ;;
  mount_loop partition_list default_part after1 after2 ;;
  open_root_dir ;;
  fmod (λ s, set_file_table (map (λ f, mkFile (fd_pos f) (fd_flag f) NULL) (file_table s)) s).
End code.
