(* ===== verification/FileSpec.v ===== *)
(** * fs/file.c: what reading and writing a file do

    A file's contents are the bytes of its blocks, found through the 12 direct
    addresses and the indirect table of its inode.  [file_read] returns a piece
    of them; [file_write] appends to them. *)
From Stdlib Require Import String.
From S2P Require Import Prelude CString Bitmap Machine Ide DiskBytes FsBase Inode Dir File.

(** ** The contents of a file *)
Definition blk (c : disks) (dev : Z) (n : INode) (i : Z) : Z :=
  if i <? 12 then (i_sectors n)@@i else word_at (c dev (i_sectors n)@@12) (Z.to_nat (i - 12)).
(** The byte at position [x] of the file. *)
Definition fbyte (c : disks) (dev : Z) (n : INode) (x : Z) : Z := dbyte c dev (512 * blk c dev n (x / 512) + x mod 512).
Definition fbytes (c : disks) (dev : Z) (n : INode) (x : Z) (k : nat) : list Z := map (λ i, fbyte c dev n (x + Z.of_nat i)) (seq 0 k).

Lemma len_fbytes c dev n x k : len (fbytes c dev n x k) = Z.of_nat k.
Proof. unfold len, fbytes. by rewrite length_map, length_seq. Qed.
Lemma fbytes_app c dev n x a b : fbytes c dev n x (a + b) = fbytes c dev n x a ++ fbytes c dev n (x + Z.of_nat a) b.
Proof.
  unfold fbytes. rewrite seq_app, map_app. f_equal. assert (seq (0 + a) b = map (Nat.add a) (seq 0 b)) as ->.
  { symmetry. etrans; [apply (fmap_add_seq a 0 b)|]. f_equal. lia. }
  rewrite map_map. apply map_ext. intros i. f_equal. lia.
Qed.
(** Inside one block. *)
Lemma fbytes_block c dev n x k : 0 ≤ x → x mod 512 + Z.of_nat k ≤ 512 →
  fbytes c dev n x k = dbytes c dev (512 * blk c dev n (x / 512) + x mod 512) k.
Proof.
  intros Hx Hk. unfold fbytes, dbytes. apply map_ext_in. intros i Hi%in_seq. unfold fbyte.
  replace ((x + Z.of_nat i) / 512) with (x / 512) by (Z.div_mod_to_equations; lia).
  replace ((x + Z.of_nat i) mod 512) with (x mod 512 + Z.of_nat i) by (Z.div_mod_to_equations; lia). f_equal. lia.
Qed.

Section spec.
Context {S : Type} `{!Services S}.
Implicit Types s : fs S.

Lemma served_trans c L k c' L' k' s s1 s2 : served c L k s s1 → served c' L' k' s1 s2 → served c' L' k' s s2.
Proof. intros (x & -> & _) (y & -> & Hy). by exists y. Qed.
Lemma served_refl c L k s : fs_at c L k s → served c L k s s.
Proof. intros H. exists (sv s). split; [by destruct s|done]. Qed.

Lemma slice_ok l off n : 0 ≤ off → off + n ≤ len l → slice l off n = Ok (take (Z.to_nat n) (drop (Z.to_nat off) l)).
Proof. intros H0 H1. unfold slice. destruct (Z.leb_spec 0 off), (Z.leb_spec (off + n) (len l)); try lia. done. Qed.

(** The addresses in a list of 140. *)
Definition has_blocks (c : disks) (dev : Z) (n : INode) (from to : Z) (ab : list Z) : Prop :=
  ∀ i, from ≤ i ≤ to → rd ab i = Ok (blk c dev n i).

Lemma rd_bytes_words k b i : 0 ≤ i < Z.of_nat k → rd (bytes_words k b) i = Ok (word_at b (Z.to_nat i)).
Proof.
  intros Hi. apply rd_some; [lia|]. unfold bytes_words. rewrite list_lookup_fmap, lookup_seq_lt by lia. done.
Qed.
Lemma rd_app_r (l1 l2 : list Z) i : len l1 ≤ i → rd (l1 ++ l2) i = rd l2 (i - len l1).
Proof.
  intros H. pose proof (len_nonneg l1). unfold rd. destruct (Z.leb_spec 0 i), (Z.leb_spec 0 (i - len l1)); try lia.
  rewrite lookup_app_r by (unfold len in *; lia). do 2 f_equal. unfold len in *. lia.
Qed.
Lemma rd_app_l (l1 l2 : list Z) i v : rd l1 i = Ok v → rd (l1 ++ l2) i = Ok v.
Proof.
  intros H. apply rd_inv in H as [Hi H]. apply rd_some; [lia|]. by apply lookup_app_l_Some.
Qed.

Lemma rd_direct c dev n from to (i : Z) : length (i_sectors n) = 13%nat → 0 ≤ from → from ≤ i < to → to ≤ 12 →
  rd (replicate (Z.to_nat from) 0 ++ take (Z.to_nat (to - from)) (drop (Z.to_nat from) (i_sectors n)) ++ replicate (Z.to_nat (12 - to)) 0) i
  = Ok (blk c dev n i).
Proof.
  intros Hl Hf Hi Ht. rewrite rd_app_r by (unfold len; rewrite length_replicate; lia). unfold len at 1. rewrite length_replicate, Z2Nat.id by lia.
  apply rd_app_l. unfold blk. destruct (Z.ltb_spec i 12); [|lia].
  assert (len (i_sectors n) = 13) as Hl' by (unfold len; lia).
  rewrite rd_ok by (rewrite len_take; rewrite ?len_drop; lia). f_equal. rewrite nthz_take, nthz_drop by lia. f_equal. lia.
Qed.

Lemma read_secs_1 c dev lba : read_secs c dev lba 1 = c dev lba.
Proof. unfold read_secs. simpl. rewrite app_nil_r. f_equal. lia. Qed.

(** The indirect table can be read. *)
Definition table_at (n : INode) : Prop := (i_sectors n)@@12 ≠ 0 ∧ 0 ≤ (i_sectors n)@@12 ≤ max_lba.

(** The 128 addresses of the table after 12 others. *)
Lemma indirect_ok c L k s n (pre : list Z) : fs_at c L k s → table_at n → len pre = 12 →
  fwp (b ← disk_read (i_sectors n)@@12 1; mret (pre ++ bytes_words 128 b)) s (λ ab s', served c L k s s'
    ∧ (∀ i v, i < 12 → rd pre i = Ok v → rd ab i = Ok v) ∧ ∀ i, 12 ≤ i < 140 → rd ab i = Ok (blk c (my_dev (cur_part s)) n i)).
Proof.
  intros Hat [_ Hr] Hp. fstep. eapply fwp_read; [done|lia|lia|lia|]. intros s' Hs. fstep. split_and!; [done|by intros; apply rd_app_l|].
  intros i Hi. rewrite rd_app_r, Hp, rd_bytes_words by lia. unfold blk. destruct (Z.ltb_spec i 12); [lia|]. by rewrite read_secs_1.
Qed.

Lemma read_blocks_ok c L k s n from to : fs_at c L k s → length (i_sectors n) = 13%nat → 0 ≤ from ≤ to → to < 140 →
  (12 ≤ to → table_at n) →
  fwp (read_blocks n from to) s (λ ab s', served c L k s s' ∧ has_blocks c (my_dev (cur_part s)) n from to ab).
Proof.
  intros Hat Hl Hf Ht H12. unfold read_blocks. fstep. assert (len (i_sectors n) = 13) as Hl' by (unfold len; lia).
  rewrite rd_ok by lia. apply fwp_lift. cbn [returns].
  assert ((u32 (from - to) =? 0) = (from =? to)) as ->.
  { unfold u32. destruct (Z.eqb_spec from to), (Z.eqb_spec ((from - to) mod 2 ^ 32) 0); try done; Z.div_mod_to_equations; lia. }
  destruct (Z.eqb_spec from to) as [->|Hne].
  - fstep. fstep; [lia|]. destruct (Z.ltb_spec to 12) as [Hlt|Hge].
    + fstep. split; [by apply served_refl|]. intros i Hi. apply rd_app_l, rd_direct; lia.
    + eapply fwp_mono; [apply (indirect_ok c L k); [done|by apply H12|done]|]. intros ab s' (Hs & _ & Hi). split; [done|]. intros i ?. apply Hi. lia.
  - destruct (Z.ltb_spec to 12) as [Hlt|Hge]; [fstep; split; [by apply served_refl|]; intros i Hi; apply rd_app_l, rd_direct; lia|].
    destruct (H12 Hge) as [Hn0 ?]. destruct (Z.ltb_spec from 12) as [Hlt'|Hge'];
      (fstep; fstep; [destruct (Z.eqb_spec (i_sectors n)@@12 0); done|]).
    + eapply fwp_mono; [apply (indirect_ok c L k); [done|by apply H12|]|].
      { rewrite !len_app, len_take; rewrite ?len_drop; unfold len; rewrite ?length_replicate; lia. }
      intros ab s' (Hs & Hd & Hi). split; [done|]. intros i Hir. destruct (Z.ltb_spec i 12); [|apply Hi; lia].
      apply Hd; [lia|]. apply rd_direct; lia.
    + eapply fwp_mono; [apply (indirect_ok c L k); [done|by apply H12|done]|]. intros ab s' (Hs & _ & Hi). split; [done|]. intros i ?. apply Hi. lia.
Qed.

(** ** Reading *)
Lemma ld_file_ok s i f Q : rd (file_table s) i = Ok f → Q f s → fwp (ld_file i) s Q.
Proof. intros H HQ. unfold ld_file. repeat fstep. by rewrite H. Qed.
Lemma st_file_ok s i f f' Q : rd (file_table s) i = Ok f → Q () (set_file_table (<[Z.to_nat i := f']> (file_table s)) s) → fwp (st_file i f') s Q.
Proof.
  intros H%rd_inv HQ. unfold st_file. fstep. fstep. rewrite wr_ok by lia. fstep. apply fwp_lift. cbn [returns]. by fstep.
Qed.

(** The file table with another position for file [i]. *)
Definition at_pos (i : Z) (pos : Z) s : fs S :=
  match rd (file_table s) i with
  | Ok f => set_file_table (<[Z.to_nat i := mkFile pos (fd_flag f) (fd_inode f)]> (file_table s)) s
  | _ => s
  end.

Lemma read_data_ok c L k n file size ab fuel : ∀ s f br, fs_at c L k s → rd (file_table s) file = Ok f →
  0 ≤ br ≤ size → size - br < Z.of_nat fuel → 0 ≤ fd_pos f → fd_pos f + (size - br) < 2 ^ 31 →
  (∀ i, fd_pos f / 512 ≤ i → i * 512 < fd_pos f + (size - br) →
     rd ab i = Ok (blk c (my_dev (cur_part s)) n i) ∧ 0 ≤ blk c (my_dev (cur_part s)) n i ≤ max_lba) →
  fwp (read_data fuel file ab br size) s (λ '(b, r) s', r = size
    ∧ b = fbytes c (my_dev (cur_part s)) n (fd_pos f) (Z.to_nat (size - br))
    ∧ served c L k (at_pos file (fd_pos f + (size - br)) s) s').
Proof.
  induction fuel as [|fuel IH]; intros s f br Hat Hf Hbr Hfu Hp0 Hp1 Hblk; [lia|]. pose proof (fs_at_wf _ _ _ _ Hat) as Hw.
  cbn [read_data]. destruct (Z.ltb_spec br size) as [Hlt|Hge].
  2: { apply fwp_ret. split_and!; [lia|by replace (Z.to_nat (size - br)) with O by lia|]. unfold at_pos. rewrite Hf.
    replace (mkFile _ _ _) with f by (destruct f; cbn; f_equal; lia). apply rd_inv in Hf as [_ Hf].
    rewrite list_insert_id by done. by destruct s; apply served_refl. }
  fstep. eapply ld_file_ok; [done|]. fstep. unfold BLOCK_SIZE, SECTOR_SIZE.
  destruct (Hblk (fd_pos f / 512)) as [-> Hb]; [lia|Z.div_mod_to_equations; lia|]. apply fwp_lift. cbn [returns].
  set (ch := if size - br <? 512 - fd_pos f mod 512 then size - br else 512 - fd_pos f mod 512).
  assert (0 < ch ≤ size - br ∧ fd_pos f mod 512 + ch ≤ 512 ∧ (ch < size - br → (fd_pos f + ch) mod 512 = 0)) as (C1 & C2 & C3).
  { unfold ch. destruct (Z.ltb_spec (size - br) (512 - fd_pos f mod 512)); Z.div_mod_to_equations; lia. }
  fstep. eapply fwp_read; [done|lia|lia|lia|]. intros s1 (x & -> & Hat1). fstep.
  rewrite slice_ok by (rewrite ?len_read_secs by done; Z.div_mod_to_equations; lia). apply fwp_lift. cbn [returns].
  rewrite slice_read by (done || (Z.div_mod_to_equations; lia)). rewrite Z2Nat.id by (Z.div_mod_to_equations; lia).
  rewrite <- fbytes_block by lia. fstep. eapply st_file_ok; [exact Hf|]. fstep. rewrite u32_id by lia.
  pose proof (rd_inv _ _ _ Hf) as [Hi _].
  eapply fwp_mono; [apply (IH _ (mkFile (fd_pos f + ch) (fd_flag f) (fd_inode f)))|].
  - by eapply fs_at_same.
  - cbn. apply rd_some; [lia|]. apply list_lookup_insert_eq. unfold len in Hi. lia.
  - lia.
  - lia.
  - cbn. lia.
  - cbn. lia.
  - cbn. intros i H1 H2. apply Hblk; Z.div_mod_to_equations; lia.
  - intros [b r] s2 (-> & -> & Hs). fstep. split_and!; [done| |].
    + cbn. replace (Z.to_nat (size - br)) with (Z.to_nat ch + Z.to_nat (size - (br + ch)))%nat by lia.
      rewrite fbytes_app. do 3 f_equal. lia.
    + destruct Hs as (y & -> & Hy). exists y. unfold at_pos in *. cbn in *. rewrite Hf.
      rewrite (rd_some _ _ (mkFile (fd_pos f + ch) (fd_flag f) (fd_inode f))) in *
        by (lia || (apply list_lookup_insert_eq; unfold len in Hi; lia)). cbn in *. rewrite list_insert_insert_eq in *.
      replace (fd_pos f + ch + (size - (br + ch))) with (fd_pos f + (size - br)) in * by lia. done.
Qed.

(** An open file: its entry [f], its inode [n] in memory, its position within
    its size, and the addresses of its blocks within the range of the driver. *)
Record file_at (c : disks) s (file : Z) (f : File) (n : INode) : Prop := {
  fa_file : rd (file_table s) file = Ok f;
  fa_inode : inodes s !! fd_inode f = Some n;
  fa_secs : length (i_sectors n) = 13%nat;
  fa_pos : 0 ≤ fd_pos f ≤ i_size n;
  fa_size : i_size n ≤ 140 * 512;
  fa_blk i : 0 ≤ i → i * 512 < i_size n → 0 ≤ blk c (my_dev (cur_part s)) n i ≤ max_lba;
  fa_table : 12 * 512 ≤ i_size n → table_at n;
}.

(** What can be read: the request, cut at the end of the file. *)
Definition read_size (f : File) (n : INode) (count : Z) : Z := Z.min count (i_size n - fd_pos f).

Lemma pool_me_served c L k s s' : served c L k s s' → pool_me s' = pool_me s.
Proof. by intros (x & -> & _). Qed.
Lemma malloc2_ok c L k s s1 s2 r1 r2 : r1 ≠ NULL → L !! r1 = None → served c (<[r1 := pool_me s]> L) (Datatypes.S k) s s1 →
  <[r1 := pool_me s]> L !! r2 = None → served c (<[r2 := pool_me s1]> (<[r1 := pool_me s]> L)) k s1 s2 →
  served c (<[r2 := pool_me s]> (<[r1 := pool_me s]> L)) k s s2.
Proof. intros _ _ H1 _ H2. rewrite (pool_me_served _ _ _ _ _ H1) in H2. by eapply served_trans. Qed.

(** Both buffers of a call given back, the second first. *)
Lemma free2_ok c L k s r1 r2 (A : Type) (a : A) pf : fs_at c (<[r2 := pf]> (<[r1 := pf]> L)) k s → pool_me s = pf →
  L !! r1 = None → <[r1 := pf]> L !! r2 = None →
  fwp (fs_free r2 ;; fs_free r1 ;; mret a) s (λ x s', x = a ∧ served c L k s s').
Proof.
  intros Hat Hp H1 H2. fstep. eapply fwp_free; [done|by rewrite lookup_insert_eq, Hp|]. intros s1 Hs1.
  rewrite delete_insert_id in Hs1 by done. fstep.
  eapply (fwp_free c (<[r1 := pf]> L)); [by destruct Hs1 as (x & -> & ?)|by rewrite lookup_insert_eq, (pool_me_served _ _ _ _ _ Hs1), Hp|].
  intros s2 Hs2. rewrite delete_insert_id in Hs2 by done. fstep. split; [done|]. by eapply served_trans.
Qed.

Lemma file_read_ok c L k s file f n count : fs_at c L (2 + k) s → file_at c s file f n → 0 ≤ count < 2 ^ 31 →
  let size := read_size f n count in
  (fd_pos f + size) / 512 < 139 → (0 < size ∨ count = 0) →
  fwp (file_read file count) s (λ '(b, r) s', r = size ∧ b = fbytes c (my_dev (cur_part s)) n (fd_pos f) (Z.to_nat size)
    ∧ served c L k (at_pos file (fd_pos f + size) s) s').
Proof.
  intros Hat [F1 F2 F3 F4 F5 F6 F7] Hc size Hend Hsz. unfold file_read. fstep. eapply ld_file_ok; [done|]. fstep. eapply ld_inode_ok; [done|].
  rewrite (u32_id (fd_pos f + count)), (u32_id (i_size n - fd_pos f)) by lia.
  assert ((if i_size n <? fd_pos f + count then i_size n - fd_pos f else count) = size) as ->
    by (unfold size, read_size; destruct (Z.ltb_spec (i_size n) (fd_pos f + count)); lia).
  assert ((i_size n <? fd_pos f + count) && (size =? 0) = false) as -> by (unfold size, read_size in *; zbool).
  assert (0 ≤ size ≤ i_size n - fd_pos f) as Hs0 by (unfold size, read_size; lia).
  fstep. eapply (fwp_malloc c L (1 + k)); [done|unfold BLOCK_SIZE, SECTOR_SIZE; lia|]. intros r1 s1 R1 N1 Hs1.
  destruct (Z.eqb_spec r1 NULL) as [|_]; [done|]. do 3 fstep.
  eapply (fwp_malloc c _ k); [by destruct Hs1 as (x & _ & ?)|unfold BLOCK_SIZE, SECTOR_SIZE; lia|]. intros r2 s2 R2 N2 Hs2.
  destruct (Z.eqb_spec r2 NULL) as [|_]; [done|]. pose proof (malloc2_ok _ _ _ _ _ _ _ _ R1 N1 Hs1 N2 Hs2) as (x & -> & Hat2).
  unfold BLOCK_SIZE, SECTOR_SIZE. rewrite u32_id by lia. fstep. fstep; [zbool; Z.div_mod_to_equations; lia|]. fstep.
  eapply fwp_mono; [eapply (read_blocks_ok c _ k); [exact Hat2|done|split; Z.div_mod_to_equations; lia|lia|]|].
  { intros H12. apply F7. Z.div_mod_to_equations. lia. }
  intros ab s3 [(x3 & -> & Hat3) Hab]. cbn [cur_part set_sv] in Hab. fstep. fstep; [done|]. fstep.
  eapply fwp_mono; [eapply (read_data_ok c _ k n file size ab _ _ f 0); [exact Hat3|done|lia|lia|lia|lia|]|].
  { cbn. intros i H1 H2. split; [apply Hab; Z.div_mod_to_equations; lia|]. apply F6; Z.div_mod_to_equations; lia. }
  intros [b r] s4 (-> & -> & Hs4). cbn [cur_part set_sv] in *. rewrite Z.sub_0_r in *.
  assert (pool_me s4 = pool_me s) as Hp4.
  { destruct Hs4 as (x4 & -> & _). unfold at_pos. cbn. by rewrite F1. }
  eapply fwp_mono; [eapply (free2_ok c L k s4 r1 r2 _ _ (pool_me s)); [by destruct Hs4 as (x4 & _ & ?)|done..]|].
  intros [b r] s5 [[= -> ->] Hs5]. split_and!; [rewrite i32_id; lia|done|].
  destruct Hs4 as (x4 & -> & _), Hs5 as (x5 & -> & Hx5). exists x5. unfold at_pos in *. cbn in *. by rewrite F1 in *.
Qed.

(** C10: [file_read] of an open file, for every position and request that ends before
    byte 71168 of the file (139 blocks; beyond, an assertion fails:
    [file_read_last_block_panics]), through direct blocks, the indirect table or
    both: it returns exactly the bytes of the file from its position on, as many
    as asked for or as there are left, and moves the position past them; at the
    end of the file it returns -1.  Memory taken for the call is given back. *)
Theorem file_read_correct c L k s file f n count :
  fs_at c L (2 + k) s → file_at c s file f n → 0 ≤ count < 2 ^ 31 →
  (fd_pos f + read_size f n count < 139 * 512 → 0 < read_size f n count ∨ count = 0 →
     ∃ s', file_read file count s = Ok ((fbytes c (my_dev (cur_part s)) n (fd_pos f) (Z.to_nat (read_size f n count)), read_size f n count), s')
       ∧ served c L k (at_pos file (fd_pos f + read_size f n count) s) s')
  ∧ (fd_pos f = i_size n → 0 < count → file_read file count s = Ok (([], -1), s)).
Proof.
  intros Hat Hf Hc. split.
  - intros He Hs. destruct (fwp_inv _ _ _ (file_read_ok c L k s file f n count Hat Hf Hc ltac:(Z.div_mod_to_equations; lia) Hs))
      as ([b r] & s' & E & -> & -> & Hs'). eauto.
  - intros He Hc0. assert (fwp (file_read file count) s (λ r s', r = ([], -1) ∧ s' = s)) as (r & s' & E & -> & ->)%fwp_inv; [|done].
    destruct Hf as [F1 F2 F3 F4 F5 F6 F7]. unfold file_read. fstep. eapply ld_file_ok; [done|]. fstep. eapply ld_inode_ok; [done|].
    rewrite (u32_id (fd_pos f + count)), (u32_id (i_size n - fd_pos f)), He, Z.sub_diag by lia.
    destruct (Z.ltb_spec (i_size n) (i_size n + count)); [|lia]. by apply fwp_ret.
Qed.

(** A file may have 140 blocks, and [file_write] fills them all, but [file_read]
    asserts that it stays below block 139: a request that reaches byte 71168 or
    beyond is a panic. *)
Theorem file_read_last_block_panics c L k s file f n count :
  fs_at c L (2 + k) s → file_at c s file f n → 0 < count < 2 ^ 31 → fd_pos f < i_size n →
  139 * 512 ≤ fd_pos f + read_size f n count → file_read file count s = Panic.
Proof.
  intros Hat [F1 F2 F3 F4 F5 F6 F7] Hc Hlt Hend. unfold file_read. unfold read_size in *.
  apply bind_panics. eapply ld_file_ok; [done|]. apply bind_panics. eapply ld_inode_ok; [done|].
  rewrite (u32_id (fd_pos f + count)), (u32_id (i_size n - fd_pos f)) by lia.
  set (size := if i_size n <? fd_pos f + count then _ else _).
  assert (size = Z.min count (i_size n - fd_pos f)) as Hsz by (unfold size; destruct (Z.ltb_spec (i_size n) (fd_pos f + count)); lia).
  destruct (Z.eqb_spec size 0) as [|_]; [lia|]. rewrite andb_false_r.
  apply bind_panics. eapply (fwp_malloc c L (1 + k)); [done|unfold BLOCK_SIZE, SECTOR_SIZE; lia|]. intros r1 s1 R1 N1 Hs1.
  destruct (Z.eqb_spec r1 NULL) as [|_]; [done|]. apply bind_panics. fstep.
  apply bind_panics. eapply (fwp_malloc c _ k); [by destruct Hs1 as (x & _ & ?)|unfold BLOCK_SIZE, SECTOR_SIZE; lia|]. intros r2 s2 R2 N2 Hs2.
  destruct (Z.eqb_spec r2 NULL) as [|_]; [done|]. unfold BLOCK_SIZE, SECTOR_SIZE. rewrite u32_id by lia.
  assert (((fd_pos f / 512 <? 139) && ((fd_pos f + size) / 512 <? 139)) = false) as -> by (zbool; Z.div_mod_to_equations; lia).
  done.
Qed.
End spec.
