(* ===== verification/FsAlloc.v ===== *)
(** * Blocks of the partition: allocation and the bitmap on the disk

    The layout of a mounted partition, and what [block_bitmap_alloc] and
    [bitmap_sync] do to it: the allocated block was free, and the bitmap on the
    disk follows the one in memory without touching a data block. *)
From Stdlib Require Import String.
From S2P Require Import Prelude CString Bitmap Machine Ide DiskBytes FsBase Inode.

(** The regions of the partition follow each other, and the driver reaches
    every block. *)
Record part_ok (p : Partition) : Prop := {
  po_table : table_ok p;
  po_bb : 0 ≤ block_bitmap_lba (sb p) ∧ 0 ≤ block_bitmap_sects (sb p) ∧ 0 ≤ inode_bitmap_sects (sb p);
  po_ib : block_bitmap_lba (sb p) + block_bitmap_sects (sb p) ≤ inode_bitmap_lba (sb p);
  po_it : inode_bitmap_lba (sb p) + inode_bitmap_sects (sb p) ≤ inode_table_lba (sb p);
  po_ds : inode_table_lba (sb p) + 608 ≤ data_start_lba (sb p);
  po_bits : bm_wf (block_bitmap p);
  po_blen : btmp_bytes_len (block_bitmap p) = 512 * block_bitmap_sects (sb p);
  po_more : btmp_bytes_len (block_bitmap p) < len (bits (block_bitmap p));
  po_max : data_start_lba (sb p) + nbits (block_bitmap p) ≤ max_lba + 1;
}.

Definition block_used (p : Partition) (b : Z) : bool := used (block_bitmap p) (b - data_start_lba (sb p)).
Definition in_data (p : Partition) (b : Z) : Prop := data_start_lba (sb p) ≤ b < data_start_lba (sb p) + nbits (block_bitmap p).
Definition is_full (p : Partition) : Prop := ∀ b, in_data p b → block_used p b = true.

(** [p'] is [p] with block [b] marked. *)
Definition marked (p p' : Partition) (b : Z) : Prop :=
  ∃ m, p' = set_block_bitmap m p ∧ btmp_bytes_len m = btmp_bytes_len (block_bitmap p) ∧ len (bits m) = len (bits (block_bitmap p))
    ∧ bm_wf m ∧ ∀ b', in_data p b' → block_used p' b' = if b' =? b then true else block_used p b'.

Lemma marked_ok p p' b : part_ok p → marked p p' b → part_ok p'.
Proof. intros [? ? ? ? ? ? ? ? Hm] (m & -> & Hl & Hl' & Hw & _). split; cbn; try done; unfold nbits in *; cbn; rewrite ?Hl, ?Hl'; done. Qed.
Lemma marked_in_data p p' b b' : marked p p' b → in_data p' b' ↔ in_data p b'.
Proof. intros (m & -> & Hl & _). unfold in_data, nbits. cbn. by rewrite Hl. Qed.

(** The contents of the data region on the device of [p]. *)
Definition data_same (p : Partition) (c c' : disks) : Prop :=
  ∀ x, 512 * data_start_lba (sb p) ≤ x → dbyte c' (my_dev p) x = dbyte c (my_dev p) x.
Lemma data_same_refl p c : data_same p c c.
Proof. by intros x. Qed.
Lemma data_same_trans p c1 c2 c3 : data_same p c1 c2 → data_same p c2 c3 → data_same p c1 c3.
Proof. intros H1 H2 x Hx. by rewrite H2, H1. Qed.

Lemma sector_same p c c' b : disks_wf c → disks_wf c' → data_same p c c' → data_start_lba (sb p) ≤ b → c' (my_dev p) b = c (my_dev p) b.
Proof.
  intros Hw Hw' Hs Hb. apply nthz_ext; [by unfold len; rewrite Hw, Hw'|]. unfold len. rewrite Hw'. intros i Hi.
  specialize (Hs (512 * b + i) ltac:(lia)). unfold dbyte in Hs.
  replace ((512 * b + i) / 512) with b in Hs by (Z.div_mod_to_equations; lia).
  by replace ((512 * b + i) mod 512) with i in Hs by (Z.div_mod_to_equations; lia).
Qed.

(** ** The bitmap on the disk *)

(** The bit of block [b] in the sectors of the bitmap. *)
Definition disk_used (c : disks) (p : Partition) (b : Z) : bool :=
  let i := b - data_start_lba (sb p) in Z.testbit (dbyte c (my_dev p) (512 * block_bitmap_lba (sb p) + i / 8)) (i mod 8).
(** The disk has the bits of the bitmap in memory, but for the blocks [X]. *)
Definition synced (c : disks) (p : Partition) (X : list Z) : Prop := ∀ b, in_data p b → b ∉ X → disk_used c p b = block_used p b.
(** The sectors of the bitmap are the same. *)
Definition bitmap_same (p : Partition) (c c' : disks) : Prop :=
  ∀ x, 512 * block_bitmap_lba (sb p) ≤ x < 512 * (block_bitmap_lba (sb p) + block_bitmap_sects (sb p)) →
    dbyte c' (my_dev p) x = dbyte c (my_dev p) x.

Lemma disk_used_same p c c' b : part_ok p → bitmap_same p c c' → in_data p b → disk_used c' p b = disk_used c p b.
Proof.
  intros Hp Hs Hb. pose proof (po_blen _ Hp) as Hbl. unfold in_data, nbits in Hb. unfold disk_used. f_equal. apply Hs.
  clear -Hbl Hb. Z.div_mod_to_equations. lia.
Qed.

(** From [p] to [p'] exactly the blocks [new] and [late] were marked; on the disk
    the bits of [late] may be missing, all others follow. *)
Record bits_kept (c : disks) (p : Partition) (c' : disks) (p' : Partition) (new late : list Z) : Prop := {
  bk_mem b : in_data p b → block_used p' b = block_used p b || bool_decide (b ∈ new ++ late);
  bk_disk X : synced c p X → synced c' p' (late ++ X);
}.

Lemma bits_kept_refl c p : bits_kept c p c p [] [].
Proof. split; [|done]. intros b _. rewrite bool_decide_false by (intros ?%not_elem_of_nil; done). by rewrite orb_false_r. Qed.
Lemma bits_kept_trans c p c1 p1 c2 p2 n1 l1 n2 l2 : (∀ b, in_data p1 b ↔ in_data p b) →
  bits_kept c p c1 p1 n1 l1 → bits_kept c1 p1 c2 p2 n2 l2 → bits_kept c p c2 p2 (n1 ++ n2) (l1 ++ l2).
Proof.
  intros Hi [M1 D1] [M2 D2]. split.
  - intros b Hb. rewrite M2, M1, <- orb_assoc by (done || by apply Hi). f_equal. rewrite <- bool_decide_or. apply bool_decide_ext. set_solver.
  - intros X HX b Hb Hn. apply (D2 (l1 ++ X) (D1 X HX)); [done|]. set_solver.
Qed.
Lemma bits_kept_same c p c1 c2 p1 n l : part_ok p1 → bitmap_same p1 c1 c2 → bits_kept c p c1 p1 n l → bits_kept c p c2 p1 n l.
Proof. intros Hp Hs [M D]. split; [done|]. intros X HX b Hb Hn. rewrite (disk_used_same p1 c1 c2) by done. by apply (D X HX). Qed.
(** Marked in memory only. *)
Lemma marked_kept c p p' b : in_data p b → marked p p' b → bits_kept c p c p' [] [b].
Proof.
  intros Hb (m & -> & Hl & _ & _ & Hm). split.
  - intros b' Hb'. rewrite Hm by done. cbn [app]. destruct (Z.eqb_spec b' b) as [->|Hne].
    + rewrite bool_decide_true by set_solver. by rewrite orb_true_r.
    + rewrite bool_decide_false by set_solver. by rewrite orb_false_r.
  - intros X HX b' Hb' Hn. assert (in_data p b') as Hi by (unfold in_data, nbits in *; cbn in Hb'; by rewrite Hl in Hb').
    rewrite Hm by done. destruct (Z.eqb_spec b' b) as [->|Hne]; [set_solver|]. apply HX; [done|]. set_solver.
Qed.
(** Marked, and its sector written. *)
Lemma marked_synced_kept c c' p p' b : in_data p b → marked p p' b → (∀ X, synced c p' (b :: X) → synced c' p' X) → bits_kept c p c' p' [b] [].
Proof.
  intros Hb Hm Hs. destruct (marked_kept c p p' b Hb Hm) as [M D]. split; [done|]. intros X HX. by apply Hs, (D X).
Qed.

Section alloc.
Context {S : Type} `{!Services S}.
Implicit Types s : fs S.

Lemma block_bitmap_alloc_ok s : part_ok (cur_part s) →
  fwp block_bitmap_alloc s (λ r s', (r = -1 ∧ s' = s ∧ is_full (cur_part s))
    ∨ (in_data (cur_part s) r ∧ block_used (cur_part s) r = false ∧ ∃ p', s' = set_cur_part p' s ∧ marked (cur_part s) p' r)).
Proof.
  intros Hp. destruct (Hp) as [(T1 & T2 & T3 & T4) (B1 & B2 & B3) Hib Hit Hds Hw Hbl Hmore Hmax]. rewrite max_lba_eq in *.
  unfold block_bitmap_alloc. do 3 fstep. apply fwp_lift. pose proof (bm_len _ Hw) as Hl.
  eapply returns_mono; [apply bitmap_scan_ok; [done|done|lia|unfold nbits in *; lia]|]. intros r [[-> Hn]|(Hr & _ & Hf & _)].
  - rewrite Z.eqb_refl. fstep. left. split_and!; [done|done|]. intros b Hb. unfold block_used. destruct (used _ _) eqn:E; [done|].
    exfalso. unfold in_data in Hb. apply (Hn (b - data_start_lba (sb (cur_part s)))); [lia|lia|]. intros i Hi.
    by replace i with (b - data_start_lba (sb (cur_part s))) by lia.
  - destruct (Z.eqb_spec r (-1)); [lia|]. fstep. unfold part_bitmap_set. do 3 fstep. apply fwp_lift. cbn [bitmap_of].
    unfold nbits in *. eapply returns_mono; [apply (bitmap_set_ok _ r true); [done|lia]|]. intros m (Sl & Sl' & Sw & Su). do 2 fstep.
    right. unfold in_data, nbits. rewrite i32_id by lia. split_and!; [lia|lia| |].
    + unfold block_used. replace (data_start_lba (sb (cur_part s)) + r - data_start_lba (sb (cur_part s))) with r by lia. apply Hf. lia.
    + eexists. split; [done|]. exists m. split_and!; try done. intros b Hb. unfold block_used, in_data, nbits in *. cbn. rewrite Su by lia.
      destruct (Z.eqb_spec (b - data_start_lba (sb (cur_part s))) r), (Z.eqb_spec b (data_start_lba (sb (cur_part s)) + r)); try lia; done.
Qed.

Lemma bitmap_sync_ok c L k s b : fs_at c L k s → part_ok (cur_part s) → in_data (cur_part s) b →
  fwp (bitmap_sync (u32 (b - data_start_lba (sb (cur_part s)))) BLOCK_BITMAP) s (λ _ s', ∃ c', served c' L k s s' ∧ data_same (cur_part s) c c'
    ∧ ∀ X, synced c (cur_part s) (b :: X) → synced c' (cur_part s) X).
Proof.
  intros Hat [(T1 & T2 & T3 & T4) (B1 & B2 & B3) Hib Hit Hds Hw Hbl Hmore Hmax] Hb. rewrite max_lba_eq in *.
  pose proof (fs_at_wf _ _ _ _ Hat) as Hwf. unfold bitmap_sync, in_data, nbits in *. do 2 fstep. cbn [bitmap_of bitmap_lba].
  set (i := b - data_start_lba (sb (cur_part s))). rewrite (u32_id i) by lia. unfold BLOCK_SIZE, SECTOR_SIZE.
  assert (0 ≤ i / 4096 < block_bitmap_sects (sb (cur_part s))) as Hi by (unfold i; Z.div_mod_to_equations; lia).
  rewrite (u32_id (i / 4096 * 512)), (u32_id (_ + i / 4096)) by lia. fstep.
  assert (slice (bits (block_bitmap (cur_part s))) (i / 4096 * 512) 512
    = Ok (take 512 (drop (Z.to_nat (i / 4096 * 512)) (bits (block_bitmap (cur_part s)))))) as ->.
  { unfold slice. destruct (Z.leb_spec 0 (i / 4096 * 512)), (Z.leb_spec (i / 4096 * 512 + 512) (len (bits (block_bitmap (cur_part s))))); try lia. done. }
  apply fwp_lift. cbn [returns].
  assert (len (take 512 (drop (Z.to_nat (i / 4096 * 512)) (bits (block_bitmap (cur_part s))))) = 512) as Hl by (rewrite len_take; rewrite ?len_drop; lia).
  eapply fwp_write; [done|lia|lia|rewrite max_lba_eq; lia|lia|]. intros s' Hs. eexists. split; [done|].
  destruct (write_secs_patched c (my_dev (cur_part s)) (block_bitmap_lba (sb (cur_part s)) + i / 4096) 1 _ Hwf Hl) as [_ Hpt].
  change (Z.to_nat 1) with 1%nat. rewrite Hl in Hpt. split; [intros x Hx; rewrite Hpt, decide_False; [done|lia]|].
  intros X HX b' Hb' Hn. unfold disk_used. rewrite Hpt. unfold in_data, nbits in Hb'. set (j := b' - data_start_lba (sb (cur_part s))).
  destruct (Z.eq_dec (j / 4096) (i / 4096)) as [Ej|Ej].
  - assert (j / 8 = i / 4096 * 512 + (j / 8 - i / 4096 * 512) ∧ 0 ≤ j / 8 - i / 4096 * 512 < 512) as [E Hr] by (clear -Ej; Z.div_mod_to_equations; lia).
    rewrite decide_True by (split; [done|lia]).
    replace (512 * block_bitmap_lba (sb (cur_part s)) + j / 8 - 512 * (block_bitmap_lba (sb (cur_part s)) + i / 4096)) with (j / 8 - i / 4096 * 512) by lia.
    rewrite nthz_take by lia. unfold block_used, used. fold j. f_equal. rewrite nthz_drop by lia. f_equal. lia.
  - rewrite decide_False; [|clear -Ej; intros [_ ?]; apply Ej; Z.div_mod_to_equations; lia].
    apply (HX b'); [unfold in_data, nbits; lia|]. intros [->|?]%elem_of_cons; done.
Qed.

(** The inode table is before the data. *)
Lemma inode_patched_data p c c' no l : part_ok p → 0 ≤ no < 4096 → len l = 76 → patched c (my_dev p) (inode_addr p no) l c' → data_same p c c'.
Proof.
  intros Hp Hn Hl [_ Ht] x Hx. destruct (Hp) as [_ _ _ _ Hds _ _ _ _]. rewrite Ht, decide_False; [done|]. unfold inode_addr in *. lia.
Qed.
(** The bitmap is before both. *)
Lemma inode_patched_bitmap p c c' no l : part_ok p → 0 ≤ no → patched c (my_dev p) (inode_addr p no) l c' → bitmap_same p c c'.
Proof.
  intros Hp Hn [_ Ht] x Hx. destruct (Hp) as [_ (_ & _ & ?) ? ? _ _ _ _ _]. rewrite Ht, decide_False; [done|]. unfold inode_addr in *. lia.
Qed.
End alloc.
