(* ===== verification/FileWrite.v ===== *)
(** * fs/file.c: appending to a file

    [file_write] allocates the blocks it needs, writes the data behind the end
    of the file and updates the inode.  [g] is the list of the file's blocks;
    the addresses in the inode and in the indirect table are views of it. *)
From Stdlib Require Import String.
From S2P Require Import Prelude CString Bitmap Machine Ide DiskBytes FsBase Inode Dir File FileSpec FsAlloc.

(** The blocks [g] and the table [T] of a file (NULL: none): distinct, in the
    data region, marked. *)
Record owns (p : Partition) (g : list Z) (T : Z) : Prop := {
  ow_nodup : NoDup (if T =? 0 then g else T :: g);
  ow_in b : b ∈ g ∨ b = T ∧ T ≠ 0 → in_data p b ∧ block_used p b = true;
}.

(** The inode's view of [g]. *)
Record view (n : INode) (g : list Z) (T : Z) : Prop := {
  vi_len : length (i_sectors n) = 13%nat;
  vi_dir i : 0 ≤ i < 12 → (i_sectors n)@@i = if i <? len g then g@@i else 0;
  vi_tab : (i_sectors n)@@12 = T;
}.

(** The addresses a reader finds are those of [g]. *)
Definition mapped (c : disks) (dev : Z) (n : INode) (g : list Z) : Prop := ∀ i, 0 ≤ i < len g → blk c dev n i = g@@i.


Lemma nthz_elem (l : list Z) i : 0 ≤ i < len l → l@@i ∈ l.
Proof.
  unfold len. intros Hi. destruct (lookup_lt_is_Some_2 l (Z.to_nat i) ltac:(lia)) as [v Hv].
  rewrite (nthz_lookup _ _ v) by (done || lia). by eapply list_elem_of_lookup_2.
Qed.
Lemma nthz_inj (l : list Z) i j : NoDup l → 0 ≤ i < len l → 0 ≤ j < len l → l@@i = l@@j → i = j.
Proof.
  unfold len. intros Hn Hi Hj E. destruct (lookup_lt_is_Some_2 l (Z.to_nat i) ltac:(lia)) as [v Hv].
  destruct (lookup_lt_is_Some_2 l (Z.to_nat j) ltac:(lia)) as [w Hw].
  rewrite (nthz_lookup _ _ v), (nthz_lookup _ _ w) in E by (done || lia). subst w.
  pose proof (NoDup_lookup _ _ _ _ Hn Hv Hw). lia.
Qed.

(** [p'] is [p] with more blocks marked. *)
Definition grown (p p' : Partition) : Prop :=
  p' = set_block_bitmap (block_bitmap p') p ∧ btmp_bytes_len (block_bitmap p') = btmp_bytes_len (block_bitmap p)
  ∧ ∀ b, in_data p b → block_used p b = true → block_used p' b = true.
Lemma grown_refl p : grown p p.
Proof. by split_and!; [destruct p| |]. Qed.
Lemma grown_in_data p p' b : grown p p' → in_data p' b ↔ in_data p b.
Proof. intros (E & Hl & _). unfold in_data, nbits. rewrite Hl. rewrite E. done. Qed.
Lemma grown_trans p1 p2 p3 : grown p1 p2 → grown p2 p3 → grown p1 p3.
Proof.
  intros H1 H2. pose proof (λ b, grown_in_data p1 p2 b H1) as Hi. destruct H1 as (E1 & L1 & U1), H2 as (E2 & L2 & U2).
  split_and!; [rewrite E2 at 1; rewrite E1; done|congruence|]. intros b Hb Hu. apply U2; [by apply Hi|by apply U1].
Qed.
Lemma marked_grown p p' b : marked p p' b → grown p p'.
Proof. intros (m & -> & Hl & _ & _ & Hu). split_and!; [done|done|]. intros b' Hb Hb'. rewrite Hu by done. by destruct (b' =? b). Qed.

Lemma owns_grown p p' g T : owns p g T → grown p p' → owns p' g T.
Proof.
  intros [H1 H2] Hg. split; [done|]. intros b Hb. destruct (H2 b Hb) as [Hi Hu]. split; [by apply (grown_in_data p p' b Hg)|]. by apply Hg.
Qed.
(** A block that was free is none of the file's. *)
Lemma owns_fresh p g T b : owns p g T → block_used p b = false → (b ∉ g) ∧ (T ≠ 0 → b ≠ T).
Proof. intros [_ H] Hb. split; [intros Hin|intros HT ->]; destruct (H _ ltac:(eauto)); congruence. Qed.
Lemma in_data_pos p b : part_ok p → in_data p b → 608 ≤ b ≤ max_lba.
Proof. intros [(T1 & _) _ _ _ Hds _ _ _ Hmax]. unfold in_data. lia. Qed.

Lemma owns_snoc p p' g T b : part_ok p → owns p g T → in_data p b → block_used p b = false → marked p p' b → owns p' (g ++ [b]) T.
Proof.
  intros Hp Ho Hb Hu Hm. destruct (owns_fresh _ _ _ _ Ho Hu) as [Hng HnT].
  destruct (owns_grown _ _ _ _ Ho (marked_grown _ _ _ Hm)) as [H1 H2]. split.
  - destruct (Z.eqb_spec T 0); [apply NoDup_app; split_and!; [done|set_solver|apply NoDup_singleton]|].
    apply NoDup_cons in H1 as [HT Hg]. apply NoDup_cons. split; [set_solver|]. apply NoDup_app. split_and!; [done|set_solver|apply NoDup_singleton].
  - intros b' [[Hin|Hin]%elem_of_app|Hin]; [by apply H2; left| |by apply H2; right]. apply list_elem_of_singleton in Hin as ->.
    split; [by apply (marked_in_data p p' b b Hm)|]. destruct Hm as (m & -> & _ & _ & _ & Hm). rewrite Hm by done. by rewrite Z.eqb_refl.
Qed.

Lemma view_snoc n g T b secs : view n g T → len g < 12 → secs = <[Z.to_nat (len g) := b]> (i_sectors n) → view (set_i_sectors secs n) (g ++ [b]) T.
Proof.
  intros [V1 V2 V3] Hg ->. pose proof (len_nonneg g). assert (len (i_sectors n) = 13) by (unfold len; lia). split; cbn [i_sectors set_i_sectors].
  - by rewrite length_insert.
  - intros i Hi. rewrite len_snoc. destruct (Z.eq_dec (len g) i) as [<-|Hne].
    + rewrite nthz_insert_eq by lia. destruct (Z.ltb_spec (len g) (len g + 1)); [|lia]. rewrite nthz_app_r, Z.sub_diag by lia. done.
    + rewrite nthz_insert_ne, V2 by lia. destruct (Z.ltb_spec i (len g)), (Z.ltb_spec i (len g + 1)); try lia. by rewrite nthz_app_l.
  - rewrite nthz_insert_ne by lia. done.
Qed.
Lemma view_snoc_far n g T b : view n g T → 12 ≤ len g → view n (g ++ [b]) T.
Proof.
  intros [V1 V2 V3] Hg. split; [done| |done]. intros i Hi. rewrite V2, len_snoc by lia.
  destruct (Z.ltb_spec i (len g)), (Z.ltb_spec i (len g + 1)); try lia. by rewrite nthz_app_l.
Qed.

Section write.
Context {S : Type} `{!Services S}.
Implicit Types s : fs S.
Context (s0 : fs S) (a : Z) (L : gmap Z PoolType) (k : nat).

(** The states [file_write] passes through: the services, what was printed, the
    bitmap, the inode of the file and the file table change. *)
Definition W (x : S) (con : list (string * list arg)) (p : Partition) (n : INode) (ft : list File) : fs S :=
  mkFs x con (me s0) p (<[a := n]> (inodes s0)) (dirs s0) (root_dir s0) ft.

Definition at_disk (c : disks) (x : S) (p : Partition) : Prop := sv_at c L k x ∧ (my_dev p = 0 ∨ my_dev p = 1) ∧ part_ok p.

Lemma at_disk_fs c x con p n ft : at_disk c x p → fs_at c L k (W x con p n ft).
Proof. by intros (? & ? & _). Qed.
Lemma served_W c c' x con p n ft s' : at_disk c x p → served c' L k (W x con p n ft) s' → ∃ x', s' = W x' con p n ft ∧ at_disk c' x' p.
Proof. intros (_ & Hd & Hp) (x' & -> & Hx & _). by exists x'. Qed.

(** A block is taken, and its bit written. *)
Lemma alloc_block_ok c x con p n ft msg Q : at_disk c x p →
  (∀ con', is_full p → Q None (W x con' p n ft)) →
  (∀ b p', in_data p b → block_used p b = false → marked p p' b → at_disk c x p' → Q (Some b) (W x con p' n ft)) →
  fwp (alloc_block msg) (W x con p n ft) Q.
Proof.
  intros Hat HN HS. destruct (Hat) as (Hx & Hd & Hp). unfold alloc_block. do 3 fstep.
  eapply fwp_mono; [apply block_bitmap_alloc_ok; done|]. intros r s' [(-> & -> & Hfull)|(Hb & Hu & p' & -> & Hm)].
  - rewrite Z.eqb_refl. unfold say. repeat fstep. by apply HN.
  - destruct (in_data_pos _ _ Hp Hb). destruct (Z.eqb_spec r (-1)); [lia|]. fstep. apply HS; [done..|].
    split_and!; [done| |by eapply marked_ok]. destruct Hm as (m & -> & _). done.
Qed.

Lemma sync_block_ok c x con p n ft b Q : at_disk c x p → in_data p b →
  (∀ c' x', at_disk c' x' p → data_same p c c' → (∀ X, synced c p (b :: X) → synced c' p X) → Q () (W x' con p n ft)) → fwp (sync_block b) (W x con p n ft) Q.
Proof.
  intros Hat Hb HQ. unfold sync_block. do 2 fstep. cbn [cur_part W].
  eapply fwp_mono; [apply (bitmap_sync_ok c L k); [by apply at_disk_fs|apply Hat|done]|].
  intros [] s' (c' & Hs & Hd & Hsy). destruct (served_W _ _ _ _ _ _ _ _ Hat Hs) as (x' & -> & Hat'). by eapply HQ.
Qed.

Definition inode_like (n n' : INode) : Prop := n' = set_i_sectors (i_sectors n') n.

(** What the allocation of blocks for positions [len g] on leaves. *)
Record allocated (c : disks) (p : Partition) (n : INode) (g : list Z) (T : Z) (c' : disks) (x' : S) (p' : Partition) (n' : INode) (g' : list Z) : Prop := {
  al_disk : at_disk c' x' p';
  al_grown : grown p p';
  al_owns : owns p' g' T;
  al_view : view n' g' T;
  al_like : inode_like n n';
  al_data : data_same p c c';
  al_wf : disks_wf c';
  al_bits h : g' = g ++ h → bits_kept c p c' p' h [];
}.
Lemma grown_part p p' : grown p p' → sb p' = sb p ∧ my_dev p' = my_dev p.
Proof. by intros (-> & _). Qed.
Lemma data_same_grown p p' c c' : grown p p' → data_same p' c c' → data_same p c c'.
Proof. intros Hg H. unfold data_same in *. by destruct (grown_part _ _ Hg) as [<- <-]. Qed.

Lemma kept_nil c p (g h : list Z) : g = g ++ h → bits_kept c p c p h [].
Proof. intros E. rewrite <- (app_nil_r g) in E at 1. apply app_inv_head in E as <-. apply bits_kept_refl. Qed.

Lemma alloc_loop_ok m : ∀ c x con p n ft g T ab msg, at_disk c x p → disks_wf c → owns p g T → view n g T → len ab = 140 → len g + Z.of_nat m ≤ 140 →
  fwp (alloc_loop m a (len g) ab msg) (W x con p n ft) (λ r s', match r with
    | None => is_full (cur_part s')
    | Some ab' => ∃ c' x' p' n' h, s' = W x' con p' n' ft ∧ length h = m ∧ allocated c p n g T c' x' p' n' (g ++ h) ∧ len ab' = 140
        ∧ (∀ i, len g ≤ i < len g + Z.of_nat m → ab'@@i = (g ++ h)@@i) ∧ (∀ i, i < len g ∨ len g + Z.of_nat m ≤ i → ab'@@i = ab@@i)
        ∧ (∀ b, b ∈ h → block_used p b = false) end).
Proof.
  induction m as [|m IH]; intros c x con p n ft g T ab msg Hat Hw Ho Hv Hab Hm; cbn [alloc_loop].
  { fstep. exists c, x, p, n, []. rewrite app_nil_r. split_and!; [done..| |done|intros; lia|done|by intros b ?%not_elem_of_nil].
    split; try done; [apply grown_refl|by destruct n|by apply kept_nil]. }
  pose proof (len_nonneg g). fstep. eapply alloc_block_ok; [done|by intros con' Hfull; fstep|].
  intros b p' Hb Hu Hm' Hat'. destruct (Hat) as (_ & _ & Hp). pose proof (owns_snoc _ _ _ _ _ Hp Ho Hb Hu Hm') as Ho'.
  destruct (in_data_pos _ _ Hp Hb) as [Hb0 Hb1]. rewrite max_lba_eq in Hb1. pose proof (marked_grown _ _ _ Hm') as Hg'.
  fstep. set (n1 := if len g <? 12 then set_i_sectors (<[Z.to_nat (len g) := b]> (i_sectors n)) n else n).
  assert (len (i_sectors n) = 13) as Hl13 by (unfold len; rewrite (vi_len _ _ _ Hv); done).
  assert (view n1 (g ++ [b]) T ∧ inode_like n n1) as [Hv1 Hlk1].
  { unfold n1. destruct (Z.ltb_spec (len g) 12); [split; [by apply (view_snoc n g T b)|done]|split; [by apply view_snoc_far|by destruct n]]. }
  rewrite u32_id by lia.
  assert (∀ Q, Q () (W x con p' n1 ft) → fwp (if len g <? 12 then
     nd ← ld_inode a; si ← flift (rd (i_sectors nd) (len g)); fassert (si =? 0) ;;
     secs ← flift (wr (i_sectors nd) (len g) b); st_inode a (set_i_sectors secs nd) else mret ()) (W x con p' n ft) Q) as Hstep.
  { intros Q HQ. unfold n1 in HQ. destruct (Z.ltb_spec (len g) 12) as [Hlt|]; [|by fstep].
    fstep. eapply ld_inode_ok; [cbn; apply lookup_insert_eq|]. fstep. rewrite rd_ok by lia. apply fwp_lift. cbn [returns].
    fstep. fstep; [rewrite (vi_dir _ _ _ Hv) by lia; destruct (Z.ltb_spec (len g) (len g)); [lia|done]|].
    fstep. rewrite wr_ok by lia. apply fwp_lift. cbn [returns]. eapply st_inode_ok; [cbn; apply lookup_insert_eq|].
    unfold set_inodes, W. cbn. rewrite insert_insert_eq. exact HQ. }
  apply Hstep. fstep. rewrite wr_ok by lia. apply fwp_lift. cbn [returns]. fstep.
  eapply sync_block_ok; [done|by apply (marked_in_data p p' b b Hm')|]. intros c1 x1 Hat1 Hd1 Hsy1.
  pose proof (marked_synced_kept _ _ _ _ _ Hb Hm' Hsy1) as Hk1.
  pose proof (sv_wf _ _ _ _ (proj1 Hat1)) as Hw1. replace (len g + 1) with (len (g ++ [b])) by apply len_snoc.
  eapply fwp_mono; [apply (IH c1 x1 con p' n1 ft (g ++ [b]) T)|]; try done; [by rewrite len_insert|rewrite len_snoc; lia|].
  intros [ab'|] s'; [|done]. intros (c2 & x2 & p2 & n2 & h & -> & Hh & [A1 A2 A3 A4 A5 A6 A7 A8] & Hab' & Hin & Hout & Hfresh).
  rewrite len_snoc in *. rewrite <- app_assoc in *. cbn [app] in *.
  exists c2, x2, p2, n2, (b :: h). split_and!; [done|simpl; lia| |done| | |].
  - split; try done; [by eapply grown_trans|unfold inode_like in *; rewrite A5, Hlk1; done| |].
    + eapply data_same_trans; [by eapply data_same_grown|by eapply data_same_grown].
    + intros h' <-%app_inv_head. apply (bits_kept_trans c p c1 p' c2 p2 [b] [] h []); [intros b'; by apply (grown_in_data p p' b')|done|].
      apply A8. by rewrite <- app_assoc.
  - intros i Hi. destruct (Z.eq_dec i (len g)) as [->|]; [|apply Hin; lia].
    rewrite Hout, nthz_insert_eq, nthz_app_r, Z.sub_diag by lia. done.
  - intros i Hi. rewrite Hout, nthz_insert_ne by lia. done.
  - intros b' [->|Hb']%elem_of_cons; [done|]. specialize (Hfresh b' Hb').
    assert (in_data p b') as Hi. { apply (grown_in_data p p2 b'); [by eapply grown_trans|]. apply A3. left. set_solver. }
    destruct (block_used p b') eqn:E; [|done]. by rewrite (proj2 (proj2 Hg') b' Hi E) in Hfresh.
Qed.

Lemma mapped_intro c dev n g T : view n g T → (∀ i, 12 ≤ i < len g → word_at (c dev T) (Z.to_nat (i - 12)) = g@@i) → mapped c dev n g.
Proof.
  intros [V1 V2 V3] H i Hi. unfold blk. destruct (Z.ltb_spec i 12) as [Hlt|Hge]; [|rewrite V3; apply H; lia].
  rewrite V2 by lia. destruct (Z.ltb_spec i (len g)); [done|lia].
Qed.
Lemma mapped_table c dev n g T i : view n g T → mapped c dev n g → 12 ≤ i < len g → word_at (c dev T) (Z.to_nat (i - 12)) = g@@i.
Proof. intros [_ _ V3] H Hi. rewrite <- (H i) by lia. unfold blk. destruct (Z.ltb_spec i 12); [lia|]. by rewrite V3. Qed.
Lemma table_written c dev T ab i : len ab = 140 → 12 ≤ i < 140 → is_u32 ab@@i →
  word_at (write_secs c dev T 1 (words_bytes (drop 12 ab)) dev T) (Z.to_nat (i - 12)) = ab@@i.
Proof.
  intros Hl Hi Hu. unfold write_secs. rewrite decide_True by lia. rewrite Z.sub_diag, drop_0.
  rewrite take_ge by (rewrite length_words_bytes, length_drop; unfold len in Hl; lia).
  apply word_at_words; [|done]. rewrite lookup_drop. replace (12 + Z.to_nat (i - 12))%nat with (Z.to_nat i) by lia.
  destruct (lookup_lt_is_Some_2 ab (Z.to_nat i) ltac:(unfold len in Hl; lia)) as [v Hv]. by rewrite (nthz_lookup _ _ v) by (done || lia).
Qed.
Lemma owns_u32 p g T i : part_ok p → owns p g T → 0 ≤ i < len g → is_u32 g@@i.
Proof.
  intros Hp [_ H] Hi. destruct (H g@@i) as [Hd _]; [left; by apply nthz_elem|]. pose proof (in_data_pos _ _ Hp Hd). rewrite max_lba_eq in *. unfold is_u32. lia.
Qed.

Lemma owns_pos p g T i : part_ok p → owns p g T → 0 ≤ i < len g → 608 ≤ g@@i ≤ max_lba.
Proof. intros Hp [_ H] Hi. destruct (H g@@i) as [Hd _]; [left; by apply nthz_elem|]. by eapply in_data_pos. Qed.
(** A block taken as the table. *)
Lemma owns_table p p' g b : part_ok p → owns p g 0 → in_data p b → block_used p b = false → marked p p' b → owns p' g b.
Proof.
  intros Hp Ho Hb Hu Hm. destruct (in_data_pos _ _ Hp Hb). destruct (owns_snoc _ _ _ _ _ Hp Ho Hb Hu Hm) as [H1 H2]. cbn in H1. split.
  - destruct (Z.eqb_spec b 0); [lia|]. apply NoDup_app in H1 as (H1 & H3 & _). apply NoDup_cons. split; [|done].
    intros Hin. apply (H3 b Hin). by left.
  - intros b' [Hb'|[-> _]]; apply H2; left; set_solver.
Qed.

(** The table, if it is a new one. *)
Definition new_table (T T' : Z) : list Z := if T' =? T then [] else [T'].
Lemma new_table_same T : new_table T T = [].
Proof. unfold new_table. by rewrite Z.eqb_refl. Qed.

(** What [write_blocks] leaves when it succeeds: blocks [h] added to [g]. *)
Record extended (c : disks) (p : Partition) (n : INode) (g : list Z) (T : Z) (c' : disks) (x' : S) (p' : Partition) (n' : INode) (h : list Z) (T' : Z) : Prop := {
  ex_disk : at_disk c' x' p';
  ex_wf : disks_wf c';
  ex_grown : grown p p';
  ex_owns : owns p' (g ++ h) T';
  ex_view : view n' (g ++ h) T';
  ex_like : inode_like n n';
  ex_map : mapped c' (my_dev p) n' (g ++ h);
  ex_data y : 512 * data_start_lba (sb p) ≤ y → y / 512 ≠ T' → dbyte c' (my_dev p) y = dbyte c (my_dev p) y;
  ex_table : T' = T ∨ T = 0 ∧ block_used p T' = false;
  ex_null : T' = 0 ↔ len (g ++ h) ≤ 12;
  ex_new b : b ∈ h → block_used p b = false;
  ex_bits : bits_kept c p c' p' h (new_table T T');
}.

Lemma allocated_extended c p n g T c' x' p' n' h : allocated c p n g T c' x' p' n' (g ++ h) → disks_wf c →
  (∀ i, 12 ≤ i < len (g ++ h) → word_at (c' (my_dev p) T) (Z.to_nat (i - 12)) = (g ++ h)@@i) →
  (T = 0 ↔ len (g ++ h) ≤ 12) → (∀ b, b ∈ h → block_used p b = false) → extended c p n g T c' x' p' n' h T.
Proof.
  intros [A1 A2 A3 A4 A5 A6 A7 A8] Hw Hm H0 Hn. split; try done; [by eapply mapped_intro|intros y Hy _; by apply A6|by left|].
  rewrite new_table_same. by apply A8.
Qed.

(** The table written back after the allocation. *)
Lemma write_table_ok c con p n ft g T c1 x1 p1 n1 h ab : disks_wf c → allocated c p n g T c1 x1 p1 n1 (g ++ h) → T ≠ 0 →
  12 < len (g ++ h) ≤ 140 → len ab = 140 → (∀ i, 12 ≤ i < len (g ++ h) → ab@@i = (g ++ h)@@i) → (∀ b, b ∈ h → block_used p b = false) →
  fwp (disk_write T (words_bytes (drop 12 ab)) 1 ;; mret (Some ab)) (W x1 con p1 n1 ft) (λ r s', r = Some ab
    ∧ ∃ c' x', s' = W x' con p1 n1 ft ∧ extended c p n g T c' x' p1 n1 h T).
Proof.
  intros Hw HA HT Hl Hab Hi Hn. destruct (HA) as [A1 A2 A3 A4 A5 A6 A7 A8]. destruct (grown_part _ _ A2) as [Es Ed]. destruct (A1) as (_ & _ & Hp1).
  destruct (ow_in _ _ _ A3 T) as [HTd _]; [by right|]. destruct (in_data_pos _ _ Hp1 HTd). fstep.
  assert (len (words_bytes (drop 12 ab)) = 512 * 1) as Hlb by (unfold len in *; rewrite length_words_bytes, length_drop; lia).
  eapply (fwp_write c1 L k); [by apply at_disk_fs|lia|lia|lia|done|]. intros s' Hs.
  destruct (served_W _ _ _ _ _ _ _ _ A1 Hs) as (x' & -> & Hat'). fstep. split; [done|]. eexists _, x'. split; [done|].
  cbn [cur_part W] in *. change (Z.to_nat 1) with 1%nat in *. rewrite Ed in *.
  pose proof (write_secs_patched c1 (my_dev p) T 1 (words_bytes (drop 12 ab)) A7 Hlb) as [Hw' Hpt].
  split; try done.
  - apply (mapped_intro _ _ _ _ T); [done|]. intros i Hir. rewrite table_written, Hi by (done || lia || (rewrite Hi by lia; apply (owns_u32 p1 _ T); done || lia)). done.
  - intros y Hy HyT. rewrite Hpt, decide_False; [by apply A6|]. rewrite Hlb. Z.div_mod_to_equations. lia.
  - by left.
  - split; [done|lia].
  - rewrite new_table_same. apply (bits_kept_same _ _ c1); [done| |by apply A8]. intros y Hy. unfold in_data in HTd.
    rewrite Ed, Hpt, decide_False; [done|]. destruct Hp1 as [_ (_ & _ & ?) ? ? ? _ _ _ _]. lia.
Qed.

Lemma write_blocks_ok c x con p n ft g T will : at_disk c x p → disks_wf c → owns p g T → view n g T → mapped c (my_dev p) n g →
  (T = 0 ↔ len g ≤ 12) → 1 ≤ len g ≤ will → will ≤ 140 →
  fwp (write_blocks a (len g) will (replicate 140 0)) (W x con p n ft) (λ r s', match r with
    | None => is_full (cur_part s')
    | Some ab => ∃ c' x' p' n' h T', s' = W x' con p' n' ft ∧ len (g ++ h) = will ∧ extended c p n g T c' x' p' n' h T'
        ∧ ∀ i, len g - 1 ≤ i < will → rd ab i = Ok (g ++ h)@@i end).
Proof.
  intros Hat Hw Ho Hv Hm HT Hg Hwl. unfold write_blocks. fstep. eapply ld_inode_ok; [cbn; apply lookup_insert_eq|].
  assert (len (i_sectors n) = 13) as Hl13 by (unfold len; rewrite (vi_len _ _ _ Hv); done). destruct (Hat) as (Hx & Hd & Hp).
  assert (u32 (will - len g) = will - len g) as -> by (apply u32_id; lia).
  assert (∀ i, 0 ≤ i < 12 → i < len g → (i_sectors n)@@i = g@@i) as Hdir.
  { intros i Hi Hig. rewrite (vi_dir _ _ _ Hv) by done. destruct (Z.ltb_spec i (len g)); [done|lia]. }
  pose proof (vi_tab _ _ _ Hv) as HT12.
  assert (len (replicate 140 0) = 140) as Hz by done.
  assert (extended c p n g T c x p n [] T) as Hsame.
  { rewrite <- (app_nil_r g) in Ho, Hv, Hm, HT. split; rewrite ?app_nil_r in *; try done;
      [apply grown_refl|by destruct n|by left|by intros b ?%not_elem_of_nil|rewrite new_table_same; apply bits_kept_refl]. }
  destruct (Z.eqb_spec (will - len g) 0) as [E|E]; [destruct (Z.leb_spec (len g) 12) as [Hle|Hgt]|].
  - fstep. rewrite rd_ok by lia. apply fwp_lift. cbn [returns]. fstep. rewrite wr_ok by lia. apply fwp_lift. cbn [returns]. fstep.
    exists c, x, p, n, [], T. rewrite app_nil_r. split_and!; [done|lia|done|]. intros i Hi. replace i with (len g - 1) by lia.
    rewrite rd_ok by (rewrite len_insert; lia). rewrite nthz_insert_eq by lia. f_equal. apply Hdir; lia.
  - fstep. rewrite rd_ok, HT12 by lia. apply fwp_lift. cbn [returns]. fstep. fstep; [destruct (Z.eqb_spec T 0); [lia|done]|].
    destruct (ow_in _ _ _ Ho T) as [HTd _]; [right; split; [done|lia]|]. destruct (in_data_pos _ _ Hp HTd).
    fstep. eapply (fwp_read c L k); [by apply at_disk_fs|lia|lia|lia|]. intros s' Hs. fstep.
    destruct (served_W _ _ _ _ _ _ _ _ Hat Hs) as (x' & -> & Hat'). exists c, x', p, n, [], T. rewrite app_nil_r.
    split_and!; [done|lia|by destruct Hsame; split|]. intros i Hi. change (Z.to_nat 1) with 1%nat. rewrite read_secs_1.
    rewrite rd_app_r by (unfold len; simpl; lia). change (len (take 12 (replicate 140 0))) with 12.
    rewrite rd_bytes_words by lia. f_equal. by eapply mapped_table; [| |lia].
  - assert (∀ i, 12 ≤ i < len g → len g ≤ 12 → False) as Hno by lia.
    destruct (Z.leb_spec will 12) as [Hw12|Hw12]; [|destruct (Z.leb_spec (len g) 12) as [Hg12|Hg12]].
    + fstep. rewrite rd_ok by lia. apply fwp_lift. cbn [returns]. rewrite (Hdir (len g - 1)) by lia. fstep. fstep.
      { pose proof (owns_pos p g T (len g - 1) Hp Ho ltac:(lia)). destruct (Z.eqb_spec g@@(len g - 1) 0); [lia|done]. }
      fstep. rewrite wr_ok by lia. apply fwp_lift. cbn [returns].
      eapply fwp_mono; [by apply (alloc_loop_ok _ c x con p n ft g T); rewrite ?len_insert; try done; lia|].
      intros [ab|] s'; [|done]. intros (c1 & x1 & p1 & n1 & h & -> & Hh & HA & Hab & Hin & Hout & Hnew).
      assert (len (g ++ h) = will) as Hlen by (rewrite len_app; unfold len at 2; lia).
      exists c1, x1, p1, n1, h, T. split_and!; [done|done|apply allocated_extended; [done|done|lia|lia|done]|].
      intros i Hi. rewrite rd_ok by lia. f_equal. destruct (Z.eq_dec i (len g - 1)) as [->|]; [|apply Hin; lia].
      rewrite Hout, nthz_insert_eq, nthz_app_l by lia. done.
    + assert (T = 0) as HT0 by lia. fstep. rewrite rd_ok by lia. apply fwp_lift. cbn [returns]. rewrite (Hdir (len g - 1)) by lia.
      fstep. rewrite wr_ok by lia. apply fwp_lift. cbn [returns]. fstep.
      eapply alloc_block_ok; [done|by intros con' Hfull; fstep|]. intros b p1 Hb Hu Hm1 Hat1.
      destruct (in_data_pos _ _ Hp Hb) as [Hb0 Hb1]. rewrite max_lba_eq in Hb1. rewrite u32_id by lia.
      fstep. rewrite rd_ok, HT12 by lia. apply fwp_lift. cbn [returns]. fstep. fstep; [by rewrite HT0|].
      fstep. rewrite wr_ok by lia. apply fwp_lift. cbn [returns]. fstep.
      eapply st_inode_ok; [cbn; apply lookup_insert_eq|]. unfold set_inodes. cbn [sv console me cur_part inodes dirs root_dir file_table W].
      rewrite insert_insert_eq. fold (W x con p1 (set_i_sectors (<[Z.to_nat 12:=b]> (i_sectors n)) n) ft).
      pose proof (owns_table p p1 g b Hp ltac:(by rewrite <- HT0) Hb Hu Hm1) as Ho1. pose proof (marked_grown _ _ _ Hm1) as Hg1.
      assert (view (set_i_sectors (<[Z.to_nat 12:=b]> (i_sectors n)) n) g b) as Hv1.
      { destruct Hv as [V1 V2 V3]. split; cbn [i_sectors set_i_sectors]; [by rewrite length_insert| |by rewrite nthz_insert_eq by lia].
        intros i Hi. rewrite nthz_insert_ne by lia. by apply V2. }
      fstep. eapply fwp_mono; [by apply (alloc_loop_ok _ c x con p1 _ ft g b); rewrite ?len_insert; try done; lia|].
      intros [ab|] s'; [|done]. intros (c1 & x1 & p2 & n1 & h & -> & Hh & HA & Hab & Hin & Hout & Hnew).
      assert (len (g ++ h) = will) as Hlen by (rewrite len_app; unfold len at 2; lia).
      eapply fwp_mono; [apply (write_table_ok c con p1 (set_i_sectors (<[Z.to_nat 12:=b]> (i_sectors n)) n) ft g b c1 x1 p2 n1 h ab); try done; [lia|lia|intros i Hi; apply Hin; lia]|].
      intros r s' (-> & c2 & x2 & -> & [X1 X2 X3 X4 X5 X6 X7 X8 X9 X10 X11 X12]). destruct (grown_part _ _ Hg1) as [Es Ed]. rewrite Ed, Es in *.
      exists c2, x2, p2, n1, h, b. split_and!; [done|done| |].
      * split; try done; [by eapply grown_trans|by right| |].
        -- intros b' Hb'. destruct (block_used p b') eqn:Eu; [|done]. rewrite <- (X11 b' Hb'). symmetry. apply Hg1; [|done].
           apply (grown_in_data p p2 b'); [by eapply grown_trans|]. apply X4. left. set_solver.
        -- rewrite new_table_same in X12. unfold new_table. destruct (Z.eqb_spec b T); [lia|].
           apply (bits_kept_trans c p c p1 c2 p2 [] [b] h []); [intros b'; by apply (grown_in_data p p1 b')|by apply marked_kept|done].
      * intros i Hi. rewrite rd_ok by lia. f_equal. destruct (Z.eq_dec i (len g - 1)) as [->|]; [|apply Hin; lia].
        rewrite Hout, nthz_insert_eq, nthz_app_l by lia. done.
    + assert (T ≠ 0) as HT0 by lia. fstep. rewrite rd_ok, HT12 by lia. apply fwp_lift. cbn [returns]. fstep. fstep; [destruct (Z.eqb_spec T 0); done|].
      destruct (ow_in _ _ _ Ho T) as [HTd _]; [by right|]. destruct (in_data_pos _ _ Hp HTd).
      fstep. eapply (fwp_read c L k); [by apply at_disk_fs|lia|lia|lia|]. intros s' Hs. fstep.
      destruct (served_W _ _ _ _ _ _ _ _ Hat Hs) as (x' & -> & Hat'). cbn [cur_part W]. change (Z.to_nat 1) with 1%nat. rewrite read_secs_1.
      set (ab0 := take 12 (replicate 140 0) ++ bytes_words 128 (c (my_dev p) T)).
      assert (len ab0 = 140) as Hl0 by (unfold ab0, len, bytes_words; rewrite length_app, length_map, length_seq; done).
      assert (∀ i, 12 ≤ i < len g → ab0@@i = g@@i) as Hold.
      { intros i Hi. assert (rd ab0 i = Ok g@@i) as Hrd; [|rewrite rd_ok in Hrd by lia; by injection Hrd].
        unfold ab0. rewrite rd_app_r by (unfold len; simpl; lia). change (len (take 12 (replicate 140 0))) with 12.
        rewrite rd_bytes_words by lia. f_equal. by eapply mapped_table; [| |lia]. }
      eapply fwp_mono; [by apply (alloc_loop_ok _ c x' con p n ft g T); try done; lia|].
      intros [ab|] s'; [|done]. intros (c1 & x1 & p1 & n1 & h & -> & Hh & HA & Hab & Hin & Hout & Hnew).
      assert (len (g ++ h) = will) as Hlen by (rewrite len_app; unfold len at 2; lia).
      assert (∀ i, 12 ≤ i < will → ab@@i = (g ++ h)@@i) as Hall.
      { intros i Hi. destruct (Z.ltb_spec i (len g)); [rewrite Hout, Hold, nthz_app_l by lia; done|apply Hin; lia]. }
      eapply fwp_mono; [apply (write_table_ok c con p n ft g T c1 x1 p1 n1 h ab); try done; [lia|intros i Hi; apply Hall; lia]|].
      intros r s' (-> & c2 & x2 & -> & HX). exists c2, x2, p1, n1, h, T. split_and!; [done|done|done|].
      intros i Hi. rewrite rd_ok by lia. f_equal. apply Hall. lia.
Qed.

(** ** The data *)

(** The byte at position [y] of the file with blocks [g]. *)
Definition gbyte (c : disks) (dev : Z) (g : list Z) (y : Z) : Z := dbyte c dev (512 * g@@(y / 512) + y mod 512).

(** [c'] is [c] with [l] written at position [from] of the file. *)
Record wrote (c : disks) (dev : Z) (g : list Z) (from : Z) (l : list Z) (c' : disks) : Prop := {
  wr_in y : from ≤ y < from + len l → gbyte c' dev g y = l@@(y - from);
  wr_before y : 0 ≤ y < from → gbyte c' dev g y = gbyte c dev g y;
  wr_other d z : d ≠ dev ∨ z / 512 ∉ g → dbyte c' d z = dbyte c d z;
}.

Lemma gaddr_div (g : list Z) y : 0 ≤ y → (512 * g@@(y / 512) + y mod 512) / 512 = g@@(y / 512).
Proof. intros Hy. Z.div_mod_to_equations. lia. Qed.

(** One sector: the part before the end of the file is kept when the sector was
    read first, and there is none otherwise. *)
Lemma wrote_chunk c dev g from l (first : bool) io : disks_wf c → NoDup g → 0 ≤ from → 0 < len l → from mod 512 + len l ≤ 512 → from / 512 < len g →
  io = (if first then read_secs c dev g@@(from / 512) 1 else replicate 512 0) → (first = false → from mod 512 = 0) →
  let b := take (Z.to_nat (from mod 512)) io ++ l ++ drop (Z.to_nat (from mod 512 + len l)) io in
  len b = 512 ∧ disks_wf (write_secs c dev g@@(from / 512) 1 b) ∧ wrote c dev g from l (write_secs c dev g@@(from / 512) 1 b).
Proof.
  intros Hw Hn H0 Hl Hc Hg Hio Hf b. assert (len io = 512) as Hlio by (subst io; destruct first; [by rewrite len_read_secs|done]).
  assert (0 ≤ from mod 512) as Hm0 by (Z.div_mod_to_equations; lia).
  assert (len b = 512) as Hb by (unfold b; rewrite !len_app, len_take, len_drop by lia; lia).
  destruct (write_secs_patched c dev g@@(from / 512) 1 b Hw ltac:(lia)) as [Hw' Hp]. rewrite Hb in Hp.
  assert (∀ y, 0 ≤ y → y / 512 = from / 512 → gbyte (write_secs c dev g@@(from / 512) 1 b) dev g y = b@@(y mod 512)) as Hin.
  { intros y Hy E. unfold gbyte. rewrite Hp, decide_True by (split; [done|]; rewrite E; Z.div_mod_to_equations; lia). f_equal. rewrite E. lia. }
  split_and!; [done|done|]. split.
  - intros y Hy. assert (y / 512 = from / 512) as E by (Z.div_mod_to_equations; lia). rewrite Hin by (done || lia). unfold b.
    assert (y mod 512 = from mod 512 + (y - from)) as -> by (Z.div_mod_to_equations; lia).
    rewrite nthz_app_r, nthz_app_l by (rewrite len_take by lia; lia). rewrite len_take by lia. f_equal. lia.
  - intros y Hy. destruct (Z.eq_dec (y / 512) (from / 512)) as [E|E].
    + rewrite Hin by (done || lia). assert (y mod 512 < from mod 512) as Hlt by (Z.div_mod_to_equations; lia).
      destruct first; [|specialize (Hf eq_refl); Z.div_mod_to_equations; lia]. unfold b.
      rewrite nthz_app_l by (rewrite len_take by lia; lia). rewrite nthz_take by lia. subst io.
      rewrite nthz_read_secs by (done || (Z.div_mod_to_equations; lia)). unfold gbyte. by rewrite E.
    + unfold gbyte. rewrite Hp, decide_False; [done|]. intros [_ Hr]. apply E, (nthz_inj g); [done|Z.div_mod_to_equations; lia|Z.div_mod_to_equations; lia|].
      Z.div_mod_to_equations. lia.
  - intros d z Hdz. rewrite Hp, decide_False; [done|]. intros [-> Hz]. destruct Hdz as [|Hni]; [done|]. apply Hni.
    replace (z / 512) with (g@@(from / 512)) by (Z.div_mod_to_equations; lia). apply nthz_elem. Z.div_mod_to_equations; lia.
Qed.
Lemma wrote_app c dev g from l1 c1 l2 c2 : 0 ≤ from → wrote c dev g from l1 c1 → wrote c1 dev g (from + len l1) l2 c2 → wrote c dev g from (l1 ++ l2) c2.
Proof.
  intros H0 [A1 A2 A3] [B1 B2 B3]. pose proof (len_nonneg l1). split.
  - intros y. rewrite len_app. intros Hy. destruct (Z.ltb_spec (y - from) (len l1)).
    + rewrite nthz_app_l, B2 by lia. apply A1. lia.
    + rewrite nthz_app_r, B1 by lia. f_equal. lia.
  - intros y Hy. rewrite B2, A2 by lia. done.
  - intros d z Hd. by rewrite B3, A3.
Qed.

Lemma wrote_nil c dev g from : wrote c dev g from [] c.
Proof. split; try done. intros y Hy. unfold len in Hy. simpl in Hy. lia. Qed.

Lemma write_data_ok file p g T ab buf count fuel : part_ok p → owns p g T → count ≤ len buf → ∀ c x con n ft f bw (first : bool),
  at_disk c x p → disks_wf c → rd ft file = Ok f → fd_inode f = a → is_u32 (fd_pos f) →
  0 ≤ bw ≤ count → count - bw < Z.of_nat fuel → 0 ≤ i_size n → i_size n + (count - bw) < 2 ^ 31 →
  (∀ i, i_size n / 512 ≤ i → i * 512 < i_size n + (count - bw) → rd ab i = Ok g@@i ∧ i < len g) →
  (first = false → bw < count → i_size n mod 512 = 0) →
  fwp (write_data fuel file ab buf bw count first) (W x con p n ft) (λ r s', r = count ∧ ∃ c' x' con',
    s' = W x' con' p (set_i_size (i_size n + (count - bw)) n) (<[Z.to_nat file := mkFile (u32 (fd_pos f + (count - bw))) (fd_flag f) a]> ft)
    ∧ at_disk c' x' p ∧ disks_wf c' ∧ wrote c (my_dev p) g (i_size n) (take (Z.to_nat (count - bw)) (drop (Z.to_nat bw) buf)) c').
Proof.
  intros Hp Ho Hbuf. induction fuel as [|fuel IH]; intros c x con n ft f bw first Hat Hw Hf Hfa Hfp Hbw Hfu Hs0 Hs1 Hab Hfirst; [lia|].
  cbn [write_data]. destruct (Z.ltb_spec bw count) as [Hlt|Hge].
  2: { fstep. split; [lia|]. assert (count - bw = 0) as E by lia. rewrite E, !Z.add_0_r, u32_id by apply Hfp. exists c, x, con. split_and!.
    - replace (mkFile _ _ _) with f by (destruct f; cbn in *; congruence). apply rd_inv in Hf as [_ Hf]. rewrite list_insert_id by done.
      by replace (set_i_size (i_size n) n) with n by by destruct n.
    - done.
    - done.
    - apply wrote_nil. }
  fstep. eapply ld_file_ok; [exact Hf|]. rewrite Hfa. fstep. eapply ld_inode_ok; [cbn; apply lookup_insert_eq|].
  unfold BLOCK_SIZE, SECTOR_SIZE. destruct (Hab (i_size n / 512)) as [E0 Hg]; [lia|Z.div_mod_to_equations; lia|].
  fstep. rewrite E0. apply fwp_lift. cbn [returns].
  set (ch := if count - bw <? 512 - i_size n mod 512 then count - bw else 512 - i_size n mod 512).
  assert (0 < ch ≤ count - bw ∧ i_size n mod 512 + ch ≤ 512 ∧ (ch < count - bw → (i_size n + ch) mod 512 = 0)) as (C1 & C2 & C3).
  { unfold ch. destruct (Z.ltb_spec (count - bw) (512 - i_size n mod 512)); Z.div_mod_to_equations; lia. }
  set (l := take (Z.to_nat ch) (drop (Z.to_nat bw) buf)).
  assert (len l = ch) as Hl by (unfold l; rewrite len_take; rewrite ?len_drop; lia).
  destruct (owns_pos p g T (i_size n / 512) Hp Ho) as [Hb0 Hb1]; [Z.div_mod_to_equations; lia|].
  set (b0 := g@@(i_size n / 512)) in *. set (io := if first then read_secs c (my_dev p) b0 1 else replicate 512 0).
  assert (NoDup g) as Hnd by (destruct Ho as [Hnd _]; destruct (T =? 0); [done|by apply NoDup_cons in Hnd as [_ ?]]).
  destruct (wrote_chunk c (my_dev p) g (i_size n) l first io) as (Hlb & Hw1 & Hwr); try done; [lia|lia|intros; by apply Hfirst|].
  rewrite Hl in *. fold b0 in Hwr, Hw1.
  fstep. apply (fwp_mono _ _ (λ r s', r = io ∧ ∃ x', s' = W x' con p n ft ∧ at_disk c x' p)).
  { unfold io. destruct first; [|fstep; eauto]. eapply (fwp_read c L k); [by apply at_disk_fs|lia|lia|lia|]. intros s' Hs.
    destruct (served_W _ _ _ _ _ _ _ _ Hat Hs) as (x' & -> & Hat'). eauto. }
  intros r s' (-> & x1 & -> & Hat1). fstep. assert (len io = 512) as Hlio by (unfold io; destruct first; [by rewrite len_read_secs|done]).
  rewrite memcpy_ok by (lia || (Z.div_mod_to_equations; lia)). apply fwp_lift. cbn [returns]. fold l. fstep.
  eapply (fwp_write c L k); [by apply at_disk_fs|lia|lia|lia|lia|]. intros s' Hs.
  destruct (served_W _ _ _ _ _ _ _ _ Hat1 Hs) as (x2 & -> & Hat2). cbn [cur_part W] in Hat2. change (Z.to_nat 1) with 1%nat in Hat2.
  unfold say. do 3 fstep. eapply st_inode_ok; [cbn; apply lookup_insert_eq|]. fstep. eapply st_file_ok; [exact Hf|].
  unfold set_file_table, set_inodes, set_console, W. cbn [sv console me cur_part inodes dirs root_dir file_table]. rewrite insert_insert_eq, u32_id by lia.
  pose proof (rd_inv _ _ _ Hf) as [Hi _]. set (f1 := mkFile (u32 (fd_pos f + ch)) (fd_flag f) a).
  set (n1 := set_i_size (i_size n + ch) n). set (ft1 := <[Z.to_nat file:=f1]> ft).
  set (c1 := write_secs c (my_dev p) b0 1 (take (Z.to_nat (i_size n mod 512)) io ++ l ++ drop (Z.to_nat (i_size n mod 512 + ch)) io)) in *.
  eapply fwp_mono; [apply (IH c1 x2 (con ++ [("file write at lba 0x%x"%string, [AInt b0])]) n1 ft1 f1 (bw + ch) false)|].
  - done.
  - done.
  - apply rd_some; [lia|]. apply list_lookup_insert_eq. unfold len in Hi. lia.
  - done.
  - cbn. apply u32_range.
  - lia.
  - lia.
  - cbn. lia.
  - cbn. lia.
  - cbn. intros i H1 H2. apply Hab; Z.div_mod_to_equations; lia.
  - cbn. intros _ Hc. apply C3. lia.
  - intros r s' (-> & c3 & x3 & con3 & -> & Hat3 & Hw3 & Hwr3). split; [done|]. exists c3, x3, con3. split_and!; [|done|done|].
    + unfold n1, ft1, f1. cbn [fd_pos fd_flag i_size set_i_size]. rewrite list_insert_insert_eq. unfold u32.
      rewrite Zplus_mod_idemp_l. replace (fd_pos f + ch + (count - (bw + ch))) with (fd_pos f + (count - bw)) by lia.
      by replace (i_size n + ch + (count - (bw + ch))) with (i_size n + (count - bw)) by lia.
    + cbn [i_size n1 set_i_size] in Hwr3.
      assert (take (Z.to_nat (count - bw)) (drop (Z.to_nat bw) buf) = l ++ take (Z.to_nat (count - (bw + ch))) (drop (Z.to_nat (bw + ch)) buf)) as ->.
      { unfold l. replace (Z.to_nat (count - bw)) with (Z.to_nat ch + Z.to_nat (count - (bw + ch)))%nat by lia.
        rewrite <- take_take_drop, drop_drop. do 3 f_equal. lia. }
      eapply wrote_app; [lia|exact Hwr|]. by rewrite Hl.
Qed.

(** ** The whole call *)
Lemma extended_trans c p n g T c1 x1 p1 n1 h1 T1 c2 x2 p2 n2 h2 T2 : part_ok p → extended c p n g T c1 x1 p1 n1 h1 T1 →
  extended c1 p1 n1 (g ++ h1) T1 c2 x2 p2 n2 h2 T2 → extended c p n g T c2 x2 p2 n2 (h1 ++ h2) T2.
Proof.
  intros Hp [A1 A2 A3 A4 A5 A6 A7 A8 A9 A10 A11 A12] [B1 B2 B3 B4 B5 B6 B7 B8 B9 B10 B11 B12]. destruct (grown_part _ _ A3) as [Es Ed].
  rewrite <- app_assoc in *. rewrite Es, Ed in *. pose proof (po_ds _ Hp). pose proof (po_table _ Hp) as (? & _).
  assert (∀ b, in_data p b → block_used p1 b = false → block_used p b = false) as Hback.
  { intros b Hb Hu. destruct (block_used p b) eqn:E; [|done]. by rewrite (proj2 (proj2 A3) b Hb E) in Hu. }
  assert (grown p p2) as Hg2 by by eapply grown_trans.
  split; try done.
  - unfold inode_like in *. by rewrite B6, A6.
  - intros y Hy HT. rewrite B8, A8; try done. destruct B9 as [->|[-> _]]; [done|]. intros E. Z.div_mod_to_equations. lia.
  - destruct B9 as [->|[-> Hu]]; [done|]. destruct (Z.eq_dec T2 0) as [->|Hn0].
    + left. destruct A9 as [|[]]; done.
    + right. split; [by destruct A9 as [|[]]|]. apply Hback; [|done]. apply (grown_in_data p p2 T2 Hg2), B4. by right.
  - intros b [Hb|Hb]%elem_of_app; [by apply A11|]. apply Hback; [|by apply B11]. apply (grown_in_data p p2 b Hg2), B4. left. set_solver.
  - assert (new_table T T2 = new_table T T1 ++ new_table T1 T2) as ->.
    { unfold new_table. destruct (Z.eqb_spec T1 T) as [->|]; [done|]. destruct A9 as [|[-> _]]; [done|].
      destruct B9 as [->|[-> _]]; [|done]. rewrite Z.eqb_refl. destruct (Z.eqb_spec T1 0); done. }
    eapply bits_kept_trans; [intros b; by apply (grown_in_data p p1 b)|done|done].
Qed.

Lemma first_block_ok c x con p n ft g T : at_disk c x p → disks_wf c → owns p g T → view n g T → mapped c (my_dev p) n g →
  (T = 0 ↔ len g ≤ 12) → block_used p (data_start_lba (sb p)) = true → 0 < nbits (block_bitmap p) →
  fwp (first_block a) (W x con p n ft) (λ r s', if r then ∃ c' x' p' n' h, s' = W x' con p' n' ft
      ∧ extended c p n g T c' x' p' n' h T ∧ len (g ++ h) = Z.max 1 (len g)
    else g = [] ∧ is_full (cur_part s')).
Proof.
  intros Hat Hw Ho Hv Hm HT Hroot Hnb. unfold first_block. fstep. eapply ld_inode_ok; [cbn; apply lookup_insert_eq|].
  assert (len (i_sectors n) = 13) as Hl13 by (unfold len; rewrite (vi_len _ _ _ Hv); done). destruct (Hat) as (Hx & Hd & Hp).
  fstep. rewrite rd_ok, (vi_dir _ _ _ Hv) by lia. apply fwp_lift. cbn [returns]. pose proof (len_nonneg g).
  destruct (Z.ltb_spec 0 (len g)) as [Hlt|Hge].
  - destruct (Z.eqb_spec g@@0 0) as [E|_]; [pose proof (owns_pos p g T 0 Hp Ho ltac:(lia)); lia|]. fstep.
    exists c, x, p, n, []. rewrite app_nil_r. split_and!; [done| |lia].
    apply allocated_extended; rewrite ?app_nil_r; try done; [split; try done; [apply grown_refl|by destruct n|by intros h Eh; apply (kept_nil c p g h)]|
      intros i Hi; by eapply mapped_table|by intros b ?%not_elem_of_nil].
  - assert (g = []) as -> by (destruct g; [done|unfold len in *; simpl in *; lia]). assert (T = 0) as -> by (apply HT; done).
    rewrite Z.eqb_refl. fstep. eapply alloc_block_ok; [done|by intros con' Hfull; fstep|]. intros b p' Hb Hu Hm' Hat'.
    destruct (in_data_pos _ _ Hp Hb) as [Hb0 Hb1]. rewrite max_lba_eq in Hb1. pose proof (marked_grown _ _ _ Hm') as Hg'.
    destruct (grown_part _ _ Hg') as [Es Ed]. rewrite (u32_id b) by lia.
    fstep. rewrite wr_ok by lia. apply fwp_lift. cbn [returns]. fstep. eapply st_inode_ok; [cbn; apply lookup_insert_eq|].
    unfold set_inodes. cbn [sv console me cur_part inodes dirs root_dir file_table W]. rewrite insert_insert_eq.
    set (n1 := set_i_sectors (<[Z.to_nat 0 := b]> (i_sectors n)) n). fold (W x con p' n1 ft). do 2 fstep. cbn [cur_part W]. rewrite Es.
    fstep. fstep. { unfold in_data in Hb. destruct (Z.eqb_spec (u32 (b - data_start_lba (sb p))) 0) as [E|]; [|done].
      pose proof (po_ds _ Hp). pose proof (po_table _ Hp) as (? & _). rewrite u32_id in E by lia. replace (data_start_lba (sb p)) with b in Hroot by lia. congruence. }
    fstep. eapply sync_block_ok; [done|by apply (marked_in_data p p' b b Hm')|]. intros c1 x1 Hat1 Hd1 Hsy1.
    pose proof (sv_wf _ _ _ _ (proj1 Hat1)) as Hw1. fstep. exists c1, x1, p', n1, [b]. split_and!; [done| |done].
    apply allocated_extended; try done; [split; try done| |by intros b' ->%list_elem_of_singleton].
    + by apply (owns_snoc p p' [] 0 b).
    + by apply (view_snoc n [] 0 b).
    + by eapply data_same_grown.
    + intros h' <-%app_inv_head. by apply marked_synced_kept.
    + intros i Hi. unfold len in Hi. simpl in Hi. lia.
Qed.
End write.

(** ** Files on the disk *)

(** The file of inode [n]: its blocks [g], the table [T] it uses from the 13th
    block on, and room for the next byte once something was written. *)
Record file_inv (c : disks) (p : Partition) (n : INode) (g : list Z) (T : Z) : Prop := {
  fi_owns : owns p g T;
  fi_view : view n g T;
  fi_map : mapped c (my_dev p) n g;
  fi_table : T = 0 ↔ len g ≤ 12;
  fi_len : g = [] ∧ i_size n = 0 ∨ len g = i_size n / 512 + 1;
  fi_size : 0 ≤ i_size n;
}.

Lemma fbyte_gbyte c dev n g y : mapped c dev n g → 0 ≤ y → y / 512 < len g → fbyte c dev n y = gbyte c dev g y.
Proof. intros Hm Hy Hl. unfold fbyte, gbyte. rewrite Hm; [done|]. Z.div_mod_to_equations. lia. Qed.
Lemma fbytes_ext c dev n c' n' x k : (∀ y, x ≤ y < x + Z.of_nat k → fbyte c dev n y = fbyte c' dev n' y) → fbytes c dev n x k = fbytes c' dev n' x k.
Proof. intros H. unfold fbytes. apply map_ext_in. intros i Hi%in_seq. apply H. lia. Qed.
Lemma fbytes_is c dev n x l : (∀ y, x ≤ y < x + len l → fbyte c dev n y = l@@(y - x)) → fbytes c dev n x (length l) = l.
Proof.
  intros H. apply nthz_ext; rewrite len_fbytes; [done|]. intros i Hi. unfold len in H. 
  rewrite (nthz_lookup _ _ (fbyte c dev n (x + i))); [rewrite H by lia; f_equal; lia|lia|].
  unfold fbytes. rewrite list_lookup_fmap, lookup_seq_lt by lia. simpl. do 2 f_equal. lia.
Qed.

(** The table block is not touched. *)
Lemma mapped_same c c' dev n g T : view n g T → mapped c dev n g → disks_wf c → disks_wf c' →
  (12 < len g → ∀ z, z / 512 = T → dbyte c' dev z = dbyte c dev z) → mapped c' dev n g.
Proof.
  intros Hv Hm Hw Hw' Hs. apply (mapped_intro _ _ _ _ T Hv). intros i Hi. rewrite <- (mapped_table c dev n g T i Hv Hm Hi). f_equal.
  apply nthz_ext; [by unfold len; rewrite Hw, Hw'|]. unfold len. rewrite Hw'. intros j Hj.
  specialize (Hs ltac:(lia) (512 * T + j) ltac:(Z.div_mod_to_equations; lia)). unfold dbyte in Hs.
  replace ((512 * T + j) / 512) with T in Hs by (Z.div_mod_to_equations; lia).
  by replace ((512 * T + j) mod 512) with j in Hs by (Z.div_mod_to_equations; lia).
Qed.

(** The fields of the inode the disk keeps. *)
Lemma view_wf p n g T : part_ok p → owns p g T → view n g T → is_u32 (i_no n) → is_u32 (i_size n) → inode_wf n.
Proof.
  intros Hp Ho [V1 V2 V3] Hno Hsz. split; try done. apply Forall_lookup_2. intros i v Hi. pose proof (lookup_lt_Some _ _ _ Hi).
  replace v with ((i_sectors n)@@(Z.of_nat i)) by (apply nthz_lookup; [lia|by rewrite Nat2Z.id]).
  assert (is_u32 0) as H0 by (unfold is_u32; lia). destruct (Z.ltb_spec (Z.of_nat i) 12).
  - rewrite V2 by lia. destruct (Z.ltb_spec (Z.of_nat i) (len g)); [eapply owns_u32; done || lia|done].
  - replace (Z.of_nat i) with 12 by lia. rewrite V3. destruct (Z.eq_dec T 0) as [->|Hn]; [done|].
    destruct (ow_in _ _ _ Ho T) as [Hd _]; [by right|]. pose proof (in_data_pos _ _ Hp Hd). rewrite max_lba_eq in *. unfold is_u32. lia.
Qed.

Section append.
Context {S : Type} `{!Services S}.
Implicit Types s : fs S.

(** [file_write] has succeeded: from [s] with file [f] and inode [n] to [s']. *)
Record appended (c : disks) (L : gmap Z PoolType) (k : nat) s (file : Z) (f : File) (n : INode) (g : list Z) (T : Z) (l : list Z)
    (s' : fs S) (c' : disks) (n' : INode) (h : list Z) (T' : Z) : Prop := {
  ap_at : fs_at c' L k s';
  ap_part : part_ok (cur_part s') ∧ grown (cur_part s) (cur_part s');
  ap_inode : inodes s' = <[fd_inode f := n']> (inodes s);
  ap_size : i_size n' = i_size n + len l ∧ i_no n' = i_no n;
  ap_file : file_table s' = <[Z.to_nat file := mkFile (u32 (i_size n - 1 + len l)) (fd_flag f) (fd_inode f)]> (file_table s);
  ap_inv : file_inv c' (cur_part s') n' (g ++ h) T';
  ap_bytes : fbytes c' (my_dev (cur_part s)) n' 0 (Z.to_nat (i_size n) + length l) = fbytes c (my_dev (cur_part s)) n 0 (Z.to_nat (i_size n)) ++ l;
  ap_disk : disk_inode c' (cur_part s) (i_no n) = pure_inode n';
  ap_new b : b ∈ h → block_used (cur_part s) b = false;
  ap_other y : 512 * data_start_lba (sb (cur_part s)) ≤ y → y / 512 ∉ g ++ h → y / 512 ≠ T' →
    dbyte c' (my_dev (cur_part s)) y = dbyte c (my_dev (cur_part s)) y;
  ap_table : T' = T ∨ T = 0 ∧ block_used (cur_part s) T' = false;
  ap_bits : bits_kept c (cur_part s) c' (cur_part s') h (new_table T T');
}.

(** The disk after the blocks were added ([c1]), the data written ([c2]) and the
    inode written ([c3]). *)
Lemma append_disk L k c p n g T c1 (x : S) p' n0 h T1 c2 c3 l : part_ok p → part_ok p' → file_inv c p n g T → extended L k c p n g T c1 x p' n0 h T1 →
  let n1 := set_i_size (i_size n + len l) n0 in
  wrote c1 (my_dev p) (g ++ h) (i_size n) l c2 → disks_wf c3 → inode_wf n1 → 0 ≤ i_no n < 4096 →
  patched c2 (my_dev p) (inode_addr p (i_no n)) (enc_inode (pure_inode n1)) c3 → len (g ++ h) = (i_size n + len l) / 512 + 1 →
  file_inv c3 p' n1 (g ++ h) T1 ∧ disk_inode c3 p (i_no n) = pure_inode n1
  ∧ fbytes c3 (my_dev p) n1 0 (Z.to_nat (i_size n) + length l) = fbytes c (my_dev p) n 0 (Z.to_nat (i_size n)) ++ l
  ∧ (∀ y, 512 * data_start_lba (sb p) ≤ y → y / 512 ∉ g ++ h → y / 512 ≠ T1 → dbyte c3 (my_dev p) y = dbyte c (my_dev p) y)
  ∧ bits_kept c p c3 p' h (new_table T T1).
Proof.
  intros Hp Hp' [I1 I2 I3 I4 I5 I6] [X1 X2 X3 X4 X5 X6 X7 X8 X9 X10 X11 X12] n1 [W1 W2 W3] Hw3 Hwf Hno Hpt Hlen.
  destruct (grown_part _ _ X3) as [Es Ed]. pose proof (len_nonneg l). pose proof (enc_inode_len _ (iw_len _ (pure_inode_wf _ Hwf))) as Hl76.
  assert (view n1 (g ++ h) T1) as Hv1 by (destruct X5; by split).
  pose proof (inode_patched_data p c2 c3 (i_no n) _ Hp ltac:(lia) Hl76 Hpt) as Hd3. unfold data_same in Hd3.
  assert (∀ b, b ∈ g ++ h ∨ b = T1 ∧ T1 ≠ 0 → data_start_lba (sb p) ≤ b) as Hdata.
  { intros b Hb. destruct (ow_in _ _ _ X4 b Hb) as [Hd _]. unfold in_data in Hd. rewrite Es in Hd. lia. }
  assert (12 < len (g ++ h) → T1 ≠ 0) as HT1 by (pose proof X10; lia).
  assert (T1 ≠ 0 → T1 ∉ g ++ h) as HTg.
  { intros HTn. destruct X4 as [Hnd _]. destruct (Z.eqb_spec T1 0); [done|]. by apply NoDup_cons in Hnd as [? _]. }
  assert (mapped c3 (my_dev p) n1 (g ++ h)) as Hmap3.
  { apply (mapped_same c1 c3 _ n1 (g ++ h) T1); try done. intros H12 z Hz.
    rewrite Hd3; [apply W3; right; rewrite Hz; auto|]. specialize (Hdata T1 ltac:(right; auto)). Z.div_mod_to_equations. lia. }
  assert (∀ y, 0 ≤ y → y / 512 < len (g ++ h) → fbyte c3 (my_dev p) n1 y = gbyte c2 (my_dev p) (g ++ h) y) as Hg3.
  { intros y Hy Hyl. rewrite (fbyte_gbyte _ _ _ _ _ Hmap3) by done. unfold gbyte. apply Hd3.
    specialize (Hdata (g ++ h)@@(y / 512) ltac:(left; apply nthz_elem; Z.div_mod_to_equations; lia)). Z.div_mod_to_equations. lia. }
  split_and!.
  - split; try done; [by rewrite Ed|right; done|cbn; lia].
  - unfold disk_inode. rewrite (patched_in _ _ _ _ _ 76 Hpt) by done. by apply dec_enc_pure.
  - rewrite fbytes_app, Z2Nat.id by lia. f_equal.
    + apply fbytes_ext. intros y Hy. assert (y / 512 < len g) as Hyg by (destruct I5 as [[-> E]|E]; Z.div_mod_to_equations; lia).
      rewrite Hg3 by (rewrite ?len_app; pose proof (len_nonneg h); lia). rewrite W2 by lia. rewrite (fbyte_gbyte c _ _ g) by (done || lia).
      unfold gbyte. rewrite nthz_app_l by (Z.div_mod_to_equations; lia).
      assert (g@@(y / 512) ∈ g) as Hin' by (apply nthz_elem; Z.div_mod_to_equations; lia).
      specialize (Hdata g@@(y / 512) ltac:(left; set_solver)). apply X8; [Z.div_mod_to_equations; lia|]. rewrite gaddr_div by lia.
      intros ET. destruct (Z.eq_dec T1 0) as [E0|Hn0]; [|apply HTg; [done|rewrite <- ET; set_solver]].
      destruct (ow_in _ _ _ I1 g@@(y / 512) ltac:(by left)) as [Hd _]. pose proof (in_data_pos _ _ Hp Hd). lia.
    + apply fbytes_is. intros y Hy. rewrite Hg3 by (Z.div_mod_to_equations; lia). by apply W1.
  - intros y Hy Hyg HyT. rewrite Hd3, W3 by auto. by apply X8.
  - apply (bits_kept_same _ _ c1); [done| |done]. intros y Hy. rewrite Es, Ed in *.
    rewrite (inode_patched_bitmap p c2 c3 _ _ Hp ltac:(apply Hno) Hpt y Hy). apply W3. right. intros Hin.
    specialize (Hdata _ ltac:(left; exact Hin)). destruct Hp as [_ (_ & _ & P1) P2 P3 P4 _ _ _ _].
    clear -Hdata Hy P1 P2 P3 P4. Z.div_mod_to_equations. lia.
Qed.

(** The last part: the data, the inode, the two buffers. *)
Lemma write_tail_ok c L k s r1 r2 x con p n0 file f n g T c1 h T1 ab l :
  L !! r1 = None → <[r1 := pool_me s]> L !! r2 = None → part_ok (cur_part s) →
  let L2 := <[r2 := pool_me s]> (<[r1 := pool_me s]> L) in let a := fd_inode f in let count := len l in
  rd (file_table s) file = Ok f → file_inv c (cur_part s) n g T → extended L2 k c (cur_part s) n g T c1 x p n0 h T1 →
  len (g ++ h) = (i_size n + count) / 512 + 1 → i_size n + count < 140 * 512 → 0 ≤ i_no n < 256 → inode_secs (i_no n) = 1 →
  (∀ i, i_size n / 512 ≤ i < len (g ++ h) → rd ab i = Ok (g ++ h)@@i) → ∀ buf, take (Z.to_nat count) buf = l →
  fwp (st_file file (mkFile (u32 (i_size n - 1)) (fd_flag f) a) ;;
       bytes_written ← write_data (Datatypes.S (Z.to_nat count)) file ab buf 0 count true;
       m ← ld_inode a; inode_sync m (replicate 512 0) ;; fs_free r2 ;; fs_free r1 ;; mret (i32 bytes_written))
    (W s a x con p n0 (file_table s)) (λ r s', r = count ∧ ∃ c' n', appended c L k s file f n g T l s' c' n' h T1).
Proof.
  intros Hr1 Hr2 Hp L2 a count Hf HI HX Hlen Hmax Hno Hsec Hab buf Hbuf. pose proof (fi_size _ _ _ _ _ HI) as I6.
  destruct (HX) as [X1 X2 X3 X4 X5 X6 _ _ X9 _ X11 _]. destruct (grown_part _ _ X3) as [Es Ed].
  assert (i_size n0 = i_size n ∧ i_no n0 = i_no n) as [Hsz Hin] by (by rewrite X6). pose proof (len_nonneg l) as Hl0. fold count in Hl0.
  assert (len l ≤ len buf) as Hbl by (rewrite <- Hbuf; unfold len; rewrite length_take; lia).
  pose proof (rd_inv _ _ _ Hf) as [Hfi _]. fstep. eapply st_file_ok; [exact Hf|].
  set (f0 := mkFile (u32 (i_size n - 1)) (fd_flag f) a). set (ft0 := <[Z.to_nat file := f0]> (file_table s)).
  change (set_file_table _ _) with (W s a x con p n0 ft0). fstep. destruct (X1) as (_ & _ & Hp').
  eapply fwp_mono; [apply (write_data_ok s a L2 k file p (g ++ h) T1 ab buf count _ Hp' X4 Hbl c1 x con n0 ft0 f0 0 true X1 X2); rewrite ?Hsz; try (done || lia)|].
  { apply rd_some; [lia|]. apply list_lookup_insert_eq. unfold len in Hfi. lia. }
  { apply u32_range. }
  { intros i Hi1 Hi2. split; [apply Hab; Z.div_mod_to_equations; lia|Z.div_mod_to_equations; lia]. }
  rewrite Z.sub_0_r, drop_0, Hbuf, Hsz. intros r s1 (-> & c2 & x2 & con2 & -> & Hat2 & Hw2 & Hwr).
  set (n1 := set_i_size (i_size n + count) n0). fstep. eapply ld_inode_ok; [cbn; apply lookup_insert_eq|].
  assert (inode_wf n1) as Hwf by (apply (view_wf p n1 (g ++ h) T1); try done; [by destruct X5; split|unfold is_u32; cbn; lia..]).
  fstep. eapply fwp_mono; [apply (inode_sync_buf_ok c2 L2 k); [by apply at_disk_fs|apply Hp'|done|]|].
  { cbn. rewrite Hin, u8_id, Hsec by lia. done. }
  intros [] s2 (c3 & Hs3 & Hpt). cbn [cur_part W] in *. change (i_no n1) with (i_no n0) in Hpt. rewrite Hin, u8_id in Hpt by lia.
  destruct (served_W _ _ _ _ _ _ _ _ _ _ _ _ Hat2 Hs3) as (x3 & -> & Hat3). pose proof (sv_wf _ _ _ _ (proj1 Hat3)) as Hw3.
  eapply fwp_mono; [eapply (free2_ok c3 L k _ r1 r2 _ _ (pool_me s)); [by apply at_disk_fs|done|done|done]|].
  intros r s4 [-> Hs4]. split; [apply i32_id; lia|]. exists c3, n1. destruct Hs4 as (x4 & -> & Hat4). rewrite Ed in Hwr, Hpt.
  replace (inode_addr p (i_no n)) with (inode_addr (cur_part s) (i_no n)) in Hpt by (unfold inode_addr; by rewrite Es).
  destruct (append_disk L2 k c (cur_part s) n g T c1 x p n0 h T1 c2 c3 l) as (? & ? & ? & ? & ?); try done; [lia|].
  split; unfold W; cbn [set_sv sv console me cur_part inodes dirs root_dir file_table]; try done.
  unfold ft0, f0. cbn [fd_pos fd_flag]. rewrite list_insert_insert_eq. unfold u32. by rewrite Zplus_mod_idemp_l.
Qed.

(** What [file_write] needs: an open file whose inode is in memory and lies in
    one sector of the inode table (the buffer it passes to [inode_sync] has one
    sector), and the root directory's block marked. *)
Record writable (c : disks) s (file : Z) (f : File) (n : INode) (g : list Z) (T : Z) : Prop := {
  wb_file : rd (file_table s) file = Ok f;
  wb_inode : inodes s !! fd_inode f = Some n;
  wb_part : part_ok (cur_part s);
  wb_inv : file_inv c (cur_part s) n g T;
  wb_no : 0 ≤ i_no n < 256;
  wb_sec : inode_secs (i_no n) = 1;
  wb_root : block_used (cur_part s) (data_start_lba (sb (cur_part s))) = true;
  wb_bits : 0 < nbits (block_bitmap (cur_part s));
}.

Lemma file_write_ok c L k s file f n g T buf count : fs_at c L (2 + k) s → writable c s file f n g T →
  0 ≤ count ≤ len buf → i_size n + count < 140 * 512 →
  fwp (file_write file buf count) s (λ r s', r = -1 ∧ is_full (cur_part s')
    ∨ r = count ∧ ∃ c' n' h T', appended c L k s file f n g T (take (Z.to_nat count) buf) s' c' n' h T').
Proof.
  intros Hat [B1 B2 B3 B4 B5 B6 B7 B8] Hc Hmax. pose proof (fs_at_wf _ _ _ _ Hat) as Hw. destruct (Hat) as [_ Hdev].
  destruct (B4) as [I1 I2 I3 I4 I5 I6]. unfold file_write. fstep. eapply ld_file_ok; [done|]. fstep. eapply ld_inode_ok; [done|].
  rewrite !(u32_id (i_size n + count)) by lia. unfold BLOCK_SIZE, SECTOR_SIZE. destruct (Z.ltb_spec (512 * 140) (i_size n + count)); [lia|].
  fstep. eapply (fwp_malloc c L (1 + k)); [done|lia|]. intros r1 s1 R1 N1 Hs1. destruct (Z.eqb_spec r1 NULL) as [|_]; [done|].
  fstep. eapply (fwp_malloc c _ k); [by destruct Hs1 as (x & _ & ?)|lia|]. intros r2 s2 R2 N2 Hs2.
  destruct (Z.eqb_spec r2 NULL) as [|_]; [done|]. pose proof (malloc2_ok _ _ _ _ _ _ _ _ R1 N1 Hs1 N2 Hs2) as (x & -> & Hat2).
  assert (pool_me s1 = pool_me s) as Hpm by by destruct Hs1 as (? & -> & _). rewrite ?Hpm in *.
  set (L2 := <[r2 := pool_me s]> (<[r1 := pool_me s]> L)) in *. set (a := fd_inode f) in *.
  replace (set_sv x s) with (W s a x (console s) (cur_part s) n (file_table s)) by (unfold W, set_sv; by rewrite insert_id).
  assert (at_disk L2 k c x (cur_part s)) as Hat' by (split_and!; [apply Hat2|done|done]).
  fstep. eapply fwp_mono; [by apply (first_block_ok s a L2 k c x _ _ n _ g T)|]. intros [] s3 H3; cbn [negb]; [|fstep; left; by destruct H3].
  destruct H3 as (c1 & x1 & p1 & n1 & h1 & -> & HX1 & Hl1). pose proof (len_nonneg g).
  assert (len (g ++ h1) = i_size n / 512 + 1) as Hhas by (destruct I5 as [[Eg E]|E]; [by rewrite Hl1, Eg, E|Z.div_mod_to_equations; lia]).
  fstep. fstep; [apply Z.leb_le; Z.div_mod_to_equations; lia|]. fstep. rewrite <- Hhas.
  destruct (HX1) as [X1 X2 X3 X4 X5 X6 X7 X8 X9 X10 X11 _]. destruct (grown_part _ _ X3) as [Es Ed].
  eapply fwp_mono; [apply (write_blocks_ok s a L2 k c1 x1 _ p1 n1 _ (g ++ h1) T); try done; [by rewrite Ed|rewrite Hhas; Z.div_mod_to_equations; lia|Z.div_mod_to_equations; lia]|].
  intros [ab|] s4; [|intros; fstep; by left]. intros (c2 & x2 & p2 & n2 & h2 & T2 & -> & Hl2 & HX2 & Hab).
  pose proof (extended_trans L2 k _ _ _ _ _ _ _ _ _ _ _ _ _ _ _ _ _ B3 HX1 HX2) as HX. rewrite <- app_assoc in *.
  assert (len (take (Z.to_nat count) buf) = count) as Hlt by (rewrite len_take; lia).
  pose proof (write_tail_ok c L k s r1 r2 x2 (console s) p2 n2 file f n g T c2 (h1 ++ h2) T2 ab (take (Z.to_nat count) buf)) as Htail.
  cbv zeta in Htail. rewrite Hlt in Htail. eapply fwp_mono; [apply Htail; try done; [intros i Hi; apply Hab; lia]|].
  intros r s' [-> (c' & n' & HA)]. right. split; [done|]. by exists c', n', (h1 ++ h2), T2.
Qed.

(** C2: [file_write] appends, through the direct blocks, across the boundary to the
    indirect table, or within the table, for a file whose inode has a number
    below 256 and lies in one sector of the inode table.  For a request that
    leaves the file below 71680 bytes, either no block is free and it returns -1,
    or it returns the number of bytes asked for and then: the file reads as
    before followed by exactly the bytes given; the inode in memory and the one on
    the disk have the new size and addresses; exactly the added blocks and a new
    indirect table, all free before, are newly marked in the bitmap in memory,
    and a bitmap on the disk that agreed with it agrees again, but for the bit of
    a new table; no other data block changed; the buffers are given back; and the
    file is again in a state in which it can be written.  A request beyond 71680
    bytes is refused without a change.  (One that ends at 71680 panics:
    [file_write_full_size_panics]; an inode across two sectors overruns a buffer:
    [inode_sync_small_buffer_faults].) *)
Theorem file_write_correct c L k s file f n g T buf count :
  fs_at c L (2 + k) s → writable c s file f n g T → 0 ≤ count ≤ len buf → count < 2 ^ 31 →
  (i_size n + count < 140 * 512 → ∃ r s', file_write file buf count s = Ok (r, s')
     ∧ (r = -1 ∧ is_full (cur_part s')
        ∨ r = count ∧ ∃ c' n' h T', appended c L k s file f n g T (take (Z.to_nat count) buf) s' c' n' h T'))
  ∧ (140 * 512 < i_size n + count → i_size n < 2 ^ 31 →
     ∃ s', file_write file buf count s = Ok (-1, s') ∧ s' = set_console (console s') s).
Proof.
  intros Hat Hwb Hc Hc31. split.
  - intros Hm. destruct (fwp_inv _ _ _ (file_write_ok c L k s file f n g T buf count Hat Hwb Hc Hm)) as (r & s' & E & H). eauto.
  - intros Hm Hs. destruct Hwb as [B1 B2 B3 B4 B5 B6 B7 B8]. pose proof (fi_size _ _ _ _ _ B4).
    assert (fwp (file_write file buf count) s (λ r s', r = -1 ∧ s' = set_console (console s') s)) as (r & s' & E & -> & E')%fwp_inv; [|eauto].
    unfold file_write. fstep. eapply ld_file_ok; [done|]. fstep. eapply ld_inode_ok; [done|].
    rewrite !(u32_id (i_size n + count)) by lia. unfold BLOCK_SIZE, SECTOR_SIZE. destruct (Z.ltb_spec (512 * 140) (i_size n + count)); [|lia].
    unfold say. repeat fstep. by destruct s.
Qed.

(** C36: The largest size [file_write] says it accepts, 71680 bytes, it cannot reach:
    a request on a nonempty file that ends there passes the test, and then the
    assertion on the number of blocks fails. *)
Theorem file_write_full_size_panics c L k s file f n g T buf count :
  fs_at c L (2 + k) s → writable c s file f n g T → 0 ≤ count ≤ len buf → i_size n + count = 71680 → 0 < i_size n →
  file_write file buf count s = Panic.
Proof.
  intros Hat [B1 B2 B3 B4 B5 B6 B7 B8] Hc Hm Hpos. pose proof (fs_at_wf _ _ _ _ Hat) as Hw. destruct (Hat) as [_ Hdev]. destruct (B4) as [I1 I2 I3 I4 I5 I6]. unfold file_write.
  apply bind_panics. eapply ld_file_ok; [done|]. apply bind_panics. eapply ld_inode_ok; [done|].
  rewrite !(u32_id (i_size n + count)), Hm by lia. cbn [Z.ltb]. change (BLOCK_SIZE * 140 <? 71680) with false. cbv iota.
  apply bind_panics. eapply (fwp_malloc c L (1 + k)); [done|unfold BLOCK_SIZE, SECTOR_SIZE; lia|]. intros r1 s1 R1 N1 Hs1. destruct (Z.eqb_spec r1 NULL) as [|_]; [done|].
  apply bind_panics. eapply (fwp_malloc c _ k); [by destruct Hs1 as (x & _ & ?)|unfold BLOCK_SIZE, SECTOR_SIZE; lia|]. intros r2 s2 R2 N2 Hs2.
  destruct (Z.eqb_spec r2 NULL) as [|_]; [done|]. pose proof (malloc2_ok _ _ _ _ _ _ _ _ R1 N1 Hs1 N2 Hs2) as (x & -> & Hat2).
  replace (set_sv x s) with (W s (fd_inode f) x (console s) (cur_part s) n (file_table s)) by (unfold W, set_sv; by rewrite insert_id).
  apply bind_panics. eapply fwp_mono; [eapply (first_block_ok s _ _ k c x _ _ n _ g T); try done; split_and!; [apply Hat2|done|done]|].
  intros [] s3 H3; cbn [negb]; [done|]. destruct H3 as [-> _]. destruct I5 as [[_ E]|E]; [lia|]. unfold len in E. simpl in E. Z.div_mod_to_equations. lia.
Qed.

(** The buffer [file_write] hands to [inode_sync] has one sector.  When the inode
    crosses a sector boundary, inode 6 being the first, the two sectors read go
    past its end: a successful write runs over the heap block. *)
Theorem inode_sync_small_buffer_faults s n : i_no n < 256 → inode_wf n → table_ok (cur_part s) →
  inode_secs (i_no n) = 2 → ∀ c L k, fs_at c L k s → inode_sync n (replicate 512 0) s = Fault.
Proof.
  intros Hno Hn Ht Hsec c L k Hat. pose proof (iw_no _ Hn) as [H0 _]. unfold inode_sync.
  apply bind_faults. rewrite u8_id by lia. eapply fwp_mono; [apply inode_locate_ok; [done|lia]|]. intros pos s' (-> & Hpos & Hs).
  apply bind_faults. fstep. apply bind_faults. destruct Hpos as (P1 & P2 & P3 & P4 & P5 & P6), Ht as (T1 & T2 & T3 & T4).
  fstep; [apply Z.leb_le; rewrite u32_id; lia|]. pose proof (fs_at_wf _ _ _ _ Hat) as Hw.
  apply bind_fault_l, bind_faults. eapply fwp_read; [done|lia|lia|lia|]. intros s1 _. rewrite len_read_secs by done.
  by rewrite Hs, Hsec.
Qed.
End append.
