(* ===== verification/DirSpec.v ===== *)
(** * fs/dir.c: directories as lists of entries

    A directory is the list of the 24-byte entries in its blocks, 21 in each.
    Searching finds the first entry with a name, adding fills the first unused
    entry, reading enumerates the used ones. *)
From Stdlib Require Import String.
From S2P Require Import Prelude CString Bitmap Machine Ide DiskBytes FsBase Inode Dir FileSpec FsAlloc.

(** ** Entries *)

(** The C string at the start of [l]. *)
Fixpoint until0 (l : list Z) : list Z :=
  match l with [] => [] | x :: l => if x =? 0 then [] else x :: until0 l end.
Definition entry (b : list Z) (i : Z) : list Z := take 24 (drop (Z.to_nat (24 * i)) b).
Definition sec_entries (b : list Z) : list (list Z) := map (λ i, entry b (Z.of_nat i)) (seq 0 21).
(** A NUL ends the name at the latest in the inode number. *)
Definition entry_ok (e : list Z) : Prop := Forall (λ x, 0 ≤ x < 256) e ∧ 0 ∈ e.
Definition named (nm e : list Z) : bool := bool_decide (until0 e = nm).
Definition entry_type (e : list Z) : Z := de_f_type e 0.
Definition unused (e : list Z) : bool := entry_type e =? FT_UNKNOWN.

(** ** A directory's blocks *)
Definition dir_blocks (c : disks) (dev : Z) (n : INode) : list Z :=
  take 12 (i_sectors n) ++ (if (i_sectors n)@@12 =? 0 then replicate 128 0 else bytes_words 128 (c dev (i_sectors n)@@12)).
Definition block_entries (c : disks) (dev b : Z) : list (list Z) := if b =? 0 then [] else sec_entries (c dev b).
Definition dir_entries (c : disks) (dev : Z) (n : INode) : list (list Z) := concat (map (block_entries c dev) (dir_blocks c dev n)).

Record dir_wf (c : disks) (p : Partition) (n : INode) : Prop := {
  dw_secs : length (i_sectors n) = 13%nat;
  dw_tab : 0 ≤ (i_sectors n)@@12 ≤ max_lba;
  dw_blk b : b ∈ dir_blocks c (my_dev p) n → b ≠ 0 → 0 ≤ b ≤ max_lba;
  dw_ent : Forall entry_ok (dir_entries c (my_dev p) n);
  dw_size : dir_entry_size (sb p) = 24;
}.

Lemma until0_split e : 0 ∈ e → ∃ post, e = until0 e ++ 0 :: post.
Proof.
  induction e as [|x e IH]; [by intros ?%not_elem_of_nil|]. intros H. simpl. destruct (Z.eqb_spec x 0) as [->|Hx]; [by exists e|].
  apply elem_of_cons in H as [?|H]; [done|]. destruct (IH H) as [post E]. exists post. simpl. by rewrite <- E.
Qed.
Lemma until0_chars e : Forall (λ x, 0 ≤ x < 256) e → Forall (λ x, 0 < x < 256) (until0 e).
Proof.
  induction 1 as [|x e Hx _ IH]; simpl; [done|]. destruct (Z.eqb_spec x 0); [done|]. apply Forall_cons. split; [lia|done].
Qed.
Lemma entry_split b i : 0 ≤ i → 24 * i + 24 ≤ len b →
  b = take (Z.to_nat (24 * i)) b ++ entry b i ++ drop (Z.to_nat (24 * i + 24)) b.
Proof.
  intros Hi Hb. rewrite <- (take_drop (Z.to_nat (24 * i)) b) at 1. f_equal. unfold entry.
  rewrite <- (take_drop 24 (drop (Z.to_nat (24 * i)) b)) at 1. f_equal. rewrite drop_drop. f_equal. lia.
Qed.
Lemma entry_cstr b i : 0 ≤ i → 24 * i + 24 ≤ len b → entry_ok (entry b i) → cstr b (24 * i) (until0 (entry b i)).
Proof.
  intros Hi Hb [Hc H0]. destruct (until0_split _ H0) as [post E]. exists (take (Z.to_nat (24 * i)) b), (post ++ drop (Z.to_nat (24 * i + 24)) b).
  split_and!; [|rewrite len_take by lia; lia|by apply until0_chars].
  rewrite (entry_split b i) at 1 by done. f_equal. rewrite E at 1. by rewrite <- app_assoc.
Qed.

(** The entries from [i] on, [n] of them. *)
Definition entries_from (b : list Z) (i : Z) (n : nat) : list (list Z) := map (λ j, entry b (i + Z.of_nat j)) (seq 0 n).
Lemma entries_from_S b i n : entries_from b i (S n) = entry b i :: entries_from b (i + 1) n.
Proof.
  unfold entries_from. cbn [seq map]. f_equal; [f_equal; lia|]. rewrite <- seq_shift, map_map. apply map_ext. intros j. f_equal. lia.
Qed.
Lemma sec_entries_from b : sec_entries b = entries_from b 0 21.
Proof. reflexivity. Qed.

Lemma search_sector_ok name nm b n : cstr name 0 nm → ∀ i, 0 ≤ i → 24 * (i + Z.of_nat n) ≤ len b → Forall entry_ok (entries_from b i n) →
  search_sector n i b name ⇓ λ r, find (named nm) (entries_from b i n) = entry b <$> r ∧ (∀ j, r = Some j → i ≤ j < i + Z.of_nat n).
Proof.
  intros Hnm. induction n as [|n IH]; intros i Hi Hb Hok; [done|]. rewrite entries_from_S in *. apply Forall_cons in Hok as [He Hok].
  cbn [search_sector find]. unfold de_filename at 1. rewrite (strcmp_ok _ _ _ _ _ _ (entry_cstr b i ltac:(lia) ltac:(lia) He) Hnm). cbn [mbind outcome_bind].
  assert (Forall (λ x, 0 < x < 256) nm) as Hc by (by destruct Hnm as (? & ? & _ & _ & ?)).
  unfold named at 1. destruct (Z.eqb_spec (scmp (until0 (entry b i)) nm) 0) as [E|E].
  - apply scmp_0 in E; [|by apply until0_chars, He|done]. rewrite bool_decide_true by done. cbn. split; [done|]. intros j [= <-]. lia.
  - rewrite bool_decide_false by (intros E'; apply E, scmp_0; [by apply until0_chars, He|done|done]).
    eapply returns_mono; [apply (IH (i + 1)); [lia|lia|done]|]. intros r [Hr Hj]. split; [done|]. intros j Ej. specialize (Hj j Ej). lia.
Qed.

Section search.
Context {S : Type} `{!Services S}.
Implicit Types s : fs S.

Lemma find_app {A} (f : A → bool) l1 l2 : find f (l1 ++ l2) = match find f l1 with Some x => Some x | None => find f l2 end.
Proof. induction l1 as [|x l1 IH]; simpl; [done|]. by destruct (f x). Qed.

Lemma search_blocks_ok c L k name nm bl : cstr name 0 nm → ∀ s, fs_at c L k s → (∀ b, b ∈ bl → b ≠ 0 → 0 ≤ b ≤ max_lba) →
  Forall entry_ok (concat (map (block_entries c (my_dev (cur_part s))) bl)) →
  fwp (search_blocks bl 24 name) s (λ r s', r = find (named nm) (concat (map (block_entries c (my_dev (cur_part s))) bl)) ∧ served c L k s s').
Proof.
  intros Hnm. induction bl as [|b bl IH]; intros s Hat Hb Hok; cbn [search_blocks].
  { fstep. split; [done|by apply served_refl]. }
  cbn [map concat] in *. apply Forall_app in Hok as [Hok1 Hok2]. rewrite find_app. unfold block_entries at 1 in Hok1. unfold block_entries at 1.
  destruct (Z.eqb_spec b 0) as [->|Hb0]; [apply IH; [done|intros; apply Hb; set_solver|done]|].
  pose proof (fs_at_wf _ _ _ _ Hat) as Hw. destruct (Hb b ltac:(set_solver) Hb0). fstep. eapply fwp_read; [done|lia|lia|lia|]. intros s1 Hs1.
  change (Z.to_nat 1) with 1%nat. rewrite read_secs_1. set (buf := c (my_dev (cur_part s)) b) in *. rewrite !sec_entries_from in *.
  assert (len buf = 512) as Hl by (unfold len, buf; by rewrite Hw). fstep. apply fwp_lift. change (Z.to_nat (SECTOR_SIZE / 24)) with 21%nat.
  eapply returns_mono; [apply (search_sector_ok name nm buf 21 Hnm 0); [lia|lia|done]|]. intros [i|] [-> Hi]; cbn [fmap option_fmap option_map].
  - specialize (Hi i eq_refl). fstep. apply fwp_lift. unfold de_filename.
    rewrite memcpy_ok; [|lia|lia|lia|done|lia]. cbn [returns]. fstep.
    rewrite (drop_ge (replicate _ _)), app_nil_r by done. split; done.
  - eapply fwp_mono; [apply (IH s1); [by destruct Hs1 as (x & _ & ?)|intros; apply Hb; set_solver|]|].
    + destruct Hs1 as (x & -> & _). done.
    + intros r s2 [-> Hs2]. destruct (Hs1) as (x & E & _). split; [by rewrite E|]. by eapply served_trans.
Qed.

Lemma collect_blocks_ok c L k s n : fs_at c L k s → length (i_sectors n) = 13%nat → 0 ≤ (i_sectors n)@@12 ≤ max_lba →
  fwp (collect_blocks n) s (λ r s', r = dir_blocks c (my_dev (cur_part s)) n ∧ served c L k s s').
Proof.
  intros Hat Hl H12. unfold collect_blocks, dir_blocks. fstep. rewrite rd_ok by (unfold len; lia). apply fwp_lift. cbn [returns].
  destruct (Z.eqb_spec (i_sectors n)@@12 0); cbn [negb]; [fstep; split; [done|by apply served_refl]|].
  fstep. eapply fwp_read; [done|lia|lia|lia|]. intros s1 Hs1. fstep. change (Z.to_nat 1) with 1%nat. by rewrite read_secs_1.
Qed.

Lemma ld_dir_ok s a d Q : dirs s !! a = Some d → Q d s → fwp (ld_dir a) s Q.
Proof. intros H HQ. unfold ld_dir. repeat fstep. by rewrite H. Qed.

(** Two buffers taken one after the other, with a computation in between. *)
Lemma search_dir_entry_ok c L k s pdir d n name nm : fs_at c L (2 + k) s → dirs s !! pdir = Some d → inodes s !! dir_inode d = Some n →
  dir_wf c (cur_part s) n → cstr name 0 nm →
  fwp (search_dir_entry pdir name) s (λ r s', r = find (named nm) (dir_entries c (my_dev (cur_part s)) n) ∧ served c L k s s').
Proof.
  intros Hat Hd Hn [W1 W2 W3 W4 W5] Hnm. unfold search_dir_entry. do 2 fstep. fstep.
  eapply (fwp_malloc c L (1 + k)); [done|lia|]. intros r1 s1 R1 N1 Hs1. destruct (Z.eqb_spec r1 NULL) as [|_]; [done|].
  destruct (Hs1) as (x1 & E1 & Hat1). fstep. eapply ld_dir_ok; [by rewrite E1|]. fstep. eapply ld_inode_ok; [by rewrite E1|].
  fstep. eapply fwp_mono; [by apply (collect_blocks_ok c (<[r1 := pool_me s]> L) (1 + k))|]. intros bl s2 [-> Hs2]. assert (my_dev (cur_part s1) = my_dev (cur_part s)) as Ed1 by by rewrite E1.
  pose proof (served_trans _ _ _ _ _ _ _ _ _ Hs1 Hs2) as Hs2'. destruct (Hs2') as (x2 & E2 & Hat2).
  fstep. eapply (fwp_malloc c _ k); [done|unfold SECTOR_SIZE; lia|]. intros r2 s3 R2 N2 Hs3. pose proof (served_trans _ _ _ _ _ _ _ _ _ Hs2' Hs3) as Hs3'.
  fstep. unfold touch. destruct (Z.eqb_spec r2 NULL) as [|_]; [done|]. fstep. fstep. rewrite W5, Ed1.
  assert (pool_me s2 = pool_me s) as Hp2 by by rewrite E2. rewrite Hp2 in *. destruct (Hs3') as (x3 & E3 & Hat3).
  assert (my_dev (cur_part s3) = my_dev (cur_part s)) as Ed3 by by rewrite E3.
  eapply fwp_mono; [apply (search_blocks_ok c _ k name nm _ Hnm s3 Hat3); [done|by rewrite Ed3]|]. rewrite Ed3. intros r s4 [-> Hs4].
  pose proof (served_trans _ _ _ _ _ _ _ _ _ Hs3' Hs4) as Hs4'. destruct (Hs4') as (x4 & E4 & Hat4).
  eapply fwp_mono; [eapply (free2_ok c L k s4 r1 r2 _ _ (pool_me s)); [done|by rewrite E4|done|done]|].
  intros r s5 [-> Hs5]. split; [done|]. by eapply served_trans.
Qed.

(** C22: [search_dir_entry]: whatever the blocks a directory has, direct or through
    the indirect table, it returns the first entry whose name, read as a C
    string, is the one asked for, and [false] when there is none; nothing but
    the services' state changes and the buffers are given back. *)
Theorem search_dir_entry_correct c L k s pdir d n name nm :
  fs_at c L (2 + k) s → dirs s !! pdir = Some d → inodes s !! dir_inode d = Some n → dir_wf c (cur_part s) n → cstr name 0 nm →
  ∃ s', search_dir_entry pdir name s = Ok (find (named nm) (dir_entries c (my_dev (cur_part s)) n), s') ∧ served c L k s s'.
Proof.
  intros Hat Hd Hn Hw Hnm. destruct (fwp_inv _ _ _ (search_dir_entry_ok c L k s pdir d n name nm Hat Hd Hn Hw Hnm)) as (r & s' & E & -> & Hs).
  eauto.
Qed.
End search.

(** ** Adding an entry *)

Lemma len_entry b i : 0 ≤ i → 24 * i + 24 ≤ len b → len (entry b i) = 24.
Proof. intros Hi Hb. unfold entry. rewrite len_take; [done|]. rewrite len_drop by lia. lia. Qed.
Lemma entry_app_l b r i : 0 ≤ i → 24 * i + 24 ≤ len b → entry (b ++ r) i = entry b i.
Proof.
  intros Hi Hb. unfold entry, len in *. rewrite drop_app_le by lia. rewrite take_app_le; [done|]. rewrite length_drop. lia.
Qed.
Lemma entries_from_app_l b r i n : 0 ≤ i → 24 * (i + Z.of_nat n) ≤ len b → entries_from (b ++ r) i n = entries_from b i n.
Proof. intros Hi Hb. unfold entries_from. apply map_ext_in. intros j Hj%in_seq. apply entry_app_l; lia. Qed.
Lemma de_f_type_entry b i : 0 ≤ i → de_f_type b i = entry_type (entry b i).
Proof.
  intros Hi. unfold entry_type, de_f_type, word_off, entry. f_equal. change (Z.to_nat (24 * 0 + 20)) with 20%nat.
  rewrite skipn_firstn_comm, take_take, drop_drop. do 2 f_equal. lia.
Qed.
Lemma find_unused_ok b n : ∀ i, 0 ≤ i →
  find_unused n i b = (λ x : nat * list Z, i + Z.of_nat x.1) <$> list_find (λ e, unused e = true) (entries_from b i n).
Proof.
  induction n as [|n IH]; intros i Hi; [done|]. rewrite entries_from_S. cbn [find_unused list_find]. rewrite de_f_type_entry by done.
  fold (unused (entry b i)). destruct (unused (entry b i)) eqn:E.
  - rewrite decide_True by done. cbn. f_equal. lia.
  - rewrite decide_False by done. rewrite IH by lia. destruct (list_find _ _) as [[j e]|]; cbn; [|done]. f_equal. lia.
Qed.

(** A sector with entry [i] replaced. *)
Definition put_entry (b : list Z) (i : Z) (e : list Z) : list Z := take (Z.to_nat (24 * i)) b ++ e ++ drop (Z.to_nat (24 * i + 24)) b.
Lemma len_put_entry b i e : 0 ≤ i → 24 * i + 24 ≤ len b → len e = 24 → len (put_entry b i e) = len b.
Proof. intros Hi Hb He. unfold put_entry. rewrite !len_app, len_take, len_drop by lia. lia. Qed.
Lemma nthz_put_entry b i e x : 0 ≤ i → 24 * i + 24 ≤ len b → len e = 24 → 0 ≤ x →
  (put_entry b i e)@@x = if decide (24 * i ≤ x < 24 * i + 24) then e@@(x - 24 * i) else b@@x.
Proof.
  intros Hi Hb He Hx. unfold put_entry. case_decide.
  - rewrite nthz_app_r, nthz_app_l by (rewrite len_take by lia; lia). f_equal. rewrite len_take by lia. lia.
  - destruct (Z.ltb_spec x (24 * i)).
    + rewrite nthz_app_l, nthz_take by (rewrite ?len_take by lia; lia). done.
    + rewrite nthz_app_r by (rewrite len_take by lia; lia). rewrite len_take by lia. rewrite nthz_app_r, nthz_drop by lia. f_equal. lia.
Qed.
Lemma entry_put_entry b i e j : 0 ≤ i → 24 * i + 24 ≤ len b → len e = 24 → 0 ≤ j → 24 * j + 24 ≤ len b →
  entry (put_entry b i e) j = if decide (j = i) then e else entry b j.
Proof.
  intros Hi Hb He Hj Hbj. pose proof (len_put_entry b i e Hi Hb He) as Hl. case_decide as Hji.
  - subst j. apply nthz_ext; rewrite len_entry by lia; [done|]. intros x Hx. unfold entry.
    rewrite nthz_take, nthz_drop, nthz_put_entry, decide_True by lia. f_equal. lia.
  - apply nthz_ext; rewrite !len_entry by lia; [done|]. intros x Hx. unfold entry.
    rewrite !nthz_take, !nthz_drop, nthz_put_entry, decide_False by lia. done.
Qed.
Lemma sec_entries_put b i e : (i < 21)%nat → len b = 512 → len e = 24 → sec_entries (put_entry b (Z.of_nat i) e) = <[i := e]> (sec_entries b).
Proof.
  intros Hi Hb He. apply list_eq. intros j. unfold sec_entries. destruct (decide (j < 21)%nat) as [Hj|Hj].
  - rewrite list_lookup_fmap, lookup_seq_lt by done. cbn [fmap option_fmap option_map]. rewrite entry_put_entry by lia. destruct (decide (i = j)) as [->|Hne].
    + rewrite decide_True by done. rewrite list_lookup_insert_eq by (rewrite length_map, length_seq; done). done.
    + rewrite decide_False by lia. rewrite list_lookup_insert_ne by done. by rewrite list_lookup_fmap, lookup_seq_lt by done.
  - rewrite !lookup_ge_None_2; [done| |]; rewrite ?length_insert, ?length_fmap, ?length_map, ?length_seq; lia.
Qed.

Section add.
Context {S : Type} `{!Services S}.
Implicit Types s : fs S.

Definition full_block (c : disks) (dev b : Z) : Prop := b ≠ 0 ∧ 0 ≤ b ≤ max_lba ∧ Forall (λ e, unused e = false) (sec_entries (c dev b)).

Lemma read_block_ok c L k s io b Q : fs_at c L k s → 0 ≤ b ≤ max_lba → 512 ≤ len io →
  (∀ s', served c L k s s' → Q (c (my_dev (cur_part s)) b ++ drop 512 io) s') → fwp (read_into io b 1) s Q.
Proof.
  intros Hat Hb Hio HQ. pose proof (fs_at_wf _ _ _ _ Hat) as Hw. unfold read_into. fstep. eapply fwp_read; [done|lia|lia|lia|]. intros s' Hs.
  change (Z.to_nat 1) with 1%nat. rewrite read_secs_1. unfold len at 1. rewrite Hw. destruct (Z.leb_spec (Z.of_nat 512) (len io)); [|lia].
  fstep. by apply HQ.
Qed.

(** Full blocks are passed over. *)
Lemma sync_loop_full c L k inode p_de ab fuel Q : ∀ pre j s io, fs_at c L k s → len io = 1024 → 0 ≤ j →
  (∀ i b, pre !! i = Some b → rd ab (j + Z.of_nat i) = Ok b) → Forall (full_block c (my_dev (cur_part s))) pre →
  (∀ s' io', served c L k s s' → len io' = 1024 → fwp (sync_loop fuel inode (j + len pre) ab p_de 24 io') s' Q) →
  fwp (sync_loop (length pre + fuel) inode j ab p_de 24 io) s Q.
Proof.
  induction pre as [|b pre IH]; intros j s io Hat Hio Hj Hab Hfull HQ.
  { replace j with (j + len (@nil Z)) by (unfold len; simpl; lia). apply HQ; [by apply served_refl|done]. }
  apply Forall_cons in Hfull as [(Hb0 & Hb & Hall) Hfull]. cbn [length Nat.add sync_loop]. pose proof (fs_at_wf _ _ _ _ Hat) as Hw.
  pose proof (Hab 0%nat b eq_refl) as Hr. rewrite Z.add_0_r in Hr. fstep. rewrite Hr. apply fwp_lift. cbn [returns].
  destruct (Z.eqb_spec b 0) as [|_]; [done|]. do 2 fstep. fstep. rewrite Hr. apply fwp_lift. cbn [returns]. fstep.
  eapply (read_block_ok c L k); [done|done|lia|]. intros s1 Hs1. set (sec := c (my_dev (cur_part s)) b) in *.
  assert (len sec = 512) as Hl by (unfold len, sec; by rewrite Hw). change (Z.to_nat (512 / 24)) with 21%nat.
  rewrite find_unused_ok, entries_from_app_l by lia. rewrite sec_entries_from in Hall.
  assert (list_find (λ e, unused e = true) (entries_from sec 0 21) = None) as ->.
  { apply list_find_None. eapply Forall_impl; [exact Hall|]. intros e He. cbn in He. congruence. }
  cbn [fmap option_fmap option_map]. assert (len (b :: pre) = 1 + len pre) as Hlp by (unfold len; simpl; lia).
  apply IH; [by destruct Hs1 as (x & _ & ?)|rewrite len_app, len_drop by lia; lia|lia| | |].
  - intros i b' Hi. rewrite <- (Hab (Datatypes.S i) b' Hi). f_equal. lia.
  - destruct Hs1 as (x & -> & _). done.
  - intros s' io' Hs' Hl'. replace (j + 1 + len pre) with (j + len (b :: pre)) by lia. apply HQ; [by eapply served_trans|done].
Qed.

Lemma grow_dir_ok s a n k Q : inodes s !! a = Some n →
  Q () (set_inodes (<[a := set_i_size (u32 (i_size n + k)) n]> (inodes s)) s) → fwp (grow_dir a k) s Q.
Proof. intros H HQ. unfold grow_dir. fstep. eapply ld_inode_ok; [done|]. by eapply st_inode_ok. Qed.

(** The first block with room takes the entry. *)
Lemma sync_loop_room c L k inode n p_de ab fuel j s io b i e : fs_at c L k s → len io = 1024 → rd ab j = Ok b → b ≠ 0 → 0 ≤ b ≤ max_lba →
  list_find (λ e, unused e = true) (sec_entries (c (my_dev (cur_part s)) b)) = Some (i, e) → len p_de = 24 → inodes s !! inode = Some n →
  fwp (sync_loop (Datatypes.S fuel) inode j ab p_de 24 io) s (λ r s', r = true ∧ ∃ x, 
    s' = set_inodes (<[inode := set_i_size (u32 (i_size n + 24)) n]> (inodes s)) (set_sv x s)
    ∧ fs_at (write_secs c (my_dev (cur_part s)) b 1 (put_entry (c (my_dev (cur_part s)) b) (Z.of_nat i) p_de)) L k s').
Proof.
  intros Hat Hio Hr Hb0 Hb Hf Hp Hn. pose proof (fs_at_wf _ _ _ _ Hat) as Hw. cbn [sync_loop]. fstep. rewrite Hr. apply fwp_lift. cbn [returns].
  destruct (Z.eqb_spec b 0) as [|_]; [done|]. do 2 fstep. fstep. rewrite Hr. apply fwp_lift. cbn [returns]. fstep.
  eapply (read_block_ok c L k); [done|done|lia|]. intros s1 (x1 & -> & Hat1). set (sec := c (my_dev (cur_part s)) b) in *.
  assert (len sec = 512) as Hl by (unfold len, sec; by rewrite Hw). change (Z.to_nat (512 / 24)) with 21%nat.
  rewrite find_unused_ok, entries_from_app_l by lia. rewrite sec_entries_from in Hf. rewrite Hf. cbn [fmap option_fmap option_map fst].
  assert (i < 21)%nat as Hi. { apply list_find_Some in Hf as [Hi _]. apply lookup_lt_Some in Hi. unfold entries_from in Hi. by rewrite length_map, length_seq in Hi. }
  fstep. unfold de_filename. rewrite Z.add_0_l. rewrite memcpy_ok; [|lia|lia|lia|rewrite len_app, len_drop by lia; lia|lia]. apply fwp_lift. cbn [returns].
  change (Z.to_nat 0) with 0%nat. rewrite drop_0, (take_ge p_de) by (unfold len in Hp; lia).
  assert (take 512 (take (Z.to_nat (24 * Z.of_nat i)) (sec ++ drop 512 io) ++ p_de ++ drop (Z.to_nat (24 * Z.of_nat i + 24)) (sec ++ drop 512 io))
    = put_entry sec (Z.of_nat i) p_de) as ->.
  { pose proof (len_put_entry sec (Z.of_nat i) p_de ltac:(lia) ltac:(lia) Hp) as Hlp. unfold put_entry in *. unfold len in Hl.
    rewrite (take_app_le sec), (drop_app_le sec) by lia. rewrite !app_assoc. apply take_app_length'. unfold len in Hlp. rewrite !length_app in *. lia. }
  fstep. eapply fwp_write; [exact Hat1|lia|lia|lia|rewrite len_put_entry; lia|]. intros s2 (x2 & -> & Hat2). fstep.
  eapply grow_dir_ok; [exact Hn|]. fstep. split; [done|]. exists x2. split; [done|]. by eapply fs_at_same.
Qed.

(** The sectors of a directory are distinct, in the data region, and marked. *)
Record dir_owns (c : disks) (p : Partition) (n : INode) : Prop := {
  do_nodup : NoDup (filter (λ b, b ≠ 0) ((i_sectors n)@@12 :: dir_blocks c (my_dev p) n));
  do_in b : b ∈ ((i_sectors n)@@12 :: dir_blocks c (my_dev p) n) → b ≠ 0 → in_data p b ∧ block_used p b = true;
}.

Lemma write_secs_other c dev b sec d l : d ≠ dev ∨ l ≠ b → write_secs c dev b 1 sec d l = c d l.
Proof. intros H. unfold write_secs. apply decide_False. lia. Qed.
Lemma write_secs_same c dev b sec : len sec = 512 → write_secs c dev b 1 sec dev b = sec.
Proof. intros H. unfold write_secs. rewrite decide_True by lia. rewrite Z.sub_diag, drop_0, take_ge; [done|]. unfold len in H. lia. Qed.

(** Only the entries of block [b] change when sector [b] does. *)
Lemma block_entries_other c dev b sec l : b ∉ l → map (block_entries (write_secs c dev b 1 sec) dev) l = map (block_entries c dev) l.
Proof.
  intros Hb. apply map_ext_in. intros x Hx%list_elem_of_In. unfold block_entries. rewrite write_secs_other; [done|]. right. by intros ->.
Qed.
Lemma dir_entries_write c p n n' b sec pre post : dir_owns c p n → i_sectors n' = i_sectors n → dir_blocks c (my_dev p) n = pre ++ b :: post →
  b ≠ 0 → len sec = 512 → let c' := write_secs c (my_dev p) b 1 sec in
  dir_blocks c' (my_dev p) n' = dir_blocks c (my_dev p) n
  ∧ dir_entries c' (my_dev p) n' = concat (map (block_entries c (my_dev p)) pre) ++ sec_entries sec ++ concat (map (block_entries c (my_dev p)) post).
Proof.
  intros [Hnd _] Hs Hbl Hb Hl c'. rewrite Hbl, filter_cons in Hnd. rewrite filter_app, filter_cons_True in Hnd by done.
  assert ((i_sectors n)@@12 ≠ b) as HT.
  { intros E. rewrite decide_True in Hnd by by rewrite E. rewrite E in Hnd. apply NoDup_cons in Hnd as [Hnd _]. apply Hnd. set_solver. }
  assert (NoDup (filter (λ b, b ≠ 0) pre ++ b :: filter (λ b, b ≠ 0) post)) as Hnd' by (case_decide; [by apply NoDup_cons in Hnd as [_ ?]|done]).
  assert ((b ∉ pre) ∧ (b ∉ post)) as [Hp1 Hp2].
  { apply NoDup_app in Hnd' as (_ & Hd & Hnd'). apply NoDup_cons in Hnd' as [Hd' _]. split.
    - intros Hin. apply (Hd b); [by apply list_elem_of_filter|set_solver].
    - intros Hin. apply Hd'. by apply list_elem_of_filter. }
  assert (dir_blocks c' (my_dev p) n' = dir_blocks c (my_dev p) n) as E.
  { unfold dir_blocks, c'. rewrite Hs, write_secs_other by by right. done. }
  split; [done|]. unfold dir_entries. rewrite E, Hbl, map_app, concat_app. cbn [map concat]. unfold c'. rewrite !block_entries_other by done.
  unfold block_entries at 2. rewrite write_secs_same by done. by destruct (Z.eqb_spec b 0).
Qed.

(** Where an entry goes: [pre] are full, [b] is the first block with room, [i]
    its first unused entry. *)
Record dir_room (c : disks) (p : Partition) (n : INode) (pre : list Z) (b : Z) (post : list Z) (i : nat) (e : list Z) : Prop := {
  dr_blocks : take 12 (i_sectors n) = pre ++ b :: post;
  dr_full : Forall (full_block c (my_dev p)) pre;
  dr_some : b ≠ 0;
  dr_first : list_find (λ e, unused e = true) (sec_entries (c (my_dev p) b)) = Some (i, e);
}.

Lemma length_sec_entries b : length (sec_entries b) = 21%nat.
Proof. unfold sec_entries. by rewrite length_map, length_seq. Qed.
Lemma full_entries c dev pre : Forall (full_block c dev) pre →
  length (concat (map (block_entries c dev) pre)) = (21 * length pre)%nat ∧ Forall (λ e, unused e = false) (concat (map (block_entries c dev) pre)).
Proof.
  induction 1 as [|b pre (Hb & _ & Hu) _ [IH1 IH2]]; [done|]. cbn [map concat]. unfold block_entries at 1 3.
  destruct (Z.eqb_spec b 0) as [|_]; [done|]. split; [rewrite length_app, length_sec_entries, IH1; cbn [length]; lia|].
  apply Forall_app. done.
Qed.
Lemma dir_blocks_12 c dev n pre b post : length (i_sectors n) = 13%nat → take 12 (i_sectors n) = pre ++ b :: post →
  ∃ post', dir_blocks c dev n = pre ++ b :: post'.
Proof. intros Hl H. unfold dir_blocks. rewrite H, <- app_assoc. cbn. eauto. Qed.

Lemma room_rd c n j pre x post : length (i_sectors n) = 13%nat → take 12 (i_sectors n) = pre ++ x :: post → j = pre ++ x :: post ++ replicate 128 c →
  (∀ i b, pre !! i = Some b → rd j (0 + Z.of_nat i) = Ok b) ∧ rd j (0 + len pre) = Ok x.
Proof.
  intros Hl H ->. split.
  - intros i b Hi. apply rd_some; [lia|]. rewrite Z.add_0_l, Nat2Z.id. by apply lookup_app_l_Some.
  - apply rd_some; [unfold len; lia|]. unfold len. replace (Z.to_nat (0 + Z.of_nat (length pre))) with (length pre) by lia. by apply list_lookup_middle.
Qed.

Lemma dir_entries_put c p n n' p_de pre b post i e : disks_wf c → length (i_sectors n) = 13%nat → dir_owns c p n → i_sectors n' = i_sectors n →
  len p_de = 24 → dir_room c p n pre b post i e →
  let c' := write_secs c (my_dev p) b 1 (put_entry (c (my_dev p) b) (Z.of_nat i) p_de) in
  dir_entries c' (my_dev p) n' = <[(21 * length pre + i)%nat := p_de]> (dir_entries c (my_dev p) n)
  ∧ list_find (λ e, unused e = true) (dir_entries c (my_dev p) n) = Some ((21 * length pre + i)%nat, e)
  ∧ dir_blocks c' (my_dev p) n' = dir_blocks c (my_dev p) n.
Proof.
  intros Hw W1 Ho Hs Hp [R1 R2 R3 R4] c'. destruct (dir_blocks_12 c (my_dev p) n pre b post W1 R1) as [post' Hbl].
  assert (i < 21)%nat as Hi. { apply list_find_Some in R4 as [Hi _]. apply lookup_lt_Some in Hi. by rewrite length_sec_entries in Hi. }
  assert (len (c (my_dev p) b) = 512) as Hl by (unfold len; by rewrite Hw).
  assert (len (put_entry (c (my_dev p) b) (Z.of_nat i) p_de) = 512) as Hl' by (rewrite len_put_entry; lia).
  destruct (dir_entries_write c p n n' b _ pre post' Ho Hs Hbl R3 Hl') as [E1 E2]. fold c' in E1, E2.
  rewrite E1, E2, sec_entries_put by assumption. destruct (full_entries _ _ _ R2) as [Hlf Huf].
  assert (dir_entries c (my_dev p) n = concat (map (block_entries c (my_dev p)) pre) ++ sec_entries (c (my_dev p) b)
    ++ concat (map (block_entries c (my_dev p)) post')) as ->.
  { unfold dir_entries. rewrite Hbl, map_app, concat_app. cbn [map concat]. unfold block_entries at 2. by destruct (Z.eqb_spec b 0). }
  rewrite <- Hlf, insert_app_r, insert_app_l by (rewrite length_sec_entries; assumption). split_and!; [reflexivity| |reflexivity].
  rewrite list_find_app_r, (list_find_app_l _ _ _ i e R4); [cbn; do 2 f_equal; lia|].
  apply list_find_None. eapply Forall_impl; [exact Huf|]. cbn. congruence.
Qed.

Lemma sync_dir_entry_room c L k s pdir d n p_de io pre b post i e : fs_at c L k s → dirs s !! pdir = Some d → inodes s !! dir_inode d = Some n →
  dir_wf c (cur_part s) n → dir_owns c (cur_part s) n → i_size n mod 24 = 0 → len p_de = 24 → len io = 1024 →
  dir_room c (cur_part s) n pre b post i e →
  fwp (sync_dir_entry pdir p_de io) s (λ r s', r = true ∧ ∃ x, let c' := write_secs c (my_dev (cur_part s)) b 1 (put_entry (c (my_dev (cur_part s)) b) (Z.of_nat i) p_de) in
    let n' := set_i_size (u32 (i_size n + 24)) n in
    s' = set_inodes (<[dir_inode d := n']> (inodes s)) (set_sv x s) ∧ fs_at c' L k s'
    ∧ dir_entries c' (my_dev (cur_part s)) n' = <[(21 * length pre + i)%nat := p_de]> (dir_entries c (my_dev (cur_part s)) n)
    ∧ list_find (λ e, unused e = true) (dir_entries c (my_dev (cur_part s)) n) = Some ((21 * length pre + i)%nat, e)
    ∧ dir_blocks c' (my_dev (cur_part s)) n' = dir_blocks c (my_dev (cur_part s)) n).
Proof.
  intros Hat Hd Hn [W1 W2 W3 W4 W5] Ho Hsz Hp Hio [R1 R2 R3 R4]. pose proof (fs_at_wf _ _ _ _ Hat) as Hw.
  unfold sync_dir_entry. fstep. eapply ld_dir_ok; [done|]. fstep. eapply ld_inode_ok; [done|]. do 2 fstep. rewrite W5. fstep. fstep; [by rewrite Hsz|].
  destruct (dir_blocks_12 c (my_dev (cur_part s)) n pre b post W1 R1) as [post' Hbl].
  assert (length pre < 12)%nat as Hpre.
  { assert (length (take 12 (i_sectors n)) = 12%nat) as H12 by (rewrite length_take; lia). rewrite R1, length_app in H12. cbn in H12. lia. }
  destruct (room_rd 0 n (take 12 (i_sectors n) ++ replicate 128 0) pre b post W1 R1) as [Hrd Hrb]; [by rewrite R1, <- app_assoc|].
  replace 140%nat with (length pre + Datatypes.S (139 - length pre))%nat by lia.
  eapply sync_loop_full; [done|done|lia|exact Hrd|done|]. intros s1 io1 (x1 & -> & Hat1) Hio1.
  assert (0 ≤ b ≤ max_lba) as Hb by (apply W3; [rewrite Hbl; apply elem_of_app; right; by left|assumption]).
  eapply fwp_mono; [apply (sync_loop_room c L k _ n p_de _ _ _ _ io1 b i e Hat1 Hio1 Hrb R3 Hb R4 Hp Hn)|].
  intros r s' [-> (x2 & -> & Hat2)]. split; [done|]. exists x2. cbn [cur_part set_sv] in *. do 2 (split; [assumption || reflexivity|]).
  by apply (dir_entries_put c (cur_part s) n _ p_de pre b post i e).
Qed.

(** [sync_dir_entry] when a block of the directory has room: it returns true and
    the directory is the old list of entries with the first unused one
    replaced; the size of the directory grows by one entry, and only the sector
    of that entry is written. *)
Theorem sync_dir_entry_correct c L k s pdir d n p_de io pre b post i e :
  fs_at c L k s → dirs s !! pdir = Some d → inodes s !! dir_inode d = Some n → dir_wf c (cur_part s) n → dir_owns c (cur_part s) n →
  i_size n mod 24 = 0 → len p_de = 24 → len io = 1024 → dir_room c (cur_part s) n pre b post i e →
  ∃ s' c', sync_dir_entry pdir p_de io s = Ok (true, s') ∧ fs_at c' L k s'
    ∧ inodes s' = <[dir_inode d := set_i_size (u32 (i_size n + 24)) n]> (inodes s) ∧ cur_part s' = cur_part s
    ∧ list_find (λ e, unused e = true) (dir_entries c (my_dev (cur_part s)) n) = Some ((21 * length pre + i)%nat, e)
    ∧ dir_entries c' (my_dev (cur_part s)) (set_i_size (u32 (i_size n + 24)) n) = <[(21 * length pre + i)%nat := p_de]> (dir_entries c (my_dev (cur_part s)) n)
    ∧ ∀ dev l, (dev = my_dev (cur_part s) → l ≠ b) → c' dev l = c dev l.
Proof.
  intros Hat Hd Hn Hw Ho Hsz Hp Hio Hr.
  destruct (fwp_inv _ _ _ (sync_dir_entry_room c L k s pdir d n p_de io pre b post i e Hat Hd Hn Hw Ho Hsz Hp Hio Hr))
    as (r & s' & E & -> & x & -> & Hat' & HE & HF & _).
  eexists _, _. split_and!; [exact E|exact Hat'|reflexivity|reflexivity|exact HF|exact HE|].
  intros dev l Hl. apply write_secs_other. destruct (decide (dev = my_dev (cur_part s))); [right; auto|by left].
Qed.

(** The entry that [create_dir_entry] makes in a cleared structure. *)
Lemma create_dir_entry_ok filename fn nm no ft : cstr filename fn nm → len nm ≤ 16 →
  create_dir_entry filename fn no ft (replicate 24 0) = Ok (nm ++ replicate (Z.to_nat (16 - len nm)) 0 ++ le32 no ++ le32 ft).
Proof.
  intros Hc Hl. unfold create_dir_entry. rewrite (strlen_ok _ _ _ Hc) by lia. cbn [mbind outcome_bind]. unfold MAX_FILE_NAME_LEN, ASSERT.
  destruct (Z.leb_spec (len nm) 16); [|lia]. cbn [mbind outcome_bind]. destruct Hc as (p1 & p2 & -> & <- & Hc).
  pose proof (len_nonneg nm). pose proof (len_nonneg p1).
  rewrite memcpy_ok; [|lia|lia|lia|unfold len at 2; rewrite length_replicate; lia|rewrite !len_app; pose proof (len_nonneg (0 :: p2)); lia].
  cbn [mbind outcome_bind mret outcome_ret]. f_equal. change (Z.to_nat 0) with 0%nat. rewrite take_0, Z.add_0_l. cbn [app].
  assert (take (Z.to_nat (len nm)) (drop (Z.to_nat (len p1)) (p1 ++ nm ++ 0 :: p2)) = nm) as ->.
  { unfold len. rewrite !Nat2Z.id, drop_app_length. by rewrite take_app_length. }
  rewrite drop_replicate, (app_assoc nm (replicate _ _)). f_equal. unfold len in *. rewrite take_app_ge by lia. f_equal.
  rewrite take_replicate. f_equal. lia.
Qed.

Lemma until0_nm nm r : Forall (λ x, 0 < x < 256) nm → until0 (nm ++ 0 :: r) = nm.
Proof. induction 1 as [|x nm Hx _ IH]; simpl; [done|]. destruct (Z.eqb_spec x 0); [lia|]. by rewrite IH. Qed.
Lemma le32_bytes v : Forall (λ x, 0 ≤ x < 256) (le32 v).
Proof. unfold le32. do 4 (apply Forall_cons; split; [apply Z.mod_pos_bound; lia|]). by apply Forall_nil. Qed.
Lemma new_entry_ok nm no ft : Forall (λ x, 0 < x < 256) nm → len nm < 16 → let e := nm ++ replicate (Z.to_nat (16 - len nm)) 0 ++ le32 no ++ le32 ft in
  entry_ok e ∧ until0 e = nm ∧ len e = 24.
Proof.
  intros Hc Hl e. unfold e. pose proof (len_nonneg nm). replace (Z.to_nat (16 - len nm)) with (Datatypes.S (Z.to_nat (15 - len nm))) by lia. cbn [replicate app].
  split_and!; [|by apply until0_nm|].
  - split; [|set_solver]. apply Forall_app. split; [eapply Forall_impl; [done|]; cbn; lia|]. apply Forall_cons. split; [lia|].
    apply Forall_app. split; [apply Forall_replicate; lia|]. apply Forall_app. split; apply le32_bytes.
  - rewrite len_app. unfold len in *. cbn [length]. rewrite !length_app, length_replicate. change (length (le32 no)) with 4%nat. change (length (le32 ft)) with 4%nat. lia.
Qed.
Lemma find_insert {A} (f : A → bool) l k x : find f l = None → (k < length l)%nat → f x = true → find f (<[k := x]> l) = Some x.
Proof.
  revert k. induction l as [|y l IH]; intros k Hf Hk Hx; [cbn in Hk; lia|]. cbn in Hf. destruct (f y) eqn:Ey; [done|].
  destruct k as [|k]; cbn; [by rewrite Hx|]. rewrite Ey. apply IH; [done|cbn in Hk; lia|done].
Qed.

(** C11: Creating an entry, adding it and searching for its name: with room in the
    directory, a name of up to 15 characters that the directory did not have is
    found again, with exactly the inode number and type it was given. *)
Theorem dir_add_search c L k s pdir d n filename nm no ft io pre b post i e :
  fs_at c L (2 + k) s → dirs s !! pdir = Some d → inodes s !! dir_inode d = Some n → dir_wf c (cur_part s) n → dir_owns c (cur_part s) n →
  i_size n mod 24 = 0 → len io = 1024 → dir_room c (cur_part s) n pre b post i e →
  cstr filename 0 nm → len nm < 16 → find (named nm) (dir_entries c (my_dev (cur_part s)) n) = None → is_u32 no → is_u32 ft →
  ∃ p_de s1 s2, create_dir_entry filename 0 no ft (replicate 24 0) = Ok p_de ∧ sync_dir_entry pdir p_de io s = Ok (true, s1)
    ∧ search_dir_entry pdir filename s1 = Ok (Some p_de, s2) ∧ de_i_no p_de 0 = no ∧ de_f_type p_de 0 = ft.
Proof.
  intros Hat Hd Hn Hw Ho Hsz Hio Hr Hc Hl Hnone Hno Hft. assert (Forall (λ x, 0 < x < 256) nm) as Hch by by destruct Hc as (? & ? & _ & _ & ?).
  set (p_de := nm ++ replicate (Z.to_nat (16 - len nm)) 0 ++ le32 no ++ le32 ft). destruct (new_entry_ok nm no ft Hch Hl) as (Hok & Hnm & Hlen). fold p_de in Hok, Hnm, Hlen.
  destruct (fwp_inv _ _ _ (sync_dir_entry_room c L (2 + k) s pdir d n p_de io pre b post i e Hat Hd Hn Hw Ho Hsz Hlen Hio Hr))
    as (r & s1 & E & -> & x & Es & Hat' & HE & HF & HB). set (c' := write_secs _ _ _ _ _) in *. set (n' := set_i_size _ n) in *.
  assert (21 * length pre + i < length (dir_entries c (my_dev (cur_part s)) n))%nat as Hlt by by (apply list_find_Some in HF as [HF _]; apply lookup_lt_Some in HF).
  assert (cur_part s1 = cur_part s) as Hp1 by by rewrite Es.
  assert (dir_wf c' (cur_part s1) n') as Hw'.
  { destruct Hw as [W1 W2 W3 W4 W5]. rewrite Hp1. split; [exact W1|exact W2|rewrite HB; exact W3| |exact W5]. rewrite HE. by apply Forall_insert. }
  destruct (fwp_inv _ _ _ (search_dir_entry_ok c' L k s1 pdir d n' filename nm Hat' ltac:(by rewrite Es) ltac:(rewrite Es; cbn; apply lookup_insert_eq) Hw' Hc))
    as (r & s2 & E2 & -> & _). exists p_de, s1, s2. split_and!.
  - apply create_dir_entry_ok; [done|lia].
  - exact E.
  - rewrite E2, Hp1, HE, (find_insert _ _ _ p_de Hnone Hlt); [done|]. unfold named. by rewrite bool_decide_true.
  - unfold de_i_no, word_off, p_de. change (Z.to_nat (24 * 0 + 16)) with 16%nat. rewrite app_assoc, drop_app_length'.
    + rewrite take_app_length'; [by apply un_le32_le32|done].
    + rewrite length_app, length_replicate. unfold len in *. lia.
  - unfold de_f_type, word_off, p_de. change (Z.to_nat (24 * 0 + 20)) with 20%nat. rewrite !app_assoc, drop_app_length'.
    + rewrite take_ge by done. by apply un_le32_le32.
    + rewrite !length_app, length_replicate. unfold len in *. cbn. lia.
Qed.

(** A name of 16 characters is accepted by [create_dir_entry] but fills the
    field, so that read as a C string it runs into the inode number: unless the
    low byte of that number is 0 no search for the name finds the entry. *)
Theorem long_name_lost filename nm no ft : cstr filename 0 nm → len nm = 16 → no mod 256 ≠ 0 →
  ∃ p_de, create_dir_entry filename 0 no ft (replicate 24 0) = Ok p_de ∧ len p_de = 24 ∧ named nm p_de = false.
Proof.
  intros Hc Hl Hno. exists (nm ++ replicate (Z.to_nat (16 - len nm)) 0 ++ le32 no ++ le32 ft). split; [apply create_dir_entry_ok; [done|lia]|].
  rewrite Hl. change (replicate (Z.to_nat (16 - 16)) 0) with (@nil Z). cbn [app]. split; [rewrite !len_app, Hl; done|].
  unfold named. apply bool_decide_false. assert (Forall (λ x, 0 < x < 256) nm) as Hch by by destruct Hc as (? & ? & _ & _ & ?).
  assert (∀ r, until0 (nm ++ r) = nm ++ until0 r) as H.
  { clear -Hch. intros r. induction Hch as [|x nm Hx _ IH]; cbn; [done|]. destruct (Z.eqb_spec x 0); [lia|]. by rewrite IH. }
  rewrite H. cbn. change (2 ^ 8) with 256. destruct (Z.eqb_spec (no mod 256) 0); [done|]. intros E. apply (f_equal (@length Z)) in E.
  rewrite length_app in E. cbn in E. lia.
Qed.

(** ** A new block *)

(** What [sync_dir_entry] leaves when it allocates block [b] in place of the empty
    slot after [pre]. *)
Record dir_extended (c : disks) (L : gmap Z PoolType) (k : nat) s (d : Dir) (n : INode) (p_de pre : list Z) (s' : fs S) (c' : disks) (n' : INode) (b : Z) : Prop := {
  dx_at : fs_at c' L k s';
  dx_free : in_data (cur_part s) b ∧ block_used (cur_part s) b = false;
  dx_part : marked (cur_part s) (cur_part s') b;
  dx_inode : inodes s' = <[dir_inode d := n']> (inodes s);
  dx_n : n' = set_i_sectors (<[length pre := b]> (i_sectors n)) (set_i_size (u32 (u32 (i_size n + 24) + 24)) n);
  dx_entries rest : dir_entries c (my_dev (cur_part s)) n = concat (map (block_entries c (my_dev (cur_part s))) pre) ++ rest →
    dir_entries c' (my_dev (cur_part s)) n' = concat (map (block_entries c (my_dev (cur_part s))) pre) ++ [p_de; p_de] ++ replicate 19 (replicate 24 0) ++ rest;
}.

Definition fresh_sector (p_de : list Z) : list Z := p_de ++ replicate 488 0.

Lemma sec_entries_fresh p_de : len p_de = 24 → unused p_de = false →
  sec_entries (fresh_sector p_de) = p_de :: replicate 20 (replicate 24 0)
  ∧ find_unused 21 0 (fresh_sector p_de) = Some 1 ∧ sec_entries (put_entry (fresh_sector p_de) 1 p_de) = [p_de; p_de] ++ replicate 19 (replicate 24 0).
Proof.
  intros Hl Hu. assert (len (fresh_sector p_de) = 512) as Hf by (unfold fresh_sector; rewrite len_app, Hl; done).
  assert (sec_entries (fresh_sector p_de) = p_de :: replicate 20 (replicate 24 0)) as E.
  { destruct p_de as [|x0 p]; [done|]. unfold len in Hl. do 23 (destruct p as [|? p]; [done|]). destruct p; [|cbn in Hl; lia]. reflexivity. }
  split_and!; [done| |].
  - rewrite find_unused_ok, <- sec_entries_from, E by lia. cbn [list_find]. rewrite decide_False by congruence.
    cbn [replicate list_find]. rewrite decide_True by done. done.
  - rewrite (sec_entries_put _ 1 p_de) by (done || lia). by rewrite E.
Qed.

Lemma add_block_ok c L k s inode n j ab Q : fs_at c L k s → part_ok (cur_part s) → 0 ≤ j < 12 → len ab = 140 → length (i_sectors n) = 13%nat →
  inodes s !! inode = Some n →
  (∀ s', is_full (cur_part s) → Q None s') →
  (∀ b p' c1 x, in_data (cur_part s) b → block_used (cur_part s) b = false → marked (cur_part s) p' b → data_same (cur_part s) c c1 →
     let s' := set_inodes (<[inode := set_i_sectors (<[Z.to_nat j := b]> (i_sectors n)) n]> (inodes s)) (set_cur_part p' (set_sv x s)) in
     fs_at c1 L k s' → Q (Some (<[Z.to_nat j := b]> ab)) s') →
  fwp (add_block inode j ab) s Q.
Proof.
  intros Hat Hp Hj Hab Hl Hn HN HS. unfold add_block. do 3 fstep. eapply fwp_mono; [by apply block_bitmap_alloc_ok|].
  intros r s1 [(-> & -> & Hfull)|(Hb & Hu & p' & -> & Hm)].
  { rewrite Z.eqb_refl. unfold say. repeat fstep. by apply HN. }
  pose proof (po_ds _ Hp). pose proof (po_table _ Hp) as (? & _). pose proof (po_max _ Hp) as Hmax. rewrite max_lba_eq in Hmax.
  assert (608 ≤ r < 163840) as Hr by (unfold in_data in Hb; lia). destruct (Z.eqb_spec r (-1)); [lia|].
  assert (0 ≤ r - data_start_lba (sb (cur_part s)) < 163840) as Hd by (unfold in_data in Hb; lia).
  rewrite (i32_id (r - _)) by lia. fstep. fstep; [destruct (Z.eqb_spec (r - data_start_lba (sb (cur_part s))) (-1)); [lia|done]|]. fstep.
  assert (sb p' = sb (cur_part s) ∧ my_dev p' = my_dev (cur_part s)) as [Es Ed] by by destruct Hm as (m & -> & _).
  pose proof (bitmap_sync_ok c L k (set_cur_part p' s) r) as Hsync. cbn [cur_part set_cur_part] in Hsync. rewrite Es in Hsync.
  eapply fwp_mono; [apply Hsync; [split; [apply Hat|cbn; rewrite Ed; apply Hat]|by eapply marked_ok|by eapply marked_in_data]|].
  intros [] s2 (c1 & (x & -> & Hat1) & Hd1 & _). rewrite (u32_id r) by lia.
  fstep. eapply ld_inode_ok; [exact Hn|]. destruct (Z.ltb_spec j 12); [|lia].
  fstep. rewrite wr_ok by lia. apply fwp_lift. cbn [returns]. fstep. rewrite wr_ok by (unfold len; lia). apply fwp_lift. cbn [returns].
  fstep. eapply st_inode_ok; [exact Hn|]. fstep.
  apply (HS r p' c1 x Hb Hu Hm); [unfold data_same in *; by rewrite Es, Ed in Hd1|by eapply fs_at_same].
Qed.

Lemma sync_loop_new c L k s inode n p_de ab fuel j io : fs_at c L k s → part_ok (cur_part s) → 0 ≤ j < 12 → len ab = 140 → rd ab j = Ok 0 →
  length (i_sectors n) = 13%nat → inodes s !! inode = Some n → len io = 1024 → len p_de = 24 → unused p_de = false →
  fwp (sync_loop (Datatypes.S fuel) inode j ab p_de 24 io) s (λ r s', (r = false ∧ is_full (cur_part s))
    ∨ (r = true ∧ ∃ b p' c1 x, in_data (cur_part s) b ∧ block_used (cur_part s) b = false ∧ marked (cur_part s) p' b ∧ data_same (cur_part s) c c1 ∧ disks_wf c1
       ∧ s' = set_inodes (<[inode := set_i_sectors (<[Z.to_nat j := b]> (i_sectors n)) (set_i_size (u32 (u32 (i_size n + 24) + 24)) n)]> (inodes s)) (set_cur_part p' (set_sv x s))
       ∧ fs_at (write_secs (write_secs c1 (my_dev (cur_part s)) b 1 (fresh_sector p_de)) (my_dev (cur_part s)) b 1 (put_entry (fresh_sector p_de) 1 p_de)) L k s')).
Proof.
  intros Hat Hp Hj Hab Hr Hl Hn Hio Hpl Hpu. destruct (sec_entries_fresh p_de Hpl Hpu) as (_ & Hfu & _).
  assert (len (fresh_sector p_de) = 512) as Hf by (unfold fresh_sector; rewrite len_app, Hpl; done).
  cbn [sync_loop]. fstep. rewrite Hr. apply fwp_lift. cbn [returns]. rewrite Z.eqb_refl. fstep. fstep.
  eapply add_block_ok; [done..| |]. { intros s' Hfull. fstep. fstep. by left. }
  intros b p' c1 x Hb Hu Hm Hd1 s1 Hat1. assert (my_dev p' = my_dev (cur_part s)) as Ed by by destruct Hm as (m & -> & _).
  pose proof (po_ds _ Hp). pose proof (po_table _ Hp) as (? & _). pose proof (po_max _ Hp) as Hmax.
  assert (608 ≤ b ≤ max_lba) as Hbr by (unfold in_data in Hb; lia). pose proof (fs_at_wf _ _ _ _ Hat1) as Hw1.
  assert (rd (<[Z.to_nat j := b]> ab) j = Ok b) as Hrb by (rewrite rd_ok, nthz_insert_eq by (rewrite ?len_insert; lia); done).
  fstep. rewrite memset_splice by lia. change (u8 0) with 0. apply fwp_lift. cbn [returns]. fstep.
  assert (memcpy (take (Z.to_nat 0) io ++ replicate (Z.to_nat 512) 0 ++ drop (Z.to_nat (0 + 512)) io) (Some 0) p_de (Some 0) 24
    = Ok (fresh_sector p_de ++ drop 512 io)) as ->.
  { change (take (Z.to_nat 0) io) with (@nil Z). cbn [app]. change (Z.to_nat 512) with (24 + 488)%nat. rewrite replicate_add, <- app_assoc.
    rewrite memcpy_ok by (rewrite ?len_app, ?len_drop by lia; unfold len; rewrite ?length_replicate; unfold len in *; lia).
    f_equal. change (Z.to_nat 0) with 0%nat. rewrite take_0, drop_0, take_ge by (unfold len in *; lia). cbn [app]. unfold fresh_sector.
    rewrite <- app_assoc. do 2 f_equal. }
  apply fwp_lift. cbn [returns]. fstep. rewrite Hrb. apply fwp_lift. cbn [returns]. fstep.
  rewrite (take_app_length' (fresh_sector p_de)) by (unfold len in Hf; lia).
  eapply (fwp_write c1 L k); [done|lia|lia|lia|lia|]. intros s2 (x2 & -> & Hat2). fstep. eapply grow_dir_ok; [cbn; apply lookup_insert_eq|].
  fstep. fstep. rewrite Hrb. apply fwp_lift. cbn [returns]. fstep. cbn [cur_part set_cur_part set_inodes set_sv s1] in *. rewrite Ed in *.
  set (c2 := write_secs c1 (my_dev (cur_part s)) b (Z.to_nat 1) (fresh_sector p_de)) in *.
  eapply (read_block_ok c2 L k); [by eapply fs_at_same|lia|rewrite len_app, len_drop by lia; lia|]. intros s3 (x3 & -> & Hat3).
  cbn [cur_part set_cur_part set_inodes set_sv s1]. rewrite ?Ed.
  assert (c2 (my_dev (cur_part s)) b = fresh_sector p_de) as -> by by apply write_secs_same.
  rewrite drop_app_length' by (unfold len in Hf; lia). change (Z.to_nat (512 / 24)) with 21%nat.
  rewrite find_unused_ok, entries_from_app_l, <- find_unused_ok, Hfu by lia. fstep. unfold de_filename.
  assert (memcpy (fresh_sector p_de ++ drop 512 io) (Some (24 * 1)) p_de (Some 0) 24 = Ok (put_entry (fresh_sector p_de) 1 p_de ++ drop 512 io)) as ->.
  { rewrite memcpy_ok by (rewrite ?len_app, ?len_drop by lia; lia). f_equal. change (Z.to_nat 0) with 0%nat. rewrite drop_0, (take_ge p_de) by (unfold len in Hpl; lia).
    unfold put_entry. unfold len in Hf. rewrite (take_app_le (fresh_sector p_de)), (drop_app_le (fresh_sector p_de)) by lia. by rewrite <- !app_assoc. }
  apply fwp_lift. cbn [returns]. fstep. rewrite take_app_length' by (pose proof (len_put_entry (fresh_sector p_de) 1 p_de ltac:(lia) ltac:(lia) Hpl); unfold len in *; lia).
  eapply (fwp_write c2 L k); [exact Hat3|lia|lia|lia|rewrite len_put_entry; lia|]. intros s4 (x4 & -> & Hat4). fstep.
  eapply grow_dir_ok; [cbn; apply lookup_insert_eq|]. fstep. right. split; [done|]. exists b, p', c1, x4. split_and!; try done.
  - unfold set_inodes, set_sv, set_cur_part. cbn. by rewrite !insert_insert_eq.
  - eapply fs_at_same; [|reflexivity|reflexivity]. cbn [cur_part set_cur_part set_inodes set_sv s1] in Hat4. rewrite Ed in Hat4. exact Hat4.
Qed.

(** The entries of a directory with [b], which was none of its sectors, in the
    empty slot after [pre]; [c1] is [c] outside the data region. *)
Lemma dir_entries_new c p n p_de pre post b c1 rest sz : part_ok p → disks_wf c → disks_wf c1 → data_same p c c1 → length (i_sectors n) = 13%nat → dir_owns c p n →
  in_data p b → block_used p b = false → len p_de = 24 → unused p_de = false → take 12 (i_sectors n) = pre ++ 0 :: post →
  dir_entries c (my_dev p) n = concat (map (block_entries c (my_dev p)) pre) ++ rest →
  let c' := write_secs (write_secs c1 (my_dev p) b 1 (fresh_sector p_de)) (my_dev p) b 1 (put_entry (fresh_sector p_de) 1 p_de) in
  dir_entries c' (my_dev p) (set_i_sectors (<[length pre := b]> (i_sectors n)) (set_i_size sz n))
  = concat (map (block_entries c (my_dev p)) pre) ++ [p_de; p_de] ++ replicate 19 (replicate 24 0) ++ rest.
Proof.
  intros Hp Hw Hw1 Hd1 W1 [_ O2] Hb Hu Hpl Hpu R1 Hrest c'. destruct (sec_entries_fresh p_de Hpl Hpu) as (_ & _ & Hfe).
  assert (len (put_entry (fresh_sector p_de) 1 p_de) = 512) as Hlp.
  { assert (len (fresh_sector p_de) = 512) as Hf by (unfold fresh_sector; rewrite len_app, Hpl; done). rewrite len_put_entry; lia. }
  pose proof (po_ds _ Hp). pose proof (po_table _ Hp) as (? & _).
  assert (∀ x, x ∈ ((i_sectors n)@@12 :: dir_blocks c (my_dev p) n) → x ≠ 0 → x ≠ b ∧ c' (my_dev p) x = c (my_dev p) x) as Hsame.
  { intros x Hx Hx0. destruct (O2 x Hx Hx0) as [Hi Hux]. assert (x ≠ b) as Hne by congruence. split; [done|]. unfold c'.
    rewrite !write_secs_other by by right. apply (sector_same p); [done..|]. unfold in_data in Hi. lia. }
  assert (length pre < 12)%nat as Hpre.
  { assert (length (take 12 (i_sectors n)) = 12%nat) as H12 by (rewrite length_take; lia). rewrite R1, length_app in H12. cbn in H12. lia. }
  destruct (dir_blocks_12 c (my_dev p) n pre 0 post W1 R1) as [post' Hbl].
  assert (dir_blocks c' (my_dev p) (set_i_sectors (<[length pre := b]> (i_sectors n)) (set_i_size sz n)) = pre ++ b :: post') as Hbl'.
  { assert (take 12 (<[length pre := b]> (i_sectors n)) = pre ++ b :: post) as Ht.
    { rewrite take_insert_lt by lia. rewrite R1. rewrite <- (Nat.add_0_r (length pre)), insert_app_r. done. }
    unfold dir_blocks in *. cbn [i_sectors set_i_sectors set_i_size]. rewrite Ht. rewrite R1, <- app_assoc in Hbl. cbn [app] in Hbl. apply app_inv_head in Hbl. injection Hbl as <-.
    assert ((<[length pre := b]> (i_sectors n))@@12 = (i_sectors n)@@12) as ->.
    { replace (length pre) with (Z.to_nat (len pre)) by (unfold len; lia). apply nthz_insert_ne; unfold len; lia. }
    rewrite <- app_assoc. cbn [app]. do 3 f_equal. destruct (Z.eqb_spec (i_sectors n)@@12 0); [done|]. f_equal. apply Hsame; [by left|done]. }
  assert (∀ l, (∀ x, x ∈ l → x ∈ dir_blocks c (my_dev p) n) → map (block_entries c' (my_dev p)) l = map (block_entries c (my_dev p)) l) as Hmap.
  { intros l Hl. apply map_ext_in. intros x Hx%list_elem_of_In. unfold block_entries. destruct (Z.eqb_spec x 0); [done|]. f_equal. apply Hsame; [right; by apply Hl|done]. }
  assert (rest = concat (map (block_entries c (my_dev p)) post')) as ->.
  { unfold dir_entries in Hrest. rewrite Hbl, map_app, concat_app in Hrest. apply app_inv_head in Hrest. by rewrite <- Hrest. }
  unfold dir_entries. rewrite Hbl', map_app, concat_app. cbn [map concat]. rewrite !Hmap by (intros x Hx; rewrite Hbl; set_solver). f_equal.
  unfold block_entries at 1. unfold in_data in Hb. destruct (Z.eqb_spec b 0); [lia|]. unfold c' at 1. rewrite write_secs_same, Hfe by done. by rewrite <- app_assoc.
Qed.

(** [sync_dir_entry] when every block the directory has is full and one of the
    12 direct slots is empty.  It allocates a block, writes the entry to its
    first slot, and then goes on to look for an unused entry in the same block:
    the entry is stored a second time and the directory grows by two entries.
    Without a free block it returns false. *)
Theorem sync_dir_entry_duplicates c L k s pdir d n p_de io pre post :
  fs_at c L k s → part_ok (cur_part s) → dirs s !! pdir = Some d → inodes s !! dir_inode d = Some n → dir_wf c (cur_part s) n → dir_owns c (cur_part s) n →
  i_size n mod 24 = 0 → len p_de = 24 → unused p_de = false → len io = 1024 →
  take 12 (i_sectors n) = pre ++ 0 :: post → Forall (full_block c (my_dev (cur_part s))) pre →
  ∃ r s', sync_dir_entry pdir p_de io s = Ok (r, s')
    ∧ (r = false ∧ is_full (cur_part s) ∨ r = true ∧ ∃ c' n' b, dir_extended c L k s d n p_de pre s' c' n' b).
Proof.
  intros Hat Hp Hd Hn [W1 W2 W3 W4 W5] [O1 O2] Hsz Hpl Hpu Hio R1 R2. pose proof (fs_at_wf _ _ _ _ Hat) as Hw.
  assert (length pre < 12)%nat as Hpre.
  { assert (length (take 12 (i_sectors n)) = 12%nat) as H12 by (rewrite length_take; lia). rewrite R1, length_app in H12. cbn in H12. lia. }
  destruct (room_rd 0 n (take 12 (i_sectors n) ++ replicate 128 0) pre 0 post W1 R1) as [Hrd Hrb]; [by rewrite R1, <- app_assoc|].
  assert (fwp (sync_dir_entry pdir p_de io) s (λ r s', r = false ∧ is_full (cur_part s) ∨ r = true ∧ ∃ c' n' b, dir_extended c L k s d n p_de pre s' c' n' b))
    as (r & s' & E & H)%fwp_inv; [|eauto].
  unfold sync_dir_entry. fstep. eapply ld_dir_ok; [done|]. fstep. eapply ld_inode_ok; [done|]. do 2 fstep. rewrite W5. fstep. fstep; [by rewrite Hsz|].
  replace 140%nat with (length pre + Datatypes.S (139 - length pre))%nat by lia.
  eapply sync_loop_full; [done|done|lia|exact Hrd|done|]. intros s1 io1 (x1 & -> & Hat1) Hio1.
  assert (0 ≤ 0 + len pre < 12) as Hj by (unfold len; lia).
  assert (len (take 12 (i_sectors n) ++ replicate 128 0) = 140) as H140 by (rewrite len_app, len_take by (unfold len; lia); done).
  eapply fwp_mono; [apply (sync_loop_new c L k (set_sv x1 s) (dir_inode d) n p_de _ _ _ io1 Hat1 Hp Hj H140 Hrb W1 Hn Hio1 Hpl Hpu)|].
  intros r s' [[-> Hfull]|(-> & b & p' & c1 & x & Hb & Hu & Hm & Hd1 & Hw1 & -> & Hat')]; [by left|right]. split; [done|].
  cbn [cur_part set_sv inodes] in *. replace (Z.to_nat (0 + len pre)) with (length pre) in * by (unfold len; lia).
  eexists _, _, b. split; [exact Hat'|done|done|done|done|]. intros rest Hrest.
  apply (dir_entries_new c (cur_part s) n p_de pre post b c1); done.
Qed.
End add.

(** ** Reading a directory *)
Definition used_entry (e : list Z) : Prop := unused e = false.
#[global] Instance used_entry_dec e : Decision (used_entry e) := _.
Definition used_entries (c : disks) (dev : Z) (n : INode) : list (list Z) := filter used_entry (dir_entries c dev n).

(** The scan of a sector, with [m] used entries seen and [j] wanted. *)
Lemma read_entries_ok b k : ∀ i m j, 0 ≤ i → 0 ≤ m ≤ j → j < 2 ^ 24 →
  read_entries k i (24 * m) (24 * j) 24 b ⇓ λ '(pos, r), match filter used_entry (entries_from b i k) !! Z.to_nat (j - m) with
    | Some e => pos = 24 * j ∧ ∃ x, r = Some x ∧ i ≤ x < i + Z.of_nat k ∧ entry b x = e
    | None => r = None ∧ pos = 24 * (m + len (filter used_entry (entries_from b i k))) ∧ m + len (filter used_entry (entries_from b i k)) ≤ j end.
Proof.
  induction k as [|k IH]; intros i m j Hi Hm Hj.
  { change (filter used_entry (entries_from b i 0)) with (@nil (list Z)). change (len (@nil (list Z))) with 0. cbn [read_entries]. rewrite lookup_nil. cbn [returns mret outcome_ret]. split_and!; [done|lia|lia]. }
  rewrite entries_from_S. cbn [read_entries].
  rewrite de_f_type_entry by done. fold FT_UNKNOWN. change (entry_type (entry b i) =? FT_UNKNOWN) with (unused (entry b i)).
  destruct (unused (entry b i)) eqn:Eu; cbn [negb].
  - rewrite filter_cons_False by (unfold used_entry; congruence). eapply returns_mono; [by apply (IH (i + 1) m j); lia|].
    intros [pos r]. destruct (_ !! _); [|done]. intros (-> & x & -> & Hx & E). split; [done|]. exists x. split_and!; [done|lia|lia|done].
  - rewrite filter_cons_True by done. destruct (Z.ltb_spec (24 * m) (24 * j)) as [Hlt|Hge].
    + rewrite u32_id by lia. replace (24 * m + 24) with (24 * (m + 1)) by lia. eapply returns_mono; [by apply (IH (i + 1) (m + 1) j); lia|].
      replace (Z.to_nat (j - m)) with (S (Z.to_nat (j - (m + 1)))) by lia. cbn [lookup list_lookup].
      assert (len (entry b i :: filter used_entry (entries_from b (i + 1) k)) = 1 + len (filter used_entry (entries_from b (i + 1) k))) as -> by (unfold len; cbn [length]; lia).
      intros [pos r]. destruct (_ !! _); [|intros (-> & -> & ?); split_and!; [done|lia|lia]].
      intros (-> & x & -> & Hx & E). split; [done|]. exists x. split_and!; [done|lia|lia|done].
    + assert (m = j) as -> by lia. rewrite Z.sub_diag. unfold ASSERT. rewrite Z.eqb_refl. cbn. split; [done|]. exists i. split_and!; [done|lia|lia|done].
Qed.

Section reading.
Context {S : Type} `{!Services S}.
Implicit Types s : fs S.

Lemma st_dir_ok s a d d' Q : dirs s !! a = Some d → Q () (set_dirs (<[a := d']> (dirs s)) s) → fwp (st_dir a d') s Q.
Proof. intros H HQ. unfold st_dir. fstep. eapply ld_dir_ok; [done|]. by fstep. Qed.

(** Only the [Dir] at [a] and the services' state change. *)
Definition dir_moved (c : disks) (L : gmap Z PoolType) k s (a : Z) (d' : Dir) (s' : fs S) : Prop :=
  fs_at c L k s' ∧ ∃ x, s' = set_dirs (<[a := d']> (dirs s)) (set_sv x s).

(** The loop over the blocks, with [m] used entries seen before. *)
Lemma dir_read_loop_ok c L k a n bl : ∀ s d m j, fs_at c L k s → dirs s !! a = Some d → inodes s !! dir_inode d = Some n →
  (∀ b, b ∈ bl → b ≠ 0 → 0 ≤ b ≤ max_lba) → dir_pos d = 24 * j → 0 ≤ m ≤ j → j < 2 ^ 24 → 24 * j < i_size n →
  let U := filter used_entry (concat (map (block_entries c (my_dev (cur_part s))) bl)) in
  fwp (dir_read_loop bl a (24 * m) 24) s (λ r s', ∃ d', dir_moved c L k s a d' s' ∧ dir_inode d' = dir_inode d ∧
    match U !! Z.to_nat (j - m) with
    | Some e => dir_pos d' = 24 * (j + 1) ∧ ∃ x, r = Some x ∧ entry (dir_buf d') x = e
    | None => r = None ∧ dir_pos d' = dir_pos d end).
Proof.
  induction bl as [|b bl IH]; intros s d m j Hat Hd Hn Hb Hpos Hm Hj Hsz U; cbn [dir_read_loop].
  { fstep. exists d. split; [split; [done|]; exists (sv s); destruct s; unfold set_dirs, set_sv; cbn in *; by rewrite insert_id|]. done. }
  fstep. eapply ld_dir_ok; [done|]. fstep. eapply ld_inode_ok; [done|]. destruct (Z.leb_spec (i_size n) (dir_pos d)); [lia|].
  unfold U. cbn [map concat]. rewrite filter_app. unfold block_entries at 1.
  destruct (Z.eqb_spec b 0) as [->|Hb0]; [apply IH; try done; intros; apply Hb; set_solver|].
  destruct (Hb b ltac:(set_solver) Hb0). pose proof (fs_at_wf _ _ _ _ Hat) as Hw. fstep. eapply fwp_read; [done|lia|lia|lia|]. intros s1 (x1 & -> & Hat1).
  change (Z.to_nat 1) with 1%nat. rewrite read_secs_1. set (sec := c (my_dev (cur_part s)) b). fstep. eapply st_dir_ok; [exact Hd|].
  fstep. apply fwp_lift. rewrite Hpos. change (Z.to_nat (SECTOR_SIZE / 24)) with 21%nat. rewrite sec_entries_from.
  eapply returns_mono; [by apply (read_entries_ok sec 21 0 m j)|]. intros [pos r]. destruct (filter used_entry (entries_from sec 0 21) !! Z.to_nat (j - m)) as [e|] eqn:Eu.
  - intros (-> & x & -> & _ & He). rewrite (lookup_app_l_Some _ _ _ _ Eu). fstep. eapply st_dir_ok; [cbn; apply lookup_insert_eq|]. fstep.
    eexists. split; [split; [by eapply fs_at_same|]; exists x1; unfold set_dirs, set_sv; cbn; by rewrite insert_insert_eq|]. cbn. split; [done|].
    split; [rewrite u32_id; lia|]. by exists x.
  - intros (-> & -> & Hle). apply lookup_ge_None in Eu. rewrite lookup_app_r by done.
    eapply fwp_mono; [eapply (IH _ (mkDir (dir_inode d) (24 * j) sec)); [by eapply fs_at_same|cbn; apply lookup_insert_eq|done|intros; apply Hb; set_solver|done|unfold len; lia|done|done]|].
    intros r s' (d' & [Hat' (x' & ->)] & Hi & HU). cbn [cur_part set_dirs set_sv dirs dir_pos dir_inode] in *. exists d'. split_and!.
    + split; [done|]. exists x'. unfold set_dirs, set_sv. cbn. by rewrite insert_insert_eq.
    + done.
    + replace (Z.to_nat (j - m) - length (filter used_entry (entries_from sec 0 21)))%nat with (Z.to_nat (j - (m + len (filter used_entry (entries_from sec 0 21))))) by (unfold len in *; lia).
      by destruct (_ !! _).
Qed.

Lemma dir_blocks_take c dev n : length (i_sectors n) = 13%nat →
  concat (map (block_entries c dev) (take (if negb ((i_sectors n)@@12 =? 0) then 140 else 12) (dir_blocks c dev n))) = dir_entries c dev n.
Proof.
  intros Hl. unfold dir_entries. assert (length (take 12 (i_sectors n)) = 12%nat) as H12 by (rewrite length_take; lia).
  unfold dir_blocks. destruct (Z.eqb_spec (i_sectors n)@@12 0); cbn [negb].
  - rewrite take_app_length' by done. rewrite map_app, concat_app. replace (concat (map _ (replicate 128 0))) with (@nil (list Z)); [by rewrite app_nil_r|].
    assert (∀ k, concat (map (block_entries c dev) (replicate k 0)) = []) as H by (induction k; done). by rewrite H.
  - rewrite take_ge; [done|]. rewrite length_app, H12. unfold bytes_words. by rewrite length_map, length_seq.
Qed.

(** The directory stream at [a] is over inode [n] and has returned [j] entries. *)
Record dir_at (c : disks) s (a : Z) (n : INode) (j : Z) : Prop := {
  da_dir : ∃ d, dirs s !! a = Some d ∧ inodes s !! dir_inode d = Some n ∧ dir_pos d = 24 * j;
  da_wf : dir_wf c (cur_part s) n;
  da_size : i_size n = 24 * len (used_entries c (my_dev (cur_part s)) n);
}.

Lemma length_dir_entries c dev n : length (i_sectors n) = 13%nat → (length (dir_entries c dev n) ≤ 21 * 140)%nat.
Proof.
  intros Hl. unfold dir_entries. assert (length (dir_blocks c dev n) ≤ 140)%nat as H.
  { unfold dir_blocks. rewrite length_app, length_take. destruct (_ =? _); [rewrite length_replicate|unfold bytes_words; rewrite length_map, length_seq]; lia. }
  assert (∀ l, length (concat (map (block_entries c dev) l)) ≤ 21 * length l)%nat as Hc; [|specialize (Hc (dir_blocks c dev n)); lia].
  induction l as [|b l IH]; cbn [map concat length]; [done|]. rewrite length_app. unfold block_entries at 1. destruct (b =? 0); [cbn; lia|]. rewrite length_sec_entries. lia.
Qed.

Lemma dir_read_ok c L k s a n j : fs_at c L k s → dir_at c s a n j → 0 ≤ j ≤ len (used_entries c (my_dev (cur_part s)) n) →
  fwp (dir_read a) s (λ r s', fs_at c L k s' ∧ match used_entries c (my_dev (cur_part s)) n !! Z.to_nat j with
    | Some e => dir_at c s' a n (j + 1) ∧ cur_part s' = cur_part s ∧ ∃ d x, dirs s' !! a = Some d ∧ r = Some x ∧ entry (dir_buf d) x = e
    | None => r = None end).
Proof.
  intros Hat [(d & D1 & D2 & D3) [W1 W2 W3 W4 W5] Hsz] Hj. unfold dir_read. fstep. eapply ld_dir_ok; [done|]. fstep. eapply ld_inode_ok; [done|].
  fstep. eapply fwp_mono; [by apply (collect_blocks_ok c L k)|]. intros bl s1 [-> (x1 & -> & Hat1)]. fstep. rewrite rd_ok by (unfold len; lia).
  apply fwp_lift. cbn [returns]. do 2 fstep. cbn [cur_part set_sv]. rewrite W5.
  assert (len (used_entries c (my_dev (cur_part s)) n) ≤ 2940) as Hmax.
  { unfold used_entries, len. pose proof (length_dir_entries c (my_dev (cur_part s)) n W1). pose proof (length_filter used_entry (dir_entries c (my_dev (cur_part s)) n)). lia. }
  set (bl := take (if negb ((i_sectors n)@@12 =? 0) then 140 else 12) (dir_blocks c (my_dev (cur_part s)) n)).
  destruct (decide (j = len (used_entries c (my_dev (cur_part s)) n))) as [->|Hne].
  - rewrite lookup_ge_None_2 by (unfold len; lia). destruct bl as [|b bl]; cbn [dir_read_loop]; [by fstep|].
    fstep. eapply ld_dir_ok; [exact D1|]. fstep. eapply ld_inode_ok; [exact D2|]. destruct (Z.leb_spec (i_size n) (dir_pos d)); [by fstep|lia].
  - change 0 with (24 * 0) at 1. eapply fwp_mono; [apply (dir_read_loop_ok c L k a n bl _ d 0 j Hat1 D1 D2); [|done|lia|lia|lia]|].
    { intros b Hb. apply W3. unfold bl in Hb. by apply elem_of_take in Hb as (i & Hi & _); eapply list_elem_of_lookup_2. }
    cbn [cur_part set_sv]. unfold bl. rewrite dir_blocks_take by done. fold (used_entries c (my_dev (cur_part s)) n). rewrite Z.sub_0_r.
    intros r s' (d' & [Hat' (x' & ->)] & Hi & HU). split; [done|].
    destruct (used_entries c (my_dev (cur_part s)) n !! Z.to_nat j) as [e|] eqn:Ej; [|apply lookup_ge_None in Ej; unfold len in Hne, Hj; lia].
    destruct HU as (Hp & x & -> & He). split_and!; [split; [|done|done]; exists d'; cbn; rewrite Hi; by rewrite lookup_insert_eq|done|].
    exists d', x. split_and!; [apply lookup_insert_eq|done|done].
Qed.

(** Reading a directory to its end. *)
Fixpoint read_all (fuel : nat) (a : Z) : F S (list (list Z)) :=
  match fuel with
  | O => mret []
  | Datatypes.S fuel =>
      r ← dir_read a;
      match r with
      | None => mret []
      | Some i => d ← ld_dir a; rest ← read_all fuel a; mret (entry (dir_buf d) i :: rest)
      end
  end.

(** C23: [dir_read], called on a directory stream at its start until it returns NULL,
    returns exactly the used entries of the directory, once each and in order:
    unused entries, empty block slots and the indirect table are passed over. *)
Theorem dir_read_enumerates c L k s a n : fs_at c L k s → dir_at c s a n 0 →
  ∃ s', read_all (Datatypes.S (length (used_entries c (my_dev (cur_part s)) n))) a s = Ok (used_entries c (my_dev (cur_part s)) n, s') ∧ fs_at c L k s'.
Proof.
  intros Hat Hd. set (U := used_entries c (my_dev (cur_part s)) n).
  assert (∀ m s j, (length U = Z.to_nat j + m)%nat → 0 ≤ j → fs_at c L k s → dir_at c s a n j → used_entries c (my_dev (cur_part s)) n = U →
    fwp (read_all (Datatypes.S m) a) s (λ r s', r = drop (Z.to_nat j) U ∧ fs_at c L k s')) as H.
  { induction m as [|m IH]; intros s1 j Hm Hj Hat1 Hd1 EU; cbn [read_all]; fstep;
      (eapply fwp_mono; [by apply (dir_read_ok c L k s1 a n j); [..|rewrite EU; unfold len; lia]|]); rewrite EU; intros r s2 [Hat2 Hr].
    - rewrite lookup_ge_None_2 in Hr by lia. subst r. fstep. by rewrite drop_ge by lia.
    - destruct (U !! Z.to_nat j) as [e|] eqn:Ej; [|apply lookup_ge_None in Ej; lia]. destruct Hr as (Hd2 & Ep & d & x & Hdd & -> & He).
      fstep. eapply ld_dir_ok; [done|]. fstep. eapply fwp_mono; [apply (IH s2 (j + 1)); [lia|lia|done|done|by rewrite Ep]|].
      intros r s3 [-> Hat3]. fstep. split; [|done]. rewrite He. replace (Z.to_nat (j + 1)) with (Datatypes.S (Z.to_nat j)) by lia. symmetry. by apply drop_S. }
  destruct (fwp_inv _ _ _ (H (length U) s 0 eq_refl ltac:(lia) Hat Hd eq_refl)) as (r & s' & E & -> & Hat'). eauto.
Qed.
End reading.
