(* ===== verification/FormatSpec.v ===== *)
(** * Formatting and mounting

    [partition_format] leaves a well-formed, empty file system, and
    [mount_partition] reads it back into a state in which the rest of the file
    system works. *)
From Stdlib Require Import String.
From S2P Require Import Prelude CString Bitmap Machine Ide DiskBytes FsBase Inode Dir File Path Fs Format FileSpec FsAlloc DirSpec.

Lemma below (P : Z → bool) (n : nat) : forallb (λ i, P (Z.of_nat i)) (seq 0 n) = true → ∀ i, 0 ≤ i < Z.of_nat n → P i = true.
Proof.
  intros H i Hi. rewrite forallb_forall in H. specialize (H (Z.to_nat i)). rewrite Z2Nat.id in H by lia. apply H, in_seq. lia.
Qed.

(** ** The layout *)

(** A partition within the range of the driver, of at least 620 sectors: 612 for
    the metadata and 8 blocks.  With 1 to 7 blocks [partition_format] clears the
    bit of the root directory's block ([format_small_loses_root]). *)
Record part_fits (part : PartDesc) : Prop := {
  pf_start : 0 ≤ pd_start_lba part;
  pf_size : 620 ≤ pd_sec_cnt part;
  pf_max : pd_start_lba part + pd_sec_cnt part ≤ max_lba + 1;
  pf_dev : pd_dev part = 0 ∨ pd_dev part = 1;
}.
Definition the_sb (part : PartDesc) : SuperBlock := fst (format_layout (pd_start_lba part) (pd_sec_cnt part)).
(** The number of blocks the bitmap is for. *)
Definition the_blocks (part : PartDesc) : Z := snd (format_layout (pd_start_lba part) (pd_sec_cnt part)).

(** The regions follow each other inside the partition. *)
Record layout_ok (part : PartDesc) (sb : SuperBlock) (blocks : Z) : Prop := {
  lo_bb : block_bitmap_lba sb = pd_start_lba part + 2;
  lo_bs : 1 ≤ block_bitmap_sects sb ≤ 40 ∧ blocks ≤ 4096 * block_bitmap_sects sb < blocks + 4096;
  lo_ib : inode_bitmap_lba sb = block_bitmap_lba sb + block_bitmap_sects sb ∧ inode_bitmap_sects sb = 1;
  lo_it : inode_table_lba sb = inode_bitmap_lba sb + 1 ∧ inode_table_sects sb = 608;
  lo_ds : data_start_lba sb = inode_table_lba sb + 608;
  lo_end : pd_start_lba part + pd_sec_cnt part - 1 ≤ data_start_lba sb + blocks ≤ pd_start_lba part + pd_sec_cnt part;
  lo_blocks : 8 ≤ blocks;
  lo_const : magic sb = FS_MAGIC ∧ root_inode_no sb = 0 ∧ dir_entry_size sb = 24;
}.

Lemma format_layout_ok part : part_fits part → layout_ok part (the_sb part) (the_blocks part).
Proof.
  intros [F1 F2 F3 _]. rewrite max_lba_eq in F3. unfold the_sb, the_blocks, format_layout, BITS_PER_SECTOR.
  change (DIV_ROUND_UP MAX_FILES_PER_PART 4096) with 1. change (DIV_ROUND_UP (sizeof_INode * MAX_FILES_PER_PART) SECTOR_SIZE) with 608.
  change (1 + 1 + 1 + 608) with 611. cbn [fst snd]. rewrite (u32_id (pd_sec_cnt part - 611)) by lia.
  set (free := pd_sec_cnt part - 611). rewrite (DIV_ROUND_UP_spec free) by lia. set (b0 := (free + 4096 - 1) / 4096).
  assert (0 ≤ b0 ≤ 40 ∧ 4096 * b0 - 4096 < free ≤ 4096 * b0) as [H0 H1] by (unfold b0, free; Z.div_mod_to_equations; lia).
  rewrite (u32_id (free - b0)) by lia. rewrite (DIV_ROUND_UP_spec (free - b0)) by lia. set (b1 := (free - b0 + 4096 - 1) / 4096).
  assert (1 ≤ b1 ≤ b0 ∧ 4096 * b1 - 4096 < free - b0 ≤ 4096 * b1) as [H2 H3] by (unfold b1; Z.div_mod_to_equations; lia).
  rewrite (u32_id (pd_start_lba part + 2)) by lia. rewrite (u32_id (_ + 2 + b1)) by lia. rewrite (u32_id (_ + 1)) by lia. rewrite (u32_id (_ + 608)) by lia.
  split; cbn; lia || done.
Qed.

(** ** The block bitmap *)

(** The off-by-one in the loop: bit [blocks] is cleared too. *)
Definition bitmap_bit (blocks i : Z) : bool := (i =? 0) || (blocks <? i).

Lemma clear_bits_ok l : 0 ≤ l < 8 → let b := clear_bits (S (Z.to_nat l)) 0 255 in 0 ≤ b < 256 ∧ ∀ j, 0 ≤ j < 8 → Z.testbit b j = (l <? j).
Proof.
  intros Hl b. assert (((0 <=? b) && (b <? 256) && forallb (λ j, eqb (Z.testbit b (Z.of_nat j)) (l <? Z.of_nat j)) (seq 0 8)) = true) as H.
  { apply (below (λ l, let b := clear_bits (S (Z.to_nat l)) 0 255 in ((0 <=? b) && (b <? 256)
      && forallb (λ j, eqb (Z.testbit b (Z.of_nat j)) (l <? Z.of_nat j)) (seq 0 8))) 8); [vm_compute; reflexivity|lia]. }
  apply andb_true_iff in H as [[H1%Z.leb_le H2%Z.ltb_lt]%andb_true_iff H3]. split; [lia|]. intros j Hj.
  apply eqb_prop, (below (λ j, eqb (Z.testbit b j) (l <? j)) 8 H3). lia.
Qed.

Lemma format_bitmap_ok size blocks : 8 ≤ blocks → (blocks / 4096 + 1) * 512 ≤ Z.of_nat size →
  format_bitmap (replicate size 0) blocks ⇓ λ buf, len buf = Z.of_nat size ∧ bytes buf
    ∧ ∀ i, 0 ≤ i < (blocks / 4096 + 1) * 4096 → Z.testbit buf@@(i / 8) (i mod 8) = bitmap_bit blocks i.
Proof.
  intros Hb Hs. unfold format_bitmap. assert (len (replicate size 0) = Z.of_nat size) as Hl by (unfold len; by rewrite length_replicate).
  assert (0 < Z.of_nat size) as Hpos by (Z.div_mod_to_equations; lia).
  rewrite rd_ok by lia. cbn [mbind outcome_bind]. rewrite wr_ok by lia. cbn [mbind outcome_bind]. unfold SECTOR_SIZE.
  set (lb := blocks / 8). set (ls := 512 - lb mod 512). assert (1 ≤ lb ∧ 0 < ls ∧ lb + ls = 512 * (blocks / 4096 + 1)) as (L1 & L2 & L3).
  { unfold ls, lb. Z.div_mod_to_equations. lia. }
  assert ((replicate size 0)@@0 = 0) as E0 by (destruct size; [lia|done]). rewrite E0. change (u8 (Z.lor 0 1)) with 1.
  set (b1 := <[Z.to_nat 0 := 1]> (replicate size 0)). assert (len b1 = Z.of_nat size) as Hl1 by (unfold b1; by rewrite len_insert).
  rewrite memset_splice by lia. cbn [mbind outcome_bind]. change (u8 255) with 255.
  set (b2 := take (Z.to_nat lb) b1 ++ replicate (Z.to_nat ls) 255 ++ drop (Z.to_nat (lb + ls)) b1).
  assert (len b2 = Z.of_nat size) as Hl2.
  { unfold b2. rewrite !len_app, len_take, len_drop by lia. unfold len at 1. rewrite length_replicate. lia. }
  assert (∀ x, 0 ≤ x < lb + ls → b2@@x = if x <? lb then b1@@x else 255) as Hb2.
  { intros x Hx. unfold b2. destruct (Z.ltb_spec x lb); [rewrite nthz_app_l, nthz_take by (rewrite ?len_take by lia; lia); done|].
    rewrite nthz_app_r, nthz_app_l by (rewrite ?len_take by lia; unfold len; rewrite ?length_replicate; lia). rewrite len_take by lia.
    apply nthz_lookup; [lia|]. apply lookup_replicate_2. lia. }
  assert (bytes b2) as Hby.
  { unfold b2, bytes. apply Forall_app. split; [apply Forall_take, Forall_insert; [by apply Forall_replicate|done]|].
    apply Forall_app. split; [by apply Forall_replicate|]. apply Forall_drop, Forall_insert; [by apply Forall_replicate|done]. }
  rewrite rd_ok by lia. cbn [mbind outcome_bind]. rewrite wr_ok by lia. cbn [returns]. rewrite Hb2 by lia. rewrite Z.ltb_irrefl.
  assert (0 ≤ blocks mod 8 < 8) as Hm by (Z.div_mod_to_equations; lia). destruct (clear_bits_ok (blocks mod 8) Hm) as [Hc1 Hc2].
  split_and!; [by rewrite len_insert|by apply Forall_insert|]. intros i Hi.
  assert (0 ≤ i mod 8 < 8 ∧ 0 ≤ i / 8 < lb + ls) as [Hi1 Hi2] by (Z.div_mod_to_equations; lia). unfold bitmap_bit.
  destruct (Z.eq_dec lb (i / 8)) as [E|Hne].
  - rewrite <- E, nthz_insert_eq, Hc2 by lia. unfold lb in E. destruct (Z.eqb_spec i 0); [subst; Z.div_mod_to_equations; lia|]. cbn [orb].
    destruct (Z.ltb_spec (blocks mod 8) (i mod 8)), (Z.ltb_spec blocks i); try done; Z.div_mod_to_equations; lia.
  - rewrite nthz_insert_ne, Hb2 by lia. destruct (Z.ltb_spec (i / 8) lb) as [Hlt|Hge].
    + assert ((blocks <? i) = false) as -> by (apply Z.ltb_ge; unfold lb in *; Z.div_mod_to_equations; lia). rewrite orb_false_r.
      unfold b1. destruct (Z.eq_dec (i / 8) 0) as [E|Hn0].
      * rewrite E, nthz_insert_eq by lia. replace (i mod 8) with i by (Z.div_mod_to_equations; lia).
        destruct (Z.eqb_spec i 0) as [->|]; [done|]. assert (i = 0 + i) as -> by lia. change 1 with (2 ^ 0). rewrite Z.pow2_bits_false by lia. done.
      * rewrite nthz_insert_ne by lia. rewrite (nthz_lookup _ _ 0) by (lia || (apply lookup_replicate_2; lia)). rewrite Z.bits_0.
        destruct (Z.eqb_spec i 0); [subst; done|done].
    + assert ((blocks <? i) = true) as -> by (apply Z.ltb_lt; unfold lb in *; Z.div_mod_to_equations; lia). rewrite orb_true_r.
      change 255 with (Z.ones 8). apply Z.ones_spec_low. lia.
Qed.

(** ** Sectors written and read *)
Lemma read_write_same c dev lba n b : disks_wf c → len b = 512 * Z.of_nat n → read_secs (write_secs c dev lba n b) dev lba n = b.
Proof.
  intros Hw Hb. rewrite read_secs_bytes by by apply write_secs_wf. apply (patched_in c); [by apply write_secs_patched|lia].
Qed.
Lemma read_write_other c dev lba n b lba' n' : lba' + Z.of_nat n' ≤ lba ∨ lba + Z.of_nat n ≤ lba' →
  read_secs (write_secs c dev lba n b) dev lba' n' = read_secs c dev lba' n'.
Proof.
  intros H. unfold read_secs. f_equal. apply map_ext_in. intros i Hi%in_seq. unfold write_secs. rewrite decide_False by lia. done.
Qed.

(** The five images [partition_format] writes. *)
Definition format_disk (c : disks) (part : PartDesc) (pad bitmap : list Z) : disks :=
  let sb := the_sb part in let dev := pd_dev part in
  let c := write_secs c dev (pd_start_lba part + 1) 1 (enc_sb sb pad) in
  let c := write_secs c dev (block_bitmap_lba sb) (Z.to_nat (block_bitmap_sects sb)) bitmap in
  let c := write_secs c dev (inode_bitmap_lba sb) 1 (1 :: replicate 511 0) in
  let c := write_secs c dev (inode_table_lba sb) 608
    (enc_inode (mkINode 0 48 0 false (data_start_lba sb :: replicate 12 0)) ++ replicate (608 * 512 - 76) 0) in
  write_secs c dev (data_start_lba sb) 1 (dot_entries 0 0 ++ replicate 464 0).

(** An empty file system. *)
Record formatted (c : disks) (part : PartDesc) : Prop := {
  fm_sb : dec_sb (c (pd_dev part) (pd_start_lba part + 1)) = the_sb part;
  fm_bits : let b := read_secs c (pd_dev part) (block_bitmap_lba (the_sb part)) (Z.to_nat (block_bitmap_sects (the_sb part))) in
    bytes b ∧ ∀ i, 0 ≤ i < 4096 * block_bitmap_sects (the_sb part) → Z.testbit b@@(i / 8) (i mod 8) = bitmap_bit (the_blocks part) i;
  fm_inodes : read_secs c (pd_dev part) (inode_bitmap_lba (the_sb part)) 1 = 1 :: replicate 511 0;
  fm_table : read_secs c (pd_dev part) (inode_table_lba (the_sb part)) 608
    = enc_inode (mkINode 0 48 0 false (data_start_lba (the_sb part) :: replicate 12 0)) ++ replicate (608 * 512 - 76) 0;
  fm_dir : c (pd_dev part) (data_start_lba (the_sb part)) = dot_entries 0 0 ++ replicate 464 0;
}.

Lemma dec_enc_sb part pad : part_fits part → dec_sb (enc_sb (the_sb part) pad) = the_sb part.
Proof.
  intros Hf. destruct (format_layout_ok part Hf) as [A1 A2 A3 A4 A5 A6 A7 (A8 & A9 & A10)]. destruct Hf as [F1 F2 F3 _]. rewrite max_lba_eq in F3.
  assert (inode_cnt (the_sb part) = 4096 ∧ part_lba_base (the_sb part) = pd_start_lba part ∧ sb_sec_cnt (the_sb part) = pd_sec_cnt part) as (E1 & E2 & E3) by done.
  revert A1 A2 A3 A4 A5 A6 A8 A9 A10 E1 E2 E3. generalize (the_sb part). intros [m sc ic pb bl bs il is_ tl ts ds ri de]. cbn. intros A1 A2 A3 A4 A5 A6 A8 A9 A10 E1 E2 E3.
  assert (∀ i v, (sb_words (mkSb m sc ic pb bl bs il is_ tl ts ds ri de)) !! i = Some v → is_u32 v →
    word_at (enc_sb (mkSb m sc ic pb bl bs il is_ tl ts ds ri de) pad) i = v) as Hw.
  { intros i v Hi Hv. etrans; [|by apply (word_at_words _ i v Hi Hv)]. unfold word_at, enc_sb. f_equal. apply lookup_lt_Some in Hi. cbn in Hi.
    assert (length (words_bytes (sb_words (mkSb m sc ic pb bl bs il is_ tl ts ds ri de))) = 52%nat) as Hl by by rewrite length_words_bytes.
    rewrite drop_app_le, take_app_le by (rewrite ?length_drop; lia). done. }
  unfold dec_sb, is_u32, FS_MAGIC in *. f_equal; (apply Hw; [done|lia]).
Qed.

Lemma format_disk_ok c part pad bitmap : part_fits part → disks_wf c → len pad = 460 → len bitmap = 512 * block_bitmap_sects (the_sb part) → bytes bitmap →
  (∀ i, 0 ≤ i < 4096 * block_bitmap_sects (the_sb part) → Z.testbit bitmap@@(i / 8) (i mod 8) = bitmap_bit (the_blocks part) i) →
  formatted (format_disk c part pad bitmap) part
  ∧ ∀ dev l, (dev = pd_dev part → l < pd_start_lba part ∨ pd_start_lba part + pd_sec_cnt part ≤ l) → format_disk c part pad bitmap dev l = c dev l.
Proof.
  intros Hf Hw Hpad Hlb Hby Hbits. destruct (format_layout_ok part Hf) as [A1 (A2 & A2') (A3 & A3') (A4 & A4') A5 A6 A7 _].
  pose proof (dec_enc_sb part pad Hf) as Hsb. unfold format_disk. set (sb := the_sb part) in *.
  set (i1 := enc_sb sb pad). set (i3 := 1 :: replicate 511 0).
  set (i4 := enc_inode (mkINode 0 48 0 false (data_start_lba sb :: replicate 12 0)) ++ replicate (608 * 512 - 76) 0). set (i5 := dot_entries 0 0 ++ replicate 464 0).
  assert (len i1 = 512 * 1) as H1 by (unfold i1, enc_sb; rewrite len_app, Hpad; unfold len; by rewrite length_words_bytes).
  assert (len i4 = 512 * 608) as H4 by (unfold i4; rewrite len_app, enc_inode_len by done; unfold len; rewrite length_replicate; lia).
  assert (len bitmap = 512 * Z.of_nat (Z.to_nat (block_bitmap_sects sb))) as H2 by lia.
  set (dev := pd_dev part) in *.
  set (c1 := write_secs c dev (pd_start_lba part + 1) 1 i1). assert (disks_wf c1) as Hw1 by by apply write_secs_wf.
  set (c2 := write_secs c1 dev _ _ bitmap). assert (disks_wf c2) as Hw2 by by apply write_secs_wf.
  set (c3 := write_secs c2 dev _ 1 i3). assert (disks_wf c3) as Hw3 by by apply write_secs_wf.
  set (c4 := write_secs c3 dev _ 608 i4). assert (disks_wf c4) as Hw4 by by apply write_secs_wf.
  split; [split; fold sb dev|].
  - rewrite <- read_secs_1, read_write_other by lia. unfold c4. rewrite read_write_other by lia. unfold c3. rewrite read_write_other by lia.
    unfold c2. rewrite read_write_other by lia. unfold c1. rewrite read_write_same by done. exact Hsb.
  - rewrite read_write_other by lia. unfold c4. rewrite read_write_other by lia. unfold c3. rewrite read_write_other by lia.
    unfold c2. rewrite read_write_same by assumption. exact (conj Hby Hbits).
  - rewrite read_write_other by lia. unfold c4. rewrite read_write_other by lia. unfold c3. by rewrite read_write_same.
  - rewrite read_write_other by lia. unfold c4. by rewrite read_write_same.
  - rewrite <- read_secs_1. by rewrite read_write_same.
  - intros d l Hl. unfold write_secs at 1. rewrite decide_False by lia. unfold c4, write_secs at 1. rewrite decide_False by lia.
    unfold c3, write_secs at 1. rewrite decide_False by lia. unfold c2, write_secs at 1. rewrite decide_False by lia.
    unfold c1, write_secs at 1. rewrite decide_False by lia. done.
Qed.

(** ** partition_format *)
(** A structure copied to the start of a cleared buffer. *)
Lemma image_ok N K (l : list Z) k : len l = k → k ≤ K ≤ Z.of_nat N →
  take (Z.to_nat K) (take (Z.to_nat 0) (replicate N 0) ++ take (Z.to_nat k) (drop (Z.to_nat 0) l) ++ drop (Z.to_nat (0 + k)) (replicate N 0))
  = l ++ replicate (Z.to_nat (K - k)) 0.
Proof.
  intros Hl HK. pose proof (len_nonneg l). unfold len in *. change (Z.to_nat 0) with 0%nat. rewrite take_0, drop_0, (take_ge l), Z.add_0_l, drop_replicate by lia. cbn [app].
  rewrite take_app_ge, take_replicate by lia. do 2 f_equal. lia.
Qed.

Section format.
Context {S : Type} `{!Services S}.
Implicit Types s : fs S.

(** From states with [n] pages left a request of [size] bytes succeeds, and
    leaves [n'] pages.  The services promise it for requests of up to 1024
    bytes; for the large buffers of this file it is a hypothesis. *)
Definition can_malloc (pf : PoolType) (size : Z) (n n' : nat) : Prop :=
  ∀ c L x, sv_at c L n x → ∃ r x', sv_malloc pf size x = Ok (r, x') ∧ L !! r = None ∧ r ≠ NULL ∧ sv_at c (<[r := pf]> L) n' x'.

Lemma can_malloc_small pf size n : 0 < size ≤ 1024 → can_malloc pf size (Datatypes.S n) n.
Proof.
  intros Hs c L x Hx. destruct (sv_malloc_ok _ _ _ _ pf size Hx ltac:(lia) ltac:(lia)) as (r & x' & E & [[-> [[?|?] _]]|[Hr Hx']]); [lia|lia|].
  destruct (Z.ltb_spec 1024 size); [lia|]. exists r, x'. split_and!; [done|done| |done].
  intros ->. pose proof (sv_null _ _ _ _ Hx') as Hn. by rewrite lookup_insert_eq in Hn.
Qed.

Section quiet.
Context (s0 : fs S).

(** Only the services' state and what was printed differ from [s0]. *)
Definition quiet (c : disks) (L : gmap Z PoolType) (n : nat) s : Prop := ∃ x con, s = set_sv x (set_console con s0) ∧ sv_at c L n x.

Lemma quiet_say c L n s f a Q : quiet c L n s → (∀ s', quiet c L n s' → Q () s') → fwp (say f a) s Q.
Proof. intros (x & con & -> & Hx) HQ. unfold say. fstep. apply HQ. by eexists x, _. Qed.
Lemma quiet_write c L n s dev lba b k Q : quiet c L n s → (dev = 0 ∨ dev = 1) → 0 ≤ lba → 0 < k → lba + k ≤ max_lba + 1 → len b = 512 * k →
  (∀ s', quiet (write_secs c dev lba (Z.to_nat k) b) L n s' → Q () s') → fwp (dev_write dev lba b k) s Q.
Proof.
  intros (x & con & -> & Hx) Hd H1 H2 H3 H4 HQ. unfold dev_write, fwp, service. cbn [sv set_sv].
  destruct (sv_write_ok _ _ _ _ _ _ _ _ Hx Hd H1 H2 H3 H4) as (x' & -> & Hx'). cbn. apply HQ. by exists x', con.
Qed.
Lemma quiet_write_buf c L n s dev lba b k Q : quiet c L n s → (dev = 0 ∨ dev = 1) → 0 ≤ lba → 0 < k → lba + k ≤ max_lba + 1 → 512 * k ≤ len b →
  (∀ s', quiet (write_secs c dev lba (Z.to_nat k) (take (Z.to_nat (512 * k)) b)) L n s' → Q () s') → fwp (dev_write_buf dev lba b k) s Q.
Proof.
  intros Hq Hd H1 H2 H3 H4 HQ. unfold dev_write_buf. fstep. rewrite slice_ok by lia. apply fwp_lift. cbn [returns].
  eapply (quiet_write c L n); [done|done|done|done|done| |done]. change (Z.to_nat 0) with 0%nat. rewrite drop_0, len_take by lia. lia.
Qed.
Lemma quiet_read c L n s dev lba k Q : quiet c L n s → (dev = 0 ∨ dev = 1) → 0 ≤ lba → 0 < k → lba + k ≤ max_lba + 1 →
  (∀ s', quiet c L n s' → Q (read_secs c dev lba (Z.to_nat k)) s') → fwp (dev_read dev lba k) s Q.
Proof.
  intros (x & con & -> & Hx) Hd H1 H2 H3 HQ. unfold dev_read, fwp, service. cbn [sv set_sv].
  destruct (sv_read_ok _ _ _ _ _ _ _ Hx Hd H1 H2 H3) as (x' & -> & Hx'). cbn. apply HQ. by exists x', con.
Qed.
Lemma must_ok s r (Q : unit → fs S → Prop) : r ≠ NULL → Q () s → fwp (must r) s Q.
Proof. intros Hr HQ. unfold must. destruct (Z.eqb_spec r NULL); [done|]. by fstep. Qed.
Lemma quiet_malloc c L n n' s size Q : quiet c L n s → can_malloc (pool_me s0) size n n' →
  (∀ r s', r ≠ NULL → L !! r = None → quiet c (<[r := pool_me s0]> L) n' s' → Q r s') → fwp (fs_malloc size) s Q.
Proof.
  intros (x & con & -> & Hx) Hm HQ. unfold fs_malloc, my_pool. repeat fstep. unfold fwp, service. cbn [sv set_sv me set_console].
  fold (pool_me s0). destruct (Hm _ _ _ Hx) as (r & x' & -> & Hr & Hn & Hx'). cbn. apply HQ; [done|done|]. by exists x', con.
Qed.
Lemma quiet_free c L n s b Q : quiet c L n s → L !! b = Some (pool_me s0) → (∀ s', quiet c (delete b L) n s' → Q () s') → fwp (fs_free b) s Q.
Proof.
  intros (x & con & -> & Hx) Hb HQ. unfold fs_free, my_pool. repeat fstep. unfold fwp, service. cbn [sv set_sv me set_console].
  fold (pool_me s0). destruct (sv_free_ok _ _ _ _ (pool_me s0) _ Hx Hb) as (x' & -> & Hx'). cbn. apply HQ. by exists x', con.
Qed.
Lemma quiet_touch c L n s r Q : quiet c L n s → r ≠ NULL → Q () s → fwp (touch r) s Q.
Proof. intros _ Hr HQ. unfold touch. destruct (Z.eqb_spec r NULL); [done|]. by fstep. Qed.
End quiet.

(** C13: [partition_format]: for every partition of at least 620 sectors (612 for the
    metadata and 8 blocks) within the range of the driver, it writes an empty file system: the super block,
    a block bitmap with the root directory's block taken, an inode bitmap with
    inode 0 taken, an inode table with the root directory's inode and zeros,
    and a root directory of [.] and [..].  Sectors outside the partition keep
    their contents and the buffer is given back. *)
Theorem partition_format_correct c L n n' s part pad :
  sv_at c L n (sv s) → part_fits part → len pad = 460 → can_malloc (pool_me s) (608 * 512) n n' →
  ∃ s' c', partition_format part pad s = Ok ((), s') ∧ quiet s c' L n' s' ∧ formatted c' part
    ∧ ∀ dev l, (dev = pd_dev part → l < pd_start_lba part ∨ pd_start_lba part + pd_sec_cnt part ≤ l) → c' dev l = c dev l.
Proof.
  intros Hx Hf Hpad Hm. destruct (format_layout_ok part Hf) as [A1 (A2 & A2') (A3 & A3') (A4 & A4') A5 A6 A7 (A8 & A9 & A10)].
  pose proof (sv_wf _ _ _ _ Hx) as Hw. destruct (Hf) as [F1 F2 F3 F4].
  assert (fwp (partition_format part pad) s (λ _ s', ∃ bitmap, quiet s (format_disk c part pad bitmap) L n' s' ∧ len bitmap = 512 * block_bitmap_sects (the_sb part)
    ∧ bytes bitmap ∧ ∀ i, 0 ≤ i < 4096 * block_bitmap_sects (the_sb part) → Z.testbit bitmap@@(i / 8) (i mod 8) = bitmap_bit (the_blocks part) i))
    as ([] & s' & E & bitmap & Hq & B1 & B2 & B3)%fwp_inv.
  2: { destruct (format_disk_ok c part pad bitmap Hf Hw Hpad B1 B2 B3). by exists s', (format_disk c part pad bitmap). }
  unfold partition_format, format_disk. rewrite (surjective_pairing (format_layout _ _)). fold (the_sb part) (the_blocks part). set (sb := the_sb part) in *.
  assert (quiet s c L n s) as Hq by (exists (sv s), (console s); split; [by destruct s|done]).
  do 12 (fstep; eapply (quiet_say s c L n); [eassumption|clear Hq; intros ? Hq]). rewrite max_lba_eq in F3.
  assert (len (enc_sb sb pad) = 512 * 1) as H1 by (unfold enc_sb; rewrite len_app, Hpad; unfold len; by rewrite length_words_bytes).
  fstep. rewrite (u32_id (_ + 1)) by lia. eapply (quiet_write s); [exact Hq|assumption|lia|lia|rewrite max_lba_eq; lia|assumption|]. clear Hq. intros s1 Hq.
  fstep. eapply (quiet_say s); [exact Hq|]. clear Hq. intros s2 Hq.
  replace (Z.max (Z.max (block_bitmap_sects sb) (inode_bitmap_sects sb)) (inode_table_sects sb) * SECTOR_SIZE) with (608 * 512) by (unfold SECTOR_SIZE; lia).
  fstep. eapply (quiet_malloc s); [exact Hq|exact Hm|]. clear Hq. intros r s3 Hr HrL Hq. fstep. eapply (quiet_touch s); [exact Hq|assumption|].
  set (N := Z.to_nat (608 * 512)). assert (Z.of_nat N = 311296) as HN by (unfold N; lia). clearbody N.
  assert (len (replicate N 0) = 311296) as HlN by (unfold len; by rewrite length_replicate).
  fstep. apply fwp_lift. eapply returns_mono; [apply (format_bitmap_ok N (the_blocks part)); [lia|Z.div_mod_to_equations; lia]|].
  intros buf (Hl & Hby & Hbits). fstep. eapply (quiet_write_buf s); [exact Hq|assumption|lia|lia|rewrite max_lba_eq; lia|lia|]. clear Hq. intros s4 Hq.
  fstep. rewrite wr_ok by lia. apply fwp_lift. cbn [returns]. fstep.
  eapply (quiet_write_buf s); [exact Hq|assumption|lia|lia|rewrite max_lba_eq; lia|rewrite len_insert; lia|]. clear Hq. intros s5 Hq.
  set (root := mkINode _ _ _ _ _). assert (len (enc_inode root) = 76) as Hr76 by by apply enc_inode_len.
  fstep. rewrite memcpy_ok by (unfold sizeof_INode; lia). apply fwp_lift. cbn [returns]. fstep.
  eapply (quiet_write_buf s); [exact Hq|assumption|lia|lia|rewrite max_lba_eq; lia|
    rewrite !len_app, len_take, len_take, len_drop by (rewrite ?len_drop by lia; unfold sizeof_INode; lia); unfold sizeof_INode; lia|]. clear Hq. intros s6 Hq.
  assert (len (dot_entries 0 0) = 48) as H48 by reflexivity. fstep. rewrite memcpy_ok by lia. apply fwp_lift. cbn [returns]. fstep.
  eapply (quiet_write_buf s); [exact Hq|assumption|lia|lia|rewrite max_lba_eq; lia| |].
  { rewrite !len_app, len_take, len_take, len_drop by (rewrite ?len_drop by lia; lia). lia. }
  clear Hq. intros s7 Hq. do 2 (fstep; eapply (quiet_say s); [eassumption|clear Hq; intros ? Hq]).
  eapply (quiet_free s); [exact Hq|by apply lookup_insert_eq|]. clear Hq. intros s8 Hq. rewrite delete_insert_id in Hq by assumption.
  exists (take (Z.to_nat (512 * block_bitmap_sects sb)) buf). split_and!.
  - rewrite A3', A4', !image_ok in Hq by (unfold sizeof_INode; lia).
    assert (take (Z.to_nat (512 * 1)) (<[Z.to_nat 0:=1]> (replicate N 0)) = 1 :: replicate 511 0) as E3.
    { destruct N as [|N]; [lia|]. change (Z.to_nat (512 * 1)) with (Datatypes.S 511). rewrite replicate_S. change (Z.to_nat 0) with 0%nat. cbn [insert list_insert firstn].
      rewrite take_replicate. do 2 f_equal. lia. }
    rewrite E3 in Hq. change (Z.to_nat 1) with 1%nat in Hq. replace (Z.to_nat (512 * 608 - sizeof_INode)) with (608 * 512 - 76)%nat in Hq by (unfold sizeof_INode; lia).
    change (Z.to_nat (512 * 1 - 48)) with 464%nat in Hq. change (Z.to_nat 608) with 608%nat in Hq.
    replace (mkINode 0 48 0 false (data_start_lba sb :: replicate 12 0)) with root; [exact Hq|]. unfold root. by rewrite A10.
  - rewrite len_take; lia.
  - by apply Forall_take.
  - intros i Hi. rewrite nthz_take by (Z.div_mod_to_equations; lia). apply Hbits. Z.div_mod_to_equations; lia.
Qed.

(** The loop that should clear the bits of the last byte up to the last block
    clears one more: the block bitmap of a formatted partition says that block
    number [the_blocks] is free, and that sector is the last one of the
    partition or the first one after it. *)
Theorem format_marks_past_end_free c part : part_fits part → formatted c part → the_blocks part mod 4096 ≠ 0 →
  let b := read_secs c (pd_dev part) (block_bitmap_lba (the_sb part)) (Z.to_nat (block_bitmap_sects (the_sb part))) in
  Z.testbit b@@(the_blocks part / 8) (the_blocks part mod 8) = false
  ∧ (data_start_lba (the_sb part) + the_blocks part = pd_start_lba part + pd_sec_cnt part
     ∨ data_start_lba (the_sb part) + the_blocks part = pd_start_lba part + pd_sec_cnt part - 1).
Proof.
  intros Hf [_ [_ Hbits] _ _ _] Hm b. destruct (format_layout_ok part Hf) as [_ (_ & A2) _ _ _ A6 A7 _]. split; [|lia].
  unfold b. rewrite Hbits by (Z.div_mod_to_equations; lia). unfold bitmap_bit. rewrite Z.ltb_irrefl, orb_false_r. apply Z.eqb_neq. lia.
Qed.

(** In partitions of 613 to 619 sectors the last byte of the block bitmap is its
    first, and the loop that makes its valid bits free again clears the bit of
    the root directory's block. *)
Theorem format_small_loses_root size blocks : 1 ≤ blocks < 8 → 512 ≤ Z.of_nat size →
  Forall (λ sec_cnt, (format_layout 2048 sec_cnt).2 = sec_cnt - 612) (seqZ 613 7)
  ∧ format_bitmap (replicate size 0) blocks ⇓ λ buf, Z.testbit buf@@0 0 = false.
Proof.
  intros Hb Hs. split; [repeat (constructor; [vm_compute; reflexivity|]); constructor|].
  unfold format_bitmap. assert (len (replicate size 0) = Z.of_nat size) as Hl by (unfold len; by rewrite length_replicate).
  rewrite rd_ok by lia. cbn [mbind outcome_bind]. rewrite wr_ok by lia. cbn [mbind outcome_bind]. unfold SECTOR_SIZE.
  replace (blocks / 8) with 0 by (symmetry; apply Z.div_small; lia). rewrite (Z.mod_small blocks) by lia. change (512 - 0 mod 512) with 512.
  set (b1 := <[Z.to_nat 0 := _]> _). assert (len b1 = Z.of_nat size) as Hl1 by (unfold b1; by rewrite len_insert).
  rewrite memset_splice by lia. cbn [mbind outcome_bind]. change (u8 255) with 255.
  set (b2 := take (Z.to_nat 0) b1 ++ _). assert (len b2 = Z.of_nat size) as Hl2.
  { unfold b2. rewrite !len_app, len_take, len_drop by lia. unfold len at 1. rewrite length_replicate. lia. }
  rewrite rd_ok by lia. cbn [mbind outcome_bind]. rewrite wr_ok by lia. cbn [returns]. rewrite nthz_insert_eq by lia.
  change (b2@@0) with 255. destruct (clear_bits_ok blocks) as [_ Hc]; [lia|]. rewrite Hc by lia. apply Z.ltb_ge. lia.
Qed.

(** ** mount_partition *)

(** The mounted partition: the bitmaps are followed by whatever the heap holds. *)
Definition mounted (c : disks) (part : PartDesc) (after1 after2 : list Z) : Partition :=
  mkPart (pd_start_lba part) (pd_sec_cnt part) (pd_dev part) (the_sb part)
    (mkBitMap (512 * block_bitmap_sects (the_sb part))
      (read_secs c (pd_dev part) (block_bitmap_lba (the_sb part)) (Z.to_nat (block_bitmap_sects (the_sb part))) ++ after1))
    (mkBitMap 512 (read_secs c (pd_dev part) (inode_bitmap_lba (the_sb part)) 1 ++ after2)) [].

(** What the rest of the file system relies on. *)
Record fs_ready (c : disks) (p : Partition) (root : INode) : Prop := {
  rd_part : part_ok p;
  rd_root : disk_inode c p 0 = root;
  rd_dir : dir_wf c p root ∧ dir_owns c p root;
  rd_size : i_size root = 24 * len (used_entries c (my_dev p) root);
  rd_names : map until0 (used_entries c (my_dev p) root) = [[46]; [46; 46]];
  rd_block : block_used p (data_start_lba (sb p)) = true;
}.

Lemma mounted_part_ok c part after1 after2 : part_fits part → formatted c part → disks_wf c → bytes after1 → 0 < len after1 →
  data_start_lba (the_sb part) + 4096 * block_bitmap_sects (the_sb part) ≤ max_lba + 1 →
  part_ok (mounted c part after1 after2) ∧ block_used (mounted c part after1 after2) (data_start_lba (the_sb part)) = true.
Proof.
  intros Hf Hfm Hw Ha Hal Hmax. destruct (format_layout_ok part Hf) as [A1 (A2 & A2') (A3 & A3') (A4 & A4') A5 A6 A7 _].
  destruct Hf as [F1 F2 F3 F4], Hfm as [_ [M1 M2] _ _ _]. rewrite max_lba_eq in *. unfold mounted. split.
  - pose proof (len_read_secs c (pd_dev part) (block_bitmap_lba (the_sb part)) (Z.to_nat (block_bitmap_sects (the_sb part))) Hw) as Hl.
    split; cbn [sb block_bitmap btmp_bytes_len bits]; unfold nbits, table_ok; cbn [sb start_lba part_sec_cnt block_bitmap btmp_bytes_len bits];
      rewrite ?max_lba_eq, ?len_app; try lia.
    split; cbn [btmp_bytes_len bits]; unfold nbits; cbn [btmp_bytes_len]; rewrite ?len_app; [by apply Forall_app|lia|lia].
  - unfold block_used, used. cbn [sb block_bitmap bits]. rewrite Z.sub_diag. change (0 / 8) with 0. change (0 mod 8) with 0.
    rewrite nthz_app_l by (rewrite len_read_secs by done; lia). specialize (M2 0 ltac:(lia)). change (0 / 8) with 0 in M2. change (0 mod 8) with 0 in M2. by rewrite M2.
Qed.

Definition root_inode (part : PartDesc) : INode := mkINode 0 48 0 false (data_start_lba (the_sb part) :: replicate 12 0).

Lemma mounted_root c part after1 after2 : part_fits part → formatted c part → disks_wf c →
  disk_inode c (mounted c part after1 after2) 0 = root_inode part.
Proof.
  intros Hf Hfm Hw. destruct (format_layout_ok part Hf) as [A1 A2 A3 A4 A5 A6 A7 _]. destruct Hf as [F1 F2 F3 F4]. rewrite max_lba_eq in F3.
  unfold disk_inode, inode_addr, mounted. cbn [my_dev sb]. rewrite Z.mul_0_r, Z.add_0_r.
  assert (inode_wf (root_inode part)) as Hr.
  { split; [done|done| |done]. unfold root_inode. cbn [i_sectors]. apply Forall_cons. split; [unfold is_u32; lia|]. by apply Forall_replicate. }
  pose proof (slice_read c (pd_dev part) (inode_table_lba (the_sb part)) 608 0 76 Hw ltac:(lia)) as Hs. rewrite drop_0, Z.add_0_r in Hs. rewrite <- Hs.
  rewrite (fm_table _ _ Hfm), take_app_length' by (pose proof (enc_inode_len _ (iw_len _ Hr)) as Hl; unfold len, root_inode in Hl; lia).
  by apply dec_enc_inode.
Qed.

Lemma root_blocks c dev part : dir_blocks c dev (root_inode part) = data_start_lba (the_sb part) :: replicate 139 0.
Proof. reflexivity. Qed.
Lemma root_entries c part : part_fits part → formatted c part →
  dir_entries c (pd_dev part) (root_inode part) = take 24 (dot_entries 0 0) :: drop 24 (dot_entries 0 0) :: replicate 19 (replicate 24 0).
Proof.
  intros Hf [_ _ _ _ M]. destruct (format_layout_ok part Hf) as [A1 A2 A3 A4 A5 A6 A7 _]. destruct Hf as [F1 F2 F3 F4].
  unfold dir_entries. rewrite root_blocks. cbn [map concat]. unfold block_entries at 1. destruct (Z.eqb_spec (data_start_lba (the_sb part)) 0); [lia|].
  rewrite M. reflexivity.
Qed.

Definition entry_okb (e : list Z) : bool := forallb (λ x, (0 <=? x) && (x <? 256)) e && existsb (λ x, x =? 0) e.
Lemma entries_okb l : forallb entry_okb l = true → Forall entry_ok l.
Proof.
  rewrite forallb_forall. intros H. apply Forall_forall. intros e He%list_elem_of_In. apply H in He. unfold entry_okb in He.
  apply andb_true_iff in He as [H1 H2]. split.
  - rewrite forallb_forall in H1. apply Forall_forall. intros x Hx%list_elem_of_In. apply H1 in Hx. lia.
  - apply existsb_exists in H2 as (x & Hx%list_elem_of_In & E). by apply Z.eqb_eq in E as ->.
Qed.

Lemma mounted_ready c part after1 after2 : part_fits part → formatted c part → disks_wf c → bytes after1 → 0 < len after1 →
  data_start_lba (the_sb part) + 4096 * block_bitmap_sects (the_sb part) ≤ max_lba + 1 →
  fs_ready c (mounted c part after1 after2) (root_inode part).
Proof.
  intros Hf Hfm Hw Ha Hal Hmax. destruct (mounted_part_ok c part after1 after2 Hf Hfm Hw Ha Hal Hmax) as [Hp Hu].
  pose proof (root_entries c part Hf Hfm) as He. destruct (format_layout_ok part Hf) as [A1 (A2 & A2') A3 A4 A5 A6 A7 (_ & _ & A10)].
  assert (0 < data_start_lba (the_sb part)) as Hpos by (destruct Hf; lia).
  assert (∀ b, b ∈ dir_blocks c (pd_dev part) (root_inode part) → b ≠ 0 → b = data_start_lba (the_sb part)) as Hb.
  { rewrite root_blocks. intros b [->|[-> _]%elem_of_replicate]%elem_of_cons Hb; done. }
  split; [done|by apply mounted_root| | | |exact Hu].
  - split; split; cbn [my_dev sb mounted].
    + done.
    + change ((i_sectors (root_inode part))@@12) with 0. rewrite max_lba_eq. lia.
    + intros b Hin Hn. rewrite (Hb b Hin Hn). lia.
    + rewrite He. apply entries_okb. vm_compute. reflexivity.
    + done.
    + rewrite root_blocks. change ((i_sectors (root_inode part))@@12) with 0. rewrite filter_cons_False, filter_cons_True by lia.
      replace (filter (λ b, b ≠ 0) (replicate 139 0)) with (@nil Z) by reflexivity. apply NoDup_singleton.
    + intros b [->|Hin]%elem_of_cons Hn; [done|]. rewrite (Hb b Hin Hn). split; [|exact Hu]. unfold in_data, nbits. cbn [sb mounted block_bitmap btmp_bytes_len]. lia.
  - unfold used_entries. cbn [my_dev mounted]. rewrite He. vm_compute. reflexivity.
  - unfold used_entries. cbn [my_dev mounted]. rewrite He. vm_compute. reflexivity.
Qed.

(** C12: [mount_partition] on a formatted partition of the given name whose bitmap,
    rounded up to whole sectors, covers no sector beyond the end of the disk: it
    stops the walk, and the mounted partition is ready for use: its regions, bitmaps and
    addresses are consistent, inode 0 is the root directory, whose only entries
    are [.] and [..], and its block is taken.  On another name it changes
    nothing and lets the walk continue. *)
Theorem mount_partition_correct c L s part nm1 part_name nm2 after1 after2 :
  sv_at c L 4 (sv s) → part_fits part → formatted c part → cstr (pd_name part) 0 nm1 → cstr part_name 0 nm2 → bytes after1 → 0 < len after1 →
  data_start_lba (the_sb part) + 4096 * block_bitmap_sects (the_sb part) ≤ max_lba + 1 →
  can_malloc (pool_me s) (512 * block_bitmap_sects (the_sb part)) 2 1 →
  if decide (nm1 = nm2) then ∃ s' L', mount_partition part part_name after1 after2 s = Ok (true, s') ∧ fs_at c L' 0 s'
      ∧ cur_part s' = mounted c part after1 after2 ∧ fs_ready c (cur_part s') (root_inode part)
  else mount_partition part part_name after1 after2 s = Ok (false, s).
Proof.
  intros Hx Hf Hfm Hn1 Hn2 Ha Hal Hmax Hbig. pose proof (sv_wf _ _ _ _ Hx) as Hw. pose proof (mounted_ready c part after1 after2 Hf Hfm Hw Ha Hal Hmax) as Hrd.
  destruct (format_layout_ok part Hf) as [A1 (A2 & A2') (A3 & A3') (A4 & A4') A5 A6 A7 _]. destruct (Hf) as [F1 F2 F3 F4]. destruct (Hfm) as [M1 M2 M3 _ _].
  assert (scmp nm1 nm2 = 0 ↔ nm1 = nm2) as Hs0 by (destruct Hn1 as (? & ? & _ & _ & ?), Hn2 as (? & ? & _ & _ & ?); by apply scmp_0).
  case_decide as Hnm.
  - assert (fwp (mount_partition part part_name after1 after2) s (λ r s', r = true ∧ ∃ L', fs_at c L' 0 s' ∧ cur_part s' = mounted c part after1 after2))
      as (r & s' & E & -> & L' & Hat & Hp)%fwp_inv; [|exists s', L'; split_and!; [exact E|done|done|by rewrite Hp]].
    unfold mount_partition. fstep. rewrite (strcmp_ok _ _ _ _ _ _ Hn1 Hn2). apply fwp_lift. cbn [returns].
    destruct (Z.eqb_spec (scmp nm1 nm2) 0) as [_|E]; [|by apply Hs0 in Hnm].
    assert (quiet s c L 4 s) as Hq by (exists (sv s), (console s); split; [by destruct s|done]).
    fstep. eapply (quiet_malloc s); [exact Hq|apply (can_malloc_small _ _ 3); unfold SECTOR_SIZE; lia|]. clear Hq. intros r1 s1 R1 N1 Hq.
    fstep. eapply (quiet_malloc s); [exact Hq|apply (can_malloc_small _ _ 2); lia|]. clear Hq. intros r2 s2 R2 N2 Hq.
    do 2 (fstep; eapply must_ok; [eassumption|]). rewrite (u32_id (_ + 1)) by (rewrite max_lba_eq in F3; lia).
    fstep. eapply (quiet_read s); [exact Hq|done|lia|lia|lia|]. clear Hq. intros s3 Hq. change (Z.to_nat 1) with 1%nat. rewrite read_secs_1, M1.
    unfold SECTOR_SIZE. rewrite (u32_id (block_bitmap_sects (the_sb part) * 512)), Z.mul_comm by lia.
    fstep. eapply (quiet_malloc s); [exact Hq|exact Hbig|]. clear Hq. intros r3 s4 R3 N3 Hq. fstep; eapply must_ok; [eassumption|].
    fstep. eapply (quiet_read s); [exact Hq|done|lia|lia|lia|]. clear Hq. intros s5 Hq. rewrite A3'. change (u32 (1 * 512)) with 512.
    fstep. eapply (quiet_malloc s); [exact Hq|apply (can_malloc_small _ _ 0); lia|]. clear Hq. intros r4 s6 R4 N4 Hq. fstep; eapply must_ok; [eassumption|].
    fstep. eapply (quiet_read s); [exact Hq|done|lia|lia|lia|]. clear Hq. intros s7 (x & con & -> & Hx7). change (Z.to_nat 1) with 1%nat.
    fstep. fstep. fstep. split; [done|]. eexists. split; [split; [exact Hx7|exact F4]|]. reflexivity.
  - assert (fwp (mount_partition part part_name after1 after2) s (λ r s', r = false ∧ s' = s)) as (r & s' & E & -> & ->)%fwp_inv; [|done].
    unfold mount_partition. fstep. rewrite (strcmp_ok _ _ _ _ _ _ Hn1 Hn2). apply fwp_lift. cbn [returns].
    destruct (Z.eqb_spec (scmp nm1 nm2) 0) as [E|]; [by apply Hs0 in E|]. by fstep.
Qed.
End format.
