(* ===== verification/FsDemo.v ===== *)
(** * A small file system: the theorems at concrete inputs

    A partition of 8192 sectors on the second disk with the root directory's
    block and one file of 600 bytes in two blocks, over the services of
    [sim_services]. *)
From Stdlib Require Import String.
From S2P Require Import Prelude CString Bitmap Machine Ide DiskBytes FsBase Inode Dir File Path Fs Format FileSpec FsAlloc FileWrite DirSpec FormatSpec.

Definition demo_sb : SuperBlock := mkSb 0x19590318 8192 4096 2048 2050 1 2051 1 2052 608 2660 0 24.
Definition demo_part : Partition :=
  mkPart 2048 8192 1 demo_sb (mkBitMap 512 (63 :: replicate 512 0)) (mkBitMap 512 (3 :: replicate 512 0)) [0x9000].
Definition demo_inode : INode := mkINode 1 600 1 false ([2661; 2662] ++ replicate 11 0).
Definition zero_disk : disks := λ _ _, replicate 512 0.
(** An entry named by one character. *)
Definition demo_entry (ch no : Z) : list Z := [ch] ++ replicate 15 0 ++ le32 no ++ le32 FT_REGULAR.
(** The file's two blocks, an indirect table, a directory block with [.] and
    [..], and a full one. *)
Definition demo_disk : disks :=
  write_secs (write_secs (write_secs (write_secs (write_secs zero_disk 1 2661 1 (replicate 512 65)) 1 2662 1 (replicate 88 66 ++ replicate 424 0))
    1 2663 1 (words_bytes (replicate 128 2662))) 1 2664 1 (dot_entries 1 0 ++ replicate 464 0))
    1 2665 1 (concat (map (λ i, demo_entry (97 + Z.of_nat i) 7) (seq 0 21)) ++ replicate 8 0).
Definition demo_live : gmap Z PoolType := {[0x9000 := PF_KERNEL]}.
Definition demo_me : TaskStruct :=
  mkTask 0 1 TASK_RUNNING 31 (replicate 16 0) 31 0 ([0; 1; 2; 3] ++ replicate 4 (-1)) 0 (mkVirtualAddr (mkBitMap 0 []) 0) 0 (-1) 0 STACK_MAGIC.
Definition demo_fs_with (n : INode) (pos : Z) : fs sim_sv :=
  mkFs (mkSimSv demo_disk demo_live 0xa000 10) [] demo_me demo_part {[0x9000 := n]} {[0x8000 := mkDir 0x9000 0 (replicate 512 0)]} 0x100
    (<[3%nat := mkFile pos O_RDWR 0x9000]> (replicate 32 (mkFile 0 0 NULL))).
Definition demo_fs : fs sim_sv := demo_fs_with demo_inode 500.

Lemma demo_disk_wf : disks_wf demo_disk.
Proof. unfold demo_disk. do 5 (apply write_secs_wf; [|reflexivity]). intros dev l. reflexivity. Qed.
Lemma demo_fs_at n pos k : (k ≤ 10)%nat → fs_at demo_disk demo_live k (demo_fs_with n pos).
Proof.
  intros Hk. split; [|by right]. split_and!; [apply demo_disk_wf|done|done| |done|done].
  intros b pf. unfold demo_live. rewrite lookup_singleton_Some. intros [<- _]. done.
Qed.
Lemma demo_table : table_ok demo_part.
Proof. split_and!; vm_compute; discriminate || reflexivity. Qed.
Lemma demo_part_ok : part_ok demo_part.
Proof.
  split; [apply demo_table|split_and!; vm_compute; discriminate|vm_compute; discriminate..| |vm_compute; reflexivity|vm_compute; reflexivity|vm_compute; discriminate].
  split; [|vm_compute; split; discriminate|vm_compute; reflexivity]. apply Forall_cons. split; [done|]. by apply Forall_replicate.
Qed.
Lemma demo_inode_wf n : inode_wf (mkINode n 600 1 false ([2661; 2662] ++ replicate 11 0)) ↔ is_u32 n.
Proof.
  split; [by intros [? _ _ _]|]. intros Hn. split; [done|done| |done].
  cbn. repeat (apply Forall_cons; split; [done|]). by apply Forall_nil.
Qed.

(** Inode 13, in two sectors, is written to its slot. *)
Lemma inode_sync_correct_witness :
  ∃ s' c', inode_sync (mkINode 13 600 1 false ([2661; 2662] ++ replicate 11 0)) (replicate 1024 0) demo_fs = Ok ((), s') ∧ served c' demo_live 0 demo_fs s'
    ∧ disk_inode c' demo_part 13 = pure_inode (mkINode 13 600 1 false ([2661; 2662] ++ replicate 11 0))
    ∧ (∀ no, 0 ≤ no → no ≠ 13 → disk_inode c' demo_part no = disk_inode demo_disk demo_part no)
    ∧ ∀ dev x, (dev = 1 → x < inode_addr demo_part 13 ∨ inode_addr demo_part 13 + 76 ≤ x) → dbyte c' dev x = dbyte demo_disk dev x.
Proof.
  apply (inode_sync_correct demo_disk demo_live 0 demo_fs (mkINode 13 600 1 false ([2661; 2662] ++ replicate 11 0)) (replicate 1024 0)).
  - apply demo_fs_at; lia.
  - apply demo_table.
  - by apply demo_inode_wf.
  - done.
  - done.
Defined.

(** Inode 256 goes to the slot of inode 0. *)
Lemma inode_sync_truncates_witness :
  ∃ s' c', inode_sync (mkINode 256 600 1 false ([2661; 2662] ++ replicate 11 0)) (replicate 1024 0) demo_fs = Ok ((), s') ∧ served c' demo_live 0 demo_fs s'
    ∧ disk_inode c' demo_part 0 = pure_inode (mkINode 256 600 1 false ([2661; 2662] ++ replicate 11 0))
    ∧ disk_inode c' demo_part 256 = disk_inode demo_disk demo_part 256.
Proof.
  apply (inode_sync_truncates demo_disk demo_live 0 demo_fs (mkINode 256 600 1 false ([2661; 2662] ++ replicate 11 0)) (replicate 1024 0)).
  - apply demo_fs_at; lia.
  - apply demo_table.
  - by apply demo_inode_wf.
  - done.
  - done.
Defined.

Lemma demo_open_ok n pos : inode_wf n → 1 ≤ i_open_cnts n < 2 ^ 32 → open_ok demo_live (demo_fs_with n pos).
Proof.
  intros Hn Hc. split.
  - apply NoDup_singleton.
  - intros a ->%list_elem_of_singleton. by exists n.
  - intros a b m1 m2 ->%list_elem_of_singleton ->%list_elem_of_singleton. done.
Qed.

Lemma zero_inode_wf : inode_wf (mkINode 0 0 0 false (replicate 13 0)).
Proof. split; [done|done| |done]. by apply Forall_replicate. Qed.

(** Opening inode 0, which is on the disk only, and closing it again. *)
Lemma inode_open_close_witness :
  ∃ a s1 L1 s2 L2, inode_open 0 demo_fs = Ok (a, s1) ∧ fs_at demo_disk L1 2 s1 ∧ open_ok L1 s1 ∧ open_result demo_disk demo_live L1 demo_fs s1 0 a
    ∧ inode_close a s1 = Ok ((), s2) ∧ fs_at demo_disk L2 2 s2 ∧ inode_change demo_fs s2 ∧ L2 = demo_live
    ∧ open_inodes (cur_part s2) = open_inodes demo_part
    ∧ ∀ b, b ∈ open_inodes demo_part → inodes s2 !! b = inodes demo_fs !! b.
Proof.
  apply (inode_open_close demo_disk demo_live 2 demo_fs 0).
  - apply demo_fs_at; lia.
  - apply demo_table.
  - apply demo_open_ok; [by apply (demo_inode_wf 1)|done].
  - done.
  - intros a n (Ha%list_elem_of_singleton & Hn & Hno). subst a. vm_compute in Hn. injection Hn as <-. discriminate.
  - intros _. assert (disk_inode demo_disk demo_part 0 = mkINode 0 0 0 false (replicate 13 0)) as E by (vm_compute; reflexivity).
    change (cur_part demo_fs) with demo_part. rewrite E. split; [reflexivity|apply zero_inode_wf].
Defined.

Lemma demo_file_at : file_at demo_disk demo_fs 3 (mkFile 500 O_RDWR 0x9000) demo_inode.
Proof.
  split; [reflexivity|reflexivity|reflexivity|vm_compute; split; discriminate|vm_compute; discriminate| |vm_compute; intros H; by destruct H].
  intros i Hi Hs. cbn in Hs. assert (i = 0 ∨ i = 1) as [->| ->] by lia; vm_compute; split; discriminate.
Qed.

(** 200 bytes asked for at position 500 of a file of 600: 12 of the first
    block and 88 of the second. *)
Lemma file_read_correct_witness :
  ∃ s', file_read 3 200 demo_fs = Ok ((replicate 12 65 ++ replicate 88 66, 100), s') ∧ served demo_disk demo_live 3 (at_pos 3 600 demo_fs) s'.
Proof.
  destruct (file_read_correct demo_disk demo_live 3 demo_fs 3 (mkFile 500 O_RDWR 0x9000) demo_inode 200) as [H _].
  - apply demo_fs_at; lia.
  - apply demo_file_at.
  - done.
  - destruct H as (s' & H1 & H2); [reflexivity|by left|]. exists s'. split; [|exact H2].
    rewrite H1. vm_compute. reflexivity.
Defined.

Definition demo_big_inode : INode := mkINode 1 71200 1 false (replicate 12 2662 ++ [2663]).

(** The last 20 bytes of a file of 71200. *)
Lemma file_read_last_block_panics_witness : file_read 3 20 (demo_fs_with demo_big_inode 71180) = Panic.
Proof.
  apply (file_read_last_block_panics demo_disk demo_live 3 (demo_fs_with demo_big_inode 71180) 3 (mkFile 71180 O_RDWR 0x9000) demo_big_inode 20).
  - apply demo_fs_at; lia.
  - split; [reflexivity|reflexivity|reflexivity|vm_compute; split; discriminate|vm_compute; discriminate| |intros _; split; vm_compute; [discriminate|split; discriminate]].
    intros i Hi Hs. assert (((0 <=? blk demo_disk 1 demo_big_inode i) && (blk demo_disk 1 demo_big_inode i <=? max_lba)) = true) as H; [|apply andb_true_iff in H as [H1%Z.leb_le H2%Z.leb_le]; done].
    apply (below (λ i, (0 <=? blk demo_disk 1 demo_big_inode i) && (blk demo_disk 1 demo_big_inode i <=? max_lba)) 140).
    + vm_compute. reflexivity.
    + cbn in Hs. lia.
  - done.
  - done.
  - done.
Defined.

Lemma demo_file_inv : file_inv demo_disk demo_part demo_inode [2661; 2662] 0.
Proof.
  split.
  - split; [apply NoDup_cons; split; [by intros ?%list_elem_of_singleton|apply NoDup_singleton]|].
    intros b [Hb|[_ ?]]; [|done]. apply elem_of_cons in Hb as [->|Hb]; [|apply list_elem_of_singleton in Hb as ->]; (split; [vm_compute; split; discriminate || reflexivity|vm_compute; reflexivity]).
  - split; [reflexivity| |reflexivity]. intros i Hi. apply Z.eqb_eq.
    apply (below (λ i, (i_sectors demo_inode)@@i =? (if i <? len [2661; 2662] then [2661; 2662]@@i else 0)) 12); [vm_compute; reflexivity|lia].
  - intros i Hi. change (len [2661; 2662]) with 2 in Hi. assert (i = 0 ∨ i = 1) as [->| ->] by lia; reflexivity.
  - split; [intros _; vm_compute; discriminate|done].
  - by right.
  - vm_compute; discriminate.
Qed.
Lemma demo_writable : writable demo_disk demo_fs 3 (mkFile 500 O_RDWR 0x9000) demo_inode [2661; 2662] 0.
Proof.
  split; [reflexivity|reflexivity|apply demo_part_ok|apply demo_file_inv|vm_compute; split; [discriminate|reflexivity]|vm_compute; reflexivity..].
Qed.

(** 6000 bytes appended to a file of 600: the table is created. *)
Lemma file_write_correct_witness :
  ∃ r s', file_write 3 (replicate (Z.to_nat 6000) 67) 6000 demo_fs = Ok (r, s')
     ∧ (r = -1 ∧ is_full (cur_part s')
        ∨ r = 6000 ∧ ∃ c' n' h T', appended demo_disk demo_live 3 demo_fs 3 (mkFile 500 O_RDWR 0x9000) demo_inode [2661; 2662] 0
            (take (Z.to_nat 6000) (replicate (Z.to_nat 6000) 67)) s' c' n' h T').
Proof.
  apply (file_write_correct demo_disk demo_live 3 demo_fs 3 (mkFile 500 O_RDWR 0x9000) demo_inode [2661; 2662] 0 (replicate (Z.to_nat 6000) 67) 6000).
  - apply demo_fs_at; lia.
  - apply demo_writable.
  - unfold len. rewrite length_replicate. lia.
  - done.
  - done.
Defined.

(** 71080 more bytes make 71680. *)
Lemma file_write_full_size_panics_witness : file_write 3 (replicate (Z.to_nat 71080) 67) 71080 demo_fs = Panic.
Proof.
  apply (file_write_full_size_panics demo_disk demo_live 3 demo_fs 3 (mkFile 500 O_RDWR 0x9000) demo_inode [2661; 2662] 0).
  - apply demo_fs_at; lia.
  - apply demo_writable.
  - unfold len. rewrite length_replicate. lia.
  - done.
  - done.
Defined.

(** ** Directories *)
Definition demo_dir : INode := mkINode 1 48 1 false (2664 :: replicate 12 0).
Definition demo_dir_fs : fs sim_sv := demo_fs_with demo_dir 0.
Lemma demo_dir_blocks (b : Z) : dir_blocks demo_disk 1 (mkINode 1 48 1 false (b :: replicate 12 0)) = b :: replicate 139 0.
Proof. reflexivity. Qed.
Lemma one_block (b x : Z) : x ∈ b :: replicate 139 0 → x ≠ 0 → x = b.
Proof. intros [->|[-> _]%elem_of_replicate]%elem_of_cons Hb; done. Qed.
Lemma demo_dir_wf : dir_wf demo_disk demo_part demo_dir.
Proof.
  split; [reflexivity|vm_compute; split; discriminate| |apply entries_okb; vm_compute; reflexivity|reflexivity].
  intros b Hb Hn. rewrite (one_block _ b Hb Hn). vm_compute; split; discriminate.
Qed.
Lemma demo_dir_owns b : in_data demo_part b → block_used demo_part b = true → dir_owns demo_disk demo_part (mkINode 1 48 1 false (b :: replicate 12 0)).
Proof.
  intros Hd Hu. assert (b ≠ 0) as Hb by (intros ->; vm_compute in Hd; by destruct Hd as [[] _]). split.
  - change (my_dev demo_part) with 1. rewrite demo_dir_blocks. rewrite filter_cons_False by by vm_compute. rewrite filter_cons_True by done.
    replace (filter (λ b, b ≠ 0) (replicate 139 0)) with (@nil Z) by reflexivity. apply NoDup_singleton.
  - intros x [->|Hin]%elem_of_cons Hn; [done|]. by rewrite (one_block _ x Hin Hn).
Qed.

(** The entry [..] of a directory. *)
Lemma search_dir_entry_correct_witness :
  ∃ s', search_dir_entry 0x8000 [46; 46; 0] demo_dir_fs = Ok (Some (drop 24 (dot_entries 1 0)), s') ∧ served demo_disk demo_live 3 demo_dir_fs s'.
Proof.
  destruct (search_dir_entry_correct demo_disk demo_live 3 demo_dir_fs 0x8000 (mkDir 0x9000 0 (replicate 512 0)) demo_dir [46; 46; 0] [46; 46]) as (s' & E & Hs).
  - apply demo_fs_at; lia.
  - reflexivity.
  - reflexivity.
  - apply demo_dir_wf.
  - exists [], []. split_and!; [reflexivity|reflexivity|]. repeat (apply Forall_cons; split; [done|]). by apply Forall_nil.
  - exists s'. split; [|exact Hs]. rewrite E. vm_compute. reflexivity.
Defined.

Lemma demo_room : dir_room demo_disk demo_part demo_dir [] 2664 (replicate 11 0) 2 (replicate 24 0).
Proof. split; [reflexivity|by apply Forall_nil|discriminate|vm_compute; reflexivity]. Qed.

(** A third entry. *)
Lemma sync_dir_entry_correct_witness :
  ∃ s' c', sync_dir_entry 0x8000 (demo_entry 98 9) (replicate 1024 0) demo_dir_fs = Ok (true, s') ∧ fs_at c' demo_live 3 s'
    ∧ inodes s' = <[0x9000 := set_i_size 72 demo_dir]> (inodes demo_dir_fs) ∧ cur_part s' = demo_part
    ∧ list_find (λ e, unused e = true) (dir_entries demo_disk 1 demo_dir) = Some (2%nat, replicate 24 0)
    ∧ dir_entries c' 1 (set_i_size 72 demo_dir) = <[2%nat := demo_entry 98 9]> (dir_entries demo_disk 1 demo_dir)
    ∧ ∀ dev l, (dev = 1 → l ≠ 2664) → c' dev l = demo_disk dev l.
Proof.
  apply (sync_dir_entry_correct demo_disk demo_live 3 demo_dir_fs 0x8000 (mkDir 0x9000 0 (replicate 512 0)) demo_dir (demo_entry 98 9) (replicate 1024 0) [] 2664 (replicate 11 0) 2 (replicate 24 0)).
  - apply demo_fs_at; lia.
  - reflexivity.
  - reflexivity.
  - apply demo_dir_wf.
  - apply demo_dir_owns; [vm_compute; split; [discriminate|reflexivity]|vm_compute; reflexivity].
  - reflexivity.
  - reflexivity.
  - reflexivity.
  - apply demo_room.
Defined.

(** A file named [b] is created and found. *)
Lemma dir_add_search_witness :
  ∃ p_de s1 s2, create_dir_entry [98; 0] 0 9 FT_REGULAR (replicate 24 0) = Ok p_de ∧ sync_dir_entry 0x8000 p_de (replicate 1024 0) demo_dir_fs = Ok (true, s1)
    ∧ search_dir_entry 0x8000 [98; 0] s1 = Ok (Some p_de, s2) ∧ de_i_no p_de 0 = 9 ∧ de_f_type p_de 0 = FT_REGULAR.
Proof.
  apply (dir_add_search demo_disk demo_live 3 demo_dir_fs 0x8000 (mkDir 0x9000 0 (replicate 512 0)) demo_dir [98; 0] [98] 9 FT_REGULAR (replicate 1024 0) [] 2664 (replicate 11 0) 2 (replicate 24 0)).
  - apply demo_fs_at; lia.
  - reflexivity.
  - reflexivity.
  - apply demo_dir_wf.
  - apply demo_dir_owns; [vm_compute; split; [discriminate|reflexivity]|vm_compute; reflexivity].
  - reflexivity.
  - reflexivity.
  - apply demo_room.
  - exists [], []. split_and!; [reflexivity|reflexivity|]. apply Forall_cons. split; [done|by apply Forall_nil].
  - reflexivity.
  - vm_compute. reflexivity.
  - done.
  - done.
Defined.

(** A name of 16 characters. *)
Lemma long_name_lost_witness :
  ∃ p_de, create_dir_entry (replicate 16 97 ++ [0]) 0 9 FT_REGULAR (replicate 24 0) = Ok p_de ∧ len p_de = 24 ∧ named (replicate 16 97) p_de = false.
Proof.
  apply (long_name_lost (replicate 16 97 ++ [0]) (replicate 16 97) 9 FT_REGULAR).
  - exists [], []. split_and!; [reflexivity|reflexivity|by apply Forall_replicate].
  - reflexivity.
  - discriminate.
Defined.

(** The directory whose only block is full. *)
Definition demo_full_dir : INode := mkINode 1 504 1 false (2665 :: replicate 12 0).
Lemma demo_full_wf : dir_wf demo_disk demo_part demo_full_dir.
Proof.
  split; [reflexivity|vm_compute; split; discriminate| |apply entries_okb; vm_compute; reflexivity|reflexivity].
  intros b Hb Hn. rewrite (one_block _ b Hb Hn). vm_compute; split; discriminate.
Qed.
Lemma all_used l : forallb (λ e, negb (unused e)) l = true → Forall (λ e, unused e = false) l.
Proof. rewrite forallb_forall. intros H. apply Forall_forall. intros e He%list_elem_of_In. by apply negb_true_iff, H. Qed.
Lemma sync_dir_entry_duplicates_witness :
  ∃ r s', sync_dir_entry 0x8000 (demo_entry 98 9) (replicate 1024 0) (demo_fs_with demo_full_dir 0) = Ok (r, s')
    ∧ (r = false ∧ is_full demo_part
       ∨ r = true ∧ ∃ c' n' b, dir_extended demo_disk demo_live 3 (demo_fs_with demo_full_dir 0) (mkDir 0x9000 0 (replicate 512 0)) demo_full_dir (demo_entry 98 9) [2665] s' c' n' b).
Proof.
  apply (sync_dir_entry_duplicates demo_disk demo_live 3 (demo_fs_with demo_full_dir 0) 0x8000 (mkDir 0x9000 0 (replicate 512 0)) demo_full_dir (demo_entry 98 9) (replicate 1024 0) [2665] (replicate 10 0)).
  - apply demo_fs_at; lia.
  - apply demo_part_ok.
  - reflexivity.
  - reflexivity.
  - apply demo_full_wf.
  - destruct (demo_dir_owns 2665) as [H1 H2]; [vm_compute; split; [discriminate|reflexivity]|vm_compute; reflexivity|]. split; [exact H1|exact H2].
  - reflexivity.
  - reflexivity.
  - reflexivity.
  - reflexivity.
  - reflexivity.
  - apply Forall_cons. split; [|by apply Forall_nil]. split_and!; [discriminate|vm_compute; discriminate|vm_compute; discriminate|].
    apply all_used. vm_compute. reflexivity.
Defined.

Lemma dir_read_enumerates_witness :
  ∃ s', read_all 3 0x8000 demo_dir_fs = Ok ([take 24 (dot_entries 1 0); drop 24 (dot_entries 1 0)], s') ∧ fs_at demo_disk demo_live 3 s'.
Proof.
  destruct (dir_read_enumerates demo_disk demo_live 3 demo_dir_fs 0x8000 demo_dir) as (s' & E & Hs).
  - apply demo_fs_at; lia.
  - split; [by exists (mkDir 0x9000 0 (replicate 512 0))|apply demo_dir_wf|vm_compute; reflexivity].
  - exists s'. split; [|exact Hs]. replace (used_entries _ _ _) with [take 24 (dot_entries 1 0); drop 24 (dot_entries 1 0)] in E by (vm_compute; reflexivity). exact E.
Defined.

(** ** Formatting and mounting *)
Definition demo_pd : PartDesc := mkPD [115; 100; 98; 0] default_part 2048 1000 1.
Definition blank_fs : fs sim_sv := mkFs (mkSimSv zero_disk ∅ 0xa000 10) [] demo_me demo_part ∅ ∅ 0x100 (replicate 32 (mkFile 0 0 NULL)).

Lemma demo_pd_fits : part_fits demo_pd.
Proof. split; [vm_compute; discriminate..|by right]. Qed.
Lemma sim_can_malloc pf size n : 0 < size → can_malloc pf size (S n) n.
Proof.
  intros Hs c L x (H1 & H2 & H3 & H4 & H5 & H6). cbn [sv_malloc sim_services]. unfold sim_malloc. destruct (ss_room x) as [|r] eqn:E; [lia|].
  exists (ss_next x). eexists. assert (L !! ss_next x = None) as Hn.
  { destruct (L !! ss_next x) as [q|] eqn:El; [|done]. destruct (H4 _ _ El). lia. }
  split_and!; [reflexivity|done|unfold NULL; lia|]. split_and!; cbn; [done|done|by rewrite H3| |lia|lia].
  intros b q. destruct (decide (b = ss_next x)) as [->|Hne]; [intros _; lia|]. rewrite lookup_insert_ne by done. intros Hb. destruct (H4 _ _ Hb). lia.
Qed.
Lemma blank_at k : (k ≤ 10)%nat → sv_at zero_disk ∅ k (sv blank_fs).
Proof. intros Hk. split_and!; [by intros dev l|done|done|by intros b pf ?%lookup_empty_Some|done|done]. Qed.

Lemma partition_format_correct_witness :
  ∃ s' c', partition_format demo_pd (replicate 460 0) blank_fs = Ok ((), s') ∧ quiet blank_fs c' ∅ 2 s' ∧ formatted c' demo_pd
    ∧ ∀ dev l, (dev = 1 → l < 2048 ∨ 2048 + 1000 ≤ l) → c' dev l = zero_disk dev l.
Proof.
  apply (partition_format_correct zero_disk ∅ 3 2 blank_fs demo_pd (replicate 460 0)).
  - apply blank_at. lia.
  - apply demo_pd_fits.
  - reflexivity.
  - apply sim_can_malloc. lia.
Defined.

(** 388 blocks. *)
Definition demo_bitmap : list Z := 1 :: replicate 47 0 ++ [224] ++ replicate 463 255.
Definition demo_formatted : disks := format_disk zero_disk demo_pd (replicate 460 0) demo_bitmap.
Lemma demo_formatted_ok : formatted demo_formatted demo_pd.
Proof.
  apply (format_disk_ok zero_disk demo_pd (replicate 460 0) demo_bitmap).
  - apply demo_pd_fits.
  - by intros dev l.
  - reflexivity.
  - reflexivity.
  - apply Forall_cons. split; [done|]. apply Forall_app. split; [by apply Forall_replicate|]. apply Forall_cons. split; [done|by apply Forall_replicate].
  - intros i Hi. apply eqb_prop, (below (λ i, eqb (Z.testbit demo_bitmap@@(i / 8) (i mod 8)) (bitmap_bit (the_blocks demo_pd) i)) (Z.to_nat 4096)).
    + vm_compute. reflexivity.
    + rewrite Z2Nat.id by lia. exact Hi.
Qed.
Lemma format_marks_past_end_free_witness :
  Z.testbit (read_secs demo_formatted 1 2050 1)@@(388 / 8) (388 mod 8) = false ∧ (2660 + 388 = 2048 + 1000 ∨ 2660 + 388 = 2048 + 1000 - 1).
Proof.
  apply (format_marks_past_end_free demo_formatted demo_pd).
  - apply demo_pd_fits.
  - apply demo_formatted_ok.
  - discriminate.
Defined.

Definition formatted_fs : fs sim_sv := set_sv (mkSimSv demo_formatted ∅ 0xa000 10) blank_fs.
Lemma demo_formatted_wf : disks_wf demo_formatted.
Proof.
  unfold demo_formatted, format_disk. apply write_secs_wf; [|reflexivity]. apply write_secs_wf; [|vm_compute; reflexivity]. apply write_secs_wf; [|reflexivity].
  apply write_secs_wf; [|reflexivity]. apply write_secs_wf; [|reflexivity]. by intros dev l.
Qed.
(** Mounting [sdb1]. *)
Lemma mount_partition_correct_witness :
  ∃ s' L', mount_partition demo_pd default_part [0] [0] formatted_fs = Ok (true, s') ∧ fs_at demo_formatted L' 0 s'
    ∧ cur_part s' = mounted demo_formatted demo_pd [0] [0] ∧ fs_ready demo_formatted (cur_part s') (root_inode demo_pd).
Proof.
  apply (mount_partition_correct demo_formatted ∅ formatted_fs demo_pd [115; 100; 98; 49] default_part [115; 100; 98; 49] [0] [0]).
  - split_and!; [apply demo_formatted_wf|done|done|by intros b pf ?%lookup_empty_Some|done|cbn; lia].
  - apply demo_pd_fits.
  - apply demo_formatted_ok.
  - exists [], [0; 0; 0]. split_and!; [reflexivity|reflexivity|]. repeat (apply Forall_cons; split; [done|]). by apply Forall_nil.
  - exists [], [0; 0; 0]. split_and!; [reflexivity|reflexivity|]. repeat (apply Forall_cons; split; [done|]). by apply Forall_nil.
  - apply Forall_cons. split; [done|by apply Forall_nil].
  - reflexivity.
  - vm_compute. discriminate.
  - apply sim_can_malloc. reflexivity.
Defined.
