(* ===== verification/Shell.v ===== *)
(** * shell/shell.c, shell/buildin_cmd.c: the shell

    Editing and splitting the command line, path names without [.] and [..],
    and the built-in commands over the calls of Fs.  The user-level wrappers of
    lib/user/loscall.c pass their arguments on, so the model calls the [sys_]
    functions.  [cmd_line], [final_path] and [cwd_cache] are buffers of the
    sizes the code gives them; an element of [argv] is a position in
    [cmd_line], NULL is [None]. *)
From Stdlib Require Import String.
From S2P Require Import Prelude CString Bitmap Machine Ide DiskBytes FsBase Inode Dir File Path Fs.

Definition CMD_LEN : Z := 128.
Definition MAX_ARG_NR : Z := 16.
Definition str_slash : list Z := [47; 0].

(** ** wash_path *)
Definition put (buf : list Z) (src : list Z) : outcome (list Z) := '(buf, _) ← strcat buf (Some 0) src (Some 0); Ok buf.

(** One component of the path. *)
Definition wash_name (name new : list Z) : outcome (list Z) :=
  r ← strcmp str_dotdot (Some 0) name (Some 0);
  if r =? 0 then
    slash_ptr ← strrchr new (Some 0) slash;
    match slash_ptr with
    | None => Fault
    | Some q => if negb (q =? 0) then wr new q 0 else wr new (q + 1) 0
    end
  else
    r ← strcmp str_dot (Some 0) name (Some 0);
    if negb (r =? 0) then
      r ← strcmp new (Some 0) str_slash (Some 0);
      new ← (if negb (r =? 0) then put new str_slash else Ok new);
      put new name
    else Ok new.
Fixpoint wash_loop (fuel : nat) (old : list Z) (sub_path : ptr) (name new : list Z) : outcome (list Z) :=
  match fuel with
  | O => Spin
  | S fuel =>
      n0 ← rd name 0;
      if negb (n0 =? 0) then
        new ← wash_name name new;
        name ← memset name (Some 0) 0 MAX_FILE_NAME_LEN;
        match sub_path with
        | Some p => '(sub_path, name) ← path_parse old p name; wash_loop fuel old sub_path name new
        | None => wash_loop fuel old None name new
        end
      else Ok new
  end.
Definition wash_path (old_abs_path new_abs_path : list Z) : outcome (list Z) :=
  c ← rd old_abs_path 0;
  _ ← ASSERT (c =? slash);
  '(sub_path, name) ← path_parse old_abs_path 0 (replicate 16 0);
  n0 ← rd name 0;
  if n0 =? 0 then
    new ← wr new_abs_path 0 slash; wr new 1 0
  else
    new ← wr new_abs_path 0 0;
    new ← put new str_slash;
    wash_loop (S (walk_fuel old_abs_path)) old_abs_path sub_path name new.

(** ** cmd_parse *)

(** The loop over the separators before a word, and the one over a word. *)
Fixpoint skip_token (fuel : nat) (buf : list Z) (next token : Z) : outcome Z :=
  match fuel with
  | O => Spin
  | S fuel => c ← rd buf next; if i8 c =? token then skip_token fuel buf (next + 1) token else Ok next
  end.
Fixpoint skip_word (fuel : nat) (buf : list Z) (next token : Z) : outcome Z :=
  match fuel with
  | O => Spin
  | S fuel =>
      c ← rd buf next;
      if negb (c =? 0) && negb (i8 c =? token) then skip_word fuel buf (next + 1) token else Ok next
  end.
Fixpoint parse_loop (fuel : nat) (buf : list Z) (next token : Z) (argv : list ptr) (argc : Z) : outcome (list Z * list ptr * Z) :=
  match fuel with
  | O => Spin
  | S fuel =>
      c ← rd buf next;
      if negb (c =? 0) then
        next ← skip_token (walk_fuel buf) buf next token;
        c ← rd buf next;
        if c =? 0 then Ok (buf, argv, argc)
        else
          argv ← wr argv argc (Some next);
          next ← skip_word (walk_fuel buf) buf next token;
          c ← rd buf next;
          '(buf, next) ← (if negb (c =? 0) then buf ← wr buf next 0; Ok (buf, next + 1) else Ok (buf, next));
          if MAX_ARG_NR <? argc then Ok (buf, argv, -1)
          else parse_loop fuel buf next token argv (argc + 1)
      else Ok (buf, argv, argc)
  end.
Definition cmd_parse (cmd_str : list Z) (argv : list ptr) (token : Z) : outcome (list Z * list ptr * Z) :=
  let argv := replicate (Z.to_nat MAX_ARG_NR) None ++ drop (Z.to_nat MAX_ARG_NR) argv in
  parse_loop (walk_fuel cmd_str) cmd_str 0 token argv 0.

(** ** readline *)

(** What the terminal shows. *)
Inductive tty := Put (c : Z) | Clear | Prompt | Str (s : list Z) | TooLong.

(** The loop that rubs out the line. *)
Fixpoint rub_out (fuel : nat) (buf : list Z) (pos : Z) (out : list tty) : outcome (list Z * Z * list tty) :=
  match fuel with
  | O => Spin
  | S fuel => if negb (pos =? 0) then buf ← wr buf pos 0; rub_out fuel buf (pos - 1) (out ++ [Put 8]) else Ok (buf, pos, out)
  end.

(** [keys] are the characters typed; without one the reader sleeps.  The
    result is the buffer, the keys left and what was shown.  A key goes to
    [buf] before the position is compared with [count]. *)
Fixpoint readline_loop (keys : list Z) (buf : list Z) (pos count : Z) (out : list tty) : outcome (list Z * list Z * list tty) :=
  match keys with
  | [] => Blocked
  | k :: keys =>
      buf ← wr buf pos k;
      if pos <? count then
        if (k =? 10) || (k =? 13) then buf ← wr buf pos 0; Ok (buf, keys, out ++ [Put 10])
        else if k =? 8 then
          b0 ← rd buf 0;
          if negb (b0 =? 8) then readline_loop keys buf (pos - 1) count (out ++ [Put 8])
          else readline_loop keys buf pos count out
        else if k =? 11 then
          buf ← wr buf pos 0;
          l ← strlen buf (Some 0);
          readline_loop keys buf pos count (out ++ [Clear; Prompt; Str (take (Z.to_nat l) buf)])
        else if k =? 20 then
          '(buf, pos, out) ← rub_out (S (Z.to_nat pos)) buf pos out;
          readline_loop keys buf pos count out
        else readline_loop keys buf (pos + 1) count (out ++ [Put k])
      else Ok (buf, keys, out ++ [TooLong])
  end.
Definition readline (keys : list Z) (buf : list Z) (count : Z) : outcome (list Z * list Z * list tty) :=
  _ ← ASSERT (0 <? count); readline_loop keys buf 0 count [].

(** [str2int] of buildin_cmd.c on 32-bit integers. *)
Fixpoint str2int_loop (fuel : nat) (buf : list Z) (p count maxLen asw : Z) : outcome Z :=
  match fuel with
  | O => Spin
  | S fuel =>
      c ← rd buf (p + count);
      if negb (c =? 10) && negb (c =? 0) && (count <? maxLen) then
        str2int_loop fuel buf p (count + 1) maxLen (i32 (i32 (asw * 10) + (i8 c - 48)))
      else Ok asw
  end.
Definition str2int (buf : list Z) (p maxLen : Z) : outcome Z :=
  c ← rd buf p;
  let op := if c =? 45 then -1 else 1 in
  let count := if c =? 45 then 1 else 0 in
  asw ← str2int_loop (walk_fuel buf) buf p count maxLen 0;
  Ok (i32 (op * asw)).
