(* ===== verification/ShellSpec.v ===== *)
(** * The shell: command lines and paths

    [readline] is a line editor, [cmd_parse] splits into words, [wash_path]
    resolves [.] and [..]. *)
From S2P Require Import Prelude CString DiskBytes FsBase Dir Path Fs Shell.

(** ** Paths *)
Definition dot : list Z := [46].
Definition dotdot : list Z := [46; 46].
(** The reference: components applied to the path so far. *)
Definition enter (acc : list (list Z)) (c : list Z) : list (list Z) :=
  if decide (c = dotdot) then removelast acc else if decide (c = dot) then acc else acc ++ [c].
Definition resolve (cs : list (list Z)) : list (list Z) := foldl enter [] cs.
Definition slashed (cs : list (list Z)) : list Z := concat (map (cons slash) cs).
Definition path_str (cs : list (list Z)) : list Z := if decide (cs = []) then [slash] else slashed cs.

Definition good_name (c : list Z) : Prop := c ≠ [] ∧ len c ≤ 15 ∧ Forall (λ x, 0 < x < 256 ∧ x ≠ slash) c.

Lemma snoc_case {A} (l : list A) : l = [] ∨ ∃ l' x, l = l' ++ [x].
Proof. destruct l as [|x l] using rev_ind; eauto. Qed.
Lemma slashed_snoc l c : slashed (l ++ [c]) = slashed l ++ slash :: c.
Proof. unfold slashed. rewrite map_app, concat_app. simpl. by rewrite app_nil_r. Qed.
Lemma path_str_snoc l c : path_str (l ++ [c]) = slashed l ++ slash :: c.
Proof. unfold path_str. rewrite decide_False by by destruct l. apply slashed_snoc. Qed.
Lemma path_str_slashed l : l ≠ [] → path_str l = slashed l.
Proof. intros H. unfold path_str. by rewrite decide_False. Qed.
Lemma good_chars c : good_name c → Forall (λ x, 0 < x < 256) c.
Proof. intros (_ & _ & H). eapply Forall_impl; [exact H|]. simpl. tauto. Qed.
Lemma slashed_chars cs : Forall good_name cs → Forall (λ x, 0 < x < 256) (slashed cs).
Proof.
  induction 1 as [|c cs Hc _ IH]; [by apply Forall_nil|]. unfold slashed. cbn [map concat]. apply Forall_app. split; [|exact IH].
  apply Forall_cons. split; [done|by apply good_chars].
Qed.
Lemma path_str_chars cs : Forall good_name cs → Forall (λ x, 0 < x < 256) (path_str cs).
Proof. intros H. unfold path_str. case_decide; [apply Forall_cons; split; [done|by apply Forall_nil]|by apply slashed_chars]. Qed.
Lemma last_pos_snoc ch s1 s2 : ch ∉ s2 → last_pos ch (s1 ++ ch :: s2) = Some (len s1).
Proof.
  intros H. assert (∀ s, ch ∉ s → last_pos ch s = None) as Hn.
  { induction s as [|c s IH]; [done|]. intros Hs. cbn. rewrite IH by set_solver. destruct (Z.eqb_spec c ch); [set_solver|done]. }
  induction s1 as [|c s1 IH]; cbn; [by rewrite Hn, Z.eqb_refl|]. rewrite IH. f_equal. unfold len. cbn. lia.
Qed.
Lemma good_no_slash c : good_name c → slash ∉ c.
Proof. intros (_ & _ & H) Hin. rewrite Forall_forall in H. by destruct (H _ Hin). Qed.

(** The buffer holds a path, and keeps its length. *)
Definition holds (new : list Z) (cs : list (list Z)) (N : Z) : Prop := len new = N ∧ ∃ rest, new = path_str cs ++ 0 :: rest.
Lemma holds_cstr new cs N : Forall good_name cs → holds new cs N → cstr new 0 (path_str cs).
Proof. intros Hg [_ [rest ->]]. exists [], rest. split_and!; [done|done|by apply path_str_chars]. Qed.

Lemma put_ok d src p s rest : cstr src 0 s → Forall (λ x, 0 < x < 256) d → (length s ≤ length rest)%nat →
  p = d ++ 0 :: rest → put p src = Ok (d ++ s ++ 0 :: drop (length s) rest).
Proof.
  intros Hs Hd Hl ->. unfold put. rewrite <- (take_drop (length s) rest) at 1.
  pose proof (strcat_ok [] d (take (length s) rest) (drop (length s) rest) src 0 s Hs Hd ltac:(rewrite length_take; lia)) as H.
  cbn [app] in H. change (len (@nil Z)) with 0 in H. rewrite H. cbn. by rewrite <- app_assoc.
Qed.

Lemma slash_cstr : cstr str_slash 0 [slash].
Proof. exists [], []. split_and!; [done|done|]. apply Forall_cons. split; [done|by apply Forall_nil]. Qed.
Lemma dot_cstr : cstr str_dot 0 dot.
Proof. exists [], []. split_and!; [done|done|]. apply Forall_cons. split; [done|by apply Forall_nil]. Qed.
Lemma dotdot_cstr : cstr str_dotdot 0 dotdot.
Proof. exists [], []. split_and!; [done|done|]. do 2 (apply Forall_cons; split; [done|]). by apply Forall_nil. Qed.

(** Cutting a buffer at a position of its string. *)
Lemma cut_ok d c rest k : k = len d → wr (d ++ c :: rest) k 0 = Ok (d ++ 0 :: rest).
Proof. intros ->. by rewrite wr_mid. Qed.

Lemma wash_up new cs N : holds new cs N → Forall good_name cs → 2 ≤ N →
  ∃ new', (slash_ptr ← strrchr new (Some 0) slash;
    match slash_ptr with None => Fault | Some q => if negb (q =? 0) then wr new q 0 else wr new (q + 1) 0 end) = Ok new' ∧ holds new' (removelast cs) N.
Proof.
  intros [Hl [rest E]] Hg HN. assert (∃ l c, path_str cs = slashed l ++ slash :: c ∧ (slash ∉ c) ∧ removelast cs = l) as (l & c & Ep & Hc & Er).
  { destruct (snoc_case cs) as [->|(l & c & ->)]; [exists [], []; split_and!; [done|set_solver|done]|].
    exists l, c. apply Forall_app in Hg as [_ [Hc _]%Forall_cons]. split_and!; [apply path_str_snoc|by apply good_no_slash|apply removelast_last]. }
  assert (strrchr new (Some 0) slash = Ok (Some (len (slashed l)))) as ->.
  { unfold strrchr. obind. change (u8 slash) with slash. pose proof (strrchr_loop_ok (walk_fuel new) [] (path_str cs) rest slash None) as H. cbn [app] in H.
    change (len (@nil Z)) with 0 in H. rewrite <- E in H. rewrite H; [by rewrite Ep, last_pos_snoc|..].
    - unfold walk_fuel. rewrite E, length_app. cbn. lia.
    - by apply path_str_chars.
    - done. }
  cbn [mbind outcome_bind]. rewrite Er. assert (new = slashed l ++ slash :: c ++ 0 :: rest) as E2 by (by rewrite E, Ep, <- app_assoc).
  destruct l as [|x l].
  - change (len (slashed [])) with 0. cbn [Z.eqb negb]. rewrite E2 in *. cbn [slashed map concat app] in *.
    assert (∃ y t, c ++ 0 :: rest = y :: t) as (y & t & Et) by (destruct c; eauto). rewrite Et in *. exists (slash :: 0 :: t). split.
    + apply (cut_ok [slash] y t). done.
    + split; [|by exists t]. rewrite <- Hl. unfold len. done.
  - assert (0 < len (slashed (x :: l))) as Hpos by (unfold slashed; cbn [map concat]; rewrite len_app; unfold len; cbn [length]; lia).
    destruct (Z.eqb_spec (len (slashed (x :: l))) 0); [lia|]. cbn [negb]. rewrite E2 in *. rewrite cut_ok by done. eexists. split; [done|]. split.
    + rewrite <- Hl. rewrite !len_app. f_equal.
    + exists (c ++ 0 :: rest). by rewrite path_str_slashed.
Qed.

Lemma wash_name_ok name c new cs N : holds new cs N → Forall good_name cs → good_name c → cstr name 0 c → len (path_str cs) + len c + 2 ≤ N →
  ∃ new', wash_name name new = Ok new' ∧ holds new' (enter cs c) N.
Proof.
  intros Hh Hg Hc Hn HN. pose proof (good_chars _ Hc) as Hcc. unfold wash_name.
  assert (0 < len (path_str cs)) as Hpos.
  { unfold path_str. case_decide; [done|]. destruct cs; [done|]. unfold slashed. cbn [map concat]. rewrite len_app. unfold len. cbn [length]. lia. }
  rewrite (strcmp_ok _ _ _ _ _ _ dotdot_cstr Hn). cbn [mbind outcome_bind]. unfold enter.
  assert (scmp dotdot c = 0 ↔ dotdot = c) as H1 by (apply scmp_0; [|done]; do 2 (apply Forall_cons; split; [done|]); by apply Forall_nil).
  case_decide as Hdd. { subst c. destruct (Z.eqb_spec (scmp dotdot dotdot) 0) as [_|E]; [|by exfalso; apply E, H1]. apply wash_up; [done..|unfold len in *; lia]. }
  destruct (Z.eqb_spec (scmp dotdot c) 0) as [E|_]; [apply H1 in E; congruence|].
  rewrite (strcmp_ok _ _ _ _ _ _ dot_cstr Hn). cbn [mbind outcome_bind].
  assert (scmp dot c = 0 ↔ dot = c) as H2 by (apply scmp_0; [|done]; apply Forall_cons; split; [done|]; by apply Forall_nil).
  case_decide as Hd. { subst c. destruct (Z.eqb_spec (scmp dot dot) 0) as [_|E]; [|by exfalso; apply E, H2]. cbn [negb]. eauto. }
  destruct (Z.eqb_spec (scmp dot c) 0) as [E|_]; [apply H2 in E; congruence|]. cbn [negb].
  rewrite (strcmp_ok _ _ _ _ _ _ (holds_cstr _ _ _ Hg Hh) slash_cstr). cbn [mbind outcome_bind].
  assert (scmp (path_str cs) [slash] = 0 ↔ path_str cs = [slash]) as H3 by (apply scmp_0; [by apply path_str_chars|]; apply Forall_cons; split; [done|]; by apply Forall_nil).
  destruct Hh as [Hl [rest E]]. assert (len rest = N - len (path_str cs) - 1) as Hrest by (rewrite <- Hl, E, len_app; unfold len; cbn [length]; lia).
  destruct (snoc_case cs) as [->|(l & x & ->)].
  - change (path_str []) with [slash] in *. destruct (Z.eqb_spec (scmp [slash] [slash]) 0) as [_|E0]; [|by exfalso; apply E0, H3]. cbn [negb mbind outcome_bind].
    rewrite (put_ok [slash] name new c rest Hn); [|apply Forall_cons; split; [done|by apply Forall_nil]|unfold len in *; cbn [length] in *; lia|done].
    eexists. split; [done|]. split; [|exists (drop (length c) rest); by rewrite path_str_snoc].
    rewrite !len_app. unfold len in *. cbn [length] in *. rewrite length_drop. lia.
  - assert (path_str (l ++ [x]) ≠ [slash]) as Hne.
    { rewrite path_str_snoc. apply Forall_app in Hg as [_ [(Hx & _) _]%Forall_cons]. intros E0. apply (f_equal length) in E0. rewrite length_app in E0. cbn in E0. destruct x; [done|cbn in E0; lia]. }
    destruct (Z.eqb_spec (scmp (path_str (l ++ [x])) [slash]) 0) as [E0|_]; [by apply H3 in E0|]. cbn [negb].
    rewrite (put_ok (path_str (l ++ [x])) str_slash new [slash] rest slash_cstr); [|by apply path_str_chars|unfold len in *; cbn [length] in *; lia|done].
    cbn [mbind outcome_bind]. rewrite (put_ok (path_str (l ++ [x]) ++ [slash]) name _ c (drop 1 rest) Hn);
      [|apply Forall_app; split; [by apply path_str_chars|apply Forall_cons; split; [done|by apply Forall_nil]]|rewrite length_drop; unfold len in *; lia|by rewrite <- app_assoc].
    eexists. split; [done|]. split.
    + rewrite !len_app. unfold len in *. cbn [length] in *. rewrite !length_drop. lia.
    + exists (drop (length c) (drop 1 rest)). rewrite (path_str_snoc (l ++ [x])), <- (path_str_slashed (l ++ [x])) by by destruct l. by rewrite <- !app_assoc.
Qed.

(** The room components take, each with its slash. *)
Definition room (cs : list (list Z)) : Z := foldr (λ c k, len c + 1 + k) 0 cs.
Lemma room_nonneg cs : 0 ≤ room cs.
Proof. induction cs as [|c cs IH]; [done|]. change (room (c :: cs)) with (len c + 1 + room cs). pose proof (len_nonneg c). lia. Qed.
Lemma enter_good cs c : Forall good_name cs → good_name c → Forall good_name (enter cs c).
Proof.
  intros Hg Hc. unfold enter. repeat case_decide; [|done|apply Forall_app; split; [done|by apply Forall_cons; split; [|apply Forall_nil]]].
  destruct (snoc_case cs) as [->|(l & x & ->)]; [done|]. rewrite removelast_last. by apply Forall_app in Hg as [? _].
Qed.
Lemma len_path_snoc l c : len (path_str (l ++ [c])) ≤ len (path_str l) + len c + 1.
Proof.
  rewrite path_str_snoc, len_app. unfold path_str. case_decide; [subst; unfold len; cbn [slashed map concat length]; lia|]. unfold len. cbn [length]. lia.
Qed.
Lemma enter_len cs c : Forall good_name cs → len (path_str (enter cs c)) ≤ len (path_str cs) + len c + 1.
Proof.
  intros Hg. pose proof (len_nonneg c). unfold enter. repeat case_decide; [|lia|apply len_path_snoc].
  destruct (snoc_case cs) as [->|(l & x & ->)]; [cbn [removelast]; lia|]. rewrite removelast_last, path_str_snoc, len_app.
  unfold path_str. case_decide; [subst|]; unfold len; cbn [slashed map concat length]; lia.
Qed.

Lemma next_good old p s n r : cstr old p s → next_name s = (n, r) → n ≠ [] → len n ≤ 15 → good_name n.
Proof.
  intros (pre & post & _ & _ & HF) E Hn Hl. split_and!; [done|done|]. unfold next_name in E. apply span_name_app in E as (E & Hs & _).
  destruct (drop_slashes_spec s) as (k & Ek & _). rewrite E in Ek. rewrite Ek, !Forall_app in HF. destruct HF as (_ & HF & _).
  rewrite Forall_forall in HF, Hs. apply Forall_forall. intros x Hx. split; [by apply HF|by apply Hs].
Qed.
Lemma name_cstr n k : Forall (λ x, 0 < x < 256) n → (length n < k)%nat → cstr (n ++ drop (length n) (replicate k 0)) 0 n.
Proof.
  intros Hn Hl. exists [], (replicate (k - length n - 1) 0). split_and!; [|done|done]. cbn [app]. f_equal. rewrite drop_replicate.
  rewrite <- replicate_S. f_equal. lia.
Qed.

Lemma wash_loop_ok fuel : ∀ old p r n new cs N, cstr old p r → (length r + (if decide (n = []) then 1 else 2) ≤ fuel)%nat → (n = [] → r = []) → (n ≠ [] → good_name n) →
  Forall (λ c, len c ≤ 15) (components r) → Forall good_name cs → holds new cs N →
  len (path_str cs) + room (if decide (n = []) then [] else n :: components r) + 2 ≤ N →
  ∃ new', wash_loop fuel old (if decide (r = []) then None else Some p) (n ++ drop (length n) (replicate 16 0)) new = Ok new'
    ∧ holds new' (foldl enter cs (if decide (n = []) then [] else n :: components r)) N.
Proof.
  induction fuel as [|fuel IH]; intros old p r n new cs N Hr Hf Hn0 Hng Hall Hg Hh Hroom; [case_decide; lia|]. cbn [wash_loop].
  destruct n as [|x n].
  { cbn [app length]. rewrite drop_0, rd_ok by done. cbn [mbind outcome_bind]. change ((replicate 16 0)@@0) with 0. cbn [Z.eqb negb]. rewrite decide_True by done. eauto. }
  pose proof (Hng ltac:(done)) as (Hne & Hl15 & Hch). rewrite (decide_False (P := x :: n = [])) in Hf by done. rewrite (decide_False (P := x :: n = [])) in Hroom |- * by done. cbn [room foldr] in Hroom.
  fold (room (components r)) in Hroom. pose proof (room_nonneg (components r)). pose proof (good_chars _ (Hng ltac:(done))) as Hcc.
  rewrite (rd_some _ _ x) by done. cbn [mbind outcome_bind]. assert (0 < x < 256) as Hx by (by apply Forall_cons in Hcc as [? _]).
  destruct (Z.eqb_spec x 0); [lia|]. cbn [negb].
  destruct (wash_name_ok ((x :: n) ++ drop (length (x :: n)) (replicate 16 0)) (x :: n) new cs N Hh Hg (Hng ltac:(done))) as (new1 & -> & Hh1).
  { apply name_cstr; [done|unfold len in Hl15; lia]. }
  { lia. }
  cbn [mbind outcome_bind]. set (nb := (x :: n) ++ drop (length (x :: n)) (replicate 16 0)).
  assert (len nb = 16) as Hnb by (unfold nb; rewrite len_app, len_drop by (unfold len in *; rewrite length_replicate; lia); change (len (replicate 16 0)) with 16; unfold len; lia).
  rewrite memset_splice by (unfold MAX_FILE_NAME_LEN; lia). cbn [mbind outcome_bind].
  assert (take (Z.to_nat 0) nb ++ replicate (Z.to_nat MAX_FILE_NAME_LEN) (u8 0) ++ drop (Z.to_nat (0 + MAX_FILE_NAME_LEN)) nb = replicate 16 0) as ->
    by (rewrite drop_ge by (unfold MAX_FILE_NAME_LEN, len in *; lia); done).
  pose proof (enter_len cs (x :: n) Hg) as Hel. pose proof (enter_good cs (x :: n) Hg (Hng ltac:(done))) as Hge. cbn [foldl].
  destruct (decide (r = [])) as [->|Hrn].
  - change (components []) with (@nil (list Z)) in *. destruct (IH old p [] [] new1 (enter cs (x :: n)) N) as (new2 & E2 & H2); try done; [rewrite decide_True by done; cbn [length] in *; lia|rewrite decide_True by done; change (room []) with 0 in *; lia|].
    rewrite decide_True in E2 by done. rewrite decide_True in H2 by done. cbn [app length] in E2. rewrite drop_0 in E2. eauto.
  - destruct (next_name r) as [n' r'] eqn:E. pose proof (next_name_rest _ _ _ E) as (L1 & L2 & L3). pose proof (components_next _ _ _ E) as Hc.
    assert (len n' ≤ 15) as Hn15. { destruct (decide (n' = [])) as [->|]; [done|]. rewrite Hc in Hall. by apply Forall_cons in Hall as [? _]. }
    destruct (path_parse_ok old p r n' r' (replicate 16 0) Hr E) as (q & -> & Hq); [change (len (replicate 16 0)) with 16; lia|].
    cbn [mbind outcome_bind]. assert (components r = if decide (n' = []) then [] else n' :: components r') as Hc' by exact Hc.
    destruct (IH old q r' n' new1 (enter cs (x :: n)) N) as (new2 & E2 & H2); try done.
    + case_decide as Hn'; [lia|]. specialize (L2 Hn'). lia.
    + intros ->. by destruct (L3 eq_refl).
    + intros Hn'. by apply (next_good old p r n' r').
    + rewrite Hc in Hall. destruct (decide (n' = [])) as [->|]; [destruct (L3 eq_refl) as [_ ->]; by apply Forall_nil|]. by apply Forall_cons in Hall as [_ ?].
    + rewrite <- Hc'. lia.
    + exists new2. rewrite Hc'. split; [exact E2|exact H2].
Qed.

Lemma room_components s : room (components s) ≤ len s + 1.
Proof.
  induction s as [s IH] using (induction_ltof1 _ length). destruct (next_name s) as [n r] eqn:E. rewrite (components_next _ _ _ E).
  pose proof (next_name_rest _ _ _ E) as (L1 & L2 & L3). case_decide as Hn; [cbn; unfold len; lia|]. specialize (L2 Hn).
  unfold next_name in E. apply span_name_app in E as (E & _ & Hr). destruct (drop_slashes_spec s) as (k & Ek & _). rewrite E in Ek.
  cbn [room foldr]. fold (room (components r)). assert (len s = Z.of_nat k + len n + len r) as -> by (rewrite Ek at 1; unfold len; rewrite !length_app, length_replicate; lia).
  destruct Hr as [->|[r' ->]]; [change (room (components [])) with 0; change (len (@nil Z)) with 0; lia|].
  assert (room (components (slash :: r')) ≤ len r' + 1) as H; [|unfold len in *; cbn [length]; lia].
  assert (components (slash :: r') = components r') as ->; [|apply (IH); unfold ltof; rewrite Ek, !length_app; cbn [length]; lia].
  destruct (next_name r') as [n' r''] eqn:E'. rewrite (components_next _ _ _ E'). apply components_next. exact E'.
Qed.

(** [wash_path]: for every absolute path whose names have up to 15 characters, in
    a buffer with room, the result is the path with [.] and [..] resolved from
    the root down: [..] at the root stays there, repeated and trailing slashes
    disappear.  It always returns. *)
Lemma wash_path_ok old s new :
  cstr old 0 s → head s = Some slash → Forall (λ c, len c ≤ 15) (components s) → len s + 4 ≤ len new →
  ∃ new', wash_path old new = Ok new' ∧ len new' = len new ∧ cstr new' 0 (path_str (resolve (components s))).
Proof.
  intros Hs Hh Hall Hroom. unfold wash_path. rewrite (cstr_rd _ _ _ Hs), Hh. cbn [default mbind outcome_bind]. unfold ASSERT. rewrite Z.eqb_refl.
  cbn [mbind outcome_bind]. destruct (next_name s) as [n r] eqn:E. pose proof (next_name_rest _ _ _ E) as (L1 & L2 & L3). pose proof (components_next _ _ _ E) as Hc.
  pose proof (len_nonneg s). pose proof (room_components s) as Hrc.
  assert (len n ≤ 15) as Hn15. { destruct (decide (n = [])) as [->|]; [done|]. rewrite Hc in Hall. by apply Forall_cons in Hall as [? _]. }
  destruct (path_parse_ok old 0 s n r (replicate 16 0) Hs E) as (q & -> & Hq); [change (len (replicate 16 0)) with 16; lia|]. cbn [mbind outcome_bind].
  assert (0 < len new) as Hnew by lia. destruct (cstr_len _ _ _ Hs) as [Hlb _].
  destruct n as [|x n].
  - destruct (L3 eq_refl) as [_ ->]. rewrite decide_True in Hc by done. rewrite Hc. cbn [app length]. rewrite drop_0, rd_ok by done. cbn [mbind outcome_bind].
    change ((replicate 16 0)@@0 =? 0) with true. cbv iota. destruct new as [|y0 [|y1 new]]; [unfold len in Hnew; cbn in Hnew; lia|unfold len in Hroom; cbn in Hroom; unfold len in *; lia|].
    rewrite (wr_mid [] y0 (y1 :: new)) by done. cbn [mbind outcome_bind app]. rewrite (wr_mid [slash] y1 new) by done.
    eexists. split; [reflexivity|]. split; [done|]. exists [], new. split_and!; [done|done|]. apply Forall_cons. split; [done|by apply Forall_nil].
  - rewrite decide_False in Hc by done. assert (good_name (x :: n)) as Hgood by by apply (next_good old 0 s (x :: n) r).
    rewrite (rd_some _ _ x) by done. cbn [mbind outcome_bind]. pose proof (good_chars _ Hgood) as Hch. assert (0 < x < 256) by (by apply Forall_cons in Hch as [? _]).
    destruct (Z.eqb_spec x 0); [lia|]. destruct new as [|y0 new]; [unfold len in Hnew; cbn in Hnew; lia|]. rewrite (wr_mid [] y0 new) by done. cbn [mbind outcome_bind app].
    rewrite (put_ok [] str_slash (0 :: new) [slash] new slash_cstr) by (done || (by apply Forall_nil) || (unfold len in *; cbn [length] in *; lia)). cbn [mbind outcome_bind app length].
    destruct (wash_loop_ok (S (walk_fuel old)) old q r (x :: n) (slash :: 0 :: drop 1 new) [] (len (y0 :: new))) as (new' & E' & Hh'); try done.
    + rewrite decide_False by done. specialize (L2 ltac:(done)). unfold walk_fuel. lia.
    + rewrite Hc in Hall. by apply Forall_cons in Hall as [_ ?].
    + split; [|by exists (drop 1 new)]. unfold len in *. cbn [length] in *. rewrite length_drop. lia.
    + rewrite decide_False, <- Hc by done. change (len (path_str [])) with 1. lia.
    + rewrite decide_False, <- Hc in Hh' by done. exists new'. split_and!; [exact E'|by destruct Hh'|]. eapply holds_cstr; [|exact Hh'].
      assert (∀ cs acc, Forall good_name acc → Forall good_name cs → Forall good_name (foldl enter acc cs)) as Hf.
      { induction cs as [|c cs IH]; intros acc Ha Hcs; [done|]. apply Forall_cons in Hcs as [? ?]. cbn. apply IH; [by apply enter_good|done]. }
      apply Hf; [by apply Forall_nil|]. clear -Hs Hall. revert Hs Hall. generalize 0. induction s as [s IH] using (induction_ltof1 _ length). intros p Hs Hall.
      destruct (next_name s) as [n r] eqn:E. pose proof (next_name_rest _ _ _ E) as (L1 & L2 & L3). rewrite (components_next _ _ _ E) in Hall |- *.
      case_decide as Hn; [by apply Forall_nil|]. apply Forall_cons in Hall as [Hl Hall]. apply Forall_cons. split; [by apply (next_good old p s n r)|].
      destruct (path_parse_ok old p s n r (replicate 16 0) Hs E) as (q & _ & Hq); [change (len (replicate 16 0)) with 16; lia|]. by apply (IH r (L2 Hn) q).
Qed.

(** ["/usr/./lib/..//../../bin/"] *)
Definition demo_dirty : list Z := [47; 117; 115; 114; 47; 46; 47; 108; 105; 98; 47; 46; 46; 47; 47; 46; 46; 47; 46; 46; 47; 98; 105; 110; 47].
Example wash_path_demo :
  ∃ new', wash_path (demo_dirty ++ [0]) (replicate 128 7) = Ok new' ∧ len new' = 128 ∧ cstr new' 0 [47; 98; 105; 110].
Proof.
  apply (wash_path_ok (demo_dirty ++ [0]) demo_dirty (replicate 128 7)).
  - exists [], []. split_and!; [done|done|]. repeat (apply Forall_cons; split; [done|]). by apply Forall_nil.
  - reflexivity.
  - repeat (apply Forall_cons; split; [done|]). by apply Forall_nil.
  - vm_compute. discriminate.
Defined.

(** ** Words *)

(** The words of a line between separators; [cur] is the word begun. *)
Fixpoint words_from (tok : Z) (cur s : list Z) : list (list Z) :=
  match s with
  | [] => if decide (cur = []) then [] else [cur]
  | c :: s => if c =? tok then (if decide (cur = []) then [] else [cur]) ++ words_from tok [] s else words_from tok (cur ++ [c]) s
  end.
Definition words (tok : Z) (s : list Z) : list (list Z) := words_from tok [] s.

Lemma words_from_word tok w : tok ∉ w → ∀ cur s, words_from tok cur (w ++ s) = words_from tok (cur ++ w) s.
Proof.
  induction w as [|c w IH]; intros Ht cur s; cbn; [by rewrite app_nil_r|]. destruct (Z.eqb_spec c tok); [set_solver|]. rewrite IH by set_solver. by rewrite <- app_assoc.
Qed.
Lemma words_tok tok s : words tok (tok :: s) = words tok s.
Proof. unfold words. cbn. by rewrite Z.eqb_refl. Qed.

(** Strings by index. *)
Lemma cstr_iff buf p s : cstr buf p s ↔ 0 ≤ p ∧ p + len s < len buf ∧ (∀ i, 0 ≤ i < len s → buf@@(p + i) = s@@i) ∧ buf@@(p + len s) = 0 ∧ Forall (λ c, 0 < c < 256) s.
Proof.
  split.
  - intros (pre & post & -> & <- & HF). pose proof (len_nonneg pre). split_and!; [lia|rewrite !len_app; unfold len; cbn [length]; lia| | |done].
    + intros i Hi. rewrite nthz_app_r, nthz_app_l by lia. f_equal. lia.
    + rewrite nthz_app_r by (pose proof (len_nonneg s); lia). rewrite nthz_app_r by lia. replace (len pre + len s - len pre - len s) with 0 by lia. done.
  - intros (H0 & Hl & Hs & Hz & HF). pose proof (len_nonneg s). exists (take (Z.to_nat p) buf), (drop (Z.to_nat (p + len s + 1)) buf).
    split_and!; [|rewrite len_take; lia|done]. apply nthz_ext.
    + rewrite !len_app, len_take by lia. unfold len at 3. cbn [length]. rewrite length_drop. unfold len in *. lia.
    + intros i Hi. destruct (Z.ltb_spec i p); [rewrite nthz_app_l, nthz_take by (rewrite ?len_take by lia; lia); done|].
      rewrite nthz_app_r by (rewrite len_take by lia; lia). rewrite len_take by lia. rewrite Z2Nat.id by lia.
      destruct (Z.ltb_spec (i - p) (len s)); [rewrite nthz_app_l, <- Hs by lia; f_equal; lia|]. rewrite nthz_app_r by lia.
      destruct (Z.eq_dec (i - p) (len s)) as [E|]; [replace (i - p - len s) with 0 by lia; replace i with (p + len s) by lia; done|].
      change (0 :: drop (Z.to_nat (p + len s + 1)) buf) with ([0] ++ drop (Z.to_nat (p + len s + 1)) buf). rewrite nthz_app_r by (change (len [0]) with 1; lia).
      change (len [0]) with 1. rewrite nthz_drop by lia. f_equal. lia.
Qed.
Lemma cstr_wr buf p s q v : cstr buf p s → 0 ≤ q → q < p ∨ p + len s < q → cstr (<[Z.to_nat q := v]> buf) p s.
Proof.
  rewrite !cstr_iff. intros (H0 & Hl & Hs & Hz & HF) Hq Hout. pose proof (len_nonneg s). split_and!; [done|by rewrite len_insert| | |done].
  - intros i Hi. rewrite nthz_insert_ne by lia. by apply Hs.
  - by rewrite nthz_insert_ne by lia.
Qed.
Lemma cstr_cut buf p w c r : cstr buf p (w ++ c :: r) → cstr (<[Z.to_nat (p + len w) := 0]> buf) p w ∧ cstr (<[Z.to_nat (p + len w) := 0]> buf) (p + len w + 1) r.
Proof.
  rewrite !cstr_iff. intros (H0 & Hl & Hs & Hz & HF). rewrite len_app in *. assert (len (c :: r) = len r + 1) as Hc by (unfold len; cbn [length]; lia). rewrite Hc in *.
  pose proof (len_nonneg w). pose proof (len_nonneg r). apply Forall_app in HF as [HF1 [_ HF2]%Forall_cons]. rewrite !len_insert. split; split_and!; try done; try lia.
  - intros i Hi. rewrite nthz_insert_ne, Hs, nthz_app_l by lia. done.
  - rewrite nthz_insert_eq by lia. done.
  - intros i Hi. rewrite nthz_insert_ne by lia. replace (p + len w + 1 + i) with (p + (len w + 1 + i)) by lia. rewrite Hs, nthz_app_r by lia.
    change (c :: r) with ([c] ++ r). rewrite nthz_app_r by (change (len [c]) with 1; lia). change (len [c]) with 1. f_equal. lia.
  - rewrite nthz_insert_ne by lia. rewrite <- Hz. f_equal. lia.
Qed.

Lemma skip_token_ok buf tok fuel : 0 < tok < 128 → ∀ p s, cstr buf p s → (length s < fuel)%nat →
  ∃ q s', skip_token fuel buf p tok = Ok q ∧ cstr buf q s' ∧ words tok s' = words tok s ∧ head s' ≠ Some tok ∧ p ≤ q ∧ (length s' ≤ length s)%nat.
Proof.
  intros Ht. induction fuel as [|fuel IH]; intros p s Hs Hf; [lia|]. cbn [skip_token]. rewrite (cstr_rd _ _ _ Hs). cbn [mbind outcome_bind].
  destruct s as [|c s]; cbn [head default].
  - change (i8 0) with 0. destruct (Z.eqb_spec 0 tok); [lia|]. exists p, []. split_and!; done || lia.
  - destruct (cstr_tail _ _ _ _ Hs) as [Hs' Hc]. cbn [from_option id]. rewrite i8_ascii by lia. destruct (Z.eqb_spec c tok) as [->|Hne].
    + destruct (IH (p + 1) s Hs') as (q & s' & E & H1 & H2 & H3 & H4 & H5); [cbn in Hf; lia|]. exists q, s'. rewrite words_tok. split_and!; try done; [lia|cbn; lia].
    + exists p, (c :: s). split_and!; (done || lia || (cbn; congruence)).
Qed.
Lemma skip_word_ok buf tok fuel : 0 < tok < 128 → ∀ p s, cstr buf p s → (length s < fuel)%nat →
  ∃ w r, s = w ++ r ∧ (tok ∉ w) ∧ (r = [] ∨ ∃ r', r = tok :: r') ∧ skip_word fuel buf p tok = Ok (p + len w).
Proof.
  intros Ht. induction fuel as [|fuel IH]; intros p s Hs Hf; [lia|]. cbn [skip_word]. rewrite (cstr_rd _ _ _ Hs). cbn [mbind outcome_bind].
  destruct s as [|c s]; cbn [head default].
  - exists [], []. split_and!; [done|set_solver|by left|]. cbn. do 2 f_equal. unfold len. cbn. lia.
  - destruct (cstr_tail _ _ _ _ Hs) as [Hs' Hc]. cbn [from_option id]. rewrite i8_ascii by lia. destruct (Z.eqb_spec c 0); [lia|]. cbn [negb andb].
    destruct (Z.eqb_spec c tok) as [->|Hne]; cbn [negb].
    + exists [], (tok :: s). split_and!; [done|set_solver|right; eauto|]. f_equal. unfold len. cbn. lia.
    + destruct (IH (p + 1) s Hs') as (w & r & -> & H1 & H2 & H3); [cbn in Hf; lia|]. exists (c :: w), r. split_and!; [done|set_solver|done|].
      rewrite H3. f_equal. unfold len. cbn [length]. lia.
Qed.
Lemma words_split tok w r : w ≠ [] → tok ∉ w → (r = [] → words tok (w ++ r) = [w]) ∧ (∀ r', r = tok :: r' → words tok (w ++ r) = w :: words tok r').
Proof.
  intros Hw Ht. unfold words. rewrite words_from_word by done. cbn [app]. split; [intros ->|intros r' ->]; cbn; rewrite ?Z.eqb_refl, decide_False by done; done.
Qed.

Lemma parse_loop_ok tok fuel : 0 < tok < 128 → ∀ buf p s argv argc, cstr buf p s → (length s < fuel)%nat → len argv = 16 → 0 ≤ argc → argc + len (words tok s) ≤ 16 →
  ∃ buf' argv', parse_loop fuel buf p tok argv argc = Ok (buf', argv', argc + len (words tok s)) ∧ len argv' = 16
    ∧ (∀ i w, words tok s !! i = Some w → ∃ q, argv' !! (Z.to_nat argc + i)%nat = Some (Some q) ∧ cstr buf' q w)
    ∧ (∀ i, (i < Z.to_nat argc)%nat ∨ argc + len (words tok s) ≤ Z.of_nat i → argv' !! i = argv !! i)
    ∧ (∀ q w, cstr buf q w → q + len w < p → cstr buf' q w).
Proof.
  intros Ht. induction fuel as [|fuel IH]; intros buf p s argv argc Hs Hf Hav Hac Hws; [lia|]. cbn [parse_loop]. rewrite (cstr_rd _ _ _ Hs). cbn [mbind outcome_bind].
  destruct s as [|c0 s0]; cbn [head default].
  { cbn [Z.eqb negb]. change (words tok []) with (@nil (list Z)) in *. exists buf, argv. change (len (@nil (list Z))) with 0. rewrite Z.add_0_r. split_and!; done. }
  destruct (cstr_tail _ _ _ _ Hs) as [_ Hc0]. cbn [from_option id]. destruct (Z.eqb_spec c0 0); [lia|]. cbn [negb]. destruct (cstr_len _ _ _ Hs) as [Hlb _].
  destruct (skip_token_ok buf tok (walk_fuel buf) Ht p (c0 :: s0) Hs) as (q & s & -> & Hq & Hwq & Hh & Hpq & Hls); [unfold walk_fuel; lia|]. cbn [mbind outcome_bind].
  rewrite <- Hwq in *. rewrite (cstr_rd _ _ _ Hq). cbn [mbind outcome_bind]. destruct s as [|c s]; cbn [head default].
  { cbn [Z.eqb]. change (words tok []) with (@nil (list Z)) in *. exists buf, argv. change (len (@nil (list Z))) with 0. rewrite Z.add_0_r. split_and!; done. }
  destruct (cstr_tail _ _ _ _ Hq) as [_ Hc]. cbn [from_option id]. destruct (Z.eqb_spec c 0); [lia|]. destruct (cstr_len _ _ _ Hq) as [Hlb' Hq0].
  destruct (skip_word_ok buf tok (walk_fuel buf) Ht q (c :: s) Hq) as (w & r & Es & Hw & Hr & Hsw); [unfold walk_fuel; lia|].
  assert (w ≠ []) as Hwn. { intros ->. destruct Hr as [->|[r' ->]]; [done|]. cbn in Es. injection Es as -> ->. by cbn in Hh. }
  destruct (words_split tok w r Hwn Hw) as [W1 W2]. rewrite Es in *.
  assert (argc < 16) as Hac16. { destruct Hr as [->|[r' ->]]; [rewrite (W1 eq_refl) in Hws|rewrite (W2 _ eq_refl) in Hws]; unfold len in Hws; cbn [length] in Hws; lia. }
  rewrite wr_ok by lia. cbn [mbind outcome_bind]. rewrite Hsw. cbn [mbind outcome_bind]. unfold MAX_ARG_NR. destruct (Z.ltb_spec 16 argc); [lia|].
  assert (len (<[Z.to_nat argc := Some q]> argv) = 16) as Hav' by by rewrite len_insert. assert (Z.to_nat argc < length argv)%nat as Havl by (unfold len in Hav; lia).
  destruct Hr as [->|[r' ->]].
  - rewrite app_nil_r in *. rewrite (W1 eq_refl) in *. change (len [w]) with 1 in *.
    assert (cstr buf (q + len w) []) as Hend. { rewrite cstr_iff in Hq |- *. destruct Hq as (? & ? & ? & Hz & ?). change (len (@nil Z)) with 0. rewrite !Z.add_0_r. pose proof (len_nonneg w). split_and!; [lia|lia|intros; lia|done|by apply Forall_nil]. }
    rewrite (cstr_rd _ _ _ Hend). cbn [head default mbind outcome_bind Z.eqb negb].
    destruct fuel as [|fuel]; [cbn [length] in *; lia|]. cbn [parse_loop]. rewrite (cstr_rd _ _ _ Hend). cbn [head default mbind outcome_bind Z.eqb negb].
    exists buf, (<[Z.to_nat argc := Some q]> argv). split_and!; [done|done| | |done].
    + intros [|i] x; [|done]. intros [= <-]. exists q. rewrite Nat.add_0_r. split; [apply list_lookup_insert_eq; exact Havl|done].
    + intros i Hi. apply list_lookup_insert_ne. lia.
  - rewrite (W2 _ eq_refl) in *. assert (len (w :: words tok r') = 1 + len (words tok r')) as Hlw by (unfold len; cbn [length]; lia). rewrite Hlw in *.
    destruct (cstr_cut _ _ _ _ _ Hq) as [Hcw Hcr]. pose proof (len_nonneg w) as Hw0.
    assert (rd buf (q + len w) = Ok tok) as ->.
    { apply cstr_iff in Hq as (_ & Hl & Hx & _). rewrite len_app in Hl, Hx. assert (len (tok :: r') = 1 + len r') as Hlt by (unfold len; cbn [length]; lia). pose proof (len_nonneg r').
      rewrite rd_ok by lia. rewrite Hx, nthz_app_r, Z.sub_diag by lia. done. }
    cbn [mbind outcome_bind]. destruct (Z.eqb_spec tok 0); [lia|]. cbn [negb]. rewrite wr_ok by (apply cstr_iff in Hq as (_ & Hl & _); rewrite len_app in Hl; unfold len in *; cbn [length] in *; lia).
    cbn [mbind outcome_bind].
    destruct (IH _ (q + len w + 1) r' (<[Z.to_nat argc := Some q]> argv) (argc + 1) Hcr) as (buf' & argv' & E & A1 & A2 & A3 & A4); [|done|lia|lia|].
    { apply (f_equal length) in Es. rewrite !length_app in *. cbn [length] in *. lia. }
    exists buf', argv'. split_and!; [etrans; [exact E|]; do 2 f_equal; lia|done| | |].
    + intros [|i] x Hx; cbn in Hx.
      * injection Hx as <-. exists q. rewrite A3 by lia. rewrite Nat.add_0_r. split; [apply list_lookup_insert_eq; exact Havl|]. apply A4; [done|lia].
      * destruct (A2 i x Hx) as (q' & E' & Hc'). exists q'. split; [|done]. replace (Z.to_nat argc + S i)%nat with (Z.to_nat (argc + 1) + i)%nat by lia. exact E'.
    + intros i Hi. assert (0 ≤ len (words tok r')) by (unfold len; lia). rewrite A3 by lia. apply list_lookup_insert_ne. lia.
    + intros q' w' Hc' Hlt. apply A4; [|lia]. apply cstr_wr; [done|lia|lia].
Qed.

Lemma parse_loop_len tok fuel : ∀ buf p argv argc buf' argv' n, parse_loop fuel buf p tok argv argc = Ok (buf', argv', n) → len buf' = len buf.
Proof.
  induction fuel as [|fuel IH]; intros buf p argv argc buf' argv' n; [done|]. cbn [parse_loop]. destruct (rd buf p) as [c| | | |]; try done. cbn [mbind outcome_bind].
  case_match; [|congruence]. destruct (skip_token _ _ _ _) as [q| | | |]; try done. cbn [mbind outcome_bind]. destruct (rd buf q) as [c'| | | |]; try done. cbn [mbind outcome_bind].
  case_match; [congruence|]. destruct (wr argv argc _) as [av| | | |]; try done. cbn [mbind outcome_bind]. destruct (skip_word _ _ _ _) as [r| | | |]; try done. cbn [mbind outcome_bind].
  destruct (rd buf r) as [c2| | | |]; try done. cbn [mbind outcome_bind]. destruct (negb (c2 =? 0)).
  - destruct (wr buf r 0) as [b2| | | |] eqn:Ew; try done. apply wr_inv in Ew as [_ ->]. cbn [mbind outcome_bind].
    case_match; [intros [= <- _ _]; by rewrite len_insert|]. intros E%IH. by rewrite len_insert in E.
  - cbn [mbind outcome_bind]. case_match; [congruence|]. apply IH.
Qed.
Lemma cmd_parse_len cmd argv tok cmd' argv' n : cmd_parse cmd argv tok = Ok (cmd', argv', n) → len cmd' = len cmd.
Proof. apply parse_loop_len. Qed.

(** [cmd_parse]: for every line with up to 16 words it returns their number, each
    of the first entries of [argv] points to its word, now NUL terminated in
    the line, in order, and the remaining entries are NULL. *)
Lemma cmd_parse_ok cmd s argv tok :
  cstr cmd 0 s → 0 < tok < 128 → len argv = 16 → len (words tok s) ≤ 16 →
  ∃ cmd' argv', cmd_parse cmd argv tok = Ok (cmd', argv', len (words tok s)) ∧ len argv' = 16
    ∧ (∀ i w, words tok s !! i = Some w → ∃ q, argv' !! i = Some (Some q) ∧ cstr cmd' q w)
    ∧ (∀ i, (length (words tok s) ≤ i < 16)%nat → argv' !! i = Some None).
Proof.
  intros Hs Ht Hav Hws. unfold cmd_parse. set (av := replicate (Z.to_nat MAX_ARG_NR) None ++ drop (Z.to_nat MAX_ARG_NR) argv).
  assert (av = replicate 16 None) as Eav by (unfold av; rewrite drop_ge by (unfold len in Hav; change (Z.to_nat MAX_ARG_NR) with 16%nat; lia); by rewrite app_nil_r).
  destruct (cstr_len _ _ _ Hs) as [Hl _].
  destruct (parse_loop_ok tok (walk_fuel cmd) Ht cmd 0 s av 0 Hs) as (buf' & argv' & E & A1 & A2 & A3 & _); [unfold walk_fuel; lia|by rewrite Eav|lia|lia|].
  exists buf', argv'. split_and!; [exact E|done|exact A2|]. intros i Hi. rewrite A3, Eav by (right; unfold len; lia). apply lookup_replicate_2. lia.
Qed.

(** ["  mkdir a/b "] *)
Definition demo_line : list Z := [32; 32; 109; 107; 100; 105; 114; 32; 97; 47; 98; 32].
Example cmd_parse_demo :
  ∃ cmd' argv', cmd_parse (demo_line ++ [0; 9]) (replicate 16 (Some 5)) 32 = Ok (cmd', argv', 2) ∧ len argv' = 16
    ∧ (∀ i w, [[109; 107; 100; 105; 114]; [97; 47; 98]] !! i = Some w → ∃ q, argv' !! i = Some (Some q) ∧ cstr cmd' q w)
    ∧ (∀ i, (2 ≤ i < 16)%nat → argv' !! i = Some None).
Proof.
  apply (cmd_parse_ok (demo_line ++ [0; 9]) demo_line (replicate 16 (Some 5)) 32).
  - exists [], [9]. split_and!; [done|done|]. repeat (apply Forall_cons; split; [done|]). by apply Forall_nil.
  - done.
  - reflexivity.
  - vm_compute. discriminate.
Defined.

(** ** Lines *)

(** The reference: what a key does to the text of the line ([\b] is 8, ctrl-l
    and ctrl-u arrive as 11 and 20). *)
Definition edit (t : list Z) (k : Z) : list Z :=
  if k =? 8 then removelast t else if k =? 11 then t else if k =? 20 then [] else t ++ [k].
Definition edited (keys : list Z) : list Z := foldl edit [] keys.
(** The line of the terminal after the prompt. *)
Definition show (l : list Z) (t : tty) : list Z :=
  match t with
  | Put c => if c =? 8 then removelast l else l ++ [c]
  | Clear | Prompt => []
  | Str s => l ++ s
  | TooLong => l
  end.
Definition screen (out : list tty) : list Z := foldl show [] out.

Definition plain (k : Z) : Prop := 0 < k < 256 ∧ k ≠ 10 ∧ k ≠ 13.
Definition typed (t : list Z) : Prop := Forall (λ x, 0 < x < 256 ∧ x ≠ 8) t.

Lemma screen_snoc out l : screen (out ++ l) = foldl show (screen out) l.
Proof. apply foldl_app. Qed.
Lemma screen_rub out n : screen (out ++ replicate n (Put 8)) = Nat.iter n (@removelast Z) (screen out).
Proof.
  revert out. induction n as [|n IH]; intros out; [by rewrite app_nil_r|].
  rewrite replicate_S_end, app_assoc, screen_snoc, IH. done.
Qed.
Lemma iter_removelast (t : list Z) : Nat.iter (length t) (@removelast Z) t = [].
Proof.
  induction t as [|x t IH] using rev_ind; [done|]. rewrite length_app, Nat.add_1_r, Nat.iter_succ_r, removelast_last. exact IH.
Qed.
Lemma typed_edit t k : typed t → plain k → typed (edit t k).
Proof.
  intros Ht [Hk _]. unfold edit. destruct (Z.eqb_spec k 8).
  { destruct (snoc_case t) as [->|(l & x & ->)]; [done|]. rewrite removelast_last. by apply Forall_app in Ht as [? _]. }
  repeat case_match; [done|by apply Forall_nil|]. apply Forall_app. split; [done|]. apply Forall_cons. split; [done|by apply Forall_nil].
Qed.

Lemma rub_out_ok t : ∀ fuel x rest out, (length t < fuel)%nat →
  ∃ buf', rub_out fuel (t ++ x :: rest) (len t) out = Ok (buf', 0, out ++ replicate (length t) (Put 8)) ∧ len buf' = len (t ++ x :: rest).
Proof.
  induction t as [|y t IH] using rev_ind; intros [|fuel] x rest out Hf; [lia| |lia|].
  - exists (x :: rest). cbn. by rewrite app_nil_r.
  - rewrite length_app in Hf. cbn [length] in Hf. cbn [rub_out]. rewrite len_snoc. pose proof (len_nonneg t). destruct (Z.eqb_spec (len t + 1) 0); [lia|]. cbn [negb].
    rewrite wr_mid by (by rewrite len_snoc). cbn [mbind outcome_bind]. replace (len t + 1 - 1) with (len t) by lia. rewrite <- app_assoc. cbn [app].
    destruct (IH fuel y (0 :: rest) (out ++ [Put 8]) ltac:(lia)) as (buf' & E & Hl). exists buf'. split.
    + etrans; [exact E|]. rewrite length_app, <- app_assoc. cbn [length]. by rewrite Nat.add_1_r.
    + rewrite Hl, <- !app_assoc, !len_app. unfold len. cbn [app length]. lia.
Qed.

Lemma typed_cstr t rest : typed t → cstr (t ++ 0 :: rest) 0 t.
Proof. intros Ht. exists [], rest. split_and!; [done|done|]. eapply Forall_impl; [exact Ht|]. by intros x [? _]. Qed.

(** One key: the buffer holds the edited text and so does the terminal. *)
Lemma readline_key k keys t x rest out count : plain k → typed t → len t < count → count < 2 ^ 31 → len (t ++ x :: rest) = count →
  len (edit t k) < count → screen out = t →
  ∃ y rest' out', readline_loop (k :: keys) (t ++ x :: rest) (len t) count out = readline_loop keys (edit t k ++ y :: rest') (len (edit t k)) count out'
    ∧ len (edit t k ++ y :: rest') = count ∧ screen out' = edit t k.
Proof.
  intros (Hk & H10 & H13) Ht Hlt Hc Hl Hed Ho. cbn [readline_loop]. rewrite wr_mid by done. cbn [mbind outcome_bind].
  destruct (Z.ltb_spec (len t) count); [|lia]. destruct (Z.eqb_spec k 10); [done|]. destruct (Z.eqb_spec k 13); [done|]. cbn [orb]. unfold edit in *.
  rewrite len_app in Hl. destruct (Z.eqb_spec k 8) as [->|H8].
  - destruct t as [|c t].
    + cbn [app]. rewrite (rd_some _ _ 8) by done. cbn. exists 8, rest, out. done.
    + cbn [app]. rewrite (rd_some _ _ c) by done. cbn [mbind outcome_bind]. assert (c ≠ 8) as Hc8 by (by apply Forall_cons in Ht as [[? ?] _]).
      destruct (Z.eqb_spec c 8); [done|]. cbn [negb]. destruct (snoc_case (c :: t)) as [?|(l & y & E)]; [done|]. rewrite E in *.
      change (c :: t ++ 8 :: rest) with ((c :: t) ++ 8 :: rest). rewrite E, removelast_last, <- app_assoc. cbn [app]. exists y, (8 :: rest), (out ++ [Put 8]). split_and!.
      * f_equal. rewrite len_snoc. lia.
      * rewrite <- Hl, !len_snoc, len_app. unfold len. cbn [length]. lia.
      * rewrite screen_snoc, Ho. cbn. apply removelast_last.
  - destruct (Z.eqb_spec k 11) as [->|H11].
    + rewrite wr_mid by done. cbn [mbind outcome_bind]. pose proof (typed_cstr t rest Ht) as Hcs.
      rewrite (strlen_ok _ _ _ Hcs) by (unfold len in *; lia). cbn [mbind outcome_bind]. eexists 0, rest, _. split; [reflexivity|]. split.
      * rewrite len_app, <- Hl. unfold len. done.
      * rewrite screen_snoc. cbn. unfold len. by rewrite Nat2Z.id, take_app_length.
    + destruct (Z.eqb_spec k 20) as [->|H20].
      * destruct (rub_out_ok t (S (Z.to_nat (len t))) 20 rest out ltac:(unfold len; lia)) as (buf' & -> & Hl'). cbn [mbind outcome_bind].
        destruct buf' as [|y buf']; [rewrite len_app in Hl'; unfold len in Hl'; cbn [length] in Hl'; lia|]. exists y, buf', (out ++ replicate (length t) (Put 8)). split_and!.
        -- done.
        -- cbn [app]. rewrite Hl', len_app, <- Hl. unfold len. done.
        -- rewrite screen_rub, Ho. apply iter_removelast.
      * assert (∃ y rest', rest = y :: rest') as (y & rest' & ->). { destruct rest; [|eauto]. rewrite len_snoc in Hed. unfold len in *. cbn [length] in *. lia. }
        exists y, rest', (out ++ [Put k]). rewrite len_snoc. change (t ++ k :: y :: rest') with (t ++ [k] ++ y :: rest'). rewrite app_assoc. split_and!; [done| |].
        -- rewrite len_app, len_snoc, <- Hl. unfold len. cbn [length]. lia.
        -- rewrite screen_snoc, Ho. cbn. by destruct (Z.eqb_spec k 8).
Qed.

Lemma readline_loop_ok keys k left_ count : (k = 10 ∨ k = 13) → count < 2 ^ 31 → ∀ t x rest out, Forall plain keys → typed t → len (t ++ x :: rest) = count →
  (∀ n, len (foldl edit t (take n keys)) < count) → screen out = t →
  ∃ buf' out', readline_loop (keys ++ k :: left_) (t ++ x :: rest) (len t) count out = Ok (buf', left_, out' ++ [Put 10])
    ∧ len buf' = count ∧ cstr buf' 0 (foldl edit t keys) ∧ screen out' = foldl edit t keys.
Proof.
  intros Hk Hc. induction keys as [|key keys IH]; intros t x rest out Hp Ht Hl Hfit Ho.
  - pose proof (Hfit O) as Hlt. cbn [take foldl] in Hlt. cbn [app readline_loop]. rewrite wr_mid by done. cbn [mbind outcome_bind].
    destruct (Z.ltb_spec (len t) count); [|lia]. assert ((k =? 10) || (k =? 13) = true) as -> by (destruct Hk as [-> | ->]; done).
    rewrite wr_mid by done. cbn [mbind outcome_bind]. exists (t ++ 0 :: rest), out. split_and!; [done| |by apply typed_cstr|done].
    rewrite <- Hl, !len_app. unfold len. done.
  - apply Forall_cons in Hp as [Hkey Hp]. pose proof (Hfit O) as Hlt. pose proof (Hfit 1%nat) as Hed. cbn [take foldl] in Hlt, Hed. rewrite take_0 in Hed. cbn [foldl] in Hed.
    destruct (readline_key key (keys ++ k :: left_) t x rest out count Hkey Ht Hlt Hc Hl Hed Ho) as (y & rest' & out' & E & Hl' & Ho').
    destruct (IH (edit t key) y rest' out' Hp (typed_edit _ _ Ht Hkey) Hl') as (buf' & out2 & E2 & H); [intros n; apply (Hfit (S n))|done|].
    exists buf', out2. split; [|exact H]. etrans; [exact E|exact E2].
Qed.

(** [readline]: whatever is typed before a return, with rub-outs, line kills and
    redraws, as long as the text never fills the buffer, the call returns, the
    buffer holds the text the reference editor gives, the terminal line shows
    the same text, and the keys after the return are left. *)
Lemma readline_ok keys k left_ buf count :
  Forall plain keys → (k = 10 ∨ k = 13) → len buf = count → 0 < count < 2 ^ 31 → (∀ n, len (edited (take n keys)) < count) →
  ∃ buf' out, readline (keys ++ k :: left_) buf count = Ok (buf', left_, out ++ [Put 10])
    ∧ len buf' = count ∧ cstr buf' 0 (edited keys) ∧ screen out = edited keys.
Proof.
  intros Hp Hk Hl Hc Hfit. unfold readline, ASSERT. destruct (Z.ltb_spec 0 count); [|lia]. cbn [mbind outcome_bind].
  destruct buf as [|x rest]; [unfold len in Hl; cbn in Hl; lia|]. apply (readline_loop_ok keys k left_ count Hk ltac:(lia) [] x rest []); try done. by apply Forall_nil.
Qed.

(** [lx\bs], ctrl-l, [ k], ctrl-u, [pwd], return. *)
Definition demo_keys : list Z := [108; 120; 8; 115; 11; 32; 107; 20; 8; 112; 119; 100].
Example readline_demo :
  ∃ buf' out, readline (demo_keys ++ 13 :: [97]) (replicate 8 0) 8 = Ok (buf', [97], out ++ [Put 10])
    ∧ len buf' = 8 ∧ cstr buf' 0 [112; 119; 100] ∧ screen out = [112; 119; 100].
Proof.
  apply (readline_ok demo_keys 13 [97] (replicate 8 0) 8).
  - repeat (apply Forall_cons; split; [split; [lia|lia]|]). by apply Forall_nil.
  - by right.
  - reflexivity.
  - lia.
  - intros n. do 12 (destruct n as [|n]; [vm_compute; reflexivity|]). rewrite take_ge by (cbn; lia). vm_compute. reflexivity.
Defined.
