(* ===== verification/ShellCmd.v ===== *)
(** * shell/shell.c, shell/buildin_cmd.c: the built-in commands

    The user-level wrappers of lib/user/loscall.c pass their arguments to the
    system calls of the same name, so the model calls the [sys_] functions.
    [sys_ps] works on the task lists (Thread) and [sys_print_partition_info] on
    the partition list, which are no part of the file system's state: here they
    are the parameters [ps] and [pp].  Printing is a message on the console;
    [clear] is one too.  A command whose name is not built in ends the pass with
    [Fork]; what the parent and the child then do is [shell_parent] and
    [shell_child]. *)
From Stdlib Require Import String.
From S2P Require Import Prelude CString Bitmap Machine Ide DiskBytes FsBase Inode Dir File Path Fs Shell.

(** The static data of shell.c. *)
Record shell := mkShell {
  cmd_line : list Z;
  final_path : list Z;
  cwd_cache : list Z;
  sh_argv : list ptr;
  sh_argc : Z;
}.
Definition shell_start : shell :=
  mkShell (replicate 128 0) (replicate 128 0) (replicate 64 0) (replicate 16 None) (-1).

(** The names of the commands, as the literals of the code. *)
Definition cstring (s : string) : list Z := map (λ a, Z.of_N (Ascii.N_of_ascii a)) (list_ascii_of_string s) ++ [0].

(** How a pass of the loop of [my_shell] ends. *)
Inductive pass := Again | Fork.
(** How the child ends: [exit], or [execv] with its path and arguments. *)
Inductive child_end := Exit (status : Z) | Execv (path : list Z) (args : list ptr).

Section code.
Context {S : Type} `{!Services S}.
Context (ps pp : F S unit) (junk : list Z).

Definition clear : F S unit := say "clear" [].
Definition tty_msg (t : tty) (sh_cwd : list Z) : string * list arg :=
  match t with
  | Put c => ("%c"%string, [AInt c])
  | Clear => ("clear"%string, [])
  | Prompt => ("[lizec@LOS %s]$ "%string, [AStr (shown sh_cwd)])
  | Str s => ("%s"%string, [AStr s])
  | TooLong => ("readline: can`t find enter_key in the cmd_line, max num of char is 128"%string, [])
  end.
Definition print_prompt (sh_cwd : list Z) : F S unit := say "[lizec@LOS %s]$ " [AStr (shown sh_cwd)].

(** ** Paths *)

(** [path] is the string at [p] of the command line. *)
Definition make_clear_abs_path (line : list Z) (p : Z) (final_path : list Z) : F S (list Z) :=
  let abs_path := replicate (Z.to_nat MAX_PATH_LEN) 0 in
  c ← flift (rd line p);
  abs_path ← (if negb (c =? slash) then
      '(abs_path, ok) ← sys_getcwd abs_path MAX_PATH_LEN;
      if (ok : bool) then
        a0 ← flift (rd abs_path 0);
        a1 ← flift (rd abs_path 1);
        if negb ((a0 =? slash) && (a1 =? 0)) then flift (put abs_path str_slash) else mret abs_path
      else mret abs_path
    else mret abs_path);
  '(abs_path, _) ← flift (strcat abs_path (Some 0) line (Some p));
  flift (wash_path abs_path final_path).

(** An element of [argv] that is used. *)
Definition arg_at (argv : list ptr) (i : Z) : F S Z := p ← flift (rd argv i); flift (deref p).
Definition str_at (line : list Z) (p : Z) : list Z := shown (drop (Z.to_nat p) line).

(** ** The commands

    Each returns [final_path] and what the C function returns. *)
Definition buildin_pwd (argc : Z) (final_path : list Z) : F S (list Z) :=
  if negb (argc =? 1) then say "pwd: no argument support!" [] ;; mret final_path
  else
    '(final_path, ok) ← sys_getcwd final_path MAX_PATH_LEN;
    (if (ok : bool) then say "%s" [AStr (shown final_path)] else say "pwd: get current work directory failed." []) ;;
    mret final_path.

(** [false] is NULL. *)
Definition buildin_cd (argc : Z) (argv : list ptr) (line final_path : list Z) : F S (list Z * bool) :=
  if 2 <? argc then say "cd: only support 1 argument!" [] ;; mret (final_path, false)
  else
    final_path ← (if argc =? 1 then
        f ← flift (wr final_path 0 slash); flift (wr f 1 0)
      else p ← arg_at argv 1; make_clear_abs_path line p final_path);
    r ← sys_chdir final_path;
    if r =? -1 then say "cd: no such directory %s" [AStr (shown final_path)] ;; mret (final_path, false)
    else mret (final_path, true).

(** The arguments of [ls]: whether [-l] is given and the path; [None] when the
    command ends with a message. *)
Fixpoint ls_args (n : nat) (arg_idx : Z) (argv : list ptr) (line : list Z) (long_info : bool) (pathname : option Z) : F S (option (bool * option Z)) :=
  match n with
  | O => mret (Some (long_info, pathname))
  | Datatypes.S n =>
      p ← arg_at argv arg_idx;
      c ← flift (rd line p);
      if c =? 45 then
        l ← flift (strcmp (cstring "-l") (Some 0) line (Some p));
        if l =? 0 then ls_args n (arg_idx + 1) argv line true pathname
        else
          h ← flift (strcmp (cstring "-h") (Some 0) line (Some p));
          if h =? 0 then say "usage: -l list all infomation about the file." [] ;; mret None
          else say "ls: invalid option %s" [AStr (str_at line p)] ;; mret None
      else
        match pathname with
        | None => ls_args n (arg_idx + 1) argv line long_info (Some p)
        | Some _ => say "ls: only support one path" [] ;; mret None
        end
  end.

(** The entry at index [i] of the buffer of the directory. *)
Definition entry_of (dir i : Z) : F S (list Z * Z) := d ← ld_dir dir; mret (dir_buf d, i).
(** The loop over the entries with [-l]: [false] when an entry cannot be
    accessed, which returns from [ls] without closing the directory. *)
Fixpoint ls_long (fuel : nat) (dir : Z) (sub_pathname : list Z) (pathname_len : Z) : F S bool :=
  match fuel with
  | O => flift Spin
  | Datatypes.S fuel =>
      r ← sys_readdir dir;
      match r with
      | None => mret true
      | Some i =>
          '(buf, i) ← entry_of dir i;
          let ftype := if de_f_type buf i =? FT_REGULAR then 45 else 100 in
          sub ← flift (wr sub_pathname pathname_len 0);
          '(sub, _) ← flift (strcat sub (Some 0) buf (de_filename i));
          '(st, r) ← sys_stat sub;
          match st with
          | None =>
              say "ls: cannot access %s: No such file or directory" [AStr (str_at buf (default 0 (de_filename i)))] ;; mret false
          | Some st =>
              say "%c  %d  %d  %s" [AInt ftype; AInt (de_i_no buf i); AInt (st_size st); AStr (str_at buf (default 0 (de_filename i)))] ;;
              ls_long fuel dir sub pathname_len
          end
      end
  end.
Fixpoint ls_short (fuel : nat) (dir : Z) : F S unit :=
  match fuel with
  | O => flift Spin
  | Datatypes.S fuel =>
      r ← sys_readdir dir;
      match r with
      | None => say "" []
      | Some i =>
          '(buf, i) ← entry_of dir i;
          say "%s " [AStr (str_at buf (default 0 (de_filename i)))] ;;
          ls_short fuel dir
      end
  end.
(** Every entry returned advances the position, so the size of the directory
    bounds their number. *)
Definition ls_dir (pathname : list Z) (long_info : bool) (file_stat : Stat) : F S unit :=
  dir ← sys_opendir pathname;
  pathname_len ← flift (strlen pathname (Some 0));
  sub_pathname ← flift (memcpy (replicate (Z.to_nat MAX_PATH_LEN) 0) (Some 0) pathname (Some 0) pathname_len);
  c ← flift (rd sub_pathname (u32 (pathname_len - 1)));
  '(sub_pathname, pathname_len) ← (if negb (c =? slash) then
      sub ← flift (wr sub_pathname pathname_len slash); mret (sub, pathname_len + 1)
    else mret (sub_pathname, pathname_len));
  sys_rewinddir dir ;;
  let fuel := Datatypes.S (Z.to_nat (st_size file_stat)) in
  ok ← (if long_info then
      say "total: %d" [AInt (st_size file_stat)] ;; ls_long fuel dir sub_pathname pathname_len
    else ls_short fuel dir ;; mret true);
  if (ok : bool) then _ ← sys_closedir dir; mret () else mret ().
Definition buildin_ls (argc : Z) (argv : list ptr) (line final_path : list Z) : F S (list Z) :=
  r ← ls_args (Z.to_nat (argc - 1)) 1 argv line false None;
  match r with
  | None => mret final_path
  | Some (long_info, pathname) =>
      '(final_path, ok) ← match pathname with
        | None => sys_getcwd final_path MAX_PATH_LEN
        | Some p => f ← make_clear_abs_path line p final_path; mret (f, true)
        end;
      if negb ok then say "ls: getcwd for default path failed" [] ;; mret final_path
      else
        '(st, r) ← sys_stat final_path;
        match st with
        | None => say "ls: cannot access %s: No such file or directory" [AStr (shown final_path)] ;; mret final_path
        | Some file_stat =>
            (if st_filetype file_stat =? FT_DIRECTORY then ls_dir final_path long_info file_stat
             else if long_info then say "-  %d  %d  %s" [AInt (st_ino file_stat); AInt (st_size file_stat); AStr (shown final_path)]
             else say "%s" [AStr (shown final_path)]) ;;
            mret final_path
        end
  end.

Definition buildin_ps (argc : Z) : F S unit := if negb (argc =? 1) then say "ps: no argument support!" [] else ps.
Definition buildin_clear (argc : Z) : F S unit := if negb (argc =? 1) then say "clear: no argument support!" [] else clear.

Definition buildin_mkdir (argc : Z) (argv : list ptr) (line final_path : list Z) : F S (list Z * Z) :=
  if negb (argc =? 2) then say "mkdir: only support 1 argument!" [] ;; mret (final_path, -1)
  else
    p ← arg_at argv 1;
    final_path ← make_clear_abs_path line p final_path;
    say "Finish make_clear_abs_path, %s %s" [AStr (str_at line p); AStr (shown final_path)] ;;
    r ← flift (strcmp str_slash (Some 0) final_path (Some 0));
    if negb (r =? 0) then
      say "In strcmp(/, %s)" [AStr (shown final_path)] ;;
      r ← sys_mkdir junk final_path;
      if r =? 0 then say "After mkdir()" [] ;; mret (final_path, 0)
      else say "mkdir: create directory %s failed." [AStr (str_at line p)] ;; mret (final_path, -1)
    else mret (final_path, -1).
Definition buildin_rmdir (argc : Z) (argv : list ptr) (line final_path : list Z) : F S (list Z * Z) :=
  if negb (argc =? 2) then say "rmdir: only support 1 argument!" [] ;; mret (final_path, -1)
  else
    p ← arg_at argv 1;
    final_path ← make_clear_abs_path line p final_path;
    r ← flift (strcmp str_slash (Some 0) final_path (Some 0));
    if negb (r =? 0) then
      r ← sys_rmdir final_path;
      if r =? 0 then mret (final_path, 0) else say "rmdir: remove %s failed." [AStr (str_at line p)] ;; mret (final_path, -1)
    else mret (final_path, -1).
Definition buildin_rm (argc : Z) (argv : list ptr) (line final_path : list Z) : F S (list Z * Z) :=
  if negb (argc =? 2) then say "rm: only support 1 argument!" [] ;; mret (final_path, -1)
  else
    p ← arg_at argv 1;
    final_path ← make_clear_abs_path line p final_path;
    r ← flift (strcmp str_slash (Some 0) final_path (Some 0));
    if negb (r =? 0) then
      r ← sys_unlink final_path;
      if r =? 0 then mret (final_path, 0) else say "rm: delete %s failed." [AStr (str_at line p)] ;; mret (final_path, -1)
    else mret (final_path, -1).

(** [sys_make_user_prog] of kernel/syscall-init.c: a program from sector 300 of
    the first disk becomes a file.  The buffer is used without a test for
    NULL. *)
Definition sys_make_user_prog (file_name : list Z) (file_size : Z) : F S unit :=
  let sec_cnt := DIV_ROUND_UP file_size 512 in
  prog_buf ← fs_malloc (u32 (sec_cnt * 512));
  data ← service (sv_read 0 300 sec_cnt);
  touch prog_buf ;;
  fd ← sys_open junk file_name (Z.lor O_CREAT O_RDWR);
  (if negb (fd =? -1) then
     r ← sys_write fd data file_size;
     if r =? -1 then say "file write error!" [] else mret ()
   else mret ()) ;;
  _ ← sys_close fd;
  fs_free prog_buf.
Definition buildin_mkprog (argc : Z) (argv : list ptr) (line final_path : list Z) : F S (list Z * Z) :=
  if negb (argc =? 3) then say "mkprog: only support 2 argument!" [] ;; mret (final_path, -1)
  else
    p ← arg_at argv 1;
    final_path ← make_clear_abs_path line p final_path;
    q ← arg_at argv 2;
    count ← flift (str2int line q 10);
    sys_make_user_prog final_path (u32 count) ;;
    mret (final_path, 0).
Definition buildin_pp (argc : Z) : F S Z := if negb (argc =? 1) then say "pp: only support 0 argument!" [] ;; mret (-1) else pp ;; mret 0.

(** ** my_shell *)
Definition is_cmd (name : string) (line : list Z) (argv : list ptr) : F S bool :=
  a0 ← flift (rd argv 0); r ← flift (strcmp (cstring name) (Some 0) line a0); mret (r =? 0).

(** The chain of [strcmp]s. *)
Definition dispatch (sh : shell) : F S (shell * pass) :=
  let line := cmd_line sh in
  let argv := sh_argv sh in
  let argc := u32 (sh_argc sh) in
  let done f := mret (mkShell line f (cwd_cache sh) argv (sh_argc sh), Again) in
  ls ← is_cmd "ls" line argv;
  if (ls : bool) then f ← buildin_ls argc argv line (final_path sh); done f
  else
    cd ← is_cmd "cd" line argv;
    if (cd : bool) then
      '(f, ok) ← buildin_cd argc argv line (final_path sh);
      if (ok : bool) then
        cache ← flift (memset (cwd_cache sh) (Some 0) 0 MAX_PATH_LEN);
        '(cache, _) ← flift (strcpy cache (Some 0) f (Some 0));
        mret (mkShell line f cache argv (sh_argc sh), Again)
      else done f
    else
      pwd ← is_cmd "pwd" line argv;
      if (pwd : bool) then f ← buildin_pwd argc (final_path sh); done f
      else
        c ← is_cmd "ps" line argv;
        if (c : bool) then buildin_ps argc ;; done (final_path sh)
        else
          c ← is_cmd "clear" line argv;
          if (c : bool) then buildin_clear argc ;; done (final_path sh)
          else
            c ← is_cmd "mkdir" line argv;
            if (c : bool) then '(f, _) ← buildin_mkdir argc argv line (final_path sh); done f
            else
              c ← is_cmd "rmdir" line argv;
              if (c : bool) then '(f, _) ← buildin_rmdir argc argv line (final_path sh); done f
              else
                c ← is_cmd "rm" line argv;
                if (c : bool) then '(f, _) ← buildin_rm argc argv line (final_path sh); done f
                else
                  c ← is_cmd "mkprog" line argv;
                  if (c : bool) then '(f, _) ← buildin_mkprog argc argv line (final_path sh); done f
                  else
                    c ← is_cmd "pp" line argv;
                    if (c : bool) then _ ← buildin_pp argc; done (final_path sh)
                    else mret (sh, Fork).

(** One pass of the loop: a line is read from [keys], split and run. *)
Definition shell_pass (keys : list Z) (sh : shell) : F S (shell * pass * list Z) :=
  print_prompt (cwd_cache sh) ;;
  f ← flift (memset (final_path sh) (Some 0) 0 MAX_PATH_LEN);
  line ← flift (memset (cmd_line sh) (Some 0) 0 MAX_PATH_LEN);
  '(line, keys, shown_) ← flift (readline keys line MAX_PATH_LEN);
  fmod (λ s, set_console (console s ++ map (λ t, tty_msg t (cwd_cache sh)) shown_) s) ;;
  c0 ← flift (rd line 0);
  if c0 =? 0 then mret (mkShell line f (cwd_cache sh) (sh_argv sh) (sh_argc sh), Again, keys)
  else
    '(line, argv, argc) ← flift (cmd_parse line (sh_argv sh) 32);
    let sh := mkShell line f (cwd_cache sh) argv argc in
    if argc =? -1 then say "num of arguments exceed %d" [AInt MAX_ARG_NR] ;; mret (sh, Again, keys)
    else '(sh, e) ← dispatch sh; mret (sh, e, keys).

(** The start of [my_shell] before its loop. *)
Definition shell_enter (sh : shell) : F S shell :=
  say "Welcome to Lizec Operate System" [] ;;
  cache ← flift (wr (cwd_cache sh) 0 slash);
  cache ← flift (wr cache 1 0);
  mret (mkShell (cmd_line sh) (final_path sh) cache (sh_argv sh) (sh_argc sh)).

(** After [fork], with what [wait] returns. *)
Definition shell_parent (child_pid status : Z) : F S unit :=
  if child_pid =? -1 then flift Panic else say "child_pid %d, it's status: %d" [AInt child_pid; AInt status].
Definition shell_child (sh : shell) : F S child_end :=
  p ← arg_at (sh_argv sh) 0;
  f ← make_clear_abs_path (cmd_line sh) p (final_path sh);
  '(st, r) ← sys_stat f;
  if r =? -1 then say "my_shell: cannot access %s: No such file or directory" [AStr (shown f)] ;; mret (Exit (-1))
  else mret (Execv f (sh_argv sh)).
End code.
