(* ===== verification/ShellRun.v ===== *)
(** * The shell: the pass of its loop

    What a typed line leads to: the text the editor gives, its words, the
    command that runs with them, and the path a command works on. *)
From Stdlib Require Import String.
From S2P Require Import Prelude CString Bitmap Machine Ide DiskBytes FsBase Inode Dir File Path Fs FsDemo Shell ShellSpec ShellCmd.

(** The buffers have the sizes of their declarations. *)
Definition shell_ok (sh : shell) : Prop :=
  len (cmd_line sh) = 128 ∧ len (final_path sh) = 128 ∧ len (cwd_cache sh) = 64 ∧ len (sh_argv sh) = 16.
(** The shell after a line with words [ws] was split. *)
Definition parsed (sh sh' : shell) (ws : list (list Z)) : Prop :=
  shell_ok sh' ∧ final_path sh' = replicate 128 0 ∧ cwd_cache sh' = cwd_cache sh ∧ sh_argc sh' = len ws
  ∧ (∀ i w, ws !! i = Some w → ∃ q, sh_argv sh' !! i = Some (Some q) ∧ cstr (cmd_line sh') q w)
  ∧ (∀ i, (length ws ≤ i < 16)%nat → sh_argv sh' !! i = Some None).

Lemma memset_all buf n : len buf = n → memset buf (Some 0) 0 n = Ok (replicate (Z.to_nat n) 0).
Proof.
  intros Hl. pose proof (len_nonneg buf). rewrite memset_splice by lia. cbn [take app Z.to_nat]. rewrite drop_ge by (unfold len in *; lia). by rewrite app_nil_r.
Qed.

Lemma memset_loop_overruns n v : ∀ buf p, 0 ≤ p ≤ len buf → len buf < p + Z.of_nat n → memset_loop buf p v n = Fault.
Proof.
  induction n as [|n IH]; intros buf p Hp Hn; [lia|]. cbn [memset_loop]. destruct (Z.eq_dec p (len buf)) as [->|].
  - rewrite wr_fault by lia. done.
  - rewrite wr_ok by lia. cbn [mbind outcome_bind]. apply IH; rewrite len_insert; lia.
Qed.
(** A literal is a string. *)
Ltac cstr_lit := exists [], []; split_and!; [done|done|repeat (apply Forall_cons; split; [done|]); by apply Forall_nil].

Section pass.
Context {S : Type} `{!Services S}.
Context (ps pp : F S unit) (junk : list Z).
Implicit Types (st : fs S) (sh : shell).

(** The console after the prompt and the echo of a line. *)
Definition echoed sh (out : list tty) st : fs S :=
  set_console (console st ++ ("[lizec@LOS %s]$ "%string, [AStr (shown (cwd_cache sh))]) :: map (λ t, tty_msg t (cwd_cache sh)) out) st.

(** What follows [readline] in the pass. *)
Definition after_line (line left_ : list Z) sh : F S (shell * pass * list Z) :=
  c0 ← flift (rd line 0);
  if c0 =? 0 then mret (mkShell line (replicate 128 0) (cwd_cache sh) (sh_argv sh) (sh_argc sh), Again, left_)
  else
    '(line, argv, argc) ← flift (cmd_parse line (sh_argv sh) 32);
    let sh := mkShell line (replicate 128 0) (cwd_cache sh) argv argc in
    if argc =? -1 then say "num of arguments exceed %d" [AInt MAX_ARG_NR] ;; mret (sh, Again, left_)
    else '(sh, e) ← dispatch ps pp junk sh; mret (sh, e, left_).

Lemma shell_pass_line keys k left_ sh st : shell_ok sh → Forall plain keys → (k = 10 ∨ k = 13) → (∀ n, len (edited (take n keys)) < 128) →
  ∃ line out, len line = 128 ∧ cstr line 0 (edited keys) ∧ screen out = edited keys ∧
    shell_pass ps pp junk (keys ++ k :: left_) sh st = after_line line left_ sh (echoed sh (out ++ [Put 10]) st).
Proof.
  intros (Hl & Hf & Hc & Ha) Hp Hk Hfit. destruct (readline_ok keys k left_ (replicate 128 0) 128 Hp Hk eq_refl ltac:(lia) Hfit) as (line & out & E & H1 & H2 & H3).
  exists line, out. split_and!; [done..|]. unfold after_line, shell_pass, print_prompt, say, fmod, flift, mbind, F_bind, MAX_PATH_LEN, echoed.
  rewrite !memset_all by done. cbn [mbind outcome_bind]. change (Z.to_nat 128) with 128%nat. rewrite E. cbn [mbind outcome_bind].
  unfold set_console at 2 4. cbn [console]. by rewrite <- app_assoc.
Qed.
Lemma after_line_words line left_ t sh st : shell_ok sh → len line = 128 → cstr line 0 t → t ≠ [] → len (words 32 t) ≤ 16 →
  ∃ sh', parsed sh sh' (words 32 t) ∧ after_line line left_ sh st = ('(sh, e) ← dispatch ps pp junk sh'; mret (sh, e, left_)) st.
Proof.
  intros (_ & _ & Hc & Ha) Hl Hcs E Hws. destruct (cmd_parse_ok line t (sh_argv sh) 32 Hcs ltac:(lia) Ha Hws) as (line' & argv' & Ep & Ha' & Hw & Hn).
  assert (len line' = 128) as Hl' by (rewrite <- Hl; by eapply cmd_parse_len).
  exists (mkShell line' (replicate 128 0) (cwd_cache sh) argv' (len (words 32 t))). split; [by split_and!|].
  unfold after_line, flift, mbind, F_bind. rewrite (cstr_rd _ _ _ Hcs). destruct t as [|c t]; [done|]. cbn [head default from_option id mbind outcome_bind].
  destruct (cstr_tail _ _ _ _ Hcs) as [_ ?]. destruct (Z.eqb_spec c 0); [lia|]. rewrite Ep. cbn [mbind outcome_bind].
  destruct (Z.eqb_spec (len (words 32 (c :: t))) (-1)); [unfold len in *; lia|]. done.
Qed.

Lemma is_cmd_null name line argv st : argv !! 0%nat = Some None → is_cmd name line argv st = Panic.
Proof. intros H. unfold is_cmd, flift, mbind, F_bind. assert (rd argv 0 = Ok None) as -> by by apply rd_some. done. Qed.
Lemma is_cmd_word name cs line argv q w st : argv !! 0%nat = Some (Some q) → cstr line q w → cstr (cstring name) 0 cs →
  is_cmd name line argv st = Ok (scmp cs w =? 0, st).
Proof. intros H Hw Hn. unfold is_cmd, flift, mbind, F_bind. assert (rd argv 0 = Ok (Some q)) as -> by by apply rd_some. cbn [mbind outcome_bind]. by rewrite (strcmp_ok _ _ _ _ _ _ Hn Hw). Qed.

(** C34: A pass of the shell's loop over a typed line whose edited text stays below 128
    characters at every key, the size of the buffer, and has at most 16 words, the
    size of [argv]: the terminal shows the edited text; an empty line runs
    nothing; a line of blanks alone stops the machine, for [argv[0]] is NULL and
    [strcmp] asserts it is not; any other such line runs the command chain with
    [argv] holding the words, in order. *)
Theorem shell_pass_correct keys k left_ sh st :
  shell_ok sh → Forall plain keys → (k = 10 ∨ k = 13) → (∀ n, len (edited (take n keys)) < 128) → len (words 32 (edited keys)) ≤ 16 →
  ∃ out, screen out = edited keys ∧
    (edited keys = [] → ∃ sh', shell_pass ps pp junk (keys ++ k :: left_) sh st = Ok ((sh', Again, left_), echoed sh (out ++ [Put 10]) st)) ∧
    (edited keys ≠ [] → words 32 (edited keys) = [] → shell_pass ps pp junk (keys ++ k :: left_) sh st = Panic) ∧
    (words 32 (edited keys) ≠ [] → ∃ sh', parsed sh sh' (words 32 (edited keys)) ∧
      shell_pass ps pp junk (keys ++ k :: left_) sh st
      = ('(sh, e) ← dispatch ps pp junk sh'; mret (sh, e, left_)) (echoed sh (out ++ [Put 10]) st)).
Proof.
  intros Hsh Hp Hk Hfit Hws. destruct (shell_pass_line keys k left_ sh st Hsh Hp Hk Hfit) as (line & out & Hl & Hcs & Ho & ->). exists out. split; [done|]. split_and!.
  - intros E. rewrite E in Hcs. unfold after_line, flift, mbind, F_bind. rewrite (cstr_rd _ _ _ Hcs). eexists. reflexivity.
  - intros E E0. destruct (after_line_words line left_ _ sh (echoed sh (out ++ [Put 10]) st) Hsh Hl Hcs E Hws) as (sh' & (_ & _ & _ & _ & _ & Hn) & ->).
    unfold dispatch, mbind, F_bind. rewrite is_cmd_null; [done|]. apply Hn. rewrite E0. cbn. lia.
  - intros E0. apply (after_line_words line left_ (edited keys)); [done..| |done]. intros E. by rewrite E in E0.
Qed.

Lemma buildin_cd_home argv line st :
  buildin_cd 1 argv line (replicate 128 0) st = Ok ((slash :: replicate 127 0, true), set_me (set_cwd_inode_nr 0 (me st)) st).
Proof.
  unfold buildin_cd. cbn [Z.ltb Z.compare Pos.compare Pos.compare_cont]. change (1 =? 1) with true. cbv iota. unfold mbind, F_bind.
  change (flift (wr (replicate 128 0) 0 slash) st) with (Ok (slash :: replicate 127 0, st)). cbv beta iota.
  change (flift (wr (slash :: replicate 127 0) 1 0) st) with (Ok (slash :: replicate 127 0, st)). cbv beta iota.
  assert (sys_chdir (slash :: replicate 127 0) st = Ok (0, set_me (set_cwd_inode_nr 0 (me st)) st)) as ->; [|reflexivity].
  unfold sys_chdir, search_file, mbind, F_bind. unfold fget at 1. cbv beta iota. change (flift (is_root (slash :: replicate 127 0)) st) with (Ok (true, st)). cbv beta iota.
  change (flift (wr (searched_path empty_record) 0 0) st) with (Ok (replicate 128 0, st)). cbv beta iota. cbn [mret F_ret negb Z.eqb file_type parent_dir]. change (0 =? -1) with false.
  cbn [negb]. change (FT_DIRECTORY =? FT_DIRECTORY) with true. cbv beta iota. unfold fmod, dir_close, fget, mbind, F_bind, mret, F_ret. cbn [root_dir set_me]. by rewrite Z.eqb_refl.
Qed.

(** [cd] without an argument always ends in the [memset] of 128 bytes of the
    64-byte [cwd_cache]: the line faults in every state of the file system. *)
Theorem shell_cd_overruns keys k left_ sh st :
  shell_ok sh → Forall plain keys → (k = 10 ∨ k = 13) → (∀ n, len (edited (take n keys)) < 128) → words 32 (edited keys) = [[99; 100]] →
  shell_pass ps pp junk (keys ++ k :: left_) sh st = Fault.
Proof.
  intros Hsh Hp Hk Hfit Hws. destruct (shell_pass_line keys k left_ sh st Hsh Hp Hk Hfit) as (line & out & Hl & Hcs & Ho & ->).
  generalize (echoed sh (out ++ [Put 10]) st). clear st. intros st.
  destruct (after_line_words line left_ _ sh st Hsh Hl Hcs) as (sh' & Hpa & ->); [intros E; by rewrite E in Hws|by rewrite Hws|]. rewrite Hws in Hpa.
  destruct Hpa as ((_ & _ & Hc & _) & Hf & Hcw & Har & Hw & _). destruct (Hw O _ eq_refl) as (q & Hq & Hcd).
  apply bind_fault_l. unfold dispatch. rewrite Har. change (u32 (len [[99; 100]])) with 1.
  unfold mbind, F_bind. rewrite (is_cmd_word "ls" [108; 115] _ _ _ _ _ Hq Hcd) by cstr_lit. change (scmp [108; 115] [99; 100] =? 0) with false. cbv beta iota.
  rewrite (is_cmd_word "cd" [99; 100] _ _ _ _ _ Hq Hcd) by cstr_lit. change (scmp [99; 100] [99; 100] =? 0) with true. cbv beta iota.
  rewrite Hf, buildin_cd_home. cbv beta iota. unfold flift, memset. cbn [mbind outcome_bind nonnull].
  rewrite memset_loop_overruns by (rewrite Hc; unfold MAX_PATH_LEN; lia). done.
Qed.
End pass.

(** ** Paths *)
Lemma span_name_slash s b n r : span_name s = (n, r) → span_name (s ++ slash :: b) = (n, r ++ slash :: b).
Proof.
  revert n r. induction s as [|c s IH]; intros n r; cbn; [intros [= <- <-]; done|]. destruct (c =? slash); [intros [= <- <-]; done|].
  destruct (span_name s) as [n' r'] eqn:E. intros [= <- <-]. by rewrite (IH n' r' eq_refl).
Qed.
Lemma drop_slashes_app s b : drop_slashes (s ++ slash :: b) = if decide (drop_slashes s = []) then drop_slashes b else drop_slashes s ++ slash :: b.
Proof. induction s as [|c s IH]; [done|]. cbn [app drop_slashes]. destruct (c =? slash); [apply IH|]. by rewrite decide_False. Qed.
Lemma components_same s s' : next_name s = next_name s' → components s = components s'.
Proof. intros H. destruct (next_name s') as [n r] eqn:E. by rewrite (components_next _ _ _ H), (components_next _ _ _ E). Qed.
Lemma components_app a b : components (a ++ slash :: b) = components a ++ components b.
Proof.
  induction a as [a IH] using (induction_ltof1 _ length). destruct (next_name a) as [n r] eqn:E. pose proof (next_name_rest _ _ _ E) as (L1 & L2 & L3).
  rewrite (components_next a _ _ E). case_decide as Hn.
  - destruct (L3 Hn) as [Ea _]. apply components_same. unfold next_name. rewrite drop_slashes_app, decide_True by done. done.
  - rewrite (components_next _ n (r ++ slash :: b)), decide_False by
      (done || (unfold next_name in *; rewrite drop_slashes_app, decide_False by (intros E0; rewrite E0 in E; cbn in E; congruence); by apply span_name_slash)).
    rewrite IH by (unfold ltof; auto). done.
Qed.
Lemma components_slash s : components (slash :: s) = components s.
Proof. apply (components_app [] s). Qed.

(** The path a command works on: names from the root, or from the working
    directory [cwd] when the argument has no leading slash. *)
Definition base_of (s cwd : list Z) : list (list Z) := if decide (head s = Some slash) then [] else components cwd.

Section paths.
Context {S : Type} `{!Services S}.
Implicit Types (st : fs S).

(** In the root directory [sys_getcwd] answers [/]; the sector buffer it took
    from the heap is not given back. *)
Lemma sys_getcwd_root c L n st x y rest size : fs_at c L (Datatypes.S n) st → cwd_inode_nr (me st) = 0 →
  ∃ r st', sys_getcwd (x :: y :: rest) size st = Ok ((slash :: 0 :: rest, true), st') ∧ L !! r = None ∧ served c (<[r := pool_me st]> L) n st st'.
Proof.
  intros Hat Hcwd. assert (fwp (sys_getcwd (x :: y :: rest) size) st (λ v st', v = (slash :: 0 :: rest, true) ∧ ∃ r, L !! r = None ∧ served c (<[r := pool_me st]> L) n st st')) as H.
  - unfold sys_getcwd. fstep. eapply fwp_malloc; [exact Hat|done|]. intros r st' Hr Hlr Hs. destruct (Z.eqb_spec r NULL); [done|]. fstep. fstep.
    assert (cwd_inode_nr (me st') = 0) as -> by (by destruct Hs as (z & -> & _)). change (i32 0) with 0. fstep. fstep; [done|]. cbn [Z.eqb]. repeat fstep.
    apply fwp_lift. rewrite wr_ok by (unfold len; cbn [length]; lia). cbn [returns]. fstep. apply fwp_lift. rewrite wr_ok by (rewrite len_insert; unfold len; cbn [length]; lia). cbn [returns]. fstep. eauto.
  - apply fwp_inv in H as (v & st' & E & -> & r & H1 & H2). eauto.
Qed.

(** The directory part that the argument is appended to, with its slash. *)
Definition prefix_path : F S (list Z) :=
  '(abs_path, ok) ← sys_getcwd (replicate 128 0) 128;
  if (ok : bool) then
    a0 ← flift (rd abs_path 0); a1 ← flift (rd abs_path 1);
    if negb ((a0 =? slash) && (a1 =? 0)) then flift (put abs_path str_slash) else mret abs_path
  else mret abs_path.
Lemma prefix_path_ok st st' abs cwd s : sys_getcwd (replicate 128 0) 128 st = Ok ((abs, true), st') → len abs = 128 → cstr abs 0 cwd → head cwd = Some slash → len cwd + 1 ≤ 124 →
  ∃ a mid, prefix_path st = Ok (a ++ 0 :: mid, st') ∧ len (a ++ 0 :: mid) = 128 ∧ Forall (λ c, 0 < c < 256) a ∧ head (a ++ s) = Some slash
    ∧ components (a ++ s) = components cwd ++ components s ∧ len a ≤ len cwd + 1.
Proof.
  intros E Hl (pre & post & Eabs & Hp & Hch) Hh Hroom. destruct pre; [|unfold len in Hp; cbn in Hp; lia]. cbn [app] in Eabs. subst abs.
  destruct cwd as [|c cwd]; [done|]. injection Hh as ->. unfold prefix_path, mbind, F_bind, flift. rewrite E. rewrite (rd_some _ _ slash) by done. cbn [mbind outcome_bind].
  destruct cwd as [|d cwd].
  - rewrite (rd_some _ _ 0) by done. cbn. exists [slash], post. split_and!; try done. apply (components_slash s).
  - rewrite (rd_some _ _ d) by done. cbn [mbind outcome_bind]. assert (0 < d) by (apply Forall_cons in Hch as [_ [? _]%Forall_cons]; lia). destruct (Z.eqb_spec d 0); [lia|].
    rewrite andb_false_r. cbn [negb]. set (cw := slash :: d :: cwd) in *. assert (len post = 127 - len cw) as Hpost by (rewrite len_app in Hl; unfold len in *; cbn [length] in *; lia).
    rewrite (put_ok cw str_slash _ [slash] post slash_cstr Hch) by (done || (unfold len in *; cbn [length]; lia)). cbn [mbind outcome_bind].
    exists (cw ++ [slash]), (drop 1 post). rewrite <- !app_assoc. split_and!.
    + done.
    + rewrite !len_app. unfold len in *. cbn [length app] in *. rewrite length_drop. lia.
    + apply Forall_app. split; [done|]. apply Forall_cons. split; [done|by apply Forall_nil].
    + done.
    + apply components_app.
    + by rewrite len_snoc.
Qed.

(** C35: [make_clear_abs_path]: the result is the canonical absolute path of the
    argument, whatever mixture of names, [.], [..] and slashes it is: resolved
    from the root when it starts with a slash, else from the directory
    [sys_getcwd] reports.  The names have at most 15 characters and the path,
    with the working directory, at most 124, as the buffers ask. *)
Theorem make_clear_abs_path_correct line p s f st st' cwd :
  cstr line p s → len f = 128 →
  (if decide (head s = Some slash) then st' = st
   else ∃ abs, sys_getcwd (replicate 128 0) 128 st = Ok ((abs, true), st') ∧ len abs = 128 ∧ cstr abs 0 cwd ∧ head cwd = Some slash) →
  Forall (λ c, len c ≤ 15) (base_of s cwd ++ components s) →
  (if decide (head s = Some slash) then 0 else len cwd + 1) + len s ≤ 124 →
  ∃ f', make_clear_abs_path line p f st = Ok (f', st') ∧ len f' = 128 ∧ cstr f' 0 (path_str (resolve (base_of s cwd ++ components s))).
Proof.
  intros Hs Hf Hcwd Hall Hroom. pose proof (len_nonneg s).
  assert (∃ a mid, (if negb (default 0 (head s) =? slash) then prefix_path else mret (replicate 128 0)) st = Ok (a ++ 0 :: mid, st')
    ∧ len (a ++ 0 :: mid) = 128 ∧ Forall (λ c, 0 < c < 256) a ∧ head (a ++ s) = Some slash ∧ components (a ++ s) = base_of s cwd ++ components s
    ∧ len a ≤ (if decide (head s = Some slash) then 0 else len cwd + 1)) as (a & mid & E & Hla & Hca & Hh & Hco & Hlen).
  { unfold base_of. case_decide as Hh.
    - rewrite Hh. cbn. exists [], (replicate 127 0). subst st'. by split_and!.
    - destruct Hcwd as (abs & E & Hl & Hc & Hhc). destruct (Z.eqb_spec (default 0 (head s)) slash) as [E0|_]; [destruct (head s); cbn in E0; [congruence|done]|].
      apply (prefix_path_ok st st' abs cwd s); try done. lia. }
  change (make_clear_abs_path line p f) with
    (c ← flift (rd line p); abs_path ← (if negb (c =? slash) then prefix_path else mret (replicate 128 0));
     '(abs_path, _) ← flift (strcat abs_path (Some 0) line (Some p)); flift (wash_path abs_path f)).
  unfold mbind, F_bind. unfold flift at 1. rewrite (cstr_rd _ _ _ Hs). cbn [mbind outcome_bind]. rewrite E. rewrite len_app in Hla. assert (len mid + 1 = 128 - len a) as Hmid by (unfold len in *; cbn [length] in *; lia).
  rewrite <- (take_drop (length s) mid). unfold flift at 1.
  pose proof (strcat_ok [] a (take (length s) mid) (drop (length s) mid) line p s Hs Hca) as Hst. cbn [app] in Hst. change (len (@nil Z)) with 0 in Hst.
  rewrite Hst by (rewrite length_take; unfold len in *; lia). cbn [mbind outcome_bind]. unfold flift.
  destruct (wash_path_ok ((a ++ s) ++ 0 :: drop (length s) mid) (a ++ s) f) as (f' & -> & Hl' & Hc').
  - exists [], (drop (length s) mid). split_and!; [done|done|]. apply Forall_app. split; [done|]. by destruct Hs as (? & ? & _ & _ & ?).
  - done.
  - by rewrite Hco.
  - rewrite len_app. lia.
  - cbn. exists f'. split_and!; [done|lia|]. by rewrite <- Hco.
Qed.
End paths.

(** ** At concrete inputs *)
Lemma shell_start_ok : shell_ok shell_start.
Proof. done. Qed.
Lemma plain_keys keys : forallb (λ k, (0 <? k) && (k <? 256) && negb (k =? 10) && negb (k =? 13)) keys = true → Forall plain keys.
Proof. rewrite forallb_forall, Forall_forall. intros H k Hk%list_elem_of_In%H. unfold plain. lia. Qed.
Lemma short_prefixes keys n : Nat.ltb (length keys) 128 = true → len (edited (take n keys)) < 128.
Proof.
  intros Hl%Nat.ltb_lt. assert (∀ ks t, (length (foldl edit t ks) ≤ length t + length ks)%nat) as H.
  { induction ks as [|k ks IH]; intros t; [cbn; lia|]. cbn. etrans; [apply IH|]. assert (length (edit t k) ≤ length t + 1)%nat; [|lia].
    unfold edit. repeat case_match; rewrite ?length_app; cbn; try lia. destruct (snoc_case t) as [->|(l & x & ->)]; [cbn; lia|]. rewrite removelast_last, length_app. lia. }
  specialize (H (take n keys) []). rewrite length_take in H. cbn in H. unfold len, edited. lia.
Qed.

(** [" pwd"] *)
Definition demo_typed : list Z := [32; 112; 119; 120; 8; 100].
Lemma shell_pass_correct_witness :
  ∃ out, screen out = [32; 112; 119; 100] ∧
    ([32; 112; 119; 100] = [] → ∃ sh', shell_pass (mret ()) (mret ()) [] (demo_typed ++ 13 :: []) shell_start demo_fs = Ok ((sh', Again, []), echoed shell_start (out ++ [Put 10]) demo_fs)) ∧
    ([32; 112; 119; 100] ≠ [] → [[112; 119; 100]] = [] → shell_pass (mret ()) (mret ()) [] (demo_typed ++ 13 :: []) shell_start demo_fs = Panic) ∧
    ([[112; 119; 100]] ≠ [] → ∃ sh', parsed shell_start sh' [[112; 119; 100]] ∧
      shell_pass (mret ()) (mret ()) [] (demo_typed ++ 13 :: []) shell_start demo_fs
      = ('(sh, e) ← dispatch (mret ()) (mret ()) [] sh'; mret (sh, e, [])) (echoed shell_start (out ++ [Put 10]) demo_fs)).
Proof.
  apply (shell_pass_correct (mret ()) (mret ()) [] demo_typed 13 [] shell_start demo_fs).
  - apply shell_start_ok.
  - by apply plain_keys.
  - by right.
  - intros n. by apply short_prefixes.
  - vm_compute. discriminate.
Defined.
Lemma shell_cd_overruns_witness : shell_pass (mret ()) (mret ()) [] ([99; 100; 32] ++ 13 :: []) shell_start demo_fs = Fault.
Proof.
  apply (shell_cd_overruns (mret ()) (mret ()) [] [99; 100; 32] 13 [] shell_start demo_fs).
  - apply shell_start_ok.
  - by apply plain_keys.
  - by right.
  - intros n. by apply short_prefixes.
  - reflexivity.
Defined.

(** [sub/../x] from the root directory. *)
Definition demo_rel : list Z := [115; 117; 98; 47; 46; 46; 47; 120].
Lemma make_clear_abs_path_correct_witness :
  ∃ st' f', make_clear_abs_path (demo_rel ++ [0]) 0 (replicate 128 0) demo_fs = Ok (f', st') ∧ len f' = 128 ∧ cstr f' 0 [47; 120].
Proof.
  destruct (sys_getcwd_root demo_disk demo_live 1 demo_fs 0 0 (replicate 126 0) 128 (demo_fs_at _ _ 2 ltac:(lia)) eq_refl) as (r & st' & E & _). exists st'.
  apply (make_clear_abs_path_correct (demo_rel ++ [0]) 0 demo_rel (replicate 128 0) demo_fs st' [47]).
  - cstr_lit.
  - reflexivity.
  - rewrite decide_False by done. exists (slash :: 0 :: replicate 126 0). split_and!; [exact E|reflexivity| |reflexivity].
    exists [], (replicate 126 0). split_and!; [reflexivity|reflexivity|]. by repeat (apply Forall_cons; split; [done|]).
  - repeat (apply Forall_cons; split; [done|]). by apply Forall_nil.
  - vm_compute. discriminate.
Defined.
