(* ===== verification/Fork.v ===== *)
(** * userprog/fork.c, userprog/wait_exit.c: copying and ending a process

    [sys_fork] copies the PCB, the bitmap of user addresses and every user page,
    the last through a kernel page while it switches between two page
    directories.  [sys_exit] gives the user pages back and wakes the parent.
    What both do to open files is an argument, [files] and [close]; the code
    that counts the openings is [update_inode_open_cnts], on the state of the
    file system.  [intr_exit] is the address of the assembly routine, and
    [bits_addr] the address of the bitmap of user addresses, whose bytes are in
    the PCB here. *)
From Stdlib Require Import String.
From S2P Require Import Prelude CString Bitmap Machine DList Mmu PageMem Sched Sync Heap HeapBoot Stdio Console Cpu Thread.
From S2P Require Import Ide DiskBytes FsBase Inode.

(** ** fork.c *)

(** [memcpy] of the page of a PCB: the page's words, and the members, tags and
    descriptors that are kept apart. *)
Fixpoint copy_descs (n : nat) (dst src : Z) (m : gmap Z MemBlockDesc) : gmap Z MemBlockDesc :=
  match n with
  | O => m
  | Datatypes.S n => copy_descs n (dst + sizeof_MemBlockDesc) (src + sizeof_MemBlockDesc) (<[dst := default (mkDesc 0 0) (m !! src)]> m)
  end.
Definition copy_tag (dst src : Z) (h : gmap Z ListElem) : gmap Z ListElem := <[dst := default (mkElem 0 0) (h !! src)]> h.
Definition copy_pcb (child_thread parent_thread : Z) : K unit :=
  vcopy 1024 child_thread parent_thread ;;
  t ← ld_task parent_thread;
  modify (λ s, set_tasks (<[child_thread := t]> (tasks s)) s) ;;
  modify (λ s, set_links (copy_tag (general_tag child_thread) (general_tag parent_thread)
    (copy_tag (all_list_tag child_thread) (all_list_tag parent_thread) (links s))) s) ;;
  modify (λ s, set_descs (copy_descs DESC_CNT (u_block_desc child_thread) (u_block_desc parent_thread) (descs s)) s).

Definition copy_pcb_vaddrbitmap_stack0 (child_thread parent_thread : Z) : K Z :=
  copy_pcb child_thread parent_thread ;;
  p ← fork_pid;
  upd_task child_thread (set_pid p) ;;
  upd_task child_thread (set_elapsed_ticks 0) ;;
  upd_task child_thread (set_status TASK_READY) ;;
  upd_task child_thread (λ t, set_ticks (priority t) t) ;;
  t ← ld_task parent_thread;
  upd_task child_thread (set_parent_pid (pid t)) ;;
  modify (λ s, set_links (zero_links child_thread (links s)) s) ;;
  block_desc_init (u_block_desc child_thread) ;;
  let bitmap_pg_cnt := DIV_ROUND_UP ((0xc0000000 - USER_VADDR_START) / PG_SIZE / 8) PG_SIZE in
  vaddr_btmp ← get_kernel_pages bitmap_pg_cnt;
  if vaddr_btmp =? NULL then mret (-1)
  else
    t ← ld_task child_thread;
    let m := vaddr_map (userprog_vaddr t) in
    b ← lift (slice (Bitmap.bits m) 0 (bitmap_pg_cnt * PG_SIZE));
    upd_task child_thread (set_userprog_vaddr (mkVirtualAddr (mkBitMap (btmp_bytes_len m) b) (vaddr_start (userprog_vaddr t)))) ;;
    mret 0.

(** One page of the parent, through [buf_page]. *)
Definition copy_page (child_thread parent_thread buf_page prog_vaddr : Z) : K unit :=
  vcopy 1024 buf_page prog_vaddr ;;
  page_dir_activate child_thread ;;
  _ ← get_a_page_without_opvaddrbitmap PF_USER prog_vaddr;
  vcopy 1024 prog_vaddr buf_page ;;
  page_dir_activate parent_thread.
(** The loops over the bits of a byte and over the bytes. *)
Fixpoint copy_bits (n : nat) (child_thread parent_thread buf_page vaddr_start idx_byte idx_bit b : Z) : K unit :=
  match n with
  | O => mret ()
  | Datatypes.S n =>
      (if negb (Z.land (Z.shiftl BITMAP_MASK idx_bit) b =? 0) then
         copy_page child_thread parent_thread buf_page (u32 (u32 (idx_byte * 8 + idx_bit) * PG_SIZE + vaddr_start))
       else mret ()) ;;
      copy_bits n child_thread parent_thread buf_page vaddr_start idx_byte (idx_bit + 1) b
  end.
Fixpoint copy_bytes (n : nat) (child_thread parent_thread buf_page vaddr_start idx_byte : Z) (btmp : list Z) : K unit :=
  match n with
  | O => mret ()
  | Datatypes.S n =>
      b ← lift (rd btmp idx_byte);
      (if negb (b =? 0) then copy_bits 8 child_thread parent_thread buf_page vaddr_start idx_byte 0 b else mret ()) ;;
      copy_bytes n child_thread parent_thread buf_page vaddr_start (idx_byte + 1) btmp
  end.
Definition copy_body_stack3 (child_thread parent_thread buf_page : Z) : K unit :=
  t ← ld_task parent_thread;
  let m := vaddr_map (userprog_vaddr t) in
  copy_bytes (Z.to_nat (btmp_bytes_len m)) child_thread parent_thread buf_page (vaddr_start (userprog_vaddr t)) 0 (Bitmap.bits m).

(** The stack that [switch_to] pops: four registers and the return address. *)
Definition build_child_stack (intr_exit child_thread : Z) : K Z :=
  let intr_0_stack := u32 (child_thread + PG_SIZE - sizeof_IntrStack) in
  vstore (intr_0_stack + is_eax) 0 ;;
  vstore (intr_0_stack - 4) intr_exit ;;
  store_all intr_0_stack [-8; -12; -16; -20] 0 ;;
  upd_task child_thread (set_self_kstack (intr_0_stack - 20)) ;;
  mret 0.

Definition copy_process (console_lock intr_exit : Z) (files : Z → K unit) (child_thread parent_thread : Z) : K Z :=
  buf_page ← get_kernel_pages 1;
  if buf_page =? NULL then mret (-1)
  else
    r ← copy_pcb_vaddrbitmap_stack0 child_thread parent_thread;
    if r =? -1 then mret (-1)
    else
      dir ← create_page_dir console_lock;
      upd_task child_thread (set_pgdir dir) ;;
      if dir =? NULL then mret (-1)
      else
        copy_body_stack3 child_thread parent_thread buf_page ;;
        _ ← build_child_stack intr_exit child_thread;
        files child_thread ;;
        mfree_page PF_KERNEL buf_page 1 ;;
        mret 0.

Definition sys_fork (console_lock intr_exit : Z) (files : Z → K unit) : K Z :=
  parent_thread ← running_thread;
  child_thread ← get_kernel_pages 1;
  if child_thread =? NULL then mret (-1)
  else
    st ← intr_get_status;
    t ← ld_task parent_thread;
    kassert (bool_decide (st = INTR_OFF) && negb (pgdir t =? NULL)) ;;
    r ← copy_process console_lock intr_exit files child_thread parent_thread;
    if r =? -1 then mret (-1)
    else
      enqueue_thread child_thread ;;
      c ← ld_task child_thread;
      mret (pid c).

(** [update_inode_open_cnts]: [fds] is the table of the child. *)
Section files.
Context {S : Type} `{!Services S}.
Fixpoint count_fds (n : nat) (local_fd : Z) (fds : list Z) : F S unit :=
  match n with
  | O => mret ()
  | Datatypes.S n =>
      global_fd ← flift (rd fds local_fd);
      fassert (global_fd <? MAX_FILE_OPEN) ;;
      (if negb (global_fd =? -1) then
         f ← ld_file global_fd;
         i ← ld_inode (fd_inode f);
         st_inode (fd_inode f) (set_open_cnts (u32 (i_open_cnts i + 1)) i)
       else mret ()) ;;
      count_fds n (local_fd + 1) fds
  end.
Definition update_inode_open_cnts (fds : list Z) : F S unit := count_fds (Z.to_nat (MAX_FILES_OPEN_PER_PROC - 3)) 3 fds.
End files.

(** ** wait_exit.c: sys_exit *)

(** The loop over the entries of a page table, and over the directory. *)
Fixpoint release_ptes (n : nat) (first_pte_vaddr_in_pde pte_idx : Z) : K unit :=
  match n with
  | O => mret ()
  | Datatypes.S n =>
      pte ← vload (u32 (first_pte_vaddr_in_pde + 4 * pte_idx));
      (if negb (Z.land pte 1 =? 0) then free_a_phy_page (Z.land pte 0xfffff000) else mret ()) ;;
      release_ptes n first_pte_vaddr_in_pde (pte_idx + 1)
  end.
Fixpoint release_pdes (n : nat) (pgdir_vaddr pde_idx : Z) : K unit :=
  match n with
  | O => mret ()
  | Datatypes.S n =>
      pde ← vload (u32 (pgdir_vaddr + 4 * pde_idx));
      (if negb (Z.land pde 1 =? 0) then
         release_ptes 1024 (pte_ptr (pde_idx * 0x400000)) 0 ;;
         free_a_phy_page (Z.land pde 0xfffff000)
       else mret ()) ;;
      release_pdes n pgdir_vaddr (pde_idx + 1)
  end.
Fixpoint release_fds (n : nat) (fd_idx : Z) (close : Z → K unit) (thread : Z) : K unit :=
  match n with
  | O => mret ()
  | Datatypes.S n =>
      t ← ld_task thread;
      g ← lift (rd (fd_table t) fd_idx);
      (if negb (g =? -1) then close fd_idx else mret ()) ;;
      release_fds n (fd_idx + 1) close thread
  end.
Definition release_prog_resource (bits_addr : Z) (close : Z → K unit) (release_thread : Z) : K unit :=
  t ← ld_task release_thread;
  release_pdes 768 (pgdir t) 0 ;;
  let bitmap_pg_cnt := btmp_bytes_len (vaddr_map (userprog_vaddr t)) / PG_SIZE in
  mfree_page PF_KERNEL bits_addr bitmap_pg_cnt ;;
  release_fds (Z.to_nat (MAX_FILES_OPEN_PER_PROC - 3)) 3 close release_thread.

Definition sys_exit (bits_addr : Z) (close : Z → K unit) (status_ : Z) : K unit :=
  child_thread ← running_thread;
  upd_task child_thread (set_exit_status status_) ;;
  t ← ld_task child_thread;
  (if parent_pid t =? -1 then kfail Panic else mret ()) ;;
  al ← gets (λ s, thread_all_list (glob s));
  _ ← list_traversal al init_adopt_a_child (pid t);
  release_prog_resource bits_addr close child_thread ;;
  t ← ld_task child_thread;
  parent_thread ← pid2thread (parent_pid t);
  p ← ld_task parent_thread;
  (if bool_decide (status p = TASK_WAITING) then thread_unblock parent_thread else mret ()) ;;
  _ ← thread_block TASK_HANGING;
  mret ().
