(* ===== verification/ForkSpec.v ===== *)
(** * userprog/fork.c: the child's address space is a copy of the parent's

    Two page directories share the kernel's tables and nothing else that
    [copy_body_stack3] writes.  Copying the pages of the parent one by one
    through a kernel page gives the child its own frames with the same words,
    and leaves the parent's memory as it was. *)
From S2P Require Import Prelude CString Bitmap Machine DList Mmu PageMem BootMem Sched Sync Heap HeapBoot Stdio Console Cpu Thread Fork.

(** ** Copying a page *)
Lemma maps_off s va f o : vm_ok (phys s) (cr3 s) → maps s va f → va mod 4096 = 0 → 0 ≤ o < 4096 → maps s (va + o) (f + o) ∧ f mod 4096 = 0.
Proof.
  intros Hvm [Hin H] Ha Ho. assert (in_space (va + o)) as Hin' by (unfold in_space in *; Z.div_mod_to_equations; lia).
  destruct (in_space_idx _ Hin) as [Hr _]. destruct (in_space_idx _ Hin') as [Hr' _]. unfold maps.
  rewrite (translate_unfold _ _ (vm_dir _ _ Hvm)) in H |- * by done.
  assert ((va + o) / 2 ^ 22 = va / 2 ^ 22 ∧ (va + o) / 4096 = va / 4096 ∧ (va + o) mod 4096 = o) as (E1 & E2 & E3) by (Z.div_mod_to_equations; lia).
  unfold pte_addr, tbl_of, pde_of in *. rewrite E1, E2, E3. repeat case_match; simplify_eq. rewrite Ha, Z.add_0_r. split; [done|apply pg_aligned].
Qed.

(** The words of frame [fs] are now in frame [fd] as well. *)
Definition copied (m m' : gmap Z Z) (fd fs : Z) : Prop :=
  ∀ a, word m' a = if decide (fd ≤ a < fd + 4096 ∧ (a - fd) mod 4 = 0) then word m (fs + (a - fd)) else word m a.

Section copy.
Context (s : kstate) (dst src fd fs lo hi : Z).
Hypothesis (Hm : mem_ok s) (Hw : ¬ walk_frame s fd) (Hd : maps s dst fd).
Hypothesis (Hda : dst mod 4096 = 0) (Hfsa : fs mod 4096 = 0) (Hne : fd ≠ fs) (Hlo : 0 ≤ lo) (Hhi : hi ≤ 1024).
(** The source stays mapped whatever is stored in [fd]. *)
Hypothesis Hs : ∀ m' k, (∀ a, ¬ (fd ≤ a < fd + 4096) → word m' a = word (phys s) a) → (∀ a, 0 ≤ word m' a < 2 ^ 32) →
  lo ≤ k < hi → translate m' (cr3 s) (src + 4 * k) = Some (fs + 4 * k).

Lemma vcopy_run n : ∀ k m', (∀ a, ¬ (fd ≤ a < fd + 4096) → word m' a = word (phys s) a) → (∀ a, 0 ≤ word m' a < 2 ^ 32) → lo ≤ k → k + Z.of_nat n ≤ hi →
  wp (vcopy n (dst + 4 * k) (src + 4 * k)) (set_phys m' s) (λ _ s', ∃ m'', s' = set_phys m'' s
    ∧ ∀ a, word m'' a = if decide (fd + 4 * k ≤ a < fd + 4 * (k + Z.of_nat n) ∧ (a - fd) mod 4 = 0) then word (phys s) (fs + (a - fd)) else word m' a).
Proof.
  destruct (maps_off s dst fd 0 (mo_vm _ Hm) Hd Hda ltac:(lia)) as [_ Hfa].
  induction n as [|n IH]; intros k m' Hout Hr Hk Hkn.
  - cbn [vcopy]. kstep. exists m'. split; [done|]. intros a. by rewrite decide_False by lia.
  - cbn [vcopy]. destruct (maps_off s dst fd (4 * k) (mo_vm _ Hm) Hd Hda ltac:(lia)) as [[Hdi Hdt] _].
    assert (∀ va, in_space va → translate m' (cr3 s) va = translate (phys s) (cr3 s) va) as Ht by (intros; by apply (data_write_translate s fd m')).
    apply wp_bind. eapply wp_eq; [apply vload_eq; cbn; apply Hs; done || lia|].
    apply wp_bind. eapply wp_eq; [apply vstore_eq; cbn; rewrite Ht by done; exact Hdt|]. cbn [phys set_phys].
    assert (word m' (fs + 4 * k) = word (phys s) (fs + 4 * k)) as -> by (apply Hout; Z.div_mod_to_equations; lia).
    set (v := word (phys s) (fs + 4 * k)).
    replace (dst + 4 * k + 4) with (dst + 4 * (k + 1)) by lia. replace (src + 4 * k + 4) with (src + 4 * (k + 1)) by lia.
    eapply wp_mono; [apply (IH (k + 1) (<[fd + 4 * k := v]> m'))|].
    + intros a Ha. rewrite word_insert. case_decide; [lia|]. by apply Hout.
    + intros a. rewrite word_insert. case_decide; [apply (do_words _ _ (vm_dir _ _ (mo_vm _ Hm)))|apply Hr].
    + lia.
    + lia.
    + intros u s' (m'' & -> & H''). exists m''. split; [done|]. intros a. rewrite H'', word_insert.
      destruct (decide (fd + 4 * k = a)) as [<-|]; [|repeat case_decide; try done; exfalso; Z.div_mod_to_equations; lia].
      rewrite decide_False by lia. rewrite decide_True by (split; [lia|Z.div_mod_to_equations; lia]). unfold v. f_equal. lia.
Qed.
End copy.

Lemma vcopy_page s dst src fd fs : mem_ok s → ¬ walk_frame s fd → maps s dst fd → maps s src fs → dst mod 4096 = 0 → src mod 4096 = 0 → fd ≠ fs →
  wp (vcopy 1024 dst src) s (λ _ s', ∃ m', s' = set_phys m' s ∧ copied (phys s) m' fd fs ∧ (∀ a, 0 ≤ word m' a < 2 ^ 32)).
Proof.
  intros Hm Hw Hd Hs Hda Hsa Hne. pose proof (do_words _ _ (vm_dir _ _ (mo_vm _ Hm))) as Hr.
  destruct (maps_off s dst fd 0 (mo_vm _ Hm) Hd Hda ltac:(lia)) as [_ Hfa]. destruct (maps_off s src fs 0 (mo_vm _ Hm) Hs Hsa ltac:(lia)) as [_ Hfsa].
  assert (s = set_phys (phys s) s) as E by by destruct s. rewrite E at 1. replace dst with (dst + 4 * 0) at 1 by lia. replace src with (src + 4 * 0) at 1 by lia.
  eapply wp_mono.
  { apply (vcopy_run s dst src fd fs 0 1024 Hm Hw Hd Hda Hfsa Hne) with (n := 1024%nat) (k := 0) (m' := phys s); try done.
    intros m' k Ho Hr' Hk. destruct (maps_off s src fs (4 * k) (mo_vm _ Hm) Hs Hsa ltac:(lia)) as [[Hin Ht] _]. by rewrite (data_write_translate s fd m'). }
  intros u s' (m'' & -> & H). exists m''. split_and!; [done| |].
  - intros a. rewrite H. by replace (fd + 4 * 0) with fd by lia.
  - intros a. rewrite H. by case_decide.
Qed.
(** ** A user page for the child *)
Lemma mem_ok_held s lk sv : mem_ok s → mem_ok (set_locks lk (set_sema_value sv s)).
Proof. intros [[H1 H2] ? ? ? ? ? ? ? ?]. split; try assumption. split; [exact H1|exact H2]. Qed.

(** [va] got a frame [f] of the user pool. *)
Record got_page (s s' : kstate) (va f : Z) : Prop := {
  gp_ok : mem_ok s';
  gp_frame : free_frame (user_pool s) f;
  gp_maps va' pa : maps s' va' pa ↔ if decide (va' / 4096 = va / 4096) then in_space va' ∧ pa = f + va' mod 4096 else maps s va' pa;
  gp_sub g : is_free s' g → is_free s g;
  gp_user g : free_frame (user_pool s) g → free_frame (user_pool s') g ∨ g = f;
  gp_kernel : ∃ g0, ∀ g, free_frame (kernel_pool s) g → free_frame (kernel_pool s') g ∨ g = g0;
  gp_walk g : walk_frame s' g → walk_frame s g ∨ is_free s g;
  gp_words a : word (phys s') a ≠ word (phys s) a →
    (¬ present (phys s) (cr3 s) (va / 2 ^ 22) ∧ a = cr3 s + va / 2 ^ 22 * 4) ∨ is_free s (pg a)
    ∨ present (phys s) (cr3 s) (va / 2 ^ 22) ∧ a = pte_addr (phys s) (cr3 s) va;
  gp_new : ¬ present (phys s) (cr3 s) (va / 2 ^ 22) → is_free s (pg (pde_i (phys s') (cr3 s') (va / 2 ^ 22)));
  gp_lock : lock (user_pool s') = lock (user_pool s);
  gp_state : ∃ m' pk pu, s' = set_phys m' (set_kernel_pool pk (set_user_pool pu s));
}.

Section get_page.
Context (s : kstate) (L : gmap Z (list Z)) (va : Z).
Hypothesis (Hm : mem_ok s) (HF : lock_free s L (lock (user_pool s))) (Hcur : cur s ≠ 0).
Hypothesis (Hva : 0x400000 ≤ va < 0xc0000000) (Hun : ∀ pa, ¬ maps s va pa).
Hypothesis (Huser : ∃ f, free_frame (user_pool s) f) (Hkern : ∃ g, free_frame (kernel_pool s) g).

Lemma get_page_val : wp (get_a_page_without_opvaddrbitmap PF_USER va) s (λ r s', r = va ∧ ∃ f, got_page s s' va f).
Proof.
  set (l := lock (user_pool s)) in *. set (s0 := held s l (cur s) 1). assert (mem_ok s0) as Hm0 by by apply mem_ok_held.
  assert (in_space va) as Hin by (unfold in_space; lia).
  unfold get_a_page_without_opvaddrbitmap. kstep. kstep. change (pool_lock PF_USER s) with l.
  apply wp_bind. eapply wp_eq; [by apply (lock_acquire_free s L l)|]. fold s0.
  apply wp_bind. eapply wp_mono; [by apply (palloc_mem_ok PF_USER)|].
  intros f s1 [(_ & _ & Hno)|(Hf0 & Hm1 & Hf & Hfree & Hsub & Htk & pu & -> & Hsame)]; [by destruct Huser as [f0 ?]; edestruct Hno|].
  destruct (Z.eqb_spec f NULL); [done|]. cbn [set_pool pool_of] in *. set (s1 := set_user_pool pu s0) in *.
  assert (wp (page_table_add va f) s1 (λ _ s', mapped_to s1 s' va f)) as Hadd.
  { assert (∀ i, 0 ≤ i ≤ nbits (vaddr_map (kernel_vaddr s1)) → vaddr_start (kernel_vaddr s1) + i * 4096 = 4096 * (va / 4096) → used (vaddr_map (kernel_vaddr s1)) i = true) as Hused.
    { intros i Hi E. destruct (mo_kva _ Hm1) as [_ _ _ _ V]. exfalso. Z.div_mod_to_equations. lia. }
    destruct (decide (Z.testbit (pde_i (phys s1) (cr3 s1) (va / 2 ^ 22)) 0 = true)) as [Hp|Hnp].
    - eapply wp_mono; [by apply page_table_add_present_ok|]. by intros u s' [H _].
    - apply page_table_add_absent_ok; done. }
  apply wp_bind. eapply wp_mono; [exact Hadd|]. intros u s2 [M1 M2 M3 M4 M5 (m' & pk & ->) [g0 M7] M8 M9].
  set (s2 := set_phys m' (set_kernel_pool pk s1)) in *. set (s' := set_phys m' (set_kernel_pool pk (set_user_pool pu s))).
  apply wp_bind. eapply wp_eq.
  { change s2 with (held s' l (cur s') 1). apply (lock_release_last s' L l); [|done]. destruct HF. by split. }
  kstep. split; [done|]. exists f. assert (mem_ok s') as Hm' by exact (mem_ok_held s2 (locks s) (sema_value s) M1). split; try done.
  - intros g Hg. apply M3 in Hg as [t Ht]. exists t. by apply Hsub.
  - intros g Hg. destruct (Htk g) as [[t Ht]| ->]; [by exists PF_USER| |by right]. left. destruct t; [|done].
    exfalso. apply Hsub in Ht. by eapply (pools_apart s0); [apply Hm0| |exact Hg].
  - exists g0. intros g Hg. destruct (M7 g) as [[t Ht]| ->]; [by exists PF_KERNEL| |by right]. left. destruct t; [done|].
    exfalso. eapply (pools_apart s1); [apply Hm1|exact Hg|exact Ht].
  - intros g [Hg|[t Ht]]%M4; [by left|right]. exists t. by apply Hsub.
  - intros a [Ha|[[t Ht]|Ha]]%M8; [by left|right; left|by right; right]. exists t. by apply Hsub.
  - intros [t Ht]%M9. exists t. by apply Hsub.
  - by destruct Hsame as (_ & _ & _ & ?).
  - by exists m', pk, pu.
Qed.
Lemma get_page_ok : wp (get_a_page_without_opvaddrbitmap PF_USER va) s (λ _ s', ∃ f, got_page s s' va f).
Proof. eapply wp_mono; [apply get_page_val|]. by intros r s' [_ H]. Qed.
End get_page.

(** ** Two address spaces *)
Definition sp (d : Z) (s : kstate) : kstate := set_cr3 d s.
Lemma sp_cur s : sp (cr3 s) s = s.
Proof. by destruct s. Qed.
Definition user_va (va : Z) : Prop := 0x400000 ≤ va < 0xc0000000.

(** The frames that directory [d] has for itself: the directory, the tables of
    the user half and the pages mapped there. *)
Definition own_frame (s : kstate) (d f : Z) : Prop :=
  f = d ∨ (∃ i, 1 ≤ i < 768 ∧ present (phys s) d i ∧ pg (pde_i (phys s) d i) = f)
  ∨ ∃ va pa, user_va va ∧ maps (sp d s) va pa ∧ pg pa = f.

(** Both spaces are consistent, the kernel's tables are shared, and what the
    child has for itself is no part of the parent's. *)
Record two_spaces (s : kstate) (dp dc : Z) : Prop := {
  ts_p : mem_ok (sp dp s);
  ts_c : mem_ok (sp dc s);
  ts_shared i : 768 ≤ i < 1023 → pde_i (phys s) dc i = pde_i (phys s) dp i;
  ts_apart f : own_frame s dc f → ¬ walk_frame (sp dp s) f ∧ ∀ va pa, user_va va → maps (sp dp s) va pa → pg pa ≠ f;
}.

Section spaces.
Context (s : kstate) (dp dc : Z) (HS : two_spaces s dp dc).

Lemma kernel_maps va pa : 0xc0000000 ≤ va → maps (sp dc s) va pa ↔ maps (sp dp s) va pa.
Proof.
  intros Hva. destruct HS as [Hp Hc Hsh _]. unfold maps. cbn. split; intros [Hin H]; (split; [done|]); revert H;
    destruct (in_space_idx _ Hin) as [Hr Hi];
    rewrite (translate_unfold _ _ (vm_dir _ _ (mo_vm _ Hp))), (translate_unfold _ _ (vm_dir _ _ (mo_vm _ Hc))) by done;
    unfold pte_addr, tbl_of, pde_of; cbn; fold (pde_i (phys s) dp (va / 2 ^ 22)) (pde_i (phys s) dc (va / 2 ^ 22));
    rewrite Hsh by (unfold in_space in Hin; Z.div_mod_to_equations; lia); done.
Qed.
End spaces.

(** The directory in use does not matter. *)
Lemma spaces_cr3 s dp dc d : two_spaces s dp dc → two_spaces (sp d s) dp dc.
Proof. intros [H1 H2 H3 H4]. by split. Qed.

(** Stores outside the page tables of both. *)
Lemma spaces_untouched s dp dc m' : two_spaces s dp dc → (∀ a, 0 ≤ word m' a < 2 ^ 32) →
  (∀ a, walk_frame (sp dp s) (pg a) ∨ walk_frame (sp dc s) (pg a) → word m' a = word (phys s) a) →
  two_spaces (set_phys m' s) dp dc ∧ (∀ d va pa, d = dp ∨ d = dc → maps (sp d (set_phys m' s)) va pa ↔ maps (sp d s) va pa).
Proof.
  intros [Hp Hc Hsh Hap] Hr Hout.
  assert (∀ d va pa, d = dp ∨ d = dc → maps (sp d (set_phys m' s)) va pa ↔ maps (sp d s) va pa) as Hmap.
  { intros d va pa [->| ->]; [apply (untouched_maps (sp dp s) m' Hp Hr)|apply (untouched_maps (sp dc s) m' Hc Hr)]; intros a Ha; apply Hout; by (left + right). }
  assert (∀ i, 0 ≤ i < 1024 → pde_i m' dp i = pde_i (phys s) dp i) as Hdp by (apply (untouched_dir (sp dp s) m' Hp); intros a Ha; apply Hout; by left).
  assert (∀ i, 0 ≤ i < 1024 → pde_i m' dc i = pde_i (phys s) dc i) as Hdc by (apply (untouched_dir (sp dc s) m' Hc); intros a Ha; apply Hout; by right).
  split; [|done]. split.
  - apply (untouched_mem_ok (sp dp s) m' Hp Hr). intros a Ha. apply Hout. by left.
  - apply (untouched_mem_ok (sp dc s) m' Hc Hr). intros a Ha. apply Hout. by right.
  - intros i Hi. cbn. rewrite Hdp, Hdc by lia. by apply Hsh.
  - intros f Hf. assert (own_frame s dc f) as Hf'.
    { destruct Hf as [->|[(i & Hi & H1 & H2)|(va & pa & H1 & H2 & H3)]]; [by left|right; left|right; right].
      - exists i. cbn in H1, H2. unfold present in *. rewrite Hdc in H1, H2 by lia. done.
      - exists va, pa. apply Hmap in H2; [done|by right]. }
    destruct (Hap _ Hf') as [H1 H2]. split.
    + intros Hw. apply H1. by apply (walk_frame_dir (sp dp s) m' f Hdp).
    + intros va pa Hva Hmp. apply (H2 va pa Hva). by apply Hmap in Hmp; [|left].
Qed.

(** The child gets a page. *)
Section child_page.
Context (s s' : kstate) (dp dc va f : Z).
Hypothesis (HS : two_spaces s dp dc) (Hva : user_va va) (HG : got_page (sp dc s) s' va f).

Lemma child_words a : word (phys s') a ≠ word (phys s) a →
  is_free s (pg a) ∨ (¬ present (phys s) dc (va / 2 ^ 22) ∧ a = dc + va / 2 ^ 22 * 4)
  ∨ ∃ i, i = va / 2 ^ 22 ∧ present (phys s) dc i ∧ pg a = pg (pde_i (phys s) dc i).
Proof.
  intros [[? ?]|[?|[Hp ->]]]%(gp_words _ _ _ _ HG); [by right; left|by left|right; right]. exists (va / 2 ^ 22). split_and!; [done|done|].
  unfold pte_addr, tbl_of, pde_of. cbn. unfold pde_i. pose proof (Z.mod_pos_bound (va / 4096) 1024 ltac:(lia)).
  pose proof (pg_aligned (word (phys s) (dc + va / 2 ^ 22 * 4))). unfold pg in *. Z.div_mod_to_equations. lia.
Qed.
Lemma va_idx : 1 ≤ va / 2 ^ 22 < 768.
Proof. unfold user_va in Hva. Z.div_mod_to_equations. lia. Qed.
Lemma dir_pg d i : mem_ok (sp d s) → 0 ≤ i < 1024 → pg (d + i * 4) = d.
Proof. intros Hm Hi. pose proof (do_aligned _ _ (vm_dir _ _ (mo_vm _ Hm))) as Ha. cbn in Ha. unfold pg. Z.div_mod_to_equations. lia. Qed.
(** Every word that changes is in a free frame or in one of the child's own. *)
Lemma child_changes a : word (phys s') a ≠ word (phys s) a → is_free s (pg a) ∨ own_frame s dc (pg a).
Proof.
  pose proof va_idx. intros [?|[[_ ->]|(i & -> & Hp & ->)]]%child_words; [by left|right|right].
  - left. apply dir_pg; [apply HS|lia].
  - right. left. exists (va / 2 ^ 22). split_and!; [lia|lia|done|done].
Qed.
Lemma parent_untouched a : walk_frame (sp dp s) (pg a) → word (phys s') a = word (phys s) a.
Proof.
  intros Hw. destruct (decide (word (phys s') a = word (phys s) a)) as [|Hne]; [done|exfalso].
  destruct (child_changes a Hne) as [Hf|Ho]; [by eapply (mo_walk _ (ts_p _ _ _ HS)); [exact Hw|]|by destruct (ts_apart _ _ _ HS _ Ho)].
Qed.
Lemma child_range a : 0 ≤ word (phys s') a < 2 ^ 32.
Proof. apply (do_words _ _ (vm_dir _ _ (mo_vm _ (gp_ok _ _ _ _ HG)))). Qed.
Lemma child_cr3 : cr3 s' = dc.
Proof. by destruct (gp_state _ _ _ _ HG) as (? & ? & ? & ->). Qed.
Lemma child_sp : sp dc s' = s'.
Proof. by destruct (gp_state _ _ _ _ HG) as (? & ? & ? & ->). Qed.
Lemma child_dir i : 0 ≤ i < 1024 → (i = va / 2 ^ 22 → present (phys s) dc i) → pde_i (phys s') dc i = pde_i (phys s) dc i.
Proof.
  intros Hi Hidx. unfold pde_i. destruct (decide (word (phys s') (dc + i * 4) = word (phys s) (dc + i * 4))) as [|Hne]; [done|exfalso]. pose proof va_idx.
  destruct (child_words _ Hne) as [Hf|[[Hnp E]|(j & -> & Hp & E)]].
  - rewrite dir_pg in Hf by (done || apply HS). apply (mo_walk _ (ts_c _ _ _ HS) dc); [by left|exact Hf].
  - assert (i = va / 2 ^ 22) by lia. subst i. by apply Hnp, Hidx.
  - rewrite dir_pg in E by (done || apply HS). symmetry in E. revert E. apply (vm_tbl _ _ (mo_vm _ (ts_c _ _ _ HS))); [lia|done].
Qed.

Lemma parent_mem_ok : mem_ok (sp dp s').
Proof.
  eapply (mem_ok_pools (set_phys (phys s') (sp dp s))).
  - apply (untouched_mem_ok (sp dp s) (phys s') (ts_p _ _ _ HS) child_range parent_untouched).
  - destruct (mo_pools _ (gp_ok _ _ _ _ HG)) as [P1 P2]. by split.
  - done.
  - done.
  - by destruct (gp_state _ _ _ _ HG) as (? & ? & ? & ->).
  - exact (gp_sub _ _ _ _ HG).
Qed.
Lemma parent_maps va' pa : maps (sp dp s') va' pa ↔ maps (sp dp s) va' pa.
Proof. apply (untouched_maps (sp dp s) (phys s') (ts_p _ _ _ HS) child_range parent_untouched). Qed.
Lemma parent_walk g : walk_frame (sp dp s') g ↔ walk_frame (sp dp s) g.
Proof. apply (walk_frame_dir (sp dp s) (phys s') g). apply (untouched_dir (sp dp s) (phys s') (ts_p _ _ _ HS) parent_untouched). Qed.

Lemma child_page_spaces : two_spaces s' dp dc.
Proof.
  pose proof va_idx as Hi. destruct (HS) as [Hp Hc Hsh Hap]. split.
  - apply parent_mem_ok.
  - rewrite child_sp. apply HG.
  - intros i Hi2. rewrite child_dir by lia. rewrite Hsh by done. symmetry. apply (untouched_dir (sp dp s) (phys s') Hp parent_untouched). lia.
  - assert (∀ g, is_free s g ∨ own_frame s dc g → ¬ walk_frame (sp dp s') g ∧ ∀ va pa, user_va va → maps (sp dp s') va pa → pg pa ≠ g) as Hold.
    { intros g Hg. rewrite parent_walk. destruct Hg as [Hg|Hg].
      - split; [intros Hw; by eapply (mo_walk _ Hp)|]. intros va' pa _ Hmp%parent_maps <-. by eapply (mo_mapped _ Hp).
      - destruct (Hap _ Hg) as [H1 H2]. split; [done|]. intros va' pa Hv Hmp%parent_maps. by apply (H2 va'). }
    intros g [->|[(i & Hi2 & H1 & H2)|(va' & pa & Hv & Hmp & <-)]]; apply Hold.
    + right. by left.
    + destruct (decide (i = va / 2 ^ 22 ∧ Z.testbit (pde_i (phys s) dc i) 0 = false)) as [[-> Hnp]|Hold'].
      * left. assert (¬ present (phys s) dc (va / 2 ^ 22)) as Hq by (unfold present; by rewrite Hnp). pose proof (gp_new _ _ _ _ HG Hq) as Hn. rewrite child_cr3 in Hn. by rewrite H2 in Hn.
      * unfold present in H1. rewrite child_dir in H1, H2 by (lia || (intros ->; unfold present; destruct (Z.testbit _ 0) eqn:E; [done|by destruct Hold'])).
        right. right. left. by exists i.
    + rewrite child_sp in Hmp. apply (gp_maps _ _ _ _ HG) in Hmp. case_decide.
      * left. destruct Hmp as [_ ->]. destruct (free_frame_range _ _ (po_wf _ (mo_pools _ Hc) PF_USER) (gp_frame _ _ _ _ HG)) as [_ Ha].
        replace (pg (f + va' mod 4096)) with f; [exists PF_USER; apply HG|]. unfold pg. Z.div_mod_to_equations. lia.
      * right. right. right. by exists va', pa.
Qed.
End child_page.

(** ** A new address space *)

(** What [create_page_dir] stores in the frame of the new directory. *)
Record dir_words (m m' : gmap Z Z) (dp f : Z) : Prop := {
  dw_self : word m' (f + 4092) = f + 7;
  dw_user i : 0 ≤ i < 768 → pde_i m' f i = 0;
  dw_kernel i : 768 ≤ i < 1023 → pde_i m' f i = pde_i m dp i;
  dw_out a : ¬ (f ≤ a < f + 4096) → word m' a = word m a;
  dw_range a : 0 ≤ word m' a < 2 ^ 32;
}.

Section new_dir.
Context (s : kstate) (r f : Z) (m' : gmap Z Z).
Hypothesis (Hm : mem_ok s) (Hr : maps s r f) (Hr2 : 0xc0000000 ≤ r) (Hfa : f mod 4096 = 0) (Hfr : 0 ≤ f < 2 ^ 32).
Hypothesis (Hw : ¬ walk_frame s f) (HD : dir_words (phys s) m' (cr3 s) f).
Let s' := set_phys m' s.

Lemma new_dir_dir : dir_ok m' f.
Proof. destruct HD. by split. Qed.
Lemma new_dir_present i : 0 ≤ i < 1023 → present m' f i → 768 ≤ i ∧ pde_i m' f i = pde_i (phys s) (cr3 s) i ∧ present (phys s) (cr3 s) i.
Proof.
  intros Hi Hp. destruct (decide (i < 768)); [unfold present in Hp; rewrite (dw_user _ _ _ _ HD) in Hp by lia; discriminate Hp|].
  unfold present in *. rewrite (dw_kernel _ _ _ _ HD) in Hp |- * by lia. split_and!; [lia|done|done].
Qed.
Lemma new_dir_translate va : in_space va →
  translate m' f va = if decide (0xc0000000 ≤ va) then translate (phys s) (cr3 s) va else None.
Proof.
  intros Hin. destruct (in_space_idx _ Hin) as [Hva Hi].
  rewrite (translate_unfold _ _ new_dir_dir), (translate_unfold _ _ (vm_dir _ _ (mo_vm _ Hm))) by done.
  unfold pte_addr, tbl_of, pde_of. fold (pde_i m' f (va / 2 ^ 22)) (pde_i (phys s) (cr3 s) (va / 2 ^ 22)). case_decide as Hk.
  - assert (768 ≤ va / 2 ^ 22) by (Z.div_mod_to_equations; lia). rewrite (dw_kernel _ _ _ _ HD) by lia.
    destruct (Z.testbit (pde_i (phys s) (cr3 s) (va / 2 ^ 22)) 0) eqn:Ep; [|done]. rewrite (dw_out _ _ _ _ HD); [done|].
    intros Ha. apply Hw. right. exists (va / 2 ^ 22). split_and!; [lia|lia|done|]. pose proof (Z.mod_pos_bound (va / 4096) 1024 ltac:(lia)).
    pose proof (pg_aligned (pde_i (phys s) (cr3 s) (va / 2 ^ 22))). Z.div_mod_to_equations. lia.
  - rewrite (dw_user _ _ _ _ HD) by (Z.div_mod_to_equations; lia). done.
Qed.
Lemma new_dir_maps va pa : maps (sp f s') va pa ↔ 0xc0000000 ≤ va ∧ maps s va pa.
Proof.
  unfold maps. cbn. split.
  - intros [Hin H]. rewrite new_dir_translate in H by done. case_decide; [by split|done].
  - intros (Hva & Hin & H). split; [done|]. rewrite new_dir_translate by done. by rewrite decide_True.
Qed.
Lemma new_dir_frame : ¬ is_free s f ∧ ∀ va pa, maps s va pa → pg pa = f → va / 4096 = r / 4096.
Proof.
  split; [rewrite <- (pg_id f) by done; by eapply (mo_mapped _ Hm)|]. intros va pa Hmp E.
  apply (mo_inj _ Hm _ _ _ _ Hmp Hr). by rewrite (pg_id f).
Qed.
Lemma new_dir_vm : vm_ok m' f.
Proof.
  split; [apply new_dir_dir| |].
  - intros i Hi Hp. destruct (new_dir_present i Hi Hp) as (H1 & -> & H3). intros E. apply Hw. right. by exists i.
  - intros i j Hi Hj Hp Hq. destruct (new_dir_present i ltac:(lia) Hp) as (_ & -> & H1), (new_dir_present j ltac:(lia) Hq) as (_ & -> & H2).
    by apply (vm_inj _ _ (mo_vm _ Hm)).
Qed.
Lemma new_dir_table g : table_frame (sp f s') g → table_frame s g.
Proof. intros (i & Hi & Hp & <-). cbn in *. destruct (new_dir_present i Hi Hp) as (_ & -> & H). by exists i. Qed.
Lemma new_dir_mem_ok : mem_ok (sp f s').
Proof.
  destruct (Hm) as [H1 H2 H3 H4 H5 H6 H7 H8 H9]. destruct new_dir_frame as [Hfree _]. split; try done.
  - by destruct H1.
  - apply new_dir_vm.
  - intros i Hi. cbn. unfold present. rewrite (dw_kernel _ _ _ _ HD) by done. by apply H4.
  - intros g [->|Ht%new_dir_table]; [done|]. apply H5. by right.
  - intros va pa [_ H]%new_dir_maps. by apply (H6 va).
  - intros va va' pa pa' [_ Ha]%new_dir_maps [_ Hb]%new_dir_maps. by apply (H7 _ _ _ _ Ha Hb).
  - intros va pa [_ H]%new_dir_maps Ht%new_dir_table. by apply (H8 va pa).
  - intros i Hi Hu pa [_ H]%new_dir_maps. by apply (H9 i Hi Hu pa).
Qed.
Lemma new_dir_spaces : two_spaces s' (cr3 s) f ∧ (∀ va pa, maps (sp (cr3 s) s') va pa ↔ maps s va pa)
  ∧ ∀ va pa, user_va va → ¬ maps (sp f s') va pa.
Proof.
  destruct (data_write_mem_ok s f m' Hm Hw Hfa (dw_range _ _ _ _ HD) (dw_out _ _ _ _ HD)) as [Hp Hmap].
  change (sp (cr3 s) s') with (sp (cr3 s') s'). rewrite sp_cur. split_and!; [|done|intros va pa Hv [Hc _]%new_dir_maps; unfold user_va in Hv; lia]. split.
  - change (sp (cr3 s) s') with (sp (cr3 s') s'). by rewrite sp_cur.
  - apply new_dir_mem_ok.
  - intros i Hi. cbn. rewrite (dw_kernel _ _ _ _ HD) by done. symmetry.
    apply (data_write_dir s f m' Hm Hw Hfa (dw_out _ _ _ _ HD)). lia.
  - intros g Hg. assert (g = f) as ->.
    { destruct Hg as [->|[(i & Hi & Hpi & _)|(va & pa & Hv & [Hc _]%new_dir_maps & _)]]; [done| |unfold user_va in Hv; lia].
      destruct (new_dir_present i ltac:(lia) Hpi). lia. }
    split.
    + intros Hg2. apply Hw. apply (walk_frame_dir s m' f); [|exact Hg2]. apply (data_write_dir s f m' Hm Hw Hfa (dw_out _ _ _ _ HD)).
    + intros va pa Hv Hmp E. change (sp (cr3 s) s') with (sp (cr3 s') s') in Hmp. rewrite sp_cur in Hmp. apply Hmap in Hmp.
      pose proof (proj2 new_dir_frame va pa Hmp E). unfold user_va in Hv. Z.div_mod_to_equations. lia.
Qed.
End new_dir.

(** A zeroed kernel page. *)
Record zero_page (s s1 : kstate) (r f : Z) : Prop := {
  zp_ok : mem_ok s1;
  zp_maps : maps s1 r f;
  zp_range : 0xc0000000 ≤ r ∧ r mod 4096 = 0 ∧ f mod 4096 = 0;
  zp_walk : ¬ walk_frame s1 f;
  zp_words k : 0 ≤ k < 1024 → word (phys s1) (f + 4 * k) = 0;
  zp_keep va pa : maps s va pa → maps s1 va pa;
  zp_only va pa : maps s1 va pa → va / 4096 = r / 4096 ∨ maps s va pa;
  zp_state : ∃ v m p, s1 = set_phys m (set_kernel_pool p (set_kernel_vaddr v s));
}.

Lemma get_kernel_page_ok s : mem_ok s → wp (get_kernel_pages 1) s (λ r s1, r ≠ NULL → ∃ f, zero_page s s1 r f).
Proof.
  intros Hm. unfold get_kernel_pages. apply wp_bind. eapply wp_mono; [by apply malloc_page_kernel_ok|].
  intros r s0 [K1 K2 K3 _ (v' & m' & p' & K11 & _) _]. destruct (Z.eqb_spec r NULL) as [->|Hr]; cbn [negb]; [by kstep|].
  destruct K3 as [?|(_ & K3 & K4 & K5 & K6 & K7 & K8 & _)]; [done|]. destruct (K8 0 ltac:(lia)) as (f & F1 & F2 & F3).
  rewrite Z.mul_0_l, Z.add_0_r in F3. pose proof (kv_range _ (mo_kva _ Hm)) as Hkr.
  assert (¬ walk_frame s0 f) as Hw.
  { intros [->|Ht].
    - apply (mo_walk _ Hm (cr3 s0)); [rewrite K11; by left|by exists PF_KERNEL].
    - eapply (mo_table _ K1); [apply (F3 0); lia|]. by rewrite Z.add_0_r, pg_id. }
  apply wp_bind. change (Z.to_nat (1 * 1024)) with 1024%nat. eapply wp_mono; [by apply (clear_page_ok s0 r f)|].
  intros u s1 (m1 & -> & Hc & Hm1 & Hmap). kstep. intros _. exists f. split; try done.
  - apply Hmap. specialize (F3 0 ltac:(lia)). by rewrite !Z.add_0_r in F3.
  - split_and!; [lia|done|done].
  - intros Hg. apply Hw. apply (walk_frame_dir s0 m1 f); [|exact Hg].
    apply (data_write_dir s0 f m1 K1 Hw F2). intros a Ha. rewrite Hc, decide_False by lia. done.
  - intros k Hk. cbn. rewrite Hc, decide_True; [done|]. split; [lia|Z.div_mod_to_equations; lia].
  - intros va pa H. by apply Hmap, K2.
  - intros va pa H%Hmap. destruct (decide (r ≤ va < r + 1 * 4096)); [left; Z.div_mod_to_equations; lia|right]. by apply K7 in H.
  - rewrite K11. by exists v', m1, p'.
Qed.

(** C5: [create_page_dir]: when a kernel page can be had, the new directory shares
    the kernel's tables with the current one, maps nothing in the user half and
    itself in the last entry, and both address spaces are consistent. *)
Theorem create_page_dir_correct console_lock s r s1 : mem_ok s → get_kernel_pages 1 s = Ok (r, s1) → r ≠ NULL →
  ∃ dc s', create_page_dir console_lock s = Ok (r, s') ∧ cr3 s' = cr3 s
    ∧ two_spaces s' (cr3 s) dc ∧ maps s' r dc ∧ (∀ va, user_va va → ∀ pa, ¬ maps (sp dc s') va pa)
    ∧ (∀ va pa, 0xc0000000 ≤ va → maps (sp dc s') va pa ↔ maps s' va pa)
    ∧ (∀ va pa, maps s va pa → maps s' va pa) ∧ (∀ va pa, maps s' va pa → va / 4096 = r / 4096 ∨ maps s va pa)
    ∧ ∃ v m p, s' = set_phys m (set_kernel_pool p (set_kernel_vaddr v s)).
Proof.
  intros Hm Eg Hr. destruct (wp_inv _ _ _ (get_kernel_page_ok s Hm)) as (r' & s1' & E & Hz). rewrite Eg in E. simplify_eq.
  destruct (Hz Hr) as (f & [Z1 Z2 (Z3 & Z4 & Z5) Z6 Z7 Z8 Z9 (v & m & p & Z10)]). clear Hz.
  assert (cr3 s1' = cr3 s) as Ecr by by rewrite Z10. pose proof (in_space_idx _ (proj1 Z2)) as [Hrr _].
  destruct (maps_off s1' r' f 0 (mo_vm _ Z1) Z2 Z4 ltac:(lia)) as [_ _].
  pose proof (do_words _ _ (vm_dir _ _ (mo_vm _ Z1))) as Hwr. set (dp := cr3 s1') in *.
  assert (0 ≤ f < 2 ^ 32) as Hfr.
  { destruct Z2 as [Hin Ht]. rewrite (translate_unfold _ _ (vm_dir _ _ (mo_vm _ Z1))) in Ht by done. repeat case_match; try done. injection Ht as <-.
    pose proof (pg_range _ (Hwr (pte_addr (phys s1') (cr3 s1') r'))). rewrite Z4. lia. }
  assert (wp (create_page_dir console_lock) s (λ r2 s2, r2 = r' ∧ ∃ m3, s2 = set_phys m3 s1' ∧ dir_words (phys s1') m3 dp f)) as Hwp.
  { unfold create_page_dir. apply wp_bind. eapply wp_eq; [exact Eg|]. destruct (Z.eqb_spec r' NULL); [done|].
    pose proof (do_aligned _ _ (vm_dir _ _ (mo_vm _ Z1))) as Hda. fold dp in Hda.
    assert (f ≠ dp) as Hne by (intros ->; apply Z6; by left).
    assert (s1' = set_phys (phys s1') s1') as Es by by destruct s1'.
    apply wp_bind. rewrite (u32_id (r' + 0x300 * 4)) by (destruct Z2 as [Hin _]; unfold in_space in Hin; lia). rewrite Es at 1.
    change (0xfffff000 + 0x300 * 4) with (0xfffff000 + 4 * 768). replace (r' + 0x300 * 4) with (r' + 4 * 768) by lia. eapply wp_mono.
    { apply (vcopy_run s1' r' 0xfffff000 f dp 768 1024 Z1 Z6 Z2 Z4 Hda Hne) with (n := 256%nat) (k := 768) (m' := phys s1'); try done.
      intros m' k Ho Hr' Hk. pose proof (data_write_vm s1' f m' Z1 Z6 Z5 Hr' Ho) as Hv.
      pose proof (translate_pde_ptr m' dp (vm_dir _ _ Hv) (k * 2 ^ 22) ltac:(lia)) as Ht.
      destruct (pde_ptr_eq (k * 2 ^ 22) ltac:(lia)) as [Ep _]. rewrite Ep, Z.div_mul in Ht by lia. rewrite Z.mul_comm. exact Ht. }
    intros u s2 (m2 & -> & H2). cbn [Z.of_nat] in H2.
    assert (∀ a, ¬ (f ≤ a < f + 4096) → word m2 a = word (phys s1') a) as Ho2 by (intros a Ha; rewrite H2, decide_False; [done|lia]).
    assert (∀ a, 0 ≤ word m2 a < 2 ^ 32) as Hr2 by (intros a; rewrite H2; by case_decide).
    pose proof (data_write_vm s1' f m2 Z1 Z6 Z5 Hr2 Ho2) as Hv2.
    apply wp_bind. eapply wp_eq.
    { apply (addr_v2p_ok _ r' f); [apply Hv2|done|]. cbn. destruct Z2 as [Hin Ht]. by rewrite (data_write_translate s1' f m2). }
    apply wp_bind. rewrite lor_flags by done. destruct (maps_off s1' r' f 4092 (mo_vm _ Z1) Z2 Z4 ltac:(lia)) as [[Hin4 Ht4] _].
    eapply wp_eq; [apply (vstore_eq _ _ _ (f + 4092)); cbn; by rewrite (data_write_translate s1' f m2)|]. kstep. split; [done|].
    eexists. split; [done|]. cbn. assert (f + 7 < 2 ^ 32) by (Z.div_mod_to_equations; lia). split.
    - by rewrite word_insert, decide_True.
    - intros i Hi. unfold pde_i. rewrite word_insert, decide_False by lia. rewrite H2, decide_False by lia. rewrite Z.mul_comm. apply Z7. lia.
    - intros i Hi. unfold pde_i. rewrite word_insert, decide_False by lia. rewrite H2, decide_True; [f_equal; lia|]. split; [lia|Z.div_mod_to_equations; lia].
    - intros a Ha. rewrite word_insert, decide_False by lia. by apply Ho2.
    - intros a. rewrite word_insert. case_decide; [lia|apply Hr2]. }
  destruct (wp_inv _ _ _ Hwp) as (r2 & s2 & Hrun & -> & m3 & -> & HD). clear Hwp.
  destruct (new_dir_spaces s1' r' f m3 Z1 Z2 Z3 Z5 Hfr Z6 HD) as (S1 & S2 & S3). fold dp in S1, S2, S3.
  assert (sp dp (set_phys m3 s1') = set_phys m3 s1') as Esp by exact (sp_cur (set_phys m3 s1')). rewrite Esp in S2.
  exists f, (set_phys m3 s1'). rewrite <- Ecr. split_and!; try done.
  - by apply S2.
  - intros va Hv pa. by apply S3.
  - intros va pa Hv. rewrite <- Esp at 2. by apply kernel_maps.
  - intros va pa H. by apply S2, Z8.
  - intros va pa H%S2. by apply Z9.
  - exists v, m3, p. by rewrite Z10.
Qed.

Lemma copied_out m m' fd fs a : copied m m' fd fs → fd mod 4096 = 0 → pg a ≠ fd → word m' a = word m a.
Proof. intros H Ha Hne. rewrite H. case_decide as Hin; [|done]. exfalso. apply Hne. unfold pg. Z.div_mod_to_equations. lia. Qed.
Lemma copied_in m m' fd fs o : copied m m' fd fs → 0 ≤ o < 1024 → word m' (fd + 4 * o) = word m (fs + 4 * o).
Proof. intros H Ho. rewrite H, decide_True by (split; [lia|Z.div_mod_to_equations; lia]). f_equal. lia. Qed.

(** ** One page *)

(** What [copy_body_stack3] relies on: the kernel page [buf_page], the two
    directories where the PCBs say, the lock of the user pool free. *)
Record fork_env (s : kstate) (L : gmap Z (list Z)) (dp dc child parent buf fb : Z) : Prop := {
  fe_spaces : two_spaces s dp dc;
  fe_cr3 : cr3 s = dp;
  fe_buf : maps (sp dp s) buf fb ∧ buf mod 4096 = 0 ∧ 0xc0000000 ≤ buf;
  fe_fb : fb ≠ dp ∧ fb ≠ dc;
  fe_child : ∃ t, tasks s !! child = Some t ∧ pgdir t ≠ NULL ∧ 0xc0000000 ≤ pgdir t ∧ maps (sp dp s) (pgdir t) dc;
  fe_parent : ∃ t, tasks s !! parent = Some t ∧ pgdir t ≠ NULL ∧ 0xc0000000 ≤ pgdir t ∧ maps (sp dp s) (pgdir t) dp;
  fe_lock : lock_free s L (lock (user_pool s));
  fe_cur : cur s ≠ 0;
}.

Lemma page_dir_activate_ok s p t d : tasks s !! p = Some t → pgdir t ≠ NULL → dir_ok (phys s) (cr3 s) → maps s (pgdir t) d →
  page_dir_activate p s = Ok ((), set_cr3 d s).
Proof.
  intros Ht Hn Hd [Hin Hmp]. unfold page_dir_activate, mbind, K_bind. rewrite (ld_task_eq s p t Ht). destruct (Z.eqb_spec (pgdir t) NULL); [done|]. cbn [negb].
  rewrite (addr_v2p_ok s (pgdir t) d Hd) by (done || by apply in_space_idx). done.
Qed.

(** The effect of copying page [va], which the parent has in frame [fp]. *)
Record page_copied (s s' : kstate) (dp dc va fp f : Z) : Prop := {
  pc_frame : free_frame (user_pool s) f;
  pc_parent va' pa : maps (sp dp s') va' pa ↔ maps (sp dp s) va' pa;
  pc_pdata va' pa : user_va va' → maps (sp dp s) va' pa → word (phys s') pa = word (phys s) pa;
  pc_child va' pa : maps (sp dc s') va' pa ↔ if decide (va' / 4096 = va / 4096) then in_space va' ∧ pa = f + va' mod 4096 else maps (sp dc s) va' pa;
  pc_cdata va' pa : user_va va' → maps (sp dc s) va' pa → word (phys s') pa = word (phys s) pa;
  pc_new o : 0 ≤ o < 1024 → word (phys s') (f + 4 * o) = word (phys s) (fp + 4 * o);
  pc_user g : free_frame (user_pool s) g → free_frame (user_pool s') g ∨ g = f;
  pc_kernel : ∃ g0, ∀ g, free_frame (kernel_pool s) g → free_frame (kernel_pool s') g ∨ g = g0;
  pc_state : ∃ m' pk pu, s' = set_phys m' (set_kernel_pool pk (set_user_pool pu s));
}.

Section one_page.
Context (s : kstate) (L : gmap Z (list Z)) (dp dc child parent buf fb va fp : Z).
Hypothesis (HE : fork_env s L dp dc child parent buf fb).
Hypothesis (Hva : user_va va) (Hvaa : va mod 4096 = 0) (Hfp : maps (sp dp s) va fp) (Hun : ∀ pa, ¬ maps (sp dc s) va pa).
Hypothesis (Huser : ∃ f, free_frame (user_pool s) f) (Hkern : ∃ g, free_frame (kernel_pool s) g).

Lemma cur_space : sp dp s = s.
Proof. rewrite <- (fe_cr3 _ _ _ _ _ _ _ _ HE). apply sp_cur. Qed.

(** The kernel page is data in both spaces, and no user page is in its frame. *)
Lemma buf_facts : fb mod 4096 = 0 ∧ maps (sp dc s) buf fb ∧ ¬ walk_frame (sp dp s) fb ∧ ¬ walk_frame (sp dc s) fb
  ∧ (∀ d va' pa, d = dp ∨ d = dc → user_va va' → maps (sp d s) va' pa → pg pa ≠ fb).
Proof.
  destruct HE as [HS _ (Hb & Hba & Hb3) [Hf1 Hf2] _ _ _ _]. destruct (HS) as [Hp Hc _ _].
  destruct (maps_off (sp dp s) buf fb 0 (mo_vm _ Hp) Hb Hba ltac:(lia)) as [_ Hfa].
  assert (maps (sp dc s) buf fb) as Hbc by (by apply (kernel_maps s dp dc HS)). split_and!; try done.
  - intros [E|Ht]; [done|]. eapply (mo_table _ Hp _ _ Hb). by rewrite pg_id.
  - intros [E|Ht]; [done|]. eapply (mo_table _ Hc _ _ Hbc). by rewrite pg_id.
  - intros d va' pa Hd Hv Hmp E. assert (va' / 4096 = buf / 4096) as Hq.
    { destruct Hd as [-> | ->]; [apply (mo_inj _ Hp va' buf pa fb)|apply (mo_inj _ Hc va' buf pa fb)]; try done; by rewrite E, pg_id. }
    unfold user_va in Hv. Z.div_mod_to_equations. lia.
Qed.

(** From the parent to the kernel page. *)
Lemma copy_out : wp (vcopy 1024 buf va) s (λ _ s1, ∃ m1, s1 = set_phys m1 s ∧ copied (phys s) m1 fb fp ∧ two_spaces s1 dp dc
  ∧ ∀ d va' pa, d = dp ∨ d = dc → maps (sp d s1) va' pa ↔ maps (sp d s) va' pa).
Proof.
  clear Hun Huser Hkern. destruct buf_facts as (Hfa & Hbc & Hw1 & Hw2 & Hno). destruct HE as [HS Hcr (Hb & Hba & Hb3) _ _ _ _ _]. pose proof cur_space as Hcs.
  destruct (maps_off (sp dp s) va fp 0 (mo_vm _ (ts_p _ _ _ HS)) Hfp Hvaa ltac:(lia)) as [_ Hfpa].
  assert (fb ≠ fp) as Hne. { intros E. apply (Hno dp va fp); [by left|done|done|]. by rewrite pg_id. }
  rewrite Hcs in *. eapply wp_mono; [apply (vcopy_page s buf va fb fp); try done; by rewrite <- Hcs; apply HS|].
  intros u s1 (m1 & -> & Hcp & Hr). exists m1. split_and!; [done|done|..]; apply (spaces_untouched s dp dc m1 HS Hr);
    intros a Ha; apply (copied_out _ _ fb fp); try done; intros E; rewrite E, ?Hcs in Ha; by destruct Ha.
Qed.

(** From the kernel page to the child's new page. *)
Lemma copy_in s1 s3 f : two_spaces s1 dp dc → got_page (sp dc s1) s3 va f → maps (sp dc s1) buf fb →
  wp (vcopy 1024 va buf) s3 (λ _ s4, ∃ m4, s4 = set_phys m4 s3 ∧ copied (phys s3) m4 f fb ∧ two_spaces s4 dp dc
    ∧ ∀ d va' pa, d = dp ∨ d = dc → maps (sp d s4) va' pa ↔ maps (sp d s3) va' pa).
Proof.
  intros HS1 HG Hb. destruct HE as [_ _ (_ & Hba & Hb3) _ _ _ _ _]. pose proof (child_page_spaces s1 s3 dp dc va f HS1 Hva HG) as HS3.
  destruct (free_frame_range _ _ (po_wf _ (mo_pools _ (ts_c _ _ _ HS1)) PF_USER) (gp_frame _ _ _ _ HG)) as [_ Hfa].
  assert (is_free s1 f) as Hff by (exists PF_USER; apply HG). pose proof (child_sp s1 s3 dc va f HG) as Hcs.
  assert (maps s3 va f) as Hmf. { apply (gp_maps _ _ _ _ HG). rewrite decide_True by done. split; [unfold in_space, user_va in *; lia|lia]. }
  assert (maps s3 buf fb) as Hmb. { apply (gp_maps _ _ _ _ HG). rewrite decide_False; [done|]. unfold user_va in Hva. Z.div_mod_to_equations. lia. }
  assert (¬ walk_frame s3 f) as Hw.
  { intros [E|Ht]; [|eapply (mo_table _ (gp_ok _ _ _ _ HG) _ _ Hmf); by rewrite pg_id].
    rewrite (child_cr3 s1 s3 dc va f HG) in E. eapply (mo_walk _ (ts_c _ _ _ HS1) f); [left; exact E|exact Hff]. }
  assert (¬ walk_frame (sp dp s3) f) as Hwp. { rewrite (parent_walk s1 s3 dp dc va f HS1 Hva HG). intros H. by eapply (mo_walk _ (ts_p _ _ _ HS1)). }
  assert (f ≠ fb) as Hne.
  { intros ->. eapply (mo_mapped _ (ts_c _ _ _ HS1) _ _ Hb). by rewrite pg_id. }
  eapply wp_mono; [apply (vcopy_page s3 va buf f fb); try done; apply HG|].
  intros u s4 (m4 & -> & Hcp & Hr). exists m4. split_and!; [done|done|..]; apply (spaces_untouched s3 dp dc m4 HS3 Hr);
    intros a Ha; apply (copied_out _ _ f fb); try done; intros E; rewrite E, ?Hcs in Ha; by destruct Ha.
Qed.

(** The words of [fb] and of the user pages survive the child's new mapping. *)
Lemma kept s1 s3 f a : two_spaces s1 dp dc → got_page (sp dc s1) s3 va f → ¬ is_free s1 (pg a) → ¬ own_frame s1 dc (pg a) → word (phys s3) a = word (phys s1) a.
Proof.
  intros HS1 HG H1 H2. destruct (decide (word (phys s3) a = word (phys s1) a)) as [|Hne]; [done|].
  by destruct (child_changes s1 s3 dp dc va f HS1 Hva HG a Hne).
Qed.
Lemma buf_not_own s1 m1 : s1 = set_phys m1 s → two_spaces s1 dp dc → maps (sp dc s1) buf fb → ¬ is_free s1 fb ∧ ¬ own_frame s1 dc fb.
Proof.
  intros E HS1 Hb. destruct HE as [_ _ (_ & Hba & Hb3) [_ Hfc] _ _ _ _]. destruct (HS1) as [_ Hc _ _].
  destruct (maps_off (sp dc s1) buf fb 0 (mo_vm _ Hc) Hb Hba ltac:(lia)) as [_ Hfa]. split.
  - intros Hf. eapply (mo_mapped _ Hc _ _ Hb). by rewrite pg_id.
  - intros [?|[(i & Hi & Hp & Hq)|(va' & pa & Hv & Hmp & Hq)]]; [done| |].
    + eapply (mo_table _ Hc _ _ Hb). rewrite pg_id by done. exists i. split_and!; [lia|lia|done|done].
    + assert (va' / 4096 = buf / 4096) as E2 by (apply (mo_inj _ Hc va' buf pa fb); try done; by rewrite Hq, pg_id).
      unfold user_va in Hv. Z.div_mod_to_equations. lia.
Qed.

(** The child's user pages: none is in the directory's frame, which the kernel
    half maps. *)
Lemma kept_child s1 s3 f va' pa vd : two_spaces s1 dp dc → got_page (sp dc s1) s3 va f → 0xc0000000 ≤ vd → maps (sp dc s1) vd dc →
  user_va va' → maps (sp dc s1) va' pa → word (phys s3) pa = word (phys s1) pa.
Proof.
  intros HS1 HG Hvd Hmd Hv Hmp. destruct (HS1) as [_ Hc _ _]. destruct (decide (word (phys s3) pa = word (phys s1) pa)) as [|Hne]; [done|exfalso].
  pose proof (va_idx va Hva) as Hi. destruct (child_words s1 s3 dc va f HG pa Hne) as [Hf|[[_ E]|(i & -> & Hp & E)]].
  - by eapply (mo_mapped _ Hc).
  - assert (va' / 4096 = vd / 4096) as E2.
    { apply (mo_inj _ Hc va' vd pa dc Hmp Hmd). rewrite E, (dir_pg s1 dc) by (done || lia). symmetry. apply pg_id. apply (do_aligned _ _ (vm_dir _ _ (mo_vm _ Hc))). }
    unfold user_va in Hv. Z.div_mod_to_equations. lia.
  - eapply (mo_table _ Hc _ _ Hmp). exists (va / 2 ^ 22). split_and!; [lia|lia|done|by rewrite E].
Qed.

Section effect.
Context (m1 m4 : gmap Z Z) (s3 : kstate) (f vd : Z).
Let s1 := set_phys m1 s.
Let s4 := set_phys m4 s3.
Hypothesis (Hcp1 : copied (phys s) m1 fb fp) (HS1 : two_spaces s1 dp dc).
Hypothesis (Hm1 : ∀ d va' pa, d = dp ∨ d = dc → maps (sp d s1) va' pa ↔ maps (sp d s) va' pa).
Hypothesis (HG : got_page (sp dc s1) s3 va f).
Hypothesis (Hcp4 : copied (phys s3) m4 f fb) (HS4 : two_spaces s4 dp dc).
Hypothesis (Hm4 : ∀ d va' pa, d = dp ∨ d = dc → maps (sp d s4) va' pa ↔ maps (sp d s3) va' pa).
Hypothesis (Hvd : 0xc0000000 ≤ vd) (Hmd : maps (sp dc s) vd dc).

Lemma effect_parent va' pa : maps (sp dp s4) va' pa ↔ maps (sp dp s) va' pa.
Proof. rewrite Hm4, (parent_maps s1 s3 dp dc va f HS1 Hva HG), Hm1 by (by left). done. Qed.
(** A frame that was mapped is not the new one. *)
Lemma effect_new d va' pa : d = dp ∨ d = dc → maps (sp d s) va' pa → pg pa ≠ f.
Proof.
  intros Hd Hmp <-. assert (is_free s (pg pa)) as Hfr by (exists PF_USER; apply (gp_frame _ _ _ _ HG)).
  destruct (fe_spaces _ _ _ _ _ _ _ _ HE) as [Hp Hc _ _]. destruct Hd as [-> | ->]; [by eapply (mo_mapped _ Hp)|by eapply (mo_mapped _ Hc)].
Qed.
Lemma effect_word d va' pa : d = dp ∨ d = dc → user_va va' → maps (sp d s) va' pa → word (phys s3) pa = word m1 pa → word (phys s4) pa = word (phys s) pa.
Proof.
  intros Hd Hv Hmp E. destruct buf_facts as (Hfa & _ & _ & _ & Hno).
  destruct (free_frame_range _ _ (po_wf _ (mo_pools _ (ts_c _ _ _ HS1)) PF_USER) (gp_frame _ _ _ _ HG)) as [_ Hffa].
  cbn. rewrite (copied_out _ _ f fb pa Hcp4 Hffa) by by eapply effect_new. rewrite E. apply (copied_out _ _ fb fp pa Hcp1 Hfa). by eapply Hno.
Qed.

Lemma copy_effect : fork_env (sp dp s4) L dp dc child parent buf fb ∧ page_copied s (sp dp s4) dp dc va fp f.
Proof.
  destruct buf_facts as (Hfa & Hbc & _). destruct (HE) as [HS Hcr (Hb & Hba & Hb3) Hfb (tc & T1 & T2 & T3 & T4) (tp & P1 & P2 & P3 & P4) HL Hcur].
  destruct (free_frame_range _ _ (po_wf _ (mo_pools _ (ts_c _ _ _ HS1)) PF_USER) (gp_frame _ _ _ _ HG)) as [_ Hffa].
  destruct (gp_state _ _ _ _ HG) as (m3 & pk & pu & E3). pose proof (gp_lock _ _ _ _ HG) as Hlk. pose proof effect_parent as Hpar.
  pose proof (child_sp s1 s3 dc va f HG) as Hcs. split; [split|split].
  - by apply spaces_cr3.
  - done.
  - split_and!; [by apply Hpar|done|done].
  - done.
  - exists tc. split_and!; [unfold s4; rewrite E3; exact T1|done|done|by apply Hpar].
  - exists tp. split_and!; [unfold s4; rewrite E3; exact P1|done|done|by apply Hpar].
  - change (user_pool (sp dp s4)) with (user_pool s3). rewrite Hlk. destruct HL. unfold s4. rewrite E3. by split.
  - unfold s4. by rewrite E3.
  - apply (gp_frame _ _ _ _ HG).
  - exact Hpar.
  - intros va' pa Hv Hmp. apply (effect_word dp va'); [by left|done|done|]. apply (kept s1 s3 f pa HS1 HG).
    + intros Hf. eapply (mo_mapped _ (ts_p _ _ _ HS)); [exact Hmp|exact Hf].
    + intros Ho. destruct (ts_apart _ _ _ HS1 _ Ho) as [_ H]. apply (H va' pa Hv); [apply Hm1; [by left|done]|done].
  - intros va' pa. change (maps (sp dc (sp dp s4)) va' pa) with (maps (sp dc s4) va' pa). rewrite Hm4, Hcs, (gp_maps _ _ _ _ HG) by (by right).
    case_decide; [done|]. apply Hm1. by right.
  - intros va' pa Hv Hmp. apply (effect_word dc va'); [by right|done|done|].
    apply (kept_child s1 s3 f va' pa vd HS1 HG Hvd); [apply Hm1; [by right|done]|done|apply Hm1; [by right|done]].
  - intros o Ho. change (phys (sp dp s4)) with m4. rewrite (copied_in _ _ f fb o Hcp4 Ho), <- (copied_in _ _ fb fp o Hcp1 Ho).
    assert (pg (fb + 4 * o) = fb) as Ep by (unfold pg; Z.div_mod_to_equations; lia).
    destruct (buf_not_own s1 m1 eq_refl HS1) as [B1 B2]; [apply Hm1; [by right|done]|]. apply (kept s1 s3 f _ HS1 HG); by rewrite Ep.
  - exact (gp_user _ _ _ _ HG).
  - exact (gp_kernel _ _ _ _ HG).
  - exists m4, pk, pu. unfold s4, s1 in *. rewrite E3, <- Hcr. by destruct s.
Qed.
End effect.

Lemma copy_page_ok : wp (copy_page child parent buf va) s (λ _ s', ∃ f, fork_env s' L dp dc child parent buf fb ∧ page_copied s s' dp dc va fp f).
Proof.
  destruct buf_facts as (_ & Hbc & _). destruct (HE) as [HS Hcr (Hb & Hba & Hb3) _ (tc & T1 & T2 & T3 & T4) (tp & P1 & P2 & P3 & P4) HL Hcur].
  unfold copy_page. apply wp_bind. eapply wp_mono; [apply copy_out|]. intros u s1 (m1 & -> & Hcp1 & HS1 & Hm1). set (s1 := set_phys m1 s) in *.
  assert (s1 = sp dp s1) as Hs1 by (unfold s1, sp; rewrite <- Hcr; by destruct s).
  apply wp_bind. eapply wp_eq.
  { apply (page_dir_activate_ok s1 child tc dc T1 T2); [rewrite Hs1; apply HS1|]. rewrite Hs1. apply Hm1; [by left|done]. }
  fold (sp dc s1). apply wp_bind. eapply wp_mono.
  { apply (get_page_ok (sp dc s1) L va); try done; [apply HS1|by destruct HL|]. intros pa Hmp. eapply Hun, Hm1; [by right|exact Hmp]. }
  intros _ s3 [f HG]. apply wp_bind. eapply wp_mono; [apply (copy_in s1 s3 f HS1 HG); apply Hm1; [by right|done]|].
  intros _ s4 (m4 & -> & Hcp4 & HS4 & Hm4). set (s4 := set_phys m4 s3) in *. destruct (gp_state _ _ _ _ HG) as (m3 & pk & pu & E3).
  assert (s4 = sp dc s4) as Hs4 by (unfold s4; rewrite E3; done).
  eapply wp_eq.
  { apply (page_dir_activate_ok s4 parent tp dp); [unfold s4; by rewrite E3|done|rewrite Hs4; apply HS4|].
    rewrite Hs4. apply (kernel_maps s4 dp dc HS4); [done|]. by apply (effect_parent m1 m4 s3 f HS1 Hm1 HG Hm4). }
  fold (sp dp s4). exists f. apply (copy_effect m1 m4 s3 f (pgdir tc) Hcp1 HS1 Hm1 HG Hcp4 HS4 Hm4 T3). by apply (kernel_maps s dp dc HS).
Qed.
End one_page.

(** ** All pages *)

(** The loops visit the pages whose bit is set, in order. *)
Fixpoint copy_list (child parent buf vs : Z) (l : list Z) : K unit :=
  match l with [] => mret () | i :: l => copy_page child parent buf (vs + i * 4096) ;; copy_list child parent buf vs l end.
Definition used_list (m : BitMap) (i n : Z) : list Z := filter (λ j, used m j = true) (seqZ i n).

Lemma copy_list_app c p buf vs l1 l2 s : copy_list c p buf vs (l1 ++ l2) s = (copy_list c p buf vs l1 ;; copy_list c p buf vs l2) s.
Proof.
  revert s. induction l1 as [|i l1 IH]; intros s; [done|]. cbn [app copy_list]. unfold mbind, K_bind.
  destruct (copy_page c p buf (vs + i * 4096) s) as [[u s']| | | |]; done.
Qed.
Lemma used_list_S m i n : used_list m i (Z.of_nat (S n)) = (if used m i then [i] else []) ++ used_list m (i + 1) (Z.of_nat n).
Proof.
  unfold used_list. rewrite Nat2Z.inj_succ, (seqZ_cons i) by lia. rewrite filter_cons, Z.pred_succ. unfold Z.succ. destruct (used m i); by case_decide.
Qed.
Lemma used_list_app m i a b : 0 ≤ a → 0 ≤ b → used_list m i (a + b) = used_list m i a ++ used_list m (i + a) b.
Proof. intros Ha Hb. unfold used_list. by rewrite seqZ_app, filter_app by done. Qed.

Lemma copy_bits_list c p buf vs m idx n : 0 ≤ idx → 0 ≤ vs → vs + (idx * 8 + 8) * 4096 ≤ 2 ^ 32 → ∀ k s, 0 ≤ k → k + Z.of_nat n ≤ 8 →
  copy_bits n c p buf vs idx k ((Bitmap.bits m)@@idx) s = copy_list c p buf vs (used_list m (idx * 8 + k) (Z.of_nat n)) s.
Proof.
  intros Hi Hvs Hb. induction n as [|n IH]; intros k s Hk Hkn; [done|]. rewrite used_list_S. cbn [copy_bits].
  assert (negb (Z.land (Z.shiftl BITMAP_MASK k) (Bitmap.bits m)@@idx =? 0) = used m (idx * 8 + k)) as ->.
  { unfold used, BITMAP_MASK. rewrite Z.land_comm, mask_testbit by done. f_equal; [f_equal|]; Z.div_mod_to_equations; lia. }
  destruct (used m (idx * 8 + k)).
  - rewrite (u32_id (idx * 8 + k)) by lia. unfold PG_SIZE. replace (u32 ((idx * 8 + k) * 4096 + vs)) with (vs + (idx * 8 + k) * 4096) by (rewrite u32_id; lia).
    cbn [app copy_list]. unfold mbind, K_bind. destruct (copy_page c p buf _ s) as [[u s']| | | |]; try done. rewrite IH by lia. do 2 f_equal. lia.
  - cbn [app]. unfold mbind, K_bind. cbn. rewrite IH by lia. do 2 f_equal. lia.
Qed.
Lemma copy_bytes_list c p buf vs m n : 0 ≤ vs → btmp_bytes_len m ≤ len (Bitmap.bits m) → vs + nbits m * 4096 ≤ 2 ^ 32 → ∀ idx s, 0 ≤ idx → idx + Z.of_nat n ≤ btmp_bytes_len m →
  copy_bytes n c p buf vs idx (Bitmap.bits m) s = copy_list c p buf vs (used_list m (idx * 8) (8 * Z.of_nat n)) s.
Proof.
  intros Hvs Hlen Hb. unfold nbits in Hb. induction n as [|n IH]; intros idx s Hi Hin; [done|]. cbn [copy_bytes]. unfold mbind at 1, K_bind at 1. cbn [lift].
  unfold lift. rewrite rd_ok by lia. cbn [mbind outcome_bind]. replace (8 * Z.of_nat (S n)) with (8 + 8 * Z.of_nat n) by lia.
  rewrite used_list_app, copy_list_app by lia. unfold mbind, K_bind. replace (idx * 8 + 8) with ((idx + 1) * 8) by lia.
  assert ((if negb ((Bitmap.bits m)@@idx =? 0) then copy_bits 8 c p buf vs idx 0 (Bitmap.bits m)@@idx else mret ()) s = copy_list c p buf vs (used_list m (idx * 8) 8) s) as ->.
  { pose proof (copy_bits_list c p buf vs m idx 8 Hi Hvs ltac:(lia) 0 s ltac:(lia) ltac:(lia)) as Eb. rewrite Z.add_0_r in Eb. change (Z.of_nat 8) with 8 in Eb. rewrite <- Eb. destruct (Z.eqb_spec (Bitmap.bits m)@@idx 0) as [E|]; [|done]. by rewrite E. }
  destruct (copy_list c p buf vs (used_list m (idx * 8) 8) s) as [[u s']| | | |]; try done. apply IH; lia.
Qed.

(** At least [n] frames are free. *)
Definition avail (t : PoolType) (n : nat) (s : kstate) : Prop := ∃ l, NoDup l ∧ length l = n ∧ Forall (free_frame (pool_of t s)) l.
Lemma avail_some t n s : avail t (S n) s → ∃ f, free_frame (pool_of t s) f.
Proof. intros ([|f l] & _ & Hl & HF); [done|]. apply Forall_cons in HF as [? _]. eauto. Qed.
Lemma avail_step t n s s' g0 : avail t (S n) s → (∀ g, free_frame (pool_of t s) g → free_frame (pool_of t s') g ∨ g = g0) → avail t n s'.
Proof.
  intros (l & Hnd & Hl & HF) Hstep. assert (∃ l', NoDup l' ∧ length l' = n ∧ (g0 ∉ l') ∧ Forall (free_frame (pool_of t s)) l') as (l' & H1 & H2 & H3 & H4).
  { destruct (decide (g0 ∈ l)) as [[l' Hp]%elem_of_Permutation|Hn].
    - rewrite Hp in Hnd, HF. apply NoDup_cons in Hnd as [? ?]. apply Forall_cons in HF as [_ ?]. exists l'. split_and!; try done. apply Permutation_length in Hp. cbn in Hp. lia.
    - destruct l as [|x l]; [done|]. apply NoDup_cons in Hnd as [? ?]. apply Forall_cons in HF as [_ ?]. exists l. split_and!; try done; [cbn in Hl; lia|set_solver]. }
  exists l'. split_and!; [done|done|]. rewrite Forall_forall in H4 |- *. intros g Hg. destruct (Hstep g (H4 g Hg)) as [?|E]; [done|by subst].
Qed.

(** The pages with numbers in [J] have been copied since [s]. *)
Record body_copied (s s' : kstate) (dp dc vs : Z) (J : list Z) : Prop := {
  bc_parent va pa : maps (sp dp s') va pa ↔ maps (sp dp s) va pa;
  bc_pdata va pa : user_va va → maps (sp dp s) va pa → word (phys s') pa = word (phys s) pa;
  bc_done i : i ∈ J → ∃ fp f, maps (sp dp s) (vs + i * 4096) fp ∧ maps (sp dc s') (vs + i * 4096) f
    ∧ ∀ o, 0 ≤ o < 1024 → word (phys s') (f + 4 * o) = word (phys s) (fp + 4 * o);
  bc_only va pa : user_va va → maps (sp dc s') va pa → ∃ i, i ∈ J ∧ va / 4096 = vs / 4096 + i;
  bc_state : ∃ m' pk pu, s' = set_phys m' (set_kernel_pool pk (set_user_pool pu s));
}.

Section body.
Context (s : kstate) (L : gmap Z (list Z)) (dp dc child parent buf fb vs : Z).
Hypothesis (HE : fork_env s L dp dc child parent buf fb) (Hvs : vs mod 4096 = 0).

Lemma page_num i : (vs + i * 4096) / 4096 = vs / 4096 + i.
Proof. Z.div_mod_to_equations. lia. Qed.

Lemma user_off i o : user_va (vs + i * 4096) → 0 ≤ o < 1024 → user_va (vs + i * 4096 + 4 * o).
Proof. unfold user_va. intros H Ho. Z.div_mod_to_equations. lia. Qed.

Lemma body_step s1 s2 J i fp f : body_copied s s1 dp dc vs J → two_spaces s1 dp dc → (∀ j, j ∈ J → user_va (vs + j * 4096)) → user_va (vs + i * 4096) → i ∉ J →
  maps (sp dp s) (vs + i * 4096) fp → page_copied s1 s2 dp dc (vs + i * 4096) fp f → body_copied s s2 dp dc vs (J ++ [i]).
Proof.
  intros [B1 B2 B3 B4 B5] HS1 HJ Hi Hn Hfp [P0 P1 P2 P3 P4 P5 _ _ P8].
  assert (∀ j, (vs + j * 4096) mod 4096 = 0) as Hal by (intros j; Z.div_mod_to_equations; lia). split.
  - intros va pa. by rewrite P1, B1.
  - intros va pa Hv Hmp. rewrite (P2 va pa Hv) by by apply B1. by apply (B2 va).
  - intros j [Hj|Hj]%elem_of_app.
    + destruct (B3 j Hj) as (fpj & fj & M1 & M2 & M3). exists fpj, fj. split_and!; [done| |].
      * apply P3. rewrite !page_num, decide_False; [done|]. intros E. assert (j = i) by lia. by subst.
      * intros o Ho. destruct (maps_off (sp dc s1) _ fj (4 * o) (mo_vm _ (ts_c _ _ _ HS1)) M2 (Hal j) ltac:(lia)) as [M4 _].
        rewrite (P4 _ _ (user_off j o (HJ j Hj) Ho) M4). by apply M3.
    + apply list_elem_of_singleton in Hj as ->. exists fp, f. split_and!; [done| |].
      * apply P3. rewrite decide_True by done. split; [unfold in_space, user_va in *; lia|]. rewrite Hal. lia.
      * intros o Ho. rewrite P5 by done. destruct (maps_off (sp dp s) _ fp (4 * o) (mo_vm _ (ts_p _ _ _ (fe_spaces _ _ _ _ _ _ _ _ HE))) Hfp (Hal i) ltac:(lia)) as [M4 _].
        apply (B2 _ _ (user_off i o Hi Ho) M4).
  - intros va pa Hv Hmp%P3. rewrite page_num in Hmp. case_decide as E.
    + exists i. split; [set_solver|done].
    + destruct (B4 va pa Hv Hmp) as (j & Hj & Ej). exists j. split; [set_solver|done].
  - destruct B5 as (m1 & pk1 & pu1 & ->), P8 as (m2 & pk2 & pu2 & ->). by exists m2, pk2, pu2.
Qed.

Lemma copy_list_ok l : ∀ s1 J, fork_env s1 L dp dc child parent buf fb → body_copied s s1 dp dc vs J → NoDup (J ++ l) →
  (∀ i, i ∈ J ++ l → user_va (vs + i * 4096)) → (∀ i, i ∈ l → ∃ fp, maps (sp dp s) (vs + i * 4096) fp) →
  avail PF_USER (length l) s1 → avail PF_KERNEL (length l) s1 →
  wp (copy_list child parent buf vs l) s1 (λ _ s', fork_env s' L dp dc child parent buf fb ∧ body_copied s s' dp dc vs (J ++ l)).
Proof.
  induction l as [|i l IH]; intros s1 J HE1 HB Hnd Huv Hmp Hau Hak.
  { cbn [copy_list]. kstep. by rewrite app_nil_r. }
  cbn [copy_list]. apply wp_bind. destruct (Hmp i ltac:(set_solver)) as [fp Hfp]. apply NoDup_app in Hnd as (N1 & N2 & N3). apply NoDup_cons in N3 as [N3 N4].
  assert (i ∉ J) as HiJ by (intros H; apply (N2 i H); set_solver). assert (user_va (vs + i * 4096)) as Hvi by (apply Huv; set_solver).
  eapply wp_mono.
  { apply (copy_page_ok s1 L dp dc child parent buf fb (vs + i * 4096) fp HE1 Hvi); [Z.div_mod_to_equations; lia|by apply (bc_parent _ _ _ _ _ _ HB)| |by eapply (avail_some PF_USER)|by eapply (avail_some PF_KERNEL)].
    intros pa H. destruct (bc_only _ _ _ _ _ _ HB _ _ Hvi H) as (j & Hj & E). rewrite page_num in E. assert (j = i) by lia. by subst. }
  intros u s2 (f & HE2 & HP). replace (J ++ i :: l) with ((J ++ [i]) ++ l) in * by by rewrite <- app_assoc.
  apply IH; try done.
  - apply (body_step s1 s2 J i fp f); try done; [apply HE1|intros j Hj; apply Huv; set_solver].
  - apply NoDup_app. split_and!; [|set_solver|done]. apply NoDup_app. split_and!; [done|set_solver|apply NoDup_singleton].
  - intros j Hj. apply Hmp. set_solver.
  - eapply (avail_step PF_USER); [exact Hau|apply (pc_user _ _ _ _ _ _ _ HP)].
  - destruct (pc_kernel _ _ _ _ _ _ _ HP) as [g0 Hg]. eapply (avail_step PF_KERNEL); [exact Hak|exact Hg].
Qed.
End body.

Lemma used_list_elem m n i : i ∈ used_list m 0 n ↔ 0 ≤ i < n ∧ used m i = true.
Proof. unfold used_list. rewrite list_elem_of_filter, elem_of_seqZ. naive_solver lia. Qed.

(** C4: [copy_body_stack3]: with a frame for every page, the child ends up with
    exactly the parent's pages, each with the same words, in frames of its own;
    the parent's mappings and the words of its pages are unchanged, and both
    address spaces are consistent. *)
Theorem copy_body_stack3_correct s L dp dc child parent buf fb t :
  let m := vaddr_map (userprog_vaddr t) in
  let vs := vaddr_start (userprog_vaddr t) in
  fork_env s L dp dc child parent buf fb → tasks s !! parent = Some t →
  vs mod 4096 = 0 → 0x400000 ≤ vs → vs + nbits m * 4096 ≤ 0xc0000000 → 0 ≤ btmp_bytes_len m ≤ len (Bitmap.bits m) →
  (∀ i, 0 ≤ i < nbits m → used m i = true → ∃ fp, maps (sp dp s) (vs + i * 4096) fp) →
  (∀ va pa, user_va va → ¬ maps (sp dc s) va pa) →
  avail PF_USER (length (used_list m 0 (nbits m))) s → avail PF_KERNEL (length (used_list m 0 (nbits m))) s →
  ∃ s', copy_body_stack3 child parent buf s = Ok ((), s') ∧ cr3 s' = dp ∧ two_spaces s' dp dc
    ∧ (∀ i o, 0 ≤ i < nbits m → used m i = true → 0 ≤ o < 1024 →
        ∃ w, vload (vs + i * 4096 + 4 * o) (sp dp s) = Ok (w, sp dp s) ∧ vload (vs + i * 4096 + 4 * o) (sp dc s') = Ok (w, sp dc s'))
    ∧ (∀ va pa, user_va va → maps (sp dc s') va pa → ∃ i, 0 ≤ i < nbits m ∧ used m i = true ∧ va / 4096 = vs / 4096 + i)
    ∧ (∀ va pa va' pa', user_va va → user_va va' → maps (sp dc s') va pa → maps (sp dp s') va' pa' → pg pa ≠ pg pa')
    ∧ (∀ va pa, maps (sp dp s') va pa ↔ maps (sp dp s) va pa)
    ∧ (∀ va pa, user_va va → maps (sp dp s) va pa → word (phys s') pa = word (phys s) pa).
Proof.
  intros m vs HE Ht Hvs Hlo Hhi Hlen Hmp Hemp Hau Hak.
  assert (wp (copy_list child parent buf vs (used_list m 0 (nbits m))) s
    (λ _ s', fork_env s' L dp dc child parent buf fb ∧ body_copied s s' dp dc vs ([] ++ used_list m 0 (nbits m)))) as Hwp.
  { apply (copy_list_ok s L dp dc child parent buf fb vs HE Hvs); try done.
    - split; try done; [by intros i ?%elem_of_nil|intros va pa Hv H; by apply Hemp in H|]. exists (phys s), (kernel_pool s), (user_pool s). by destruct s.
    - cbn. apply NoDup_filter, NoDup_seqZ.
    - cbn. intros i [Hi _]%used_list_elem. unfold user_va, nbits in *. lia.
    - intros i [Hi Hu]%used_list_elem. by apply Hmp. }
  destruct (wp_inv _ _ _ Hwp) as ([] & s' & E & HE' & [B1 B2 B3 B4 _]). exists s'. destruct (HE') as [HS' Hcr' _ _ _ _ _ _]. cbn [app] in *. split_and!; try done.
  - unfold copy_body_stack3, mbind, K_bind. rewrite (ld_task_eq s parent t Ht). fold m vs. rewrite (copy_bytes_list child parent buf vs m) by (unfold nbits in *; lia).
    replace (8 * Z.of_nat (Z.to_nat (btmp_bytes_len m))) with (nbits m) by (unfold nbits; lia). exact E.
  - intros i o Hi Hu Ho. destruct (B3 i) as (fp & f & M1 & M2 & M3); [by apply used_list_elem|]. exists (word (phys s) (fp + 4 * o)).
    assert ((vs + i * 4096) mod 4096 = 0) as Hal by (Z.div_mod_to_equations; lia).
    destruct (maps_off (sp dp s) _ fp (4 * o) (mo_vm _ (ts_p _ _ _ (fe_spaces _ _ _ _ _ _ _ _ HE))) M1 Hal ltac:(lia)) as [[_ T1] _].
    destruct (maps_off (sp dc s') _ f (4 * o) (mo_vm _ (ts_c _ _ _ HS')) M2 Hal ltac:(lia)) as [[_ T2] _].
    rewrite (vload_eq _ _ _ T1), (vload_eq _ _ _ T2). split; [done|]. do 2 f_equal. by apply M3.
  - intros va pa Hv H. destruct (B4 va pa Hv H) as (i & [Hi Hu]%used_list_elem & E2). eauto.
  - intros va pa va' pa' Hv Hv' H1 H2 E2. destruct (ts_apart _ _ _ HS' (pg pa)) as [_ H]; [right; right; by exists va, pa|]. by apply (H va' pa').
Qed.

(** A page that cannot be had is not noticed: without a free user frame the copy
    runs on and writes through an address that is not mapped. *)
Theorem copy_page_no_frame_faults s L dp dc child parent buf fb va fp :
  fork_env s L dp dc child parent buf fb → user_va va → va mod 4096 = 0 → maps (sp dp s) va fp → (∀ pa, ¬ maps (sp dc s) va pa) →
  (∀ f, ¬ free_frame (user_pool s) f) → copy_page child parent buf va s = Fault.
Proof.
  intros HE Hva Hvaa Hfp Hun Hno. pose proof (copy_out s L dp dc child parent buf fb va fp HE Hva Hvaa Hfp) as Hout.
  destruct (HE) as [HS Hcr (Hb & Hba & Hb3) _ (tc & T1 & T2 & T3 & T4) _ HL Hcur]. destruct (wp_inv _ _ _ Hout) as ([] & s1 & E & m1 & -> & _ & HS1 & Hm1).
  set (s1 := set_phys m1 s) in *. assert (s1 = sp dp s1) as Hs1 by (unfold s1, sp; rewrite <- Hcr; by destruct s).
  unfold copy_page, mbind, K_bind. rewrite E. rewrite (page_dir_activate_ok s1 child tc dc T1 T2); [|rewrite Hs1; apply HS1|rewrite Hs1; apply Hm1; [by left|done]].
  fold (sp dc s1). set (l := lock (user_pool s)) in *. assert (lock_free (sp dc s1) L l) as HL1 by by destruct HL.
  assert (get_a_page_without_opvaddrbitmap PF_USER va (sp dc s1) = Ok (NULL, sp dc s1)) as ->.
  { unfold get_a_page_without_opvaddrbitmap, mbind, K_bind, gets. change (pool_lock PF_USER (sp dc s1)) with l.
    rewrite (lock_acquire_free (sp dc s1) L l HL1 Hcur). set (s2 := held (sp dc s1) l (cur (sp dc s1)) 1).
    pose proof (palloc_ok PF_USER s2 (po_wf _ (mo_pools _ (ts_c _ _ _ HS1)) PF_USER)) as Hpa.
    destruct (wp_inv _ _ _ Hpa) as (r & s3 & -> & [(-> & -> & _)|(p' & i & _ & _ & Hf & _)]); [|by apply Hno in Hf]. cbn [Z.eqb].
    change (NULL =? NULL) with true. cbv iota. unfold s2. rewrite (lock_release_last (sp dc s1) L l HL1 Hcur). done. }
  assert (mem_ok (sp dc s1)) as Hc by apply HS1. destruct (translate (phys (sp dc s1)) (cr3 (sp dc s1)) va) as [pa|] eqn:Et.
  { exfalso. eapply Hun, Hm1; [by right|]. split; [unfold in_space, user_va in *; lia|exact Et]. }
  change (vcopy 1024 va buf) with (v ← vload buf; vstore va v ;; vcopy 1023 (va + 4) (buf + 4)). unfold mbind, K_bind.
  assert (maps (sp dc s1) buf fb) as [_ Hbt] by (apply (kernel_maps s1 dp dc HS1); [done|apply Hm1; [by left|done]]).
  rewrite (vload_eq _ _ _ Hbt). unfold vstore. by rewrite Et.
Qed.
