(* ===== verification/ForkDemo.v ===== *)
(** * Two address spaces at work

    On a machine with 2.5 MiB, after [mem_init]: a directory for a parent at
    0xc0100000, one user page at 0x8048000, a kernel page at 0xc0101000 for the
    copy, and a directory for the child at 0xc0102000. *)
From S2P Require Import Prelude CString Bitmap Machine DList Mmu PageMem BootMem Sched Sync Heap HeapSpec HeapBoot Stdio Console Cpu Thread Fork ForkSpec.

Definition parent_pcb : Z := 0xc009e000.
Definition child_pcb : Z := 0xc009f000.
(** One page in use: the first of the bitmap. *)
Definition one_page : VirtualAddr := mkVirtualAddr (mkBitMap 1 [1]) 0x8048000.
Definition space_task (p dir : Z) : TaskStruct := set_userprog_vaddr one_page (set_pgdir dir (demo_task p TASK_RUNNING)).

Definition demo_kernel : kstate := set_tasks {[parent_pcb := space_task parent_pcb 0xc0100000; child_pcb := space_task child_pcb 0xc0102000]} demo_heap.

Lemma demo_kernel_ok : mem_ok demo_kernel ∧ cur demo_kernel ≠ 0 ∧ ∃ L, lock_free demo_kernel L (lock (user_pool demo_kernel)).
Proof.
  destruct (wp_inv _ _ _ (mem_init_ok (λ _, 0xaa) demo_boot ∅ 0x280000 demo_boot_ram demo_boot_layout)) as (u & s' & Hrun & L' & Hb).
  unfold demo_kernel, demo_heap. rewrite Hrun. clear Hrun. cbn [run_state]. split_and!.
  - destruct (ho_mem _ _ (hb_heap _ _ _ _ Hb)) as [[? ?] ? ? ? ? ? ? ? ?]. split; try done.
  - destruct Hb as [_ _ _ _ _ _ (_ & E2 & _)]. unfold cur. cbn. by rewrite E2.
  - exists L'. destruct (hb_locks _ _ _ _ Hb PF_USER) as [? ? ? ? ?]. by split.
Qed.

(** The runs so far, and the value of one more call. *)
Definition step1 : K Z := get_kernel_pages 1.
Definition step2 : K Z := a ← create_page_dir 0; d ← addr_v2p a; modify (set_cr3 d) ;; mret a.
Definition step3 : K Z := step2 ;; get_a_page_without_opvaddrbitmap PF_USER 0x8048000.
Definition step4 : K Z := step3 ;; get_kernel_pages 1.
Definition step5 : K Z := step4 ;; get_kernel_pages 1.
Definition step6 : K Z := step4 ;; create_page_dir 0.
Definition free_bits : K (bool * bool) :=
  k ← gets kernel_pool; u ← gets user_pool;
  mret (negb (used (pool_map k) 20) && (20 <? nbits (pool_map k)),
        negb (used (pool_map u) 20) && (20 <? nbits (pool_map u))).

Lemma run_bind {A B} (p : K A) (q : K B) s a s' : p s = Ok (a, s') → (p ;; q) s = q s'.
Proof. intros E. unfold mbind, K_bind. by rewrite E. Qed.

Lemma free_bits_ok s : run_val (free_bits s) = Some (true, true) →
  avail PF_KERNEL 1 s ∧ avail PF_USER 1 s.
Proof.
  intros [= H1 H2]. apply andb_true_iff in H1 as [H1 H3], H2 as [H2 H4]. apply negb_true_iff in H1, H2. apply Z.ltb_lt in H3, H4.
  split; [exists [phy_addr_start (kernel_pool s) + 20 * 4096]|exists [phy_addr_start (user_pool s) + 20 * 4096]];
    (split_and!; [apply NoDup_singleton|done|]); apply Forall_singleton; exists 20; cbn; (split_and!; [lia|lia|done|done]).
Qed.

(** What memory allocation leaves alone. *)
Definition rest_kept (s s' : kstate) : Prop :=
  tasks s' = tasks s ∧ esp s' = esp s ∧ links s' = links s ∧ locks s' = locks s ∧ sema_value s' = sema_value s ∧ lock (user_pool s') = lock (user_pool s).
Lemma rest_kept_trans s1 s2 s3 : rest_kept s1 s2 → rest_kept s2 s3 → rest_kept s1 s3.
Proof. unfold rest_kept. intuition congruence. Qed.
Lemma rest_kept_lock s s' L : rest_kept s s' → lock_free s L (lock (user_pool s)) → lock_free s' L (lock (user_pool s')).
Proof. intros (_ & _ & E1 & E2 & E3 & ->) [H1 H2 H3 H4 H5]. split; rewrite ?E1, ?E2, ?E3; done. Qed.
Lemma rest_kept_cur s s' : rest_kept s s' → cur s' = cur s.
Proof. intros (_ & E & _). unfold cur. by rewrite E. Qed.

Definition demo_tasks2 : gmap Z TaskStruct :=
  {[parent_pcb := space_task parent_pcb 0xc0100000; child_pcb := space_task child_pcb 0xc0102000]}.
Definition demo_values (s : kstate) : Prop :=
  run_val (step1 s) = Some 0xc0100000 ∧ run_val ((step2 ;; free_bits) s) = Some (true, true)
  ∧ run_val (step4 s) = Some 0xc0101000 ∧ run_val (step5 s) = Some 0xc0102000
  ∧ run_val ((step6 ;; free_bits) s) = Some (true, true).

Section run.
Context (s0 : kstate) (L : gmap Z (list Z)).
Hypothesis (Hm0 : mem_ok s0) (Hcur : cur s0 ≠ 0) (HL : lock_free s0 L (lock (user_pool s0))) (Hruns : demo_values s0) (Htasks : tasks s0 = demo_tasks2).

Lemma demo_parent_dir : ∃ dA s1, step2 s0 = Ok (0xc0100000, s1) ∧ mem_ok s1 ∧ cr3 s1 = dA ∧ maps s1 0xc0100000 dA
  ∧ (∀ va pa, user_va va → ¬ maps s1 va pa) ∧ rest_kept s0 s1.
Proof.
  pose proof (run_val_state _ _ (proj1 Hruns)) as E1.
  destruct (create_page_dir_correct 0 _ _ _ Hm0 E1 ltac:(discriminate)) as (dA & s1 & Hc & Ecr & HS & Hd & Hu & Hk & _ & _ & v & m & p & Es).
  exists dA, (sp dA s1). split_and!; [|apply HS|done|by apply Hk|intros va pa Hv; by apply Hu|by rewrite Es].
  unfold step2, mbind, K_bind. rewrite Hc. destruct Hd as [Hin Ht]. rewrite (addr_v2p_ok s1 _ dA); [done| |by apply in_space_idx|done].
  rewrite Ecr. apply HS.
Qed.

(** The parent with its page and the kernel page for the copy. *)
Lemma demo_parent_page : ∃ dA fp fb s, step4 s0 = Ok (0xc0101000, s) ∧ mem_ok s ∧ cr3 s = dA ∧ maps s 0xc0100000 dA
  ∧ maps s 0x8048000 fp ∧ maps s 0xc0101000 fb ∧ ¬ walk_frame s fb ∧ (∀ va pa, user_va va → maps s va pa → va / 4096 = 0x8048) ∧ rest_kept s0 s.
Proof.
  destruct demo_parent_dir as (dA & s1 & E1 & Hm1 & Ecr & Hd & Hu & HR).
  pose proof Hruns as (_ & HB & H4 & _). rewrite (run_bind _ _ _ _ _ E1) in HB. destruct (free_bits_ok _ HB) as [HBk HBu].
  assert (wp (get_a_page_without_opvaddrbitmap PF_USER 0x8048000) s1 (λ _ s', ∃ f, got_page s1 s' 0x8048000 f)) as Hg.
  { apply (get_page_ok s1 L 0x8048000 Hm1); [by eapply rest_kept_lock|by rewrite (rest_kept_cur _ _ HR)|lia|intros pa; apply Hu; unfold user_va; lia| |].
    - by eapply (avail_some PF_USER).
    - by eapply (avail_some PF_KERNEL). }
  destruct (wp_inv _ _ _ Hg) as (r & s2 & E2 & fp & HG). pose proof (gp_ok _ _ _ _ HG) as Hm2.
  destruct (wp_inv _ _ _ (get_kernel_page_ok s2 Hm2)) as (b & s3 & E3 & Hz).
  assert (step3 s0 = Ok (r, s2)) as E12 by (unfold step3; by rewrite (run_bind _ _ _ _ _ E1)).
  assert (step4 s0 = Ok (b, s3)) as E123 by (unfold step4; by rewrite (run_bind _ _ _ _ _ E12)).
  rewrite E123 in H4. injection H4 as ->. destruct (Hz ltac:(discriminate)) as (fb & [Z1 Z2 _ Z4 _ Z6 Z7 (v3 & m3 & p3 & Es3)]).
  destruct (gp_state _ _ _ _ HG) as (m2 & pk & pu & Es2). exists dA, fp, fb, s3. split_and!; try done.
  - by rewrite Es3, Es2.
  - apply Z6, (gp_maps _ _ _ _ HG). by rewrite decide_False.
  - apply Z6, (gp_maps _ _ _ _ HG). rewrite decide_True by done. split; [unfold in_space; lia|]. change (0x8048000 mod 4096) with 0. lia.
  - intros va pa Hv [E|Hmp]%Z7; [unfold user_va in Hv; change (0xc0101000 / 4096) with 0xc0101 in E; Z.div_mod_to_equations; lia|].
    apply (gp_maps _ _ _ _ HG) in Hmp. case_decide as E; [exact E|]. by apply Hu in Hmp.
  - eapply rest_kept_trans; [exact HR|]. unfold rest_kept. rewrite Es3. cbn. rewrite (gp_lock _ _ _ _ HG), Es2. done.
Qed.

Lemma demo_spaces : ∃ s dp dc fb fp, fork_env s L dp dc child_pcb parent_pcb 0xc0101000 fb ∧ maps (sp dp s) 0x8048000 fp
  ∧ (∀ va pa, user_va va → ¬ maps (sp dc s) va pa) ∧ avail PF_KERNEL 1 s ∧ avail PF_USER 1 s
  ∧ tasks s !! parent_pcb = Some (space_task parent_pcb 0xc0100000).
Proof.
  destruct demo_parent_page as (dA & fp & fb & s3 & E3 & Hm3 & Ecr & Hd & Hfp & Hfb & Hfw & Hu & HR).
  pose proof Hruns as (_ & _ & _ & H5 & H6). unfold step5 in H5. rewrite (run_bind _ _ _ _ _ E3) in H5.
  destruct (create_page_dir_correct 0 _ _ _ Hm3 (run_val_state _ _ H5) ltac:(discriminate)) as (dB & s & Hc & Ecr4 & HS & Hdc & Huc & _ & Hkeep & _ & v & m & p & Es).
  assert (step6 s0 = Ok (0xc0102000, s)) as E6 by (unfold step6; by rewrite (run_bind _ _ _ _ _ E3)).
  rewrite (run_bind _ _ _ _ _ E6) in H6. destruct (free_bits_ok _ H6) as [HBk HBu]. rewrite Ecr in *.
  assert (sp dA s = s) as Esp by (rewrite <- Ecr4; apply sp_cur). assert (rest_kept s0 s) as HR4 by (eapply rest_kept_trans; [exact HR|by rewrite Es]).
  assert (tasks s = demo_tasks2) as Et by (destruct HR4 as [-> _]; exact Htasks).
  exists s, dA, dB, fb, fp. split_and!; [|rewrite Esp; by apply Hkeep|intros va pa Hv; by apply Huc|done|done|by rewrite Et].
  assert (mem_ok s) as Hm by (rewrite <- Esp; apply HS). split; try done.
  - rewrite Esp. split_and!; [by apply Hkeep|done|lia].
  - split; [intros ->; apply Hfw; by left|]. intros ->. apply Hkeep in Hfb. discriminate (mo_inj _ Hm _ _ _ _ Hfb Hdc eq_refl).
  - exists (space_task child_pcb 0xc0102000). rewrite Et, Esp. split_and!; done.
  - exists (space_task parent_pcb 0xc0100000). rewrite Et, Esp. split_and!; try done. by apply Hkeep.
  - by eapply rest_kept_lock.
  - by rewrite (rest_kept_cur _ _ HR4).
Qed.
End run.

Lemma demo_runs : demo_values demo_kernel.
Proof. split_and!; vm_compute; reflexivity. Qed.
#[local] Opaque demo_kernel.

Lemma demo_spaces_ok : ∃ s L dp dc fb fp, fork_env s L dp dc child_pcb parent_pcb 0xc0101000 fb ∧ maps (sp dp s) 0x8048000 fp
  ∧ (∀ va pa, user_va va → ¬ maps (sp dc s) va pa) ∧ avail PF_KERNEL 1 s ∧ avail PF_USER 1 s
  ∧ tasks s !! parent_pcb = Some (space_task parent_pcb 0xc0100000).
Proof.
  destruct demo_kernel_ok as (Hm & Hcur & L & HL).
  destruct (demo_spaces demo_kernel L Hm Hcur HL demo_runs ltac:(reflexivity)) as (s & dp & dc & fb & fp & H). by exists s, L, dp, dc, fb, fp.
Qed.

Lemma create_page_dir_correct_witness : ∃ s1 dc s', get_kernel_pages 1 demo_kernel = Ok (0xc0100000, s1)
  ∧ create_page_dir 0 demo_kernel = Ok (0xc0100000, s') ∧ two_spaces s' (cr3 demo_kernel) dc ∧ ∀ va, user_va va → ∀ pa, ¬ maps (sp dc s') va pa.
Proof.
  destruct demo_kernel_ok as (Hm & _ & _). pose proof (run_val_state _ _ (proj1 demo_runs)) as E.
  destruct (create_page_dir_correct 0 demo_kernel 0xc0100000 _ Hm E ltac:(discriminate)) as (dc & s' & H1 & _ & H2 & _ & H3 & _).
  exists (run_state (step1 demo_kernel)), dc, s'. split; [exact E|]. split; [exact H1|]. split; [exact H2|exact H3].
Defined.

Lemma one_page_used i : 0 ≤ i < nbits (vaddr_map one_page) → used (vaddr_map one_page) i = true → i = 0.
Proof.
  change (nbits (vaddr_map one_page)) with 8. intros Hi Hu.
  assert (forallb (λ i, negb (used (vaddr_map one_page) (Z.of_nat i)) || (i =? 0)%nat) (seq 0 8) = true) as Hall by reflexivity.
  rewrite forallb_forall in Hall. specialize (Hall (Z.to_nat i)). rewrite Z2Nat.id, Hu in Hall by lia.
  assert (In (Z.to_nat i) (seq 0 8)) as Hin by (apply in_seq; lia). apply Hall, Nat.eqb_eq in Hin. lia.
Qed.

Lemma copy_body_stack3_correct_witness : ∃ s dp dc s', cr3 s = dp ∧ copy_body_stack3 child_pcb parent_pcb 0xc0101000 s = Ok ((), s')
  ∧ two_spaces s' dp dc
  ∧ (∀ o, 0 ≤ o < 1024 → ∃ w, vload (0x8048000 + 0 * 4096 + 4 * o) (sp dp s) = Ok (w, sp dp s) ∧ vload (0x8048000 + 0 * 4096 + 4 * o) (sp dc s') = Ok (w, sp dc s')).
Proof.
  destruct demo_spaces_ok as (s & L & dp & dc & fb & fp & HE & Hfp & Hu & Hk & Hus & Ht).
  destruct (copy_body_stack3_correct s L dp dc child_pcb parent_pcb 0xc0101000 fb (space_task parent_pcb 0xc0100000) HE Ht) as (s' & H1 & _ & H2 & H3 & _).
  - reflexivity.
  - discriminate.
  - discriminate.
  - split; discriminate.
  - intros i Hi Hui. exists fp. cbn [userprog_vaddr space_task set_userprog_vaddr set_pgdir] in Hi, Hui. rewrite (one_page_used i Hi Hui). exact Hfp.
  - exact Hu.
  - exact Hus.
  - exact Hk.
  - exists s, dp, dc, s'. split; [exact (fe_cr3 _ _ _ _ _ _ _ _ HE)|]. split; [exact H1|]. split; [exact H2|]. intros o Ho.
    assert (0 ≤ 0 < nbits (vaddr_map one_page)) as Hn by (split; [discriminate|reflexivity]).
    assert (used (vaddr_map one_page) 0 = true) as Hb by reflexivity.
    exact (H3 0 o Hn Hb Ho).
Defined.

(** *** A user pool without a frame *)
Definition empty_pool (s : kstate) : Pool := mkPool (mkBitMap 0 [0]) (phy_addr_start (user_pool s)) 0 (lock (user_pool s)).
Lemma empty_pool_none s f : ¬ free_frame (empty_pool s) f.
Proof. intros (i & Hi & _). change (nbits (pool_map (empty_pool s))) with 0 in Hi. lia. Qed.
Lemma empty_pool_ok s : mem_ok s → mem_ok (set_user_pool (empty_pool s) s).
Proof.
  intros Hm. apply (mem_ok_pools s); try done.
  - destruct (mo_pools _ Hm) as [Hw Ho]. split; [|exact Ho]. intros []; [apply (Hw PF_KERNEL)|].
    destruct (Hw PF_USER) as [[_ [B _] _] _ _ Ha [Hr1 Hr2]]. cbn [pool_of] in *. unfold nbits in *. split; [split|..]; cbn [empty_pool pool_map bits btmp_bytes_len phy_addr_start pool_of set_user_pool user_pool].
    + repeat constructor; lia.
    + by cbn.
    + by cbn.
    + by cbn.
    + by cbn.
    + exact Ha.
    + unfold nbits. cbn [btmp_bytes_len]. lia.
  - intros f [[] Hf]; [by exists PF_KERNEL|]. by apply empty_pool_none in Hf.
Qed.
Lemma empty_pool_env s L dp dc child parent buf fb : fork_env s L dp dc child parent buf fb →
  fork_env (set_user_pool (empty_pool s) s) L dp dc child parent buf fb.
Proof.
  intros [[S1 S2 S3 S4] H2 H3 H4 H5 H6 [L1 L2 L3 L4 L5] H8]. split; try done.
  split; [exact (empty_pool_ok _ S1)|exact (empty_pool_ok _ S2)|done|done].
Qed.

Lemma copy_page_no_frame_faults_witness : ∃ s dp fp, maps (sp dp s) 0x8048000 fp
  ∧ (∀ f, ¬ free_frame (user_pool s) f) ∧ copy_page child_pcb parent_pcb 0xc0101000 0x8048000 s = Fault.
Proof.
  destruct demo_spaces_ok as (s & L & dp & dc & fb & fp & HE & Hfp & Hu & _).
  exists (set_user_pool (empty_pool s) s), dp, fp. split; [exact Hfp|]. split; [apply empty_pool_none|].
  apply (copy_page_no_frame_faults _ L dp dc child_pcb parent_pcb 0xc0101000 fb 0x8048000 fp (empty_pool_env _ _ _ _ _ _ _ _ HE)).
  - split; [discriminate|reflexivity].
  - reflexivity.
  - exact Hfp.
  - intros pa. apply (Hu 0x8048000). split; [discriminate|reflexivity].
  - apply empty_pool_none.
Defined.
