(* ===== verification/Parts.v ===== *)
(** * device/ide.c: identification of drives and the scan of partition tables

    [partition_scan] walks the master boot record and the chain of extended
    boot records; it uses the heap and the driver through [Services].  What it
    keeps between calls (the Disk's descriptors and the globals ext_lba_base,
    p_no, l_no and partition_list) is the record [scan].  An element of
    partition_list is the place of its descriptor.  [identify_disk] and
    [ide_init] work on a channel, in the kernel's monad; [ide_init] gets the
    scan as an argument. *)
From Stdlib Require Import String.
From S2P Require Import Prelude CString Bitmap Machine DList Mmu PageMem Sched Sync Stdio Console Cpu Ide DiskBytes FsBase Inode Dir File Path Fs Format.

(** ** Data *)
Record Disk := mkDisk { hd_name : list Z; dev_no : Z; prim_parts : list PartDesc; logic_parts : list PartDesc }.
Inductive PartTag := PrimTag (hd i : Z) | LogicTag (hd i : Z).
Record scan := mkScan {
  hd : Disk;
  ext_lba_base : Z;
  p_no : Z;
  l_no : Z;
  partition_list : list PartTag;
}.
Definition set_hd (v : Disk) (g : scan) : scan := mkScan v (ext_lba_base g) (p_no g) (l_no g) (partition_list g).
Definition set_ext_lba_base (v : Z) (g : scan) : scan := mkScan (hd g) v (p_no g) (l_no g) (partition_list g).
Definition set_p_no (v : Z) (g : scan) : scan := mkScan (hd g) (ext_lba_base g) v (l_no g) (partition_list g).
Definition set_l_no (v : Z) (g : scan) : scan := mkScan (hd g) (ext_lba_base g) (p_no g) v (partition_list g).
Definition set_partition_list (v : list PartTag) (g : scan) : scan := mkScan (hd g) (ext_lba_base g) (p_no g) (l_no g) v.

(** A boot sector: the table of four entries of 16 bytes is at 446. *)
Definition sizeof_BootSector : Z := 512.
Definition partition_table : Z := 446.
Definition pe_at (i : Z) : Z := partition_table + 16 * i.
Definition pe_fs_type (b : list Z) (i : Z) : Z := b@@(pe_at i + 4).
Definition pe_start_lba (b : list Z) (i : Z) : Z := dword b (pe_at i + 8).
Definition pe_sec_cnt (b : list Z) (i : Z) : Z := dword b (pe_at i + 12).

(** ** The scan *)

(** The descriptor at index [i] of one of the two arrays; the name is the
    disk's with the number of the partition. *)
Definition fill_part (hd : Disk) (parts : list PartDesc) (i lba cnt no : Z) : outcome (list PartDesc) :=
  p ← rd parts i;
  '(name, _) ← sprintf (pd_name p) 0 (text "%s%d" ++ [0]) 0 [VStr (hd_name hd) 0; VWord no];
  wr parts i (mkPD (hd_name hd) name lba cnt (dev_no hd)).
Definition add_prim (lba cnt : Z) (g : scan) : outcome scan :=
  l ← fill_part (hd g) (prim_parts (hd g)) (p_no g) lba cnt (p_no g + 1);
  let h := mkDisk (hd_name (hd g)) (dev_no (hd g)) l (logic_parts (hd g)) in
  mret (set_p_no (u8 (p_no g + 1)) (set_partition_list (partition_list g ++ [PrimTag (dev_no h) (p_no g)]) (set_hd h g))).
Definition add_logic (lba cnt : Z) (g : scan) : outcome scan :=
  l ← fill_part (hd g) (logic_parts (hd g)) (l_no g) lba cnt (l_no g + 5);
  let h := mkDisk (hd_name (hd g)) (dev_no (hd g)) (prim_parts (hd g)) l in
  mret (set_l_no (u8 (l_no g + 1)) (set_partition_list (partition_list g ++ [LogicTag (dev_no h) (l_no g)]) (set_hd h g))).

Section scan.
Context {S : Type} `{!Services S}.

(** The entries from [part_idx] on, with [rec] for an extended partition; the
    result says whether the eighth logical partition ended the call. *)
Fixpoint scan_table (n : nat) (rec : Z → scan → F S scan) (ext_lba : Z) (b : list Z) (part_idx : Z) (g : scan) : F S (bool * scan) :=
  match n with
  | O => mret (false, g)
  | Datatypes.S n =>
      let start := pe_start_lba b part_idx in
      ty ← flift (rd b (pe_at part_idx + 4));
      if ty =? 0x5 then
        g ← (if negb (ext_lba_base g =? 0) then rec (u32 (start + ext_lba_base g)) g
             else rec start (set_ext_lba_base (i32 start) g));
        scan_table n rec ext_lba b (part_idx + 1) g
      else if negb (ty =? 0) then
        if ext_lba =? 0 then
          g ← flift (add_prim (u32 (ext_lba + start)) (pe_sec_cnt b part_idx) g);
          fassert (p_no g <? 4) ;;
          scan_table n rec ext_lba b (part_idx + 1) g
        else
          g ← flift (add_logic (u32 (ext_lba + start)) (pe_sec_cnt b part_idx) g);
          if 8 <=? l_no g then mret (true, g)
          else scan_table n rec ext_lba b (part_idx + 1) g
      else scan_table n rec ext_lba b (part_idx + 1) g
  end.
(** [fuel] bounds the depth of the chain of extended boot records. *)
Fixpoint partition_scan (fuel : nat) (ext_lba : Z) (g : scan) : F S scan :=
  match fuel with
  | O => flift Spin
  | Datatypes.S fuel =>
      bs ← fs_malloc sizeof_BootSector;
      b ← dev_read (dev_no (hd g)) ext_lba 1;
      touch bs ;;
      '(stop, g) ← scan_table 4 (partition_scan fuel) ext_lba b 0 g;
      (if (stop : bool) then mret () else fs_free bs) ;;
      mret g
  end.
End scan.

(** The list as its readers see it. *)
Definition part_of (disks : gmap Z Disk) (t : PartTag) : outcome PartDesc :=
  match t with
  | PrimTag h i => d ← deref (disks !! h); rd (prim_parts d) i
  | LogicTag h i => d ← deref (disks !! h); rd (logic_parts d) i
  end.
Definition partition_info (console_lock : Z) (part : PartDesc) : K (list Z) :=
  printk console_lock (text "%s start_lba:0x%x sec_cnt:0x%x" ++ [10; 0]) 0
    [VStr (pd_name part) 0; VWord (pd_start_lba part); VWord (pd_sec_cnt part)].
Fixpoint info_loop (console_lock : Z) (disks : gmap Z Disk) (l : list PartTag) : K (list Z) :=
  match l with
  | [] => mret []
  | t :: l => p ← lift (part_of disks t); o ← partition_info console_lock p; o' ← info_loop console_lock disks l; mret (o ++ o')
  end.
Definition sys_print_partition_info (console_lock : Z) (disks : gmap Z Disk) (l : list PartTag) : K (list Z) :=
  info_loop console_lock disks l.

(** ** Identification *)
Fixpoint swap_loop (fuel : nat) (idx len : Z) (src : list Z) (dst : Z) (buf : list Z) : outcome (list Z) :=
  match fuel with
  | O => Spin
  | S fuel =>
      if idx <? len then
        c ← rd src dst;
        buf ← wr buf (idx + 1) c;
        c ← rd src (dst + 1);
        buf ← wr buf idx c;
        swap_loop fuel (u8 (idx + 2)) len src (dst + 2) buf
      else wr buf idx 0
  end.
(** [src] from [dst] on; every round moves [idx] by two. *)
Definition swap_pairs_bytes (src : list Z) (dst : Z) (buf : list Z) (len : Z) : outcome (list Z) :=
  swap_loop 130 0 len src dst buf.

Definition CMD_IDENTIFY : Z := 0xec.
Section init.
Context {D : Type} `{!Drive D}.

(** The lines printed about a disk; [buf0] is the uninitialised buffer. *)
Definition identify_report (console_lock : Z) (name id_info buf0 : list Z) : K (list Z) :=
  let sn_start := 10 * 2 in
  let md_start := 27 * 2 in
  buf ← lift (swap_pairs_bytes id_info sn_start buf0 20);
  buf ← lift (wr buf 10 0);
  o1 ← printk console_lock (text "disk %s info" ++ [10] ++ text "  SN: %s" ++ [0]) 0 [VStr name 0; VStr buf 0];
  buf ← lift (swap_pairs_bytes id_info md_start (replicate 64 0) 40);
  buf ← lift (wr buf 14 0);
  o2 ← printk console_lock (text "  MODULE: %s" ++ [0]) 0 [VStr buf 0];
  let sectors := dword id_info (60 * 2) in
  o3 ← printk console_lock (text "  SECTORS: %d" ++ [0]) 0 [VWord sectors];
  o4 ← printk console_lock (text "  CAPACITY: %dMB" ++ [10; 0]) 0 [VWord (u32 (sectors * 512) / 1024 / 1024)];
  mret (o1 ++ o2 ++ o3 ++ o4).
Definition identify_disk (console_lock dev : Z) (name buf0 : list Z) (ch : @IdeChannel D) : K (list Z * @IdeChannel D) :=
  let ch := cmd_out CMD_IDENTIFY (select_disk dev ch) in
  ch ← await ch;
  '(ok, ch) ← lift (busy_wait ch);
  if negb (ok : bool) then kfail Panic
  else
    let '(id_info, ch) := read_from_sector 1 ch in
    out ← identify_report console_lock name id_info buf0;
    mret (out, ch).

(** ** ide_init *)
Record Channel := mkChannel { ch_name : list Z; port_base : Z; chan : @IdeChannel D; devices : list Disk }.
Record ide := mkIde { channel_cnt : Z; channels : list Channel; parts : list PartTag; ext_base : Z; cpu : dev; shown : list Z }.

Definition port_base_of (channel_no old : Z) : Z := if channel_no =? 0 then 0x1f0 else if channel_no =? 1 then 0x170 else old.
Definition irq_no_of (channel_no old : Z) : Z := if channel_no =? 0 then 0x20 + 14 else if channel_no =? 1 then 0x20 + 15 else old.

Section with_scan.
Context (console_lock handler : Z) (buf0 : list Z).
(** [partition_scan] of a disk from sector 0. *)
Context (scan_disk : scan → K scan).

(** The two disks of channel [no]. *)
Fixpoint init_disks (n : nat) (no dev : Z) (c : Channel) (x : ide) : K (Channel * ide) :=
  match n with
  | O => mret (c, x)
  | S n =>
      h ← lift (rd (devices c) dev);
      '(name, _) ← lift (sprintf (hd_name h) 0 (text "sd%c" ++ [0]) 0 [VWord (97 + no * 2 + dev)]);
      let h := mkDisk name dev (prim_parts h) (logic_parts h) in
      '(out, ch) ← identify_disk console_lock dev name buf0 (chan c);
      g ← (if negb (dev =? 0) then scan_disk (mkScan h (ext_base x) 0 0 (parts x)) else mret (mkScan h (ext_base x) 0 0 (parts x)));
      l ← lift (wr (devices c) dev (hd g));
      init_disks n no (dev + 1) (mkChannel (ch_name c) (port_base c) ch l)
        (mkIde (channel_cnt x) (channels x) (partition_list g) (ext_lba_base g) (cpu x) (shown x ++ out))
  end.
Definition init_channel (no : Z) (x : ide) : K ide :=
  c ← lift (rd (channels x) no);
  '(name, _) ← lift (sprintf (ch_name c) 0 (text "ide%d" ++ [0]) 0 [VWord no]);
  let ch := chan c in
  let ch := mkChan (irq_no_of no (irq_no ch)) (ch_lock ch) (disk_done ch) false (drv ch) in
  lock_init (ch_lock ch) ;;
  sema_init (disk_done ch) 0 ;;
  d ← lift (register_handler (irq_no ch) handler (cpu x));
  '(c, x) ← init_disks 2 no 0 (mkChannel name (port_base_of no (port_base c)) ch (devices c))
              (mkIde (channel_cnt x) (channels x) (parts x) (ext_base x) d (shown x));
  l ← lift (wr (channels x) no c);
  mret (mkIde (channel_cnt x) l (parts x) (ext_base x) (cpu x) (shown x)).
Fixpoint init_channels (n : nat) (no : Z) (x : ide) : K ide :=
  match n with
  | O => mret x
  | S n => x ← init_channel no x; init_channels n (no + 1) x
  end.
(** [hd_cnt] is the byte the BIOS leaves at 0x475. *)
Definition ide_init (hd_cnt : Z) (x : ide) : K ide :=
  kassert (0 <? hd_cnt) ;;
  let cnt := u8 (DIV_ROUND_UP hd_cnt 2) in
  init_channels (Z.to_nat cnt) 0 (mkIde cnt (channels x) [] (ext_base x) (cpu x) (shown x)).
End with_scan.
End init.
