(* ===== verification/PartsSpec.v ===== *)
(** * device/ide.c: what the scan of a disk finds

    The partition table of a disk as a relation on its contents: the entries of
    the master boot record in order, with the chain of extended boot records in
    the place of the extended partition.  [partition_scan] finds exactly these
    partitions, numbered and named in order; it panics on a fourth primary
    partition and does not return from a boot record that links to itself. *)
From Stdlib Require Import String.
From S2P Require Import Prelude CString Bitmap Machine Stdio Cpu Ide DiskBytes FsBase Inode Dir File Path Fs Format FileSpec Parts.

(** ** Names *)
Definition disk_name (nm : list Z) : Prop := length nm = 3%nat ∧ Forall (λ c, 0 < c < 256) nm.
Definition padded (nm : list Z) : list Z := nm ++ replicate (8 - length nm) 0.
Definition numbered_name (nm : list Z) (no : Z) : list Z := padded (nm ++ decimal no).

Lemma decimal_small no : 0 < no ≤ 12 → (1 ≤ length (decimal no) ≤ 2)%nat ∧ Forall (λ c, 0 < c < 256) (decimal no).
Proof.
  intros Hn. assert (no = 1 ∨ no = 2 ∨ no = 3 ∨ no = 4 ∨ no = 5 ∨ no = 6 ∨ no = 7 ∨ no = 8 ∨ no = 9 ∨ no = 10 ∨ no = 11 ∨ no = 12) as H by lia.
  repeat destruct H as [->|H]; [..|subst no]; (split; [vm_compute; lia|vm_compute; repeat constructor; done]).
Qed.

Lemma part_name_ok nm no : disk_name nm → 0 < no ≤ 12 →
  sprintf (replicate 8 0) 0 (text "%s%d" ++ [0]) 0 [VStr (padded nm) 0; VWord no] = Ok (numbered_name nm no, len (nm ++ decimal no)).
Proof.
  intros [Hl Hc] Hn. destruct (decimal_small no Hn) as [Hd1 Hd2].
  pose proof (vsprintf_ok [] 8 [] (text "%s%d" ++ [0]) 0 (text "%s%d") [VStr (padded nm) 0; VWord no] [SStr nm; SWord no] (nm ++ decimal no)) as H.
  cbn [app] in H. rewrite app_nil_r in H. change (len []) with 0 in H. unfold sprintf. rewrite H; clear H.
  - unfold numbered_name, padded. by rewrite app_nil_r.
  - exists [], []. split_and!; [reflexivity|reflexivity|repeat constructor; done].
  - constructor; [|by repeat constructor]. split; [|unfold len; lia]. exists [], (replicate 4 0). split_and!; [|done|done].
    unfold padded. rewrite Hl. done.
  - assert (i32 no = no) as E by (unfold i32; rewrite Z.mod_small; lia). change (text "%s%d") with [37; 115; 37; 100].
    cbn -[decimal i32]. by rewrite E, app_nil_r.
  - by apply Forall_app.
  - rewrite length_app. lia.
  - unfold len. rewrite length_app. lia.
Qed.

(** ** Filling the arrays *)

(** A partition found: primary or logical, where it starts and its size. *)
Definition found : Type := bool * Z * Z.
Definition add_found (nm : list Z) (g : scan) (x : found) : scan :=
  let '(prim, lba, cnt) := x in
  let h := hd g in
  if prim then
    let d := mkPD (hd_name h) (numbered_name nm (p_no g + 1)) lba cnt (dev_no h) in
    mkScan (mkDisk (hd_name h) (dev_no h) (<[Z.to_nat (p_no g) := d]> (prim_parts h)) (logic_parts h))
      (ext_lba_base g) (p_no g + 1) (l_no g) (partition_list g ++ [PrimTag (dev_no h) (p_no g)])
  else
    let d := mkPD (hd_name h) (numbered_name nm (l_no g + 5)) lba cnt (dev_no h) in
    mkScan (mkDisk (hd_name h) (dev_no h) (prim_parts h) (<[Z.to_nat (l_no g) := d]> (logic_parts h)))
      (ext_lba_base g) (p_no g) (l_no g + 1) (partition_list g ++ [LogicTag (dev_no h) (l_no g)]).
Definition add_all (nm : list Z) (l : list found) (g : scan) : scan := fold_left (add_found nm) l g.

(** The descriptors from [i] on have not been used. *)
Definition unnamed (l : list PartDesc) (i : Z) : Prop := ∀ j p, i ≤ Z.of_nat j → l !! j = Some p → pd_name p = replicate 8 0.
Record scan_ok (nm : list Z) (g : scan) : Prop := {
  so_name : disk_name nm ∧ hd_name (hd g) = padded nm;
  so_prim : length (prim_parts (hd g)) = 4%nat ∧ unnamed (prim_parts (hd g)) (p_no g);
  so_logic : length (logic_parts (hd g)) = 8%nat ∧ unnamed (logic_parts (hd g)) (l_no g);
  so_no : 0 ≤ p_no g ≤ 4 ∧ 0 ≤ l_no g ≤ 8;
}.

Lemma unnamed_insert l i d : 0 ≤ i → unnamed l i → unnamed (<[Z.to_nat i := d]> l) (i + 1).
Proof. intros Hi H j p Hj. rewrite list_lookup_insert_ne by lia. apply H. lia. Qed.

Lemma fill_part_ok nm h l i lba cnt no : disk_name nm → hd_name h = padded nm → unnamed l i → 0 ≤ i < len l → 0 < no ≤ 12 →
  fill_part h l i lba cnt no = Ok (<[Z.to_nat i := mkPD (hd_name h) (numbered_name nm no) lba cnt (dev_no h)]> l).
Proof.
  intros Hn Hh Hu Hi Hno. unfold fill_part, len in *. destruct (lookup_lt_is_Some_2 l (Z.to_nat i)) as [p Hp]; [lia|].
  assert (rd l i = Ok p) as ->.
  { unfold rd. destruct (Z.leb_spec 0 i); [|lia]. cbn. by rewrite Hp. }
  cbn [mbind outcome_bind]. rewrite (Hu (Z.to_nat i) p ltac:(lia) Hp), Hh, (part_name_ok nm no Hn Hno). cbn [mbind outcome_bind].
  apply wr_ok. unfold len. lia.
Qed.

Lemma add_prim_ok nm g lba cnt : scan_ok nm g → p_no g < 4 →
  add_prim lba cnt g = Ok (add_found nm g (true, lba, cnt)) ∧ scan_ok nm (add_found nm g (true, lba, cnt)).
Proof.
  intros [[N1 N2] [P1 P2] [L1 L2] [B1 B2]] Hp. unfold add_prim.
  rewrite (fill_part_ok nm) by (done || (unfold len; lia)). cbn [mbind outcome_bind]. split.
  - unfold mret, outcome_ret, add_found, set_p_no, set_partition_list, set_hd. cbn. rewrite u8_id by lia. done.
  - split; cbn; [done| |done|lia]. split; [by rewrite length_insert|]. apply unnamed_insert; [lia|done].
Qed.
Lemma add_logic_ok nm g lba cnt : scan_ok nm g → l_no g < 8 →
  add_logic lba cnt g = Ok (add_found nm g (false, lba, cnt)) ∧ scan_ok nm (add_found nm g (false, lba, cnt)).
Proof.
  intros [[N1 N2] [P1 P2] [L1 L2] [B1 B2]] Hp. unfold add_logic.
  rewrite (fill_part_ok nm) by (done || (unfold len; lia)). cbn [mbind outcome_bind]. split.
  - unfold mret, outcome_ret, add_found, set_l_no, set_partition_list, set_hd. cbn. rewrite u8_id by lia. done.
  - split; cbn; [done|done| |lia]. split; [by rewrite length_insert|]. apply unnamed_insert; [lia|done].
Qed.

(** ** Partition tables *)
Definition empty_entry (b : list Z) (i : Z) : Prop := pe_fs_type b i = 0.
Definition part_entry (b : list Z) (i start cnt : Z) : Prop :=
  pe_fs_type b i ≠ 0 ∧ pe_fs_type b i ≠ 5 ∧ pe_start_lba b i = start ∧ pe_sec_cnt b i = cnt.
Definition link_entry (b : list Z) (i start : Z) : Prop := pe_fs_type b i = 5 ∧ pe_start_lba b i = start.

(** The extended boot record at [e]: a partition and, when there are more, a
    link relative to the extended partition. *)
Inductive ebr_chain (c : disks) (dev base : Z) : Z → list (Z * Z) → Prop :=
| ebr_last e st n : 0 < e ≤ max_lba → part_entry (c dev e) 0 st n →
    empty_entry (c dev e) 1 → empty_entry (c dev e) 2 → empty_entry (c dev e) 3 → ebr_chain c dev base e [(u32 (e + st), n)]
| ebr_next e st n t l : 0 < e ≤ max_lba → part_entry (c dev e) 0 st n → link_entry (c dev e) 1 t →
    empty_entry (c dev e) 2 → empty_entry (c dev e) 3 → ebr_chain c dev base (u32 (t + base)) l →
    ebr_chain c dev base e ((u32 (e + st), n) :: l).

Fixpoint prims (l : list found) : Z :=
  match l with [] => 0 | (true, _, _) :: l => 1 + prims l | _ :: l => prims l end.
Fixpoint logics (l : list found) : Z :=
  match l with [] => 0 | (false, _, _) :: l => 1 + logics l | _ :: l => logics l end.
Lemma counts_pos l : 0 ≤ prims l ∧ 0 ≤ logics l.
Proof. induction l as [|[[[] ?] ?] l IH]; cbn -[Z.add]; lia. Qed.
Definition logical (x : Z * Z) : found := (false, x.1, x.2).

(** The entries of the master boot record from [i] on; at most one of them is an
    extended partition.  [base] is where it starts when it came before, 0 when
    it did not, and [base'] the same after the last entry. *)
Inductive mbr_from (c : disks) (dev : Z) : Z → Z → Z → list found → Prop :=
| mbr_end base : mbr_from c dev 4 base base []
| mbr_empty i base base' l : empty_entry (c dev 0) i → mbr_from c dev (i + 1) base base' l → mbr_from c dev i base base' l
| mbr_prim i base base' st n l : part_entry (c dev 0) i st n → mbr_from c dev (i + 1) base base' l →
    mbr_from c dev i base base' ((true, u32 st, n) :: l)
| mbr_ext i base' st l1 l2 : link_entry (c dev 0) i st → i32 st ≠ 0 → ebr_chain c dev (i32 st) st l1 →
    mbr_from c dev (i + 1) (i32 st) base' l2 → mbr_from c dev i 0 base' (map logical l1 ++ l2).

Lemma mbr_le c dev i base base' l : mbr_from c dev i base base' l → i ≤ 4.
Proof. induction 1; lia. Qed.

Lemma add_found_same nm g x : ext_lba_base (add_found nm g x) = ext_lba_base g ∧ dev_no (hd (add_found nm g x)) = dev_no (hd g).
Proof. by destruct x as [[[] ?] ?]. Qed.

Section scanning.
Context {S : Type} `{!Services S} (nm : list Z) (c : disks) (dev : Z).
Hypothesis (Hdev : dev = 0 ∨ dev = 1).
Implicit Types (s : fs S) (g : scan).

Lemma scan_read L n s e Q : fs_at c L n s → 0 ≤ e ≤ max_lba → (∀ s', served c L n s s' → Q (c dev e) s') → fwp (dev_read dev e 1) s Q.
Proof.
  intros [Hat Hd] He HQ. unfold dev_read, fwp, service.
  destruct (sv_read_ok _ _ _ _ _ e 1 Hat Hdev ltac:(lia) ltac:(lia) ltac:(lia)) as (x & -> & Hx). cbn.
  change (Z.to_nat 1) with 1%nat. rewrite read_secs_1. apply HQ. by exists x.
Qed.

Section entries.
Context (b : list Z) (rec : Z → scan → F S scan) (i : Z).
Hypothesis (Hb : length b = 512%nat) (Hi : 0 ≤ i < 4).

Lemma rd_type : rd b (pe_at i + 4) = Ok (pe_fs_type b i).
Proof. apply rd_ok. unfold len, pe_at, partition_table. rewrite Hb. lia. Qed.
Lemma scan_empty n e g s : empty_entry b i → scan_table (Datatypes.S n) rec e b i g s = scan_table n rec e b (i + 1) g s.
Proof. unfold empty_entry. intros He. cbn [scan_table]. unfold mbind, F_bind, flift. rewrite rd_type, He. done. Qed.
Lemma scan_prim n g s st cnt : part_entry b i st cnt → scan_ok nm g → p_no g < 3 →
  scan_table (Datatypes.S n) rec 0 b i g s = scan_table n rec 0 b (i + 1) (add_found nm g (true, u32 st, cnt)) s.
Proof.
  intros (H1 & H2 & <- & <-) Hok Hp. cbn [scan_table]. unfold mbind, F_bind, flift. rewrite rd_type. cbn [mbind outcome_bind].
  destruct (Z.eqb_spec (pe_fs_type b i) 5); [done|]. destruct (Z.eqb_spec (pe_fs_type b i) 0); [done|]. cbn [negb].
  change (0 =? 0) with true. cbv iota. rewrite Z.add_0_l.
  destruct (add_prim_ok nm g (u32 (pe_start_lba b i)) (pe_sec_cnt b i) Hok) as [-> _]; [lia|]. cbn [mbind outcome_bind].
  unfold fassert, flift, ASSERT. assert ((p_no (add_found nm g (true, u32 (pe_start_lba b i), pe_sec_cnt b i)) <? 4) = true) as ->; [cbn; lia|]. done.
Qed.
Lemma scan_logic n e g s st cnt : e ≠ 0 → part_entry b i st cnt → scan_ok nm g → l_no g < 7 →
  scan_table (Datatypes.S n) rec e b i g s = scan_table n rec e b (i + 1) (add_found nm g (false, u32 (e + st), cnt)) s.
Proof.
  intros He (H1 & H2 & <- & <-) Hok Hl. cbn [scan_table]. unfold mbind, F_bind, flift. rewrite rd_type. cbn [mbind outcome_bind].
  destruct (Z.eqb_spec (pe_fs_type b i) 5); [done|]. destruct (Z.eqb_spec (pe_fs_type b i) 0); [done|]. cbn [negb].
  destruct (Z.eqb_spec e 0); [done|].
  destruct (add_logic_ok nm g (u32 (e + pe_start_lba b i)) (pe_sec_cnt b i) Hok) as [-> _]; [lia|]. cbn [mbind outcome_bind].
  assert ((8 <=? l_no (add_found nm g (false, u32 (e + pe_start_lba b i), pe_sec_cnt b i))) = false) as ->; [cbn; lia|]. done.
Qed.
Lemma scan_link n e g s st : link_entry b i st →
  scan_table (Datatypes.S n) rec e b i g s =
    (g ← (if negb (ext_lba_base g =? 0) then rec (u32 (st + ext_lba_base g)) g else rec st (set_ext_lba_base (i32 st) g));
     scan_table n rec e b (i + 1) g) s.
Proof. intros [H1 <-]. cbn [scan_table]. unfold mbind, F_bind, flift. rewrite rd_type, H1. done. Qed.
End entries.

Lemma fwp_run {A} (m m' : F S A) s Q : m s = m' s → fwp m' s Q → fwp m s Q.
Proof. unfold fwp. by intros ->. Qed.

(** The block for the boot sector is taken, the sector read, its entries
    walked and the block given back. *)
Lemma scan_wrap fuel e g g' L n m s : fs_at c L (Datatypes.S n) s → dev_no (hd g) = dev → 0 ≤ e ≤ max_lba →
  (∀ L' s1, fs_at c L' n s1 → fwp (scan_table 4 (partition_scan fuel) e (c dev e) 0 g) s1 (λ x s2, x = (false, g') ∧ served c L' m s1 s2)) →
  fwp (partition_scan (Datatypes.S fuel) e g) s (λ x s', x = g' ∧ served c L m s s').
Proof.
  intros Hat Hdv He H. cbn [partition_scan]. fstep. eapply fwp_malloc; [exact Hat|done|]. intros r s1 Hr HL Hs1. set (L' := <[r := pool_me s]> L) in *.
  fstep. rewrite Hdv. eapply scan_read; [by destruct Hs1 as (x & -> & ?)|done|]. intros s2 Hs2.
  fstep. unfold touch. destruct (Z.eqb_spec r NULL); [done|]. fstep. pose proof (served_trans _ _ _ _ _ _ _ _ _ Hs1 Hs2) as Hs12.
  fstep. eapply fwp_mono; [apply (H L' s2); by destruct Hs2 as (x & -> & ?)|]. intros x s3 [-> Hs3]. cbn.
  pose proof (served_trans _ _ _ _ _ _ _ _ _ Hs12 Hs3) as Hs13. fstep.
  eapply (fwp_free c L' m); [by destruct Hs3 as (x & -> & ?)|by rewrite (pool_me_served _ _ _ _ _ Hs13); apply lookup_insert_eq|].
  intros s4 Hs4. fstep. split; [done|]. unfold L' in Hs4. rewrite delete_insert_id in Hs4 by done. by eapply served_trans.
Qed.

Lemma sector_length L n s e : fs_at c L n s → length (c dev e) = 512%nat.
Proof. intros Hat. apply (fs_at_wf _ _ _ _ Hat). Qed.
Lemma add_all_app l1 l2 g : add_all nm (l1 ++ l2) g = add_all nm l2 (add_all nm l1 g).
Proof. apply fold_left_app. Qed.

Lemma add_all_ok l : ∀ g, scan_ok nm g → p_no g + prims l ≤ 4 → l_no g + logics l ≤ 8 →
  scan_ok nm (add_all nm l g) ∧ p_no (add_all nm l g) = p_no g + prims l ∧ l_no (add_all nm l g) = l_no g + logics l
    ∧ ext_lba_base (add_all nm l g) = ext_lba_base g ∧ dev_no (hd (add_all nm l g)) = dev_no (hd g).
Proof.
  induction l as [|[[p a] n] l IH]; intros g Hok Hp Hl; [cbn; split_and!; done || lia|].
  pose proof (counts_pos l). change (add_all nm ((p, a, n) :: l) g) with (add_all nm l (add_found nm g (p, a, n))). destruct p; cbn [prims logics] in *.
  - destruct (add_prim_ok nm g a n Hok) as [_ Hok']; [lia|]. destruct (IH _ Hok') as (H1 & H2 & H3 & H4 & H5); [cbn; lia|cbn; lia|].
    change (p_no (add_found nm g (true, a, n))) with (p_no g + 1) in H2. change (l_no (add_found nm g (true, a, n))) with (l_no g) in H3. split_and!; [done|lia|lia|done|done].
  - destruct (add_logic_ok nm g a n Hok) as [_ Hok']; [lia|]. destruct (IH _ Hok') as (H1 & H2 & H3 & H4 & H5); [cbn; lia|cbn; lia|].
    change (p_no (add_found nm g (false, a, n))) with (p_no g) in H2. change (l_no (add_found nm g (false, a, n))) with (l_no g + 1) in H3. split_and!; [done|lia|lia|done|done].
Qed.
Lemma logical_counts l : prims (map logical l) = 0 ∧ logics (map logical l) = len l.
Proof. unfold len. induction l as [|x l [IH1 IH2]]; [done|]. cbn -[Z.add]. split; lia. Qed.

Lemma chain_ok base e l : base ≠ 0 → ebr_chain c dev base e l → ∀ fuel g s L n, (length l ≤ fuel)%nat → scan_ok nm g →
  ext_lba_base g = base → dev_no (hd g) = dev → l_no g + len l ≤ 7 → fs_at c L (length l + n) s →
  fwp (partition_scan fuel e g) s (λ x s', x = add_all nm (map logical l) g ∧ served c L n s s').
Proof.
  intros Hbase Hch. induction Hch as [e st n0 He H0 H1 H2 H3|e st n0 t l He H0 H1 H2 H3 Hch IH]; intros fuel g s L n Hf Hok Hb Hdv Hl Hat.
  - destruct fuel as [|fuel]; [cbn in Hf; lia|]. pose proof (sector_length _ _ _ e Hat) as Hlen. cbn [length plus] in Hat. unfold len in Hl. cbn in Hl.
    eapply scan_wrap; [exact Hat|done|lia|]. intros L' s1 Hat1.
    eapply fwp_run; [eapply scan_logic; done || lia|]. do 3 (eapply fwp_run; [apply scan_empty; done || lia|]).
    cbn [scan_table]. fstep. split; [done|by apply served_refl].
  - destruct fuel as [|fuel]; [cbn in Hf; lia|]. pose proof (sector_length _ _ _ e Hat) as Hlen. cbn [length plus] in Hat. unfold len in Hl. cbn [length] in Hl, Hf.
    destruct (add_logic_ok nm g (u32 (e + st)) n0 Hok) as [_ Hok']; [lia|]. destruct (add_found_same nm g (false, u32 (e + st), n0)) as [Eb Ed].
    eapply scan_wrap; [exact Hat|done|lia|]. intros L' s1 Hat1.
    eapply fwp_run; [eapply scan_logic; done || lia|]. eapply fwp_run; [apply scan_link; done || lia|].
    fstep. rewrite Eb, Hb. destruct (Z.eqb_spec base 0); [done|]. cbn [negb]. eapply fwp_mono.
    { apply IH; [lia|done|by rewrite Eb|by rewrite Ed|cbn; unfold len; lia|exact Hat1]. }
    intros g' s2 [-> Hs2]. do 2 (eapply fwp_run; [apply scan_empty; done || lia|]). cbn [scan_table]. fstep. split; [done|exact Hs2].
Qed.

Lemma set_base_add b l : ∀ g, add_all nm l (set_ext_lba_base b g) = set_ext_lba_base b (add_all nm l g).
Proof. induction l as [|[[[] a] n] l IH]; intros g; [done|exact (IH (add_found nm g (true, a, n)))|exact (IH (add_found nm g (false, a, n)))]. Qed.
Lemma set_base_ok b g : scan_ok nm g → scan_ok nm (set_ext_lba_base b g).
Proof. intros [H1 H2 H3 H4]. by split. Qed.
Lemma set_base_id g : set_ext_lba_base (ext_lba_base g) g = g.
Proof. by destruct g. Qed.
Lemma counts_app l1 l2 : prims (l1 ++ l2) = prims l1 + prims l2 ∧ logics (l1 ++ l2) = logics l1 + logics l2.
Proof. induction l1 as [|[[[] a] n] l1 IH]; [done|..]; cbn [app prims logics]; lia. Qed.

Lemma mbr_ok i base base' l : mbr_from c dev i base base' l → ∀ k fuel g s L n, Z.of_nat k = 4 - i → 0 ≤ i → (7 ≤ fuel)%nat → scan_ok nm g →
  ext_lba_base g = base → dev_no (hd g) = dev → p_no g + prims l ≤ 3 → l_no g + logics l ≤ 7 → fs_at c L (Z.to_nat (logics l) + n) s →
  fwp (scan_table k (partition_scan fuel) 0 (c dev 0) i g) s (λ x s', x = (false, set_ext_lba_base base' (add_all nm l g)) ∧ served c L n s s').
Proof.
  induction 1 as [base|i base base' l He Hm IH|i base base' st cnt l He Hm IH|i base' st l1 l2 He Hst Hch Hm IH]; intros k fuel g s L n Hk Hi Hf Hok Hb Hdv Hp Hl Hat;
    pose proof (sector_length _ _ _ 0 Hat) as Hlen.
  - replace k with O by lia. cbn [scan_table]. fstep. subst base. rewrite set_base_id. split; [done|by apply served_refl].
  - destruct k as [|k]; [apply mbr_le in Hm; lia|]. eapply fwp_run; [apply scan_empty; done || lia|]. apply IH; done || lia.
  - destruct k as [|k]; [apply mbr_le in Hm; lia|]. cbn [prims logics] in *. pose proof (counts_pos l).
    destruct (add_prim_ok nm g (u32 st) cnt Hok) as [_ Hok']; [lia|]. eapply fwp_run; [eapply scan_prim; done || lia|].
    apply IH; done || (cbn; lia).
  - destruct k as [|k]; [apply mbr_le in Hm; lia|]. destruct (counts_app (map logical l1) l2) as [C1 C2]. destruct (logical_counts l1) as [C3 C4].
    rewrite C3 in C1. rewrite C4 in C2. rewrite C1 in Hp. rewrite C2 in Hl, Hat. pose proof (counts_pos l2). pose proof (so_no _ _ Hok) as [? ?]. unfold len in *.
    eapply fwp_run; [apply scan_link; done || lia|]. fstep. rewrite Hb. cbn [negb Z.eqb].
    replace (Z.to_nat (Z.of_nat (length l1) + logics l2) + n)%nat with (length l1 + (Z.to_nat (logics l2) + n))%nat in Hat by lia.
    assert (scan_ok nm (set_ext_lba_base (i32 st) g)) as Hok1 by by apply set_base_ok.
    eapply fwp_mono.
    { apply (chain_ok (i32 st) st l1 Hst Hch fuel (set_ext_lba_base (i32 st) g) s L (Z.to_nat (logics l2) + n) ltac:(lia) Hok1 eq_refl Hdv); [cbn; unfold len; lia|exact Hat]. }
    intros g' s1 [-> Hs1]. destruct (add_all_ok (map logical l1) (set_ext_lba_base (i32 st) g) Hok1) as (A1 & A2 & A3 & A4 & A5); [cbn; lia|cbn; unfold len in *; lia|].
    change (p_no (set_ext_lba_base (i32 st) g)) with (p_no g) in A2. change (l_no (set_ext_lba_base (i32 st) g)) with (l_no g) in A3.
    change (ext_lba_base (set_ext_lba_base (i32 st) g)) with (i32 st) in A4. change (hd (set_ext_lba_base (i32 st) g)) with (hd g) in A5. eapply fwp_mono.
    { apply (IH k fuel _ s1 L n ltac:(lia) ltac:(lia) Hf A1 A4); [by rewrite A5|lia|lia|by destruct Hs1 as (x & -> & ?)]. }
    intros x s2 [-> Hs2]. split; [|by eapply served_trans]. by rewrite add_all_app, set_base_add, set_base_add.
Qed.
End scanning.

(** ** The partitions found *)

(** The places and descriptors of the partitions, numbered from [p] and [l]. *)
Fixpoint numbered (nm : list Z) (dev p l : Z) (items : list found) : list (PartTag * PartDesc) :=
  match items with
  | [] => []
  | (true, lba, cnt) :: items =>
      (PrimTag dev p, mkPD (padded nm) (numbered_name nm (p + 1)) lba cnt dev) :: numbered nm dev (p + 1) l items
  | (false, lba, cnt) :: items =>
      (LogicTag dev l, mkPD (padded nm) (numbered_name nm (l + 5)) lba cnt dev) :: numbered nm dev p (l + 1) items
  end.

(** What was filled in before stays. *)
Lemma add_all_keep nm l : ∀ g, scan_ok nm g → p_no g + prims l ≤ 4 → l_no g + logics l ≤ 8 →
  (∀ i, 0 ≤ i < p_no g → prim_parts (hd (add_all nm l g)) !! Z.to_nat i = prim_parts (hd g) !! Z.to_nat i)
  ∧ (∀ i, 0 ≤ i < l_no g → logic_parts (hd (add_all nm l g)) !! Z.to_nat i = logic_parts (hd g) !! Z.to_nat i).
Proof.
  induction l as [|[[p a] n] l IH]; intros g Hok Hp Hl; [done|].
  pose proof (counts_pos l). pose proof (so_no _ _ Hok). change (add_all nm ((p, a, n) :: l) g) with (add_all nm l (add_found nm g (p, a, n))).
  destruct p; cbn [prims logics] in *.
  - destruct (add_prim_ok nm g a n Hok) as [_ Hok']; [lia|]. destruct (IH _ Hok') as [H1 H2]; [cbn; lia|cbn; lia|]. split.
    + intros i Hi. rewrite H1 by (cbn; lia). cbn. apply list_lookup_insert_ne. lia.
    + intros i Hi. by rewrite H2.
  - destruct (add_logic_ok nm g a n Hok) as [_ Hok']; [lia|]. destruct (IH _ Hok') as [H1 H2]; [cbn; lia|cbn; lia|]. split.
    + intros i Hi. by rewrite H1.
    + intros i Hi. rewrite H2 by (cbn; lia). cbn. apply list_lookup_insert_ne. lia.
Qed.

Lemma rd_place (l : list PartDesc) i d : 0 ≤ i → l !! Z.to_nat i = Some d → rd l i = Ok d.
Proof. intros Hi H. unfold rd. destruct (Z.leb_spec 0 i); [|lia]. by rewrite H. Qed.

Lemma numbered_ok nm dev l : ∀ g, scan_ok nm g → p_no g + prims l ≤ 4 → l_no g + logics l ≤ 8 → dev_no (hd g) = dev →
  partition_list (add_all nm l g) = partition_list g ++ map fst (numbered nm dev (p_no g) (l_no g) l)
  ∧ ∀ t d, (t, d) ∈ numbered nm dev (p_no g) (l_no g) l → part_of {[dev := hd (add_all nm l g)]} t = Ok d.
Proof.
  induction l as [|[[p a] n] l IH]; intros g Hok Hp Hl Hdv; [split; [by rewrite app_nil_r|by intros t d ?%elem_of_nil]|].
  pose proof (counts_pos l). pose proof (so_no _ _ Hok). change (add_all nm ((p, a, n) :: l) g) with (add_all nm l (add_found nm g (p, a, n))).
  destruct (so_name _ _ Hok) as [_ Hname]. destruct p; cbn [prims logics numbered] in *.
  - destruct (add_prim_ok nm g a n Hok) as [_ Hok']; [lia|]. destruct (IH _ Hok') as [H1 H2]; [cbn; lia|cbn; lia|done|].
    destruct (add_all_keep nm l _ Hok') as [K1 _]; [cbn; lia|cbn; lia|]. split.
    + rewrite H1. cbn. rewrite <- app_assoc. by rewrite Hdv.
    + intros t d [E|Hin]%elem_of_cons; [|by apply H2]. injection E as -> ->. cbn [part_of]. rewrite lookup_singleton_eq. cbn [deref mbind outcome_bind].
      apply rd_place; [lia|]. rewrite K1 by (cbn; lia). cbn. rewrite list_lookup_insert_eq; [by rewrite Hname, Hdv|]. destruct (so_prim _ _ Hok) as [E _]. lia.
  - destruct (add_logic_ok nm g a n Hok) as [_ Hok']; [lia|]. destruct (IH _ Hok') as [H1 H2]; [cbn; lia|cbn; lia|done|].
    destruct (add_all_keep nm l _ Hok') as [_ K1]; [cbn; lia|cbn; lia|]. split.
    + rewrite H1. cbn. rewrite <- app_assoc. by rewrite Hdv.
    + intros t d [E|Hin]%elem_of_cons; [|by apply H2]. injection E as -> ->. cbn [part_of]. rewrite lookup_singleton_eq. cbn [deref mbind outcome_bind].
      apply rd_place; [lia|]. rewrite K1 by (cbn; lia). cbn. rewrite list_lookup_insert_eq; [by rewrite Hname, Hdv|]. destruct (so_logic _ _ Hok) as [E _]. lia.
Qed.

Section theorems.
Context {S : Type} `{!Services S} (nm : list Z) (c : disks) (dev : Z).
Implicit Types (s : fs S) (g : scan).

(** C27: [partition_scan] of a disk with up to three primary and seven logical
    partitions returns with a depth of eight: it finds exactly the partitions of
    the tables, in the order of the entries, numbers primary ones from 1 and
    logical ones from 5, names them after the disk, appends them to the list,
    and leaves the disks and the heap as they were. *)
Theorem partition_scan_correct base items g s L n fuel : dev = 0 ∨ dev = 1 → (8 ≤ fuel)%nat →
  mbr_from c dev 0 0 base items → prims items ≤ 3 → logics items ≤ 7 →
  scan_ok nm g → ext_lba_base g = 0 → p_no g = 0 → l_no g = 0 → dev_no (hd g) = dev →
  fs_at c L (Datatypes.S (Z.to_nat (logics items) + n)) s →
  ∃ g' s', partition_scan fuel 0 g s = Ok (g', s') ∧ served c L n s s'
    ∧ p_no g' = prims items ∧ l_no g' = logics items ∧ ext_lba_base g' = base
    ∧ partition_list g' = partition_list g ++ map fst (numbered nm dev 0 0 items)
    ∧ ∀ t d, (t, d) ∈ numbered nm dev 0 0 items → part_of {[dev := hd g']} t = Ok d.
Proof.
  intros Hdev Hf Hm Hp Hl Hok Hb Ep El Hdv Hat. destruct fuel as [|fuel]; [lia|].
  assert (fwp (partition_scan (Datatypes.S fuel) 0 g) s (λ x s', x = set_ext_lba_base base (add_all nm items g) ∧ served c L n s s')) as Hwp.
  { eapply scan_wrap; [done|exact Hat|done|rewrite max_lba_eq; lia|]. intros L' s1 Hat1. eapply fwp_mono.
    - apply (mbr_ok nm c dev Hdev 0 0 base items Hm 4 fuel g s1 L' n); done || lia.
    - intros x s2 [-> Hs2]. done. }
  destruct (fwp_inv _ _ _ Hwp) as (g' & s' & E & -> & Hs). exists (set_ext_lba_base base (add_all nm items g)), s'.
  destruct (add_all_ok nm items g Hok) as (A1 & A2 & A3 & _); [lia|lia|]. destruct (numbered_ok nm dev items g Hok) as [N1 N2]; [lia|lia|done|].
  rewrite Ep, El in *. split_and!; [exact E|exact Hs|cbn; lia|cbn; lia|done|exact N1|exact N2].
Qed.

(** A fourth primary partition fails the assertion that follows its entry. *)
Theorem partition_scan_four_primaries_panics g s L n fuel : dev = 0 ∨ dev = 1 →
  (∀ i, 0 ≤ i < 4 → ∃ st cnt, part_entry (c dev 0) i st cnt) →
  scan_ok nm g → p_no g = 0 → dev_no (hd g) = dev → fs_at c L (Datatypes.S n) s →
  partition_scan (Datatypes.S fuel) 0 g s = Panic.
Proof.
  intros Hdev He Hok Ep Hdv Hat. cbn [partition_scan]. apply bind_panics. eapply fwp_malloc; [exact Hat|done|]. intros r s1 Hr HL Hs1.
  apply bind_panics. rewrite Hdv. eapply scan_read; [exact Hdev|by destruct Hs1 as (x & -> & ?)|rewrite max_lba_eq; lia|]. intros s2 Hs2.
  apply bind_panics. unfold touch. destruct (Z.eqb_spec r NULL); [done|]. fstep.
  pose proof (sector_length c dev _ _ _ 0 Hat) as Hlen. unfold mbind at 1, F_bind at 1. set (rec := partition_scan fuel).
  destruct (He 0 ltac:(lia)) as (st0 & k0 & H0), (He 1 ltac:(lia)) as (st1 & k1 & H1), (He 2 ltac:(lia)) as (st2 & k2 & H2), (He 3 ltac:(lia)) as (st3 & k3 & H3).
  rewrite (scan_prim nm _ rec 0 Hlen ltac:(lia) _ g s2 st0 k0) by (done || lia). destruct (add_prim_ok nm g (u32 st0) k0 Hok) as [_ O1]; [lia|].
  set (g1 := add_found nm g _) in *. assert (p_no g1 = 1) as E1 by (cbn; lia).
  rewrite (scan_prim nm _ rec 1 Hlen ltac:(lia) _ g1 s2 st1 k1) by (done || lia). destruct (add_prim_ok nm g1 (u32 st1) k1 O1) as [_ O2]; [lia|].
  set (g2 := add_found nm g1 _) in *. assert (p_no g2 = 2) as E2 by (cbn; cbn in E1; lia).
  rewrite (scan_prim nm _ rec 2 Hlen ltac:(lia) _ g2 s2 st2 k2) by (done || lia). destruct (add_prim_ok nm g2 (u32 st2) k2 O2) as [_ O3]; [lia|].
  set (g3 := add_found nm g2 _) in *. assert (p_no g3 = 3) as E3 by (cbn; cbn in E2; lia).
  change (2 + 1) with 3. cbn [scan_table]. unfold mbind, F_bind, flift. rewrite (rd_type _ 3 Hlen) by lia. cbn [mbind outcome_bind].
  destruct H3 as (T1 & T2 & _ & _). destruct (Z.eqb_spec (pe_fs_type (c dev 0) 3) 5); [done|]. destruct (Z.eqb_spec (pe_fs_type (c dev 0) 3) 0); [done|]. cbn [negb].
  change (0 =? 0) with true. cbv iota. edestruct (add_prim_ok nm g3 (u32 (0 + pe_start_lba (c dev 0) 3)) (pe_sec_cnt (c dev 0) 3) O3) as [-> _]; [lia|].
  cbn [mbind outcome_bind]. unfold fassert, flift, ASSERT. destruct (Z.ltb_spec (p_no (add_found nm g3 (true, u32 (0 + pe_start_lba (c dev 0) 3), pe_sec_cnt (c dev 0) 3))) 4) as [H|]; [|done].
  exfalso. change (p_no g3 + 1 < 4) in H. lia.
Qed.

(** C37: A boot record whose first entry is empty and whose second links to the record
    itself is scanned again and again: however deep the calls go, none returns.
    (With a logical partition in the first entry the eighth one would end the
    scan.) *)
Theorem partition_scan_self_link_never_returns e t g fuel : dev = 0 ∨ dev = 1 → 0 ≤ e ≤ max_lba →
  empty_entry (c dev e) 0 → link_entry (c dev e) 1 t → ext_lba_base g ≠ 0 → u32 (t + ext_lba_base g) = e → dev_no (hd g) = dev →
  ∀ s L n, fs_at c L n s → ∀ g' s', partition_scan fuel e g s ≠ Ok (g', s').
Proof.
  intros Hdev He H0 H1 Hb Hl Hdv. induction fuel as [|fuel IH]; intros s L n Hat g' s'; [done|].
  pose proof (sector_length c dev _ _ _ e Hat) as Hlen. pose proof Hat as [Hsv Hd]. cbn [partition_scan].
  destruct (sv_malloc_ok _ _ _ _ (pool_me s) sizeof_BootSector Hsv ltac:(done) ltac:(done)) as (r & x & Em & Hr).
  assert (fs_malloc sizeof_BootSector s = Ok (r, set_sv x s)) as E1.
  { unfold fs_malloc, my_pool, mbind, F_bind, fget, service. cbv beta iota. unfold mret, F_ret. cbv beta iota. fold (pool_me s). by rewrite Em. }
  unfold mbind at 1, F_bind at 1. rewrite E1. unfold mbind at 1, F_bind at 1.
  set (s1 := set_sv x s). assert (∃ L' n', fs_at c L' n' s1) as (L' & n' & Hat1).
  { destruct Hr as [(_ & _ & Hx)|[_ Hx]]; eexists _, _; (split; [exact Hx|exact Hd]). }
  rewrite Hdv. pose proof (scan_read c dev Hdev L' n' s1 e (λ b s2, b = c dev e ∧ fs_at c L' n' s2) Hat1 He) as Hread.
  destruct (fwp_inv _ _ _ (Hread (λ s2 Hs2, conj eq_refl (match Hs2 with ex_intro _ y (conj E Hy) => Hy end)))) as (b & s2 & Er & -> & Hat2). rewrite Er.
  unfold mbind at 1, F_bind at 1. unfold touch. destruct (Z.eqb_spec r NULL) as [|Hr0]; [done|]. unfold mret at 1, F_ret at 1.
  unfold mbind at 1, F_bind at 1.
  rewrite (scan_empty _ _ 0 Hlen ltac:(lia)) by done. rewrite (scan_link _ _ 1 Hlen ltac:(lia) _ _ _ _ t) by done.
  destruct (Z.eqb_spec (ext_lba_base g) 0); [done|]. cbn [negb]. rewrite Hl. unfold mbind, F_bind.
  destruct (partition_scan fuel e g s2) as [[g2 s3]| | | |] eqn:E; [|done..]. by apply (IH s2 L' n' Hat2) in E.
Qed.
End theorems.
