(* ===== verification/PartsDemo.v ===== *)
(** * Partition tables: the theorems at concrete disks

    On the second drive: a primary partition, and an extended one at sector
    20000 with a chain of two logical partitions. *)
From Stdlib Require Import String.
From S2P Require Import Prelude CString Bitmap Machine Stdio Cpu Ide DiskBytes FsBase Inode Dir File Path Fs Format FileSpec Parts PartsSpec FsDemo.

Definition table_entry (fs_type start cnt : Z) : list Z := [0; 0; 0; 0; fs_type; 0; 0; 0] ++ le32 start ++ le32 cnt.
Definition boot_sector (entries : list (Z * Z * Z)) : list Z :=
  replicate 446 0 ++ concat (map (λ '(t, s, n), table_entry t s n) entries) ++ [0x55; 0xaa].
(** A drive that holds [b] where the association says and zeros elsewhere. *)
Definition drive_of (l : list (Z * list Z)) : disks := λ dev lba,
  if decide (dev = 1) then default (replicate 512 0) (snd <$> find (λ p, p.1 =? lba) l) else replicate 512 0.
Definition no_entry : Z * Z * Z := (0, 0, 0).
Definition demo_drive : disks := drive_of [
  (0, boot_sector [(0x83, 2048, 8192); (5, 20000, 4000); no_entry; no_entry]);
  (20000, boot_sector [(0x83, 63, 1000); (5, 2000, 600); no_entry; no_entry]);
  (22000, boot_sector [(0x83, 63, 500); no_entry; no_entry; no_entry])].
Definition full_drive : disks := drive_of [(0, boot_sector [(0x83, 2048, 100); (0x83, 2148, 100); (0x83, 2248, 100); (0x83, 2348, 100)])].
(** The boot record at 20000 links to itself. *)
Definition loop_drive : disks := drive_of [(20000, boot_sector [no_entry; (5, 0, 600); no_entry; no_entry])].

Definition blank_part : PartDesc := mkPD [] (replicate 8 0) 0 0 0.
Definition sdb : list Z := [115; 100; 98].
Definition blank_scan : scan := mkScan (mkDisk (padded sdb) 1 (replicate 4 blank_part) (replicate 8 blank_part)) 0 0 0 [].
Definition scan_fs (c : disks) : fs sim_sv :=
  mkFs (mkSimSv c ∅ 0xa000 10) [] demo_me demo_part ∅ ∅ 0x100 [].

Lemma drive_of_wf l : forallb (λ p, (length p.2 =? 512)%nat) l = true → disks_wf (drive_of l).
Proof.
  intros Hl dev lba. unfold drive_of. case_decide; [|by rewrite length_replicate]. destruct (find _ l) as [p|] eqn:E; [|apply length_replicate].
  apply find_some in E as [Hin _]. rewrite forallb_forall in Hl. specialize (Hl p Hin). cbn. by apply Nat.eqb_eq.
Qed.
Lemma scan_fs_at c n : disks_wf c → (n ≤ 10)%nat → fs_at c ∅ n (scan_fs c).
Proof. intros Hw Hn. split; [|by right]. split_and!; try done. Qed.

Lemma blank_unnamed n i : unnamed (replicate n blank_part) i.
Proof. intros j p _ H. apply lookup_replicate in H as [-> _]. done. Qed.
Lemma blank_scan_ok : scan_ok sdb blank_scan.
Proof.
  split.
  - split; [split; [done|repeat constructor; done]|done].
  - split; [done|apply blank_unnamed].
  - split; [done|apply blank_unnamed].
  - cbn. lia.
Qed.

Definition demo_found : list found := (true, 2048, 8192) :: map logical [(20063, 1000); (22063, 500)].
Lemma demo_mbr : mbr_from demo_drive 1 0 0 20000 demo_found.
Proof.
  apply (mbr_prim _ _ 0 0 20000 2048 8192); [repeat split; vm_compute; discriminate || reflexivity|].
  apply (mbr_ext _ _ 1 20000 20000 [(20063, 1000); (22063, 500)] []); [split; vm_compute; reflexivity|vm_compute; discriminate| |].
  - apply (ebr_next _ _ _ 20000 63 1000 2000 [(22063, 500)]); [split; vm_compute; done|repeat split; vm_compute; discriminate || reflexivity|split; vm_compute; reflexivity|vm_compute; reflexivity|vm_compute; reflexivity|].
    apply (ebr_last _ _ _ 22000 63 500); [split; vm_compute; done|repeat split; vm_compute; discriminate || reflexivity|vm_compute; reflexivity|vm_compute; reflexivity|vm_compute; reflexivity].
  - apply mbr_empty; [vm_compute; reflexivity|]. apply mbr_empty; [vm_compute; reflexivity|]. apply mbr_end.
Qed.

Lemma demo_drive_wf : disks_wf demo_drive.
Proof. apply drive_of_wf. vm_compute. reflexivity. Qed.
Lemma partition_scan_correct_witness : ∃ g' s', partition_scan 8 0 blank_scan (scan_fs demo_drive) = Ok (g', s')
  ∧ p_no g' = 1 ∧ l_no g' = 2 ∧ partition_list g' = [PrimTag 1 0; LogicTag 1 0; LogicTag 1 1]
  ∧ part_of {[1 := hd g']} (LogicTag 1 1) = Ok (mkPD (padded sdb) [115; 100; 98; 54; 0; 0; 0; 0] 22063 500 1).
Proof.
  destruct (partition_scan_correct sdb demo_drive 1 20000 demo_found blank_scan (scan_fs demo_drive) ∅ 0 8) as (g' & s' & H1 & _ & H2 & H3 & _ & H4 & H5).
  - right. reflexivity.
  - lia.
  - exact demo_mbr.
  - discriminate.
  - discriminate.
  - exact blank_scan_ok.
  - reflexivity.
  - reflexivity.
  - reflexivity.
  - reflexivity.
  - apply scan_fs_at; [exact demo_drive_wf|cbn; lia].
  - exists g', s'. split; [exact H1|]. split; [exact H2|]. split; [exact H3|]. split; [exact H4|]. apply H5.
    change (numbered sdb 1 0 0 demo_found) with ([(PrimTag 1 0, mkPD (padded sdb) (numbered_name sdb 1) 2048 8192 1);
      (LogicTag 1 0, mkPD (padded sdb) (numbered_name sdb 5) 20063 1000 1); (LogicTag 1 1, mkPD (padded sdb) [115; 100; 98; 54; 0; 0; 0; 0] 22063 500 1)]).
    right. right. left.
Defined.

Lemma full_drive_wf : disks_wf full_drive.
Proof. apply drive_of_wf. vm_compute. reflexivity. Qed.
Lemma full_drive_entries i : 0 ≤ i < 4 → ∃ st cnt, part_entry (full_drive 1 0) i st cnt.
Proof.
  intros Hi. assert (i = 0 ∨ i = 1 ∨ i = 2 ∨ i = 3) as [->|[->|[->| ->]]] by lia; eexists _, _; repeat split; vm_compute; discriminate || reflexivity.
Qed.
Lemma partition_scan_four_primaries_panics_witness : partition_scan 8 0 blank_scan (scan_fs full_drive) = Panic.
Proof.
  apply (partition_scan_four_primaries_panics sdb full_drive 1 blank_scan (scan_fs full_drive) ∅ 0 7).
  - right. reflexivity.
  - exact full_drive_entries.
  - exact blank_scan_ok.
  - reflexivity.
  - reflexivity.
  - apply scan_fs_at; [exact full_drive_wf|lia].
Defined.

Definition loop_scan : scan := set_ext_lba_base 20000 blank_scan.
Lemma loop_drive_wf : disks_wf loop_drive.
Proof. apply drive_of_wf. vm_compute. reflexivity. Qed.
Lemma partition_scan_self_link_never_returns_witness : ext_lba_base loop_scan = 20000 ∧ ∀ g' s', partition_scan 5 20000 loop_scan (scan_fs loop_drive) ≠ Ok (g', s').
Proof.
  split; [reflexivity|]. apply (partition_scan_self_link_never_returns loop_drive 1 20000 0 loop_scan 5) with (L := ∅) (n := 0%nat).
  - right. reflexivity.
  - split; [discriminate|]. rewrite max_lba_eq. discriminate.
  - vm_compute. reflexivity.
  - split; vm_compute; reflexivity.
  - discriminate.
  - reflexivity.
  - reflexivity.
  - apply scan_fs_at; [exact loop_drive_wf|lia].
Defined.
