(* ===== verification/Syscall.v ===== *)
(** * kernel/syscall-init.c, lib/user/loscall.c: system calls

    The wrappers of user programs load registers and raise interrupt 0x80; the
    entry of kernel.S saves the registers on the kernel stack, pushes three of
    them as arguments and calls through [syscall_table].  The functions in the
    table are the operations of the class [Handlers]: each takes its arguments
    at the types of its C declaration.  What a [void] function leaves in eax is
    part of its result, since the entry stores it. *)
From Stdlib Require Import String.
From S2P Require Import Prelude CString Bitmap Machine DList Mmu PageMem Sched Sync Heap Stdio Console Cpu.

(** ** Numbers and functions *)
Definition SYS_CALL_MAX : Z := 256.
Definition SYS_RESTART : Z := 0.
Definition SYS_EXIT : Z := 1.
Definition SYS_FORK : Z := 2.
Definition SYS_READ : Z := 3.
Definition SYS_WRITE : Z := 4.
Definition SYS_OPEN : Z := 5.
Definition SYS_CLOSE : Z := 6.
Definition SYS_WAITPID : Z := 7.
Definition SYS_CREAT : Z := 8.
Definition SYS_LINK : Z := 9.
Definition SYS_UNLINK : Z := 10.
Definition SYS_EXECVE : Z := 11.
Definition SYS_LSEEK : Z := 19.
Definition SYS_GETPID : Z := 20.
Definition SYS_MOUNT : Z := 21.
Definition SYS_UMOUNT : Z := 22.
Definition SYS_MALLOC : Z := 23.
Definition SYS_FREE : Z := 24.
Definition SYS_PUTCHAR : Z := 25.
Definition SYS_CLEAR : Z := 26.
Definition SYS_GETCWD : Z := 79.
Definition SYS_CHDIR : Z := 80.
Definition SYS_MKDIR : Z := 83.
Definition SYS_RMDIR : Z := 84.
Definition SYS_OPENDIR : Z := 85.
Definition SYS_CLOSEDIR : Z := 86.
Definition SYS_READDIR : Z := 87.
Definition SYS_REWINDDIR : Z := 88.
Definition SYS_PS : Z := 89.
Definition SYS_STAT : Z := 106.
Definition SYS_TEST : Z := 107.
Definition SYS_MKPROG : Z := 108.
Definition SYS_PP : Z := 109.

Inductive kernel_fn :=
| Kempty_call | Kexit | Kfork | Kread | Kwrite | Kopen | Kclose | Kwait | Kunlink | Kexecv | Klseek | Kgetpid
| Kmalloc | Kfree | Kputchar | Kclear | Kgetcwd | Kchdir | Kmkdir | Krmdir | Kopendir | Kclosedir | Kreaddir
| Krewinddir | Kps | Kstat | Kuser_test_call | Kmake_user_prog | Kprint_partition_info.

(** The assignments of [syscall_init], in order. *)
Definition syscall_entries : list (Z * kernel_fn) :=
  [(SYS_RESTART, Kempty_call); (SYS_EXIT, Kexit); (SYS_FORK, Kfork); (SYS_READ, Kread); (SYS_WRITE, Kwrite); (SYS_OPEN, Kopen);
   (SYS_CLOSE, Kclose); (SYS_WAITPID, Kwait); (SYS_CREAT, Kempty_call); (SYS_LINK, Kempty_call); (SYS_UNLINK, Kunlink); (SYS_EXECVE, Kexecv);
   (SYS_LSEEK, Klseek); (SYS_GETPID, Kgetpid); (SYS_MOUNT, Kempty_call); (SYS_UMOUNT, Kempty_call); (SYS_MALLOC, Kmalloc); (SYS_FREE, Kfree);
   (SYS_PUTCHAR, Kputchar); (SYS_CLEAR, Kclear); (SYS_GETCWD, Kgetcwd); (SYS_CHDIR, Kchdir); (SYS_MKDIR, Kmkdir); (SYS_RMDIR, Krmdir);
   (SYS_OPENDIR, Kopendir); (SYS_CLOSEDIR, Kclosedir); (SYS_READDIR, Kreaddir); (SYS_REWINDDIR, Krewinddir); (SYS_PS, Kps); (SYS_STAT, Kstat);
   (SYS_TEST, Kuser_test_call); (SYS_MKPROG, Kmake_user_prog); (SYS_PP, Kprint_partition_info)].
Fixpoint set_entries (l : list (Z * kernel_fn)) (table : list (option kernel_fn)) : outcome (list (option kernel_fn)) :=
  match l with [] => mret table | (nr, fn) :: l => table ← wr table nr (Some fn); set_entries l table end.
(** The table is zero before. *)
Definition syscall_init : outcome (list (option kernel_fn)) := set_entries syscall_entries (replicate (Z.to_nat SYS_CALL_MAX) None).

(** The functions of this file that do more than hand on their arguments. *)
Definition sys_getpid : K Z := p ← running_thread; t ← ld_task p; mret (u32 (pid t)).
Definition sys_putchar (char_ascii : Z) : K (list Z) := mret [u8 char_ascii].
Fixpoint test_calls (n : nat) (console_lock : Z) : K (list Z) :=
  match n with
  | O => mret []
  | S n => p ← sys_malloc 512; o ← printk console_lock (text "malloc: %x" ++ [10; 0]) 0 [VWord p]; o' ← test_calls n console_lock; mret (o ++ o')
  end.
Definition sys_do_user_test_call (console_lock : Z) : K (list Z) := test_calls 8 console_lock.
Definition sys_empty_call (console_lock : Z) : K (list Z) := printk console_lock (text "Empty Sys Call" ++ [10; 0]) 0 [].

(** ** Registers and the kernel stack *)
Record regs := mkRegs { eax : Z; ecx : Z; edx : Z; ebx : Z; esp0 : Z; ebp : Z; esi : Z; edi : Z; segs : list Z }.
Definition set_eax (v : Z) (r : regs) : regs := mkRegs v (ecx r) (edx r) (ebx r) (esp0 r) (ebp r) (esi r) (edi r) (segs r).
Definition set_ebx (v : Z) (r : regs) : regs := mkRegs (eax r) (ecx r) (edx r) v (esp0 r) (ebp r) (esi r) (edi r) (segs r).
Definition set_ecx (v : Z) (r : regs) : regs := mkRegs (eax r) v (edx r) (ebx r) (esp0 r) (ebp r) (esi r) (edi r) (segs r).
Definition set_edx (v : Z) (r : regs) : regs := mkRegs (eax r) (ecx r) v (ebx r) (esp0 r) (ebp r) (esi r) (edi r) (segs r).
(** An operand of one byte: the rest of the register is what it was. *)
Definition low8 (old v : Z) : Z := old - old mod 2 ^ 8 + u8 v.

(** What [pushad] leaves, the top of the stack first, and [popad]. *)
Definition pushad (r : regs) : list Z := [edi r; esi r; ebp r; esp0 r; ebx r; edx r; ecx r; eax r].
Definition popad (st : list Z) (r : regs) : outcome (regs * list Z) :=
  match st with
  | di :: si :: bp :: _ :: bx :: dx :: cx :: ax :: st => Ok (mkRegs ax cx dx bx (esp0 r) bp si di (segs r), st)
  | _ => Fault
  end.
(** [intr_exit] of kernel.S: the vector, the registers, gs, fs, es and ds, the
    error code; what is left is for [iretd]. *)
Definition intr_exit (st : list Z) (r : regs) : outcome (regs * list Z) :=
  '(r, st) ← popad (drop 1 st) r;
  let sg := take 4 st in
  Ok (mkRegs (eax r) (ecx r) (edx r) (ebx r) (esp0 r) (ebp r) (esi r) (edi r) sg, drop 5 st).

(** ** The interface to the kernel's functions, and to the memory a wrong number
    reaches *)
Class Handlers (S : Type) := {
  h_empty_call : S → outcome (Z * S);
  h_exit : Z → S → outcome (Z * S);
  h_fork : S → outcome (Z * S);
  h_read : Z → Z → Z → S → outcome (Z * S);
  h_write : Z → Z → Z → S → outcome (Z * S);
  h_open : Z → Z → S → outcome (Z * S);
  h_close : Z → S → outcome (Z * S);
  h_wait : Z → S → outcome (Z * S);
  h_unlink : Z → S → outcome (Z * S);
  h_execv : Z → Z → S → outcome (Z * S);
  h_lseek : Z → Z → Z → S → outcome (Z * S);
  h_getpid : S → outcome (Z * S);
  h_malloc : Z → S → outcome (Z * S);
  h_free : Z → S → outcome (Z * S);
  h_putchar : Z → S → outcome (Z * S);
  h_clear : S → outcome (Z * S);
  h_getcwd : Z → Z → S → outcome (Z * S);
  h_chdir : Z → S → outcome (Z * S);
  h_mkdir : Z → S → outcome (Z * S);
  h_rmdir : Z → S → outcome (Z * S);
  h_opendir : Z → S → outcome (Z * S);
  h_closedir : Z → S → outcome (Z * S);
  h_readdir : Z → S → outcome (Z * S);
  h_rewinddir : Z → S → outcome (Z * S);
  h_ps : S → outcome (Z * S);
  h_stat : Z → Z → S → outcome (Z * S);
  h_user_test_call : S → outcome (Z * S);
  h_make_user_prog : Z → Z → S → outcome (Z * S);
  h_print_partition_info : S → outcome (Z * S);
  (** The word at an offset of 1024 bytes and more from syscall_table, modulo
      2^32: the kernel's other data, or an address that is not mapped. *)
  h_word : Z → S → outcome Z;
  (** What becomes of the machine when it goes on at an address that is not a
      function of the table, with these registers and the stack from esp up. *)
  h_goto : Z → regs → list Z → S → outcome (regs * list Z * S);
}.

Section dispatch.
Context {S : Type} `{!Handlers S}.

(** The call of a function on the words above its return address. *)
Definition call_fn (fn : kernel_fn) (a1 a2 a3 : Z) : S → outcome (Z * S) :=
  match fn with
  | Kempty_call => h_empty_call
  | Kexit => h_exit (i32 a1)
  | Kfork => h_fork
  | Kread => h_read (i32 a1) a2 a3
  | Kwrite => h_write (i32 a1) a2 a3
  | Kopen => h_open a1 (u8 a2)
  | Kclose => h_close (i32 a1)
  | Kwait => h_wait a1
  | Kunlink => h_unlink a1
  | Kexecv => h_execv a1 a2
  | Klseek => h_lseek (i32 a1) (i32 a2) (u8 a3)
  | Kgetpid => h_getpid
  | Kmalloc => h_malloc a1
  | Kfree => h_free a1
  | Kputchar => h_putchar (i8 a1)
  | Kclear => h_clear
  | Kgetcwd => h_getcwd a1 a2
  | Kchdir => h_chdir a1
  | Kmkdir => h_mkdir a1
  | Krmdir => h_rmdir a1
  | Kopendir => h_opendir a1
  | Kclosedir => h_closedir a1
  | Kreaddir => h_readdir a1
  | Krewinddir => h_rewinddir a1
  | Kps => h_ps
  | Kstat => h_stat a1 a2
  | Kuser_test_call => h_user_test_call
  | Kmake_user_prog => h_make_user_prog a1 a2
  | Kprint_partition_info => h_print_partition_info
  end.

(** The operand of [call [syscall_table + eax * 4]]: the address is computed
    modulo 2^32 and nothing is tested.  An entry that was never set is 0. *)
Definition fetch (table : list (option kernel_fn)) (eax : Z) (s : S) : outcome (kernel_fn + Z) :=
  let off := u32 (eax * 4) in
  if off / 4 <? len table then
    fn ← rd table (off / 4); Ok (if fn is Some fn then inl fn else inr NULL)
  else a ← h_word off s; Ok (inr a).

(** [syscall_handler] of kernel.S on the stack [frame] the processor left. *)
Definition syscall_handler (table : list (option kernel_fn)) (r : regs) (frame : list Z) (s : S) : outcome (regs * list Z * S) :=
  let st := 0x80 :: pushad r ++ segs r ++ [0] ++ frame in
  let st := ebx r :: ecx r :: edx r :: st in
  target ← fetch table (eax r) s;
  match target with
  | inr a => h_goto a r st s
  | inl fn =>
      a1 ← rd st 0; a2 ← rd st 1; a3 ← rd st 2;
      '(v, s) ← call_fn fn a1 a2 a3 s;
      st ← wr (drop 3 st) 8 (u32 v);
      '(r, frame) ← intr_exit st r;
      Ok (r, frame, s)
  end.

(** ** lib/user/loscall.c *)
Context (table : list (option kernel_fn)).
Definition int80 (r : regs) (s : S) : outcome (regs * S) :=
  '(r, _, s) ← syscall_handler table r [] s; Ok (r, s).
Definition retval (o : outcome (regs * S)) : outcome (Z * S) := '(r, s) ← o; Ok (i32 (eax r), s).
Definition _syscall0 (NUMBER : Z) (r : regs) (s : S) : outcome (Z * S) := retval (int80 (set_eax NUMBER r) s).
Definition _syscall1 (NUMBER : Z) (b : regs → Z) (r : regs) (s : S) : outcome (Z * S) :=
  retval (int80 (set_ebx (b r) (set_eax NUMBER r)) s).
Definition _syscall2 (NUMBER : Z) (b c : regs → Z) (r : regs) (s : S) : outcome (Z * S) :=
  retval (int80 (set_ecx (c r) (set_ebx (b r) (set_eax NUMBER r))) s).
Definition _syscall3 (NUMBER : Z) (b c d : regs → Z) (r : regs) (s : S) : outcome (Z * S) :=
  retval (int80 (set_edx (d r) (set_ecx (c r) (set_ebx (b r) (set_eax NUMBER r)))) s).

(** A word for a register, whatever it held. *)
Definition whole (v : Z) : regs → Z := λ _, u32 v.
Definition to_pid (o : outcome (Z * S)) : outcome (Z * S) := '(v, s) ← o; Ok (i16 v, s).
Definition to_u32 (o : outcome (Z * S)) : outcome (Z * S) := '(v, s) ← o; Ok (u32 v, s).
Definition to_void (o : outcome (Z * S)) : outcome S := '(_, s) ← o; Ok s.

Definition exit code r s := to_void (_syscall1 SYS_EXIT (whole code) r s).
Definition fork r s := to_pid (_syscall0 SYS_FORK r s).
Definition read fd buf count r s := _syscall3 SYS_READ (whole fd) (whole buf) (whole count) r s.
Definition write fd buf count r s := to_u32 (_syscall3 SYS_WRITE (whole fd) (whole buf) (whole count) r s).
Definition open pathname flag r s := _syscall2 SYS_OPEN (whole pathname) (λ r, low8 (ecx r) flag) r s.
Definition close fd r s := _syscall1 SYS_CLOSE (whole fd) r s.
Definition wait status r s := to_pid (_syscall1 SYS_WAITPID (whole status) r s).
Definition unlink pathname r s := _syscall1 SYS_UNLINK (whole pathname) r s.
Definition execv path argv r s := to_void (_syscall2 SYS_EXECVE (whole path) (whole argv) r s).
Definition lseek fd offset whence r s := _syscall3 SYS_LSEEK (whole fd) (whole offset) (λ r, low8 (edx r) whence) r s.
Definition getpid r s := to_u32 (_syscall0 SYS_GETPID r s).
Definition malloc size r s := to_u32 (_syscall1 SYS_MALLOC (whole size) r s).
Definition free ptr r s := to_void (_syscall1 SYS_FREE (whole ptr) r s).
Definition putchar char_ascii r s := to_void (_syscall1 SYS_PUTCHAR (λ r, low8 (ebx r) char_ascii) r s).
Definition clear r s := to_void (_syscall0 SYS_CLEAR r s).
Definition getcwd buf size r s := to_u32 (_syscall2 SYS_GETCWD (whole buf) (whole size) r s).
Definition chdir path r s := _syscall1 SYS_CHDIR (whole path) r s.
Definition mkdir pathname r s := _syscall1 SYS_MKDIR (whole pathname) r s.
Definition rmdir pathname r s := _syscall1 SYS_RMDIR (whole pathname) r s.
Definition opendir name r s := to_u32 (_syscall1 SYS_OPENDIR (whole name) r s).
Definition closedir dir r s := _syscall1 SYS_CLOSEDIR (whole dir) r s.
Definition readdir dir r s := to_u32 (_syscall1 SYS_READDIR (whole dir) r s).
Definition rewinddir dir r s := to_void (_syscall1 SYS_REWINDDIR (whole dir) r s).
Definition ps r s := to_void (_syscall0 SYS_PS r s).
Definition stat path buf r s := _syscall2 SYS_STAT (whole path) (whole buf) r s.
Definition do_user_test_call r s := to_void (_syscall0 SYS_TEST r s).
Definition make_user_prog file_name file_size r s := to_void (_syscall2 SYS_MKPROG (whole file_name) (whole file_size) r s).
Definition pp r s := to_void (_syscall0 SYS_PP r s).
End dispatch.
