(* ===== verification/SyscallSpec.v ===== *)
(** * System calls: a wrapper runs the kernel's function

    What a program gets from a wrapper of lib/user/loscall.c is what the
    kernel's function of the same name does with the same arguments; the other
    registers come back as they were.  The number in eax is not tested. *)
From S2P Require Import Prelude CString Bitmap Machine DList Mmu PageMem Sched Sync Heap Stdio Console Cpu Syscall.

(** The calls a program can make, and the arguments the C types allow. *)
Inductive ucall :=
| Uexit (code : Z) | Ufork | Uread (fd buf count : Z) | Uwrite (fd buf count : Z) | Uopen (pathname flag : Z) | Uclose (fd : Z)
| Uwait (status : Z) | Uunlink (pathname : Z) | Uexecv (path argv : Z) | Ulseek (fd offset whence : Z) | Ugetpid | Umalloc (size : Z)
| Ufree (ptr : Z) | Uputchar (char_ascii : Z) | Uclear | Ugetcwd (buf size : Z) | Uchdir (path : Z) | Umkdir (pathname : Z)
| Urmdir (pathname : Z) | Uopendir (name : Z) | Uclosedir (dir : Z) | Ureaddir (dir : Z) | Urewinddir (dir : Z) | Ups
| Ustat (path buf : Z) | Udo_user_test_call | Umake_user_prog (file_name file_size : Z) | Upp.

Definition is_i32 (v : Z) : Prop := - 2 ^ 31 ≤ v < 2 ^ 31.
Definition is_i8 (v : Z) : Prop := - 2 ^ 7 ≤ v < 2 ^ 7.
Definition is_w32 (v : Z) : Prop := 0 ≤ v < 2 ^ 32.
Definition fits (c : ucall) : Prop :=
  match c with
  | Uexit a | Uclose a => is_i32 a
  | Ufork | Ugetpid | Uclear | Ups | Udo_user_test_call | Upp => True
  | Uread a b c | Uwrite a b c => is_i32 a ∧ is_w32 b ∧ is_w32 c
  | Uopen a b => is_w32 a ∧ is_byte b
  | Uwait a | Uunlink a | Umalloc a | Ufree a | Uchdir a | Umkdir a | Urmdir a | Uopendir a | Uclosedir a | Ureaddir a | Urewinddir a => is_w32 a
  | Uexecv a b | Ugetcwd a b | Ustat a b | Umake_user_prog a b => is_w32 a ∧ is_w32 b
  | Ulseek a b c => is_i32 a ∧ is_i32 b ∧ is_byte c
  | Uputchar a => is_i8 a
  end.

Lemma i32_u32 v : is_i32 v → i32 (u32 v) = v.
Proof. unfold is_i32, i32, u32. intros. Z.div_mod_to_equations. lia. Qed.
Lemma i32_of_u32 v : i32 (u32 v) = i32 v.
Proof. unfold i32, u32. Z.div_mod_to_equations. lia. Qed.
Lemma i16_i32 v : i16 (i32 v) = i16 v.
Proof. unfold i16, i32. Z.div_mod_to_equations. lia. Qed.
Lemma u32_of_i32 v : u32 (i32 v) = u32 v.
Proof. unfold u32, i32. Z.div_mod_to_equations. lia. Qed.
Lemma u8_low8 old v : is_byte v → u8 (low8 old v) = v.
Proof. unfold is_byte, low8, u8. intros. Z.div_mod_to_equations. lia. Qed.
Lemma i8_low8 old v : is_i8 v → i8 (low8 old v) = v.
Proof. unfold is_i8, low8, i8, u8. intros. Z.div_mod_to_equations. lia. Qed.

Lemma entries_small nr fn : (nr, fn) ∈ syscall_entries → nr mod 2 ^ 30 = nr.
Proof.
  intros H. unfold syscall_entries in H.
  repeat (apply elem_of_cons in H as [[= -> ->]|H]; [reflexivity|]). by apply elem_of_nil in H.
Qed.
(** The entry that the call goes through is the one of the number modulo 2^30. *)
Lemma offset_index a : u32 (a * 4) / 4 = a mod 2 ^ 30.
Proof. unfold u32. Z.div_mod_to_equations. lia. Qed.

Section spec.
Context {S : Type} `{!Handlers S}.

(** What a program sees of a call: its value, if it has one, and the state. *)
Definition valued (f : Z → Z) (o : outcome (Z * S)) : outcome (option Z * S) := '(v, s) ← o; Ok (Some (f v), s).
Definition unvalued (o : outcome S) : outcome (option Z * S) := s ← o; Ok (None, s).

Definition user_call (table : list (option kernel_fn)) (c : ucall) (r : regs) (s : S) : outcome (option Z * S) :=
  let id v := v in
  match c with
  | Uexit a => unvalued (exit table a r s)
  | Ufork => valued id (fork table r s)
  | Uread a b c => valued id (read table a b c r s)
  | Uwrite a b c => valued id (write table a b c r s)
  | Uopen a b => valued id (open table a b r s)
  | Uclose a => valued id (close table a r s)
  | Uwait a => valued id (wait table a r s)
  | Uunlink a => valued id (unlink table a r s)
  | Uexecv a b => unvalued (execv table a b r s)
  | Ulseek a b c => valued id (lseek table a b c r s)
  | Ugetpid => valued id (getpid table r s)
  | Umalloc a => valued id (malloc table a r s)
  | Ufree a => unvalued (free table a r s)
  | Uputchar a => unvalued (putchar table a r s)
  | Uclear => unvalued (clear table r s)
  | Ugetcwd a b => valued id (getcwd table a b r s)
  | Uchdir a => valued id (chdir table a r s)
  | Umkdir a => valued id (mkdir table a r s)
  | Urmdir a => valued id (rmdir table a r s)
  | Uopendir a => valued id (opendir table a r s)
  | Uclosedir a => valued id (closedir table a r s)
  | Ureaddir a => valued id (readdir table a r s)
  | Urewinddir a => unvalued (rewinddir table a r s)
  | Ups => unvalued (ps table r s)
  | Ustat a b => valued id (stat table a b r s)
  | Udo_user_test_call => unvalued (do_user_test_call table r s)
  | Umake_user_prog a b => unvalued (make_user_prog table a b r s)
  | Upp => unvalued (pp table r s)
  end.

(** The kernel's functions, called directly. *)
Definition ignored (o : outcome (Z * S)) : outcome (option Z * S) := '(_, s) ← o; Ok (None, s).
Definition direct_call (c : ucall) (s : S) : outcome (option Z * S) :=
  match c with
  | Uexit a => ignored (h_exit a s)
  | Ufork => valued i16 (h_fork s)
  | Uread a b c => valued i32 (h_read a b c s)
  | Uwrite a b c => valued u32 (h_write a b c s)
  | Uopen a b => valued i32 (h_open a b s)
  | Uclose a => valued i32 (h_close a s)
  | Uwait a => valued i16 (h_wait a s)
  | Uunlink a => valued i32 (h_unlink a s)
  | Uexecv a b => ignored (h_execv a b s)
  | Ulseek a b c => valued i32 (h_lseek a b c s)
  | Ugetpid => valued u32 (h_getpid s)
  | Umalloc a => valued u32 (h_malloc a s)
  | Ufree a => ignored (h_free a s)
  | Uputchar a => ignored (h_putchar a s)
  | Uclear => ignored (h_clear s)
  | Ugetcwd a b => valued u32 (h_getcwd a b s)
  | Uchdir a => valued i32 (h_chdir a s)
  | Umkdir a => valued i32 (h_mkdir a s)
  | Urmdir a => valued i32 (h_rmdir a s)
  | Uopendir a => valued u32 (h_opendir a s)
  | Uclosedir a => valued i32 (h_closedir a s)
  | Ureaddir a => valued u32 (h_readdir a s)
  | Urewinddir a => ignored (h_rewinddir a s)
  | Ups => ignored (h_ps s)
  | Ustat a b => valued i32 (h_stat a b s)
  | Udo_user_test_call => ignored (h_user_test_call s)
  | Umake_user_prog a b => ignored (h_make_user_prog a b s)
  | Upp => ignored (h_print_partition_info s)
  end.

(** The entry saves and restores every register but eax. *)
Lemma syscall_handler_ok table fn r frame (s : S) : length (segs r) = 4%nat → fetch table (eax r) s = Ok (inl fn) →
  syscall_handler table r frame s = ('(v, s) ← call_fn fn (ebx r) (ecx r) (edx r) s; Ok (set_eax (u32 v) r, frame, s)).
Proof.
  intros Hl Ht. unfold syscall_handler, pushad. rewrite Ht. cbn [mbind outcome_bind deref].
  destruct (segs r) as [|g1 [|g2 [|g3 [|g4 [|]]]]] eqn:Eg; try done. cbn [app].
  change (rd (ebx r :: ?l) 0) with (Ok (ebx r)). change (rd (ebx r :: ecx r :: ?l) 1) with (Ok (ecx r)). change (rd (ebx r :: ecx r :: edx r :: ?l) 2) with (Ok (edx r)).
  cbn [mbind outcome_bind]. destruct (call_fn fn (ebx r) (ecx r) (edx r) s) as [[v s']| | | |]; try done. cbn [mbind outcome_bind drop].
  rewrite wr_ok by (unfold len; cbn [length]; lia). change (Z.to_nat 8) with 8%nat. cbn. unfold set_eax. by rewrite Eg.
Qed.

Context (table : list (option kernel_fn)) (r : regs).
Hypothesis (Ht : syscall_init = Ok table) (Hsegs : length (segs r) = 4%nat).

Lemma table_at nr fn : (nr, fn) ∈ syscall_entries → rd table nr = Ok (Some fn).
Proof.
  pose proof Ht as E. vm_compute in E. injection E as <-. intros H. unfold syscall_entries in H.
  repeat (apply elem_of_cons in H as [[= -> ->]|H]; [reflexivity|]). by apply elem_of_nil in H.
Qed.

Lemma fetch_entry a fn (s : S) : (a mod 2 ^ 30, fn) ∈ syscall_entries → fetch table a s = Ok (inl fn).
Proof.
  intros Hin. unfold fetch. rewrite offset_index. pose proof (table_at _ _ Hin) as E.
  destruct (Z.ltb_spec (a mod 2 ^ 30) (len table)) as [_|Hge]; [by rewrite E|].
  clear Hsegs. unfold rd in E. destruct (_ <=? _); [|done]. rewrite lookup_ge_None_2 in E; [done|]. unfold len in Hge. lia.
Qed.

Lemma int80_ok nr fn r' (s : S) : (nr, fn) ∈ syscall_entries → eax r' = nr → segs r' = segs r →
  retval (int80 table r' s) = ('(v, s) ← call_fn fn (ebx r') (ecx r') (edx r') s; Ok (i32 v, s)).
Proof.
  intros Hin Ha Hs. unfold retval, int80. rewrite (syscall_handler_ok table fn); [|by rewrite Hs|].
  2:{ apply fetch_entry. rewrite Ha. by rewrite (entries_small nr fn). }
  destruct (call_fn fn _ _ _ s) as [[v s']| | | |]; try done. cbn. by rewrite i32_of_u32.
Qed.
End spec.

Lemma table_rest table nr : syscall_init = Ok table → 0 ≤ nr < 256 →
  rd table nr = Ok None ∨ ∃ fn, (nr, fn) ∈ syscall_entries ∧ rd table nr = Ok (Some fn).
Proof.
  intros Ht Hn. assert (forallb (λ i, match rd table (Z.of_nat i) with Ok None => true | Ok (Some _) => existsb (λ e, e.1 =? Z.of_nat i) syscall_entries | _ => false end) (seq 0 256) = true) as H.
  { vm_compute in Ht. injection Ht as <-. vm_compute. reflexivity. }
  rewrite forallb_forall in H. specialize (H (Z.to_nat nr)). rewrite Z2Nat.id in H by lia.
  assert (In (Z.to_nat nr) (seq 0 256)) as Hin by (apply in_seq; lia). specialize (H Hin).
  destruct (rd table nr) as [[fn|]| | | |] eqn:E; try done; [right|by left]. apply existsb_exists in H as ([nr' fn'] & Hin' & Ee).
  cbn in Ee. apply Z.eqb_eq in Ee. subst nr'. apply list_elem_of_In in Hin'. exists fn'. split; [done|]. rewrite <- E. by apply (table_at table Ht).
Qed.
Lemma table_length table : syscall_init = Ok table → length table = 256%nat ∧ ∀ nr, 256 ≤ nr → rd table nr = Fault.
Proof.
  intros Ht. assert (length table = 256%nat) as Hl by (vm_compute in Ht; injection Ht as <-; reflexivity). split; [done|].
  intros nr Hn. unfold rd. destruct (Z.leb_spec 0 nr); [|lia]. by rewrite lookup_ge_None_2 by lia.
Qed.

Ltac in_entries := unfold syscall_entries; repeat constructor.

Section theorems.
Context {S : Type} `{!Handlers S}.

(** C28: Every wrapper of loscall.c with arguments of its C types does what the
    kernel's function does with the same arguments: the number reaches the
    right entry of the table, the registers reach the right parameters, and the
    value comes back at the type of the wrapper, for every content of the other
    registers. *)
Theorem user_call_correct table r c (s : S) : syscall_init = Ok table → length (segs r) = 4%nat → fits c →
  user_call table c r s = direct_call c s.
Proof.
  intros Ht Hs Hf.
  assert (∀ nr fn r', (nr, fn) ∈ syscall_entries → eax r' = nr → segs r' = segs r →
    retval (int80 table r' s) = ('(v, s) ← call_fn fn (ebx r') (ecx r') (edx r') s; Ok (i32 v, s))) as H.
  { intros nr fn r' H1 H2 H3. by apply (int80_ok table r Ht Hs nr fn). }
  destruct c; cbn [fits] in Hf; cbn [user_call direct_call];
    unfold exit, fork, read, write, open, close, wait, unlink, execv, lseek, getpid, malloc, free, putchar, clear, getcwd, chdir, mkdir, rmdir,
      opendir, closedir, readdir, rewinddir, ps, stat, do_user_test_call, make_user_prog, pp, _syscall0, _syscall1, _syscall2, _syscall3, whole.
  all: erewrite H; [|by in_entries|reflexivity|reflexivity].
  all: cbn [call_fn ebx ecx edx set_eax set_ebx set_ecx set_edx]; rewrite ?i32_u32, ?u8_low8, ?i8_low8, ?u32_id by (unfold is_w32 in *; tauto || lia).
  all: match goal with |- context [?h ≫= _] => destruct h as [[v s']| | | |]; [|reflexivity..] end.
  all: cbn; unfold to_pid, to_u32, to_void, valued, unvalued, ignored; cbn; rewrite ?i16_i32, ?u32_of_i32; done.
Qed.

(** C38: Nothing tests the number in eax.  The entry that the call goes through is
    the one of eax modulo 2^30, since the address is computed modulo 2^32.  If
    it has a function, that function runs on ebx, ecx and edx, also for an eax of
    2^30 and up.  If the entry was never set, the kernel goes on at address 0.
    If it lies behind the table's 256 entries, the kernel goes on at the address
    that the word there happens to be. *)
Theorem syscall_unchecked table r frame (s : S) : syscall_init = Ok table → length (segs r) = 4%nat →
  let nr := eax r mod 2 ^ 30 in
  let st := ebx r :: ecx r :: edx r :: 0x80 :: pushad r ++ segs r ++ [0] ++ frame in
  (∀ fn, (nr, fn) ∈ syscall_entries →
     syscall_handler table r frame s = ('(v, s) ← call_fn fn (ebx r) (ecx r) (edx r) s; Ok (set_eax (u32 v) r, frame, s)))
  ∧ (nr < 256 → (∀ fn, (nr, fn) ∉ syscall_entries) → syscall_handler table r frame s = h_goto 0 r st s)
  ∧ (256 ≤ nr → syscall_handler table r frame s = (a ← h_word (4 * nr) s; h_goto a r st s)).
Proof.
  intros Ht Hs nr st. destruct (table_length table Ht) as [Hl _].
  pose proof (Z.mod_pos_bound (eax r) (2 ^ 30) ltac:(lia)) as Hb. fold nr in Hb. split_and!.
  - intros fn Hin. apply syscall_handler_ok; [done|]. by apply fetch_entry.
  - intros Hlt Hno. unfold syscall_handler, fetch. rewrite offset_index. fold nr.
    destruct (Z.ltb_spec nr (len table)); [|unfold len in *; lia].
    destruct (table_rest table nr Ht) as [->|(fn & Hfn & _)]; [lia|done|by apply Hno in Hfn].
  - intros Hge. unfold syscall_handler, fetch. rewrite offset_index. fold nr.
    destruct (Z.ltb_spec nr (len table)); [unfold len in *; lia|].
    replace (u32 (eax r * 4)) with (4 * nr) by (unfold nr, u32; Z.div_mod_to_equations; lia).
    by destruct (h_word _ s).
Qed.
End theorems.

(** *** Witnesses: functions that record their calls and return 7 *)
Definition trace : Type := list (kernel_fn * list Z).
Definition recorded (fn : kernel_fn) (args : list Z) (s : trace) : outcome (Z * trace) := Ok (7, s ++ [(fn, args)]).
#[local] Instance trace_handlers : Handlers trace := {|
  h_empty_call := recorded Kempty_call []; h_exit a := recorded Kexit [a]; h_fork := recorded Kfork [];
  h_read a b c := recorded Kread [a; b; c]; h_write a b c := recorded Kwrite [a; b; c]; h_open a b := recorded Kopen [a; b];
  h_close a := recorded Kclose [a]; h_wait a := recorded Kwait [a]; h_unlink a := recorded Kunlink [a]; h_execv a b := recorded Kexecv [a; b];
  h_lseek a b c := recorded Klseek [a; b; c]; h_getpid := recorded Kgetpid []; h_malloc a := recorded Kmalloc [a]; h_free a := recorded Kfree [a];
  h_putchar a := recorded Kputchar [a]; h_clear := recorded Kclear []; h_getcwd a b := recorded Kgetcwd [a; b]; h_chdir a := recorded Kchdir [a];
  h_mkdir a := recorded Kmkdir [a]; h_rmdir a := recorded Krmdir [a]; h_opendir a := recorded Kopendir [a]; h_closedir a := recorded Kclosedir [a];
  h_readdir a := recorded Kreaddir [a]; h_rewinddir a := recorded Krewinddir [a]; h_ps := recorded Kps []; h_stat a b := recorded Kstat [a; b];
  h_user_test_call := recorded Kuser_test_call []; h_make_user_prog a b := recorded Kmake_user_prog [a; b];
  h_print_partition_info := recorded Kprint_partition_info [];
  h_word off s := if off <? 2048 then Ok 0xc0001500 else Fault; h_goto a r st s := if a =? 0 then Fault else Ok (r, [a], s) |}.
Definition demo_table : list (option kernel_fn) := match syscall_init with Ok t => t | _ => [] end.
Definition demo_regs : regs := mkRegs 1 0x11111111 0x22222222 0x33333333 4 5 6 7 [0x23; 0x23; 0x23; 0x23].

Lemma user_call_correct_witness :
  user_call demo_table (Ulseek 3 (-5) 1) demo_regs [] = Ok (Some 7, [(Klseek, [3; -5; 1])]) ∧
  user_call demo_table (Uputchar (-61)) demo_regs [] = Ok (None, [(Kputchar, [-61])]).
Proof.
  split.
  - rewrite (user_call_correct demo_table demo_regs (Ulseek 3 (-5) 1) []); [reflexivity|reflexivity|reflexivity|].
    unfold fits, is_i32, is_byte. lia.
  - rewrite (user_call_correct demo_table demo_regs (Uputchar (-61)) []); [reflexivity|reflexivity|reflexivity|].
    unfold fits, is_i8. lia.
Defined.

Lemma syscall_unchecked_witness :
  syscall_handler demo_table (set_eax 0x40000001 demo_regs) [] ([] : trace)
    = Ok (set_eax 7 demo_regs, [], [(Kexit, [i32 0x33333333])])
  ∧ syscall_handler demo_table (set_eax 12 demo_regs) [] ([] : trace) = Fault
  ∧ syscall_handler demo_table (set_eax 300 demo_regs) [] ([] : trace) = Ok (set_eax 300 demo_regs, [0xc0001500], []).
Proof.
  assert (∀ fn, (12, fn) ∉ syscall_entries) as H12.
  { intros fn H. unfold syscall_entries in H. cbn in H. repeat (apply elem_of_cons in H as [[=]|H]). by apply elem_of_nil in H. }
  split_and!.
  - destruct (syscall_unchecked demo_table (set_eax 0x40000001 demo_regs) [] ([] : trace) eq_refl eq_refl) as (H & _).
    rewrite (H Kexit); [reflexivity|]. in_entries.
  - destruct (syscall_unchecked demo_table (set_eax 12 demo_regs) [] ([] : trace) eq_refl eq_refl) as (_ & H & _).
    rewrite H; [reflexivity|reflexivity|exact H12].
  - destruct (syscall_unchecked demo_table (set_eax 300 demo_regs) [] ([] : trace) eq_refl eq_refl) as (_ & _ & H).
    rewrite H; [reflexivity|discriminate].
Defined.
