(* ===== verification/Exec.v ===== *)
(** * userprog/exec.c: loading a program

    [load] reads an ELF file through the file system and puts its segments into
    the address space of the running process, so the code works on two states:
    [kstate] and the file system's [fs].  The PCB of the running thread is in
    both; a call into the file system is given the kernel's and its changes are
    stored back.  [sys_execv] ends in a jump to [intr_exit] with the stack
    pointer it returns. *)
From Stdlib Require Import String.
From S2P Require Import Prelude CString Bitmap Machine DList Mmu PageMem Sched Sync Heap HeapBoot Stdio Console Cpu Thread.
From S2P Require Import Ide DiskBytes FsBase Inode Path Dir File Fs.

(** ** The combined state *)
Record xstate (S : Type) := mkX { kern : kstate; fsys : fs S }.
Arguments mkX {S}.
Arguments kern {S}.
Arguments fsys {S}.
Definition X (S A : Type) : Type := xstate S → outcome (A * xstate S).
#[global] Instance X_ret {S} : MRet (X S) := λ A a x, Ok (a, x).
#[global] Instance X_bind {S} : MBind (X S) := λ A B f m x,
  match m x with
  | Ok (a, x') => f a x'
  | Panic => Panic
  | Fault => Fault
  | Spin => Spin
  | Blocked => Blocked
  end.
Definition in_kernel {S A} (m : K A) : X S A := λ x, '(a, s) ← m (kern x); Ok (a, mkX s (fsys x)).
Definition in_fs {S A} (m : F S A) : X S A := λ x,
  t ← deref (tasks (kern x) !! cur (kern x));
  '(a, f) ← m (set_me t (fsys x));
  Ok (a, mkX (set_tasks (<[cur (kern x) := me f]> (tasks (kern x))) (kern x)) f).
Definition xlift {S A} (o : outcome A) : X S A := λ x, a ← o; Ok (a, x).

(** ** Bytes in memory

    Memory is in words; a byte is part of the word around it. *)
Definition set_byte (w i b : Z) : Z := w - (w / 2 ^ (8 * i)) mod 2 ^ 8 * 2 ^ (8 * i) + b * 2 ^ (8 * i).
Definition get_byte (w i : Z) : Z := (w / 2 ^ (8 * i)) mod 2 ^ 8.
Definition mem_byte (m : gmap Z Z) (pa : Z) : Z := get_byte (word m (pa - pa mod 4)) (pa mod 4).
Definition put_byte (m : gmap Z Z) (pa b : Z) : gmap Z Z := <[pa - pa mod 4 := set_byte (word m (pa - pa mod 4)) (pa mod 4) b]> m.
Definition vstore_byte (va b : Z) : K unit := λ s,
  match translate (phys s) (cr3 s) va with
  | Some pa => Ok ((), set_phys (put_byte (phys s) pa b) s)
  | None => Fault
  end.
Definition vload_byte (va : Z) : K Z := λ s,
  match translate (phys s) (cr3 s) va with
  | Some pa => Ok (mem_byte (phys s) pa, s)
  | None => Fault
  end.
Fixpoint vload_bytes (n : nat) (va : Z) : K (list Z) :=
  match n with O => mret [] | S n => b ← vload_byte va; l ← vload_bytes n (u32 (va + 1)); mret (b :: l) end.
(** A string with its NUL; [fuel] bounds its length. *)
Fixpoint vload_string (fuel : nat) (va : Z) : K (list Z) :=
  match fuel with
  | O => kfail Spin
  | S fuel => b ← vload_byte va; if b =? 0 then mret [0] else l ← vload_string fuel (u32 (va + 1)); mret (b :: l)
  end.
Fixpoint vstore_bytes (va : Z) (l : list Z) : K unit :=
  match l with [] => mret () | b :: l => vstore_byte va b ;; vstore_bytes (u32 (va + 1)) l end.

(** ** exec.h *)
Definition sizeof_Elf32_Ehdr : Z := 52.
Definition sizeof_Elf32_Phdr : Z := 32.
Definition half (b : list Z) (o : Z) : Z := b@@o + b@@(o + 1) * 2 ^ 8.
Definition e_type (h : list Z) : Z := half h 16.
Definition e_machine (h : list Z) : Z := half h 18.
Definition e_version (h : list Z) : Z := dword h 20.
Definition e_entry (h : list Z) : Z := dword h 24.
Definition e_phoff (h : list Z) : Z := dword h 28.
Definition e_phentsize (h : list Z) : Z := half h 42.
Definition e_phnum (h : list Z) : Z := half h 44.
Definition p_type (h : list Z) : Z := dword h 0.
Definition p_offset (h : list Z) : Z := dword h 4.
Definition p_vaddr (h : list Z) : Z := dword h 8.
Definition p_filesz (h : list Z) : Z := dword h 16.
Definition PT_LOAD : Z := 1.
Definition SEEK_SET : Z := 1.

(** ** exec.c *)
Section exec.
Context {S : Type} `{!Services S}.

(** The pages that a segment of [filesz] bytes at [vaddr] is given. *)
Definition occupy_pages (filesz vaddr : Z) : Z :=
  let size_in_first_page := PG_SIZE - Z.land vaddr 0xfff in
  if size_in_first_page <? filesz then
    let left_size := u32 (filesz - size_in_first_page) in
    u32 (u32 (left_size + PG_SIZE - 1) / PG_SIZE + 1)
  else 1.

(** Whether no page is mapped at [vaddr_page]: the directory is looked at first. *)
Definition page_missing (vaddr_page : Z) : K bool :=
  pde ← vload (pde_ptr vaddr_page);
  if Z.land pde 1 =? 0 then mret true
  else pte ← vload (pte_ptr vaddr_page); mret (Z.land pte 1 =? 0).

(** The loop over the pages; [false] when one cannot be had. *)
Fixpoint load_pages (n : nat) (vaddr_page : Z) : K bool :=
  match n with
  | O => mret true
  | Datatypes.S n =>
      missing ← page_missing vaddr_page;
      if (missing : bool) then
        r ← get_a_page PF_USER vaddr_page;
        if r =? NULL then mret false else load_pages n (u32 (vaddr_page + PG_SIZE))
      else load_pages n (u32 (vaddr_page + PG_SIZE))
  end.

Definition segment_load (fd offset filesz vaddr : Z) : X S bool :=
  let vaddr_first_page := Z.land vaddr 0xfffff000 in
  ok ← in_kernel (load_pages (Z.to_nat (occupy_pages filesz vaddr)) vaddr_first_page);
  if (ok : bool) then
    _ ← in_fs (sys_lseek fd (i32 offset) SEEK_SET);
    '(b, _) ← in_fs (sys_read [] fd filesz);
    in_kernel (vstore_bytes vaddr b) ;;
    mret true
  else mret false.

(** A buffer of [n] zero bytes after reading [b] into it. *)
Definition filled (n : Z) (b : list Z) : list Z := b ++ drop (length b) (replicate (Z.to_nat n) 0).

Definition elf_ident : list Z := [127; 69; 76; 70; 1; 1; 1].
Definition elf_bad (h : list Z) : outcome bool :=
  r ← memcmp h (Some 0) (elf_ident ++ [0]) (Some 0) 7;
  mret (negb (r =? 0) || negb (e_type h =? 2) || negb (e_machine h =? 3) || negb (e_version h =? 1)
        || (1024 <? e_phnum h) || negb (e_phentsize h =? sizeof_Elf32_Phdr)).

(** The program headers from [prog_header_offset] on. *)
Fixpoint load_segments (n : nat) (fd prog_header_offset prog_header_size : Z) : X S bool :=
  match n with
  | O => mret true
  | Datatypes.S n =>
      _ ← in_fs (sys_lseek fd (i32 prog_header_offset) SEEK_SET);
      '(b, r) ← in_fs (sys_read [] fd prog_header_size);
      if negb (r =? prog_header_size) then mret false
      else
        let prog_header := filled sizeof_Elf32_Phdr b in
        ok ← (if p_type prog_header =? PT_LOAD
              then segment_load fd (p_offset prog_header) (p_filesz prog_header) (p_vaddr prog_header)
              else mret true);
        if (ok : bool) then load_segments n fd (u32 (prog_header_offset + prog_header_size)) prog_header_size else mret false
  end.

(** [junk] is what the callee's buffer holds before (see Path). *)
Definition load (junk pathname : list Z) : X S Z :=
  fd ← in_fs (sys_open junk pathname O_RDONLY);
  if fd =? -1 then mret (-1)
  else
    '(b, r) ← in_fs (sys_read [] fd sizeof_Elf32_Ehdr);
    ret ← (if negb (r =? sizeof_Elf32_Ehdr) then mret (-1)
           else
             let elf_header := filled sizeof_Elf32_Ehdr b in
             bad ← xlift (elf_bad elf_header);
             if (bad : bool) then mret (-1)
             else
               ok ← load_segments (Z.to_nat (e_phnum elf_header)) fd (e_phoff elf_header) (e_phentsize elf_header);
               mret (if (ok : bool) then i32 (e_entry elf_header) else -1));
    _ ← in_fs (sys_close fd);
    mret ret.

(** The arguments up to the null pointer; [fuel] bounds their number. *)
Fixpoint count_args (fuel : nat) (argv argc : Z) : K Z :=
  match fuel with
  | O => kfail Spin
  | Datatypes.S fuel =>
      a ← vload (u32 (argv + 4 * argc));
      if a =? NULL then mret argc else count_args fuel argv (u32 (argc + 1))
  end.

(** [None]: failed; [Some sp]: [jmp intr_exit] with the stack pointer [sp].
    The name is read from [path] after the program was loaded. *)
Definition sys_execv (fuel : nat) (junk : list Z) (path argv : Z) : X S (option Z) :=
  argc ← in_kernel (count_args fuel argv 0);
  pathname ← in_kernel (vload_string fuel path);
  entry_point ← load junk pathname;
  if entry_point =? -1 then mret None
  else
    cur ← in_kernel running_thread;
    name ← in_kernel (vload_bytes (Z.to_nat TASK_NAME_LEN) path);
    in_kernel (upd_task cur (set_name name)) ;;
    let intr_0_stack := u32 (cur + PG_SIZE - sizeof_IntrStack) in
    in_kernel (
      vstore (intr_0_stack + is_ebx) argv ;;
      vstore (intr_0_stack + is_ecx) argc ;;
      vstore (intr_0_stack + is_eip) (u32 entry_point) ;;
      vstore (intr_0_stack + is_esp) 0xc0000000) ;;
    mret (Some intr_0_stack).
End exec.
