(* ===== verification/ExecSpec.v ===== *)
(** * userprog/exec.c: what loading a segment does

    [load_segments_correct] goes through the page allocator, the page tables and
    the file system: after the loop over the program headers every byte of every
    segment is in the address space of the process. *)
From Stdlib Require Import String.
From S2P Require Import Prelude CString Bitmap Machine DList Mmu PageMem Sched Sync Heap HeapBoot Stdio Console Cpu Thread.
From S2P Require Import Ide DiskBytes FsBase Inode Path Dir File Fs FileSpec Fork ForkSpec Exec.

(** ** Bytes and words *)
Lemma len_cons (b : Z) l : len (b :: l) = len l + 1.
Proof. unfold len. cbn [length]. lia. Qed.
Lemma nthz_cons (b : Z) l i : 0 < i → (b :: l)@@i = l@@(i - 1).
Proof.
  intros H. unfold nthz. destruct (Z.leb_spec 0 i), (Z.leb_spec 0 (i - 1)); try lia. by replace (Z.to_nat i) with (Datatypes.S (Z.to_nat (i - 1))) by lia.
Qed.
Definition word_ok (m : gmap Z Z) : Prop := ∀ a, 0 ≤ word m a < 2 ^ 32.

Lemma small4 i : 0 ≤ i < 4 → i = 0 ∨ i = 1 ∨ i = 2 ∨ i = 3.
Proof. lia. Qed.
Ltac pow8 := change (8 * 0) with 0; change (8 * 1) with 8; change (8 * 2) with 16; change (8 * 3) with 24;
  change (2 ^ 0) with 1; change (2 ^ 8) with 256 in *; change (2 ^ 16) with 65536; change (2 ^ 24) with 16777216; change (2 ^ 32) with 4294967296 in *.
Lemma get_byte_range w i : 0 ≤ get_byte w i < 2 ^ 8.
Proof. unfold get_byte. apply Z.mod_pos_bound. lia. Qed.
Lemma get_set_byte w i j b : 0 ≤ w < 2 ^ 32 → is_byte b → 0 ≤ i < 4 → 0 ≤ j < 4 →
  get_byte (set_byte w i b) j = if i =? j then b else get_byte w j.
Proof.
  unfold get_byte, set_byte, is_byte. intros Hw Hb [->|[->|[->| ->]]]%small4 [->|[->|[->| ->]]]%small4; pow8; cbn [Z.eqb Pos.eqb]; Z.div_mod_to_equations; lia.
Qed.
Lemma set_byte_range w i b : 0 ≤ w < 2 ^ 32 → is_byte b → 0 ≤ i < 4 → 0 ≤ set_byte w i b < 2 ^ 32.
Proof.
  unfold set_byte, is_byte. intros Hw Hb [->|[->|[->| ->]]]%small4; pow8; Z.div_mod_to_equations; lia.
Qed.

Lemma put_byte_words m pa b : word_ok m → is_byte b → word_ok (put_byte m pa b).
Proof.
  intros Hm Hb a. unfold put_byte. rewrite word_insert. case_decide; [|apply Hm]. apply set_byte_range; [apply Hm|done|]. apply Z.mod_pos_bound. lia.
Qed.
Lemma mem_put_byte m pa b pa' : word_ok m → is_byte b → mem_byte (put_byte m pa b) pa' = if decide (pa' = pa) then b else mem_byte m pa'.
Proof.
  intros Hm Hb. unfold mem_byte, put_byte. rewrite word_insert. pose proof (Z.mod_pos_bound pa 4 ltac:(lia)). pose proof (Z.mod_pos_bound pa' 4 ltac:(lia)).
  destruct (decide (pa - pa mod 4 = pa' - pa' mod 4)) as [E|E].
  - rewrite get_set_byte by (done || apply Hm). rewrite E. case_decide as D; [subst; by rewrite Z.eqb_refl|]. destruct (Z.eqb_spec (pa mod 4) (pa' mod 4)); [lia|done].
  - rewrite decide_False by (by intros ->). done.
Qed.
Lemma mem_byte_word m m' pa : word m' (pa - pa mod 4) = word m (pa - pa mod 4) → mem_byte m' pa = mem_byte m pa.
Proof. unfold mem_byte. by intros ->. Qed.

(** The word around a mapped byte is mapped. *)
Lemma maps_word s va pa : mem_ok s → maps s va pa → maps s (va - va mod 4) (pa - pa mod 4).
Proof.
  intros Hm Hp. pose proof (maps_pg s va pa (mo_vm _ Hm) Hp) as Hpg.
  destruct (maps_off s (pg va) (pg pa) (va mod 4096) (mo_vm _ Hm) Hpg (pg_aligned _) ltac:(apply Z.mod_pos_bound; lia)) as [H1 _].
  replace (pg va + va mod 4096) with va in H1 by (unfold pg; Z.div_mod_to_equations; lia).
  assert (pa = pg pa + va mod 4096) as E by (destruct Hp as [_ ?], H1 as [_ ?]; congruence).
  destruct (maps_off s (pg va) (pg pa) (va mod 4096 - va mod 4) (mo_vm _ Hm) Hpg (pg_aligned _) ltac:(Z.div_mod_to_equations; lia)) as [H2 _].
  replace (pg va + (va mod 4096 - va mod 4)) with (va - va mod 4) in H2 by (unfold pg; Z.div_mod_to_equations; lia).
  replace (pa - pa mod 4) with (pg pa + (va mod 4096 - va mod 4)); [done|]. rewrite E at 3. unfold pg in *. Z.div_mod_to_equations; lia.
Qed.

(** ** A user process *)

(** The running thread [t] has an address space of its own, in which its
    directory is mapped where its PCB says. *)
Record user_env (s : kstate) (L : gmap Z (list Z)) (t : TaskStruct) : Prop := {
  ue_mem : mem_ok s;
  ue_cur : cur s ≠ 0;
  ue_task : tasks s !! cur s = Some t;
  ue_dir : pgdir t ≠ NULL ∧ 0xc0000000 ≤ pgdir t ∧ maps s (pgdir t) (cr3 s);
  ue_map : bm_wf (vaddr_map (userprog_vaddr t));
  ue_start : vaddr_start (userprog_vaddr t) mod 4096 = 0 ∧ 0x400000 ≤ vaddr_start (userprog_vaddr t)
    ∧ vaddr_start (userprog_vaddr t) + nbits (vaddr_map (userprog_vaddr t)) * 4096 ≤ 0xc0000000;
  ue_lock : lock_free s L (lock (user_pool s));
}.

Lemma maps_same_off s va pa : mem_ok s → maps s va pa → pa = pg pa + va mod 4096.
Proof.
  intros Hm Hp. pose proof (maps_pg s va pa (mo_vm _ Hm) Hp) as Hpg.
  destruct (maps_off s (pg va) (pg pa) (va mod 4096) (mo_vm _ Hm) Hpg (pg_aligned _) ltac:(apply Z.mod_pos_bound; lia)) as [[_ H1] _].
  replace (pg va + va mod 4096) with va in H1 by (unfold pg; Z.div_mod_to_equations; lia). destruct Hp as [_ Hp]. congruence.
Qed.
Lemma maps_inj s va va' pa : mem_ok s → maps s va pa → maps s va' pa → va = va'.
Proof.
  intros Hm H1 H2. pose proof (mo_inj _ Hm _ _ _ _ H1 H2 eq_refl). pose proof (maps_same_off _ _ _ Hm H1). pose proof (maps_same_off _ _ _ Hm H2).
  unfold pg in *. Z.div_mod_to_equations; lia.
Qed.
Lemma user_frame s L t va pa : user_env s L t → user_va va → maps s va pa → ¬ walk_frame s (pg pa).
Proof.
  intros [Hm _ _ (_ & D1 & D2) _ _ _] Hva Hp [E|H]; [|by eapply (mo_table _ Hm)].
  assert (pg (cr3 s) = cr3 s) as Ed by (apply pg_id, (do_aligned _ _ (vm_dir _ _ (mo_vm _ Hm)))).
  pose proof (mo_inj _ Hm _ _ _ _ Hp D2 ltac:(congruence)). unfold user_va in *. Z.div_mod_to_equations; lia.
Qed.
Lemma user_env_write s L t m' : user_env s L t → mem_ok (set_phys m' s) → (∀ va pa, maps (set_phys m' s) va pa ↔ maps s va pa) → user_env (set_phys m' s) L t.
Proof.
  intros [Hm Hc Ht (D0 & D1 & D2) Hb Hs [? ? ? ? ?]] Hm' Hmp. split; try done. split_and!; [done|done|by apply Hmp].
Qed.

(** [l] is stored from [va] on. *)
Definition stored (s : kstate) (m' : gmap Z Z) (va : Z) (l : list Z) : Prop :=
  ∀ a pa, maps s a pa → mem_byte m' pa = if decide (va ≤ a < va + len l) then l@@(a - va) else mem_byte (phys s) pa.

Lemma vstore_byte_ok s L t va pa b : user_env s L t → user_va va → maps s va pa → is_byte b →
  let m' := put_byte (phys s) pa b in
  vstore_byte va b s = Ok ((), set_phys m' s) ∧ user_env (set_phys m' s) L t ∧ (∀ a pa, maps (set_phys m' s) a pa ↔ maps s a pa) ∧ stored s m' va [b].
Proof.
  intros HE Hva Hp Hb m'. pose proof (ue_mem _ _ _ HE) as Hm. assert (word_ok (phys s)) as Hw by exact (do_words _ _ (vm_dir _ _ (mo_vm _ Hm))).
  assert (∀ a, ¬ (pg pa ≤ a < pg pa + 4096) → word m' a = word (phys s) a) as Hout.
  { intros a Ha. unfold m', put_byte. rewrite word_insert, decide_False; [done|]. intros <-. apply Ha. unfold pg. Z.div_mod_to_equations; lia. }
  destruct (data_write_mem_ok s (pg pa) m' Hm (user_frame _ _ _ _ _ HE Hva Hp) (pg_aligned _) (put_byte_words _ _ _ Hw Hb) Hout) as [Hm' Hmp].
  split_and!; [unfold vstore_byte; by destruct Hp as [_ ->]|by apply user_env_write|done|].
  intros a pa' Ha. unfold m'. rewrite mem_put_byte by done. change (len [b]) with 1. case_decide as E.
  - subst pa'. rewrite (maps_inj _ _ _ _ Hm Ha Hp), decide_True by lia. by rewrite Z.sub_diag.
  - rewrite decide_False; [done|]. intros Hr. apply E. assert (a = va) as -> by lia. destruct Ha as [_ Ha], Hp as [_ Hp]. congruence.
Qed.

Lemma vstore_bytes_ok L t l : ∀ s va, user_env s L t → bytes l → 0x400000 ≤ va → va + len l ≤ 0xc0000000 →
  (∀ a, va ≤ a < va + len l → ∃ pa, maps s a pa) →
  wp (vstore_bytes va l) s (λ _ s', ∃ m', s' = set_phys m' s ∧ user_env s' L t ∧ (∀ a pa, maps s' a pa ↔ maps s a pa) ∧ stored s m' va l).
Proof.
  induction l as [|b l IH]; intros s va HE Hb Hlo Hhi Hmap.
  - exists (phys s). split_and!; [by destruct s|done|done|]. intros a pa _. by rewrite decide_False by (change (len []) with 0; lia).
  - apply Forall_cons in Hb as [Hb Hbl]. rewrite len_cons in Hhi, Hmap. pose proof (len_nonneg l). destruct (Hmap va) as [pa Hp]; [lia|].
    destruct (vstore_byte_ok s L t va pa b HE ltac:(unfold user_va; lia) Hp Hb) as (E & HE1 & Hm1 & Hs1). set (m1 := put_byte (phys s) pa b) in *.
    cbn [vstore_bytes]. apply wp_bind. eapply wp_eq; [exact E|]. rewrite u32_id by lia.
    eapply wp_mono; [apply IH; try done; [lia|lia|]|].
    { intros a Ha. destruct (Hmap a) as [pa' Hp']; [lia|]. exists pa'. by apply Hm1. }
    intros [] s' (m' & -> & HE2 & Hm2 & Hs2). exists m'. split_and!; [done|done|by intros; rewrite Hm2, Hm1|].
    intros a pa' Ha. rewrite (Hs2 a pa') by by apply Hm1. rewrite len_cons. cbn [phys set_phys]. rewrite (Hs1 a pa' Ha). change (len [b]) with 1.
    repeat case_decide; try lia; try done.
    + rewrite nthz_cons by lia. f_equal. lia.
    + assert (a = va) as -> by lia. by rewrite Z.sub_diag.
Qed.

(** ** Pages for the segment *)
Lemma mem_ok_tasks s ts : mem_ok s → mem_ok (set_tasks ts s).
Proof. intros [[H1 H2] ? ? ? ? ? ? ? ?]. split; try assumption. by split. Qed.

(** [t] after bit [i] of its bitmap was set to give [m]. *)
Definition with_map (m : BitMap) (t : TaskStruct) : TaskStruct := set_userprog_vaddr (mkVirtualAddr m (vaddr_start (userprog_vaddr t))) t.

Definition page_bit (t : TaskStruct) (va : Z) : Z := (va - vaddr_start (userprog_vaddr t)) / 4096.

(** The page [va] is one the program may be given: not the first one (see
    [segment_load_first_page_panics]) and within the bitmap. *)
Definition program_page (t : TaskStruct) (va : Z) : Prop := 0 < page_bit t va < nbits (vaddr_map (userprog_vaddr t)).

Section one_page.
Context (s : kstate) (L : gmap Z (list Z)) (t : TaskStruct) (va : Z).
Hypothesis (HE : user_env s L t) (Hp : program_page t va) (Hlo : vaddr_start (userprog_vaddr t) ≤ va).

Lemma page_bit_set : ∃ m, bitmap_set (vaddr_map (userprog_vaddr t)) (page_bit t va) 1 = Ok m ∧ set_bit (vaddr_map (userprog_vaddr t)) m (page_bit t va) true.
Proof.
  destruct (ue_map _ _ _ HE) as [Hb Hl Hn]. destruct (returns_inv _ _ (bitmap_set_ok (vaddr_map (userprog_vaddr t)) (page_bit t va) true (ue_map _ _ _ HE)
    ltac:(unfold program_page, nbits in Hp; lia))) as (m & ? & ?). by exists m.
Qed.

Lemma program_page_range : 0x400000 ≤ va < 0xc0000000 ∧ u32 (va - vaddr_start (userprog_vaddr t)) / PG_SIZE = page_bit t va ∧ 0 ≤ page_bit t va < 2 ^ 31.
Proof.
  destruct (ue_start _ _ _ HE) as (A1 & A2 & A3). unfold program_page, page_bit, PG_SIZE in *.
  rewrite u32_id by (Z.div_mod_to_equations; lia). split_and!; try done; Z.div_mod_to_equations; lia.
Qed.

(** The call until the frame is asked for, and what is left of it. *)
Lemma get_a_page_frame : ∃ m, set_bit (vaddr_map (userprog_vaddr t)) m (page_bit t va) true ∧
  let s1 := set_tasks (<[cur s := with_map m t]> (tasks s)) s in
  get_a_page PF_USER va s =
    (page_phyaddr ← palloc PF_USER;
     if page_phyaddr =? NULL then mret NULL
     else page_table_add va page_phyaddr ;; lock_release (lock (user_pool s)) ;; mret va) (held s1 (lock (user_pool s)) (cur s1) 1).
Proof.
  destruct page_bit_set as (m & Em & Hm). exists m. split; [done|]. intros s1. destruct HE as [Hmem Hc Ht (D0 & _) _ _ HL].
  destruct program_page_range as (_ & Ei & Hi). unfold program_page in Hp.
  unfold get_a_page, mbind, K_bind, gets, running_thread. change (pool_lock PF_USER s) with (lock (user_pool s)).
  rewrite (lock_acquire_free s L _ HL Hc). unfold gets. fold (cur (held s (lock (user_pool s)) (cur s) 1)). change (cur (held s (lock (user_pool s)) (cur s) 1)) with (cur s).
  rewrite (ld_task_eq _ _ t) by exact Ht. destruct (Z.eqb_spec (pgdir t) NULL) as [|_]; [done|]. cbn [negb andb].
  rewrite bool_decide_true by done. rewrite Ei, (i32_id (page_bit t va)) by lia.
  assert ((0 <? page_bit t va) = true) as -> by (apply Z.ltb_lt; lia). rewrite u32_id by lia. rewrite Em.
  unfold lift, kassert, ASSERT, lift. cbv beta iota delta [mbind outcome_bind]. unfold upd_task, mbind, K_bind. rewrite (ld_task_eq _ _ t) by exact Ht. reflexivity.
Qed.

Lemma get_a_page_user (Huser : ∃ f, free_frame (user_pool s) f) : ∃ m, set_bit (vaddr_map (userprog_vaddr t)) m (page_bit t va) true ∧
  let s1 := set_tasks (<[cur s := with_map m t]> (tasks s)) s in
  get_a_page PF_USER va s = get_a_page_without_opvaddrbitmap PF_USER va s1.
Proof.
  destruct get_a_page_frame as (m & Hm & ->). exists m. split; [done|]. intros s1. destruct HE as [Hmem Hc Ht _ _ _ HL].
  assert (lock_free s1 L (lock (user_pool s))) as HL1 by by destruct HL.
  fold s1. unfold get_a_page_without_opvaddrbitmap, mbind, K_bind, gets. change (pool_lock PF_USER s1) with (lock (user_pool s)).
  rewrite (lock_acquire_free s1 L _ HL1 Hc). set (s2 := held s1 (lock (user_pool s)) (cur s1) 1).
  pose proof (palloc_ok PF_USER s2 (po_wf _ (mo_pools _ Hmem) PF_USER)) as Hpa.
  destruct (wp_inv _ _ _ Hpa) as (r & s3 & -> & H). destruct (Z.eqb_spec r NULL) as [->|]; [|done]. exfalso.
  destruct H as [(_ & _ & H)|(p' & i & _ & _ & Hf & _)]; [destruct Huser as [f ?]; by apply (H f)|].
  apply free_frame_range in Hf; [unfold NULL in Hf; lia|exact (po_wf _ (mo_pools _ Hmem) PF_USER)].
Qed.
End one_page.

Lemma page_missing_ok s va : mem_ok s → in_space va →
  wp (page_missing va) s (λ b s', s' = s ∧ if b then ∀ pa, ¬ maps s va pa else ∃ pa, maps s va pa).
Proof.
  intros Hm Hin. destruct (in_space_idx _ Hin) as [Hva Hi]. unfold page_missing. apply wp_bind. eapply wp_eq; [by apply load_pde|].
  pose proof (vm_dir _ _ (mo_vm _ Hm)) as Hd. pose proof (translate_unfold _ _ Hd va Hva) as Ht. unfold pde_i. fold (pde_of (phys s) (cr3 s) va). rewrite land1'.
  destruct (Z.testbit (pde_of (phys s) (cr3 s) va) 0) eqn:E; cbn [negb].
  - apply wp_bind. eapply wp_eq; [apply vload_eq; rewrite translate_pte_ptr by done; by rewrite E|]. kstep. rewrite land1'. split; [done|].
    destruct (Z.testbit (word (phys s) (pte_addr (phys s) (cr3 s) va)) 0); cbn [negb].
    + eexists. split; [done|exact Ht].
    + intros pa [_ H]. congruence.
  - kstep. split; [done|]. intros pa [_ H]. congruence.
Qed.

(** The effect of providing [n] pages from [va] on. *)
Record pages_loaded (s s' : kstate) (L : gmap Z (list Z)) (t t' : TaskStruct) (va n : Z) : Prop := {
  pl_env : user_env s' L t';
  pl_task : ∃ m, t' = with_map m t ∧ nbits m = nbits (vaddr_map (userprog_vaddr t));
  pl_bits j : 0 ≤ j → ¬ (page_bit t va ≤ j < page_bit t va + n) → used (vaddr_map (userprog_vaddr t')) j = used (vaddr_map (userprog_vaddr t)) j;
  pl_marked j : page_bit t va ≤ j < page_bit t va + n → (∃ pa, maps s (vaddr_start (userprog_vaddr t) + j * 4096) pa) ∨ used (vaddr_map (userprog_vaddr t')) j = true;
  pl_maps a : va ≤ a < va + n * 4096 → ∃ pa, maps s' a pa;
  pl_old a pa : maps s a pa → maps s' a pa;
  pl_only a pa : maps s' a pa → maps s a pa ∨ va ≤ a < va + n * 4096;
  pl_words a pa : maps s a pa → pg pa ≠ cr3 s → word (phys s') pa = word (phys s) pa;
  pl_state : ∃ m' pk pu, s' = set_tasks (<[cur s := t']> (tasks s)) (set_phys m' (set_kernel_pool pk (set_user_pool pu s)));
}.

Lemma with_map_id t : with_map (vaddr_map (userprog_vaddr t)) t = t.
Proof. unfold with_map. destruct t as [? ? ? ? ? ? ? ? ? [? ?] ? ? ? ?]. done. Qed.
Lemma set_tasks_id s t : tasks s !! cur s = Some t → set_tasks (<[cur s := t]> (tasks s)) s = s.
Proof. intros H. rewrite insert_id by done. by destruct s. Qed.

(** The page is there already, or there is nothing to do. *)
Lemma pages_loaded_same s L t va n : user_env s L t → (va - vaddr_start (userprog_vaddr t)) mod 4096 = 0 → (∀ a, va ≤ a < va + n * 4096 → ∃ pa, maps s a pa) → pages_loaded s s L t t va n.
Proof.
  intros HE Hal Hp. split; try done.
  - exists (vaddr_map (userprog_vaddr t)). by rewrite with_map_id.
  - intros j Hj. left. apply Hp. clear -Hj Hal. unfold page_bit in *. Z.div_mod_to_equations; lia.
  - intros a pa H. by left.
  - exists (phys s), (kernel_pool s), (user_pool s). symmetry. etrans; [|by apply (set_tasks_id s t), HE]. by destruct s.
Qed.

Lemma page_bit_add t va k : page_bit t (va + k * 4096) = page_bit t va + k.
Proof. unfold page_bit. Z.div_mod_to_equations; lia. Qed.

Lemma page_bit_other t va j : (va - vaddr_start (userprog_vaddr t)) mod 4096 = 0 → j ≠ page_bit t va →
  ¬ (va ≤ vaddr_start (userprog_vaddr t) + j * 4096 < va + 1 * 4096).
Proof. unfold page_bit. intros H Hj [H1 H2]. apply Hj. Z.div_mod_to_equations; lia. Qed.
Lemma page_bit_nonneg t va : vaddr_start (userprog_vaddr t) ≤ va → 0 ≤ page_bit t va.
Proof. intros H. unfold page_bit. apply Z.div_pos; lia. Qed.

Lemma same_frame s ts ts' m m' k k' u u' :
  set_tasks ts (set_phys m (set_kernel_pool k (set_user_pool u (set_tasks ts' (set_phys m' (set_kernel_pool k' (set_user_pool u' s)))))))
  = set_tasks ts (set_phys m (set_kernel_pool k (set_user_pool u s))).
Proof. by destruct s. Qed.

Lemma pages_loaded_trans s s1 s2 L t t1 t2 va n : 0 ≤ n → vaddr_start (userprog_vaddr t) ≤ va → (va - vaddr_start (userprog_vaddr t)) mod 4096 = 0 →
  pages_loaded s s1 L t t1 va 1 → pages_loaded s1 s2 L t1 t2 (va + 4096) n → pages_loaded s s2 L t t2 va (n + 1).
Proof.
  intros Hn Hlo Hal [A1 (m1 & A2 & A2') A3 A4 A5 A6 A7 A8 (p1 & k1 & u1 & A9)] [B1 (m2 & B2 & B2') B3 B4 B5 B6 B7 B8 (p2 & k2 & u2 & B9)].
  assert (∀ x, page_bit t1 x = page_bit t x) as Hpb by (intros x; by rewrite A2).
  assert (page_bit t (va + 4096) = page_bit t va + 1) as Hp1 by exact (page_bit_add t va 1).
  assert (vaddr_start (userprog_vaddr t1) = vaddr_start (userprog_vaddr t)) as Es by by rewrite A2.
  rewrite Hpb, Hp1 in B3, B4. rewrite Es in B4.
  assert (cr3 s1 = cr3 s ∧ cur s1 = cur s) as [Ec Ecu] by by rewrite A9. split; try done.
  - exists m2. rewrite B2, A2. split; [done|]. rewrite B2', A2. exact A2'.
  - intros j Hj Hout. rewrite B3, A3 by lia. done.
  - intros j Hj. destruct (decide (j = page_bit t va)) as [->|Hne].
    + destruct (A4 (page_bit t va) ltac:(lia)) as [?|Hu]; [by left|]. right. rewrite B3; [done|by apply page_bit_nonneg|lia].
    + destruct (B4 j ltac:(lia)) as [[pa Hpa]|?]; [|by right]. left. destruct (A7 _ pa Hpa) as [?|Hr]; [by exists pa|]. by apply page_bit_other in Hr.
  - intros a Ha. destruct (decide (va + 4096 ≤ a)); [apply B5; lia|]. destruct (A5 a ltac:(lia)) as [pa ?]. exists pa. by apply B6.
  - intros a pa Hpa. by apply B6, A6.
  - intros a pa Hpa. destruct (B7 a pa Hpa) as [H|?]; [|right; lia]. destruct (A7 a pa H); [by left|right; lia].
  - intros a pa Hpa Hne. rewrite <- Ec in Hne. rewrite (B8 a pa (A6 _ _ Hpa) Hne). rewrite Ec in Hne. exact (A8 a pa Hpa Hne).
  - exists p2, k2, u2. assert (tasks s1 = <[cur s := t1]> (tasks s)) as Et by by rewrite A9.
    rewrite B9, Ecu, Et, insert_insert_eq, A9. apply same_frame.
Qed.

(** One frame fewer at most. *)
Definition one_less (t : PoolType) (s s' : kstate) : Prop :=
  ∃ g0, ∀ g, free_frame (pool_of t s) g → free_frame (pool_of t s') g ∨ g = g0.

Lemma get_page_loaded s L t va m s' f : user_env s L t → program_page t va → vaddr_start (userprog_vaddr t) ≤ va → va mod 4096 = 0 → (∀ pa, ¬ maps s va pa) →
  set_bit (vaddr_map (userprog_vaddr t)) m (page_bit t va) true →
  got_page (set_tasks (<[cur s := with_map m t]> (tasks s)) s) s' va f →
  pages_loaded s s' L t (with_map m t) va 1 ∧ one_less PF_USER s s' ∧ one_less PF_KERNEL s s'.
Proof.
  intros HE Hp Hlo Hal Hun (Hm1 & Hm2 & Hm3 & Hm4) [G1 _ G3 _ G5 G6 _ G8 _ G10 (mm & pk & pu & G11)].
  destruct (program_page_range s L t va HE Hp Hlo) as (Hr & _ & Hb). destruct (HE) as [Hm Hc Ht (D0 & D1 & D2) E5 (E6 & E7 & E8) HL].
  set (s1 := set_tasks (<[cur s := with_map m t]> (tasks s)) s) in *.
  assert (∀ a pa, maps s1 a pa ↔ maps s a pa) as Hs1 by done. assert (in_space va) as Hin by (unfold in_space; lia).
  assert (∀ a pa, maps s a pa → a / 4096 ≠ va / 4096) as Hother.
  { intros a pa Ha E. pose proof (maps_pg s a pa (mo_vm _ Hm) Ha) as H. apply (Hun (pg pa)). by replace va with (pg a) by (unfold pg; Z.div_mod_to_equations; lia). }
  split_and!; [|exact (ex_intro _ f G5)|exact G6]. split.
  - split; try done.
    + by rewrite G11.
    + rewrite G11. apply lookup_insert_eq.
    + split_and!; [done|done|]. assert (cr3 s' = cr3 s) as -> by by rewrite G11. apply G3. rewrite decide_False; [done|]. by eapply Hother.
    + cbn. unfold nbits in *. by rewrite Hm1.
    + rewrite G10. destruct HL. by rewrite G11.
  - exists m. split; [done|]. unfold nbits. by rewrite Hm1.
  - intros j Hj Ho. cbn. rewrite Hm4 by done. destruct (Z.eqb_spec j (page_bit t va)); [lia|done].
  - intros j Hj. right. cbn. rewrite Hm4 by lia. by replace j with (page_bit t va) by lia; rewrite Z.eqb_refl.
  - intros a Ha. exists (f + a mod 4096). apply G3. rewrite decide_True by (Z.div_mod_to_equations; lia). split; [unfold in_space; Z.div_mod_to_equations; lia|done].
  - intros a pa Ha. apply G3. rewrite decide_False; [done|]. by eapply Hother.
  - intros a pa Ha. apply G3 in Ha. case_decide as E; [right; Z.div_mod_to_equations; lia|by left].
  - intros a pa Ha Hne. destruct (decide (word (phys s') pa = word (phys s) pa)) as [|Hw]; [done|]. exfalso.
    destruct (G8 pa Hw) as [[Hnp ->]|[[ty Hf]|[Hpr E]]].
    + apply Hne. apply (dir_pg s (cr3 s)); [by rewrite sp_cur|]. apply in_space_idx in Hin. lia.
    + by apply (mo_mapped _ Hm _ _ Ha); exists ty.
    + apply (mo_table _ Hm _ _ Ha). exists (va / 2 ^ 22). apply in_space_idx in Hin. split_and!; [lia|lia|exact Hpr|].
      rewrite E. unfold pte_addr, tbl_of, pde_of, pde_i, s1, pg. cbn. pose proof (Z.mod_pos_bound (va / 4096) 1024 ltac:(lia)). Z.div_mod_to_equations; lia.
  - exists mm, pk, pu. by rewrite G11.
Qed.

(** [n] pages from [va] on that the program may be given. *)
Definition program_range (t : TaskStruct) (va n : Z) : Prop :=
  va mod 4096 = 0 ∧ vaddr_start (userprog_vaddr t) + 4096 ≤ va
  ∧ va + n * 4096 ≤ vaddr_start (userprog_vaddr t) + nbits (vaddr_map (userprog_vaddr t)) * 4096.

(** One turn of the loop. *)
Lemma load_page_ok s L t va : user_env s L t → program_range t va 1 → avail PF_USER 1 s → avail PF_KERNEL 1 s →
  wp (page_missing va) s (λ b s0, s0 = s ∧ if b
    then wp (get_a_page PF_USER va) s (λ r s', r = va ∧ ∃ t', pages_loaded s s' L t t' va 1 ∧ one_less PF_USER s s' ∧ one_less PF_KERNEL s s')
    else pages_loaded s s L t t va 1).
Proof.
  intros HE (Hal & Hlo & Hhi) Hu Hk. destruct (ue_start _ _ _ HE) as (E6 & E7 & E8).
  assert (in_space va) as Hin by (unfold in_space; lia).
  eapply wp_mono; [apply page_missing_ok; [apply HE|done]|]. intros b s0 [-> Hb]. split; [done|]. destruct b.
  - assert (program_page t va) as Hp by (unfold program_page, page_bit; Z.div_mod_to_equations; lia).
    destruct (get_a_page_user s L t va HE Hp ltac:(lia) (avail_some _ _ _ Hu)) as (m & Hm & E). unfold wp. rewrite E.
    pose proof (ue_lock _ _ _ HE) as HL.
    set (s1 := set_tasks (<[cur s := with_map m t]> (tasks s)) s).
    assert (wp (get_a_page_without_opvaddrbitmap PF_USER va) s1 (λ r s', r = va ∧ ∃ f, got_page s1 s' va f)) as H.
    { apply (get_page_val s1 L va); [by apply mem_ok_tasks, HE|by destruct HL|apply HE|lia|exact Hb|exact (avail_some PF_USER _ _ Hu)|exact (avail_some PF_KERNEL _ _ Hk)]. }
    eapply wp_mono; [exact H|]. intros r s' (-> & f & Hg). split; [done|]. exists (with_map m t). by eapply get_page_loaded; [| |lia|..].
  - apply pages_loaded_same; [done|Z.div_mod_to_equations; lia|]. destruct Hb as [pa Hp]. intros a Ha. exists (pa + (a - va)).
    destruct (maps_off s va pa (a - va) (mo_vm _ (ue_mem _ _ _ HE)) Hp Hal ltac:(lia)) as [H _]. by replace (va + (a - va)) with a in H by lia.
Qed.

Lemma one_less_refl ty s : one_less ty s s.
Proof. exists 0. intros g H. by left. Qed.
Lemma avail_less ty n s s' : avail ty (S n) s → one_less ty s s' → avail ty n s'.
Proof. intros Ha [g0 Hg]. by eapply avail_step. Qed.
Lemma avail_one ty n s : avail ty (S n) s → avail ty 1 s.
Proof. intros ([|f l] & Hnd & Hl & HF); [done|]. exists [f]. split_and!; [apply NoDup_singleton|done|]. apply Forall_cons in HF as [? _]. by apply Forall_singleton. Qed.

Lemma avail_plus ty a b s : avail ty (a + b) s → avail ty a s.
Proof.
  intros (l & Hnd & Hl & HF). exists (take a l). split_and!; [rewrite <- (take_drop a l) in Hnd; by apply NoDup_app in Hnd as [? _]|rewrite length_take; lia|by apply Forall_take].
Qed.

Lemma load_pages_ok L n : ∀ s t va, user_env s L t → program_range t va (Z.of_nat n) → avail PF_USER n s → avail PF_KERNEL n s →
  wp (load_pages n va) s (λ ok s', ok = true ∧ (∃ t', pages_loaded s s' L t t' va (Z.of_nat n)) ∧ ∀ ty N, avail ty (n + N) s → avail ty N s').
Proof.
  induction n as [|n IH]; intros s t va HE (Hal & Hlo & Hhi) Hu Hk; destruct (ue_start _ _ _ HE) as (E6 & E7 & E8).
  { split; [done|]. split; [|done]. exists t. apply pages_loaded_same; [done|Z.div_mod_to_equations; lia|lia]. }
  rewrite Nat2Z.inj_succ, <- Z.add_1_r in *. cbn [load_pages]. apply wp_bind. eapply wp_mono.
  { apply load_page_ok; [done|by split_and!; lia|by eapply avail_one|by eapply avail_one]. }
  intros b s0 [-> Hb]. unfold PG_SIZE. rewrite u32_id by lia.
  assert (∀ s1 t1, pages_loaded s s1 L t t1 va 1 → one_less PF_USER s s1 → one_less PF_KERNEL s s1 →
    wp (load_pages n (va + 4096)) s1 (λ ok s', ok = true ∧ (∃ t', pages_loaded s s' L t t' va (Z.of_nat n + 1)) ∧ ∀ ty N, avail ty (Datatypes.S n + N) s → avail ty N s')) as Hrest.
  { intros s1 t1 H1 H2 H3. pose proof (pl_task _ _ _ _ _ _ _ H1) as (m & Et & Em).
    eapply wp_mono; [apply (IH s1 t1)|].
    - apply (pl_env _ _ _ _ _ _ _ H1).
    - rewrite Et. unfold program_range. cbn. rewrite Em. split_and!; [Z.div_mod_to_equations; lia|lia|lia].
    - by eapply avail_less.
    - by eapply avail_less.
    - intros ok s' (-> & (t' & H) & Hav). split_and!; [done| |].
      2: { intros ty N Ha. apply Hav. eapply (avail_less ty _ s); [exact Ha|]. by destruct ty. }
      exists t'. eapply pages_loaded_trans; [lia|lia|Z.div_mod_to_equations; lia|exact H1|exact H]. }
  destruct b.
  - apply wp_bind. eapply wp_mono; [exact Hb|]. intros r s1 (-> & t1 & H1 & H2 & H3).
    destruct (Z.eqb_spec va NULL) as [E|_]; [unfold NULL in E; lia|]. by eapply Hrest.
  - apply (Hrest s t); [done|apply one_less_refl|apply one_less_refl].
Qed.

(** ** The number of pages *)
Lemma occupy_pages_ok filesz vaddr : 0 ≤ filesz → 0 ≤ vaddr → vaddr + filesz ≤ 0xc0000000 →
  pg vaddr + occupy_pages filesz vaddr * 4096 = pg (vaddr + Z.max 1 filesz - 1) + 4096.
Proof.
  intros Hf Hv Hh. unfold occupy_pages, PG_SIZE. rewrite land_off. pose proof (Z.mod_pos_bound vaddr 4096 ltac:(lia)).
  destruct (Z.ltb_spec (4096 - vaddr mod 4096) filesz) as [H1|H1]; unfold pg; [|Z.div_mod_to_equations; lia].
  set (left := filesz - (4096 - vaddr mod 4096)). assert (0 < left < 0xc0000000) as Hl by (unfold left; lia).
  rewrite (u32_id left), (u32_id (left + 4096 - 1)), u32_id by (try lia; Z.div_mod_to_equations; lia).
  unfold left. Z.div_mod_to_equations; lia.
Qed.

(** ** The segment *)
Section segment.
Context {S : Type} `{!Services S}.
Implicit Types (x : xstate S) (f : File) (n : INode).

Lemma in_fs_eq {A} (m : F S A) x t a y : tasks (kern x) !! cur (kern x) = Some t → m (set_me t (fsys x)) = Ok (a, y) → me y = t →
  in_fs m x = Ok (a, mkX (kern x) y).
Proof. intros Ht E Hme. unfold in_fs. rewrite Ht. cbn. rewrite E. cbn. rewrite Hme. by rewrite set_tasks_id. Qed.
Lemma in_kernel_eq {A} (m : K A) x a s : m (kern x) = Ok (a, s) → in_kernel m x = Ok (a, mkX s (fsys x)).
Proof. intros E. unfold in_kernel. by rewrite E. Qed.

(** Descriptor [fd] is slot [g] of the file table. *)
Definition fd_slot (t : TaskStruct) (fd g : Z) : Prop := 2 < fd ∧ rd (fd_table t) fd = Ok g ∧ 0 ≤ g < MAX_FILE_OPEN.

Lemma fd_slot_ok (y : fs S) t fd g : fd_slot t fd g → me y = t → fd_local2global fd y = Ok (g, y).
Proof.
  intros (H1 & H2 & H3) Hm. unfold fd_local2global, mbind, F_bind, fget. rewrite Hm. unfold flift at 1. rewrite H2. cbn [mbind outcome_bind].
  unfold fassert, flift, ASSERT. destruct (Z.leb_spec 0 g), (Z.ltb_spec g MAX_FILE_OPEN); try lia. done.
Qed.

Lemma file_at_pos c (y : fs S) g f n pos : file_at c y g f n → 0 ≤ pos ≤ i_size n → file_at c (at_pos g pos y) g (mkFile pos (fd_flag f) (fd_inode f)) n.
Proof.
  intros [F1 F2 F3 F4 F5 F6 F7] Hp. unfold at_pos. rewrite F1. split; try done. cbn. apply rd_inv in F1 as [Hi F1]. apply rd_some; [lia|].
  apply list_lookup_insert_eq. by eapply lookup_lt_Some.
Qed.
Lemma at_pos_twice (y : fs S) g f pos pos' : rd (file_table y) g = Ok f → at_pos g pos' (at_pos g pos y) = at_pos g pos' y.
Proof.
  intros E. unfold at_pos. rewrite E. cbn. destruct (rd_inv _ _ _ E) as [Hi El].
  rewrite (rd_some _ g (mkFile pos (fd_flag f) (fd_inode f))); [|lia|apply list_lookup_insert_eq; by eapply lookup_lt_Some].
  unfold set_file_table. cbn. by rewrite list_insert_insert_eq.
Qed.

Lemma sys_lseek_ok c (y : fs S) t fd g f n off : fd_slot t fd g → me y = t → file_at c y g f n → 0 ≤ off < i_size n →
  sys_lseek fd off SEEK_SET y = Ok (off, at_pos g off y).
Proof.
  intros Hs Hm [F1 F2 F3 F4 F5 F6 F7] Ho. assert (fwp (sys_lseek fd off SEEK_SET) y (λ r y', r = off ∧ y' = at_pos g off y)) as (r & y' & E & -> & ->)%fwp_inv; [|done].
  unfold sys_lseek. destruct (Z.ltb_spec fd 0) as [|_]; [destruct Hs; lia|]. fstep. fstep; [done|]. fstep.
  eapply fwp_eq; [by eapply fd_slot_ok|]. fstep. eapply ld_file_ok; [done|]. fstep. eapply ld_inode_ok; [done|].
  cbn [Z.eqb]. change (SEEK_SET =? 1) with true. cbv iota zeta. rewrite (i32_id (i_size n)), i32_id by lia.
  destruct (Z.ltb_spec off 0), (Z.ltb_spec (i_size n - 1) off); try lia. cbn [orb]. fstep. eapply st_file_ok; [exact F1|]. fstep.
  rewrite u32_id, i32_id by lia. split; [done|]. unfold at_pos. by rewrite F1.
Qed.

Lemma sys_read_ok c M k (y : fs S) t fd g f n count : fd_slot t fd g → me y = t → fs_at c M (2 + k) y → file_at c y g f n → 0 ≤ count → fd_pos f + count ≤ i_size n →
  fd_pos f + count < 139 * 512 → ∃ y', sys_read [] fd count y = Ok ((fbytes c (my_dev (cur_part y)) n (fd_pos f) (Z.to_nat count), count), y') ∧ served c M k (at_pos g (fd_pos f + count) y) y'.
Proof.
  intros Hs Hm Hat Hf Hc Hle Hend. pose proof (fa_size _ _ _ _ _ Hf). pose proof (fa_pos _ _ _ _ _ Hf).
  assert (read_size f n count = count) as Hr by (unfold read_size; lia).
  destruct (fwp_inv _ _ _ (file_read_ok c M k y g f n count Hat Hf ltac:(lia) ltac:(rewrite Hr; Z.div_mod_to_equations; lia) ltac:(rewrite Hr; lia)))
    as ([b r] & y' & E & -> & -> & Hy). rewrite Hr in *. exists y'. split; [|done].
  unfold sys_read. destruct (Z.ltb_spec fd 0), (Z.eqb_spec fd 1), (Z.eqb_spec fd 2), (Z.eqb_spec fd 0); try (destruct Hs; lia). cbn [orb].
  unfold mbind, F_bind. by rewrite (fd_slot_ok y t fd g).
Qed.

(** The two calls of [segment_load] and of the loop over the program headers. *)
Lemma seek_read_ok x t c M k fd g f n offset count :
  tasks (kern x) !! cur (kern x) = Some t → fd_slot t fd g → fs_at c M (2 + k) (fsys x) → file_at c (fsys x) g f n →
  0 ≤ offset < i_size n → 0 ≤ count → offset + count ≤ i_size n → offset + count < 139 * 512 →
  ∃ y y', in_fs (sys_lseek fd (i32 offset) SEEK_SET) x = Ok (offset, mkX (kern x) y)
    ∧ in_fs (sys_read [] fd count) (mkX (kern x) y) = Ok ((fbytes c (my_dev (cur_part (fsys x))) n offset (Z.to_nat count), count), mkX (kern x) y')
    ∧ served c M k (at_pos g (offset + count) (set_me t (fsys x))) y'.
Proof.
  intros Ht Hfd Hat Hf Ho Hc Hend He. pose proof (fa_size _ _ _ _ _ Hf) as Hsz. set (y0 := set_me t (fsys x)).
  assert (file_at c y0 g f n) as Hf0 by (destruct Hf; by split). assert (me (at_pos g offset y0) = t ∧ sv (at_pos g offset y0) = sv (fsys x) ∧ cur_part (at_pos g offset y0) = cur_part (fsys x)) as (P1 & P2 & P3).
  { unfold at_pos. by destruct (rd (file_table y0) g). }
  assert (fs_at c M (2 + k) (at_pos g offset y0)) as Hat1 by (eapply fs_at_same; [exact Hat|done|by rewrite P3]).
  destruct (sys_read_ok c M k (at_pos g offset y0) t fd g _ n count Hfd P1 Hat1 (file_at_pos c y0 g f n offset Hf0 ltac:(lia)) Hc Hend He) as (y' & E & Hy). cbn [fd_pos] in *.
  exists (at_pos g offset y0), y'. rewrite (at_pos_twice y0 g f) in Hy by apply Hf0. split_and!; [|rewrite P3 in E|exact Hy].
  - rewrite i32_id by lia. eapply in_fs_eq; [exact Ht|by eapply sys_lseek_ok|exact P1].
  - apply (in_fs_eq _ (mkX (kern x) (at_pos g offset y0)) t); [exact Ht| |].
    + cbn [fsys]. replace (set_me t (at_pos g offset y0)) with (at_pos g offset y0); [exact E|]. rewrite <- P1. by destruct (at_pos g offset y0).
    + destruct Hy as (v & -> & _). cbn. unfold at_pos. by destruct (rd (file_table y0) g).
Qed.

(** What is in memory after the pages were had and [l] was stored in them. *)
Lemma loaded_stored s s1 L t t1 va l m' : pages_loaded s s1 L t t1 (pg va) (occupy_pages (len l) va) → 0x400000 ≤ va → va + len l ≤ 0xc0000000 → user_env s L t →
  stored s1 m' va l → ∀ a pa, maps s a pa → user_va a → ¬ va ≤ a < va + len l → mem_byte m' pa = mem_byte (phys s) pa.
Proof.
  intros HP Hlo Hhi HE Hst a pa Ha Hu Hout. pose proof (ue_mem _ _ _ HE) as Hm. rewrite (Hst a pa) by by apply (pl_old _ _ _ _ _ _ _ HP). rewrite decide_False by done.
  apply mem_byte_word. apply (pl_words _ _ _ _ _ _ _ HP (a - a mod 4)); [by apply maps_word|].
  intros E. apply (user_frame s L t (a - a mod 4) (pa - pa mod 4) HE); [unfold user_va in *; Z.div_mod_to_equations; lia|by apply maps_word|]. by left.
Qed.

(** [segment_load], through the page allocator, the page tables and the file
    system: when there are frames enough, every byte of the segment is read from
    the file into the process at its address, in pages that are mapped and marked
    in the bitmap; every mapping stays, every byte of the process outside the
    segment keeps its value, and nothing else of the file system changes than
    the position of the file. *)
Lemma segment_load_ok x L t c M k fd g f n offset filesz vaddr :
  user_env (kern x) L t → fd_slot t fd g → fs_at c M (2 + k) (fsys x) → file_at c (fsys x) g f n →
  0 ≤ offset < i_size n → 0 ≤ filesz → offset + filesz ≤ i_size n → offset + filesz < 139 * 512 →
  bytes (fbytes c (my_dev (cur_part (fsys x))) n offset (Z.to_nat filesz)) →
  0 ≤ vaddr → vaddr + filesz ≤ 0xc0000000 → program_range t (pg vaddr) (occupy_pages filesz vaddr) →
  avail PF_USER (Z.to_nat (occupy_pages filesz vaddr)) (kern x) → avail PF_KERNEL (Z.to_nat (occupy_pages filesz vaddr)) (kern x) →
  ∃ x' t' m, segment_load fd offset filesz vaddr x = Ok (true, x') ∧ (t' = with_map m t ∧ nbits m = nbits (vaddr_map (userprog_vaddr t))) ∧ user_env (kern x') L t'
    ∧ (∀ i, 0 ≤ i < filesz → ∃ pa, maps (kern x') (vaddr + i) pa
         ∧ mem_byte (phys (kern x')) pa = fbyte c (my_dev (cur_part (fsys x))) n (offset + i))
    ∧ (∀ a pa, maps (kern x) a pa → maps (kern x') a pa
         ∧ (user_va a → ¬ vaddr ≤ a < vaddr + filesz → mem_byte (phys (kern x')) pa = mem_byte (phys (kern x)) pa))
    ∧ (∀ j, page_bit t (pg vaddr) ≤ j < page_bit t (pg vaddr) + occupy_pages filesz vaddr →
         (∃ pa, maps (kern x) (vaddr_start (userprog_vaddr t) + j * 4096) pa) ∨ used m j = true)
    ∧ served c M k (at_pos g (offset + filesz) (set_me t' (fsys x))) (fsys x')
    ∧ ∀ ty N, avail ty (Z.to_nat (occupy_pages filesz vaddr) + N) (kern x) → avail ty N (kern x').
Proof.
  intros HE Hfd Hat Hf Ho Hs Hend He139 Hby Hv Hvh Hpr Hu Hk. pose proof (ue_start _ _ _ HE) as (E6 & E7 & E8).
  assert (0 ≤ occupy_pages filesz vaddr) as Hn0 by (pose proof (occupy_pages_ok filesz vaddr Hs Hv Hvh); unfold pg in *; Z.div_mod_to_equations; lia).
  pose proof (load_pages_ok L (Z.to_nat (occupy_pages filesz vaddr)) (kern x) t (pg vaddr) HE) as HP. rewrite Z2Nat.id in HP by done.
  destruct (wp_inv _ _ _ (HP Hpr Hu Hk)) as (ok & s1 & E1 & -> & (t1 & HL) & Hav). clear HP.
  pose proof (pl_env _ _ _ _ _ _ _ HL) as HE1. destruct (pl_task _ _ _ _ _ _ _ HL) as (m & Et1 & Em1).
  destruct (seek_read_ok (mkX s1 (fsys x)) t1 c M k fd g f n offset filesz (ue_task _ _ _ HE1) ltac:(by rewrite Et1) Hat Hf Ho Hs Hend He139) as (y & y' & E2 & E3 & Hy).
  cbn [kern fsys] in *. set (l := fbytes c (my_dev (cur_part (fsys x))) n offset (Z.to_nat filesz)) in *.
  assert (len l = filesz) as Hl by (unfold l; rewrite len_fbytes; lia).
  assert (∀ a, vaddr ≤ a < vaddr + len l → ∃ pa, maps s1 a pa) as Hmap.
  { rewrite Hl. intros a Ha. apply (pl_maps _ _ _ _ _ _ _ HL). pose proof (occupy_pages_ok filesz vaddr Hs Hv Hvh). unfold pg in *. Z.div_mod_to_equations; lia. }
  assert (0x400000 ≤ vaddr) as Hlo by (destruct Hpr as (_ & ? & _); unfold pg in *; Z.div_mod_to_equations; lia).
  destruct (wp_inv _ _ _ (vstore_bytes_ok L t1 l s1 vaddr HE1 Hby Hlo ltac:(lia) Hmap)) as ([] & s2 & E4 & m' & -> & HE2 & Hm2 & Hst).
  exists (mkX (set_phys m' s1) y'), t1, m. split_and!; [|done|done|done| | | |exact Hy|exact Hav].
  - unfold segment_load, mbind, X_bind. rewrite land_pg by lia. rewrite (in_kernel_eq _ _ _ _ E1). cbv iota. rewrite E2, E3.
    by rewrite (in_kernel_eq (vstore_bytes vaddr l) (mkX s1 y') () (set_phys m' s1) E4).
  - intros i Hi. destruct (Hmap (vaddr + i)) as [pa Hpa]; [lia|]. exists pa. split; [by apply Hm2|]. cbn. rewrite (Hst _ _ Hpa), decide_True by lia.
    unfold l, fbytes. apply nthz_lookup; [lia|]. rewrite list_lookup_fmap, lookup_seq_lt by lia. cbn. do 2 f_equal. lia.
  - intros a pa Ha. split; [apply Hm2; by apply (pl_old _ _ _ _ _ _ _ HL)|]. rewrite <- Hl. intros Hu' Hout.
    eapply loaded_stored; [by rewrite Hl|exact Hlo|lia|exact HE|exact Hst|exact Ha|exact Hu'|exact Hout].
  - intros j Hj. destruct (pl_marked _ _ _ _ _ _ _ HL j Hj) as [H|H]; [by left|right]. by rewrite Et1 in H.
Qed.

(** ** All segments of a program *)

(** A process that reads the open file with inode [n]. *)
Record loading x (L : gmap Z (list Z)) (t : TaskStruct) (c : disks) (M : gmap Z PoolType) (k : nat) (dev fd g : Z) n : Prop := {
  lo_env : user_env (kern x) L t;
  lo_slot : fd_slot t fd g;
  lo_fs : fs_at c M k (fsys x);
  lo_file : ∃ f, file_at c (fsys x) g f n;
  lo_dev : my_dev (cur_part (fsys x)) = dev;
}.

Lemma served_file c M k (y0 y : fs S) t g f n pos : file_at c y0 g f n → 0 ≤ pos ≤ i_size n → served c M k (at_pos g pos (set_me t y0)) y →
  fs_at c M k y ∧ (∃ f', file_at c y g f' n) ∧ my_dev (cur_part y) = my_dev (cur_part y0).
Proof.
  intros Hf Hp (v & -> & Hat). assert (file_at c (set_me t y0) g f n) as Hf' by (destruct Hf; by split).
  split_and!; [done| |].
  - eexists. destruct (file_at_pos c _ g f n pos Hf' Hp). by split.
  - unfold at_pos. by destruct (rd (file_table (set_me t y0)) g).
Qed.

(** Header [h] asks for a segment that fits. *)
Definition seg_ok (c : disks) (dev : Z) n (t : TaskStruct) (h : list Z) : Prop := p_type h = PT_LOAD →
  0 ≤ p_offset h < i_size n ∧ 0 ≤ p_filesz h ∧ p_offset h + p_filesz h ≤ i_size n ∧ p_offset h + p_filesz h < 139 * 512
  ∧ bytes (fbytes c dev n (p_offset h) (Z.to_nat (p_filesz h))) ∧ 0 ≤ p_vaddr h ∧ p_vaddr h + p_filesz h ≤ 0xc0000000
  ∧ program_range t (pg (p_vaddr h)) (occupy_pages (p_filesz h) (p_vaddr h)).
Definition seg_pages (h : list Z) : nat := if p_type h =? PT_LOAD then Z.to_nat (occupy_pages (p_filesz h) (p_vaddr h)) else 0%nat.
Definition in_seg (h : list Z) (a : Z) : Prop := p_type h = PT_LOAD ∧ p_vaddr h ≤ a < p_vaddr h + p_filesz h.
(** The segment is in memory. *)
Definition seg_in (c : disks) (dev : Z) n (s : kstate) (h : list Z) : Prop := ∀ a, in_seg h a →
  user_va a ∧ ∃ pa, maps s a pa ∧ mem_byte (phys s) pa = fbyte c dev n (p_offset h + (a - p_vaddr h)).
(** What is mapped stays, and the bytes where [P] does not hold too. *)
Definition kept_but (P : Z → Prop) (s s' : kstate) : Prop :=
  ∀ a pa, maps s a pa → maps s' a pa ∧ (user_va a → ¬ P a → mem_byte (phys s') pa = mem_byte (phys s) pa).

Lemma kept_but_trans (P Q : Z → Prop) s s1 s2 : kept_but P s s1 → kept_but Q s1 s2 → kept_but (λ a, P a ∨ Q a) s s2.
Proof.
  intros H1 H2 a pa Ha. destruct (H1 a pa Ha) as [Ha1 B1]. destruct (H2 a pa Ha1) as [Ha2 B2]. split; [done|]. intros Hu Hn. rewrite B2, B1 by tauto. done.
Qed.
Lemma seg_in_kept c dev n P s s' h : seg_in c dev n s h → kept_but P s s' → (∀ a, in_seg h a → ¬ P a) → seg_in c dev n s' h.
Proof.
  intros H K HP a Ha. destruct (H a Ha) as (Hu & pa & Hm & Hb). destruct (K a pa Hm) as [Hm' Hb']. split; [done|]. exists pa. split; [done|]. rewrite Hb' by (done || by apply HP). done.
Qed.

Lemma filled_full k b : length b = Z.to_nat k → filled k b = b.
Proof. intros H. unfold filled. by rewrite H, drop_ge, app_nil_r by (by rewrite length_replicate). Qed.

Lemma program_range_map m t va k : nbits m = nbits (vaddr_map (userprog_vaddr t)) → program_range t va k → program_range (with_map m t) va k.
Proof. unfold program_range. cbn. by intros ->. Qed.

(** One program header. *)
Lemma load_one x L t c M k dev fd g n h : loading x L t c M (2 + k) dev fd g n → seg_ok c dev n t h →
  avail PF_USER (seg_pages h) (kern x) → avail PF_KERNEL (seg_pages h) (kern x) →
  ∃ x' t', (if p_type h =? PT_LOAD then segment_load fd (p_offset h) (p_filesz h) (p_vaddr h) x else Ok (true, x)) = Ok (true, x')
    ∧ loading x' L t' c M k dev fd g n ∧ seg_in c dev n (kern x') h ∧ kept_but (in_seg h) (kern x) (kern x')
    ∧ (∀ va q, program_range t va q → program_range t' va q) ∧ ∀ ty N, avail ty (seg_pages h + N) (kern x) → avail ty N (kern x').
Proof.
  intros [He Hsl Hfs [f Hf] Hd] Hok. unfold seg_pages. destruct (Z.eqb_spec (p_type h) PT_LOAD) as [Et|Ent]; intros Hu Hk.
  - destruct (Hok Et) as (O1 & O2 & O3 & O4 & O5 & O6 & O7 & O8). rewrite <- Hd in O5 |- *.
    destruct (segment_load_ok x L t c M k fd g f n _ _ _ He Hsl Hfs Hf O1 O2 O3 O4 O5 O6 O7 O8 Hu Hk) as (x' & t' & m & E & [-> Em] & He' & Hin & Hkp & _ & Hsv & Hav).
    destruct (served_file c M k (fsys x) (fsys x') _ g f n (p_offset h + p_filesz h) Hf ltac:(lia) Hsv) as (Q1 & Q2 & Q3).
    destruct (ue_start _ _ _ He) as (A1 & A2 & A3). destruct O8 as (_ & O8 & _). assert (0x400000 ≤ p_vaddr h) as Hlo by (unfold pg in O8; Z.div_mod_to_equations; lia).
    exists x', (with_map m t). split_and!; [done|by split| | |by intros; apply program_range_map|done].
    + intros a [_ Ha]. split; [unfold user_va; lia|]. destruct (Hin (a - p_vaddr h) ltac:(lia)) as (pa & P1 & P2). exists pa. by replace (p_vaddr h + (a - p_vaddr h)) with a in P1 by lia.
    + intros a pa Ha. destruct (Hkp a pa Ha) as [K1 K2]. split; [done|]. intros Hua Hn. apply K2; [done|]. intros Hr. by apply Hn.
  - exists x, t. split_and!; [done| | | |done|done].
    + split; try done; [|by exists f]. destruct Hfs as [H1 H2]. split; [|done]. eapply sv_less; [exact H1|lia].
    + intros a [H _]. done.
    + intros a pa Ha. done.
Qed.


(** ** Where loading fails *)
Lemma occupy_pages_S filesz vaddr : 0 ≤ filesz → 0 ≤ vaddr → vaddr + filesz ≤ 0xc0000000 → ∃ p : nat, Z.to_nat (occupy_pages filesz vaddr) = Datatypes.S p.
Proof.
  intros Hf Hv Hh. pose proof (occupy_pages_ok filesz vaddr Hf Hv Hh) as H. exists (Z.to_nat (occupy_pages filesz vaddr - 1)).
  unfold pg in H. Z.div_mod_to_equations; lia.
Qed.

Lemma page_missing_true s va : mem_ok s → in_space va → (∀ pa, ¬ maps s va pa) → page_missing va s = Ok (true, s).
Proof.
  intros Hm Hin Hun. destruct (wp_inv _ _ _ (page_missing_ok s va Hm Hin)) as (b & s' & -> & -> & Hb). destruct b; [done|]. destruct Hb as [pa H]. by apply Hun in H.
Qed.

Lemma pg_space va : 0x400000 ≤ va → va < 0xc0000000 → 0x400000 ≤ pg va ≤ va ∧ in_space (pg va).
Proof. unfold pg, in_space. intros H1 H2. Z.div_mod_to_equations; lia. Qed.

(** C39: The first page of the user's address space cannot be had for a program:
    [get_a_page] asserts that the number of the page is not 0.  A segment at
    0x8048000, where linkers put a program, is a panic of the kernel. *)
Theorem segment_load_first_page_panics x L t fd offset filesz vaddr :
  user_env (kern x) L t → pg vaddr = vaddr_start (userprog_vaddr t) → (∀ pa, ¬ maps (kern x) (pg vaddr) pa) →
  0 ≤ filesz → 0 ≤ vaddr → vaddr + filesz ≤ 0xc0000000 → vaddr < 0xc0000000 → segment_load fd offset filesz vaddr x = Panic.
Proof.
  intros HE Hpg Hun Hf Hv Hh Hv2. destruct (occupy_pages_S filesz vaddr Hf Hv Hh) as [p0 En]. destruct (HE) as [Hm Hc Ht (D0 & _) _ (E6 & E7 & E8) HL].
  assert (0x400000 ≤ vaddr) as Hlo by (unfold pg in Hpg; Z.div_mod_to_equations; lia).
  destruct (pg_space vaddr Hlo Hv2) as [Hr Hin].
  unfold segment_load, in_kernel, mbind, X_bind. rewrite land_pg, En by lia.
  assert (load_pages (Datatypes.S p0) (pg vaddr) (kern x) = Panic) as ->; [|done].
  cbn [load_pages]. unfold mbind, K_bind. rewrite (page_missing_true _ _ Hm Hin Hun).
  assert (get_a_page PF_USER (pg vaddr) (kern x) = Panic) as ->; [|done].
  unfold get_a_page, mbind, K_bind, gets, running_thread. change (pool_lock PF_USER (kern x)) with (lock (user_pool (kern x))).
  rewrite (lock_acquire_free _ L _ HL Hc). unfold gets. change (Z.land (esp (held (kern x) (lock (user_pool (kern x))) (cur (kern x)) 1)) 0xfffff000) with (cur (kern x)).
  rewrite (ld_task_eq _ _ t) by exact Ht. destruct (Z.eqb_spec (pgdir t) NULL) as [|_]; [done|]. cbn [negb andb]. rewrite bool_decide_true by done.
  rewrite Hpg, Z.sub_diag. done.
Qed.

(** C40: When no frame is left for a page, the caller is told so, but [get_a_page] has
    returned with the lock of the pool held, and the page is marked as given. *)
Theorem segment_load_no_frame_keeps_lock x L t fd offset filesz vaddr :
  user_env (kern x) L t → program_page t (pg vaddr) → vaddr_start (userprog_vaddr t) ≤ pg vaddr → (∀ pa, ¬ maps (kern x) (pg vaddr) pa) →
  (∀ a, ¬ free_frame (user_pool (kern x)) a) → 0 ≤ filesz → 0 ≤ vaddr → vaddr + filesz ≤ 0xc0000000 →
  ∃ x' m, segment_load fd offset filesz vaddr x = Ok (false, x')
    ∧ locks (kern x') !! lock (user_pool (kern x)) = Some (mkLock (cur (kern x)) 1)
    ∧ tasks (kern x') !! cur (kern x) = Some (with_map m t) ∧ used m (page_bit t (pg vaddr)) = true
    ∧ (∀ a pa, maps (kern x') a pa ↔ maps (kern x) a pa) ∧ fsys x' = fsys x.
Proof.
  intros HE Hp Hlo Hun Hno Hf Hv Hh. destruct (occupy_pages_S filesz vaddr Hf Hv Hh) as [p0 En]. destruct (HE) as [Hm Hc Ht (D0 & _) _ (E6 & E7 & E8) HL].
  destruct (program_page_range _ _ _ _ HE Hp Hlo) as (Hr & _ & Hb).
  assert (in_space (pg vaddr)) as Hin by (unfold in_space; lia). destruct (get_a_page_frame _ _ _ _ HE Hp Hlo) as (m & (_ & _ & _ & Hbit) & Eg).
  set (s1 := set_tasks (<[cur (kern x) := with_map m t]> (tasks (kern x))) (kern x)) in *.
  set (s2 := held s1 (lock (user_pool (kern x))) (cur s1) 1) in *. exists (mkX s2 (fsys x)), m. split_and!; try done.
  - unfold segment_load, in_kernel, mbind at 1, X_bind. rewrite land_pg, En by lia.
    assert (load_pages (Datatypes.S p0) (pg vaddr) (kern x) = Ok (false, s2)) as ->; [|done].
    cbn [load_pages]. unfold mbind at 1, K_bind at 1. rewrite (page_missing_true _ _ Hm Hin Hun). unfold mbind, K_bind in Eg |- *. rewrite Eg. fold s2.
    destruct (wp_inv _ _ _ (palloc_ok PF_USER s2 (po_wf _ (mo_pools _ Hm) PF_USER))) as (r & s3 & -> & [(-> & -> & _)|(p' & i & _ & _ & Hfr & _)]); [done|].
    by apply Hno in Hfr.
  - apply lookup_insert_eq.
  - apply lookup_insert_eq.
  - rewrite Hbit by lia. by rewrite Z.eqb_refl.
Qed.
End segment.
