(* ===== verification/ExecDemo.v ===== *)
(** * Loading a segment at work

    A process with the child's directory of ForkDemo, with nothing in its user
    part, and the file of FsDemo, which starts with a program header here: its
    last 100 bytes are a segment at 0x8049020. *)
From Stdlib Require Import String.
From S2P Require Import Prelude CString Bitmap Machine DList Mmu PageMem BootMem Sched Sync Heap HeapSpec HeapBoot Stdio Console Cpu Thread.
From S2P Require Import Ide DiskBytes FsBase Inode Path Dir File Fs FileSpec Format FsAlloc FileWrite DirSpec FormatSpec FsDemo Fork ForkSpec ForkDemo Exec ExecSpec.

(** Bitmap of 8 pages from 0x8048000 on; descriptor 3 is slot 3. *)
Definition exec_task (d : Z) : TaskStruct :=
  set_userprog_vaddr (mkVirtualAddr (mkBitMap 1 [0]) 0x8048000) (set_pgdir d demo_me).
Definition exec_state (s : kstate) (dc d : Z) : kstate := set_tasks {[cur s := exec_task d]} (sp dc s).

Lemma exec_env s dc d L : mem_ok (sp dc s) → cur s ≠ 0 → d ≠ NULL → 0xc0000000 ≤ d → maps (sp dc s) d dc → lock_free s L (lock (user_pool s)) →
  user_env (exec_state s dc d) L (exec_task d).
Proof.
  intros Hm Hc Hd0 Hd1 Hd [? ? ? ? ?]. split; try done.
  - by apply mem_ok_tasks.
  - by apply lookup_singleton_eq.
  - split; [repeat constructor; lia|done|done].
Qed.

(** Such a state, with a frame of each kind. *)
Lemma exec_demo : ∃ s L dc d, user_env (exec_state s dc d) L (exec_task d) ∧ (∀ va pa, user_va va → ¬ maps (exec_state s dc d) va pa)
  ∧ avail PF_USER 1 (exec_state s dc d) ∧ avail PF_KERNEL 1 (exec_state s dc d).
Proof.
  destruct demo_spaces_ok as (s & L & dp & dc & fb & fp & HE & Hfp & Hu & Hk & Hus & Ht).
  destruct HE as [HS H2 H3 H4 (tc & T1 & T2 & T3 & T4) H6 H7 H8]. exists s, L, dc, (pgdir tc). split_and!; [|exact Hu|exact Hus|exact Hk].
  apply exec_env; [apply HS|exact H8|exact T2|exact T3| |exact H7]. by apply (kernel_maps s dp dc HS).
Qed.
Definition exec_x (s : kstate) (dc d : Z) : xstate sim_sv := mkX (exec_state s dc d) demo_fs.

(** The program header, and a second one that is not for a segment. *)
Definition exec_header : list Z := le32 PT_LOAD ++ le32 500 ++ le32 0x8049020 ++ le32 0 ++ le32 100 ++ replicate 12 0.
Definition exec_disk : disks := write_secs demo_disk 1 2661 1 (exec_header ++ replicate 32 0 ++ replicate 448 65).
Definition exec_fs : fs sim_sv := set_sv (mkSimSv exec_disk demo_live 0xa000 10) demo_fs.
Lemma exec_fs_at : fs_at exec_disk demo_live 8 exec_fs.
Proof.
  destruct (demo_fs_at demo_inode 500 8 ltac:(lia)) as [(H1 & _ & H3 & H4 & H5 & H6) H7]. split; [|exact H7].
  split; [apply write_secs_wf; [exact demo_disk_wf|reflexivity]|]. split; [reflexivity|]. split; [reflexivity|]. split; [exact H4|]. split; [reflexivity|]. cbn. lia.
Qed.
Lemma exec_file_at : file_at exec_disk exec_fs 3 (mkFile 500 O_RDWR 0x9000) demo_inode.
Proof. destruct demo_file_at as [F1 F2 F3 F4 F5 F6 F7]. split; [exact F1|exact F2|exact F3|exact F4|exact F5| |exact F7]. intros i Hi Hs. cbn in Hs. assert (i = 0 ∨ i = 1) as [->| ->] by lia; vm_compute; split; discriminate. Qed.


Lemma segment_load_first_page_panics_witness : ∃ s dc d, segment_load 3 0 600 0x8048054 (exec_x s dc d) = Panic.
Proof.
  destruct exec_demo as (s & L & dc & d & HE & Hno & _). exists s, dc, d.
  apply (segment_load_first_page_panics (exec_x s dc d) L (exec_task d) 3 0 600 0x8048054 HE).
  - reflexivity.
  - intros pa. apply Hno. split; [discriminate|reflexivity].
  - discriminate.
  - discriminate.
  - discriminate.
  - reflexivity.
Defined.

Lemma segment_load_no_frame_keeps_lock_witness : ∃ s dc d x', segment_load 3 500 100 0x8049020 (exec_x s dc d) = Ok (false, x')
  ∧ locks (kern x') !! lock (user_pool s) = Some (mkLock (cur s) 1).
Proof.
  destruct exec_demo as (s & L & dc & d & HE & Hno & _). set (s0 := set_user_pool (empty_pool s) s). exists s0, dc, d.
  assert (user_env (exec_state s0 dc d) L (exec_task d)) as HE0.
  { destruct HE as [E1 E2 E3 E4 E5 E6 [L1 L2 L3 L4 L5]]. split; try assumption; [|by split]. exact (empty_pool_ok _ E1). }
  destruct (segment_load_no_frame_keeps_lock (exec_x s0 dc d) L (exec_task d) 3 500 100 0x8049020 HE0) as (x' & m & H1 & H2 & _).
  - split; reflexivity.
  - discriminate.
  - intros pa. apply Hno. split; [discriminate|reflexivity].
  - intros a. apply empty_pool_none.
  - discriminate.
  - discriminate.
  - discriminate.
  - exists x'. split; [exact H1|exact H2].
Defined.
